(* ===== verification/_CoqProject ===== *)
-Q . S2P
Prelude.v
JsString.v
Utf8.v
JsNumber.v
Rounding.v
JsValue.v
JsDate.v
JsonGraph.v
Protocol.v
Regex.v
CiImpact.v
Reconnect.v
ClientState.v
Client.v
ClientStep.v
ClientKeeps.v
ClientBounds.v
ClientCommands.v
ClientFindings.v
ContractPatterns.v
Contract.v
ContractExamples.v
ContractPlan.v
Canonical.v
ContractProps.v
Paths.v
Effects.v
FileSystem.v
Chart.v
LifecycleOptions.v
Layout.v
Lifecycle.v
LifecycleSample.v
LifecycleProps.v
Locks.v
NodeConfig.v
NodeApp.v
NodeSessions.v
NodeSockets.v
NodeShutdown.v
NodeServer.v
Transport.v
ClientSetup.v
ConnectionUrl.v
Diagnostics.v
DiagnosticsStream.v
Persistence.v
KubeTools.v
KubeProps.v
LayoutProps.v
BranchSync.v
CiMain.v
CiAutofix.v
CiAutofixProps.v
Conformance.v
FullCircle.v
RedisFixtures.v
SmallTools.v
Selectors.v
SelectorProps.v
SelectorHtml.v
PageMarkup.v
JsTree.v
JsRewrite.v
JsRewriteProps.v
Mangling.v
ManglingProps.v
ManglingTests.v
ReferenceAssets.v
PageReferences.v
ReferenceAssetsProps.v
BuildScripts.v
ChartTest.v
BrowserPage.v
OperatorPage.v
TestSuites.v
