(* ===== verification/Prelude.v ===== *)
(** * Realtime Gateway: verification of the JavaScript and TypeScript code

    The repository is a realtime gateway (an ASP.NET server with its Helm charts)
    and, in JavaScript and TypeScript, six groups of programs around it.  This
    library models them and proves what makes them correct.

    - The client SDK, sdk/typescript/src: the wire protocol, the connection and
      command state machine, the transports below it, the diagnostics and the
      persistence client.
    - The deployment tooling, scripts: the bootstrap contract (validation of a
      configuration and the plan rendered from it), the lifecycle script that
      applies plans to a cluster, the environment layout, the managed Redis
      chart, and the helpers for the Redis Secret and the certificate.
    - The continuous-integration tooling, scripts: the selection of jobs, the
      synchronization of pull request branches, the repair of failed runs, the
      end-to-end runner and small scripts.
    - The Node.js reference application, examples/node-express/src: configuration,
      session API, gateway proxy, WebSocket upgrades, startup and shutdown.
    - The reference assets, sdk/typescript/scripts: the pipeline that renames the
      identifiers and classes of a page, its style sheet and its script
      consistently, emits the readable and the mangled profile with a manifest,
      and the script that validates what was emitted; with the build of the SDK.
    - The browser examples: the page shared by the reference applications, the
      small example page, and the page of an operator.

    ** Files, in dependency order

    Foundations.  Prelude: results of fallible code, generic lemmas, tactics.
    JsString, JsNumber, JsValue, JsDate: the parts of the language and its
    library the sources use, executable (UTF-16 strings as lists of code units,
    binary64 numbers as rationals with rounding, JSON-like values, ISO dates).
    Utf8: UTF-8 and the encoding of query strings, with its round trip.
    Rounding: monotonicity and exactness of the rounding to binary64.
    Regex: extended regular expressions decided by derivatives, [test_spec]
    states that the decision is exact.  Paths: absolute paths, resolve, relative.
    Effects: scripts and handlers as trees of requests whose answers select the
    rest; [run] is a run against an arbitrary environment, [exec] against a
    handler with state, [ok] a logic of monitored programs with its adequacy
    theorem [ok_run], [adds] one of the requests and answers a program adds.
    FileSystem: node:fs on a volume of files and directories, as a handler.

    SDK.  JsonGraph: the JSON check on a heap with sharing and cycles.  Protocol
    (protocol.ts, errors.ts): envelopes and their validation.  Reconnect: backoff
    delays.  ClientState, Client, ClientStep (client.ts): the fields of
    RealtimeClient as a record, one definition per method and callback, the step
    relation of its runs; ClientKeeps, ClientBounds, ClientCommands: invariants of
    every run and the behaviour of commands; ClientFindings: runs that show defects.
    ClientSetup: the constructor with its checks, the listeners, and the bound of
    the delays the client arms.  ConnectionUrl: the address of a connection and the
    ticket request.  Transport (transport.ts): the fallback socket and the socket
    over HTTP as step machines.  Diagnostics (diagnostics.ts): requests and the
    parser of the event stream; DiagnosticsStream: the life of a stream as a step
    machine.  Persistence (persistence.ts): the durable reads.

    Tooling.  CiImpact (ci-impact.mjs), CiMain (its commands).  ContractPatterns,
    Contract, ContractExamples, ContractPlan (bootstrap-contract.mjs): every
    validation rule, naming, rendering and planning; Canonical: canonical JSON and
    redaction; ContractProps: what validation guarantees.  Chart
    (managed-redis-chart.mjs), Layout (bootstrap-environment.mjs), LifecycleOptions
    and Lifecycle (realtime-bootstrap.mjs) as programs over requests;
    LifecycleSample: a concrete environment; LifecycleProps, LayoutProps: what holds
    of every run; Locks: both locks, with their processes interleaved request by
    request on one volume.  ChartTest (test-persistence-chart.mjs).  KubeTools and
    KubeProps (realtime-redis-secret.mjs, realtime-certificate.mjs).  BranchSync
    (sync-open-pr-branches.cjs).  CiAutofix and CiAutofixProps
    (ci-failure-autofix.cjs).  FullCircle (full-circle.mjs and the scan of
    redis-fixtures.mjs), RedisFixtures (the rest of redis-fixtures.mjs).  SmallTools
    (setup-ci-npm.mjs, prepare-managed-redis-chart.mjs, run-with-example-env.mjs).

    Conformance: cases of the repository's own test suites, evaluated on the
    definitions.  TestSuites (the playwright configurations of sdk/typescript): the
    servers that each end-to-end suite starts, with their variables.

    Node.js application.  NodeConfig (config.mjs), NodeApp and NodeSessions
    (app.mjs), NodeSockets (upgrade.mjs and the draining of lifecycle.mjs),
    NodeShutdown (the rest of lifecycle.mjs and the ticket deadline of app.mjs),
    NodeServer (server.mjs, redis.mjs).

    Reference assets (reference-assets.mjs).  Selectors: CSS identifiers with their
    escapes, selectors, token lists, URL fragments, edits of a text. SelectorProps:
    identifiers as the grammar reads them, against the scanner. SelectorHtml: start
    tags.  PageMarkup: pages by their structure, their text and their renaming.
    JsTree: the syntax tree, bindings and scopes.  JsRewrite: the contexts of a
    string, the checks and the edits of a script.  JsRewriteProps: what edits can
    touch.  Mangling: the check of the mappings and their application to the three
    sources.  ManglingProps: the renaming as a function on identifiers.
    ManglingTests: every case of the repository's test of the renaming, on trees of
    its scripts.  ReferenceAssets, PageReferences (the integrity links of the page)
    and ReferenceAssetsProps: both profiles, the manifest, the size report and
    validate-reference-assets.mjs, as programs over requests.  BuildScripts:
    build.mjs, validate-artifacts.mjs and check-reproducible.mjs.

    Browser examples.  BrowserPage (shared-web/wwwroot/app.js and
    browser/realtime-example.js): the page as a step relation over clicks, answers
    and logins.  OperatorPage (full-circle/wwwroot/operator.js).

    ** How the code is modelled

    A [throw] is the [Throw] of [result], or [Raise] in a program over requests.
    Fields of a class are a record, and methods functions on it.  Callbacks, timers
    and promises become steps: every interleaving the event loop allows is a
    sequence of steps, and properties hold of all reachable states.  In the client
    and in the transports the callbacks of the consumer may call back; where a
    theorem needs them not to, it says so.  Numbers keep their binary64 behaviour
    where a check depends on it.

    Fuel occurs where recursion is not structural.  [replaceAll_fuel], [tokens] and
    [pump] go through a string and take its length, which every step shortens
    ([pump_fuel]); [show_pos_fuel] takes the binary logarithm of the number it
    prints; the search of a month takes 12.  The walk of the JSON check takes a
    measure of the heap, and [isJsonValue_decides] shows that it is enough.  The
    scanners of identifiers, attributes and pages take the length of the text:
    [identifierLength_fuels], [tokens_fuel_spec], [Attributes_read] and [loop_page]
    show that it is enough.  The flush loop of the client and a consumer that calls
    back take the number of deliveries as a parameter; [flush_can_hang] shows that
    no number is enough in one case, a defect of the code.  [scanClient] takes a
    number of batches, since a server decides when its scan ends, and
    [BuildScripts.walk] a depth of directories; what is proved of them holds for
    every number.

    ** What is proved

    Client: disconnect settles every promise when the listeners do not call back,
    the queue and the pending table stay bounded whatever the listeners do, flushing
    keeps the order, at most one reconnect timer is armed, within twice the maximum
    delay in binary64 arithmetic for random numbers from 0 to 1; the address opened
    is never downgraded and carries only a granted ticket.  Protocol: accepted
    envelopes have the members their message type uses at the declared types;
    created envelopes validate.  Transports: both sockets keep the WebSocket
    contract of callbacks ([wsRun]) in the runs without the late reports and
    repeated closes that break it, which are described; the fallback tries every
    transport at most once and never stalls, reports the transport it opened with
    and sends through it; HTTP posts keep the order of sends. Diagnostics: the
    stream is delivered exactly however it is cut into chunks; requests are spaced
    by retry delays, and a stopped stream returns. Persistence: requests are within
    range and are proxied by the application. Contract: a configuration without
    problems always has a plan, contains no inline secret outside arrays, has valid
    release names; canonical JSON identifies documents up to key order; redaction
    hides every credential.  Lifecycle: a change of the cluster happens only in a
    requested mutation, after the context was verified and the state captured; every
    cluster command names the context; archives are unpacked only with the pinned
    digest; a move of the layout is in the manifest on disk before it is made, so a
    restore after a crash finds it. Locks: on a volume without a lock left over,
    while the processes live, and for two hours, at most one holds a lock, for any
    number of processes and every interleaving; both implementations are instances
    of one interface, [LockProtocol].  CI selection: the check passes exactly when
    each job has the outcome the changed files call for.  Chart test: success means
    what its last line announces. Secret script: passwords reach nothing but the
    standard input of kubectl apply, as long as that command succeeds, and the
    Secret decodes to them.  Node.js application: the life of a session against any
    store with the laws of [SessionServer]; no authenticated answer without an
    unexpired record; protected session cookies; no effect of requests from another
    origin; the set of upgraded sockets is exact; draining ends; the shutdown
    sequence runs once and quits Redis only when the server closed and the sockets
    drained; a startup serves only after Redis is connected, and otherwise releases
    what it opened and exits with code 1.

    Branch synchronization: a push is made only to a branch just verified and
    merged, never forced, never to main, once per branch.  Repairs: a repair is
    requested only when every guard holds on what was read, quoted log lines are
    harmless, markers are read back, and a pull request gets a bounded number of
    requests, one per commit.  End-to-end runner: code 0 only when every command
    succeeded and the record was written; the cleanup deletes only keys below the
    prefix, scans every server to its end and closes every client.  Test setups: in
    every reference suite the tests, the application and the gateway agree on
    addresses, origins and Redis prefix, and the Node.js application accepts its
    variables; the full-circle suite starts every instance of the plan behind one
    entry.  Small scripts: the npm command lines are safe for a shell;
    environment files round trip.

    Reference assets: a style sheet is renamed at all its identifiers at once, and
    the inverse mappings undo the renaming; of a page given by its structure exactly
    the references to mapped names change; the edits of a script lie inside string
    literals and templates, and the argument of a DOM lookup is renamed like the
    page; the pipeline writes below its output directory only; the inventory of a
    profile describes the bytes it wrote and its pages link them by their integrity;
    and the validator accepts a profile only when every digest and size matches.
    The build of the SDK writes below its two output directories; its validation and
    the reproducibility check succeed only when what they promise holds of what they
    read.

    Browser examples: the acknowledge button follows the records the page remembers,
    and none of an earlier session are acknowledged after a click on login or
    logout; the reader of the operator page agrees with the diagnostics client on
    the documents and heartbeats of the gateway.

    Defects found are recorded with the theorem that exhibits them: lost queued
    subscriptions, a flush that never ends, a reconnect timer left armed, a socket
    reopened after close, a repeated close callback, a rollback that always fails
    with an external Redis, dry runs that reach the cluster, CIDR prefixes read as
    numbers, a marker forged by a log line that defeats the limit of repairs, an
    authentication failure that is not recognized, a failed cleanup that is not
    recorded, locks that two processes take over at once, delays beyond the range of
    a timer or from an unchecked random source, members of an envelope accepted
    untested, secrets accepted inside arrays, a limit of zero repairs that is not
    obeyed, a password quoted in an error, a page query taken for a reconnect,
    events delivered after a stop, items acknowledged that are not on display, an
    inbox of the wrong account, leaked clients, an override forgotten while another
    is reverted, and names that the renaming of selectors confuses, overlooks, or
    changes inside an escape or a colour.

    ** Parameters

    Code outside the repository is an argument of the definitions: node:net isIP,
    the URL parsers, the digests, gzip, UTF-8 decoding, the non-ISO dates of
    Date.parse, JSON.parse and JSON.stringify, random identifiers, the clock, Redis,
    the proxy, sockets, fetch, the GitHub API, child processes, the locale order,
    and of the asset pipeline the parser acorn, the bundler, the minifiers and the
    obfuscator.  Laws are assumed only where a theorem needs them, as named
    hypotheses or as the classes [SessionServer] and [Glob], and a concrete instance
    shows that they can hold.

    ** Not modelled

    The .NET gateway and its charts (another language); the bundles in dist
    (generated from modelled sources); index.ts and esm.js (re-exports and
    globals); Express'
    routing, body parser, rate limiter and session cookie (third party).  Of
    modelled files: log event fields beyond level, phase and message; forwarding of
    signals to a child; Windows paths; the layout of the example pages beyond the
    values their controls show. *)

From stdpp Require Import base tactics option list numbers strings gmap.
From Stdlib Require Import ZArith NArith QArith Lia.

#[global] Unset Program Cases.
#[global] Open Scope Z_scope.

(** ** Results of fallible code

    [throw] of JavaScript: a computation either returns a value or throws an
    error value of type [E]. *)

Inductive result (E A : Type) : Type :=
  | Ok (a : A)
  | Throw (e : E).
Arguments Ok {E A} a.
Arguments Throw {E A} e.

#[global] Instance result_ret E : MRet (result E) := fun A a => Ok a.
#[global] Instance result_bind E : MBind (result E) :=
  fun A B f r => match r with Ok a => f a | Throw e => Throw e end.

Definition is_ok {E A} (r : result E A) : bool :=
  match r with Ok _ => true | Throw _ => false end.

(** A guard: [if (!b) throw e]. *)
Definition ensure {E} (b : bool) (e : E) : result E unit :=
  if b then Ok tt else Throw e.

Lemma ensure_Ok {E} b (e : E) u : ensure b e = Ok u <-> b = true.
Proof. destruct b, u; simpl; split; congruence. Qed.

Lemma Ok_inj {E A} (a b : A) : @Ok E A a = Ok b -> a = b.
Proof. congruence. Qed.

Lemma bind_Ok {E A B} (r : result E A) (f : A -> result E B) b :
  r ≫= f = Ok b <-> exists a, r = Ok a /\ f a = Ok b.
Proof. destruct r; simpl; split; [eauto | intros (? & [= <-] & ?); done | done | intros (? & ? & ?); done]. Qed.

Lemma bind_Throw {E A B} (r : result E A) (f : A -> result E B) e :
  r ≫= f = Throw e <-> r = Throw e \/ exists a, r = Ok a /\ f a = Throw e.
Proof. destruct r; simpl; split; [eauto | intros [?|(? & [= <-] & ?)]; done | intros [= ->]; auto | intros [[= ->]|(? & ? & ?)]; done]. Qed.

Lemma ensure_Throw {E} b (e e' : E) : ensure b e = Throw e' -> e' = e.
Proof. destruct b; simpl; congruence. Qed.

(** ** Tactics *)

(** Break the first [match]/[if] found in a hypothesis or the goal. *)
Ltac break_match :=
  match goal with
  | H : context [ match ?x with _ => _ end ] |- _ => destruct x eqn:?
  | |- context [ match ?x with _ => _ end ] => destruct x eqn:?
  end.

(** Turn boolean connectives in the context into propositional ones. *)
Ltac bool_to_prop :=
  repeat match goal with
  | H : _ && _ = true |- _ => apply andb_true_iff in H as [? ?]
  | H : _ || _ = false |- _ => apply orb_false_iff in H as [? ?]
  | H : negb _ = true |- _ => apply negb_true_iff in H
  | H : negb _ = false |- _ => apply negb_false_iff in H
  | H : bool_decide _ = true |- _ => apply bool_decide_eq_true in H
  | H : bool_decide _ = false |- _ => apply bool_decide_eq_false in H
  end.

Create HintDb realtime.

(** ** Lists *)

Definition memb {A} `{EqDecision A} (x : A) (l : list A) : bool := bool_decide (x ∈ l).

Lemma memb_spec {A} `{EqDecision A} (x : A) l : memb x l = true <-> x ∈ l.
Proof. apply bool_decide_eq_true. Qed.

Lemma Forall_choice {A B} (P : A -> B -> Prop) l :
  Forall (fun x => exists y, P x y) l -> exists ys, Forall2 P l ys.
Proof.
  induction 1 as [|x l [y Hy] _ [ys IH]]; [exists []; constructor|].
  exists (y :: ys). by constructor.
Qed.

Lemma foldr_max_elem (n : nat) l : n ∈ l -> (n <= foldr Nat.max O l)%nat.
Proof.
  induction l as [|m l IH]; [intros []%not_elem_of_nil|].
  intros [->|H]%elem_of_cons; simpl; [lia|]. apply IH in H. lia.
Qed.
