(* ===== verification/JsString.v ===== *)
(** * JavaScript strings

    A JavaScript string is a finite sequence of UTF-16 code units; [length],
    [slice], [indexOf], [split] and the default [sort] order all work on code
    units.  The model is therefore [list N], each element a code unit.
    [js] embeds the ASCII literals of the sources.  The file holds the string
    methods the sources call, the UTF-8 length computed by [TextEncoder], and
    the code-unit order used by [Array.prototype.sort]. *)

From stdpp Require Import base tactics option list numbers strings gmap.
From Stdlib Require Import ZArith NArith Lia.
From Stdlib Require Ascii String.
From S2P Require Import Prelude.

#[global] Open Scope N_scope.

Abbreviation jstr := (list N).

(** The code units of an ASCII literal. *)
Definition js (s : string) : jstr := Ascii.N_of_ascii <$> String.list_ascii_of_string s.
Arguments js _%_string.
Arguments js : simpl never.

Lemma js_inj s t : js s = js t -> s = t.
Proof.
  unfold js. intros H.
  assert (Hl : String.list_ascii_of_string s = String.list_ascii_of_string t).
  { revert H. generalize (String.list_ascii_of_string s), (String.list_ascii_of_string t).
    intros l; induction l as [|a l IH]; intros [|b l']; simpl; intros; simplify_eq; [done|].
    f_equal; [|by apply IH].
    rewrite <- (Ascii.ascii_N_embedding a), <- (Ascii.ascii_N_embedding b). congruence. }
  rewrite <- (String.string_of_list_ascii_of_string s), <- (String.string_of_list_ascii_of_string t). congruence.
Qed.

Lemma js_eq s t : js s = js t <-> s = t.
Proof. split; [apply js_inj | congruence]. Qed.

Lemma js_append s t : js (String.append s t) = js s ++ js t.
Proof.
  unfold js. rewrite <- fmap_app. f_equal.
  induction s as [|a s IH]; simpl; [done|]. by rewrite IH.
Qed.

(** Literal equalities and disequalities. *)
Ltac js_lit :=
  repeat match goal with
  | H : js _ = js _ |- _ => apply js_inj in H
  | H : js _ <> js _ |- _ => rewrite js_eq in H
  end; simplify_eq.

(** ** Whitespace and trimming *)

(** WhiteSpace and LineTerminator code units of ECMAScript. *)
Definition is_space (c : N) : bool :=
  memb c [9; 10; 11; 12; 13; 32; 160; 5760; 8232; 8233; 8239; 8287; 12288; 65279]
  || ((8192 <=? c) && (c <=? 8202)).

Fixpoint trimStart (s : jstr) : jstr :=
  match s with
  | c :: s' => if is_space c then trimStart s' else s
  | [] => []
  end.

Definition trimEnd (s : jstr) : jstr := rev (trimStart (rev s)).
Definition trim (s : jstr) : jstr := trimEnd (trimStart s).

(** ** Searching *)

Fixpoint startsWith (p s : jstr) : bool :=
  match p, s with
  | [], _ => true
  | a :: p', b :: s' => (a =? b) && startsWith p' s'
  | _ :: _, [] => false
  end.

Definition endsWith (p s : jstr) : bool := startsWith (rev p) (rev s).

(** [s.indexOf(p)]: the first index where [p] occurs. *)
Fixpoint indexOf (p s : jstr) : option nat :=
  if startsWith p s then Some O
  else match s with
       | [] => None
       | _ :: s' => S <$> indexOf p s'
       end.

Definition includes (p s : jstr) : bool := bool_decide (is_Some (indexOf p s)).

(** [s.lastIndexOf(c)] for a one-unit pattern. *)
Definition lastIndexOf (c : N) (s : jstr) : option nat :=
  (fun i => (length s - 1 - i)%nat) <$> indexOf [c] (rev s).

(** ** Splitting, joining, replacing *)

(** [s.split(c)] for a one-unit separator. *)
Fixpoint split_on (c : N) (s : jstr) : list jstr :=
  match s with
  | [] => [[]]
  | d :: s' =>
      if d =? c then [] :: split_on c s'
      else match split_on c s' with
           | w :: ws => (d :: w) :: ws
           | [] => [[d]]
           end
  end.

Fixpoint join (sep : jstr) (l : list jstr) : jstr :=
  match l with
  | [] => []
  | [w] => w
  | w :: l' => w ++ sep ++ join sep l'
  end.

(** [s.replaceAll(p, r)] for a non-empty pattern: leftmost occurrences, not
    rescanned.  [fuel] bounds the number of steps; [length s] is enough. *)
Fixpoint replaceAll_fuel (fuel : nat) (p r s : jstr) : jstr :=
  match fuel with
  | O => s
  | S n =>
      match s with
      | [] => []
      | c :: s' =>
          if startsWith p s then r ++ replaceAll_fuel n p r (drop (length p) s)
          else c :: replaceAll_fuel n p r s'
      end
  end.
Definition replaceAll (p r s : jstr) : jstr := replaceAll_fuel (length s) p r s.

(** [s.replace(p, r)] with a string pattern: the first occurrence only. *)
Definition replaceFirst (p r s : jstr) : jstr :=
  match indexOf p s with
  | Some i => take i s ++ r ++ drop (i + length p) s
  | None => s
  end.

(** ** Case *)

(** [toLowerCase] on ASCII letters; the two code units outside ASCII whose
    lower case contains an ASCII letter (KELVIN SIGN and capital I with dot) are
    included, every other code unit is left as it is.  Comparisons of the
    result with ASCII literals are exact. *)
Definition lower_unit (c : N) : jstr :=
  if (65 <=? c) && (c <=? 90) then [c + 32]
  else if c =? 8490 then [107]
  else if c =? 304 then [105; 775]
  else [c].
Definition toLowerCase (s : jstr) : jstr := s ≫= lower_unit.

(** ** UTF-8 length: [new TextEncoder().encode(s).byteLength]

    A surrogate pair takes four bytes; a lone surrogate is encoded as U+FFFD,
    three bytes. *)
Definition is_high (c : N) : bool := (55296 <=? c) && (c <=? 56319).
Definition is_low (c : N) : bool := (56320 <=? c) && (c <=? 57343).

Definition unit_bytes (c : N) : nat :=
  if c <? 128 then 1%nat else if c <? 2048 then 2%nat else 3%nat.

Fixpoint byteLength (s : jstr) : nat :=
  match s with
  | [] => O
  | c :: s' =>
      if is_high c then
        match s' with
        | d :: s'' => if is_low d then (4 + byteLength s'')%nat else (3 + byteLength s')%nat
        | [] => 3%nat
        end
      else (unit_bytes c + byteLength s')%nat
  end.

(** ** Order: code-unit lexicographic, as [Array.prototype.sort] without a comparator *)

Fixpoint js_le (s t : jstr) : bool :=
  match s, t with
  | [], _ => true
  | _ :: _, [] => false
  | a :: s', b :: t' => (a <? b) || ((a =? b) && js_le s' t')
  end.

(** ** Lemmas *)

Lemma startsWith_spec p s : startsWith p s = true <-> exists t, s = p ++ t.
Proof.
  revert s; induction p as [|a p IH]; intros s; simpl.
  - split; [eauto|done].
  - destruct s as [|b s].
    + split; [done|]. intros (t & [=]).
    + rewrite andb_true_iff, N.eqb_eq, IH. split.
      * intros (-> & t & ->). by exists t.
      * intros (t & [= -> ->]). eauto.
Qed.

Lemma startsWith_app p s : startsWith p (p ++ s) = true.
Proof. apply startsWith_spec. eauto. Qed.

Lemma indexOf_Some p s i :
  indexOf p s = Some i -> exists u v, s = u ++ p ++ v /\ length u = i.
Proof.
  revert i; induction s as [|c s IH]; intros i; simpl.
  - destruct (startsWith p []) eqn:E; intros; simplify_eq.
    apply startsWith_spec in E as (t & E). exists [], t. done.
  - destruct (startsWith p (c :: s)) eqn:E; intros H; simplify_eq.
    + apply startsWith_spec in E as (t & E). exists [], t. done.
    + destruct (indexOf p s) as [j|] eqn:Ej; simplify_eq/=.
      destruct (IH j eq_refl) as (u & v & -> & <-). exists (c :: u), v. done.
Qed.

Lemma indexOf_None p s : indexOf p s = None -> forall u v, s <> u ++ p ++ v.
Proof.
  induction s as [|c s IH]; simpl.
  - destruct (startsWith p []) eqn:E; [done|]. intros _ [|] v H; simpl in H; [|done].
    rewrite H, startsWith_app in E. done.
  - destruct (startsWith p (c :: s)) eqn:E; [done|].
    destruct (indexOf p s) eqn:Ei; [done|]. intros _ [|b u] v H; simpl in H.
    + rewrite H, startsWith_app in E. done.
    + simplify_eq. by eapply (IH eq_refl).
Qed.

Lemma includes_spec p s : includes p s = true <-> exists u v, s = u ++ p ++ v.
Proof.
  unfold includes. rewrite bool_decide_eq_true. split.
  - intros [i Hi]. apply indexOf_Some in Hi as (u & v & -> & _). eauto.
  - intros (u & v & ->). destruct (indexOf p _) eqn:E; [eauto|].
    exfalso. by eapply indexOf_None.
Qed.

Lemma trimStart_space_free s : trimStart s = [] <-> Forall (fun c => is_space c = true) s.
Proof.
  induction s as [|c s IH]; simpl; [split; done|].
  destruct (is_space c) eqn:E.
  - rewrite IH, Forall_cons. tauto.
  - rewrite Forall_cons. split; [done|]. intros [? _]. congruence.
Qed.

Lemma trim_nil s : trim s = [] <-> Forall (fun c => is_space c = true) s.
Proof.
  unfold trim, trimEnd. split.
  - intros H. destruct (trimStart s) as [|c t] eqn:E; [by apply trimStart_space_free|].
    assert (Hc : is_space c = false).
    { clear -E. induction s as [|d s IH]; simpl in *; [done|].
      destruct (is_space d) eqn:Ed; simplify_eq; auto. }
    assert (Hnil : trimStart (rev (c :: t)) = []).
    { apply (f_equal (@rev N)) in H. by rewrite rev_involutive in H. }
    apply trimStart_space_free in Hnil. apply Forall_rev in Hnil. rewrite rev_involutive in Hnil.
    apply Forall_cons in Hnil as [? _]. congruence.
  - intros H. apply trimStart_space_free in H. by rewrite H.
Qed.

Lemma trim_length s : (length (trim s) <= length s)%nat.
Proof.
  assert (Hs : forall u, (length (trimStart u) <= length u)%nat).
  { induction u as [|c u IH]; simpl; [done|]. destruct (is_space c); simpl; lia. }
  unfold trim, trimEnd. rewrite length_rev. etrans; [apply Hs|].
  rewrite length_rev. apply Hs.
Qed.

Lemma byteLength_bounds s :
  (length s <= byteLength s /\ byteLength s <= 3 * length s)%nat.
Proof.
  assert (Hle : (length s <= length s)%nat) by lia. revert Hle.
  generalize (length s) at 2 as k. intros k. revert s.
  induction k as [|k IH]; intros [|c s] Hle; simpl in *; try lia.
  destruct (is_high c).
  - destruct s as [|d s]; simpl; [lia|]. destruct (is_low d).
    + specialize (IH s). simpl in Hle. lia.
    + specialize (IH (d :: s)). simpl in *. lia.
  - specialize (IH s). unfold unit_bytes. destruct (c <? 128), (c <? 2048); lia.
Qed.

Lemma split_on_nonempty c s : split_on c s <> [].
Proof. induction s as [|d s IH]; simpl; [done|]. destruct (d =? c); [done|]. by destruct (split_on c s). Qed.

Lemma join_cons2 sep w w' l : join sep (w :: w' :: l) = w ++ sep ++ join sep (w' :: l).
Proof. done. Qed.

Lemma join_split_on c s : join [c] (split_on c s) = s.
Proof.
  induction s as [|d s IH]; simpl; [done|].
  destruct (d =? c) eqn:E.
  - apply N.eqb_eq in E as ->. destruct (split_on c s) eqn:Es; [by destruct (split_on_nonempty c s)|].
    rewrite join_cons2, IH. done.
  - destruct (split_on c s) as [|w [|w' ws]] eqn:Es; [by destruct (split_on_nonempty c s)|simpl in *; congruence|].
    change (d :: join [c] (w :: w' :: ws) = d :: s). by rewrite IH.
Qed.

(** The order is total, transitive and antisymmetric. *)
Lemma js_le_refl s : js_le s s = true.
Proof. induction s; simpl; [done|]. rewrite N.eqb_refl. by rewrite IHs, orb_true_r. Qed.

Lemma js_le_total s t : js_le s t = true \/ js_le t s = true.
Proof.
  revert t; induction s as [|a s IH]; intros [|b t]; simpl; auto.
  destruct (N.ltb_spec a b); [by left|]. destruct (N.ltb_spec b a); [by right|].
  assert (a = b) as -> by lia. rewrite N.eqb_refl. simpl. apply IH.
Qed.

Lemma js_le_antisym s t : js_le s t = true -> js_le t s = true -> s = t.
Proof.
  revert t; induction s as [|a s IH]; intros [|b t]; simpl; try done.
  destruct (N.ltb_spec a b), (N.ltb_spec b a), (N.eqb_spec a b), (N.eqb_spec b a); simpl; try lia; try done.
  intros. f_equal; [done|]. by apply IH.
Qed.

Lemma js_le_trans s t u : js_le s t = true -> js_le t u = true -> js_le s u = true.
Proof.
  revert t u; induction s as [|a s IH]; intros [|b t] [|c u]; simpl; try done.
  destruct (N.ltb_spec a b), (N.ltb_spec b c), (N.ltb_spec a c), (N.eqb_spec a b), (N.eqb_spec b c), (N.eqb_spec a c);
    simpl; try lia; try done.
  apply IH.
Qed.

#[global] Hint Resolve js_le_refl : realtime.
