(* ===== verification/Utf8.v ===== *)
(** * UTF-8 and form encoding

    The bytes of a string, and the application/x-www-form-urlencoded text that
    URLSearchParams makes of a list of parameters. *)

From stdpp Require Import base tactics option list numbers strings.
From Stdlib Require Import ZArith Lia.
From S2P Require Import Prelude JsString.

(** The bytes of a code point below U+10000; a lone surrogate becomes U+FFFD. *)
Definition unit_utf8 (c : Z) : list Z :=
  (if c <? 128 then [c]
   else if c <? 2048 then [192 + c / 64; 128 + c mod 64]
   else [224 + c / 4096; 128 + c / 64 mod 64; 128 + c mod 64])%Z.

Definition pair_utf8 (c : Z) : list Z :=
  [240 + c / 262144; 128 + c / 4096 mod 64; 128 + c / 64 mod 64; 128 + c mod 64]%Z.

(** [Buffer.from(s)], [new TextEncoder().encode(s)] *)
Fixpoint utf8Bytes (s : jstr) : list Z :=
  match s with
  | [] => []
  | c :: t =>
      if is_high c then
        match t with
        | d :: u => if is_low d then pair_utf8 (65536 + (Z.of_N c - 55296) * 1024 + (Z.of_N d - 56320)) ++ utf8Bytes u
                    else unit_utf8 65533 ++ utf8Bytes t
        | [] => unit_utf8 65533
        end
      else (if is_low c then unit_utf8 65533 else unit_utf8 (Z.of_N c)) ++ utf8Bytes t
  end.

Lemma unit_utf8_bytes c : (0 <= c < 65536)%Z -> Forall (fun b => (0 <= b < 256)%Z) (unit_utf8 c).
Proof.
  intros H. unfold unit_utf8. destruct (Z.ltb_spec c 128); [repeat constructor; lia|].
  destruct (Z.ltb_spec c 2048); repeat constructor; try lia;
    repeat match goal with |- context [(?a mod 64)%Z] => pose proof (Z.mod_pos_bound a 64 ltac:(lia)); generalize dependent (a mod 64)%Z; intros end;
    pose proof (Z.div_mod c 64 ltac:(lia)); pose proof (Z.mod_pos_bound c 64 ltac:(lia)); try lia;
    pose proof (Z.div_mod c 4096 ltac:(lia)); pose proof (Z.mod_pos_bound c 4096 ltac:(lia)); lia.
Qed.

Definition isByte (b : Z) : Prop := (0 <= b < 256)%Z.
Definition codeUnits (s : jstr) : Prop := Forall (fun c => (c < 65536)%N) s.

Lemma pair_utf8_bytes c : (65536 <= c < 1114112)%Z -> Forall isByte (pair_utf8 c).
Proof.
  intros H. unfold pair_utf8, isByte. repeat constructor;
    repeat match goal with |- context [(?a mod 64)%Z] => pose proof (Z.mod_pos_bound a 64 ltac:(lia)); generalize dependent (a mod 64)%Z; intros end; try lia;
    pose proof (Z.div_mod c 262144 ltac:(lia)); pose proof (Z.mod_pos_bound c 262144 ltac:(lia)); lia.
Qed.

Lemma utf8Bytes_bytes s : codeUnits s -> Forall isByte (utf8Bytes s).
Proof.
  assert (Forall isByte (unit_utf8 65533)) as Hr by (apply unit_utf8_bytes; lia).
  remember (length s) as n eqn:Hn. revert s Hn. induction (lt_wf n) as [n _ IH]. intros s -> Hs.
  destruct s as [|c t]; [constructor|]. inversion Hs as [|? ? Hc Ht]; subst. cbn [utf8Bytes].
  assert (Forall isByte (utf8Bytes t)) as Hrest by (apply (IH (length t)); [cbn; lia|done|done]).
  destruct (is_high c) eqn:Hh.
  - destruct t as [|d u]; [done|]. destruct (is_low d) eqn:Hl; [|by apply Forall_app].
    inversion Ht; subst. apply Forall_app. split; [|apply (IH (length u)); [cbn; lia|done|done]].
    unfold is_high, is_low in Hh, Hl. apply andb_true_iff in Hh as [Hh1%N.leb_le Hh2%N.leb_le], Hl as [Hl1%N.leb_le Hl2%N.leb_le]. apply pair_utf8_bytes. lia.
  - apply Forall_app. split; [|done]. destruct (is_low c); [done|]. apply unit_utf8_bytes. lia.
Qed.

(** ** Forms *)

Definition hexUpper (n : Z) : N := Z.to_N (if n <? 10 then 48 + n else 55 + n)%Z.

(** The bytes that stand for themselves: letters, digits and [*-._]. *)
Definition plainByte (b : Z) : bool :=
  ((48 <=? b) && (b <=? 57) || (65 <=? b) && (b <=? 90) || (97 <=? b) && (b <=? 122) || (b =? 42) || (b =? 45) || (b =? 46) || (b =? 95))%Z.

Definition formByte (b : Z) : jstr :=
  if (b =? 32)%Z then [43%N] else if plainByte b then [Z.to_N b] else [37%N; hexUpper (b / 16)%Z; hexUpper (b mod 16)%Z].

Definition formEncode (s : jstr) : jstr := utf8Bytes s ≫= formByte.

(** [new URLSearchParams(ps).toString()] *)
Definition searchText (ps : list (jstr * jstr)) : jstr :=
  join [38%N] ((fun p => formEncode p.1 ++ [61%N] ++ formEncode p.2) <$> ps).

(** What a server reads: the parts between ampersands, cut at their first equals
    sign, with plus signs and percent-encoded bytes decoded. *)
Definition hexDigitValue (c : N) : option Z :=
  if ((48 <=? c) && (c <=? 57))%N then Some (Z.of_N c - 48)%Z
  else if ((65 <=? c) && (c <=? 70))%N then Some (Z.of_N c - 55)%Z
  else if ((97 <=? c) && (c <=? 102))%N then Some (Z.of_N c - 87)%Z
  else None.

Fixpoint formDecode (s : jstr) : list Z :=
  match s with
  | [] => []
  | c :: t =>
      if (c =? 43)%N then 32%Z :: formDecode t
      else if (c =? 37)%N then
        match t with
        | a :: b :: u =>
            match hexDigitValue a, hexDigitValue b with
            | Some x, Some y => (16 * x + y)%Z :: formDecode u
            | _, _ => 37%Z :: formDecode t
            end
        | _ => 37%Z :: formDecode t
        end
      else Z.of_N c :: formDecode t
  end.

Fixpoint cutAt (c : N) (s : jstr) : jstr * jstr :=
  match s with
  | [] => ([], [])
  | d :: t => if (d =? c)%N then ([], t) else let '(a, b) := cutAt c t in (d :: a, b)
  end.

Definition searchParse (s : jstr) : list (list Z * list Z) :=
  (fun part => let '(n, v) := cutAt 61 part in (formDecode n, formDecode v)) <$> split_on 38 s.

Lemma hexUpper_value n : (0 <= n < 16)%Z -> hexDigitValue (hexUpper n) = Some n.
Proof.
  intros H. assert (n ∈ seqZ 0 16) as Hn by (apply elem_of_seqZ; lia). revert n Hn H.
  apply (Forall_forall (fun n => (0 <= n < 16)%Z -> hexDigitValue (hexUpper n) = Some n)). repeat constructor.
Qed.

Lemma hexUpper_unit n : (0 <= n < 16)%Z -> (48 <= hexUpper n <= 57)%N \/ (65 <= hexUpper n <= 70)%N.
Proof. intros H. unfold hexUpper. destruct (Z.ltb_spec n 10); [left|right]; lia. Qed.

Lemma plainByte_cases b : plainByte b = true -> (48 <= b <= 57 \/ 65 <= b <= 90 \/ 97 <= b <= 122 \/ b = 42 \/ b = 45 \/ b = 46 \/ b = 95)%Z.
Proof. unfold plainByte. lia. Qed.

Lemma formDecode_byte b s : isByte b -> formDecode (formByte b ++ s) = b :: formDecode s.
Proof.
  intros Hb. unfold isByte in Hb. unfold formByte. destruct (Z.eqb_spec b 32) as [->|H32]; [done|]. destruct (plainByte b) eqn:Hp.
  - apply plainByte_cases in Hp. cbn [app formDecode]. destruct (N.eqb_spec (Z.to_N b) 43); [lia|]. destruct (N.eqb_spec (Z.to_N b) 37); [lia|].
    by rewrite Z2N.id by lia.
  - cbn [app formDecode]. change ((37 =? 43)%N) with false. change ((37 =? 37)%N) with true. cbv iota.
    pose proof (Z.mod_pos_bound b 16 ltac:(lia)). pose proof (Z.div_mod b 16 ltac:(lia)).
    rewrite !hexUpper_value by lia. f_equal. lia.
Qed.

(** No encoded text contains a separator. *)
Lemma formByte_units b : isByte b -> Forall (fun c => c <> 38%N /\ c <> 61%N) (formByte b).
Proof.
  intros Hb. unfold isByte in Hb. unfold formByte. destruct (b =? 32)%Z; [by repeat constructor|]. destruct (plainByte b) eqn:Hp.
  - apply plainByte_cases in Hp. repeat constructor; lia.
  - pose proof (Z.mod_pos_bound b 16 ltac:(lia)). pose proof (Z.div_mod b 16 ltac:(lia)).
    pose proof (hexUpper_unit (b / 16) ltac:(lia)). pose proof (hexUpper_unit (b mod 16) ltac:(lia)). repeat constructor; lia.
Qed.

Lemma formEncode_spec s : codeUnits s -> formDecode (formEncode s) = utf8Bytes s /\ Forall (fun c => c <> 38%N /\ c <> 61%N) (formEncode s).
Proof.
  intros H%utf8Bytes_bytes. unfold formEncode. induction H as [|b l Hb _ [IH1 IH2]]; [done|]. cbn [mbind list_bind].
  split; [by rewrite formDecode_byte, IH1|]. apply Forall_app. split; [by apply formByte_units|done].
Qed.

Lemma split_on_plain c s : Forall (fun d => d <> c) s -> split_on c s = [s].
Proof. induction 1 as [|d s Hd _ IH]; [done|]. cbn [split_on]. rewrite (proj2 (N.eqb_neq d c)) by done. by rewrite IH. Qed.

Lemma split_on_separated c s t : Forall (fun d => d <> c) s -> split_on c (s ++ c :: t) = s :: split_on c t.
Proof. induction 1 as [|d s Hd _ IH]; cbn [app split_on]; [by rewrite N.eqb_refl|]. rewrite (proj2 (N.eqb_neq d c)) by done. by rewrite IH. Qed.

Lemma cutAt_plain c s t : Forall (fun d => d <> c) s -> cutAt c (s ++ c :: t) = (s, t).
Proof. induction 1 as [|d s Hd _ IH]; cbn [app cutAt]; [by rewrite N.eqb_refl|]. rewrite (proj2 (N.eqb_neq d c)) by done. by rewrite IH. Qed.

(** The parameters a server reads are the ones that were set, whatever characters
    they contain. *)
Lemma searchText_roundtrip ps : ps <> [] -> Forall (fun p => codeUnits p.1 /\ codeUnits p.2) ps ->
  searchParse (searchText ps) = (fun p => (utf8Bytes p.1, utf8Bytes p.2)) <$> ps.
Proof.
  intros Hne H. unfold searchParse, searchText. induction H as [|[n v] ps [Hn Hv] Hps IH]; [done|].
  destruct (formEncode_spec n Hn) as [D1 U1]. destruct (formEncode_spec v Hv) as [D2 U2].
  assert (Forall (fun d => d <> 38%N) (formEncode n ++ [61%N] ++ formEncode v)) as U.
  { rewrite !Forall_app. split_and!; [|by repeat constructor|]; (eapply Forall_impl; [eassumption|]; by intros ? [? ?]). }
  assert ((let '(a, b) := cutAt 61 (formEncode n ++ [61%N] ++ formEncode v) in (formDecode a, formDecode b)) = (utf8Bytes n, utf8Bytes v)) as C.
  { cbn [app]. rewrite cutAt_plain; [by rewrite D1, D2|]. eapply Forall_impl; [exact U1|]. by intros ? [? ?]. }
  destruct ps as [|p ps]; cbn [fmap list_fmap join fst snd] in *.
  - rewrite split_on_plain by done. cbn [fmap list_fmap]. by rewrite C.
  - change ([38%N] ++ ?x) with (38%N :: x). rewrite split_on_separated by done. cbn [fmap list_fmap]. rewrite C. f_equal. by apply IH.
Qed.
