(* ===== verification/JsNumber.v ===== *)
(** * JavaScript numbers

    A Number value is an IEEE 754 binary64: [NaN], an infinity, or a rational
    with a 53-bit significand.  [round64] is round-to-nearest-even into that
    format, arithmetic is exact rational arithmetic followed by [round64], and
    [to_number] is the [Number(string)] conversion.  Minus zero is not told
    apart from zero: no operation the sources use can observe the
    difference. *)

From stdpp Require Import base tactics option list numbers strings.
From Stdlib Require Import ZArith QArith Qabs Qround Qpower Lia Lqa.
From S2P Require Import Prelude JsString.

Open Scope Z_scope.

Inductive num : Type :=
  | NaN
  | Inf (negative : bool)
  | Fin (q : Q).

Definition int (z : Z) : num := Fin (inject_Z z).

(** ** Rounding to binary64 *)

(** Floor of the binary logarithm of a positive rational. *)
Definition ilog2 (q : Q) : Z :=
  let e := Z.log2 (Qnum q) - Z.log2 (Zpos (Qden q)) in
  if Qle_bool (Qpower 2 e) q then e else e - 1.

(** Nearest integer, ties to even. *)
Definition round_even (q : Q) : Z :=
  let f := Qfloor q in
  match Qcompare (q - inject_Z f) (1 # 2) with
  | Lt => f
  | Gt => f + 1
  | Eq => if Z.even f then f else f + 1
  end.

Definition round64 (q : Q) : num :=
  if Qeq_bool q 0 then Fin 0
  else
    let a := Qabs q in
    let e := Z.max (ilog2 a - 52) (-1074) in
    let r := (inject_Z (round_even (a * Qpower 2 (- e))) * Qpower 2 e)%Q in
    if Qle_bool (Qpower 2 1024) r then Inf (negb (Qle_bool 0 q))
    else Fin (Qred (if Qle_bool 0 q then r else - r)).

(** ** Predicates and comparisons *)

Definition isFinite (n : num) : bool := match n with Fin _ => true | _ => false end.

Definition isIntegerQ (q : Q) : bool := Qeq_bool (inject_Z (Qfloor q)) q.

Definition isInteger (n : num) : bool :=
  match n with Fin q => isIntegerQ q | _ => false end.

Definition isSafeInteger (n : num) : bool :=
  match n with
  | Fin q => isIntegerQ q && Qle_bool (Qabs q) (inject_Z (2 ^ 53 - 1))
  | _ => false
  end.

(** [a < b]; every comparison with [NaN] is false. *)
Definition nlt (a b : num) : bool :=
  match a, b with
  | NaN, _ | _, NaN => false
  | Inf true, Inf true => false
  | Inf true, _ => true
  | _, Inf true => false
  | Inf false, _ => false
  | _, Inf false => true
  | Fin p, Fin q => negb (Qle_bool q p)
  end.
Definition ngt (a b : num) : bool := nlt b a.
Definition neq_num (a b : num) : bool :=
  match a, b with
  | Inf s, Inf t => Bool.eqb s t
  | Fin p, Fin q => Qeq_bool p q
  | _, _ => false
  end.
Definition nle (a b : num) : bool := nlt a b || neq_num a b.
Definition nge (a b : num) : bool := nle b a.

(** The integer a number denotes, when it is one. *)
Definition to_Z (n : num) : option Z :=
  match n with Fin q => if isIntegerQ q then Some (Qfloor q) else None | _ => None end.

(** ** [Number(s)] on strings *)

Definition is_digit (c : N) : bool := (48 <=? c)%N && (c <=? 57)%N.

Fixpoint span (p : N -> bool) (s : jstr) : jstr * jstr :=
  match s with
  | c :: s' => if p c then let '(a, b) := span p s' in (c :: a, b) else ([], s)
  | [] => ([], [])
  end.

Definition digit_value (c : N) : option Z :=
  if is_digit c then Some (Z.of_N c - 48)
  else if ((97 <=? c) && (c <=? 102))%N then Some (Z.of_N c - 87)
  else if ((65 <=? c) && (c <=? 70))%N then Some (Z.of_N c - 55)
  else None.

(** The digits of [s] in [base]; [None] if one is not a digit of that base. *)
Definition digits_value (base : Z) (s : jstr) : option Z :=
  foldl (fun acc c =>
    v ← acc; d ← digit_value c; if d <? base then Some (v * base + d) else None) (Some 0) s.

Definition nonempty_digits (base : Z) (s : jstr) : option Z :=
  match s with [] => None | _ => digits_value base s end.

(** The exponent part of a decimal literal: absent, or [e] and a signed integer. *)
Definition parse_exponent (s : jstr) : option Z :=
  match s with
  | [] => Some 0
  | c :: s' =>
      if (c =? 101)%N || (c =? 69)%N then
        match s' with
        | 43%N :: t => nonempty_digits 10 t
        | 45%N :: t => Z.opp <$> nonempty_digits 10 t
        | t => nonempty_digits 10 t
        end
      else None
  end.

(** A decimal literal without sign, as an exact rational. *)
Definition parse_decimal (s : jstr) : option Q :=
  let '(ip, r) := span is_digit s in
  let '(fp, r') := match r with 46%N :: t => span is_digit t | _ => ([], r) end in
  if bool_decide (ip ++ fp = []) then None
  else m ← digits_value 10 (ip ++ fp);
       e ← parse_exponent r';
       Some (inject_Z m * Qpower 10 (e - Z.of_nat (length fp)))%Q.

Definition parse_unsigned (s : jstr) : option num :=
  if bool_decide (s = js "Infinity") then Some (Inf false)
  else round64 <$> parse_decimal s.

Definition nopp (n : num) : num :=
  match n with NaN => NaN | Inf b => Inf (negb b) | Fin q => Fin (- q) end.

Definition to_number (s : jstr) : num :=
  let t := trim s in
  match t with
  | [] => Fin 0
  | 48%N :: c :: d =>
      let radix := if memb c [120; 88]%N then Some 16
                   else if memb c [111; 79]%N then Some 8
                   else if memb c [98; 66]%N then Some 2 else None in
      match radix with
      | Some b => default NaN ((fun z => round64 (inject_Z z)) <$> nonempty_digits b d)
      | None => default NaN (parse_unsigned t)
      end
  | 43%N :: u => default NaN (parse_unsigned u)
  | 45%N :: u => default NaN (nopp <$> parse_unsigned u)
  | _ => default NaN (parse_unsigned t)
  end.

(** ** Printing an integer: [String(n)] for an integer of less than 22 digits *)

Fixpoint show_pos_fuel (fuel : nat) (n : N) (acc : jstr) : jstr :=
  match fuel with
  | O => acc
  | S k =>
      let acc' := (48 + n mod 10)%N :: acc in
      if (n <? 10)%N then acc' else show_pos_fuel k (n / 10)%N acc'
  end.
Definition show_N (n : N) : jstr := show_pos_fuel (S (N.to_nat (N.log2 n))) n [].
Definition show_Z (z : Z) : jstr :=
  if z <? 0 then 45%N :: show_N (Z.to_N (- z)) else show_N (Z.to_N z).

Example to_number_plain : to_number (js "120") = Fin (120 # 1).
Proof. vm_compute. reflexivity. Qed.
Example to_number_empty : to_number (js " ") = Fin 0.
Proof. vm_compute. reflexivity. Qed.
Example to_number_forms :
  to_number (js "0x3c") = to_number (js "6e1") /\ to_number (js "6e1") = to_number (js " 60.0 ").
Proof. vm_compute. done. Qed.
Example to_number_bad : to_number (js "12px") = NaN /\ to_number (js "1_0") = NaN /\ to_number (js "-") = NaN.
Proof. vm_compute. done. Qed.
Example to_number_rounds : to_number (js "1.00000000000000000001") = Fin 1.
Proof. vm_compute. reflexivity. Qed.
Example to_number_tenth : to_number (js "0.1") = Fin (3602879701896397 # 36028797018963968).
Proof. vm_compute. reflexivity. Qed.
Example show_example : show_Z 65535 = js "65535" /\ show_Z (-7) = js "-7" /\ show_Z 0 = js "0".
Proof. vm_compute. done. Qed.
