(* ===== verification/Rounding.v ===== *)
(** * Bounds of binary64 rounding

    [round64] on positive numbers: the exponent it rounds at, its error, and
    integers that it cannot cross.  The bounds on delays rest on these lemmas. *)

From stdpp Require Import base tactics option list numbers.
From Stdlib Require Import ZArith QArith Qabs Qround Qpower Lia Lqa.
From S2P Require Import Prelude JsString JsNumber.
#[local] Open Scope Z_scope.

(** ** The binary logarithm *)

Lemma ilog2_le q : (0 < q)%Q -> (Qpower 2 (ilog2 q) <= q)%Q.
Proof.
  intros Hq. unfold ilog2. set (e := Z.log2 (Qnum q) - Z.log2 (Zpos (Qden q))).
  destruct (Qle_bool (Qpower 2 e) q) eqn:E; [by apply Qle_bool_iff|]. clear E.
  destruct q as [n d]. cbn [Qnum Qden] in *.
  assert (0 < n) as Hn by (unfold Qlt in Hq; cbn [Qnum Qden] in Hq; lia).
  destruct (Z.log2_spec n Hn) as [H1 _]. destruct (Z.log2_spec (Zpos d) ltac:(lia)) as [_ H2].
  pose proof (Z.log2_nonneg n). pose proof (Z.log2_nonneg (Zpos d)).
  generalize dependent (Z.log2 n). generalize dependent (Z.log2 (Zpos d)). intros b H2 Hb a e H1 Ha.
  assert (Qpower 2 (e - 1) == inject_Z (2 ^ a) / inject_Z (2 ^ (b + 1)))%Q as ->.
  { unfold e. rewrite !Zpower_Qpower by lia. replace (a - b - 1) with (a - (b + 1)) by lia. rewrite Qpower_minus by done. reflexivity. }
  apply Qle_shift_div_r.
  - change 0%Q with (inject_Z 0). rewrite <- Zlt_Qlt. lia.
  - unfold Qle, Qmult, inject_Z. cbn [Qnum Qden]. rewrite Z.add_1_r. nia.
Qed.

Lemma ilog2_lt q : (0 < q)%Q -> (q < Qpower 2 (ilog2 q + 1))%Q.
Proof.
  intros Hq. unfold ilog2. set (e := Z.log2 (Qnum q) - Z.log2 (Zpos (Qden q))).
  destruct (Qle_bool (Qpower 2 e) q) eqn:E.
  2:{ replace (e - 1 + 1) with e by lia. apply Qnot_le_lt. rewrite <- Qle_bool_iff, E. done. }
  clear E. destruct q as [n d]. cbn [Qnum Qden] in *.
  assert (0 < n) as Hn by (unfold Qlt in Hq; cbn [Qnum Qden] in Hq; lia).
  destruct (Z.log2_spec n Hn) as [_ H1]. destruct (Z.log2_spec (Zpos d) ltac:(lia)) as [H2 _].
  pose proof (Z.log2_nonneg n). pose proof (Z.log2_nonneg (Zpos d)).
  generalize dependent (Z.log2 n). generalize dependent (Z.log2 (Zpos d)). intros b H2 Hb a e H1 Ha.
  assert (Qpower 2 (e + 1) == inject_Z (2 ^ (a + 1)) / inject_Z (2 ^ b))%Q as ->.
  { unfold e. rewrite !Zpower_Qpower by lia. replace (a - b + 1) with (a + 1 - b) by lia. rewrite Qpower_minus by done. reflexivity. }
  apply Qlt_shift_div_l.
  - change 0%Q with (inject_Z 0). rewrite <- Zlt_Qlt. lia.
  - unfold Qlt, Qmult, inject_Z. cbn [Qnum Qden]. rewrite Z.add_1_r. nia.
Qed.

Lemma ilog2_below q k : (0 < q)%Q -> (q < Qpower 2 k)%Q -> ilog2 q < k.
Proof.
  intros Hq H. pose proof (ilog2_le q Hq). destruct (Z_lt_le_dec (ilog2 q) k); [done|]. exfalso.
  assert (Qpower 2 k <= Qpower 2 (ilog2 q))%Q by (by apply Qpower_le_compat_l). lra.
Qed.

Lemma ilog2_above q k : (0 < q)%Q -> (Qpower 2 k <= q)%Q -> k <= ilog2 q.
Proof.
  intros Hq H. pose proof (ilog2_lt q Hq). destruct (Z_le_gt_dec k (ilog2 q)); [done|]. exfalso.
  assert (Qpower 2 (ilog2 q + 1) <= Qpower 2 k)%Q by (apply Qpower_le_compat_l; [lia|done]). lra.
Qed.

(** ** Rounding to an integer *)

Lemma round_even_near q : (inject_Z (round_even q) <= q + (1 # 2))%Q /\ (q - (1 # 2) <= inject_Z (round_even q))%Q.
Proof.
  unfold round_even. pose proof (Qfloor_le q) as H1. pose proof (Qlt_floor q) as H2. rewrite inject_Z_plus in H2.
  set (f := Qfloor q) in *. destruct (q - inject_Z f ?= 1 # 2)%Q eqn:E.
  - apply Qeq_alt in E. destruct (Z.even f); rewrite ?inject_Z_plus; change (inject_Z 1) with 1%Q in *; lra.
  - apply Qlt_alt in E. change (inject_Z 1) with 1%Q in *; lra.
  - apply Qgt_alt in E. rewrite ?inject_Z_plus; change (inject_Z 1) with 1%Q in *; lra.
Qed.

Lemma round_even_le q n : (q < inject_Z n + (1 # 2))%Q -> round_even q <= n.
Proof.
  intros H. destruct (round_even_near q) as [Hr _]. apply Z.lt_succ_r. rewrite Zlt_Qlt. unfold Z.succ. rewrite inject_Z_plus.
  change (inject_Z 1) with 1%Q. lra.
Qed.

Lemma round_even_ge q n : (inject_Z n <= q)%Q -> n <= round_even q.
Proof.
  intros H. destruct (round_even_near q) as [_ Hr]. apply Z.lt_succ_r. rewrite Zlt_Qlt. unfold Z.succ. rewrite inject_Z_plus.
  change (inject_Z 1) with 1%Q. lra.
Qed.

(** ** Rounding to binary64 *)

(** The exponent of the last place of a rounded number, and the rounding of a
    positive number that does not overflow. *)
Definition lastPlace (q : Q) : Z := Z.max (ilog2 q - 52) (-1074).

Lemma round64_positive q : (0 < q)%Q -> ilog2 q <= 1000 ->
  exists r, round64 q = Fin r /\ (r == inject_Z (round_even (q * Qpower 2 (- lastPlace q))) * Qpower 2 (lastPlace q))%Q.
Proof.
  intros Hq HL. unfold round64. assert (Qeq_bool q 0 = false) as ->.
  { apply not_true_iff_false. rewrite Qeq_bool_iff. lra. }
  assert (Qabs q = q) as ->. { destruct q as [n d]. unfold Qlt in Hq. cbn in *. rewrite Z.abs_eq by lia. done. }
  fold (lastPlace q). set (e := lastPlace q). cbv zeta. set (k := round_even (q * Qpower 2 (- e))).
  assert (Qle_bool 0 q = true) as -> by (apply Qle_bool_iff; lra).
  destruct (Qle_bool (Qpower 2 1024) (inject_Z k * Qpower 2 e)) eqn:E; [|eexists; split; [done|by rewrite Qred_correct]].
  exfalso. apply Qle_bool_iff in E. destruct (round_even_near (q * Qpower 2 (- e))) as [Hr _]. fold k in Hr.
  pose proof (ilog2_lt q Hq) as Hlt.
  assert (Qpower 2 (ilog2 q + 1) <= Qpower 2 1001)%Q as H1 by (apply Qpower_le_compat_l; [lia|done]).
  assert (0 < Qpower 2 e)%Q as He2 by (by apply Qpower_0_lt).
  assert (Qpower 2 (- e) * Qpower 2 e == 1)%Q as He3 by (rewrite <- Qpower_plus by done; replace (- e + e) with 0 by lia; done).
  assert (Qpower 2 e <= Qpower 2 948)%Q as H2 by (apply Qpower_le_compat_l; [unfold e, lastPlace; lia|done]).
  assert (Qpower 2 1001 + Qpower 2 948 < Qpower 2 1024)%Q as H3 by (apply Qnot_le_lt; rewrite <- Qle_bool_iff; vm_compute; done).
  assert (inject_Z k * Qpower 2 e <= q + (1 # 2) * Qpower 2 e)%Q by nra. lra.
Qed.

(** Names the last place, with the powers of two around it. *)
Ltac last_place q :=
  let e := fresh "e" in let He := fresh "He" in
  set (e := lastPlace q) in *;
  assert (0 < Qpower 2 e)%Q by (by apply Qpower_0_lt); assert (0 < Qpower 2 (- e))%Q by (by apply Qpower_0_lt);
  assert (Qpower 2 (- e) * Qpower 2 e == 1)%Q by (rewrite <- Qpower_plus by done; replace (- e + e) with 0 by lia; done).

(** The rounding error is at most half of the last place. *)
Lemma round64_error q k : (0 <= q)%Q -> (q < Qpower 2 k)%Q -> -1000 <= k <= 1000 ->
  exists r, round64 q = Fin r /\ (0 <= r)%Q /\ (r <= q + Qpower 2 (k - 54))%Q.
Proof.
  intros H0 Hk Hb. destruct (Qlt_le_dec 0 q) as [Hq|Hq].
  2:{ exists 0%Q. assert (q == 0)%Q as E by lra. unfold round64. rewrite (proj2 (Qeq_bool_iff q 0)) by done. split; [done|].
      assert (0 < Qpower 2 (k - 54))%Q by (by apply Qpower_0_lt). lra. }
  pose proof (ilog2_below q k Hq Hk) as HL. destruct (round64_positive q Hq ltac:(lia)) as (r & Hr & Er).
  exists r. split; [done|]. rewrite Er. clear Er Hr.
  assert (Qpower 2 (lastPlace q) <= Qpower 2 (k - 53))%Q as He.
  { apply Qpower_le_compat_l; [unfold lastPlace; lia|done]. }
  assert (Qpower 2 (k - 53) == 2 * Qpower 2 (k - 54))%Q as E2.
  { replace (k - 53) with (1 + (k - 54)) by lia. rewrite Qpower_plus by done. done. }
  last_place q. destruct (round_even_near (q * Qpower 2 (- e))) as [Hr _].
  assert (0 <= round_even (q * Qpower 2 (- e))) as Hk0 by (apply round_even_ge; change (inject_Z 0) with 0%Q; nra).
  rewrite Zle_Qle in Hk0. change (inject_Z 0) with 0%Q in Hk0. split; nra.
Qed.

(** Rounding does not go past an integer below 2^53. *)
Lemma round64_le q n : 0 <= n < 2 ^ 53 -> (0 <= q)%Q -> (q <= inject_Z n)%Q ->
  exists r, round64 q = Fin r /\ (0 <= r)%Q /\ (r <= inject_Z n)%Q.
Proof.
  intros Hn H0 H1. assert (inject_Z n < Qpower 2 53)%Q as H53.
  { change (Qpower 2 53) with (inject_Z (2 ^ 53)). rewrite <- Zlt_Qlt. lia. }
  destruct (Qlt_le_dec 0 q) as [Hq|Hq].
  2:{ exists 0%Q. assert (q == 0)%Q as E by lra. unfold round64. rewrite (proj2 (Qeq_bool_iff q 0)) by done. split; [done|]. lra. }
  pose proof (ilog2_below q 53 Hq ltac:(lra)) as HL. destruct (round64_positive q Hq ltac:(lia)) as (r & Hr & Er).
  exists r. split; [done|]. rewrite Er. clear Er Hr. assert (lastPlace q <= 0) as He by (unfold lastPlace; lia).
  assert (Qpower 2 (- lastPlace q) == inject_Z (2 ^ (- lastPlace q)))%Q as He4 by (rewrite Zpower_Qpower by lia; done).
  last_place q. set (k := round_even (q * Qpower 2 (- e))).
  assert (0 <= k) as Hk0 by (apply round_even_ge; change (inject_Z 0) with 0%Q; nra).
  assert (k <= n * 2 ^ (- e)) as Hk1 by (apply round_even_le; rewrite inject_Z_mult, <- He4; nra).
  rewrite Zle_Qle in Hk0, Hk1. change (inject_Z 0) with 0%Q in Hk0. rewrite inject_Z_mult, <- He4 in Hk1. split; nra.
Qed.

(** Less than half of the last place above two is two. *)
Lemma round64_two q : (0 <= q)%Q -> (q < 2 + Qpower 2 (-52))%Q -> exists r, round64 q = Fin r /\ (0 <= r)%Q /\ (r <= 2)%Q.
Proof.
  intros H0 H1. destruct (Qlt_le_dec 2 q) as [Hq|Hq]; [|by apply (round64_le q 2)].
  assert (Qpower 2 (-52) < 1)%Q as Hs by (apply Qnot_le_lt; rewrite <- Qle_bool_iff; done).
  assert (ilog2 q = 1) as HL.
  { apply Z.le_antisymm; [apply Z.lt_succ_r, ilog2_below; [lra|]|apply ilog2_above; lra].
    change (Qpower 2 (Z.succ 1)) with (4 # 1)%Q. lra. }
  destruct (round64_positive q ltac:(lra) ltac:(lia)) as (r & Hr & Er). exists r. split; [done|]. rewrite Er.
  assert (lastPlace q = -51) as -> by (unfold lastPlace; rewrite HL; done).
  set (k := round_even (q * Qpower 2 (- -51))). change (Qpower 2 (- -51)) with (inject_Z (2 ^ 51)) in k.
  assert (0 < inject_Z (2 ^ 51))%Q by done.
  assert (0 <= k) as Hk0 by (apply round_even_ge; change (inject_Z 0) with 0%Q; nra).
  assert (k <= 2 ^ 52) as Hk1.
  { apply round_even_le. assert (Qpower 2 (-52) * inject_Z (2 ^ 51) == 1 # 2)%Q by done.
    assert (inject_Z (2 ^ 52) == 2 * inject_Z (2 ^ 51))%Q as -> by done. nra. }
  rewrite Zle_Qle in Hk0, Hk1. change (inject_Z 0) with 0%Q in Hk0.
  assert (0 < Qpower 2 (-51))%Q by done. assert (inject_Z (2 ^ 52) * Qpower 2 (-51) == 2)%Q by done. split; nra.
Qed.

(** Doubling a binary64 number above one half is exact. *)
Lemma round64_exact q (m : Z) : (1 <= q)%Q -> (q < 2)%Q -> (q == inject_Z m * Qpower 2 (-52))%Q -> exists r, round64 q = Fin r /\ (r == q)%Q.
Proof.
  intros H0 H1 Hm. assert (ilog2 q = 0) as HL.
  { apply Z.le_antisymm; [apply Z.lt_succ_r, ilog2_below; [lra|done]|apply ilog2_above; [lra|done]]. }
  destruct (round64_positive q ltac:(lra) ltac:(lia)) as (r & Hr & Er). exists r. split; [done|]. rewrite Er.
  assert (lastPlace q = -52) as -> by (unfold lastPlace; rewrite HL; done).
  assert (q * Qpower 2 (- -52) == inject_Z m)%Q as Hx.
  { rewrite Hm. assert (Qpower 2 (-52) * Qpower 2 (- -52) == 1)%Q as E by done. rewrite <- Qmult_assoc, E. ring. }
  assert (round_even (q * Qpower 2 (- -52)) = m) as ->; [|by rewrite Hm].
  apply Z.le_antisymm; [apply round_even_le; lra|apply round_even_ge; lra].
Qed.

(** A number of at least zero stays one. *)
Lemma round64_nonneg q : (0 <= q)%Q -> round64 q = Inf false \/ exists r, round64 q = Fin r /\ (0 <= r)%Q.
Proof.
  intros H. unfold round64. destruct (Qeq_bool q 0); [right; exists 0%Q; split; [done|lra]|]. cbv zeta.
  rewrite (proj2 (Qle_bool_iff 0 q) H). destruct (Qle_bool _ _); [by left|]. right. eexists. split; [done|]. rewrite Qred_correct.
  set (e := Z.max _ _). assert (0 < Qpower 2 e)%Q by (by apply Qpower_0_lt). assert (0 < Qpower 2 (- e))%Q by (by apply Qpower_0_lt).
  assert (0 <= round_even (Qabs q * Qpower 2 (- e))) as Hk.
  { apply round_even_ge. change (inject_Z 0) with 0%Q. pose proof (Qabs_nonneg q). nra. }
  rewrite Zle_Qle in Hk. change (inject_Z 0) with 0%Q in Hk. nra.
Qed.

(** The binary64 numbers of at least zero. *)
Definition binary64 (q : Q) : Prop := exists m e, 0 <= m <= 2 ^ 53 /\ (q == inject_Z m * Qpower 2 e)%Q.

(** Above one half they are multiples of 2^-53. *)
Lemma binary64_half q : binary64 q -> (1 # 2 < q)%Q -> exists m, (2 * q == inject_Z m * Qpower 2 (-52))%Q.
Proof.
  intros (m & e & Hm & E) Hq. destruct (Z_lt_le_dec e (-53)) as [He|He].
  - exfalso. assert (Qpower 2 e <= Qpower 2 (-54))%Q by (apply Qpower_le_compat_l; [lia|done]).
    assert (inject_Z m <= inject_Z (2 ^ 53))%Q by (rewrite <- Zle_Qle; lia).
    assert (0 <= inject_Z m)%Q by (change 0%Q with (inject_Z 0); rewrite <- Zle_Qle; lia).
    assert (0 < Qpower 2 e)%Q by (by apply Qpower_0_lt).
    assert (inject_Z (2 ^ 53) * Qpower 2 (-54) == 1 # 2)%Q by done. nra.
  - exists (m * 2 ^ (e + 53)). rewrite inject_Z_mult, Zpower_Qpower, <- Qmult_assoc by lia.
    change (inject_Z 2) with 2%Q. rewrite <- Qpower_plus by done. replace (e + 53 + -52) with (1 + e) by lia.
    rewrite Qpower_plus by done. rewrite E. change (Qpower 2 1) with 2%Q. ring.
Qed.
