(* ===== verification/JsValue.v ===== *)
(** * JavaScript values

    The values the sources inspect: primitives, arrays and plain objects.  An
    object is the list of its own enumerable string-keyed properties in
    enumeration order ([Object.entries]); [wf] says the keys are distinct,
    which JavaScript guarantees.  Functions, symbols and bigints only matter
    through [typeof]; they are [Other]. *)

From stdpp Require Import base tactics option list sorting numbers strings.
From Stdlib Require Import ZArith QArith Lia.
From S2P Require Import Prelude JsString JsNumber.

Unset Elimination Schemes.
Inductive value : Type :=
  | Undefined
  | Null
  | Boolean (b : bool)
  | Number (n : num)
  | Str (s : jstr)
  | Arr (items : list value)
  | Obj (props : list (jstr * value))
  | Other (kind : jstr).
Set Elimination Schemes.

(** Structural induction through arrays and objects. *)
Definition value_ind (P : value -> Prop)
    (Hu : P Undefined) (Hnull : P Null) (Hb : forall b, P (Boolean b))
    (Hn : forall n, P (Number n)) (Hs : forall s, P (Str s))
    (Ha : forall l, Forall P l -> P (Arr l))
    (Ho : forall l, Forall (fun kv => P (snd kv)) l -> P (Obj l))
    (Hk : forall k, P (Other k)) : forall v, P v :=
  fix go v := match v with
  | Undefined => Hu
  | Null => Hnull
  | Boolean b => Hb b
  | Number n => Hn n
  | Str s => Hs s
  | Arr l => Ha l ((fix goa l := match l return Forall P l with
      | [] => Forall_nil_2 _
      | x :: l' => Forall_cons_2 _ x l' (go x) (goa l')
      end) l)
  | Obj l => Ho l ((fix goo l := match l return Forall (fun kv => P (snd kv)) l with
      | [] => Forall_nil_2 _
      | x :: l' => Forall_cons_2 _ x l' (go (snd x)) (goo l')
      end) l)
  | Other k => Hk k
  end.

#[global] Instance Q_eq_dec : EqDecision Q.
Proof. solve_decision. Defined.
#[global] Instance num_eq_dec : EqDecision num.
Proof. solve_decision. Defined.

#[global] Instance value_eq_dec : EqDecision value.
Proof.
  refine (fix go (v w : value) : {v = w} + {v <> w} :=
    match v, w with
    | Undefined, Undefined | Null, Null => left eq_refl
    | Boolean a, Boolean b => cast_if (decide (a = b))
    | Number a, Number b => cast_if (decide (a = b))
    | Str a, Str b | Other a, Other b => cast_if (decide (a = b))
    | Arr a, Arr b => cast_if (@list_eq_dec _ go a b)
    | Obj a, Obj b => cast_if (@list_eq_dec _ (@prod_eq_dec _ _ _ go) a b)
    | _, _ => right _
    end); clear go; abstract congruence.
Defined.

(** ** Property access *)

(** [o[k]] on an own property. *)
Fixpoint assoc (k : jstr) (l : list (jstr * value)) : option value :=
  match l with
  | [] => None
  | (k', v) :: l' => if decide (k' = k) then Some v else assoc k l'
  end.

Definition keys (l : list (jstr * value)) : list jstr := fst <$> l.

(** [v.k] for a [v] that is neither [undefined] nor [null]; a missing property
    reads as [undefined]. *)
Definition get (k : jstr) (v : value) : value :=
  match v with Obj l => default Undefined (assoc k l) | _ => Undefined end.

(** [v?.k] *)
Definition optget (k : jstr) (v : value) : value :=
  match v with Undefined | Null => Undefined | _ => get k v end.

(** [k in v] *)
Definition has (k : jstr) (v : value) : bool :=
  match v with Obj l => bool_decide (is_Some (assoc k l)) | _ => false end.

Definition props_of (v : value) : list (jstr * value) :=
  match v with Obj l => l | _ => [] end.

Definition items_of (v : value) : list value :=
  match v with Arr l => l | _ => [] end.

(** ** Types and truthiness *)

Definition isRecord (v : value) : bool := match v with Obj _ => true | _ => false end.
Definition isArray (v : value) : bool := match v with Arr _ => true | _ => false end.
Definition isString (v : value) : bool := match v with Str _ => true | _ => false end.
Definition isNumber (v : value) : bool := match v with Number _ => true | _ => false end.
Definition isBoolean (v : value) : bool := match v with Boolean _ => true | _ => false end.
Definition isUndefined (v : value) : bool := match v with Undefined => true | _ => false end.
(** [v === null || v === undefined] *)
Definition isNullish (v : value) : bool :=
  match v with Undefined | Null => true | _ => false end.

Definition str_of (v : value) : jstr := match v with Str s => s | _ => [] end.
Definition num_of (v : value) : num := match v with Number n => n | _ => NaN end.

Definition truthy (v : value) : bool :=
  match v with
  | Undefined | Null => false
  | Boolean b => b
  | Number NaN => false
  | Number (Fin q) => negb (Qeq_bool q 0)
  | Number _ => true
  | Str [] => false
  | _ => true
  end.

(** [v ?? w] *)
Definition nullish (v w : value) : value := if isNullish v then w else v.

(** [v === w]; arrays and objects read from a parsed document are distinct
    references, so they are never equal. *)
Definition strict_eq (v w : value) : bool :=
  match v, w with
  | Undefined, Undefined | Null, Null => true
  | Boolean a, Boolean b => Bool.eqb a b
  | Number a, Number b => neq_num a b
  | Str a, Str b => bool_decide (a = b)
  | _, _ => false
  end.

Definition is_str (s : jstr) (v : value) : bool := strict_eq v (Str s).

(** [[l].includes(v)] for a list of string literals. *)
Definition one_of (l : list jstr) (v : value) : bool :=
  match v with Str s => memb s l | _ => false end.

(** ** Objects built from entries: [Object.fromEntries]

    Array-index keys come first in ascending numeric order, then the other keys
    in insertion order; a repeated key keeps its position and takes the last
    value. *)
Definition index_key (k : jstr) : option Z :=
  z ← nonempty_digits 10 k;
  if bool_decide (show_Z z = k) && (z <? 2 ^ 32 - 1) then Some z else None.

Definition index_le (a b : jstr) : Prop :=
  (default 0 (index_key a) <= default 0 (index_key b))%Z.
#[global] Instance index_le_dec a b : Decision (index_le a b).
Proof. unfold index_le. apply _. Defined.

Definition enumeration_order (ks : list jstr) : list jstr :=
  merge_sort index_le (filter (fun k => is_Some (index_key k)) ks)
  ++ filter (fun k => index_key k = None) ks.

Definition dedupe (ks : list jstr) : list jstr := rev (remove_dups (rev ks)).

Definition from_entries (l : list (jstr * value)) : value :=
  Obj ((fun k => (k, default Undefined (assoc k (rev l)))) <$> enumeration_order (dedupe (keys l))).

(** [{ ...v, k: w }] where [k] is not an array index. *)
Definition set_prop (k : jstr) (w : value) (l : list (jstr * value)) : list (jstr * value) :=
  if bool_decide (k ∈ keys l)
  then (fun kv => if decide (kv.1 = k) then (k, w) else kv) <$> l
  else l ++ [(k, w)].

Definition delete_prop (k : jstr) (l : list (jstr * value)) : list (jstr * value) :=
  filter (fun kv => kv.1 <> k) l.

(** [new Set(l)] of values read from a JSON document.  Equality of elements is strict equality, no
    [NaN] occurs. *)
Fixpoint set_of (l : list value) (acc : list value) : list value :=
  match l with
  | [] => acc
  | v :: l' => set_of l' (if existsb (strict_eq v) acc then acc else acc ++ [v])
  end.
Definition set_size (l : list value) : nat := length (set_of l []).

(** [v.length] *)
Definition length_of (v : value) : value :=
  match v with
  | Arr l => Number (int (Z.of_nat (length l)))
  | Str s => Number (int (Z.of_nat (length s)))
  | _ => optget (js "length") v
  end.

(** [Object.keys(v).length] *)
Definition keys_count (v : value) : nat :=
  match v with Obj l => length l | Arr l => length l | Str s => length s | _ => O end.

(** [Number(v)], as in a comparison with a number; the string of an array of
    two or more elements contains a comma and is not a number. *)
Fixpoint to_numeric (v : value) : num :=
  match v with
  | Undefined | Obj _ | Other _ => NaN
  | Null => Fin 0
  | Boolean b => Fin (if b then 1 else 0)
  | Number n => n
  | Str s => to_number s
  | Arr [] => Fin 0
  | Arr [x] => match x with
               | Undefined | Null => Fin 0
               | Boolean _ => NaN
               | _ => to_numeric x
               end
  | Arr _ => NaN
  end.

(** ** Well-formed values

    What every JavaScript object satisfies: distinct keys in enumeration order. *)

Fixpoint wf (v : value) : bool :=
  match v with
  | Arr l => forallb wf l
  | Obj l => bool_decide (NoDup (keys l)) && bool_decide (enumeration_order (keys l) = keys l)
             && forallb (fun kv => wf (snd kv)) l
  | _ => true
  end.

(** ** Lemmas *)

Lemma assoc_Some_elem k l v : assoc k l = Some v -> (k, v) ∈ l.
Proof.
  induction l as [|[k' v'] l IH]; simpl; [done|]. case_decide; intros; simplify_eq; [left|right; auto].
Qed.

Lemma assoc_elem k l v : NoDup (keys l) -> (k, v) ∈ l -> assoc k l = Some v.
Proof.
  induction l as [|[k' v'] l IH]; simpl; [intros _ []%not_elem_of_nil|].
  intros [Hk Hl]%NoDup_cons [?|?]%elem_of_cons; simplify_eq.
  - by rewrite decide_True.
  - case_decide; [|auto]. subst. destruct Hk. by apply (list_elem_of_fmap_2 fst _ (k, v)).
Qed.

Lemma assoc_None k l : assoc k l = None <-> k ∉ keys l.
Proof.
  induction l as [|[k' v'] l IH]; simpl; [split; [intros _ []%not_elem_of_nil|done]|].
  case_decide; subst; [split; [done|]; intros []; left|].
  rewrite IH, not_elem_of_cons. split; [intros; split; [congruence|done]|tauto].
Qed.

Lemma assoc_is_Some k l : is_Some (assoc k l) <-> k ∈ keys l.
Proof.
  destruct (assoc k l) eqn:E.
  - split; [|eauto]. intros _. apply assoc_Some_elem in E. by apply (list_elem_of_fmap_2 fst _ (k, v)).
  - split; [intros [? ?]; done|]. intros. by apply assoc_None in E.
Qed.

Lemma has_get k v : has k v = false -> get k v = Undefined.
Proof.
  unfold has, get. destruct v; try done. rewrite bool_decide_eq_false.
  destruct (assoc k props); [intros []; eauto|done].
Qed.

Lemma is_str_spec s v : is_str s v = true <-> v = Str s.
Proof.
  unfold is_str, strict_eq. destruct v; simpl; try (split; done).
  rewrite bool_decide_eq_true. split; congruence.
Qed.

Lemma one_of_spec l v : one_of l v = true <-> exists s, v = Str s /\ s ∈ l.
Proof.
  unfold one_of. destruct v; simpl; try (split; [done|by intros (? & [=] & _)]).
  rewrite memb_spec. split; [eauto|]. by intros (? & [= ->] & ?).
Qed.

Lemma isRecord_spec v : isRecord v = true <-> exists l, v = Obj l.
Proof. destruct v; simpl; split; try done; try (by intros (? & [=])). eauto. Qed.

Lemma isString_spec v : isString v = true <-> exists s, v = Str s.
Proof. destruct v; simpl; split; try done; try (by intros (? & [=])). eauto. Qed.

#[global] Hint Resolve assoc_Some_elem : realtime.
