(* ===== verification/JsDate.v ===== *)
(** * Dates

    [Date.prototype.toISOString] and [Date.parse] on the Date Time String
    Format of ECMAScript.  A time value is the number of milliseconds since
    1970-01-01T00:00:00Z as a [Z].  Strings outside that format are parsed by
    an implementation-defined rule, the argument [fallback]. *)

From stdpp Require Import base tactics option list numbers strings.
From Stdlib Require Import ZArith Lia.
From S2P Require Import Prelude JsString JsNumber.

Open Scope Z_scope.

(** ** The proleptic Gregorian calendar *)

Definition leap (y : Z) : bool := (y mod 4 =? 0) && (negb (y mod 100 =? 0) || (y mod 400 =? 0)).

Definition days_in_month (y m : Z) : Z :=
  if m =? 2 then (if leap y then 29 else 28)
  else if memb m [4; 6; 9; 11] then 30 else 31.

(** DayFromYear: the day number of 1 January of year [y]. *)
Definition day_from_year (y : Z) : Z :=
  365 * (y - 1970) + (y - 1969) / 4 - (y - 1901) / 100 + (y - 1601) / 400.

(** YearFromTime: the year whose days contain day number [z]. *)
Definition year_from_day (z : Z) : Z :=
  let y := 1970 + z * 400 / 146097 in
  if day_from_year (y + 1) <=? z then y + 1 else if z <? day_from_year y then y - 1 else y.

(** Days of the year before month [m]. *)
Fixpoint days_before (y : Z) (n : nat) : Z :=
  match n with O => 0 | S k => days_before y k + days_in_month y (Z.of_nat n) end.

(** MakeDay *)
Definition days_of_civil (y m d : Z) : Z :=
  day_from_year y + days_before y (Z.to_nat (m - 1)) + (d - 1).

(** Month and day of the month of the [d]-th day (from 0) after the first of month [m]. *)
Fixpoint find_month (fuel : nat) (y m d : Z) : Z * Z :=
  match fuel with
  | O => (m, d + 1)
  | S k => if d <? days_in_month y m then (m, d + 1) else find_month k y (m + 1) (d - days_in_month y m)
  end.

Definition civil_of_days (z : Z) : Z * Z * Z :=
  let y := year_from_day z in
  let '(m, d) := find_month 12 y 1 (z - day_from_year y) in (y, m, d).

(** ** Printing *)

Fixpoint pad (n : nat) (z : Z) : jstr :=
  match n with
  | O => []
  | S k => pad k (z / 10) ++ [Z.to_N (48 + z mod 10)]
  end.

Definition ms_per_day : Z := 86400000.

Definition toISOString (t : Z) : jstr :=
  let '(y, m, d) := civil_of_days (t / ms_per_day) in
  let r := t mod ms_per_day in
  (if (0 <=? y) && (y <=? 9999) then pad 4 y
   else (if y <? 0 then js "-" else js "+") ++ pad 6 (Z.abs y))
  ++ js "-" ++ pad 2 m ++ js "-" ++ pad 2 d ++ js "T"
  ++ pad 2 (r / 3600000) ++ js ":" ++ pad 2 (r / 60000 mod 60) ++ js ":"
  ++ pad 2 (r / 1000 mod 60) ++ js "." ++ pad 3 (r mod 1000) ++ js "Z".

(** ** Parsing *)

(** Exactly [n] decimal digits. *)
Definition digits_n (n : nat) (s : jstr) : option (Z * jstr) :=
  if bool_decide (length (take n s) = n) then
    v ← digits_value 10 (take n s); Some (v, drop n s)
  else None.

Definition expect (c : N) (s : jstr) : option jstr :=
  match s with d :: s' => if (d =? c)%N then Some s' else None | [] => None end.

Definition parse_year (s : jstr) : option (Z * jstr) :=
  match s with
  | 43%N :: t => digits_n 6 t
  | 45%N :: t => '(y, r) ← digits_n 6 t; if y =? 0 then None else Some (- y, r)
  | _ => digits_n 4 s
  end.

(** [-MM] and [-DD], each optional. *)
Definition parse_dash2 (s : jstr) : option (option Z * jstr) :=
  match expect 45 s with
  | Some t => '(v, r) ← digits_n 2 t; Some (Some v, r)
  | None => Some (None, s)
  end.

(** The time after [T]: [HH:mm], [HH:mm:ss] or [HH:mm:ss.sss], in milliseconds. *)
Definition parse_time (s : jstr) : option (Z * jstr) :=
  '(h, s1) ← digits_n 2 s; s2 ← expect 58 s1; '(mi, s3) ← digits_n 2 s2;
  '(sec, s5) ← match expect 58 s3 with
               | Some s4 => digits_n 2 s4
               | None => Some (0, s3)
               end;
  '(ms, s7) ← match expect 58 s3, expect 46 s5 with
              | Some _, Some s6 => digits_n 3 s6
              | _, _ => Some (0, s5)
              end;
  if (mi <=? 59) && (sec <=? 59) && ((h <=? 23) || ((h =? 24) && (mi + sec + ms =? 0)))
  then Some (h * 3600000 + mi * 60000 + sec * 1000 + ms, s7) else None.

(** [Z] or [+HH:mm] or [-HH:mm], in milliseconds. *)
Definition parse_offset (s : jstr) : option Z :=
  match s with
  | [90%N] => Some 0
  | c :: t =>
      '(h, s1) ← digits_n 2 t; s2 ← expect 58 s1; '(mi, s3) ← digits_n 2 s2;
      if bool_decide (s3 = []) && (h <=? 23) && (mi <=? 59) then
        if (c =? 43)%N then Some (h * 3600000 + mi * 60000)
        else if (c =? 45)%N then Some (- (h * 3600000 + mi * 60000)) else None
      else None
  | [] => None
  end.

Definition max_time : Z := 8640000000000000.

Definition iso_parse (s : jstr) : option Z :=
  '(y, s1) ← parse_year s;
  '(om, s2) ← parse_dash2 s1;
  '(od, s3) ← match om with Some _ => parse_dash2 s2 | None => Some (None, s2) end;
  let m := default 1 om in
  let d := default 1 od in
  if negb ((1 <=? m) && (m <=? 12) && (1 <=? d) && (d <=? days_in_month y m)) then None
  else
    time ← match s3 with
           | [] => Some 0
           | 84%N :: s4 => '(t, s5) ← parse_time s4; o ← parse_offset s5; Some (t - o)
           | _ => None
           end;
    let v := days_of_civil y m d * ms_per_day + time in
    if Z.abs v <=? max_time then Some v else None.

(** [Date.parse]; [None] is [NaN]. *)
Definition date_parse (fallback : jstr -> option Z) (s : jstr) : option Z :=
  match iso_parse s with Some t => Some t | None => fallback s end.

Example iso_epoch : toISOString 0 = js "1970-01-01T00:00:00.000Z".
Proof. vm_compute. reflexivity. Qed.
Example iso_fixture : iso_parse (js "2026-08-30T17:00:00.100Z") = Some 1788109200100.
Proof. vm_compute. reflexivity. Qed.
Example iso_offset : iso_parse (js "2026-08-30T19:00:00+02:00") = iso_parse (js "2026-08-30T17:00:00Z").
Proof. vm_compute. reflexivity. Qed.
Example iso_date : iso_parse (js "2026-02-30") = None /\ is_Some (iso_parse (js "2024-02-29")).
Proof. vm_compute. split; [reflexivity|eauto]. Qed.

(** ** Round trip *)

Lemma digits_value_snoc base s c v d :
  digits_value base s = Some v -> digit_value c = Some d -> d < base ->
  digits_value base (s ++ [c]) = Some (v * base + d).
Proof.
  unfold digits_value. rewrite foldl_app. intros -> Hd Hlt. simpl. rewrite Hd. simpl.
  by rewrite (proj2 (Z.ltb_lt _ _) Hlt).
Qed.

Lemma digit_value_digit z : 0 <= z < 10 -> digit_value (Z.to_N (48 + z)) = Some z.
Proof.
  intros H. unfold digit_value, is_digit.
  rewrite (proj2 (N.leb_le _ _)), (proj2 (N.leb_le _ _)) by lia. simpl. f_equal. lia.
Qed.

Lemma length_pad n z : length (pad n z) = n.
Proof. revert z; induction n; intros z; simpl; [done|]. rewrite length_app, IHn. simpl. lia. Qed.

Lemma digits_value_pad n z : 0 <= z < 10 ^ Z.of_nat n -> digits_value 10 (pad n z) = Some z.
Proof.
  revert z; induction n as [|n IH]; intros z Hz.
  - simpl in *. unfold digits_value. simpl. f_equal. lia.
  - rewrite Nat2Z.inj_succ, Z.pow_succ_r in Hz by lia. simpl.
    pose proof (Z.mod_pos_bound z 10 ltac:(lia)).
    rewrite (digits_value_snoc 10 _ _ (z / 10) (z mod 10)).
    + f_equal. pose proof (Z.div_mod z 10). lia.
    + apply IH. split; [apply Z.div_pos; lia|]. apply Z.div_lt_upper_bound; lia.
    + by apply digit_value_digit.
    + lia.
Qed.

Lemma digits_n_pad n z s :
  0 <= z < 10 ^ Z.of_nat n -> digits_n n (pad n z ++ s) = Some (z, s).
Proof.
  intros H. unfold digits_n.
  rewrite take_app_length', drop_app_length' by (symmetry; apply length_pad).
  rewrite bool_decide_true by apply length_pad. by rewrite digits_value_pad.
Qed.

Lemma year_length y : day_from_year (y + 1) = day_from_year y + (if leap y then 366 else 365).
Proof.
  unfold day_from_year, leap.
  destruct (Z.eqb_spec (y mod 4) 0), (Z.eqb_spec (y mod 100) 0), (Z.eqb_spec (y mod 400) 0); simpl;
    Z.div_mod_to_equations; lia.
Qed.

Lemma year_from_day_spec z :
  day_from_year (year_from_day z) <= z < day_from_year (year_from_day z + 1).
Proof.
  unfold year_from_day. set (y := 1970 + z * 400 / 146097).
  destruct (Z.leb_spec (day_from_year (y + 1)) z) as [H|H].
  - split; [done|]. unfold day_from_year, y in *. Z.div_mod_to_equations. lia.
  - destruct (Z.ltb_spec z (day_from_year y)) as [H'|H']; [|lia].
    replace (y - 1 + 1) with y by lia. split; [|done].
    unfold day_from_year, y in *. Z.div_mod_to_equations. lia.
Qed.

Lemma days_in_month_pos y m : 28 <= days_in_month y m <= 31.
Proof. unfold days_in_month. destruct (m =? 2), (leap y), (memb m [4; 6; 9; 11]); lia. Qed.

Lemma days_before_13 y : days_before y 12 = if leap y then 366 else 365.
Proof. vm_compute. destruct (leap y) eqn:E; vm_compute in E; rewrite E; reflexivity. Qed.

Lemma find_month_spec fuel y n d m' d' :
  (n + fuel = 12)%nat -> 0 <= d ->
  days_before y n + d < days_before y 12 ->
  find_month fuel y (Z.of_nat (S n)) d = (m', d') ->
  1 <= m' <= 12 /\ 1 <= d' <= days_in_month y m' /\
  days_before y (Z.to_nat (m' - 1)) + d' - 1 = days_before y n + d.
Proof.
  revert n d; induction fuel as [|fuel IH]; intros n d Hn Hd Hlt.
  - assert (n = 12)%nat as -> by lia. lia.
  - cbn [find_month]. destruct (Z.ltb_spec d (days_in_month y (Z.of_nat (S n)))) as [H|H].
    + intros [= <- <-]. replace (Z.to_nat (Z.of_nat (S n) - 1)) with n by lia. lia.
    + replace (Z.of_nat (S n) + 1) with (Z.of_nat (S (S n))) by lia. intros Hf.
      destruct (IH (S n) (d - days_in_month y (Z.of_nat (S n)))) as (H1 & H2 & H3); try done; try lia.
      all: cbn [days_before] in *; lia.
Qed.

Lemma civil_roundtrip z y m d :
  civil_of_days z = (y, m, d) ->
  1 <= m <= 12 /\ 1 <= d <= days_in_month y m /\ days_of_civil y m d = z /\
  day_from_year y <= z < day_from_year (y + 1).
Proof.
  unfold civil_of_days, days_of_civil. pose proof (year_from_day_spec z) as Hy.
  destruct (find_month 12 (year_from_day z) 1 _) as [m' d'] eqn:Hf. intros [= <- <- <-].
  pose proof (year_length (year_from_day z)). pose proof (days_before_13 (year_from_day z)).
  apply (find_month_spec 12 _ 0) in Hf as (? & ? & H1); [|done|lia|simpl (days_before _ 0); lia].
  simpl (days_before _ 0) in H1. lia.
Qed.

(** The instants whose ISO form has a four-digit year. *)
Definition four_digit_year (t : Z) : Prop := -62167219200000 <= t < 253402300800000.

Lemma day_from_year_mono a b : a <= b -> day_from_year a <= day_from_year b.
Proof. intros. unfold day_from_year. Z.div_mod_to_equations. lia. Qed.

Lemma civil_year_bounds z y m d :
  -719528 <= z < 2932897 -> civil_of_days z = (y, m, d) -> 0 <= y <= 9999.
Proof.
  intros Hz Hc. apply civil_roundtrip in Hc as (_ & _ & _ & Hy).
  assert (day_from_year 0 = -719528) by done. assert (day_from_year 10000 = 2932897) by done.
  destruct (decide (y < 0)).
  { pose proof (day_from_year_mono (y + 1) 0). lia. }
  destruct (decide (y <= 9999)); [lia|]. pose proof (day_from_year_mono 10000 y). lia.
Qed.

Lemma expect_js c s : expect c (c :: s) = Some s.
Proof. simpl. by rewrite N.eqb_refl. Qed.

Lemma parse_year_pad y s : 0 <= y <= 9999 -> parse_year (pad 4 y ++ s) = Some (y, s).
Proof.
  intros Hy. assert (Hd : digits_n 4 (pad 4 y ++ s) = Some (y, s)) by (apply digits_n_pad; simpl; lia).
  unfold parse_year. destruct (pad 4 y ++ s) as [|c r] eqn:E; [done|].
  assert (Hc : exists k, (k < 10)%N /\ c = (48 + k)%N).
  { simpl in E. injection E as <- _. pose proof (Z.mod_pos_bound (y / 10 / 10 / 10) 10 ltac:(lia)).
    exists (Z.to_N (y / 10 / 10 / 10 mod 10)). split; lia. }
  destruct Hc as (k & Hk & ->).
  assert (Hcase : k = 0%N \/ k = 1%N \/ k = 2%N \/ k = 3%N \/ k = 4%N \/ k = 5%N \/ k = 6%N \/ k = 7%N \/ k = 8%N \/ k = 9%N) by lia.
  destruct Hcase as [->|[->|[->|[->|[->|[->|[->|[->|[->| ->]]]]]]]]]; exact Hd.
Qed.

(** [Date.parse] inverts [toISOString] on every instant with a four-digit year. *)
Lemma iso_roundtrip t : four_digit_year t -> iso_parse (toISOString t) = Some t.
Proof.
  unfold four_digit_year. intros Ht. unfold toISOString.
  destruct (civil_of_days (t / ms_per_day)) as [[y m] d] eqn:Hc.
  assert (Hz : -719528 <= t / ms_per_day < 2932897).
  { unfold ms_per_day. split; [apply Z.div_le_lower_bound; lia|apply Z.div_lt_upper_bound; lia]. }
  pose proof (civil_year_bounds _ _ _ _ Hz Hc) as Hy.
  apply civil_roundtrip in Hc as (Hm & Hd & Hday & _).
  pose proof (days_in_month_pos y m).
  pose proof (Z.mod_pos_bound t ms_per_day ltac:(done)) as Hr.
  pose proof (Z.div_mod t ms_per_day ltac:(done)) as Hdm.
  rewrite (proj2 (Z.leb_le 0 y)), (proj2 (Z.leb_le y 9999)) by lia. cbn [andb].
  set (r := t mod ms_per_day) in *. clearbody r. unfold ms_per_day in *.
  unfold iso_parse. rewrite parse_year_pad by lia. cbn [mbind option_bind].
  change (js "-") with [45%N]. change (js "T") with [84%N]. change (js ":") with [58%N].
  change (js ".") with [46%N]. change (js "Z") with [90%N]. cbn [app].
  unfold parse_dash2. rewrite !expect_js. cbn [mbind option_bind].
  rewrite digits_n_pad by (simpl; lia). cbn [mbind option_bind]. rewrite !expect_js. cbn [mbind option_bind].
  rewrite digits_n_pad by (simpl; lia). cbn [mbind option_bind]. change (default 1 (Some m)) with m. change (default 1 (Some d)) with d. cbv zeta.
  rewrite (proj2 (Z.leb_le 1 m)), (proj2 (Z.leb_le m 12)), (proj2 (Z.leb_le 1 d)), (proj2 (Z.leb_le d _)) by lia.
  cbn [andb negb]. unfold parse_time.
  assert (Hh : 0 <= r / 3600000 <= 23)
    by (split; [apply Z.div_pos; lia|apply Z.lt_succ_r, Z.div_lt_upper_bound; lia]).
  pose proof (Z.mod_pos_bound (r / 60000) 60 ltac:(lia)).
  pose proof (Z.mod_pos_bound (r / 1000) 60 ltac:(lia)).
  pose proof (Z.mod_pos_bound r 1000 ltac:(lia)).
  rewrite digits_n_pad by (simpl; lia). cbn [mbind option_bind]. rewrite expect_js. cbn [mbind option_bind].
  rewrite digits_n_pad by (simpl; lia). cbn [mbind option_bind]. rewrite !expect_js. cbn [mbind option_bind].
  rewrite digits_n_pad by (simpl; lia). cbn [mbind option_bind]. rewrite expect_js. cbn [mbind option_bind].
  rewrite digits_n_pad by (simpl; lia). cbn [mbind option_bind].
  rewrite (proj2 (Z.leb_le (r / 60000 mod 60) 59)) by (apply Z.lt_succ_r; tauto).
  rewrite (proj2 (Z.leb_le (r / 1000 mod 60) 59)) by (apply Z.lt_succ_r; tauto).
  rewrite (proj2 (Z.leb_le (r / 3600000) 23)) by tauto.
  cbn [andb orb mbind option_bind parse_offset].
  rewrite Hday. rewrite (proj2 (Z.leb_le _ _)).
  - unfold ms_per_day. f_equal. Z.div_mod_to_equations. lia.
  - unfold max_time, ms_per_day. Z.div_mod_to_equations. lia.
Qed.
