(* ===== verification/JsonGraph.v ===== *)
(** * Object graphs and [isJsonValue]

    [isJsonValue] of sdk/typescript/src/protocol.ts walks an arbitrary object
    graph, possibly cyclic, and keeps the objects on the current path in the
    set [ancestors].  Here objects live in a heap of references; the theorems
    show that the walk terminates on every heap and accepts exactly the graphs
    that unfold to a finite JSON tree. *)

From stdpp Require Import base tactics option list numbers strings gmap.
From Stdlib Require Import ZArith Lia.
From S2P Require Import Prelude JsString JsNumber JsValue.

(** The test on trees: the values [JSON.stringify] preserves. *)
Fixpoint isJsonTree (v : value) : bool :=
  match v with
  | Null | Str _ | Boolean _ => true
  | Number n => isFinite n
  | Arr l => forallb isJsonTree l
  | Obj l => forallb (fun kv => isJsonTree (snd kv)) l
  | Undefined | Other _ => false
  end.

(** A value of the graph is a primitive or a reference. *)
Inductive gvalue : Type :=
  | GPrim (v : value)
  | GRef (r : nat).

(** What a reference holds: an array, or the [Object.values] of an object with their keys. *)
Inductive gnode : Type :=
  | GArr (items : list gvalue)
  | GObj (props : list (jstr * gvalue)).

Definition children (n : gnode) : list gvalue :=
  match n with GArr l => l | GObj l => snd <$> l end.

Definition heap := gmap nat gnode.

(** Primitives are not objects, and every reference is allocated. *)
Definition prim (v : value) : bool := match v with Arr _ | Obj _ => false | _ => true end.
Definition gvalue_ok (h : gmap nat gnode) (v : gvalue) : Prop :=
  match v with GPrim p => prim p = true | GRef r => is_Some (h !! r) end.
Definition heap_ok (h : gmap nat gnode) : Prop :=
  map_Forall (fun _ n => Forall (gvalue_ok h) (children n)) h.

(** [l.every(f)] with JavaScript's short circuit; [None] is "out of fuel". *)
Fixpoint every {A} (f : A -> option bool) (l : list A) : option bool :=
  match l with
  | [] => Some true
  | x :: l' => match f x with Some true => every f l' | r => r end
  end.

(** [isJsonValue(value, ancestors)]: [fuel] bounds the recursion depth, and
    [ancestors.add]/[ancestors.delete] bracket the visit of an object. *)
Fixpoint isJsonValue (fuel : nat) (h : gmap nat gnode) (ancestors : gset nat) (v : gvalue) : option bool :=
  match v with
  | GPrim p => Some (isJsonTree p)
  | GRef r =>
      if bool_decide (r ∈ ancestors) then Some false
      else match fuel, h !! r with
           | S k, Some n => every (isJsonValue k h ({[r]} ∪ ancestors)) (children n)
           | _, _ => None
           end
  end.

(** The finite unfolding of a graph value into a tree. *)
Unset Elimination Schemes.
Inductive unfolds (h : gmap nat gnode) : gvalue -> value -> Prop :=
  | unf_prim p : prim p = true -> unfolds h (GPrim p) p
  | unf_arr r l ts : h !! r = Some (GArr l) -> Forall2 (unfolds h) l ts -> unfolds h (GRef r) (Arr ts)
  | unf_obj r l ts :
      h !! r = Some (GObj l) -> Forall2 (fun a b => a.1 = b.1 /\ unfolds h a.2 b.2) l ts ->
      unfolds h (GRef r) (Obj ts).
Set Elimination Schemes.

Fixpoint height (v : value) : nat :=
  match v with
  | Arr l => S (foldr Nat.max O (height <$> l))
  | Obj l => S (foldr Nat.max O ((fun kv => height (snd kv)) <$> l))
  | _ => O
  end.

Lemma every_Some_total {A} (f : A -> option bool) l :
  Forall (fun x => is_Some (f x)) l -> is_Some (every f l).
Proof. induction 1 as [|x l [[] Hx] _ IH]; simpl; rewrite ?Hx; eauto. Qed.

Lemma every_true {A} (f : A -> option bool) l :
  every f l = Some true <-> Forall (fun x => f x = Some true) l.
Proof.
  induction l as [|x l IH]; simpl; [by split|]. rewrite Forall_cons.
  destruct (f x) as [[]|]; [tauto| |]; (split; [done|intros [? _]; done]).
Qed.

(** ** Termination *)

Section termination.
Context (h : gmap nat gnode) (Hh : heap_ok h).

Lemma isJsonValue_total fuel ancestors v :
  gvalue_ok h v -> ancestors ⊆ dom h ->
  (size (dom h ∖ ancestors) <= fuel)%nat -> is_Some (isJsonValue fuel h ancestors v).
Proof.
  revert ancestors v. induction fuel as [|k IH]; intros anc [p|r] Hv Ha Hf; simpl; eauto.
  - case_bool_decide as Hr; [eauto|]. exfalso.
    assert (r ∈ dom h ∖ anc) as Hin by (apply elem_of_difference; split; [by apply elem_of_dom|done]).
    assert (size (dom h ∖ anc) <> 0)%nat; [|lia]. intros H0%size_empty_inv. by apply (H0 r) in Hin.
  - case_bool_decide as Hr; [eauto|]. destruct Hv as [n Hn]. rewrite Hn.
    apply every_Some_total. specialize (Hh r n Hn). simpl in Hh.
    eapply Forall_impl; [exact Hh|]. intros c Hc. apply IH; [done| |].
    + apply union_subseteq; split; [|done]. apply singleton_subseteq_l, elem_of_dom. eauto.
    + assert (dom h ∖ ({[r]} ∪ anc) ⊂ dom h ∖ anc) as Hss.
      { split; [intros x; rewrite !elem_of_difference, elem_of_union; tauto|]. intros Hs. assert (r ∈ dom h) by (apply elem_of_dom; eauto).
        specialize (Hs r). rewrite !elem_of_difference, elem_of_union in Hs.
        rewrite elem_of_singleton in Hs. tauto. }
      apply subset_size in Hss. lia.
Qed.
End termination.

(** ** Acceptance *)

Lemma unfolds_det h v t : unfolds h v t -> forall t', unfolds h v t' -> t = t'.
Proof.
  revert v; induction t as [| | | | |l IH|l IH|] using value_ind; intros v Hv t' Hv';
    inversion Hv; subst; inversion Hv'; subst; simplify_eq; try done.
  - f_equal. match goal with H1 : Forall2 (unfolds h) ?a l, H2 : Forall2 (unfolds h) ?a ?b |- _ =>
      clear -IH H1 H2; revert b H2; induction H1; intros b H2; inversion H2; subst; [done|] end.
    inversion IH; subst. f_equal; eauto.
  - f_equal. match goal with H1 : Forall2 _ ?a l, H2 : Forall2 _ ?a ?b |- _ =>
      clear -IH H1 H2; revert b H2; induction H1 as [|? [] ? ? [? ?]]; intros b H2; inversion H2 as [|? [] ? ? [? ?]]; subst; [done|] end.
    inversion IH; subst; simpl in *; subst. f_equal; [f_equal; eauto|eauto].
Qed.

Lemma height_arr t ts : t ∈ ts -> (height t < height (Arr ts))%nat.
Proof.
  intros H. simpl. apply Nat.lt_succ_r, foldr_max_elem. by apply list_elem_of_fmap_2.
Qed.

Lemma height_obj k t ts : (k, t) ∈ ts -> (height t < height (Obj ts))%nat.
Proof.
  intros H. simpl. apply Nat.lt_succ_r, foldr_max_elem.
  by apply (list_elem_of_fmap_2 (fun kv => height (snd kv)) ts (k, t)).
Qed.

(** The children of a node unfold to the children of its tree. *)
Lemma unfolds_children h r n t :
  h !! r = Some n -> unfolds h (GRef r) t ->
  Forall (fun c => exists t', unfolds h c t' /\ (height t' < height t)%nat /\
                              (isJsonTree t = true -> isJsonTree t' = true)) (children n).
Proof.
  intros Hn Ht. inversion Ht as [|? l ts Hl Hf|? l ts Hl Hf]; subst; simplify_eq; simpl.
  - apply Forall_forall. intros c Hc.
    apply list_elem_of_lookup in Hc as [i Hi].
    destruct (Forall2_lookup_l _ _ _ _ _ Hf Hi) as (t' & Ht' & Hu).
    exists t'. apply list_elem_of_lookup_2 in Ht'. split; [done|]. split; [by apply height_arr|].
    rewrite forallb_forall. intros Hj. apply Hj. by apply list_elem_of_In.
  - apply Forall_fmap, Forall_forall. intros [k c] Hc.
    apply list_elem_of_lookup in Hc as [i Hi].
    destruct (Forall2_lookup_l _ _ _ _ _ Hf Hi) as ([k' t'] & Ht' & Hk & Hu). simpl in *; subst k'.
    exists t'. apply list_elem_of_lookup_2 in Ht'. split; [done|]. split; [by eapply height_obj|].
    rewrite forallb_forall. intros Hj. apply (Hj (k, t')). by apply list_elem_of_In.
Qed.

Lemma isJsonValue_accepts_fuel fuel h ancestors v t :
  unfolds h v t -> isJsonTree t = true ->
  (forall a ta, a ∈ ancestors -> unfolds h (GRef a) ta -> (height t < height ta)%nat) ->
  isJsonValue fuel h ancestors v <> Some false.
Proof.
  revert ancestors v t; induction fuel as [|k IH]; intros anc [p|r] t Hu Hj Ha; simpl.
  1, 3: inversion Hu; subst; congruence.
  - case_bool_decide as Hr; [|done]. specialize (Ha r t Hr Hu). lia.
  - case_bool_decide as Hr; [specialize (Ha r t Hr Hu); lia|].
    destruct (h !! r) as [n|] eqn:Hn; [|done].
    pose proof (unfolds_children _ _ _ _ Hn Hu) as Hc.
    induction Hc as [|c cs (t' & Hu' & Hlt & Hj') _ IHc]; simpl; [done|].
    destruct (isJsonValue k h _ c) as [[]|] eqn:E; [done| |done].
    exfalso. eapply (IH _ c t' Hu' (Hj' Hj)); [|exact E].
    intros a ta [->%elem_of_singleton|Hin]%elem_of_union Hta.
    + by rewrite <- (unfolds_det _ _ _ Hu _ Hta).
    + specialize (Ha a ta Hin Hta). lia.
Qed.

Lemma isJsonValue_unfolds fuel h ancestors v :
  gvalue_ok h v -> heap_ok h -> isJsonValue fuel h ancestors v = Some true ->
  exists t, unfolds h v t /\ isJsonTree t = true.
Proof.
  revert ancestors v; induction fuel as [|k IH]; intros anc [p|r] Hv Hh; simpl.
  1, 3: intros [= Hp]; exists p; by split; [constructor|].
  { by case_bool_decide. }
  case_bool_decide; [done|]. destruct (h !! r) as [n|] eqn:Hn; [|done].
  rewrite every_true. intros Hall. pose proof (Hh r n Hn) as Hok. simpl in Hok.
  assert (Hex : Forall (fun c => exists t, unfolds h c t /\ isJsonTree t = true) (children n)).
  { apply Forall_forall. intros c Hc. rewrite Forall_forall in Hall, Hok. eauto. }
  destruct n as [l|l]; simpl in Hex.
  - apply Forall_choice in Hex as (ts & Hts). exists (Arr ts). split.
    + eapply unf_arr; [done|]. eapply Forall2_impl; [done|]. by intros ? ? [? _].
    + simpl. apply forallb_forall. intros t Ht%list_elem_of_In%list_elem_of_lookup.
      destruct Ht as [i Hi]. by destruct (Forall2_lookup_r _ _ _ _ _ Hts Hi) as (? & ? & ? & ?).
  - assert (Hex' : Forall (fun kv => exists t, unfolds h (snd kv) t /\ isJsonTree t = true) l)
      by exact (proj1 (Forall_fmap snd _ l) Hex).
    apply Forall_choice in Hex' as (ts & Hts).
    exists (Obj (zip (fst <$> l) ts)). split.
    + eapply unf_obj; [done|]. clear -Hts.
      induction Hts as [|[k' c] t l' ts' [Hu _] _ IH]; simpl; constructor; auto.
    + simpl. apply forallb_forall. intros [k' t] Ht%list_elem_of_In%elem_of_zip_r%list_elem_of_lookup.
      destruct Ht as [i Hi]. by destruct (Forall2_lookup_r _ _ _ _ _ Hts Hi) as (? & ? & ? & ?).
Qed.

(** [isJsonValue(value)] with fuel for the whole heap. *)
Definition isJsonGraph (h : gmap nat gnode) (v : gvalue) : option bool :=
  isJsonValue (size h) h ∅ v.

Lemma isJsonGraph_total h v : heap_ok h -> gvalue_ok h v -> is_Some (isJsonGraph h v).
Proof.
  intros Hh Hv. apply isJsonValue_total; [done|done|set_solver|].
  rewrite difference_empty_L, size_dom. done.
Qed.

Lemma isJsonGraph_spec h v :
  heap_ok h -> gvalue_ok h v ->
  (isJsonGraph h v = Some true <-> exists t, unfolds h v t /\ isJsonTree t = true).
Proof.
  intros Hh Hv. split; [by apply isJsonValue_unfolds|]. intros (t & Ht & Hj).
  destruct (isJsonGraph_total h v Hh Hv) as [[] Hr]; [done|].
  exfalso. eapply isJsonValue_accepts_fuel; [exact Ht|exact Hj| |exact Hr].
  intros a ta []%not_elem_of_empty.
Qed.

(** A graph that unfolds to a tree is judged as the tree is. *)
Lemma isJsonGraph_tree h v t :
  heap_ok h -> gvalue_ok h v -> unfolds h v t -> isJsonGraph h v = Some (isJsonTree t).
Proof.
  intros Hh Hv Ht. destruct (isJsonGraph_total h v Hh Hv) as [b Hb]. rewrite Hb. f_equal.
  destruct (isJsonTree t) eqn:Hj.
  - assert (isJsonGraph h v = Some true) by (apply isJsonGraph_spec; eauto). congruence.
  - destruct b; [|done]. apply isJsonGraph_spec in Hb as (t' & Ht' & Hj'); [|done..].
    rewrite (unfolds_det _ _ _ Ht _ Ht') in Hj. congruence.
Qed.

(** ** Properties *)

(** C30: [isJsonValue] terminates on every object graph, cyclic ones included,
    and answers true exactly on those that unfold to a finite tree of JSON
    values. *)
Theorem isJsonValue_decides h v :
  heap_ok h -> gvalue_ok h v ->
  exists b, isJsonGraph h v = Some b /\
    (b = true <-> exists t, unfolds h v t /\ isJsonTree t = true).
Proof.
  intros Hh Hv. destruct (isJsonGraph_total h v Hh Hv) as [b Hb]. exists b. split; [done|].
  rewrite <- (isJsonGraph_spec h v Hh Hv), Hb. split; congruence.
Qed.

(** A record that contains itself is rejected: the cycle has no unfolding. *)
Lemma isJsonValue_decides_witness :
  let h := {[ 0%nat := GObj [(js "self", GRef 0); (js "n", GPrim Null)] ]} in
  isJsonGraph h (GRef 0) = Some false /\ ~ exists t, unfolds h (GRef 0) t /\ isJsonTree t = true.
Proof.
  intros h. assert (Hh : heap_ok h).
  { intros r n Hr. unfold h in Hr. apply lookup_singleton_Some in Hr as [<- <-]. simpl.
    apply Forall_cons_2; [unfold h; by eexists|]. apply Forall_cons_2; [done|]. constructor. }
  assert (Hv : gvalue_ok h (GRef 0)) by (unfold h; by eexists).
  destruct (isJsonValue_decides h (GRef 0) Hh Hv) as (b & Hb & Hiff).
  assert (Hf : isJsonGraph h (GRef 0) = Some false) by (vm_compute; reflexivity).
  split; [exact Hf|]. rewrite Hf in Hb. injection Hb as <-. intros Ht. apply Hiff in Ht. discriminate Ht.
Defined.
