(* ===== verification/Protocol.v ===== *)
(** * The wire protocol: sdk/typescript/src/protocol.ts and errors.ts

    Envelope constants, the client and server envelope validators, envelope
    creation, and the error classes.  [Date.parse] on strings outside the ISO
    format is implementation-defined; the section argument [fallback] stands
    for it. *)

From stdpp Require Import base tactics option list numbers strings gmap.
From Stdlib Require Import ZArith QArith Qabs Qround Lia Lqa.
From S2P Require Import Prelude JsString JsNumber JsValue JsDate JsonGraph.

Open Scope Z_scope.

(** ** Constants *)

Definition PROTOCOL_VERSION : jstr := js "1.0".
Definition WEBSOCKET_SUBPROTOCOL : jstr := js "realtime.v1".

Module messageTypes.
Definition ping := js "ping".
Definition subscribe := js "subscribe".
Definition unsubscribe := js "unsubscribe".
Definition publish := js "publish".
Definition acknowledge := js "ack".
Definition event := js "event".
Definition error := js "error".
Definition serviceRestart := js "service.restart".
End messageTypes.

Module protocolErrorCodes.
Definition invalidEnvelope := js "invalid_envelope".
Definition unsupportedVersion := js "unsupported_version".
Definition unsupportedType := js "unsupported_type".
End protocolErrorCodes.

Module closeCodes.
Definition normal : Z := 1000.
Definition serviceRestart : Z := 1012.
Definition authenticationExpired : Z := 4003.
Definition slowConsumer : Z := 4008.
Definition heartbeatTimeout : Z := 4009.
End closeCodes.

Definition clientTypes : list jstr :=
  [messageTypes.ping; messageTypes.subscribe; messageTypes.unsubscribe; messageTypes.publish].

Definition serverTypes : list jstr :=
  [messageTypes.acknowledge; messageTypes.event; messageTypes.error; messageTypes.ping;
   messageTypes.serviceRestart].

Definition maximumTimerDelayMilliseconds : Z := 2147483647.

(** ** Validation results *)

Inductive ValidationResult : Type :=
  | Valid (v : value)
  | Invalid (errorCode message : jstr).

Definition isValid (r : ValidationResult) : bool :=
  match r with Valid _ => true | Invalid _ _ => false end.

(** A non-blank string of at most [n] code units. *)
Definition bounded_text (n : nat) (v : value) : bool :=
  match v with
  | Str s => bool_decide (0 < length (trim s))%nat && bool_decide (length s <= n)%nat
  | _ => false
  end.

(** ** Server envelopes as typed data *)

Record ReconnectAdvice := {
  initialDelayMilliseconds : Z;
  maximumDelayMilliseconds : Z;
  jitterRatio : Q;
  reauthenticate : bool;
}.

Inductive ServerMessageType : Type := Ack | Event | ErrorType | Ping | ServiceRestart.

(** The members of the interface; [payload], [error] and [reconnect] are the
    optional ones, as the object has them. *)
Record ServerMessageEnvelope := {
  type : ServerMessageType;
  correlationId : jstr;
  timestamp : jstr;
  route : jstr;
  payload : value;
  error : value;
  reconnect : value;
}.

(** The types of the optional members: [T | null | undefined], and the interfaces
    [ProtocolErrorPayload] and [ReconnectAdvice]. *)
Definition optional (T : value -> Prop) (v : value) : Prop := isNullish v = true \/ T v.

Definition ProtocolErrorPayload (v : value) : Prop :=
  isRecord v = true /\ exists c m, get (js "code") v = Str c /\ get (js "message") v = Str m.

Definition ReconnectAdviceType (v : value) : Prop :=
  isRecord v = true /\ exists i m j b,
    get (js "initialDelayMilliseconds") v = Number i /\ get (js "maximumDelayMilliseconds") v = Number m /\
    get (js "jitterRatio") v = Number j /\ get (js "reauthenticate") v = Boolean b.

(** An envelope has the declared type when its optional members have theirs. *)
Definition declared (e : ServerMessageEnvelope) : Prop :=
  optional (fun v => isJsonTree v = true) (payload e) /\ optional ProtocolErrorPayload (error e) /\ optional ReconnectAdviceType (reconnect e).

(** The reading of a property bag at those types. *)
Definition read_advice (v : value) : option ReconnectAdvice :=
  match get (js "initialDelayMilliseconds") v, get (js "maximumDelayMilliseconds") v,
        get (js "jitterRatio") v, get (js "reauthenticate") v with
  | Number i, Number m, Number (Fin j), Boolean r =>
      i' ← to_Z i; m' ← to_Z m;
      Some {| initialDelayMilliseconds := i'; maximumDelayMilliseconds := m';
              jitterRatio := j; reauthenticate := r |}
  | _, _, _, _ => None
  end.

Definition read_type (v : value) : option ServerMessageType :=
  match v with
  | Str t =>
      if decide (t = messageTypes.acknowledge) then Some Ack
      else if decide (t = messageTypes.event) then Some Event
      else if decide (t = messageTypes.error) then Some ErrorType
      else if decide (t = messageTypes.ping) then Some Ping
      else if decide (t = messageTypes.serviceRestart) then Some ServiceRestart
      else None
  | _ => None
  end.

Definition read_envelope (v : value) : option ServerMessageEnvelope :=
  match read_type (get (js "type") v), get (js "correlationId") v, get (js "timestamp") v, get (js "route") v with
  | Some ty, Str c, Str t, Str r =>
      if is_str PROTOCOL_VERSION (get (js "version") v) then
        Some {| type := ty; correlationId := c; timestamp := t; route := r;
                payload := get (js "payload") v; error := get (js "error") v; reconnect := get (js "reconnect") v |}
      else None
  | _, _, _, _ => None
  end.

Section protocol.
Context (fallback : jstr -> option Z).

Definition hasEnvelopeStrings (v : value) : bool :=
  bounded_text 128 (get (js "correlationId") v)
  && isString (get (js "timestamp") v)
  && bool_decide (is_Some (date_parse fallback (str_of (get (js "timestamp") v))))
  && bounded_text 256 (get (js "route") v).

(** [validateClientEnvelope(value, now)], [now] in milliseconds. *)
Definition validateClientEnvelope (v : value) (now : Z) : ValidationResult :=
  if negb (isRecord v) || negb (hasEnvelopeStrings v) then
    Invalid protocolErrorCodes.invalidEnvelope (js "The message envelope is invalid.")
  else if negb (is_str PROTOCOL_VERSION (get (js "version") v)) then
    Invalid protocolErrorCodes.unsupportedVersion (js "The protocol version is not supported.")
  else if negb (one_of clientTypes (get (js "type") v)) then
    Invalid protocolErrorCodes.unsupportedType (js "The client message type is not supported.")
  else
    let ts := default 0 (date_parse fallback (str_of (get (js "timestamp") v))) in
    if (ts <? now - 5 * 60000) || (now + 60000 <? ts) then
      Invalid protocolErrorCodes.invalidEnvelope (js "Timestamp is outside the accepted clock-skew window.")
    else if is_str messageTypes.publish (get (js "type") v) && isNullish (get (js "payload") v) then
      Invalid protocolErrorCodes.invalidEnvelope (js "Publish payload is required.")
    else if has (js "payload") v && negb (isUndefined (get (js "payload") v))
            && negb (isJsonTree (get (js "payload") v)) then
      Invalid protocolErrorCodes.invalidEnvelope (js "Payload must contain only finite JSON values.")
    else Valid v.

(** The reconnect advice checks of [validateServerEnvelope], negated. *)
Definition adviceAccepted (r : value) : bool :=
  let init := get (js "initialDelayMilliseconds") r in
  let maxi := get (js "maximumDelayMilliseconds") r in
  let jit := get (js "jitterRatio") r in
  isRecord r
  && isNumber init && isSafeInteger (num_of init) && negb (nlt (num_of init) (int 0))
  && negb (ngt (num_of init) (int maximumTimerDelayMilliseconds))
  && isNumber maxi && isSafeInteger (num_of maxi) && negb (nlt (num_of maxi) (num_of init))
  && negb (ngt (num_of maxi) (int maximumTimerDelayMilliseconds))
  && isNumber jit && isFinite (num_of jit) && negb (nlt (num_of jit) (int 0))
  && negb (ngt (num_of jit) (int 1))
  && isBoolean (get (js "reauthenticate") r).

Definition validateServerEnvelope (v : value) : ValidationResult :=
  if negb (isRecord v) || negb (hasEnvelopeStrings v) then
    Invalid protocolErrorCodes.invalidEnvelope (js "The server message envelope is invalid.")
  else if negb (is_str PROTOCOL_VERSION (get (js "version") v)) then
    Invalid protocolErrorCodes.unsupportedVersion (js "The protocol version is not supported.")
  else if negb (one_of serverTypes (get (js "type") v)) then
    Invalid protocolErrorCodes.unsupportedType (js "The server message type is not supported.")
  else if has (js "payload") v && negb (isUndefined (get (js "payload") v))
          && negb (isJsonTree (get (js "payload") v)) then
    Invalid protocolErrorCodes.invalidEnvelope (js "Payload must contain only finite JSON values.")
  else
    let err := get (js "error") v in
    if is_str messageTypes.error (get (js "type") v)
       && (negb (isRecord err) || negb (isString (get (js "code") err))
           || negb (isString (get (js "message") err))) then
      Invalid protocolErrorCodes.invalidEnvelope (js "The error payload is invalid.")
    else if is_str messageTypes.serviceRestart (get (js "type") v)
            && negb (isNullish (get (js "reconnect") v))
            && negb (adviceAccepted (get (js "reconnect") v)) then
      Invalid protocolErrorCodes.invalidEnvelope (js "The reconnect advice is invalid.")
    else Valid v.

(** ** Creation *)

(** The object literal built by [createEnvelope]; an [undefined] payload is left out. *)
Definition envelope_object (t r : jstr) (p : value) (c : jstr) (created : Z) : value :=
  Obj ([(js "version", Str PROTOCOL_VERSION); (js "type", Str t); (js "correlationId", Str c);
        (js "timestamp", Str (toISOString created)); (js "route", Str r)]
       ++ (if isUndefined p then [] else [(js "payload", p)])).

(** [createEnvelope(type, route, payload, correlationId)]: [created] is the
    instant of [toISOString], [validated] the later default [now] of the
    validation; the error is the TypeError's message. *)
Definition createEnvelope (t r : jstr) (p : value) (c : jstr) (created validated : Z) : result jstr value :=
  let envelope := envelope_object t r p c created in
  match validateClientEnvelope envelope validated with
  | Valid _ => Ok envelope
  | Invalid _ m => Throw m
  end.
End protocol.

(** ** Errors: errors.ts *)

Record RealtimeError := {
  message : jstr;
  code : jstr;
  error_correlationId : option jstr;
}.

Definition newRealtimeError (m c : jstr) (corr : option jstr) : RealtimeError :=
  {| message := m; code := c; error_correlationId := corr |}.

(** [RealtimeError.fromEnvelope]: a missing [error] object is replaced. *)
Definition fromEnvelope (v : value) : RealtimeError :=
  let err := get (js "error") v in
  let error := if isNullish err then
      (js "invalid_envelope", js "The server returned an invalid error envelope.")
    else (str_of (get (js "code") err), str_of (get (js "message") err)) in
  newRealtimeError (snd error) (fst error) (Some (str_of (get (js "correlationId") v))).

Definition RealtimeConnectionError (m c : jstr) : RealtimeError := newRealtimeError m c None.

Definition RealtimeQueueError : RealtimeError :=
  newRealtimeError (js "The bounded client command queue is full.") (js "queue_saturated") None.

(** ** Lemmas *)

Lemma bounded_text_spec n v :
  bounded_text n v = true <->
  exists s, v = Str s /\ ~ Forall (fun c => is_space c = true) s /\ (length s <= n)%nat.
Proof.
  unfold bounded_text. destruct v; try (split; [done|by intros (? & [=] & _)]).
  rewrite andb_true_iff, !bool_decide_eq_true. split.
  - intros [H1 H2]. exists s. split; [done|]. split; [|done].
    intros H%trim_nil. rewrite H in H1. simpl in H1. lia.
  - intros (s' & [= <-] & H1 & H2). split; [|done]. rewrite <- trim_nil in H1.
    destruct (trim s); [done|]. simpl. lia.
Qed.

Section validated.
Context (fallback : jstr -> option Z).

(** What [hasEnvelopeStrings] establishes. *)
Definition strings_ok (v : value) (c ts r : jstr) (t : Z) : Prop :=
  get (js "correlationId") v = Str c /\ ~ Forall (fun u => is_space u = true) c /\ (length c <= 128)%nat /\
  get (js "timestamp") v = Str ts /\ date_parse fallback ts = Some t /\
  get (js "route") v = Str r /\ ~ Forall (fun u => is_space u = true) r /\ (length r <= 256)%nat.

Lemma hasEnvelopeStrings_spec v :
  hasEnvelopeStrings fallback v = true <-> exists c ts r t, strings_ok v c ts r t.
Proof.
  unfold hasEnvelopeStrings, strings_ok.
  rewrite !andb_true_iff, !bounded_text_spec, isString_spec, bool_decide_eq_true. split.
  - intros [[[(c & Hc & ? & ?) (ts & Hts)] [t Ht]] (r & Hr & ? & ?)].
    rewrite Hts in Ht. simpl in Ht. exists c, ts, r, t. done.
  - intros (c & ts & r & t & ? & ? & ? & Hts & Ht & ? & ? & ?). rewrite Hts. simpl.
    split_and!; eauto.
Qed.

(** The payload is absent, [undefined], or finite JSON. *)
Definition payload_ok (v : value) : Prop :=
  get (js "payload") v = Undefined \/ isJsonTree (get (js "payload") v) = true.

Lemma payload_check v :
  has (js "payload") v && negb (isUndefined (get (js "payload") v))
    && negb (isJsonTree (get (js "payload") v)) = false <-> payload_ok v.
Proof.
  unfold payload_ok. rewrite !andb_false_iff, !negb_false_iff. split.
  - intros [[H|H]|H]; [left; by apply has_get| |by right].
    left. by destruct (get (js "payload") v).
  - intros [H|H]; [|by right]. rewrite H. auto.
Qed.

Lemma validateClientEnvelope_iff v now w :
  validateClientEnvelope fallback v now = Valid w <->
  w = v /\ isRecord v = true /\
  (exists c ts r t, strings_ok v c ts r t /\ now - 300000 <= t <= now + 60000) /\
  get (js "version") v = Str PROTOCOL_VERSION /\
  (exists ty, get (js "type") v = Str ty /\ ty ∈ clientTypes /\
     (ty = messageTypes.publish -> isNullish (get (js "payload") v) = false)) /\
  payload_ok v.
Proof.
  unfold validateClientEnvelope.
  destruct (isRecord v) eqn:Hrec; simpl; [|by split; [|intros (_ & [=] & _)]].
  destruct (hasEnvelopeStrings fallback v) eqn:Hs; simpl.
  2:{ split; [done|]. intros (_ & _ & (c & ts & r & t & Ho & _) & _).
      assert (hasEnvelopeStrings fallback v = true) by (apply hasEnvelopeStrings_spec; eauto 10). congruence. }
  apply hasEnvelopeStrings_spec in Hs as (c & ts & r & t & Hok).
  pose proof Hok as (_ & _ & _ & Hts & Ht & _). rewrite Hts. simpl. rewrite Ht. simpl.
  destruct (is_str PROTOCOL_VERSION (get (js "version") v)) eqn:Hver; simpl.
  2:{ split; [done|]. intros (_ & _ & _ & Hv & _). apply is_str_spec in Hv. congruence. }
  apply is_str_spec in Hver.
  destruct (one_of clientTypes (get (js "type") v)) eqn:Hty; simpl.
  2:{ split; [done|]. intros (_ & _ & _ & _ & (ty & Ht1 & Ht2 & _) & _).
      assert (one_of clientTypes (get (js "type") v) = true) by (apply one_of_spec; eauto). congruence. }
  apply one_of_spec in Hty as (ty & Hty & Hin). rewrite Hty.
  assert (Hstr : forall a, is_str a (Str ty) = bool_decide (ty = a)) by done. rewrite Hstr.
  change (5 * 60000) with 300000.
  destruct (Z.ltb_spec t (now - 300000)); simpl.
  { split; [done|]. intros (_ & _ & (? & ? & ? & t' & (_ & _ & _ & Ha & Hb & _) & Hw) & _).
    rewrite Hts in Ha. simplify_eq. lia. }
  destruct (Z.ltb_spec (now + 60000) t); simpl.
  { split; [done|]. intros (_ & _ & (? & ? & ? & t' & (_ & _ & _ & Ha & Hb & _) & Hw) & _).
    rewrite Hts in Ha. simplify_eq. lia. }
  destruct (bool_decide (ty = messageTypes.publish) && isNullish (get (js "payload") v)) eqn:Hp.
  { apply andb_true_iff in Hp as [->%bool_decide_eq_true Hp2]. split; [done|].
    intros (_ & _ & _ & _ & (ty' & [= <-] & _ & Hnn) & _). specialize (Hnn eq_refl). congruence. }
  destruct (has (js "payload") v && _ && _) eqn:Hj.
  { split; [done|]. intros (_ & _ & _ & _ & _ & Hpay%payload_check). congruence. }
  apply payload_check in Hj. split; [|by intros (-> & _)].
  intros [= <-]. split_and!; try done.
  - exists c, ts, r, t. split; [done|lia].
  - exists ty. split_and!; [done..|]. intros ->. by rewrite bool_decide_true in Hp.
Qed.
End validated.

(** ** Server envelopes: acceptance gives a typed reading *)

(** The bounds reconnect advice obeys: timer-safe delays in order, a ratio in [0, 1]. *)
Definition advice_ok (a : ReconnectAdvice) : Prop :=
  0 <= initialDelayMilliseconds a <= maximumDelayMilliseconds a /\
  maximumDelayMilliseconds a <= maximumTimerDelayMilliseconds /\
  (0 <= jitterRatio a <= 1)%Q.

Lemma isSafeInteger_int n : isSafeInteger n = true -> exists q, n = Fin q /\ q == inject_Z (Qfloor q) /\ to_Z n = Some (Qfloor q).
Proof.
  destruct n as [| |q]; try done. simpl. intros [H _]%andb_true_iff. rewrite H.
  exists q. split; [done|]. split; [|done]. symmetry. by apply Qeq_bool_iff.
Qed.

Lemma nlt_Fin_false p q : nlt (Fin p) (Fin q) = false <-> (q <= p)%Q.
Proof. simpl. rewrite negb_false_iff. apply Qle_bool_iff. Qed.

Lemma adviceAccepted_read r :
  adviceAccepted r = true -> ReconnectAdviceType r /\ exists a, read_advice r = Some a /\ advice_ok a.
Proof.
  unfold adviceAccepted, read_advice, advice_ok. intros H. bool_to_prop.
  destruct (get (js "initialDelayMilliseconds") r) as [| | |i| | | |] eqn:Gi; try done.
  destruct (get (js "maximumDelayMilliseconds") r) as [| | |m| | | |] eqn:Gm; try done.
  destruct (get (js "jitterRatio") r) as [| | |j| | | |] eqn:Gj; try done.
  unfold num_of, ngt, int in *.
  destruct (get (js "reauthenticate") r) as [| |b| | | | |] eqn:Gb; try done.
  repeat match goal with H : isSafeInteger _ = true |- _ =>
    let Hz := fresh in apply isSafeInteger_int in H as (? & -> & ? & Hz); rewrite Hz end.
  destruct j as [| |j]; try done.
  repeat match goal with H : nlt _ _ = false |- _ => apply nlt_Fin_false in H end.
  split; [split; [done|eauto 10]|]. clear Gi Gm Gj Gb. simpl. eexists. split; [done|]. simpl.
  repeat match goal with H : ?x == inject_Z _ |- _ => rewrite H in *|-; clear H end.
  repeat match goal with H : (inject_Z _ <= inject_Z _)%Q |- _ => rewrite <- Zle_Qle in H end.
  split_and!; try done.
Qed.

(** Each type of the list is read as the constructor it names. *)
Lemma read_type_spec t : t ∈ serverTypes ->
  exists ty, read_type (Str t) = Some ty /\ (ty = ErrorType <-> t = messageTypes.error) /\ (ty = ServiceRestart <-> t = messageTypes.serviceRestart).
Proof.
  unfold serverTypes. rewrite !elem_of_cons, elem_of_nil.
  intros [->|[->|[->|[->|[->|[]]]]]]; eexists; (split; [reflexivity|]); (split; split; intros H; (reflexivity || discriminate H)).
Qed.

(** ** Creation *)

Section creation.
Context (fallback : jstr -> option Z).

(** What the caller of [createEnvelope] must supply. *)
Definition envelope_arguments (t r : jstr) (p : value) (c : jstr) : Prop :=
  t ∈ clientTypes /\
  (~ Forall (fun u => is_space u = true) c /\ (length c <= 128)%nat) /\
  (~ Forall (fun u => is_space u = true) r /\ (length r <= 256)%nat) /\
  (t = messageTypes.publish -> isNullish p = false) /\
  (p = Undefined \/ isJsonTree p = true).

(** The fields of the object literal, one lookup each. *)
Lemma envelope_object_fields t r p c created :
  let e := envelope_object t r p c created in
  get (js "version") e = Str PROTOCOL_VERSION /\ get (js "type") e = Str t /\
  get (js "correlationId") e = Str c /\ get (js "timestamp") e = Str (toISOString created) /\
  get (js "route") e = Str r /\ get (js "payload") e = p.
Proof. split_and!; try done. by destruct p. Qed.

Lemma date_parse_toISOString t : four_digit_year t -> date_parse fallback (toISOString t) = Some t.
Proof. intros H. unfold date_parse. by rewrite iso_roundtrip. Qed.

Lemma createEnvelope_Ok t r p c created validated e :
  createEnvelope fallback t r p c created validated = Ok e <->
  e = envelope_object t r p c created /\
  is_ok (createEnvelope fallback t r p c created validated) = true.
Proof.
  unfold createEnvelope. destruct (validateClientEnvelope _ _ _); simpl; [|by split; [|intros [_ [=]]]].
  split; [by intros [= <-]|by intros [-> _]].
Qed.
End creation.

(** ** Properties *)

(** C6: a server envelope that [validateServerEnvelope] accepts is the given object
    and has, at their declared types, a known message type, a correlation id of at
    most 128 and a route of at most 256 code units, a timestamp that parses and a
    payload that is absent or finite JSON.  The optional member [error] has its
    declared type when the message is an error (where it is present), [reconnect]
    when it is a service restart (then, when present, with delays
    0 <= initial <= maximum <= 2147483647 and a jitter ratio in [0, 1]).  On messages
    of other types these two members are not examined: the envelope has the declared
    type of the cast exactly when they happen to have theirs. *)
Theorem validateServerEnvelope_typed fallback v w :
  validateServerEnvelope fallback v = Valid w ->
  w = v /\ payload_ok v /\
  exists e, read_envelope v = Some e /\
    is_Some (date_parse fallback (timestamp e)) /\
    (length (correlationId e) <= 128 /\ length (route e) <= 256)%nat /\
    (type e = ErrorType -> ProtocolErrorPayload (error e)) /\
    (type e = ServiceRestart -> optional (fun r => ReconnectAdviceType r /\ exists a, read_advice r = Some a /\ advice_ok a) (reconnect e)) /\
    (declared e <-> (type e <> ErrorType -> optional ProtocolErrorPayload (error e)) /\
                    (type e <> ServiceRestart -> optional ReconnectAdviceType (reconnect e))).
Proof.
  unfold validateServerEnvelope. repeat case_match; intros; simplify_eq. bool_to_prop.
  match goal with H : hasEnvelopeStrings _ _ = true |- _ =>
    apply hasEnvelopeStrings_spec in H as (c & ts & r & t & Hc & _ & Hcl & Hts & Hp & Hr & _ & Hrl) end.
  match goal with H : one_of _ _ = true |- _ => apply one_of_spec in H as (ty & Hty & Hin) end.
  match goal with H : has _ _ && _ && _ = false |- _ => apply payload_check in H as Hpay end.
  split; [done|]. split; [done|].
  destruct (read_type_spec ty Hin) as (kind & Hk & Hke & Hkr).
  unfold read_envelope. rewrite Hty, Hk, Hc, Hts, Hr. match goal with H : is_str PROTOCOL_VERSION _ = true |- _ => rewrite H end.
  eexists. split; [done|]. cbn [type error reconnect payload timestamp correlationId route]. split; [by rewrite Hp|]. split; [done|].
  rewrite Hty in *. unfold is_str, strict_eq in *.
  assert (kind = ErrorType -> ProtocolErrorPayload (get (js "error") w)) as He.
  { intros ->%Hke. rewrite bool_decide_true in * by done. simpl in *. bool_to_prop. split; [done|].
    repeat match goal with H : isString _ = true |- _ => apply isString_spec in H as [? ?] end. eauto. }
  assert (kind = ServiceRestart -> optional (fun r => ReconnectAdviceType r /\ exists a, read_advice r = Some a /\ advice_ok a) (get (js "reconnect") w)) as Ha.
  { intros ->%Hkr. rewrite (bool_decide_true (messageTypes.serviceRestart = _)) in * by done. simpl in *.
    match goal with H : _ && _ = false |- _ => apply andb_false_iff in H as [?%negb_false_iff|?%negb_false_iff] end;
      [by left|right; by apply adviceAccepted_read]. }
  split; [done|]. split; [done|]. unfold declared. cbn [type error reconnect payload]. split; [tauto|]. intros [Hn1 Hn2].
  split; [destruct Hpay as [->|]; [by left|by right]|]. split.
  - destruct (decide (ty = messageTypes.error)) as [E|E]; [right; apply He; tauto|apply Hn1; tauto].
  - destruct (decide (ty = messageTypes.serviceRestart)) as [E|E]; [|apply Hn2; tauto].
    destruct Ha as [?|[? _]]; [tauto|by left|by right].
Qed.

Definition sampleRestart : value :=
  Obj [(js "version", Str (js "1.0")); (js "type", Str (js "service.restart"));
       (js "correlationId", Str (js "restart-1")); (js "timestamp", Str (js "2026-08-30T17:00:00.100Z"));
       (js "route", Str (js "service.restart"));
       (js "reconnect", Obj [(js "initialDelayMilliseconds", Number (int 250));
                             (js "maximumDelayMilliseconds", Number (int 5000));
                             (js "jitterRatio", Number (Fin (1 # 4)));
                             (js "reauthenticate", Boolean true)])].

Lemma validateServerEnvelope_typed_witness : exists e, read_envelope sampleRestart = Some e /\ declared e.
Proof.
  destruct (validateServerEnvelope_typed (fun _ => None) sampleRestart sampleRestart) as (_ & _ & e & He & _ & _ & _ & _ & Hd).
  - vm_compute. reflexivity.
  - exists e. split; [exact He|]. apply Hd. injection He as <-. cbn [type error reconnect]. split; [left; reflexivity|].
    intros H. destruct (H eq_refl).
Defined.

(** The members a message type does not use are cast without a test: an
    acknowledgement whose [error] is a number is accepted as a
    [ServerMessageEnvelope]. *)
Lemma unused_members_untested :
  let v := Obj [(js "version", Str (js "1.0")); (js "type", Str (js "ack")); (js "correlationId", Str (js "c-1"));
                (js "timestamp", Str (js "2026-08-30T17:00:00.100Z")); (js "route", Str (js "orders")); (js "error", Number (int 42))] in
  validateServerEnvelope (fun _ => None) v = Valid v /\ exists e, read_envelope v = Some e /\ ~ declared e.
Proof.
  split; [vm_compute; reflexivity|]. eexists. split; [reflexivity|]. intros (_ & [[=]|[[=] _]] & _).
Qed.

(** [validateClientEnvelope] accepts exactly the records with well-formed
    strings, the protocol version, a client message type, a timestamp between
    five minutes before and one minute after [now], a payload when publishing,
    and a payload that is finite JSON. *)
Theorem validateClientEnvelope_complete fallback v now :
  validateClientEnvelope fallback v now = Valid v <->
  isRecord v = true /\
  (exists c ts r t, strings_ok fallback v c ts r t /\ now - 300000 <= t <= now + 60000) /\
  get (js "version") v = Str PROTOCOL_VERSION /\
  (exists ty, get (js "type") v = Str ty /\ ty ∈ clientTypes /\
     (ty = messageTypes.publish -> isNullish (get (js "payload") v) = false)) /\
  payload_ok v.
Proof. rewrite validateClientEnvelope_iff. tauto. Qed.

(** when creation and validation happen within five minutes of each other,
    [createEnvelope] returns the envelope it built exactly when its arguments
    are a client type, a non-blank correlation id and route within their
    lengths and a JSON payload, present when publishing; otherwise it throws.
    The printed timestamp is parsed back on the way. *)
Theorem createEnvelope_iff fallback t r p c created validated e :
  four_digit_year created -> created <= validated <= created + 300000 ->
  createEnvelope fallback t r p c created validated = Ok e <->
  e = envelope_object t r p c created /\ envelope_arguments t r p c.
Proof.
  intros Hy Hw. rewrite createEnvelope_Ok. apply and_iff_compat_l.
  set (v := envelope_object t r p c created).
  destruct (envelope_object_fields t r p c created) as (Hv & Ht & Hc & Hts & Hr & Hp). fold v in Hv, Ht, Hc, Hts, Hr, Hp.
  transitivity (validateClientEnvelope fallback v validated = Valid v).
  { unfold createEnvelope. fold v. destruct (validateClientEnvelope fallback v validated) eqn:E; simpl; [|done].
    apply validateClientEnvelope_iff in E as [-> _]. done. }
  rewrite validateClientEnvelope_iff. unfold strings_ok, payload_ok, envelope_arguments. rewrite Hv, Ht, Hc, Hts, Hr, Hp.
  split.
  - intros (_ & _ & (c' & ts & r' & t' & ([= <-] & ? & ? & [= <-] & ? & [= <-] & ? & ?) & ?) & _ & (ty & [= <-] & ? & ?) & ?).
    done.
  - intros (? & [? ?] & [? ?] & ? & ?). split_and!; try done; [|by exists t].
    exists c, (toISOString created), r, created. rewrite date_parse_toISOString by done. split_and!; try done; lia.
Qed.

Lemma createEnvelope_iff_witness :
  createEnvelope (fun _ => None) (js "publish") (js "orders") (Obj [(js "id", Number (int 7))]) (js "c-1")
    1788109200100 1788109200101
  = Ok (envelope_object (js "publish") (js "orders") (Obj [(js "id", Number (int 7))]) (js "c-1") 1788109200100).
Proof.
  apply createEnvelope_iff; [split; vm_compute; congruence|lia|]. split; [reflexivity|].
  assert (Hty : js "publish" ∈ clientTypes) by (apply memb_spec; reflexivity).
  assert (Hjs : forall n s, (match js s with [] => false | u :: _ => negb (is_space u) end) && bool_decide (length (js s) <= n)%nat = true ->
      ~ Forall (fun u => is_space u = true) (js s) /\ (length (js s) <= n)%nat).
  { intros n s [H1 H2%bool_decide_eq_true]%andb_true_iff. split; [|done]. destruct (js s); [done|].
    intros [Hu _]%Forall_cons. by rewrite Hu in H1. }
  do 3 (split; [assumption || (apply Hjs; reflexivity)|]). split; [reflexivity|right; reflexivity].
Defined.
