(* ===== verification/Regex.v ===== *)
(** * Regular expressions

    The sources validate names, paths and versions with regular expressions.
    A pattern is translated to the type [re] below; [test] decides it by
    Brzozowski derivatives and [lang] is its language.  Every pattern of the
    sources is either anchored on both sides or searched for at the end of the
    string, so it denotes a language of whole strings; a look-ahead becomes an
    intersection ([And]) and a negative one a complement ([Not]). *)

From stdpp Require Import base tactics option list numbers.
From Stdlib Require Import NArith Lia.
From S2P Require Import Prelude JsString.

Inductive re : Type :=
  | Empty
  | Eps
  | Cls (negated : bool) (ranges : list (N * N))
  | Cat (r s : re)
  | Alt (r s : re)
  | And (r s : re)
  | Not (r : re)
  | Star (r : re).

#[global] Instance re_eq_dec : EqDecision re.
Proof. solve_decision. Defined.

Definition in_class (neg : bool) (ranges : list (N * N)) (c : N) : bool :=
  xorb neg (existsb (fun ab => (ab.1 <=? c) && (c <=? ab.2)) ranges).

(** ** Languages *)

Fixpoint lang (r : re) (s : jstr) : Prop :=
  match r with
  | Empty => False
  | Eps => s = []
  | Cls neg l => exists c, s = [c] /\ in_class neg l c = true
  | Cat a b => exists u v, s = u ++ v /\ lang a u /\ lang b v
  | Alt a b => lang a s \/ lang b s
  | And a b => lang a s /\ lang b s
  | Not a => ~ lang a s
  | Star a => exists l, s = concat l /\ Forall (lang a) l
  end.

(** ** Derivatives *)

Fixpoint nullable (r : re) : bool :=
  match r with
  | Empty | Cls _ _ => false
  | Eps | Star _ => true
  | Cat a b | And a b => nullable a && nullable b
  | Alt a b => nullable a || nullable b
  | Not a => negb (nullable a)
  end.

(** Simplifying constructors: they keep the terms small while a string is read. *)
Fixpoint alt_mem (r s : re) : bool :=
  bool_decide (r = s) || match s with Alt a b => bool_decide (r = a) || alt_mem r b | _ => false end.

Fixpoint alt (r s : re) : re :=
  match r with
  | Empty => s
  | Alt a b => alt a (alt b s)
  | _ => match s with Empty => r | _ => if alt_mem r s then s else Alt r s end
  end.

Definition cat (r s : re) : re :=
  match r, s with
  | Empty, _ | _, Empty => Empty
  | Eps, _ => s
  | _, Eps => r
  | _, _ => Cat r s
  end.

Definition and_ (r s : re) : re :=
  match r, s with
  | Empty, _ | _, Empty => Empty
  | _, _ => if bool_decide (r = s) then r else And r s
  end.

Fixpoint deriv (c : N) (r : re) : re :=
  match r with
  | Empty | Eps => Empty
  | Cls neg l => if in_class neg l c then Eps else Empty
  | Cat a b => if nullable a then alt (cat (deriv c a) b) (deriv c b) else cat (deriv c a) b
  | Alt a b => alt (deriv c a) (deriv c b)
  | And a b => and_ (deriv c a) (deriv c b)
  | Not a => Not (deriv c a)
  | Star a => cat (deriv c a) (Star a)
  end.

Fixpoint test (r : re) (s : jstr) : bool :=
  match s with
  | [] => nullable r
  | c :: s' => test (deriv c r) s'
  end.

(** ** Derived forms *)

Definition anyunit : re := Cls true [].
(** [.]: any code unit but a line terminator. *)
Definition dot : re := Cls true [(10, 10); (13, 13); (8232, 8233)].
Definition unit_re (c : N) : re := Cls false [(c, c)].
Definition lit (s : jstr) : re := foldr (fun c r => Cat (unit_re c) r) Eps s.
Definition opt (r : re) : re := Alt Eps r.
Definition plus (r : re) : re := Cat r (Star r).
Definition alts (l : list re) : re := foldr Alt Empty l.
Definition cats (l : list re) : re := foldr Cat Eps l.
(** [{0,m}] and [{n,m}] *)
Fixpoint upto (m : nat) (r : re) : re :=
  match m with O => Eps | S k => Alt Eps (Cat r (upto k r)) end.
Fixpoint rep (n m : nat) (r : re) : re :=
  match n, m with
  | S n', S m' => Cat r (rep n' m' r)
  | _, _ => upto m r
  end.
(** [/r$/]: the match ends at the end of the string. *)
Definition ends_in (r : re) : re := Cat (Star anyunit) r.
(** [/^r/]: the match starts at the start of the string. *)
Definition starts_with (r : re) : re := Cat r (Star anyunit).

(** A letter under the [i] flag. *)
Definition unit_i (c : N) : re :=
  if (97 <=? c) && (c <=? 122) then Cls false [(c, c); (c - 32, c - 32)]
  else if (65 <=? c) && (c <=? 90) then Cls false [(c, c); (c + 32, c + 32)]
  else unit_re c.
Definition lit_i (s : jstr) : re := foldr (fun c r => Cat (unit_i c) r) Eps s.

Definition lower_r : N * N := (97, 122).
Definition upper_r : N * N := (65, 90).
Definition digit_r : N * N := (48, 57).
(** The single units of a literal, as ranges of a class. *)
Definition units (s : jstr) : list (N * N) := (fun c => (c, c)) <$> s.

(** ** Correctness of [test] *)

Lemma lang_alt_mem r s x : alt_mem r s = true -> lang r x -> lang s x.
Proof.
  induction s; simpl; intros H Hr;
    apply orb_true_iff in H as [H%bool_decide_eq_true|H]; try (by subst); try done.
  apply orb_true_iff in H as [H%bool_decide_eq_true|H]; [by subst; left|right; auto].
Qed.

Lemma lang_alt_leaf r s x :
  lang (match s with Empty => r | _ => if alt_mem r s then s else Alt r s end) x <-> lang r x \/ lang s x.
Proof.
  assert (Hm : alt_mem r s = true -> lang r x -> lang s x) by apply lang_alt_mem.
  destruct s; [simpl; tauto|..]; destruct (alt_mem r _); simpl in *; tauto.
Qed.

Lemma lang_alt r s x : lang (alt r s) x <-> lang r x \/ lang s x.
Proof.
  revert s; induction r as [| | | |a IHa b IHb| | |]; intros s; cbn [alt]; try apply lang_alt_leaf.
  - simpl. tauto.
  - rewrite IHa, IHb. simpl. tauto.
Qed.

Lemma lang_cat r s x : lang (cat r s) x <-> lang (Cat r s) x.
Proof.
  assert (He : lang (Cat Eps s) x <-> lang s x).
  { simpl. split; [by intros (? & ? & -> & -> & ?)|]. intros. by exists [], x. }
  assert (Hr : lang (Cat r Eps) x <-> lang r x).
  { simpl. split; [intros (? & ? & -> & ? & ->); by rewrite app_nil_r|]. intros. exists x, []. by rewrite app_nil_r. }
  assert (H0 : lang (Cat Empty s) x <-> False) by (simpl; firstorder).
  assert (H1 : lang (Cat r Empty) x <-> False) by (simpl; firstorder).
  unfold cat. destruct r, s; first [done|by rewrite He|by rewrite Hr|by rewrite H0|by rewrite H1].
Qed.

Lemma lang_and r s x : lang (and_ r s) x <-> lang r x /\ lang s x.
Proof.
  unfold and_. destruct r, s; try case_bool_decide; simplify_eq; simpl; tauto.
Qed.

Lemma nullable_spec r : nullable r = true <-> lang r [].
Proof.
  induction r as [| |neg l|a IHa b IHb|a IHa b IHb|a IHa b IHb|a IHa|a IHa]; simpl.
  - done.
  - done.
  - split; [done|by intros (? & ? & _)].
  - rewrite andb_true_iff, IHa, IHb. split; [intros [? ?]; by exists [], []|].
    intros (u & v & Huv & ? & ?). symmetry in Huv. by apply app_eq_nil in Huv as [-> ->].
  - by rewrite orb_true_iff, IHa, IHb.
  - by rewrite andb_true_iff, IHa, IHb.
  - rewrite negb_true_iff, <- IHa. by destruct (nullable a).
  - split; [|done]. intros _. by exists [].
Qed.

Lemma deriv_spec c r s : lang (deriv c r) s <-> lang r (c :: s).
Proof.
  revert s; induction r as [| |neg l|a IHa b IHb|a IHa b IHb|a IHa b IHb|a IHa|a IHa]; intros s; simpl.
  - done.
  - done.
  - destruct (in_class neg l c) eqn:E; simpl.
    + split; [intros ->; eauto|]. by intros (d & [= <- ->] & _).
    + split; [done|]. intros (d & [= <- ->] & ?). congruence.
  - assert (Hc : lang (cat (deriv c a) b) s <-> exists u v, s = u ++ v /\ lang a (c :: u) /\ lang b v).
    { rewrite lang_cat. simpl. split; intros (u & v & ? & ?%IHa & ?); eauto. }
    assert (Hs : (exists u v, c :: s = u ++ v /\ lang a u /\ lang b v) <->
                 (exists u v, s = u ++ v /\ lang a (c :: u) /\ lang b v) \/ (lang a [] /\ lang b (c :: s))).
    { split.
      - intros ([|d u] & v & Huv & ? & ?); simpl in Huv; simplify_eq; [by right|left; eauto].
      - intros [(u & v & -> & ? & ?)|[? ?]]; [by exists (c :: u), v|by exists [], (c :: s)]. }
    rewrite Hs. destruct (nullable a) eqn:En.
    + rewrite lang_alt, Hc, IHb. apply nullable_spec in En. tauto.
    + rewrite Hc. assert (~ lang a []) by (rewrite <- nullable_spec; congruence). tauto.
  - by rewrite lang_alt, IHa, IHb.
  - by rewrite lang_and, IHa, IHb.
  - by rewrite IHa.
  - rewrite lang_cat. simpl. split.
    + intros (u & v & -> & Hu%IHa & l & -> & Hl). exists ((c :: u) :: l). split; [done|by constructor].
    + intros (l & Hs & Hl). induction l as [|[|d w] l IHl]; [done|by inversion Hl; auto|].
      inversion Hl; subst. simpl in Hs. simplify_eq. exists w, (concat l). split_and!; [done|by apply IHa|eauto].
Qed.

Lemma test_spec r s : test r s = true <-> lang r s.
Proof.
  revert r; induction s as [|c s IH]; intros r; simpl; [apply nullable_spec|].
  rewrite IH. apply deriv_spec.
Qed.

(** ** Lengths and classes of a language *)

(** Every string of the language is made of units allowed by [p]. *)
Definition units_in (p : N -> Prop) (r : re) : Prop := forall s, lang r s -> Forall p s.

Lemma lang_lit s x : lang (lit s) x <-> x = s.
Proof.
  revert x; induction s as [|c s IH]; intros x; simpl; [done|]. split.
  - intros (u & v & -> & (d & -> & Hd) & ->%IH). unfold in_class in Hd. simpl in Hd.
    rewrite orb_false_r in Hd. apply andb_true_iff in Hd as [?%N.leb_le ?%N.leb_le]. simpl. f_equal. lia.
  - intros ->. exists [c], s. split; [done|]. split; [|by apply IH].
    exists c. split; [done|]. unfold in_class. simpl. by rewrite N.leb_refl.
Qed.

Lemma lang_upto_cls m neg l s :
  lang (upto m (Cls neg l)) s <-> (length s <= m)%nat /\ Forall (fun c => in_class neg l c = true) s.
Proof.
  revert s; induction m as [|m IH]; intros s; simpl.
  - split; [by intros ->|]. destruct s; simpl; [done|lia].
  - split.
    + intros [->|(u & v & -> & (c & -> & ?) & [? ?]%IH)]; simpl; [split; [lia|done]|].
      split; [lia|by constructor].
    + intros [Hl Hf]. destruct s as [|c s]; [by left|right]. inversion Hf; subst.
      exists [c], s. split; [done|]. split; [eauto|]. apply IH. simpl in Hl. split; [lia|done].
Qed.

Lemma lang_rep_cls n m neg l s :
  (n <= m)%nat ->
  lang (rep n m (Cls neg l)) s <-> (n <= length s <= m)%nat /\ Forall (fun c => in_class neg l c = true) s.
Proof.
  revert m s; induction n as [|n IH]; intros m s Hnm.
  - change (rep 0 m (Cls neg l)) with (upto m (Cls neg l)). rewrite lang_upto_cls. intuition lia.
  - destruct m as [|m]; [lia|]. simpl. split.
    + intros (u & v & -> & (c & -> & ?) & [? ?]%IH); [|lia]. simpl. split; [lia|by constructor].
    + intros [Hl Hf]. destruct s as [|c s]; simpl in Hl; [lia|]. inversion Hf; subst.
      exists [c], s. split; [done|]. split; [eauto|]. apply IH; [lia|]. split; [lia|done].
Qed.

Lemma lang_star_cls neg l s :
  lang (Star (Cls neg l)) s <-> Forall (fun c => in_class neg l c = true) s.
Proof.
  simpl. split.
  - intros (ws & -> & Hw). induction Hw as [|w ws (c & -> & ?) _ IH]; simpl; [done|by constructor].
  - intros Hs. exists ((fun c => [c]) <$> s). split; [by induction s; simpl; inversion Hs; f_equal; auto|].
    apply Forall_fmap. eapply Forall_impl; [|exact Hs]. simpl. eauto.
Qed.

Lemma lang_plus_cls neg l s :
  lang (plus (Cls neg l)) s <-> s <> [] /\ Forall (fun c => in_class neg l c = true) s.
Proof.
  unfold plus. split.
  - intros (u & v & -> & (c & -> & ?) & Hv%lang_star_cls). split; [done|by constructor].
  - intros [Hn Hf]. destruct s as [|c s]; [done|]. inversion Hf; subst.
    exists [c], s. split; [done|]. split; [by exists c|by apply lang_star_cls].
Qed.

Lemma lang_anything s : lang (Star anyunit) s.
Proof. apply lang_star_cls. apply Forall_forall. done. Qed.

(** A star of non-empty pieces, as used for repeated separators. *)
Lemma lang_star_intro r l : Forall (lang r) l -> lang (Star r) (concat l).
Proof. intros. by exists l. Qed.

#[global] Hint Resolve lang_anything lang_star_intro : realtime.
