(* ===== verification/CiImpact.v ===== *)
(** * CI job selection: scripts/ci-impact.mjs

    Which validation jobs a change set needs, and the final gate that checks
    that exactly those jobs ran and succeeded.  [git diff] is a parameter. *)

From stdpp Require Import base tactics option list numbers strings.
From Stdlib Require Import ZArith NArith Lia.
From S2P Require Import Prelude JsString JsNumber JsValue Regex.

Open Scope N_scope.

Definition adapterJobs : list jstr :=
  [js "node-express"; js "java-spring-boot"; js "kotlin-ktor"; js "rust-axum"; js "go-gin";
   js "elixir-phoenix"; js "php-laravel"; js "python-fastapi"; js "ruby-rails"; js "swift-vapor"].
Definition automationJobs : list jstr :=
  [js "helm-and-automation"; js "bootstrap-powershell-windows"; js "bootstrap-lifecycle-parity"].
Definition runtimeJobs : list jstr := [js "build-test-aot"] ++ adapterJobs ++ [js "full-circle"].
Definition validationJobs : list jstr :=
  automationJobs ++ [js "build-test-aot"; js "dependency-review"] ++ adapterJobs ++ [js "full-circle"].

(** The pattern of [isDependency], alternative by alternative. *)
Definition dependencyFile : re :=
  let dots := Star dot in
  alts
    [ cats [lit (js "package"); opt (lit (js "-lock")); lit (js ".json")];
      lit (js "packages.lock.json");
      Cat (lit (js "Cargo.")) (Alt (lit (js "toml")) (lit (js "lock")));
      Cat (lit (js "go.")) (Alt (lit (js "mod")) (lit (js "sum")));
      Cat (lit (js "mix.")) (Alt (lit (js "exs")) (lit (js "lock")));
      Cat (lit (js "Gemfile")) (opt (lit (js ".lock")));
      Cat (lit (js "composer.")) (Alt (lit (js "json")) (lit (js "lock")));
      lit (js "pom.xml");
      cats [dots; lit (js ".gradle"); opt (lit (js ".kts"))];
      lit (js "gradle.lockfile");
      Cat (lit (js "Package.")) (Alt (lit (js "swift")) (lit (js "resolved")));
      lit (js "uv.lock"); lit (js "pyproject.toml"); lit (js "global.json");
      Cat (lit (js "Directory.Build.")) (Alt (lit (js "props")) (lit (js "targets")));
      Cat dots (lit (js ".csproj")) ].
Definition dependencyPath : re := Cat (opt (ends_in (lit (js "/")))) dependencyFile.

Definition isDependency (path : jstr) : bool :=
  test dependencyPath path
  || startsWith (js ".github/workflows/") path || startsWith (js ".github/actions/") path.

(** [/^(?:README|CHANGELOG|LICENSE)(?:\.md)?$/] *)
Definition rootDocument : re :=
  Cat (alts [lit (js "README"); lit (js "CHANGELOG"); lit (js "LICENSE")]) (opt (lit (js ".md"))).

Definition anyPrefix (ps : list jstr) (path : jstr) : bool := existsb (fun p => startsWith p path) ps.

Definition pull_request : jstr := js "pull_request".

Definition all_jobs (eventName : jstr) : list jstr :=
  filter (fun job => job <> js "dependency-review" \/ eventName = pull_request) validationJobs.

(** The body of the loop of [selectJobs]: the jobs one path adds, where [all]
    is the list computed for the event. *)
Definition jobsOf (all : list jstr) (path : jstr) : list jstr :=
  (if isDependency path then [js "dependency-review"] else []) ++
  (if startsWith (js ".github/") path || (startsWith (js "scripts/") path && negb (endsWith (js ".md") path)) then all
   else if anyPrefix [js "src/"; js "sdk/"; js "protocol/"; js "examples/shared-web/"; js "examples/browser/"; js "examples/full-circle/"] path
   then runtimeJobs
   else if anyPrefix [js "bootstrap/"; js "helm/"; js "cluster/"] path
   then automationJobs ++ [js "build-test-aot"; js "full-circle"]
   else if startsWith (js "tests/bootstrap/") path then automationJobs
   else if anyPrefix [js "tests/"; js "tools/"; js "load/"; js "observability/"] path
           || bool_decide (path = js "scripts/README.md")
   then js "build-test-aot" :: (if startsWith (js "observability/") path then [js "helm-and-automation"] else [])
   else if startsWith (js "examples/") path then
     match list_find (fun job => startsWith (js "examples/" ++ job ++ js "/") path = true) adapterJobs with
     | Some (_, adapter) => [adapter; js "build-test-aot"]
     | None =>
         if anyPrefix [js "examples/aspnet-core/"; js "examples/dotnet-client/"] path then [js "build-test-aot"] else all
     end
   else if anyPrefix [js "docs/"; js "refs/"] path || test rootDocument path then []
   else all).

(** The loop: the [Set] accumulates, only membership is observed. *)
Fixpoint accumulate (all : list jstr) (paths : list jstr) (selected : list jstr) : list jstr :=
  match paths with
  | [] => selected
  | p :: paths' => accumulate all paths' (selected ++ jobsOf all p)
  end.

(** [paths] is [null] when the comparison is unavailable; an absent event name
    takes the default of the parameter. *)
Definition selectJobs (paths : option (list jstr)) (eventName : option jstr) : list jstr :=
  let event := default pull_request eventName in
  let all := all_jobs event in
  match paths with
  | Some ps => if bool_decide (event = pull_request)
               then filter (fun job => job ∈ accumulate all ps []) validationJobs
               else all
  | None => all
  end.

(** ** Changed files *)

(** [/^[a-f0-9]{40}$/] *)
Definition commitSha : re := rep 40 40 (Cls false [(97, 102); digit_r]).

Section git.
(** [git diff --name-only --no-renames -z base...head --], which may fail. *)
Context (gitDiff : jstr -> jstr -> result jstr jstr).

Definition changedFiles (base head : option jstr) : result jstr (list jstr) :=
  if negb (test commitSha (default [] base)) || negb (test commitSha (default [] head)) then
    Throw (js "Full base and head commit SHAs are required.")
  else
    out ← gitDiff (default [] base) (default [] head);
    Ok (filter (fun s => s <> []) (split_on 0 out)).

(** The [select] command of [main], up to writing the output files. *)
Definition select_main (eventName base head : option jstr) : list jstr :=
  let paths :=
    if bool_decide (eventName = Some pull_request) then
      match changedFiles base head with Ok ps => Some ps | Throw _ => None end
    else None in
  selectJobs paths eventName.
End git.

(** ** The gate *)

Definition expectedResult (selected : list value) (job : jstr) : jstr :=
  if existsb (is_str job) selected then js "success" else js "skipped".

(** The errors of [checkResults]; [JobsFailed] carries the job, its result
    ([undefined] or [null] is printed as "missing") and the expected result of
    each entry of [failures]. *)
Inductive gate_error : Type :=
  | InvalidSelection
  | ChangesFailed
  | JobsFailed (failures : list (jstr * value * jstr)).

(** One turn of the loop over [validationJobs]. *)
Definition failure_of (selected : list value) (results : value) (job : jstr) : list (jstr * value * jstr) :=
  let result := optget (js "result") (get job results) in
  let expected := expectedResult selected job in
  if is_str expected result then [] else [(job, result, expected)].

Definition checkResults (selected results : value) : result gate_error unit :=
  if negb (isArray selected) || negb (Nat.eqb (set_size (items_of selected)) (length (items_of selected)))
     || existsb (fun job => negb (one_of validationJobs job)) (items_of selected) then
    Throw InvalidSelection
  else if negb (is_str (js "success") (optget (js "result") (get (js "changes") results))) then
    Throw ChangesFailed
  else
    match validationJobs ≫= failure_of (items_of selected) results with
    | [] => Ok tt
    | failures => Throw (JobsFailed failures)
    end.

Example select_docs : selectJobs (Some [js "docs/a.md"; js "README.md"]) (Some pull_request) = [].
Proof. vm_compute. reflexivity. Qed.
Example select_adapter :
  selectJobs (Some [js "examples/go-gin/main.go"]) (Some pull_request) = [js "build-test-aot"; js "go-gin"].
Proof. vm_compute. reflexivity. Qed.
Example select_docs_dependency :
  selectJobs (Some [js "docs/site/package-lock.json"]) (Some pull_request) = [js "dependency-review"].
Proof. vm_compute. reflexivity. Qed.

(** ** Lemmas *)

Lemma accumulate_spec all ps acc job :
  job ∈ accumulate all ps acc <-> job ∈ acc \/ exists p, p ∈ ps /\ job ∈ jobsOf all p.
Proof.
  revert acc; induction ps as [|p ps IH]; intros acc; simpl.
  - split; [auto|]. intros [?|(? & []%not_elem_of_nil & _)]; done.
  - rewrite IH, elem_of_app. setoid_rewrite elem_of_cons. clear IH. naive_solver.
Qed.

Lemma selectJobs_elem ps job :
  job ∈ selectJobs (Some ps) (Some pull_request) <->
  job ∈ validationJobs /\ exists p, p ∈ ps /\ job ∈ jobsOf validationJobs p.
Proof.
  change (selectJobs (Some ps) (Some pull_request))
    with (filter (fun job => job ∈ accumulate validationJobs ps []) validationJobs).
  rewrite list_elem_of_filter, accumulate_spec.
  rewrite elem_of_nil. tauto.
Qed.

Lemma nonempty_elem {A} (l : list A) : l <> [] <-> exists x, x ∈ l.
Proof.
  split; [destruct l as [|x l]; [done|]; exists x; left|]. intros (x & Hx) ->. by apply not_elem_of_nil in Hx.
Qed.

Lemma validationJobs_NoDup : NoDup validationJobs.
Proof. apply (bool_decide_unpack _). vm_compute. exact I. Qed.

(** A path that is documentation only. *)
Definition documentation (path : jstr) : bool :=
  negb (isDependency path)
  && (anyPrefix [js "docs/"; js "refs/"] path || test rootDocument path).

Lemma startsWith_two p q s :
  startsWith p s = true -> startsWith q s = true -> startsWith p q = true \/ startsWith q p = true.
Proof.
  revert q s; induction p as [|a p IH]; intros [|b q] [|c s]; simpl; auto; try done.
  rewrite !andb_true_iff, !N.eqb_eq. intros [-> ?] [-> ?]. destruct (IH q s); auto.
Qed.

Lemma set_of_extends l acc : exists t, set_of l acc = acc ++ t /\ (length t <= length l)%nat.
Proof.
  revert acc; induction l as [|v l IH]; intros acc; simpl; [exists []; by rewrite app_nil_r|].
  destruct (existsb _ _).
  - destruct (IH acc) as (t & -> & ?). exists t. split; [done|lia].
  - destruct (IH (acc ++ [v])) as (t & -> & ?). exists (v :: t). rewrite <- app_assoc. simpl. split; [done|lia].
Qed.

Lemma set_size_strings l acc :
  length (set_of (Str <$> l) (Str <$> acc)) = (length acc + length l)%nat <->
  NoDup l /\ (forall x, x ∈ l -> x ∉ acc).
Proof.
  revert acc; induction l as [|s l IH]; intros acc; rewrite ?fmap_cons; cbn [set_of].
  - simpl. rewrite length_fmap. split; [split; [constructor|intros ? []%not_elem_of_nil]|lia].
  - assert (Hex : existsb (strict_eq (Str s)) (Str <$> acc) = bool_decide (s ∈ acc)).
    { clear IH. induction acc as [|a acc IHa]; [done|]. rewrite fmap_cons. cbn [existsb]. rewrite IHa.
      change (strict_eq (Str s) (Str a)) with (bool_decide (s = a)). rewrite <- bool_decide_or.
      apply bool_decide_ext. by rewrite elem_of_cons. }
    rewrite Hex, NoDup_cons. cbn [length]. case_bool_decide as Hs.
    + destruct (set_of_extends (Str <$> l) (Str <$> acc)) as (t & -> & Ht).
      rewrite length_app, length_fmap. rewrite length_fmap in Ht. split; [lia|].
      intros [_ Hn]. destruct (Hn s); [left|done].
    + change ([Str s]) with (Str <$> [s]). rewrite <- fmap_app.
      replace (length acc + S (length l))%nat with (length (acc ++ [s]) + length l)%nat by (rewrite length_app; simpl; lia).
      rewrite IH. setoid_rewrite elem_of_app. setoid_rewrite elem_of_cons. setoid_rewrite elem_of_nil. naive_solver.
Qed.

Lemma failure_nil selected results job :
  failure_of selected results job = [] <->
  optget (js "result") (get job results) = Str (expectedResult selected job).
Proof.
  unfold failure_of. rewrite <- is_str_spec. by destruct (is_str _ _).
Qed.

Lemma bind_nil {A B} (f : A -> list B) l : l ≫= f = [] <-> forall x, x ∈ l -> f x = [].
Proof.
  induction l as [|x l IH]; simpl; [split; [intros _ ? []%not_elem_of_nil|done]|]. split.
  - intros [Hx Hl]%app_eq_nil y [->|Hy]%elem_of_cons; [done|]. by apply IH.
  - intros H. rewrite (H x) by left. simpl. apply IH. intros y Hy. apply H. by right.
Qed.

(** Two prefixes that disagree cannot both start a path. *)
Lemma startsWith_clash p q s :
  startsWith p q = false -> startsWith q p = false -> startsWith q s = true -> startsWith p s = false.
Proof.
  intros Hpq Hqp Hq. destruct (startsWith p s) eqn:Hp; [|done].
  destruct (startsWith_two p q s Hp Hq); congruence.
Qed.

Lemma rootDocument_cases path :
  test rootDocument path = true ->
  path ∈ [js "README"; js "README.md"; js "CHANGELOG"; js "CHANGELOG.md"; js "LICENSE"; js "LICENSE.md"].
Proof.
  rewrite test_spec. intros (u & v & -> & Hu & Hv). apply (bool_decide_unpack _).
  destruct Hv as [-> | ->%lang_lit]; destruct Hu as [->%lang_lit|[->%lang_lit|[->%lang_lit|[]]]]; vm_compute; exact I.
Qed.

Lemma documentation_other path q :
  anyPrefix [js "docs/"; js "refs/"] path || test rootDocument path = true ->
  startsWith q (js "docs/") = false -> startsWith (js "docs/") q = false ->
  startsWith q (js "refs/") = false -> startsWith (js "refs/") q = false ->
  Forall (fun d => startsWith q d = false)
    [js "README"; js "README.md"; js "CHANGELOG"; js "CHANGELOG.md"; js "LICENSE"; js "LICENSE.md"] ->
  startsWith q path = false.
Proof.
  intros [H|H]%orb_true_iff Hd Hd' Hr Hr' Hf.
  - unfold anyPrefix in H. cbn [existsb] in H. rewrite orb_false_r in H.
    apply orb_true_iff in H as [H|H]; by eapply startsWith_clash; [..|exact H].
  - apply rootDocument_cases in H. by eapply Forall_forall in Hf.
Qed.

Lemma jobsOf_documentation path : documentation path = true -> jobsOf validationJobs path = [].
Proof.
  unfold documentation, jobsOf. intros [Hd H]%andb_true_iff. apply negb_true_iff in Hd. rewrite Hd.
  assert (Hq : forall q, forallb (fun d => negb (startsWith q d)) [js "docs/"; js "refs/"; js "README"; js "README.md"; js "CHANGELOG"; js "CHANGELOG.md"; js "LICENSE"; js "LICENSE.md"]
      && negb (startsWith (js "docs/") q) && negb (startsWith (js "refs/") q) = true -> startsWith q path = false).
  { intros q Hq. cbn [forallb] in Hq. bool_to_prop. eapply documentation_other; [exact H|assumption..|].
    repeat (apply Forall_cons_2; [assumption|]). constructor. }
  unfold anyPrefix in *. cbn [existsb].
  rewrite !(Hq _) by (vm_compute; reflexivity). cbn [existsb] in H. cbn [orb andb].
  case_bool_decide as Heq; [|by rewrite H]. rewrite Heq in H. vm_compute in H. done.
Qed.

Lemma jobsOf_nonempty path : documentation path = false -> jobsOf validationJobs path <> [].
Proof.
  unfold documentation, jobsOf. destruct (isDependency path); [done|].
  intros H. cbn [negb andb] in H. rewrite H. cbn [app]. repeat case_match; done.
Qed.

Lemma jobsOf_subset path : jobsOf validationJobs path ⊆ validationJobs.
Proof.
  unfold jobsOf. apply list_subseteq_app_iff_l. split; [case_match; [|apply list_subseteq_nil]; apply (bool_decide_unpack _); vm_compute; exact I|].
  assert (Hs : forall l : list jstr, bool_decide (l ⊆ validationJobs) = true -> l ⊆ validationJobs) by (intros l; apply bool_decide_eq_true).
  repeat case_match; try (apply Hs; vm_compute; reflexivity); try done.
  match goal with H : list_find _ _ = Some _ |- _ => apply list_find_Some in H as (Hl & _) end.
  apply list_elem_of_lookup_2 in Hl. intros x [->|Hx]%elem_of_cons; [|revert x Hx; apply Hs; vm_compute; reflexivity].
  revert Hl. apply Hs. vm_compute. reflexivity.
Qed.

Lemma expectedResult_spec jobs job :
  expectedResult (Str <$> jobs) job = if decide (job ∈ jobs) then js "success" else js "skipped".
Proof.
  unfold expectedResult.
  replace (existsb (is_str job) (Str <$> jobs)) with (bool_decide (job ∈ jobs)); [by repeat case_decide|].
  induction jobs as [|j jobs IH]; [done|]. rewrite fmap_cons. cbn [existsb]. rewrite <- IH.
  change (is_str job (Str j)) with (bool_decide (j = job)). rewrite <- bool_decide_or.
  apply bool_decide_ext. rewrite elem_of_cons. naive_solver.
Qed.

Lemma strings_in jobs :
  existsb (fun job => negb (one_of validationJobs job)) (Str <$> jobs) = false <-> jobs ⊆ validationJobs.
Proof.
  induction jobs as [|j jobs IH]; [split; [intros _; apply list_subseteq_nil|done]|].
  rewrite fmap_cons. cbn [existsb]. rewrite orb_false_iff, negb_false_iff, IH.
  change (one_of validationJobs (Str j)) with (memb j validationJobs). rewrite memb_spec.
  split.
  - intros [? Hs] x [->|Hx]%elem_of_cons; [done|auto].
  - intros Hs. split; [apply Hs; left|]. intros x Hx. apply Hs. by right.
Qed.

Lemma strings_of l :
  existsb (fun job => negb (one_of validationJobs job)) l = false ->
  exists jobs, l = Str <$> jobs /\ jobs ⊆ validationJobs.
Proof.
  intros H. assert (Hs : exists jobs, l = Str <$> jobs).
  { induction l as [|v l IH]; [by exists []|]. cbn [existsb] in H. apply orb_false_iff in H as [Hv H].
    destruct (IH H) as (jobs & ->). apply negb_false_iff, one_of_spec in Hv as (s & -> & _). by exists (s :: jobs). }
  destruct Hs as (jobs & ->). exists jobs. split; [done|]. by apply strings_in.
Qed.

(** ** Properties *)

(** on a pull request a job is selected exactly when one of the changed
    paths calls for it: the accumulation over paths and the final filter lose
    nothing and add nothing. *)
Theorem selectJobs_exact ps job :
  job ∈ selectJobs (Some ps) (Some pull_request) <-> exists p, p ∈ ps /\ job ∈ jobsOf validationJobs p.
Proof.
  rewrite selectJobs_elem. split; [tauto|]. intros (p & Hp & Hj). split; [|eauto]. by apply jobsOf_subset in Hj.
Qed.

(** a pull request runs no validation job at all only when every changed
    path is documentation: under docs/ or refs/ or a root README, CHANGELOG or
    LICENSE, and not a dependency manifest. *)
Theorem selectJobs_nothing ps :
  selectJobs (Some ps) (Some pull_request) = [] <-> Forall (fun p => documentation p = true) ps.
Proof.
  rewrite Forall_forall. split.
  - intros H p Hp. destruct (documentation p) eqn:Hd; [done|exfalso].
    apply jobsOf_nonempty, nonempty_elem in Hd as (job & Hj).
    assert (Hin : job ∈ selectJobs (Some ps) (Some pull_request)); [|rewrite H in Hin; by apply not_elem_of_nil in Hin].
    apply selectJobs_elem. split; [by apply jobsOf_subset in Hj|eauto].
  - intros H. destruct (selectJobs _ _) as [|job l] eqn:E; [done|exfalso].
    assert (Hin : job ∈ selectJobs (Some ps) (Some pull_request)) by (rewrite E; left).
    apply selectJobs_elem in Hin as (_ & p & Hp & Hj). rewrite jobsOf_documentation in Hj by auto.
    by apply not_elem_of_nil in Hj.
Qed.

(** the CI gate passes exactly when the selection is a duplicate-free list
    of validation jobs, change detection succeeded, every selected job
    succeeded and every other validation job was skipped. *)
Theorem checkResults_iff selected results :
  checkResults selected results = Ok tt <->
  exists jobs, selected = Arr (Str <$> jobs) /\ NoDup jobs /\ jobs ⊆ validationJobs /\
    optget (js "result") (get (js "changes") results) = Str (js "success") /\
    forall job, job ∈ validationJobs ->
      optget (js "result") (get job results) = Str (if decide (job ∈ jobs) then js "success" else js "skipped").
Proof.
  unfold checkResults. split.
  - destruct selected as [| | | | |l| |]; try done. cbn [isArray items_of negb orb].
    destruct (existsb _ l) eqn:Hex; [rewrite orb_true_r; done|].
    destruct (Nat.eqb_spec (set_size l) (length l)) as [Hsz|]; [|done]. cbn [negb orb].
    destruct (is_str (js "success") _) eqn:Hc; [|done]. apply is_str_spec in Hc.
    destruct (validationJobs ≫= failure_of l results) eqn:Hf; [|done]. intros _. rewrite bind_nil in Hf.
    destruct (strings_of l) as (jobs & -> & Hj); [exact Hex|]. exists jobs.
    assert (Hnd : NoDup jobs).
    { unfold set_size in Hsz. rewrite length_fmap in Hsz. by apply (set_size_strings jobs []) in Hsz as [? _]. }
    split_and!; [done..|]. intros job Hjob. rewrite <- expectedResult_spec. by apply failure_nil, Hf.
  - intros (jobs & -> & Hnd & Hsub & Hc & Hall). cbn [isArray items_of negb orb].
    assert (Hsz : set_size (Str <$> jobs) = length (Str <$> jobs)).
    { unfold set_size. rewrite length_fmap. apply (set_size_strings jobs []). split; [done|]. intros x _ []%not_elem_of_nil. }
    rewrite Hsz, Nat.eqb_refl. cbn [negb orb]. rewrite (proj2 (strings_in jobs)) by done.
    rewrite Hc. change (is_str (js "success") (Str (js "success"))) with true. cbn [negb].
    replace (validationJobs ≫= failure_of (Str <$> jobs) results) with (@nil (jstr * value * jstr)); [done|symmetry].
    apply bind_nil. intros job Hjob. apply failure_nil. rewrite expectedResult_spec. auto.
Qed.
