(* ===== verification/Reconnect.v ===== *)
(** * Reconnect backoff: the delay computed by scheduleReconnect in client.ts

    [exponential * (1 - jitter + (2 * jitter * random))], evaluated in binary64
    with the rounding of every operation, then [Math.round] and [Math.max]. *)

From stdpp Require Import base tactics option list numbers.
From Stdlib Require Import ZArith QArith Qabs Qround Qpower Lia Lqa.
From S2P Require Import Prelude JsString JsNumber.

Open Scope Z_scope.

(** ** Binary64 operations *)

Definition nadd (a b : num) : num :=
  match a, b with
  | NaN, _ | _, NaN => NaN
  | Inf s, Inf t => if Bool.eqb s t then Inf s else NaN
  | Inf s, _ | _, Inf s => Inf s
  | Fin p, Fin q => round64 (p + q)
  end.
Definition nsub (a b : num) : num := nadd a (nopp b).

Definition negative (q : Q) : bool := negb (Qle_bool 0 q).
Definition nmul (a b : num) : num :=
  match a, b with
  | NaN, _ | _, NaN => NaN
  | Inf s, Inf t => Inf (xorb s t)
  | Inf s, Fin q | Fin q, Inf s => if Qeq_bool q 0 then NaN else Inf (xorb s (negative q))
  | Fin p, Fin q => round64 (p * q)
  end.

(** [2 ** k] for a natural number [k]. *)
Definition npow2 (k : Z) : num := if k <=? 1023 then Fin (inject_Z (2 ^ k)) else Inf false.

(** [Math.min], [Math.max] on numbers other than [NaN]. *)
Definition nmin (a b : num) : num := if nlt b a then b else a.
Definition nmax (a b : num) : num := if nlt a b then b else a.

(** [Math.round]: the nearest integer, ties upwards. *)
Definition nround (a : num) : num :=
  match a with Fin q => int (Qfloor (q + (1 # 2))) | _ => a end.

(** ** The delay *)

Definition attemptDelay (initial : num) (attempt : Z) : num :=
  let exponentialBase := if neq_num initial (int 0) then int 1 else initial in
  if attempt =? 0 then initial else nmul exponentialBase (npow2 (attempt - 1)).

Definition reconnectDelay (initial maximum jitter : num) (attempt : Z) (random : num) : num :=
  let exponential := nmin maximum (attemptDelay initial attempt) in
  nmax (int 0) (nround (nmul exponential
    (nadd (nsub (int 1) jitter) (nmul (nmul (int 2) jitter) random)))).

Example delay_first : reconnectDelay (int 500) (int 30000) (Fin 0) 0 (Fin (1 # 2)) = int 500.
Proof. vm_compute. reflexivity. Qed.
Example delay_capped : reconnectDelay (int 500) (int 30000) (Fin (1 # 4)) 11 (Fin (1 # 2)) = int 30000.
Proof. vm_compute. reflexivity. Qed.
Example delay_overflow_exponent : reconnectDelay (int 1) (int 30000) (Fin 0) 2000 (Fin 0) = int 30000.
Proof. vm_compute. reflexivity. Qed.
