(* ===== verification/ClientState.v ===== *)
(** * State of the realtime client: sdk/typescript/src/client.ts

    The fields of [RealtimeClient], the objects its closures share (sockets
    with the variables of their [onopen]/[onclose] closures, listener sets,
    promises) and the suspended continuations of its async functions.

    Promises, sockets, signals, listener sets and registrations are objects
    with identity: natural numbers allocated from one counter. *)

From stdpp Require Import base tactics option list numbers strings gmap.
From Stdlib Require Import ZArith QArith Lia.
From S2P Require Import Prelude JsString JsNumber JsValue Protocol.

Open Scope Z_scope.

Inductive ClientStateValue : Type := idle | connecting | open | reconnecting | closing | closed.
#[global] Instance ClientStateValue_eq_dec : EqDecision ClientStateValue.
Proof. solve_decision. Defined.

(** A value thrown or a rejection reason: a [RealtimeError] or another [Error]
    with its message. *)
Inductive failure : Type :=
  | Realtime (e : RealtimeError)
  | OtherError (message : jstr).

Inductive outcome : Type :=
  | Resolved
  | Rejected (f : failure).

(** What [emit] and the delivery to subscription listeners hand to consumer code. *)
Inductive emission : Type :=
  | EState (s : ClientStateValue)
  | EClose (code : Z) (reason : jstr) (expected : bool)
  | EEvent (envelope : value)
  | EError (e : RealtimeError)
  | EDeliver (registration : nat) (envelope : value).

(** [QueuedCommand]: [promises] are the promises its [resolve] and [reject]
    settle; [listening] says that [removeAbortListener] is present. *)
Record command := Command {
  cmd_type : jstr;
  cmd_route : jstr;
  cmd_correlation : jstr;
  cmd_envelope : value;
  cmd_promises : list nat;
  cmd_signal : option nat;
  cmd_listening : bool;
}.

(** [PendingCommand]; its acknowledgement timer runs exactly as long as the
    entry is in [pending]. *)
Record PendingCommand := Pending {
  p_promises : list nat;
  p_signal : option nat;
}.

(** The caller of [openSocket]: [connect] with its promise, or the reconnect timer. *)
Inductive origin : Type :=
  | FromConnect (connection : nat)
  | FromTimer.

Record attempt := Attempt {
  a_generation : Z;
  a_origin : origin;
  a_controller : nat;
  a_signals : list nat;
}.

Definition a_reconnecting (a : attempt) : bool :=
  match a_origin a with FromConnect _ => false | FromTimer => true end.

(** A transport socket with the closure variables [settled] and
    [connectionEstablished]; [s_sync] tells a transport whose [close] invokes
    [onclose] before it returns. *)
Record socketObject := Socket {
  s_readyState : Z;
  s_sync : bool;
  s_attempt : attempt;
  s_settled : bool;
  s_established : bool;
  s_abortListening : bool;
  s_sent : list value;
}.

Definition CONNECTING : Z := 0.
Definition OPEN : Z := 1.
Definition CLOSING : Z := 2.
Definition CLOSED : Z := 3.

(** Suspended continuations. *)
Inductive stage : Type := AwaitSubscribe | AwaitCleanup.

Inductive task : Type :=
  (** [openSocket] after [await this.createConnectionUrl(...)] *)
  | TUrl (a : attempt)
  (** the handlers attached to [openSocket]'s promise *)
  | TOpened (a : attempt) (r : outcome)
  (** [restoreSubscriptionsAndFlush] awaiting the acknowledgement of [route] *)
  | TRestore (socket : nat) (awaited : nat) (st : stage) (route : jstr) (routes : list jstr)
             (queuedSubscriptions : list (jstr * command)) (failures : list RealtimeError)
  (** the [then] and the [catch] attached to it in [onopen] *)
  | TRestored (socket : nat) (r : outcome)
  | TRestoreFailed (socket : nat) (f : failure)
  (** [establishSubscription] *)
  | TEstablish (route : jstr) (cmd : nat) (awaited : nat) (st : stage) (self : nat)
  (** [subscribe] awaiting [waitForSubscription] *)
  | TSubscribe (route : jstr) (set : nat) (registration : nat) (awaited : nat) (signal : option nat) (self : nat)
  (** the unsubscribe closure awaiting its command *)
  | TUnsubscribe (route : jstr) (set : nat) (registration : nat) (awaited : nat) (self : nat)
  (** [ping] of the heartbeat, [connect] of [sendCommand] *)
  | TPing (awaited : nat)
  | TConnect (awaited : nat).

(** The closure of a successful [subscribe]: [active] and [unsubscribePromise]. *)
Record handle := Handle {
  h_route : jstr;
  h_active : bool;
  h_unsubscribing : option nat;
}.

Record RealtimeClient := Client {
  pending : list (jstr * PendingCommand);
  queued : list command;
  subscriptions : list (jstr * nat);
  subscriptionCommands : list (jstr * nat);
  socket : option nat;
  stateValue : ClientStateValue;
  connectPromise : option nat;
  connectAbortController : option nat;
  reconnectTimer : option nat;
  heartbeatTimer : option nat;
  reconnectAttempt : Z;
  generation : Z;
  intentionalClose : bool;
  serverReconnectAdvice : option ReconnectAdvice;
  (* objects reachable from the fields *)
  sockets : gmap nat socketObject;
  sets : gmap nat (list nat);
  handles : gmap nat handle;
  promises : gmap nat outcome;
  aborted : gmap nat failure;
  timers : list (nat * num);
  tasks : list task;
  emitted : list emission;
  next : nat;
}.

Definition initial : RealtimeClient :=
  {| pending := []; queued := []; subscriptions := []; subscriptionCommands := []; socket := None;
     stateValue := idle; connectPromise := None; connectAbortController := None; reconnectTimer := None;
     heartbeatTimer := None; reconnectAttempt := 0; generation := 0; intentionalClose := false;
     serverReconnectAdvice := None; sockets := ∅; sets := ∅; handles := ∅; promises := ∅; aborted := ∅;
     timers := []; tasks := []; emitted := []; next := 0 |}.

(** ** Field updates *)

Definition set_pending v (c : RealtimeClient) : RealtimeClient :=
  Client v (c.(queued)) (c.(subscriptions)) (c.(subscriptionCommands)) (c.(socket)) (c.(stateValue)) (c.(connectPromise)) (c.(connectAbortController)) (c.(reconnectTimer)) (c.(heartbeatTimer)) (c.(reconnectAttempt)) (c.(generation)) (c.(intentionalClose)) (c.(serverReconnectAdvice)) (c.(sockets)) (c.(sets)) (c.(handles)) (c.(promises)) (c.(aborted)) (c.(timers)) (c.(tasks)) (c.(emitted)) (c.(next)).
Definition set_queued v (c : RealtimeClient) : RealtimeClient :=
  Client (c.(pending)) v (c.(subscriptions)) (c.(subscriptionCommands)) (c.(socket)) (c.(stateValue)) (c.(connectPromise)) (c.(connectAbortController)) (c.(reconnectTimer)) (c.(heartbeatTimer)) (c.(reconnectAttempt)) (c.(generation)) (c.(intentionalClose)) (c.(serverReconnectAdvice)) (c.(sockets)) (c.(sets)) (c.(handles)) (c.(promises)) (c.(aborted)) (c.(timers)) (c.(tasks)) (c.(emitted)) (c.(next)).
Definition set_subscriptions v (c : RealtimeClient) : RealtimeClient :=
  Client (c.(pending)) (c.(queued)) v (c.(subscriptionCommands)) (c.(socket)) (c.(stateValue)) (c.(connectPromise)) (c.(connectAbortController)) (c.(reconnectTimer)) (c.(heartbeatTimer)) (c.(reconnectAttempt)) (c.(generation)) (c.(intentionalClose)) (c.(serverReconnectAdvice)) (c.(sockets)) (c.(sets)) (c.(handles)) (c.(promises)) (c.(aborted)) (c.(timers)) (c.(tasks)) (c.(emitted)) (c.(next)).
Definition set_subscriptionCommands v (c : RealtimeClient) : RealtimeClient :=
  Client (c.(pending)) (c.(queued)) (c.(subscriptions)) v (c.(socket)) (c.(stateValue)) (c.(connectPromise)) (c.(connectAbortController)) (c.(reconnectTimer)) (c.(heartbeatTimer)) (c.(reconnectAttempt)) (c.(generation)) (c.(intentionalClose)) (c.(serverReconnectAdvice)) (c.(sockets)) (c.(sets)) (c.(handles)) (c.(promises)) (c.(aborted)) (c.(timers)) (c.(tasks)) (c.(emitted)) (c.(next)).
Definition set_socket v (c : RealtimeClient) : RealtimeClient :=
  Client (c.(pending)) (c.(queued)) (c.(subscriptions)) (c.(subscriptionCommands)) v (c.(stateValue)) (c.(connectPromise)) (c.(connectAbortController)) (c.(reconnectTimer)) (c.(heartbeatTimer)) (c.(reconnectAttempt)) (c.(generation)) (c.(intentionalClose)) (c.(serverReconnectAdvice)) (c.(sockets)) (c.(sets)) (c.(handles)) (c.(promises)) (c.(aborted)) (c.(timers)) (c.(tasks)) (c.(emitted)) (c.(next)).
Definition set_stateValue v (c : RealtimeClient) : RealtimeClient :=
  Client (c.(pending)) (c.(queued)) (c.(subscriptions)) (c.(subscriptionCommands)) (c.(socket)) v (c.(connectPromise)) (c.(connectAbortController)) (c.(reconnectTimer)) (c.(heartbeatTimer)) (c.(reconnectAttempt)) (c.(generation)) (c.(intentionalClose)) (c.(serverReconnectAdvice)) (c.(sockets)) (c.(sets)) (c.(handles)) (c.(promises)) (c.(aborted)) (c.(timers)) (c.(tasks)) (c.(emitted)) (c.(next)).
Definition set_connectPromise v (c : RealtimeClient) : RealtimeClient :=
  Client (c.(pending)) (c.(queued)) (c.(subscriptions)) (c.(subscriptionCommands)) (c.(socket)) (c.(stateValue)) v (c.(connectAbortController)) (c.(reconnectTimer)) (c.(heartbeatTimer)) (c.(reconnectAttempt)) (c.(generation)) (c.(intentionalClose)) (c.(serverReconnectAdvice)) (c.(sockets)) (c.(sets)) (c.(handles)) (c.(promises)) (c.(aborted)) (c.(timers)) (c.(tasks)) (c.(emitted)) (c.(next)).
Definition set_connectAbortController v (c : RealtimeClient) : RealtimeClient :=
  Client (c.(pending)) (c.(queued)) (c.(subscriptions)) (c.(subscriptionCommands)) (c.(socket)) (c.(stateValue)) (c.(connectPromise)) v (c.(reconnectTimer)) (c.(heartbeatTimer)) (c.(reconnectAttempt)) (c.(generation)) (c.(intentionalClose)) (c.(serverReconnectAdvice)) (c.(sockets)) (c.(sets)) (c.(handles)) (c.(promises)) (c.(aborted)) (c.(timers)) (c.(tasks)) (c.(emitted)) (c.(next)).
Definition set_reconnectTimer v (c : RealtimeClient) : RealtimeClient :=
  Client (c.(pending)) (c.(queued)) (c.(subscriptions)) (c.(subscriptionCommands)) (c.(socket)) (c.(stateValue)) (c.(connectPromise)) (c.(connectAbortController)) v (c.(heartbeatTimer)) (c.(reconnectAttempt)) (c.(generation)) (c.(intentionalClose)) (c.(serverReconnectAdvice)) (c.(sockets)) (c.(sets)) (c.(handles)) (c.(promises)) (c.(aborted)) (c.(timers)) (c.(tasks)) (c.(emitted)) (c.(next)).
Definition set_heartbeatTimer v (c : RealtimeClient) : RealtimeClient :=
  Client (c.(pending)) (c.(queued)) (c.(subscriptions)) (c.(subscriptionCommands)) (c.(socket)) (c.(stateValue)) (c.(connectPromise)) (c.(connectAbortController)) (c.(reconnectTimer)) v (c.(reconnectAttempt)) (c.(generation)) (c.(intentionalClose)) (c.(serverReconnectAdvice)) (c.(sockets)) (c.(sets)) (c.(handles)) (c.(promises)) (c.(aborted)) (c.(timers)) (c.(tasks)) (c.(emitted)) (c.(next)).
Definition set_reconnectAttempt v (c : RealtimeClient) : RealtimeClient :=
  Client (c.(pending)) (c.(queued)) (c.(subscriptions)) (c.(subscriptionCommands)) (c.(socket)) (c.(stateValue)) (c.(connectPromise)) (c.(connectAbortController)) (c.(reconnectTimer)) (c.(heartbeatTimer)) v (c.(generation)) (c.(intentionalClose)) (c.(serverReconnectAdvice)) (c.(sockets)) (c.(sets)) (c.(handles)) (c.(promises)) (c.(aborted)) (c.(timers)) (c.(tasks)) (c.(emitted)) (c.(next)).
Definition set_generation v (c : RealtimeClient) : RealtimeClient :=
  Client (c.(pending)) (c.(queued)) (c.(subscriptions)) (c.(subscriptionCommands)) (c.(socket)) (c.(stateValue)) (c.(connectPromise)) (c.(connectAbortController)) (c.(reconnectTimer)) (c.(heartbeatTimer)) (c.(reconnectAttempt)) v (c.(intentionalClose)) (c.(serverReconnectAdvice)) (c.(sockets)) (c.(sets)) (c.(handles)) (c.(promises)) (c.(aborted)) (c.(timers)) (c.(tasks)) (c.(emitted)) (c.(next)).
Definition set_intentionalClose v (c : RealtimeClient) : RealtimeClient :=
  Client (c.(pending)) (c.(queued)) (c.(subscriptions)) (c.(subscriptionCommands)) (c.(socket)) (c.(stateValue)) (c.(connectPromise)) (c.(connectAbortController)) (c.(reconnectTimer)) (c.(heartbeatTimer)) (c.(reconnectAttempt)) (c.(generation)) v (c.(serverReconnectAdvice)) (c.(sockets)) (c.(sets)) (c.(handles)) (c.(promises)) (c.(aborted)) (c.(timers)) (c.(tasks)) (c.(emitted)) (c.(next)).
Definition set_serverReconnectAdvice v (c : RealtimeClient) : RealtimeClient :=
  Client (c.(pending)) (c.(queued)) (c.(subscriptions)) (c.(subscriptionCommands)) (c.(socket)) (c.(stateValue)) (c.(connectPromise)) (c.(connectAbortController)) (c.(reconnectTimer)) (c.(heartbeatTimer)) (c.(reconnectAttempt)) (c.(generation)) (c.(intentionalClose)) v (c.(sockets)) (c.(sets)) (c.(handles)) (c.(promises)) (c.(aborted)) (c.(timers)) (c.(tasks)) (c.(emitted)) (c.(next)).
Definition set_sockets v (c : RealtimeClient) : RealtimeClient :=
  Client (c.(pending)) (c.(queued)) (c.(subscriptions)) (c.(subscriptionCommands)) (c.(socket)) (c.(stateValue)) (c.(connectPromise)) (c.(connectAbortController)) (c.(reconnectTimer)) (c.(heartbeatTimer)) (c.(reconnectAttempt)) (c.(generation)) (c.(intentionalClose)) (c.(serverReconnectAdvice)) v (c.(sets)) (c.(handles)) (c.(promises)) (c.(aborted)) (c.(timers)) (c.(tasks)) (c.(emitted)) (c.(next)).
Definition set_sets v (c : RealtimeClient) : RealtimeClient :=
  Client (c.(pending)) (c.(queued)) (c.(subscriptions)) (c.(subscriptionCommands)) (c.(socket)) (c.(stateValue)) (c.(connectPromise)) (c.(connectAbortController)) (c.(reconnectTimer)) (c.(heartbeatTimer)) (c.(reconnectAttempt)) (c.(generation)) (c.(intentionalClose)) (c.(serverReconnectAdvice)) (c.(sockets)) v (c.(handles)) (c.(promises)) (c.(aborted)) (c.(timers)) (c.(tasks)) (c.(emitted)) (c.(next)).
Definition set_handles v (c : RealtimeClient) : RealtimeClient :=
  Client (c.(pending)) (c.(queued)) (c.(subscriptions)) (c.(subscriptionCommands)) (c.(socket)) (c.(stateValue)) (c.(connectPromise)) (c.(connectAbortController)) (c.(reconnectTimer)) (c.(heartbeatTimer)) (c.(reconnectAttempt)) (c.(generation)) (c.(intentionalClose)) (c.(serverReconnectAdvice)) (c.(sockets)) (c.(sets)) v (c.(promises)) (c.(aborted)) (c.(timers)) (c.(tasks)) (c.(emitted)) (c.(next)).
Definition set_promises v (c : RealtimeClient) : RealtimeClient :=
  Client (c.(pending)) (c.(queued)) (c.(subscriptions)) (c.(subscriptionCommands)) (c.(socket)) (c.(stateValue)) (c.(connectPromise)) (c.(connectAbortController)) (c.(reconnectTimer)) (c.(heartbeatTimer)) (c.(reconnectAttempt)) (c.(generation)) (c.(intentionalClose)) (c.(serverReconnectAdvice)) (c.(sockets)) (c.(sets)) (c.(handles)) v (c.(aborted)) (c.(timers)) (c.(tasks)) (c.(emitted)) (c.(next)).
Definition set_aborted v (c : RealtimeClient) : RealtimeClient :=
  Client (c.(pending)) (c.(queued)) (c.(subscriptions)) (c.(subscriptionCommands)) (c.(socket)) (c.(stateValue)) (c.(connectPromise)) (c.(connectAbortController)) (c.(reconnectTimer)) (c.(heartbeatTimer)) (c.(reconnectAttempt)) (c.(generation)) (c.(intentionalClose)) (c.(serverReconnectAdvice)) (c.(sockets)) (c.(sets)) (c.(handles)) (c.(promises)) v (c.(timers)) (c.(tasks)) (c.(emitted)) (c.(next)).
Definition set_timers v (c : RealtimeClient) : RealtimeClient :=
  Client (c.(pending)) (c.(queued)) (c.(subscriptions)) (c.(subscriptionCommands)) (c.(socket)) (c.(stateValue)) (c.(connectPromise)) (c.(connectAbortController)) (c.(reconnectTimer)) (c.(heartbeatTimer)) (c.(reconnectAttempt)) (c.(generation)) (c.(intentionalClose)) (c.(serverReconnectAdvice)) (c.(sockets)) (c.(sets)) (c.(handles)) (c.(promises)) (c.(aborted)) v (c.(tasks)) (c.(emitted)) (c.(next)).
Definition set_tasks v (c : RealtimeClient) : RealtimeClient :=
  Client (c.(pending)) (c.(queued)) (c.(subscriptions)) (c.(subscriptionCommands)) (c.(socket)) (c.(stateValue)) (c.(connectPromise)) (c.(connectAbortController)) (c.(reconnectTimer)) (c.(heartbeatTimer)) (c.(reconnectAttempt)) (c.(generation)) (c.(intentionalClose)) (c.(serverReconnectAdvice)) (c.(sockets)) (c.(sets)) (c.(handles)) (c.(promises)) (c.(aborted)) (c.(timers)) v (c.(emitted)) (c.(next)).
Definition set_emitted v (c : RealtimeClient) : RealtimeClient :=
  Client (c.(pending)) (c.(queued)) (c.(subscriptions)) (c.(subscriptionCommands)) (c.(socket)) (c.(stateValue)) (c.(connectPromise)) (c.(connectAbortController)) (c.(reconnectTimer)) (c.(heartbeatTimer)) (c.(reconnectAttempt)) (c.(generation)) (c.(intentionalClose)) (c.(serverReconnectAdvice)) (c.(sockets)) (c.(sets)) (c.(handles)) (c.(promises)) (c.(aborted)) (c.(timers)) (c.(tasks)) v (c.(next)).
Definition set_next v (c : RealtimeClient) : RealtimeClient :=
  Client (c.(pending)) (c.(queued)) (c.(subscriptions)) (c.(subscriptionCommands)) (c.(socket)) (c.(stateValue)) (c.(connectPromise)) (c.(connectAbortController)) (c.(reconnectTimer)) (c.(heartbeatTimer)) (c.(reconnectAttempt)) (c.(generation)) (c.(intentionalClose)) (c.(serverReconnectAdvice)) (c.(sockets)) (c.(sets)) (c.(handles)) (c.(promises)) (c.(aborted)) (c.(timers)) (c.(tasks)) (c.(emitted)) v.
