(* ===== verification/Client.v ===== *)
(** * Operations of the realtime client: sdk/typescript/src/client.ts

    Every private and public method as a function on [RealtimeClient].  Code
    between two [await]s runs without interruption, so it is one function; what
    follows an [await] is a [task] of the state, resumed by the step relation
    of ClientStep.v.

    [Environment] holds what the client does not define: the consumer's
    listeners, called synchronously by [emit] and free to call back into the
    client; [Math.random], [crypto.randomUUID] and the clock, indexed by the
    allocation counter; [JSON.stringify]; whether [socket.send] throws; and a
    bound on the listeners one event reaches (a listener that keeps adding
    listeners to the set being iterated would never stop). *)

From stdpp Require Import base tactics option list numbers strings gmap.
From Stdlib Require Import ZArith QArith Lia.
From S2P Require Import Prelude JsString JsNumber JsValue JsDate Protocol Reconnect ClientState.

Open Scope Z_scope.

Record ReconnectOptions := {
  r_enabled : bool;
  r_initialDelayMilliseconds : num;
  r_maximumDelayMilliseconds : num;
  r_jitterRatio : num;
  r_maximumAttempts : Z;
}.

Record ClientOptions := {
  maximumQueuedCommands : nat;
  maximumPendingCommands : nat;
  maximumMessageBytes : nat;
  reconnectOptions : ReconnectOptions;
}.

Definition defaultReconnect : ReconnectOptions :=
  {| r_enabled := true; r_initialDelayMilliseconds := int 500; r_maximumDelayMilliseconds := int 30000;
     r_jitterRatio := round64 (1 # 5); r_maximumAttempts := 12 |}.
Definition defaultOptions : ClientOptions :=
  {| maximumQueuedCommands := 128; maximumPendingCommands := 128; maximumMessageBytes := Z.to_nat 16384;
     reconnectOptions := defaultReconnect |}.

Record Environment := {
  consumer : emission -> RealtimeClient -> RealtimeClient;
  random : nat -> num;
  randomUUID : nat -> jstr;
  clock : nat -> Z;
  stringify : value -> jstr;
  sendThrows : nat -> nat -> option failure;
  deliveries : nat;
  dateFallback : jstr -> option Z;
}.

(** ** Maps in insertion order *)

Fixpoint map_get {A} (k : jstr) (l : list (jstr * A)) : option A :=
  match l with
  | [] => None
  | (k', v) :: l' => if decide (k' = k) then Some v else map_get k l'
  end.
Definition map_delete {A} (k : jstr) (l : list (jstr * A)) : list (jstr * A) :=
  filter (fun kv => kv.1 <> k) l.
Fixpoint map_set {A} (k : jstr) (v : A) (l : list (jstr * A)) : list (jstr * A) :=
  match l with
  | [] => [(k, v)]
  | (k', v') :: l' => if decide (k' = k) then (k, v) :: l' else (k', v') :: map_set k v l'
  end.

(** ** Errors *)

Definition superseded : RealtimeError :=
  RealtimeConnectionError (js "The connection attempt was superseded.") (js "connection_superseded").
Definition connection_closed : RealtimeError :=
  RealtimeConnectionError (js "The connection closed during subscription restoration.") (js "connection_closed").
Definition abortDomException : failure := OtherError (js "The connection was cancelled.").

Definition normalizeError (f : failure) : RealtimeError :=
  match f with
  | Realtime e => e
  | OtherError m => RealtimeConnectionError m (js "connection_failed")
  end.

(** ** Objects *)

Definition fresh (c : RealtimeClient) : nat * RealtimeClient := (next c, set_next (S (next c)) c).

(** [resolve] and [reject]: the first settlement of a promise counts. *)
Definition settle (o : outcome) (p : nat) (c : RealtimeClient) : RealtimeClient :=
  match promises c !! p with
  | Some _ => c
  | None => set_promises (<[p := o]> (promises c)) c
  end.
Definition settle_all (o : outcome) (ps : list nat) (c : RealtimeClient) : RealtimeClient :=
  foldl (fun c p => settle o p c) c ps.

Definition push_task (t : task) (c : RealtimeClient) : RealtimeClient := set_tasks (tasks c ++ [t]) c.

Definition update_socket (s : nat) (f : socketObject -> socketObject) (c : RealtimeClient) : RealtimeClient :=
  set_sockets (alter f s (sockets c)) c.
Definition with_readyState (r : Z) (o : socketObject) : socketObject :=
  Socket r (s_sync o) (s_attempt o) (s_settled o) (s_established o) (s_abortListening o) (s_sent o).
Definition with_settled (o : socketObject) : socketObject :=
  Socket (s_readyState o) (s_sync o) (s_attempt o) true (s_established o) (s_abortListening o) (s_sent o).
Definition with_established (o : socketObject) : socketObject :=
  Socket (s_readyState o) (s_sync o) (s_attempt o) (s_settled o) true (s_abortListening o) (s_sent o).
Definition without_abortListener (o : socketObject) : socketObject :=
  Socket (s_readyState o) (s_sync o) (s_attempt o) (s_settled o) (s_established o) false (s_sent o).
Definition with_sent (v : value) (o : socketObject) : socketObject :=
  Socket (s_readyState o) (s_sync o) (s_attempt o) (s_settled o) (s_established o) (s_abortListening o) (s_sent o ++ [v]).

Definition readyState (c : RealtimeClient) (s : nat) : Z := from_option s_readyState CLOSED (sockets c !! s).

(** [this.socket?.readyState === OPEN] *)
Definition socketOpen (c : RealtimeClient) : bool :=
  match socket c with Some s => readyState c s =? OPEN | None => false end.

Definition is_aborted (c : RealtimeClient) (signal : option nat) : option failure := s ← signal; aborted c !! s.

Section client.
Context (opts : ClientOptions) (E : Environment).

(** ** Events *)

Definition emit (e : emission) (c : RealtimeClient) : RealtimeClient :=
  consumer E e (set_emitted (emitted c ++ [e]) c).

Definition setState (s : ClientStateValue) (c : RealtimeClient) : RealtimeClient :=
  if decide (stateValue c = s) then c else emit (EState s) (set_stateValue s c).

(** ** Cleanup *)

Definition stopHeartbeat (c : RealtimeClient) : RealtimeClient := set_heartbeatTimer None c.

Definition clearReconnectTimer (c : RealtimeClient) : RealtimeClient :=
  match reconnectTimer c with
  | Some t => set_reconnectTimer None (set_timers (filter (fun kv => kv.1 <> t) (timers c)) c)
  | None => c
  end.

Definition rejectPending (f : failure) (c : RealtimeClient) : RealtimeClient :=
  set_pending [] (foldl (fun c kp => settle_all (Rejected f) (p_promises kp.2) c) c (pending c)).

Definition rejectQueued (f : failure) (c : RealtimeClient) : RealtimeClient :=
  foldl (fun c q => settle_all (Rejected f) (cmd_promises q) c) (set_queued [] c) (queued c).

(** ** Reconnection *)

(** The delay and the timer, after [setState("reconnecting")]. *)
Definition armReconnect (c : RealtimeClient) : RealtimeClient :=
  let r := reconnectOptions opts in
  let advice := serverReconnectAdvice c in
  let init := from_option (fun a => int (initialDelayMilliseconds a)) (r_initialDelayMilliseconds r) advice in
  let maxi := from_option (fun a => int (maximumDelayMilliseconds a)) (r_maximumDelayMilliseconds r) advice in
  let jit := from_option (fun a => Fin (jitterRatio a)) (r_jitterRatio r) advice in
  let delay := reconnectDelay init maxi jit (reconnectAttempt c) (random E (next c)) in
  let (t, c) := fresh (set_reconnectAttempt (reconnectAttempt c + 1) c) in
  set_reconnectTimer (Some t) (set_timers (timers c ++ [(t, delay)]) c).

Definition reconnect_exhausted : RealtimeError :=
  RealtimeConnectionError (js "The reconnect attempt limit was reached.") (js "reconnect_exhausted").

Definition scheduleReconnect (c : RealtimeClient) : RealtimeClient :=
  if bool_decide (is_Some (reconnectTimer c)) || intentionalClose c || socketOpen c then c
  else if r_maximumAttempts (reconnectOptions opts) <=? reconnectAttempt c then
    emit (EError reconnect_exhausted) (rejectQueued (Realtime reconnect_exhausted) (setState closed c))
  else armReconnect (setState reconnecting c).

Definition handleClose (code : Z) (reason : jstr) (gen : Z) (allowReconnect : bool) (c : RealtimeClient) : RealtimeClient :=
  if negb (gen =? generation c) then c
  else
    let c := set_socket None (stopHeartbeat c) in
    let expected := intentionalClose c || (code =? closeCodes.normal) in
    let c := rejectPending (Realtime (RealtimeConnectionError
               (js "The WebSocket closed (" ++ show_Z code ++ js ").") (js "connection_closed"))) c in
    let c := setState closed c in
    let c := emit (EClose code reason expected) c in
    if expected || negb allowReconnect || negb (r_enabled (reconnectOptions opts)) || negb (gen =? generation c)
    then c else scheduleReconnect c.

(** ** Socket callbacks *)

(** [resolve]/[reject] of the promise of [openSocket], once per socket. *)
Definition settle_open (s : nat) (r : outcome) (c : RealtimeClient) : RealtimeClient :=
  match sockets c !! s with
  | Some o => if s_settled o then c else push_task (TOpened (s_attempt o) r) (update_socket s with_settled c)
  | None => c
  end.

Definition onclose (s : nat) (code : Z) (reason : jstr) (c : RealtimeClient) : RealtimeClient :=
  match sockets c !! s with
  | Some o =>
      let c := update_socket s without_abortListener c in
      let c := settle_open s (Rejected (Realtime (RealtimeConnectionError
                 (js "The WebSocket closed during connection (" ++ show_Z code ++ js ").") (js "connection_failed")))) c in
      handleClose code reason (a_generation (s_attempt o)) (s_established o || a_reconnecting (s_attempt o)) c
  | None => c
  end.

Definition onerror (s : nat) (c : RealtimeClient) : RealtimeClient :=
  match sockets c !! s with
  | Some o =>
      if s_settled o then c
      else settle_open s (Rejected (Realtime (RealtimeConnectionError (js "The WebSocket connection failed.") (js "connection_failed"))))
             (update_socket s without_abortListener c)
  | None => c
  end.

(** [socket.close(code, reason)]: nothing on a socket already closing; a
    WebSocket reports [onclose] later, the HTTP transport before returning. *)
Definition closeSocket (s : nat) (code : Z) (reason : jstr) (c : RealtimeClient) : RealtimeClient :=
  match sockets c !! s with
  | Some o =>
      if CLOSING <=? s_readyState o then c
      else if s_sync o then onclose s code reason (update_socket s (with_readyState CLOSED) c)
      else update_socket s (with_readyState CLOSING) c
  | None => c
  end.

(** ** Commands *)

Definition make_envelope (t r : jstr) (p : value) (c : RealtimeClient) : result jstr (command * RealtimeClient) :=
  let (i, c) := fresh c in
  let corr := randomUUID E i in
  e ← createEnvelope (dateFallback E) t r p corr (clock E i) (clock E i);
  Ok (Command t r corr e [] None false, c).

Definition with_promises (ps : list nat) (cmd : command) : command :=
  Command (cmd_type cmd) (cmd_route cmd) (cmd_correlation cmd) (cmd_envelope cmd) ps (cmd_signal cmd) (cmd_listening cmd).
Definition with_signal (s : option nat) (cmd : command) : command :=
  Command (cmd_type cmd) (cmd_route cmd) (cmd_correlation cmd) (cmd_envelope cmd) (cmd_promises cmd) s (cmd_listening cmd).
Definition with_listening (b : bool) (cmd : command) : command :=
  Command (cmd_type cmd) (cmd_route cmd) (cmd_correlation cmd) (cmd_envelope cmd) (cmd_promises cmd) (cmd_signal cmd) b.

Definition reject_command (f : failure) (cmd : command) (c : RealtimeClient) : RealtimeClient :=
  settle_all (Rejected f) (cmd_promises cmd) c.

(** The branch of [transmit] for a socket that is not open. *)
Definition unavailable (cmd : command) (queueWhenUnavailable : bool) (c : RealtimeClient) : RealtimeClient :=
  if negb queueWhenUnavailable then
    reject_command (Realtime (RealtimeConnectionError
      (js "The connection closed before the command could be sent.") (js "connection_closed"))) cmd c
  else if bool_decide (maximumQueuedCommands opts <= length (queued c))%nat then
    reject_command (Realtime RealtimeQueueError) cmd c
  else set_queued (queued c ++ [cmd]) c.

(** The branch of [transmit] for an open socket [s]. *)
Definition send_on (s : nat) (cmd : command) (c : RealtimeClient) : RealtimeClient :=
  if bool_decide (maximumMessageBytes opts < byteLength (stringify E (cmd_envelope cmd)))%nat then
    reject_command (Realtime (newRealtimeError (js "The command exceeds the configured message-size limit.")
      (js "message_too_large") (Some (cmd_correlation cmd)))) cmd c
  else
    let (i, c) := fresh (set_pending (map_set (cmd_correlation cmd) (Pending (cmd_promises cmd) (cmd_signal cmd)) (pending c)) c) in
    match sendThrows E s i with
    | None => update_socket s (with_sent (cmd_envelope cmd)) c
    | Some f =>
        let c := set_pending (map_delete (cmd_correlation cmd) (pending c)) c in
        let c := reject_command (Realtime (normalizeError f)) cmd c in
        if bool_decide (socket c = Some s)
        then closeSocket s closeCodes.heartbeatTimeout (js "send_failed") c else c
    end.

Definition transmit (cmd0 : command) (queueWhenUnavailable : bool) (c : RealtimeClient) : RealtimeClient :=
  let cmd := with_listening false cmd0 in
  match is_aborted c (cmd_signal cmd) with
  | Some f => reject_command f cmd c
  | None =>
      if bool_decide (maximumPendingCommands opts <= length (pending c))%nat then
        reject_command (Realtime RealtimeQueueError) cmd c
      else
        match socket c with
        | Some s => if readyState c s =? OPEN then send_on s cmd c else unavailable cmd queueWhenUnavailable c
        | None => unavailable cmd queueWhenUnavailable c
        end
  end.

(** ** Incoming messages *)

(** [event.data] after the type test and [JSON.parse]. *)
Inductive incoming : Type :=
  | NonText
  | Malformed
  | Parsed (v : value).

(** The loop over the registrations of a live [Set]: deleted registrations
    are skipped, added ones are visited. *)
Fixpoint deliver (fuel : nat) (visited : list nat) (set : nat) (envelope : value) (c : RealtimeClient) : RealtimeClient :=
  match fuel with
  | O => c
  | S k =>
      match list_find (fun r => r ∉ visited) (default [] (sets c !! set)) with
      | Some (_, r) => deliver k (r :: visited) set envelope (emit (EDeliver r envelope) c)
      | None => c
      end
  end.

Definition handleMessage (m : incoming) (c : RealtimeClient) : RealtimeClient :=
  match m with
  | NonText => emit (EError (newRealtimeError (js "The server sent a non-text message.") (js "invalid_message_type") None)) c
  | Malformed => emit (EError (newRealtimeError (js "The server sent malformed JSON.") (js "invalid_envelope") None)) c
  | Parsed v =>
      match validateServerEnvelope (dateFallback E) v with
      | Invalid errorCode message => emit (EError (newRealtimeError message errorCode None)) c
      | Valid envelope =>
          if is_str messageTypes.serviceRestart (get (js "type") envelope) then
            if isNullish (get (js "reconnect") envelope) then c
            else set_serverReconnectAdvice (read_advice (get (js "reconnect") envelope)) c
          else if is_str messageTypes.event (get (js "type") envelope) then
            let c := emit (EEvent envelope) c in
            match map_get (str_of (get (js "route") envelope)) (subscriptions c) with
            | Some set => deliver (deliveries E) [] set envelope c
            | None => c
            end
          else
            let corr := str_of (get (js "correlationId") envelope) in
            match map_get corr (pending c) with
            | None => c
            | Some p =>
                let c := set_pending (map_delete corr (pending c)) c in
                if is_str messageTypes.error (get (js "type") envelope) then
                  let error := fromEnvelope envelope in
                  emit (EError error) (settle_all (Rejected (Realtime error)) (p_promises p) c)
                else settle_all Resolved (p_promises p) c
            end
      end
  end.

(** The acknowledgement timer of a pending command. *)
Definition command_timeout (corr : jstr) (c : RealtimeClient) : RealtimeClient :=
  match map_get corr (pending c) with
  | Some p => settle_all (Rejected (Realtime (RealtimeConnectionError
                (js "The command acknowledgement timed out.") (js "command_timeout")))) (p_promises p)
                (set_pending (map_delete corr (pending c)) c)
  | None => c
  end.

(** ** Abort signals *)

Definition has_signal (sig : nat) (s : option nat) : bool := bool_decide (s = Some sig).

(** The [abort] closure of [openSocket], on every socket that listens to [sig]. *)
Definition abort_socket (sig : nat) (c : RealtimeClient) (s : nat) : RealtimeClient :=
  match sockets c !! s with
  | Some o =>
      if s_abortListening o && memb sig (a_signals (s_attempt o)) then
        let c := update_socket s without_abortListener c in
        if s_settled o then c
        else
          let c := update_socket s with_settled c in
          let c := closeSocket s closeCodes.normal (js "connect_cancelled") c in
          push_task (TOpened (s_attempt o) (Rejected abortDomException)) c
      else c
  | None => c
  end.

(** [failQueuedCommand], the abort listener of each queued command on [sig]. *)
Definition abort_queued (sig : nat) (f : failure) (c : RealtimeClient) : RealtimeClient :=
  let mine := filter (fun q => has_signal sig (cmd_signal q) && cmd_listening q = true) (queued c) in
  let rest := filter (fun q => has_signal sig (cmd_signal q) && cmd_listening q = false) (queued c) in
  foldl (fun c q => reject_command f q c) (set_queued rest c) mine.

(** The listener installed by [addPendingAbortListener]. *)
Definition abort_pending (sig : nat) (f : failure) (c : RealtimeClient) : RealtimeClient :=
  let mine := filter (fun kp => has_signal sig (p_signal kp.2) = true) (pending c) in
  let rest := filter (fun kp => has_signal sig (p_signal kp.2) = false) (pending c) in
  foldl (fun c kp => settle_all (Rejected f) (p_promises kp.2) c) (set_pending rest c) mine.

(** The listener of [waitForSubscription]: a wait still undecided is rejected. *)
Definition abort_wait (sig : nat) (rejected : nat) (c : RealtimeClient) (t : task) : task :=
  match t with
  | TSubscribe r set reg awaited s self =>
      if has_signal sig s && bool_decide (promises c !! awaited = None)
      then TSubscribe r set reg rejected s self else t
  | _ => t
  end.

(** [controller.abort(reason)]; a second abort does nothing. *)
Definition abortSignal (sig : nat) (f : failure) (c : RealtimeClient) : RealtimeClient :=
  match aborted c !! sig with
  | Some _ => c
  | None =>
      let c := abort_pending sig f (abort_queued sig f (set_aborted (<[sig := f]> (aborted c)) c)) in
      let (p, c) := fresh c in
      let c := settle (Rejected f) p c in
      let c := set_tasks (abort_wait sig p c <$> tasks c) c in
      foldl (abort_socket sig) c (fst <$> map_to_list (sockets c))
  end.

Definition abort_controller (c : RealtimeClient) : RealtimeClient :=
  match connectAbortController c with
  | Some ctl => abortSignal ctl (Realtime superseded) c
  | None => c
  end.

(** ** Connecting *)

(** [openSocket] up to [await this.createConnectionUrl(...)]. *)
Definition openSocket (o : origin) (ctl : nat) (signals : list nat) (c : RealtimeClient) : RealtimeClient :=
  match list_find (fun s => is_Some (aborted c !! s)) signals with
  | Some (_, s) =>
      push_task (TOpened (Attempt (generation c) o ctl signals)
        (Rejected (default (Realtime superseded) (aborted c !! s)))) c
  | None =>
      let c := set_generation (generation c + 1) c in
      let a := Attempt (generation c) o ctl signals in
      let c := setState (if a_reconnecting a then reconnecting else connecting) c in
      push_task (TUrl a) c
  end.

Definition connect (signal : option nat) (c : RealtimeClient) : nat * RealtimeClient :=
  if bool_decide (stateValue c = open) && socketOpen c then
    let (p, c) := fresh c in (p, settle Resolved p c)
  else
    match connectPromise c with
    | Some p => (p, c)
    | None =>
        let c := clearReconnectTimer (set_intentionalClose false c) in
        let c := abort_controller c in
        let (ctl, c) := fresh c in
        let c := set_connectAbortController (Some ctl) c in
        let (p, c) := fresh c in
        let c := openSocket (FromConnect p) ctl (option_list signal ++ [ctl]) c in
        (p, set_connectPromise (Some p) c)
    end.

(** [disconnect] after its checks: up to [stopHeartbeat] ... *)
Definition disconnect_begin (c : RealtimeClient) : RealtimeClient :=
  stopHeartbeat (clearReconnectTimer (set_connectPromise None (set_connectAbortController None (abort_controller
    (set_generation (generation c + 1) (set_intentionalClose true c)))))).

(** ... then every command is rejected ... *)
Definition disconnect_clear (c : RealtimeClient) : RealtimeClient :=
  let error := Realtime (RealtimeConnectionError (js "The client disconnected.") (js "client_disconnect")) in
  rejectQueued error (rejectPending error (setState closing (disconnect_begin c))).

(** ... then the socket ... *)
Definition disconnect_socket (code : Z) (reason : jstr) (c : RealtimeClient) : RealtimeClient :=
  match socket c with
  | Some s => if (readyState c s =? OPEN) || (readyState c s =? CONNECTING)
              then closeSocket s code reason (set_socket None c) else set_socket None c
  | None => set_socket None c
  end.

Definition disconnect (code : num) (reason : jstr) (c : RealtimeClient) : result jstr RealtimeClient :=
  if negb (isInteger code) || (negb (neq_num code (int closeCodes.normal)) && (nlt code (int 3000) || ngt code (int 4999))) then
    Throw (js "The WebSocket close code must be 1000 or between 3000 and 4999.")
  else if bool_decide (123 < byteLength reason)%nat then
    Throw (js "The WebSocket close reason must not exceed 123 UTF-8 bytes.")
  else Ok (setState closed (disconnect_socket (default 1000 (to_Z code)) reason (disconnect_clear c))).

(** ** Sending *)

Definition sendCommand (cmd0 : command) (signal : option nat) (c : RealtimeClient) : nat * RealtimeClient :=
  let (p, c) := fresh c in
  match is_aborted c signal with
  | Some f => (p, settle (Rejected f) p c)
  | None =>
      let cmd := with_signal signal (with_promises [p] cmd0) in
      if socketOpen c && bool_decide (stateValue c = open) then (p, transmit cmd true c)
      else if bool_decide (maximumQueuedCommands opts <= length (queued c))%nat then
        (p, reject_command (Realtime RealtimeQueueError) cmd c)
      else
        let c := set_queued (queued c ++ [with_listening (bool_decide (is_Some signal)) cmd]) c in
        if bool_decide (stateValue c = idle) || bool_decide (stateValue c = closed) then
          let (pc, c) := connect None c in (p, push_task (TConnect pc) c)
        else (p, c)
  end.

(** [publish] and [ping]: [createEnvelope] throws before a promise exists. *)
Definition publish (route : jstr) (payload : value) (signal : option nat) (c : RealtimeClient) : result jstr (nat * RealtimeClient) :=
  '(cmd, c) ← make_envelope messageTypes.publish route payload c;
  Ok (sendCommand cmd signal c).

Definition ping (signal : option nat) (c : RealtimeClient) : result jstr (nat * RealtimeClient) :=
  '(cmd, c) ← make_envelope messageTypes.ping (js "system/heartbeat") Undefined c;
  Ok (sendCommand cmd signal c).

(** ** Heartbeat *)

Definition startHeartbeat (c : RealtimeClient) : RealtimeClient :=
  let (t, c) := fresh (stopHeartbeat c) in set_heartbeatTimer (Some t) c.

Definition heartbeat_tick (c : RealtimeClient) : RealtimeClient :=
  match ping None c with
  | Ok (p, c) => push_task (TPing p) c
  | Throw _ => c
  end.

Definition heartbeat_failed (f : failure) (c : RealtimeClient) : RealtimeClient :=
  let c := emit (EError (normalizeError f)) c in
  match socket c with
  | Some s => closeSocket s closeCodes.heartbeatTimeout (js "heartbeat_failed") c
  | None => c
  end.

(** ** Subscriptions *)

(** A promise already settled. *)
Definition settled_promise (o : outcome) (c : RealtimeClient) : nat * RealtimeClient :=
  let (p, c) := fresh c in (p, settle o p c).

Definition establishSubscription (route : jstr) (c : RealtimeClient) : nat * RealtimeClient :=
  match map_get route (subscriptionCommands c) with
  | Some existing => (existing, c)
  | None =>
      match make_envelope messageTypes.subscribe route Undefined c with
      | Throw m => settled_promise (Rejected (OtherError m)) c
      | Ok (cmd, c) =>
          let (p, c) := sendCommand cmd None c in
          let c := set_subscriptionCommands (map_set route p (subscriptionCommands c)) c in
          let (self, c) := fresh c in
          (self, push_task (TEstablish route p p AwaitSubscribe self) c)
      end
  end.

(** The [finally] of [establishSubscription], and its result. *)
Definition established (route : jstr) (cmd self : nat) (o : outcome) (c : RealtimeClient) : RealtimeClient :=
  let c := if bool_decide (map_get route (subscriptionCommands c) = Some cmd)
           then set_subscriptionCommands (map_delete route (subscriptionCommands c)) c else c in
  settle o self c.

Definition resume_establish (route : jstr) (cmd : nat) (st : stage) (self : nat) (o : outcome) (c : RealtimeClient) : RealtimeClient :=
  match st, o with
  | AwaitSubscribe, Resolved =>
      if negb (bool_decide (is_Some (map_get route (subscriptions c)))) && bool_decide (stateValue c = open) then
        match make_envelope messageTypes.unsubscribe route Undefined c with
        | Throw m => established route cmd self (Rejected (OtherError m)) c
        | Ok (u, c) => let (p, c) := sendCommand u None c in push_task (TEstablish route cmd p AwaitCleanup self) c
        end
      else established route cmd self Resolved c
  | _, _ => established route cmd self o c
  end.

(** [subscribe(route, listener, signal)] up to its [await]; [registration] is
    the object wrapping the listener. *)
Definition subscribe (route : jstr) (signal : option nat) (c : RealtimeClient) : nat * RealtimeClient :=
  let '(isNewRoute, set, c) :=
    match map_get route (subscriptions c) with
    | Some set => (false, set, c)
    | None => let (set, c) := fresh c in
              (true, set, set_subscriptions (map_set route set (subscriptions c)) (set_sets (<[set := []]> (sets c)) c))
    end in
  let (registration, c) := fresh c in
  let c := set_sets (alter (fun l => l ++ [registration]) set (sets c)) c in
  let '(command, c) :=
    if (isNewRoute : bool) then let (p, c) := establishSubscription route c in (Some p, c)
    else (map_get route (subscriptionCommands c), c) in
  let '(awaited, c) :=
    match command with
    | None => settled_promise Resolved c
    | Some p => match is_aborted c signal with
                | Some f => settled_promise (Rejected f) c
                | None => (p, c)
                end
    end in
  let (self, c) := fresh c in
  (self, push_task (TSubscribe route set registration awaited signal self) c).

Definition delete_registration (set registration : nat) (c : RealtimeClient) : RealtimeClient :=
  set_sets (alter (filter (fun r => r <> registration)) set (sets c)) c.

Definition set_empty (set : nat) (c : RealtimeClient) : bool := bool_decide (default [] (sets c !! set) = []).

Definition resume_subscribe (route : jstr) (set registration self : nat) (o : outcome) (c : RealtimeClient) : RealtimeClient :=
  match o with
  | Resolved => settle Resolved self (set_handles (<[registration := Handle route true None]> (handles c)) c)
  | Rejected f =>
      let c := delete_registration set registration c in
      let c := if set_empty set c then set_subscriptions (map_delete route (subscriptions c)) c else c in
      settle (Rejected f) self c
  end.

Definition update_handle (registration : nat) (active : bool) (p : option nat) (c : RealtimeClient) : RealtimeClient :=
  set_handles (alter (fun h => Handle (h_route h) active p) registration (handles c)) c.

(** The failure path of the unsubscribe closure. *)
Definition unsubscribe_failed (route : jstr) (set registration self : nat) (f : failure) (c : RealtimeClient) : RealtimeClient :=
  let c := set_sets (alter (fun l => l ++ [registration]) set (sets c)) c in
  let c := set_subscriptions (map_set route set (subscriptions c)) c in
  let c := match socket c with
           | Some s => closeSocket s 4000 (js "unsubscribe_failed") c
           | None => c
           end in
  settle (Rejected f) self (update_handle registration true None c).

Definition unsubscribe_done (registration self : nat) (c : RealtimeClient) : RealtimeClient :=
  settle Resolved self (update_handle registration false None c).

(** The closure returned by [subscribe]. *)
Definition unsubscribe (registration : nat) (c : RealtimeClient) : RealtimeClient :=
  match handles c !! registration with
  | None => c
  | Some h =>
      if negb (h_active h) then c
      else match h_unsubscribing h with
      | Some _ => c
      | None =>
          let route := h_route h in
          let (self, c) := fresh c in
          let c := update_handle registration true (Some self) c in
          match map_get route (subscriptions c) with
          | None => unsubscribe_done registration self c
          | Some current =>
              let c := delete_registration current registration c in
              if set_empty current c then
                let c := set_subscriptions (map_delete route (subscriptions c)) c in
                if bool_decide (stateValue c = open) then
                  match make_envelope messageTypes.unsubscribe route Undefined c with
                  | Throw m => unsubscribe_failed route current registration self (OtherError m) c
                  | Ok (cmd, c) =>
                      let (p, c) := sendCommand cmd None c in
                      push_task (TUnsubscribe route current registration p self) c
                  end
                else unsubscribe_done registration self c
              else unsubscribe_done registration self c
          end
      end
  end.

(** ** Restoring subscriptions after [onopen] *)

Definition assertOpenGeneration (gen : Z) (c : RealtimeClient) : bool := (gen =? generation c) && socketOpen c.

(** One [transmitEnvelope(createEnvelope(type, route), false)]. *)
Definition transmitEnvelope (t route : jstr) (c : RealtimeClient) : result jstr (nat * RealtimeClient) :=
  '(cmd, c) ← make_envelope t route Undefined c;
  let (p, c) := fresh c in
  Ok (p, transmit (with_promises [p] cmd) false c).

(** [transmitQueuedCommand(queued, false)]: settling the copy settles the
    queued command and the new promise. *)
Definition transmitQueuedCommand (cmd : command) (c : RealtimeClient) : nat * RealtimeClient :=
  let (p, c) := fresh c in
  (p, transmit (with_promises (cmd_promises cmd ++ [p]) cmd) false c).

(** The part of the loop body before its first [await]. *)
Definition start_route (gen : Z) (route : jstr) (qs : list (jstr * command)) (c : RealtimeClient) : result failure (nat * RealtimeClient) :=
  if negb (assertOpenGeneration gen c) then Throw (Realtime connection_closed)
  else match map_get route qs with
       | Some q => Ok (transmitQueuedCommand q c)
       | None => match transmitEnvelope messageTypes.subscribe route c with
                 | Ok r => Ok r
                 | Throw m => Throw (OtherError m)
                 end
       end.

Definition restore_failed : failure :=
  Realtime (RealtimeConnectionError (js "One or more subscriptions could not be restored.") (js "subscription_restore_failed")).

(** The final [while] loop; [None] when [fuel] turns did not empty the queue. *)
Fixpoint flush (fuel : nat) (c : RealtimeClient) : option RealtimeClient :=
  match queued c with
  | [] => Some c
  | cmd :: rest =>
      match fuel with
      | O => None
      | S k => flush k (transmit cmd true (set_queued rest c))
      end
  end.

Definition socket_generation (s : nat) (c : RealtimeClient) : Z :=
  from_option (fun o => a_generation (s_attempt o)) 0 (sockets c !! s).

(** The [for] loop over the routes and the code after it. *)
Fixpoint restore_loop (fuel : nat) (s : nat) (routes : list jstr) (qs : list (jstr * command))
    (failures : list RealtimeError) (c : RealtimeClient) : option RealtimeClient :=
  let gen := socket_generation s c in
  match routes with
  | [] =>
      if negb (bool_decide (failures = [])) then Some (push_task (TRestored s (Rejected restore_failed)) c)
      else if negb (assertOpenGeneration gen c) then Some (push_task (TRestored s (Rejected (Realtime connection_closed))) c)
      else c' ← flush fuel c; Some (push_task (TRestored s Resolved) c')
  | route :: rest =>
      match start_route gen route qs c with
      | Ok (p, c') => Some (push_task (TRestore s p AwaitSubscribe route rest qs failures) c')
      | Throw f => restore_loop fuel s rest qs (failures ++ [normalizeError f]) (emit (EError (normalizeError f)) c)
      end
  end.

(** The subscribe commands taken out of the queue, last one first. *)
Definition is_subscribe (q : command) : bool := bool_decide (cmd_type q = messageTypes.subscribe).

Definition queuedSubscriptions (c : RealtimeClient) : list (jstr * command) :=
  foldl (fun m q => map_set (cmd_route q) q m) [] (rev (filter (fun q => is_subscribe q = true) (queued c))).

Definition restoreSubscriptionsAndFlush (fuel : nat) (s : nat) (c : RealtimeClient) : option RealtimeClient :=
  let qs := queuedSubscriptions c in
  let c := set_queued (filter (fun q => is_subscribe q = false) (queued c)) c in
  let routes := dedupe ((fst <$> subscriptions c) ++ (fst <$> qs)) in
  restore_loop fuel s routes qs [] c.

(** The loop body after an [await], with the outcome of the awaited promise. *)
Definition resume_restore (fuel : nat) (s : nat) (st : stage) (route : jstr) (routes : list jstr)
    (qs : list (jstr * command)) (failures : list RealtimeError) (o : outcome) (c : RealtimeClient) : option RealtimeClient :=
  let gen := socket_generation s c in
  let failed f := restore_loop fuel s routes qs (failures ++ [normalizeError f]) (emit (EError (normalizeError f)) c) in
  match o, st with
  | Rejected f, _ => failed f
  | Resolved, AwaitCleanup => restore_loop fuel s routes qs failures c
  | Resolved, AwaitSubscribe =>
      if bool_decide (is_Some (map_get route (subscriptions c))) then restore_loop fuel s routes qs failures c
      else if negb (assertOpenGeneration gen c) then failed (Realtime connection_closed)
      else match transmitEnvelope messageTypes.unsubscribe route c with
           | Ok (p, c') => Some (push_task (TRestore s p AwaitCleanup route routes qs failures) c')
           | Throw m => failed (OtherError m)
           end
  end.

(** [socket.onopen] *)
Definition onopen (fuel : nat) (s : nat) (c : RealtimeClient) : option RealtimeClient :=
  match sockets c !! s with
  | Some o =>
      if s_settled o || negb (a_generation (s_attempt o) =? generation c) then
        Some (closeSocket s closeCodes.normal (js "stale_connection") c)
      else restoreSubscriptionsAndFlush fuel s (update_socket s without_abortListener c)
  | None => None
  end.

(** The [then] callback; what it throws goes to the [catch]. *)
Definition restored (s : nat) (c : RealtimeClient) : RealtimeClient :=
  setState open (update_socket s with_established (set_serverReconnectAdvice None (set_reconnectAttempt 0 c))).

Definition superseded_by (s : nat) (c : RealtimeClient) : bool :=
  negb (socket_generation s c =? generation c) || intentionalClose c.

Definition connection_established (s : nat) (c : RealtimeClient) : RealtimeClient :=
  if superseded_by s c then push_task (TRestoreFailed s (Realtime superseded)) c
  else
    let c := restored s c in
    if superseded_by s c || negb (readyState c s =? OPEN)
    then push_task (TRestoreFailed s (Realtime superseded)) c
    else settle_open s Resolved (startHeartbeat c).

(** The [catch] callback. *)
Definition restore_rejected (s : nat) (f : failure) (c : RealtimeClient) : RealtimeClient :=
  match sockets c !! s with
  | Some o =>
      if s_settled o then c
      else
        let normalized := Realtime (normalizeError f) in
        let c := update_socket s with_settled c in
        let c := rejectQueued normalized c in
        let c := push_task (TOpened (s_attempt o) (Rejected normalized)) c in
        if readyState c s =? OPEN then closeSocket s 4000 (js "subscription_restore_failed") c else c
  | None => c
  end.

(** [openSocket] after [createConnectionUrl]: [r] is the outcome of that call
    and then of [createTransportSocket], which yields a socket (with a
    synchronous [close] or not) or throws. *)
Definition url_ready (a : attempt) (r : result failure (result failure bool)) (c : RealtimeClient) : RealtimeClient :=
  let reject f := push_task (TOpened a (Rejected f)) c in
  match r with
  | Throw f => reject f
  | Ok created =>
      match list_find (fun s => is_Some (aborted c !! s)) (a_signals a) with
      | Some (_, s) => reject (default (Realtime superseded) (aborted c !! s))
      | None =>
          if negb (a_generation a =? generation c) || intentionalClose c then reject (Realtime superseded)
          else match created with
               | Throw f => reject f
               | Ok sync =>
                   let (s, c) := fresh c in
                   let c := set_sockets (<[s := Socket CONNECTING sync a false false true []]> (sockets c)) c in
                   set_socket (Some s) c
               end
      end
  end.

Definition clear_controller (ctl : nat) (c : RealtimeClient) : RealtimeClient :=
  if bool_decide (connectAbortController c = Some ctl) then set_connectAbortController None c else c.

(** The [catch] and [finally] on the promise of [openSocket]. *)
Definition opened (a : attempt) (o : outcome) (c : RealtimeClient) : RealtimeClient :=
  match a_origin a with
  | FromConnect p =>
      let c := match o with
               | Rejected f => if bool_decide (connectPromise c = Some p) then rejectQueued f (setState closed c) else c
               | Resolved => c
               end in
      let c := if bool_decide (connectPromise c = Some p) then set_connectPromise None c else c in
      settle o p (clear_controller (a_controller a) c)
  | FromTimer =>
      let c := match o with
               | Rejected f =>
                   let normalized := normalizeError f in
                   if decide (code normalized = js "connection_superseded") then c
                   else scheduleReconnect (emit (EError normalized) c)
               | Resolved => c
               end in
      clear_controller (a_controller a) c
  end.

(** The callback of the reconnect timer [t]. *)
Definition reconnect_fired (t : nat) (c : RealtimeClient) : RealtimeClient :=
  let c := set_timers (filter (fun kv => kv.1 <> t) (timers c)) c in
  let c := set_reconnectTimer None c in
  let (ctl, c) := fresh c in
  let c := abort_controller c in
  let c := set_connectAbortController (Some ctl) c in
  openSocket FromTimer ctl [ctl] c.
End client.
