(* ===== verification/ClientStep.v ===== *)
(** * Runs of the realtime client

    The step relation: API calls of the application, resumed continuations,
    socket events and timers, in any order.  JavaScript runs continuations in
    FIFO order before the next event; every such schedule is a run of this
    relation, so what holds in all runs holds in all of JavaScript's.

    Listeners may call back into the client while it is emitting:
    [reentrant n script] is the environment whose listeners answer an emission
    with the API calls chosen by [script], nested up to [n] deep. *)

From stdpp Require Import base tactics option list numbers strings gmap.
From Stdlib Require Import ZArith QArith Lia.
From S2P Require Import Prelude JsString JsNumber JsValue JsDate Protocol Reconnect ClientState Client.

Open Scope Z_scope.

Inductive api_call : Type :=
  | CallConnect (signal : option nat)
  | CallDisconnect (code : num) (reason : jstr)
  | CallPublish (route : jstr) (payload : value) (signal : option nat)
  | CallPing (signal : option nat)
  | CallSubscribe (route : jstr) (signal : option nat)
  | CallUnsubscribe (registration : nat)
  | CallAbort (signal : nat) (reason : failure).

Definition remove_task (i : nat) (c : RealtimeClient) : RealtimeClient := set_tasks (delete i (tasks c)) c.

Section step.
Context (opts : ClientOptions) (E : Environment).

(** A call that throws before it changes anything leaves the client as it is. *)
Definition api (call : api_call) (c : RealtimeClient) : RealtimeClient :=
  match call with
  | CallConnect s => (connect opts E s c).2
  | CallDisconnect code reason => match disconnect opts E code reason c with Ok c' => c' | Throw _ => c end
  | CallPublish r p s => match publish opts E r p s c with Ok (_, c') => c' | Throw _ => c end
  | CallPing s => match ping opts E s c with Ok (_, c') => c' | Throw _ => c end
  | CallSubscribe r s => (subscribe opts E r s c).2
  | CallUnsubscribe r => unsubscribe opts E r c
  | CallAbort s f => abortSignal opts E s f c
  end.

(** A continuation of a settled promise, run on the state without its task. *)
Definition resume (t : task) (c : RealtimeClient) : option RealtimeClient :=
  match t with
  | TOpened a o => Some (opened opts E a o c)
  | TRestored s Resolved => Some (connection_established E s c)
  | TRestored s (Rejected f) => Some (push_task (TRestoreFailed s f) c)
  | TRestoreFailed s f => Some (restore_rejected opts E s f c)
  | TEstablish r cmd p st self => o ← promises c !! p; Some (resume_establish opts E r cmd st self o c)
  | TSubscribe r set reg p _ self => o ← promises c !! p; Some (resume_subscribe r set reg self o c)
  | TUnsubscribe r set reg p self =>
      o ← promises c !! p;
      Some (match o with
            | Resolved => unsubscribe_done reg self c
            | Rejected f => unsubscribe_failed opts E r set reg self f c
            end)
  | TPing p => o ← promises c !! p; Some (match o with Resolved => c | Rejected f => heartbeat_failed opts E f c end)
  | TConnect p => o ← promises c !! p; Some (match o with Resolved => c | Rejected f => emit E (EError (normalizeError f)) c end)
  | TUrl _ | TRestore _ _ _ _ _ _ _ => None
  end.

Inductive step (c : RealtimeClient) : RealtimeClient -> Prop :=
  | step_api call : step c (api call c)
  | step_url i a r : tasks c !! i = Some (TUrl a) -> step c (url_ready a r (remove_task i c))
  | step_resume i t c' : tasks c !! i = Some t -> resume t (remove_task i c) = Some c' -> step c c'
  | step_restore i s p st route routes qs failures o fuel c' :
      tasks c !! i = Some (TRestore s p st route routes qs failures) -> promises c !! p = Some o ->
      resume_restore opts E fuel s st route routes qs failures o (remove_task i c) = Some c' -> step c c'
  | step_open s fuel c' :
      readyState c s = CONNECTING -> onopen opts E fuel s (update_socket s (with_readyState OPEN) c) = Some c' -> step c c'
  | step_message s m : readyState c s = OPEN -> step c (handleMessage E m c)
  | step_error s : readyState c s <> CLOSED -> step c (onerror s c)
  | step_close s code reason :
      readyState c s <> CLOSED -> step c (onclose opts E s code reason (update_socket s (with_readyState CLOSED) c))
  | step_timeout corr : step c (command_timeout corr c)
  | step_reconnect t delay : (t, delay) ∈ timers c -> step c (reconnect_fired opts E t c)
  | step_heartbeat t : heartbeatTimer c = Some t -> step c (heartbeat_tick opts E c).

Inductive reachable : RealtimeClient -> Prop :=
  | reach_initial : reachable initial
  | reach_step c c' : reachable c -> step c c' -> reachable c'.
End step.

(** ** Listeners that call back *)

Definition with_consumer (k : emission -> RealtimeClient -> RealtimeClient) (E : Environment) : Environment :=
  {| consumer := k; random := random E; randomUUID := randomUUID E; clock := clock E; stringify := stringify E;
     sendThrows := sendThrows E; deliveries := deliveries E; dateFallback := dateFallback E |}.

Section reentrant.
Context (opts : ClientOptions) (E : Environment) (script : emission -> RealtimeClient -> list api_call).

Fixpoint reentrant (n : nat) : Environment :=
  match n with
  | O => with_consumer (fun _ c => c) E
  | S k => with_consumer (fun e c => foldl (fun c call => api opts (reentrant k) call c) c (script e c)) E
  end.
End reentrant.

(** Listeners that never call back. *)
Definition passive (E : Environment) : Environment := with_consumer (fun _ c => c) E.
