(* ===== verification/ClientKeeps.v ===== *)
(** * Invariants of the realtime client, generically

    [closed_invariant P] lists what a predicate on the fields [pending],
    [queued], [reconnectTimer], [timers], [intentionalClose] and
    [reconnectAttempt] must satisfy to be kept by every operation of the
    client: shrinking a queue, adding under the guards of the code, arming and
    clearing the timer, running the consumer.  [keep_step] then gives it for
    every step, and [keep_reentrant] for listeners that call back. *)

From stdpp Require Import base tactics option list numbers strings gmap.
From Stdlib Require Import ZArith QArith Lia.
From S2P Require Import Prelude JsString JsNumber JsValue JsDate Protocol Reconnect ClientState Client ClientStep.

Open Scope Z_scope.

Create HintDb client.

(** ** Settling promises changes nothing else *)

Lemma settle_frame o p c : exists m, settle o p c = set_promises m c.
Proof.
  unfold settle. destruct (promises c !! p); [|eauto]. exists (promises c). by destruct c.
Qed.

Lemma settle_all_frame o ps c : exists m, settle_all o ps c = set_promises m c.
Proof.
  revert c; induction ps as [|p ps IH]; intros c; [exists (promises c); by destruct c|].
  change (settle_all o (p :: ps) c) with (settle_all o ps (settle o p c)).
  destruct (settle_frame o p c) as [m ->]. destruct (IH (set_promises m c)) as [m' ->]. by exists m'.
Qed.

Lemma foldl_frame {A} (f : RealtimeClient -> A -> RealtimeClient) l c :
  (forall c x, exists m, f c x = set_promises m c) -> exists m, foldl f c l = set_promises m c.
Proof.
  intros Hf. revert c; induction l as [|x l IH]; intros c; simpl; [exists (promises c); by destruct c|].
  destruct (Hf c x) as [m ->]. destruct (IH (set_promises m c)) as [m' ->]. by exists m'.
Qed.

Lemma rejectQueued_frame f c : exists m, rejectQueued f c = set_promises m (set_queued [] c).
Proof. apply foldl_frame. intros. apply settle_all_frame. Qed.

Lemma rejectPending_frame f c : exists m, rejectPending f c = set_promises m (set_pending [] c).
Proof.
  unfold rejectPending.
  destruct (foldl_frame (fun c kp => settle_all (Rejected f) (p_promises kp.2) c) (pending c) c) as [m ->];
    [intros; apply settle_all_frame|]. by exists m.
Qed.

Lemma abort_queued_frame sig f c :
  exists m, abort_queued sig f c
    = set_promises m (set_queued (filter (fun q => has_signal sig (cmd_signal q) && cmd_listening q = false) (queued c)) c).
Proof. apply foldl_frame. intros. apply settle_all_frame. Qed.

Lemma abort_pending_frame sig f c :
  exists m, abort_pending sig f c
    = set_promises m (set_pending (filter (fun kp => has_signal sig (p_signal kp.2) = false) (pending c)) c).
Proof. apply foldl_frame. intros. apply settle_all_frame. Qed.

(** Rewrites every settlement in the goal into a promise update. *)
Ltac settle_frames :=
  repeat match goal with
  | |- context [settle ?o ?p ?c] => let m := fresh "m" in destruct (settle_frame o p c) as [m ->]
  | |- context [settle_all ?o ?ps ?c] => let m := fresh "m" in destruct (settle_all_frame o ps c) as [m ->]
  | |- context [rejectQueued ?f ?c] => let m := fresh "m" in destruct (rejectQueued_frame f c) as [m ->]
  | |- context [rejectPending ?f ?c] => let m := fresh "m" in destruct (rejectPending_frame f c) as [m ->]
  end.

(** ** Maps in insertion order *)

Lemma length_map_set {A} k (v : A) l : (length (map_set k v l) <= S (length l))%nat.
Proof. induction l as [|[k' v'] l IH]; simpl; [lia|]. case_decide; simpl; lia. Qed.

Lemma length_map_delete {A} k (l : list (jstr * A)) : (length (map_delete k l) <= length l)%nat.
Proof. apply length_filter. Qed.

(** ** What an invariant must satisfy *)

(** Equal in the fields the invariants of this file read. *)
Record agree (c c' : RealtimeClient) : Prop := {
  agree_pending : pending c' = pending c;
  agree_queued : queued c' = queued c;
  agree_reconnectTimer : reconnectTimer c' = reconnectTimer c;
  agree_timers : timers c' = timers c;
  agree_intentionalClose : intentionalClose c' = intentionalClose c;
  agree_reconnectAttempt : reconnectAttempt c' = reconnectAttempt c;
}.

(** The conditions that do not involve the consumer. *)
Record closed_updates (opts : ClientOptions) (P : RealtimeClient -> Prop) : Prop := {
  k_agree c c' : agree c c' -> P c -> P c';
  k_pending l c : l `sublist_of` pending c -> P c -> P (set_pending l c);
  k_queued l c : l `sublist_of` queued c -> P c -> P (set_queued l c);
  k_push q c : (length (queued c) < maximumQueuedCommands opts)%nat -> P c -> P (set_queued (queued c ++ [q]) c);
  k_add k p c : (length (pending c) < maximumPendingCommands opts)%nat -> P c -> P (set_pending (map_set k p (pending c)) c);
  k_clear c : P c -> P (clearReconnectTimer c);
  k_connect c : P c -> P (clearReconnectTimer (set_intentionalClose false c));
  k_reset c : P c -> P (set_reconnectAttempt 0 c);
  k_fire t d c : (t, d) ∈ timers c -> P c ->
    P (set_reconnectTimer None (set_timers (filter (fun kv => kv.1 <> t) (timers c)) c));
}.

(** The conditions that do. *)
Record closed_calls (opts : ClientOptions) (E : Environment) (P : RealtimeClient -> Prop) : Prop := {
  k_consumer e c : P c -> P (consumer E e c);
  k_arm c : reconnectTimer c = None -> intentionalClose c = false ->
    reconnectAttempt c < r_maximumAttempts (reconnectOptions opts) -> P c ->
    P (armReconnect opts E (setState E reconnecting c));
  k_disconnect c : P c -> P (disconnect_begin opts E c);
}.

(** ** Every operation *)

Section ops.
Context (opts : ClientOptions) (P : RealtimeClient -> Prop) (HU : closed_updates opts P).
Context (E : Environment).
Context (Hconsumer : forall e c, P c -> P (consumer E e c)).
Context (Harm : forall c, reconnectTimer c = None -> intentionalClose c = false ->
  reconnectAttempt c < r_maximumAttempts (reconnectOptions opts) -> P c ->
  P (armReconnect opts E (setState E reconnecting c))).

Lemma keep_agree c c' : agree c c' -> P c -> P c'.
Proof. apply (k_agree _ _ HU). Qed.

(** Drops an update of a field no invariant reads. *)
Ltac peel :=
  match goal with
  | |- ?Q (set_subscriptions _ ?c) => apply (keep_agree c); [by constructor|]
  | |- ?Q (set_subscriptionCommands _ ?c) => apply (keep_agree c); [by constructor|]
  | |- ?Q (set_socket _ ?c) => apply (keep_agree c); [by constructor|]
  | |- ?Q (set_stateValue _ ?c) => apply (keep_agree c); [by constructor|]
  | |- ?Q (set_connectPromise _ ?c) => apply (keep_agree c); [by constructor|]
  | |- ?Q (set_connectAbortController _ ?c) => apply (keep_agree c); [by constructor|]
  | |- ?Q (set_heartbeatTimer _ ?c) => apply (keep_agree c); [by constructor|]
  | |- ?Q (set_generation _ ?c) => apply (keep_agree c); [by constructor|]
  | |- ?Q (set_serverReconnectAdvice _ ?c) => apply (keep_agree c); [by constructor|]
  | |- ?Q (set_sockets _ ?c) => apply (keep_agree c); [by constructor|]
  | |- ?Q (set_sets _ ?c) => apply (keep_agree c); [by constructor|]
  | |- ?Q (set_handles _ ?c) => apply (keep_agree c); [by constructor|]
  | |- ?Q (set_promises _ ?c) => apply (keep_agree c); [by constructor|]
  | |- ?Q (set_aborted _ ?c) => apply (keep_agree c); [by constructor|]
  | |- ?Q (set_tasks _ ?c) => apply (keep_agree c); [by constructor|]
  | |- ?Q (set_emitted _ ?c) => apply (keep_agree c); [by constructor|]
  | |- ?Q (set_next _ ?c) => apply (keep_agree c); [by constructor|]
  end.

Lemma keep_emit e c : P c -> P (emit E e c).
Proof. intros H. apply Hconsumer. by peel. Qed.

Lemma keep_setState s c : P c -> P (setState E s c).
Proof. intros H. unfold setState. case_decide; [done|]. apply keep_emit. by peel. Qed.

Lemma keep_settle o p c : P c -> P (settle o p c).
Proof. intros H. destruct (settle_frame o p c) as [m ->]. by peel. Qed.

Lemma keep_settle_all o ps c : P c -> P (settle_all o ps c).
Proof. intros H. destruct (settle_all_frame o ps c) as [m ->]. by peel. Qed.

Lemma keep_rejectQueued f c : P c -> P (rejectQueued f c).
Proof.
  intros H. destruct (rejectQueued_frame f c) as [m ->]. peel.
  apply (k_queued _ _ HU); [apply sublist_nil_l|done].
Qed.

Lemma keep_rejectPending f c : P c -> P (rejectPending f c).
Proof.
  intros H. destruct (rejectPending_frame f c) as [m ->]. peel.
  apply (k_pending _ _ HU); [apply sublist_nil_l|done].
Qed.

Lemma keep_delete_pending k c : P c -> P (set_pending (map_delete k (pending c)) c).
Proof. apply (k_pending _ _ HU), sublist_filter. Qed.

Lemma keep_push_queued q c :
  (length (queued c) < maximumQueuedCommands opts)%nat -> P c -> P (set_queued (queued c ++ [q]) c).
Proof. apply (k_push _ _ HU). Qed.

Lemma keep_add_pending k p c :
  (length (pending c) < maximumPendingCommands opts)%nat -> P c -> P (set_pending (map_set k p (pending c)) c).
Proof. apply (k_add _ _ HU). Qed.

Lemma keep_clearReconnectTimer c : P c -> P (clearReconnectTimer c).
Proof. apply (k_clear _ _ HU). Qed.

Lemma keep_begin_connect c : P c -> P (clearReconnectTimer (set_intentionalClose false c)).
Proof. apply (k_connect _ _ HU). Qed.

Lemma keep_reset c : P c -> P (set_reconnectAttempt 0 c).
Proof. apply (k_reset _ _ HU). Qed.

Hint Resolve keep_emit keep_setState keep_settle keep_settle_all keep_rejectQueued keep_rejectPending
  keep_delete_pending keep_push_queued keep_add_pending keep_clearReconnectTimer keep_begin_connect keep_reset : client.
Hint Extern 1 (P _) => peel : client.
Hint Unfold fresh push_task update_socket reject_command stopHeartbeat settled_promise update_handle : client.

(** Case analysis on the code, each branch by the lemmas of the database. *)
Ltac branches :=
  unfold fresh, push_task, update_socket, reject_command, stopHeartbeat, settled_promise, update_handle in *;
  repeat (case_match; simplify_eq/=); cbn [fst snd]; try done; eauto 20 with client.

Lemma keep_scheduleReconnect c : P c -> P (scheduleReconnect opts E c).
Proof.
  intros H. unfold scheduleReconnect. case_match; [done|]. bool_to_prop. case_match; [eauto with client|].
  apply Harm; [|done|lia|done]. destruct (reconnectTimer c); [|done].
  match goal with Hn : ~ is_Some _ |- _ => by destruct Hn end.
Qed.
Hint Resolve keep_scheduleReconnect : client.

Lemma keep_handleClose code reason gen allow c : P c -> P (handleClose opts E code reason gen allow c).
Proof. unfold handleClose. branches. Qed.
Hint Resolve keep_handleClose : client.

Lemma keep_settle_open s o c : P c -> P (settle_open s o c).
Proof. unfold settle_open. branches. Qed.
Hint Resolve keep_settle_open : client.

Lemma keep_onclose s code reason c : P c -> P (onclose opts E s code reason c).
Proof. unfold onclose. branches. Qed.
Hint Resolve keep_onclose : client.

Lemma keep_onerror s c : P c -> P (onerror s c).
Proof. unfold onerror. branches. Qed.

Lemma keep_closeSocket s code reason c : P c -> P (closeSocket opts E s code reason c).
Proof. unfold closeSocket. branches. Qed.
Hint Resolve keep_closeSocket keep_onerror : client.

Lemma keep_unavailable cmd q c : P c -> P (unavailable opts cmd q c).
Proof.
  intros H. unfold unavailable. case_match; [branches|]. case_bool_decide; [branches|].
  apply keep_push_queued; [lia|done].
Qed.

Lemma keep_send_on s cmd c :
  (length (pending c) < maximumPendingCommands opts)%nat -> P c -> P (send_on opts E s cmd c).
Proof.
  intros Hp H. unfold send_on. case_match; [branches|].
  unfold fresh. set (c1 := set_next _ _).
  assert (H1 : P c1) by (unfold c1; peel; by apply keep_add_pending).
  case_match; [|branches]. case_match; eauto 8 with client.
Qed.
Hint Resolve keep_unavailable keep_send_on : client.

Lemma keep_transmit cmd q c : P c -> P (transmit opts E cmd q c).
Proof.
  intros H. unfold transmit. case_match; [branches|]. case_bool_decide; [branches|].
  assert (length (pending c) < maximumPendingCommands opts)%nat by lia. branches.
Qed.
Hint Resolve keep_transmit : client.

Lemma keep_deliver fuel visited set v c : P c -> P (deliver E fuel visited set v c).
Proof. revert visited c; induction fuel as [|k IH]; intros visited c H; simpl; branches. Qed.
Hint Resolve keep_deliver : client.

Lemma keep_handleMessage m c : P c -> P (handleMessage E m c).
Proof. unfold handleMessage. branches. Qed.

Lemma keep_command_timeout k c : P c -> P (command_timeout k c).
Proof. unfold command_timeout. branches. Qed.

Lemma keep_abort_socket sig c s : P c -> P (abort_socket opts E sig c s).
Proof. unfold abort_socket. branches. Qed.

Lemma keep_abort_sockets sig l c : P c -> P (foldl (abort_socket opts E sig) c l).
Proof. revert c; induction l as [|s l IH]; intros c H; simpl; [done|]. apply IH. by apply keep_abort_socket. Qed.

Lemma keep_abort_queued sig f c : P c -> P (abort_queued sig f c).
Proof.
  intros H. destruct (abort_queued_frame sig f c) as [m ->]. peel.
  apply (k_queued _ _ HU); [apply sublist_filter|done].
Qed.

Lemma keep_abort_pending sig f c : P c -> P (abort_pending sig f c).
Proof.
  intros H. destruct (abort_pending_frame sig f c) as [m ->]. peel.
  apply (k_pending _ _ HU); [apply sublist_filter|done].
Qed.
Hint Resolve keep_abort_sockets keep_abort_queued keep_abort_pending : client.

Lemma keep_abortSignal sig f c : P c -> P (abortSignal opts E sig f c).
Proof. unfold abortSignal. branches. Qed.
Hint Resolve keep_abortSignal : client.

Lemma keep_abort_controller c : P c -> P (abort_controller opts E c).
Proof. unfold abort_controller. branches. Qed.

Lemma keep_openSocket o ctl sigs c : P c -> P (openSocket E o ctl sigs c).
Proof. unfold openSocket. branches. Qed.
Hint Resolve keep_abort_controller keep_openSocket : client.

Lemma keep_connect signal c : P c -> P (connect opts E signal c).2.
Proof. unfold connect. branches. Qed.
Hint Resolve keep_connect : client.

Context (Hdisconnect : forall c, P c -> P (disconnect_begin opts E c)).

Lemma keep_disconnect_clear c : P c -> P (disconnect_clear opts E c).
Proof. intros H. unfold disconnect_clear. eauto 20 with client. Qed.

Lemma keep_disconnect_socket code reason c : P c -> P (disconnect_socket opts E code reason c).
Proof. unfold disconnect_socket. branches. Qed.
Hint Resolve keep_disconnect_clear keep_disconnect_socket : client.

Lemma keep_disconnect code reason c c' :
  P c -> disconnect opts E code reason c = Ok c' -> P c'.
Proof. intros H. unfold disconnect. case_match; [done|]. case_match; [done|]. intros <-%Ok_inj. eauto with client. Qed.

Lemma keep_sendCommand cmd signal c : P c -> P (sendCommand opts E cmd signal c).2.
Proof.
  intros H. unfold sendCommand, fresh. set (c0 := set_next _ c).
  assert (H0 : P c0) by (unfold c0; repeat peel; done). clearbody c0. cbv zeta.
  destruct (is_aborted c0 signal); [branches|]. destruct (socketOpen c0 && _); [branches|].
  destruct (bool_decide (_ <= length (queued c0))%nat) eqn:Hq; [branches|]. bool_to_prop.
  set (c1 := set_queued _ c0).
  assert (H1 : P c1) by (unfold c1; apply keep_push_queued; [lia|done]). clearbody c1.
  case_match; [|done]. pose proof (keep_connect None c1 H1). branches.
Qed.
Hint Resolve keep_sendCommand : client.

Lemma keep_make_envelope t r p c cmd c' :
  P c -> make_envelope E t r p c = Ok (cmd, c') -> P c'.
Proof.
  intros H. unfold make_envelope, fresh. rewrite bind_Ok. intros (e & _ & [= _ <-]). by peel.
Qed.

Lemma keep_publish r v signal c p c' : P c -> publish opts E r v signal c = Ok (p, c') -> P c'.
Proof.
  intros H. unfold publish. rewrite bind_Ok. intros ((cmd & c1) & Hm & Hs%Ok_inj).
  pose proof (keep_sendCommand cmd signal c1 (keep_make_envelope _ _ _ _ _ _ H Hm)) as H1.
  by rewrite Hs in H1.
Qed.

Lemma keep_ping signal c p c' : P c -> ping opts E signal c = Ok (p, c') -> P c'.
Proof.
  intros H. unfold ping. rewrite bind_Ok. intros ((cmd & c1) & Hm & Hs%Ok_inj).
  pose proof (keep_sendCommand cmd signal c1 (keep_make_envelope _ _ _ _ _ _ H Hm)) as H1.
  by rewrite Hs in H1.
Qed.

Lemma keep_heartbeat_tick c : P c -> P (heartbeat_tick opts E c).
Proof.
  intros H. unfold heartbeat_tick. destruct (ping opts E None c) as [[p c']|] eqn:Hp; [|done].
  apply keep_ping in Hp; [|done]. branches.
Qed.

Lemma keep_heartbeat_failed f c : P c -> P (heartbeat_failed opts E f c).
Proof. unfold heartbeat_failed. branches. Qed.

(** A command made and sent, as the subscription operations do. *)
Lemma keep_made t r p c cmd c' signal :
  P c -> make_envelope E t r p c = Ok (cmd, c') -> P (sendCommand opts E cmd signal c').2.
Proof. intros H Hm. apply keep_sendCommand. by eapply keep_make_envelope. Qed.

Ltac made H :=
  match goal with
  | Hm : make_envelope _ _ _ _ ?c = Ok (?cmd, ?c'), Hs : sendCommand _ _ ?cmd ?sg ?c' = (_, ?c2) |- _ =>
      assert (P c2) by (pose proof (keep_made _ _ _ c cmd c' sg H Hm) as Hb; by rewrite Hs in Hb)
  end.

Lemma keep_establishSubscription route c : P c -> P (establishSubscription opts E route c).2.
Proof.
  intros H. unfold establishSubscription, settled_promise, fresh.
  destruct (map_get route _); [done|]. destruct (make_envelope _ _ _ _ _) as [[cmd c1]|] eqn:Hm; [|branches].
  destruct (sendCommand _ _ _ _ _) as [p c2] eqn:Hs. made H. branches.
Qed.
Hint Resolve keep_establishSubscription : client.

Lemma keep_established route cmd self o c : P c -> P (Client.established route cmd self o c).
Proof. unfold Client.established. branches. Qed.
Hint Resolve keep_established : client.

Lemma keep_resume_establish route cmd st self o c :
  P c -> P (resume_establish opts E route cmd st self o c).
Proof.
  intros H. unfold resume_establish. destruct st, o; [|by apply keep_established..]. case_match; [|eauto with client].
  destruct (make_envelope _ _ _ _ _) as [[u c1]|] eqn:Hm; [|eauto with client].
  destruct (sendCommand _ _ _ _ _) as [p c2] eqn:Hs. made H. branches.
Qed.

Lemma keep_subscribe route signal c : P c -> P (subscribe opts E route signal c).2.
Proof.
  intros H. unfold subscribe, settled_promise, fresh.
  destruct (map_get route (subscriptions c)) as [set|].
  - branches.
  - set (c1 := set_sets _ _). assert (H1 : P c1) by (unfold c1; repeat peel; done). clearbody c1. cbv beta iota zeta.
    destruct (establishSubscription _ _ _ _) as [p c2] eqn:He.
    assert (H2 : P c2) by (pose proof (keep_establishSubscription route c1 H1) as Hb; by rewrite He in Hb).
    branches.
Qed.

Lemma keep_resume_subscribe route set reg self o c :
  P c -> P (resume_subscribe route set reg self o c).
Proof. unfold resume_subscribe, delete_registration. branches. Qed.

Lemma keep_unsubscribe_failed route set reg self f c :
  P c -> P (unsubscribe_failed opts E route set reg self f c).
Proof. intros H. unfold unsubscribe_failed, update_handle. cbn [socket]. branches. Qed.

Lemma keep_unsubscribe_done reg self c : P c -> P (unsubscribe_done reg self c).
Proof. unfold unsubscribe_done. branches. Qed.
Hint Resolve keep_unsubscribe_failed keep_unsubscribe_done : client.

Lemma keep_unsubscribe reg c : P c -> P (unsubscribe opts E reg c).
Proof.
  intros H. unfold unsubscribe, update_handle, delete_registration, fresh.
  destruct (handles c !! reg) as [h|]; [|done]. case_match; [done|]. destruct (h_unsubscribing h); [done|].
  destruct (map_get _ _) as [cur|]; [|eauto 12 with client]. case_match; [|eauto 12 with client].
  case_match; [|eauto 12 with client]. set (c1 := set_subscriptions _ _). assert (Hc1 : P c1) by (unfold c1; repeat peel; done). clearbody c1.
  destruct (make_envelope _ _ _ _ _) as [[u c2]|] eqn:Hm; [|eauto 12 with client].
  destruct (sendCommand _ _ _ _ _) as [p c3] eqn:Hs. made Hc1. branches.
Qed.

Lemma keep_transmitEnvelope t r c p c' : P c -> transmitEnvelope opts E t r c = Ok (p, c') -> P c'.
Proof.
  intros H. unfold transmitEnvelope, fresh. rewrite bind_Ok. intros ((cmd & c1) & Hm & Hs%Ok_inj).
  apply keep_make_envelope in Hm; [|done]. simplify_eq. eauto with client.
Qed.

Lemma keep_start_route gen r qs c p c' : P c -> start_route opts E gen r qs c = Ok (p, c') -> P c'.
Proof.
  intros H. unfold start_route, transmitQueuedCommand, fresh. case_match; [done|]. destruct (map_get r qs) as [q|].
  - intros Hs%Ok_inj. simplify_eq. eauto with client.
  - destruct (transmitEnvelope _ _ _ _ _) as [[p' c1]|] eqn:Ht; [|done]. intros Hs%Ok_inj. simplify_eq.
    by eapply keep_transmitEnvelope.
Qed.

Lemma keep_flush fuel c c' : P c -> flush opts E fuel c = Some c' -> P c'.
Proof.
  revert c; induction fuel as [|k IH]; intros c H; simpl; destruct (queued c) as [|q rest] eqn:Hq;
    try done; try (by intros [= <-]).
  apply IH. apply keep_transmit. apply (k_queued _ _ HU); [|done]. rewrite Hq. by apply sublist_cons.
Qed.

Lemma keep_restore_loop fuel s routes qs failures c c' :
  P c -> restore_loop opts E fuel s routes qs failures c = Some c' -> P c'.
Proof.
  revert failures c; induction routes as [|r routes IH]; intros failures c H; simpl.
  - case_match; [intros [= <-]; unfold push_task; by peel|]. case_match; [intros [= <-]; unfold push_task; by peel|].
    destruct (flush _ _ _ _) as [c1|] eqn:Hf; [|done]. intros [= <-]. unfold push_task. peel. by eapply keep_flush in Hf.
  - destruct (start_route _ _ _ _ _ _) as [[p c1]|f] eqn:Hs.
    + intros [= <-]. unfold push_task. peel. by eapply keep_start_route in Hs.
    + apply IH. eauto with client.
Qed.

Lemma keep_onopen fuel s c c' : P c -> onopen opts E fuel s c = Some c' -> P c'.
Proof.
  intros H. unfold onopen, restoreSubscriptionsAndFlush. destruct (sockets c !! s); [|done].
  case_match; [intros [= <-]; eauto with client|]. apply keep_restore_loop.
  cbv zeta. apply (k_queued _ _ HU); [apply sublist_filter|]. unfold update_socket. by peel.
Qed.

Lemma keep_resume_restore fuel s st route routes qs failures o c c' :
  P c -> resume_restore opts E fuel s st route routes qs failures o c = Some c' -> P c'.
Proof.
  intros H. unfold resume_restore.
  assert (Hfail : forall f, restore_loop opts E fuel s routes qs (failures ++ [normalizeError f]) (emit E (EError (normalizeError f)) c) = Some c' -> P c')
    by (intros f; apply keep_restore_loop; eauto with client).
  destruct o; [|apply Hfail]. destruct st; [|by apply keep_restore_loop].
  case_match; [by apply keep_restore_loop|]. case_match; [apply Hfail|].
  destruct (transmitEnvelope _ _ _ _ _) as [[p c1]|m] eqn:Ht; [|apply Hfail].
  intros [= <-]. unfold push_task. peel. by eapply keep_transmitEnvelope in Ht.
Qed.

Lemma keep_connection_established s c : P c -> P (connection_established E s c).
Proof.
  intros H. unfold connection_established, startHeartbeat. case_match; [branches|]. cbv zeta.
  assert (H1 : P (restored E s c)) by (unfold restored, update_socket; eauto 8 with client).
  generalize dependent (restored E s c). intros c1 H1. branches.
Qed.

Lemma keep_restore_rejected s f c : P c -> P (restore_rejected opts E s f c).
Proof. unfold restore_rejected. branches. Qed.

Lemma keep_url_ready a r c : P c -> P (url_ready a r c).
Proof. unfold url_ready. branches. Qed.

Lemma keep_opened a o c : P c -> P (opened opts E a o c).
Proof. unfold opened, clear_controller. branches. Qed.

Lemma keep_reconnect_fired t d c : (t, d) ∈ timers c -> P c -> P (reconnect_fired opts E t c).
Proof.
  intros Ht H. unfold reconnect_fired. apply (k_fire _ _ HU _ _ _ Ht) in H.
  generalize dependent (set_reconnectTimer None (set_timers (filter (fun kv => kv.1 <> t) (timers c)) c)).
  intros c1 H1. branches.
Qed.


(** The steps of this section, with the timer of [step_reconnect] known. *)
Lemma keep_api call c : P c -> P (api opts E call c).
Proof.
  intros H. destruct call; simpl.
  - by apply keep_connect.
  - destruct (disconnect _ _ _ _ _) eqn:Hd; [by eapply keep_disconnect in Hd|done].
  - destruct (publish _ _ _ _ _ _) as [[p c']|] eqn:Hp; [by eapply keep_publish in Hp|done].
  - destruct (ping _ _ _ _) as [[p c']|] eqn:Hp; [by eapply keep_ping in Hp|done].
  - by apply keep_subscribe.
  - by apply keep_unsubscribe.
  - by apply keep_abortSignal.
Qed.

Lemma keep_resume t c c' : P c -> resume opts E t c = Some c' -> P c'.
Proof.
  intros H. destruct t; simpl; try done.
  - intros [= <-]. by apply keep_opened.
  - destruct r; intros [= <-]; [by apply keep_connection_established|unfold push_task; by peel].
  - intros [= <-]. by apply keep_restore_rejected.
  - destruct (promises c !! awaited); simpl; [|done]. intros [= <-]. by apply keep_resume_establish.
  - destruct (promises c !! awaited); simpl; [|done]. intros [= <-]. by apply keep_resume_subscribe.
  - destruct (promises c !! awaited) as [[]|]; simpl; [| |done]; intros [= <-];
      [by apply keep_unsubscribe_done|by apply keep_unsubscribe_failed].
  - destruct (promises c !! awaited) as [[]|]; simpl; [| |done]; intros [= <-]; [done|by apply keep_heartbeat_failed].
  - destruct (promises c !! awaited) as [[]|]; simpl; [| |done]; intros [= <-]; [done|by apply keep_emit].
Qed.

Lemma keep_step_section c c' : P c -> step opts E c c' -> P c'.
Proof.
  intros H. destruct 1.
  - by apply keep_api.
  - apply keep_url_ready. unfold remove_task. by peel.
  - eapply keep_resume; [|eassumption]. unfold remove_task. by peel.
  - eapply keep_resume_restore; [|eassumption]. unfold remove_task. by peel.
  - eapply keep_onopen; [|eassumption]. unfold update_socket. by peel.
  - by apply keep_handleMessage.
  - by apply keep_onerror.
  - apply keep_onclose. unfold update_socket. by peel.
  - by apply keep_command_timeout.
  - by eapply keep_reconnect_fired.
  - by apply keep_heartbeat_tick.
Qed.
End ops.

Lemma keep_step opts E P c c' :
  closed_updates opts P -> closed_calls opts E P -> P c -> step opts E c c' -> P c'.
Proof. intros HU [Hk Ha Hd]. by apply keep_step_section. Qed.

(** An invariant of all reachable states. *)
Lemma keep_reachable opts E P c :
  closed_updates opts P -> closed_calls opts E P -> P initial -> reachable opts E c -> P c.
Proof. intros HU HC Hi. induction 1; [done|]. by eapply keep_step. Qed.

(** Listeners that call back keep what the calls keep. *)
Lemma keep_reentrant opts E script P n :
  closed_updates opts P ->
  (forall E, (forall e c, P c -> P (consumer E e c)) -> closed_calls opts E P) ->
  closed_calls opts (reentrant opts E script n) P.
Proof.
  intros HU HC. induction n as [|n IH]; apply HC; intros e c H; [done|]. simpl.
  destruct IH as [Hk Ha Hd]. generalize (script e c). intros calls. revert c H.
  induction calls as [|call calls IHc]; intros c H; simpl; [done|]. apply IHc. by apply keep_api.
Qed.
