(* ===== verification/ClientBounds.v ===== *)
(** * Bounded queues and timers of the realtime client

    Instances of ClientKeeps.v: the bounds on [pending] and [queued], which
    hold whatever the listeners do, and the discipline of the reconnect timer,
    which holds when listeners do not call back while the client is emitting
    (ClientFindings.v shows a listener that breaks it). *)

From stdpp Require Import base tactics option list numbers strings gmap.
From Stdlib Require Import ZArith QArith Lia.
From S2P Require Import Prelude JsString JsNumber JsValue JsDate Protocol Reconnect ClientState Client ClientStep ClientKeeps.

Open Scope Z_scope.

(** ** Queues *)

Section bounds.
Context (opts : ClientOptions).

Definition bounded (c : RealtimeClient) : Prop :=
  (length (pending c) <= maximumPendingCommands opts)%nat /\
  (length (queued c) <= maximumQueuedCommands opts)%nat.

Lemma bounded_updates : closed_updates opts bounded.
Proof.
  constructor; unfold bounded; simpl; try tauto.
  - by intros c c' [-> -> _ _ _ _].
  - intros l c Hl%sublist_length. lia.
  - intros l c Hl%sublist_length. lia.
  - intros q c Hl. rewrite length_app. simpl. lia.
  - intros k p c Hl. pose proof (length_map_set k p (pending c)). lia.
  - intros c. unfold clearReconnectTimer. by destruct (reconnectTimer c).
  - intros c. unfold clearReconnectTimer. by destruct (reconnectTimer _).
Qed.

Lemma bounded_calls E : (forall e c, bounded c -> bounded (consumer E e c)) -> closed_calls opts E bounded.
Proof.
  intros Hk.
  assert (Harm : forall c, reconnectTimer c = None -> intentionalClose c = false ->
    reconnectAttempt c < r_maximumAttempts (reconnectOptions opts) -> bounded c ->
    bounded (armReconnect opts E (setState E reconnecting c))).
  { intros c _ _ _ H. by apply (keep_setState opts bounded bounded_updates E Hk reconnecting). }
  constructor; [done|done|]. intros c H.
  pose proof (keep_abort_controller opts bounded bounded_updates E Hk Harm) as Ha.
  by apply (k_clear _ _ bounded_updates), Ha.
Qed.
End bounds.

(** ** The reconnect timer *)

Section timers.
Context (opts : ClientOptions) (E : Environment) (Hmax : 0 <= r_maximumAttempts (reconnectOptions opts)).

(** The live timers are exactly the one the client remembers, and the attempt
    counter stays within its limit. *)
Definition timer_tracked (c : RealtimeClient) : Prop :=
  fst <$> timers c = option_list (reconnectTimer c) /\
  0 <= reconnectAttempt c <= r_maximumAttempts (reconnectOptions opts).

Lemma filter_tracked t (c : RealtimeClient) :
  fst <$> timers c = [t] -> filter (fun kv => kv.1 <> t) (timers c) = [].
Proof.
  destruct (timers c) as [|[t' d] [|]]; try done. intros [= ->].
  rewrite filter_cons_False; [done|]. simpl. tauto.
Qed.

Lemma clear_tracked c :
  fst <$> timers c = option_list (reconnectTimer c) ->
  reconnectTimer (clearReconnectTimer c) = None /\ timers (clearReconnectTimer c) = [].
Proof.
  intros H. unfold clearReconnectTimer. destruct (reconnectTimer c) as [t|] eqn:Ht; simpl.
  - by rewrite filter_tracked.
  - rewrite Ht. split; [done|]. by destruct (timers c).
Qed.

Lemma clear_attempt c : reconnectAttempt (clearReconnectTimer c) = reconnectAttempt c.
Proof. unfold clearReconnectTimer. by destruct (reconnectTimer c). Qed.

Lemma clear_intentional c : intentionalClose (clearReconnectTimer c) = intentionalClose c.
Proof. unfold clearReconnectTimer. by destruct (reconnectTimer c). Qed.

Lemma tracked_clear c : timer_tracked c -> timer_tracked (clearReconnectTimer c).
Proof.
  intros [H1 H2]. destruct (clear_tracked c H1) as [Ht Hl].
  unfold timer_tracked. by rewrite Ht, Hl, clear_attempt.
Qed.

Lemma tracked_updates : closed_updates opts timer_tracked.
Proof.
  constructor; try (by intros; eauto).
  - unfold timer_tracked. by intros c c' [_ _ -> -> _ ->].
  - apply tracked_clear.
  - intros c H. by apply tracked_clear.
  - intros c [H1 H2]. split; [done|]. simpl. lia.
  - intros t d c Hin [H1 H2]. split; [|done]. simpl.
    destruct (reconnectTimer c) as [t'|]; simpl in H1.
    + destruct (timers c) as [|[t2 d2] [|]]; try done. simpl in H1. simplify_eq.
      apply list_elem_of_singleton in Hin. simplify_eq. rewrite filter_cons_False; [done|]. simpl. tauto.
    + destruct (timers c); [by apply not_elem_of_nil in Hin|done].
Qed.

Lemma tracked_arm c :
  reconnectTimer c = None -> reconnectAttempt c < r_maximumAttempts (reconnectOptions opts) ->
  timer_tracked c -> timer_tracked (armReconnect opts (passive E) (setState (passive E) reconnecting c)).
Proof.
  intros Ht Hlt [H1 H2]. rewrite Ht in H1. unfold setState. case_decide; unfold timer_tracked; simpl;
    (destruct (timers c); [|done]); simpl; (split; [done|lia]).
Qed.

Lemma tracked_calls : closed_calls opts (passive E) timer_tracked.
Proof.
  assert (Harm : forall c, reconnectTimer c = None -> intentionalClose c = false ->
    reconnectAttempt c < r_maximumAttempts (reconnectOptions opts) -> timer_tracked c ->
    timer_tracked (armReconnect opts (passive E) (setState (passive E) reconnecting c))).
  { intros c Ht _. by apply tracked_arm. }
  constructor; [done|done|]. intros c H.
  pose proof (keep_abort_controller opts timer_tracked tracked_updates (passive E) (fun _ _ H => H) Harm) as Ha.
  by apply tracked_clear, Ha.
Qed.

(** After an intentional close no timer is armed. *)
Definition timer_quiet (c : RealtimeClient) : Prop :=
  timer_tracked c /\ (intentionalClose c = true -> reconnectTimer c = None).

Lemma quiet_updates : closed_updates opts timer_quiet.
Proof.
  pose proof tracked_updates as HU. constructor.
  - intros c c' Ha [H1 H2]. split; [by eapply (k_agree _ _ HU)|]. by destruct Ha as [_ _ -> _ -> _].
  - done.
  - done.
  - done.
  - done.
  - intros c [H1 H2]. split; [by apply tracked_clear|]. intros _. by apply clear_tracked, H1.
  - intros c [H1 H2]. split; [by apply tracked_clear|]. by rewrite clear_intentional.
  - intros c [H1 H2]. split; [by apply (k_reset _ _ HU)|done].
  - intros t d c Hin [H1 H2]. split; [by eapply (k_fire _ _ HU)|done].
Qed.

Lemma quiet_calls : closed_calls opts (passive E) timer_quiet.
Proof.
  pose proof tracked_calls as HC. constructor.
  - done.
  - intros c Ht Hi Hlt [H1 H2]. split; [by apply tracked_arm|].
    unfold setState. case_decide; simpl; congruence.
  - intros c [H1 _]. pose proof (k_disconnect _ _ _ HC c H1) as [Hd1 Hd2]. split; [done|]. intros _.
    apply (clear_tracked (set_connectPromise None (set_connectAbortController None (abort_controller opts (passive E)
      (set_generation (generation c + 1) (set_intentionalClose true c)))))).
    pose proof (keep_abort_controller opts timer_tracked tracked_updates (passive E) (fun _ _ H => H)
      (k_arm _ _ _ HC)) as Ha.
    by destruct (Ha (set_generation (generation c + 1) (set_intentionalClose true c)) H1).
Qed.

(** In the states that passive listeners allow, a client that was disconnected has no
    timer armed. *)
Lemma reachable_timer_quiet c : reachable opts (passive E) c -> timer_quiet c.
Proof. apply keep_reachable; [by apply quiet_updates|by apply quiet_calls|]. split; [|done]. split; simpl; [done|lia]. Qed.

Lemma reachable_quiet c : reachable opts (passive E) c -> intentionalClose c = true -> timers c = [].
Proof.
  intros Hr Hi. destruct (reachable_timer_quiet c Hr) as [[H1 _] H3]. rewrite (H3 Hi) in H1. by destruct (timers c).
Qed.
End timers.

(** ** Properties *)

(** C2: in every reachable state of the client, with listeners that call back
    into it arbitrarily and nested to any depth, at most
    [maximumPendingCommands] commands await an acknowledgement and at most
    [maximumQueuedCommands] are queued. *)
Theorem queues_bounded opts E script n c :
  reachable opts (reentrant opts E script n) c -> bounded opts c.
Proof.
  apply keep_reachable; [apply bounded_updates|apply keep_reentrant|split; apply Nat.le_0_l].
  - apply bounded_updates.
  - apply bounded_calls.
Qed.

(** An environment with a clock, distinct identifiers and a socket that sends. *)
Definition sample_environment : Environment :=
  {| consumer := fun _ c => c; random := fun _ => Fin (1 # 2); randomUUID := fun n => js "id-" ++ show_N (N.of_nat n);
     clock := fun _ => 1788109200100; stringify := fun _ => []; sendThrows := fun _ _ => None; deliveries := 8;
     dateFallback := fun _ => None |}.

Lemma queues_bounded_witness :
  let script e _ := match e with EState reconnecting => [CallDisconnect (int 1000) (js "bye")] | _ => [] end in
  let E := reentrant defaultOptions sample_environment script 2 in
  let c := api defaultOptions E (CallPublish (js "orders") (Str (js "x")) None) initial in
  length (queued c) = 1%nat /\ bounded defaultOptions c.
Proof.
  intros script E c. split; [vm_compute; reflexivity|].
  apply (queues_bounded defaultOptions sample_environment script 2 c).
  apply (reach_step defaultOptions E initial c); [apply reach_initial|]. apply step_api.
Defined.

(** C31: with listeners that do not call back, in every reachable state at most
    one reconnect timer is live and it is the one the client remembers and can
    cancel, none is live after [disconnect], and the attempt counter stays
    between 0 and [maximumAttempts]. *)
Theorem reconnect_timer_discipline opts E c :
  0 <= r_maximumAttempts (reconnectOptions opts) ->
  reachable opts (passive E) c ->
  fst <$> timers c = option_list (reconnectTimer c) /\
  (intentionalClose c = true -> timers c = []) /\
  0 <= reconnectAttempt c <= r_maximumAttempts (reconnectOptions opts).
Proof.
  intros Hmax Hr. destruct (reachable_timer_quiet opts E Hmax c Hr) as [[H1 H2] _].
  split; [done|]. split; [intros Hi; by apply (reachable_quiet opts E Hmax)|done].
Qed.

Lemma reconnect_timer_discipline_witness :
  let c := api defaultOptions (passive sample_environment) (CallDisconnect (int 1000) (js "bye")) initial in
  stateValue c = closed /\ intentionalClose c = true /\ timers c = [].
Proof.
  intros c. split; [vm_compute; reflexivity|]. split; [vm_compute; reflexivity|].
  apply (reconnect_timer_discipline defaultOptions sample_environment c).
  - vm_compute. congruence.
  - apply (reach_step defaultOptions (passive sample_environment) initial c); [apply reach_initial|]. apply step_api.
  - vm_compute. reflexivity.
Defined.
