(* ===== verification/ClientCommands.v ===== *)
(** * Commands of the realtime client: flushing, disconnecting

    What the flush after a reconnect does to the queue, when it terminates,
    and what [disconnect] leaves behind. *)

From stdpp Require Import base tactics option list numbers strings gmap.
From Stdlib Require Import ZArith QArith Lia.
From S2P Require Import Prelude JsString JsNumber JsValue JsDate Protocol Reconnect ClientState Client ClientStep ClientKeeps ClientBounds.

Open Scope Z_scope.

(** ** Flushing over a healthy socket *)

Section flush.
Context (opts : ClientOptions) (E : Environment).

(** A command that can be sent now: not cancelled and within the size limit. *)
Definition sendable (c : RealtimeClient) (q : command) : Prop :=
  is_aborted c (cmd_signal q) = None /\
  (byteLength (stringify E (cmd_envelope q)) <= maximumMessageBytes opts)%nat.

Definition sent_on (c : RealtimeClient) (s : nat) : list value := from_option s_sent [] (sockets c !! s).

(** Sending one command: it becomes pending, and nothing else moves. *)
Lemma transmit_sends c s q :
  socket c = Some s -> readyState c s = OPEN -> sendable c q ->
  (length (pending c) < maximumPendingCommands opts)%nat -> (forall i, sendThrows E s i = None) ->
  let c' := transmit opts E q true c in
  socket c' = Some s /\ readyState c' s = OPEN /\ queued c' = queued c /\ aborted c' = aborted c /\
  pending c' = map_set (cmd_correlation q) (Pending (cmd_promises q) (cmd_signal q)) (pending c) /\
  sent_on c' s = sent_on c s ++ [cmd_envelope q] /\ promises c' = promises c.
Proof.
  intros Hs Ho [Ha Hb] Hp Hsend. unfold transmit. cbn [cmd_signal with_listening]. rewrite Ha.
  rewrite bool_decide_false by lia. rewrite Hs, Ho. change (OPEN =? OPEN) with true. cbv iota.
  unfold send_on. cbn [cmd_envelope with_listening]. rewrite bool_decide_false by lia. unfold fresh. rewrite Hsend.
  unfold update_socket, readyState, sent_on in *. simpl. rewrite lookup_alter_eq.
  destruct (sockets c !! s) as [o|]; simpl in *; [done|discriminate Ho].
Qed.

(** The commands of the queue, as entries of [pending]. *)
Definition as_pending (l : list (jstr * PendingCommand)) (q : command) : list (jstr * PendingCommand) :=
  map_set (cmd_correlation q) (Pending (cmd_promises q) (cmd_signal q)) l.

(** ** Flushing once the socket has gone *)

(** With the socket no longer open, the head of the queue goes back to its end. *)
Lemma transmit_requeues c q :
  socketOpen c = false -> is_aborted c (cmd_signal q) = None ->
  (length (pending c) < maximumPendingCommands opts)%nat -> (length (queued c) < maximumQueuedCommands opts)%nat ->
  transmit opts E q true c = set_queued (queued c ++ [with_listening false q]) c.
Proof.
  intros Hs Ha Hp Hq. unfold transmit, socketOpen in *. cbn [cmd_signal with_listening]. rewrite Ha.
  rewrite bool_decide_false by lia.
  assert (Hu : unavailable opts (with_listening false q) true c = set_queued (queued c ++ [with_listening false q]) c).
  { unfold unavailable. cbn [negb]. by rewrite bool_decide_false by lia. }
  destruct (socket c) as [s|]; [|done]. by rewrite Hs.
Qed.

Definition not_aborted (c : RealtimeClient) (q : command) : Prop := is_aborted c (cmd_signal q) = None.

Lemma flush_spins fuel c :
  socketOpen c = false -> queued c <> [] -> Forall (not_aborted c) (queued c) ->
  (length (pending c) < maximumPendingCommands opts)%nat -> (length (queued c) <= maximumQueuedCommands opts)%nat ->
  flush opts E fuel c = None.
Proof.
  revert c; induction fuel as [|k IH]; intros c Hs Hne Hf Hp Hq; cbn [flush]; destruct (queued c) as [|q rest] eqn:E1; try done.
  apply Forall_cons in Hf as [Hq1 Hf]. simpl in Hq.
  rewrite transmit_requeues; [|done|done|done|simpl; lia]. apply IH; [done| | |done|].
  - simpl. by destruct rest.
  - apply Forall_app. split; [done|]. by apply Forall_singleton.
  - simpl. rewrite length_app. simpl. lia.
Qed.
End flush.

(** ** Disconnecting *)

Section disconnecting.
Context (opts : ClientOptions) (E : Environment).

(** What a closed client no longer holds. *)
Record cleared (c : RealtimeClient) : Prop := {
  cl_pending : pending c = [];
  cl_queued : queued c = [];
  cl_socket : socket c = None;
  cl_timer : reconnectTimer c = None;
  cl_heartbeat : heartbeatTimer c = None;
  cl_connect : connectPromise c = None;
  cl_controller : connectAbortController c = None;
  cl_intentional : intentionalClose c = true;
}.

(** While the client is emitting nothing, [setState] only sets the state. *)
Lemma setState_passive s c :
  exists l, setState (passive E) s c = set_emitted l (set_stateValue s c).
Proof.
  unfold setState. case_decide as H; [|by eexists].
  exists (emitted c). subst. by destruct c.
Qed.

(** Closing a socket of an intentionally closed client leaves it cleared. *)
Lemma cleared_closeSocket s code reason c :
  cleared c -> cleared (closeSocket opts (passive E) s code reason c).
Proof.
  intros [? ? ? ? ? ? ? Hi]. unfold closeSocket.
  destruct (sockets c !! s) as [o|] eqn:Ho; [|by constructor]. case_match; [by constructor|].
  destruct (s_sync o); [|by constructor]. unfold onclose, update_socket. simpl. rewrite lookup_alter_eq, Ho. simpl.
  unfold settle_open. simpl. rewrite !lookup_alter_eq, Ho. simpl.
  assert (Hh : forall g al c1, cleared c1 -> cleared (handleClose opts (passive E) code reason g al c1)).
  { intros g al c1 [? ? ? ? ? ? ? Hi1]. unfold handleClose. case_match; [by constructor|]. cbv zeta.
    match goal with |- context [rejectPending ?f ?c] => destruct (rejectPending_frame f c) as [m ->] end.
    match goal with |- context [setState _ closed ?c] => destruct (setState_passive closed c) as [l ->] end.
    change (intentionalClose (set_socket None (stopHeartbeat c1))) with (intentionalClose c1). rewrite Hi1.
    cbn [orb]. by constructor. }
  destruct (s_settled o); apply Hh; by constructor.
Qed.

Lemma disconnect_begin_cleared c :
  let c' := disconnect_begin opts (passive E) c in
  heartbeatTimer c' = None /\ connectPromise c' = None /\ connectAbortController c' = None /\ reconnectTimer c' = None.
Proof.
  unfold disconnect_begin, clearReconnectTimer, stopHeartbeat. simpl.
  destruct (reconnectTimer (abort_controller _ _ _)) eqn:H; simpl; [done|]. by rewrite H.
Qed.
End disconnecting.

(** ** No command promise is dropped on the way *)

(** A promise that is settled, or that a pending or queued command will settle. *)
Definition tracked (p : nat) (c : RealtimeClient) : Prop :=
  is_Some (promises c !! p) \/ p ∈ (pending c ≫= fun kp => p_promises kp.2) \/ p ∈ (queued c ≫= cmd_promises).

(** [c'] comes after [c] without a connect or a disconnect in between, and
    every promise tracked in [c] is tracked in [c']. *)
Record after (c c' : RealtimeClient) : Prop := {
  af_intentional : intentionalClose c' = intentionalClose c;
  af_generation : generation c' = generation c;
  af_tracked p : tracked p c -> tracked p c';
}.

#[global] Instance after_preorder : PreOrder after.
Proof. split; [by constructor|]. intros a b c [H1 H2 H3] [H4 H5 H6]. constructor; [congruence..|eauto]. Qed.

Lemma after_same c c' :
  intentionalClose c' = intentionalClose c -> generation c' = generation c ->
  promises c' = promises c -> pending c' = pending c -> queued c' = queued c -> after c c'.
Proof. intros H1 H2 H3 H4 H5. constructor; [done..|]. intros p. unfold tracked. by rewrite H3, H4, H5. Qed.

Lemma settle_settles o p c : is_Some (promises (settle o p c) !! p).
Proof. unfold settle. destruct (promises c !! p) eqn:H; [by rewrite H|]. simpl. by rewrite lookup_insert_eq. Qed.

Lemma settle_mono o p q c : is_Some (promises c !! q) -> is_Some (promises (settle o p c) !! q).
Proof.
  intros H. unfold settle. destruct (promises c !! p) eqn:Hp; [done|]. simpl.
  destruct (decide (p = q)) as [->|]; [by rewrite lookup_insert_eq|by rewrite lookup_insert_ne].
Qed.

Lemma settle_all_mono o ps q c : is_Some (promises c !! q) -> is_Some (promises (settle_all o ps c) !! q).
Proof.
  revert c; induction ps as [|p ps IH]; intros c H; [done|].
  change (settle_all o (p :: ps) c) with (settle_all o ps (settle o p c)). apply IH. by apply settle_mono.
Qed.

Lemma settle_all_settles o ps q c : q ∈ ps -> is_Some (promises (settle_all o ps c) !! q).
Proof.
  revert c; induction ps as [|p ps IH]; intros c; [intros []%not_elem_of_nil|].
  change (settle_all o (p :: ps) c) with (settle_all o ps (settle o p c)).
  intros [->|H]%elem_of_cons; [|by apply IH]. apply settle_all_mono, settle_settles.
Qed.

(** ** Flushing any queue over an open socket *)

Section flushing.
Context (opts : ClientOptions) (E : Environment).

(** The socket, the queue and the signals of [c'] are those of [c], and nothing
    settled was lost. *)
Definition sameSocket (s : nat) (c c' : RealtimeClient) : Prop :=
  socket c' = Some s /\ readyState c' s = OPEN /\ queued c' = queued c /\ aborted c' = aborted c /\
  (forall p, is_Some (promises c !! p) -> is_Some (promises c' !! p)).

(** Rejecting one command touches nothing but its promises. *)
Lemma reject_command_any f q s c :
  socket c = Some s -> readyState c s = OPEN ->
  let c' := reject_command f q c in
  sameSocket s c c' /\ pending c' = pending c /\ sent_on c' s = sent_on c s /\ (forall p, p ∈ cmd_promises q -> is_Some (promises c' !! p)).
Proof.
  intros Hs Ho. pose proof (settle_all_mono (Rejected f) (cmd_promises q)) as Hm. pose proof (settle_all_settles (Rejected f) (cmd_promises q)) as Hp.
  unfold reject_command in *. cbv zeta. specialize (fun x => Hm x c). specialize (fun x => Hp x c).
  destruct (settle_all_frame (Rejected f) (cmd_promises q) c) as [m Hr]. rewrite Hr in *. by split_and!.
Qed.

(** One command is sent and pending, or it cannot be sent and is rejected. *)
Lemma transmit_any q s c :
  socket c = Some s -> readyState c s = OPEN -> (forall i, sendThrows E s i = None) ->
  let c' := transmit opts E q true c in
  sameSocket s c c' /\
  ((pending c' = as_pending (pending c) q /\ sent_on c' s = sent_on c s ++ [cmd_envelope q]) \/
   ((~ sendable opts E c q \/ (maximumPendingCommands opts <= length (pending c))%nat) /\
    pending c' = pending c /\ sent_on c' s = sent_on c s /\ forall p, p ∈ cmd_promises q -> is_Some (promises c' !! p))).
Proof.
  intros Hs Ho Hsend. cbv zeta.
  assert (forall f (R : Prop), R -> let c' := reject_command f (with_listening false q) c in
    sameSocket s c c' /\ ((pending c' = as_pending (pending c) q /\ sent_on c' s = sent_on c s ++ [cmd_envelope q]) \/
      (R /\ pending c' = pending c /\ sent_on c' s = sent_on c s /\ forall p, p ∈ cmd_promises q -> is_Some (promises c' !! p)))) as Hrej.
  { intros f R HR. destruct (reject_command_any f (with_listening false q) s c Hs Ho) as (H1 & H2 & H3 & H4). split; [done|right; by split_and!]. }
  destruct (is_aborted c (cmd_signal q)) as [f|] eqn:Ha.
  { unfold transmit. cbn [cmd_signal with_listening]. rewrite Ha. apply Hrej. left. intros [Hx _]. congruence. }
  destruct (decide (maximumPendingCommands opts <= length (pending c))%nat) as [Hp|Hp].
  { unfold transmit. cbn [cmd_signal with_listening]. rewrite Ha, bool_decide_true by done. apply Hrej. by right. }
  destruct (decide (byteLength (stringify E (cmd_envelope q)) <= maximumMessageBytes opts)%nat) as [Hb|Hb].
  - destruct (transmit_sends opts E c s q) as (H1 & H2 & H3 & H4 & H5 & H6 & H7); [done..|lia|done|].
    split; [split_and!; try done; by rewrite H7|left; done].
  - unfold transmit. cbn [cmd_signal with_listening]. rewrite Ha, bool_decide_false by lia. rewrite Hs, Ho. change (OPEN =? OPEN) with true. cbv iota.
    unfold send_on. cbn [cmd_envelope with_listening]. rewrite bool_decide_true by lia. apply Hrej. left. intros [_ Hx]. lia.
Qed.

Lemma length_as_pending l q : (length l <= length (as_pending l q) <= S (length l))%nat.
Proof.
  split; [|apply length_map_set]. unfold as_pending. induction l as [|[k v] l IH]; simpl; [lia|]. case_decide; simpl; lia.
Qed.

Lemma length_as_pendings qs l : (length l <= length (foldl as_pending l qs))%nat.
Proof. revert l. induction qs as [|q qs IH]; intros l; simpl; [lia|]. pose proof (IH (as_pending l q)). pose proof (length_as_pending l q). lia. Qed.

Lemma sendable_same s c c' q : sameSocket s c c' -> sendable opts E c' q <-> sendable opts E c q.
Proof. intros (_ & _ & _ & Ha & _). unfold sendable, is_aborted. by rewrite Ha. Qed.

(** What became of the commands [qs], of which [sent] were sent. *)
Definition flushed (s : nat) (c c' : RealtimeClient) (qs sent : list command) : Prop :=
  sent `sublist_of` qs /\ queued c' = [] /\ sent_on c' s = sent_on c s ++ (cmd_envelope <$> sent) /\
  pending c' = foldl as_pending (pending c) sent /\
  (forall q, q ∈ qs -> q ∈ sent \/
     ((~ sendable opts E c q \/ (maximumPendingCommands opts <= length (pending c'))%nat) /\ forall p, p ∈ cmd_promises q -> is_Some (promises c' !! p))) /\
  (Forall (sendable opts E c) qs -> (length (pending c) + length qs <= maximumPendingCommands opts)%nat -> sent = qs) /\
  (forall p, is_Some (promises c !! p) -> is_Some (promises c' !! p)).

Lemma flush_any qs c s :
  queued c = qs -> socket c = Some s -> readyState c s = OPEN -> (forall i, sendThrows E s i = None) ->
  exists c' sent, flush opts E (length qs) c = Some c' /\ flushed s c c' qs sent.
Proof.
  intros Hq Hs Ho Hsend. revert c Hq Hs Ho; induction qs as [|q qs IH]; intros c Hq Hs Ho.
  - exists c, []. simpl. rewrite Hq. split; [done|]. unfold flushed. rewrite app_nil_r. split_and!; try done. by intros q []%not_elem_of_nil.
  - simpl. rewrite Hq. destruct (transmit_any q s (set_queued qs c) Hs Ho Hsend) as [Hsame Hcase].
    set (c1 := transmit opts E q true (set_queued qs c)) in *. pose proof Hsame as (Hs1 & Ho1 & Hq1 & Ha1 & Hpr1).
    destruct (IH c1 Hq1 Hs1 Ho1) as (c' & sent & Hfl & Hsub & Hnil & Hsent & Hpend & Heach & Hall & Hmono).
    assert (forall x, sendable opts E c1 x <-> sendable opts E c x) as Hsa by (intros x; by apply (sendable_same s (set_queued qs c))).
    assert (forall x, x ∈ qs -> x ∈ sent \/ ((~ sendable opts E c x \/ (maximumPendingCommands opts <= length (pending c'))%nat) /\
              forall p, p ∈ cmd_promises x -> is_Some (promises c' !! p))) as Hx.
    { intros x Hx. destruct (Heach x Hx) as [?|[? ?]]; [by left|right]. rewrite <- Hsa. done. }
    assert (forall p, is_Some (promises c !! p) -> is_Some (promises c' !! p)) as Hm by (intros p Hp; by apply Hmono, Hpr1).
    destruct Hcase as [[Hp1 Hsent1]|(Hwhy & Hp1 & Hsent1 & Hset)].
    + exists c', (q :: sent). split; [done|]. split_and!; [by constructor|done| |by rewrite Hpend, Hp1| | |done].
      * rewrite Hsent, Hsent1. cbn. by rewrite <- app_assoc.
      * intros x [->|Hin]%elem_of_cons; [left; by left|]. destruct (Hx x Hin); [left; by right|by right].
      * intros [_ Hf]%Forall_cons Hlen. f_equal. apply Hall; [by eapply Forall_impl; [exact Hf|]; intros y Hy; apply Hsa|].
        rewrite Hp1. simpl in Hlen |- *. pose proof (length_as_pending (pending c) q). lia.
    + exists c', sent. split; [done|]. split_and!; [by constructor|done|by rewrite Hsent, Hsent1|by rewrite Hpend, Hp1| | |done].
      * intros x [->|Hin]%elem_of_cons; [right|by apply Hx]. split; [|intros p Hp; by apply Hmono, Hset].
        destruct Hwhy as [?|Hfull]; [by left|right]. rewrite Hpend, Hp1. simpl in *. pose proof (length_as_pendings sent (pending c)). lia.
      * intros [Hqs _]%Forall_cons Hlen. exfalso. destruct Hwhy as [Hn|Hfull]; [by apply Hn|]. simpl in *. lia.
Qed.
End flushing.

(** Rejecting a list of commands: what was settled stays so, and their promises are. *)
Lemma foldl_settles {A} (f : A -> list nat) o (l : list A) q c :
  is_Some (promises c !! q) \/ q ∈ (l ≫= f) ->
  is_Some (promises (foldl (fun c x => settle_all o (f x) c) c l) !! q).
Proof.
  revert c; induction l as [|x l IH]; intros c; simpl.
  - intros [H|[]%not_elem_of_nil]; done.
  - intros [H|[H|H]%elem_of_app]; apply IH; [left; by apply settle_all_mono|left; by apply settle_all_settles|by right].
Qed.

Lemma foldl_settles_frame {A} (f : A -> list nat) o (l : list A) c :
  exists m, foldl (fun c x => settle_all o (f x) c) c l = set_promises m c.
Proof. apply foldl_frame. intros. apply settle_all_frame. Qed.

(** Commands taken out of [pending] and [queued] and rejected stay tracked. *)
Lemma after_foldl_settle {A} (f : A -> list nat) o (l : list A) c c0 :
  intentionalClose c0 = intentionalClose c -> generation c0 = generation c -> promises c0 = promises c ->
  (forall p, p ∈ (pending c ≫= fun kp => p_promises kp.2) -> p ∈ (pending c0 ≫= fun kp => p_promises kp.2) \/ p ∈ (l ≫= f)) ->
  (forall p, p ∈ (queued c ≫= cmd_promises) -> p ∈ (queued c0 ≫= cmd_promises) \/ p ∈ (l ≫= f)) ->
  after c (foldl (fun c x => settle_all o (f x) c) c0 l).
Proof.
  intros H1 H2 H3 H4 H5. destruct (foldl_settles_frame f o l c0) as [m Hm].
  constructor; [by rewrite Hm; simpl..|]. intros p Hp. unfold tracked.
  assert (Hs := foldl_settles f o l p c0). rewrite Hm in Hs |- *. simpl in *. rewrite H3 in Hs.
  destruct Hp as [Hp|[Hp|Hp]]; [auto|destruct (H4 p Hp); auto|destruct (H5 p Hp); auto].
Qed.

Lemma elem_of_bind_filter {A} (P : A -> Prop) `{!forall x, Decision (P x)} (f : A -> list nat) l p :
  p ∈ (l ≫= f) -> p ∈ (filter P l ≫= f) \/ p ∈ (filter (fun x => ~ P x) l ≫= f).
Proof.
  rewrite !list_elem_of_bind. intros (x & Hp & Hx). destruct (decide (P x)).
  - left. exists x. split; [done|]. by apply list_elem_of_filter.
  - right. exists x. split; [done|]. by apply list_elem_of_filter.
Qed.

Lemma filter_bool_split {A} (b : A -> bool) (f : A -> list nat) l p :
  p ∈ (l ≫= f) -> p ∈ (filter (fun x => b x = false) l ≫= f) \/ p ∈ (filter (fun x => b x = true) l ≫= f).
Proof.
  rewrite !list_elem_of_bind. intros (x & Hp & Hx). destruct (b x) eqn:Hb.
  - right. exists x. split; [done|]. by apply list_elem_of_filter.
  - left. exists x. split; [done|]. by apply list_elem_of_filter.
Qed.

Lemma after_rejectQueued f c : after c (rejectQueued f c).
Proof. apply after_foldl_settle; auto. Qed.

Lemma after_rejectPending f c : after c (rejectPending f c).
Proof.
  unfold rejectPending.
  destruct (foldl_settles_frame (fun kp : jstr * PendingCommand => p_promises kp.2) (Rejected f) (pending c) c) as [m Hm].
  constructor; [by rewrite Hm..|]. intros p Hp.
  pose proof (foldl_settles (fun kp : jstr * PendingCommand => p_promises kp.2) (Rejected f) (pending c) p c) as Hs.
  cbv beta in Hs. rewrite Hm in Hs |- *. unfold tracked in *. simpl in *. tauto.
Qed.

Lemma after_abort_queued sig f c : after c (abort_queued sig f c).
Proof.
  apply after_foldl_settle; try done; [auto|]. intros p Hp. simpl.
  apply (filter_bool_split (fun q => has_signal sig (cmd_signal q) && cmd_listening q)) in Hp. tauto.
Qed.

Lemma after_abort_pending sig f c : after c (abort_pending sig f c).
Proof.
  apply (after_foldl_settle (fun kp : jstr * PendingCommand => p_promises kp.2)); try done; [|auto]. intros p Hp. simpl.
  apply (filter_bool_split (fun kp : jstr * PendingCommand => has_signal sig (p_signal kp.2))) in Hp. tauto.
Qed.

Lemma after_settle o p c : after c (settle o p c).
Proof.
  destruct (settle_frame o p c) as [m Hm]. constructor; [by rewrite Hm..|]. intros q Hq.
  pose proof (settle_mono o p q c) as Hs. rewrite Hm in Hs |- *. unfold tracked in *. simpl in *. tauto.
Qed.

Section chain.
Context (opts : ClientOptions) (E : Environment).

Lemma after_setState s c : after c (setState (passive E) s c).
Proof. destruct (setState_passive E s c) as [l ->]. by apply after_same. Qed.

Lemma after_scheduleReconnect c : after c (scheduleReconnect opts (passive E) c).
Proof.
  unfold scheduleReconnect. case_match; [done|]. case_match.
  - etrans; [apply (after_setState closed)|]. etrans; [apply after_rejectQueued|]. by apply after_same.
  - etrans; [apply (after_setState reconnecting)|]. by apply after_same.
Qed.

Lemma after_handleClose code reason g al c : after c (handleClose opts (passive E) code reason g al c).
Proof.
  unfold handleClose. case_match; [done|]. cbv zeta.
  set (c1 := set_socket None (stopHeartbeat c)).
  transitivity c1; [by apply after_same|].
  match goal with |- context [rejectPending ?f c1] => etrans; [apply (after_rejectPending f)|] end.
  etrans; [apply (after_setState closed)|].
  match goal with |- after ?a (if _ then ?b else _) => transitivity b; [by apply after_same|] end.
  case_match; [done|]. apply after_scheduleReconnect.
Qed.

Lemma after_settle_open s o c : after c (settle_open s o c).
Proof. unfold settle_open. repeat case_match; by apply after_same. Qed.

Lemma after_onclose s code reason c : after c (onclose opts (passive E) s code reason c).
Proof.
  unfold onclose. case_match; [|done]. etrans; [|apply after_handleClose]. etrans; [|apply after_settle_open].
  by apply after_same.
Qed.

Lemma after_closeSocket s code reason c : after c (closeSocket opts (passive E) s code reason c).
Proof.
  unfold closeSocket. repeat case_match; try by apply after_same.
  etrans; [|apply after_onclose]. by apply after_same.
Qed.

Lemma after_abort_socket sig c s : after c (abort_socket opts (passive E) sig c s).
Proof.
  unfold abort_socket. repeat case_match; try by apply after_same.
  transitivity (closeSocket opts (passive E) s closeCodes.normal (js "connect_cancelled")
    (update_socket s with_settled (update_socket s without_abortListener c))); [|by apply after_same].
  etrans; [|apply after_closeSocket]. by apply after_same.
Qed.

Lemma after_abort_sockets sig l c : after c (foldl (abort_socket opts (passive E) sig) c l).
Proof. revert c; induction l as [|s l IH]; intros c; simpl; [done|]. etrans; [apply after_abort_socket|apply IH]. Qed.

Lemma after_abortSignal sig f c : after c (abortSignal opts (passive E) sig f c).
Proof.
  unfold abortSignal. case_match; [done|]. unfold fresh. etrans; [|apply after_abort_sockets].
  match goal with |- after _ (set_tasks _ ?c1) => transitivity c1; [|by apply after_same] end.
  etrans; [|apply after_settle].
  transitivity (abort_pending sig f (abort_queued sig f (set_aborted (<[sig:=f]> (aborted c)) c))); [|by apply after_same].
  etrans; [|apply after_abort_pending]. etrans; [|apply after_abort_queued]. by apply after_same.
Qed.

Lemma after_abort_controller c : after c (abort_controller opts (passive E) c).
Proof. unfold abort_controller. case_match; [apply after_abortSignal|done]. Qed.

(** The state [disconnect] works on once it is marked intentional. *)
Definition marked (c : RealtimeClient) : RealtimeClient := set_generation (generation c + 1) (set_intentionalClose true c).

Lemma after_disconnect_begin c : after (marked c) (disconnect_begin opts (passive E) c).
Proof.
  unfold disconnect_begin. etrans; [apply after_abort_controller|].
  unfold clearReconnectTimer. case_match; by apply after_same.
Qed.

Lemma after_disconnect_clear c : after (marked c) (disconnect_clear opts (passive E) c).
Proof.
  unfold disconnect_clear. etrans; [apply after_disconnect_begin|]. etrans; [apply (after_setState closing)|].
  etrans; [apply after_rejectPending|apply after_rejectQueued].
Qed.

Lemma rejected_cleared f c :
  heartbeatTimer c = None -> connectPromise c = None -> connectAbortController c = None -> reconnectTimer c = None ->
  intentionalClose c = true ->
  cleared (set_socket None (rejectQueued f (rejectPending f (setState (passive E) closing c)))).
Proof.
  intros. destruct (setState_passive E closing c) as [l ->].
  destruct (rejectPending_frame f (set_emitted l (set_stateValue closing c))) as [m ->].
  destruct (rejectQueued_frame f (set_promises m (set_pending [] (set_emitted l (set_stateValue closing c))))) as [m' ->].
  by constructor.
Qed.

Lemma disconnect_clear_cleared c : cleared (set_socket None (disconnect_clear opts (passive E) c)).
Proof.
  pose proof (disconnect_begin_cleared opts E c) as (Hh & Hc & Hk & Ht).
  pose proof (af_intentional _ _ (after_disconnect_begin c)) as Hi.
  apply rejected_cleared; done.
Qed.

Lemma disconnect_socket_cleared code reason c :
  cleared (set_socket None c) -> cleared (disconnect_socket opts (passive E) code reason c).
Proof.
  intros H. unfold disconnect_socket. repeat case_match; [by apply cleared_closeSocket|done|done].
Qed.

Lemma after_disconnect_socket code reason c : after c (disconnect_socket opts (passive E) code reason c).
Proof.
  unfold disconnect_socket. repeat case_match; try by apply after_same.
  etrans; [|apply after_closeSocket]. by apply after_same.
Qed.
End chain.

(** ** Properties *)

(** The close-code test, as an interval. *)
Lemma code_range q :
  (negb (Qle_bool q (inject_Z 3000)) || Qeq_bool (inject_Z 3000) q) && (negb (Qle_bool (inject_Z 4999) q) || Qeq_bool q (inject_Z 4999)) = true ->
  negb (Qle_bool (inject_Z 3000) q) || negb (Qle_bool q (inject_Z 4999)) = false.
Proof.
  intros [H1 H2]%andb_true_iff. apply orb_false_iff. rewrite !negb_false_iff, !Qle_bool_iff.
  apply orb_true_iff in H1, H2. rewrite !negb_true_iff, !Qeq_bool_iff in *. split.
  - destruct H1 as [H|H]; [|by rewrite H; apply Qle_refl]. apply Qnot_lt_le. intros Hlt.
    apply Qlt_le_weak in Hlt. apply Qle_bool_iff in Hlt. congruence.
  - destruct H2 as [H|H]; [|by rewrite H; apply Qle_refl]. apply Qnot_lt_le. intros Hlt.
    apply Qlt_le_weak in Hlt. apply Qle_bool_iff in Hlt. congruence.
Qed.

(** What [disconnect] does to any state. *)
Lemma disconnect_clears opts E code reason c :
  isInteger code = true -> (neq_num code (int 1000) || (nle (int 3000) code && nle code (int 4999))) = true ->
  (byteLength reason <= 123)%nat ->
  exists c', disconnect opts (passive E) code reason c = Ok c' /\
    stateValue c' = closed /\ cleared c' /\ generation c' = generation c + 1 /\
    forall p, p ∈ (pending c ≫= fun kp => p_promises kp.2) \/ p ∈ (queued c ≫= cmd_promises) ->
      is_Some (promises c' !! p).
Proof.
  intros Hi Hc Hr. unfold disconnect. rewrite Hi.
  assert (Hbad : negb (neq_num code (int closeCodes.normal)) && (nlt code (int 3000) || ngt code (int 4999)) = false).
  { change (int closeCodes.normal) with (int 1000). destruct (neq_num code (int 1000)); [done|]. simpl in Hc |- *.
    destruct code as [| |q]; try done. unfold ngt, nle, nlt, neq_num, int in *. simpl in Hc.
    apply code_range. exact Hc. }
  rewrite Hbad. cbn [negb orb]. rewrite bool_decide_false by lia.
  eexists. split; [reflexivity|].
  set (c2 := disconnect_socket opts (passive E) (default 1000 (to_Z code)) reason (disconnect_clear opts (passive E) c)).
  assert (Hcl : cleared c2) by apply disconnect_socket_cleared, disconnect_clear_cleared.
  assert (Ha : after (marked c) c2) by (etrans; [apply after_disconnect_clear|apply after_disconnect_socket]).
  clearbody c2. destruct (setState_passive E closed c2) as [l ->].
  destruct Hcl as [Hp Hq ? ? ? ? ? ?]. destruct Ha as [_ Hg Ht].
  split; [done|]. split; [by constructor|]. split; [done|]. intros p Hin.
  destruct (Ht p) as [H|[H|H]]; [by right|done|rewrite Hp in H|rewrite Hq in H]; by apply not_elem_of_nil in H.
Qed.

(** C8: flushing over an open socket whose [send] does not throw takes one turn of the
    loop per queued command and empties the queue.  The commands sent keep their
    first-in first-out order, and each becomes pending, in that order.  A command is
    left out only when its signal is aborted, when it exceeds the size limit or when
    the pending table is full; then its promises are settled.  When no command is
    aborted or too large and all of them have room, every one is sent. *)
Theorem flush_fifo opts E c s :
  socket c = Some s -> readyState c s = OPEN -> (forall i, sendThrows E s i = None) ->
  exists c' sent, flush opts E (length (queued c)) c = Some c' /\ flushed opts E s c c' (queued c) sent.
Proof. intros. by apply flush_any. Qed.

(** Two commands of which the first is cancelled. *)
Lemma flush_fifo_witness :
  let q i sig := Command (js "publish") (js "r") (js "id" ++ show_Z (Z.of_nat i)) (Number (int (Z.of_nat i))) [i] sig false in
  let c := set_aborted {[ 7%nat := OtherError [] ]} (set_queued [q 1%nat (Some 7%nat); q 2%nat None; q 3%nat None] (set_socket (Some 0%nat) (set_sockets
             {[ 0%nat := Socket OPEN false (Attempt 0 FromTimer 9 []) true true false [] ]} initial))) in
  exists c' sent, flush defaultOptions sample_environment 3 c = Some c' /\ flushed defaultOptions sample_environment 0 c c' (queued c) sent
    /\ sent_on c' 0 = [Number (int 2); Number (int 3)].
Proof.
  intros q c. destruct (flush_fifo defaultOptions sample_environment c 0) as (c' & sent & H1 & H2).
  - reflexivity.
  - reflexivity.
  - reflexivity.
  - exists c', sent. split; [exact H1|]. split; [exact H2|]. vm_compute in H1. injection H1 as <-. reflexivity.
Defined.

(** C1: from every state that a client whose listeners do not call back into it can
    reach, [disconnect] with an acceptable code and reason succeeds and leaves a
    closed client: no socket, no connection attempt, nothing pending (and with it no
    acknowledgement timer) and nothing queued, no heartbeat, and no reconnect timer
    armed anywhere; the generation is one further, and every promise that was pending
    or queued is settled. *)
Theorem disconnect_settles opts E code reason c :
  0 <= r_maximumAttempts (reconnectOptions opts) -> reachable opts (passive E) c ->
  isInteger code = true -> (neq_num code (int 1000) || (nle (int 3000) code && nle code (int 4999))) = true ->
  (byteLength reason <= 123)%nat ->
  exists c', disconnect opts (passive E) code reason c = Ok c' /\
    stateValue c' = closed /\ cleared c' /\ timers c' = [] /\ generation c' = generation c + 1 /\
    forall p, p ∈ (pending c ≫= fun kp => p_promises kp.2) \/ p ∈ (queued c ≫= cmd_promises) ->
      is_Some (promises c' !! p).
Proof.
  intros Hmax Hreach Hi Hc Hr. destruct (disconnect_clears opts E code reason c Hi Hc Hr) as (c' & Hd & Hst & Hcl & Hg & Hp).
  exists c'. split; [done|]. split; [done|]. split; [done|]. split; [|done].
  apply (reachable_quiet opts E Hmax c'); [|by destruct Hcl]. eapply reach_step; [exact Hreach|].
  pose proof (step_api opts (passive E) c (CallDisconnect code reason)) as Hs. cbn [api] in Hs. by rewrite Hd in Hs.
Qed.

(** A client with one queued command, disconnected. *)
Lemma disconnect_settles_witness :
  let c := api defaultOptions (passive sample_environment) (CallPublish (js "orders") (Str (js "x")) None) initial in
  (queued c ≫= cmd_promises) <> [] /\
  exists c', disconnect defaultOptions (passive sample_environment) (int 4001) (js "bye") c = Ok c' /\
    cleared c' /\ timers c' = [] /\ Forall (fun p => is_Some (promises c' !! p)) (queued c ≫= cmd_promises).
Proof.
  intros c. split; [vm_compute; discriminate|].
  destruct (disconnect_settles defaultOptions sample_environment (int 4001) (js "bye") c) as (c' & H1 & _ & H2 & H3 & _ & H4).
  - vm_compute. congruence.
  - apply (reach_step defaultOptions (passive sample_environment) initial c); [apply reach_initial|]. apply step_api.
  - reflexivity.
  - reflexivity.
  - apply Nat.leb_le. reflexivity.
  - exists c'. split; [exact H1|]. split; [exact H2|]. split; [exact H3|]. apply Forall_forall. intros p Hp. apply H4. right. exact Hp.
Defined.
