(* ===== verification/ClientFindings.v ===== *)
(** * Runs of the realtime client that go wrong

    Three runs of client.ts, each a sequence of steps of ClientStep.v: a
    queued subscription that is never settled when the connection closes during
    restoration, an [onopen] handler that never returns when [send] throws
    during the flush, and a reconnect timer that survives a [disconnect]
    called by a state listener. *)

From stdpp Require Import base tactics option list numbers strings gmap.
From Stdlib Require Import ZArith QArith Lia.
From S2P Require Import Prelude JsString JsNumber JsValue JsDate Protocol Reconnect ClientState Client ClientStep ClientKeeps ClientBounds ClientCommands.

Open Scope Z_scope.

(** ** Executable runs *)

(** One step as a function, with what the environment chooses as arguments. *)
Inductive move : Type :=
  | Api (call : api_call)
  | UrlReady (i : nat)
  | Resume (i : nat)
  | ResumeRestore (i : nat)
  | SocketOpen (s : nat)
  | SocketClose (s : nat) (code : Z).

Definition play (opts : ClientOptions) (E : Environment) (mv : move) (c : RealtimeClient) : option RealtimeClient :=
  match mv with
  | Api call => Some (api opts E call c)
  | UrlReady i => match tasks c !! i with Some (TUrl a) => Some (url_ready a (Ok (Ok false)) (remove_task i c)) | _ => None end
  | Resume i => t ← tasks c !! i; resume opts E t (remove_task i c)
  | ResumeRestore i =>
      match tasks c !! i with
      | Some (TRestore s p st route routes qs failures) =>
          o ← promises c !! p; resume_restore opts E 8 s st route routes qs failures o (remove_task i c)
      | _ => None
      end
  | SocketOpen s => if decide (readyState c s = CONNECTING) then onopen opts E 8 s (update_socket s (with_readyState OPEN) c) else None
  | SocketClose s code => if decide (readyState c s = CLOSED) then None
                          else Some (onclose opts E s code [] (update_socket s (with_readyState CLOSED) c))
  end.

Fixpoint plays (opts : ClientOptions) (E : Environment) (l : list move) (c : RealtimeClient) : option RealtimeClient :=
  match l with
  | [] => Some c
  | mv :: l' => c' ← play opts E mv c; plays opts E l' c'
  end.

Lemma play_step opts E mv c c' : play opts E mv c = Some c' -> step opts E c c'.
Proof.
  destruct mv; cbn [play]; intros H.
  - apply (inj Some) in H as <-. apply step_api.
  - destruct (tasks c !! i) as [[]|] eqn:Ht; try done. apply (inj Some) in H as <-. by eapply step_url.
  - destruct (tasks c !! i) as [t|] eqn:Ht; [|done]. by eapply step_resume.
  - destruct (tasks c !! i) as [[]|] eqn:Ht; try done. destruct (promises c !! awaited) as [o|] eqn:Hp; [|done].
    by eapply step_restore.
  - case_decide as Hr; [|done]. by eapply step_open.
  - case_decide as Hr; [done|]. apply (inj Some) in H as <-. by apply step_close.
Qed.

Lemma plays_reachable opts E l c c' : reachable opts E c -> plays opts E l c = Some c' -> reachable opts E c'.
Proof.
  revert c; induction l as [|mv l IH]; intros c Hc; simpl; [by intros [= <-]|].
  destruct (play opts E mv c) as [c1|] eqn:Hp; [|done]. apply IH. eapply reach_step; [done|]. by eapply play_step.
Qed.

(** ** A queued subscription that nothing settles *)

(** What can still settle the promise [p]: the queue, the pending commands, or
    a restoration that will transmit its queued subscriptions. *)
Definition held (p : nat) (c : RealtimeClient) : bool :=
  memb p (queued c ≫= cmd_promises) || memb p (pending c ≫= fun kp => p_promises kp.2)
  || existsb (fun t => match t with
                       | TRestore _ _ _ _ _ qs _ => memb p (qs ≫= fun rq => cmd_promises rq.2)
                       | _ => false
                       end) (tasks c).

(** Two subscriptions queued while connecting; the connection opens and closes
    again before the first acknowledgement. *)
Definition lost_run : list move :=
  [ Api (CallSubscribe (js "a") None); Api (CallSubscribe (js "b") None); UrlReady 0; SocketOpen 14;
    SocketClose 14 1006; ResumeRestore 5 ].

Definition lost_state : RealtimeClient :=
  default initial (plays defaultOptions (passive sample_environment) lost_run initial).

(** ** A flush that never ends *)

(** Every [send] throws, as a custom transport's may. *)
Definition throwing_environment : Environment :=
  {| consumer := fun _ c => c; random := random sample_environment; randomUUID := randomUUID sample_environment;
     clock := clock sample_environment; stringify := stringify sample_environment;
     sendThrows := fun _ _ => Some (OtherError (js "send failed")); deliveries := 8; dateFallback := fun _ => None |}.

(** Two messages published while connecting. *)
Definition hang_run : list move :=
  [ Api (CallPublish (js "a") (Boolean true) None); Api (CallPublish (js "b") (Boolean true) None); UrlReady 0 ].
Definition hang_state : RealtimeClient := default initial (plays defaultOptions throwing_environment hang_run initial).
Definition hang_socket : nat := default 0%nat (socket hang_state).
(** The state in which [onopen] starts to flush. *)
Definition flushing (s : nat) (c : RealtimeClient) : RealtimeClient :=
  let c := update_socket s without_abortListener c in
  set_queued (filter (fun q => is_subscribe q = false) (queued c)) c.
Definition hang_flush : RealtimeClient := flushing hang_socket (update_socket hang_socket (with_readyState OPEN) hang_state).

(** With nothing to subscribe, [onopen] is the flush. *)
Lemma onopen_flushes opts E fuel s o c :
  sockets c !! s = Some o -> s_settled o = false -> a_generation (s_attempt o) = generation c ->
  subscriptions c = [] -> queuedSubscriptions c = [] ->
  assertOpenGeneration (socket_generation s (flushing s c)) (flushing s c) = true ->
  onopen opts E fuel s c = (c' ← flush opts E fuel (flushing s c); Some (push_task (TRestored s Resolved) c')).
Proof.
  intros Ho Hs Hg Hsub Hq Ha. unfold onopen. rewrite Ho, Hs, Hg, Z.eqb_refl. cbn [negb orb].
  unfold restoreSubscriptionsAndFlush. cbv zeta. fold (flushing s c).
  change (queuedSubscriptions (update_socket s without_abortListener c)) with (queuedSubscriptions c). rewrite Hq.
  change (subscriptions (flushing s c)) with (subscriptions c). rewrite Hsub.
  change (dedupe ((fst <$> []) ++ (fst <$> []))) with (@nil jstr).
  cbn [restore_loop]. rewrite Ha. reflexivity.
Qed.

Definition hang_object : socketObject :=
  default (Socket 0 false (Attempt 0 FromTimer 0 []) true false false [])
    (sockets (update_socket hang_socket (with_readyState OPEN) hang_state) !! hang_socket).

Lemma hang_lookup :
  sockets (update_socket hang_socket (with_readyState OPEN) hang_state) !! hang_socket = Some hang_object.
Proof. vm_compute. reflexivity. Qed.
Lemma hang_unsettled : s_settled hang_object = false.
Proof. vm_compute. reflexivity. Qed.
Lemma hang_generation :
  a_generation (s_attempt hang_object) = generation (update_socket hang_socket (with_readyState OPEN) hang_state).
Proof. vm_compute. reflexivity. Qed.
Lemma hang_subscriptions : subscriptions (update_socket hang_socket (with_readyState OPEN) hang_state) = [].
Proof. vm_compute. reflexivity. Qed.
Lemma hang_queued : queuedSubscriptions (update_socket hang_socket (with_readyState OPEN) hang_state) = [].
Proof. vm_compute. reflexivity. Qed.
Lemma hang_open : assertOpenGeneration (socket_generation hang_socket hang_flush) hang_flush = true.
Proof. vm_compute. reflexivity. Qed.

Lemma hang_onopen fuel :
  onopen defaultOptions throwing_environment fuel hang_socket (update_socket hang_socket (with_readyState OPEN) hang_state)
  = (c' ← flush defaultOptions throwing_environment fuel hang_flush; Some (push_task (TRestored hang_socket Resolved) c')).
Proof.
  exact (onopen_flushes defaultOptions throwing_environment fuel hang_socket hang_object
    (update_socket hang_socket (with_readyState OPEN) hang_state) hang_lookup hang_unsettled hang_generation
    hang_subscriptions hang_queued hang_open).
Qed.

Lemma flush_cons opts E k c q rest :
  queued c = q :: rest -> flush opts E (S k) c = flush opts E k (transmit opts E q true (set_queued rest c)).
Proof. intros H. cbn [flush]. by rewrite H. Qed.

Lemma flush_zero opts E c q rest : queued c = q :: rest -> flush opts E 0 c = None.
Proof. intros H. cbn [flush]. by rewrite H. Qed.

(** The first command, whose [send] throws, and the state it leaves. *)
Definition hang_first : command := nth 0 (queued hang_flush) (Command [] [] [] Null [] None false).
Definition hang_next : RealtimeClient :=
  transmit defaultOptions throwing_environment hang_first true (set_queued (drop 1 (queued hang_flush)) hang_flush).

Lemma hang_stuck k : flush defaultOptions throwing_environment k hang_next = None.
Proof.
  assert (H1 : socketOpen hang_next = false) by (vm_compute; reflexivity).
  assert (H2 : (match queued hang_next with [] => true | _ => false end) = false) by (vm_compute; reflexivity).
  assert (H3 : forallb (fun q => match is_aborted hang_next (cmd_signal q) with None => true | _ => false end) (queued hang_next) = true)
    by (vm_compute; reflexivity).
  assert (H4 : (length (pending hang_next) <? maximumPendingCommands defaultOptions)%nat = true) by (vm_compute; reflexivity).
  assert (H5 : (length (queued hang_next) <=? maximumQueuedCommands defaultOptions)%nat = true) by (vm_compute; reflexivity).
  revert H1 H2 H3 H4 H5. generalize hang_next as c. intros c H1 H2 H3 H4%Nat.ltb_lt H5%Nat.leb_le.
  apply flush_spins; [done|by destruct (queued c)| |done|done].
  apply Forall_forall. intros q Hq%list_elem_of_In. rewrite forallb_forall in H3. specialize (H3 q Hq).
  unfold not_aborted. by destruct (is_aborted c (cmd_signal q)).
Qed.

Lemma hang_next_eq :
  hang_next = transmit defaultOptions throwing_environment hang_first true (set_queued (drop 1 (queued hang_flush)) hang_flush).
Proof. unfold hang_next. reflexivity. Qed.

Lemma hang_never fuel : flush defaultOptions throwing_environment fuel hang_flush = None.
Proof.
  assert (Hq : queued hang_flush = hang_first :: drop 1 (queued hang_flush)) by (vm_compute; reflexivity).
  destruct fuel as [|k]; [exact (flush_zero _ _ _ _ _ Hq)|].
  rewrite (flush_cons _ _ k _ _ _ Hq), <- hang_next_eq. exact (hang_stuck k).
Qed.

(** ** A timer armed by a client that was told to close *)

(** A state listener that disconnects when it sees "reconnecting". *)
Definition closing_listener (e : emission) (c : RealtimeClient) : list api_call :=
  match e with EState reconnecting => [CallDisconnect (int 1000) (js "bye")] | _ => [] end.
Definition closing_listener_environment : Environment := reentrant defaultOptions sample_environment closing_listener 1.

(** Connect, open, restore, then lose the connection. *)
Definition armed_run : list move :=
  [ Api (CallConnect None); UrlReady 0; SocketOpen 2; Resume 0; SocketClose 2 1006 ].
Definition armed_state : RealtimeClient :=
  default initial (plays defaultOptions closing_listener_environment armed_run initial).

(** ** Properties *)

(** a run of the client in which [subscribe] never settles.  Two routes are
    subscribed while the connection is being established; the socket opens, the
    first subscription is sent and the connection closes.  The command of the
    second one has been taken out of the queue and is neither sent nor rejected:
    the promise its caller awaits is unsettled and nothing is left that could
    settle it. *)
Theorem queued_subscription_lost :
  exists c route cmd self,
    reachable defaultOptions (passive sample_environment) c /\
    TEstablish route cmd cmd AwaitSubscribe self ∈ tasks c /\
    promises c !! cmd = None /\ held cmd c = false.
Proof.
  exists lost_state, (js "b"), 11%nat, 12%nat. split_and!.
  - apply (plays_reachable _ _ lost_run initial); [constructor|]. vm_compute. reflexivity.
  - apply (list_elem_of_lookup_2 _ 3). vm_compute. reflexivity.
  - vm_compute. reflexivity.
  - vm_compute. reflexivity.
Qed.

(** when [send] throws during the flush of two queued commands, the
    [onopen] handler never returns: the failed send closes the socket, the next
    command is put back in the queue because the socket is not open, and the
    loop "while the queue is not empty" takes it out again, for ever. *)
Theorem flush_can_hang :
  exists E c s, reachable defaultOptions E c /\ readyState c s = CONNECTING /\
    forall fuel, onopen defaultOptions E fuel s (update_socket s (with_readyState OPEN) c) = None.
Proof.
  exists throwing_environment, hang_state, hang_socket. split_and!.
  - apply (plays_reachable _ _ hang_run initial); [constructor|]. vm_compute. reflexivity.
  - vm_compute. reflexivity.
  - intros fuel. by rewrite hang_onopen, hang_never.
Qed.

(** a state listener that calls [disconnect] when the client reports
    "reconnecting" does not stop it: [scheduleReconnect] arms its timer after
    the listener returns, so the client is intentionally closed and yet has a
    live reconnect timer. *)
Theorem disconnect_in_listener_leaves_timer :
  exists c, reachable defaultOptions closing_listener_environment c /\
    intentionalClose c = true /\ stateValue c = closed /\ timers c <> [].
Proof.
  exists armed_state. split_and!.
  - apply (plays_reachable _ _ armed_run initial); [constructor|]. vm_compute. reflexivity.
  - vm_compute. reflexivity.
  - vm_compute. reflexivity.
  - vm_compute. congruence.
Qed.
