(* ===== verification/ContractPatterns.v ===== *)
(** * Patterns of the bootstrap contract

    The regular expressions of scripts/lib/bootstrap-contract.mjs, constant by
    constant, and the predicates built from them. *)

From stdpp Require Import base tactics option list numbers strings.
From Stdlib Require Import ZArith NArith Lia.
From S2P Require Import Prelude JsString JsNumber JsValue Regex.

Open Scope N_scope.

(** Character classes. *)
Definition lowerDigit : re := Cls false [lower_r; digit_r].
Definition lowerDigitDash : re := Cls false (units (js "-") ++ [lower_r; digit_r]).
Definition alnum : re := Cls false [upper_r; lower_r; digit_r].
Definition slash : re := lit (js "/").

(** [(?=.{1,n}$)r] *)
Definition atMost (n : nat) (r : re) : re := And (rep 1 n dot) r.

(** [[a-z0-9]([-a-z0-9]*[a-z0-9])?] *)
Definition label : re := Cat lowerDigit (opt (Cat (Star lowerDigitDash) lowerDigit)).

Definition dnsLabel : re := atMost 63 label.
Definition dnsSubdomain : re := atMost 253 (Cat label (Star (Cat (lit (js ".")) label))).
Definition labelName : re :=
  atMost 63 (Cat alnum (opt (Cat (Star (Cls false (units (js "-_.") ++ [upper_r; lower_r; digit_r]))) alnum))).
Definition hostPort : re :=
  Cat (plus (Cls false (units (js ".-") ++ [lower_r; digit_r]))) (opt (Cat (lit (js ":")) (plus (Cls false [digit_r])))).
Definition repositoryPart : re := plus (Cls false (units (js "._-") ++ [lower_r; digit_r])).
Definition registryRepository : re := Cat hostPort (plus (Cat slash repositoryPart)).
Definition imageTag : re :=
  Cat (Cls false (units (js "_") ++ [upper_r; lower_r; digit_r]))
      (rep 0 127 (Cls false (units (js "_.-") ++ [upper_r; lower_r; digit_r]))).
Definition imageRegistry : re := hostPort.
Definition imageRepository : re := Cat repositoryPart (Star (Cat slash repositoryPart)).
Definition hexLower : re := Cls false [(97, 102); digit_r].
Definition sha256Digest : re := Cat (lit (js "sha256:")) (rep 64 64 hexLower).
Definition secretKey : re := plus (Cls false (units (js "._-") ++ [upper_r; lower_r; digit_r])).
Definition redisPrefix : re := plus (Cls false (units (js ":_-") ++ [upper_r; lower_r; digit_r])).
Definition quantity : re := Cat (Cls false [(49, 57)]) (Star (Cls false [digit_r])).
Definition memoryQuantity : re := Cat quantity (Alt (lit (js "Mi")) (lit (js "Gi"))).
Definition storageQuantity : re := Cat quantity (alts [lit (js "Mi"); lit (js "Gi"); lit (js "Ti")]).

(** A path below a directory: a segment is never [.] or [..].  The look-ahead
    [(?!\.{1,2}(?:\/|$))] sits before a segment that extends to the next slash
    or to the end, so it excludes those two segments. *)
Definition environmentPathSegment : re :=
  Alt (plus (Cls false (units (js "._-") ++ [upper_r; lower_r; digit_r]))) (lit (js "{environment}")).
Definition pathSegment : re := And environmentPathSegment (Not (Alt (lit (js ".")) (lit (js "..")))).
Definition pathBelow (root : re) : re := Cat root (Star (Cat slash pathSegment)).
Definition bootstrapPath : re := pathBelow (lit (js ".bootstrap")).
Definition backupPath : re := pathBelow (lit (js ".backups")).
Definition logPath : re := pathBelow (Alt (lit (js ".logs")) (lit (js ".bootstrap"))).

Definition secretValueKey : re :=
  ends_in (Cat (alts [lit_i (js "password"); lit_i (js "token"); lit_i (js "secret"); lit_i (js "credential");
                      cats [lit_i (js "private"); opt dot; lit_i (js "key")];
                      cats [lit_i (js "api"); opt dot; lit_i (js "key")];
                      lit_i (js "authorization"); lit_i (js "cookie")])
               (opt (lit_i (js "s")))).
Definition windowsDeviceName : re :=
  alts [lit_i (js "con"); lit_i (js "prn"); lit_i (js "aux"); lit_i (js "nul");
        Cat (lit_i (js "com")) (Cls false [(49, 57)]); Cat (lit_i (js "lpt")) (Cls false [(49, 57)])].

Definition environmentName : re := rep 1 10 lowerDigit.
Definition namingSuffix : re :=
  Alt Eps (atMost 27 (Cat (plus lowerDigit) (Star (Cat (lit (js "-")) (plus lowerDigit))))).
Definition chartReference : re := cats [lit (js "oci://"); hostPort; plus (Cat slash repositoryPart)].
Definition digits : re := plus (Cls false [digit_r]).
Definition chartVersion : re :=
  cats [digits; lit (js "."); digits; lit (js "."); digits;
        opt (Cat (lit (js "-")) (plus (Cls false (units (js ".-") ++ [digit_r; upper_r; lower_r]))))].
(** [(?:[a-z0-9](?:[-a-z0-9]{0,61}[a-z0-9])?\.)+] and a last label. *)
Definition hostLabel : re := Cat lowerDigit (opt (Cat (rep 0 61 lowerDigitDash) lowerDigit)).
Definition ingressHost : re := Cat (plus (Cat hostLabel (lit (js ".")))) hostLabel.
Definition httpScheme : re := cats [lit (js "http"); opt (lit (js "s")); lit (js "://")].
Definition httpOrigin : re := cats [httpScheme; plus (Cls true (units (js "@/?#"))); opt slash].
Definition httpUrl : re := starts_with httpScheme.
Definition entryPointName : re := plus (Cls false (units (js "._-") ++ [upper_r; lower_r; digit_r])).
Definition routePath : re := plus (Cat slash entryPointName).
Definition clusterName : re := dnsLabel.
Definition gatewayCpu : re := Cat quantity (lit (js "m")).

Definition isValidEnvironmentName (v : value) : bool :=
  match v with Str s => test environmentName s && negb (test windowsDeviceName s) | _ => false end.

Definition pathIsWithin (parent child : jstr) : bool :=
  bool_decide (child = parent) || startsWith (parent ++ js "/") child.

Definition referenceField : re :=
  alts (lit_i <$> [js "existingSecret"; js "userSecret"; js "credentialsSecret"; js "otlpHeadersSecret"; js "headersSecret";
    js "scrapeTokenSecret"; js "operatorTokenSecret"; js "connectionSecret"; js "workerTokenSecret"; js "webhookSecret";
    js "tlsSecretName"; js "secretName"; js "managedImagePullSecrets"; js "imagePullSecrets"]).
Definition referenceKey : re :=
  ends_in (Cat (alts [lit_i (js "password"); lit_i (js "token"); lit_i (js "credential"); lit_i (js "secret")]) (lit_i (js "Key"))).
(** [/secret/i] anywhere. *)
Definition mentionsSecret : re := cats [Star anyunit; lit_i (js "secret"); Star anyunit].

(** [isSecretReferenceField(key, parentPath)]: the last dot-separated part of
    the parent path is looked at for the key ["key"]. *)
Definition isSecretReferenceField (key parentPath : jstr) : bool :=
  test referenceField key || test referenceKey key
  || (bool_decide (key = js "key") && test mentionsSecret (default [] (last (split_on 46 parentPath)))).

Section network.
(** [isIP] of node:net: 4, 6 or 0. *)
Context (isIP : jstr -> Z).

Definition isCidr (v : value) : bool :=
  match v with
  | Str s =>
      match lastIndexOf 47 s with
      | Some (S _ as separator) =>
          let prefix := to_number (drop (S separator) s) in
          let family := isIP (take separator s) in
          isInteger prefix
          && (((family =? 4)%Z && nge prefix (int 0) && nle prefix (int 32))
              || ((family =? 6)%Z && nge prefix (int 0) && nle prefix (int 128)))
      | _ => false
      end
  | _ => false
  end.

(** The two patterns of [parseRedisEndpoint], as (bracketed, host, port). *)
Definition digits15 : re := rep 1 5 (Cls false [digit_r]).
Definition matchBracketed (s : jstr) : option (jstr * jstr) :=
  if startsWith (js "[") s then
    match indexOf (js "]") s with
    | Some i =>
        let host := drop 1 (take i s) in
        let rest := drop (S i) s in
        if bool_decide (host <> []) && startsWith (js ":") rest && test digits15 (drop 1 rest)
        then Some (host, drop 1 rest) else None
    | None => None
    end
  else None.
Definition matchPlain (s : jstr) : option (jstr * jstr) :=
  match indexOf (js ":") s with
  | Some i =>
      let host := take i s in
      let port := drop (S i) s in
      if bool_decide (host <> []) && test digits15 port then Some (host, port) else None
  | None => None
  end.

Definition parseRedisEndpoint (v : value) : option (jstr * num) :=
  match v with
  | Str s =>
      let '(m, bracketed) := match matchBracketed s with Some m => (Some m, true) | None => (matchPlain s, false) end in
      '(host, digits) ← m;
      let port := to_number digits in
      let validHost := if (bracketed : bool) then (isIP host =? 6)%Z else (isIP host =? 4)%Z || test dnsSubdomain host in
      if validHost && nge port (int 1) && nle port (int 65535) then Some (host, port) else None
  | _ => None
  end.
End network.

Definition isLabelKey (s : jstr) : bool :=
  bool_decide (s <> [])
  && match indexOf (js "/") s with
     | None => test labelName s
     | Some i => negb (includes (js "/") (drop (S i) s)) && test dnsSubdomain (take i s) && test labelName (drop (S i) s)
     end.

Definition isLabelValue (v : value) : bool := match v with Str s => test labelName s | _ => false end.

Example env_names : isValidEnvironmentName (Str (js "prod1")) = true /\ isValidEnvironmentName (Str (js "com1")) = false.
Proof. split; vm_compute; reflexivity. Qed.
Example path_examples :
  test bootstrapPath (js ".bootstrap/env/{environment}") = true /\ test bootstrapPath (js ".bootstrap/../x") = false.
Proof. split; vm_compute; reflexivity. Qed.
Example secret_keys :
  test secretValueKey (js "redisPassword") = true /\ test secretValueKey (js "apiKeys") = true /\
  test secretValueKey (js "passwordKey") = false /\ isSecretReferenceField (js "passwordKey") [] = true.
Proof. repeat split; vm_compute; reflexivity. Qed.
Example endpoint_example :
  parseRedisEndpoint (fun _ => 0%Z) (Str (js "redis.example.com:6380")) = Some (js "redis.example.com", int 6380).
Proof. vm_compute. reflexivity. Qed.
