(* ===== verification/Contract.v ===== *)
(** * Configuration validation: validateConfiguration of scripts/lib/bootstrap-contract.mjs

    The validator pushes [{ path, message }] problems onto one list, section by
    section; each section is a function returning the problems it pushes, and
    [validateConfiguration] concatenates them in the order of the code.
    Property reads go through [get]: [requireRecord] has replaced anything but
    an object by the empty object before a section reads from it. *)

From stdpp Require Import base tactics option list numbers strings.
From Stdlib Require Import ZArith NArith Lia.
From S2P Require Import Prelude JsString JsNumber JsValue Regex ContractPatterns.

Open Scope Z_scope.

Definition contractVersion : Z := 2.
Definition actions : list jstr :=
  [js "prerequisites"; js "plan"; js "bootstrap"; js "backup"; js "install"; js "update"; js "validate"; js "rollback";
   js "recover"; js "teardown"; js "organize"; js "restore-layout"].

Record problem := Problem { path : jstr; message : jstr }.

(** [if (b) errors.push(problem(path, message))] *)
Definition when (b : bool) (p m : jstr) : list problem := if b then [Problem p m] else [].

Definition child (p k : jstr) : jstr := p ++ js "." ++ k.
Definition indexed (p : jstr) (i : nat) : jstr := p ++ js "[" ++ show_Z (Z.of_nat i) ++ js "]".

(** ** Helpers *)

(** The value returned by [requireRecord] and the problems it pushes. *)
Definition record (v : value) : value := if isRecord v then v else Obj [].
Definition requireRecord (v : value) (p : jstr) : list problem := when (negb (isRecord v)) p (js "must be an object").

Definition requireKeys (v : value) (p : jstr) (required optional : list jstr) : list problem :=
  (required ≫= fun key => when (negb (has key v)) (child p key) (js "is required"))
  ++ (keys (props_of v) ≫= fun key => when (negb (memb key (required ++ optional))) (child p key) (js "is not a supported field")).

Definition requireString (v : value) (p : jstr) (pattern : option re) (allowEmpty : bool) : list problem :=
  match v with
  | Str s =>
      if negb allowEmpty && bool_decide (s = []) then [Problem p (js "must be a non-empty string")]
      else match pattern with
           | Some r => when (bool_decide (s <> []) && negb (test r s)) p (js "has an invalid format")
           | None => []
           end
  | _ => [Problem p (if allowEmpty then js "must be a string" else js "must be a non-empty string")]
  end.

Definition validateLabels (labels : value) (p : jstr) : list problem :=
  props_of labels ≫= fun '(key, v) =>
    when (negb (isLabelKey key)) (child p key) (js "must use Kubernetes label-key syntax")
    ++ when (negb (isLabelValue v)) (child p key) (js "must be a non-empty Kubernetes label value").

Definition validateContainerImage (v : value) (p : jstr) : list problem :=
  let image := record v in
  requireRecord v p
  ++ requireKeys image p [js "registry"; js "repository"; js "tag"; js "digest"] []
  ++ requireString (get (js "registry") image) (child p (js "registry")) (Some imageRegistry) false
  ++ requireString (get (js "repository") image) (child p (js "repository")) (Some imageRepository) false
  ++ requireString (get (js "tag") image) (child p (js "tag")) (Some imageTag) false
  ++ requireString (get (js "digest") image) (child p (js "digest")) (Some sha256Digest) false.

Definition isIntegerValue (v : value) : bool := match v with Number n => isInteger n | _ => false end.

(** The problem of a list whose elements must all satisfy [ok]; not a list is one too. *)
Definition requireAll (ok : value -> bool) (v : value) : bool := isArray v && forallb ok (items_of v).

(** ** Persistence *)

(** The vocabulary of bootstrap/config.schema.json that the block uses. *)
Unset Elimination Schemes.
Inductive rule : Type :=
  | RuleObject (required : list jstr) (properties : option (list (jstr * rule)))
  | RuleArray (items : rule)
  | RuleString (minLength : bool) (pattern : option re)
  | RuleBoolean
  | RuleInteger (minimum maximum : Z)
  | RuleEnum (l : list jstr).
Set Elimination Schemes.

Fixpoint rule_of (k : jstr) (l : list (jstr * rule)) : option rule :=
  match l with
  | [] => None
  | (k', r) :: l' => if decide (k' = k) then Some r else rule_of k l'
  end.

(** [visit(item, rule, path)] *)
Fixpoint visit (item : value) (r : rule) (p : jstr) : list problem :=
  match r with
  | RuleObject required properties =>
      match item with
      | Obj l =>
          match properties with
          | None => []
          | Some props =>
              requireKeys item p required (fst <$> props)
              ++ (fix entries l := match l with
                  | [] => []
                  | (key, c) :: l' =>
                      match rule_of key props with Some r' => visit c r' (child p key) | None => [] end ++ entries l'
                  end) l
          end
      | _ => [Problem p (js "must be an object")]
      end
  | RuleArray items =>
      match item with
      | Arr l =>
          (fix elements i l := match l with
           | [] => []
           | c :: l' => visit c items (indexed p i) ++ elements (S i) l'
           end) O l
      | _ => [Problem p (js "must be an array")]
      end
  | RuleString minLength pattern =>
      requireString item p None (negb minLength)
      ++ match item, pattern with
         | Str s, Some r => when (negb (test r s)) p (js "has an invalid format")
         | _, _ => []
         end
  | RuleBoolean => when (negb (isBoolean item)) p (js "must be a boolean")
  | RuleInteger lo hi =>
      when (negb (isIntegerValue item) || nlt (num_of item) (int lo) || ngt (num_of item) (int hi)) p
        (js "must be an integer between " ++ show_Z lo ++ js " and " ++ show_Z hi)
  | RuleEnum l => when (negb (one_of l item)) p (js "must be a supported persistence provider")
  end.

(** [properties.persistence] of bootstrap/config.schema.json. *)
Definition secretNamePattern : re :=
  Alt Eps (atMost 253 (Cat lowerDigit (opt (Cat (Star (Cls false (units (js "-.") ++ [lower_r; digit_r]))) lowerDigit)))).
Definition secretRule : rule :=
  RuleObject [js "name"; js "key"]
    (Some [(js "name", RuleString false (Some secretNamePattern)); (js "key", RuleString true (Some secretKey))]).
Definition persistenceSchema : rule :=
  RuleObject [js "enabled"; js "provider"; js "connectionSecret"; js "api"; js "storage"; js "setupJob"; js "egress";
              js "tableName"; js "commandTimeoutSeconds"; js "customProviderImage"]
    (Some
      [ (js "enabled", RuleBoolean);
        (js "provider", RuleEnum [js "PostgreSql"; js "MySql"; js "MariaDb"; js "SqlServer"; js "AzureSql"; js "Oracle";
                                  js "Sqlite"; js "Db2"; js "CockroachDb"; js "Snowflake"]);
        (js "customProviderImage", RuleBoolean);
        (js "tableName", RuleString false (Some (Cat (Cls false [upper_r; lower_r])
            (rep 0 29 (Cls false (units (js "_") ++ [upper_r; lower_r; digit_r]))))));
        (js "commandTimeoutSeconds", RuleInteger 1 3600);
        (js "connectionSecret", secretRule);
        (js "api", RuleObject [js "enabled"; js "basePath"; js "workerTokenSecret"]
          (Some [ (js "enabled", RuleBoolean);
                  (js "basePath", RuleString false (Some (cats [slash;
                     Star (Cls false (units (js "_/-") ++ [upper_r; lower_r; digit_r]));
                     Cls false (units (js "_-") ++ [upper_r; lower_r; digit_r])])));
                  (js "workerTokenSecret", secretRule);
                  (js "workerNamespaceSelector", RuleObject [] None);
                  (js "workerPodSelector", RuleObject [] None) ]));
        (js "setupJob", RuleObject [js "enabled"; js "backoffLimit"; js "activeDeadlineSeconds"]
          (Some [ (js "enabled", RuleBoolean); (js "backoffLimit", RuleInteger 0 10);
                  (js "activeDeadlineSeconds", RuleInteger 30 3600) ]));
        (js "storage", RuleObject [js "existingClaim"; js "mountPath"]
          (Some [ (js "existingClaim", RuleString false None);
                  (js "mountPath", RuleString false (Some (starts_with (cats [slash; Cls true (units (js ".")); Star dot])))) ]));
        (js "egress", RuleObject [js "namespaceSelector"; js "podSelector"; js "cidrs"; js "ports"]
          (Some [ (js "namespaceSelector", RuleObject [] None); (js "podSelector", RuleObject [] None);
                  (js "cidrs", RuleArray (RuleString true None)); (js "ports", RuleArray (RuleInteger 1 65535)) ])) ]).

(** The [matchLabels] of one optional selector. *)
Definition validateSelector (p : jstr) (selector : value) : list problem :=
  if isRecord selector then
    let labels := get (js "matchLabels") selector in
    let lp := js "$.persistence." ++ p ++ js ".matchLabels" in
    if isUndefined labels then []
    else if isRecord labels then validateLabels labels lp
    else [Problem lp (js "must be an object")]
  else [].

(** What the code reads of a [URL]. *)
Record Url := { username : jstr; password : jstr; search : jstr; hash : jstr; port : jstr; protocol : jstr }.

Section contract.
(** [isIP] of node:net, and [new URL(v)] of the platform: [None] when it throws. *)
Context (isIP : jstr -> Z) (newURL : value -> option Url).

Definition validatePersistence (v topology : value) : list problem :=
  visit v persistenceSchema (js "$.persistence")
  ++ (if negb (isRecord v) then [] else
      let api := get (js "api") v in
      let egress := get (js "egress") v in
      validateSelector (js "api.workerNamespaceSelector") (optget (js "workerNamespaceSelector") api)
      ++ validateSelector (js "api.workerPodSelector") (optget (js "workerPodSelector") api)
      ++ validateSelector (js "egress.namespaceSelector") (optget (js "namespaceSelector") egress)
      ++ validateSelector (js "egress.podSelector") (optget (js "podSelector") egress)
      ++ (items_of (optget (js "cidrs") egress) ≫= fun cidr =>
            when (negb (isCidr isIP cidr)) (js "$.persistence.egress.cidrs") (js "must contain valid CIDRs"))
      ++ (if negb (truthy (get (js "enabled") v)) then [] else
          when (negb (truthy (optget (js "name") (get (js "connectionSecret") v))))
            (js "$.persistence.connectionSecret.name") (js "an existing connection Secret is required")
          ++ when (negb (one_of [js "PostgreSql"; js "CockroachDb"; js "Sqlite"] (get (js "provider") v))
                   && negb (truthy (get (js "customProviderImage") v)))
               (js "$.persistence.customProviderImage") (js "this provider requires an image registering its database driver")
          ++ (if is_str (js "Sqlite") (get (js "provider") v) then
                when (negb (is_str (js "non-ha") topology)
                      || negb (truthy (optget (js "existingClaim") (get (js "storage") v)))
                      || truthy (optget (js "enabled") (get (js "setupJob") v)))
                  (js "$.persistence.storage") (js "SQLite requires non-ha, an existing preinitialized PVC, and setupJob disabled")
              else
                when (negb (truthy (length_of (optget (js "ports") egress)))
                      || (negb (truthy (length_of (optget (js "cidrs") egress)))
                          && Nat.eqb (keys_count (nullish (optget (js "namespaceSelector") egress) (Obj []))) 0))
                  (js "$.persistence.egress") (js "explicit database ports and CIDRs or a namespace selector are required")))).

(** ** The sections of the configuration *)

Definition validateEnvironment (environment : value) : list problem :=
  let e := record environment in
  let name := get (js "name") e in
  requireRecord environment (js "$.environment")
  ++ requireKeys e (js "$.environment") [js "name"; js "class"] []
  ++ requireString name (js "$.environment.name") (Some environmentName) false
  ++ when (isString name && test environmentName (str_of name) && negb (isValidEnvironmentName name))
       (js "$.environment.name") (js "must not use a Windows reserved device name")
  ++ when (negb (one_of [js "development"; js "test"; js "staging"; js "production"] (get (js "class") e)))
       (js "$.environment.class") (js "must be development, test, staging, or production").

Definition validateNaming (naming : value) : list problem :=
  let n := record naming in
  requireRecord naming (js "$.naming")
  ++ requireKeys n (js "$.naming") [js "suffix"] []
  ++ requireString (get (js "suffix") n) (js "$.naming.suffix") (Some namingSuffix) true.

(** [path.replaceAll("{environment}", name)] *)
Definition expandPath (v : value) (name : value) : jstr := replaceAll (js "{environment}") (str_of name) (str_of v).

Definition validatePaths (paths environment : value) : list problem :=
  let p := record paths in
  let name := get (js "name") (record environment) in
  let envDir := get (js "environmentDirectory") p in
  let genDir := get (js "generatedDirectory") p in
  let logDir := get (js "logDirectory") p in
  let matches r v := isString v && test r (str_of v) in
  requireRecord paths (js "$.paths")
  ++ requireKeys p (js "$.paths") [js "generatedDirectory"; js "backupDirectory"; js "logDirectory"] [js "environmentDirectory"]
  ++ requireString (nullish envDir (Str (js ".bootstrap/env/{environment}"))) (js "$.paths.environmentDirectory") (Some bootstrapPath) false
  ++ requireString genDir (js "$.paths.generatedDirectory") (Some bootstrapPath) false
  ++ requireString (get (js "backupDirectory") p) (js "$.paths.backupDirectory") (Some backupPath) false
  ++ requireString logDir (js "$.paths.logDirectory") (Some logPath) false
  ++ (if negb (isUndefined envDir) && isValidEnvironmentName name && matches bootstrapPath envDir then
        when (matches bootstrapPath genDir && negb (pathIsWithin (expandPath envDir name) (expandPath genDir name)))
          (js "$.paths.generatedDirectory") (js "must be within paths.environmentDirectory")
        ++ when (matches logPath logDir && negb (pathIsWithin (expandPath envDir name) (expandPath logDir name)))
          (js "$.paths.logDirectory") (js "must be within paths.environmentDirectory")
      else []).

Definition validateImage (image : value) : list problem :=
  let i := record image in
  requireRecord image (js "$.image")
  ++ requireKeys i (js "$.image") [js "repository"; js "tag"; js "pullPolicy"; js "pullSecretName"] [js "digest"]
  ++ requireString (get (js "repository") i) (js "$.image.repository") (Some registryRepository) false
  ++ requireString (get (js "tag") i) (js "$.image.tag") (Some imageTag) false
  ++ (if isUndefined (get (js "digest") i) then []
      else requireString (get (js "digest") i) (js "$.image.digest") (Some sha256Digest) true)
  ++ requireString (get (js "pullSecretName") i) (js "$.image.pullSecretName") (Some dnsSubdomain) true
  ++ when (negb (one_of [js "Always"; js "IfNotPresent"; js "Never"] (get (js "pullPolicy") i)))
       (js "$.image.pullPolicy") (js "must be Always, IfNotPresent, or Never").

Definition validateKubernetes (kubernetes : value) : list problem :=
  let k := record kubernetes in
  let domains := get (js "failureDomains") k in
  requireRecord kubernetes (js "$.kubernetes")
  ++ requireKeys k (js "$.kubernetes") [js "context"; js "namespace"; js "storageClass"; js "failureDomains"] []
  ++ requireString (get (js "context") k) (js "$.kubernetes.context") None false
  ++ requireString (get (js "namespace") k) (js "$.kubernetes.namespace") (Some dnsLabel) false
  ++ requireString (get (js "storageClass") k) (js "$.kubernetes.storageClass") (Some dnsSubdomain) false
  ++ when (negb (isIntegerValue domains) || nlt (num_of domains) (int 1))
       (js "$.kubernetes.failureDomains") (js "must be an integer greater than zero").

Definition pullSecretsOf (r : value) : list value := items_of (nullish (get (js "managedImagePullSecrets") r) (Arr [])).

Definition validateRedis (redis : value) : list problem :=
  let r := record redis in
  let mode := get (js "mode") r in
  let external := is_str (js "external") mode in
  let managed := is_str (js "managed") mode in
  let cidrs := get (js "externalEgressCidrs") r in
  let secrets := get (js "managedImagePullSecrets") r in
  let images := record (get (js "managedImages") r) in
  requireRecord redis (js "$.redis")
  ++ requireKeys r (js "$.redis")
       [js "mode"; js "externalEndpoint"; js "externalHaConfirmed"; js "externalEgressCidrs"; js "tls"; js "credentialsSecret";
        js "credentialKey"; js "adminCredentialKey"; js "instancePrefix"; js "managedChart"; js "managedChartVersion";
        js "managedChartArchiveSha256"; js "managedImages"; js "legacyManagedChart"] [js "managedImagePullSecrets"]
  ++ when (negb (one_of [js "external"; js "managed"] mode)) (js "$.redis.mode") (js "must be external or managed")
  ++ requireString (get (js "externalEndpoint") r) (js "$.redis.externalEndpoint") None (negb external)
  ++ when (negb (isBoolean (get (js "externalHaConfirmed") r))) (js "$.redis.externalHaConfirmed") (js "must be boolean")
  ++ when (negb (isBoolean (get (js "tls") r))) (js "$.redis.tls") (js "must be boolean")
  ++ when (managed && strict_eq (get (js "tls") r) (Boolean true)) (js "$.redis.tls")
       (js "managed Redis TLS requires certificate configuration and is not supported by this contract; use false or an external TLS endpoint")
  ++ when (external && negb (bool_decide (is_Some (parseRedisEndpoint isIP (get (js "externalEndpoint") r)))))
       (js "$.redis.externalEndpoint")
       (js "must contain a valid DNS name, IPv4 address, or bracketed IPv6 address and TCP port from 1 through 65535")
  ++ when (negb (requireAll (isCidr isIP) cidrs)) (js "$.redis.externalEgressCidrs") (js "must contain valid IPv4 or IPv6 CIDRs")
  ++ when (external && bool_decide (items_of cidrs = [])) (js "$.redis.externalEgressCidrs")
       (js "external Redis requires at least one explicit egress CIDR")
  ++ requireString (get (js "credentialsSecret") r) (js "$.redis.credentialsSecret") (Some dnsSubdomain) false
  ++ requireString (get (js "credentialKey") r) (js "$.redis.credentialKey") (Some secretKey) false
  ++ requireString (get (js "adminCredentialKey") r) (js "$.redis.adminCredentialKey") (Some secretKey) false
  ++ when (managed && strict_eq (get (js "credentialKey") r) (get (js "adminCredentialKey") r)) (js "$.redis.adminCredentialKey")
       (js "must differ from the restricted ACL credential key in managed mode")
  ++ requireString (get (js "instancePrefix") r) (js "$.redis.instancePrefix") (Some redisPrefix) false
  ++ requireString (get (js "managedChart") r) (js "$.redis.managedChart") (Some chartReference) false
  ++ requireString (get (js "managedChartVersion") r) (js "$.redis.managedChartVersion") (Some chartVersion) false
  ++ requireString (get (js "managedChartArchiveSha256") r) (js "$.redis.managedChartArchiveSha256") (Some sha256Digest) false
  ++ (if negb (isUndefined secrets) && negb (isArray secrets)
      then [Problem (js "$.redis.managedImagePullSecrets") (js "must be an array")]
      else mjoin (imap (fun i name => requireString name (indexed (js "$.redis.managedImagePullSecrets") i) (Some dnsSubdomain) false) (pullSecretsOf r))
           ++ when (negb (Nat.eqb (set_size (pullSecretsOf r)) (length (pullSecretsOf r))))
                (js "$.redis.managedImagePullSecrets") (js "must not contain duplicates"))
  ++ requireRecord (get (js "managedImages") r) (js "$.redis.managedImages")
  ++ requireKeys images (js "$.redis.managedImages") [js "allowInsecureRepositories"; js "redis"; js "sentinel"; js "exporter"] []
  ++ when (negb (isBoolean (get (js "allowInsecureRepositories") images)))
       (js "$.redis.managedImages.allowInsecureRepositories") (js "must be boolean")
  ++ validateContainerImage (get (js "redis") images) (js "$.redis.managedImages.redis")
  ++ validateContainerImage (get (js "sentinel") images) (js "$.redis.managedImages.sentinel")
  ++ validateContainerImage (get (js "exporter") images) (js "$.redis.managedImages.exporter")
  ++ requireString (get (js "legacyManagedChart") r) (js "$.redis.legacyManagedChart") (Some chartReference) false.

Definition validateOrigin (i : nat) (origin : value) : list problem :=
  let p := indexed (js "$.ingress.allowedOrigins") i in
  requireString origin p (Some httpOrigin) false
  ++ (if isString origin then
        match newURL origin with
        | Some u => when (bool_decide (username u <> []) || bool_decide (password u <> [])) p (js "must not contain URL userinfo")
        | None => [Problem p (js "must be a valid HTTP(S) origin")]
        end
      else []).

Definition reservedWebSocketPaths : list jstr :=
  [js "/realtime/tickets"; js "/health/startup"; js "/health/live"; js "/health/ready"; js "/metrics"].

Definition validateIngress (ingress : value) : list problem :=
  let g := record ingress in
  let enabled := truthy (get (js "enabled") g) in
  let origins := get (js "allowedOrigins") g in
  let webSocketPath := toLowerCase (str_of (get (js "webSocketPath") g)) in
  let fallbackPath := toLowerCase (str_of (get (js "httpFallbackPath") g)) in
  requireRecord ingress (js "$.ingress")
  ++ requireKeys g (js "$.ingress") [js "enabled"; js "host"; js "allowedOrigins"; js "entryPoint"; js "webSocketPath";
       js "httpFallbackPath"; js "tlsSecretName"; js "certificateName"] []
  ++ when (negb (isBoolean (get (js "enabled") g))) (js "$.ingress.enabled") (js "must be boolean")
  ++ requireString (get (js "host") g) (js "$.ingress.host") (Some ingressHost) (negb enabled)
  ++ (if negb (isArray origins) || bool_decide (items_of origins = [])
      then [Problem (js "$.ingress.allowedOrigins") (js "must contain at least one configured HTTP(S) origin")]
      else mjoin (imap validateOrigin (items_of origins)))
  ++ requireString (get (js "entryPoint") g) (js "$.ingress.entryPoint") (Some entryPointName) false
  ++ requireString (get (js "webSocketPath") g) (js "$.ingress.webSocketPath") (Some routePath) false
  ++ requireString (get (js "httpFallbackPath") g) (js "$.ingress.httpFallbackPath") (Some routePath) false
  ++ when (bool_decide (webSocketPath <> []) && bool_decide (webSocketPath = fallbackPath)) (js "$.ingress.httpFallbackPath")
       (js "must differ case-insensitively from the WebSocket path")
  ++ when (memb webSocketPath reservedWebSocketPaths) (js "$.ingress.webSocketPath")
       (js "must not reuse a fixed gateway ticket, health, or metrics endpoint")
  ++ requireString (get (js "tlsSecretName") g) (js "$.ingress.tlsSecretName") (Some dnsSubdomain) (negb enabled)
  ++ requireString (get (js "certificateName") g) (js "$.ingress.certificateName") (Some dnsSubdomain) true.

(** [Number(endpoint.port || (endpoint.protocol === "https:" ? 443 : 80))] *)
Definition endpointPort (u : Url) : num :=
  if bool_decide (port u = []) then (if bool_decide (protocol u = js "https:") then int 443 else int 80)
  else to_number (port u).
Definition show_num (n : num) : jstr := match to_Z n with Some z => show_Z z | None => js "NaN" end.

Definition validPort (v : value) : bool :=
  isIntegerValue v && negb (nlt (num_of v) (int 1)) && negb (ngt (num_of v) (int 65535)).

(** The endpoint of [observability], the first [try]. *)
Definition validateOtlpEndpoint (endpoint : value) : list problem :=
  if isString endpoint && truthy endpoint then
    match newURL endpoint with
    | Some u =>
        when (bool_decide (username u <> []) || bool_decide (password u <> [])) (js "$.observability.otlpEndpoint")
          (js "must not contain URL userinfo; configure authentication through the headers Secret")
        ++ when (bool_decide (search u <> []) || bool_decide (hash u <> [])) (js "$.observability.otlpEndpoint")
          (js "must not contain a query string or fragment; configure authentication through the headers Secret")
    | None => [Problem (js "$.observability.otlpEndpoint") (js "must be a valid HTTP(S) URL")]
    end
  else [].

(** Its egress, the second [try]. *)
Definition validateOtlpEgress (o : value) : list problem :=
  let endpoint := get (js "otlpEndpoint") o in
  let ports := get (js "otlpEgressPorts") o in
  if truthy endpoint then
    when (bool_decide (items_of (get (js "otlpEgressCidrs") o) = [])
          && bool_decide (props_of (record (get (js "otlpEgressNamespaceLabels") o)) = []))
      (js "$.observability") (js "an enabled OTLP endpoint requires an egress CIDR or namespace selector")
    ++ match newURL endpoint with
       | Some u => when (isArray ports && negb (existsb (strict_eq (Number (endpointPort u))) (items_of ports)))
                     (js "$.observability.otlpEgressPorts") (js "must include the OTLP endpoint port " ++ show_num (endpointPort u))
       | None => []
       end
  else [].

Definition validateObservability (observability : value) : list problem :=
  let o := record observability in
  let endpoint := get (js "otlpEndpoint") o in
  let monNs := get (js "monitoringNamespaceLabels") o in
  let monPod := get (js "monitoringPodLabels") o in
  let otlpNs := get (js "otlpEgressNamespaceLabels") o in
  let otlpPod := get (js "otlpEgressPodLabels") o in
  let ports := get (js "otlpEgressPorts") o in
  requireRecord observability (js "$.observability")
  ++ requireKeys o (js "$.observability") [js "cluster"; js "serviceMonitor"; js "monitoringNamespaceLabels"; js "monitoringPodLabels";
       js "otlpEndpoint"; js "otlpHeadersSecret"; js "otlpHeadersKey"; js "otlpEgressCidrs"; js "otlpEgressNamespaceLabels";
       js "otlpEgressPodLabels"; js "otlpEgressPorts"] []
  ++ requireString (get (js "cluster") o) (js "$.observability.cluster") (Some clusterName) false
  ++ when (negb (isBoolean (get (js "serviceMonitor") o))) (js "$.observability.serviceMonitor") (js "must be boolean")
  ++ requireString endpoint (js "$.observability.otlpEndpoint") (Some httpUrl) true
  ++ validateOtlpEndpoint endpoint
  ++ requireString (get (js "otlpHeadersSecret") o) (js "$.observability.otlpHeadersSecret") (Some dnsSubdomain) true
  ++ requireString (get (js "otlpHeadersKey") o) (js "$.observability.otlpHeadersKey") (Some secretKey) false
  ++ when (truthy (get (js "otlpHeadersSecret") o) && negb (truthy endpoint)) (js "$.observability.otlpHeadersSecret")
       (js "requires an enabled OTLP endpoint")
  ++ requireRecord monNs (js "$.observability.monitoringNamespaceLabels")
  ++ requireRecord monPod (js "$.observability.monitoringPodLabels")
  ++ when (truthy (get (js "serviceMonitor") o)
           && (bool_decide (props_of (record monNs) = []) || bool_decide (props_of (record monPod) = [])))
       (js "$.observability") (js "ServiceMonitor requires explicit monitoring namespace and pod selectors")
  ++ validateLabels (record monNs) (js "$.observability.monitoringNamespaceLabels")
  ++ validateLabels (record monPod) (js "$.observability.monitoringPodLabels")
  ++ when (negb (requireAll (isCidr isIP) (get (js "otlpEgressCidrs") o))) (js "$.observability.otlpEgressCidrs")
       (js "must contain valid IPv4 or IPv6 CIDRs")
  ++ requireRecord otlpNs (js "$.observability.otlpEgressNamespaceLabels")
  ++ requireRecord otlpPod (js "$.observability.otlpEgressPodLabels")
  ++ when (negb (isArray ports) || bool_decide (items_of ports = []) || negb (forallb validPort (items_of ports)))
       (js "$.observability.otlpEgressPorts") (js "must contain valid TCP ports")
  ++ validateOtlpEgress o
  ++ validateLabels (record otlpNs) (js "$.observability.otlpEgressNamespaceLabels")
  ++ validateLabels (record otlpPod) (js "$.observability.otlpEgressPodLabels").

Definition validateResources (resources : value) : list problem :=
  let r := record resources in
  requireRecord resources (js "$.resources")
  ++ requireKeys r (js "$.resources") [js "gatewayCpu"; js "gatewayMemory"; js "redisStorage"] []
  ++ requireString (get (js "gatewayCpu") r) (js "$.resources.gatewayCpu") (Some gatewayCpu) false
  ++ requireString (get (js "gatewayMemory") r) (js "$.resources.gatewayMemory") (Some memoryQuantity) false
  ++ requireString (get (js "redisStorage") r) (js "$.resources.redisStorage") (Some storageQuantity) false.

Definition validateTopology (topology kubernetes redis : value) : list problem :=
  let k := record kubernetes in
  let r := record redis in
  let ha := is_str (js "ha") topology in
  let external := is_str (js "external") (get (js "mode") r) in
  when (negb (one_of [js "ha"; js "non-ha"] topology)) (js "$.topology") (js "must explicitly be ha or non-ha")
  ++ when (ha && nlt (to_numeric (get (js "failureDomains") k)) (int 3)) (js "$.kubernetes.failureDomains")
       (js "HA requires at least three failure domains")
  ++ when (ha && external && negb (truthy (get (js "externalEndpoint") r))) (js "$.redis.externalEndpoint")
       (js "HA external Redis requires a configured managed-service endpoint")
  ++ when (ha && external && negb (strict_eq (get (js "externalHaConfirmed") r) (Boolean true))) (js "$.redis.externalHaConfirmed")
       (js "must confirm that the external service supplies persistence, quorum, failover, and recovery").

Definition validateNetworking (networking ingress : value) : list problem :=
  let n := record networking in
  let traefikLabels := get (js "traefikPodLabels") n in
  let directNs := get (js "directIngressNamespaceLabels") n in
  let directPod := get (js "directIngressPodLabels") n in
  let cidrs := get (js "trustedProxyCidrs") n in
  let address := get (js "metalLbAddress") n in
  requireRecord networking (js "$.networking")
  ++ requireKeys n (js "$.networking") [js "traefikNamespace"; js "traefikService"; js "traefikPodLabels"; js "directIngressNamespaceLabels";
       js "directIngressPodLabels"; js "trustedProxyCidrs"; js "metalLbNamespace"; js "metalLbAddress"; js "advertisementMode"] []
  ++ requireString (get (js "traefikNamespace") n) (js "$.networking.traefikNamespace") (Some dnsLabel) false
  ++ requireString (get (js "traefikService") n) (js "$.networking.traefikService") (Some dnsLabel) false
  ++ requireRecord traefikLabels (js "$.networking.traefikPodLabels")
  ++ when (bool_decide (props_of (record traefikLabels) = [])) (js "$.networking.traefikPodLabels") (js "must contain at least one label")
  ++ validateLabels (record traefikLabels) (js "$.networking.traefikPodLabels")
  ++ requireRecord directNs (js "$.networking.directIngressNamespaceLabels")
  ++ requireRecord directPod (js "$.networking.directIngressPodLabels")
  ++ when (negb (truthy (get (js "enabled") (record ingress))) && bool_decide (props_of (record directNs) = []))
       (js "$.networking.directIngressNamespaceLabels") (js "ingress-free mode requires an explicit client namespace selector")
  ++ validateLabels (record directNs) (js "$.networking.directIngressNamespaceLabels")
  ++ validateLabels (record directPod) (js "$.networking.directIngressPodLabels")
  ++ when (negb (requireAll (isCidr isIP) cidrs) || bool_decide (items_of cidrs = [])) (js "$.networking.trustedProxyCidrs")
       (js "must contain at least one valid IPv4 or IPv6 CIDR")
  ++ requireString (get (js "metalLbNamespace") n) (js "$.networking.metalLbNamespace") (Some dnsLabel) false
  ++ requireString address (js "$.networking.metalLbAddress") None false
  ++ when (isString address && (isIP (str_of address) =? 0)) (js "$.networking.metalLbAddress") (js "must be a valid IPv4 or IPv6 address")
  ++ when (negb (one_of [js "l2"; js "bgp"] (get (js "advertisementMode") n))) (js "$.networking.advertisementMode") (js "must be l2 or bgp").

(** [secretValueKey.test(key) && !isSecretReferenceField(key, path)] *)
Definition credentialField (key parentPath : jstr) : bool :=
  test secretValueKey key && negb (isSecretReferenceField key parentPath).

(** The walk goes through objects only, not through arrays. *)
Fixpoint rejectInlineSecrets (v : value) (p : jstr) : list problem :=
  match v with
  | Obj l =>
      (fix entries l := match l with
       | [] => []
       | (key, c) :: l' =>
           when (credentialField key p) (child p key)
             (js "inline secret values are forbidden; configure a Secret name and key")
           ++ rejectInlineSecrets c (child p key) ++ entries l'
       end) l
  | _ => []
  end.

Definition topKeys : list jstr :=
  [js "schemaVersion"; js "environment"; js "naming"; js "paths"; js "image"; js "kubernetes"; js "networking"; js "redis";
   js "ingress"; js "observability"; js "resources"; js "topology"].

Definition validateConfiguration (input : value) : list problem :=
  let config := record input in
  let at_ k := get k config in
  requireRecord input (js "$")
  ++ requireKeys config (js "$") topKeys [js "persistence"]
  ++ (if isUndefined (at_ (js "persistence")) then []
      else validatePersistence (at_ (js "persistence")) (at_ (js "topology")))
  ++ when (negb (strict_eq (at_ (js "schemaVersion")) (Number (int contractVersion)))) (js "$.schemaVersion")
       (js "must equal " ++ show_Z contractVersion)
  ++ validateEnvironment (at_ (js "environment"))
  ++ validateNaming (at_ (js "naming"))
  ++ validatePaths (at_ (js "paths")) (at_ (js "environment"))
  ++ validateImage (at_ (js "image"))
  ++ validateKubernetes (at_ (js "kubernetes"))
  ++ validateRedis (at_ (js "redis"))
  ++ validateIngress (at_ (js "ingress"))
  ++ validateObservability (at_ (js "observability"))
  ++ validateResources (at_ (js "resources"))
  ++ validateTopology (at_ (js "topology")) (at_ (js "kubernetes")) (at_ (js "redis"))
  ++ validateNetworking (at_ (js "networking")) (at_ (js "ingress"))
  ++ rejectInlineSecrets config (js "$").
End contract.
