(* ===== verification/ContractExamples.v ===== *)
(** * The shipped example configurations

    bootstrap/config.ha.example.json and bootstrap/config.example.json with their profiles, as values:
    inputs on which the theorems about the contract are instantiated. *)

From stdpp Require Import base tactics option list numbers strings.
From Stdlib Require Import ZArith NArith Lia.
From S2P Require Import Prelude JsString JsNumber JsValue Regex ContractPatterns Contract.

Open Scope Z_scope.

Definition haConfig : value :=
  Obj
    [ (js "schemaVersion", Number (int 2));
      (js "environment", Obj
        [ (js "name", Str (js "prod"));
          (js "class", Str (js "production")) ]);
      (js "naming", Obj
        [ (js "suffix", Str []) ]);
      (js "paths", Obj
        [ (js "environmentDirectory", Str (js ".bootstrap/env/{environment}"));
          (js "generatedDirectory", Str (js ".bootstrap/env/{environment}/lifecycle"));
          (js "backupDirectory", Str (js ".backups/bootstrap/{environment}"));
          (js "logDirectory", Str (js ".bootstrap/env/{environment}/logs")) ]);
      (js "image", Obj
        [ (js "repository", Str (js "ghcr.io/example-org/realtime-gateway"));
          (js "tag", Str (js "1.1.0-beta"));
          (js "digest", Str (js "sha256:0000000000000000000000000000000000000000000000000000000000000000"));
          (js "pullPolicy", Str (js "IfNotPresent"));
          (js "pullSecretName", Str []) ]);
      (js "kubernetes", Obj
        [ (js "context", Str (js "production"));
          (js "namespace", Str (js "prod-realtime"));
          (js "storageClass", Str (js "longhorn"));
          (js "failureDomains", Number (int 3)) ]);
      (js "networking", Obj
        [ (js "traefikNamespace", Str (js "traefik"));
          (js "traefikService", Str (js "traefik"));
          (js "traefikPodLabels", Obj
            [ (js "app.kubernetes.io/name", Str (js "traefik")) ]);
          (js "directIngressNamespaceLabels", Obj
            [ (js "kubernetes.io/metadata.name", Str (js "prod-realtime")) ]);
          (js "directIngressPodLabels", Obj
            [  ]);
          (js "trustedProxyCidrs", Arr [Str (js "192.0.2.0/24")]);
          (js "metalLbNamespace", Str (js "metallb-system"));
          (js "metalLbAddress", Str (js "192.0.2.10"));
          (js "advertisementMode", Str (js "l2")) ]);
      (js "redis", Obj
        [ (js "mode", Str (js "managed"));
          (js "externalEndpoint", Str []);
          (js "externalHaConfirmed", Boolean false);
          (js "externalEgressCidrs", Arr []);
          (js "tls", Boolean false);
          (js "credentialsSecret", Str (js "prod-realtime-redis"));
          (js "credentialKey", Str (js "realtime"));
          (js "adminCredentialKey", Str (js "redis-password"));
          (js "instancePrefix", Str (js "realtime:prod"));
          (js "managedChart", Str (js "oci://registry-1.docker.io/bitnamicharts/redis"));
          (js "managedChartVersion", Str (js "23.1.1"));
          (js "managedChartArchiveSha256", Str (js "sha256:05665707e771f9ed843842d3ebacb992ef1c4089f138b9711446b37db76ad60a"));
          (js "managedImagePullSecrets", Arr []);
          (js "managedImages", Obj
            [ (js "allowInsecureRepositories", Boolean true);
              (js "redis", Obj
                [ (js "registry", Str (js "docker.io"));
                  (js "repository", Str (js "bitnamilegacy/redis"));
                  (js "tag", Str (js "8.2.1-debian-12-r0"));
                  (js "digest", Str (js "sha256:25bf63f3caf75af4628c0dfcf39859ad1ac8abe135be85e99699f9637b16dc28")) ]);
              (js "sentinel", Obj
                [ (js "registry", Str (js "docker.io"));
                  (js "repository", Str (js "bitnamilegacy/redis-sentinel"));
                  (js "tag", Str (js "8.2.1-debian-12-r0"));
                  (js "digest", Str (js "sha256:0ca3ea1d2f823c2d9265e0d9e682dc435f219f8d3385aed75b5bb0f365f516a9")) ]);
              (js "exporter", Obj
                [ (js "registry", Str (js "docker.io"));
                  (js "repository", Str (js "bitnamilegacy/redis-exporter"));
                  (js "tag", Str (js "1.76.0-debian-12-r0"));
                  (js "digest", Str (js "sha256:d111b8a14d96f7edd67324776d6801b76023035d9390d03fbb13d1c21bda8b88")) ]) ]);
          (js "legacyManagedChart", Str (js "oci://registry-1.docker.io/bitnamicharts/redis")) ]);
      (js "ingress", Obj
        [ (js "enabled", Boolean true);
          (js "host", Str (js "gateway.example.com"));
          (js "allowedOrigins", Arr [Str (js "https://gateway.example.com")]);
          (js "entryPoint", Str (js "websecure"));
          (js "webSocketPath", Str (js "/realtime/ws"));
          (js "httpFallbackPath", Str (js "/realtime/http"));
          (js "tlsSecretName", Str (js "gateway-example-com-tls"));
          (js "certificateName", Str (js "gateway-example-com")) ]);
      (js "observability", Obj
        [ (js "cluster", Str (js "production"));
          (js "serviceMonitor", Boolean true);
          (js "monitoringNamespaceLabels", Obj
            [ (js "kubernetes.io/metadata.name", Str (js "monitoring")) ]);
          (js "monitoringPodLabels", Obj
            [ (js "app.kubernetes.io/name", Str (js "prometheus")) ]);
          (js "otlpEndpoint", Str []);
          (js "otlpHeadersSecret", Str []);
          (js "otlpHeadersKey", Str (js "headers"));
          (js "otlpEgressCidrs", Arr []);
          (js "otlpEgressNamespaceLabels", Obj
            [  ]);
          (js "otlpEgressPodLabels", Obj
            [  ]);
          (js "otlpEgressPorts", Arr [Number (int 4317); Number (int 4318); Number (int 443)]) ]);
      (js "resources", Obj
        [ (js "gatewayCpu", Str (js "250m"));
          (js "gatewayMemory", Str (js "256Mi"));
          (js "redisStorage", Str (js "8Gi")) ]);
      (js "topology", Str (js "ha"));
      (js "persistence", Obj
        [ (js "enabled", Boolean false);
          (js "provider", Str (js "PostgreSql"));
          (js "customProviderImage", Boolean false);
          (js "tableName", Str (js "realtime_records"));
          (js "commandTimeoutSeconds", Number (int 30));
          (js "connectionSecret", Obj
            [ (js "name", Str []);
              (js "key", Str (js "connection-string")) ]);
          (js "api", Obj
            [ (js "enabled", Boolean false);
              (js "basePath", Str (js "/realtime/persistence"));
              (js "workerTokenSecret", Obj
                [ (js "name", Str []);
                  (js "key", Str (js "token")) ]);
              (js "workerNamespaceSelector", Obj
                [  ]);
              (js "workerPodSelector", Obj
                [  ]) ]);
          (js "setupJob", Obj
            [ (js "enabled", Boolean false);
              (js "backoffLimit", Number (int 2));
              (js "activeDeadlineSeconds", Number (int 300)) ]);
          (js "storage", Obj
            [ (js "existingClaim", Str []);
              (js "mountPath", Str (js "/var/lib/realtime")) ]);
          (js "egress", Obj
            [ (js "namespaceSelector", Obj
                [  ]);
              (js "podSelector", Obj
                [  ]);
              (js "cidrs", Arr []);
              (js "ports", Arr []) ]) ]) ].

Definition haProfile : value :=
  Obj
    [ (js "gateway", Obj
        [ (js "replicas", Number (int 3));
          (js "autoscaling", Obj
            [ (js "enabled", Boolean true);
              (js "minReplicas", Number (int 3));
              (js "maxReplicas", Number (int 12)) ]);
          (js "podDisruptionBudget", Obj
            [ (js "enabled", Boolean true);
              (js "minAvailable", Number (int 2)) ]);
          (js "topologySpread", Boolean true);
          (js "zoneWhenUnsatisfiable", Str (js "DoNotSchedule"));
          (js "maxUnavailable", Number (int 0));
          (js "maxSurge", Number (int 1)) ]);
      (js "redis", Obj
        [ (js "managedArchitecture", Str (js "replication"));
          (js "replicas", Number (int 3));
          (js "sentinel", Boolean true) ]);
      (js "minimumFailureDomains", Number (int 3));
      (js "guarantees", Obj
        [ (js "availability", Str (js "Gateway replicas are spread across three failure domains; managed Redis uses replication and Sentinel."));
          (js "upgrades", Str (js "Rolling updates preserve at least two ready gateway replicas when cluster capacity is sufficient."));
          (js "durability", Str (js "Redis persistence and replication support failover; Pub/Sub events remain ephemeral.")) ]) ].

Definition nonHaConfig : value :=
  Obj
    [ (js "schemaVersion", Number (int 2));
      (js "environment", Obj
        [ (js "name", Str (js "dev"));
          (js "class", Str (js "development")) ]);
      (js "naming", Obj
        [ (js "suffix", Str []) ]);
      (js "paths", Obj
        [ (js "environmentDirectory", Str (js ".bootstrap/env/{environment}"));
          (js "generatedDirectory", Str (js ".bootstrap/env/{environment}/lifecycle"));
          (js "backupDirectory", Str (js ".backups/bootstrap/{environment}"));
          (js "logDirectory", Str (js ".bootstrap/env/{environment}/logs")) ]);
      (js "image", Obj
        [ (js "repository", Str (js "registry.example.com/realtime/realtime-gateway"));
          (js "tag", Str (js "1.1.0-beta"));
          (js "digest", Str []);
          (js "pullPolicy", Str (js "IfNotPresent"));
          (js "pullSecretName", Str []) ]);
      (js "kubernetes", Obj
        [ (js "context", Str (js "kind-example"));
          (js "namespace", Str (js "dev-realtime"));
          (js "storageClass", Str (js "example-storage"));
          (js "failureDomains", Number (int 3)) ]);
      (js "networking", Obj
        [ (js "traefikNamespace", Str (js "traefik"));
          (js "traefikService", Str (js "traefik"));
          (js "traefikPodLabels", Obj
            [ (js "app.kubernetes.io/name", Str (js "traefik")) ]);
          (js "directIngressNamespaceLabels", Obj
            [ (js "kubernetes.io/metadata.name", Str (js "dev-realtime")) ]);
          (js "directIngressPodLabels", Obj
            [  ]);
          (js "trustedProxyCidrs", Arr [Str (js "192.0.2.0/24")]);
          (js "metalLbNamespace", Str (js "metallb-system"));
          (js "metalLbAddress", Str (js "192.0.2.10"));
          (js "advertisementMode", Str (js "l2")) ]);
      (js "redis", Obj
        [ (js "mode", Str (js "managed"));
          (js "externalEndpoint", Str []);
          (js "externalHaConfirmed", Boolean false);
          (js "externalEgressCidrs", Arr []);
          (js "tls", Boolean false);
          (js "credentialsSecret", Str (js "dev-realtime-redis"));
          (js "credentialKey", Str (js "realtime"));
          (js "adminCredentialKey", Str (js "redis-password"));
          (js "instancePrefix", Str (js "realtime:dev"));
          (js "managedChart", Str (js "oci://registry-1.docker.io/bitnamicharts/redis"));
          (js "managedChartVersion", Str (js "23.1.1"));
          (js "managedChartArchiveSha256", Str (js "sha256:05665707e771f9ed843842d3ebacb992ef1c4089f138b9711446b37db76ad60a"));
          (js "managedImagePullSecrets", Arr []);
          (js "managedImages", Obj
            [ (js "allowInsecureRepositories", Boolean true);
              (js "redis", Obj
                [ (js "registry", Str (js "docker.io"));
                  (js "repository", Str (js "bitnamilegacy/redis"));
                  (js "tag", Str (js "8.2.1-debian-12-r0"));
                  (js "digest", Str (js "sha256:25bf63f3caf75af4628c0dfcf39859ad1ac8abe135be85e99699f9637b16dc28")) ]);
              (js "sentinel", Obj
                [ (js "registry", Str (js "docker.io"));
                  (js "repository", Str (js "bitnamilegacy/redis-sentinel"));
                  (js "tag", Str (js "8.2.1-debian-12-r0"));
                  (js "digest", Str (js "sha256:0ca3ea1d2f823c2d9265e0d9e682dc435f219f8d3385aed75b5bb0f365f516a9")) ]);
              (js "exporter", Obj
                [ (js "registry", Str (js "docker.io"));
                  (js "repository", Str (js "bitnamilegacy/redis-exporter"));
                  (js "tag", Str (js "1.76.0-debian-12-r0"));
                  (js "digest", Str (js "sha256:d111b8a14d96f7edd67324776d6801b76023035d9390d03fbb13d1c21bda8b88")) ]) ]);
          (js "legacyManagedChart", Str (js "oci://registry-1.docker.io/bitnamicharts/redis")) ]);
      (js "ingress", Obj
        [ (js "enabled", Boolean false);
          (js "host", Str (js "realtime.example.test"));
          (js "allowedOrigins", Arr [Str (js "https://realtime.example.test")]);
          (js "entryPoint", Str (js "websecure"));
          (js "webSocketPath", Str (js "/realtime/ws"));
          (js "httpFallbackPath", Str (js "/realtime/http"));
          (js "tlsSecretName", Str (js "dev-realtime-tls"));
          (js "certificateName", Str []) ]);
      (js "observability", Obj
        [ (js "cluster", Str (js "kind-example"));
          (js "serviceMonitor", Boolean true);
          (js "monitoringNamespaceLabels", Obj
            [ (js "kubernetes.io/metadata.name", Str (js "monitoring")) ]);
          (js "monitoringPodLabels", Obj
            [ (js "app.kubernetes.io/name", Str (js "prometheus")) ]);
          (js "otlpEndpoint", Str []);
          (js "otlpHeadersSecret", Str []);
          (js "otlpHeadersKey", Str (js "headers"));
          (js "otlpEgressCidrs", Arr []);
          (js "otlpEgressNamespaceLabels", Obj
            [  ]);
          (js "otlpEgressPodLabels", Obj
            [  ]);
          (js "otlpEgressPorts", Arr [Number (int 4317); Number (int 4318); Number (int 443)]) ]);
      (js "resources", Obj
        [ (js "gatewayCpu", Str (js "250m"));
          (js "gatewayMemory", Str (js "256Mi"));
          (js "redisStorage", Str (js "8Gi")) ]);
      (js "topology", Str (js "non-ha"));
      (js "persistence", Obj
        [ (js "enabled", Boolean false);
          (js "provider", Str (js "PostgreSql"));
          (js "customProviderImage", Boolean false);
          (js "tableName", Str (js "realtime_records"));
          (js "commandTimeoutSeconds", Number (int 30));
          (js "connectionSecret", Obj
            [ (js "name", Str []);
              (js "key", Str (js "connection-string")) ]);
          (js "api", Obj
            [ (js "enabled", Boolean false);
              (js "basePath", Str (js "/realtime/persistence"));
              (js "workerTokenSecret", Obj
                [ (js "name", Str []);
                  (js "key", Str (js "token")) ]);
              (js "workerNamespaceSelector", Obj
                [  ]);
              (js "workerPodSelector", Obj
                [  ]) ]);
          (js "setupJob", Obj
            [ (js "enabled", Boolean false);
              (js "backoffLimit", Number (int 2));
              (js "activeDeadlineSeconds", Number (int 300)) ]);
          (js "storage", Obj
            [ (js "existingClaim", Str []);
              (js "mountPath", Str (js "/var/lib/realtime")) ]);
          (js "egress", Obj
            [ (js "namespaceSelector", Obj
                [  ]);
              (js "podSelector", Obj
                [  ]);
              (js "cidrs", Arr []);
              (js "ports", Arr []) ]) ]) ].

Definition nonHaProfile : value :=
  Obj
    [ (js "gateway", Obj
        [ (js "replicas", Number (int 1));
          (js "autoscaling", Obj
            [ (js "enabled", Boolean false);
              (js "minReplicas", Number (int 1));
              (js "maxReplicas", Number (int 1)) ]);
          (js "podDisruptionBudget", Obj
            [ (js "enabled", Boolean false);
              (js "minAvailable", Number (int 0)) ]);
          (js "topologySpread", Boolean false);
          (js "zoneWhenUnsatisfiable", Str (js "ScheduleAnyway"));
          (js "maxUnavailable", Number (int 1));
          (js "maxSurge", Number (int 0)) ]);
      (js "redis", Obj
        [ (js "managedArchitecture", Str (js "standalone"));
          (js "replicas", Number (int 0));
          (js "sentinel", Boolean false) ]);
      (js "minimumFailureDomains", Number (int 1));
      (js "guarantees", Obj
        [ (js "availability", Str (js "Single gateway and Redis instance; pod, node, storage, ingress, and maintenance outages interrupt service."));
          (js "upgrades", Str (js "Downtime is expected during rollout."));
          (js "durability", Str (js "Persistence reduces data loss risk but provides no replica failover. Pub/Sub events are not durable.")) ]) ].

(** [isIP] and [new URL] on the inputs of the examples: dotted decimal
    addresses and plain origins. *)
Definition sample_isIP (s : jstr) : Z :=
  if test (cats [digits; lit (js "."); digits; lit (js "."); digits; lit (js "."); digits]) s then 4 else 0.
Definition sample_newURL (v : value) : option Url :=
  match v with
  | Str s => if test httpUrl s
             then Some {| username := []; password := []; search := []; hash := []; port := [];
                          protocol := if startsWith (js "https") s then js "https:" else js "http:" |}
             else None
  | _ => None
  end.
