(* ===== verification/ContractPlan.v ===== *)
(** * Canonical values, redaction and plans: the rest of scripts/lib/bootstrap-contract.mjs

    [stable], [redact] and [inlineSecretPaths] on values; release names; the
    Helm values and the plan rendered from a configuration and a profile.
    Reading a property of [undefined] or [null] throws, so the functions that
    render return a [result]. *)

From stdpp Require Import base tactics option list sorting numbers strings.
From Stdlib Require Import ZArith NArith Lia.
From S2P Require Import Prelude JsString JsNumber JsValue Regex ContractPatterns Contract.

Open Scope Z_scope.

(** ** Canonical form *)

(** The order of [Object.keys(value).sort()]. *)
Definition key_le (a b : jstr * value) : Prop := js_le a.1 b.1 = true.
#[global] Instance key_le_dec a b : Decision (key_le a b).
Proof. unfold key_le. apply _. Defined.

Fixpoint stable (v : value) : value :=
  match v with
  | Arr l => Arr (stable <$> l)
  | Obj l => from_entries (merge_sort key_le ((fun kv => (kv.1, stable kv.2)) <$> l))
  | _ => v
  end.

(** ** Redaction *)

Definition redacted : value := Str (js "[REDACTED]").

Fixpoint redact (v : value) : value :=
  match v with
  | Arr l => Arr (redact <$> l)
  | Obj l => from_entries ((fun kv => (kv.1, if credentialField kv.1 [] then redacted else redact kv.2)) <$> l)
  | _ => v
  end.

Definition plainSecret (v : value) : bool :=
  match v with Str s => bool_decide (s <> []) | Number _ => true | _ => false end.

Fixpoint inlineSecretPaths (v : value) (p : jstr) : list jstr :=
  match v with
  | Obj l =>
      (fix entries l := match l with
       | [] => []
       | (key, c) :: l' =>
           let cp := child p key in
           let credential := credentialField key p in
           (if credential && plainSecret c then [cp] else [])
           ++ (if credential then mjoin (imap (fun i item => if plainSecret item then [indexed cp i] else []) (items_of c)) else [])
           ++ (if isRecord c then inlineSecretPaths c cp else [])
           ++ match c with
              | Arr items =>
                  (fix elements i items := match items with
                   | [] => []
                   | item :: items' =>
                       (if isRecord item then inlineSecretPaths item (indexed cp i) else []) ++ elements (S i) items'
                   end) O items
              | _ => []
              end
           ++ entries l'
       end) l
  | _ => []
  end.

(** ** Release names *)

(** An access [v.k] that throws when [v] is [undefined] or [null]. *)
Definition typeError : jstr := js "TypeError: cannot read properties of a nullish value".
Definition reads (v : value) : result jstr unit := ensure (negb (isNullish v)) typeError.
Fixpoint reads_all (l : list value) : result jstr unit :=
  match l with
  | [] => Ok tt
  | v :: l' => _ ← reads v; reads_all l'
  end.

Record releaseName := { application : jstr; release : jstr; redisRelease : jstr }.

Definition at2 (s k : jstr) (v : value) : value := get k (get s v).

Definition releaseNames (config : value) : result jstr releaseName :=
  _ ← reads_all [config; get (js "naming") config; get (js "environment") config];
  let suffix := at2 (js "naming") (js "suffix") config in
  let application := if truthy suffix then js "realtime-" ++ str_of suffix else js "realtime" in
  let release := str_of (at2 (js "environment") (js "name") config) ++ js "-" ++ application in
  let redisRelease := release ++ js "-redis" in
  if bool_decide (53 < length release)%nat || bool_decide (53 < length redisRelease)%nat
  then Throw (js "Derived Helm release name exceeds 53 characters; shorten the environment or naming suffix.")
  else Ok {| application := application; release := release; redisRelease := redisRelease |}.

(** ** Helm values *)

Definition selector (labels : value) : value :=
  if bool_decide (0 < keys_count labels)%nat then Obj [(js "matchLabels", labels)] else Obj [].

Section render.
Context (isIP : jstr -> Z).

(** [config.redis.mode === "external" ? parseRedisEndpoint(...).port : 6379] *)
Definition redisPort (config : value) : result jstr value :=
  if is_str (js "external") (at2 (js "redis") (js "mode") config) then
    match parseRedisEndpoint isIP (at2 (js "redis") (js "externalEndpoint") config) with
    | Some (_, port) => Ok (Number port)
    | None => Throw typeError
    end
  else Ok (Number (int 6379)).

Definition renderObservability (config : value) : value :=
  let o k := at2 (js "observability") k config in
  Obj [ (js "cluster", o (js "cluster"));
        (js "environment", at2 (js "environment") (js "name") config);
        (js "platformMetrics", Obj
          [ (js "certificateName", at2 (js "ingress") (js "certificateName") config);
            (js "metalLbAdvertisementMode", at2 (js "networking") (js "advertisementMode") config);
            (js "metalLbNamespace", at2 (js "networking") (js "metalLbNamespace") config);
            (js "metalLbAddress", at2 (js "networking") (js "metalLbAddress") config);
            (js "traefikNamespace", at2 (js "networking") (js "traefikNamespace") config) ]);
        (js "serviceMonitor", Obj [(js "enabled", o (js "serviceMonitor"))]);
        (js "prometheusRule", Obj [(js "ingressEnabled", at2 (js "ingress") (js "enabled") config)]);
        (js "otlp", Obj
          [ (js "enabled", Boolean (truthy (o (js "otlpEndpoint"))));
            (js "endpoint", o (js "otlpEndpoint"));
            (js "egressCidrs", o (js "otlpEgressCidrs"));
            (js "egressNamespaceSelector", selector (o (js "otlpEgressNamespaceLabels")));
            (js "egressPodSelector", selector (o (js "otlpEgressPodLabels")));
            (js "egressPorts", o (js "otlpEgressPorts"));
            (js "headersSecret", Obj [(js "name", o (js "otlpHeadersSecret")); (js "key", o (js "otlpHeadersKey"))]) ]) ].

Definition renderNetworkPolicy (config : value) : value :=
  let n k := at2 (js "networking") k config in
  let enabled := truthy (at2 (js "ingress") (js "enabled") config) in
  Obj [ (js "allowExternalRedisEgress", Boolean (is_str (js "external") (at2 (js "redis") (js "mode") config)));
        (js "externalRedisCidrs", at2 (js "redis") (js "externalEgressCidrs") config);
        (js "ingressNamespaceSelector", Obj [(js "matchLabels",
           if enabled then Obj [(js "kubernetes.io/metadata.name", n (js "traefikNamespace"))] else n (js "directIngressNamespaceLabels"))]);
        (js "ingressPodSelector", Obj [(js "matchLabels", if enabled then n (js "traefikPodLabels") else n (js "directIngressPodLabels"))]);
        (js "monitoringNamespaceSelector", Obj [(js "matchLabels", at2 (js "observability") (js "monitoringNamespaceLabels") config)]);
        (js "monitoringPodSelector", Obj [(js "matchLabels", at2 (js "observability") (js "monitoringPodLabels") config)]) ].

Definition renderValues (config profile : value) : result jstr value :=
  names ← releaseNames config;
  let g k := at2 (js "gateway") k profile in
  let i k := at2 (js "ingress") k config in
  let r k := at2 (js "redis") k config in
  let limits := Obj [(js "cpu", at2 (js "resources") (js "gatewayCpu") config); (js "memory", at2 (js "resources") (js "gatewayMemory") config)] in
  _ ← reads_all [profile; get (js "gateway") profile; get (js "ingress") config; get (js "networking") config;
                 get (js "observability") config; at2 (js "observability") (js "otlpEgressNamespaceLabels") config;
                 at2 (js "observability") (js "otlpEgressPodLabels") config; get (js "resources") config; get (js "redis") config];
  port ← redisPort config;
  Ok (stable (Obj
    ([ (js "autoscaling", g (js "autoscaling"));
       (js "deploymentStrategy", Obj [(js "maxSurge", g (js "maxSurge")); (js "maxUnavailable", g (js "maxUnavailable"))]);
       (js "fullnameOverride", Str (release names));
       (js "gateway", Obj [(js "allowedOrigins", i (js "allowedOrigins")); (js "trustedNetworks", at2 (js "networking") (js "trustedProxyCidrs") config);
                           (js "shutdownDrainSeconds", Number (int 25))]) ]
     ++ (if isUndefined (get (js "persistence") config) then [] else [(js "persistence", get (js "persistence") config)])
     ++ [ (js "image", get (js "image") config);
          (js "ingressRoute", Obj [(js "enabled", i (js "enabled")); (js "entryPoint", i (js "entryPoint")); (js "host", i (js "host"));
             (js "path", i (js "webSocketPath")); (js "fallbackPath", i (js "httpFallbackPath")); (js "tlsSecretName", i (js "tlsSecretName"))]);
          (js "observability", renderObservability config);
          (js "podDisruptionBudget", g (js "podDisruptionBudget"));
          (js "replicaCount", g (js "replicas"));
          (js "resources", Obj [(js "requests", limits); (js "limits", limits)]);
          (js "redis", Obj
            [ (js "mode", r (js "mode")); (js "tls", r (js "tls")); (js "externalEndpoint", r (js "externalEndpoint"));
              (js "port", port);
              (js "managedReleaseName", Str (redisRelease names));
              (js "credentialsSecret", Obj [(js "name", r (js "credentialsSecret")); (js "passwordKey", r (js "credentialKey"))]);
              (js "managedAdminPasswordKey", r (js "adminCredentialKey"));
              (js "username", r (js "credentialKey"));
              (js "instancePrefix", r (js "instancePrefix")) ]);
          (js "networkPolicy", renderNetworkPolicy config);
          (js "topologySpreadConstraints", Obj [(js "enabled", g (js "topologySpread")); (js "zoneWhenUnsatisfiable", g (js "zoneWhenUnsatisfiable"))]);
          (js "topology", get (js "topology") config) ]))).

(** The text of the Sentinel startup probe; the quotation marks are code unit 34. *)
Definition quote : jstr := [34%N].
Definition probeScript : jstr :=
  js "export REDISCLI_AUTH=" ++ quote ++ js "$(< " ++ quote ++ js "$REDIS_PASSWORD_FILE" ++ quote ++ js ")" ++ quote ++ [10%N]
  ++ js "redis-cli -h 127.0.0.1 -p 26379 PING >/dev/null" ++ [10%N]
  ++ js "redis-cli -h 127.0.0.1 -p 26379 SENTINEL DEBUG tilt-trigger 10000 >/dev/null".

Definition startupProbe (ha : bool) : value :=
  Obj [(js "enabled", Boolean true); (js "failureThreshold", Number (int (if ha then 60 else 22)))].

(** [renderManagedRedis]: [null] for an external Redis. *)
Definition renderManagedRedis (config profile : value) : result jstr value :=
  _ ← reads (get (js "redis") config);
  if negb (is_str (js "managed") (at2 (js "redis") (js "mode") config)) then Ok Null
  else
    names ← releaseNames config;
    let r k := at2 (js "redis") k config in
    let images k := get k (r (js "managedImages")) in
    let p k := at2 (js "redis") k profile in
    let ha := is_str (js "ha") (get (js "topology") config) in
    let storage := Obj [(js "enabled", Boolean true); (js "size", at2 (js "resources") (js "redisStorage") config)] in
    _ ← reads_all [profile; get (js "redis") profile; r (js "managedImages"); get (js "kubernetes") config; get (js "resources") config];
    Ok (stable (Obj
      [ (js "baseValuesPath", Str (js "cluster/redis/managed-values.yaml"));
        (js "chart", r (js "managedChart"));
        (js "chartArchiveSha256", r (js "managedChartArchiveSha256"));
        (js "chartVersion", r (js "managedChartVersion"));
        (js "values", Obj
          [ (js "commonAnnotations", Obj [(js "realtime.example/managed-chart", r (js "managedChart"))]);
            (js "architecture", p (js "managedArchitecture"));
            (js "global", Obj
              [ (js "imagePullSecrets", nullish (r (js "managedImagePullSecrets")) (Arr []));
                (js "security", Obj [(js "allowInsecureImages", images (js "allowInsecureRepositories"))]);
                (js "storageClass", at2 (js "kubernetes") (js "storageClass") config) ]);
            (js "image", images (js "redis"));
            (js "auth", Obj
              [ (js "sentinel", p (js "sentinel"));
                (js "existingSecret", r (js "credentialsSecret"));
                (js "existingSecretPasswordKey", r (js "adminCredentialKey"));
                (js "acl", Obj
                  [ (js "enabled", Boolean true); (js "sentinel", Boolean false); (js "userSecret", r (js "credentialsSecret"));
                    (js "users", Arr [Obj
                      [ (js "username", r (js "credentialKey")); (js "enabled", Str (js "on"));
                        (js "commands", Str (js "+@read +@write +@connection +@pubsub +@scripting +@stream"));
                        (js "keys", Str (js "~" ++ str_of (r (js "instancePrefix")) ++ js ":*"));
                        (js "channels", Str (js "&" ++ str_of (r (js "instancePrefix")) ++ js ":*")) ]]) ]) ]);
            (js "master", Obj [(js "pdb", Obj [(js "create", p (js "sentinel"))]); (js "persistence", storage)]);
            (js "replica", Obj
              [ (js "dnsConfig", if ha then Obj [(js "options", Arr
                    [ Obj [(js "name", Str (js "timeout")); (js "value", Str (js "2"))];
                      Obj [(js "name", Str (js "attempts")); (js "value", Str (js "3"))];
                      Obj [(js "name", Str (js "single-request-reopen"))] ])] else Obj []);
                (js "podManagementPolicy", Str (if ha then js "OrderedReady" else js "Parallel"));
                (js "replicaCount", p (js "replicas"));
                (js "pdb", Obj [(js "create", p (js "sentinel"))]);
                (js "persistence", storage);
                (js "startupProbe", startupProbe ha);
                (js "topologySpreadConstraints", Arr (if ha then [Obj
                  [ (js "labelSelector", Obj [(js "matchLabels", Obj
                      [ (js "app.kubernetes.io/component", Str (js "node"));
                        (js "app.kubernetes.io/instance", Str (redisRelease names));
                        (js "app.kubernetes.io/name", Str (js "redis")) ])]);
                    (js "maxSkew", Number (int 1));
                    (js "topologyKey", Str (js "topology.kubernetes.io/zone"));
                    (js "whenUnsatisfiable", Str (js "DoNotSchedule")) ]] else [])) ]);
            (js "sentinel", Obj
              [ (js "customStartupProbe", if ha then Obj
                  [ (js "exec", Obj [(js "command", Arr [Str (js "/bin/bash"); Str (js "-ec"); Str probeScript])]);
                    (js "failureThreshold", Number (int 60)); (js "initialDelaySeconds", Number (int 10));
                    (js "periodSeconds", Number (int 10)); (js "successThreshold", Number (int 1));
                    (js "timeoutSeconds", Number (int 5)) ] else Obj []);
                (js "enabled", p (js "sentinel")); (js "image", images (js "sentinel")); (js "quorum", Number (int 2));
                (js "startupProbe", startupProbe ha) ]);
            (js "metrics", Obj [(js "image", images (js "exporter"))]) ]) ])).

(** ** Plans *)

(** [JSON.stringify(v, null, 2)] and the SHA-256 digest in hexadecimal. *)
Context (jsonText : value -> jstr) (sha256 : jstr -> jstr).

Definition stableJson (v : value) : jstr := jsonText (stable v) ++ [10%N].

Definition deploymentValuesSha256 (gateway managedRedis : value) : value :=
  Str (sha256 (stableJson (Obj [(js "gateway", gateway); (js "managedRedis", managedRedis)]))).

Record planOptions := { previousTopology : value; dryRun : value; timeoutSeconds : value }.

Definition changeClassOf (action : jstr) (config : value) (o : planOptions) : jstr :=
  if truthy (previousTopology o) && negb (strict_eq (previousTopology o) (get (js "topology") config)) then js "topology-conversion"
  else if bool_decide (action = js "install") then js "installation" else action.

Definition isMutation (action : jstr) : bool :=
  memb action [js "install"; js "update"; js "rollback"; js "recover"; js "teardown"].

Definition buildPlan (action : jstr) (config profile : value) (o : planOptions) : result jstr value :=
  if negb (memb action actions) then Throw (js "Unsupported action '" ++ action ++ js "'.")
  else
    names ← releaseNames config;
    values ← renderValues config profile;
    managedRedis ← renderManagedRedis config profile;
    _ ← reads_all [get (js "kubernetes") config];
    let external := is_str (js "external") (at2 (js "redis") (js "mode") config) in
    let managed := is_str (js "managed") (at2 (js "redis") (js "mode") config) in
    let changeClass := changeClassOf action config o in
    let conversion := Boolean (bool_decide (changeClass = js "topology-conversion")) in
    Ok (stable (Obj
      [ (js "contractVersion", Number (int contractVersion));
        (js "action", Str action);
        (js "changeClass", Str changeClass);
        (js "dryRun", Boolean (truthy (dryRun o)));
        (js "target", Obj
          [ (js "environment", at2 (js "environment") (js "name") config);
            (js "environmentClass", at2 (js "environment") (js "class") config);
            (js "context", at2 (js "kubernetes") (js "context") config);
            (js "namespace", at2 (js "kubernetes") (js "namespace") config);
            (js "application", Str (application names));
            (js "release", Str (release names));
            (js "redisRelease", Str (redisRelease names)) ]);
        (js "paths", get (js "paths") config);
        (js "networking", get (js "networking") config);
        (js "topology", Obj
          [ (js "selected", get (js "topology") config);
            (js "previous", nullish (previousTopology o) Null);
            (js "conversion", conversion);
            (js "minimumFailureDomains", get (js "minimumFailureDomains") profile);
            (js "configuredFailureDomains", at2 (js "kubernetes") (js "failureDomains") config);
            (js "gatewayReplicas", at2 (js "gateway") (js "replicas") profile);
            (js "redisMode", at2 (js "redis") (js "mode") config);
            (js "managedRedisReplicas", if managed then at2 (js "redis") (js "replicas") profile else Null);
            (js "externalRedisHaConfirmed", if external then at2 (js "redis") (js "externalHaConfirmed") config else Null);
            (js "guarantees", get (js "guarantees") profile) ]);
        (js "safety", Obj
          [ (js "mutation", Boolean (isMutation action));
            (js "requiresBackup", Boolean (isMutation action));
            (js "requiresTopologyConfirmation", conversion);
            (js "requiresForce", Boolean (bool_decide (action = js "teardown")));
            (js "boundedTimeoutSeconds", nullish (timeoutSeconds o) (Number (int 300)));
            (js "secretValuesAccepted", Boolean false) ]);
        (js "managedRedis", managedRedis);
        (js "values", values);
        (js "valuesSha256", deploymentValuesSha256 values managedRedis) ])).

(** [useCapturedDeploymentValues]: the plan is an object; the archive digest is
    recorded when it is a non-empty string. *)
Definition useCapturedDeploymentValues (plan gatewayValues managedRedisValues chart version archiveSha256 : value) : value :=
  let values := stable gatewayValues in
  let managedRedis := Obj ([(js "chart", chart); (js "chartVersion", version); (js "values", managedRedisValues)]
    ++ (if truthy archiveSha256 then [(js "chartArchiveSha256", archiveSha256)] else [])) in
  let captured := if isUndefined managedRedisValues then Null else stable managedRedis in
  stable (Obj (set_prop (js "valuesSha256") (deploymentValuesSha256 values captured)
    (set_prop (js "managedRedis") captured (set_prop (js "values") values (props_of plan))))).
End render.

(** The checks of [loadContract] on the document that was read. *)
Section load.
Context (isIP : jstr -> Z) (newURL : value -> option Url).

Definition invalidConfiguration (errors : list problem) : jstr :=
  js "Configuration is invalid:" ++ [10%N]
  ++ join [10%N] ((fun e => js "- " ++ path e ++ js ": " ++ message e) <$> errors).

Definition acceptContract (config : value) (requestedProfile : option jstr) : result jstr unit :=
  let errors := validateConfiguration isIP newURL config in
  let topology := str_of (get (js "topology") config) in
  let requested := default [] requestedProfile in
  _ ← ensure (bool_decide (length errors = 0%nat)) (invalidConfiguration errors);
  ensure (bool_decide (requested = []) || bool_decide (requested = topology))
    (js "Requested profile '" ++ requested ++ js "' does not match configuration topology '" ++ topology ++ js "'.").
End load.
