(* ===== verification/Canonical.v ===== *)
(** * Canonical and redacted values: properties of [stable] and [redact]

    [stable] of scripts/lib/bootstrap-contract.mjs sorts the keys of every
    object so that equal documents print equally; [redact] replaces credential
    values.  [from_entries] is a permutation of its entries, which gives the
    lookups; sorting is canonical because keys are distinct. *)

From stdpp Require Import base tactics option list sorting numbers strings.
From Stdlib Require Import ZArith NArith Lia.
From S2P Require Import Prelude JsString JsNumber JsValue Regex ContractPatterns Contract ContractPlan.

Open Scope Z_scope.

(** ** Objects from entries *)

#[global] Instance key_le_total : Total key_le.
Proof. intros a b. apply js_le_total. Qed.
#[global] Instance key_le_trans : Transitive key_le.
Proof. intros a b c. apply js_le_trans. Qed.
#[global] Instance index_le_total : Total index_le.
Proof. intros a b. unfold index_le. lia. Qed.

Lemma dedupe_NoDup_id ks : NoDup ks -> dedupe ks = ks.
Proof.
  intros H. unfold dedupe. assert (Hr : NoDup (rev ks)) by (rewrite NoDup_ListNoDup; apply List.NoDup_rev; by rewrite <- NoDup_ListNoDup).
  assert (Hd : forall l : list jstr, NoDup l -> remove_dups l = l).
  { induction 1 as [|x l Hx Hl IH]; [done|]. simpl. case_decide; [done|]. by rewrite IH. }
  by rewrite Hd, rev_involutive.
Qed.

Lemma enumeration_order_Permutation ks : enumeration_order ks ≡ₚ ks.
Proof.
  unfold enumeration_order. rewrite merge_sort_Permutation.
  induction ks as [|k ks IH]; [done|]. rewrite !filter_cons.
  destruct (index_key k) as [z|] eqn:Hk.
  - rewrite decide_True by eauto. rewrite decide_False by done. simpl. by rewrite IH.
  - rewrite decide_False by (by intros [? ?]). rewrite decide_True by done.
    rewrite <- Permutation_middle. by rewrite IH.
Qed.

Lemma assoc_rev l k : NoDup (keys l) -> assoc k (rev l) = assoc k l.
Proof.
  intros Hnd. destruct (assoc k l) as [v|] eqn:Ha.
  - apply assoc_elem.
    + unfold keys in *. rewrite map_rev. rewrite NoDup_ListNoDup in *. by apply List.NoDup_rev.
    + apply list_elem_of_In, in_rev. rewrite rev_involutive. apply list_elem_of_In. by apply assoc_Some_elem.
  - apply assoc_None. apply assoc_None in Ha. intros Hin. apply Ha. unfold keys in *.
    apply list_elem_of_In. apply list_elem_of_In in Hin. rewrite map_rev in Hin. by apply in_rev in Hin.
Qed.

(** Rebuilding entries from their keys. *)
Lemma entries_of_keys l : NoDup (keys l) -> (fun k => (k, default Undefined (assoc k l))) <$> keys l = l.
Proof.
  intros Hnd. unfold keys at 1. rewrite <- list_fmap_compose.
  transitivity (id <$> l); [|apply list_fmap_id].
  apply list_fmap_ext. intros i [k v] Hi. simpl. f_equal.
  rewrite (assoc_elem k l v); [done|done|]. by eapply list_elem_of_lookup_2.
Qed.

Lemma from_entries_Permutation l :
  NoDup (keys l) -> exists l', from_entries l = Obj l' /\ l' ≡ₚ l.
Proof.
  intros Hnd. unfold from_entries. rewrite dedupe_NoDup_id by done. eexists. split; [done|].
  rewrite enumeration_order_Permutation.
  rewrite <- (entries_of_keys l Hnd) at 2.
  apply Permutation_refl'. apply list_fmap_ext. intros i k _. by rewrite assoc_rev.
Qed.

(** Entries already in enumeration order are kept as they are. *)
Lemma from_entries_id l :
  NoDup (keys l) -> enumeration_order (keys l) = keys l -> from_entries l = Obj l.
Proof.
  intros Hnd He. unfold from_entries. rewrite dedupe_NoDup_id by done. rewrite He. f_equal.
  rewrite <- (entries_of_keys l Hnd) at 2. apply list_fmap_ext. intros i k _. by rewrite assoc_rev.
Qed.

Lemma keys_Permutation l l' : l ≡ₚ l' -> keys l ≡ₚ keys l'.
Proof. intros H. by apply fmap_Permutation. Qed.

Lemma NoDup_keys_Permutation l l' : l ≡ₚ l' -> NoDup (keys l) -> NoDup (keys l').
Proof. intros H%keys_Permutation. by rewrite H. Qed.

Lemma assoc_Permutation k l l' : l ≡ₚ l' -> NoDup (keys l) -> assoc k l = assoc k l'.
Proof.
  intros Hp Hnd. pose proof (NoDup_keys_Permutation _ _ Hp Hnd) as Hnd'.
  destruct (assoc k l') as [v|] eqn:Ha.
  - apply assoc_elem; [done|]. rewrite Hp. by apply assoc_Some_elem.
  - apply assoc_None in Ha. apply assoc_None. by rewrite (keys_Permutation _ _ Hp).
Qed.

(** ** Sorting is canonical *)

Lemma sort_canonical l l' :
  l ≡ₚ l' -> NoDup (keys l) -> merge_sort key_le l = merge_sort key_le l'.
Proof.
  intros Hp Hnd. apply (Sorted_unique_strong key_le).
  - intros [k1 v1] [k2 v2] H1 H2 Hle Hge. unfold key_le in *. simpl in *.
    pose proof (js_le_antisym _ _ Hle Hge) as ->. f_equal.
    rewrite merge_sort_Permutation in H1. rewrite merge_sort_Permutation, <- Hp in H2.
    apply assoc_elem in H1, H2; [congruence|done..].
  - apply Sorted_merge_sort, _.
  - apply Sorted_merge_sort, _.
  - by rewrite !merge_sort_Permutation.
Qed.

(** Map over the values of the entries. *)
Definition map_values (f : value -> value) (l : list (jstr * value)) : list (jstr * value) := (fun kv => (kv.1, f kv.2)) <$> l.

Lemma keys_map_values f l : keys (map_values f l) = keys l.
Proof. unfold keys, map_values. rewrite <- list_fmap_compose. done. Qed.

Lemma stable_Obj l : stable (Obj l) = from_entries (merge_sort key_le (map_values stable l)).
Proof. done. Qed.

Lemma wf_Obj l : wf (Obj l) = true <-> NoDup (keys l) /\ enumeration_order (keys l) = keys l /\ Forall (fun kv => wf kv.2 = true) l.
Proof.
  simpl. rewrite !andb_true_iff, !bool_decide_eq_true, forallb_forall, Forall_forall.
  setoid_rewrite list_elem_of_In. tauto.
Qed.

Lemma wf_Arr l : wf (Arr l) = true <-> Forall (fun v => wf v = true) l.
Proof. simpl. rewrite forallb_forall, Forall_forall. setoid_rewrite list_elem_of_In. done. Qed.

(** The entries of a stable object, as a permutation. *)
Lemma stable_entries l :
  NoDup (keys l) -> exists l', stable (Obj l) = Obj l' /\ l' ≡ₚ map_values stable l.
Proof.
  intros Hnd. rewrite stable_Obj.
  destruct (from_entries_Permutation (merge_sort key_le (map_values stable l))) as (l' & -> & Hp).
  - eapply NoDup_keys_Permutation; [symmetry; apply merge_sort_Permutation|]. by rewrite keys_map_values.
  - exists l'. split; [done|]. by rewrite Hp, merge_sort_Permutation.
Qed.

(** Reading a property of a canonical document. *)
Lemma assoc_map_values f k l : assoc k (map_values f l) = f <$> assoc k l.
Proof. induction l as [|[k' v] l IH]; [done|]. cbn. by destruct (decide (k' = k)). Qed.

Lemma get_stable k l : NoDup (keys l) -> get k (stable (Obj l)) = stable (get k (Obj l)).
Proof.
  intros Hnd. destruct (stable_entries l Hnd) as (l' & -> & Hp). cbn [get].
  rewrite (assoc_Permutation k l' (map_values stable l)); [|done|].
  - rewrite assoc_map_values. by destruct (assoc k l).
  - eapply NoDup_keys_Permutation; [symmetry; exact Hp|]. by rewrite keys_map_values.
Qed.

Lemma stable_NoDup l l' : NoDup (keys l) -> stable (Obj l) = Obj l' -> NoDup (keys l').
Proof.
  intros Hnd Hs. destruct (stable_entries l Hnd) as (l0 & E & Hp). rewrite E in Hs. injection Hs as <-.
  eapply NoDup_keys_Permutation; [symmetry; exact Hp|]. by rewrite keys_map_values.
Qed.

Lemma stable_Str v x : stable v = Str x -> v = Str x.
Proof. destruct v; try done. Qed.

Lemma keys_set_prop k w l : keys (set_prop k w l) = if bool_decide (k ∈ keys l) then keys l else keys l ++ [k].
Proof.
  unfold set_prop. case_bool_decide; [|unfold keys; by rewrite fmap_app].
  unfold keys. rewrite <- list_fmap_compose. apply list_fmap_ext. intros i [k' v] _. cbn. by case_decide.
Qed.

Lemma set_prop_NoDup k w l : NoDup (keys l) -> NoDup (keys (set_prop k w l)).
Proof.
  intros H. rewrite keys_set_prop. case_bool_decide as Hk; [done|]. apply NoDup_app. split; [done|].
  split; [|by apply NoDup_singleton]. intros x Hx ->%list_elem_of_singleton. done.
Qed.

Lemma assoc_app k l l' : assoc k (l ++ l') = match assoc k l with Some v => Some v | None => assoc k l' end.
Proof. induction l as [|[k' v] l IH]; [done|]. cbn. by case_decide. Qed.

Lemma assoc_set_prop k w k' l : assoc k' (set_prop k w l) = if decide (k = k') then Some w else assoc k' l.
Proof.
  unfold set_prop. case_bool_decide as Hk.
  - induction l as [|[a v] l IH]; [by apply elem_of_nil in Hk|]. cbn [fmap list_fmap fst snd].
    destruct (decide (a = k)) as [->|Ha].
    + cbn [assoc]. destruct (decide (k = k')) as [->|Hn]; [done|]. clear IH Hk.
      induction l as [|[a v'] l IH]; [done|]. cbn [fmap list_fmap fst snd]. destruct (decide (a = k)) as [->|]; cbn [assoc].
      * destruct (decide (k = k')); [done|apply IH].
      * destruct (decide (a = k')); [done|apply IH].
    + cbn [assoc]. destruct (decide (a = k')) as [->|]; [by destruct (decide (k = k')); congruence|]. apply IH.
      cbn in Hk. apply elem_of_cons in Hk as [->|Hk]; [done|exact Hk].
  - rewrite assoc_app. destruct (decide (k = k')) as [->|Hn].
    + apply assoc_None in Hk. rewrite Hk. cbn. by destruct (decide (k' = k')).
    + destruct (assoc k' l) eqn:E; [done|]. cbn. by destruct (decide (k = k')).
Qed.

(** ** Documents up to the order of properties *)

Definition primitive (v : value) : bool := match v with Arr _ | Obj _ => false | _ => true end.

Unset Elimination Schemes.
Inductive same_document : value -> value -> Prop :=
  | sd_primitive v : primitive v = true -> same_document v v
  | sd_array l l' : Forall2 same_document l l' -> same_document (Arr l) (Arr l')
  | sd_object l m l' :
      l ≡ₚ m -> Forall2 (fun a b => a.1 = b.1 /\ same_document a.2 b.2) m l' -> same_document (Obj l) (Obj l').
Set Elimination Schemes.

Lemma stable_primitive v : primitive v = true -> stable v = v.
Proof. by destruct v. Qed.

Lemma map_values_Permutation f l l' : l ≡ₚ l' -> map_values f l ≡ₚ map_values f l'.
Proof. intros H. by apply fmap_Permutation. Qed.

Lemma Forall2_elem {A B} (R : A -> B -> Prop) l l' : Forall2 R l l' -> Forall2 (fun a b => (a ∈ l /\ b ∈ l') /\ R a b) l l'.
Proof.
  induction 1 as [|x y l l' Hxy _ IH]; constructor; [split; [split; left|done]|].
  eapply Forall2_impl; [exact IH|]. intros a b [[? ?] ?]. split; [split; by right|done].
Qed.

Lemma Forall2_map_eq {A B C} (f : A -> C) (g : B -> C) l l' :
  Forall2 (fun a b => f a = g b) l l' <-> f <$> l = g <$> l'.
Proof.
  revert l'; induction l as [|x l IH]; intros [|y l']; rewrite ?fmap_cons; try (split; [intros H; inversion H|done]); [split; by constructor|].
  rewrite Forall2_cons, IH. split; [intros [H1 H2]; congruence|intros [= H1 H2]; done].
Qed.

Lemma stable_same v w : same_document v w -> wf v = true -> stable v = stable w.
Proof.
  revert w; induction v as [| | | | |l IH|l IH|] using value_ind; intros w Hs Hw;
    inversion Hs as [? Hp|? l' Hf|? m l' Hp Hf]; subst; try done.
  - simpl. f_equal. apply wf_Arr in Hw. clear Hs.
    induction Hf as [|x y l l' Hxy _ IHf]; [done|]. rewrite !fmap_cons.
    apply Forall_cons in IH as [IHx IH], Hw as [Hwx Hw]. f_equal; auto.
  - apply wf_Obj in Hw as (Hnd & _ & Hw). rewrite !stable_Obj.
    assert (Heq : map_values stable m = map_values stable l').
    { apply Forall2_elem in Hf. clear Hs. unfold map_values.
      assert (Hsub : forall a, a ∈ m -> a ∈ l) by (intros a; by rewrite Hp).
      apply Forall2_map_eq. eapply Forall2_impl; [exact Hf|]. intros [k1 v1] [k2 v2] [[Hin _] [Hk Hsd]]. simpl in *. subst.
      f_equal. rewrite Forall_forall in IH, Hw. apply Hsub in Hin.
      exact (IH _ Hin v2 Hsd (Hw _ Hin)). }
    rewrite <- Heq. f_equal. apply sort_canonical; [by apply map_values_Permutation|by rewrite keys_map_values].
Qed.

Lemma stable_shape_obj v l : stable v = Obj l -> exists l0, v = Obj l0.
Proof. destruct v; try done. eauto. Qed.

Lemma stable_shape_arr v l : stable v = Arr l -> exists l0, v = Arr l0 /\ stable <$> l0 = l.
Proof. destruct v as [| | | | |l0|l0|]; try done. intros [= <-]. eauto. Qed.

Lemma stable_distinguishes v w : stable v = stable w -> wf v = true -> wf w = true -> same_document v w.
Proof.
  revert w; induction v as [| | | | |l IH|l IH|] using value_ind; intros w He Hw Hw';
    try (symmetry in He; destruct w; try done; simpl in He; simplify_eq; by constructor).
  - symmetry in He. apply stable_shape_arr in He as (l0 & -> & He). constructor.
    apply wf_Arr in Hw, Hw'. symmetry in He. apply Forall2_map_eq, Forall2_elem in He.
    eapply Forall2_impl; [exact He|]. intros a b [[Ha Hb] Hab]. rewrite Forall_forall in IH, Hw, Hw'. by apply IH; auto.
  - apply wf_Obj in Hw as (Hnd & _ & Hw). destruct (stable_entries l Hnd) as (l1 & Hl1 & Hp1). rewrite Hl1 in He.
    symmetry in He. pose proof (stable_shape_obj _ _ He) as (l0 & ->). apply wf_Obj in Hw' as (Hnd' & _ & Hw').
    destruct (stable_entries l0 Hnd') as (l2 & Hl2 & Hp2). rewrite Hl2 in He. simplify_eq.
    assert (Hp : map_values stable l0 ≡ₚ map_values stable l) by (by rewrite <- Hp1, <- Hp2).
    apply Permutation_map_inv in Hp as (m & Hm & Hlm). apply (sd_object _ m); [done|].
    change (map_values stable l0 = map_values stable m) in Hm. symmetry in Hm.
    apply Forall2_map_eq, Forall2_elem in Hm. eapply Forall2_impl; [exact Hm|].
    intros [k1 v1] [k2 v2] [[Ha Hb] [= -> Hab]]. simpl in *. split; [done|].
    rewrite <- Hlm in Ha. rewrite Forall_forall in IH, Hw, Hw'.
    exact (IH _ Ha v2 Hab (Hw _ Ha) (Hw' _ Hb)).
Qed.

Lemma stable_idem v : wf v = true -> stable (stable v) = stable v.
Proof.
  induction v as [| | | | |l IH|l IH|] using value_ind; intros Hw; try done.
  - change (Arr (stable <$> (stable <$> l)) = Arr (stable <$> l)). apply (f_equal Arr). apply wf_Arr in Hw.
    rewrite <- list_fmap_compose. apply list_fmap_ext.
    intros i x Hx%list_elem_of_lookup_2. rewrite Forall_forall in IH, Hw. simpl. auto.
  - apply wf_Obj in Hw as (Hnd & _ & Hw). destruct (stable_entries l Hnd) as (l1 & Hl1 & Hp1). rewrite Hl1.
    rewrite stable_Obj. rewrite <- Hl1, stable_Obj. f_equal. symmetry. apply sort_canonical; [|by rewrite keys_map_values].
    rewrite (map_values_Permutation stable _ _ Hp1). apply Permutation_refl'.
    change (map_values stable l = map_values stable (map_values stable l)).
    unfold map_values. rewrite <- list_fmap_compose. apply list_fmap_ext. intros i [k x] Hx%list_elem_of_lookup_2. simpl.
    f_equal. rewrite Forall_forall in IH, Hw. symmetry. apply (IH _ Hx). by apply (Hw _ Hx).
Qed.

(** ** Redaction *)

(** Every credential field of the document holds the placeholder. *)
Fixpoint secretsHidden (v : value) : bool :=
  match v with
  | Arr l => forallb secretsHidden l
  | Obj l => forallb (fun kv => if credentialField kv.1 [] then bool_decide (kv.2 = redacted) else secretsHidden kv.2) l
  | _ => true
  end.

(** No field of the document is a credential field. *)
Fixpoint credentialFree (v : value) : bool :=
  match v with
  | Arr l => forallb credentialFree l
  | Obj l => forallb (fun kv => negb (credentialField kv.1 []) && credentialFree kv.2) l
  | _ => true
  end.

Definition redact_entry (kv : jstr * value) : jstr * value :=
  (kv.1, if credentialField kv.1 [] then redacted else redact kv.2).

Lemma redact_Obj l : redact (Obj l) = from_entries (redact_entry <$> l).
Proof. done. Qed.

Lemma keys_redact l : keys (redact_entry <$> l) = keys l.
Proof. unfold keys. by rewrite <- list_fmap_compose. Qed.

Lemma redact_hides v : wf v = true -> secretsHidden (redact v) = true.
Proof.
  induction v as [| | | | |l IH|l IH|] using value_ind; intros Hw; try done.
  - simpl. apply wf_Arr in Hw. apply forallb_forall. intros x (y & -> & Hy)%list_elem_of_In%list_elem_of_fmap.
    rewrite Forall_forall in IH, Hw. auto.
  - apply wf_Obj in Hw as (Hnd & He & Hw). rewrite redact_Obj.
    rewrite from_entries_id by (by rewrite keys_redact). simpl. apply forallb_forall.
    intros x ([k y] & -> & Hy)%list_elem_of_In%list_elem_of_fmap. simpl.
    destruct (credentialField k []); [by apply bool_decide_eq_true|].
    rewrite Forall_forall in IH, Hw. apply (IH _ Hy), (Hw _ Hy).
Qed.

Lemma redact_clean v : wf v = true -> credentialFree v = true -> redact v = v.
Proof.
  induction v as [| | | | |l IH|l IH|] using value_ind; intros Hw Hc; try done.
  - simpl in *. f_equal. apply wf_Arr in Hw. rewrite forallb_forall in Hc.
    transitivity (id <$> l); [|apply list_fmap_id]. apply list_fmap_ext. intros i x Hx%list_elem_of_lookup_2.
    rewrite Forall_forall in IH, Hw. apply IH; [done|auto|]. apply Hc. by apply list_elem_of_In.
  - apply wf_Obj in Hw as (Hnd & He & Hw). rewrite redact_Obj. simpl in Hc. rewrite forallb_forall in Hc.
    assert (Hid : redact_entry <$> l = l).
    { transitivity (id <$> l); [|apply list_fmap_id]. apply list_fmap_ext. intros i [k x] Hx%list_elem_of_lookup_2.
      rewrite Forall_forall in IH, Hw. pose proof (Hc _ (proj1 (list_elem_of_In _ _) Hx)) as [Hk Hcx]%andb_true_iff.
      unfold redact_entry. simpl in *. apply negb_true_iff in Hk. rewrite Hk. f_equal.
      apply (IH _ Hx); [apply (Hw _ Hx)|done]. }
    rewrite Hid. by apply from_entries_id.
Qed.

(** ** Properties *)

(** C7: [stable] computes a canonical form: two documents become equal exactly
    when they differ in the order of object properties only, so the recorded
    digest of the deployment values depends on nothing else; and it is
    idempotent. *)
Theorem stable_canonical v w :
  wf v = true -> wf w = true ->
  (stable v = stable w <-> same_document v w) /\ stable (stable v) = stable v.
Proof.
  intros Hv Hw. split; [split; intros; [by apply stable_distinguishes|by apply stable_same]|by apply stable_idem].
Qed.

Lemma stable_canonical_witness :
  let v := Obj [(js "b", Number (int 1)); (js "a", Arr [Null])] in
  let w := Obj [(js "a", Arr [Null]); (js "b", Number (int 1))] in
  stable v = w /\ stable (stable v) = stable v /\ same_document v w.
Proof.
  intros v w. destruct (stable_canonical v w) as [Hiff Hid]; [vm_compute; reflexivity..|].
  assert (Hs : stable v = w) by (vm_compute; reflexivity).
  split; [exact Hs|]. split; [exact Hid|]. apply Hiff. vm_compute. reflexivity.
Defined.

(** in a redacted document every field whose name is that of a credential
    (and not of a reference to a Secret) holds the placeholder, at every depth
    and inside arrays; a document without such fields is returned unchanged. *)
Theorem redact_hides_credentials v :
  wf v = true -> secretsHidden (redact v) = true /\ (credentialFree v = true -> redact v = v).
Proof. intros Hw. split; [by apply redact_hides|by apply redact_clean]. Qed.

Lemma redact_hides_credentials_witness :
  let v := Obj [(js "redis", Arr [Obj [(js "password", Str (js "hunter2")); (js "passwordKey", Str (js "pw"))]])] in
  secretsHidden v = false /\ secretsHidden (redact v) = true.
Proof.
  intros v. split; [vm_compute; reflexivity|]. apply (redact_hides_credentials v). vm_compute. reflexivity.
Defined.
