(* ===== verification/ContractProps.v ===== *)
(** * What a validated configuration guarantees

    [validateConfiguration] returning no problem gives the facts the rest of
    scripts/lib/bootstrap-contract.mjs relies on: release names that Helm and
    Kubernetes accept, rendering and planning that do not throw, the
    requirements of the HA topology, and the absence of inline credentials. *)

From stdpp Require Import base tactics option list numbers strings.
From Stdlib Require Import ZArith QArith NArith Lia.
From S2P Require Import Prelude JsString JsNumber JsValue Regex ContractPatterns Contract ContractPlan ContractExamples.

Open Scope Z_scope.

(** ** Reading problem lists *)

Lemma when_nil b p m : when b p m = [] <-> b = false.
Proof. by destruct b. Qed.

Lemma requireRecord_nil v p : requireRecord v p = [] <-> isRecord v = true.
Proof. unfold requireRecord. rewrite when_nil. apply negb_false_iff. Qed.

Lemma record_id v : isRecord v = true -> record v = v.
Proof. unfold record. by intros ->. Qed.

Lemma requireString_nil v p pattern ae :
  requireString v p pattern ae = [] ->
  exists s, v = Str s /\ (ae = false -> s <> []) /\ (forall r, pattern = Some r -> s = [] \/ test r s = true).
Proof.
  unfold requireString. destruct v as [| | | |s| | |]; try done. exists s. split; [done|].
  destruct ae; simpl in *.
  - split; [done|]. intros r ->. rewrite when_nil in H. destruct (decide (s = [])); [by left|right].
    rewrite bool_decide_true in H by done. by destruct (test r s).
  - case_bool_decide as Hs; [done|]. split; [done|]. intros r ->. rewrite when_nil in H.
    rewrite bool_decide_true in H by done. right. by destruct (test r s).
Qed.

(** Splits a concatenation of problem lists that is empty. *)
Ltac split_nil H :=
  repeat match type of H with
  | _ ++ _ = [] => let H' := fresh "V" in apply app_eq_nil in H as [H' H]
  end.

Lemma isRecord_nullish v : isRecord v = true -> isNullish v = false.
Proof. by destruct v. Qed.

(** ** DNS labels *)

Definition isLowerDigit (c : N) : Prop := in_class false [lower_r; digit_r] c = true.
Definition isLowerDigitDash (c : N) : Prop := in_class false (units (js "-") ++ [lower_r; digit_r]) c = true.

Lemma lowerDigit_dash c : isLowerDigit c -> isLowerDigitDash c.
Proof.
  unfold isLowerDigit, isLowerDigitDash, in_class. rewrite existsb_app, !xorb_false_l. intros ->. apply orb_true_r.
Qed.

Lemma lowerDigitDash_dot c : isLowerDigitDash c -> in_class true [(10, 10); (13, 13); (8232, 8233)]%N c = true.
Proof.
  unfold isLowerDigitDash, in_class, units, lower_r, digit_r. change (js "-") with [45%N]. simpl.
  rewrite !orb_true_iff, !andb_true_iff, !N.leb_le. intros H.
  repeat match goal with |- context [(?a <=? ?b)%N] => destruct (N.leb_spec a b) end; simpl; try done; lia.
Qed.

(** Strings that start and end with a letter or digit and contain only those and dashes. *)
Lemma label_intro (c d : N) (m : jstr) :
  isLowerDigit c -> isLowerDigit d -> Forall isLowerDigitDash m -> (length m <= 61)%nat -> lang dnsLabel (c :: m ++ [d]).
Proof.
  intros Hc Hd Hm Hl. split.
  - apply lang_rep_cls; [lia|]. split; [simpl; rewrite length_app; simpl; lia|].
    constructor; [by apply lowerDigitDash_dot, lowerDigit_dash|]. apply Forall_app. split.
    + eapply Forall_impl; [exact Hm|]. apply lowerDigitDash_dot.
    + apply Forall_singleton. by apply lowerDigitDash_dot, lowerDigit_dash.
  - exists [c], (m ++ [d]). split; [done|]. split; [by exists c|]. right.
    exists m, [d]. split; [done|]. split; [by apply lang_star_cls|by exists d].
Qed.

(** A string of letters, digits and dashes with a last letter or digit. *)
Definition ends_well (s : jstr) : Prop := exists m d, s = m ++ [d] /\ Forall isLowerDigitDash m /\ isLowerDigit d.

Lemma ends_well_app s t : Forall isLowerDigitDash s -> ends_well t -> ends_well (s ++ t).
Proof.
  intros Hs (m & d & -> & Hm & Hd). exists (s ++ m), d. rewrite app_assoc. split; [done|]. split; [|done]. by apply Forall_app.
Qed.

Lemma ends_well_all s : ends_well s -> Forall isLowerDigitDash s.
Proof. intros (m & d & -> & Hm & Hd). apply Forall_app. split; [done|]. apply Forall_singleton. by apply lowerDigit_dash. Qed.

Lemma plus_lowerDigit_ends s : lang (plus lowerDigit) s -> ends_well s.
Proof.
  intros [Hn Hf]%lang_plus_cls. destruct (exists_last Hn) as (s' & c & ->). apply Forall_app in Hf as [H1 H2].
  exists s', c. split; [done|]. apply Forall_cons in H2 as [H2 _]. split; [|exact H2].
  eapply Forall_impl; [exact H1|]. apply lowerDigit_dash.
Qed.

Lemma dash_lowerDigitDash : Forall isLowerDigitDash (js "-").
Proof. by repeat constructor. Qed.

Lemma suffix_ends s : lang (Cat (plus lowerDigit) (Star (Cat (lit (js "-")) (plus lowerDigit)))) s -> ends_well s.
Proof.
  intros (u & v & -> & Hu%plus_lowerDigit_ends & (l & -> & Hl)). revert u Hu.
  induction Hl as [|w l (a & b & -> & ->%lang_lit & Hb%plus_lowerDigit_ends) _ IH]; intros u Hu; [by rewrite app_nil_r|].
  change (concat ((js "-" ++ b) :: l)) with ((js "-" ++ b) ++ concat l). rewrite app_assoc. apply IH. apply ends_well_app; [by apply ends_well_all|]. by apply ends_well_app; [apply dash_lowerDigitDash|].
Qed.

Lemma ends_well_label c s :
  isLowerDigit c -> ends_well s -> (length s <= 62)%nat -> test dnsLabel (c :: s) = true.
Proof.
  intros Hc (m & d & -> & Hm & Hd) Hl. rewrite length_app in Hl. simpl in Hl. apply test_spec. apply label_intro; [done..|lia].
Qed.

(** ** Release names *)

Section validated.
Context (isIP : jstr -> Z) (newURL : value -> option Url) (config : value).
Context (Hvalid : validateConfiguration isIP newURL config = []).

(** The problem list of each section is empty, and the input is an object. *)
Record sections_valid : Prop := {
  sv_record : isRecord config = true;
  sv_environment : validateEnvironment (get (js "environment") config) = [];
  sv_naming : validateNaming (get (js "naming") config) = [];
  sv_kubernetes : validateKubernetes (get (js "kubernetes") config) = [];
  sv_redis : validateRedis isIP (get (js "redis") config) = [];
  sv_ingress : validateIngress newURL (get (js "ingress") config) = [];
  sv_observability : validateObservability isIP newURL (get (js "observability") config) = [];
  sv_resources : validateResources (get (js "resources") config) = [];
  sv_topology : validateTopology (get (js "topology") config) (get (js "kubernetes") config) (get (js "redis") config) = [];
  sv_networking : validateNetworking isIP (get (js "networking") config) (get (js "ingress") config) = [];
  sv_secrets : rejectInlineSecrets config (js "$") = [];
}.

Lemma validated_sections : sections_valid.
Proof.
  pose proof Hvalid as H. unfold validateConfiguration in H. cbv zeta in H.
  apply app_eq_nil in H as [H0 H]. apply requireRecord_nil in H0. rewrite (record_id config H0) in H.
  split_nil H. by constructor.
Qed.

Lemma environment_name :
  exists s, at2 (js "environment") (js "name") config = Str s /\ lang environmentName s /\
    isRecord (get (js "environment") config) = true.
Proof.
  pose proof (sv_environment validated_sections) as H. unfold validateEnvironment in H. cbv zeta in H.
  apply app_eq_nil in H as [H0 H]. apply requireRecord_nil in H0. rewrite (record_id _ H0) in H.
  split_nil H. apply requireString_nil in V0 as (s & Hs & Hne & Hp). exists s. split; [done|]. split; [|done].
  destruct (Hp _ eq_refl) as [->|Ht]; [by destruct Hne|by apply test_spec].
Qed.

Lemma naming_suffix :
  exists s, at2 (js "naming") (js "suffix") config = Str s /\ (s = [] \/ (ends_well s /\ (length s <= 27)%nat)) /\
    isRecord (get (js "naming") config) = true.
Proof.
  pose proof (sv_naming validated_sections) as H. unfold validateNaming in H. cbv zeta in H.
  apply app_eq_nil in H as [H0 H]. apply requireRecord_nil in H0. rewrite (record_id _ H0) in H.
  split_nil H. apply requireString_nil in H as (s & Hs & _ & Hp). exists s. split; [done|]. split; [|done].
  destruct (Hp _ eq_refl) as [->|Ht]; [by left|]. apply test_spec in Ht as [->|[Hl Hs']]; [by left|right].
  split; [by apply suffix_ends|]. apply lang_rep_cls in Hl; [lia|lia].
Qed.
End validated.

(** The release name of an environment and an application. *)
Lemma release_label env app :
  lang environmentName env -> ends_well app -> (length app <= 36)%nat ->
  test dnsLabel (env ++ js "-" ++ app) = true /\ test dnsLabel ((env ++ js "-" ++ app) ++ js "-redis") = true /\
  (length ((env ++ js "-" ++ app) ++ js "-redis") <= 53)%nat.
Proof.
  intros [He1 He2]%lang_rep_cls Happ Hl; [|lia]. destruct env as [|c env]; [simpl in He1; lia|].
  apply Forall_cons in He2 as [Hc He]. simpl in He1.
  assert (Henv : Forall isLowerDigitDash env) by (eapply Forall_impl; [exact He|]; intros x; apply lowerDigit_dash).
  assert (Hw : ends_well (env ++ js "-" ++ app)) by (apply ends_well_app; [done|]; by apply ends_well_app; [apply dash_lowerDigitDash|]).
  assert (Hr : ends_well (js "-redis")) by (exists (js "-redi"), 115%N; by repeat constructor).
  split; [|split].
  - apply ends_well_label; [done|done|]. rewrite !length_app. change (length (js "-")) with 1%nat. lia.
  - apply (ends_well_label c ((env ++ js "-" ++ app) ++ js "-redis")); [done| |].
    + apply ends_well_app; [by apply ends_well_all|done].
    + rewrite !length_app. change (length (js "-")) with 1%nat. change (length (js "-redis")) with 6%nat. lia.
  - rewrite !length_app. cbn [length]. change (length (js "-")) with 1%nat. change (length (js "-redis")) with 6%nat. lia.
Qed.

Lemma releaseNames_ok isIP newURL config :
  validateConfiguration isIP newURL config = [] ->
  exists n, releaseNames config = Ok n /\ test dnsLabel (release n) = true /\ test dnsLabel (redisRelease n) = true /\
    (length (redisRelease n) <= 53)%nat.
Proof.
  intros Hv. destruct (environment_name isIP newURL config Hv) as (env & He & Hel & Her).
  destruct (naming_suffix isIP newURL config Hv) as (suf & Hs & Hsuf & Hsr).
  pose proof (sv_record _ _ _ (validated_sections isIP newURL config Hv)) as Hr.
  unfold releaseNames. unfold reads_all, reads.
  rewrite (proj2 (negb_true_iff _) (isRecord_nullish _ Hr)), (proj2 (negb_true_iff _) (isRecord_nullish _ Hsr)), (proj2 (negb_true_iff _) (isRecord_nullish _ Her)).
  cbn [ensure mbind result_bind]. rewrite He, Hs. cbn [str_of].
  set (app := if truthy (Str suf) then js "realtime-" ++ suf else js "realtime").
  assert (Happ : ends_well app /\ (length app <= 36)%nat).
  { unfold app. destruct suf as [|c suf]; cbn [truthy].
    - split; [exists (js "realtim"), 101%N; by repeat constructor|vm_compute; lia].
    - destruct Hsuf as [[=]|[Hw Hl]]. split; [|rewrite length_app; change (length (js "realtime-")) with 9%nat; lia].
      apply ends_well_app; [by repeat constructor|done]. }
  destruct Happ as [Hw Hl]. destruct (release_label env app Hel Hw Hl) as (H1 & H2 & H3).
  rewrite bool_decide_false, bool_decide_false; [|lia|rewrite length_app in H3; lia].
  cbn [orb]. eexists. split; [reflexivity|]. done.
Qed.

(** ** Rendering and planning *)

(** The first entry of every section is its [requireRecord]. *)
Ltac section_record H :=
  cbv zeta in H; apply app_eq_nil in H as [H _]; by apply requireRecord_nil in H.

Section sections.
Context (isIP : jstr -> Z) (newURL : value -> option Url) (config : value).
Context (Hvalid : validateConfiguration isIP newURL config = []).

Record records_valid : Prop := {
  rv_kubernetes : isRecord (get (js "kubernetes") config) = true;
  rv_redis : isRecord (get (js "redis") config) = true;
  rv_ingress : isRecord (get (js "ingress") config) = true;
  rv_observability : isRecord (get (js "observability") config) = true;
  rv_resources : isRecord (get (js "resources") config) = true;
  rv_networking : isRecord (get (js "networking") config) = true;
}.

Lemma validated_records : records_valid.
Proof.
  destruct (validated_sections isIP newURL config Hvalid) as [_ _ _ Hk Hr Hi Ho Hres _ Hn _]. constructor.
  - unfold validateKubernetes in Hk. section_record Hk.
  - unfold validateRedis in Hr. section_record Hr.
  - unfold validateIngress in Hi. section_record Hi.
  - unfold validateObservability in Ho. section_record Ho.
  - unfold validateResources in Hres. section_record Hres.
  - unfold validateNetworking in Hn. section_record Hn.
Qed.

Lemma validated_otlp_labels :
  isRecord (at2 (js "observability") (js "otlpEgressNamespaceLabels") config) = true /\
  isRecord (at2 (js "observability") (js "otlpEgressPodLabels") config) = true.
Proof.
  pose proof (sv_observability _ _ _ (validated_sections isIP newURL config Hvalid)) as H.
  unfold validateObservability in H. cbv zeta in H. rewrite (record_id _ (rv_observability validated_records)) in H.
  split_nil H. repeat match goal with V : requireRecord _ _ = [] |- _ => apply requireRecord_nil in V end.
  unfold at2. split; assumption.
Qed.

(** What [validateRedis] says about the mode it is in. *)
Lemma validated_redis :
  one_of [js "external"; js "managed"] (at2 (js "redis") (js "mode") config) = true /\
  (at2 (js "redis") (js "mode") config = Str (js "external") ->
     is_Some (parseRedisEndpoint isIP (at2 (js "redis") (js "externalEndpoint") config)) /\
     exists c cs, at2 (js "redis") (js "externalEgressCidrs") config = Arr (c :: cs) /\ forallb (isCidr isIP) (c :: cs) = true) /\
  (at2 (js "redis") (js "mode") config = Str (js "managed") ->
     at2 (js "redis") (js "tls") config = Boolean false /\
     at2 (js "redis") (js "credentialKey") config <> at2 (js "redis") (js "adminCredentialKey") config /\
     isRecord (at2 (js "redis") (js "managedImages") config) = true).
Proof.
  pose proof (sv_redis _ _ _ (validated_sections isIP newURL config Hvalid)) as H.
  unfold validateRedis in H. cbv zeta in H. rewrite (record_id _ (rv_redis validated_records)) in H.
  split_nil H. repeat match goal with V : when _ _ _ = [] |- _ => apply when_nil in V end.
  unfold at2. split; [by apply negb_false_iff|]. split; intros Hm; rewrite Hm in *.
  - change (is_str (js "external") (Str (js "external"))) with true in *. cbn [andb] in *.
    split; [bool_to_prop; done|].
    repeat match goal with V : negb _ = false |- _ => apply negb_false_iff in V end.
    unfold requireAll in *. destruct (get (js "externalEgressCidrs") _) as [| | | | |l| |]; try done.
    cbn [isArray items_of andb] in *. destruct l as [|c cs]; [done|]. by exists c, cs.
  - change (is_str (js "managed") (Str (js "managed"))) with true in *. cbn [andb] in *.
    repeat match goal with V : requireRecord _ _ = [] |- _ => apply requireRecord_nil in V end. split; [|split]; [| |done].
    + destruct (get (js "tls") _) as [| |b| | | | |]; try done. by destruct b.
    + intros Heq. rewrite Heq in *. 
      match goal with V : requireString (get (js "adminCredentialKey") _) _ _ _ = [] |- _ => apply requireString_nil in V as (s & Hs & _) end.
      rewrite Hs in *. match goal with V : strict_eq _ _ = false |- _ => simpl in V; by rewrite bool_decide_true in V end.
Qed.
End sections.

Lemma reads_record v : isRecord v = true -> reads v = Ok tt.
Proof. by destruct v. Qed.

Lemma reads_all_records l : Forall (fun v => isRecord v = true) l -> reads_all l = Ok tt.
Proof. induction 1 as [|v l Hv _ IH]; [done|]. simpl. rewrite reads_record by done. exact IH. Qed.

(** A profile as shipped: an object with [gateway] and [redis] objects. *)
Definition profile_ok (profile : value) : Prop :=
  isRecord profile = true /\ isRecord (get (js "gateway") profile) = true /\ isRecord (get (js "redis") profile) = true.

Section planning.
Context (isIP : jstr -> Z) (newURL : value -> option Url) (config profile : value).
Context (Hvalid : validateConfiguration isIP newURL config = []) (Hprofile : profile_ok profile).

Lemma redisPort_ok : exists p, redisPort isIP config = Ok p.
Proof.
  destruct (validated_redis isIP newURL config Hvalid) as (_ & Hext & _). unfold redisPort.
  destruct (is_str _ _) eqn:Hm; [|by eexists]. apply is_str_spec in Hm. destruct (Hext Hm) as [[[h p] Hp] _]. rewrite Hp. by eexists.
Qed.

Lemma renderValues_ok : exists v, renderValues isIP config profile = Ok v.
Proof.
  destruct (releaseNames_ok isIP newURL config Hvalid) as (n & Hn & _).
  destruct redisPort_ok as (p & Hp). destruct Hprofile as (Hp1 & Hp2 & _).
  destruct (validated_records isIP newURL config Hvalid) as [_ Hr Hi Ho Hres Hnet].
  destruct (validated_otlp_labels isIP newURL config Hvalid) as [Hl1 Hl2].
  unfold renderValues. rewrite Hn. cbn [mbind result_bind]. cbv zeta.
  rewrite reads_all_records by (repeat (apply Forall_cons_2; [assumption|]); constructor).
  cbn [mbind result_bind]. rewrite Hp. cbn [mbind result_bind]. by eexists.
Qed.

Lemma renderManagedRedis_ok : exists v, renderManagedRedis config profile = Ok v.
Proof.
  destruct (releaseNames_ok isIP newURL config Hvalid) as (n & Hn & _). destruct Hprofile as (Hp1 & _ & Hp2).
  destruct (validated_records isIP newURL config Hvalid) as [Hk Hr _ _ Hres _].
  destruct (validated_redis isIP newURL config Hvalid) as (_ & _ & Hman).
  unfold renderManagedRedis. rewrite reads_record by done. cbn [mbind result_bind].
  destruct (is_str (js "managed") _) eqn:Hm; cbn [negb]; [|by eexists].
  apply is_str_spec in Hm. destruct (Hman Hm) as (_ & _ & Himg).
  rewrite Hn. cbn [mbind result_bind]. cbv zeta.
  rewrite reads_all_records by (repeat (apply Forall_cons_2; [assumption|]); constructor). by eexists.
Qed.

Lemma buildPlan_ok jsonText sha256 action o :
  action ∈ actions -> exists plan, buildPlan isIP jsonText sha256 action config profile o = Ok plan.
Proof.
  intros Ha. destruct (releaseNames_ok isIP newURL config Hvalid) as (n & Hn & _).
  destruct renderValues_ok as (v & Hv). destruct renderManagedRedis_ok as (m & Hm).
  destruct (validated_records isIP newURL config Hvalid) as [Hk _ _ _ _ _].
  unfold buildPlan. rewrite (proj2 (memb_spec action actions)) by done. cbn [negb].
  rewrite Hn. cbn [mbind result_bind]. rewrite Hv. cbn [mbind result_bind]. rewrite Hm. cbn [mbind result_bind].
  rewrite reads_all_records by (by repeat constructor). cbn [mbind result_bind]. by eexists.
Qed.
End planning.

(** ** The HA topology *)

Lemma failureDomains_ha k r :
  validateTopology (Str (js "ha")) k r = [] -> validateKubernetes k = [] ->
  exists q, get (js "failureDomains") k = Number (Fin q) /\ isInteger (Fin q) = true /\ (3 <= q)%Q.
Proof.
  unfold validateTopology, validateKubernetes. cbv zeta. intros Ht Hk. split_nil Ht. split_nil Hk.
  repeat match goal with V : requireRecord _ _ = [] |- _ => apply requireRecord_nil in V end.
  match goal with V : isRecord k = true |- _ => rewrite (record_id _ V) in * end.
  repeat match goal with V : when _ _ _ = [] |- _ => apply when_nil in V end.
  apply orb_false_iff in Hk as [Hi%negb_false_iff _].
  destruct (get (js "failureDomains") k) as [| | |n| | | |]; try done. simpl in Hi.
  destruct n as [| |q]; try done. exists q. split; [done|]. split; [done|].
  match goal with V : is_str _ (Str _) && nlt _ _ = false |- _ =>
    change (is_str (js "ha") (Str (js "ha"))) with true in V; simpl in V; apply negb_false_iff in V; by apply Qle_bool_iff in V end.
Qed.

(** ** Inline secrets *)

(** The value reached from [v] through the properties [ks]. *)
Definition descend (v : value) (ks : list jstr) : value := foldl (fun v k => get k v) v ks.

Lemma descend_undefined ks : descend Undefined ks = Undefined.
Proof. induction ks; [done|]. exact IHks. Qed.

Lemma descend_other v ks key : isRecord v = false -> has key (descend v ks) = false.
Proof.
  intros H. destruct ks as [|k ks]; [by destruct v|].
  change (descend v (k :: ks)) with (descend (get k v) ks).
  replace (get k v) with Undefined by (by destruct v). by rewrite descend_undefined.
Qed.

Lemma rejectInlineSecrets_spec v p ks key :
  rejectInlineSecrets v p = [] -> has key (descend v ks) = true -> credentialField key (foldl child p ks) = false.
Proof.
  revert p ks; induction v as [| | | | |l IH|l IH|] using value_ind; intros p ks H;
    try (by rewrite descend_other).
  assert (Hl : forall k c, (k, c) ∈ l -> credentialField k p = false /\ rejectInlineSecrets c (child p k) = []).
  { cbn [rejectInlineSecrets] in H. clear IH. induction l as [|[k' c'] l IHl]; [intros ? ? []%not_elem_of_nil|].
    apply app_eq_nil in H as [H1%when_nil H]. apply app_eq_nil in H as [H2 H]. intros k c [?|?]%elem_of_cons; simplify_eq; auto. }
  destruct ks as [|k ks].
  - unfold has. intros Ha%bool_decide_eq_true. destruct Ha as [c Ha]. apply assoc_Some_elem in Ha. by destruct (Hl _ _ Ha).
  - change (descend (Obj l) (k :: ks)) with (descend (default Undefined (assoc k l)) ks).
    change (foldl child p (k :: ks)) with (foldl child (child p k) ks).
    destruct (assoc k l) as [c|] eqn:Ha; [|by rewrite descend_other].
    apply assoc_Some_elem in Ha. rewrite Forall_forall in IH. destruct (Hl _ _ Ha) as [_ Hc].
    exact (IH _ Ha (child p k) ks Hc).
Qed.

(** ** Properties *)

(** for a configuration without problems the Helm release names are always
    derived, the two releases are DNS labels, and the longer one fits the
    53-character limit of Helm: the limits on the environment name (10) and the
    suffix (27) leave exactly enough room. *)
Theorem release_names_valid isIP newURL config :
  validateConfiguration isIP newURL config = [] ->
  exists n, releaseNames config = Ok n /\ test dnsLabel (release n) = true /\ test dnsLabel (redisRelease n) = true /\
    (length (redisRelease n) <= 53)%nat.
Proof. apply releaseNames_ok. Qed.

Lemma release_names_valid_witness :
  validateConfiguration sample_isIP sample_newURL haConfig = [] /\ exists n, releaseNames haConfig = Ok n.
Proof.
  assert (H : validateConfiguration sample_isIP sample_newURL haConfig = []) by (vm_compute; reflexivity).
  split; [exact H|]. destruct (release_names_valid sample_isIP sample_newURL haConfig H) as (n & Hn & _). exists n. exact Hn.
Defined.

(** C5: for a configuration without problems and a well-formed profile,
    [buildPlan] succeeds for every supported action: no property read fails and
    the port of an external Redis endpoint is always there. *)
Theorem validated_plan_total isIP newURL jsonText sha256 config profile action o :
  validateConfiguration isIP newURL config = [] -> profile_ok profile -> action ∈ actions ->
  exists plan, buildPlan isIP jsonText sha256 action config profile o = Ok plan.
Proof. intros. by eapply buildPlan_ok. Qed.

Lemma validated_plan_total_witness :
  exists plan, buildPlan sample_isIP (fun _ => []) (fun s => s) (js "install") haConfig haProfile
    {| previousTopology := Undefined; dryRun := Undefined; timeoutSeconds := Undefined |} = Ok plan.
Proof.
  apply (validated_plan_total sample_isIP sample_newURL).
  - vm_compute. reflexivity.
  - split; [reflexivity|]. split; reflexivity.
  - apply memb_spec. reflexivity.
Defined.

(** a configuration without problems that selects the HA topology has at
    least three failure domains, and if its Redis is external, an endpoint that
    parses, explicit egress CIDRs and the confirmation that the service is
    itself highly available; a managed Redis has TLS off and distinct keys for
    the administrator and the restricted user. *)
Theorem ha_requirements isIP newURL config :
  validateConfiguration isIP newURL config = [] -> get (js "topology") config = Str (js "ha") ->
  (exists q, at2 (js "kubernetes") (js "failureDomains") config = Number (Fin q) /\ isInteger (Fin q) = true /\ (3 <= q)%Q) /\
  (at2 (js "redis") (js "mode") config = Str (js "external") ->
     is_Some (parseRedisEndpoint isIP (at2 (js "redis") (js "externalEndpoint") config)) /\
     at2 (js "redis") (js "externalHaConfirmed") config = Boolean true) /\
  (at2 (js "redis") (js "mode") config = Str (js "managed") ->
     at2 (js "redis") (js "tls") config = Boolean false /\
     at2 (js "redis") (js "credentialKey") config <> at2 (js "redis") (js "adminCredentialKey") config).
Proof.
  intros Hv Ht. destruct (validated_sections isIP newURL config Hv) as [_ _ _ Hk _ _ _ _ Htop _ _].
  destruct (validated_redis isIP newURL config Hv) as (_ & Hext & Hman).
  rewrite Ht in Htop. split; [by eapply failureDomains_ha|]. split.
  - intros Hm. split; [by apply Hext|]. unfold validateTopology in Htop. cbv zeta in Htop.
    rewrite (record_id _ (rv_redis _ (validated_records isIP newURL config Hv))) in Htop.
    unfold at2 in Hm. rewrite Hm in Htop. split_nil Htop. apply when_nil in Htop.
    change (is_str (js "ha") (Str (js "ha"))) with true in Htop.
    change (is_str (js "external") (Str (js "external"))) with true in Htop. cbn [andb] in Htop.
    apply negb_false_iff in Htop. unfold at2. destruct (get (js "externalHaConfirmed") _) as [| |b| | | | |]; try done. by destruct b.
  - intros Hm. by destruct (Hman Hm) as (H1 & H2 & _).
Qed.

Lemma ha_requirements_witness :
  exists q, at2 (js "kubernetes") (js "failureDomains") haConfig = Number (Fin q) /\ (3 <= q)%Q.
Proof.
  destruct (ha_requirements sample_isIP sample_newURL haConfig) as ((q & Hq & _ & H3) & _).
  - vm_compute. reflexivity.
  - reflexivity.
  - exists q. split; [exact Hq|exact H3].
Defined.

(** Names of credentials and of references to Secrets, in lower case. *)
Definition credentialSuffixes : list jstr :=
  js <$> ["password"; "token"; "secret"; "credential"; "privatekey"; "private-key"; "private_key"; "apikey"; "api-key"; "api_key";
          "authorization"; "cookie"; "passwords"; "tokens"; "secrets"; "credentials"; "privatekeys"; "private-keys"; "private_keys";
          "apikeys"; "api-keys"; "api_keys"; "authorizations"; "cookies"]%string.
Definition secretReferenceNames : list jstr :=
  js <$> ["existingsecret"; "usersecret"; "credentialssecret"; "otlpheaderssecret"; "headerssecret"; "scrapetokensecret";
          "operatortokensecret"; "connectionsecret"; "workertokensecret"; "webhooksecret"; "managedimagepullsecrets"; "imagepullsecrets"]%string.

Definition lowered (s : jstr) : jstr := (fun c => if (65 <=? c)%N && (c <=? 90)%N then (c + 32)%N else c) <$> s.

(** A name that ends, in any case of its letters, in a credential word. *)
Definition credentialNamed (key : jstr) : Prop := exists w, w ∈ credentialSuffixes /\ suffix w (lowered key).

Lemma lang_unit_i c x : lang (unit_i c) x <-> lowered x = lowered [c].
Proof.
  assert (lang (unit_i c) x <-> exists d, x = [d] /\ lowered [d] = lowered [c]) as ->; [|split].
  - unfold unit_i, unit_re, lowered. cbn [fmap list_fmap].
    destruct ((97 <=? c)%N && (c <=? 122)%N) eqn:E1; [|destruct ((65 <=? c)%N && (c <=? 90)%N) eqn:E2]; cbn [lang];
      (split; [intros (d & -> & Hd); exists d; split; [done|]; unfold in_class in Hd; cbn in Hd|
               intros (d & -> & [= Hd]); exists d; split; [done|]; unfold in_class; cbn]);
      repeat match goal with |- context[(?a <=? ?b)%N] => destruct (N.leb_spec a b); cbn in * |
                             H : context[(?a <=? ?b)%N] |- _ => destruct (N.leb_spec a b); cbn in * end; try done; try (f_equal; lia); lia.
  - intros (d & -> & H). exact H.
  - intros H. destruct x as [|d [|? ?]]; try done. by exists d.
Qed.

Lemma lang_lit_i s x : lang (lit_i s) x <-> lowered x = lowered s.
Proof.
  revert x. induction s as [|c s IH]; intros x.
  - cbn. split; [by intros ->|]. intros H. by apply fmap_nil_inv in H.
  - change (lit_i (c :: s)) with (Cat (unit_i c) (lit_i s)). cbn [lang]. split.
    + intros (u & v & -> & Hu%lang_unit_i & Hv%IH). unfold lowered in *. by rewrite fmap_app, Hu, Hv.
    + intros H. destruct x as [|d x]; [done|]. exists [d], x. split; [done|]. injection H as Hd Hx.
      split; [apply lang_unit_i; unfold lowered; cbn; by f_equal|by apply IH].
Qed.

(** A pattern whose classes do not tell the cases of a letter apart. *)
Fixpoint caseless (r : re) : bool :=
  match r with
  | Empty | Eps => true
  | Cls neg l => forallb (fun c => eqb (in_class neg l c) (in_class neg l (c + 32)%N)) ((fun n => N.of_nat (65 + n)) <$> seq 0 26)
  | Cat a b | Alt a b => caseless a && caseless b
  | Star a => caseless a
  | And _ _ | Not _ => false
  end.

Lemma caseless_class neg l c d : caseless (Cls neg l) = true -> lowered [c] = [d] -> in_class neg l d = true -> in_class neg l c = true.
Proof.
  cbn [caseless]. rewrite forallb_forall. unfold lowered. cbn [fmap list_fmap]. intros H [= <-].
  destruct ((65 <=? c)%N && (c <=? 90)%N) eqn:E; [|done]. apply andb_true_iff in E as [E1%N.leb_le E2%N.leb_le].
  intros Hd. specialize (H c). rewrite Hd in H. apply eqb_prop, H, list_elem_of_In, list_elem_of_fmap.
  exists (N.to_nat c - 65)%nat. split; [lia|]. apply elem_of_seq. lia.
Qed.

Lemma lang_lowered r s : caseless r = true -> lang r (lowered s) -> lang r s.
Proof.
  revert s. induction r as [| |neg l|a IHa b IHb|a IHa b IHb|a IHa b IHb|a IHa|a IHa]; intros s Hc; cbn [lang]; try done.
  - apply fmap_nil_inv.
  - intros (d & E & H). destruct s as [|c [|? ?]]; try done. exists c. split; [done|]. by eapply caseless_class.
  - apply andb_true_iff in Hc as [? ?]. intros (u & v & (u' & v' & -> & -> & ->)%fmap_app_inv & Hu & Hv). exists u', v'. auto.
  - apply andb_true_iff in Hc as [? ?]. intros [?|?]; auto.
  - intros (l & E & Hl). revert s E. induction Hl as [|u l Hu Hl IH]; intros s E.
    + exists []. split; [by apply fmap_nil_inv in E|constructor].
    + apply fmap_app_inv in E as (u' & v' & -> & E & ->). destruct (IH v') as (l' & -> & Hl'); [exact (eq_sym E)|].
      exists (u' :: l'). split; [done|]. constructor; auto.
Qed.

(** The pattern of the code recognizes every credential name. *)
Lemma credentialNamed_test key : credentialNamed key -> test secretValueKey key = true.
Proof.
  intros (w & Hw & a & Ha). apply test_spec, lang_lowered; [vm_compute; reflexivity|]. rewrite Ha. unfold secretValueKey, ends_in.
  exists a, w. split; [done|]. split; [apply lang_anything|]. apply test_spec.
  revert w Hw Ha. assert (Forall (fun w => test (Cat (alts [lit_i (js "password"); lit_i (js "token"); lit_i (js "secret"); lit_i (js "credential");
    cats [lit_i (js "private"); opt dot; lit_i (js "key")]; cats [lit_i (js "api"); opt dot; lit_i (js "key")];
    lit_i (js "authorization"); lit_i (js "cookie")]) (opt (lit_i (js "s")))) w = true) credentialSuffixes) as H.
  { apply (bool_decide_unpack _). vm_compute. reflexivity. }
  rewrite Forall_forall in H. auto.
Qed.

Lemma lang_alts_lit l x : lang (alts (lit_i <$> l)) x -> exists w, w ∈ l /\ lowered x = lowered w.
Proof.
  induction l as [|w l IH]; [done|]. cbn [alts fmap list_fmap foldr lang]. intros [H%lang_lit_i|H].
  - exists w. split; [left|done].
  - destruct (IH H) as (w' & ? & ?). exists w'. split; [by right|done].
Qed.

(** Among the credential names the exceptions of the code are the listed ones. *)
Lemma reference_named key path : credentialNamed key -> isSecretReferenceField key path = true -> lowered key ∈ secretReferenceNames.
Proof.
  intros (w & Hw & Hs). unfold isSecretReferenceField. rewrite !orb_true_iff, andb_true_iff. intros [[H|H]|[->%bool_decide_eq_true _]].
  - apply test_spec, lang_alts_lit in H as (x & Hx & E). rewrite E in *. clear key E. revert x Hx Hs.
    assert (Forall (fun w => Forall (fun x => suffix w (lowered x) -> lowered x ∈ secretReferenceNames)
      [js "existingSecret"; js "userSecret"; js "credentialsSecret"; js "otlpHeadersSecret"; js "headersSecret";
       js "scrapeTokenSecret"; js "operatorTokenSecret"; js "connectionSecret"; js "workerTokenSecret"; js "webhookSecret";
       js "tlsSecretName"; js "secretName"; js "managedImagePullSecrets"; js "imagePullSecrets"]) credentialSuffixes) as H.
    { apply (bool_decide_unpack _). vm_compute. reflexivity. }
    rewrite Forall_forall in H. specialize (H w Hw). rewrite Forall_forall in H. exact H.
  - exfalso. apply test_spec in H as (a & b & -> & _ & u & v & -> & Hu & Hv%lang_lit_i).
    change (lang (alts (lit_i <$> [js "password"; js "token"; js "credential"; js "secret"])) u) in Hu.
    apply lang_alts_lit in Hu as (x & Hx & Hu). unfold lowered in Hs. rewrite !fmap_app in Hs. change (fmap _ u) with (lowered u) in Hs.
    change (fmap _ v) with (lowered v) in Hs. rewrite Hu, Hv in Hs.
    destruct (suffix_weak_total w (lowered x ++ lowered (js "Key")) _ Hs) as [H|H]; [by eexists|..]; revert x Hx w Hw H Hu Hs;
      [assert (Forall (fun x => Forall (fun w => ~ suffix w (lowered x ++ lowered (js "Key"))) credentialSuffixes)
         [js "password"; js "token"; js "credential"; js "secret"]) as H by (apply (bool_decide_unpack _); vm_compute; reflexivity)|
       assert (Forall (fun x => Forall (fun w => ~ suffix (lowered x ++ lowered (js "Key")) w) credentialSuffixes)
         [js "password"; js "token"; js "credential"; js "secret"]) as H by (apply (bool_decide_unpack _); vm_compute; reflexivity)];
      intros x Hx w Hw; rewrite Forall_forall in H; specialize (H x Hx); rewrite Forall_forall in H; by intros ?%H.
  - exfalso. revert w Hw Hs. assert (Forall (fun w => ~ suffix w (lowered (js "key"))) credentialSuffixes) as H.
    { apply (bool_decide_unpack _). vm_compute. reflexivity. }
    by rewrite Forall_forall in H.
Qed.

(** C29: In a configuration without problems, no object reached from the root
    through the properties of objects (not through the items of an array) has a
    field whose name ends, in any case of its letters, in password, token,
    secret, credential, private key, api key, authorization or cookie, in the
    singular or the plural, other than the named references to Secrets. *)
Theorem no_inline_secrets isIP newURL config ks key :
  validateConfiguration isIP newURL config = [] -> has key (descend config ks) = true ->
  credentialNamed key -> lowered key ∈ secretReferenceNames.
Proof.
  intros Hv Hk Hc. apply (reference_named key (foldl child (js "$") ks)); [done|].
  pose proof (rejectInlineSecrets_spec _ _ ks key (sv_secrets _ _ _ (validated_sections isIP newURL config Hv)) Hk) as H.
  unfold credentialField in H. rewrite credentialNamed_test in H by done. by apply negb_false_iff in H.
Qed.

Lemma no_inline_secrets_witness : lowered (js "credentialsSecret") ∈ secretReferenceNames.
Proof.
  apply (no_inline_secrets sample_isIP sample_newURL haConfig [js "redis"]).
  - vm_compute. reflexivity.
  - vm_compute. reflexivity.
  - exists (js "secret"). split; apply (bool_decide_unpack _); vm_compute; reflexivity.
Defined.

(** Items of arrays are not visited: a selector whose match expressions carry a
    password is accepted, with the password in the configuration. *)
Definition put (k : jstr) (w : value) (v : value) : value := match v with Obj l => Obj (set_prop k w l) | _ => v end.

Definition listedSecret : value :=
  put (js "persistence") (put (js "api") (put (js "workerNamespaceSelector")
    (Obj [(js "matchExpressions", Arr [Obj [(js "password", Str (js "hunter2"))]])])
    (get (js "api") (get (js "persistence") haConfig))) (get (js "persistence") haConfig)) haConfig.

Lemma listed_secret_accepted :
  validateConfiguration sample_isIP sample_newURL listedSecret = [] /\
  get (js "matchExpressions") (descend listedSecret [js "persistence"; js "api"; js "workerNamespaceSelector"]) =
    Arr [Obj [(js "password", Str (js "hunter2"))]].
Proof. split; vm_compute; reflexivity. Qed.

Lemma isCidr_v4 isIP s i :
  lastIndexOf 47 s = Some (S i) -> isIP (take (S i) s) = 4 ->
  isInteger (to_number (drop (S (S i)) s)) && nge (to_number (drop (S (S i)) s)) (int 0) &&
  nle (to_number (drop (S (S i)) s)) (int 32) = true ->
  isCidr isIP (Str s) = true.
Proof.
  intros Hl Hi Hn. unfold isCidr. rewrite Hl. cbv zeta. rewrite Hi.
  apply andb_true_iff in Hn as [[H1 H2]%andb_true_iff H3]. rewrite H1, H2, H3. reflexivity.
Qed.

(** [isCidr] accepts an address followed by a slash and nothing, and by a
    prefix written in hexadecimal or with an exponent, because it converts the
    prefix with [Number]. *)
Theorem isCidr_loose isIP :
  isIP (js "10.0.0.0") = 4 ->
  isCidr isIP (Str (js "10.0.0.0/")) = true /\ isCidr isIP (Str (js "10.0.0.0/0x8")) = true /\
  isCidr isIP (Str (js "10.0.0.0/1e1")) = true.
Proof.
  intros H. split; [|split]; apply (isCidr_v4 isIP _ 7); first [exact H|vm_compute; reflexivity].
Qed.

Lemma isCidr_loose_witness : isCidr sample_isIP (Str (js "10.0.0.0/")) = true.
Proof. apply (isCidr_loose sample_isIP). vm_compute. reflexivity. Defined.
