(* ===== verification/Paths.v ===== *)
(** * POSIX paths

    The functions of node:path the lifecycle scripts use ([resolve],
    [relative], [dirname], [basename]) on absolute POSIX paths, kept as the list
    of their segments, and [assertPathInside] of scripts/lib/bootstrap-contract.mjs,
    the guard in front of every write below a configured directory. *)

From stdpp Require Import base tactics option list numbers strings.
From Stdlib Require Import Lia.
From S2P Require Import Prelude JsString.

(** An error thrown by a script: its message, the [code] of a system error and
    the process exit code some errors carry. *)
Record jsError := JsError { emessage : jstr; ecode : jstr; exitCode : option Z }.

Definition newError (m : jstr) : jsError := JsError m [] None.
Definition errno (c : jstr) : jsError := JsError c c None.

#[global] Instance jsError_eq_dec : EqDecision jsError.
Proof. solve_decision. Defined.

(** ** Absolute paths *)

Definition fspath : Type := list jstr.

(** One segment of the argument of [resolve]. *)
Definition enter (acc : fspath) (s : jstr) : fspath :=
  if bool_decide (s = []) || bool_decide (s = js ".") then acc
  else if bool_decide (s = js "..") then removelast acc
  else acc ++ [s].

(** [resolve(base, s)] for an absolute [base]. *)
Definition resolve (base : fspath) (s : jstr) : fspath :=
  foldl enter (if startsWith (js "/") s then [] else base) (split_on 47 s).

Definition resolves (base : fspath) (ss : list jstr) : fspath := foldl resolve base ss.

Definition show_path (p : fspath) : jstr := js "/" ++ join (js "/") p.
Definition dirname (p : fspath) : fspath := removelast p.
Definition basename (p : fspath) : jstr := List.last p [].
Definition isAbsolute (s : jstr) : bool := startsWith (js "/") s.

(** Both paths without their longest common prefix. *)
Fixpoint apart (from to : fspath) : fspath * fspath :=
  match from, to with
  | a :: from', b :: to' => if bool_decide (a = b) then apart from' to' else (from, to)
  | _, _ => (from, to)
  end.

Definition relative (from to : fspath) : jstr :=
  let '(up, down) := apart from to in join (js "/") (repeat (js "..") (length up) ++ down).

(** [portableRelative] of scripts/lib/bootstrap-environment.mjs. *)
Definition portableRelative (from to : fspath) : jstr := replaceAll [92%N] (js "/") (relative from to).

Definition assertPathInside (parent child : fspath) (description : jstr) : result jsError unit :=
  let delta := relative parent child in
  if bool_decide (delta = []) || (negb (startsWith (js "..") delta) && negb (isAbsolute delta)) then Ok tt
  else Throw (newError (js "Refusing " ++ description ++ js " outside " ++ show_path parent ++ js ".")).

(** ** Well-formed paths *)

(** A segment: not empty, not a dot segment, without a separator. *)
Definition segment (s : jstr) : Prop := s <> [] /\ s <> js "." /\ s <> js ".." /\ 47%N ∉ s.

Definition absolute (p : fspath) : Prop := Forall segment p.

Lemma split_on_clean c s : Forall (fun w => c ∉ w) (split_on c s).
Proof.
  induction s as [|d s IH]; cbn [split_on]; [repeat constructor; apply not_elem_of_nil|].
  destruct (d =? c)%N eqn:Hd; [constructor; [apply not_elem_of_nil|done]|].
  apply N.eqb_neq in Hd.
  destruct (split_on c s) as [|w ws]; [constructor; [|done]; intros [ | []%elem_of_nil]%elem_of_cons; congruence|].
  inversion IH; subst. constructor; [|done]. intros [|]%elem_of_cons; congruence.
Qed.

Lemma removelast_Forall {A} (P : A -> Prop) l : Forall P l -> Forall P (removelast l).
Proof. induction 1 as [|x [|y l] Hx Hl IH]; [done|constructor|]. simpl in *. by constructor. Qed.

Lemma enter_absolute acc s : absolute acc -> 47%N ∉ s -> absolute (enter acc s).
Proof.
  intros Ha Hs. unfold enter.
  destruct (bool_decide_reflect (s = [])); [done|]. destruct (bool_decide_reflect (s = js ".")); [done|].
  cbn [orb]. destruct (bool_decide_reflect (s = js "..")); [by apply removelast_Forall|].
  apply Forall_app; split; [done|]. by repeat constructor.
Qed.

Lemma enters_absolute ws acc : Forall (fun w => 47%N ∉ w) ws -> absolute acc -> absolute (foldl enter acc ws).
Proof.
  intros H. revert acc. induction H as [|w ws Hw _ IH]; intros acc Ha; [done|]. cbn [foldl]. apply IH.
  by apply enter_absolute.
Qed.

Lemma resolve_absolute base s : absolute base -> absolute (resolve base s).
Proof.
  intros Hb. unfold resolve. apply enters_absolute; [apply split_on_clean|].
  destruct (startsWith _ _); [constructor|done].
Qed.

Lemma resolves_absolute base ss : absolute base -> absolute (resolves base ss).
Proof. revert base. induction ss as [|s ss IH]; intros base H; [done|]. apply IH. by apply resolve_absolute. Qed.

#[export] Hint Resolve resolve_absolute resolves_absolute : realtime.

(** A segment resolves to the entry of that name. *)
Lemma split_on_none c s : c ∉ s -> split_on c s = [s].
Proof.
  induction s as [|d s IH]; intros H; [done|]. apply not_elem_of_cons in H as [Hd Hs]. cbn [split_on].
  destruct (d =? c)%N eqn:E; [apply N.eqb_eq in E; congruence|]. by rewrite IH.
Qed.

Lemma literal_segment (s : string) : bool_decide (js s <> [] /\ js s <> js "." /\ js s <> js ".." /\ 47%N ∉ js s) = true -> segment (js s).
Proof. intros H. exact (bool_decide_unpack _ (proj2 (Is_true_true _) H)). Qed.

Lemma resolve_segment base s : segment s -> resolve base s = base ++ [s].
Proof.
  intros (H1 & H2 & H3 & H4). unfold resolve. rewrite split_on_none by done.
  destruct s as [|c s]; [done|]. replace (startsWith (js "/") (c :: s)) with false.
  - cbn [foldl]. unfold enter. rewrite !bool_decide_eq_false_2 by done. reflexivity.
  - symmetry. change (js "/") with [47%N]. cbn [startsWith]. apply not_elem_of_cons in H4 as [Hc _].
    destruct (47 =? c)%N eqn:E; [apply N.eqb_eq in E; congruence|done].
Qed.

(** ** The longest common prefix *)

Lemma apart_spec from to up down :
  apart from to = (up, down) ->
  exists common, from = common ++ up /\ to = common ++ down /\
    match up, down with a :: _, b :: _ => a <> b | _, _ => True end.
Proof.
  revert to. induction from as [|a from IH]; intros to H; [by injection H as <- <-; exists []|].
  destruct to as [|b to]; [by injection H as <- <-; exists []|]. cbn [apart] in H.
  destruct (bool_decide_reflect (a = b)) as [->|Hn].
  - destruct (IH _ H) as (c & -> & -> & Hne). by exists (b :: c).
  - injection H as <- <-. by exists [].
Qed.

Lemma apart_below p rest : apart p (p ++ rest) = ([], rest).
Proof. induction p as [|a p IH]; [by destruct rest|]. cbn [apart app]. by rewrite bool_decide_eq_true_2. Qed.

Lemma relative_below p rest : relative p (p ++ rest) = join (js "/") rest.
Proof. unfold relative. by rewrite apart_below. Qed.

Lemma join_cons sep w l : l <> [] -> join sep (w :: l) = w ++ sep ++ join sep l.
Proof. by destruct l. Qed.

Lemma startsWith_app_sep w s : w <> [] -> startsWith (js "..") (w ++ 47%N :: s) = startsWith (js "..") w.
Proof. intros Hw. destruct w as [|a [|b w]]; [done| |]; cbn; by destruct a. Qed.

Lemma join_starts w l : w <> [] -> startsWith (js "..") (join (js "/") (w :: l)) = startsWith (js "..") w.
Proof. intros Hw. destruct l as [|x l]; [done|]. rewrite join_cons by done. by apply startsWith_app_sep. Qed.

Lemma join_not_absolute w l : segment w -> isAbsolute (join (js "/") (w :: l)) = false.
Proof.
  intros (Hw & _ & _ & Hs). destruct w as [|c w]; [done|]. apply not_elem_of_cons in Hs as [Hc _].
  assert ((47 =? c)%N = false) as E by by apply N.eqb_neq.
  unfold isAbsolute. destruct l; change (js "/") with [47%N]; cbn -[N.eqb]; by rewrite E.
Qed.

Lemma join_nonempty w l : w <> [] -> join (js "/") (w :: l) <> [].
Proof. intros Hw. by destruct l, w. Qed.

(** The guard accepts a path below the parent unless the first segment below
    it starts with two dots. *)
Lemma inside_below p rest d :
  absolute rest ->
  assertPathInside p (p ++ rest) d = Ok tt <-> match rest with [] => True | w :: _ => startsWith (js "..") w = false end.
Proof.
  intros Hr. unfold assertPathInside. rewrite relative_below. destruct rest as [|w l]; [done|].
  apply Forall_cons in Hr as [Hw _]. rewrite join_not_absolute by done. destruct Hw as (Hw & _).
  rewrite bool_decide_eq_false_2 by by apply join_nonempty. rewrite join_starts by done.
  by destruct (startsWith (js "..") w).
Qed.

Lemma inside_only p c d : absolute c -> assertPathInside p c d = Ok tt -> exists rest, c = p ++ rest.
Proof.
  intros Hc H. destruct (apart p c) as [up down] eqn:E.
  destruct (apart_spec _ _ _ _ E) as (common & -> & -> & _). exists down.
  destruct up as [|u up]; [by rewrite app_nil_r|]. exfalso. revert H. unfold assertPathInside, relative. rewrite E.
  cbn [length repeat app]. rewrite bool_decide_eq_false_2 by by apply join_nonempty.
  rewrite join_starts by done. done.
Qed.

(** [assertPathInside] accepts exactly the paths below the parent directory
    (the parent included) whose first segment below it does not start with two
    dots; a child such as ..cache is refused although it is inside. *)
Theorem assertPathInside_spec base a b d :
  absolute base ->
  assertPathInside (resolve base a) (resolve base b) d = Ok tt <->
  exists rest, resolve base b = resolve base a ++ rest /\
    match rest with [] => True | w :: _ => startsWith (js "..") w = false end.
Proof.
  intros Hb. pose proof (resolve_absolute base b Hb) as Hc. split.
  - intros H. destruct (inside_only _ _ _ Hc H) as [rest E]. exists rest. split; [done|].
    rewrite E in H, Hc. apply Forall_app in Hc as [_ Hr]. by apply (inside_below _ _ d Hr) in H.
  - intros (rest & E & H). rewrite E in Hc |- *. apply Forall_app in Hc as [_ Hr]. by apply inside_below.
Qed.

Lemma assertPathInside_spec_witness :
  assertPathInside (resolve [js "repo"] (js ".bootstrap")) (resolve [js "repo"] (js "/repo/.bootstrap/env")) (js "output") = Ok tt.
Proof.
  apply (assertPathInside_spec [js "repo"]).
  - repeat constructor; vm_compute; try congruence. intros H. repeat (apply elem_of_cons in H as [H|H]; [congruence|]). by apply elem_of_nil in H.
  - exists [js "env"]. split; [vm_compute; reflexivity|reflexivity].
Defined.
