(* ===== verification/Effects.v ===== *)
(** * Scripts as programs over requests

    The lifecycle scripts, the GitHub Actions scripts and the handlers of the
    Node.js example are sequences of calls of node:fs, node:child_process, the
    Redis client, the proxy, the GitHub API, other host objects and the clock.  Such code is modelled as a tree: each
    call is a request whose answer, a value or a thrown error, selects the rest.
    One definition is then read in three ways: against an arbitrary environment
    ([run], every answer possible), against a file system ([exec] with a
    handler), and interleaved with other processes. *)

From stdpp Require Import base tactics option list numbers strings.
From S2P Require Import Prelude JsString JsNumber JsValue Paths.

Inductive request : Type :=
  | Mkdir (p : fspath)
  | MkdirP (p : fspath)
  | WriteFile (p : fspath) (content : jstr)
  | Rename (p q : fspath)
  | CopyFile (p q : fspath)
  | ReadFile (p : fspath)
  | ReadDir (p : fspath)
  | Lstat (p : fspath)
  | Stat (p : fspath)
  | RmRf (p : fspath)
  | RmForce (p : fspath)
  | Spawn (file : jstr) (args : list jstr)
  | SpawnInput (file : jstr) (args : list jstr) (input : jstr)
  | RedisReady
  | RedisPing
  | RedisGet (key : jstr)
  | RedisSet (key content : jstr) (seconds : Z)
  | RedisDel (key : jstr)
  | RedisScan (client : nat) (cursor pattern : jstr)
  | RedisUnlink (client : nat) (key : jstr)
  | RedisClose (client : nat)
  | RandomHex (bytes : nat)
  | DestroySession
  | ProxyWeb (target scheme url : jstr)
  | KillZero (pid : value)
  | DateNow
  | RandomUUID
  | Hostname
  | Pid
  | Emit (level phase message : jstr)
  | FlushLog
  | Mkdtemp (prefix : jstr)
  | SpawnWith (cwd : jstr) (env : list (jstr * value)) (file : jstr) (args : list jstr)
  | GitHub (method : jstr) (args : list (jstr * value))
  | Core (method : jstr) (args : list value)
  | Host (operation : jstr) (args : list value).

#[global] Instance request_eq_dec : EqDecision request.
Proof. solve_decision. Defined.

Definition response : Type := result jsError value.

Inductive prog (A : Type) : Type :=
  | Ret (a : A)
  | Raise (e : jsError)
  | Call (r : request) (k : response -> prog A).
Arguments Ret {A} a.
Arguments Raise {A} e.
Arguments Call {A} r k.

#[global] Instance prog_ret : MRet prog := @Ret.
#[global] Instance prog_bind : MBind prog := fun A B f =>
  fix go p := match p with Ret a => f a | Raise e => Raise e | Call r k => Call r (fun x => go (k x)) end.

(** [await] of a request. *)
Definition call (r : request) : prog value :=
  Call r (fun x => match x with Ok v => Ret v | Throw e => Raise e end).

Definition lift {A} (r : result jsError A) : prog A := match r with Ok a => Ret a | Throw e => Raise e end.

(** An [Error] thrown with a message, from the code that returns messages. *)
Definition throwing {A} (r : result jstr A) : prog A := match r with Ok a => Ret a | Throw m => Raise (newError m) end.

Definition fail {A} (m : jstr) : prog A := Raise (newError m).

(** [if (b) throw new Error(m)]. *)
Definition refuse (b : bool) (m : jstr) : prog unit := if b then fail m else Ret tt.

(** [if (b) await p]. *)
Definition whenever {A} (b : bool) (p : prog A) : prog unit := if b then _ ← p; Ret tt else Ret tt.

(** [try { p } catch (error) { h }]. *)
Fixpoint catch {A} (p : prog A) (h : jsError -> prog A) : prog A :=
  match p with Ret a => Ret a | Raise e => h e | Call r k => Call r (fun x => catch (k x) h) end.

(** [try { p } finally { c }]: an error of [c] replaces that of [p]. *)
Fixpoint finally {A} (p : prog A) (c : prog unit) : prog A :=
  match p with
  | Ret a => _ ← c; Ret a
  | Raise e => _ ← c; Raise e
  | Call r k => Call r (fun x => finally (k x) c)
  end.

(** [for (const x of l) await f(x)]. *)
Fixpoint each {A} (f : A -> prog unit) (l : list A) : prog unit :=
  match l with [] => Ret tt | x :: l' => _ ← f x; each f l' end.

(** The same with variables the body assigns. *)
Fixpoint loop {A S} (f : A -> S -> prog S) (l : list A) (s : S) : prog S :=
  match l with [] => Ret s | x :: l' => s' ← f x s; loop f l' s' end.

(** ** Running against an environment *)

Definition history : Type := list (request * response).

(** The answer of the environment may depend on everything that happened. *)
Definition oracle : Type := history -> request -> response.

Fixpoint exec {S A} (handle : S -> request -> S * response) (s : S) (p : prog A) : S * result jsError A :=
  match p with
  | Ret a => (s, Ok a)
  | Raise e => (s, Throw e)
  | Call r k => let '(s', x) := handle s r in exec handle s' (k x)
  end.

Definition recording (o : oracle) (h : history) (r : request) : history * response :=
  let x := o h r in (h ++ [(r, x)], x).

Definition run {A} (o : oracle) (p : prog A) : history * result jsError A := exec (recording o) [] p.

(** The requests of a run, in their order. *)
Definition requests (h : history) : list request := fst <$> h.

(** Execution along the structure of a program. *)
Lemma exec_bind {S A B} (handle : S -> request -> S * response) s (p : prog A) (f : A -> prog B) :
  exec handle s (p ≫= f) =
  let '(s', r) := exec handle s p in match r with Ok a => exec handle s' (f a) | Throw e => (s', Throw e) end.
Proof.
  revert s. induction p as [a|e|r k IH]; intros s; [done|done|].
  change (exec handle s (Call r k ≫= f)) with (let '(s', x) := handle s r in exec handle s' (k x ≫= f)).
  cbn [exec]. destruct (handle s r) as [s' x]. apply IH.
Qed.

Lemma exec_catch_Ok {S A} (handle : S -> request -> S * response) s (p : prog A) h s' a :
  exec handle s p = (s', Ok a) -> exec handle s (catch p h) = (s', Ok a).
Proof.
  revert s. induction p as [b|e|r k IH]; intros s; cbn [exec catch]; [done|done|].
  destruct (handle s r) as [s1 x]. apply IH.
Qed.

Lemma exec_call_Ok {S} (handle : S -> request -> S * response) s r s' v :
  handle s r = (s', Ok v) -> exec handle s (call r) = (s', Ok v).
Proof. intros H. cbn. by rewrite H. Qed.

Lemma recording_call_Ok o h r v : o h r = Ok v -> exec (recording o) h (call r) = (h ++ [(r, Ok v)], Ok v).
Proof. intros H. apply exec_call_Ok. unfold recording. by rewrite H. Qed.

(** ** A logic of monitored programs

    A monitor follows the requests and answers and allows or forbids the next
    request; [ok m p Q] says that [p], started in monitor state [m], makes only
    allowed requests, whatever the answers, and ends with [Q]. *)

Section logic.
Context {M : Type} (allow : M -> request -> Prop) (next : M -> request -> response -> M).

Fixpoint ok {A} (m : M) (p : prog A) (Q : M -> result jsError A -> Prop) : Prop :=
  match p with
  | Ret a => Q m (Ok a)
  | Raise e => Q m (Throw e)
  | Call r k => allow m r /\ forall x, ok (next m r x) (k x) Q
  end.

Lemma ok_weaken {A} m (p : prog A) (Q Q' : M -> result jsError A -> Prop) :
  ok m p Q -> (forall m r, Q m r -> Q' m r) -> ok m p Q'.
Proof. intros H HQ. revert m H. induction p as [a|e|r k IH]; intros m; cbn [ok]; [auto|auto|]. intros [Ha H]. split; [done|]. intros x. by apply IH. Qed.

Lemma ok_bind {A B} m (p : prog A) (f : A -> prog B) Q :
  ok m p (fun m' r => match r with Ok a => ok m' (f a) Q | Throw e => Q m' (Throw e) end) -> ok m (p ≫= f) Q.
Proof. revert m. induction p as [a|e|r k IH]; intros m; [done|done|]. cbn. intros [Ha H]. split; [done|]. intros x. apply IH, H. Qed.

Lemma ok_catch {A} m (p : prog A) (h : jsError -> prog A) Q :
  ok m p (fun m' r => match r with Ok a => Q m' (Ok a) | Throw e => ok m' (h e) Q end) -> ok m (catch p h) Q.
Proof. revert m. induction p as [a|e|r k IH]; intros m; [done|done|]. cbn. intros [Ha H]. split; [done|]. intros x. apply IH, H. Qed.

Lemma ok_finally {A} m (p : prog A) (c : prog unit) Q :
  ok m p (fun m' r => ok m' c (fun m'' r' => match r' with Ok _ => Q m'' r | Throw e => Q m'' (Throw e) end)) ->
  ok m (finally p c) Q.
Proof.
  revert m. induction p as [a|e|r k IH]; intros m; cbn [finally ok].
  - intros H. apply ok_bind. eapply ok_weaken; [exact H|]. by intros m' [] ?.
  - intros H. apply ok_bind. eapply ok_weaken; [exact H|]. by intros m' [] ?.
  - intros [Ha H]. split; [done|]. intros x. apply IH, H.
Qed.

Lemma ok_call m r Q : allow m r -> (forall x, Q (next m r x) x) -> ok m (call r) Q.
Proof. intros Ha H. split; [done|]. intros [v|e]; cbn [ok]; apply H. Qed.

(** A loop keeps an invariant of the monitor. *)
Lemma ok_each {A} (I : M -> Prop) (f : A -> prog unit) l m :
  I m -> (forall m x, x ∈ l -> I m -> ok m (f x) (fun m' _ => I m')) -> ok m (each f l) (fun m' _ => I m').
Proof.
  intros Hm Hf. revert m Hm. induction l as [|x l IH]; intros m Hm; [done|]. cbn [each]. apply ok_bind.
  eapply ok_weaken; [apply Hf; [left|done]|]. intros m' [u|e] Hm'; [|done]. apply IH; [|done].
  intros m'' y Hy. apply Hf. by right.
Qed.

(** A loop with variables keeps a relation between them and the monitor; [J]
    holds when an iteration throws. *)
Lemma ok_loop {A S} (I : M -> S -> Prop) (J : M -> Prop) (f : A -> S -> prog S) l m s :
  I m s ->
  (forall m s x, x ∈ l -> I m s -> ok m (f x s) (fun m' r => match r with Ok s' => I m' s' | Throw _ => J m' end)) ->
  ok m (loop f l s) (fun m' r => match r with Ok s' => I m' s' | Throw _ => J m' end).
Proof.
  intros Hm Hf. revert m s Hm. induction l as [|x l IH]; intros m s Hm; [done|]. cbn [loop]. apply ok_bind.
  eapply ok_weaken; [apply Hf; [left|done]|]. intros m' [s'|e] Hm'; [|done]. apply IH; [|done].
  intros m'' s'' y Hy. apply Hf. by right.
Qed.

(** Adequacy: every run of an [ok] program complies with the monitor. *)
Fixpoint complies (m : M) (h : history) : Prop :=
  match h with [] => True | (r, x) :: h' => allow m r /\ complies (next m r x) h' end.

Definition after (m : M) (h : history) : M := foldl (fun m rx => next m rx.1 rx.2) m h.

Lemma complies_app m h h' : complies m (h ++ h') <-> complies m h /\ complies (after m h) h'.
Proof.
  revert m. induction h as [|[r x] h IH]; intros m; cbn [complies app after foldl fst snd]; [tauto|].
  rewrite IH. unfold after. tauto.
Qed.

Lemma ok_exec {A} o h m0 (p : prog A) Q :
  complies m0 h -> ok (after m0 h) p Q ->
  let '(h', r) := exec (recording o) h p in complies m0 h' /\ Q (after m0 h') r.
Proof.
  revert h. induction p as [a|e|r k IH]; intros h Hc; cbn [exec ok]; [done|done|].
  intros [Ha H]. unfold recording at 1. cbv zeta beta. set (x := o h r).
  specialize (IH x (h ++ [(r, x)])). apply IH.
  - apply complies_app. split; [done|]. cbn. done.
  - unfold after. rewrite foldl_app. cbn. apply H.
Qed.

Lemma complies_at m h1 r x h2 : complies m (h1 ++ (r, x) :: h2) -> allow (after m h1) r.
Proof. intros [_ [H _]]%complies_app. done. Qed.

Theorem ok_run {A} o m0 (p : prog A) Q :
  ok m0 p Q -> let '(h, r) := run o p in complies m0 h /\ Q (after m0 h) r.
Proof. intros H. by apply (ok_exec o []). Qed.
End logic.

(** A property of single requests, without monitor state. *)
Definition only {A} (P : request -> Prop) (p : prog A) : Prop :=
  ok (fun (_ : unit) => P) (fun _ _ _ => tt) tt p (fun _ _ => True).

Section only.
Context (P : request -> Prop).

Lemma only_ret {A} (a : A) : only P (Ret a).
Proof. exact I. Qed.
Lemma only_raise {A} e : only P (@Raise A e).
Proof. exact I. Qed.
Lemma only_call r : P r -> only P (call r).
Proof. intros H. by apply ok_call. Qed.
Lemma only_bind {A B} (p : prog A) (f : A -> prog B) : only P p -> (forall a, only P (f a)) -> only P (p ≫= f).
Proof. intros Hp Hf. apply ok_bind. eapply ok_weaken; [exact Hp|]. intros [] [a|e] _; [apply Hf|done]. Qed.
Lemma only_catch {A} (p : prog A) h : only P p -> (forall e, only P (h e)) -> only P (catch p h).
Proof. intros Hp Hf. apply ok_catch. eapply ok_weaken; [exact Hp|]. intros [] [a|e] _; [done|apply Hf]. Qed.
Lemma only_finally {A} (p : prog A) c : only P p -> only P c -> only P (finally p c).
Proof.
  intros Hp Hc. apply ok_finally. eapply ok_weaken; [exact Hp|]. intros [] r _. eapply ok_weaken; [exact Hc|]. by intros [] [].
Qed.
Lemma only_each {A} (f : A -> prog unit) l : (forall x, only P (f x)) -> only P (each f l).
Proof. intros Hf. induction l as [|x l IH]; [exact I|]. cbn [each]. apply only_bind; [apply Hf|done]. Qed.
Lemma only_lift {A} (r : result jsError A) : only P (lift r).
Proof. by destruct r. Qed.
Lemma only_throwing {A} (r : result jstr A) : only P (throwing r).
Proof. by destruct r. Qed.
Lemma only_refuse b m : only P (refuse b m).
Proof. by destruct b. Qed.
Lemma only_whenever {A} b (p : prog A) : only P p -> only P (whenever b p).
Proof. intros H. destruct b; [|exact I]. cbn [whenever]. apply only_bind; [done|]. intros. exact I. Qed.
Lemma only_if {A} (b : bool) (p q : prog A) : only P p -> only P q -> only P (if b then p else q).
Proof. by destruct b. Qed.

Lemma only_requests {A} o (p : prog A) : only P p -> Forall P (requests (run o p).1).
Proof.
  intros H. pose proof (ok_run _ _ o tt p _ H) as Hr. destruct (run o p) as [h r]. destruct Hr as [Hc _]. cbn [fst].
  induction h as [|[q x] h IH]; [constructor|]. destruct Hc as [Hq Hc]. constructor; [done|]. by apply IH.
Qed.
End only.

(** What a program can return. *)
Fixpoint returns {A} (P : A -> Prop) (p : prog A) : Prop :=
  match p with Ret a => P a | Raise _ => True | Call _ k => forall x, returns P (k x) end.

Lemma returns_bind {A B} (P : A -> Prop) (Q : B -> Prop) (p : prog A) (f : A -> prog B) :
  returns P p -> (forall a, P a -> returns Q (f a)) -> returns Q (p ≫= f).
Proof. intros Hp Hf. induction p as [a|e|r k IH]; [by apply Hf|done|]. intros x. apply IH, Hp. Qed.

Lemma returns_any {A} (p : prog A) : returns (fun _ => True) p.
Proof. induction p as [a|e|r k IH]; done. Qed.

Lemma returns_then {A B} (Q : B -> Prop) (p : prog A) (f : A -> prog B) :
  (forall a, returns Q (f a)) -> returns Q (p ≫= f).
Proof. intros Hf. eapply returns_bind; [apply returns_any|]. auto. Qed.

Lemma ok_returns {M A} (allow : M -> request -> Prop) next (P : A -> Prop) m (p : prog A) Q :
  ok allow next m p Q -> returns P p ->
  ok allow next m p (fun m' r => Q m' r /\ match r with Ok a => P a | Throw _ => True end).
Proof.
  revert m. induction p as [a|e|r k IH]; intros m; cbn [ok returns]; [done|done|].
  intros [Ha H] HP. split; [done|]. intros x. by apply IH.
Qed.

(** The monitor that remembers everything. *)
Definition extend (h : history) (r : request) (x : response) : history := h ++ [(r, x)].

Lemma after_extend h0 h : after extend h0 h = h0 ++ h.
Proof.
  revert h0. induction h as [|[r x] h IH]; intros h0; [by rewrite app_nil_r|]. unfold after in *. cbn [foldl fst snd].
  rewrite IH. unfold extend. by rewrite <- app_assoc.
Qed.

(** A history only grows. *)
Lemma ok_extends {A} allow h (p : prog A) Q : ok allow extend h p Q -> ok allow extend h p (fun h' r => h `prefix_of` h' /\ Q h' r).
Proof.
  revert h. induction p as [a|e|r k IH]; intros h; cbn [ok]; [done|done|]. intros [Ha H]. split; [done|]. intros x.
  eapply ok_weaken; [apply IH, H|]. intros h' y [Hp Hq]. split; [|done]. etransitivity; [|exact Hp]. by exists [(r, x)].
Qed.

(** What holds of the history and the result at the end of every run. *)
Definition ends {A} (p : prog A) (Q : history -> result jsError A -> Prop) : Prop := ok (fun _ _ => True) extend [] p Q.

Lemma ends_run {A} o (p : prog A) Q : ends p Q -> Q (run o p).1 (run o p).2.
Proof.
  intros H. pose proof (ok_run _ _ o [] p Q H) as Hr. destruct (run o p) as [h r]. destruct Hr as [_ Hr].
  by rewrite after_extend in Hr.
Qed.

(** ** What a program adds to a history *)

(** Whatever happened before, the requests and answers of [p] and its result
    satisfy [Q]. *)
Definition adds {A} (p : prog A) (Q : history -> result jsError A -> Prop) : Prop :=
  forall h, ok (fun _ _ => True) extend h p (fun h' r => exists t, h' = h ++ t /\ Q t r).

Lemma adds_run {A} o (p : prog A) Q : adds p Q -> Q (run o p).1 (run o p).2.
Proof. intros H. destruct (ends_run o p _ (H [])) as (t & E & HQ). cbn in E. by rewrite E. Qed.

Lemma adds_weaken {A} (p : prog A) Q Q' : adds p Q -> (forall t r, Q t r -> Q' t r) -> adds p Q'.
Proof. intros H HQ h. eapply ok_weaken; [apply H|]. intros h' r (t & -> & Ht). eauto. Qed.

Lemma adds_ret {A} (a : A) Q : Q [] (Ok a) -> adds (Ret a) Q.
Proof. intros H h. exists []. by rewrite app_nil_r. Qed.

Lemma adds_raise {A} e Q : Q [] (Throw e) -> adds (@Raise A e) Q.
Proof. intros H h. exists []. by rewrite app_nil_r. Qed.

Lemma adds_call r Q : (forall x, Q [(r, x)] x) -> adds (call r) Q.
Proof. intros H h. apply ok_call; [done|]. intros x. exists [(r, x)]. split; [done|apply H]. Qed.

Lemma adds_bind {A B} (p : prog A) (f : A -> prog B) Q :
  adds p (fun t r => match r with Ok a => adds (f a) (fun t' r' => Q (t ++ t') r') | Throw e => Q t (Throw e) end) -> adds (p ≫= f) Q.
Proof.
  intros H h. apply ok_bind. eapply ok_weaken; [apply H|]. intros h' [a|e] (t & -> & Ht); [|eauto].
  eapply ok_weaken; [apply Ht|]. intros h2 r (t' & -> & HQ). exists (t ++ t'). by rewrite app_assoc.
Qed.

Lemma adds_catch {A} (p : prog A) (f : jsError -> prog A) Q :
  adds p (fun t r => match r with Ok a => Q t (Ok a) | Throw e => adds (f e) (fun t' r' => Q (t ++ t') r') end) -> adds (catch p f) Q.
Proof.
  intros H h. apply ok_catch. eapply ok_weaken; [apply H|]. intros h' [a|e] (t & -> & Ht); [eauto|].
  eapply ok_weaken; [apply Ht|]. intros h2 r (t' & -> & HQ). exists (t ++ t'). by rewrite app_assoc.
Qed.

Lemma adds_finally {A} (p : prog A) (c : prog unit) Q :
  adds p (fun t r => adds c (fun t' r' => Q (t ++ t') (match r' with Ok _ => r | Throw e => Throw e end))) -> adds (finally p c) Q.
Proof.
  intros H h. apply ok_finally. eapply ok_weaken; [apply H|]. intros h' r (t & -> & Ht).
  eapply ok_weaken; [apply Ht|]. intros h2 [u|e] (t' & -> & HQ); exists (t ++ t'); by rewrite app_assoc.
Qed.

Lemma adds_only {A} (P : request -> Prop) (p : prog A) : only P p -> adds p (fun t _ => Forall P (requests t)).
Proof.
  unfold only. intros H h. revert h H. induction p as [a|e|r k IH]; intros h; cbn [ok].
  - intros _. exists []. rewrite app_nil_r. split; [done|constructor].
  - intros _. exists []. rewrite app_nil_r. split; [done|constructor].
  - intros [Hr Hk]. split; [done|]. intros x. eapply ok_weaken; [apply IH, Hk|]. intros h' y (t & -> & Ht).
    exists ((r, x) :: t). unfold extend. rewrite <- app_assoc. split; [done|]. constructor; done.
Qed.

Lemma returns_adds {A} (P : A -> Prop) (p : prog A) : returns P p -> adds p (fun _ r => match r with Ok a => P a | Throw _ => True end).
Proof.
  intros H h. revert h H. induction p as [a|e|r k IH]; intros h H; cbn [ok returns] in *.
  - exists []. by rewrite app_nil_r.
  - exists []. by rewrite app_nil_r.
  - split; [done|]. intros x. eapply ok_weaken; [apply IH, H|]. intros h' y (t & -> & Ht).
    exists ((r, x) :: t). unfold extend. by rewrite <- app_assoc.
Qed.

(** A program on recorded answers: its result, when the history is one of its own. *)
Fixpoint follows {A} (p : prog A) (h : history) : option (result jsError A) :=
  match p, h with
  | Ret a, [] => Some (Ok a)
  | Raise e, [] => Some (Throw e)
  | Call r k, (q, x) :: h' => if decide (q = r) then follows (k x) h' else None
  | _, _ => None
  end.

Lemma adds_follows {A} (p : prog A) : adds p (fun t r => follows p t = Some r).
Proof.
  intros h. revert h. induction p as [a|e|r k IH]; intros h; cbn [ok].
  - exists []. by rewrite app_nil_r.
  - exists []. by rewrite app_nil_r.
  - split; [done|]. intros x. eapply ok_weaken; [apply IH|]. intros h' y (t & -> & Ht).
    exists ((r, x) :: t). unfold extend. rewrite <- app_assoc. split; [done|]. cbn. by rewrite decide_True.
Qed.

Lemma adds_and {A} (p : prog A) Q R : adds p Q -> adds p R -> adds p (fun t r => Q t r /\ R t r).
Proof.
  intros H1 H2 h. specialize (H1 h). specialize (H2 h).
  assert (forall h0, ok (fun _ _ => True) extend h0 p (fun h' r => exists t, h' = h ++ t /\ Q t r) ->
    ok (fun _ _ => True) extend h0 p (fun h' r => exists t, h' = h ++ t /\ R t r) ->
    ok (fun _ _ => True) extend h0 p (fun h' r => exists t, h' = h ++ t /\ Q t r /\ R t r)) as Hg; [|by apply Hg].
  clear H1 H2. induction p as [a|e|r k IH]; intros h0; cbn [ok].
  - intros (t & -> & H1) (t' & E & H2). apply app_inv_head in E as ->. eauto.
  - intros (t & -> & H1) (t' & E & H2). apply app_inv_head in E as ->. eauto.
  - intros [_ H1] [_ H2]. split; [done|]. intros x. by apply IH.
Qed.

Create HintDb requests.
#[export] Hint Resolve only_ret only_raise only_lift only_throwing only_refuse : requests.
#[export] Hint Extern 1 (only _ (fail _)) => apply only_raise : requests.

(** Decomposes [only] along the structure of a program. *)
Ltac only_step :=
  lazymatch goal with
  | |- forall _, _ => intros ?
  | |- only _ (_ ≫= _) => apply only_bind
  | |- only _ (catch _ _) => apply only_catch
  | |- only _ (finally _ _) => apply only_finally
  | |- only _ (each _ _) => apply only_each
  | |- only _ (whenever _ _) => apply only_whenever
  | |- only _ (call _) => apply only_call
  | |- only _ (if _ then _ else _) => apply only_if
  | |- only _ (match ?x with _ => _ end) => destruct x
  | |- only _ (let _ := _ in _) => cbv zeta
  | |- only _ _ => solve [auto with requests]
  end.

(** ** The helpers of the contract library *)

Definition json_error (p : fspath) (e : jsError) : jsError :=
  newError (js "Cannot read JSON from " ++ show_path p ++ js ": " ++ emessage e).

Section files.
Context (parseJSON : jstr -> result jsError value).

Definition readJson (p : fspath) : prog value :=
  catch (v ← call (ReadFile p); lift (parseJSON (str_of v))) (fun e => Raise (json_error p e)).

(** [atomicWrite]: the temporary file is named after the process. *)
Definition temporary (p : fspath) (pid : value) : fspath :=
  dirname p ++ [basename p ++ js "." ++ from_option show_Z [] (to_Z (num_of pid)) ++ js ".tmp"].

Definition atomicWrite (p : fspath) (content : jstr) : prog unit :=
  _ ← call (MkdirP (dirname p));
  pid ← call Pid;
  _ ← call (WriteFile (temporary p pid) content);
  _ ← call (Rename (temporary p pid) p);
  Ret tt.

Definition fileExists (p : fspath) : prog bool :=
  catch (_ ← call (Stat p); Ret true)
    (fun e => if bool_decide (ecode e = js "ENOENT") then Ret false else Raise e).
End files.
