(* ===== verification/FileSystem.v ===== *)
(** * A volume

    What node:fs does to a volume of files and directories, as far as the scripts
    use it: the requests of Effects performed on a concrete state.  Paths are lists
    of segments; an entry has its content or, like every entry, its time of
    modification.  A request is atomic. *)

From stdpp Require Import base tactics option list numbers strings.
From Stdlib Require Import Lia.
From S2P Require Import Prelude JsString JsNumber JsValue Paths Effects.
#[local] Open Scope Z_scope.

Inductive Entry : Type := File (content : jstr) (mtime : Z) | Dir (mtime : Z).

(** Every path occurs at most once; the root is a directory and does not occur. *)
Definition Volume : Type := list (fspath * Entry).

Definition entryAt (p : fspath) (d : Volume) : option Entry := snd <$> List.find (fun kv => bool_decide (kv.1 = p)) d.

Definition isDirectory (p : fspath) (d : Volume) : bool :=
  match p with [] => true | _ => match entryAt p d with Some (Dir _) => true | _ => false end end.

(** Whether [k] is [p] or below it. *)
Definition inside (p k : fspath) : bool := bool_decide (p `prefix_of` k).

(** Creating or removing an entry modifies its directory. *)
Definition touch (now : Z) (p : fspath) (d : Volume) : Volume :=
  (fun kv => if bool_decide (kv.1 = p) then match kv.2 with Dir _ => (kv.1, Dir now) | _ => kv end else kv) <$> d.

Definition without (p : fspath) (d : Volume) : Volume := List.filter (fun kv => negb (inside p kv.1)) d.

(** The path of an entry after [p] became [q]. *)
Definition rehome (p q k : fspath) : fspath := if inside p k then q ++ drop (length p) k else k.

Definition moveEntry (p q : fspath) (d : Volume) : Volume := (fun kv => (rehome p q kv.1, kv.2)) <$> without q d.

Definition done_ (d : Volume) : Volume * response := (d, Ok Undefined).
Definition refused (code : string) (d : Volume) : Volume * response := (d, Throw (errno (js code))).

Definition mkdir (now : Z) (p : fspath) (d : Volume) : Volume * response :=
  match p, entryAt p d with
  | [], _ | _, Some _ => refused "EEXIST" d
  | _, None => if isDirectory (dirname p) d then done_ ((p, Dir now) :: touch now (dirname p) d) else refused "ENOENT" d
  end.

(** The missing directories from [base] along the segments. *)
Fixpoint mkdirs (now : Z) (base : fspath) (segments : list jstr) (d : Volume) : Volume * response :=
  match segments with
  | [] => done_ d
  | s :: rest =>
      let p := base ++ [s] in
      match entryAt p d with
      | Some (Dir _) => mkdirs now p rest d
      | Some (File _ _) => refused (match rest with [] => "EEXIST" | _ => "ENOTDIR" end) d
      | None => mkdirs now p rest ((p, Dir now) :: touch now base d)
      end
  end.

Definition writeFile (now : Z) (p : fspath) (content : jstr) (d : Volume) : Volume * response :=
  if isDirectory p d then refused "EISDIR" d
  else if negb (isDirectory (dirname p) d) then refused "ENOENT" d
  else
    let created := bool_decide (entryAt p d = None) in
    done_ ((p, File content now) :: List.filter (fun kv => negb (bool_decide (kv.1 = p))) (if created then touch now (dirname p) d else d)).

Definition readFile (p : fspath) (d : Volume) : Volume * response :=
  if isDirectory p d then refused "EISDIR" d
  else match entryAt p d with Some (File c _) => (d, Ok (Str c)) | _ => refused "ENOENT" d end.

Definition statValue (directory : bool) (mtime : Z) : value :=
  Obj [(js "isFile", Boolean (negb directory)); (js "isDirectory", Boolean directory); (js "isSymbolicLink", Boolean false);
       (js "mtimeMs", Number (int mtime))].

Definition stat (p : fspath) (d : Volume) : Volume * response :=
  match entryAt p d with
  | Some (File _ t) => (d, Ok (statValue false t))
  | Some (Dir t) => (d, Ok (statValue true t))
  | None => refused "ENOENT" d
  end.

Definition occupied (q : fspath) (d : Volume) : bool := existsb (fun kv => inside q kv.1 && negb (bool_decide (kv.1 = q))) d.

Definition rename (now : Z) (p q : fspath) (d : Volume) : Volume * response :=
  match entryAt p d with
  | None => refused "ENOENT" d
  | Some e =>
      if bool_decide (p = q) then done_ d
      else if inside p q then refused "EINVAL" d
      else if negb (isDirectory (dirname q) d) then refused "ENOENT" d
      else
        let moved := done_ (touch now (dirname p) (touch now (dirname q) (moveEntry p q d))) in
        match e, entryAt q d with
        | File _ _, Some (Dir _) => refused "EISDIR" d
        | Dir _, Some (File _ _) => refused "ENOTDIR" d
        | Dir _, Some (Dir _) => if occupied q d then refused "ENOTEMPTY" d else moved
        | _, _ => moved
        end
  end.

(** [rm(p, { recursive: true, force: true })] *)
Definition rmRf (now : Z) (p : fspath) (d : Volume) : Volume * response :=
  match entryAt p d with Some _ => done_ (touch now (dirname p) (without p d)) | None => done_ d end.

(** The requests about files; [None] for the others. *)
Definition performs (now : Z) (d : Volume) (r : request) : option (Volume * response) :=
  match r with
  | Mkdir p => Some (mkdir now p d)
  | MkdirP p => Some (mkdirs now [] p d)
  | WriteFile p c => Some (writeFile now p c d)
  | Rename p q => Some (rename now p q d)
  | ReadFile p => Some (readFile p d)
  | Lstat p | Stat p => Some (stat p d)
  | RmRf p => Some (rmRf now p d)
  | _ => None
  end.

(** ** Entries after an operation *)

Lemma entryAt_elem p e d : entryAt p d = Some e -> (p, e) ∈ d.
Proof.
  unfold entryAt. destruct (List.find _ d) as [[k e']|] eqn:E; [|done]. intros [= ->]. apply find_some in E as [Hin Hk].
  cbn in Hk. apply bool_decide_eq_true in Hk as ->. by apply list_elem_of_In.
Qed.

Lemma entryAt_cons p k e d : entryAt p ((k, e) :: d) = if decide (k = p) then Some e else entryAt p d.
Proof. unfold entryAt. cbn. destruct (decide (k = p)); [by rewrite bool_decide_eq_true_2|by rewrite bool_decide_eq_false_2]. Qed.

Lemma entryAt_None p d : entryAt p d = None <-> Forall (fun kv => kv.1 <> p) d.
Proof.
  unfold entryAt. rewrite fmap_None. split.
  - intros H. apply Forall_forall. intros kv Hin Hk. apply list_elem_of_In in Hin. by eapply find_none in H; [|exact Hin]; apply bool_decide_eq_false in H.
  - intros H. induction H as [|kv d Hk _ IH]; [done|]. cbn. by rewrite bool_decide_eq_false_2.
Qed.

(** Entries kept by a filter that keeps the path. *)
Lemma entryAt_filter p (f : fspath -> bool) d : f p = true -> entryAt p (List.filter (fun kv => f kv.1) d) = entryAt p d.
Proof.
  intros Hf. induction d as [|[k e] d IH]; [done|]. cbn [List.filter fst]. destruct (decide (k = p)) as [->|Hn].
  - rewrite Hf, !entryAt_cons, !decide_True by done. done.
  - rewrite (entryAt_cons p k e d), decide_False by done. destruct (f k); [|done]. by rewrite entryAt_cons, decide_False.
Qed.

Lemma entryAt_others p q d : p <> q -> entryAt p (List.filter (fun kv => negb (bool_decide (kv.1 = q))) d) = entryAt p d.
Proof. intros H. set (f := fun k : fspath => negb (bool_decide (k = q))). apply (entryAt_filter p f). unfold f. by rewrite bool_decide_eq_false_2. Qed.

Lemma entryAt_without p q d : inside q p = false -> entryAt p (without q d) = entryAt p d.
Proof. intros H. apply (entryAt_filter p (fun k => negb (inside q k))). by rewrite H. Qed.

Lemma entryAt_without_inside p q d : inside q p = true -> entryAt p (without q d) = None.
Proof.
  intros H. apply entryAt_None, Forall_forall. intros kv Hin ->%eq_sym. apply list_elem_of_In, filter_In in Hin as [_ Hk].
  by rewrite H in Hk.
Qed.

(** Touching changes times of directories only. *)
Definition restamped (now : Z) (e : Entry) : Entry := match e with Dir _ => Dir now | _ => e end.

Lemma entryAt_touch now q p d : entryAt p (touch now q d) = if decide (q = p) then restamped now <$> entryAt p d else entryAt p d.
Proof.
  induction d as [|[k e] d IH]; [by destruct (decide _)|]. unfold touch in *. cbn [fmap list_fmap fst snd].
  destruct (decide (k = q)) as [->|Hn].
  - rewrite bool_decide_eq_true_2 by done. destruct e as [c t|t]; rewrite !entryAt_cons; destruct (decide (q = p)); try done; apply IH.
  - rewrite bool_decide_eq_false_2 by done. rewrite !entryAt_cons. destruct (decide (k = p)) as [->|]; [by rewrite decide_False|apply IH].
Qed.

Lemma isDirectory_touch now q p d : isDirectory p (touch now q d) = isDirectory p d.
Proof. unfold isDirectory. destruct p; [done|]. rewrite entryAt_touch. destruct (decide _); [|done]. by destruct (entryAt _ d) as [[]|]. Qed.

(** A path outside both ends of a move keeps its entry. *)
Lemma entryAt_move p q k d : inside p k = false -> inside q k = false -> entryAt k (moveEntry p q d) = entryAt k d.
Proof.
  intros Hp Hq. rewrite <- (entryAt_without k q d) by done. unfold moveEntry. induction (without q d) as [|[k' e] l IH]; [done|].
  cbn [fmap list_fmap fst snd]. rewrite !entryAt_cons, IH. unfold rehome. destruct (inside p k') eqn:E.
  - rewrite decide_False by (intros <-; unfold inside in Hq; apply bool_decide_eq_false in Hq; apply Hq; by eexists).
    by rewrite decide_False by (intros ->; congruence).
  - done.
Qed.

(** Reading changes nothing. *)
Lemma fst_readFile p d : (readFile p d).1 = d.
Proof. unfold readFile. destruct (isDirectory p d); [done|]. by destruct (entryAt p d) as [[]|]. Qed.

Lemma fst_stat p d : (stat p d).1 = d.
Proof. unfold stat. by destruct (entryAt p d) as [[]|]. Qed.

(** ** Properties of all entries *)

Section entries.
Context (P : fspath -> Entry -> Prop).

Definition every (d : Volume) : Prop := Forall (fun kv => P kv.1 kv.2) d.

Lemma every_at p e d : every d -> entryAt p d = Some e -> P p e.
Proof. intros H Hp. apply entryAt_elem in Hp. unfold every in H. rewrite Forall_forall in H. apply (H _ Hp). Qed.

Lemma every_filter (f : fspath * Entry -> bool) d : every d -> every (List.filter f d).
Proof. intros H. apply Forall_forall. intros kv Hin. apply list_elem_of_In, filter_In in Hin as [Hin _]. unfold every in H. rewrite Forall_forall in H. apply H. by apply list_elem_of_In. Qed.

Lemma every_cons p e d : P p e -> every d -> every ((p, e) :: d).
Proof. by constructor. Qed.

Lemma every_touch now p d : (forall t, P p (Dir t) -> P p (Dir now)) -> every d -> every (touch now p d).
Proof.
  intros Hp H. apply Forall_fmap. eapply Forall_impl; [exact H|]. intros [k e] He. cbn in *.
  destruct (decide (k = p)) as [->|]; [rewrite bool_decide_eq_true_2 by done|by rewrite bool_decide_eq_false_2]. destruct e; [done|]. cbn. eauto.
Qed.

Lemma every_move p q d : (forall k e, inside p k = true -> P k e -> P (q ++ drop (length p) k) e) -> every d -> every (moveEntry p q d).
Proof.
  intros Hp H. apply Forall_fmap. eapply Forall_impl; [apply every_filter, H|]. intros [k e] He. cbn in *. unfold rehome.
  destruct (inside p k) eqn:E; [by apply Hp|done].
Qed.
End entries.
