(* ===== verification/Chart.v ===== *)
(** * The managed Redis chart

    scripts/lib/managed-redis-chart.mjs: the chart archive is taken from a
    cache, a backup or an OCI registry, its SHA-256 digest is compared with the
    pinned one, and only then is it unpacked and its Sentinel service template
    patched.  SHA-256, JSON.parse and JSON.stringify are parameters. *)

From stdpp Require Import base tactics option list numbers strings.
From Stdlib Require Import Lia.
From S2P Require Import Prelude JsString JsNumber JsValue Regex Reconnect ContractPatterns Paths Effects.

Definition newline : jstr := [10%N].
Definition serviceType : jstr := js "  type: {{ .Values.sentinel.service.type }}".
Definition serviceNeedle : jstr := js "spec:" ++ newline ++ serviceType.
Definition servicePatched : jstr := js "spec:" ++ newline ++ js "  publishNotReadyAddresses: true" ++ newline.
Definition serviceReplacement : jstr := servicePatched ++ serviceType.

Definition patchSentinelService (source : jstr) : result jstr jstr :=
  let normalized := replaceAll [13%N; 10%N] newline source in
  if includes servicePatched normalized then Ok normalized
  else if negb (includes serviceNeedle normalized) then
    Throw (js "The Redis chart sentinel Service template does not match the reviewed patch contract.")
  else Ok (replaceFirst serviceNeedle serviceReplacement normalized).

Definition validateChartIdentity (chart version : jstr) : result jstr unit :=
  _ ← ensure (startsWith (js "oci://") chart) (js "Managed Redis chart source must be an OCI reference.");
  ensure (test chartVersion version) (js "Managed Redis chart version is invalid.").

Record chartArchive := ChartArchive { archivePath : fspath; archiveSha256 : jstr }.
Record preparedChart := PreparedChart { chartDirectory : fspath; servicePath : fspath; preparedSha256 : jstr }.

Definition archiveName (version : jstr) : jstr := js "redis-" ++ version ++ js ".tgz".

Section chart.
Context (parseJSON : jstr -> result jsError value) (jsonText : value -> jstr) (sha256 : jstr -> jstr).

Definition digest (content : value) : jstr := js "sha256:" ++ sha256 (str_of content).

Definition lifecycleDeadline (timeoutSeconds : num) : prog num :=
  if negb (isFinite timeoutSeconds) || nle timeoutSeconds (int 0) then fail (js "Managed Redis chart timeout must be greater than zero.")
  else now ← call DateNow; Ret (nadd (num_of now) (nmul timeoutSeconds (int 1000))).

(** A process ended by a signal has the exit code [null]. *)
Definition exitCode_text (code : value) : jstr :=
  match code with Number n => from_option show_Z (js "NaN") (to_Z n) | _ => js "null" end.

(** [run]: the environment answers a spawned process by the error of the spawn
    or by its exit code and output, [timedOut] when the timer fired first. *)
Definition runTool (file : jstr) (args : list jstr) (deadline : num) : prog value :=
  now ← call DateNow;
  _ ← refuse (nle (nsub deadline (num_of now)) (int 0))
        (js "Managed Redis chart preparation exceeded its lifecycle deadline before " ++ file ++ js " could start.");
  child ← call (Spawn file args);
  let line := file ++ js " " ++ join (js " ") args in
  if truthy (get (js "timedOut") child) then fail (js "Managed Redis chart command '" ++ line ++ js "' exceeded the lifecycle deadline and was terminated.")
  else if strict_eq (get (js "code") child) (Number (int 0)) then Ret child
  else fail (line ++ js " failed with exit code " ++ exitCode_text (get (js "code") child) ++ js ": " ++ trim (str_of (get (js "stderr") child))).

Definition unsafeOutput (destination : fspath) : jstr :=
  js "Refusing unsafe managed Redis chart output directory '" ++ show_path destination ++ js "'.".

Definition pullManagedRedisChart (chart version : jstr) (destination : fspath) (helm : jstr) (deadline : num) : prog chartArchive :=
  _ ← throwing (validateChartIdentity chart version);
  let archive := resolve destination (archiveName version) in
  _ ← refuse (bool_decide (destination = []) || negb (bool_decide (relative destination archive = archiveName version))) (unsafeOutput destination);
  _ ← call (MkdirP destination);
  _ ← call (RmForce archive);
  _ ← runTool helm [js "pull"; chart; js "--version"; version; js "--destination"; show_path destination] deadline;
  bytes ← call (ReadFile archive);
  Ret (ChartArchive archive (digest bytes)).

Definition readCachedManagedRedisChart (chart version : jstr) (cache : fspath) : prog chartArchive :=
  _ ← throwing (validateChartIdentity chart version);
  text ← call (ReadFile (resolve cache (js "chart-source.json")));
  metadata ← lift (parseJSON (str_of text));
  let recorded := get (js "archiveSha256") metadata in
  _ ← refuse (negb (is_str chart (get (js "chart") metadata)) || negb (is_str version (get (js "version") metadata))
              || negb (test sha256Digest (str_of recorded)))
        (js "Cached managed Redis chart provenance does not match the installed release.");
  let source := resolve cache (archiveName version) in
  bytes ← call (ReadFile source);
  _ ← refuse (negb (is_str (digest bytes) recorded))
        (js "Cached managed Redis chart archive checksum does not match its provenance metadata.");
  Ret (ChartArchive source (digest bytes)).

Definition copyCachedManagedRedisChart (chart version : jstr) (cache outputDirectory : fspath) : prog chartArchive :=
  cached ← readCachedManagedRedisChart chart version cache;
  let destination := resolve outputDirectory (archiveName version) in
  _ ← call (MkdirP outputDirectory);
  _ ← call (CopyFile (archivePath cached) destination);
  Ret (ChartArchive destination (archiveSha256 cached)).

(** The archive of [prepareManagedRedisChart]: the given one, copied into place,
    the cached one, or a pulled one. *)
Definition obtainArchive (chart version : jstr) (given : option fspath) (destination : fspath) (helm : jstr) (deadline : num) : prog chartArchive :=
  let destinationArchive := resolve destination (archiveName version) in
  match given with
  | Some source =>
      _ ← whenever (negb (bool_decide (source = destinationArchive))) (call (CopyFile source destinationArchive));
      bytes ← call (ReadFile destinationArchive);
      Ret (ChartArchive destinationArchive (digest bytes))
  | None =>
      catch (readCachedManagedRedisChart chart version destination)
        (fun _ => pullManagedRedisChart chart version destination helm deadline)
  end.

Definition prepareManagedRedisChart (chart version pinned : jstr) (given : option fspath) (destination : fspath)
    (helm : jstr) (timeoutSeconds : num) : prog preparedChart :=
  _ ← throwing (validateChartIdentity chart version);
  _ ← refuse (negb (test sha256Digest pinned)) (js "Managed Redis chart archive SHA-256 is invalid.");
  deadline ← lifecycleDeadline timeoutSeconds;
  let chartDirectory := resolve destination (js "redis") in
  _ ← refuse (bool_decide (destination = []) || negb (bool_decide (relative destination chartDirectory = js "redis"))) (unsafeOutput destination);
  _ ← call (MkdirP destination);
  _ ← call (RmRf chartDirectory);
  pulled ← obtainArchive chart version given destination helm deadline;
  _ ← (if negb (bool_decide (archiveSha256 pulled = pinned)) then
         _ ← whenever (bool_decide (given = None)) (call (RmForce (archivePath pulled)));
         fail (js "Managed Redis chart archive checksum mismatch: expected " ++ pinned ++ js ", received " ++ archiveSha256 pulled ++ js ".")
       else Ret tt);
  _ ← runTool (js "tar") [js "-xzf"; show_path (archivePath pulled); js "-C"; show_path destination] deadline;
  let servicePath := resolves chartDirectory [js "templates"; js "sentinel"; js "service.yaml"] in
  source ← call (ReadFile servicePath);
  patched ← throwing (patchSentinelService (str_of source));
  _ ← atomicWrite servicePath patched;
  _ ← atomicWrite (resolve destination (js "chart-source.json"))
        (jsonText (Obj [(js "chart", Str chart); (js "version", Str version); (js "archiveSha256", Str (archiveSha256 pulled))]) ++ newline);
  Ret (PreparedChart chartDirectory servicePath (archiveSha256 pulled)).

Definition managedRedisChartOutput (generatedRoot : fspath) (release chart version : jstr) : result jstr fspath :=
  _ ← validateChartIdentity chart version;
  Ok (resolves generatedRoot [release; js "charts"; js "redis-" ++ version ++ js "-" ++ take 12 (sha256 chart)]).

Definition legacyManagedRedisChartOutput (generatedRoot : fspath) (release version : jstr) : fspath :=
  resolves generatedRoot [release; js "charts"; js "redis-" ++ version].
End chart.

(** ** The patch *)

Lemma replaceFirst_spec p r s : includes p s = true ->
  exists u v, s = u ++ p ++ v /\ replaceFirst p r s = u ++ r ++ v.
Proof.
  intros H. apply includes_spec in H as (u0 & v0 & E). unfold replaceFirst.
  destruct (indexOf p s) as [i|] eqn:Hi; [|by destruct (indexOf_None _ _ Hi u0 v0)].
  apply indexOf_Some in Hi as (u & v & -> & <-). exists u, v. split; [done|].
  rewrite take_app_length. f_equal. f_equal. rewrite app_assoc, drop_app_length'; [done|]. by rewrite length_app.
Qed.

Lemma replaceAll_fuel_absent n c p r s : c ∉ s -> replaceAll_fuel n (c :: p) r s = s.
Proof.
  revert s. induction n as [|n IH]; intros s Hs; [done|]. destruct s as [|d s]; [done|].
  apply not_elem_of_cons in Hs as [Hd Hs]. cbn [replaceAll_fuel startsWith].
  destruct (c =? d)%N eqn:E; [apply N.eqb_eq in E; congruence|]. cbn [andb]. by rewrite IH.
Qed.

Lemma patched_includes u v : includes servicePatched (u ++ serviceReplacement ++ v) = true.
Proof. apply includes_spec. exists u, (serviceType ++ v). unfold serviceReplacement. by rewrite <- !app_assoc. Qed.

(** ** Verified extraction

    The monitor remembers the file read last, until something other than
    reading the clock happens. *)
Section extraction.
Context (parseJSON : jstr -> result jsError value) (jsonText : value -> jstr) (sha256 : jstr -> jstr) (pinned : jstr).

Definition lastRead (m : option (fspath * value)) (r : request) (x : response) : option (fspath * value) :=
  match r, x with
  | ReadFile p, Ok v => Some (p, v)
  | DateNow, _ => m
  | _, _ => None
  end.

Definition extracts (m : option (fspath * value)) (r : request) : Prop :=
  match r with
  | Spawn file args | SpawnInput file args _ =>
      file = js "tar" -> exists p v rest, m = Some (p, v) /\ args = js "-xzf" :: show_path p :: rest /\ digest sha256 v = pinned
  | _ => True
  end.

Abbreviation safe := (ok extracts lastRead).

(** The archive returned is the file read last, with its digest. *)
Definition justRead (m : option (fspath * value)) (r : result jsError chartArchive) : Prop :=
  match r with Ok a => exists v, m = Some (archivePath a, v) /\ archiveSha256 a = digest sha256 v | Throw _ => True end.

Lemma safe_quiet {A} m (p : prog A) Q :
  only (fun r => match r with Spawn _ _ | SpawnInput _ _ _ => False | _ => True end) p -> (forall m r, Q m r) -> safe m p Q.
Proof.
  intros H HQ. revert m. induction p as [a|e|r k IH]; intros m; cbn [ok]; [apply HQ|apply HQ|].
  destruct H as [Hr H]. split; [by destruct r|]. intros x. apply IH, H.
Qed.

Lemma safe_throwing {A} m (r : result jstr A) Q :
  (forall a, r = Ok a -> Q m (Ok a)) -> (forall e, Q m (Throw e)) -> safe m (throwing r) Q.
Proof. destruct r; cbn; auto. Qed.

Lemma safe_tool m file args deadline Q :
  (file = js "tar" -> exists p v rest, m = Some (p, v) /\ args = js "-xzf" :: show_path p :: rest /\ digest sha256 v = pinned) ->
  (forall m r, Q m r) -> safe m (runTool file args deadline) Q.
Proof.
  intros Hf HQ. unfold runTool. apply ok_bind, ok_call; [done|]. intros [now|e]; [|apply HQ].
  apply ok_bind. destruct (nle _ _); [apply HQ|]. cbn [refuse ok lastRead]. apply ok_bind, ok_call; [exact Hf|].
  intros [child|e]; [|apply HQ]. destruct (truthy _); [apply HQ|]. destruct (strict_eq _ _); apply HQ.
Qed.

Lemma safe_cached m chart version cache :
  safe m (readCachedManagedRedisChart parseJSON sha256 chart version cache) justRead.
Proof.
  unfold readCachedManagedRedisChart. apply ok_bind, safe_throwing; [|done]. intros _ _.
  apply ok_bind, ok_call; [done|]. intros [text|e]; [|done]. apply ok_bind.
  destruct (parseJSON (str_of text)) as [metadata|e]; [|done]. cbn [lift ok]. apply ok_bind.
  destruct (_ || _); [done|]. cbn [refuse ok]. apply ok_bind, ok_call; [done|]. intros [bytes|e]; [|done].
  apply ok_bind. destruct (negb _); [done|]. cbn [refuse ok]. exists bytes. done.
Qed.

Lemma safe_pull m chart version destination helm deadline :
  helm <> js "tar" -> safe m (pullManagedRedisChart sha256 chart version destination helm deadline) justRead.
Proof.
  intros Hh. unfold pullManagedRedisChart. apply ok_bind, safe_throwing; [|done]. intros _ _.
  apply ok_bind. destruct (_ || _); [done|]. cbn [refuse ok]. apply ok_bind, ok_call; [done|]. intros [?|e]; [|done].
  apply ok_bind, ok_call; [done|]. intros [?|e]; [|done]. apply ok_bind, safe_tool; [done|]. intros m' [?|e]; [|done].
  apply ok_bind, ok_call; [done|]. intros [bytes|e]; [|done]. exists bytes. done.
Qed.

Lemma safe_obtain m chart version given destination helm deadline :
  helm <> js "tar" -> safe m (obtainArchive parseJSON sha256 chart version given destination helm deadline) justRead.
Proof.
  intros Hh. unfold obtainArchive. destruct given as [source|].
  - apply ok_bind. apply safe_quiet; [repeat only_step; exact I|]. intros m' [u|e]; [|done].
    apply ok_bind, ok_call; [done|]. intros [bytes|e]; [|done]. exists bytes. done.
  - apply ok_catch. eapply ok_weaken; [apply safe_cached|]. intros m' [a|e] H; [done|]. by apply safe_pull.
Qed.

Lemma safe_prepare m chart version given destination helm timeoutSeconds :
  helm <> js "tar" ->
  safe m (prepareManagedRedisChart parseJSON jsonText sha256 chart version pinned given destination helm timeoutSeconds)
    (fun _ r => match r with Ok c => preparedSha256 c = pinned | Throw _ => True end).
Proof.
  intros Hh. unfold prepareManagedRedisChart. apply ok_bind, safe_throwing; [|done]. intros _ _.
  apply ok_bind. destruct (negb _); [done|]. cbn [refuse ok]. apply ok_bind.
  apply safe_quiet; [unfold lifecycleDeadline; repeat only_step; exact I|]. intros m1 [deadline|e]; [|done].
  apply ok_bind. destruct (_ || _); [done|]. cbn [refuse ok]. apply ok_bind, ok_call; [done|]. intros [?|e]; [|done].
  apply ok_bind, ok_call; [done|]. intros [?|e]; [|done].
  apply ok_bind. eapply ok_weaken; [by apply safe_obtain|]. intros m2 [pulled|e] Hp; [|done].
  destruct Hp as (v & -> & Hd). apply ok_bind. destruct (bool_decide_reflect (archiveSha256 pulled = pinned)) as [Hpin|_].
  - cbn [negb ok]. apply ok_bind, safe_tool; [intros _; exists (archivePath pulled), v; eexists; split; [done|split; [done|congruence]]|].
    intros m3 [child|e]; [|done]. apply ok_bind, ok_call; [done|]. intros [source|e]; [|done].
    apply ok_bind, safe_throwing; [|done]. intros patched _. apply ok_bind, safe_quiet.
    { unfold atomicWrite. repeat only_step; exact I. }
    intros m4 [?|e]; [|done]. apply ok_bind, safe_quiet; [unfold atomicWrite; repeat only_step; exact I|].
    intros m5 [?|e]; [|done]. exact Hpin.
  - cbn [negb]. apply ok_bind, safe_quiet; [repeat only_step; exact I|]. intros m3 [?|e]; exact I.
Qed.

Lemma lastRead_after h p v :
  after lastRead None h = Some (p, v) ->
  exists h0 hm, h = h0 ++ (ReadFile p, Ok v) :: hm /\ Forall (fun rx => rx.1 = DateNow) hm.
Proof.
  induction h as [|[r x] h IH] using rev_ind; [done|]. unfold after. rewrite foldl_app. cbn [foldl fst snd].
  intros H. destruct r; try done; destruct x as [w|e]; try done; cbn [lastRead] in H.
  - injection H as -> ->. exists h, []. split; [done|constructor].
  - destruct (IH H) as (h0 & hm & -> & Hm). exists h0, (hm ++ [(DateNow, Ok w)]).
    split; [by rewrite <- app_assoc|]. apply Forall_app; split; [done|by repeat constructor].
  - destruct (IH H) as (h0 & hm & -> & Hm). exists h0, (hm ++ [(DateNow, Throw e)]).
    split; [by rewrite <- app_assoc|]. apply Forall_app; split; [done|by repeat constructor].
Qed.
End extraction.

(** ** Properties *)

(** the patched template is the source with Unix line ends, or that text
    with the reviewed line inserted in its service specification; it always has the
    line, and a template without carriage returns is not patched twice. *)
Theorem patchSentinelService_spec source patched :
  patchSentinelService source = Ok patched ->
  let normalized := replaceAll [13%N; 10%N] newline source in
  (patched = normalized \/
   exists u v, normalized = u ++ serviceNeedle ++ v /\ patched = u ++ serviceReplacement ++ v) /\
  includes servicePatched patched = true /\
  (13%N ∉ patched -> patchSentinelService patched = Ok patched).
Proof.
  intros H. cbv zeta. set (n := replaceAll _ _ source).
  assert (includes servicePatched patched = true /\ (patched = n \/
    exists u v, n = u ++ serviceNeedle ++ v /\ patched = u ++ serviceReplacement ++ v)) as [Hi Hc].
  { unfold patchSentinelService in H. fold n in H. cbv zeta in H.
    destruct (includes servicePatched n) eqn:E1; [apply Ok_inj in H as <-; auto|].
    destruct (includes serviceNeedle n) eqn:E2; [|done]. apply Ok_inj in H as <-.
    destruct (replaceFirst_spec _ serviceReplacement _ E2) as (u & v & -> & ->).
    split; [apply patched_includes|eauto]. }
  split; [done|]. split; [done|]. intros Hcr. unfold patchSentinelService, replaceAll.
  rewrite replaceAll_fuel_absent by done. cbv zeta. by rewrite Hi.
Qed.

Lemma patchSentinelService_spec_witness :
  includes servicePatched (js "kind: Service" ++ newline ++ serviceReplacement) = true.
Proof.
  eapply (patchSentinelService_spec (js "kind: Service" ++ [13%N; 10%N] ++ serviceNeedle)).
  vm_compute. reflexivity.
Defined.

(** C9: whatever the file system and the tools answer, an archive is unpacked
    only when the file named on the command line was read just before, with
    nothing but a clock reading in between, and its SHA-256 digest is the pinned
    one; a chart that is returned carries the pinned digest. *)
Theorem extraction_verified parseJSON jsonText sha256 o chart version pinned given destination helm timeoutSeconds :
  helm <> js "tar" ->
  let '(h, r) := run o (prepareManagedRedisChart parseJSON jsonText sha256 chart version pinned given destination helm timeoutSeconds) in
  (forall h1 args x h2, h = h1 ++ (Spawn (js "tar") args, x) :: h2 ->
    exists p v rest h0 hm,
      h1 = h0 ++ (ReadFile p, Ok v) :: hm /\ Forall (fun rx => rx.1 = DateNow) hm /\
      args = js "-xzf" :: show_path p :: rest /\ js "sha256:" ++ sha256 (str_of v) = pinned) /\
  (forall c, r = Ok c -> preparedSha256 c = pinned).
Proof.
  intros Hh.
  pose proof (ok_run _ _ o None _ _ (safe_prepare parseJSON jsonText sha256 pinned None chart version given destination helm timeoutSeconds Hh)) as Hok.
  destruct (run o _) as [h r]. destruct Hok as [Hc Hr]. split; [|by intros c ->].
  intros h1 args x h2 ->. apply complies_at in Hc.
  destruct (Hc eq_refl) as (p & v & rest & Ha & -> & Hd). destruct (lastRead_after _ _ _ Ha) as (h0 & hm & -> & Hm).
  exists p, v, rest, h0, hm. done.
Qed.

(** A run in which every call succeeds. *)
Definition sample_sha256 (_ : jstr) : jstr := repeat 97%N 64.
Definition sample_template : jstr := serviceNeedle.
Definition sample_oracle : oracle := fun _ r =>
  match r with
  | DateNow => Ok (Number (int 1000))
  | ReadFile _ => Ok (Str sample_template)
  | Spawn _ _ => Ok (Obj [(js "code", Number (int 0))])
  | _ => Ok Undefined
  end.
Definition sample_run : history * result jsError preparedChart :=
  run sample_oracle (prepareManagedRedisChart (fun _ => Ok Null) (fun _ => []) sample_sha256 (js "oci://registry.example/redis") (js "1.2.3")
    (js "sha256:" ++ repeat 97%N 64) (Some [js "backup"; js "redis-1.2.3.tgz"]) [js "out"] (js "helm") (int 300)).

Lemma extraction_verified_witness :
  is_ok sample_run.2 = true /\
  exists p v, (ReadFile p, Ok v) ∈ sample_run.1 /\ js "sha256:" ++ sample_sha256 (str_of v) = js "sha256:" ++ repeat 97%N 64.
Proof.
  split; [vm_compute; reflexivity|].
  pose proof (extraction_verified (fun _ => Ok Null) (fun _ => []) sample_sha256 sample_oracle (js "oci://registry.example/redis") (js "1.2.3")
    (js "sha256:" ++ repeat 97%N 64) (Some [js "backup"; js "redis-1.2.3.tgz"]) [js "out"] (js "helm") (int 300)) as H.
  assert (js "helm" <> js "tar") as Hh by (vm_compute; congruence).
  specialize (H Hh). fold sample_run in H.
  assert (sample_run = (take 6 sample_run.1 ++ (Spawn (js "tar") [js "-xzf"; js "/out/redis-1.2.3.tgz"; js "-C"; js "/out"],
    Ok (Obj [(js "code", Number (int 0))])) :: drop 7 sample_run.1, sample_run.2)) as E by (vm_compute; reflexivity).
  rewrite E in H. destruct H as [H _].
  destruct (H _ _ _ _ eq_refl) as (p & v & rest & h0 & hm & E1 & _ & _ & Hd). exists p, v. split; [|exact Hd].
  rewrite E. cbn [fst]. apply elem_of_app. left. rewrite E1. apply elem_of_app. right. left.
Defined.
