(* ===== verification/LifecycleOptions.v ===== *)
(** * The command line of the lifecycle script

    [parse] of scripts/realtime-bootstrap.mjs and the exit code its last handler
    derives from an error. *)

From stdpp Require Import base tactics option list numbers strings.
From Stdlib Require Import QArith Qround Lia.
From S2P Require Import Prelude JsString JsNumber JsValue Regex ContractPatterns Contract Paths.

Record Options := {
  o_action : jstr;
  o_config : jstr;
  o_profile : option jstr;
  o_timeoutSeconds : num;
  o_dryRun : bool;
  o_confirmTopologyChange : bool;
  o_force : bool;
  o_backup : option jstr;
  o_nameSuffix : option jstr;
  o_manifest : option jstr
}.

(** The options while the arguments are read: [--timeout-seconds] is still text. *)
Record rawOptions := {
  w_config : jstr;
  w_profile : option jstr;
  w_timeout : option jstr;
  w_dryRun : bool;
  w_confirm : bool;
  w_force : bool;
  w_backup : option jstr;
  w_nameSuffix : option jstr;
  w_manifest : option jstr
}.

Definition valuedOptions : list jstr :=
  [js "--config"; js "--profile"; js "--timeout-seconds"; js "--backup"; js "--name-suffix"; js "--manifest"].

(** [result[camelCase(argument)] = value] *)
Definition assign (a v : jstr) (w : rawOptions) : rawOptions :=
  let named n := bool_decide (a = js n) in
  {| w_config := if named "--config"%string then v else w_config w;
     w_profile := if named "--profile"%string then Some v else w_profile w;
     w_timeout := if named "--timeout-seconds"%string then Some v else w_timeout w;
     w_dryRun := w_dryRun w; w_confirm := w_confirm w; w_force := w_force w;
     w_backup := if named "--backup"%string then Some v else w_backup w;
     w_nameSuffix := if named "--name-suffix"%string then Some v else w_nameSuffix w;
     w_manifest := if named "--manifest"%string then Some v else w_manifest w |}.

Definition setFlag (a : jstr) (w : rawOptions) : rawOptions :=
  {| w_config := w_config w; w_profile := w_profile w; w_timeout := w_timeout w;
     w_dryRun := w_dryRun w || bool_decide (a = js "--dry-run");
     w_confirm := w_confirm w || bool_decide (a = js "--confirm-topology-change");
     w_force := w_force w || bool_decide (a = js "--force");
     w_backup := w_backup w; w_nameSuffix := w_nameSuffix w; w_manifest := w_manifest w |}.

Definition flagOptions : list jstr := [js "--dry-run"; js "--confirm-topology-change"; js "--force"].

Fixpoint parseArguments (l : list jstr) (w : rawOptions) : result jstr rawOptions :=
  match l with
  | [] => Ok w
  | a :: l' =>
      if memb a flagOptions then parseArguments l' (setFlag a w)
      else if memb a valuedOptions then
        match l' with
        | v :: l'' =>
            if bool_decide (v = []) || startsWith (js "--") v then Throw (a ++ js " requires a value.")
            else parseArguments l'' (assign a v w)
        | [] => Throw (a ++ js " requires a value.")
        end
      else Throw (js "Unknown argument '" ++ a ++ js "'.")
  end.

(** The suffix pattern of [--name-suffix]: at most 27 characters, dash-separated
    words of lower case letters and digits. *)
Definition nameSuffixPattern : re :=
  atMost 27 (Cat (plus lowerDigit) (Star (Cat (lit (js "-")) (plus lowerDigit)))).

Definition helpArguments : list jstr := [js "help"; js "--help"; js "-h"].

Definition timeoutMessage : jstr := js "--timeout-seconds must be an integer from 60 through 1800.".
Definition suffixMessage : jstr := js "--name-suffix must be a DNS-label suffix from 1 through 27 characters.".
Definition actionMessage : jstr := js "Action must be one of: " ++ join (js ", ") actions ++ js ".".

(** The checks after the loop; a missing action is [undefined]. *)
Definition checkOptions (action : option jstr) (w : rawOptions) : result jstr Options :=
  let timeout := match w_timeout w with Some s => to_number s | None => int 300 end in
  _ ← ensure (match action with Some a => memb a actions | None => false end) actionMessage;
  _ ← ensure (isInteger timeout && negb (nlt timeout (int 60)) && negb (ngt timeout (int 1800))) timeoutMessage;
  _ ← ensure (match w_nameSuffix w with Some s => test nameSuffixPattern s | None => true end) suffixMessage;
  Ok {| o_action := default [] action; o_config := w_config w; o_profile := w_profile w; o_timeoutSeconds := timeout;
        o_dryRun := w_dryRun w; o_confirmTopologyChange := w_confirm w; o_force := w_force w;
        o_backup := w_backup w; o_nameSuffix := w_nameSuffix w; o_manifest := w_manifest w |}.

Definition noOptions (envConfig : option jstr) : rawOptions :=
  {| w_config := default (js "bootstrap/config.example.json") envConfig; w_profile := None; w_timeout := None;
     w_dryRun := false; w_confirm := false; w_force := false; w_backup := None; w_nameSuffix := None; w_manifest := None |}.

(** [parse]; [None] is the help action. *)
Definition parse (envConfig : option jstr) (arguments : list jstr) : result jstr (option Options) :=
  if match arguments with a :: _ => memb a helpArguments | [] => false end then Ok None
  else
    w ← parseArguments (List.tl arguments) (noOptions envConfig);
    o ← checkOptions (head arguments) w;
    Ok (Some o).

(** ** Exit codes *)

(** The messages of a usage or configuration error. *)
Definition usageError : re :=
  starts_with (alts [lit (js "Action must"); lit (js "Unknown argument");
    cats [lit (js "--"); plus dot; lit (js " "); Alt (lit (js "requires")) (lit (js "must"))];
    lit (js "--timeout-seconds")]).
Definition usageMentions : list jstr :=
  [js "Configuration is invalid"; js "Requested profile"; js "Cannot read JSON"; js "Derived Helm release"].
Definition refusalMentions : list jstr :=
  [js "requires --"; js "requires an explicit migration"; js "forbidden for production"; js "Target mismatch";
   js "Backup target does not match"; js "target lock"; js "organization lock"; js "already been restored"].

Definition mentions (l : list jstr) (m : jstr) : bool := existsb (fun w => includes w m) l.

Definition processExitCode (e : jsError) : Z :=
  let c := default 0 (exitCode e) in
  if memb c [1; 2; 3] then c
  else if test usageError (emessage e) || mentions usageMentions (emessage e) then 2
  else if mentions refusalMentions (emessage e) then 3
  else 1.

(** ** Properties *)

Lemma parseArguments_error l w m :
  parseArguments l w = Throw m ->
  (exists a, a ∈ valuedOptions /\ m = a ++ js " requires a value.") \/ exists a, m = js "Unknown argument" ++ a.
Proof.
  remember (length l) as n eqn:Hn. revert l w Hn. induction (lt_wf n) as [n _ IH]. intros [|a l] w -> H; [done|].
  cbn [parseArguments] in H. destruct (memb a flagOptions).
  { eapply (IH (length l)); [cbn; lia|done|exact H]. }
  destruct (memb a valuedOptions) eqn:Ha.
  - apply memb_spec in Ha. destruct l as [|v l]; [injection H as <-; eauto|].
    destruct (_ || _); [injection H as <-; eauto|]. eapply (IH (length l)); [cbn; lia|done|exact H].
  - injection H as <-. right. exists (js " '" ++ a ++ js "'."). by rewrite app_assoc.
Qed.

Lemma test_prefix p u v : lang p u -> test (starts_with p) (u ++ v) = true.
Proof.
  intros Hu. rewrite test_spec. exists u, v. split; [done|]. split; [done|]. exists ((fun c => [c]) <$> v). split.
  - induction v as [|c v IH]; [done|]. cbn. by f_equal.
  - apply Forall_fmap, Forall_true. intros c. exists c. split; [done|]. reflexivity.
Qed.

(** An error of the command line ends the process with code 2. *)
Lemma usage_exit m : test usageError m = true -> processExitCode (newError m) = 2.
Proof. intros H. unfold processExitCode. cbn [emessage exitCode newError default]. by rewrite H. Qed.

Lemma checkOptions_error action w m : checkOptions action w = Throw m -> m = actionMessage \/ m = timeoutMessage \/ m = suffixMessage.
Proof.
  unfold checkOptions. cbv zeta. intros H. apply bind_Throw in H as [H%ensure_Throw|(? & _ & H)]; [auto|].
  apply bind_Throw in H as [H%ensure_Throw|(? & _ & H)]; [auto|].
  apply bind_Throw in H as [H%ensure_Throw|(? & _ & H)]; [auto|done].
Qed.

Lemma timeout_range n :
  isInteger n && negb (nlt n (int 60)) && negb (ngt n (int 1800)) = true -> exists z, to_Z n = Some z /\ 60 <= z <= 1800.
Proof.
  intros [[Hi H1]%andb_true_iff H2]%andb_true_iff. apply negb_true_iff in H1, H2. destruct n as [| |q]; try done.
  cbn in Hi. unfold to_Z. rewrite Hi. exists (Qfloor q). split; [done|]. unfold int, ngt in *. cbn in H1, H2.
  apply negb_false_iff, Qle_bool_iff in H1, H2. apply Qfloor_resp_le in H1, H2. rewrite Qfloor_Z in H1, H2. lia.
Qed.

(** the command line is accepted only with a known action, a timeout that
    is an integer between 60 and 1800 and, when given, a suffix that is a valid name
    part; every rejection ends the process with the usage exit code 2. *)
Theorem parse_sound envConfig arguments :
  match parse envConfig arguments with
  | Ok None => exists a rest, arguments = a :: rest /\ a ∈ helpArguments
  | Ok (Some o) =>
      o_action o ∈ actions /\ (exists z, to_Z (o_timeoutSeconds o) = Some z /\ 60 <= z <= 1800) /\
      (forall s, o_nameSuffix o = Some s -> test nameSuffixPattern s = true)
  | Throw m => processExitCode (newError m) = 2
  end.
Proof.
  unfold parse. destruct (match arguments with a :: _ => memb a helpArguments | [] => false end) eqn:Hh.
  { destruct arguments as [|a rest]; [done|]. apply memb_spec in Hh. eauto. }
  destruct (parseArguments _ _) as [w|m] eqn:Ep; cbn [mbind result_bind].
  - destruct (checkOptions (head arguments) w) as [o|m] eqn:Ec; cbn [mbind result_bind].
    + revert Ec. unfold checkOptions. cbv zeta. intros (u1 & H1%ensure_Ok & Ec)%bind_Ok.
      apply bind_Ok in Ec as (u2 & H2%ensure_Ok & Ec). apply bind_Ok in Ec as (u3 & H3%ensure_Ok & Ec).
      apply Ok_inj in Ec as <-. cbn [o_action o_timeoutSeconds o_nameSuffix]. split.
      { destruct (head arguments) as [a|]; [by apply memb_spec|done]. }
      split; [by apply timeout_range|]. intros s Hs. by rewrite Hs in H3.
    + destruct (checkOptions_error _ _ _ Ec) as [->|[->| ->]]; vm_compute; reflexivity.
  - apply usage_exit. destruct (parseArguments_error _ _ _ Ep) as [(a & Ha & ->)|(a & ->)].
    + unfold valuedOptions in Ha. repeat (apply elem_of_cons in Ha as [-> |Ha]; [vm_compute; reflexivity|]). by apply elem_of_nil in Ha.
    + apply test_prefix. right. left. rewrite <- test_spec. vm_compute. reflexivity.
Qed.
