(* ===== verification/Layout.v ===== *)
(** * Organizing the bootstrap directory

    scripts/lib/bootstrap-environment.mjs: legacy artifacts of the .bootstrap
    directory are moved below env/<environment>/, a manifest records each move
    before and after it happens, and restore-layout undoes the moves of a
    manifest.  Both run under a lock directory. *)

From stdpp Require Import base tactics option list numbers strings sorting.
From Stdlib Require Import Lia.
From S2P Require Import Prelude JsString JsNumber JsValue JsDate Regex ContractPatterns Contract ContractPlan Paths Effects.

Definition canonicalEnvironments : list jstr := [js "dev"; js "test"; js "prod"].

Definition layoutError (message : jstr) (code : Z) : jsError := JsError message [] (Some code).

(** ** Names *)

(** The tokens [{...}] of a template. *)
Fixpoint tokens (fuel : nat) (s : jstr) : list jstr :=
  match fuel with
  | O => []
  | S n =>
      match s with
      | [] => []
      | c :: s' =>
          if (c =? 123)%N then
            match span (fun d => negb (d =? 125)%N) s' with
            | ((_ :: _) as token, _ :: rest) => token :: tokens n rest
            | _ => tokens n s'
            end
          else tokens n s'
      end
  end.

Definition unknownTokens (template : jstr) : list jstr :=
  filter (fun t => t <> js "environment") (tokens (length template) template).

Definition expandEnvironmentPath (pathTemplate environment : value) : result jstr jstr :=
  match pathTemplate with
  | Str template =>
      _ ← ensure (isValidEnvironmentName environment)
            (js "Environment '" ++ str_of environment ++ js "' is not a valid bootstrap environment name.");
      _ ← ensure (bool_decide (unknownTokens template = []))
            (js "Unsupported bootstrap path token(s): " ++ join (js ", ") (dedupe (unknownTokens template)) ++ js ".");
      Ok (replaceAll (js "{environment}") (str_of environment) template)
  | _ => Throw (js "Environment path template must be a string.")
  end.

(** The environment of a name [prefix SEPARATOR environment], followed by a dot
    or the end; the longest run of lower case letters and digits is taken,
    which is the only one a dot or the end can follow. *)
Definition artifactEnvironment (prefixes : list jstr) (separator : N) (name : jstr) : option jstr :=
  match span (fun c => negb (c =? separator)%N) name with
  | (prefix, _ :: rest) =>
      let '(environment, after) := span (in_class false [lower_r; digit_r]) rest in
      if memb prefix prefixes && test (rep 1 10 lowerDigit) environment
         && match after with [] => true | c :: _ => (c =? 46)%N end
      then Some environment else None
  | _ => None
  end.

Definition dotPrefixes : list jstr := js <$> ["bootstrap"; "config"; "install"; "plan"; "update"; "validate"]%string.
Definition hyphenPrefixes : list jstr := js <$> ["gateway"; "redis"]%string.

Definition classifyLegacyBootstrapArtifact (name : jstr) : option jstr :=
  let found := match artifactEnvironment dotPrefixes 46 name with
               | Some e => Some e
               | None => artifactEnvironment hyphenPrefixes 45 name
               end in
  e ← found; if isValidEnvironmentName (Str e) then Some e else None.

(** The order of [sort()] on strings. *)
Definition textOrder (a b : jstr) : Prop := js_le a b = true.
#[global] Instance textOrder_dec : RelDecision textOrder.
Proof. intros a b. unfold textOrder. apply _. Defined.

(** ** Locks *)

Definition lockAge : Z := 2 * 60 * 60 * 1000.

Section layout.
Context (jsonText : value -> jstr) (parseJSON : jstr -> result jsError value) (dateFallback : jstr -> option Z).

Definition processExists (pid : value) : prog bool :=
  if negb (isIntegerValue pid) || nlt (num_of pid) (int 1) then Ret false
  else catch (_ ← call (KillZero pid); Ret true) (fun e => Ret (bool_decide (ecode e = js "EPERM"))).

Definition millis (v : value) : Z := default 0 (to_Z (num_of v)).

(** [{ createdAt, hostname, pid, token }] of the running process. *)
Definition newOwner : prog (jstr * value) :=
  now ← call DateNow;
  host ← call Hostname;
  pid ← call Pid;
  token ← call RandomUUID;
  Ret (str_of token, Obj [(js "createdAt", Str (toISOString (millis now))); (js "hostname", host); (js "pid", pid); (js "token", token)]).

(** Whether the owner record of a lock names a process that is gone, or, on
    another host, was written more than two hours ago. *)
Definition staleOwner (existing : value) : prog bool :=
  _ ← throwing (reads existing);
  now ← call DateNow;
  host ← call Hostname;
  if strict_eq (get (js "hostname") existing) host then
    alive ← processExists (get (js "pid") existing); Ret (negb alive)
  else Ret (match date_parse dateFallback (str_of (get (js "createdAt") existing)) with
            | Some created => (lockAge <? millis now - created)%Z
            | None => false
            end).

Definition staleDirectory (lockPath : fspath) : prog bool :=
  now ← call DateNow;
  info ← call (Stat lockPath);
  Ret (lockAge <? millis now - millis (get (js "mtimeMs") info))%Z.

(** Creating the lock directory and writing the owner record. *)
Definition takeLock (lockPath : fspath) (owner : value) : prog unit :=
  _ ← call (Mkdir lockPath);
  atomicWrite (resolve lockPath (js "owner.json")) (stableJson jsonText owner).

Definition stalePathOf (lockPath : fspath) (token : jstr) : fspath :=
  dirname lockPath ++ [basename lockPath ++ js ".stale-" ++ token].

(** The takeover of a stale lock: it is moved aside, the lock is taken, and the
    old directory removed. *)
Definition takeOver (lockPath : fspath) (owner : value) (token : jstr) (held : jsError) : prog unit :=
  _ ← catch (_ ← call (Rename lockPath (stalePathOf lockPath token)); Ret tt)
        (fun e => if bool_decide (ecode e = js "ENOENT") then Ret tt else Raise e);
  finally
    (catch (takeLock lockPath owner)
       (fun e => if bool_decide (ecode e = js "EEXIST") then Raise held else Raise e))
    (_ ← call (RmRf (stalePathOf lockPath token)); Ret tt).

(** The first attempt: whether the lock was free. *)
Definition tryLock (lockPath : fspath) (owner : value) : prog bool :=
  catch (_ ← takeLock lockPath owner; Ret true)
    (fun e => if bool_decide (ecode e = js "EEXIST") then Ret false else Raise e).

Definition lockHeld (lockPath : fspath) : jsError :=
  layoutError (js "Another bootstrap environment operation holds the organization lock '" ++ show_path lockPath ++ js "'.") 3.

(** ** Symbolic links *)

Fixpoint checkSegments (current : fspath) (segments : list jstr) (label : jstr) : prog unit :=
  match segments with
  | [] => Ret tt
  | segment :: rest =>
      let current := resolve current segment in
      more ← catch
        (info ← call (Lstat current);
         if truthy (get (js "isSymbolicLink") info)
         then Raise (layoutError (label ++ js " cannot traverse symbolic link '" ++ show_path current ++ js "'.") 3)
         else Ret true)
        (fun e => if bool_decide (ecode e = js "ENOENT") then Ret false else Raise e);
      if (more : bool) then checkSegments current rest label else Ret tt
  end.

Definition assertNoSymlinkSegments (root target : fspath) (includeTarget : bool) (label : jstr) : prog unit :=
  let segments := filter (fun w => w <> []) (split_on 47 (relative root target)) in
  checkSegments root (take (if includeTarget then length segments else length segments - 1) segments) label.

Definition acquireOrganizationLock (bootstrapRoot : fspath) : prog (fspath * jstr) :=
  let locksRoot := resolve bootstrapRoot (js "locks") in
  let lockPath := resolve locksRoot (js "environment-organization") in
  owner ← newOwner;
  _ ← assertNoSymlinkSegments bootstrapRoot locksRoot true (js "Bootstrap locks root");
  _ ← call (MkdirP locksRoot);
  free ← tryLock lockPath owner.2;
  if (free : bool) then Ret (lockPath, owner.1)
  else
    stale ← catch (text ← call (ReadFile (resolve lockPath (js "owner.json")));
                   existing ← lift (parseJSON (str_of text));
                   staleOwner existing)
                  (fun _ => staleDirectory lockPath);
    if negb stale then Raise (lockHeld lockPath)
    else _ ← takeOver lockPath owner.2 owner.1 (lockHeld lockPath); Ret (lockPath, owner.1).

Definition releaseOrganizationLock (lockPath : fspath) (token : jstr) : prog unit :=
  catch (text ← call (ReadFile (resolve lockPath (js "owner.json")));
         owner ← lift (parseJSON (str_of text));
         _ ← throwing (reads owner);
         whenever (is_str token (get (js "token") owner)) (call (RmRf lockPath)))
        (fun e => if bool_decide (ecode e = js "ENOENT") then Ret tt else Raise e).

(** ** Inventory *)

Record Inventory := { moves : list value; retained : list value; collisions : list value }.
Definition noInventory : Inventory := {| moves := []; retained := []; collisions := [] |}.

Definition retainedValue (name reason : jstr) : value := Obj [(js "name", Str name); (js "reason", Str reason)].
Definition moveValue (environment source destination : jstr) : value :=
  Obj [(js "environment", Str environment); (js "source", Str source); (js "destination", Str destination)].
Definition collisionValue (source destination : jstr) (identical : bool) : value :=
  Obj [(js "source", Str source); (js "destination", Str destination); (js "identical", Boolean identical)].

Context (sha256 : jstr -> jstr).

Definition sha256File (p : fspath) : prog jstr := content ← call (ReadFile p); Ret (sha256 (str_of content)).

Definition identicalFiles (source destination : fspath) : prog bool :=
  s ← call (Stat source);
  d ← call (Stat destination);
  if truthy (get (js "isFile") s) && truthy (get (js "isFile") d) && strict_eq (get (js "size") s) (get (js "size") d)
  then a ← sha256File source; b ← sha256File destination; Ret (bool_decide (a = b))
  else Ret false.

Definition inventoryEntry (bootstrapRoot environmentRoot : fspath) (entry : value) (i : Inventory) : prog Inventory :=
  let name := str_of (get (js "name") entry) in
  if negb (truthy (get (js "isFile") entry)) then
    Ret {| moves := moves i; retained := retained i ++ [retainedValue name (js "shared-or-directory")]; collisions := collisions i |}
  else
    match classifyLegacyBootstrapArtifact name with
    | None => Ret {| moves := moves i; retained := retained i ++ [retainedValue name (js "unrecognized")]; collisions := collisions i |}
    | Some environment =>
        let source := resolve bootstrapRoot name in
        let destination := resolves environmentRoot [environment; name] in
        _ ← lift (assertPathInside bootstrapRoot source (js "legacy bootstrap artifact"));
        _ ← lift (assertPathInside environmentRoot destination (js "environment bootstrap artifact"));
        _ ← assertNoSymlinkSegments bootstrapRoot destination false (js "Environment bootstrap artifact");
        exists_ ← fileExists destination;
        let from := portableRelative bootstrapRoot source in
        let to := portableRelative bootstrapRoot destination in
        if (exists_ : bool) then
          identical ← identicalFiles source destination;
          Ret {| moves := moves i; retained := retained i; collisions := collisions i ++ [collisionValue from to identical] |}
        else Ret {| moves := moves i ++ [moveValue environment from to]; retained := retained i; collisions := collisions i |}
    end.

Fixpoint inventoryEntries (bootstrapRoot environmentRoot : fspath) (entries : list value) (i : Inventory) : prog Inventory :=
  match entries with
  | [] => Ret i
  | e :: l => i' ← inventoryEntry bootstrapRoot environmentRoot e i; inventoryEntries bootstrapRoot environmentRoot l i'
  end.

Definition inventory (bootstrapRoot environmentRoot : fspath) : prog Inventory :=
  present ← fileExists bootstrapRoot;
  if negb present then Ret noInventory
  else entries ← call (ReadDir bootstrapRoot); inventoryEntries bootstrapRoot environmentRoot (items_of entries) noInventory.

(** ** Organizing *)

(** The manifest object; the fields change while the moves are made. *)
Record Manifest := {
  timestamp : jstr;
  m_dryRun : bool;
  status : jstr;
  completedMoves : list value;
  environmentRootName : jstr;
  environments : list jstr;
  contents : Inventory;
  currentMove : option value;
  m_error : option jstr
}.

Definition manifestValue (m : Manifest) : value :=
  Obj ([ (js "schemaVersion", Number (int 1)); (js "operation", Str (js "organize-bootstrap-environments"));
         (js "timestamp", Str (timestamp m)); (js "dryRun", Boolean (m_dryRun m)); (js "status", Str (status m));
         (js "completedMoves", Arr (completedMoves m)); (js "environmentRoot", Str (environmentRootName m));
         (js "environments", Arr (Str <$> environments m)); (js "moves", Arr (moves (contents m)));
         (js "retained", Arr (retained (contents m))); (js "collisions", Arr (collisions (contents m))) ]
       ++ match currentMove m with Some v => [(js "currentMove", v)] | None => [] end
       ++ match m_error m with Some e => [(js "error", Str e)] | None => [] end).

Definition with_current (v : option value) (m : Manifest) : Manifest :=
  {| timestamp := timestamp m; m_dryRun := m_dryRun m; status := status m; completedMoves := completedMoves m;
     environmentRootName := environmentRootName m; environments := environments m; contents := contents m;
     currentMove := v; m_error := m_error m |}.
Definition with_completed (v : value) (m : Manifest) : Manifest :=
  {| timestamp := timestamp m; m_dryRun := m_dryRun m; status := status m; completedMoves := completedMoves m ++ [v];
     environmentRootName := environmentRootName m; environments := environments m; contents := contents m;
     currentMove := None; m_error := m_error m |}.
Definition with_status (s : jstr) (e : option jstr) (m : Manifest) : Manifest :=
  {| timestamp := timestamp m; m_dryRun := m_dryRun m; status := s; completedMoves := completedMoves m;
     environmentRootName := environmentRootName m; environments := environments m; contents := contents m;
     currentMove := currentMove m; m_error := e |}.

Definition saveManifest (manifestPath : fspath) (m : Manifest) : prog unit :=
  atomicWrite manifestPath (stableJson jsonText (manifestValue m)).

Definition moveSource (move : value) : jstr := str_of (get (js "source") move).
Definition moveDestination (move : value) : jstr := str_of (get (js "destination") move).

(** The manifest is a mutable object: the handler of a failed move sees the
    fields as the move left them, so the loop returns it together with the
    error that stopped it. *)
Definition applyMove (bootstrapRoot manifestPath : fspath) (move : value) (m : Manifest) : prog (Manifest * option jsError) :=
  let source := resolve bootstrapRoot (moveSource move) in
  let destination := resolve bootstrapRoot (moveDestination move) in
  let m1 := with_current (Some move) m in
  let m2 := with_completed move m1 in
  prepared ← catch
    (_ ← assertNoSymlinkSegments bootstrapRoot destination false (js "Environment bootstrap artifact");
     _ ← call (MkdirP (dirname destination));
     _ ← assertNoSymlinkSegments bootstrapRoot destination false (js "Environment bootstrap artifact");
     Ret None) (fun e => Ret (Some e));
  match prepared with
  | Some e => Ret (m, Some e)
  | None =>
      moved ← catch (_ ← saveManifest manifestPath m1; _ ← call (Rename source destination); Ret None) (fun e => Ret (Some e));
      match moved with
      | Some e => Ret (m1, Some e)
      | None => saved ← catch (_ ← saveManifest manifestPath m2; Ret None) (fun e => Ret (Some e)); Ret (m2, saved)
      end
  end.

Fixpoint applyMoves (bootstrapRoot manifestPath : fspath) (l : list value) (m : Manifest) : prog (Manifest * option jsError) :=
  match l with
  | [] => Ret (m, None)
  | move :: l' =>
      r ← applyMove bootstrapRoot manifestPath move m;
      match r.2 with
      | Some e => Ret r
      | None => applyMoves bootstrapRoot manifestPath l' r.1
      end
  end.

Definition discoveredEnvironments (l : list value) : list jstr :=
  merge_sort textOrder
    (filter (fun e => e ∉ canonicalEnvironments) (dedupe ((fun m => str_of (get (js "environment") m)) <$> l))).

(** Recording the manifest, the moves, and the final or the error record. *)
Definition applyOrganization (bootstrapRoot manifestPath : fspath) (manifest : Manifest) : prog (Manifest * option fspath) :=
  _ ← saveManifest manifestPath manifest;
  r ← applyMoves bootstrapRoot manifestPath (moves (contents manifest)) manifest;
  let applied := with_status (js "applied") None r.1 in
  stopped ← match r.2 with
            | Some e => Ret (Some (r.1, e))
            | None => catch (_ ← saveManifest manifestPath applied; Ret None) (fun e => Ret (Some (applied, e)))
            end;
  match stopped with
  | None => Ret (applied, Some manifestPath)
  | Some (m, e) =>
      let incomplete := with_status (js "incomplete") (Some (emessage e)) m in
      _ ← saveManifest manifestPath incomplete;
      fail (js "Bootstrap environment organization stopped after " ++ show_Z (Z.of_nat (length (completedMoves m)))
        ++ js " move(s); restore with manifest '" ++ show_path manifestPath ++ js "' before retrying: " ++ emessage e)
  end.

Definition organizeBootstrapEnvironmentLocked (repositoryRoot : fspath) (dryRun : bool) (bootstrapRoot : fspath) : prog (Manifest * option fspath) :=
  let environmentRoot := resolve bootstrapRoot (js "env") in
  let organizationRoot := resolve bootstrapRoot (js "organization") in
  _ ← assertNoSymlinkSegments bootstrapRoot environmentRoot true (js "Bootstrap environment root");
  _ ← whenever (negb dryRun) (assertNoSymlinkSegments bootstrapRoot organizationRoot true (js "Bootstrap organization root"));
  result ← inventory bootstrapRoot environmentRoot;
  _ ← (if bool_decide (collisions result <> []) && negb dryRun then
         Raise (layoutError (js "Bootstrap environment organization found " ++ show_Z (Z.of_nat (length (collisions result)))
           ++ js " destination collision(s); review a dry run and resolve them before applying.") 3)
       else Ret tt);
  now ← call DateNow;
  let timestamp := toISOString (millis now) in
  let manifest := {| timestamp := timestamp; m_dryRun := dryRun; status := if dryRun then js "preview" else js "applying";
                     completedMoves := []; environmentRootName := portableRelative repositoryRoot environmentRoot;
                     environments := canonicalEnvironments ++ discoveredEnvironments (moves result);
                     contents := result; currentMove := None; m_error := None |} in
  if dryRun then Ret (manifest, None)
  else
    _ ← each (fun e => _ ← call (MkdirP (resolve environmentRoot e)); Ret tt) (environments manifest);
    let manifestPath := resolve organizationRoot (replaceAll (js ":") (js "-") timestamp ++ js ".json") in
    applyOrganization bootstrapRoot manifestPath manifest.

Definition organizeBootstrapEnvironment (repositoryRoot : fspath) (dryRun : bool) : prog (Manifest * option fspath) :=
  let bootstrapRoot := resolve repositoryRoot (js ".bootstrap") in
  _ ← assertNoSymlinkSegments repositoryRoot bootstrapRoot true (js "Bootstrap root");
  if dryRun then organizeBootstrapEnvironmentLocked repositoryRoot dryRun bootstrapRoot
  else
    lock ← acquireOrganizationLock bootstrapRoot;
    finally (organizeBootstrapEnvironmentLocked repositoryRoot dryRun bootstrapRoot) (releaseOrganizationLock lock.1 lock.2).

(** ** Restoring *)

Record Restored := { restoredCount : nat; plannedCount : nat; restoredManifest : fspath; r_dryRun : bool }.

(** [resolve] of a document field, which must be a string. *)
Definition pathArgument (v : value) : prog jstr :=
  match v with Str s => Ret s | _ => fail (js "The path argument must be of type string.") end.

Definition sameMove (a b : value) : bool :=
  strict_eq (get (js "source") a) (get (js "source") b) && strict_eq (get (js "destination") a) (get (js "destination") b).

(** The moves a manifest may have made: those completed and the current one. *)
Definition recordedMoves (manifest : value) : list value :=
  let completed := get (js "completedMoves") manifest in
  let current := get (js "currentMove") manifest in
  let l := if isArray completed then items_of completed else items_of (get (js "moves") manifest) in
  if truthy current && negb (existsb (fun move => sameMove move current) l) then l ++ [current] else l.

(** Whether a move still has to be undone; both or neither file present is an error. *)
Definition pendingMove (bootstrapRoot : fspath) (move : value) : prog bool :=
  from ← pathArgument (get (js "destination") move);
  to ← pathArgument (get (js "source") move);
  let source := resolve bootstrapRoot from in
  let destination := resolve bootstrapRoot to in
  _ ← lift (assertPathInside bootstrapRoot source (js "organized bootstrap artifact"));
  _ ← lift (assertPathInside bootstrapRoot destination (js "restored bootstrap artifact"));
  _ ← assertNoSymlinkSegments bootstrapRoot source false (js "Organized bootstrap artifact");
  _ ← assertNoSymlinkSegments bootstrapRoot destination false (js "Restored bootstrap artifact");
  sourceExists ← fileExists source;
  destinationExists ← fileExists destination;
  if (sourceExists : bool) && (destinationExists : bool) then
    Raise (layoutError (js "Cannot restore '" ++ to ++ js "' because the destination already exists.") 3)
  else if negb sourceExists && negb destinationExists then
    Raise (layoutError (js "Cannot restore missing organized artifact '" ++ from ++ js "'.") 3)
  else Ret (sourceExists : bool).

Fixpoint pendingMoves (bootstrapRoot : fspath) (l : list value) : prog (list value) :=
  match l with
  | [] => Ret []
  | move :: l' =>
      pending ← pendingMove bootstrapRoot move;
      rest ← pendingMoves bootstrapRoot l';
      Ret (if (pending : bool) then move :: rest else rest)
  end.

Definition undoMove (bootstrapRoot : fspath) (move : value) : prog unit :=
  _ ← call (Rename (resolve bootstrapRoot (moveDestination move)) (resolve bootstrapRoot (moveSource move))); Ret tt.

Definition restoreBootstrapEnvironmentLocked (repositoryRoot : fspath) (manifestPath : jstr) (dryRun : bool) (bootstrapRoot : fspath) : prog Restored :=
  let organizationRoot := resolve bootstrapRoot (js "organization") in
  let absoluteManifest := resolve repositoryRoot manifestPath in
  _ ← lift (assertPathInside organizationRoot absoluteManifest (js "bootstrap organization manifest"));
  _ ← assertNoSymlinkSegments bootstrapRoot organizationRoot true (js "Bootstrap organization root");
  _ ← assertNoSymlinkSegments bootstrapRoot absoluteManifest true (js "Bootstrap organization manifest");
  manifest ← catch (text ← call (ReadFile absoluteManifest); lift (parseJSON (str_of text)))
               (fun e => Raise (layoutError (js "Bootstrap organization manifest is invalid: " ++ emessage e) 2));
  _ ← (if negb (strict_eq (optget (js "schemaVersion") manifest) (Number (int 1)))
          || negb (is_str (js "organize-bootstrap-environments") (optget (js "operation") manifest))
          || negb (isArray (optget (js "moves") manifest))
       then Raise (layoutError (js "Bootstrap organization manifest is invalid or unsupported.") 2) else Ret tt);
  _ ← (if is_str (js "restored") (get (js "status") manifest)
       then Raise (layoutError (js "Bootstrap organization manifest has already been restored.") 3) else Ret tt);
  movesToRestore ← pendingMoves bootstrapRoot (rev (recordedMoves manifest));
  let n := length movesToRestore in
  if dryRun then Ret {| restoredCount := 0; plannedCount := n; restoredManifest := absoluteManifest; r_dryRun := true |}
  else
    _ ← each (undoMove bootstrapRoot) movesToRestore;
    now ← call DateNow;
    let restored := Obj (set_prop (js "restoredAt") (Str (toISOString (millis now)))
                      (set_prop (js "status") (Str (js "restored")) (delete_prop (js "currentMove") (props_of manifest)))) in
    _ ← atomicWrite absoluteManifest (stableJson jsonText restored);
    Ret {| restoredCount := n; plannedCount := n; restoredManifest := absoluteManifest; r_dryRun := false |}.

Definition restoreBootstrapEnvironment (repositoryRoot : fspath) (manifestPath : jstr) (dryRun : bool) : prog Restored :=
  let bootstrapRoot := resolve repositoryRoot (js ".bootstrap") in
  _ ← assertNoSymlinkSegments repositoryRoot bootstrapRoot true (js "Bootstrap root");
  if dryRun then restoreBootstrapEnvironmentLocked repositoryRoot manifestPath dryRun bootstrapRoot
  else
    lock ← acquireOrganizationLock bootstrapRoot;
    finally (restoreBootstrapEnvironmentLocked repositoryRoot manifestPath dryRun bootstrapRoot) (releaseOrganizationLock lock.1 lock.2).
End layout.
