(* ===== verification/Lifecycle.v ===== *)
(** * The lifecycle script

    scripts/realtime-bootstrap.mjs: loading the contract, the locks, the
    inspection of the cluster, the captured state, and the helm and kubectl
    commands of each action, as programs over requests.  The platform is POSIX;
    the text of the log events is not modelled beyond level, phase and message. *)

From stdpp Require Import base tactics option list numbers strings.
From S2P Require Import Prelude JsString JsNumber JsValue Regex ContractPatterns Contract ContractPlan Paths.
From S2P Require Import Effects Chart LifecycleOptions JsDate Layout.

(** ** Property access *)

(** [v.k], [v?.k] and [v.k] for text *)
Definition prop (k : string) (v : value) : value := get (js k) v.
Definition oprop (k : string) (v : value) : value := optget (js k) v.
Definition text (k : string) (v : value) : jstr := str_of (prop k v).

(** [o.k = v] on an object. *)
Definition put (k : string) (v o : value) : value :=
  match o with Obj l => Obj (set_prop (js k) v l) | _ => o end.
(** [o.s.k = v] on nested objects. *)
Definition put2 (s k : string) (v o : value) : value := put s (put k v (prop s o)) o.

Definition elements (v : value) : list value := items_of v.

(** What [main] adds to the options before the cluster is used. *)
Record Session := {
  options : Options;
  kubeContext : jstr;
  generatedRoot : fspath;
  backupRoot : fspath;
  targetName : jstr
}.

Definition action (s : Session) : jstr := o_action (options s).
Definition isAction (s : Session) (l : list string) : bool := memb (action s) (js <$> l).
Definition timeoutText (s : Session) : jstr := from_option show_Z [] (to_Z (o_timeoutSeconds (options s))).
Definition timeoutArgument (s : Session) : jstr := js "--timeout=" ++ timeoutText s ++ js "s".

(** ** Commands *)

(** [/(?:^|[\\/])name(?:\.exe)?$/i] *)
Definition tool (name : string) : re :=
  Cat (opt (ends_in (Cls false [(92, 92); (47, 47)]%N))) (Cat (lit_i (js name)) (opt (lit_i (js ".exe")))).

Definition contextVerbs : list jstr := [js "list"; js "get"; js "upgrade"; js "uninstall"; js "rollback"].

Definition isContextQuery (args : list jstr) : bool :=
  match args with a :: b :: _ => bool_decide (a = js "config") && bool_decide (b = js "current-context") | _ => false end.

(** The arguments with the configured context, for the tools that reach a cluster. *)
Definition contextArguments (context file : jstr) (args : list jstr) : list jstr :=
  args
  ++ (if negb (bool_decide (context = [])) && test (tool "kubectl") file && negb (isContextQuery args)
      then [js "--context"; context] else [])
  ++ (if negb (bool_decide (context = [])) && test (tool "helm") file
         && match args with a :: _ => memb a contextVerbs | [] => false end
      then [js "--kube-context"; context] else []).

Definition emit (level phase message : jstr) : prog unit := _ ← call (Emit level phase message); Ret tt.

Section lifecycle.
Context (isIP : jstr -> Z) (newURL : value -> option Url) (jsonText : value -> jstr) (sha256 : jstr -> jstr).
Context (parseJSON : jstr -> result jsError value) (dateFallback : jstr -> option Z) (repositoryRoot cwd : fspath).

Definition command (s : Session) (file : jstr) (args : list jstr) (description : jstr) : prog jstr :=
  _ ← emit (js "info") (action s) description;
  child ← call (Spawn file (contextArguments (kubeContext s) file args));
  if truthy (prop "timedOut" child) then
    fail (description ++ js " exceeded " ++ timeoutText s ++ js " seconds and the child process was terminated.")
  else if strict_eq (prop "code" child) (Number (int 0)) then Ret (trim (text "stdout" child))
  else fail (description ++ js " failed with exit code " ++ exitCode_text (prop "code" child) ++ js ".").

Definition kubectl (s : Session) (args : list jstr) (description : string) : prog jstr := command s (js "kubectl") args (js description).
Definition helm (s : Session) (args : list jstr) (description : jstr) : prog jstr := command s (js "helm") args description.

Definition parseDocument (document : jstr) : prog value := lift (parseJSON document).

Definition currentContext (s : Session) : prog jstr := kubectl s [js "config"; js "current-context"] "Read current Kubernetes context".

Definition assertContext (s : Session) (target : value) : prog unit :=
  context ← currentContext s;
  refuse (negb (is_str context (prop "context" target)))
    (js "Target mismatch: expected Kubernetes context '" ++ text "context" target ++ js "', found '" ++ context ++ js "'.").

Definition clusterInfo (s : Session) : prog jstr := kubectl s [js "cluster-info"; js "--request-timeout=15s"] "Reach Kubernetes API".

Definition targetReleaseListArguments (target : value) : list jstr :=
  [js "list"; js "--namespace"; text "namespace" target; js "--filter";
   js "^(" ++ text "release" target ++ js "|" ++ text "redisRelease" target ++ js ")$"; js "--max"; js "2"; js "--output"; js "json"].

Definition notAnArray : jstr := js "Helm release inventory was not a JSON array.".

(** The helm release inventory, read and checked. *)
Definition inventoryReleases (s : Session) (target : value) (description : string) : prog value :=
  document ← helm s (targetReleaseListArguments target) (js description);
  releases ← parseDocument document;
  _ ← refuse (negb (isArray releases)) notAnArray;
  Ret releases.

(** [(listing).split(/\r?\n/).filter(Boolean)] *)
Definition keyLines (listing : jstr) : list jstr :=
  filter (fun l => l <> []) ((fun l => if endsWith [13%N] l then removelast l else l) <$> split_on 10 listing).

Definition keyTemplate : jstr :=
  js "go-template={{range $key, $_ := .data}}{{$key}}{{" ++ quote ++ js "\n" ++ quote ++ js "}}{{end}}".

Definition secretKeysArguments (name : jstr) (namespace : jstr) : list jstr :=
  [js "get"; js "secret"; name; js "--namespace"; namespace; js "--output"; keyTemplate].
Definition secretNameArguments (name : jstr) (namespace : jstr) : list jstr :=
  [js "get"; js "secret"; name; js "--namespace"; namespace; js "--ignore-not-found"; js "-o"; js "name"].

(** A Secret that must exist. *)
Definition requireSecret (s : Session) (label name : jstr) (namespace : jstr) (description : string) : prog unit :=
  found ← kubectl s (secretNameArguments name namespace) description;
  refuse (bool_decide (found = [])) (label ++ js " '" ++ name ++ js "' does not exist in '" ++ namespace ++ js "'.").

(** The keys a Secret must have. *)
Definition requireKeysOf (s : Session) (label name : jstr) (keys : list jstr) (namespace : jstr) (description : string) : prog unit :=
  listing ← kubectl s (secretKeysArguments name namespace) description;
  each (fun key => refuse (negb (memb key (keyLines listing)))
          (label ++ js " '" ++ name ++ js "' is missing configured key '" ++ key ++ js "'.")) keys.

(** Nodes that can take pods: schedulable, without a blocking taint, ready. *)
Definition schedulable (node : value) : bool :=
  negb (truthy (oprop "unschedulable" (oprop "spec" node)))
  && negb (existsb (fun t => one_of [js "NoSchedule"; js "NoExecute"] (oprop "effect" t)) (elements (oprop "taints" (oprop "spec" node))))
  && existsb (fun c => is_str (js "Ready") (prop "type" c) && is_str (js "True") (prop "status" c)) (elements (oprop "conditions" (oprop "status" node))).

Definition zoneOf (node : value) : value := oprop "topology.kubernetes.io/zone" (oprop "labels" (oprop "metadata" node)).

(** [n < minimum] for a count. *)
Definition fewer (n : nat) (minimum : value) : bool := nlt (int (Z.of_nat n)) (to_numeric minimum).
Definition countText (v : value) : jstr := from_option show_Z [] (to_Z (num_of v)).

Definition assertFailureDomains (s : Session) (plan : value) : prog unit :=
  document ← kubectl s [js "get"; js "nodes"; js "--output"; js "json"] "Validate schedulable failure-domain capacity";
  nodeDocument ← parseDocument document;
  let minimum := prop "minimumFailureDomains" (prop "topology" plan) in
  let nodes := List.filter schedulable (elements (prop "items" nodeDocument)) in
  _ ← refuse (fewer (length nodes) minimum) (js "HA requires at least " ++ countText minimum ++ js " ready schedulable nodes.");
  refuse (fewer (set_size (List.filter truthy (zoneOf <$> nodes))) minimum)
    (js "HA requires ready nodes in at least " ++ countText minimum ++ js " labeled topology zones.").

Definition assertOtlpSecret (s : Session) (plan config : value) : prog unit :=
  let o := prop "observability" config in
  let namespace := text "namespace" (prop "target" plan) in
  whenever (truthy (prop "otlpHeadersSecret" o))
    (_ ← requireSecret s (js "OTLP headers Secret") (text "otlpHeadersSecret" o) namespace "Validate OTLP headers Secret reference";
     requireKeysOf s (js "OTLP headers Secret") (text "otlpHeadersSecret" o) [text "otlpHeadersKey" o] namespace "Validate OTLP headers Secret key").

Definition assertIngress (s : Session) (plan config : value) : prog unit :=
  let n := prop "networking" config in
  whenever (truthy (prop "enabled" (prop "ingress" config)))
    (_ ← kubectl s [js "get"; js "namespace"; text "traefikNamespace" n; js "--request-timeout=15s"] "Validate ingress namespace";
     _ ← kubectl s [js "get"; js "service"; text "traefikService" n; js "--namespace"; text "traefikNamespace" n; js "--request-timeout=15s"] "Validate ingress service";
     _ ← kubectl s [js "get"; js "namespace"; text "metalLbNamespace" n; js "--request-timeout=15s"] "Validate MetalLB namespace";
     kubectl s [js "get"; js "secret"; text "tlsSecretName" (prop "ingress" config); js "--namespace"; text "namespace" (prop "target" plan); js "--request-timeout=15s"] "Validate ingress TLS Secret reference").

Definition managed (config : value) : bool := is_str (js "managed") (prop "mode" (prop "redis" config)).

Definition assertPermission (s : Session) (verb : jstr) (plan : value) (description : string) (kind : jstr) : prog unit :=
  let namespace := text "namespace" (prop "target" plan) in
  allowed ← kubectl s [js "auth"; js "can-i"; verb; js "deployments.apps"; js "--namespace"; namespace] description;
  refuse (negb (bool_decide (allowed = js "yes"))) (js "Missing deployment " ++ kind ++ js " permission in '" ++ namespace ++ js "'.").

Definition assertRedisSecrets (s : Session) (plan config : value) : prog unit :=
  let r := prop "redis" config in
  let namespace := text "namespace" (prop "target" plan) in
  _ ← whenever (managed config)
        (each (fun name => requireSecret s (js "Managed Redis image pull Secret") (str_of name) namespace "Validate managed Redis image pull Secret reference")
           (elements (prop "managedImagePullSecrets" r)));
  _ ← requireSecret s (js "Credential Secret") (text "credentialsSecret" r) namespace "Validate credential Secret reference";
  requireKeysOf s (js "Credential Secret") (text "credentialsSecret" r)
    (if managed config then [text "credentialKey" r; text "adminCredentialKey" r] else [text "credentialKey" r]) namespace "Validate credential Secret keys".

Definition assertTarget (s : Session) (plan config : value) (mutation : bool) (valuesPath : fspath) : prog unit :=
  _ ← assertContext s (prop "target" plan);
  _ ← clusterInfo s;
  _ ← whenever (negb (isAction s ["rollback"%string]))
        (helm s [js "lint"; js "helm/realtime-gateway"; js "--strict"; js "--values"; show_path valuesPath] (js "Lint rendered gateway configuration"));
  _ ← whenever (managed config)
        (kubectl s [js "get"; js "storageclass"; text "storageClass" (prop "kubernetes" config); js "--request-timeout=15s"] "Validate storage class");
  _ ← assertIngress s plan config;
  _ ← whenever (truthy (prop "serviceMonitor" (prop "observability" config)))
        (kubectl s [js "get"; js "customresourcedefinition"; js "servicemonitors.monitoring.coreos.com"; js "--request-timeout=15s"] "Validate ServiceMonitor support");
  _ ← assertOtlpSecret s plan config;
  _ ← whenever (is_str (js "ha") (prop "topology" config)) (assertFailureDomains s plan);
  _ ← whenever mutation (assertPermission s (js "create") plan "Validate mutation permission" (js "mutation"));
  _ ← whenever (truthy (prop "pullSecretName" (prop "image" config)))
        (requireSecret s (js "Image pull Secret") (text "pullSecretName" (prop "image" config)) (text "namespace" (prop "target" plan)) "Validate image pull Secret reference");
  assertRedisSecrets s plan config.

Definition assertTeardownTarget (s : Session) (plan : value) : prog unit :=
  _ ← assertContext s (prop "target" plan);
  _ ← clusterInfo s;
  _ ← assertPermission s (js "delete") plan "Validate teardown permission" (js "deletion");
  _ ← inventoryReleases s (prop "target" plan) "Inventory teardown releases";
  Ret tt.

Definition assertBackupTarget (s : Session) (plan : value) : prog unit :=
  _ ← assertContext s (prop "target" plan);
  _ ← clusterInfo s;
  _ ← inventoryReleases s (prop "target" plan) "Inventory backup releases";
  Ret tt.

(** ** Release inventories *)

(** [releases.some(release => release?.name === name)], and membership in the
    set of the truthy names. *)
Definition lists (releases : value) (name : jstr) : bool :=
  existsb (fun r => is_str name (oprop "name" r)) (elements releases).
Definition installedSet (releases : value) (name : jstr) : bool := negb (bool_decide (name = [])) && lists releases name.

Definition findRelease (releases : value) (name : jstr) : value :=
  default Undefined (List.find (fun r => is_str name (oprop "name" r)) (elements releases)).

Definition capturedRedisChartVersion (releases : value) (release : jstr) : result jstr jstr :=
  let chart := oprop "chart" (findRelease releases release) in
  let version := drop 6 (str_of chart) in
  if isString chart && startsWith (js "redis-") (str_of chart) && test chartVersion version then Ok version
  else Throw (js "Backup inventory for '" ++ release ++ js "' does not contain a supported Redis chart version.").

Definition capturedReleaseRevision (releases : value) (release : jstr) : result jstr num :=
  let revision := to_numeric (oprop "revision" (findRelease releases release)) in
  if isInteger revision && negb (nlt revision (int 1)) then Ok revision
  else Throw (js "Backup inventory for '" ++ release ++ js "' does not contain a valid Helm revision.").

Definition topologyFromValues (values : value) (release : jstr) : result jstr jstr :=
  _ ← reads values;
  if one_of [js "ha"; js "non-ha"] (prop "topology" values) then Ok (text "topology" values)
  else if isIntegerValue (prop "replicaCount" values) then
    Ok (if ngt (num_of (prop "replicaCount" values)) (int 1) then js "ha" else js "non-ha")
  else Throw (js "Release '" ++ release ++ js "' does not expose a supported topology value.").

Definition ociReference (v : value) : bool := isString v && startsWith (js "oci://") (str_of v).

Definition managedRedisChartForBackup (s : Session) (plan config : value) (release : jstr) (values : value) (installedVersion : jstr) : prog jstr :=
  _ ← throwing (reads values);
  let annotated := oprop "realtime.example/managed-chart" (oprop "commonAnnotations" values) in
  let expected := oprop "redis" (oprop "values" plan) in
  let auth := oprop "auth" values in
  let acl := oprop "acl" auth in
  let user := default Undefined (head (elements (oprop "users" acl))) in
  let prefix := str_of (oprop "instancePrefix" expected) in
  let secret := oprop "name" (oprop "credentialsSecret" expected) in
  let redis := prop "redis" config in
  let legacyMatches :=
    is_str installedVersion (prop "managedChartVersion" redis)
    && is_str release (prop "fullnameOverride" values)
    && strict_eq (oprop "existingSecret" auth) secret
    && strict_eq (oprop "existingSecretPasswordKey" auth) (oprop "managedAdminPasswordKey" expected)
    && strict_eq (oprop "userSecret" acl) secret
    && strict_eq (oprop "username" user) (oprop "username" expected)
    && is_str (js "~" ++ prefix ++ js ":*") (oprop "keys" user)
    && is_str (js "&" ++ prefix ++ js ":*") (oprop "channels" user) in
  if ociReference annotated then Ret (str_of annotated)
  else if negb legacyMatches || negb (ociReference (prop "legacyManagedChart" redis)) then
    fail (js "Installed managed Redis release '" ++ release
      ++ js "' does not record its chart repository and does not match the verified legacy deployment contract.")
  else _ ← emit (js "info") (action s) (js "Adopting verified legacy managed Redis release metadata."); Ret (text "legacyManagedChart" redis).

(** ** Captured state *)

(** The first cache directory whose archive can be copied, or the last error. *)
Fixpoint firstCached (chart version : jstr) (directories : list fspath) (output : fspath) (cacheError : jstr) : prog (chartArchive + jstr) :=
  match directories with
  | [] => Ret (inr cacheError)
  | d :: l =>
      r ← catch (a ← copyCachedManagedRedisChart parseJSON sha256 chart version d output; Ret (inl a)) (fun e => Ret (inr (emessage e)));
      match r with inl a => Ret (inl a) | inr m => firstCached chart version l output m end
  end.

Definition legacyGeneratedRoot : fspath := resolve repositoryRoot (js ".bootstrap/lifecycle").

Definition provenanceMissing (m : jstr) : jstr :=
  js "Installed managed Redis chart provenance is unavailable: " ++ m
  ++ js " Preserve the verified lifecycle chart cache or restore it from a trusted backup before capturing state.".

(** The chart of the installed Redis release, copied next to its values, and
    the plan that records it. *)
Definition captureChart (s : Session) (plan config releases values : value) (release : jstr) (directory : fspath) (captured : value) : prog value :=
  version ← throwing (capturedRedisChartVersion releases release);
  chart ← managedRedisChartForBackup s plan config release values version;
  output ← throwing (managedRedisChartOutput sha256 (generatedRoot s) (targetName s) chart version);
  legacyOutput ← throwing (managedRedisChartOutput sha256 legacyGeneratedRoot (targetName s) chart version);
  found ← firstCached chart version
    [output; legacyManagedRedisChartOutput (generatedRoot s) (targetName s) version;
     legacyOutput; legacyManagedRedisChartOutput legacyGeneratedRoot (targetName s) version] directory [];
  let recorded := put "chartVersion" (Str version) (put "chart" (Str chart) (nullish (prop "managedRedis" captured) (Obj []))) in
  match found with
  | inl archive =>
      Ret (put "managedRedis" (put "chartArchiveFile" (Str (basename (archivePath archive)))
                                (put "chartArchiveSha256" (Str (archiveSha256 archive)) recorded)) captured)
  | inr m =>
      _ ← (if isAction s ["rollback"%string] then
             emit (js "warn") (action s) (js "Current managed Redis chart is not cached; continuing the explicitly selected self-contained rollback without a restorable pre-change chart archive.")
           else fail (provenanceMissing m));
      Ret (put "managedRedis" (Obj (delete_prop (js "chartArchiveFile") (delete_prop (js "chartArchiveSha256") (props_of recorded)))) captured)
  end.

Definition getValuesArguments (release namespace : jstr) : list jstr :=
  [js "get"; js "values"; release; js "--namespace"; namespace; js "--all"; js "--output"; js "json"].

Definition captureRelease (s : Session) (plan config releases : value) (directory : fspath) (release : jstr) (captured : value) : prog value :=
  if negb (installedSet releases release) then Ret captured
  else
    document ← helm s (getValuesArguments release (text "namespace" (prop "target" plan))) (js "Back up " ++ release ++ js " values");
    values ← parseDocument document;
    let secretPaths := inlineSecretPaths values (js "$") in
    _ ← refuse (negb (bool_decide (secretPaths = [])))
          (js "Refusing to persist inline credential values returned by Helm at: " ++ join (js ", ") secretPaths
           ++ js ". Replace them with Secret references before retrying.");
    captured' ← (if bool_decide (release = text "redisRelease" (prop "target" plan))
                 then captureChart s plan config releases values release directory captured else Ret captured);
    _ ← atomicWrite (resolve directory (release ++ js ".values.json")) (stableJson jsonText values);
    Ret captured'.

(** [new Date().toISOString().replaceAll(":", "-")] *)
Definition timeStamp : prog jstr := now ← call DateNow; Ret (replaceAll (js ":") (js "-") (toISOString (millis now))).

Definition captureState (s : Session) (plan config : value) (directory : fspath) : prog unit :=
  let target := prop "target" plan in
  releases ← inventoryReleases s target "Inventory installed releases";
  _ ← atomicWrite (resolve directory (js "releases.json")) (stableJson jsonText releases);
  c1 ← captureRelease s plan config releases directory (text "release" target) plan;
  c2 ← captureRelease s plan config releases directory (text "redisRelease" target) c1;
  atomicWrite (resolve directory (js "plan.json")) (stableJson jsonText c2).

Definition saveState (s : Session) (plan config : value) : prog fspath :=
  stamp ← timeStamp;
  let directory := resolves (backupRoot s) [text "release" (prop "target" plan); stamp] in
  _ ← lift (assertPathInside (backupRoot s) directory (js "backup"));
  _ ← call (MkdirP directory);
  _ ← catch (captureState s plan config directory) (fun e => _ ← call (RmRf directory); Raise e);
  _ ← emit (js "pass") (action s) (js "Pre-change state captured.");
  Ret directory.

(** ** Inspecting the cluster and a backup *)

Record InstalledState := { i_topology : jstr; i_redisMode : value }.

Definition modeOf (values : value) (redisPresent : bool) : value :=
  nullish (oprop "mode" (prop "redis" values)) (Str (if redisPresent then js "managed" else js "external")).

Definition installedReleaseState (s : Session) (target : value) : prog (option InstalledState) :=
  _ ← assertContext s target;
  releases ← inventoryReleases s target "Inspect installed releases for topology";
  let release := text "release" target in
  let redisRelease := text "redisRelease" target in
  let namespace := text "namespace" target in
  if negb (lists releases release) then
    if negb (lists releases redisRelease) then Ret None
    else
      document ← helm s (getValuesArguments redisRelease namespace) (js "Read installed managed Redis topology");
      values ← parseDocument document;
      _ ← throwing (reads values);
      if is_str (js "standalone") (prop "architecture" values) then Ret (Some {| i_topology := js "non-ha"; i_redisMode := Str (js "managed") |})
      else if is_str (js "replication") (prop "architecture" values) then Ret (Some {| i_topology := js "ha"; i_redisMode := Str (js "managed") |})
      else fail (js "Release '" ++ redisRelease ++ js "' does not expose a supported managed Redis architecture.")
  else
    document ← helm s (getValuesArguments release namespace) (js "Read installed gateway topology");
    values ← parseDocument document;
    topology ← throwing (topologyFromValues values release);
    Ret (Some {| i_topology := topology; i_redisMode := modeOf values (lists releases redisRelease) |}).

(** [assertRollbackSource]: below the backup root, or below the legacy backups
    of the release. *)
Definition assertRollbackSource (s : Session) (target : value) (backup : fspath) : result jsError unit :=
  match assertPathInside (backupRoot s) backup (js "rollback source") with
  | Ok _ => Ok tt
  | Throw e =>
      match assertPathInside (resolves repositoryRoot [js ".backups"; js "bootstrap"; text "release" target]) backup (js "legacy rollback source") with
      | Ok _ => Ok tt
      | Throw _ => Throw e
      end
  end.

(** The checks [readRollbackSnapshot] and [rollback] start with: the saved plan
    and the release inventory of a backup of this target. *)
Definition openBackup (s : Session) (target : value) : prog (fspath * value * value) :=
  match o_backup (options s) with
  | None => fail (js "rollback requires --backup pointing to a captured backup directory.")
  | Some given =>
      let backup := resolve cwd given in
      _ ← lift (assertRollbackSource s target backup);
      savedPlan ← readJson parseJSON (resolve backup (js "plan.json"));
      _ ← throwing (reads_all [savedPlan; prop "target" savedPlan]);
      let saved k := prop k (prop "target" savedPlan) in
      _ ← refuse (negb (strict_eq (saved "context"%string) (prop "context" target)) || negb (strict_eq (saved "namespace"%string) (prop "namespace" target))
                  || negb (strict_eq (saved "release"%string) (prop "release" target)))
            (js "Backup target does not match the requested context, namespace, and release.");
      releases ← readJson parseJSON (resolve backup (js "releases.json"));
      _ ← refuse (negb (isArray releases)) (js "Backup release inventory is invalid.");
      Ret (backup, savedPlan, releases)
  end.

Record Snapshot := {
  gatewayPresent : bool;
  s_topology : jstr;
  s_redisMode : value;
  gatewayValues : value;
  managedRedisValues : value;
  managedRedisChart : value;
  managedRedisChartVersion : value;
  managedRedisChartArchiveSha256 : value
}.

Definition absentGateway : Snapshot :=
  {| gatewayPresent := false; s_topology := []; s_redisMode := Undefined; gatewayValues := Undefined; managedRedisValues := Undefined;
     managedRedisChart := Undefined; managedRedisChartVersion := Undefined; managedRedisChartArchiveSha256 := Undefined |}.

Definition snapshotMissing (release : jstr) : jstr :=
  js "Backup inventory includes '" ++ release ++ js "' but its values snapshot is missing.".

Definition readRollbackSnapshot (s : Session) (target : value) : prog Snapshot :=
  opened ← openBackup s target;
  let '(backup, savedPlan, releases) := opened in
  let release := text "release" target in
  let redisRelease := text "redisRelease" target in
  if negb (installedSet releases release) then Ret absentGateway
  else
    let valuesPath := resolve backup (release ++ js ".values.json") in
    present ← fileExists valuesPath;
    _ ← refuse (negb present) (snapshotMissing release);
    values ← readJson parseJSON valuesPath;
    let redisPresent := installedSet releases redisRelease in
    let redisValuesPath := resolve backup (redisRelease ++ js ".values.json") in
    _ ← whenever redisPresent (found ← fileExists redisValuesPath; refuse (negb found) (snapshotMissing redisRelease));
    topology ← throwing (topologyFromValues values release);
    redisValues ← (if redisPresent then readJson parseJSON redisValuesPath else Ret Undefined);
    version ← (if redisPresent then throwing (capturedRedisChartVersion releases redisRelease) else Ret []);
    let whenPresent v := if redisPresent then v else Undefined in
    Ret {| gatewayPresent := true; s_topology := topology; s_redisMode := modeOf values redisPresent; gatewayValues := values;
           managedRedisValues := redisValues;
           managedRedisChart := whenPresent (oprop "chart" (prop "managedRedis" savedPlan));
           managedRedisChartVersion := whenPresent (Str version);
           managedRedisChartArchiveSha256 := whenPresent (oprop "chartArchiveSha256" (prop "managedRedis" savedPlan)) |}.

(** ** Changing the cluster *)

Definition writeNamingManifest (config : value) : prog unit :=
  names ← throwing (releaseNames config);
  let repository := text "repository" (prop "image" config) in
  let parts := split_on 47 repository in
  atomicWrite (resolves repositoryRoot [js ".bootstrap"; js "naming.json"]) (stableJson jsonText (Obj
    [ (js "brand", Str (js "Realtime")); (js "application", Str (application names));
      (js "serviceName", Str (js "realtime-" ++ application names ++ js "-gateway"));
      (js "containerRegistry", Str (default [] (head parts))); (js "containerRepository", Str (join (js "/") (List.tl parts)));
      (js "imageRepository", Str repository); (js "redisInstancePrefix", prop "instancePrefix" (prop "redis" config));
      (js "kubernetesApplication", Str (application names)) ])).

Definition boundedTimeout (plan : value) : jstr := js "--timeout=" ++ countText (prop "boundedTimeoutSeconds" (prop "safety" plan)) ++ js "s".

Definition gatewayUpgradeArguments (plan : value) (valuesPath : fspath) : list jstr :=
  let target := prop "target" plan in
  [js "upgrade"; js "--install"; text "release" target; js "helm/realtime-gateway"; js "--namespace"; text "namespace" target;
   js "--create-namespace"; js "--values"; show_path valuesPath; js "--history-max"; js "0"; js "--atomic"; js "--wait"; boundedTimeout plan].

(** The chart argument of helm: a prepared directory, or the reference and its version. *)
Definition chartArguments (plan : value) (redisChartPath : option fspath) : list jstr :=
  match redisChartPath with
  | Some p => [show_path p]
  | None => [text "chart" (prop "managedRedis" plan); js "--version"; text "chartVersion" (prop "managedRedis" plan)]
  end.

Definition applyRedis (s : Session) (plan : value) (redisChartPath : option fspath) (redisValuesPath : fspath) : prog unit :=
  let target := prop "target" plan in
  _ ← helm s ([js "upgrade"; js "--install"; text "redisRelease" target] ++ chartArguments plan redisChartPath
        ++ [js "--namespace"; text "namespace" target; js "--create-namespace"; js "--values"; text "baseValuesPath" (prop "managedRedis" plan);
            js "--values"; show_path redisValuesPath; js "--history-max"; js "0"; js "--atomic"; js "--wait"; timeoutArgument s])
        (js "Install or update managed Redis");
  whenever (isAction s ["recover"%string])
    (let suffix := if is_str (js "replication") (prop "architecture" (prop "values" (prop "managedRedis" plan))) then js "-node" else js "-master" in
     let statefulSet := js "statefulset/" ++ text "redisRelease" target ++ suffix in
     _ ← kubectl s [js "rollout"; js "restart"; statefulSet; js "--namespace"; text "namespace" target] "Restart managed Redis after referenced Secret rotation";
     kubectl s [js "rollout"; js "status"; statefulSet; js "--namespace"; text "namespace" target; timeoutArgument s] "Verify managed Redis recovery rollout").

Definition apply (s : Session) (plan config : value) (valuesPath redisValuesPath : fspath) (redisChartPath : option fspath) : prog unit :=
  let target := prop "target" plan in
  let deployment := js "deployment/" ++ text "release" target in
  _ ← whenever (managed config) (applyRedis s plan redisChartPath redisValuesPath);
  _ ← helm s (gatewayUpgradeArguments plan valuesPath) (js "Install or update realtime gateway");
  _ ← whenever (isAction s ["update"; "recover"]%string)
        (kubectl s [js "rollout"; js "restart"; deployment; js "--namespace"; text "namespace" target] "Restart gateway after referenced Secret rotation");
  _ ← kubectl s [js "rollout"; js "status"; deployment; js "--namespace"; text "namespace" target; timeoutArgument s] "Verify gateway rollout";
  Ret tt.

(** The legacy caches tried before a chart is prepared without an archive. *)
Fixpoint legacyCache (s : Session) (chart version : jstr) (directories : list fspath) (output : fspath) : prog (option fspath) :=
  match directories with
  | [] => Ret None
  | d :: l =>
      if bool_decide (d = output) then legacyCache s chart version l output
      else
        r ← catch (a ← copyCachedManagedRedisChart parseJSON sha256 chart version d output;
                   _ ← emit (js "info") (action s) (js "Reusing verified legacy managed Redis chart cache.");
                   Ret (Some (archivePath a)))
                  (fun _ => Ret None);
        match r with Some p => Ret (Some p) | None => legacyCache s chart version l output end
  end.

Definition prepareRedisChart (s : Session) (chart version pinned : jstr) (archive : option fspath) : prog fspath :=
  output ← throwing (managedRedisChartOutput sha256 (generatedRoot s) (targetName s) chart version);
  given ← match archive with
          | Some p => Ret (Some p)
          | None =>
              legacyOutput ← throwing (managedRedisChartOutput sha256 legacyGeneratedRoot (targetName s) chart version);
              legacyCache s chart version [legacyOutput; legacyManagedRedisChartOutput legacyGeneratedRoot (targetName s) version] output
          end;
  prepared ← prepareManagedRedisChart parseJSON jsonText sha256 chart version pinned given output (js "helm") (o_timeoutSeconds (options s));
  _ ← emit (js "pass") (action s) (js "Verified and patched managed Redis chart.");
  Ret (chartDirectory prepared).

Definition uninstallArguments (s : Session) (release namespace : jstr) : list jstr :=
  [js "uninstall"; release; js "--namespace"; namespace; js "--ignore-not-found"; js "--keep-history"; js "--wait"; timeoutArgument s].

(** The Redis release of a backup, restored from its values and its chart. *)
Definition restoreRedis (s : Session) (plan savedPlan releases : value) (backup valuesPath : fspath) (release : jstr) : prog unit :=
  let saved := prop "managedRedis" savedPlan in
  let chart := oprop "chart" saved in
  let pinned := nullish (oprop "chartArchiveSha256" saved) (oprop "chartArchiveSha256" (prop "managedRedis" plan)) in
  let file := oprop "chartArchiveFile" saved in
  _ ← refuse (bool_decide (str_of chart = [])) (js "Backup plan does not contain the managed Redis chart repository.");
  version ← throwing (capturedRedisChartVersion releases release);
  _ ← refuse (bool_decide (str_of pinned = []))
        (js "Backup plan does not contain the managed Redis chart archive checksum. A legacy backup can only be restored when its exact chart pin matches the current trusted configuration.");
  archive ← (if isUndefined file then Ret None
             else
               _ ← refuse (negb (isString file) || memb 47%N (str_of file)) (js "Backup plan contains an invalid managed Redis chart archive path.");
               let p := resolve backup (str_of file) in
               _ ← lift (assertPathInside backup p (js "rollback chart archive"));
               present ← fileExists p;
               _ ← refuse (negb present) (js "Backup managed Redis chart archive is missing.");
               Ret (Some p));
  restoredChart ← prepareRedisChart s (str_of chart) version (str_of pinned) archive;
  _ ← helm s [js "upgrade"; js "--install"; release; show_path restoredChart; js "--namespace"; text "namespace" (prop "target" plan);
              js "--values"; show_path valuesPath; js "--atomic"; js "--wait"; timeoutArgument s] (js "Restore " ++ release);
  Ret tt.

Definition rollbackRelease (s : Session) (plan savedPlan releases : value) (backup : fspath) (release : jstr) : prog unit :=
  let namespace := text "namespace" (prop "target" plan) in
  let valuesPath := resolve backup (release ++ js ".values.json") in
  if negb (installedSet releases release) then
    _ ← helm s (uninstallArguments s release namespace) (js "Remove " ++ release ++ js " absent from backup"); Ret tt
  else
    present ← fileExists valuesPath;
    if negb present then fail (snapshotMissing release)
    else if bool_decide (release = text "release" (prop "target" plan)) then
      revision ← throwing (capturedReleaseRevision releases release);
      _ ← helm s [js "rollback"; release; from_option show_Z [] (to_Z revision); js "--namespace"; namespace; js "--wait"; timeoutArgument s]
            (js "Restore " ++ release ++ js " revision");
      Ret tt
    else restoreRedis s plan savedPlan releases backup valuesPath release.

Definition rollback (s : Session) (plan : value) : prog unit :=
  let target := prop "target" plan in
  opened ← openBackup s target;
  let '(backup, savedPlan, releases) := opened in
  each (rollbackRelease s plan savedPlan releases backup) [text "redisRelease" target; text "release" target].

(** [captured.s.k = v ?? captured.s.k] *)
Definition capture (section k : string) (v captured : value) : value :=
  put2 section k (nullish v (prop k (prop section captured))) captured.

(** The configuration a rollback is checked against: what the captured values
    say, the current configuration where they say nothing. *)
Definition configurationForPlan (config plan : value) : result jstr value :=
  let values := prop "values" plan in
  let redis := oprop "redis" values in
  let route := oprop "ingressRoute" values in
  let observed := oprop "observability" values in
  let otlp := oprop "otlp" observed in
  let global := oprop "global" (oprop "values" (prop "managedRedis" plan)) in
  _ ← reads values;
  let c1 := put2 "image" "pullSecretName" (nullish (oprop "pullSecretName" (oprop "image" values)) (Str [])) config in
  let c2 := capture "redis" "mode" (oprop "mode" redis) c1 in
  let c3 := capture "redis" "tls" (oprop "tls" redis) c2 in
  let c4 := capture "redis" "credentialsSecret" (oprop "name" (oprop "credentialsSecret" redis)) c3 in
  let c5 := capture "redis" "credentialKey" (oprop "passwordKey" (oprop "credentialsSecret" redis)) c4 in
  let c6 := capture "redis" "adminCredentialKey" (oprop "managedAdminPasswordKey" redis) c5 in
  let c7 := put2 "redis" "managedImagePullSecrets"
              (nullish (oprop "imagePullSecrets" global) (nullish (prop "managedImagePullSecrets" (prop "redis" c6)) (Arr []))) c6 in
  let c8 := capture "ingress" "enabled" (oprop "enabled" route) c7 in
  let c9 := capture "ingress" "tlsSecretName" (oprop "tlsSecretName" route) c8 in
  let c10 := capture "observability" "serviceMonitor" (oprop "enabled" (oprop "serviceMonitor" observed)) c9 in
  let c11 := capture "observability" "otlpEndpoint" (oprop "endpoint" otlp) c10 in
  let c12 := capture "observability" "otlpHeadersSecret" (oprop "name" (oprop "headersSecret" otlp)) c11 in
  let c13 := capture "observability" "otlpHeadersKey" (oprop "key" (oprop "headersSecret" otlp)) c12 in
  let c14 := capture "networking" "traefikNamespace"
               (oprop "kubernetes.io/metadata.name" (oprop "matchLabels" (oprop "ingressNamespaceSelector" (oprop "networkPolicy" values)))) c13 in
  let c15 := capture "networking" "metalLbNamespace" (oprop "metalLbNamespace" (oprop "platformMetrics" observed)) c14 in
  Ok (if truthy (oprop "storageClass" global) then put2 "kubernetes" "storageClass" (oprop "storageClass" global) c15 else c15).

(** ** Locks and logs *)

Definition targetLockHeld (lockPath : fspath) : jsError :=
  newError (js "Another lifecycle operation holds the target lock '" ++ show_path lockPath ++ js "'.").

Definition acquireLock (lockPath : fspath) : prog jstr :=
  owner ← newOwner;
  free ← tryLock jsonText lockPath owner.2;
  if (free : bool) then Ret owner.1
  else
    let ownerPath := resolve lockPath (js "owner.json") in
    recorded ← fileExists ownerPath;
    stale ← (if (recorded : bool) then
               catch (existing ← readJson parseJSON ownerPath; staleOwner dateFallback existing) (fun _ => staleDirectory lockPath)
             else staleDirectory lockPath);
    if negb stale then Raise (targetLockHeld lockPath)
    else _ ← takeOver jsonText lockPath owner.2 owner.1 (targetLockHeld lockPath); Ret owner.1.

Definition releaseLock (lockPath : fspath) (token : jstr) : prog unit :=
  catch (owner ← readJson parseJSON (resolve lockPath (js "owner.json"));
         _ ← throwing (reads owner);
         whenever (is_str token (prop "token" owner)) (call (RmRf lockPath)))
        (fun e => if includes (js "Cannot read JSON") (emessage e) then Ret tt else Raise e).

Definition logName : re := cats [lit (js "Realtime-Bootstrap-"); Star dot; lit (js ".jsonl")].

Definition archiveOldLogs (logRoot : fspath) : prog unit :=
  present ← fileExists logRoot;
  if negb present then Ret tt
  else
    let archiveRoot := resolve logRoot (js "Archive") in
    _ ← lift (assertPathInside logRoot archiveRoot (js "log archive"));
    now ← call DateNow;
    let cutoff := millis now - 7 * 24 * 60 * 60 * 1000 in
    entries ← call (ReadDir logRoot);
    each (fun entry =>
      let name := text "name" entry in
      if negb (truthy (prop "isFile" entry)) || negb (test logName name) then Ret tt
      else
        let source := resolve logRoot name in
        info ← call (Stat source);
        if (cutoff <=? millis (prop "mtimeMs" info))%Z then Ret tt
        else
          _ ← call (MkdirP archiveRoot);
          _ ← call (Rename source (resolve archiveRoot name));
          Ret tt) (elements entries).

(** ** The action *)

Definition clusterActions : list string := ["install"; "update"; "rollback"; "recover"; "teardown"]%string.

Definition planFor (s : Session) (config profile previous : value) : prog value :=
  throwing (buildPlan isIP jsonText sha256 (action s) config profile
    {| previousTopology := previous; dryRun := Boolean (o_dryRun (options s)); timeoutSeconds := Number (o_timeoutSeconds (options s)) |}).

Definition profilePath (topology : jstr) : fspath := resolves repositoryRoot [js "bootstrap"; js "profiles"; topology ++ js ".json"].

(** [loadContract] *)
Definition loadContract (configPath : jstr) (requestedProfile : option jstr) : prog (value * value) :=
  config ← readJson parseJSON (resolve repositoryRoot configPath);
  _ ← throwing (acceptContract isIP newURL config requestedProfile);
  profile ← readJson parseJSON (profilePath (text "topology" config));
  Ret (config, profile).

(** A rollback takes topology and Redis mode from the backup. *)
Definition rollbackConfiguration (config profile : value) (snapshot : option Snapshot) : prog (value * value) :=
  match snapshot with
  | Some b =>
      if gatewayPresent b then
        let config' := put2 "redis" "mode" (s_redisMode b) (put "topology" (Str (s_topology b)) config) in
        profile' ← readJson parseJSON (profilePath (s_topology b));
        _ ← whenever (bool_decide (s_topology b = js "ha"))
              (_ ← throwing (reads profile');
               refuse (nlt (to_numeric (prop "failureDomains" (prop "kubernetes" config'))) (to_numeric (prop "minimumFailureDomains" profile')))
                 (js "Configuration is invalid: rollback to HA requires at least " ++ countText (prop "minimumFailureDomains" profile') ++ js " configured failure domains."));
        Ret (config', profile')
      else Ret (config, profile)
  | None => Ret (config, profile)
  end.

Definition modeConversion (what : string) (from to : value) : jstr :=
  js what ++ js " from '" ++ str_of from ++ js "' to '" ++ str_of to ++ js "' requires an explicit migration outside this bootstrap action.".

Definition presentSnapshot (snapshot : option Snapshot) : option Snapshot :=
  match snapshot with Some b => if gatewayPresent b then Some b else None | None => None end.

Definition refuseModeConversion (s : Session) (config : value) (installed : option InstalledState) (snapshot : option Snapshot) : prog unit :=
  match installed with
  | Some i =>
      let differs v := truthy (i_redisMode i) && negb (strict_eq (i_redisMode i) v) in
      let mode := prop "mode" (prop "redis" config) in
      _ ← refuse (isAction s ["install"; "update"; "recover"]%string && differs mode) (modeConversion "Redis mode conversion" (i_redisMode i) mode);
      match presentSnapshot snapshot with
      | Some b => refuse (isAction s ["rollback"%string] && differs (s_redisMode b)) (modeConversion "Redis mode rollback conversion" (i_redisMode i) (s_redisMode b))
      | None => Ret tt
      end
  | None => Ret tt
  end.

(** The plan of a rollback carries the captured values.  The archive digest of
    the current configuration is trusted for a legacy backup of the same chart. *)
Definition capturedPlan (s : Session) (plan : value) (snapshot : option Snapshot) : prog value :=
  match presentSnapshot snapshot with
  | Some b =>
      let current := prop "managedRedis" plan in
      legacyTrustedChecksum ←
        (if strict_eq (managedRedisChart b) (oprop "chart" current) && strict_eq (managedRedisChartVersion b) (oprop "chartVersion" current)
         then _ ← throwing (reads current); Ret (prop "chartArchiveSha256" current)
         else Ret Undefined);
      Ret (useCapturedDeploymentValues jsonText sha256 plan (gatewayValues b) (managedRedisValues b) (managedRedisChart b)
             (managedRedisChartVersion b) (nullish (managedRedisChartArchiveSha256 b) legacyTrustedChecksum))
  | None => Ret plan
  end.

(** What the planning phase determines. *)
Record Decision_ := {
  d_plan : value;
  d_config : value;
  d_installed : option InstalledState;
  d_snapshot : option Snapshot
}.

Definition statePath (targetRoot : fspath) : fspath := resolve targetRoot (js "state.json").
Definition legacyStatePath (s : Session) : fspath := resolves repositoryRoot [js ".bootstrap/lifecycle"; targetName s; js "state.json"].

Definition readPriorState (s : Session) (targetRoot : fspath) : prog value :=
  current ← fileExists (statePath targetRoot);
  if (current : bool) then readJson parseJSON (statePath targetRoot)
  else
    legacy ← fileExists (legacyStatePath s);
    if (legacy : bool) then readJson parseJSON (legacyStatePath s) else Ret Undefined.

Definition decidePlan (s : Session) (config profile : value) (targetRoot : fspath) : prog Decision_ :=
  priorState ← readPriorState s targetRoot;
  provisional ← planFor s config profile (oprop "topology" priorState);
  let target := prop "target" provisional in
  let clusterAware := isAction s clusterActions in
  snapshot ← (if isAction s ["rollback"%string] then b ← readRollbackSnapshot s target; Ret (Some b) else Ret None);
  adjusted ← rollbackConfiguration config profile snapshot;
  let '(config', profile') := adjusted in
  installed ← (if clusterAware then installedReleaseState s target else Ret None);
  _ ← refuseModeConversion s config' installed snapshot;
  let previous := match installed with
                  | Some i => Str (i_topology i)
                  | None => if clusterAware then Undefined else oprop "topology" priorState
                  end in
  plan0 ← planFor s config' profile' previous;
  plan ← capturedPlan s plan0 snapshot;
  Ret {| d_plan := plan; d_config := config'; d_installed := installed; d_snapshot := snapshot |}.

Definition valuesPath (targetRoot : fspath) : fspath := resolve targetRoot (js "values.json").
Definition redisValuesPath (targetRoot : fspath) : fspath := resolve targetRoot (js "redis-values.json").

Definition writePlan (plan : value) (targetRoot : fspath) : prog unit :=
  _ ← atomicWrite (resolve targetRoot (js "plan.json")) (stableJson jsonText plan);
  _ ← atomicWrite (valuesPath targetRoot) (stableJson jsonText (prop "values" plan));
  _ ← whenever (truthy (prop "managedRedis" plan))
        (atomicWrite (redisValuesPath targetRoot) (stableJson jsonText (prop "values" (prop "managedRedis" plan))));
  emit (js "info") (js "plan") (js "Normalized execution plan.").

Definition refuseUnsafe (s : Session) (plan config : value) : prog unit :=
  let o := options s in
  let teardown := isAction s ["teardown"%string] in
  _ ← refuse (truthy (prop "conversion" (prop "topology" plan)) && negb (o_confirmTopologyChange o) && negb (o_dryRun o))
        (js "Topology conversion requires --confirm-topology-change after reviewing the plan and impact warning.");
  _ ← refuse (teardown && negb (o_force o) && negb (o_dryRun o)) (js "teardown requires --force after reviewing the target and data-loss warning.");
  refuse (teardown && is_str (js "production") (prop "class" (prop "environment" config)))
    (js "Automated teardown is forbidden for production configurations.").

Definition flushLog : prog unit := _ ← call FlushLog; Ret tt.

Definition finish (s : Session) (message : string) : prog unit := _ ← emit (js "pass") (action s) (js message); flushLog.

(** Helm 3.21 or later: [/^v(\d+)\.(\d+)\./]. *)
Definition helmSupported (version : jstr) : bool :=
  match version with
  | 118%N :: rest =>
      let '(major, after) := span is_digit rest in
      match after with
      | 46%N :: rest' =>
          let '(minor, after') := span is_digit rest' in
          negb (bool_decide (major = [])) && negb (bool_decide (minor = [])) && startsWith (js ".") after'
          && (nge (to_number major) (int 4) || (neq_num (to_number major) (int 3) && nge (to_number minor) (int 21)))
      | _ => false
      end
  | _ => false
  end.

Definition prerequisites (s : Session) : prog unit :=
  _ ← command s (js "node") [js "--version"] (js "Validate Node.js");
  _ ← command s (js "git") [js "--version"] (js "Validate Git");
  dotnetVersion ← command s (js "dotnet") [js "--version"] (js "Validate .NET SDK");
  _ ← refuse (negb (startsWith (js "10.") dotnetVersion)) (js ".NET SDK 10.x is required; detected '" ++ dotnetVersion ++ js "'.");
  helmVersion ← helm s [js "version"; js "--short"] (js "Validate Helm");
  _ ← refuse (negb (helmSupported helmVersion)) (js "Helm 3.21 or later is required; detected '" ++ helmVersion ++ js "'.");
  _ ← kubectl s [js "version"; js "--client"] "Validate kubectl";
  _ ← command s (js "tar") [js "--version"] (js "Validate chart extraction tool");
  finish s "Prerequisite validation completed.".

Definition bootstrapWorkspace (s : Session) : prog unit :=
  _ ← command s (js "git") [js "--version"] (js "Validate Git");
  _ ← command s (js "dotnet") [js "restore"; js "Realtime.sln"; js "--locked-mode"] (js "Restore locked .NET dependencies");
  _ ← command s (js "dotnet") [js "build"; js "Realtime.sln"; js "--configuration"; js "Release"; js "--no-restore"] (js "Build the Release solution");
  finish s "Workspace bootstrap completed.".

Definition apiVersions : list jstr :=
  [js "--api-versions"; js "monitoring.coreos.com/v1/ServiceMonitor"; js "--api-versions"; js "monitoring.coreos.com/v1/PrometheusRule";
   js "--api-versions"; js "monitoring.coreos.com/v1alpha1/AlertmanagerConfig"].

Definition validateManifests (s : Session) (plan : value) (targetRoot : fspath) (redisChartPath : option fspath) : prog unit :=
  let target := prop "target" plan in
  _ ← helm s ([js "template"; text "release" target; js "helm/realtime-gateway"; js "--namespace"; text "namespace" target;
               js "--values"; show_path (valuesPath targetRoot)] ++ apiVersions) (js "Render gateway manifests");
  whenever (truthy (prop "managedRedis" plan))
    (helm s ([js "template"; text "redisRelease" target] ++ chartArguments plan redisChartPath
             ++ [js "--namespace"; text "namespace" target; js "--values"; text "baseValuesPath" (prop "managedRedis" plan);
                 js "--values"; show_path (redisValuesPath targetRoot)]) (js "Render verified managed Redis manifests")).

Definition teardown (s : Session) (d : Decision_) : prog unit :=
  let target := prop "target" (d_plan d) in
  let namespace := text "namespace" target in
  _ ← helm s (uninstallArguments s (text "release" target) namespace) (js "Remove realtime gateway");
  whenever (managed (d_config d) || match d_installed d with Some i => is_str (js "managed") (i_redisMode i) | None => false end)
    (helm s (uninstallArguments s (text "redisRelease" target) namespace) (js "Remove managed Redis")).

Definition planChart (s : Session) (plan : value) : prog fspath :=
  let r := prop "managedRedis" plan in
  prepareRedisChart s (text "chart" r) (text "chartVersion" r) (text "chartArchiveSha256" r)
    (match oprop "chartArchivePath" r with Str ((_ :: _) as p) => Some (resolve cwd p) | _ => None end).

(** The record of the last change. *)
Definition recordState (s : Session) (d : Decision_) (targetRoot : fspath) (backup : option fspath) : prog unit :=
  let removed := match d_snapshot d with Some b => negb (gatewayPresent b) | None => false end in
  let dropLegacy := whenever (negb (bool_decide (legacyStatePath s = statePath targetRoot))) (call (RmForce (legacyStatePath s))) in
  if isAction s ["teardown"%string] || (isAction s ["rollback"%string] && removed) then
    _ ← call (RmForce (statePath targetRoot)); dropLegacy
  else if isAction s ["install"; "update"; "recover"; "rollback"]%string then
    let from := match backup with Some p => Str (show_path p) | None => from_option Str Null (o_backup (options s)) end in
    _ ← atomicWrite (statePath targetRoot) (stableJson jsonText (Obj
          [ (js "contractVersion", Number (int 2)); (js "topology", prop "topology" (d_config d));
            (js "valuesSha256", prop "valuesSha256" (d_plan d)); (js "backup", from) ]));
    dropLegacy
  else Ret tt.

Definition checkTarget (s : Session) (d : Decision_) (targetRoot : fspath) : prog unit :=
  if isAction s ["teardown"%string] then assertTeardownTarget s (d_plan d)
  else if isAction s ["backup"%string] then assertBackupTarget s (d_plan d)
  else
    checked ← (if isAction s ["rollback"%string] then throwing (configurationForPlan (d_config d) (d_plan d)) else Ret (d_config d));
    assertTarget s (d_plan d) checked (isAction s clusterActions) (valuesPath targetRoot).

(** The state change of an action, after the target was checked and captured. *)
Definition change (s : Session) (d : Decision_) (targetRoot : fspath) (validated : option fspath) : prog unit :=
  let plan := d_plan d in
  let deploys := isAction s ["install"; "update"; "recover"]%string in
  chart ← (if truthy (prop "managedRedis" plan) && deploys then p ← planChart s plan; Ret (Some p) else Ret validated);
  if deploys then apply s plan (d_config d) (valuesPath targetRoot) (redisValuesPath targetRoot) chart
  else if isAction s ["validate"%string] then validateManifests s plan targetRoot chart
  else if isAction s ["rollback"%string] then rollback s plan
  else whenever (isAction s ["teardown"%string]) (teardown s d).

(** The action proper: everything under the locks. *)
Definition operate (s : Session) (config profile : value) (targetRoot : fspath) : prog unit :=
  d ← decidePlan s config profile targetRoot;
  _ ← writePlan (d_plan d) targetRoot;
  _ ← refuseUnsafe s (d_plan d) (d_config d);
  if isAction s ["plan"%string] || o_dryRun (options s) then
    finish s (if o_dryRun (options s) then "Dry run completed without external operations." else "Plan completed without mutation.")
  else
    validated ← (if truthy (prop "managedRedis" (d_plan d)) && isAction s ["validate"%string]
                 then p ← planChart s (d_plan d); Ret (Some p) else Ret None);
    if isAction s ["prerequisites"%string] then prerequisites s
    else if isAction s ["bootstrap"%string] then bootstrapWorkspace s
    else
      _ ← checkTarget s d targetRoot;
      backup ← (if truthy (prop "requiresBackup" (prop "safety" (d_plan d))) || isAction s ["backup"%string]
                then p ← saveState s (d_plan d) (d_config d); Ret (Some p) else Ret None);
      _ ← change s d targetRoot validated;
      _ ← recordState s d targetRoot backup;
      finish s "Lifecycle action completed.".

(** ** The script *)

(** The suffix given on the command line replaces the configured one, and a
    suffix separates the keys of the instance. *)
Definition applySuffix (suffix : option jstr) (config : value) : value :=
  let config' := match suffix with Some x => put2 "naming" "suffix" (Str x) config | None => config end in
  let chosen := prop "suffix" (prop "naming" config') in
  if truthy chosen then
    put2 "redis" "instancePrefix" (Str (text "instancePrefix" (prop "redis" config') ++ js ":" ++ str_of chosen)) config'
  else config'.

Definition expandIn (k : string) (template config : value) : result jstr value :=
  expanded ← expandEnvironmentPath template (prop "name" (prop "environment" config));
  Ok (put2 "paths" k (Str expanded) config).

Definition expandPaths (config : value) : result jstr value :=
  let path_ k := prop k (prop "paths" config) in
  c1 ← expandIn "environmentDirectory" (nullish (path_ "environmentDirectory"%string) (Str (js ".bootstrap/env/{environment}"))) config;
  c2 ← expandIn "generatedDirectory" (path_ "generatedDirectory"%string) c1;
  c3 ← expandIn "backupDirectory" (path_ "backupDirectory"%string) c2;
  expandIn "logDirectory" (path_ "logDirectory"%string) c3.

Definition locksRoot : fspath := resolves repositoryRoot [js ".bootstrap"; js "locks"].

(** The target name: [environment-realtime[-suffix]]. *)
Definition targetOf (config : value) : jstr :=
  let suffix := prop "suffix" (prop "naming" config) in
  text "name" (prop "environment" config) ++ js "-" ++ (if truthy suffix then js "realtime-" ++ str_of suffix else js "realtime").

Definition lifecycle (o : Options) (config0 profile : value) : prog unit :=
  let suffixed := applySuffix (o_nameSuffix o) config0 in
  config ← throwing (expandPaths suffixed);
  let directory k := resolve repositoryRoot (text k (prop "paths" config)) in
  let environmentRoot := directory "environmentDirectory"%string in
  let logRoot := directory "logDirectory"%string in
  let s := {| options := o; kubeContext := text "context" (prop "kubernetes" config0); generatedRoot := directory "generatedDirectory"%string;
              backupRoot := directory "backupDirectory"%string; targetName := targetOf config |} in
  _ ← lift (assertPathInside repositoryRoot environmentRoot (js "environment output"));
  _ ← lift (assertPathInside repositoryRoot (generatedRoot s) (js "generated output"));
  _ ← lift (assertPathInside repositoryRoot (backupRoot s) (js "backup output"));
  _ ← lift (assertPathInside repositoryRoot logRoot (js "log output"));
  _ ← (if negb (isUndefined (prop "environmentDirectory" (prop "paths" suffixed))) then
         _ ← lift (assertPathInside environmentRoot (generatedRoot s) (js "environment generated output"));
         lift (assertPathInside environmentRoot logRoot (js "environment log output"))
       else Ret tt);
  let targetRoot := resolve (generatedRoot s) (targetName s) in
  _ ← lift (assertPathInside (generatedRoot s) targetRoot (js "generated output"));
  _ ← call (MkdirP targetRoot);
  let namingLockPath := resolve locksRoot (js "naming-manifest") in
  let lockPath := resolve locksRoot (targetName s) in
  _ ← lift (assertPathInside locksRoot lockPath (js "target lock"));
  _ ← call (MkdirP locksRoot);
  namingLockToken ← acquireLock namingLockPath;
  lockToken ← catch (_ ← archiveOldLogs logRoot;
                     token ← acquireLock lockPath;
                     _ ← writeNamingManifest config;
                     Ret token)
                (fun e => _ ← releaseLock namingLockPath namingLockToken; Raise e);
  finally (operate s config profile targetRoot)
    (finally (releaseLock lockPath lockToken) (releaseLock namingLockPath namingLockToken)).

Definition layoutMessage (dryRun : bool) (preview done : string) : jstr := js (if dryRun then preview else done).

Context (nodeMajor : Z) (nodeVersion : jstr) (usage : jstr).

Definition main (envConfig : option jstr) (arguments : list jstr) : prog unit :=
  parsed ← throwing (parse envConfig arguments);
  match parsed with
  | None => emit (js "help") [] usage
  | Some o =>
      _ ← refuse (nodeMajor <? 22)%Z (js "Configuration is invalid: Node.js 22 or later is required; detected " ++ nodeVersion ++ js ".");
      let persist := if o_dryRun o then Ret tt else flushLog in
      if bool_decide (o_action o = js "organize") then
        _ ← organizeBootstrapEnvironment jsonText parseJSON dateFallback sha256 repositoryRoot (o_dryRun o);
        _ ← emit (js "pass") (o_action o) (layoutMessage (o_dryRun o) "Bootstrap environment organization preview completed." "Bootstrap environment organization completed.");
        persist
      else if bool_decide (o_action o = js "restore-layout") then
        match o_manifest o with
        | None => Raise (layoutError (js "restore-layout requires --manifest FILE.") 2)
        | Some manifest =>
            _ ← restoreBootstrapEnvironment jsonText parseJSON dateFallback repositoryRoot manifest (o_dryRun o);
            _ ← emit (js "pass") (o_action o) (layoutMessage (o_dryRun o) "Bootstrap environment restoration preview completed." "Bootstrap environment organization was restored.");
            persist
        end
      else
        loaded ← loadContract (o_config o) (o_profile o);
        lifecycle o loaded.1 loaded.2
  end.
End lifecycle.
