(* ===== verification/LifecycleSample.v ===== *)
(** * A sample cluster

    A configuration with an external Redis, and an environment in which every
    tool succeeds, on which the theorems about lifecycle runs are exercised. *)

From stdpp Require Import base tactics option list numbers strings.
From S2P Require Import Prelude JsString JsNumber JsValue Regex ContractPatterns Contract ContractPlan ContractExamples.
From S2P Require Import Paths Effects Chart LifecycleOptions JsDate Layout Lifecycle.

Definition externalConfig : value :=
  put2 "redis" "mode" (Str (js "external"))
    (put2 "redis" "externalEndpoint" (Str (js "redis.example.internal:6379"))
       (put2 "redis" "externalEgressCidrs" (Arr [Str (js "10.0.0.0/24")]) nonHaConfig)).

Lemma externalConfig_valid : validateConfiguration sample_isIP sample_newURL externalConfig = [].
Proof. vm_compute. reflexivity. Qed.

Definition sampleContext : jstr := text "context" (prop "kubernetes" externalConfig).
Definition sampleRelease : jstr := js "dev-realtime".
Definition sampleRoot : fspath := [js "repo"].
Definition sampleTarget : fspath := [js "repo"; js ".bootstrap"; js "target"].

Definition sampleOptions (action_ : string) (dry : bool) (backup_ : option jstr) : Options :=
  {| o_action := js action_; o_config := []; o_profile := None; o_timeoutSeconds := int 300; o_dryRun := dry;
     o_confirmTopologyChange := false; o_force := false; o_backup := backup_; o_nameSuffix := None; o_manifest := None |}.

Definition sampleSession (action_ : string) (dry : bool) : Session :=
  {| options := sampleOptions action_ dry (Some (js "/repo/.backups/one")); kubeContext := sampleContext;
     generatedRoot := [js "repo"; js ".bootstrap"]; backupRoot := [js "repo"; js ".backups"]; targetName := js "target" |}.

(** The documents a read returns, by the path that was read or the command. *)
Definition sampleGateway : value := Obj [(js "topology", Str (js "non-ha")); (js "redis", Obj [(js "mode", Str (js "external"))])].
Definition sampleReleases : value := Arr [Obj [(js "name", Str sampleRelease); (js "revision", Str (js "3"))]].
Definition samplePlan : value :=
  Obj [(js "target", Obj [(js "context", Str sampleContext); (js "namespace", prop "namespace" (prop "kubernetes" externalConfig));
                          (js "release", Str sampleRelease)])].

Definition sampleParse (s : jstr) : result jsError value :=
  if bool_decide (s = js "/repo/.backups/one/plan.json") then Ok samplePlan
  else if bool_decide (s = js "/repo/.backups/one/releases.json") || bool_decide (s = js "list") then Ok sampleReleases
  else if bool_decide (s = js "/repo/bootstrap/profiles/non-ha.json") then Ok nonHaProfile
  else if bool_decide (s = js "get") || endsWith (js ".values.json") s then Ok sampleGateway
  else Throw (newError (js "Unexpected token")).

Definition sampleOutput (file : jstr) (args : list jstr) : jstr :=
  match args with
  | verb :: rest =>
      if bool_decide (verb = js "config") then sampleContext
      else if bool_decide (verb = js "auth") then js "yes"
      else if bool_decide (file = js "helm") then verb
      else text "credentialKey" (prop "redis" externalConfig)
  | [] => []
  end.

Definition sampleOracle : oracle := fun _ r =>
  match r with
  | DateNow => Ok (Number (int 1700000000000))
  | Pid => Ok (Number (int 42))
  | ReadFile p => Ok (Str (show_path p))
  | Stat p => if bool_decide (basename p = js "state.json") then Throw (errno (js "ENOENT")) else Ok (Obj [])
  | Spawn file args => Ok (Obj [(js "code", Number (int 0)); (js "stdout", Str (sampleOutput file args))])
  | _ => Ok Undefined
  end.

Definition sampleRun (action_ : string) (dry : bool) : history * result jsError unit :=
  run sampleOracle (operate sample_isIP (fun _ => []) (fun _ => []) sampleParse sampleRoot sampleRoot
    (sampleSession action_ dry) externalConfig nonHaProfile sampleTarget).
