(* ===== verification/LifecycleProps.v ===== *)
(** * What a lifecycle run may do to a cluster

    Theorems about scripts/realtime-bootstrap.mjs that hold whatever the cluster,
    the tools and the file system answer: every command that reaches a cluster
    names the configured context, and a command that changes it runs only in an
    action that may change it, after the context was verified and the state
    captured. *)

From stdpp Require Import base tactics option list numbers strings.
From S2P Require Import Prelude JsString JsNumber JsValue Regex ContractPatterns Contract ContractPlan Paths.
From S2P Require Import Effects Chart LifecycleOptions JsDate Layout Lifecycle ContractExamples LifecycleSample Canonical.

(** ** Requests of the building blocks *)

(** The programs that spawn nothing themselves. *)
Definition silent (r : request) : Prop := match r with Spawn _ _ | SpawnInput _ _ _ => False | _ => True end.

Lemma only_weaken {A} (P P' : request -> Prop) (p : prog A) : only P p -> (forall r, P r -> P' r) -> only P' p.
Proof.
  intros H HP. induction p as [a|e|r k IH]; [exact I|exact I|]. destruct H as [Hr H]. split; [by apply HP|].
  intros x. apply IH, H.
Qed.

Ltac silently := repeat only_step; exact I.

Section silent.
Context (jsonText : value -> jstr) (sha256 : jstr -> jstr) (parseJSON : jstr -> result jsError value) (dateFallback : jstr -> option Z).

Lemma silent_readJson p : only silent (readJson parseJSON p).
Proof. unfold readJson. silently. Qed.
Lemma silent_atomicWrite p c : only silent (atomicWrite p c).
Proof. unfold atomicWrite. silently. Qed.
Lemma silent_fileExists p : only silent (fileExists p).
Proof. unfold fileExists. silently. Qed.
Lemma silent_emit l p m : only silent (emit l p m).
Proof. unfold emit. silently. Qed.
Lemma silent_flushLog : only silent flushLog.
Proof. unfold flushLog. silently. Qed.
Lemma silent_timeStamp : only silent timeStamp.
Proof. unfold timeStamp. silently. Qed.
Lemma silent_finish s m : only silent (finish s m).
Proof. unfold finish. apply only_bind; [apply silent_emit|]. intros. apply silent_flushLog. Qed.
#[local] Hint Resolve silent_readJson silent_atomicWrite silent_fileExists silent_emit silent_flushLog : requests.

Lemma silent_processExists v : only silent (processExists v).
Proof. unfold processExists. silently. Qed.
#[local] Hint Resolve silent_processExists : requests.

Lemma silent_newOwner : only silent newOwner.
Proof. unfold newOwner. silently. Qed.
Lemma silent_staleOwner v : only silent (staleOwner dateFallback v).
Proof. unfold staleOwner. silently. Qed.
Lemma silent_staleDirectory p : only silent (staleDirectory p).
Proof. unfold staleDirectory. silently. Qed.
Lemma silent_takeLock p o : only silent (takeLock jsonText p o).
Proof. unfold takeLock. silently. Qed.
#[local] Hint Resolve silent_newOwner silent_staleOwner silent_staleDirectory silent_takeLock : requests.

Lemma silent_tryLock p o : only silent (tryLock jsonText p o).
Proof. unfold tryLock. silently. Qed.
Lemma silent_takeOver p o t e : only silent (takeOver jsonText p o t e).
Proof. unfold takeOver. silently. Qed.
#[local] Hint Resolve silent_tryLock silent_takeOver : requests.

Lemma silent_acquireLock p : only silent (acquireLock jsonText parseJSON dateFallback p).
Proof. unfold acquireLock. silently. Qed.
Lemma silent_releaseLock p t : only silent (releaseLock parseJSON p t).
Proof. unfold releaseLock. silently. Qed.
Lemma silent_archiveOldLogs p : only silent (archiveOldLogs p).
Proof. unfold archiveOldLogs. silently. Qed.
Lemma silent_writeNamingManifest root c : only silent (writeNamingManifest jsonText root c).
Proof. unfold writeNamingManifest. silently. Qed.
Lemma silent_writePlan plan root : only silent (writePlan jsonText plan root).
Proof. unfold writePlan. silently. Qed.
Lemma silent_refuseUnsafe s plan c : only silent (refuseUnsafe s plan c).
Proof. unfold refuseUnsafe. silently. Qed.
Lemma silent_readCached chart version cache : only silent (readCachedManagedRedisChart parseJSON sha256 chart version cache).
Proof. unfold readCachedManagedRedisChart. silently. Qed.
#[local] Hint Resolve silent_readCached : requests.
Lemma silent_copyCached chart version cache output : only silent (copyCachedManagedRedisChart parseJSON sha256 chart version cache output).
Proof. unfold copyCachedManagedRedisChart. silently. Qed.
#[local] Hint Resolve silent_copyCached : requests.
Lemma silent_firstCached chart version l output e : only silent (firstCached sha256 parseJSON chart version l output e).
Proof. revert e. induction l as [|d l IH]; intros e; cbn [firstCached]; repeat only_step. Qed.
Lemma silent_legacyCache s chart version l output : only silent (legacyCache sha256 parseJSON s chart version l output).
Proof. induction l as [|d l IH]; cbn [legacyCache]; repeat only_step. Qed.
End silent.

Create HintDb silent.
#[export] Hint Resolve silent_readJson silent_atomicWrite silent_fileExists silent_emit silent_flushLog silent_timeStamp
  silent_finish silent_acquireLock silent_releaseLock silent_archiveOldLogs silent_writeNamingManifest silent_writePlan
  silent_refuseUnsafe silent_copyCached silent_firstCached silent_legacyCache silent_readCached : silent.

(** ** Commands that change a cluster *)

Definition mutates (file : jstr) (args : list jstr) : bool :=
  match args with
  | verb :: rest =>
      (bool_decide (file = js "helm") && memb verb [js "upgrade"; js "uninstall"; js "rollback"])
      || (bool_decide (file = js "kubectl") && bool_decide (verb = js "rollout")
          && match rest with object :: _ => bool_decide (object = js "restart") | [] => false end)
  | [] => false
  end.

(** The requests of a program that only reads the cluster, and of any lifecycle
    program: a command with the context added, or a tool of the chart library. *)
Definition chartTool (file : jstr) (args : list jstr) : Prop :=
  file = js "tar" \/ (file = js "helm" /\ head args = Some (js "pull")).

(** The helm commands that work on files and charts only; every other one reaches a
    cluster. *)
Definition localVerbs : list jstr := js <$> ["version"; "lint"; "template"; "pull"]%string.

(** A helm command is a local one or one that gets the context. *)
Definition coveredVerb (file verb : jstr) : bool :=
  negb (bool_decide (file = js "helm")) || memb verb localVerbs || memb verb contextVerbs.

Definition commanding (readonly : bool) (context : jstr) (r : request) : Prop :=
  match r with
  | Spawn file args =>
      (exists a rest, args = contextArguments context file (a :: rest) /\ (readonly = true -> mutates file (a :: rest) = false) /\ coveredVerb file a = true)
      \/ chartTool file args
  | SpawnInput _ _ _ => False
  | _ => True
  end.

Lemma silent_commanding b c r : silent r -> commanding b c r.
Proof. by destruct r. Qed.

Lemma commanding_mono c r : commanding true c r -> commanding false c r.
Proof. destruct r; try done. intros [(a & rest & -> & _ & ?)|H]; [left; by exists a, rest|by right]. Qed.

Lemma mutates_context c f a rest : mutates f (contextArguments c f (a :: rest)) = mutates f (a :: rest).
Proof.
  unfold contextArguments. cbn [app mutates]. destruct rest as [|b rest]; [|reflexivity]. cbn [app].
  set (x := negb (bool_decide (c = [])) && _ && _). set (y := negb (bool_decide (c = [])) && _ && _).
  assert (js "restart" <> js "--context" /\ js "restart" <> js "--kube-context") as [H1 H2] by (vm_compute; split; congruence).
  destruct x, y; cbn [app]; rewrite ?bool_decide_eq_false_2 by congruence; reflexivity.
Qed.

(** Nothing the readers send changes the cluster. *)
Lemma commanding_readonly c f args : commanding true c (Spawn f args) -> mutates f args = false.
Proof.
  intros [(a & rest & -> & H & _)|[->|[-> H]]].
  - rewrite mutates_context. by apply H.
  - destruct args; reflexivity.
  - destruct args as [|v l]; [reflexivity|]. injection H as ->. reflexivity.
Qed.

Lemma commands_silent {A} b c (p : prog A) : only silent p -> only (commanding b c) p.
Proof. intros H. eapply only_weaken; [exact H|]. intros r. apply silent_commanding. Qed.

Section commands.
Context (isIP : jstr -> Z) (newURL : value -> option Url) (jsonText : value -> jstr) (sha256 : jstr -> jstr).
Context (parseJSON : jstr -> result jsError value) (dateFallback : jstr -> option Z) (repositoryRoot cwd : fspath).
Context (b : bool) (s : Session).

Abbreviation commands := (only (commanding b (kubeContext s))).

Lemma commands_command f a rest d :
  (b = true -> mutates f (a :: rest) = false) -> coveredVerb f a = true -> commands (command s f (a :: rest) d).
Proof.
  intros Hm Hv. unfold command. apply only_bind; [apply commands_silent, silent_emit|]. intros _.
  apply only_bind; [apply only_call; left; by exists a, rest|]. repeat only_step.
Qed.
End commands.

(** Solves the leaves of a decomposition: a silent program or a command whose
    verb is known. *)
Ltac commands_leaf :=
  first
    [ solve [auto with requests]
    | solve [apply commands_silent; auto with silent]
    | solve [apply commands_command; intros; first [reflexivity|done]]
    | solve [left; eauto] | solve [right; eauto] | exact I ].
Ltac commands_ := repeat (first [only_step | commands_leaf]).

Section readers.
Context (isIP : jstr -> Z) (newURL : value -> option Url) (jsonText : value -> jstr) (sha256 : jstr -> jstr).
Context (parseJSON : jstr -> result jsError value) (dateFallback : jstr -> option Z) (repositoryRoot cwd : fspath).
Context (b : bool) (s : Session).

Abbreviation commands := (only (commanding b (kubeContext s))).

Lemma commands_assertContext target : commands (assertContext s target).
Proof. unfold assertContext, currentContext, kubectl. commands_. Qed.
Lemma commands_clusterInfo : commands (clusterInfo s).
Proof. unfold clusterInfo, kubectl. commands_. Qed.
Lemma commands_inventoryReleases target d : commands (inventoryReleases parseJSON s target d).
Proof. unfold inventoryReleases, helm, parseDocument, targetReleaseListArguments. commands_. Qed.
Lemma commands_requireSecret l n ns d : commands (requireSecret s l n ns d).
Proof. unfold requireSecret, kubectl, secretNameArguments. commands_. Qed.
Lemma commands_requireKeysOf l n ks ns d : commands (requireKeysOf s l n ks ns d).
Proof. unfold requireKeysOf, kubectl, secretKeysArguments. commands_. Qed.
Lemma commands_assertFailureDomains plan : commands (assertFailureDomains parseJSON s plan).
Proof. unfold assertFailureDomains, kubectl, parseDocument. commands_. Qed.
Lemma commands_assertIngress plan config : commands (assertIngress s plan config).
Proof. unfold assertIngress, kubectl. commands_. Qed.
Lemma commands_assertPermission v plan d k : commands (assertPermission s v plan d k).
Proof. unfold assertPermission, kubectl. commands_. Qed.
#[local] Hint Resolve commands_assertContext commands_clusterInfo commands_inventoryReleases commands_requireSecret
  commands_requireKeysOf commands_assertFailureDomains commands_assertIngress commands_assertPermission : requests.

Lemma commands_assertOtlpSecret plan config : commands (assertOtlpSecret s plan config).
Proof. unfold assertOtlpSecret. commands_. Qed.
Lemma commands_assertRedisSecrets plan config : commands (assertRedisSecrets s plan config).
Proof. unfold assertRedisSecrets. commands_. Qed.
#[local] Hint Resolve commands_assertOtlpSecret commands_assertRedisSecrets : requests.

Lemma commands_assertTarget plan config m p : commands (assertTarget parseJSON s plan config m p).
Proof. unfold assertTarget, helm, kubectl. commands_. Qed.
Lemma commands_assertTeardownTarget plan : commands (assertTeardownTarget parseJSON s plan).
Proof. unfold assertTeardownTarget. commands_. Qed.
Lemma commands_assertBackupTarget plan : commands (assertBackupTarget parseJSON s plan).
Proof. unfold assertBackupTarget. commands_. Qed.

Lemma commands_forBackup plan config r v i : commands (managedRedisChartForBackup s plan config r v i).
Proof. unfold managedRedisChartForBackup. commands_. Qed.
#[local] Hint Resolve commands_forBackup : requests.
Lemma commands_captureChart plan config rs v r d c : commands (captureChart sha256 parseJSON repositoryRoot s plan config rs v r d c).
Proof. unfold captureChart. commands_. Qed.
#[local] Hint Resolve commands_captureChart : requests.
Lemma commands_captureRelease plan config rs d r c : commands (captureRelease jsonText sha256 parseJSON repositoryRoot s plan config rs d r c).
Proof. unfold captureRelease, helm, getValuesArguments, parseDocument. commands_. Qed.
#[local] Hint Resolve commands_captureRelease : requests.
Lemma commands_captureState plan config d : commands (captureState jsonText sha256 parseJSON repositoryRoot s plan config d).
Proof. unfold captureState. commands_. Qed.
#[local] Hint Resolve commands_captureState : requests.
Lemma commands_saveState plan config : commands (saveState jsonText sha256 parseJSON repositoryRoot s plan config).
Proof. unfold saveState. commands_. Qed.

Lemma commands_installed target : commands (installedReleaseState parseJSON s target).
Proof. unfold installedReleaseState, helm, getValuesArguments, parseDocument. commands_. Qed.
Lemma commands_openBackup target : commands (openBackup parseJSON repositoryRoot cwd s target).
Proof. unfold openBackup. commands_. Qed.
#[local] Hint Resolve commands_installed commands_openBackup : requests.
Lemma commands_snapshot target : commands (readRollbackSnapshot parseJSON repositoryRoot cwd s target).
Proof. unfold readRollbackSnapshot. commands_. Qed.
#[local] Hint Resolve commands_snapshot : requests.
Lemma commands_rollbackConfiguration c p x : commands (rollbackConfiguration parseJSON repositoryRoot c p x).
Proof. unfold rollbackConfiguration. commands_. Qed.
Lemma commands_refuseModeConversion c i x : commands (refuseModeConversion s c i x).
Proof. unfold refuseModeConversion. commands_. Qed.
Lemma commands_capturedPlan p x : commands (capturedPlan jsonText sha256 s p x).
Proof. unfold capturedPlan. commands_. Qed.
Lemma commands_readPriorState r : commands (readPriorState parseJSON repositoryRoot s r).
Proof. unfold readPriorState. commands_. Qed.
Lemma commands_planFor c p v : commands (planFor isIP jsonText sha256 s c p v).
Proof. unfold planFor. commands_. Qed.
#[local] Hint Resolve commands_rollbackConfiguration commands_refuseModeConversion commands_capturedPlan
  commands_readPriorState commands_planFor : requests.
Lemma commands_decidePlan c p r : commands (decidePlan isIP jsonText sha256 parseJSON repositoryRoot cwd s c p r).
Proof. unfold decidePlan. commands_. Qed.

Lemma commands_runTool f args t : chartTool f args -> commands (runTool f args t).
Proof. intros H. unfold runTool. commands_. Qed.
Lemma commands_pull chart version d t : commands (pullManagedRedisChart sha256 chart version d (js "helm") t).
Proof. unfold pullManagedRedisChart. commands_. apply commands_runTool. by right. Qed.
#[local] Hint Resolve commands_pull : requests.
Lemma commands_prepareChart chart version pinned given d t :
  commands (prepareManagedRedisChart parseJSON jsonText sha256 chart version pinned given d (js "helm") t).
Proof. unfold prepareManagedRedisChart, obtainArchive, lifecycleDeadline. commands_. apply commands_runTool. by left. Qed.
#[local] Hint Resolve commands_prepareChart : requests.
Lemma commands_prepareRedisChart chart version pinned a : commands (prepareRedisChart jsonText sha256 parseJSON repositoryRoot s chart version pinned a).
Proof. unfold prepareRedisChart. commands_. Qed.
#[local] Hint Resolve commands_prepareRedisChart : requests.
Lemma commands_planChart plan : commands (planChart jsonText sha256 parseJSON repositoryRoot cwd s plan).
Proof. unfold planChart. commands_. Qed.
Lemma commands_prerequisites : commands (prerequisites s).
Proof. unfold prerequisites, helm, kubectl. commands_. Qed.
Lemma commands_bootstrapWorkspace : commands (bootstrapWorkspace s).
Proof. unfold bootstrapWorkspace. commands_. Qed.
Lemma commands_validateManifests plan r c : commands (validateManifests s plan r c).
Proof. unfold validateManifests, helm. commands_. Qed.
Lemma commands_recordState d r k : commands (recordState jsonText repositoryRoot s d r k).
Proof. unfold recordState. commands_. Qed.
#[local] Hint Resolve commands_assertTarget commands_assertTeardownTarget commands_assertBackupTarget : requests.
Lemma commands_checkTarget d r : commands (checkTarget parseJSON s d r).
Proof. unfold checkTarget. commands_. Qed.
End readers.

#[export] Hint Resolve commands_decidePlan commands_planChart commands_prerequisites commands_bootstrapWorkspace
  commands_validateManifests commands_recordState commands_checkTarget commands_saveState commands_openBackup
  commands_prepareRedisChart : requests.

(** The programs that change the cluster. *)
Section writers.
Context (isIP : jstr -> Z) (newURL : value -> option Url) (jsonText : value -> jstr) (sha256 : jstr -> jstr).
Context (parseJSON : jstr -> result jsError value) (dateFallback : jstr -> option Z) (repositoryRoot cwd : fspath).
Context (s : Session).

Abbreviation commands := (only (commanding false (kubeContext s))).

Lemma commands_applyRedis plan c v : commands (applyRedis s plan c v).
Proof. unfold applyRedis, helm, kubectl. commands_. Qed.
#[local] Hint Resolve commands_applyRedis : requests.
Lemma commands_apply plan config v r c : commands (apply s plan config v r c).
Proof. unfold apply, helm, kubectl, gatewayUpgradeArguments. commands_. Qed.
Lemma commands_restoreRedis plan saved rs k v r : commands (restoreRedis jsonText sha256 parseJSON repositoryRoot s plan saved rs k v r).
Proof. unfold restoreRedis, helm. commands_. Qed.
#[local] Hint Resolve commands_restoreRedis : requests.
Lemma commands_rollbackRelease plan saved rs k r : commands (rollbackRelease jsonText sha256 parseJSON repositoryRoot s plan saved rs k r).
Proof. unfold rollbackRelease, helm, uninstallArguments. commands_. Qed.
#[local] Hint Resolve commands_rollbackRelease : requests.
Lemma commands_rollback plan : commands (rollback jsonText sha256 parseJSON repositoryRoot cwd s plan).
Proof. unfold rollback. commands_. Qed.
Lemma commands_teardown d : commands (teardown s d).
Proof. unfold teardown, helm, uninstallArguments. commands_. Qed.
#[local] Hint Resolve commands_apply commands_rollback commands_teardown : requests.
Lemma commands_change d r v : commands (change jsonText sha256 parseJSON repositoryRoot cwd s d r v).
Proof. unfold change. commands_. Qed.
#[local] Hint Resolve commands_change : requests.
Lemma commands_operate config profile r : commands (operate isIP jsonText sha256 parseJSON repositoryRoot cwd s config profile r).
Proof. unfold operate. commands_. Qed.
End writers.

(** ** The context of every command *)

(** Every kubectl command other than the query of the current context, and every helm
    command other than the local ones, end with the configured context. *)
Definition namesContext (context : jstr) (r : request) : Prop :=
  match r with
  | Spawn file args =>
      (file = js "kubectl" -> take 2 args = [js "config"; js "current-context"] \/ exists a, args = a ++ [js "--context"; context]) /\
      (file = js "helm" -> (exists verb rest, args = verb :: rest /\ verb ∈ localVerbs) \/ exists a, args = a ++ [js "--kube-context"; context])
  | SpawnInput _ _ _ => False
  | _ => True
  end.

Lemma contextArguments_kubectl c args : c <> [] ->
  contextArguments c (js "kubectl") args = args ++ (if isContextQuery args then [] else [js "--context"; c]).
Proof.
  intros Hc. unfold contextArguments. rewrite (bool_decide_eq_false_2 (c = [])) by done.
  replace (test (tool "kubectl") (js "kubectl")) with true by (vm_compute; reflexivity).
  replace (test (tool "helm") (js "kubectl")) with false by (vm_compute; reflexivity).
  cbn [negb andb]. rewrite app_nil_r. by destruct (isContextQuery args).
Qed.

Lemma contextArguments_helm c a rest : c <> [] ->
  contextArguments c (js "helm") (a :: rest) = (a :: rest) ++ (if memb a contextVerbs then [js "--kube-context"; c] else []).
Proof.
  intros Hc. unfold contextArguments. rewrite (bool_decide_eq_false_2 (c = [])) by done.
  replace (test (tool "kubectl") (js "helm")) with false by (vm_compute; reflexivity).
  replace (test (tool "helm") (js "helm")) with true by (vm_compute; reflexivity). reflexivity.
Qed.

Lemma contextQuery_spec args : isContextQuery args = true -> take 2 args = [js "config"; js "current-context"].
Proof. destruct args as [|x [|y args]]; try done. cbn. intros [->%bool_decide_eq_true ->%bool_decide_eq_true]%andb_true_iff. done. Qed.

Lemma commanding_names c r : c <> [] -> commanding false c r -> namesContext c r.
Proof.
  intros Hc. destruct r; try done.
  intros [(a & rest & -> & _ & Hv)|Ht]; split; intros ->.
  - rewrite contextArguments_kubectl by done. destruct (isContextQuery (a :: rest)) eqn:E; [|right; eauto].
    left. rewrite app_nil_r. by apply contextQuery_spec.
  - rewrite contextArguments_helm by done. unfold coveredVerb in Hv. rewrite (bool_decide_eq_true_2 _ eq_refl) in Hv. cbn [negb orb] in Hv.
    destruct (memb a contextVerbs); [right; eauto|left]. rewrite orb_false_r in Hv. apply memb_spec in Hv. rewrite app_nil_r. eauto.
  - destruct Ht as [H|[H _]]; vm_compute in H; congruence.
  - destruct Ht as [H|[_ H]]; [vm_compute in H; congruence|]. left. destruct args as [|verb rest]; [done|]. injection H as ->. exists (js "pull"), rest.
    split; [done|]. by apply memb_spec.
Qed.

Section whole.
Context (isIP : jstr -> Z) (jsonText : value -> jstr) (sha256 : jstr -> jstr).
Context (parseJSON : jstr -> result jsError value) (dateFallback : jstr -> option Z) (repositoryRoot cwd : fspath).

Lemma commands_lifecycle o config profile :
  only (commanding false (text "context" (prop "kubernetes" config)))
    (lifecycle isIP jsonText sha256 parseJSON dateFallback repositoryRoot cwd o config profile).
Proof.
  unfold lifecycle. repeat only_step;
    first [exact I | solve [apply commands_silent; auto with silent] | exact (commands_operate _ _ _ _ _ _ _ _ _ _)].
Qed.
End whole.

(** ** Guarded changes

    The monitor is the history itself. *)

(** The query of the current context succeeded and its answer is [context]. *)
Definition contextVerified (context : value) (h : history) : Prop :=
  exists child, (Spawn (js "kubectl") [js "config"; js "current-context"], Ok child) ∈ h /\
    strict_eq (prop "code" child) (Number (int 0)) = true /\ context = Str (trim (text "stdout" child)).

(** A captured plan was put in place below the backup directory: the last file
    of [saveState]. *)
Definition stateCaptured (root : fspath) (h : history) : Prop :=
  exists release stamp tmp v, (Rename tmp (resolves root [release; stamp; js "plan.json"]), Ok v) ∈ h.

(** The history grew. *)
Ltac grown := split; [unfold extend; rewrite <- ?app_assoc; eauto|].

Section guarded.
Context (context : value) (root : fspath) (G : Prop).

Definition guarded (h : history) (r : request) : Prop :=
  match r with
  | Spawn file args | SpawnInput file args _ => mutates file args = true -> contextVerified context h /\ stateCaptured root h /\ G
  | _ => True
  end.

Abbreviation safe := (ok guarded extend).

Lemma safe_reading {A} c (p : prog A) h :
  only (commanding true c) p -> safe h p (fun h' _ => exists t, h' = h ++ t).
Proof.
  revert h. induction p as [a|e|r k IH]; intros h Hp; cbn [ok]; [exists []; by rewrite app_nil_r|exists []; by rewrite app_nil_r|].
  destruct Hp as [Hr Hk]. split.
  - destruct r; try done. intros Hm. apply commanding_readonly in Hr. congruence.
  - intros x. eapply ok_weaken; [apply IH, Hk|]. intros h' _ (t & ->). exists ((r, x) :: t). unfold extend. by rewrite <- app_assoc.
Qed.

Lemma contextVerified_app c h t : contextVerified c h -> contextVerified c (h ++ t).
Proof. intros (child & H & Hc). exists child. split; [|done]. apply elem_of_app. by left. Qed.
Lemma stateCaptured_app h t : stateCaptured root h -> stateCaptured root (h ++ t).
Proof. intros (a & b & c & d & H). exists a, b, c, d. apply elem_of_app. by left. Qed.

(** Once everything is verified, nothing more is required. *)
Lemma safe_verified {A} (p : prog A) h :
  contextVerified context h -> stateCaptured root h -> G -> safe h p (fun _ _ => True).
Proof.
  intros H1 H2 HG. revert h H1 H2. induction p as [a|e|r k IH]; intros h H1 H2; cbn [ok]; [done|done|].
  split; [by destruct r|]. intros x. apply IH; [by apply contextVerified_app|by apply stateCaptured_app].
Qed.

Lemma query_arguments c : contextArguments c (js "kubectl") [js "config"; js "current-context"] = [js "config"; js "current-context"].
Proof. unfold contextArguments. vm_compute. by destruct c. Qed.

Lemma safe_assertContext s target h :
  safe h (assertContext s target) (fun h' r => (exists t, h' = h ++ t) /\ (is_ok r = true -> contextVerified (prop "context" target) h')).
Proof.
  unfold assertContext, currentContext, kubectl, command. rewrite query_arguments.
  apply ok_bind, ok_bind, ok_bind, ok_call; [done|]. intros [u|e]; [|by grown].
  apply ok_bind. cbn [ok]. apply ok_call; [by intros Hm|].
  intros [child|e]; [|by grown]. destruct (truthy _); [by grown|].
  destruct (strict_eq _ _) eqn:Hcode; [|by grown]. cbn [ok].
  destruct (is_str _ _) eqn:Hs; cbn [negb refuse ok]; grown; [|done].
  intros _. exists child. split; [unfold extend; apply elem_of_app; right; left|]. split; [done|]. by apply is_str_spec.
Qed.

Lemma safe_atomicWrite p c h :
  safe h (atomicWrite p c) (fun h' r => (exists t, h' = h ++ t) /\ (is_ok r = true -> exists tmp v, (Rename tmp p, Ok v) ∈ h')).
Proof.
  unfold atomicWrite. apply ok_bind, ok_call; [done|]. intros [u1|e]; [|by grown].
  apply ok_bind, ok_call; [done|]. intros [u2|e]; [|by grown].
  apply ok_bind, ok_call; [done|]. intros [u3|e]; [|by grown].
  apply ok_bind, ok_call; [done|]. intros [u4|e]; [|by grown].
  grown. intros _. exists (temporary p u2), u4. unfold extend. apply elem_of_app. right. left.
Qed.

(** A reading step before the rest of a program. *)
Lemma safe_after {A B} c (p : prog A) (f : A -> prog B) h Q :
  only (commanding true c) p -> (forall a t, safe (h ++ t) (f a) Q) -> (forall e t, Q (h ++ t) (Throw e)) -> safe h (p ≫= f) Q.
Proof.
  intros Hp Hf He. apply ok_bind. eapply ok_weaken; [by apply (safe_reading c)|]. intros h' [a|e] (t & ->); [apply Hf|apply He].
Qed.
End guarded.

Section changes.
Context (isIP : jstr -> Z) (jsonText : value -> jstr) (sha256 : jstr -> jstr).
Context (parseJSON : jstr -> result jsError value) (dateFallback : jstr -> option Z) (repositoryRoot cwd : fspath).
Context (context : value) (G : Prop) (s : Session).

Abbreviation safe := (ok (guarded context (backupRoot s) G) extend).

Lemma safe_captureState plan config directory h :
  safe h (captureState jsonText sha256 parseJSON repositoryRoot s plan config directory)
    (fun h' r => (exists t, h' = h ++ t) /\ (is_ok r = true -> exists tmp v, (Rename tmp (resolve directory (js "plan.json")), Ok v) ∈ h')).
Proof.
  unfold captureState.
  eapply safe_after; [apply (commands_inventoryReleases parseJSON true s)| |by intros; grown]. intros releases t1.
  eapply safe_after; [eapply (commands_silent true (kubeContext s)); auto with silent| |by intros; grown]. intros _ t2.
  eapply safe_after; [apply (commands_captureRelease jsonText sha256 parseJSON repositoryRoot true s)| |by intros; grown]. intros c1 t3.
  eapply safe_after; [apply (commands_captureRelease jsonText sha256 parseJSON repositoryRoot true s)| |by intros; grown]. intros c2 t4.
  eapply ok_weaken; [apply safe_atomicWrite|]. cbv beta. intros h' r [(t & ->) H]. by grown.
Qed.

Lemma safe_saveState plan config h :
  safe h (saveState jsonText sha256 parseJSON repositoryRoot s plan config)
    (fun h' r => (exists t, h' = h ++ t) /\ (is_ok r = true -> stateCaptured (backupRoot s) h')).
Proof.
  unfold saveState.
  eapply safe_after; [eapply (commands_silent true (kubeContext s)); auto with silent| |by intros; grown]. intros stamp t1.
  eapply safe_after; [eapply (commands_silent true (kubeContext s)), only_lift| |by intros; grown]. intros _ t2.
  eapply safe_after; [eapply (commands_silent true (kubeContext s)), only_call; exact I| |by intros; grown]. intros _ t3.
  apply ok_bind, ok_catch. eapply ok_weaken; [apply safe_captureState|]. cbv beta. intros h1 [u|e] [(t & ->) H].
  - destruct (H eq_refl) as (tmp & v & Hin). apply ok_bind, ok_bind, ok_call; [done|].
    assert (stateCaptured (backupRoot s) ((((h ++ t1) ++ t2) ++ t3) ++ t)) as Hc by (eexists _, stamp, tmp, v; exact Hin).
    intros [w|e]; (grown; intros _; by apply stateCaptured_app).
  - apply ok_bind, ok_call; [done|]. intros [w|e']; by grown.
Qed.

Lemma safe_assertTarget plan config m p h :
  safe h (assertTarget parseJSON s plan config m p)
    (fun h' r => (exists t, h' = h ++ t) /\ (is_ok r = true -> contextVerified (prop "context" (prop "target" plan)) h')).
Proof.
  unfold assertTarget. apply ok_bind. eapply ok_weaken; [apply safe_assertContext|]. cbv beta. intros h1 [u|e] [(t & ->) H]; [|by grown].
  specialize (H eq_refl).
  eapply ok_weaken; [apply (safe_reading _ _ _ (kubeContext s))|].
  - unfold helm, kubectl. commands_; first [apply commands_clusterInfo|apply commands_assertIngress|apply commands_assertOtlpSecret
      |apply commands_assertFailureDomains|apply commands_assertPermission|apply commands_requireSecret|apply commands_assertRedisSecrets].
  - cbv beta. intros h' r (t' & ->). grown. intros _. by apply contextVerified_app.
Qed.

Lemma safe_checkTarget d r h :
  safe h (checkTarget parseJSON s d r)
    (fun h' x => (exists t, h' = h ++ t) /\ (is_ok x = true -> contextVerified (prop "context" (prop "target" (d_plan d))) h')).
Proof.
  unfold checkTarget. destruct (isAction s _); [|destruct (isAction s _)].
  1,2: unfold assertTeardownTarget, assertBackupTarget; apply ok_bind;
    (eapply ok_weaken; [apply safe_assertContext|]); cbv beta; intros h1 [u|e] [(t & ->) H]; [|by grown]; specialize (H eq_refl);
    (eapply ok_weaken; [apply (safe_reading _ _ _ (kubeContext s))|]);
    [commands_; first [apply commands_clusterInfo|apply commands_assertPermission|apply commands_inventoryReleases]
    |cbv beta; intros h' x (t' & ->); grown; intros _; by apply contextVerified_app].
  eapply (safe_after _ _ _ (kubeContext s)); [destruct (isAction s _); auto with requests| |by intros; grown]. intros config t.
  eapply ok_weaken; [apply safe_assertTarget|]. cbv beta. intros h' x [(t' & ->) H]. by grown.
Qed.
End changes.

(** ** The context of a plan is that of the configuration *)

Lemma prop_put k k' v o : js k <> js k' -> prop k (put k' v o) = prop k o.
Proof.
  intros Hk. unfold prop, put. destruct o; try done. cbn [get]. rewrite assoc_set_prop.
  destruct (decide (js k' = js k)); [congruence|done].
Qed.

Definition targets (config plan : value) : Prop :=
  forall c, prop "context" (prop "target" plan) = Str c -> prop "context" (prop "kubernetes" config) = Str c.

(** An object, with distinct keys. *)
Definition object (v : value) : Prop := exists l, v = Obj l /\ NoDup (keys l).

(** What the plan of an action says about its target and its safety. *)
Record planned (action : jstr) (config plan : value) : Prop := {
  pl_object : object plan;
  pl_target : object (prop "target" plan);
  pl_safety : object (prop "safety" plan);
  pl_context : targets config plan;
  pl_backup : prop "requiresBackup" (prop "safety" plan) = Boolean (isMutation action)
}.

Lemma stable_object l : NoDup (keys l) -> object (stable (Obj l)).
Proof. intros H. destruct (stable_entries l H) as (l' & E & _). exists l'. split; [done|]. by eapply stable_NoDup. Qed.

Ltac nodup_keys := apply (bool_decide_unpack _); vm_compute; reflexivity.

Section planned.
Context (isIP : jstr -> Z) (jsonText : value -> jstr) (sha256 : jstr -> jstr).
Context (parseJSON : jstr -> result jsError value) (repositoryRoot cwd : fspath).

Lemma buildPlan_planned action config profile o plan :
  buildPlan isIP jsonText sha256 action config profile o = Ok plan -> planned action config plan.
Proof.
  unfold buildPlan. destruct (negb _); [done|]. intros (names & _ & H)%bind_Ok. apply bind_Ok in H as (values & _ & H).
  apply bind_Ok in H as (managedRedis & _ & H). apply bind_Ok in H as (_ & _ & H). apply Ok_inj in H as <-.
  match goal with |- planned _ _ (stable (Obj (?a :: ?b :: ?c0 :: ?d :: (?k, ?t) :: ?e :: ?f :: ?g :: (?k', ?u) :: ?l))) =>
    set (L := a :: b :: c0 :: d :: (k, t) :: e :: f :: g :: (k', u) :: l);
    assert (prop "target" (stable (Obj L)) = stable t) as Et by (unfold prop; rewrite get_stable by nodup_keys; reflexivity);
    assert (prop "safety" (stable (Obj L)) = stable u) as Es by (unfold prop; rewrite get_stable by nodup_keys; reflexivity) end.
  constructor.
  - apply stable_object. nodup_keys.
  - rewrite Et. apply stable_object. nodup_keys.
  - rewrite Es. apply stable_object. nodup_keys.
  - intros c. rewrite Et. unfold prop at 1. rewrite get_stable by nodup_keys. intros H%stable_Str. exact H.
  - rewrite Es. unfold prop. rewrite get_stable by nodup_keys. reflexivity.
Qed.

Lemma planFor_planned s config profile v :
  returns (planned (action s) config) (planFor isIP jsonText sha256 s config profile v).
Proof.
  unfold planFor. destruct (buildPlan _ _ _ _ _ _ _) as [plan|e] eqn:E; [|exact I]. cbn [throwing returns].
  by eapply buildPlan_planned.
Qed.

(** The captured values leave the other sections of the plan as they are. *)
Lemma useCaptured_section k plan a b c d e :
  object plan -> js k ∉ [js "values"; js "managedRedis"; js "valuesSha256"] ->
  prop k (useCapturedDeploymentValues jsonText sha256 plan a b c d e) = stable (prop k plan).
Proof.
  intros (l & -> & Hnd) Hk. unfold useCapturedDeploymentValues. cbv zeta. cbn [props_of]. unfold prop.
  rewrite get_stable by (repeat apply set_prop_NoDup; done). cbn [get]. rewrite !assoc_set_prop.
  repeat match goal with |- context [decide (js ?x = js k)] =>
    destruct (decide (js x = js k)) as [E|_]; [exfalso; apply Hk; rewrite <- E; apply memb_spec; vm_compute; reflexivity|] end.
  done.
Qed.

Lemma stable_field k v : object v -> prop k (stable v) = stable (prop k v).
Proof. intros (l & -> & Hnd). unfold prop. by rewrite get_stable. Qed.

Lemma capturedPlan_planned s config plan x :
  planned (action s) config plan ->
  returns (fun p => targets config p /\ prop "requiresBackup" (prop "safety" p) = Boolean (isMutation (action s)))
    (capturedPlan jsonText sha256 s plan x).
Proof.
  intros [Ho Ht Hs Hc Hb]. unfold capturedPlan. destruct (presentSnapshot x) as [b|]; [|split; [exact Hc|exact Hb]].
  apply returns_then. intros legacy. cbn [returns]. split.
  - intros c. rewrite useCaptured_section by first [done|rewrite <- memb_spec; vm_compute; congruence].
    rewrite stable_field by done. intros H%stable_Str. by apply Hc.
  - rewrite useCaptured_section by first [done|rewrite <- memb_spec; vm_compute; congruence].
    rewrite stable_field by done. by rewrite Hb.
Qed.

Lemma rollbackConfiguration_sections config profile x :
  returns (fun cp => prop "kubernetes" cp.1 = prop "kubernetes" config /\ prop "environment" cp.1 = prop "environment" config)
    (rollbackConfiguration parseJSON repositoryRoot config profile x).
Proof.
  unfold rollbackConfiguration. destruct x as [b|]; [|done]. destruct (gatewayPresent b); [|done].
  apply returns_then. intros p. apply returns_then. intros _. cbn [returns fst]. unfold put2.
  rewrite !prop_put by (vm_compute; congruence). done.
Qed.

Lemma decidePlan_planned s config profile r :
  returns (fun d => targets config (d_plan d) /\ prop "requiresBackup" (prop "safety" (d_plan d)) = Boolean (isMutation (action s)) /\
      prop "environment" (d_config d) = prop "environment" config)
    (decidePlan isIP jsonText sha256 parseJSON repositoryRoot cwd s config profile r).
Proof.
  unfold decidePlan. apply returns_then. intros prior. apply returns_then. intros provisional. apply returns_then. intros x.
  eapply returns_bind; [apply rollbackConfiguration_sections|]. intros [config' profile'] [Hk He]. cbn [fst] in Hk, He.
  apply returns_then. intros installed. apply returns_then. intros _.
  eapply returns_bind; [apply planFor_planned|]. intros plan0 Hp.
  eapply returns_bind; [apply (capturedPlan_planned s config' plan0 x Hp)|]. intros plan [Hplan Hb]. cbn [returns d_plan d_config].
  split; [|done]. intros c Hc. rewrite <- Hk. by apply Hplan.
Qed.
End planned.

(** ** The action as a whole *)

Lemma isAction_sub s l l' : js <$> l ⊆ js <$> l' -> isAction s l' = false -> isAction s l = false.
Proof.
  intros Hs. unfold isAction. rewrite <- !not_true_iff_false, !memb_spec. intros H Ha. by apply H, Hs.
Qed.

Ltac subset := apply (bool_decide_unpack _); vm_compute; reflexivity.

(** What an operator must have asked for. *)
Definition requested (s : Session) (config : value) : Prop :=
  o_dryRun (options s) = false /\ isAction s clusterActions = true /\
  (action s = js "teardown" -> o_force (options s) = true /\ prop "class" (prop "environment" config) <> Str (js "production")).

Section operating.
Context (isIP : jstr -> Z) (jsonText : value -> jstr) (sha256 : jstr -> jstr).
Context (parseJSON : jstr -> result jsError value) (repositoryRoot cwd : fspath) (s : Session) (config profile : value) (targetRoot : fspath).

Abbreviation safe := (ok (guarded (prop "context" (prop "kubernetes" config)) (backupRoot s) (requested s config)) extend).

Lemma commands_change_readonly d v :
  isAction s clusterActions = false ->
  only (commanding true (kubeContext s)) (change jsonText sha256 parseJSON repositoryRoot cwd s d targetRoot v).
Proof.
  intros Ha. unfold change. rewrite (isAction_sub s ["install"; "update"; "recover"]%string clusterActions ltac:(subset) Ha).
  rewrite (isAction_sub s ["rollback"]%string clusterActions ltac:(subset) Ha), (isAction_sub s ["teardown"]%string clusterActions ltac:(subset) Ha).
  rewrite andb_false_r. cbv iota zeta. unfold whenever. repeat only_step.
Qed.

(** The guards before the first effect on a cluster. *)
Lemma safe_unsafe plan c h Q :
  (forall u t, (o_dryRun (options s) = false -> action s = js "teardown" ->
       o_force (options s) = true /\ prop "class" (prop "environment" c) <> Str (js "production")) -> Q (h ++ t) (Ok u)) ->
  (forall e t, Q (h ++ t) (Throw e)) -> safe h (refuseUnsafe s plan c) Q.
Proof.
  intros HQ HE. unfold refuseUnsafe. cbv zeta. replace h with (h ++ []) by apply app_nil_r.
  apply ok_bind. destruct (_ && _ && _); [apply HE|]. cbn [refuse ok]. apply ok_bind.
  destruct (isAction s ["teardown"%string] && negb (o_force (options s)) && negb (o_dryRun (options s))) eqn:E1; [apply HE|]. cbn [refuse ok].
  destruct (isAction s ["teardown"%string] && is_str (js "production") (prop "class" (prop "environment" c))) eqn:E2; [apply HE|]. cbn [refuse ok].
  apply HQ. intros Hd Ha. assert (isAction s ["teardown"%string] = true) as Ht by (apply memb_spec; rewrite Ha; left).
  rewrite Ht, Hd in E1. rewrite Ht in E2. cbn [andb negb] in E1, E2. rewrite andb_true_r in E1. apply negb_false_iff in E1.
  split; [done|]. intros Hp. rewrite Hp in E2. vm_compute in E2. congruence.
Qed.

Lemma safe_perform d validated h :
  targets config (d_plan d) -> prop "requiresBackup" (prop "safety" (d_plan d)) = Boolean (isMutation (action s)) ->
  (isAction s clusterActions = true -> requested s config) ->
  safe h
    (_ ← checkTarget parseJSON s d targetRoot;
     backup ← (if truthy (prop "requiresBackup" (prop "safety" (d_plan d))) || isAction s ["backup"%string]
               then p ← saveState jsonText sha256 parseJSON repositoryRoot s (d_plan d) (d_config d); Ret (Some p) else Ret None);
     _ ← change jsonText sha256 parseJSON repositoryRoot cwd s d targetRoot validated;
     _ ← recordState jsonText repositoryRoot s d targetRoot backup;
     finish s "Lifecycle action completed.") (fun _ _ => True).
Proof.
  intros Ht Hb Hr. rewrite Hb. change (isMutation (action s)) with (isAction s clusterActions).
  apply ok_bind. eapply ok_weaken; [apply safe_checkTarget|]. cbv beta. intros h1 [u|e] [(t1 & ->) Hc]; [|done].
  specialize (Hc eq_refl). assert (contextVerified (prop "context" (prop "kubernetes" config)) (h ++ t1)) as Hcv.
  { destruct Hc as (child & Hin & Hcode & Heq). exists child. split; [done|]. split; [done|]. by apply Ht. }
  destruct (isAction s clusterActions) eqn:Ha; cbn [truthy orb].
  - apply ok_bind, ok_bind. eapply ok_weaken; [apply safe_saveState|]. cbv beta. intros h2 [p|e] [(t2 & ->) Hs]; [|done].
    apply safe_verified; [by apply contextVerified_app|by apply Hs|by apply Hr].
  - eapply ok_weaken; [apply (safe_reading _ _ _ (kubeContext s))|done]. commands_. by apply commands_change_readonly.
Qed.

Lemma safe_operate :
  safe [] (operate isIP jsonText sha256 parseJSON repositoryRoot cwd s config profile targetRoot) (fun _ _ => True).
Proof.
  unfold operate. apply ok_bind. eapply ok_weaken.
  { eapply ok_returns; [eapply (safe_reading _ _ _ (kubeContext s)); apply commands_decidePlan|apply decidePlan_planned]. }
  cbv beta. intros h [d|e] [(t & ->) Hd]; [|done]. destruct Hd as (Ht & Hb & He).
  eapply (safe_after _ _ _ (kubeContext s)); [apply commands_silent; auto with silent| |done]. intros _ t1.
  apply ok_bind, safe_unsafe; [|done]. intros _ t2 Hu. destruct (isAction s ["plan"%string] || o_dryRun (options s)) eqn:Ep.
  { eapply ok_weaken; [eapply (safe_reading _ _ _ (kubeContext s)), commands_silent; auto with silent|done]. }
  apply orb_false_iff in Ep as [_ Hdry].
  eapply (safe_after _ _ _ (kubeContext s)); [commands_|  |done]. intros validated t3.
  destruct (isAction s ["prerequisites"%string]).
  { eapply ok_weaken; [eapply (safe_reading _ _ _ (kubeContext s)), commands_prerequisites|done]. }
  destruct (isAction s ["bootstrap"%string]).
  { eapply ok_weaken; [eapply (safe_reading _ _ _ (kubeContext s)), commands_bootstrapWorkspace|done]. }
  apply safe_perform; [done|done|]. intros Ha. split; [done|]. split; [done|]. intros Htear. rewrite <- He. by apply Hu.
Qed.
End operating.

(** ** Properties *)

(** C3: whatever the tools and the file system answer, a command that changes
    the cluster (helm upgrade, uninstall or rollback, kubectl rollout restart) is
    run only by an action that changes a deployment, never in a dry run, never by
    an unforced teardown nor a teardown of production, and only after the current
    Kubernetes context was read and found to be the configured one and the state
    before the change was captured below the backup directory. *)
Theorem changes_guarded isIP jsonText sha256 parseJSON repositoryRoot cwd s config profile targetRoot o h1 file args x h2 :
  (run o (operate isIP jsonText sha256 parseJSON repositoryRoot cwd s config profile targetRoot)).1 = h1 ++ (Spawn file args, x) :: h2 ->
  mutates file args = true ->
  requested s config /\ contextVerified (prop "context" (prop "kubernetes" config)) h1 /\ stateCaptured (backupRoot s) h1.
Proof.
  intros Hrun Hm. pose proof (ok_run _ _ o [] _ _ (safe_operate isIP jsonText sha256 parseJSON repositoryRoot cwd s config profile targetRoot)) as H.
  destruct (run o _) as [h r]. cbn [fst] in Hrun. subst h. destruct H as [Hc _]. apply complies_at in Hc. rewrite after_extend in Hc.
  destruct (Hc Hm) as (H1 & H2 & H3). done.
Qed.

(** The update of the sample cluster: the upgrade command is its fifty-second request. *)
Lemma changes_guarded_witness :
  exists h1 args, (Spawn (js "helm") args, Ok (Obj [(js "code", Number (int 0)); (js "stdout", Str (js "upgrade"))])) ∈ (sampleRun "update" false).1 /\
    mutates (js "helm") args = true /\ stateCaptured [js "repo"; js ".backups"] h1.
Proof.
  set (h := (sampleRun "update" false).1).
  assert (exists n args, h !! n = Some (Spawn (js "helm") args, Ok (Obj [(js "code", Number (int 0)); (js "stdout", Str (js "upgrade"))])) /\
    mutates (js "helm") args = true) as (n & args & Hn & Hm).
  { exists 51%nat. eexists. split; [vm_compute; reflexivity|vm_compute; reflexivity]. }
  exists (take n h), args. split; [by eapply list_elem_of_lookup_2|]. split; [done|].
  eapply (changes_guarded sample_isIP (fun _ => []) (fun _ => []) sampleParse sampleRoot sampleRoot
    (sampleSession "update" false) externalConfig nonHaProfile sampleTarget sampleOracle (take n h) _ _ _ (drop (S n) h)); [|exact Hm].
  fold (sampleRun "update" false). change ((sampleRun "update" false).1) with h. symmetry. by apply take_drop_middle.
Defined.

(** C10: when the configuration names a context, every kubectl command of a lifecycle
    run other than [config current-context], and every helm command other than
    [version], [lint], [template] and [pull], which work on files and charts, ends with
    the flag and the name of that context, whatever the commands answer. *)
Theorem context_named isIP jsonText sha256 parseJSON dateFallback repositoryRoot cwd o options config profile :
  text "context" (prop "kubernetes" config) <> [] ->
  Forall (namesContext (text "context" (prop "kubernetes" config)))
    (requests (run o (lifecycle isIP jsonText sha256 parseJSON dateFallback repositoryRoot cwd options config profile)).1).
Proof.
  intros Hc. apply only_requests. eapply only_weaken; [apply commands_lifecycle|]. intros r. by apply commanding_names.
Qed.

Lemma context_named_witness :
  Forall (namesContext sampleContext)
    (requests (run sampleOracle (lifecycle sample_isIP (fun _ => []) (fun _ => []) sampleParse (fun _ => None) sampleRoot sampleRoot
      (sampleOptions "update" false None) externalConfig nonHaProfile)).1).
Proof. apply (context_named sample_isIP). vm_compute. congruence. Defined.

(** The plan of an external Redis has no managed Redis section. *)
Lemma buildPlan_external isIP jsonText sha256 action config profile o plan :
  buildPlan isIP jsonText sha256 action config profile o = Ok plan -> managed config = false -> prop "managedRedis" plan = Null.
Proof.
  unfold buildPlan. destruct (negb _); [done|]. intros (names & _ & H)%bind_Ok. apply bind_Ok in H as (values & _ & H).
  apply bind_Ok in H as (managedRedis & Hm & H). apply bind_Ok in H as (_ & _ & H). apply Ok_inj in H as <-. intros He.
  assert (managedRedis = Null) as ->.
  { unfold renderManagedRedis in Hm. apply bind_Ok in Hm as (_ & _ & Hm).
    change (is_str (js "managed") (at2 (js "redis") (js "mode") config)) with (managed config) in Hm. rewrite He in Hm.
    by apply Ok_inj in Hm as <-. }
  unfold prop. rewrite get_stable by nodup_keys. reflexivity.
Qed.

(** a rollback of a deployment with an external Redis always fails. The
    backup records no Redis chart, so chart and version compare equal to those of
    the plan, which has none either, and the digest is then read from the managed
    Redis section that is null. *)
Theorem rollback_external_fails isIP jsonText sha256 s config profile o plan b :
  buildPlan isIP jsonText sha256 (action s) config profile o = Ok plan -> managed config = false ->
  gatewayPresent b = true -> managedRedisChart b = Undefined -> managedRedisChartVersion b = Undefined ->
  capturedPlan jsonText sha256 s plan (Some b) = Raise (newError typeError).
Proof.
  intros Hp He Hg Hc Hv. apply buildPlan_external in Hp; [|done]. unfold capturedPlan, presentSnapshot. rewrite Hg, Hc, Hv, Hp.
  reflexivity.
Qed.

(** The rollback of the sample cluster, as a whole run. *)
Lemma rollback_external_fails_witness :
  (exists plan b, capturedPlan (fun _ => []) (fun _ => []) (sampleSession "rollback" false) plan (Some b) = Raise (newError typeError)) /\
  (sampleRun "rollback" false).2 = Throw (newError typeError).
Proof.
  split; [|vm_compute; reflexivity].
  assert (exists plan, buildPlan sample_isIP (fun _ => []) (fun _ => []) (js "rollback") externalConfig nonHaProfile
    {| previousTopology := Undefined; dryRun := Undefined; timeoutSeconds := Undefined |} = Ok plan) as [plan Hp]
    by (eexists; vm_compute; reflexivity).
  exists plan, {| gatewayPresent := true; s_topology := js "non-ha"; s_redisMode := Str (js "external"); gatewayValues := sampleGateway;
    managedRedisValues := Undefined; managedRedisChart := Undefined; managedRedisChartVersion := Undefined; managedRedisChartArchiveSha256 := Undefined |}.
  eapply (rollback_external_fails sample_isIP _ _ (sampleSession "rollback" false)); [exact Hp|vm_compute; reflexivity|reflexivity..].
Defined.

(** a dry run of an installation, announced as a run without external
    operations, spawns kubectl and helm against the cluster. *)
Theorem dry_run_reaches_cluster :
  (sampleRun "install" true).2 = Ok tt /\
  (exists args, Spawn (js "kubectl") args ∈ requests (sampleRun "install" true).1) /\
  (exists args, Spawn (js "helm") args ∈ requests (sampleRun "install" true).1).
Proof.
  split; [vm_compute; reflexivity|]. split.
  - exists [js "config"; js "current-context"]. apply (list_elem_of_lookup_2 _ 3%nat). vm_compute. reflexivity.
  - eexists. apply (list_elem_of_lookup_2 _ 5%nat). vm_compute. reflexivity.
Qed.
