(* ===== verification/Locks.v ===== *)
(** * Locks between processes

    The lock directories of scripts/realtime-bootstrap.mjs (the target lock and the
    lock of the naming manifest) and of scripts/lib/bootstrap-environment.mjs (the
    organization lock), taken by several processes on one volume.  A process runs
    the programs of Lifecycle.v and Layout.v request by request; every interleaving
    of the requests of all processes is a run.  Requests may be refused by the
    system at any time; only the test whether a process exists is reliable. *)

From stdpp Require Import base tactics option list numbers strings relations countable.
From Stdlib Require Import QArith Qround Lia.
From S2P Require Import Prelude JsString JsNumber JsValue JsDate Paths Effects FileSystem Contract ContractPlan Layout Lifecycle.
#[local] Open Scope Z_scope.

(** ** Processes *)

(** A process is outside, inside a program that ends in another phase, holding the
    lock with its token, or it has ended. *)
Inductive Phase : Type :=
  | Idle
  | Active (p : prog Phase)
  | Holding (token : jstr)
  | Gone.

Record World := mkWorld { volume : Volume; clock : Z; phases : list Phase }.

Definition atPhase (i : nat) (ph : Phase) (w : World) : World := mkWorld (volume w) (clock w) (<[i := ph]> (phases w)).

Definition alive (ph : Phase) : bool := match ph with Gone => false | _ => true end.

(** The lock the processes use: the target lock at a path, or the organization lock
    of a bootstrap directory. *)
Inductive LockKind : Type := TargetLock | OrganizationLock.

Section locks.
Context (jsonText : value -> jstr) (parseJSON : jstr -> result jsError value) (dateFallback : jstr -> option Z).
(** The host and the process number of each process. *)
Context (hostOf : nat -> jstr) (pidOf : nat -> Z).

Definition lockPathOf (k : LockKind) (root : fspath) : fspath :=
  match k with
  | TargetLock => root
  | OrganizationLock => resolve (resolve root (js "locks")) (js "environment-organization")
  end.

Definition acquireOf (k : LockKind) (root : fspath) : prog jstr :=
  match k with
  | TargetLock => acquireLock jsonText parseJSON dateFallback root
  | OrganizationLock => lock ← acquireOrganizationLock jsonText parseJSON dateFallback root; Ret lock.2
  end.

Definition releaseOf (k : LockKind) (root : fspath) (token : jstr) : prog unit :=
  match k with
  | TargetLock => releaseLock parseJSON root token
  | OrganizationLock => releaseOrganizationLock parseJSON (lockPathOf k root) token
  end.

Definition acquiring (acquire : prog jstr) : Phase :=
  Active (catch (token ← acquire; Ret (Holding token)) (fun _ => Ret Idle)).
Definition releasing (release : prog unit) : Phase :=
  Active (catch (_ ← release; Ret Idle) (fun _ => Ret Idle)).

(** Whether a process with this number runs on the host. *)
Definition exists_ (host : jstr) (pid : value) (phs : list Phase) : bool :=
  existsb (fun j => bool_decide (hostOf j = host) && strict_eq pid (Number (int (pidOf j))) && from_option alive false (phs !! j)) (seq 0 (length phs)).

(** The answer of the system to process [i]. *)
Definition reply (i : nat) (uuid : jstr) (w : World) (r : request) : option (Volume * response) :=
  let d := volume w in
  match r with
  | DateNow => Some (d, Ok (Number (int (clock w))))
  | Hostname => Some (d, Ok (Str (hostOf i)))
  | Pid => Some (d, Ok (Number (int (pidOf i))))
  | RandomUUID => Some (d, Ok (Str uuid))
  | KillZero pid => Some (d, if exists_ (hostOf i) pid (phases w) then Ok (Boolean true) else Throw (errno (js "ESRCH")))
  | _ => performs (clock w) d r
  end.

Definition refusable (r : request) : bool := match r with KillZero _ => false | _ => true end.

(** Steps of the world, for the programs that take and leave a lock; [mortal] says
    whether processes may end. *)
Inductive worldStep (acquire : prog jstr) (release : jstr -> prog unit) (mortal : bool) (w : World) : World -> Prop :=
  | time_passes t : clock w <= t -> worldStep acquire release mortal w (mkWorld (volume w) t (phases w))
  | lock_wanted i : phases w !! i = Some Idle -> worldStep acquire release mortal w (atPhase i (acquiring acquire) w)
  | lock_left i token : phases w !! i = Some (Holding token) -> worldStep acquire release mortal w (atPhase i (releasing (release token)) w)
  | request_answered i r next uuid d x : phases w !! i = Some (Active (Call r next)) -> reply i uuid w r = Some (d, x) ->
      worldStep acquire release mortal w (mkWorld d (clock w) (<[i := Active (next x)]> (phases w)))
  | request_refused i r next e : phases w !! i = Some (Active (Call r next)) -> refusable r = true ->
      worldStep acquire release mortal w (atPhase i (Active (next (Throw e))) w)
  | program_ended i ph : phases w !! i = Some (Active (Ret ph)) -> worldStep acquire release mortal w (atPhase i ph w)
  | process_ended i ph : phases w !! i = Some ph -> mortal = true -> worldStep acquire release mortal w (atPhase i Gone w).

Definition startWorld (n : nat) (now : Z) (d : Volume) : World := mkWorld d now (replicate n Idle).

(** ** Careful programs

    A program of one process that keeps to the protocol, as long as the others do:
    [mine] says whether it has created the lock directory. *)

Context (count : nat) (L : fspath) (t0 : Z).

Definition ownerValue (createdAt host : jstr) (pid : Z) (token : jstr) : value :=
  Obj [(js "createdAt", Str createdAt); (js "hostname", Str host); (js "pid", Number (int pid)); (js "token", Str token)].

Definition inTime (t : Z) : Prop := t0 <= t <= t0 + lockAge.

(** The text of an owner record of one of the processes. *)
Definition ownerText (c : jstr) : Prop :=
  exists j t token, (j < count)%nat /\ inTime t /\ c = stableJson jsonText (ownerValue (toISOString t) (hostOf j) (pidOf j) token).

Definition below (p : fspath) : Prop := L `prefix_of` p /\ p <> L.

Definition allowed (mine : bool) (r : request) : Prop :=
  match r with
  | DateNow | Hostname | Pid | RandomUUID | KillZero _ | Stat _ | Lstat _ | ReadFile _ | MkdirP _ => True
  | Mkdir p => p = L
  | WriteFile p c => mine = true /\ below p /\ ownerText c
  | Rename p q => mine = true /\ below p /\ below q
  | RmRf p => mine = true /\ p = L
  | _ => False
  end.

Definition claims (mine : bool) (r : request) (x : response) : bool :=
  match r with Mkdir _ => mine || is_ok x | RmRf _ => mine && negb (is_ok x) | _ => mine end.

(** What process [i] can be answered while all processes keep to the protocol. *)
Definition possible (i : nat) (r : request) (x : response) : Prop :=
  match r with
  | KillZero pid => forall j, (j < count)%nat -> hostOf j = hostOf i -> pid = Number (int (pidOf j)) -> is_ok x = true
  | DateNow => forall v, x = Ok v -> inTime (millis v)
  | Hostname => forall v, x = Ok v -> v = Str (hostOf i)
  | Pid => forall v, x = Ok v -> v = Number (int (pidOf i))
  | RandomUUID => forall v, x = Ok v -> exists token, v = Str token
  | Stat p => forall v, x = Ok v -> p = L -> t0 <= millis (get (js "mtimeMs") v)
  | ReadFile p => forall v, x = Ok v -> below p -> exists c, v = Str c /\ ownerText c
  | _ => True
  end.

Fixpoint careful {A} (i : nat) (mine : bool) (p : prog A) (Q : bool -> result jsError A -> Prop) : Prop :=
  match p with
  | Ret a => Q mine (Ok a)
  | Raise e => Q mine (Throw e)
  | Call r next => allowed mine r /\ forall x, possible i r x -> careful i (claims mine r x) (next x) Q
  end.

Section logic.
Context (i : nat).

Lemma careful_weaken {A} m (p : prog A) (Q Q' : bool -> result jsError A -> Prop) :
  careful i m p Q -> (forall m r, Q m r -> Q' m r) -> careful i m p Q'.
Proof. intros H HQ. revert m H. induction p as [a|e|r next IH]; intros m; cbn; [auto|auto|]. intros [Ha H]. split; [done|]. intros x Hx. by apply IH, H. Qed.

Lemma careful_bind {A B} m (p : prog A) (f : A -> prog B) Q :
  careful i m p (fun m' r => match r with Ok a => careful i m' (f a) Q | Throw e => Q m' (Throw e) end) -> careful i m (p ≫= f) Q.
Proof. revert m. induction p as [a|e|r next IH]; intros m; [done|done|]. cbn. intros [Ha H]. split; [done|]. intros x Hx. by apply IH, H. Qed.

Lemma careful_assoc {A B C} m (p : prog A) (f : A -> prog B) (g : B -> prog C) Q :
  careful i m ((p ≫= f) ≫= g) Q -> careful i m (p ≫= fun x => f x ≫= g) Q.
Proof. revert m. induction p as [a|e|r next IH]; intros m; [done|done|]. cbn. intros [Ha H]. split; [done|]. intros x Hx. by apply IH, H. Qed.

Lemma careful_catch {A} m (p : prog A) (h : jsError -> prog A) Q :
  careful i m p (fun m' r => match r with Ok a => Q m' (Ok a) | Throw e => careful i m' (h e) Q end) -> careful i m (catch p h) Q.
Proof. revert m. induction p as [a|e|r next IH]; intros m; [done|done|]. cbn. intros [Ha H]. split; [done|]. intros x Hx. by apply IH, H. Qed.

Lemma careful_call m r Q : allowed m r -> (forall x, possible i r x -> Q (claims m r x) x) -> careful i m (call r) Q.
Proof. intros Ha H. split; [done|]. intros [v|e] Hx; by apply H. Qed.

(** Requests that claim nothing. *)
Definition quiet (r : request) : Prop :=
  match r with
  | DateNow | Hostname | Pid | RandomUUID | KillZero _ | Stat _ | Lstat _ | ReadFile _ | MkdirP _ => True
  | _ => False
  end.

Lemma careful_quiet {A} m (p : prog A) : only quiet p -> careful i m p (fun m' _ => m' = m).
Proof.
  unfold only. induction p as [a|e|r next IH]; cbn; [done|done|]. intros [Hr H]. split.
  - by destruct r.
  - intros x _. assert (claims m r x = m) as -> by (by destruct r). apply IH, H.
Qed.
End logic.

(** ** Both locks keep to the protocol *)

Context (ownerJson : forall createdAt host pid token,
  parseJSON (stableJson jsonText (ownerValue createdAt host pid token)) = Ok (ownerValue createdAt host pid token)).
Context (pids : forall j, 1 <= pidOf j) (years : four_digit_year t0 /\ four_digit_year (t0 + lockAge)).

Section protocol.
Context (i : nat) (participant : (i < count)%nat).

Definition ownerFile : fspath := L ++ [js "owner.json"].

Lemma ownerFile_resolve : resolve L (js "owner.json") = ownerFile.
Proof. apply resolve_segment. by apply literal_segment. Qed.

Lemma ownerFile_below s : below (L ++ [s]).
Proof. split; [by eexists|]. intros H. apply (f_equal length) in H. rewrite length_app in H. cbn in H. lia. Qed.

Lemma dirname_ownerFile : dirname ownerFile = L.
Proof. apply removelast_last. Qed.

Lemma temporary_below pid : below (temporary ownerFile pid).
Proof. unfold temporary. rewrite dirname_ownerFile. apply ownerFile_below. Qed.

Lemma newOwner_careful m :
  careful i m newOwner (fun m' r => m' = m /\ match r with Ok o => ownerText (stableJson jsonText o.2) | Throw _ => True end).
Proof.
  unfold newOwner. apply careful_bind, careful_call; [done|]. intros [now|e] Hn; [|done]. specialize (Hn _ eq_refl).
  apply careful_bind, careful_call; [done|]. intros [host|e] Hh; [|done]. specialize (Hh _ eq_refl) as ->.
  apply careful_bind, careful_call; [done|]. intros [pid|e] Hp; [|done]. specialize (Hp _ eq_refl) as ->.
  apply careful_bind, careful_call; [done|]. intros [token|e] Ht; [|done]. destruct (Ht _ eq_refl) as [token' ->].
  split; [done|]. by exists i, (millis now), token'.
Qed.

Lemma positive_pid pid : 1 <= pid -> negb (isIntegerValue (Number (int pid))) || nlt (num_of (Number (int pid))) (int 1) = false.
Proof.
  intros H. cbn [isIntegerValue isInteger int num_of nlt]. unfold isIntegerQ. rewrite Qfloor_Z.
  rewrite (proj2 (Qeq_bool_iff _ _)) by reflexivity. cbn [negb orb]. apply negb_false_iff, Qle_bool_iff. rewrite <- Zle_Qle. exact H.
Qed.

Lemma millis_int z : millis (Number (int z)) = z.
Proof.
  unfold millis, num_of, to_Z, int, isIntegerQ. rewrite Qfloor_Z, (proj2 (Qeq_bool_iff _ _)) by reflexivity. reflexivity.
Qed.

(** Nothing is stale while the processes live and two hours have not passed. *)
Definition fresh {A} (m : bool) (stale : A -> bool) (m' : bool) (r : result jsError A) : Prop :=
  m' = m /\ match r with Ok a => stale a = false | Throw _ => True end.

Lemma staleDirectory_careful m : careful i m (staleDirectory L) (fresh m id).
Proof.
  unfold staleDirectory. apply careful_bind, careful_call; [done|]. intros [now|e] Hn; [|done]. specialize (Hn _ eq_refl).
  apply careful_bind, careful_call; [done|]. intros [info|e] Hi; [|done]. specialize (Hi _ eq_refl eq_refl).
  split; [done|]. unfold inTime in Hn. cbn. apply Z.ltb_ge. unfold lockAge in *. cbn [claims]. lia.
Qed.

Lemma owner_fields createdAt host pid token : let v := ownerValue createdAt host pid token in
  get (js "createdAt") v = Str createdAt /\ get (js "hostname") v = Str host /\ get (js "pid") v = Number (int pid) /\ get (js "token") v = Str token.
Proof. split_and!; reflexivity. Qed.

Lemma staleOwner_careful m c v : ownerText c -> parseJSON c = Ok v -> careful i m (staleOwner dateFallback v) (fresh m id).
Proof.
  intros (j & t & token & Hj & Ht & ->). rewrite ownerJson. intros [= <-]. unfold staleOwner.
  destruct (owner_fields (toISOString t) (hostOf j) (pidOf j) token) as (-> & -> & -> & _).
  apply careful_bind. change (throwing (reads (ownerValue (toISOString t) (hostOf j) (pidOf j) token))) with (@Ret unit tt).
  apply careful_bind, careful_call; [done|]. intros [now|e] Hn; [|done]. specialize (Hn _ eq_refl).
  apply careful_bind, careful_call; [done|]. intros [host|e] Hh; [|done]. specialize (Hh _ eq_refl) as ->.
  cbn [strict_eq claims]. case_bool_decide as Hc.
  - unfold processExists. rewrite positive_pid by done. split; [done|]. intros x Hx.
    specialize (Hx j Hj Hc eq_refl). by destruct x.
  - split; [done|]. cbn [str_of]. unfold date_parse. rewrite iso_roundtrip by (unfold four_digit_year, inTime in *; lia).
    apply Z.ltb_ge. unfold inTime in *. lia.
Qed.

Lemma takeLock_careful o : ownerText (stableJson jsonText o) ->
  careful i false (takeLock jsonText L o) (fun m r => match r with Ok _ => m = true | Throw _ => True end).
Proof.
  intros Ho. unfold takeLock. apply careful_bind, careful_call; [done|]. intros [u|e] _; [|done]. cbn [claims is_ok orb].
  unfold atomicWrite. rewrite ownerFile_resolve, dirname_ownerFile.
  apply careful_bind, careful_call; [done|]. intros [u1|e] _; [|done]. apply careful_bind, careful_call; [done|]. intros [pid|e] _; [|done].
  apply careful_bind, careful_call; [by split; [|split; [apply temporary_below|]]|]. intros [u2|e] _; [|done].
  apply careful_bind, careful_call; [split; [done|split; [apply temporary_below|apply ownerFile_below]]|]. by intros [u3|e] _.
Qed.

(** The rest of an acquisition after a failed first attempt: the lock is found
    fresh, so the takeover is not reached. *)
Lemma held_careful {A} m (stale : prog bool) (held : jsError) (take : prog A) :
  careful i m stale (fresh m id) ->
  careful i m (b ← stale; if negb b then Raise held else take) (fun m' r => match r with Ok _ => m' = true | Throw _ => True end).
Proof. intros H. apply careful_bind. eapply careful_weaken; [exact H|]. intros m' [b|e] [-> Hb]; [|done]. cbn in Hb. by subst b. Qed.

Lemma tryLock_careful {A} o (rest : prog A) (token : A) : ownerText (stableJson jsonText o) ->
  (forall m, careful i m rest (fun m' r => match r with Ok _ => m' = true | Throw _ => True end)) ->
  careful i false (free ← tryLock jsonText L o; if (free : bool) then Ret token else rest)
    (fun m' r => match r with Ok _ => m' = true | Throw _ => True end).
Proof.
  intros Ho Hr. apply careful_bind. unfold tryLock. apply careful_catch, careful_bind. eapply careful_weaken; [by apply takeLock_careful|].
  intros m [u|e] Hm; [done|]. case_bool_decide; [apply Hr|done].
Qed.

(** Reading the owner record and deciding, with the age of the directory when that
    fails. *)
Lemma recorded_careful m (read : prog value) :
  careful i m read (fun m' r => m' = m /\ match r with Ok v => exists c, ownerText c /\ parseJSON c = Ok v | Throw _ => True end) ->
  careful i m (existing ← read; staleOwner dateFallback existing) (fresh m id).
Proof.
  intros H. apply careful_bind. eapply careful_weaken; [exact H|]. intros m' [v|e] [-> Hv]; [|done].
  destruct Hv as (c & Hc & Hp). by eapply staleOwner_careful.
Qed.

Lemma staleness_careful m (body : prog bool) : careful i m body (fresh m id) -> careful i m (catch body (fun _ => staleDirectory L)) (fresh m id).
Proof.
  intros H. apply careful_catch. eapply careful_weaken; [exact H|]. intros m' [b|e] [-> Hb]; [by split|apply staleDirectory_careful].
Qed.

Lemma readOwner_careful m :
  careful i m (text ← call (ReadFile ownerFile); lift (parseJSON (str_of text)))
    (fun m' r => m' = m /\ match r with Ok v => exists c, ownerText c /\ parseJSON c = Ok v | Throw _ => True end).
Proof.
  apply careful_bind, careful_call; [done|]. intros [v|e] Hv; [|done]. destruct (Hv _ eq_refl (ownerFile_below _)) as (c & -> & Hc).
  cbn [str_of claims]. destruct (parseJSON c) eqn:E; [|done]. split; [done|]. eauto.
Qed.

(** What a lock promises to the processes that use it. *)
Class LockProtocol (acquire : prog jstr) (release : jstr -> prog unit) : Prop := {
  acquire_careful : careful i false acquire (fun m r => match r with Ok _ => m = true | Throw _ => True end);
  release_careful token : careful i true (release token) (fun _ _ => True)
}.

Lemma quiet_readJson p : only quiet (readJson parseJSON p).
Proof. unfold readJson. repeat only_step; exact I. Qed.

Lemma release_owner (read : prog value) token : only quiet read ->
  careful i true (owner ← read; _ ← throwing (reads owner); whenever (is_str token (get (js "token") owner)) (call (RmRf L))) (fun _ _ => True).
Proof.
  intros Hr. apply careful_bind. eapply careful_weaken; [by apply careful_quiet|]. intros m [owner|e] ->; [|done].
  destruct (reads owner) as [[]|e]; [|done]. cbn [throwing]. change (Ret tt ≫= ?f) with (f tt). cbv beta.
  destruct (is_str token _); [|done]. cbn [whenever]. apply careful_bind, careful_call; [done|]. by intros [u|e] _.
Qed.

Lemma release_catch (body : prog unit) (h : jsError -> prog unit) :
  careful i true body (fun _ _ => True) -> (forall e, only quiet (h e)) -> careful i true (catch body h) (fun _ _ => True).
Proof.
  intros Hb Hh. apply careful_catch. eapply careful_weaken; [exact Hb|]. intros m [u|e] _; [done|]. eapply careful_weaken; [by apply careful_quiet|done].
Qed.

#[export] Instance target_lock : LockProtocol (acquireOf TargetLock L) (releaseOf TargetLock L).
Proof.
  split.
  - cbn [acquireOf]. unfold acquireLock. apply careful_bind. eapply careful_weaken; [apply newOwner_careful|].
    intros m [o|e] [-> Ho]; [|done]. apply tryLock_careful; [done|]. intros m. cbv zeta. rewrite ownerFile_resolve.
    apply careful_bind. eapply careful_weaken; [apply careful_quiet; unfold fileExists; repeat only_step; exact I|].
    intros m' [recorded|e] ->; [|done]. apply held_careful. destruct recorded; [|apply staleDirectory_careful].
    apply staleness_careful, recorded_careful. unfold readJson. apply careful_catch. eapply careful_weaken; [apply readOwner_careful|]. by intros m' [v|e] [-> Hv].
  - intros token. cbn [releaseOf]. unfold releaseLock. apply release_catch; [apply release_owner, quiet_readJson|]. intros e. destruct (includes _ _); exact I.
Qed.

Lemma quiet_symlinks root target include label : only quiet (assertNoSymlinkSegments root target include label).
Proof.
  unfold assertNoSymlinkSegments. cbv zeta. generalize (take (if include then length (filter (fun w => w <> []) (split_on 47 (relative root target)))
    else length (filter (fun w => w <> []) (split_on 47 (relative root target))) - 1) (filter (fun w => w <> []) (split_on 47 (relative root target)))).
  intros segments. revert root. induction segments as [|s segments IH]; intros root; [exact I|]. cbn [checkSegments]. cbv zeta.
  repeat only_step; try exact I; apply IH.
Qed.

#[export] Instance organization_lock root : L = lockPathOf OrganizationLock root ->
  LockProtocol (acquireOf OrganizationLock root) (releaseOf OrganizationLock root).
Proof.
  intros EL. split.
  - cbn [acquireOf]. unfold acquireOrganizationLock. cbv zeta. change (resolve (resolve root (js "locks")) (js "environment-organization")) with (lockPathOf OrganizationLock root).
    rewrite <- EL, ownerFile_resolve. apply careful_bind, careful_bind. eapply careful_weaken; [apply newOwner_careful|].
    intros m [o|e] [-> Ho]; [|done]. apply careful_bind. eapply careful_weaken; [apply careful_quiet, quiet_symlinks|]. intros m [u|e] ->; [|done].
    apply careful_bind. eapply careful_weaken; [by apply careful_quiet, only_call|]. intros m [u'|e] ->; [|done].
    eapply careful_weaken; [apply tryLock_careful; [done|]|by intros m [lock|e] Hm].
    intros m. apply held_careful.
    by apply staleness_careful, careful_assoc, recorded_careful, readOwner_careful.
  - intros token. cbn [releaseOf]. rewrite <- EL. unfold releaseOrganizationLock. rewrite ownerFile_resolve.
    apply release_catch; [apply careful_assoc, release_owner; repeat only_step; exact I|]. intros e. case_bool_decide; exact I.
Qed.

Lemma both_locks k root : L = lockPathOf k root -> LockProtocol (acquireOf k root) (releaseOf k root).
Proof. destruct k; intros EL; [|by apply organization_lock]. change (L = root) in EL. rewrite <- EL. apply target_lock. Qed.
End protocol.

(** ** The invariant of the world *)

Definition goodEntry (k : fspath) (e : Entry) : Prop :=
  L `prefix_of` k -> match e with File c _ => k <> L /\ ownerText c | Dir t => t0 <= t end.

Definition here (d : Volume) : Prop := exists t, entryAt L d = Some (Dir t).

Lemma good_touch now p d : t0 <= now -> every goodEntry d -> every goodEntry (touch now p d).
Proof. intros Hn. apply every_touch. intros t _ _. exact Hn. Qed.

Lemma here_touch now p d : here d -> here (touch now p d).
Proof. intros [t E]. unfold here. rewrite entryAt_touch, E. destruct (decide _); cbn; eauto. Qed.

Lemma here_cons k e d : (k = L -> exists t, e = Dir t) -> here d -> here ((k, e) :: d).
Proof. intros Hk [t E]. unfold here. rewrite entryAt_cons. destruct (decide (k = L)) as [H|]; [destruct (Hk H) as [t' ->]|]; eauto. Qed.

Lemma below_inside p : below p -> inside p L = false.
Proof.
  intros [[x ->] Hn]. apply bool_decide_eq_false. intros [y E]. apply (f_equal length) in E. rewrite !length_app in E.
  destruct x; [by rewrite app_nil_r in Hn|]. cbn in E. lia.
Qed.

Lemma mkdirs_good now base segments d : t0 <= now -> every goodEntry d ->
  every goodEntry (mkdirs now base segments d).1 /\ (here d -> here (mkdirs now base segments d).1).
Proof.
  intros Hn. revert base d. induction segments as [|s rest IH]; intros base d Hd; [done|]. cbn [mkdirs]. cbv zeta.
  destruct (entryAt (base ++ [s]) d) as [[c t|t]|] eqn:E; [done|by apply IH|].
  destruct (IH (base ++ [s]) ((base ++ [s], Dir now) :: touch now base d)) as [H1 H2].
  - apply every_cons; [intros _; exact Hn|by apply good_touch].
  - split; [done|]. intros Hh. apply H2, here_cons; [eauto|by apply here_touch].
Qed.

Lemma mkdir_good now d : t0 <= now -> every goodEntry d ->
  every goodEntry (mkdir now L d).1 /\ (here d -> here (mkdir now L d).1 /\ is_ok (mkdir now L d).2 = false)
  /\ (is_ok (mkdir now L d).2 = true -> here (mkdir now L d).1).
Proof.
  intros Hn Hd. unfold mkdir. destruct L as [|s p] eqn:EL; [done|]. rewrite <- EL in *. destruct (entryAt L d) as [e|] eqn:E; [done|].
  destruct (isDirectory _ d); (split; [|split]); cbn [fst snd done_ refused is_ok]; try done.
  - apply every_cons; [intros _; exact Hn|by apply good_touch].
  - intros [t E']. congruence.
  - intros _. exists now. by rewrite entryAt_cons, decide_True.
Qed.

Lemma writeFile_good now p c d : t0 <= now -> below p -> ownerText c -> every goodEntry d ->
  every goodEntry (writeFile now p c d).1 /\ (here d -> here (writeFile now p c d).1).
Proof.
  intros Hn [Hp Hpn] Hc Hd. unfold writeFile. destruct (isDirectory p d); [done|]. destruct (isDirectory (dirname p) d); [|done]. cbn [negb fst done_]. cbv zeta.
  set (d1 := if bool_decide _ then _ else _).
  assert (every goodEntry d1 /\ (here d -> here d1)) as [H1 H2].
  { unfold d1. destruct (bool_decide _); [|done]. split; [by apply good_touch|apply here_touch]. }
  split.
  - apply every_cons; [intros _; split; [done|exact Hc]|by apply every_filter].
  - intros Hh. apply here_cons; [done|]. destruct (H2 Hh) as [t E]. exists t.
    by rewrite entryAt_others.
Qed.

Lemma rename_good now p q d : t0 <= now -> below p -> below q -> every goodEntry d ->
  every goodEntry (rename now p q d).1 /\ (here d -> here (rename now p q d).1).
Proof.
  intros Hn Hp Hq Hd.
  assert (every goodEntry (moveEntry p q d) /\ (here d -> here (moveEntry p q d))) as [H1 H2].
  { split.
    - apply every_move; [|done]. intros k e Hk He _. apply bool_decide_eq_true in Hk. destruct Hq as [[x ->] Hx].
      assert (L `prefix_of` k) as Hpre by (etransitivity; [apply Hp|exact Hk]). specialize (He Hpre). destruct e as [c t|t]; [|done].
      destruct He as [_ Hc]. split; [|done]. intros E. apply (f_equal length) in E. rewrite !length_app in E.
      destruct x; [by rewrite app_nil_r in Hx|]. cbn in E. lia.
    - intros [t E]. exists t. by rewrite entryAt_move by (by apply below_inside). }
  unfold rename. destruct (entryAt p d) as [e|]; [|done]. destruct (bool_decide (p = q)); [done|]. destruct (inside p q); [done|].
  destruct (isDirectory (dirname q) d); [|done]. cbn [negb]. cbv zeta.
  assert (every goodEntry (touch now (dirname p) (touch now (dirname q) (moveEntry p q d))) /\
    (here d -> here (touch now (dirname p) (touch now (dirname q) (moveEntry p q d))))) as H3.
  { split; [by apply good_touch, good_touch|]. intros Hh. by apply here_touch, here_touch, H2. }
  destruct e, (entryAt q d) as [[]|]; try done. by destruct (occupied q d).
Qed.

Lemma rmRf_good now p d : t0 <= now -> every goodEntry d -> every goodEntry (rmRf now p d).1.
Proof. intros Hn Hd. unfold rmRf. destruct (entryAt p d); [|done]. by apply good_touch, every_filter. Qed.

Definition phaseOk (i : nat) (mine : bool) (ph : Phase) : Prop :=
  match ph with
  | Idle => mine = false
  | Holding _ => mine = true
  | Active p => careful i mine p (fun m r => match r with Ok Idle => True | Ok (Holding _) => m = true | _ => False end)
  | Gone => False
  end.

Definition owns (owner : option nat) (i : nat) : bool := bool_decide (owner = Some i).

(** [owner] is the process that has created the lock directory, if one has. *)
Record worldOk (owner : option nat) (w : World) : Prop := {
  ok_volume : every goodEntry (volume w);
  ok_clock : t0 <= clock w;
  ok_length : length (phases w) = count;
  ok_phases : forall i ph, phases w !! i = Some ph -> phaseOk i (owns owner i) ph;
  ok_owner : is_Some owner -> here (volume w)
}.

Lemma phaseOk_alive i m ph : phaseOk i m ph -> alive ph = true.
Proof. by destruct ph. Qed.

(** Every process is found alive on its host. *)
Lemma exists_alive owner w i j : worldOk owner w -> (j < count)%nat -> hostOf j = hostOf i -> exists_ (hostOf i) (Number (int (pidOf j))) (phases w) = true.
Proof.
  intros [_ _ Hl Hp _] Hj Hh. unfold exists_. apply existsb_exists. exists j. rewrite Hl. split; [apply in_seq; lia|].
  rewrite bool_decide_eq_true_2 by done. destruct (lookup_lt_is_Some_2 (phases w) j) as [ph E]; [lia|]. rewrite E.
  cbn. rewrite (phaseOk_alive _ _ _ (Hp _ _ E)), andb_true_r. apply Qeq_bool_iff. reflexivity.
Qed.

(** What the system answers is what a careful process expects. *)
Lemma reply_possible owner w i uuid r d x : worldOk owner w -> clock w <= t0 + lockAge -> reply i uuid w r = Some (d, x) -> possible i r x.
Proof.
  intros Hw Ht. pose proof Hw as [Hv Hc _ _ _]. destruct r; cbn [reply possible performs]; try done; intros H.
  - injection H as H. apply (f_equal snd) in H. cbn in H. subst x. intros v. unfold readFile. destruct (isDirectory p _); [done|].
    destruct (entryAt p _) as [[c t|t]|] eqn:E; cbn; try done. intros [= <-] [Hb _]. exists c. split; [done|]. by apply (every_at _ _ _ _ Hv E Hb).
  - injection H as H. apply (f_equal snd) in H. cbn in H. subst x. intros v. unfold stat.
    destruct (entryAt p _) as [[c t|t]|] eqn:E; cbn; try done; intros [= <-] ->; pose proof (every_at _ _ _ _ Hv E ltac:(done)) as Hg.
    + by destruct Hg.
    + change (get (js "mtimeMs") (statValue true t)) with (Number (int t)). by rewrite millis_int.
  - injection H as <- <-. intros j Hj Hh ->. by rewrite (exists_alive owner w i j).
  - injection H as <- <-. intros v [= <-]. rewrite millis_int. by split.
  - injection H as <- <-. intros v [= <-]. eauto.
  - injection H as <- <-. by intros v [= <-].
  - injection H as <- <-. by intros v [= <-].
Qed.

(** What an allowed request does to the volume. *)
Lemma reply_good owner w i uuid r d x m : worldOk owner w -> allowed m r -> reply i uuid w r = Some (d, x) ->
  every goodEntry d /\ (here (volume w) -> claims m r x = m -> here d)
  /\ (m = false -> claims m r x = true -> here d /\ ~ here (volume w)).
Proof.
  intros [Hv Hc _ _ _] Ha. destruct r; cbn [reply performs allowed] in *; try done; intros H.
  all: try (injection H as <- <-; split; [done|]; split; [done|]; intros ->; done).
  all: injection H as H; pose proof (f_equal fst H) as Hd; pose proof (f_equal snd H) as Hx; cbn in Hd, Hx; subst d x; clear H; cbn [claims].
  - subst p. destruct (mkdir_good (clock w) (volume w) Hc Hv) as (H1 & H2 & H3). split; [done|]. split; [intros Hh _; by apply H2|].
    intros -> Hok. cbn in Hok. split; [by apply H3|]. intros Hh. apply H2 in Hh as [_ Hh]. congruence.
  - destruct (mkdirs_good (clock w) [] p (volume w) Hc Hv) as [H1 H2]. split; [done|]. split; [auto|]. by intros ->.
  - destruct Ha as (-> & Hb & Ho). destruct (writeFile_good (clock w) p content (volume w) Hc Hb Ho Hv). split; [done|]. by split; [auto|].
  - destruct Ha as (-> & Hp & Hq). destruct (rename_good (clock w) p q (volume w) Hc Hp Hq Hv). split; [done|]. by split; [auto|].
  - rewrite (fst_readFile p (volume w)). split; [done|]. split; [done|]. by intros ->.
  - rewrite (fst_stat p (volume w)). split; [done|]. split; [done|]. by intros ->.
  - rewrite (fst_stat p (volume w)). split; [done|]. split; [done|]. by intros ->.
  - destruct Ha as [-> ->]. split; [by apply rmRf_good|]. split; [|done]. intros _ Hok. exfalso. revert Hok. unfold rmRf. by destruct (entryAt L _).
Qed.

(** ** Steps *)

Context (acquire : prog jstr) (release : jstr -> prog unit).
Context (protocol : forall i, (i < count)%nat -> LockProtocol i acquire release).

Lemma acquiring_ok i : (i < count)%nat -> phaseOk i false (acquiring acquire).
Proof.
  intros Hi. pose proof (protocol i Hi) as Hprotocol. apply careful_catch, careful_bind. eapply careful_weaken; [exact (@acquire_careful i acquire release _)|]. by intros m [token|e] Hm.
Qed.

Lemma releasing_ok i token : (i < count)%nat -> phaseOk i true (releasing (release token)).
Proof.
  intros Hi. pose proof (protocol i Hi) as Hprotocol. apply careful_catch, careful_bind. eapply careful_weaken; [exact (@release_careful i acquire release _ token)|]. by intros m [u|e] Hm.
Qed.

Lemma phase_lt owner w i ph : worldOk owner w -> phases w !! i = Some ph -> (i < count)%nat.
Proof. intros Hw E. rewrite <- (ok_length _ _ Hw). by eapply lookup_lt_Some. Qed.

(** Process [i] goes on; the other processes keep what they own. *)
Lemma update_ok owner owner' w d i ph0 ph : worldOk owner w -> phases w !! i = Some ph0 -> phaseOk i (owns owner' i) ph ->
  (forall j, j <> i -> owns owner' j = owns owner j) -> every goodEntry d -> (is_Some owner' -> here d) ->
  worldOk owner' (mkWorld d (clock w) (<[i := ph]> (phases w))).
Proof.
  intros [Hv Hc Hl Hp Ho] E Hi Hj Hd Hh. split; cbn; [done|done|by rewrite length_insert| |done].
  intros j ph' Ej. destruct (decide (j = i)) as [->|Hn].
  - rewrite list_lookup_insert_eq in Ej by (by eapply lookup_lt_Some). by injection Ej as <-.
  - rewrite list_lookup_insert_ne in Ej by done. rewrite Hj by done. by apply Hp.
Qed.

(** The owner after a request of process [i]. *)
Definition ownerAfter (owner : option nat) (i : nat) (mine : bool) : option nat :=
  if mine then Some i else if owns owner i then None else owner.

Lemma ownerAfter_own owner i mine : owns (ownerAfter owner i mine) i = mine.
Proof.
  unfold ownerAfter, owns. destruct mine; [by apply bool_decide_eq_true|]. destruct (bool_decide (owner = Some i)) eqn:E; [done|exact E].
Qed.

Lemma ownerAfter_others owner i j mine : (mine = true -> owner = None \/ owner = Some i) -> j <> i -> owns (ownerAfter owner i mine) j = owns owner j.
Proof.
  intros H Hn. unfold ownerAfter, owns. destruct mine.
  - destruct (H eq_refl) as [->| ->]; rewrite !bool_decide_eq_false_2 by congruence; done.
  - destruct (bool_decide (owner = Some i)) eqn:Ho; [|done]. apply bool_decide_eq_true in Ho. rewrite Ho, !bool_decide_eq_false_2 by congruence. done.
Qed.

Lemma step_ok owner w w' : worldOk owner w -> worldStep acquire release false w w' -> clock w' <= t0 + lockAge -> exists owner', worldOk owner' w'.
Proof.
  intros Hw Hs Ht. pose proof Hw as [Hv Hc Hl Hp Ho].
  destruct Hs as [t Hle|i E|i token E|i r next uuid d x E Hr|i r next e E Hr|i ph E|i ph E Hm]; [| | | | | |done].
  - exists owner. split; cbn; [done|lia|done|done|done].
  - exists owner. pose proof (Hp _ _ E) as Hi. eapply update_ok; [done|done| |done|done|done]. rewrite Hi. apply acquiring_ok. by eapply phase_lt.
  - exists owner. pose proof (Hp _ _ E) as Hi. eapply update_ok; [done|done| |done|done|done]. rewrite Hi. apply releasing_ok. by eapply phase_lt.
  - pose proof (Hp _ _ E) as [Ha Hn]. pose proof (reply_possible _ _ _ _ _ _ _ Hw Ht Hr) as Hpos. specialize (Hn x Hpos).
    destruct (reply_good _ _ _ _ _ _ _ _ Hw Ha Hr) as (Hd & Hkeep & Hnew). set (m := claims (owns owner i) r x) in *.
    exists (ownerAfter owner i m). apply (update_ok owner _ w d i _ _ Hw E); [by rewrite ownerAfter_own| |done|].
    + intros j Hj. apply ownerAfter_others; [|done]. intros Em. destruct (owns owner i) eqn:Eo; [right; by apply bool_decide_eq_true in Eo|].
      left. destruct (Hnew eq_refl Em) as [_ Hnot]. destruct owner as [k|]; [|done]. destruct Hnot. by apply Ho.
    + unfold ownerAfter. destruct m eqn:Em.
      * intros _. destruct (owns owner i) eqn:Eo; [|by apply Hnew]. apply Hkeep; [apply Ho; apply bool_decide_eq_true in Eo; by rewrite Eo|done].
      * destruct (owns owner i) eqn:Eo; [by intros []|]. intros Hs. by apply Hkeep; [apply Ho|].
  - pose proof (Hp _ _ E) as [Ha Hn]. exists owner. apply (update_ok owner _ w _ i _ _ Hw E); [|done|done|done].
    assert (possible i r (Throw e)) as Hpos by (by destruct r). specialize (Hn _ Hpos).
    by assert (claims (owns owner i) r (Throw e) = owns owner i) as <- by (destruct r, (owns owner i); done).
  - pose proof (Hp _ _ E) as Hi. cbn in Hi. exists (ownerAfter owner i (match ph with Holding _ => true | _ => false end)).
    assert (forall j, j <> i -> owns (ownerAfter owner i (match ph with Holding _ => true | _ => false end)) j = owns owner j) as Hj.
    { intros j. apply ownerAfter_others. destruct ph; try done. intros _. right. by apply bool_decide_eq_true in Hi. }
    apply (update_ok owner _ w _ i _ _ Hw E); [rewrite ownerAfter_own; by destruct ph|done|done|].
    unfold ownerAfter. destruct ph; try done.
    + destruct (owns owner i); [by intros []|done].
    + intros _. apply Ho. apply bool_decide_eq_true in Hi. by rewrite Hi.
Qed.

(** Every world of a run of at most two hours that starts without the lock. *)
Lemma reachable_ok w0 w : worldOk None w0 -> rtc (worldStep acquire release false) w0 w -> clock w <= t0 + lockAge -> exists owner, worldOk owner w.
Proof.
  intros H0. revert w. apply (rtc_ind_r (fun w => clock w <= t0 + lockAge -> exists owner, worldOk owner w)); [by exists None|].
  intros w w' _ Hs IH Ht. destruct IH as [owner Hw]; [|by eapply step_ok]. destruct Hs; cbn in *; lia.
Qed.

Lemma owner_unique owner w i j t t' : worldOk owner w -> phases w !! i = Some (Holding t) -> phases w !! j = Some (Holding t') -> i = j /\ here (volume w).
Proof.
  intros [_ _ _ Hp Ho] Hi%Hp Hj%Hp. cbn in Hi, Hj. apply bool_decide_eq_true in Hi, Hj. split; [congruence|]. apply Ho. rewrite Hi. eauto.
Qed.
End locks.

(** C11: On a volume that has nothing at the path of the lock when the processes
    start, so that no lock of an earlier process is left to take over, while none of
    the processes ends, and for the two hours after which a lock counts as stale: at
    most one process holds the lock, and the lock directory is there while it is held.
    This is for the target lock and for the organization lock, for any number of
    processes on any hosts with positive process ids, for every interleaving of their
    single requests with the passing of time, whichever requests the system refuses,
    in years of four digits, and where JSON.parse reads back the text of an owner
    record.  The take-over of a stale lock does not exclude: stale_lock_taken_twice
    and live_lock_taken_over below. *)
Theorem locks_exclusive jsonText parseJSON dateFallback hostOf pidOf k root n t0 d w :
  (forall createdAt host pid token,
     parseJSON (stableJson jsonText (ownerValue createdAt host pid token)) = Ok (ownerValue createdAt host pid token)) ->
  (forall j, 1 <= pidOf j) -> four_digit_year t0 -> four_digit_year (t0 + lockAge) ->
  Forall (fun kv => ~ lockPathOf k root `prefix_of` kv.1) d ->
  rtc (worldStep hostOf pidOf (acquireOf jsonText parseJSON dateFallback k root) (releaseOf parseJSON k root) false) (startWorld n t0 d) w ->
  clock w <= t0 + lockAge ->
  forall i j t t', phases w !! i = Some (Holding t) -> phases w !! j = Some (Holding t') ->
    i = j /\ exists m, entryAt (lockPathOf k root) (volume w) = Some (Dir m).
Proof.
  intros Hjson Hpids Hy1 Hy2 Hd Hr Ht i j t t' Hi Hj.
  destruct (reachable_ok jsonText hostOf pidOf n (lockPathOf k root) t0 _ (releaseOf parseJSON k root)
              (fun i Hi => both_locks jsonText parseJSON dateFallback hostOf pidOf n (lockPathOf k root) t0 Hjson Hpids (conj Hy1 Hy2) i Hi k root eq_refl)
              (startWorld n t0 d) w) as [owner Hw]; [|exact Hr|done|by eapply owner_unique].
  split; cbn; [|done|by rewrite length_replicate| |by intros []].
  - apply Forall_forall. intros kv Hin Hp. rewrite Forall_forall in Hd. by destruct (Hd _ Hin).
  - intros i' ph [-> _]%lookup_replicate. done.
Qed.

(** ** Concrete runs *)

(** A text of owner records that is read back. *)
Definition sampleText (v : value) : jstr :=
  match v with
  | Obj [(_, Str createdAt); (_, Str host); (_, Number (Fin pid)); (_, Str token)] => [Npos (encode (createdAt, host, Qfloor pid, token))]
  | _ => []
  end.
Definition sampleParse (s : jstr) : result jsError value :=
  match s with
  | [Npos p; 10%N] => match decode p with
                      | Some (createdAt, host, pid, token) => Ok (ownerValue createdAt host pid token)
                      | None => Throw (newError (js "Unexpected token"))
                      end
  | _ => Throw (newError (js "Unexpected token"))
  end.

Lemma sample_json createdAt host pid token :
  sampleParse (stableJson sampleText (ownerValue createdAt host pid token)) = Ok (ownerValue createdAt host pid token).
Proof.
  change (stableJson sampleText (ownerValue createdAt host pid token))
    with [Npos (encode (createdAt, host, Qfloor (inject_Z pid), token)); 10%N].
  cbn [sampleParse]. by rewrite decode_encode, Qfloor_Z.
Qed.

(** A schedule: which process goes on, and how often. *)
Inductive Move : Type := Want (i : nat) | Go (i times : nat) | Leave (i : nat) | End_ (i : nat).

Section play.
Context (hostOf : nat -> jstr) (pidOf : nat -> Z) (acquire : prog jstr) (release : jstr -> prog unit).

Definition goOn (i : nat) (w : World) : option World :=
  match phases w !! i with
  | Some (Active (Call r next)) => '(d, x) ← reply hostOf pidOf i (show_Z (pidOf i)) w r; Some (mkWorld d (clock w) (<[i := Active (next x)]> (phases w)))
  | Some (Active (Ret ph)) => Some (atPhase i ph w)
  | _ => None
  end.

Fixpoint goOnTimes (i times : nat) (w : World) : option World :=
  match times with O => Some w | S n => w' ← goOn i w; goOnTimes i n w' end.

Definition move (w : World) (m : Move) : option World :=
  match m with
  | Want i => match phases w !! i with Some Idle => Some (atPhase i (acquiring acquire) w) | _ => None end
  | Go i times => goOnTimes i times w
  | Leave i => match phases w !! i with Some (Holding token) => Some (atPhase i (releasing (release token)) w) | _ => None end
  | End_ i => match phases w !! i with Some _ => Some (atPhase i Gone w) | None => None end
  end.

Fixpoint play (w : World) (ms : list Move) : option World :=
  match ms with [] => Some w | m :: ms' => w' ← move w m; play w' ms' end.

Definition peaceful (m : Move) : bool := match m with End_ _ => false | _ => true end.

Lemma goOn_step mortal i w w' : goOn i w = Some w' -> worldStep hostOf pidOf acquire release mortal w w'.
Proof.
  unfold goOn. destruct (phases w !! i) as [[|[ph|e|r next]|token|]|] eqn:E; try done.
  - intros [= <-]. by eapply program_ended.
  - intros H. apply bind_Some in H as ([d x] & Hr & [= <-]). by eapply request_answered.
Qed.

Lemma goOnTimes_steps mortal i n w w' : goOnTimes i n w = Some w' -> rtc (worldStep hostOf pidOf acquire release mortal) w w'.
Proof.
  revert w. induction n as [|n IH]; intros w; cbn [goOnTimes]; [intros [= <-]; apply rtc_refl|].
  intros (w1 & H1 & H2)%bind_Some. eapply rtc_l; [by eapply goOn_step|by apply IH].
Qed.

Lemma play_steps mortal w ms w' : play w ms = Some w' -> (mortal = false -> forallb peaceful ms = true) -> rtc (worldStep hostOf pidOf acquire release mortal) w w'.
Proof.
  revert w. induction ms as [|m ms IH]; intros w; cbn [play]; [intros [= <-] _; apply rtc_refl|].
  intros (w1 & H1 & H2)%bind_Some Hm. etransitivity; [|apply IH; [exact H2|intros Hf; by apply Hm, andb_true_iff in Hf as [_ ?]]].
  destruct m as [i|i n|i|i]; cbn [move] in H1.
  - destruct (phases w !! i) as [[]|] eqn:E; try done. injection H1 as <-. apply rtc_once. by apply lock_wanted.
  - by eapply goOnTimes_steps.
  - destruct (phases w !! i) as [[]|] eqn:E; try done. injection H1 as <-. apply rtc_once. by apply lock_left.
  - destruct (phases w !! i) as [ph|] eqn:E; [|done]. injection H1 as <-. apply rtc_once. eapply process_ended; [exact E|].
    destruct mortal; [done|]. by specialize (Hm eq_refl).
Qed.
End play.

(** The processes that hold the lock. *)
Definition holders (w : World) : list nat :=
  List.filter (fun i => match phases w !! i with Some (Holding _) => true | _ => false end) (seq 0 (length (phases w))).

Definition sampleLock : fspath := [js "repo"; js "lock"].
Definition sampleDisk : Volume := [([js "repo"], Dir 0)].
Definition sampleProcess (i : nat) : Z := Z.of_nat i + 100.
Definition sampleStart (n : nat) (d : Volume) : World := startWorld n 1000000 d.
Definition samplePlay (w : World) (ms : list Move) : option World :=
  play (fun _ => js "host") sampleProcess (acquireOf sampleText sampleParse (fun _ => None) TargetLock sampleLock) (releaseOf sampleParse TargetLock sampleLock) w ms.

(** Two processes, of which the first one holds the lock and the second one was
    turned away. *)
Lemma locks_exclusive_witness :
  exists w, samplePlay (sampleStart 2 sampleDisk) [Want 0; Go 0 10; Want 1; Go 1 11] = Some w /\ phases w !! 1%nat = Some Idle
    /\ exists t, phases w !! 0%nat = Some (Holding t) /\ exists m, entryAt sampleLock (volume w) = Some (Dir m).
Proof.
  eexists. split; [vm_compute; reflexivity|]. split; [reflexivity|]. eexists. split; [reflexivity|].
  eapply (locks_exclusive sampleText sampleParse (fun _ => None) (fun _ => js "host") sampleProcess TargetLock sampleLock 2 1000000 sampleDisk _
            sample_json).
  - intros j. unfold sampleProcess. lia.
  - split; vm_compute; congruence.
  - split; vm_compute; congruence.
  - constructor; [|constructor]. intros H. apply (bool_decide_eq_true_2 _) in H. vm_compute in H. discriminate H.
  - apply (play_steps _ _ _ _ false _ [Want 0; Go 0 10; Want 1; Go 1 11]); [vm_compute; reflexivity|reflexivity].
  - vm_compute. congruence.
  - exact (eq_refl : _ !! 0%nat = Some (Holding _)).
  - exact (eq_refl : _ !! 0%nat = Some (Holding _)).
Defined.

(** A lock that is left can be taken by the next process. *)
Example lock_passed_on :
  holders <$> samplePlay (sampleStart 2 sampleDisk) [Want 0; Go 0 10; Leave 0; Go 0 3; Want 1; Go 1 10] = Some [1%nat].
Proof. vm_compute. reflexivity. Qed.

(** ** Findings *)

Definition staleDisk : Volume :=
  [(sampleLock ++ [js "owner.json"], File (stableJson sampleText (ownerValue (toISOString 0) (js "host") 999 (js "old"))) 0);
   (sampleLock, Dir 0); ([js "repo"], Dir 0)].

(** The decision that a lock is stale and its removal are separate requests.  Two
    processes that find the lock of a dead process both take it over: the second one
    moves the new lock of the first one aside. *)
Lemma stale_lock_taken_twice :
  exists w, rtc (worldStep (fun _ => js "host") sampleProcess (acquireOf sampleText sampleParse (fun _ => None) TargetLock sampleLock)
                   (releaseOf sampleParse TargetLock sampleLock) false) (sampleStart 2 staleDisk) w
    /\ holders w = [0; 1]%nat.
Proof.
  eexists. split; [apply (play_steps _ _ _ _ false _ [Want 0; Go 0 10; Want 1; Go 1 10; Go 0 8; Go 1 8]); [vm_compute; reflexivity|done]|vm_compute; reflexivity].
Qed.

(** No lock has to be left behind for that: a process that read the owner record of
    a process which then releases the lock and ends takes over the lock that a third
    process has taken meanwhile. *)
Lemma live_lock_taken_over :
  exists w, rtc (worldStep (fun _ => js "host") sampleProcess (acquireOf sampleText sampleParse (fun _ => None) TargetLock sampleLock)
                   (releaseOf sampleParse TargetLock sampleLock) true) (sampleStart 3 sampleDisk) w
    /\ holders w = [1; 2]%nat.
Proof.
  eexists. split.
  - apply (play_steps _ _ _ _ true _ [Want 0; Go 0 10; Want 1; Go 1 9; Leave 0; Go 0 3; End_ 0; Want 2; Go 2 10; Go 1 9]); [vm_compute; reflexivity|done].
  - vm_compute. reflexivity.
Qed.
