(* ===== verification/NodeConfig.v ===== *)
(** * Configuration of the Node.js example

    examples/node-express/src/config.mjs: the environment variables of the
    reference application, each checked before use.  The URL constructor,
    node:net isIP and the two directories the process resolves paths against are
    parameters. *)

From stdpp Require Import base tactics option list numbers strings.
From Stdlib Require Import QArith Qround Lia.
From S2P Require Import Prelude JsString JsNumber Regex ContractPatterns Paths.
#[local] Open Scope Z_scope.

(** The components of a parsed URL. *)
Record ParsedUrl := {
  u_protocol : jstr; u_username : jstr; u_password : jstr; u_hostname : jstr;
  u_pathname : jstr; u_search : jstr; u_hash : jstr; u_origin : jstr; u_href : jstr
}.

Definition nonempty (s : jstr) : bool := negb (bool_decide (s = [])).

Definition safeScope : re := rep 1 128 (Cls false (units (js "._-") ++ [upper_r; lower_r; digit_r])).
Definition safeHost : re := rep 1 253 (Cls false (units (js "._:-") ++ [upper_r; lower_r; digit_r])).
Definition safePrefix : re := rep 1 128 (Cls false (units (js "._:-") ++ [upper_r; lower_r; digit_r])).
Definition numericAddress : re := Cat digits (rep 0 3 (Cat (lit (js ".")) digits)).

(** What follows the host of an origin: nothing or a port. *)
Definition portTail (s : jstr) : bool :=
  match s with [] => true | c :: rest => (c =? 58)%N && test digits rest end.

(** [/^https?:\/\/(\[[^\]]+\]|[^:/?#]+)(?::\d+)?$/]: the host, the bracketed
    form tried first. *)
Definition afterScheme (s : jstr) : option jstr :=
  if startsWith (js "http://") s then Some (drop 7 s) else if startsWith (js "https://") s then Some (drop 8 s) else None.

Definition bracketedHost (s : jstr) : option jstr :=
  match s with
  | 91%N :: rest =>
      match span (fun c => negb (c =? 93)%N) rest with
      | ((_ :: _) as inner, _ :: tail) => if portTail tail then Some (91%N :: inner ++ [93%N]) else None
      | _ => None
      end
  | _ => None
  end.

Definition plainHost (s : jstr) : option jstr :=
  match span (in_class true (units (js ":/?#"))) s with
  | ((_ :: _) as host, tail) => if portTail tail then Some host else None
  | _ => None
  end.

Definition authority (s : jstr) : option jstr :=
  rest ← afterScheme s;
  match bracketedHost rest with Some h => Some h | None => plainHost rest end.

(** [.replace(/^\[|\]$/g, "")] *)
Definition stripBrackets (s : jstr) : jstr :=
  let s' := match s with 91%N :: t => t | _ => s end in
  if endsWith [93%N] s' then removelast s' else s'.

Definition validDnsName (host : jstr) : bool :=
  forallb (fun l => bool_decide (1 <= length l <= 63)%nat && test label l) (split_on 46 host).

Definition defaultPort (scheme port : string) : re :=
  cats [lit_i (js scheme); lit (js "://"); plus (Cls true (units (js "/?#"))); lit (js ":"); lit (js port);
        opt (Cat slash (Star anyunit))].

Section config.
Context (isIP : jstr -> Z) (newURL : jstr -> option ParsedUrl) (cwd repositoryRoot : fspath).

Definition required (environment : jstr -> option jstr) (name : jstr) : result jstr jstr :=
  let v := trim (default [] (environment name)) in
  if nonempty v then Ok v else Throw (name ++ js " is required.").

(** A number with bounds, read with [Number]. *)
Definition boundedInteger (low high : Z) (message : jstr) (s : jstr) : result jstr num :=
  let n := to_number s in
  if isSafeInteger n && negb (nlt n (int low)) && negb (ngt n (int high)) then Ok n else Throw message.

Definition parsePort : jstr -> result jstr num := boundedInteger 1024 65535 (js "PORT must be an integer between 1024 and 65535.").
Definition parseTrustProxyHops : jstr -> result jstr num := boundedInteger 0 16 (js "TRUST_PROXY_HOPS must be an integer between 0 and 16.").
Definition parseSessionLifetime : jstr -> result jstr num :=
  boundedInteger 60 7200 (js "SESSION_LIFETIME_SECONDS must be an integer between 60 and 7200.").
Definition parseHeartbeatInterval : jstr -> result jstr num :=
  boundedInteger 5000 300000 (js "HEARTBEAT_INTERVAL_MILLISECONDS must be an integer between 5000 and 300000.").

(** A string that must match a pattern. *)
Definition matching (p : re) (message : jstr) (s : jstr) : result jstr jstr := if test p s then Ok s else Throw message.

Definition parseHost : jstr -> result jstr jstr := matching safeHost (js "LISTEN_HOST must be a safe host name or address.").

Definition parseOrigin (value name : jstr) : result jstr ParsedUrl :=
  match newURL value with
  | None => Throw (name ++ js " must be an absolute URL.")
  | Some u =>
      let host := authority value in
      let raw := default [] (stripBrackets <$> host) in
      _ ← ensure (memb (u_protocol u) [js "http:"; js "https:"] && negb (nonempty (u_username u)) && negb (nonempty (u_password u))
                  && bool_decide (u_pathname u = js "/") && negb (nonempty (u_search u)) && negb (nonempty (u_hash u)))
            (name ++ js " must be an HTTP or HTTPS origin URL.");
      _ ← ensure (bool_decide (is_Some host) && negb (includes (js "%") raw)
                  && (negb (isIP raw =? 0)%Z || (validDnsName raw && negb (test numericAddress raw))))
            (name ++ js " must contain a valid DNS name or IP address.");
      _ ← ensure (negb (test (defaultPort "http" "80") value) && negb (test (defaultPort "https" "443") value))
            (name ++ js " must omit the default port.");
      Ok u
  end.

Definition parseRedisUrl (value : jstr) : result jstr ParsedUrl :=
  match newURL value with
  | None => Throw (js "REDIS_URL must be an absolute URL.")
  | Some u =>
      _ ← ensure (memb (u_protocol u) [js "redis:"; js "rediss:"] && nonempty (u_hostname u)
                  && negb (nonempty (u_search u)) && negb (nonempty (u_hash u)))
            (js "REDIS_URL must use the redis or rediss protocol.");
      Ok u
  end.

Definition parseScopes (value name : jstr) : result jstr (list jstr) :=
  let entries := filter (fun e => e <> []) (trim <$> split_on 44 value) in
  if bool_decide (entries = []) || existsb (fun e => negb (test safeScope e)) entries
  then Throw (name ++ js " must contain comma-separated safe identifiers.")
  else Ok entries.

Record Config := {
  listenHost : jstr; port : num; trustProxyHops : num; publicOrigin : jstr; publicScheme : jstr; gatewayUrl : jstr;
  redisUrl : jstr; sessionSecret : jstr; sessionLifetimeSeconds : num; heartbeatIntervalMilliseconds : num;
  instanceName : jstr; topology : jstr; redisInstancePrefix : jstr; redisSessionKeyPrefix : jstr;
  allowedTenants : list jstr; allowedUsers : list jstr; sharedAssetRoot : fspath; sdkAssetRoot : fspath
}.

(** [path.resolve(environment[name] ?? path.join(repositoryRoot, ...below))] *)
Definition assetRoot (environment : jstr -> option jstr) (name : jstr) (below : list jstr) : fspath :=
  match environment name with Some v => resolve cwd v | None => resolves repositoryRoot below end.

Definition loadConfig (environment : jstr -> option jstr) : result jstr Config :=
  let env n := required environment (js n) in
  rawOrigin ← env "PUBLIC_ORIGIN"%string;
  publicOrigin ← parseOrigin rawOrigin (js "PUBLIC_ORIGIN");
  rawGateway ← env "GATEWAY_URL"%string;
  gatewayUrl ← parseOrigin rawGateway (js "GATEWAY_URL");
  rawRedis ← env "REDIS_URL"%string;
  redisUrl ← parseRedisUrl rawRedis;
  sessionSecret ← env "SESSION_SECRET"%string;
  _ ← ensure (negb (bool_decide (length sessionSecret < 32)%nat) && negb (bool_decide (4096 < length sessionSecret)%nat))
        (js "SESSION_SECRET must contain between 32 and 4096 characters.");
  rawInstance ← env "INSTANCE_NAME"%string;
  instanceName ← matching safeScope (js "INSTANCE_NAME must be a safe identifier.") rawInstance;
  topology ← env "TOPOLOGY"%string;
  _ ← ensure (memb topology [js "non-ha"; js "ha"]) (js "TOPOLOGY must be non-ha or ha.");
  rawPrefix ← env "REDIS_INSTANCE_PREFIX"%string;
  redisInstancePrefix ← matching safePrefix (js "REDIS_INSTANCE_PREFIX must be a safe Redis key prefix.") rawPrefix;
  rawKeyPrefix ← env "REDIS_SESSION_KEY_PREFIX"%string;
  redisSessionKeyPrefix ← matching safeScope (js "REDIS_SESSION_KEY_PREFIX must be a safe identifier.") rawKeyPrefix;
  rawLifetime ← env "SESSION_LIFETIME_SECONDS"%string;
  sessionLifetimeSeconds ← parseSessionLifetime rawLifetime;
  rawHeartbeat ← env "HEARTBEAT_INTERVAL_MILLISECONDS"%string;
  heartbeatIntervalMilliseconds ← parseHeartbeatInterval rawHeartbeat;
  rawHost ← env "LISTEN_HOST"%string;
  listenHost ← parseHost rawHost;
  rawPort ← env "PORT"%string;
  port ← parsePort rawPort;
  rawHops ← env "TRUST_PROXY_HOPS"%string;
  trustProxyHops ← parseTrustProxyHops rawHops;
  rawTenants ← env "ALLOWED_TENANTS"%string;
  allowedTenants ← parseScopes rawTenants (js "ALLOWED_TENANTS");
  rawUsers ← env "ALLOWED_USERS"%string;
  allowedUsers ← parseScopes rawUsers (js "ALLOWED_USERS");
  Ok {| listenHost := listenHost; port := port; trustProxyHops := trustProxyHops; publicOrigin := u_origin publicOrigin;
        publicScheme := removelast (u_protocol publicOrigin); gatewayUrl := u_origin gatewayUrl; redisUrl := u_href redisUrl;
        sessionSecret := sessionSecret; sessionLifetimeSeconds := sessionLifetimeSeconds;
        heartbeatIntervalMilliseconds := heartbeatIntervalMilliseconds; instanceName := instanceName; topology := topology;
        redisInstancePrefix := redisInstancePrefix; redisSessionKeyPrefix := redisSessionKeyPrefix;
        allowedTenants := allowedTenants; allowedUsers := allowedUsers;
        sharedAssetRoot := assetRoot environment (js "SHARED_ASSET_ROOT") (js <$> ["examples"; "shared-web"; "wwwroot"]%string);
        sdkAssetRoot := assetRoot environment (js "SDK_ASSET_ROOT") (js <$> ["sdk"; "typescript"; "dist"]%string) |}.
End config.

(** ** Accepted configurations *)

Definition between (low high : Z) (n : num) : Prop := exists z, to_Z n = Some z /\ (low <= z <= high)%Z.

Record config_ok (c : Config) : Prop := {
  ok_port : between 1024 65535 (port c);
  ok_hops : between 0 16 (trustProxyHops c);
  ok_lifetime : between 60 7200 (sessionLifetimeSeconds c);
  ok_heartbeat : between 5000 300000 (heartbeatIntervalMilliseconds c);
  ok_secret : (32 <= length (sessionSecret c) <= 4096)%nat;
  ok_scheme : publicScheme c = js "http" \/ publicScheme c = js "https";
  ok_topology : topology c = js "non-ha" \/ topology c = js "ha";
  ok_keyPrefix : 58%N ∉ redisSessionKeyPrefix c;
  ok_tenants : allowedTenants c <> [] /\ Forall (fun t => test safeScope t = true) (allowedTenants c);
  ok_users : allowedUsers c <> [] /\ Forall (fun u => test safeScope u = true) (allowedUsers c)
}.

Lemma safe_between low high n : isSafeInteger n = true -> nlt n (int low) = false -> ngt n (int high) = false -> between low high n.
Proof.
  intros Hs H1 H2. destruct n as [| |q]; try done. unfold isSafeInteger in Hs. apply andb_true_iff in Hs as [Hi _].
  exists (Qfloor q). split; [unfold to_Z; by rewrite Hi|]. unfold int, ngt in *. cbn in H1, H2.
  apply negb_false_iff, Qle_bool_iff in H1, H2. apply Qfloor_resp_le in H1, H2. rewrite Qfloor_Z in H1, H2. lia.
Qed.

Lemma boundedInteger_between low high m s n : boundedInteger low high m s = Ok n -> between low high n.
Proof.
  unfold boundedInteger. cbv zeta. destruct (_ && _ && _) eqn:E; [|done]. intros [= <-].
  apply andb_true_iff in E as [[Hs H1%negb_true_iff]%andb_true_iff H2%negb_true_iff]. by apply safe_between.
Qed.

Lemma matching_Ok p m s t : matching p m s = Ok t -> t = s /\ test p s = true.
Proof. unfold matching. destruct (test p s) eqn:E; [|done]. intros [= <-]. done. Qed.

Lemma parseScopes_Ok v n l : parseScopes v n = Ok l -> l <> [] /\ Forall (fun t => test safeScope t = true) l.
Proof.
  unfold parseScopes. cbv zeta. set (entries := filter _ _). destruct (_ || _) eqn:E; [done|]. intros [= <-].
  apply orb_false_iff in E as [H1 H2]. apply bool_decide_eq_false in H1. split; [done|]. apply Forall_forall. intros t Ht.
  destruct (test safeScope t) eqn:Et; [done|]. exfalso. rewrite <- not_true_iff_false, existsb_exists in H2. apply H2.
  exists t. split; [by apply list_elem_of_In|by rewrite Et].
Qed.

Lemma safeScope_no_colon s : test safeScope s = true -> 58%N ∉ s.
Proof.
  rewrite test_spec. unfold safeScope. rewrite lang_rep_cls by lia. intros [_ Hf] Hin.
  rewrite Forall_forall in Hf. specialize (Hf _ Hin). vm_compute in Hf. congruence.
Qed.

Lemma ok_topology_of t : memb t [js "non-ha"; js "ha"] = true -> t = js "non-ha" \/ t = js "ha".
Proof. intros H%memb_spec. repeat (apply elem_of_cons in H as [H|H]; [auto|]). by apply elem_of_nil in H. Qed.

(** What each accepted origin satisfies: no credentials, path, query or fragment
    is lost when only its origin is kept, and its host is one the check allows. *)
Definition plain_origin (u : ParsedUrl) : Prop :=
  (u_protocol u = js "http:" \/ u_protocol u = js "https:") /\ u_username u = [] /\ u_password u = [] /\
  u_pathname u = js "/" /\ u_search u = [] /\ u_hash u = [].

Lemma nonempty_false s : nonempty s = false -> s = [].
Proof. unfold nonempty. intros H%negb_false_iff%bool_decide_eq_true. done. Qed.

Lemma parseOrigin_plain isIP newURL v n u : parseOrigin isIP newURL v n = Ok u -> newURL v = Some u /\ plain_origin u.
Proof.
  unfold parseOrigin. destruct (newURL v) as [w|]; [|done]. cbv zeta.
  intros [[] [H1%ensure_Ok [[] [_ [[] [_ [= <-]]]%bind_Ok]]%bind_Ok]]%bind_Ok. split; [done|].
  rewrite !andb_true_iff, !negb_true_iff in H1. destruct H1 as [[[[[Hp Hu] Hw] Hpath] Hs] Hh].
  apply memb_spec in Hp. apply bool_decide_eq_true in Hpath.
  repeat split; auto using nonempty_false. repeat (apply elem_of_cons in Hp as [Hp|Hp]; [auto|]). by apply elem_of_nil in Hp.
Qed.

Lemma loadConfig_sound isIP newURL cwd root environment c :
  loadConfig isIP newURL cwd root environment = Ok c -> config_ok c.
Proof.
  unfold loadConfig. cbv zeta. intros H.
  repeat (apply bind_Ok in H as [? [? H]]). apply Ok_inj in H as <-.
  repeat match goal with H : ensure _ _ = Ok _ |- _ => apply ensure_Ok in H end.
  repeat match goal with H : matching _ _ _ = Ok _ |- _ => apply matching_Ok in H as [-> ?] end.
  repeat match goal with H : parseScopes _ _ = Ok _ |- _ => apply parseScopes_Ok in H end.
  repeat match goal with H : parseOrigin _ _ _ _ = Ok _ |- _ => apply parseOrigin_plain in H as [_ [? _]] end.
  split; cbn; try (eapply boundedInteger_between; eassumption); auto using ok_topology_of, safeScope_no_colon.
  2: { match goal with H : u_protocol x0 = _ \/ _ |- _ => destruct H as [-> | ->]; [left|right]; reflexivity end. }
  match goal with H : negb _ && negb _ = true |- _ => apply andb_true_iff in H as [?%negb_true_iff%bool_decide_eq_false ?%negb_true_iff%bool_decide_eq_false] end.
  lia.
Qed.

(** A configuration that [loadConfig] returns satisfies every bound the
    example relies on: the numbers are integers in their ranges, the session
    secret has 32 to 4096 characters, the public scheme is http or https, the topology is one of the two, the session
    key prefix has no colon, and the tenant and user lists are not empty and hold
    safe identifiers only. *)
Theorem loadConfig_ok isIP newURL cwd root environment c :
  loadConfig isIP newURL cwd root environment = Ok c -> config_ok c.
Proof. apply loadConfig_sound. Qed.

(** A URL parser of one origin and one Redis server, for concrete runs. *)
Definition sampleUrl (s : jstr) : option ParsedUrl :=
  let url protocol host path := {| u_protocol := js protocol; u_username := []; u_password := []; u_hostname := js host;
    u_pathname := js path; u_search := []; u_hash := []; u_origin := s; u_href := s |} in
  if bool_decide (s = js "https://app.example.com") then Some (url "https:" "app.example.com" "/")%string
  else if bool_decide (s = js "http://gateway:8080") then Some (url "http:" "gateway" "/")%string
  else if bool_decide (s = js "redis://cache:6379") then Some (url "redis:" "cache" "")%string
  else None.

Definition sampleEnvironment (name : jstr) : option jstr :=
  snd <$> find (fun e => bool_decide (fst e = name)) ((fun e : string * string => (js (fst e), js (snd e))) <$>
    [("PUBLIC_ORIGIN", "https://app.example.com"); ("GATEWAY_URL", "http://gateway:8080"); ("REDIS_URL", "redis://cache:6379");
     ("SESSION_SECRET", " 0123456789abcdef0123456789abcdef "); ("INSTANCE_NAME", "node-1"); ("TOPOLOGY", "non-ha");
     ("REDIS_INSTANCE_PREFIX", "realtime:dev"); ("REDIS_SESSION_KEY_PREFIX", "session"); ("SESSION_LIFETIME_SECONDS", "0x384");
     ("HEARTBEAT_INTERVAL_MILLISECONDS", "15000"); ("LISTEN_HOST", "0.0.0.0"); ("PORT", "8080"); ("TRUST_PROXY_HOPS", "1");
     ("ALLOWED_TENANTS", "tenant-a, tenant-b,"); ("ALLOWED_USERS", "alice,bob")]%string).

Definition sampleConfig : result jstr Config :=
  loadConfig (fun _ => 0%Z) sampleUrl [js "srv"] [js "srv"] sampleEnvironment.

Lemma loadConfig_ok_witness : exists c, sampleConfig = Ok c /\ config_ok c.
Proof.
  destruct sampleConfig as [c|m] eqn:E; [|exfalso; revert E; vm_compute; discriminate].
  exists c. split; [reflexivity|]. exact (loadConfig_ok _ _ _ _ _ _ E).
Defined.

(** The session lifetime of the sample is written in hexadecimal: [Number]
    accepts it. *)
Example sampleConfig_lifetime : match sampleConfig with Ok c => to_Z (sessionLifetimeSeconds c) = Some 900 | Throw _ => False end.
Proof. vm_compute. reflexivity. Qed.

Example sampleConfig_tenants : match sampleConfig with Ok c => allowedTenants c = [js "tenant-a"; js "tenant-b"] | Throw _ => False end.
Proof. vm_compute. reflexivity. Qed.
