(* ===== verification/NodeApp.v ===== *)
(** * HTTP application of the Node.js example

    examples/node-express/src/app.mjs: the health and diagnostics endpoints, the
    session API backed by Redis, the ticket request and the gateway proxy.  A
    handler is a program over the requests it makes of Redis, the clock, the
    random generator, express-session and the proxy; it ends with an outcome.
    Express' path matching, body parser, rate limiter and session cookie are
    third-party code: the matched route, the outcome of the body parser, the
    verdict of the limiters and the identity found in the session are part of
    the request. *)

From stdpp Require Import base tactics option list numbers strings.
From Stdlib Require Import Lia.
From S2P Require Import Prelude JsString JsNumber JsValue JsDate Regex.
From S2P Require Import ContractPatterns ContractPlan Paths Effects NodeConfig.
#[local] Open Scope Z_scope.

(** [request.session.identity] *)
Record Identity := { sessionId : jstr; tenantId : jstr; userId : jstr; expiresAt : jstr }.

Record AppRequest := {
  origin : option jstr;                    (* request.get("origin") *)
  connectionHeader : option jstr;          (* request.get("x-realtime-connection") *)
  method : jstr; urlPath : jstr; originalUrl : jstr;
  body : result (jstr * Z) value;          (* request.body, or type and status of the parser's error *)
  identity : option Identity;
  headersSent : bool                       (* response.headersSent when an error is handled *)
}.

(** Every cookie that is set is [httpOnly], [sameSite: strict] and for path [/]. *)
Inductive Cookie : Type :=
  | SetCookie (name content : jstr) (secure : bool) (maxAge : Z)
  | ClearCookie (name : jstr).

Record Reply := { status : Z; headers : list (jstr * jstr); payload : value; cookies : list Cookie }.

(** What a handler did: it answered, leaving this identity in the session; it
    passed an error (type and status) on; it handed the response to the proxy. *)
Inductive Outcome : Type :=
  | Respond (reply : Reply) (session : option Identity)
  | NextError (etype : jstr) (estatus : Z)
  | Handed.

(** ** Fixed texts *)

Definition gatewayCookieName : jstr := js "realtime_session".
Definition exampleCookieName : jstr := js "realtime_example_session".

Definition securityHeaders : list (jstr * jstr) :=
  [(js "x-content-type-options", js "nosniff"); (js "x-frame-options", js "DENY"); (js "referrer-policy", js "no-referrer");
   (js "content-security-policy",
    js "default-src 'self'; connect-src 'self' ws: wss:; img-src 'self'; style-src 'self'; script-src 'self'")].

Definition noStore (h : list (jstr * jstr)) : list (jstr * jstr) :=
  filter (fun p => fst p <> js "cache-control") h ++ [(js "cache-control", js "no-store")].

Definition problem (code message : string) : value := Obj [(js "code", Str (js code)); (js "message", Str (js message))].

(** A reply that must not be cached. *)
Definition reply (status : Z) (payload : value) (cookies : list Cookie) : Reply :=
  {| status := status; headers := noStore securityHeaders; payload := payload; cookies := cookies |}.

(** ** Timestamps *)

(** [/^(\d{4})-(0[1-9]|1[0-2])-(0[1-9]|[12]\d|3[01])T(?:[01]\d|2[0-3]):[0-5]\d:[0-5]\d(?:\.\d+)?(?:Z|[+-](?:[01]\d|2[0-3]):[0-5]\d)$/] *)
Definition digit1 : re := Cls false [digit_r].
Definition cls (a b : N) : re := Cls false [(a, b)].
Definition hours : re := Alt (Cat (cls 48 49) digit1) (Cat (lit (js "2")) (cls 48 51)).
Definition sixty : re := Cat (cls 48 53) digit1.
Definition rfc3339Timestamp : re :=
  cats [rep 4 4 digit1; lit (js "-"); Alt (Cat (lit (js "0")) (cls 49 57)) (Cat (lit (js "1")) (cls 48 50)); lit (js "-");
        alts [Cat (lit (js "0")) (cls 49 57); Cat (cls 49 50) digit1; Cat (lit (js "3")) (cls 48 49)];
        lit (js "T"); hours; lit (js ":"); sixty; lit (js ":"); sixty; opt (Cat (lit (js ".")) digits);
        Alt (lit (js "Z")) (cats [Cls false (units (js "+-")); hours; lit (js ":"); sixty])].

(** The number a run of digits denotes. *)
Definition fieldAt (start len : nat) (s : jstr) : Z := default 0 (digits_value 10 (take len (drop start s))).

(** [new Date(Date.UTC(year, month, 0)).getUTCDate()]: the years 0 to 99 count from 1900. *)
Definition lastDay (year month : Z) : Z := days_in_month (if year <=? 99 then 1900 + year else year) month.

Section app.
Context (config : Config) (parseJSON : jstr -> result jsError value) (jsonText : value -> jstr) (dateFallback : jstr -> option Z).

(** [None] is [NaN]. *)
Definition parseRfc3339 (v : value) : option Z :=
  match v with
  | Str s =>
      if test rfc3339Timestamp s then
        if fieldAt 8 2 s <=? lastDay (fieldAt 0 4 s) (fieldAt 5 2 s) then date_parse dateFallback s else None
      else None
  | _ => None
  end.

(** ** Health *)

Definition redisReady : prog bool :=
  ready ← call RedisReady;
  if negb (strict_eq ready (Boolean true)) then Ret false
  else catch (v ← call RedisPing; Ret (is_str (js "PONG") v)) (fun _ => Ret false).

Definition health (r : AppRequest) : prog Outcome :=
  ready ← redisReady;
  Ret (Respond (reply (if ready : bool then 200 else 503)
        (Obj [(js "status", Str (if ready then js "healthy" else js "unavailable"))]) []) (identity r)).

Definition now : prog Z := v ← call DateNow; Ret (default 0 (to_Z (num_of v))).

Definition diagnostics (r : AppRequest) : prog Outcome :=
  ready ← redisReady;
  t ← now;
  Ret (Respond (reply 200
        (Obj [(js "stack", Str (js "Node.js / Express")); (js "topology", Str (topology config));
              (js "instance", Str (instanceName config)); (js "redis", Str (if ready : bool then js "ready" else js "unavailable"));
              (js "heartbeatIntervalMilliseconds", Number (heartbeatIntervalMilliseconds config));
              (js "timestamp", Str (toISOString t))]) []) (identity r)).

(** ** Guards *)

Definition requireOrigin (r : AppRequest) (next : prog Outcome) : prog Outcome :=
  if bool_decide (origin r = Some (publicOrigin config)) then next
  else Ret (Respond (reply 403 (problem "origin_rejected" "The request Origin is not allowed.") []) (identity r)).

Definition requireSession (r : AppRequest) (next : prog Outcome) : prog Outcome :=
  match identity r with
  | None => Ret (Respond (reply 401 (problem "authentication_required" "Log in before requesting a connection ticket.") []) None)
  | Some _ => next
  end.

(** [express.json]: a body that does not parse goes to the error handler. *)
Definition parseLoginJson (r : AppRequest) (next : value -> prog Outcome) : prog Outcome :=
  match body r with Ok v => next v | Throw (t, s) => Ret (NextError t s) end.

(** ** Sessions *)

Definition sessionKey (id : jstr) : jstr :=
  redisInstancePrefix config ++ js ":" ++ redisSessionKeyPrefix config ++ js ":" ++ id.

Definition lifetime : Z := default 0 (to_Z (sessionLifetimeSeconds config)).
Definition secureCookies : bool := startsWith (js "https://") (publicOrigin config).

(** The settings that the application hands to Express and to its session
    middleware. *)
Definition trustProxy : value :=
  if strict_eq (Number (trustProxyHops config)) (Number (int 0)) then Boolean false else Number (trustProxyHops config).

Definition sessionOptions : value :=
  Obj [(js "name", Str exampleCookieName); (js "secret", Str (sessionSecret config)); (js "resave", Boolean false); (js "saveUninitialized", Boolean false);
       (js "cookie", Obj [(js "httpOnly", Boolean true); (js "sameSite", Str (js "strict")); (js "secure", Boolean secureCookies);
                          (js "maxAge", Number (int (lifetime * 1000)))])].

Definition sessionRecord (tenant user expires : jstr) : value :=
  Obj [(js "tenantId", Str tenant); (js "userId", Str user);
       (js "allowedTopics", Arr [Str (js "orders"); Str (js "notifications")]);
       (js "expiresAt", Str expires); (js "revoked", Boolean false)].

(** [catch (error) { logger.error?.(...); next(new Error(...)); }] *)
Definition storeFailure (event : string) (p : prog Outcome) : prog Outcome :=
  catch p (fun _ => _ ← call (Emit (js "error") (js event) []); Ret (NextError [] 0)).

Definition allowedIdentity (tenant user : value) : bool :=
  one_of (allowedTenants config) tenant && one_of (allowedUsers config) user.

Definition loginBody (r : AppRequest) (b : value) : prog Outcome :=
  let b := nullish b (Obj []) in
  let tenant := get (js "tenantId") b in
  let user := get (js "userId") b in
  if negb (allowedIdentity tenant user) then
    Ret (Respond (reply 400 (problem "invalid_identity" "Select a configured test tenant and user.") []) (identity r))
  else
    id ← call (RandomHex 24);
    t ← now;
    let expires := toISOString (t + lifetime * 1000) in
    _ ← call (RedisSet (sessionKey (str_of id)) (jsonText (sessionRecord (str_of tenant) (str_of user) expires)) lifetime);
    Ret (Respond
      (reply 200 (Obj [(js "tenantId", tenant); (js "userId", user); (js "expiresAt", Str expires)])
         [SetCookie gatewayCookieName (str_of id) secureCookies (lifetime * 1000)])
      (Some {| sessionId := str_of id; tenantId := str_of tenant; userId := str_of user; expiresAt := expires |})).

Definition login (r : AppRequest) : prog Outcome :=
  requireOrigin r (parseLoginJson r (fun b => storeFailure "login_failed" (loginBody r b))).

Definition logoutBody (r : AppRequest) : prog Outcome :=
  let id := default [] (sessionId <$> identity r) in
  _ ← whenever (nonempty id) (call (RedisDel (sessionKey id)));
  _ ← call DestroySession;
  Ret (Respond (reply 204 Undefined [ClearCookie exampleCookieName; ClearCookie gatewayCookieName]) None).

Definition logout (r : AppRequest) : prog Outcome :=
  requireOrigin r (storeFailure "logout_failed" (logoutBody r)).

Definition unauthenticated (r : AppRequest) : prog Outcome :=
  Ret (Respond (reply 401 (Obj [(js "authenticated", Boolean false)]) []) (identity r)).

(** Whether a stored record has been revoked, carries no valid expiry, or is past it. *)
Definition ended (record : value) : prog bool :=
  if strict_eq (get (js "revoked") record) (Boolean true) then Ret true
  else match parseRfc3339 (get (js "expiresAt") record) with
       | None => Ret true
       | Some z => t ← now; Ret (z <=? t)
       end.

Definition sessionBody (r : AppRequest) : prog Outcome :=
  match identity r with
  | None => unauthenticated r
  | Some i =>
      stored ← call (RedisGet (sessionKey (sessionId i)));
      if negb (truthy stored) then unauthenticated r
      else
        record ← lift (parseJSON (str_of stored));
        _ ← throwing (reads record);
        over ← ended record;
        if over : bool then _ ← call (RedisDel (sessionKey (sessionId i))); unauthenticated r
        else Ret (Respond (reply 200
          (Obj [(js "authenticated", Boolean true); (js "tenantId", get (js "tenantId") record);
                (js "userId", get (js "userId") record); (js "allowedTopics", get (js "allowedTopics") record);
                (js "expiresAt", get (js "expiresAt") record)]) []) (identity r))
  end.

Definition session (r : AppRequest) : prog Outcome := storeFailure "session_lookup_failed" (sessionBody r).

(** ** Gateway proxy *)

Definition persistencePaths : list jstr :=
  js <$> ["/realtime/persistence/records/read"; "/realtime/persistence/records/ack"; "/realtime/persistence/tasks/read"]%string.

Definition beforeQuery (s : jstr) : jstr := List.hd [] (split_on 63 s).

Definition unavailable : Reply :=
  {| status := 503; headers := securityHeaders;
     payload := problem "service_unavailable" "The reference application dependency is unavailable."; cookies := [] |}.

Definition gateway (r : AppRequest) : prog Outcome :=
  if startsWith (js "/realtime/persistence/") (originalUrl r)
     && (negb (bool_decide (method r = js "POST")) || negb (memb (beforeQuery (originalUrl r)) persistencePaths))
  then Ret (Respond {| status := 404; headers := securityHeaders; payload := Undefined; cookies := [] |} (identity r))
  else catch (_ ← call (ProxyWeb (gatewayUrl config) (publicScheme config) (originalUrl r)); Ret Handed)
         (fun _ => Ret (if headersSent r then Handed else Respond unavailable (identity r))).

(** The synchronous part of the ticket handler: what it throws goes to Express. *)
Definition tickets (r : AppRequest) : prog Outcome :=
  requireOrigin r (requireSession r
    (_ ← call (ProxyWeb (gatewayUrl config) (publicScheme config) (originalUrl r)); Ret Handed)).

(** ** The application *)

Inductive Route : Type := Health | Diagnostics | Login | Logout | SessionInfo | Tickets | Gateway.

Definition handler (route : Route) : AppRequest -> prog Outcome :=
  match route with
  | Health => health | Diagnostics => diagnostics | Login => login | Logout => logout
  | SessionInfo => session | Tickets => tickets | Gateway => gateway
  end.

(** [/^\/realtime\/http\/connections\/[^/]+\/(?:poll|stream)$/u] *)
Definition fallbackPath : re :=
  cats [lit (js "/realtime/http/connections/"); plus (Cls true (units (js "/"))); slash; Alt (lit (js "poll")) (lit (js "stream"))].

Definition isFallbackReceiver (r : AppRequest) : bool := bool_decide (is_Some (connectionHeader r)) && test fallbackPath (urlPath r).

(** Which of the two limiters counts the request; [over] is its verdict. *)
Inductive Limiter : Type := Receivers | Everything.
Definition limiterOf (r : AppRequest) : Limiter := if isFallbackReceiver r then Receivers else Everything.

Definition tooMany (l : Limiter) : Reply :=
  {| status := 429; headers := securityHeaders; cookies := [];
     payload := match l with
                | Receivers => problem "rate_limited" "Too many fallback receive requests."
                | Everything => problem "rate_limited" "Too many requests."
                end |}.

(** The error middleware. *)
Definition errorHandler (r : AppRequest) (etype : jstr) (estatus : Z) : prog Outcome :=
  if headersSent r then Ret (NextError etype estatus)
  else if memb etype [js "entity.parse.failed"; js "entity.too.large"] && memb estatus [400; 413] then
    _ ← call (Emit (js "error") (js "request_rejected") etype);
    Ret (Respond (reply estatus (problem "invalid_request" "The request body is invalid.") []) (identity r))
  else
    _ ← call (Emit (js "error") (js "request_failed") []);
    Ret (Respond (reply 503 (payload unavailable) []) (identity r)).

(** The middleware chain: limiter, route, error middleware.  Express 5 passes
    what a handler throws to the error middleware. *)
Definition serve (over : Limiter -> bool) (route : Route) (r : AppRequest) : prog Outcome :=
  if over (limiterOf r) then Ret (Respond (tooMany (limiterOf r)) (identity r))
  else
    o ← catch (handler route r) (fun _ => Ret (NextError [] 0));
    match o with NextError t s => errorHandler r t s | _ => Ret o end.
End app.
