(* ===== verification/NodeSessions.v ===== *)
(** * Sessions of the Node.js example

    What the session API of NodeApp promises: the timestamps it writes are read
    back, a login is visible until it expires or is logged out, requests from
    another origin do nothing, a failing store never authenticates, and the
    Redis keys of different deployments do not collide.  The Redis server is an
    interface, [SessionServer]. *)

From stdpp Require Import base tactics option list numbers strings sets.
From Stdlib Require Import Lia QArith.
From S2P Require Import Prelude JsString JsNumber JsValue JsDate Regex.
From S2P Require Import ContractPatterns ContractPlan Paths Effects NodeConfig NodeApp.
#[local] Open Scope Z_scope.

(** ** Timestamps *)

(** A pattern on every number of a range, by evaluation. *)
Lemma lang_pad r width low n z :
  forallb (fun k => test r (pad width k)) (seqZ low n) = true -> low <= z < low + n -> lang r (pad width z).
Proof.
  intros H Hz. apply test_spec. rewrite forallb_forall in H. apply H, list_elem_of_In. apply elem_of_seqZ. lia.
Qed.

Lemma lang_cats_app r rs u v : lang r u -> lang (cats rs) v -> lang (cats (r :: rs)) (u ++ v).
Proof. intros. cbn. by exists u, v. Qed.

Lemma pad_digits n z : Forall (fun c => in_class false [digit_r] c = true) (pad n z).
Proof.
  revert z. induction n as [|n IH]; intros z; [constructor|]. cbn [pad]. apply Forall_app. split; [apply IH|].
  constructor; [|constructor]. pose proof (Z.mod_pos_bound z 10 ltac:(lia)). unfold in_class, digit_r. cbn.
  rewrite (proj2 (N.leb_le 48 _)), (proj2 (N.leb_le _ 57)) by lia. done.
Qed.

(** The parts of a printed instant from 1970 on. *)
Lemma toISOString_parts t : 0 <= t -> four_digit_year t -> exists y m d h mi s ms,
  toISOString t = pad 4 y ++ js "-" ++ pad 2 m ++ js "-" ++ pad 2 d ++ js "T" ++ pad 2 h ++ js ":" ++ pad 2 mi ++ js ":"
                  ++ pad 2 s ++ (js "." ++ pad 3 ms) ++ js "Z" /\
  1970 <= y <= 9999 /\ 1 <= m <= 12 /\ 1 <= d <= days_in_month y m /\ 0 <= h < 24 /\ 0 <= mi < 60 /\ 0 <= s < 60.
Proof.
  unfold four_digit_year, toISOString. intros H0 Ht. destruct (civil_of_days (t / ms_per_day)) as [[y m] d] eqn:Hc.
  pose proof (Z.mod_pos_bound t ms_per_day ltac:(done)) as Hr. set (r := t mod ms_per_day) in *. clearbody r.
  assert (Hz : 0 <= t / ms_per_day < 2932897).
  { unfold ms_per_day. split; [apply Z.div_pos; lia|apply Z.div_lt_upper_bound; lia]. }
  assert (Hy : 0 <= y <= 9999) by (eapply civil_year_bounds; [|exact Hc]; lia).
  apply civil_roundtrip in Hc as (Hm & Hd & _ & Hday).
  assert (1970 <= y).
  { assert (day_from_year 1970 = 0) by done. destruct (decide (y < 1970)); [|lia]. pose proof (day_from_year_mono (y + 1) 1970). lia. }
  rewrite (proj2 (Z.leb_le 0 y)), (proj2 (Z.leb_le y 9999)) by lia. cbn [andb]. unfold ms_per_day in *.
  exists y, m, d, (r / 3600000), (r / 60000 mod 60), (r / 1000 mod 60), (r mod 1000). rewrite <- !app_assoc.
  split; [done|]. split_and!; try lia; first [apply Z.div_pos; lia|apply Z.div_lt_upper_bound; lia|apply Z.mod_pos_bound; lia].
Qed.

Lemma toISOString_rfc3339 t : 0 <= t -> four_digit_year t -> test rfc3339Timestamp (toISOString t) = true.
Proof.
  intros H0 Ht. destruct (toISOString_parts t H0 Ht) as (y & m & d & h & mi & s & ms & -> & Hy & Hm & Hd & Hh & Hmi & Hs).
  pose proof (days_in_month_pos y m). apply test_spec. unfold rfc3339Timestamp.
  repeat apply lang_cats_app; try (by apply lang_lit).
  - apply lang_rep_cls; [done|]. rewrite length_pad. split; [lia|apply pad_digits].
  - apply (lang_pad _ 2 1 12); [vm_compute; reflexivity|lia].
  - apply (lang_pad _ 2 1 31); [vm_compute; reflexivity|lia].
  - apply (lang_pad _ 2 0 24); [vm_compute; reflexivity|lia].
  - apply (lang_pad _ 2 0 60); [vm_compute; reflexivity|lia].
  - apply (lang_pad _ 2 0 60); [vm_compute; reflexivity|lia].
  - right. exists (js "."), (pad 3 ms). split; [done|]. split; [by apply lang_lit|]. apply lang_plus_cls.
    split; [|apply pad_digits]. intros E%(f_equal length). by rewrite length_pad in E.
  - exists (js "Z"), []. split; [done|]. split; [|done]. left. by apply lang_lit.
Qed.

Lemma fieldAt_pad pre n z post : 0 <= z < 10 ^ Z.of_nat n -> fieldAt (length pre) n (pre ++ pad n z ++ post) = z.
Proof.
  intros Hz. unfold fieldAt. rewrite drop_app_length, take_app_length' by (symmetry; apply length_pad).
  by rewrite digits_value_pad.
Qed.

(** A printed expiry is read back. *)
Lemma parseRfc3339_printed fallback t :
  0 <= t -> four_digit_year t -> parseRfc3339 fallback (Str (toISOString t)) = Some t.
Proof.
  intros H0 Ht. cbn [parseRfc3339]. rewrite toISOString_rfc3339 by done.
  destruct (toISOString_parts t H0 Ht) as (y & m & d & h & mi & s & ms & E & Hy & Hm & Hd & _).
  pose proof (days_in_month_pos y m).
  assert (fieldAt 0 4 (toISOString t) = y) as -> by (rewrite E; apply (fieldAt_pad []); cbn; lia).
  assert (fieldAt 5 2 (toISOString t) = m) as ->.
  { rewrite E. rewrite app_assoc. replace 5%nat with (length (pad 4 y ++ js "-")) by (by rewrite length_app, length_pad).
    apply fieldAt_pad. cbn. lia. }
  assert (fieldAt 8 2 (toISOString t) = d) as ->.
  { rewrite E. rewrite (app_assoc _ (js "-")), (app_assoc _ (pad 2 m)), (app_assoc _ (js "-")).
    replace 8%nat with (length (((pad 4 y ++ js "-") ++ pad 2 m) ++ js "-")) by (by rewrite !length_app, !length_pad).
    apply fieldAt_pad. cbn. lia. }
  unfold lastDay. rewrite (proj2 (Z.leb_gt y 99)) by lia. rewrite (proj2 (Z.leb_le d _)) by lia.
  unfold date_parse. by rewrite iso_roundtrip.
Qed.

(** ** The session store *)

(** What the handlers rely on in an available Redis server, the clock, the random
    generator and express-session: [stored] holds, for each key, its content and
    the time on the server's own clock from which it has expired; a key set with
    EX expires after that many seconds; and an expired key is not there. *)
Class SessionServer (S : Type) (handle : S -> request -> S * response) := {
  clockOf : S -> Z;
  serverClock : S -> Z;
  stored : S -> jstr -> option (jstr * Z);
  live (s : S) (k : jstr) : option jstr :=
    match stored s k with Some (v, e) => if serverClock s <? e then Some v else None | None => None end;
  reads_clock s : handle s DateNow = (s, Ok (Number (int (clockOf s))));
  draws s : exists id s', handle s (RandomHex 24) = (s', Ok (Str id)) /\ id <> [] /\ clockOf s' = clockOf s /\
    serverClock s' = serverClock s /\ stored s' = stored s;
  gets s k : handle s (RedisGet k) = (s, Ok (from_option Str Null (live s k)));
  sets s k v ex : 0 < ex -> exists s', handle s (RedisSet k v ex) = (s', Ok (Str (js "OK"))) /\
    clockOf s' = clockOf s /\ serverClock s' = serverClock s /\
    forall k', stored s' k' = if bool_decide (k' = k) then Some (v, serverClock s + ex * 1000) else stored s k';
  dels s k : exists s' n, handle s (RedisDel k) = (s', Ok (Number n)) /\
    clockOf s' = clockOf s /\ serverClock s' = serverClock s /\
    forall k', stored s' k' = if bool_decide (k' = k) then None else stored s k';
  destroys s : exists s', handle s DestroySession = (s', Ok Undefined) /\
    clockOf s' = clockOf s /\ serverClock s' = serverClock s /\ stored s' = stored s
}.

Section store.
Context {S : Type} {handle : S -> request -> S * response} `{SessionServer S handle}.
Context (config : Config) (parseJSON : jstr -> result jsError value) (jsonText : value -> jstr) (dateFallback : jstr -> option Z).

Lemma exec_now s : exec handle s now = (s, Ok (clockOf s)).
Proof.
  unfold now. rewrite exec_bind, (exec_call_Ok _ _ _ _ _ (reads_clock s)). cbn [exec num_of].
  f_equal. f_equal. unfold int, to_Z, isIntegerQ. by rewrite Qround.Qfloor_Z, QArith_base.Qeq_bool_refl.
Qed.

Lemma absent_dead s k : stored s k = None -> live s k = None.
Proof. unfold live. by intros ->. Qed.

Definition deadline (s : S) : Z := clockOf s + lifetime config * 1000.

Lemma exec_login s r tenant user :
  0 < lifetime config -> origin r = Some (publicOrigin config) ->
  body r = Ok (Obj [(js "tenantId", Str tenant); (js "userId", Str user)]) ->
  tenant ∈ allowedTenants config -> user ∈ allowedUsers config ->
  exists s' i reply, exec handle s (login config jsonText r) = (s', Ok (Respond reply (Some i))) /\ status reply = 200 /\
    tenantId i = tenant /\ userId i = user /\ expiresAt i = toISOString (deadline s) /\ sessionId i <> [] /\
    cookies reply = [SetCookie gatewayCookieName (sessionId i) (secureCookies config) (lifetime config * 1000)] /\
    clockOf s' = clockOf s /\
    forall k, stored s' k = if bool_decide (k = sessionKey config (sessionId i))
                            then Some (jsonText (sessionRecord tenant user (toISOString (deadline s))), serverClock s + lifetime config * 1000)
                            else stored s k.
Proof.
  intros Hl Ho Hb Ht Hu. unfold login, requireOrigin, parseLoginJson. rewrite bool_decide_true by done. rewrite Hb.
  destruct (draws s) as (id & s1 & Hd & Hid & Hc1 & Hr1 & Hv1).
  destruct (sets s1 (sessionKey config id) (jsonText (sessionRecord tenant user (toISOString (deadline s)))) (lifetime config) Hl)
    as (s2 & Hs & Hc2 & _ & Hv2).
  eexists s2, _, _. split; [apply exec_catch_Ok|].
  - unfold loginBody. cbn [nullish isNullish]. cbv zeta.
    replace (get (js "tenantId") _) with (Str tenant) by reflexivity. replace (get (js "userId") _) with (Str user) by reflexivity.
    assert (allowedIdentity config (Str tenant) (Str user) = true) as ->.
    { apply andb_true_iff. split; by apply memb_spec. }
    cbn [negb str_of]. rewrite exec_bind, (exec_call_Ok _ _ _ _ _ Hd). rewrite exec_bind, exec_now. cbn [str_of].
    rewrite exec_bind, Hc1. fold (deadline s). rewrite (exec_call_Ok _ _ _ _ _ Hs). cbn [exec]. reflexivity.
  - cbn [status reply tenantId userId expiresAt sessionId cookies]. rewrite Hc2, Hc1. split_and!; try done.
    intros k. by rewrite Hv2, Hr1, Hv1.
Qed.

Abbreviation look := (session config parseJSON dateFallback).

(** The reply to a session that is not, or no longer, there. *)
Definition rejected (i : option Identity) : Outcome :=
  Respond (reply 401 (Obj [(js "authenticated", Boolean false)]) []) i.

Lemma exec_session_absent s r i : identity r = Some i -> live s (sessionKey config (sessionId i)) = None ->
  exec handle s (look r) = (s, Ok (rejected (Some i))).
Proof.
  intros Hi Hk. apply exec_catch_Ok. unfold sessionBody. rewrite Hi, exec_bind, (exec_call_Ok _ _ _ _ _ (gets _ _)), Hk.
  cbn. by rewrite Hi.
Qed.

Section record.
Context (tenant user : jstr) (expiry : Z).
Context (Hexpiry : 0 <= expiry) (Hyear : four_digit_year expiry).
Let record : value := sessionRecord tenant user (toISOString expiry).
Context (Hnonempty : jsonText record <> []) (Hjson : parseJSON (jsonText record) = Ok record).

Lemma exec_ended s : exec handle s (ended dateFallback record) = (s, Ok (expiry <=? clockOf s)).
Proof.
  unfold ended. replace (strict_eq _ _) with false by reflexivity.
  replace (get (js "expiresAt") record) with (Str (toISOString expiry)) by reflexivity.
  rewrite parseRfc3339_printed by done. by rewrite exec_bind, exec_now.
Qed.

(** The lookup of a stored record, up to the decision on its expiry. *)
Lemma exec_session_stored s r i :
  identity r = Some i -> live s (sessionKey config (sessionId i)) = Some (jsonText record) ->
  exec handle s (sessionBody config parseJSON dateFallback r) =
  exec handle s (if expiry <=? clockOf s then _ ← call (RedisDel (sessionKey config (sessionId i))); unauthenticated r
                 else Ret (Respond (reply 200
                   (Obj [(js "authenticated", Boolean true); (js "tenantId", Str tenant); (js "userId", Str user);
                         (js "allowedTopics", Arr [Str (js "orders"); Str (js "notifications")]);
                         (js "expiresAt", Str (toISOString expiry))]) []) (Some i))).
Proof.
  intros Hi Hk. unfold sessionBody. rewrite Hi, exec_bind, (exec_call_Ok _ _ _ _ _ (gets _ _)), Hk. cbn [from_option].
  replace (truthy (Str (jsonText record))) with true by (destruct (jsonText record); done). cbn [negb str_of].
  rewrite Hjson. rewrite exec_bind. cbn [lift exec]. rewrite exec_bind. replace (throwing (reads record)) with (@Ret unit tt) by reflexivity.
  cbn [exec]. rewrite exec_bind, exec_ended. done.
Qed.

Lemma exec_session_current s r i :
  identity r = Some i -> live s (sessionKey config (sessionId i)) = Some (jsonText record) -> clockOf s < expiry ->
  exists reply, exec handle s (look r) = (s, Ok (Respond reply (Some i))) /\ status reply = 200 /\
    get (js "tenantId") (payload reply) = Str tenant /\ get (js "userId") (payload reply) = Str user.
Proof.
  intros Hi Hk Ht. eexists. split; [apply exec_catch_Ok; rewrite (exec_session_stored s r i) by done|].
  - rewrite (proj2 (Z.leb_gt _ _)) by done. reflexivity.
  - done.
Qed.

Lemma exec_session_expired s r i :
  identity r = Some i -> live s (sessionKey config (sessionId i)) = Some (jsonText record) -> expiry <= clockOf s ->
  exists s', exec handle s (look r) = (s', Ok (rejected (Some i))) /\ stored s' (sessionKey config (sessionId i)) = None.
Proof.
  intros Hi Hk Ht. destruct (dels s (sessionKey config (sessionId i))) as (s' & n & Hd & _ & _ & Hv). exists s'. split.
  - apply exec_catch_Ok. rewrite (exec_session_stored s r i) by done. rewrite (proj2 (Z.leb_le _ _)) by done.
    rewrite exec_bind, (exec_call_Ok _ _ _ _ _ Hd). cbn. by rewrite Hi.
  - by rewrite Hv, bool_decide_true.
Qed.
End record.

Lemma exec_logout s r i :
  origin r = Some (publicOrigin config) -> identity r = Some i -> sessionId i <> [] ->
  exists s' reply, exec handle s (logout config r) = (s', Ok (Respond reply None)) /\ status reply = 204 /\
    cookies reply = [ClearCookie exampleCookieName; ClearCookie gatewayCookieName] /\
    stored s' (sessionKey config (sessionId i)) = None.
Proof.
  intros Ho Hi Hn. destruct (dels s (sessionKey config (sessionId i))) as (s1 & n & Hd & _ & _ & Hv).
  destruct (destroys s1) as (s2 & Hs & _ & _ & Hv2). eexists s2, _. split; [|split; [|split; [|by rewrite Hv2, Hv, bool_decide_true]]].
  - unfold logout, requireOrigin. rewrite bool_decide_true by done. apply exec_catch_Ok. unfold logoutBody. rewrite Hi. change (default [] (sessionId <$> Some i)) with (sessionId i). cbv zeta.
    rewrite exec_bind. unfold nonempty. rewrite bool_decide_false by done. cbn [negb whenever].
    rewrite exec_bind, (exec_call_Ok _ _ _ _ _ Hd). cbn [exec]. rewrite exec_bind, (exec_call_Ok _ _ _ _ _ Hs). reflexivity.
  - done.
  - done.
Qed.
End store.

(** ** Life of a session *)

Lemma lifetime_pos config : config_ok config -> 0 < lifetime config.
Proof. intros Hc. destruct (ok_lifetime _ Hc) as (z & Hz & Hb). unfold lifetime. rewrite Hz. cbn. lia. Qed.

(** C32: On a store that honours EX, keeps unexpired records and answers, and whose
    text of the record is parsed back, a login from the configured origin with an
    allowed tenant and user succeeds.  In every later state in which that record
    was not rewritten or removed: as long as the configured lifetime has passed
    neither on the clock of the service nor on that of Redis, the session endpoint
    reports exactly that tenant and user; from the expiry on it answers 401, even
    if Redis still holds the record; and a logout removes the record, so that the
    endpoint answers 401 in every state after it, at whatever time, in which
    nobody wrote the record again. *)
Theorem session_lifecycle {S : Type} {handle : S -> request -> S * response} `{SessionServer S handle}
  config parseJSON jsonText dateFallback s r tenant user :
  config_ok config -> origin r = Some (publicOrigin config) ->
  body r = Ok (Obj [(js "tenantId", Str tenant); (js "userId", Str user)]) ->
  tenant ∈ allowedTenants config -> user ∈ allowedUsers config ->
  0 <= clockOf s -> four_digit_year (deadline config s) ->
  (let record := sessionRecord tenant user (toISOString (deadline config s)) in
   jsonText record <> [] /\ parseJSON (jsonText record) = Ok record) ->
  exists s1 i rep, exec handle s (login config jsonText r) = (s1, Ok (Respond rep (Some i))) /\ status rep = 200 /\
    let key := sessionKey config (sessionId i) in
    forall s2 r2, identity r2 = Some i -> stored s2 key = stored s1 key ->
    let look := session config parseJSON dateFallback r2 in
    (clockOf s2 < deadline config s -> serverClock s2 < serverClock s + lifetime config * 1000 ->
       exists rep2, exec handle s2 look = (s2, Ok (Respond rep2 (Some i))) /\ status rep2 = 200 /\
         get (js "tenantId") (payload rep2) = Str tenant /\ get (js "userId") (payload rep2) = Str user) /\
    (deadline config s <= clockOf s2 -> exists s3, exec handle s2 look = (s3, Ok (rejected (Some i)))) /\
    (origin r2 = Some (publicOrigin config) ->
       exists s3 rep3, exec handle s2 (logout config r2) = (s3, Ok (Respond rep3 None)) /\ status rep3 = 204 /\
         forall s4, stored s4 key = stored s3 key -> exec handle s4 look = (s4, Ok (rejected (Some i)))).
Proof.
  intros Hc Ho Hb Ht Hu H0 Hy [Hn Hj]. pose proof (lifetime_pos _ Hc) as Hl. assert (0 <= deadline config s) by (unfold deadline; lia).
  destruct (exec_login config jsonText s r tenant user Hl Ho Hb Ht Hu) as (s1 & i & rep & He & Hs & _ & _ & _ & Hid & _ & _ & Hv).
  exists s1, i, rep. split_and!; [done|done|]. intros key s2 r2 Hi Hk look. unfold key in *. rewrite Hv, bool_decide_true in Hk by done. split_and!.
  - intros Ht1 Ht2. eapply exec_session_current; try done. unfold live. by rewrite Hk, (proj2 (Z.ltb_lt _ _)).
  - intros Ht2. destruct (live s2 (sessionKey config (sessionId i))) as [v|] eqn:Hlive; [|by eexists; apply exec_session_absent].
    assert (v = jsonText (sessionRecord tenant user (toISOString (deadline config s)))) as ->.
    { unfold live in Hlive. rewrite Hk in Hlive. by case_match; simplify_eq. }
    destruct (exec_session_expired config parseJSON jsonText dateFallback tenant user (deadline config s) ltac:(done) Hy Hn Hj s2 r2 i)
      as (s3 & E & _); [done..|]. by exists s3.
  - intros Ho2. destruct (exec_logout config s2 r2 i Ho2 Hi Hid) as (s3 & rep3 & E & Hst & _ & Hnone). exists s3, rep3.
    split_and!; [done|done|]. intros s4 H4. apply exec_session_absent; [done|]. apply absent_dead. by rewrite H4.
Qed.

(** ** Guards and failures, whatever the environment answers *)

(** A login, logout or ticket request whose Origin is missing or not the
    configured one makes no request of Redis, the proxy or the session store,
    sets no cookie and leaves the session identity: the answer is 403, or 429
    from the limiter. *)
Theorem origin_guard config parseJSON jsonText dateFallback over route r o :
  route ∈ [Login; Logout; Tickets] -> origin r <> Some (publicOrigin config) ->
  exists rep, run o (serve config parseJSON jsonText dateFallback over route r) = ([], Ok (Respond rep (identity r))) /\
    (status rep = 403 \/ status rep = 429) /\ cookies rep = [].
Proof.
  intros Hr Ho. unfold serve. destruct (over _); [eexists; split; [reflexivity|]; auto|].
  assert (handler config parseJSON jsonText dateFallback route r =
          Ret (Respond (reply 403 (problem "origin_rejected" "The request Origin is not allowed.") []) (identity r))) as ->.
  { assert (forall p, requireOrigin config r p = Ret (Respond (reply 403 (problem "origin_rejected" "The request Origin is not allowed.") []) (identity r)))
      as Hq by (intros p; unfold requireOrigin; by rewrite bool_decide_false).
    repeat (apply elem_of_cons in Hr as [->|Hr]; [apply Hq|]). by apply elem_of_nil in Hr. }
  eexists. split; [reflexivity|]. auto.
Qed.

Section any_environment.
Context (config : Config) (parseJSON : jstr -> result jsError value) (jsonText : value -> jstr) (dateFallback : jstr -> option Z).
Context (over : Limiter -> bool).

(** What is shown of a reply, given the history that led to it. *)
Context (P : history -> Reply -> option Identity -> Prop).

Definition replies (h : history) (o : result jsError Outcome) : Prop :=
  match o with Ok (Respond rep i) => P h rep i | _ => True end.

Abbreviation always := (ok (fun _ _ => True) extend).

Lemma always_storeFailure event p h : always h p replies -> always h (storeFailure event p) replies.
Proof.
  intros Hp. apply ok_catch. eapply ok_weaken; [exact Hp|]. intros h' [o|e] Ho; [done|].
  split; [done|]. by intros [].
Qed.

(** The limiter and the error middleware answer with an error status, no cookie
    and an unchanged session. *)
Lemma serve_replies route r :
  (forall h rep, status rep ∈ [400; 413; 429; 503] -> cookies rep = [] -> P h rep (identity r)) ->
  always [] (handler config parseJSON jsonText dateFallback route r) replies ->
  ends (serve config parseJSON jsonText dateFallback over route r) replies.
Proof.
  intros Herr Hh. unfold serve. destruct (over _).
  { apply Herr; [|done]. cbn. set_solver. }
  apply ok_bind, ok_catch. eapply ok_weaken; [exact Hh|].
  assert (forall h t s, always h (errorHandler r t s) replies) as He.
  { intros h t s. unfold errorHandler. destruct (headersSent r); [done|]. destruct (_ && _) eqn:E.
    - apply andb_true_iff in E as [_ E%memb_spec]. split; [done|]. intros [v|e]; [|done]. apply Herr; [|done].
      rewrite !elem_of_cons in *. cbn. tauto.
    - split; [done|]. intros [v|e]; [|done]. apply Herr; [|done]. cbn. set_solver. }
  intros h [[rep i|t s|]|e] Ho; cbn [ok]; auto; exact (He _ _ _).
Qed.
End any_environment.

Lemma elem_extend h r x : (r, x) ∈ extend h r x.
Proof. apply elem_of_app. right. left. Qed.
Lemma elem_extended h r x y : y ∈ h -> y ∈ extend h r x.
Proof. intros. apply elem_of_app. by left. Qed.
#[export] Hint Resolve elem_extend elem_extended : requests.

(** The evidence on which a session is reported. *)
Definition sessionEvidence config (parseJSON : jstr -> result jsError value) dateFallback (r : AppRequest) (h : history) (rep : Reply) : Prop :=
  exists i text record z v, identity r = Some i /\
    (RedisGet (sessionKey config (sessionId i)), Ok text) ∈ h /\ parseJSON (str_of text) = Ok record /\
    get (js "revoked") record <> Boolean true /\ parseRfc3339 dateFallback (get (js "expiresAt") record) = Some z /\
    (DateNow, Ok v) ∈ h /\ default 0 (to_Z (num_of v)) < z /\
    get (js "tenantId") (payload rep) = get (js "tenantId") record /\ get (js "userId") (payload rep) = get (js "userId") record.

Lemma always_session config parseJSON dateFallback r :
  ok (fun _ _ => True) extend [] (sessionBody config parseJSON dateFallback r)
    (replies (fun h rep _ => status rep = 200 -> sessionEvidence config parseJSON dateFallback r h rep)).
Proof.
  unfold sessionBody. destruct (identity r) as [i|] eqn:Hi; [|cbn; discriminate]. apply ok_bind, ok_call; [done|]. intros [text|e]; [|done].
  destruct (truthy text); [|cbn; discriminate]. cbn [negb]. destruct (parseJSON (str_of text)) as [record|e] eqn:Hp; [|done].
  cbn [lift]. apply ok_bind. cbn [ok]. apply ok_bind. destruct (reads record); [|done]. cbn [throwing ok].
  apply ok_bind. unfold ended. destruct (strict_eq _ _) eqn:Hrev; [split; [done|]; intros []; [cbn; discriminate|done]|].
  destruct (parseRfc3339 _ _) as [z|] eqn:Hz; [|split; [done|]; intros []; [cbn; discriminate|done]]. split; [done|]. intros [v|e]; [|done].
  cbn [mbind prog_bind ok]. destruct (Z.leb_spec z (default 0 (to_Z (num_of v)))) as [Hle|Hlt]; [split; [done|]; intros []; [cbn; discriminate|done]|].
  intros _. exists i, text, record, z, v. split_and!; auto with requests. intros E. by rewrite E in Hrev.
Qed.

(** C33: Whatever Redis, the clock and the other parties answer, the session
    endpoint answers 200 only after it read, in the same request, a record under
    the key of the caller's session identity that is not revoked and whose expiry
    parses and lies after the clock; the tenant and user it reports are those of
    that record. *)
Theorem session_sound config parseJSON jsonText dateFallback over r o h rep i :
  run o (serve config parseJSON jsonText dateFallback over SessionInfo r) = (h, Ok (Respond rep i)) -> status rep = 200 ->
  sessionEvidence config parseJSON dateFallback r h rep.
Proof.
  intros Hrun Hs.
  pose proof (ends_run o _ _ (serve_replies config parseJSON jsonText dateFallback over
    (fun h rep _ => status rep = 200 -> sessionEvidence config parseJSON dateFallback r h rep) SessionInfo r
    ltac:(intros h' rep' Hst _ E; rewrite E in Hst; by apply memb_spec in Hst)
    (always_storeFailure _ _ _ _ (always_session config parseJSON dateFallback r)))) as H.
  rewrite Hrun in H. by apply H.
Qed.

(** How a request may change the identity of its session. *)
Definition sessionChange config jsonText (route : Route) (r : AppRequest) (h : history) (i : option Identity) : Prop :=
  i = identity r \/
  (route = Logout /\ i = None /\ origin r = Some (publicOrigin config)) \/
  exists new b v, route = Login /\ i = Some new /\ origin r = Some (publicOrigin config) /\ body r = Ok b /\
    get (js "tenantId") (nullish b (Obj [])) = Str (tenantId new) /\ tenantId new ∈ allowedTenants config /\
    get (js "userId") (nullish b (Obj [])) = Str (userId new) /\ userId new ∈ allowedUsers config /\
    (RedisSet (sessionKey config (sessionId new)) (jsonText (sessionRecord (tenantId new) (userId new) (expiresAt new))) (lifetime config), Ok v) ∈ h.

Lemma one_of_Str l v : one_of l v = true -> exists s, v = Str s /\ s ∈ l.
Proof. destruct v; try done. intros H%memb_spec. eauto. Qed.

Lemma always_handler_keeps config parseJSON jsonText dateFallback route r :
  ok (fun _ _ => True) extend [] (handler config parseJSON jsonText dateFallback route r)
    (replies (fun h _ i => sessionChange config jsonText route r h i)).
Proof.
  assert (forall h (p : prog Outcome), returns (fun o => match o with Respond _ i => i = identity r | _ => True end) p ->
    ok (fun _ _ => True) extend h p (replies (fun h _ i => sessionChange config jsonText route r h i))) as Hkeep.
  { intros h p Hp. revert h. induction p as [[rep i|t s|]|e|q k IH]; intros h; cbn [ok returns replies] in *; try done.
    - by left.
    - split; [done|]. intros x. by apply IH. }
  destruct route; cbn [handler].
  - apply Hkeep. apply returns_then. by intros.
  - apply Hkeep. apply returns_then. intros. apply returns_then. by intros.
  - unfold login, requireOrigin. case_bool_decide as Ho; [|by left]. unfold parseLoginJson. destruct (body r) as [b|[t s]] eqn:Hb; [|done].
    apply always_storeFailure. unfold loginBody. cbv zeta. destruct (allowedIdentity config _ _) eqn:Ha; [|by left].
    apply andb_true_iff in Ha as [(t & Ht & Hta)%one_of_Str (u & Hu & Hua)%one_of_Str]. rewrite Ht, Hu. cbn [negb str_of].
    split; [done|]. intros [id|e]; [|done]. split; [done|]. intros [v|e]; [|done]. split; [done|]. intros [w|e]; [|done].
    right; right. eexists _, b, w. split_and!; eauto with requests; done.
  - unfold logout, requireOrigin. case_bool_decide as Ho; [|by left]. apply always_storeFailure. unfold logoutBody. cbv zeta.
    destruct (nonempty _); cbn [whenever].
    + split; [done|]. intros [x|e]; [|done]. split; [done|]. intros [y|e]; [|done]. right; left. done.
    + split; [done|]. intros [y|e]; [|done]. right; left. done.
  - apply always_storeFailure, Hkeep. unfold sessionBody. destruct (identity r) as [i|] eqn:Hi; [|by cbn].
    assert (forall x : response, returns (fun o => match o with Respond _ i' => i' = Some i | _ => True end) (unauthenticated r)) as Hun by (intros; by cbn).
    apply returns_then. intros stored. destruct (negb _); [by cbn|]. repeat (apply returns_then; intros ?). destruct a1; [|done]. apply returns_then. by intros.
  - unfold tickets, requireOrigin, requireSession. apply Hkeep. case_bool_decide; [|done]. destruct (identity r); [|done]. by intros [].
  - apply Hkeep. unfold gateway. destruct (_ && _); [done|]. intros [v|e]; [done|]. cbn. by destruct (headersSent r).
Qed.

(** Whatever the environment answers, the identity kept in the browser session
    changes only in two ways: a logout from the configured origin drops it, and a
    login from the configured origin replaces it by the allowed tenant and user
    of the request body after the store acknowledged the record of that very
    session. *)
Theorem identity_confined config parseJSON jsonText dateFallback over route r o h rep i :
  run o (serve config parseJSON jsonText dateFallback over route r) = (h, Ok (Respond rep i)) ->
  sessionChange config jsonText route r h i.
Proof.
  intros Hrun.
  pose proof (ends_run o _ _ (serve_replies config parseJSON jsonText dateFallback over
    (fun h _ i => sessionChange config jsonText route r h i) route r ltac:(by left)
    (always_handler_keeps config parseJSON jsonText dateFallback route r))) as H.
  rewrite Hrun in H. exact H.
Qed.

(** ** Keys *)

Lemma app_last_colon (a b a' b' : jstr) : 58%N ∉ b -> 58%N ∉ b' -> a ++ js ":" ++ b = a' ++ js ":" ++ b' -> a = a' /\ b = b'.
Proof.
  intros Hb Hb' E. change (js ":") with [58%N] in E.
  enough (length b = length b') as Hl.
  { apply app_inj_2 in E as [-> [= ->]]; [done|]. cbn. by rewrite Hl. }
  assert (forall x y x' y' : jstr, 58%N ∉ y' -> x ++ [58%N] ++ y = x' ++ [58%N] ++ y' -> (length y' <= length y)%nat) as Hle.
  { intros x y x' y' Hy' E'. destruct (decide (length y' <= length y)%nat) as [|Hn]; [done|]. exfalso. apply Hy'.
    assert (Hn1 : (length x + 1 + length y = length x' + 1 + length y')%nat) by (apply (f_equal length) in E'; rewrite !length_app in E'; cbn in E'; lia).
    apply (list_elem_of_lookup_2 _ (length x - length x' - 1)).
    assert (H : (x ++ [58%N] ++ y) !! length x = Some 58%N) by (by rewrite lookup_app_r, Nat.sub_diag by lia).
    rewrite E', lookup_app_r in H by lia. rewrite lookup_app_r in H by (cbn; lia). cbn in H. by rewrite <- H. }
  apply Nat.le_antisymm; [by eapply Hle|]. symmetry in E. by eapply Hle.
Qed.

(** The Redis keys of two accepted configurations coincide only when the
    instance prefix, the session key prefix and the session identifier (which has
    no colon) all do: deployments sharing one Redis never address each other's
    sessions. *)
Theorem sessionKey_injective config config' id id' :
  config_ok config -> config_ok config' -> 58%N ∉ id -> 58%N ∉ id' ->
  sessionKey config id = sessionKey config' id' ->
  redisInstancePrefix config = redisInstancePrefix config' /\ redisSessionKeyPrefix config = redisSessionKeyPrefix config' /\ id = id'.
Proof.
  intros Hc Hc' Hi Hi'. unfold sessionKey. rewrite (app_assoc _ (js ":")), (app_assoc _ (redisSessionKeyPrefix config)).
  rewrite (app_assoc (redisInstancePrefix config') (js ":")), (app_assoc _ (redisSessionKeyPrefix config')). intros E.
  apply app_last_colon in E as [E ->]; [|done..]. rewrite <- !app_assoc in E.
  apply app_last_colon in E as [-> ->]; [done|by apply ok_keyPrefix..].
Qed.

(** ** Concrete runs *)

(** A store with expiry: entries are (key, content, expiry in milliseconds). *)
Record Store := { at_ms : Z; entries : list (jstr * jstr * Z) }.

Definition without (k : jstr) (l : list (jstr * jstr * Z)) : list (jstr * jstr * Z) := filter (fun e => e.1.1 <> k) l.

Definition kept (s : Store) (k : jstr) : option (jstr * Z) :=
  (fun e => (e.1.2, e.2)) <$> List.find (fun e => bool_decide (e.1.1 = k)) (entries s).

Definition found (s : Store) (k : jstr) : option jstr :=
  match kept s k with Some (v, e) => if at_ms s <? e then Some v else None | None => None end.

Definition answer (s : Store) (q : request) : Store * response :=
  match q with
  | DateNow => (s, Ok (Number (int (at_ms s))))
  | RandomHex _ => (s, Ok (Str (js "0a1b2c")))
  | RedisGet k => (s, Ok (from_option Str Null (found s k)))
  | RedisSet k v ex => ({| at_ms := at_ms s; entries := (k, v, at_ms s + ex * 1000) :: without k (entries s) |}, Ok (Str (js "OK")))
  | RedisDel k => ({| at_ms := at_ms s; entries := without k (entries s) |}, Ok (Number (int 1)))
  | _ => (s, Ok Undefined)
  end.

Lemma kept_without t l k k' :
  kept {| at_ms := t; entries := without k l |} k' = if bool_decide (k' = k) then None else kept {| at_ms := t; entries := l |} k'.
Proof.
  unfold kept, without. cbn [entries]. induction l as [|[[a v] e] l IH]; [by case_bool_decide|].
  rewrite filter_cons. cbn [fst snd]. destruct (decide (a <> k)) as [Hn|Hn]; cbn [List.find fst snd].
  - destruct (decide (a = k')) as [->|]; [|rewrite bool_decide_false by done; exact IH].
    by rewrite (bool_decide_false (k' = k)), (bool_decide_true (k' = k')) by done.
  - apply dec_stable in Hn as ->. rewrite IH. case_bool_decide as Hk; [done|].
    rewrite (bool_decide_false (k = k')) by congruence. done.
Qed.

#[export] Instance Store_server : SessionServer Store answer.
Proof.
  refine {| clockOf := at_ms; serverClock := at_ms; stored := kept |}; intros; cbn [answer]; eauto 7.
  - eexists. split_and!; [reflexivity|done|done|]. intros k'. destruct s as [t l]. cbn [at_ms entries].
    unfold kept at 1. cbn [entries List.find fst snd]. case_bool_decide as Hk; [by rewrite bool_decide_true|].
    rewrite bool_decide_false by congruence.
    change (kept {| at_ms := t; entries := without k l |} k' = kept {| at_ms := t; entries := l |} k').
    by rewrite kept_without, bool_decide_false.
  - eexists _, _. split_and!; [reflexivity|done|done|]. intros k'. destruct s as [t l]. apply kept_without.
Defined.

Definition sampleRequest (o : option jstr) (i : option Identity) : AppRequest :=
  {| origin := o; connectionHeader := None; method := js "POST"; urlPath := js "/api/login"; originalUrl := js "/api/login";
     body := Ok (Obj [(js "tenantId", Str (js "tenant-a")); (js "userId", Str (js "bob"))]); identity := i; headersSent := false |}.

(** Text and parser of the one record the sample stores. *)
Definition sampleStart : Store := {| at_ms := 1788109200100; entries := [] |}.
Definition sampleRecord (config : Config) : value :=
  sessionRecord (js "tenant-a") (js "bob") (toISOString (deadline (S := Store) (handle := answer) config sampleStart)).
Definition sampleText (v : value) : jstr := js "record".

Definition theConfig : Config :=
  match sampleConfig with Ok c => c | Throw _ =>
    {| listenHost := []; port := NaN; trustProxyHops := NaN; publicOrigin := []; publicScheme := []; gatewayUrl := [];
       redisUrl := []; sessionSecret := []; sessionLifetimeSeconds := NaN; heartbeatIntervalMilliseconds := NaN;
       instanceName := []; topology := []; redisInstancePrefix := []; redisSessionKeyPrefix := [];
       allowedTenants := []; allowedUsers := []; sharedAssetRoot := []; sdkAssetRoot := [] |} end.

Lemma theConfig_loaded : sampleConfig = Ok theConfig.
Proof. vm_compute. reflexivity. Qed.

Lemma loaded_ok c : sampleConfig = Ok c -> config_ok c.
Proof. apply loadConfig_sound. Qed.

(** Half of the sample's lifetime later. *)
Definition halfway : Store :=
  let s := fst (exec answer sampleStart (login theConfig sampleText (sampleRequest (Some (js "https://app.example.com")) None))) in
  {| at_ms := at_ms s + lifetime theConfig * 500; entries := entries s |}.

Lemma session_lifecycle_witness :
  exists s1 i rep, exec answer sampleStart (login theConfig sampleText (sampleRequest (Some (js "https://app.example.com")) None))
    = (s1, Ok (Respond rep (Some i))) /\ status rep = 200 /\
  exists rep2, exec answer halfway (session theConfig (fun _ => Ok (sampleRecord theConfig)) (fun _ => None) (sampleRequest None (Some i)))
    = (halfway, Ok (Respond rep2 (Some i))) /\ status rep2 = 200.
Proof.
  destruct (session_lifecycle (S := Store) (handle := answer) theConfig (fun _ => Ok (sampleRecord theConfig)) sampleText (fun _ => None)
    sampleStart (sampleRequest (Some (js "https://app.example.com")) None) (js "tenant-a") (js "bob")) as (s1 & i & rep & H & Hs & Hlook).
  - apply loaded_ok, theConfig_loaded.
  - vm_compute. reflexivity.
  - reflexivity.
  - apply (bool_decide_unpack _). vm_compute. reflexivity.
  - apply (bool_decide_unpack _). vm_compute. reflexivity.
  - vm_compute. discriminate.
  - apply (bool_decide_unpack _). vm_compute. reflexivity.
  - split; [discriminate|reflexivity].
  - exists s1, i, rep. split; [exact H|]. split; [exact Hs|].
    destruct (Hlook halfway (sampleRequest None (Some i))) as [Hcurrent _].
    + reflexivity.
    + unfold halfway. rewrite H. reflexivity.
    + destruct Hcurrent as (rep2 & E & Hs2 & _).
      * vm_compute. reflexivity.
      * vm_compute. reflexivity.
      * exists rep2. split; [exact E|exact Hs2].
Defined.

Lemma origin_guard_witness :
  exists rep, run (fun _ _ => Throw (newError [])) (serve theConfig (fun m => Throw (newError m)) sampleText (fun _ => None) (fun _ => false) Login
    (sampleRequest (Some (js "https://evil.example")) None)) = ([], Ok (Respond rep None)) /\ (status rep = 403 \/ status rep = 429) /\ cookies rep = [].
Proof.
  apply (origin_guard theConfig (fun m => Throw (newError m)) sampleText (fun _ => None) (fun _ => false) Login
    (sampleRequest (Some (js "https://evil.example")) None) (fun _ _ => Throw (newError []))).
  - left.
  - vm_compute. discriminate.
Defined.

(** An environment without history: the store above, frozen at one instant. *)
Definition frozen (s : Store) : oracle := fun _ q => snd (answer s q).

Definition sampleIdentity : Identity :=
  {| sessionId := js "0a1b2c"; tenantId := js "tenant-a"; userId := js "bob"; expiresAt := toISOString 1788110100100 |}.
Definition sampleHeld : Store :=
  {| at_ms := 1788109200100; entries := [(sessionKey theConfig (js "0a1b2c"), js "record", 1788110100100)] |}.
Definition sampleLook : history * result jsError Outcome :=
  run (frozen sampleHeld) (serve theConfig (fun _ => Ok (sampleRecord theConfig)) sampleText (fun _ => None) (fun _ => false) SessionInfo
    (sampleRequest None (Some sampleIdentity))).
Definition sampleLogin : history * result jsError Outcome :=
  run (frozen sampleStart) (serve theConfig (fun _ => Ok (sampleRecord theConfig)) sampleText (fun _ => None) (fun _ => false) Login
    (sampleRequest (Some (js "https://app.example.com")) None)).

Lemma session_sound_witness : exists h rep i, sampleLook = (h, Ok (Respond rep i)) /\ status rep = 200 /\
  sessionEvidence theConfig (fun _ => Ok (sampleRecord theConfig)) (fun _ => None) (sampleRequest None (Some sampleIdentity)) h rep.
Proof.
  assert (exists h rep i, sampleLook = (h, Ok (Respond rep i)) /\ status rep = 200) as (h & rep & i & E & Hs).
  { eexists _, _, _. split; vm_compute; reflexivity. }
  exists h, rep, i. split; [exact E|]. split; [exact Hs|]. exact (session_sound _ _ _ _ _ _ _ _ _ _ E Hs).
Defined.

Lemma identity_confined_witness : exists h rep i, sampleLogin = (h, Ok (Respond rep (Some i))) /\ tenantId i = js "tenant-a" /\
  sessionChange theConfig sampleText Login (sampleRequest (Some (js "https://app.example.com")) None) h (Some i).
Proof.
  assert (exists h rep i, sampleLogin = (h, Ok (Respond rep (Some i))) /\ tenantId i = js "tenant-a") as (h & rep & i & E & Hs).
  { eexists _, _, _. split; vm_compute; reflexivity. }
  exists h, rep, i. split; [exact E|]. split; [exact Hs|]. exact (identity_confined _ _ _ _ _ _ _ _ _ _ _ E).
Defined.

Lemma sessionKey_injective_witness : sessionKey theConfig (js "0a") <> sessionKey theConfig (js "0b").
Proof.
  intros E. destruct (sessionKey_injective theConfig theConfig (js "0a") (js "0b")) as (_ & _ & H).
  - apply loaded_ok, theConfig_loaded.
  - apply loaded_ok, theConfig_loaded.
  - apply (bool_decide_unpack _). vm_compute. reflexivity.
  - apply (bool_decide_unpack _). vm_compute. reflexivity.
  - exact E.
  - discriminate H.
Defined.

(** The store keeps the sample session until it expires. *)
Example sample_expired : snd (run (frozen {| at_ms := 1788110100100; entries := entries sampleHeld |})
  (serve theConfig (fun _ => Ok (sampleRecord theConfig)) sampleText (fun _ => None) (fun _ => false) SessionInfo
    (sampleRequest None (Some sampleIdentity)))) = Ok (rejected (Some sampleIdentity)).
Proof. vm_compute. reflexivity. Qed.

(** With a loaded configuration the cookie of the session middleware is out of reach of scripts
    and other sites, is sent over TLS only when the origin has TLS, and expires with
    the session, after one minute to two hours; its signature has a key of 32
    characters or more; and Express trusts no proxy or a number of them up to 16. *)
Theorem session_settings isIP newURL cwd root environment c :
  loadConfig isIP newURL cwd root environment = Ok c ->
  let cookie := get (js "cookie") (sessionOptions c) in
  get (js "httpOnly") cookie = Boolean true /\ get (js "sameSite") cookie = Str (js "strict")
  /\ get (js "secure") cookie = Boolean (startsWith (js "https://") (publicOrigin c))
  /\ (exists age, get (js "maxAge") cookie = Number (int age) /\ 60000 <= age <= 7200000 /\ to_Z (sessionLifetimeSeconds c) = Some (age / 1000))
  /\ (exists key, get (js "secret") (sessionOptions c) = Str key /\ (32 <= length key)%nat)
  /\ (trustProxy c = Boolean false \/ exists n, trustProxy c = Number n /\ between 1 16 n).
Proof.
  intros Hc%loadConfig_sound. cbv zeta. destruct (ok_lifetime _ Hc) as (z & Hz & Hb). split_and!; [reflexivity..| | |].
  - exists (z * 1000). split; [cbn; unfold lifetime; by rewrite Hz|]. split; [lia|]. by rewrite Z.div_mul.
  - exists (sessionSecret c). split; [reflexivity|]. apply (ok_secret _ Hc).
  - unfold trustProxy. destruct (strict_eq _ _) eqn:E; [by left|right]. eexists. split; [done|]. destruct (ok_hops _ Hc) as (n & Hn & Hn16).
    exists n. split; [done|]. assert (n <> 0); [|lia]. intros ->. destruct (trustProxyHops c) as [| |q]; try done. cbn in E, Hn.
    destruct (isIntegerQ q) eqn:Ei; [|done]. injection Hn as Hf. unfold isIntegerQ in Ei. rewrite Hf in Ei. apply Qeq_bool_iff in Ei.
    assert (Qeq_bool q (inject_Z 0) = true) as Eq by (apply Qeq_bool_iff; by symmetry). congruence.
Qed.
