(* ===== verification/NodeSockets.v ===== *)
(** * WebSocket connections and shutdown of the Node.js example

    examples/node-express/src/upgrade.mjs (the handler of HTTP upgrades and the
    set of open connections), lifecycle.mjs (close frames, draining and shutdown)
    and the deadline of the ticket handler of app.mjs.  Sockets, the proxy and
    the timers are third-party code: what they do is the choice of the next
    event. *)

From stdpp Require Import base tactics option list numbers strings gmap fin_maps.
From Stdlib Require Import Lia.
From S2P Require Import Prelude JsString.
#[local] Open Scope Z_scope.

(** ** Close frames *)

(** A byte is an integer from 0 to 255. *)
Definition bytes : Type := list Z.

Definition reason : bytes := Z.of_N <$> js "Going Away".
Definition closePayload : bytes := [Z.shiftr 1001 8; Z.land 1001 255] ++ reason.

(** [encoded[index] ^= mask[index % 4]] *)
Definition masked (mask payload : bytes) : bytes :=
  imap (fun i b => Z.lxor b (default 0 (mask !! (i mod 4)%nat))) payload.

(** [closeFrame(masked)]; [mask] are the random bytes of the masked form. *)
Definition closeFrame (mask : option bytes) : bytes :=
  let length := Z.of_nat (length closePayload) in
  match mask with
  | None => [136; length] ++ closePayload
  | Some m => [136; Z.lor 128 length] ++ m ++ masked m closePayload
  end.

(** RFC 6455, 5.2 and 5.5.1, for short frames: opcode, payload. *)
Definition decodeFrame (frame : bytes) : option (bool * Z * bytes) :=
  match frame with
  | first :: second :: rest =>
      let length := Z.land second 127 in
      let m := take 4 rest in
      if Z.testbit second 7 then
        if bool_decide (Z.of_nat (List.length rest) = 4 + length) && (length <? 126)
        then Some (Z.testbit first 7, Z.land first 15, masked m (drop 4 rest)) else None
      else
        if bool_decide (Z.of_nat (List.length rest) = length) && (length <? 126)
        then Some (Z.testbit first 7, Z.land first 15, rest) else None
  | _ => None
  end.

Lemma masked_twice m p : masked m (masked m p) = p.
Proof.
  unfold masked. apply list_eq. intros i. rewrite !list_lookup_imap. destruct (p !! i) as [b|] eqn:E; simplify_option_eq; [|reflexivity].
  f_equal. by rewrite Z.lxor_assoc, Z.lxor_nilpotent, Z.lxor_0_r.
Qed.

(** Both forms of the close frame, the masked one for every mask of four
    bytes, decode under RFC 6455 to one final close message with status code 1001
    and the reason Going Away. *)
Theorem closeFrame_decodes mask :
  from_option (fun m => length m = 4%nat) True mask ->
  decodeFrame (closeFrame mask) = Some (true, 8, [3; 233] ++ reason).
Proof.
  destruct mask as [m|]; cbn [from_option]; [|intros _; vm_compute; reflexivity].
  intros Hm. unfold closeFrame, decodeFrame. cbn [app].
  replace (Z.land _ 127) with 12 by (vm_compute; reflexivity).
  replace (Z.testbit (Z.lor _ _) 7) with true by (vm_compute; reflexivity).
  rewrite bool_decide_true.
  - cbn [andb Z.ltb]. rewrite take_app_length', drop_app_length' by done. rewrite masked_twice. reflexivity.
  - rewrite length_app, Hm. unfold masked. rewrite length_imap. reflexivity.
Qed.

Lemma closeFrame_decodes_witness : decodeFrame (closeFrame (Some [1; 2; 255; 4])) = Some (true, 8, [3; 233] ++ reason).
Proof. apply (closeFrame_decodes (Some [1; 2; 255; 4])). reflexivity. Defined.

(** ** Connections *)

(** How far the upgrade of a connection got: [onProxyRequest] is attached; it was
    removed because proxy.ws threw; it ran, so that the handshake timer is armed
    and [closeUpstream] is attached; the request was destroyed; [finishHandshake]
    ran.  Later events of the last two find their timer cancelled and their
    request destroyed or unobserved. *)
Inductive Handshake : Type := Waiting | Detached | Pending | Aborted | Settled.

#[global] Instance handshake_eq_dec : EqDecision Handshake.
Proof. solve_decision. Defined.

(** The [connection] object: [hasGateway] says that its [gateway] is set; the last
    two fields record [destroy] calls on its sockets. *)
Record Connection := mkConnection {
  handshake : Handshake; hasGateway : bool; browserClosed : bool; gatewayClosed : bool;
  browserDestroyed : bool; gatewayDestroyed : bool
}.

Inductive Side : Type := Browser | Gateway.

Inductive Drain : Type := Idle | Draining | Emptied | Forced.

#[global] Instance drain_eq_dec : EqDecision Drain.
Proof. solve_decision. Defined.

Record World := mkWorld {
  connections : gmap nat Connection;      (* every connection object created *)
  upgradedSockets : gset nat;             (* the set shared with the shutdown *)
  written : list (nat * Side * bytes);    (* frames written by requestWebSocketClose *)
  drain : Drain                           (* drainWebSockets *)
}.

Definition initialWorld : World := mkWorld ∅ ∅ [] Idle.

Definition setConnection (id : nat) (c : Connection) (w : World) : World :=
  mkWorld (<[id := c]> (connections w)) (upgradedSockets w) (written w) (drain w).

(** [forgetIfClosed] *)
Definition forgetIfClosed (id : nat) (c : Connection) (w : World) : World :=
  if browserClosed c && gatewayClosed c
  then mkWorld (connections w) (upgradedSockets w ∖ {[id]}) (written w) (drain w) else w.

(** The upgrade handler: [pathname] is the parsed path, [throws] whether proxy.ws
    throws; a refused socket is destroyed and leaves no trace. *)
Definition upgradeHandler (id : nat) (pathname : option jstr) (throws : bool) (w : World) : World :=
  match pathname with
  | None => w
  | Some p =>
      if negb (bool_decide (p = js "/realtime/ws")) then w
      else mkWorld (<[id := mkConnection (if throws then Detached else Waiting) false false true throws false]> (connections w))
                   ({[id]} ∪ upgradedSockets w) (written w) (drain w)
  end.

Definition onProxyRequest (id : nat) (c : Connection) (w : World) : World :=
  setConnection id (mkConnection Pending (hasGateway c) (browserClosed c) (gatewayClosed c) (browserDestroyed c) (gatewayDestroyed c)) w.

(** The timer of [onProxyRequest]. *)
Definition handshakeDeadline (id : nat) (c : Connection) (w : World) : World :=
  setConnection id (mkConnection Aborted (hasGateway c) (browserClosed c) (gatewayClosed c) true (gatewayDestroyed c)) w.

(** [finishHandshake]; [gateway] says that the event carries the gateway's socket. *)
Definition finishHandshake (id : nat) (gateway : bool) (c : Connection) (w : World) : World :=
  setConnection id (mkConnection Settled (gateway || hasGateway c) (browserClosed c)
    (if gateway then false else gatewayClosed c) (browserDestroyed c) (gatewayDestroyed c)) w.

(** The close listeners of the browser socket, in the order they were attached:
    the record of the closing, then [closeUpstream]. *)
Definition browserClose (id : nat) (c : Connection) (w : World) : World :=
  let c1 := mkConnection (handshake c) (hasGateway c) true (gatewayClosed c) (browserDestroyed c) (gatewayDestroyed c) in
  let w1 := forgetIfClosed id c1 (setConnection id c1 w) in
  match handshake c with
  | Pending => setConnection id (mkConnection Aborted (hasGateway c1) true (gatewayClosed c1) (browserDestroyed c1) (gatewayDestroyed c1)) w1
  | _ => w1
  end.

Definition gatewayClose (id : nat) (c : Connection) (w : World) : World :=
  let c1 := mkConnection (handshake c) (hasGateway c) (browserClosed c) true (browserDestroyed c) (gatewayDestroyed c) in
  forgetIfClosed id c1 (setConnection id c1 w).

(** ** Draining *)

Section drain.
(** [writable && !destroyed] of a socket, and the mask drawn for a connection. *)
Context (canWrite : nat -> Side -> bool) (maskOf : nat -> bytes).

Definition requestWebSocketClose (id : nat) (c : Connection) : list (nat * Side * bytes) :=
  (if canWrite id Browser && negb (browserDestroyed c) then [(id, Browser, closeFrame None)] else [])
  ++ (if hasGateway c && canWrite id Gateway && negb (gatewayDestroyed c) then [(id, Gateway, closeFrame (Some (maskOf id)))] else []).

Definition tracked (w : World) : list (nat * Connection) :=
  omap (fun id => (fun c => (id, c)) <$> connections w !! id) (elements (upgradedSockets w)).

(** The first part of [drainWebSockets], up to the promise. *)
Definition startDrain (w : World) : World :=
  if bool_decide (upgradedSockets w = ∅) then mkWorld (connections w) (upgradedSockets w) (written w) Emptied
  else mkWorld (connections w) (upgradedSockets w)
         (written w ++ (tracked w ≫= fun p => requestWebSocketClose p.1 p.2)) Draining.

(** The interval and the deadline of the promise. *)
Definition drainTick (w : World) : World :=
  if bool_decide (upgradedSockets w = ∅) then mkWorld (connections w) (upgradedSockets w) (written w) Emptied else w.

Definition destroySockets (c : Connection) : Connection :=
  mkConnection (handshake c) (hasGateway c) (browserClosed c) (gatewayClosed c) true (hasGateway c || gatewayDestroyed c).

Definition drainDeadline (w : World) : World :=
  mkWorld (map_imap (fun id c => Some (if bool_decide (id ∈ upgradedSockets w) then destroySockets c else c)) (connections w))
    ∅ (written w) Forced.

(** ** Runs

    An event may happen when the code waits for it and the parties outside allow
    it: a socket closes once; the proxy announces a request while the browser
    socket is open; a destroyed request reports neither an upgrade nor a
    response. *)
Inductive step : World -> World -> Prop :=
  | step_upgrade w id pathname throws : connections w !! id = None -> step w (upgradeHandler id pathname throws w)
  | step_proxyReqWs w id c : connections w !! id = Some c -> handshake c = Waiting -> browserClosed c = false -> step w (onProxyRequest id c w)
  | step_deadline w id c : connections w !! id = Some c -> handshake c = Pending -> step w (handshakeDeadline id c w)
  | step_finish w id c gateway : connections w !! id = Some c -> handshake c = Pending -> step w (finishHandshake id gateway c w)
  | step_browserClose w id c : connections w !! id = Some c -> browserClosed c = false -> step w (browserClose id c w)
  | step_gatewayClose w id c : connections w !! id = Some c -> hasGateway c = true -> gatewayClosed c = false -> step w (gatewayClose id c w)
  | step_startDrain w : drain w = Idle -> step w (startDrain w)
  | step_drainTick w : drain w = Draining -> step w (drainTick w)
  | step_drainDeadline w : drain w = Draining -> step w (drainDeadline w).

Definition reachable (w : World) : Prop := rtc step initialWorld w.
End drain.

(** ** Tracking *)

(** A socket of the connection is still open. *)
Definition open (c : Connection) : bool := negb (browserClosed c && gatewayClosed c).

Definition connectionInv (c : Connection) : Prop :=
  (handshake c = Pending -> browserClosed c = false) /\ (hasGateway c = false -> gatewayClosed c = true).

Definition worldInv (w : World) : Prop :=
  (forall id c, connections w !! id = Some c -> connectionInv c) /\
  (forall id, id ∈ upgradedSockets w -> exists c, connections w !! id = Some c /\ open c = true) /\
  (drain w <> Forced -> forall id c, connections w !! id = Some c -> open c = true -> id ∈ upgradedSockets w).

Section tracking.
Context (canWrite : nat -> Side -> bool) (maskOf : nat -> bytes).

(** Replacing one connection, and forgetting it when both of its sockets closed. *)
Lemma worldInv_update id c c' w :
  connections w !! id = Some c -> worldInv w -> connectionInv c' -> (open c' = true -> open c = true) ->
  (open c' = true -> worldInv (setConnection id c' w)) /\ (open c' = false -> worldInv (forgetIfClosed id c' (setConnection id c' w))).
Proof.
  intros Hc (H1 & H2 & H3) Hc' Ho. split; intros E.
  - split_and!; cbn [connections upgradedSockets drain setConnection].
    + intros k d. rewrite lookup_insert_Some. intros [[<- <-]|[_ Hd]]; [done|by eapply H1].
    + intros k Hk. destruct (decide (k = id)) as [->|Hn]; [exists c'; by rewrite lookup_insert_eq|]. rewrite lookup_insert_ne by done. by apply H2.
    + intros Hf k d. rewrite lookup_insert_Some. intros [[<- <-]|[_ Hd]] Hod; [by eapply H3; eauto|by eapply H3].
  - unfold forgetIfClosed, open in *. apply negb_false_iff in E as E'. rewrite E'. split_and!; cbn [connections upgradedSockets drain setConnection].
    + intros k d. rewrite lookup_insert_Some. intros [[<- <-]|[_ Hd]]; [done|by eapply H1].
    + intros k [Hk Hn]%elem_of_difference. rewrite lookup_insert_ne by set_solver. by apply H2.
    + intros Hf k d. rewrite lookup_insert_Some. intros [[<- <-]|[Hn Hd]] Hod; [unfold open in Hod; congruence|]. apply elem_of_difference.
      split; [by eapply H3|set_solver].
Qed.

Lemma worldInv_forget id c c' w :
  connections w !! id = Some c -> worldInv w -> connectionInv c' -> (open c' = true -> open c = true) ->
  worldInv (forgetIfClosed id c' (setConnection id c' w)).
Proof.
  intros Hc Hw Hc' Ho. destruct (worldInv_update id c c' w Hc Hw Hc' Ho) as [Ht Hf]. destruct (open c') eqn:E; [|by apply Hf].
  unfold forgetIfClosed. unfold open in E. apply negb_true_iff in E. rewrite E. by apply Ht.
Qed.

(** Replacing a connection that keeps its open sockets. *)
Lemma worldInv_set id c c' w :
  connections w !! id = Some c -> worldInv w -> connectionInv c' -> open c' = open c -> worldInv (setConnection id c' w).
Proof.
  intros Hc Hw Hc' Ho. destruct (open c') eqn:E.
  - by apply (worldInv_update id c c' w Hc Hw Hc').
  - destruct Hw as (H1 & H2 & H3). split_and!; cbn [connections upgradedSockets drain setConnection].
    + intros k d. rewrite lookup_insert_Some. intros [[<- <-]|[_ Hd]]; [done|by eapply H1].
    + intros k Hk. destruct (H2 _ Hk) as (d & Hd & Hod). exists d. rewrite lookup_insert_ne; [done|]. intros ->. congruence.
    + intros Hf k d. rewrite lookup_insert_Some. intros [[<- <-]|[_ Hd]] Hod; [congruence|by eapply H3].
Qed.

Lemma browserClose_inv id c w : connections w !! id = Some c -> worldInv w -> worldInv (browserClose id c w).
Proof.
  intros Hc Hw. destruct (proj1 Hw id c Hc) as [Hp Hg]. unfold browserClose. cbv zeta. set (c1 := mkConnection _ _ true _ _ _).
  assert (forall h, h <> Pending -> worldInv (forgetIfClosed id c1 (setConnection id (mkConnection h (hasGateway c) true (gatewayClosed c) (browserDestroyed c) (gatewayDestroyed c)) w))) as Hx.
  { intros h Hh. set (c2 := mkConnection h _ true _ _ _). change (worldInv (forgetIfClosed id c2 (setConnection id c2 w))).
    apply (worldInv_forget id c); [done|done|split; [done|exact Hg]|]. unfold open. cbn. destruct (browserClosed c), (gatewayClosed c); done. }
  destruct (handshake c) eqn:E; try (apply Hx; done).
  replace (setConnection id _ _) with (forgetIfClosed id c1 (setConnection id (mkConnection Aborted (hasGateway c) true (gatewayClosed c) (browserDestroyed c) (gatewayDestroyed c)) w)); [by apply Hx|].
  unfold forgetIfClosed, setConnection. cbn. destruct (gatewayClosed c); cbn; by rewrite insert_insert_eq.
Qed.

Lemma step_inv w w' : worldInv w -> step canWrite maskOf w w' -> worldInv w'.
Proof.
  intros Hw Hs. pose proof Hw as (H1 & H2 & H3).
  destruct Hs as [w id pathname throws Hn|w id c Hc Hh Hb|w id c Hc Hh|w id c gateway Hc Hh|w id c Hc Hb|w id c Hc Hg Hb|w Hd|w Hd|w Hd].
  - destruct pathname as [p|]; [|done]. cbn. case_bool_decide; [|done]. cbn [negb]. split_and!; cbn [connections upgradedSockets drain].
    + intros k d. rewrite lookup_insert_Some. intros [[<- <-]|[_ Hd]]; [by destruct throws|by eapply H1].
    + intros k [->%elem_of_singleton|Hk]%elem_of_union; [eexists; by rewrite lookup_insert_eq|].
      destruct (H2 _ Hk) as (d & Hd & Ho). exists d. rewrite lookup_insert_ne; [done|]. congruence.
    + intros Hf k d. rewrite lookup_insert_Some. intros [[<- <-]|[_ Hd]] Ho; [set_solver|]. apply elem_of_union_r. by eapply H3.
  - apply (worldInv_set id c); [done|done| |done]. destruct (H1 _ _ Hc). by split.
  - apply (worldInv_set id c); [done|done| |done]. destruct (H1 _ _ Hc). by split.
  - destruct (H1 _ _ Hc) as [Hp Hg]. specialize (Hp Hh). apply (worldInv_set id c); [done|done| |].
    + split; cbn; [done|]. by destruct gateway.
    + unfold open. cbn. by rewrite Hp.
  - by apply browserClose_inv.
  - destruct (H1 _ _ Hc) as [Hp Hg']. apply (worldInv_forget id c); [done|done|by split|]. intros _. unfold open. by rewrite Hb, andb_false_r.
  - unfold startDrain. case_bool_decide; split_and!; cbn; try done; intros _; by apply H3; rewrite Hd.
  - unfold drainTick. case_bool_decide; [|done]. split_and!; cbn; try done; intros _; by apply H3; rewrite Hd.
  - split_and!; cbn.
    + intros k d. rewrite map_lookup_imap. intros (c & Hc & [= <-])%bind_Some. apply H1 in Hc. by case_bool_decide.
    + set_solver.
    + done.
Qed.

Lemma reachable_inv w : reachable canWrite maskOf w -> worldInv w.
Proof.
  unfold reachable. intros H. revert w H. apply rtc_ind_r; [|intros y z _ Hyz IH; by eapply step_inv].
  split_and!; cbn; [|set_solver|]; intros; by rewrite lookup_empty in *.
Qed.
End tracking.

(** C34: In every run of the upgrade handler and the shutdown, before a forced end
    of the drain, the set of upgraded sockets holds exactly the connections with
    a browser or gateway socket that is still open: nothing is forgotten early
    and nothing leaks. *)
Theorem tracking_exact canWrite maskOf w id c :
  reachable canWrite maskOf w -> drain w <> Forced -> connections w !! id = Some c ->
  id ∈ upgradedSockets w <-> browserClosed c = false \/ gatewayClosed c = false.
Proof.
  intros (H1 & H2 & H3)%reachable_inv Hf Hc.
  assert (open c = true <-> browserClosed c = false \/ gatewayClosed c = false) as <-.
  { unfold open. destruct (browserClosed c), (gatewayClosed c); cbn; intuition congruence. }
  split; [|by apply H3]. intros Hin. destruct (H2 _ Hin) as (d & Hd & Ho). congruence.
Qed.

(** The sockets of a connection are closed, or have been destroyed. *)
Definition ended (c : Connection) : Prop :=
  (browserClosed c = true \/ browserDestroyed c = true) /\
  (hasGateway c = true -> gatewayClosed c = true \/ gatewayDestroyed c = true).

(** C35: When draining finishes, by the interval or by the deadline, the set is
    empty and every connection ever upgraded has both of its sockets closed or
    destroyed; the deadline finishes it in any state, so it never waits for
    ever. *)
Theorem drain_finishes canWrite maskOf w w' :
  reachable canWrite maskOf w -> drain w = Draining -> step canWrite maskOf w w' -> drain w' <> Draining ->
  upgradedSockets w' = ∅ /\ (forall id c, connections w' !! id = Some c -> ended c) /\
  (exists w'', step canWrite maskOf w w'' /\ drain w'' = Forced).
Proof.
  intros (H1 & H2 & H3)%reachable_inv Hd Hs Hend. rewrite Hd in H3.
  assert (forall id c, connections w !! id = Some c -> id ∉ upgradedSockets w -> ended c) as Hended.
  { intros id c Hc Hn. assert (open c = false) as Ho by (destruct (open c) eqn:E; [|done]; exfalso; eauto).
    unfold open in Ho. apply negb_false_iff, andb_true_iff in Ho as [Hb Hg]. split; auto. }
  assert (exists w'', step canWrite maskOf w w'' /\ drain w'' = Forced) as Hforce by (eexists; split; [by apply step_drainDeadline|done]).
  destruct Hs as [w id [p|] throws Hn|w id c Hc Hh Hb|w id c Hc Hh|w id c gateway Hc Hh|w id c Hc Hb|w id c Hc Hg Hb|w Hi|w Hi|w Hi];
    cbn in Hend; try congruence.
  - by destruct (negb _).
  - exfalso. apply Hend. unfold browserClose, forgetIfClosed. cbv zeta. by destruct (_ && _), (handshake c).
  - exfalso. apply Hend. unfold gatewayClose, forgetIfClosed. cbv zeta. by destruct (_ && _).
  - unfold drainTick in *. case_bool_decide as He; [|congruence]. cbn. split_and!; [done| |done]. intros id c Hc.
    apply (Hended id); [done|]. rewrite He. set_solver.
  - cbn. split_and!; [done| |done]. intros id c. rewrite map_lookup_imap. intros (d & Hd' & [= <-])%bind_Some.
    case_bool_decide as Hin; [|by eapply Hended]. split; cbn; [by right|]. intros ->. by right.
Qed.

Lemma elem_of_tracked w id c : (id, c) ∈ tracked w <-> id ∈ upgradedSockets w /\ connections w !! id = Some c.
Proof.
  unfold tracked. rewrite list_elem_of_omap. split.
  - intros (k & Hk%elem_of_elements & (d & Hd & [= -> ->])%fmap_Some). done.
  - intros [Hid Hc]. exists id. rewrite elem_of_elements, Hc. done.
Qed.

(** The shutdown asks every tracked connection to close: the frames it writes
    are exactly a close frame for each socket of a tracked connection that is
    writable and not destroyed, unmasked to the browser and masked to the
    gateway. *)
Theorem drain_notifies canWrite maskOf w :
  exists frames, written (startDrain canWrite maskOf w) = written w ++ frames /\
  forall id side f, (id, side, f) ∈ frames <->
    exists c, id ∈ upgradedSockets w /\ connections w !! id = Some c /\ canWrite id side = true /\
      match side with
      | Browser => browserDestroyed c = false /\ f = closeFrame None
      | Gateway => hasGateway c = true /\ gatewayDestroyed c = false /\ f = closeFrame (Some (maskOf id))
      end.
Proof.
  unfold startDrain. case_bool_decide as He.
  { exists []. split; [by rewrite app_nil_r|]. intros. rewrite He. set_solver. }
  eexists. split; [reflexivity|]. intros id side f. rewrite list_elem_of_bind. split.
  - intros ([k c] & Hf & [Hk Hc]%elem_of_tracked). unfold requestWebSocketClose in Hf. cbn [fst snd] in Hf. exists c.
    apply elem_of_app in Hf as [Hf|Hf].
    + destruct (canWrite k Browser) eqn:E1, (browserDestroyed c) eqn:E2; cbn in Hf; set_solver.
    + destruct (hasGateway c) eqn:E0, (canWrite k Gateway) eqn:E1, (gatewayDestroyed c) eqn:E2; cbn in Hf; set_solver.
  - intros (c & Hk & Hc & Hw & Hs). exists (id, c). rewrite elem_of_tracked. split; [|done]. unfold requestWebSocketClose. cbn [fst snd].
    destruct side; rewrite Hw.
    + destruct Hs as [-> ->]. apply elem_of_app. left. cbn. by left.
    + destruct Hs as (-> & -> & ->). apply elem_of_app. right. cbn. by left.
Qed.

(** A browser whose gateway accepted the upgrade, then a shutdown. *)
Definition sampleConnected : World :=
  mkWorld {[1%nat := mkConnection Settled true false false false false]} {[1%nat]} [] Idle.

Lemma sampleConnected_reachable canWrite maskOf : reachable canWrite maskOf sampleConnected.
Proof.
  eapply rtc_l; [apply (step_upgrade _ _ _ 1%nat (Some (js "/realtime/ws")) false); reflexivity|].
  eapply rtc_l; [eapply (step_proxyReqWs _ _ _ 1%nat); reflexivity|].
  eapply rtc_l; [eapply (step_finish _ _ _ 1%nat _ true); reflexivity|].
  match goal with |- rtc _ ?w _ => replace w with sampleConnected by (apply (f_equal4 mkWorld); [vm_compute; reflexivity|set_solver|done|done]) end.
  apply rtc_refl.
Qed.

Lemma tracking_exact_witness : 1%nat ∈ upgradedSockets sampleConnected.
Proof.
  apply (tracking_exact (fun _ _ => true) (fun _ => [1; 2; 3; 4]) sampleConnected 1 (mkConnection Settled true false false false false)).
  - apply sampleConnected_reachable.
  - discriminate.
  - reflexivity.
  - left. reflexivity.
Defined.

Lemma drain_finishes_witness :
  let w := startDrain (fun _ _ => true) (fun _ => [1; 2; 3; 4]) sampleConnected in
  upgradedSockets (drainDeadline w) = ∅ /\ forall id c, connections (drainDeadline w) !! id = Some c -> ended c.
Proof.
  intros w. assert (Hw : drain w = Draining).
  { unfold w, startDrain. rewrite bool_decide_false; [reflexivity|]. cbn. set_solver. }
  destruct (drain_finishes (fun _ _ => true) (fun _ => [1; 2; 3; 4]) w (drainDeadline w)) as (H1 & H2 & _).
  - eapply rtc_r; [apply sampleConnected_reachable|]. by apply step_startDrain.
  - exact Hw.
  - by apply step_drainDeadline.
  - discriminate.
  - split; [exact H1|exact H2].
Defined.
