(* ===== verification/NodeShutdown.v ===== *)
(** * Timers of the Node.js example

    The deadline of the ticket handler of app.mjs, and startup and shutdown of
    lifecycle.mjs: machines driven by what the proxy, the response, the server,
    Redis and the timers report. *)

From stdpp Require Import base tactics option list numbers strings relations.
From Stdlib Require Import Lia.
From S2P Require Import Prelude JsString.
#[local] Open Scope Z_scope.

(** ** The ticket request *)

(** The response of a ticket request: nothing sent yet, headers sent with a
    status (by the proxy or by the deadline), finished or destroyed. *)
Inductive Response : Type := Unsent | Sent (status : Z) | Finished (status : Z) | Destroyed.

Record Ticket := mkTicket {
  ticketTimer : bool;                 (* deadline *)
  capturing : bool;                   (* captureUpstream is attached *)
  upstreamRequest : option nat;
  cancelled : list nat;               (* proxy requests destroyed *)
  response : Response
}.

(** The handler up to proxy.web; [finish] runs at once when it throws. *)
Definition ticketStart (throws : bool) : Ticket := mkTicket (negb throws) (negb throws) None [] Unsent.

(** [finish], on the finish or close event of the response. *)
Definition ticketFinish (t : Ticket) : Ticket := mkTicket false false (upstreamRequest t) (cancelled t) (response t).

(** [captureUpstream(candidate, incoming)]; [same] is [incoming === request]. *)
Definition captureUpstream (candidate : nat) (same : bool) (t : Ticket) : Ticket :=
  if same then mkTicket (ticketTimer t) (capturing t) (Some candidate) (cancelled t) (response t) else t.

(** The callback of the deadline. *)
Definition ticketDeadline (t : Ticket) : Ticket :=
  mkTicket false (capturing t) (upstreamRequest t) (cancelled t ++ option_list (upstreamRequest t))
    (match response t with Unsent => Sent 503 | Sent _ => Destroyed | r => r end).

Definition sends (s : Z) (t : Ticket) : Ticket := mkTicket (ticketTimer t) (capturing t) (upstreamRequest t) (cancelled t) (Sent s).
Definition closes (r : Response) (t : Ticket) : Ticket :=
  ticketFinish (mkTicket (ticketTimer t) (capturing t) (upstreamRequest t) (cancelled t) r).

Inductive ticketStep : Ticket -> Ticket -> Prop :=
  | ticket_capture t candidate same : capturing t = true -> ticketStep t (captureUpstream candidate same t)
  | ticket_proxied t s : response t = Unsent -> ticketStep t (sends s t)
  | ticket_finished t s : response t = Sent s -> ticketStep t (closes (Finished s) t)
  | ticket_closed t : response t <> Unsent \/ ticketTimer t = true -> ticketStep t (closes Destroyed t)
  | ticket_expired t : ticketTimer t = true -> ticketStep t (ticketDeadline t).

(** The listener and the timer live only while the response is open. *)
Definition ticketInv (t : Ticket) : Prop :=
  (ticketTimer t = true -> capturing t = true) /\
  (forall s, response t = Finished s -> ticketTimer t = false /\ capturing t = false).

Lemma ticketStep_inv t t' : ticketInv t -> ticketStep t t' -> ticketInv t'.
Proof.
  intros [H1 H2] Hs. destruct Hs as [t c same Hc|t s Hr|t s Hr|t Hr|t Ht]; unfold ticketInv in *; cbn.
  - destruct same; cbn; [|done]. split; [done|]. intros s Hs. destruct (H2 s Hs). congruence.
  - by split.
  - by split.
  - by split.
  - split; [done|]. intros s. destruct (response t) eqn:E; try done. intros [= ->]. destruct (H2 s eq_refl). congruence.
Qed.

(** When the deadline fires, the captured upstream request is destroyed, and the
    client gets the 503 answer if it had none, a closed connection otherwise. *)
Lemma ticketDeadline_answers t :
  rtc ticketStep (ticketStart false) t -> ticketTimer t = true ->
  ticketTimer (ticketDeadline t) = false /\
  (forall n, upstreamRequest t = Some n -> n ∈ cancelled (ticketDeadline t)) /\
  (response (ticketDeadline t) = Sent 503 \/ response (ticketDeadline t) = Destroyed).
Proof.
  intros Hr Ht. assert (ticketInv t) as [_ H2].
  { revert t Hr Ht. assert (forall t, rtc ticketStep (ticketStart false) t -> ticketInv t) as H; [|eauto].
    apply rtc_ind_r; [by split|]. intros; by eapply ticketStep_inv. }
  split_and!; [done| |].
  - intros n Hn. cbn. rewrite Hn. apply elem_of_app. right. by left.
  - cbn. destruct (response t) eqn:E; auto. destruct (H2 _ eq_refl). congruence.
Qed.

(** ** Startup *)

(** [connectWithDeadline]: whichever of the connection and the timer settles
    first decides; the timer is cleared in every case. *)
Inductive Settled (E : Type) : Type := Fulfilled | Rejected (e : E).
Arguments Fulfilled {E}.
Arguments Rejected {E} e.

Definition startupTimeout : jstr := js "Redis startup readiness deadline exceeded.".

(** [connected]: when and how redisClient.connect() settles, if it does. *)
Definition connectWithDeadline (connected : option (Z * Settled jstr)) (timeout : Z) : Settled jstr :=
  match connected with
  | Some (t, r) => if t <=? timeout then r else Rejected startupTimeout
  | None => Rejected startupTimeout
  end.

(** [listenForStartup]: the first of the listening and error events settles the
    promise and removes the other listener; [None] is listening. *)
Definition listenForStartup (events : list (option jstr)) : option (Settled jstr) :=
  match events with
  | [] => None
  | None :: _ => Some Fulfilled
  | Some e :: _ => Some (Rejected e)
  end.

(** ** Shutdown *)

(** The state of the returned [stop]: waiting for the two promises, for the Redis
    QUIT, done, or rejected. *)
Inductive Phase : Type :=
  | Running
  | Closing (serverClosed drained : bool)
  | Quitting
  | Stopped
  | Failed.

Record Shutdown := mkShutdown {
  phase : Phase;
  forceTimer : bool;                  (* the timer that calls forceExit(1) *)
  stopLogs : nat; serverCloses : nat; quits : nat; exits : nat
}.

Definition beforeShutdown : Shutdown := mkShutdown Running false 0 0 0 0.

(** [stop(signal)] up to its first await; [stopping] is [phase <> Running]. *)
Definition stop (proxyThrows : bool) (s : Shutdown) : Shutdown :=
  match phase s with
  | Running =>
      if proxyThrows then mkShutdown Failed false (S (stopLogs s)) (S (serverCloses s)) (quits s) (exits s)
      else mkShutdown (Closing false false) true (S (stopLogs s)) (S (serverCloses s)) (quits s) (exits s)
  | _ => s
  end.

(** Promise.all fulfilled: QUIT when the client is open. *)
Definition afterAll (isOpen : bool) (s : Shutdown) : Shutdown :=
  if isOpen then mkShutdown Quitting (forceTimer s) (stopLogs s) (serverCloses s) (S (quits s)) (exits s)
  else mkShutdown Stopped false (stopLogs s) (serverCloses s) (quits s) (exits s).

Definition waiting (serverClosed drained : bool) (isOpen : bool) (s : Shutdown) : Shutdown :=
  if serverClosed && drained then afterAll isOpen s
  else mkShutdown (Closing serverClosed drained) (forceTimer s) (stopLogs s) (serverCloses s) (quits s) (exits s).

(** The [finally] clause. *)
Definition settleShutdown (p : Phase) (s : Shutdown) : Shutdown := mkShutdown p false (stopLogs s) (serverCloses s) (quits s) (exits s).

Definition forced (s : Shutdown) : Shutdown := mkShutdown (phase s) false (stopLogs s) (serverCloses s) (quits s) (S (exits s)).

(** What happens to a running server: a signal, the callback of server.close
    (without or with an error), the end of the drain, the answer to QUIT, and
    the timer of forceExit. *)
Inductive ShutdownEvent : Type :=
  | SignalReceived | ServerClosed | ServerFailed | SocketsDrained | QuitDone | QuitFailed | ForceTimer.
#[global] Instance ShutdownEvent_eq_dec : EqDecision ShutdownEvent.
Proof. solve_decision. Defined.

Inductive shutdownStep : Shutdown -> ShutdownEvent -> Shutdown -> Prop :=
  | signal_received s throws : shutdownStep s SignalReceived (stop throws s)
  | server_closed s d isOpen : phase s = Closing false d -> shutdownStep s ServerClosed (waiting true d isOpen s)
  | server_failed s d : phase s = Closing false d -> shutdownStep s ServerFailed (settleShutdown Failed s)
  | sockets_drained s c isOpen : phase s = Closing c false -> shutdownStep s SocketsDrained (waiting c true isOpen s)
  | quit_done s : phase s = Quitting -> shutdownStep s QuitDone (settleShutdown Stopped s)
  | quit_failed s : phase s = Quitting -> shutdownStep s QuitFailed (settleShutdown Failed s)
  | force_timer s : forceTimer s = true -> shutdownStep s ForceTimer (forced s).

(** The runs of the machine, with what happened so far, the last event first. *)
Inductive shutdownRun : list ShutdownEvent -> Shutdown -> Prop :=
  | run_nothing : shutdownRun [] beforeShutdown
  | run_event tr s e s' : shutdownRun tr s -> shutdownStep s e s' -> shutdownRun (e :: tr) s'.

(** Whether the shutdown has begun and not settled. *)
Definition pendingPhase (p : Phase) : bool := match p with Closing _ _ | Quitting => true | _ => false end.

Definition shutdownInv (s : Shutdown) : Prop :=
  stopLogs s = serverCloses s /\ (exits s <= 1)%nat /\
  (forceTimer s = true -> pendingPhase (phase s) = true /\ exits s = 0%nat) /\
  (pendingPhase (phase s) = true -> forceTimer s = true \/ exits s = 1%nat) /\
  match phase s with
  | Running => stopLogs s = 0%nat /\ quits s = 0%nat /\ exits s = 0%nat
  | Closing c d => stopLogs s = 1%nat /\ quits s = 0%nat /\ c && d = false
  | Quitting => stopLogs s = 1%nat /\ quits s = 1%nat
  | Stopped | Failed => stopLogs s = 1%nat /\ (quits s <= 1)%nat
  end.

Lemma shutdownStep_inv s e s' : shutdownInv s -> shutdownStep s e s' -> shutdownInv s'.
Proof.
  intros Hi Hs. destruct Hs as [s throws|s d isOpen Hp|s d Hp|s c isOpen Hp|s Hp|s Hp|s Ht];
    destruct s as [p ft sl sc q ex]; unfold shutdownInv in *; cbn [phase forceTimer stopLogs serverCloses quits exits] in *; subst.
  - unfold stop. destruct p, throws; cbn in *; intuition (try lia; try congruence).
  - destruct d, isOpen; cbn in *; intuition (try lia; try congruence).
  - cbn in *. intuition (try lia; try congruence).
  - destruct c, isOpen; cbn in *; intuition (try lia; try congruence).
  - cbn in *. intuition (try lia; try congruence).
  - cbn in *. intuition (try lia; try congruence).
  - unfold forced. destruct p; cbn in *; intuition (try lia; try congruence).
Qed.

(** What the phase says about the events so far. *)
Definition phaseSeen (tr : list ShutdownEvent) (s : Shutdown) : Prop :=
  match phase s with
  | Running => tr = []
  | Closing c d => (ServerClosed ∈ tr -> c = true) /\ (c = true -> ServerClosed ∈ tr) /\
                   (SocketsDrained ∈ tr -> d = true) /\ (d = true -> SocketsDrained ∈ tr)
  | Quitting | Stopped => ServerClosed ∈ tr /\ SocketsDrained ∈ tr
  | Failed => (0 < quits s)%nat -> ServerClosed ∈ tr /\ SocketsDrained ∈ tr
  end.

Lemma phaseSeen_step tr s e s' : shutdownInv s -> phaseSeen tr s -> shutdownStep s e s' -> phaseSeen (e :: tr) s'.
Proof.
  intros (_ & _ & Hf & _ & Hq) Hi Hs. destruct Hs as [s throws|s d isOpen Hp|s d Hp|s c isOpen Hp|s Hp|s Hp|s Ht];
    destruct s as [p ft sl sc q ex]; unfold phaseSeen in *; cbn [phase quits forceTimer] in *; subst.
  - unfold stop. destruct p, throws; cbn in *; rewrite ?elem_of_cons; subst; rewrite ?elem_of_nil; intuition (lia || congruence).
  - destruct d, isOpen; cbn in *; rewrite ?elem_of_cons; intuition congruence.
  - cbn in *. intuition lia.
  - destruct c, isOpen; cbn in *; rewrite ?elem_of_cons; intuition congruence.
  - cbn in *. rewrite ?elem_of_cons. tauto.
  - cbn in *. rewrite ?elem_of_cons. tauto.
  - destruct (Hf eq_refl) as [Hp _]. unfold forced. destruct p; try done; cbn in *; rewrite ?elem_of_cons; intuition congruence.
Qed.

Lemma shutdownRun_inv tr s : shutdownRun tr s -> shutdownInv s /\ phaseSeen tr s.
Proof.
  induction 1 as [|tr s e s' _ [IH IH'] Hs]; [|split; [by eapply shutdownStep_inv|by eapply phaseSeen_step]].
  split; [unfold shutdownInv; cbn; intuition (try lia; try congruence)|done].
Qed.

(** C36: However signals, the server, the drain, Redis and the timers interleave,
    the shutdown sequence runs once (one log entry and one server.close for any
    number of signals); Redis is asked to quit at most once, and only after the
    server reported its close and the sockets were drained, both of them, and
    stop completes only after both; once both happened it does not keep waiting
    for them; forceExit is called at most once, and its timer is not armed before
    the shutdown began or after it settled. *)
Theorem shutdown_once tr s : shutdownRun tr s ->
  (stopLogs s <= 1)%nat /\ serverCloses s = stopLogs s /\ (quits s <= 1)%nat /\ (exits s <= 1)%nat /\
  ((0 < quits s)%nat \/ phase s = Stopped -> ServerClosed ∈ tr /\ SocketsDrained ∈ tr) /\
  (ServerClosed ∈ tr -> SocketsDrained ∈ tr -> forall c d, phase s <> Closing c d) /\
  (forceTimer s = true -> pendingPhase (phase s) = true).
Proof.
  intros Hr. destruct (shutdownRun_inv _ _ Hr) as [(H1 & H2 & H3 & H4 & H5) H6]. unfold phaseSeen in H6.
  split_and!; [destruct (phase s); intuition lia|done|destruct (phase s); intuition lia|done| | |tauto].
  - intros [Hq|Hs]; [|by rewrite Hs in H6]. destruct (phase s); try tauto; destruct H5 as (_ & H5 & _); lia.
  - intros Hc Hd c d Hp. rewrite Hp in H5, H6. destruct H6 as (Hc' & _ & Hd' & _).
    rewrite Hc', Hd' in H5 by done. cbn in H5. intuition congruence.
Qed.

Lemma shutdown_once_witness :
  let s := waiting true true true (waiting true false true (stop false (stop false beforeShutdown))) in
  stopLogs s = 1%nat /\ quits s = 1%nat /\ (quits s <= 1)%nat.
Proof.
  intros s. split; [reflexivity|]. split; [reflexivity|].
  destruct (shutdown_once [SocketsDrained; ServerClosed; SignalReceived; SignalReceived] s) as (_ & _ & H & _).
  - eapply run_event; [eapply run_event; [eapply run_event; [eapply run_event; [apply run_nothing|]|]|]|];
      [apply (signal_received _ false)|apply (signal_received _ false)|
       apply (server_closed _ false true); reflexivity|apply (sockets_drained _ true true); reflexivity].
  - exact H.
Defined.
