(* ===== verification/NodeServer.v ===== *)
(** * Startup of the Node.js example

    examples/node-express/src/server.mjs and redis.mjs: the script that composes
    configuration, Redis client, proxy, HTTP server, upgrades and shutdown.  Its
    calls are requests; the deadline of the connection and the first event of the
    server are in NodeShutdown.v, what answers requests in NodeApp.v. *)

From stdpp Require Import base tactics option list numbers strings.
From Stdlib Require Import Lia.
From S2P Require Import Prelude JsString JsNumber JsValue Paths Effects NodeConfig.
#[local] Open Scope Z_scope.

(** ** redis.mjs *)

Definition redisCommandTimeoutMilliseconds : Z := 5000.
Definition createRedisOptions (url : jstr) : value :=
  Obj [(js "url", Str url); (js "commandOptions", Obj [(js "timeout", Number (int redisCommandTimeoutMilliseconds))])].

(** ** The error handler of the proxy *)

(** The third argument of the handler: absent, a response of HTTP (with its headers
    sent or not), or a socket. *)
Inductive ProxyTarget : Type := NoTarget | HttpResponse (headersSent : bool) | PlainSocket (destroyable : bool).

Inductive ProxyReaction : Type := BadGateway (headers body : list (jstr * value)) | DestroyTarget | NoReaction.

Definition proxyError (t : ProxyTarget) : ProxyReaction :=
  match t with
  | HttpResponse false =>
      BadGateway [(js "content-type", Str (js "application/json")); (js "cache-control", Str (js "no-store"))]
        [(js "code", Str (js "gateway_unavailable")); (js "message", Str (js "The realtime gateway is unavailable."))]
  | HttpResponse true | PlainSocket true => DestroyTarget
  | PlainSocket false | NoTarget => NoReaction
  end.

(** ** The script *)

Definition host (operation : string) (args : list value) : request := Host (js operation) args.

Definition createClient (options : value) : request := host "createClient" [options].
Definition connectRedis (deadline : Z) : request := host "redisClient.connect" [Number (int deadline)].
Definition redisOpen : request := host "redisClient.isOpen" [].
Definition destroyRedis : request := host "redisClient.destroy" [].
Definition quitRedis : request := host "redisClient.quit" [].
Definition createProxyServer : request := host "createProxyServer" [Obj [(js "ws", Boolean true); (js "xfwd", Boolean true)]].
Definition closeProxy : request := host "proxy.close" [].
(** The server of the application with its upgrade handler. *)
Definition createServer (c : Config) : request :=
  host "createServer" [Str (publicOrigin c); Str (publicScheme c); Str (gatewayUrl c)].
Definition listen (c : Config) : request := host "server.listen" [Number (port c); Str (listenHost c)].
Definition logEntry (event : string) (fields : list (jstr * value)) : request := host "log" [Str (js event); Obj fields].
Definition onceSignal (signal : string) : request := host "process.once" [Str (js signal)].
Definition exitProcess (code : Z) : request := host "process.exit" [Number (int code)].

Inductive ServerOutcome : Type := Exited (code : Z) | Serving.

(** [console.error] of the failure (the name of the error is not kept), then what
    the failed step left open. *)
Definition startupFailed (release : prog unit) : prog ServerOutcome :=
  _ ← call (logEntry "startup_failed" []);
  _ ← release;
  _ ← call (exitProcess 1);
  Ret (Exited 1).

(** [if (redisClient.isOpen) p] *)
Definition whenOpen (p : prog unit) : prog unit := o ← call redisOpen; whenever (truthy o) p.

Definition attempt_ (r : request) : prog (option jsError) := catch (_ ← call r; Ret None) (fun e => Ret (Some e)).

Definition serverMain (config : result jstr Config) : prog ServerOutcome :=
  c ← throwing config;
  _ ← call (createClient (createRedisOptions (redisUrl c)));
  connection ← attempt_ (connectRedis 15000);
  match connection with
  | Some _ => startupFailed (whenOpen (_ ← call destroyRedis; Ret tt))
  | None =>
      _ ← call createProxyServer;
      _ ← call (createServer c);
      listening ← attempt_ (listen c);
      match listening with
      | Some _ =>
          startupFailed
            (_ ← catch (_ ← call closeProxy; Ret tt) (fun _ => Ret tt);
             whenOpen (catch (_ ← call quitRedis; Ret tt) (fun _ => _ ← call destroyRedis; Ret tt)))
      | None =>
          _ ← call (logEntry "started" [(js "stack", Str (js "node-express")); (js "instance", Str (instanceName c))]);
          _ ← call (onceSignal "SIGINT");
          _ ← call (onceSignal "SIGTERM");
          Ret Serving
      end
  end.

(** ** Startup is all or nothing *)

(** What happened so far: the requests that succeeded. *)
Definition succeeded (h : history) (r : request) : Prop := exists v, (r, Ok v) ∈ h.

(** The order of the steps: the server listens on the configured address only
    after Redis answered, the application is announced and signals are handled only
    when it listens, and nothing follows the exit. *)
Definition inOrder (c : Config) (h : history) (r : request) : Prop :=
  match r with
  | Host op args =>
      (op = js "server.listen" -> r = listen c /\ succeeded h (connectRedis 15000)) /\
      (op = js "log" -> hd Undefined args = Str (js "started") -> succeeded h (listen c)) /\
      (op = js "process.once" -> succeeded h (listen c)) /\
      (forall code, exitProcess code ∉ requests h)
  | _ => False
  end.

Definition operation (r : request) : jstr := match r with Host op _ => op | _ => [] end.

(** Whether a history has a request of an operation, and how the answers of an
    operation are. *)
Definition made (op : string) (h : history) : bool := existsb (fun rx => bool_decide (operation rx.1 = js op)) h.

(** An exit leaves nothing open: the Redis client was asked whether it is open and,
    if so, destroyed or quit with success; and the proxy, where there is one, was
    told to close. *)
Definition released (h : history) : Prop :=
  (exists v, (redisOpen, Ok v) ∈ h /\ (truthy v = true -> succeeded h destroyRedis \/ succeeded h quitRedis))
  /\ (made "createProxyServer" h = true -> made "proxy.close" h = true).

(** The calls that are in no try block and have no catch handler. *)
Definition unguarded (r : request) : Prop :=
  operation r ∈ js <$> ["createClient"; "createProxyServer"; "createServer"; "log"; "redisClient.isOpen"; "redisClient.destroy";
                        "process.once"; "process.exit"]%string.

(** The script ends with an error only when one of these calls threw it, at once. *)
Definition uncaught (h : history) (e : jsError) : Prop := exists h' r, h = h' ++ [(r, Throw e)] /\ unguarded r.

Lemma uncaught_at h r e : bool_decide (unguarded r) = true -> uncaught (extend h r (Throw e)) e.
Proof. intros H%bool_decide_eq_true. by exists h, r. Qed.

Lemma made_app op h t : made op (h ++ t) = made op h || made op t.
Proof. apply existsb_app. Qed.

Lemma made_none op h r : made op h = false -> operation r = js op -> r ∉ requests h.
Proof.
  intros H Ho Hin. apply list_elem_of_fmap in Hin as ([q x] & -> & Hin). unfold made in H. apply not_true_iff_false in H. apply H.
  apply existsb_exists. exists (q, x). split; [by apply list_elem_of_In|]. by apply bool_decide_eq_true.
Qed.

Ltac distinct := let H := fresh in intros H; apply js_inj in H; discriminate H.

(** A request that is neither listening, announcing nor handling signals. *)
Definition neutral (r : request) : bool :=
  match r with
  | Host op args => negb (bool_decide (op = js "server.listen")) && negb (bool_decide (op = js "process.once"))
                    && negb (bool_decide (op = js "log") && bool_decide (hd Undefined args = Str (js "started")))
                    && negb (bool_decide (op = js "process.exit"))
  | _ => false
  end.

Definition exits (r : request) : bool := match r with Host op _ => bool_decide (op = js "process.exit") | _ => false end.
Definition running (h : history) : Prop := Forall (fun r => exits r = false) (requests h).

Lemma running_exit h code : running h -> exitProcess code ∉ requests h.
Proof. unfold running. rewrite Forall_forall. intros H Hin. by apply H in Hin. Qed.

Lemma running_extend h r x : running h -> exits r = false -> running (extend h r x).
Proof. intros H Hr. unfold running, extend, requests. rewrite fmap_app, Forall_app. split; [done|]. by constructor. Qed.

Lemma inOrder_neutral c h r : running h -> neutral r = true -> inOrder c h r.
Proof.
  intros Hh Hn. destruct r; try done. cbn [neutral] in Hn. rewrite !andb_true_iff, !negb_true_iff, andb_false_iff, !bool_decide_eq_false in Hn.
  destruct Hn as [[[H1 H2] H3] H4]. split; [done|]. split; [intros E1 E2; by destruct H3|]. split; [done|]. intros code. by apply running_exit.
Qed.

Section startup.
Context (c : Config).
Abbreviation oks := (ok (inOrder c) extend).

(** The end of every path. *)
Definition ended (h : history) (r : result jsError ServerOutcome) : Prop :=
  match r with
  | Ok Serving => succeeded h (connectRedis 15000) /\ succeeded h (listen c) /\ onceSignal "SIGINT" ∈ requests h /\ onceSignal "SIGTERM" ∈ requests h /\ running h
  | Ok (Exited code) =>
      code = 1 /\ released h /\ (exists e, (connectRedis 15000, Throw e) ∈ h \/ (listen c, Throw e) ∈ h) /\
      exists h' v, h = h' ++ [(exitProcess 1, Ok v)]
  | Throw e => uncaught h e
  end.

Lemma oks_call h r (Q : history -> result jsError value -> Prop) :
  running h -> neutral r = true -> (forall x, running (extend h r x) -> Q (extend h r x) x) -> oks h (call r) Q.
Proof.
  intros Hh Hn HQ. apply ok_call; [by apply inOrder_neutral|]. intros x. apply HQ, running_extend; [done|].
  destruct r; try done. cbn [neutral exits] in *. apply andb_true_iff in Hn as [_ Hn]. by apply negb_true_iff in Hn.
Qed.

(** Everything is released when the process exits now. *)
Definition mayExit (h : history) (r : result jsError unit) : Prop :=
  match r with Ok _ => running h /\ (forall x, released (extend h (exitProcess 1) x)) | Throw e => uncaught h e end.

Lemma startupFailed_ok h (release : prog unit) e :
  running h -> ((connectRedis 15000, Throw e) ∈ h \/ (listen c, Throw e) ∈ h) ->
  (forall v, oks (extend h (logEntry "startup_failed" []) (Ok v)) release
     mayExit) ->
  oks h (startupFailed release) ended.
Proof.
  intros Hh Hwhy Hr. unfold startupFailed. apply ok_bind. apply ok_call; [by apply inOrder_neutral|]. intros [v|e']; [|by apply uncaught_at].
  apply ok_bind. eapply ok_weaken; [apply ok_extends, Hr|]. intros h' [u|e'] [[t Et] H]; [|exact H]. destruct H as [Hrun Hrel].
  apply ok_bind, ok_call.
  - split; [distinct|]. split; [distinct|]. split; [distinct|]. intros code. by apply running_exit.
  - intros [w|e']; [|by apply uncaught_at]. split; [done|]. split; [apply Hrel|]. split; [|by exists h', w].
    exists e. unfold extend in *. rewrite Et, !elem_of_app. tauto.
Qed.

Lemma succeeded_app h t r : succeeded t r -> succeeded (h ++ t) r.
Proof. intros [v Hv]. exists v. apply elem_of_app. by right. Qed.

Lemma released_intro h v t :
  (truthy v = true -> succeeded t destroyRedis \/ succeeded t quitRedis) ->
  implb (made "createProxyServer" (h ++ t)) (made "proxy.close" (h ++ t)) = true ->
  released (h ++ (redisOpen, Ok v) :: t).
Proof.
  intros H2 H3. assert (forall op, op <> "redisClient.isOpen"%string -> made op (h ++ (redisOpen, Ok v) :: t) = made op (h ++ t)) as Hm.
  { intros op Ho. rewrite !made_app. f_equal. unfold made at 1. cbn [existsb fst operation]. rewrite bool_decide_eq_false_2; [done|]. cbn. intros E. apply Ho. symmetry. by apply js_inj. }
  split.
  - exists v. split; [rewrite elem_of_app; right; left|]. intros Hv. change ((redisOpen, Ok v) :: t) with ([(redisOpen, Ok v)] ++ t).
    destruct (H2 Hv); [left|right]; by do 2 apply succeeded_app.
  - rewrite !Hm by done. intros H. by rewrite H in H3.
Qed.

(** [whenOpen p] after a history without such a question. *)
Lemma whenOpen_ok h (p : prog unit) (Q : history -> result jsError unit -> Prop) :
  running h ->
  (forall e, uncaught (extend h redisOpen (Throw e)) e -> Q (extend h redisOpen (Throw e)) (Throw e)) ->
  (forall v, truthy v = false -> Q (extend h redisOpen (Ok v)) (Ok tt)) ->
  (forall v, truthy v = true -> running (extend h redisOpen (Ok v)) -> oks (extend h redisOpen (Ok v)) p (fun h' r => Q h' (match r with Ok _ => Ok tt | Throw e => Throw e end))) ->
  oks h (whenOpen p) Q.
Proof.
  intros Hh H1 H2 H3. unfold whenOpen. apply ok_bind, oks_call; [done|done|]. intros [v|e] Hr; [|by apply H1, uncaught_at]. unfold whenever.
  destruct (truthy v) eqn:E; [|by apply H2]. apply ok_bind. eapply ok_weaken; [by apply H3|]. by intros h' [] ?.
Qed.

(** A step whose error is kept. *)
Lemma attempt_ok h r Q : running h -> inOrder c h r -> exits r = false ->
  (forall v, running (extend h r (Ok v)) -> Q (extend h r (Ok v)) (Ok None)) ->
  (forall e, running (extend h r (Throw e)) -> Q (extend h r (Throw e)) (Ok (Some e))) -> oks h (attempt_ r) Q.
Proof.
  intros Hh Ho He H1 H2. apply ok_catch, ok_bind, ok_call; [done|]. intros [v|e]; [apply H1|apply H2]; by apply running_extend.
Qed.

Ltac running_done :=
  lazymatch goal with
  | H : running ?h |- running ?h => exact H
  | |- running (extend _ _ _) => apply running_extend; [running_done|reflexivity]
  end.

(** ** The exit after the server could not listen *)

Lemma closed_released h x5 v t x :
  made "createProxyServer" h = true ->
  (truthy v = true -> succeeded t destroyRedis \/ succeeded t quitRedis) ->
  released (extend (extend (extend h closeProxy x5) redisOpen (Ok v) ++ t) (exitProcess 1) x).
Proof.
  intros Hp Hd.
  replace (extend _ _ _) with ((h ++ [(closeProxy, x5)]) ++ (redisOpen, Ok v) :: (t ++ [(exitProcess 1, x)])) by (unfold extend; by rewrite <- !app_assoc).
  apply released_intro.
  - intros Hv. assert (forall r, succeeded t r -> succeeded (t ++ [(exitProcess 1, x)]) r) as Hs by (intros r [w Hw]; exists w; apply elem_of_app; by left).
    destruct (Hd Hv); [left|right]; by apply Hs.
  - rewrite !made_app, Hp. cbn [orb implb]. change (made "proxy.close" [(closeProxy, x5)]) with true. by rewrite orb_true_r.
Qed.

Lemma closeAll_ok h x5 : running (extend h closeProxy x5) -> made "createProxyServer" h = true ->
  oks (extend h closeProxy x5) (whenOpen (catch (_ ← call quitRedis; Ret tt) (fun _ => _ ← call destroyRedis; Ret tt))) mayExit.
Proof.
  intros R5 Hp. apply whenOpen_ok; [done|done| |].
  - intros v Hv. split; [running_done|]. intros x. rewrite <- (app_nil_r (extend (extend h closeProxy x5) redisOpen (Ok v))). apply closed_released; [done|congruence].
  - intros v Hv R6. apply ok_catch, ok_bind, oks_call; [done|done|]. intros [w|e] R7; cbn [ok].
    + split; [done|]. intros x. apply (closed_released h x5 v [(quitRedis, Ok w)]); [done|]. intros _. right. exists w. by left.
    + apply ok_bind, oks_call; [done|done|]. intros [w|e'] R8; cbn [ok]; [|by apply uncaught_at]. split; [done|]. intros x.
      replace (extend (extend (extend (extend h closeProxy x5) redisOpen (Ok v)) quitRedis (Throw e)) destroyRedis (Ok w))
        with (extend (extend h closeProxy x5) redisOpen (Ok v) ++ [(quitRedis, Throw e); (destroyRedis, Ok w)]) by (unfold extend; by rewrite <- !app_assoc).
      apply closed_released; [done|]. intros _. left. exists w. right. left.
Qed.

Lemma serverMain_ok : oks [] (serverMain (Ok c)) ended.
Proof.
  unfold serverMain. apply ok_bind. cbn [throwing ok]. apply ok_bind, oks_call; [constructor|done|]. intros [v0|e0] R0; [|by apply uncaught_at].
  apply ok_bind, attempt_ok; [done|by apply inOrder_neutral|done| |].
  - intros v1 R1. apply ok_bind, oks_call; [done|done|]. intros [v2|e2] R2; [|by apply uncaught_at].
    apply ok_bind, oks_call; [done|done|]. intros [v3|e3] R3; [|by apply uncaught_at].
    apply ok_bind, attempt_ok; [done| |done| |].
    + split; [|split; [distinct|split; [distinct|intros; by apply running_exit]]]. intros _. split; [done|]. exists v1.
      unfold extend. rewrite !elem_of_app, !list_elem_of_singleton. tauto.
    + intros v4 R4. set (h4 := extend _ (listen c) (Ok v4)) in *.
      assert (forall q r x h, succeeded h q -> succeeded (extend h r x) q) as Hmono.
      { intros q r x h [w Hw]. exists w. unfold extend. rewrite elem_of_app. by left. }
      assert (succeeded h4 (listen c)) as S4 by (exists v4; unfold h4, extend; rewrite elem_of_app, list_elem_of_singleton; tauto).
      assert (succeeded h4 (connectRedis 15000)) as S1 by (exists v1; unfold h4, extend; rewrite !elem_of_app, !list_elem_of_singleton; tauto).
      apply ok_bind, ok_call.
      { split; [distinct|]. split; [done|]. split; [distinct|]. intros; by apply running_exit. }
      intros [v5|e5]; [|by apply uncaught_at]. apply ok_bind, ok_call.
      { split; [distinct|]. split; [distinct|]. split; [intros _; by apply Hmono|]. intros; apply running_exit; running_done. }
      intros [v6|e6]; [|by apply uncaught_at]. apply ok_bind, ok_call.
      { split; [distinct|]. split; [distinct|]. split; [intros _; by do 2 apply Hmono|]. intros; apply running_exit; running_done. }
      intros [v7|e7]; [|by apply uncaught_at]. split; [by do 3 apply Hmono|]. split; [by do 3 apply Hmono|]. split; [|split; [|running_done]];
        unfold extend, requests; rewrite !fmap_app, !elem_of_app; cbn [fmap list_fmap fst]; rewrite !list_elem_of_singleton; tauto.
    + intros e4 R4. apply (startupFailed_ok _ _ e4); [done| |].
      { right. unfold extend. rewrite !elem_of_app, !list_elem_of_singleton. tauto. }
      intros v5. apply ok_bind, ok_catch, ok_bind, oks_call; [running_done|done|].
      intros [v6|e6] R6; cbn [ok]; by apply closeAll_ok.
  - intros e1 R1. apply (startupFailed_ok _ _ e1); [done| |].
    { left. unfold extend. rewrite !elem_of_app, !list_elem_of_singleton. tauto. }
    intros v2. apply whenOpen_ok; [running_done|done| |].
    + intros v Hv. split; [running_done|]. intros x. unfold extend. rewrite <- !app_assoc. cbn [app].
      apply (released_intro [_; _; _]); [congruence|done].
    + intros v Hv R3. apply ok_bind, oks_call; [done|done|]. intros [w|e] R4; cbn [ok]; [|by apply uncaught_at]. split; [done|]. intros x.
      unfold extend. rewrite <- !app_assoc. cbn [app]. apply (released_intro [_; _; _]); [|done]. intros _. left. exists w. left.
Qed.
End startup.

(** C21: Startup of the Node.js application, whatever Redis, the server, the proxy
    and the process answer.  Without a valid configuration nothing is done.  With
    one, the server listens on the configured address only after Redis answered
    within its deadline; the application announces itself and handles signals only
    once it listens, and then both steps succeeded.  When connecting or listening
    fails, that error is caught: the last thing done is the exit with code 1, the
    Redis client was asked whether it is open and then destroyed or quit with
    success, and the proxy, if it was created, was told to close.  The script ends
    with an error only when another call than connecting, listening, closing the
    proxy or quitting Redis threw it (creating the client, the proxy or the server,
    writing the log, asking or destroying the client, registering a signal, or the
    exit itself). *)
Theorem startup_complete isIP newURL cwd root environment o :
  let '(h, r) := run o (serverMain (loadConfig isIP newURL cwd root environment)) in
  match loadConfig isIP newURL cwd root environment with
  | Throw m => h = [] /\ r = Throw (newError m)
  | Ok c => config_ok c /\ (forall h1 q x h2, h = h1 ++ (q, x) :: h2 -> inOrder c h1 q) /\ ended c h r
  end.
Proof.
  destruct (loadConfig isIP newURL cwd root environment) as [c|m] eqn:E; [|done].
  pose proof (ok_run _ _ o [] _ _ (serverMain_ok c)) as H. destruct (run o (serverMain (Ok c))) as [h r]. destruct H as [Hc He].
  split; [by eapply loadConfig_sound|]. rewrite after_extend in He. split; [|done].
  intros h1 q x h2 ->. apply complies_at in Hc. by rewrite after_extend in Hc.
Qed.

(** A startup that reaches the end. *)
Example startup_sample :
  (run (fun _ _ => Ok Undefined) (serverMain sampleConfig)).2 = Ok Serving.
Proof. vm_compute. reflexivity. Qed.
