(* ===== verification/Transport.v ===== *)
(** * Transports of the client

    sdk/typescript/src/transport.ts: the choice of a transport, the fallback over
    several transports while connecting, and the socket over HTTP requests.  Each
    class is a machine: its fields and pending continuations are the state, the
    log holds the callbacks it calls.  The network, the candidate sockets and the
    consumer choose the steps; the callbacks of the consumer may close the socket
    and send on it before they return, and do not throw. *)

From stdpp Require Import base tactics option list numbers strings relations.
From Stdlib Require Import Lia Sorted.
From S2P Require Import Prelude JsString JsNumber JsValue Paths.
#[local] Open Scope Z_scope.

Definition CONNECTING : Z := 0.
Definition OPEN : Z := 1.
Definition CLOSING : Z := 2.
Definition CLOSED : Z := 3.

(** Callbacks of a socket. *)
Inductive Callback : Type :=
  | OnOpen
  | OnMessage (data : jstr)
  | OnError
  | OnClose (code : Z) (reason : jstr) (wasClean : bool).

#[global] Instance callback_eq_dec : EqDecision Callback.
Proof. solve_decision. Defined.

(** ** Choice of a transport *)

Inductive RealtimeTransport : Type := WebSocketTransport | HttpStreamingTransport.

(** The socket made by one factory: a platform WebSocket, or the socket over HTTP
    for the given base URL. *)
Inductive TransportSocket : Type :=
  | PlatformSocket (url protocol : jstr)
  | HttpSocketOf (url : jstr) (base : jstr).

Record ParsedAddress := { a_protocol : jstr; a_pathname : jstr; a_params : list (jstr * jstr) }.

Section choice.
(** [new URL], whether the platform has fetch, and the configuration. *)
Context (newURL : jstr -> option ParsedAddress) (hasFetch : bool) (httpStreaming : option jstr).

(** The checks of the constructor of HttpStreamingSocket. *)
Definition newHttpStreamingSocket (websocketUrl base : jstr) : result jstr TransportSocket :=
  if negb hasFetch then Throw (js "HTTP streaming requires the Fetch API.")
  else match newURL base with
       | None => Throw (js "Invalid URL")
       | Some a =>
           if memb (a_protocol a) [js "http:"; js "https:"] then
             match newURL websocketUrl with None => Throw (js "Invalid URL") | Some _ => Ok (HttpSocketOf websocketUrl base) end
           else Throw (js "The HTTP streaming URL must use http or https.")
       end.

Definition factory (t : RealtimeTransport) (protocol url : jstr) : result jstr TransportSocket :=
  match t with
  | WebSocketTransport => Ok (PlatformSocket url protocol)
  | HttpStreamingTransport =>
      match httpStreaming with
      | None => Throw (js "httpStreaming is required when the http-streaming transport is selected.")
      | Some base => newHttpStreamingSocket url base
      end
  end.

(** One transport is used as it is; several go through the fallback, which runs
    their factories later. *)
Definition createTransportSocket (url protocol : jstr) (transports : option (list RealtimeTransport))
  : result jstr (TransportSocket + list RealtimeTransport) :=
  match default [WebSocketTransport] transports with
  | [] => Throw (js "At least one transport is required.")
  | [t] => match factory t protocol url with Ok s => Ok (inl s) | Throw e => Throw e end
  | ts => Ok (inr ts)
  end.

(** [searchParams.set(name, v)]: the first parameter of that name changes in place,
    the others go, a new name is appended. *)
Fixpoint replaceParam (name v : jstr) (ps : list (jstr * jstr)) : list (jstr * jstr) :=
  match ps with
  | [] => []
  | (n, w) :: rest =>
      if bool_decide (n = name) then (name, v) :: List.filter (fun p => negb (bool_decide (p.1 = name))) rest
      else (n, w) :: replaceParam name v rest
  end.
Definition setParam (name v : jstr) (ps : list (jstr * jstr)) : list (jstr * jstr) :=
  if existsb (fun p => bool_decide (p.1 = name)) ps then replaceParam name v ps else ps ++ [(name, v)].

(** The parameters of the WebSocket URL that the HTTP base URL takes over. *)
Definition carriedParams (source : ParsedAddress) (base : list (jstr * jstr)) : list (jstr * jstr) :=
  foldl (fun ps name => match List.find (fun p => bool_decide (p.1 = name)) (a_params source) with
                        | Some (_, v) => setParam name v ps
                        | None => ps
                        end) base [js "ticket"; js "reconnect"].
End choice.

(** [pathname.replace(/\/$/u, "")] *)
Definition withoutSlash (s : jstr) : jstr := if endsWith (js "/") s then removelast s else s.

Definition connectPath (base : jstr) : jstr := withoutSlash base ++ js "/connect".

(** The path of [connectionUrl(id, suffix)]; its query is empty. *)
Definition connectionPath (encodeURIComponent : jstr -> jstr) (base id : jstr) (suffix : option jstr) : jstr :=
  withoutSlash base ++ js "/connections/" ++ encodeURIComponent id ++ from_option (fun x => js "/" ++ x) [] suffix.

(** ** The socket over HTTP *)

(** The continuation the class waits in: [start] and [poll]. *)
Inductive Stage : Type := Queued | Connecting | ReadingJson | Polling | ReadingText | Over.

#[global] Instance stage_eq_dec : EqDecision Stage.
Proof. solve_decision. Defined.

Inductive Fetch : Type :=
  | PostConnect
  | PostPoll (id token : jstr)
  | PostMessage (id token data : jstr)
  | DeleteConnection (id token : jstr).

Record HttpSocket := mkHttp {
  state : Z;
  connection : option (jstr * jstr);   (* connectionId and connectionToken *)
  aborted : bool;                      (* controller.signal.aborted *)
  stage : Stage;
  tail : list (jstr * jstr * jstr);    (* sends unposted in sendTail *)
  sending : bool;                      (* a send awaits its response *)
  accepted : list jstr;                (* data of the calls of send that did not throw *)
  fetches : list Fetch;                (* requests made *)
  log : list Callback
}.

Definition newHttpSocket : HttpSocket := mkHttp CONNECTING None false Queued [] false [] [] [].

(** Updates of single fields. *)
Definition set_stage (g : Stage) (s : HttpSocket) : HttpSocket :=
  mkHttp (state s) (connection s) (aborted s) g (tail s) (sending s) (accepted s) (fetches s) (log s).
Definition emit (c : Callback) (s : HttpSocket) : HttpSocket :=
  mkHttp (state s) (connection s) (aborted s) (stage s) (tail s) (sending s) (accepted s) (fetches s) (log s ++ [c]).
Definition fetching (f : Fetch) (s : HttpSocket) : HttpSocket :=
  mkHttp (state s) (connection s) (aborted s) (stage s) (tail s) (sending s) (accepted s) (fetches s ++ [f]) (log s).
(** [controller.abort(); state = CLOSED] *)
Definition shut (s : HttpSocket) : HttpSocket :=
  mkHttp CLOSED (connection s) true (stage s) (tail s) (sending s) (accepted s) (fetches s) (log s).

(** [send(data)]: [None] when it throws InvalidStateError. *)
Definition send (data : jstr) (s : HttpSocket) : option HttpSocket :=
  match connection s with
  | Some (id, token) =>
      if state s =? OPEN then
        Some (mkHttp (state s) (connection s) (aborted s) (stage s) (tail s ++ [(id, token, data)]) (sending s)
                (accepted s ++ [data]) (fetches s) (log s))
      else None
  | None => None
  end.

Definition close (code : Z) (reason : jstr) (s : HttpSocket) : HttpSocket :=
  if CLOSING <=? state s then s
  else
    let s1 := match connection s with Some (id, token) => fetching (DeleteConnection id token) s | None => s end in
    emit (OnClose code reason true) (shut s1).

(** What a callback of the consumer calls on the socket before it returns; a send
    that throws is caught by the callback.  In [onclose] the socket is closed, so
    that [close] returns at once and [send] throws: its calls have no effect. *)
Inductive ConsumerCall : Type := CallClose (code : Z) (reason : jstr) | CallSend (data : jstr).

Definition consumerCall (s : HttpSocket) (c : ConsumerCall) : HttpSocket :=
  match c with CallClose code reason => close code reason s | CallSend data => default s (send data s) end.

Definition duringCallback (calls : list ConsumerCall) (s : HttpSocket) : HttpSocket := foldl consumerCall s calls.

Lemma duringCallback_closed calls s : state s = CLOSED -> duringCallback calls s = s.
Proof.
  intros E. unfold duringCallback. induction calls as [|c calls IH]; cbn; [done|]. rewrite <- IH at 2. f_equal.
  destruct c; cbn; unfold close, send; rewrite E; [done|]. by destruct (connection s) as [[??]|].
Qed.

(** [onerror] is called before the socket is closed. *)
Definition fail (onerror : list ConsumerCall) (reason : jstr) (s : HttpSocket) : HttpSocket :=
  if state s =? CLOSED then s else emit (OnClose 1006 reason false) (shut (duringCallback onerror (emit OnError s))).

Definition isConnectionResponse (v : value) : bool :=
  match v with
  | Obj _ => isString (get (js "connectionId") v) && isString (get (js "connectionToken") v)
  | _ => false
  end.

(** The head of the loop of [poll]. *)
Definition pollHead (s : HttpSocket) : HttpSocket :=
  match connection s with
  | Some (id, token) => if state s =? OPEN then set_stage Polling (fetching (PostPoll id token) s) else set_stage Over s
  | None => set_stage Over s
  end.

(** The catch clause of [start]. *)
Definition caught (onerror : list ConsumerCall) (reason : jstr) (s : HttpSocket) : HttpSocket :=
  set_stage Over (if aborted s then s else fail onerror reason s).

(** The continuations of [start] and [poll]. *)
Definition startRequest (s : HttpSocket) : HttpSocket := set_stage Connecting (fetching PostConnect s).

Definition responseOk (status : Z) : bool := (200 <=? status) && (status <=? 299).

Definition connectResponse (onerror : list ConsumerCall) (status : Z) (s : HttpSocket) : HttpSocket :=
  if responseOk status then set_stage ReadingJson s
  else caught onerror (js "HTTP streaming connection failed (" ++ show_Z status ++ js ").") s.

Definition connectJson (onopen onerror : list ConsumerCall) (v : value) (s : HttpSocket) : HttpSocket :=
  if isConnectionResponse v then
    pollHead (duringCallback onopen (emit OnOpen
      (mkHttp OPEN (Some (str_of (get (js "connectionId") v), str_of (get (js "connectionToken") v)))
         (aborted s) (stage s) (tail s) (sending s) (accepted s) (fetches s) (log s))))
  else caught onerror (js "HTTP streaming connection response was invalid.") s.

Definition pollResponse (onerror : list ConsumerCall) (status : Z) (s : HttpSocket) : HttpSocket :=
  if status =? 204 then pollHead s
  else if responseOk status then set_stage ReadingText s
  else caught onerror (js "HTTP fallback poll failed (" ++ show_Z status ++ js ").") s.

Definition pollText (onmessage : list ConsumerCall) (text : jstr) (s : HttpSocket) : HttpSocket :=
  pollHead (match text with [] => s | _ => duringCallback onmessage (emit (OnMessage text) s) end).

(** The next link of [sendTail]. *)
Definition sendNext (s : HttpSocket) : HttpSocket :=
  match tail s with
  | (id, token, data) :: rest =>
      mkHttp (state s) (connection s) (aborted s) (stage s) rest true (accepted s) (fetches s ++ [PostMessage id token data]) (log s)
  | [] => s
  end.

(** Its response; a status that is not ok and a rejected fetch both fail the socket. *)
Definition sendSettled (onerror : list ConsumerCall) (ok : bool) (s : HttpSocket) : HttpSocket :=
  let s1 := mkHttp (state s) (connection s) (aborted s) (stage s) (tail s) false (accepted s) (fetches s) (log s) in
  if ok then s1 else fail onerror (js "send_failed") s1.

Definition callsClose (c : ConsumerCall) : bool := match c with CallClose _ _ => true | CallSend _ => false end.

(** Steps.  [late] says whether a continuation whose promise had settled before an
    abort may still run after it, [closing] whether [onerror] may close the socket. *)
Inductive httpStep (late closing : bool) : HttpSocket -> HttpSocket -> Prop :=
  | http_start s : stage s = Queued -> httpStep late closing s (startRequest s)
  | http_connect s status onerror : stage s = Connecting -> (aborted s = true -> late = true) ->
      (existsb callsClose onerror = true -> closing = true) -> httpStep late closing s (connectResponse onerror status s)
  | http_json s v onopen onerror : stage s = ReadingJson -> (aborted s = true -> late = true) ->
      (existsb callsClose onerror = true -> closing = true) -> httpStep late closing s (connectJson onopen onerror v s)
  | http_poll s status onerror : stage s = Polling -> (aborted s = true -> late = true) ->
      (existsb callsClose onerror = true -> closing = true) -> httpStep late closing s (pollResponse onerror status s)
  | http_text s text onmessage : stage s = ReadingText -> (aborted s = true -> late = true) ->
      httpStep late closing s (pollText onmessage text s)
  | http_rejected s reason onerror : stage s ∈ [Connecting; ReadingJson; Polling; ReadingText] ->
      (existsb callsClose onerror = true -> closing = true) -> httpStep late closing s (caught onerror reason s)
  | http_sendNext s : sending s = false -> tail s <> [] -> httpStep late closing s (sendNext s)
  | http_sendSettled s ok onerror : sending s = true ->
      (existsb callsClose onerror = true -> closing = true) -> httpStep late closing s (sendSettled onerror ok s)
  | http_call s c : httpStep late closing s (consumerCall s c).

(** ** The contract of a socket

    The WebSocket protocol of callbacks, as the client relies on it: open at most
    once and first, messages only while open, one close and nothing after it. *)
Definition wsNext (st : option Z) (c : Callback) : option Z :=
  st ← st;
  match c with
  | OnOpen => if st =? CONNECTING then Some OPEN else None
  | OnMessage _ => if st =? OPEN then Some OPEN else None
  | OnError => if st =? CLOSED then None else Some st
  | OnClose _ _ _ => if st =? CLOSED then None else Some CLOSED
  end.

Definition wsRun (l : list Callback) : option Z := foldl wsNext (Some CONNECTING) l.

Lemma wsRun_snoc l c : wsRun (l ++ [c]) = wsNext (wsRun l) c.
Proof. unfold wsRun. by rewrite foldl_app. Qed.

Lemma wsNext_error st : st <> CLOSED -> wsNext (Some st) OnError = Some st.
Proof. intros H. unfold wsNext. cbn [mbind option_bind]. by rewrite (proj2 (Z.eqb_neq st CLOSED)). Qed.
Lemma wsNext_close st code reason clean : st <> CLOSED -> wsNext (Some st) (OnClose code reason clean) = Some CLOSED.
Proof. intros H. unfold wsNext. cbn [mbind option_bind]. by rewrite (proj2 (Z.eqb_neq st CLOSED)). Qed.

Definition dataOf (f : Fetch) : option jstr := match f with PostMessage _ _ d => Some d | _ => None end.

(** The texts posted, and those of the sends that wait. *)
Definition posted (s : HttpSocket) : list jstr := omap dataOf (fetches s).
Definition unposted (s : HttpSocket) : list jstr := (fun p => p.2) <$> tail s.

(** *** Every run: the sends in their order *)

Definition inOrder (s : HttpSocket) : Prop := posted s ++ unposted s = accepted s.

(** Requests that carry no text change nothing. *)
Lemma inOrder_fetch f s : dataOf f = None -> inOrder s -> inOrder (fetching f s).
Proof. intros Hf H. unfold inOrder, posted in *. cbn. rewrite omap_app. cbn. by rewrite Hf, app_nil_r. Qed.

Lemma inOrder_call s c : inOrder s -> inOrder (consumerCall s c).
Proof.
  intros H. destruct c as [code reason|data]; cbn.
  - unfold close. destruct (_ <=? _); [done|]. destruct (connection s) as [[id token]|]; [|exact H].
    exact (inOrder_fetch (DeleteConnection id token) s eq_refl H).
  - unfold send. destruct (connection s) as [[id token]|]; [|done]. destruct (_ =? _); [|done]. cbn.
    unfold inOrder, unposted in *. cbn. rewrite fmap_app, app_assoc. by f_equal.
Qed.

Lemma inOrder_duringCallback calls s : inOrder s -> inOrder (duringCallback calls s).
Proof. revert s. induction calls as [|c calls IH]; intros s H; [done|]. apply IH. by apply inOrder_call. Qed.

Lemma inOrder_fail onerror reason s : inOrder s -> inOrder (fail onerror reason s).
Proof. intros H. unfold fail. destruct (_ =? _); [done|]. exact (inOrder_duringCallback onerror (emit OnError s) H). Qed.

Lemma inOrder_caught onerror reason s : inOrder s -> inOrder (caught onerror reason s).
Proof. intros H. unfold caught. destruct (aborted s); [exact H|]. by apply (inOrder_fail onerror reason). Qed.

Lemma inOrder_pollHead s : inOrder s -> inOrder (pollHead s).
Proof.
  intros H. unfold pollHead. destruct (connection s) as [[id token]|]; [|exact H]. destruct (_ =? _); [|exact H].
  exact (inOrder_fetch (PostPoll id token) s eq_refl H).
Qed.

Lemma inOrder_step late closing s s' : httpStep late closing s s' -> inOrder s -> inOrder s'.
Proof.
  intros Hs H. destruct Hs as [s Hq|s status onerror Hq Hf Hr|s v onopen onerror Hq Hf Hr|s status onerror Hq Hf Hr|
    s text onmessage Hq Hf|s reason onerror Hq Hr|s Hq Hne|s ok onerror Hq Hr|s c].
  - exact (inOrder_fetch PostConnect s eq_refl H).
  - unfold connectResponse. destruct (responseOk status); [exact H|by apply inOrder_caught].
  - unfold connectJson. destruct (isConnectionResponse v); [|by apply inOrder_caught]. apply inOrder_pollHead, inOrder_duringCallback. exact H.
  - unfold pollResponse. destruct (status =? 204); [by apply inOrder_pollHead|]. destruct (responseOk status); [exact H|by apply inOrder_caught].
  - unfold pollText. apply inOrder_pollHead. destruct text; [done|]. apply inOrder_duringCallback. exact H.
  - by apply inOrder_caught.
  - unfold sendNext, inOrder, posted, unposted in *. destruct (tail s) as [|[[id token] d] rest]; [done|]. cbn in *.
    by rewrite omap_app, <- app_assoc.
  - unfold sendSettled. destruct ok; [exact H|]. apply inOrder_fail. exact H.
  - by apply inOrder_call.
Qed.

(** *** Runs in which no continuation outruns an abort and onerror does not close *)

Record httpCore (s : HttpSocket) : Prop := {
  inv_log : wsRun (log s) = Some (state s);
  inv_state : state s = CONNECTING \/ state s = OPEN \/ state s = CLOSED;
  inv_aborted : aborted s = true <-> state s = CLOSED
}.

(** Where the continuation of [start] may be in each state. *)
Definition staged (s : HttpSocket) : Prop :=
  match stage s with
  | Queued | Connecting | ReadingJson => state s <> OPEN
  | Polling | ReadingText => state s <> CONNECTING /\ is_Some (connection s)
  | Over => state s = CLOSED
  end.

Lemma core_stage g s : httpCore s -> httpCore (set_stage g s).
Proof. by destruct 1. Qed.

(** The calls of a callback keep the invariant, and close the socket at most. *)
Lemma core_call s c : httpCore s ->
  httpCore (consumerCall s c) /\ (state (consumerCall s c) = state s \/ state (consumerCall s c) = CLOSED) /\
  (callsClose c = false -> state (consumerCall s c) = state s) /\ stage (consumerCall s c) = stage s /\ connection (consumerCall s c) = connection s.
Proof.
  intros [Hl Hs Ha]. destruct c as [code reason|data]; cbn.
  - unfold close. destruct (Z.leb_spec CLOSING (state s)) as [E|E]; [split_and!; auto; by split|].
    assert (state s <> CLOSED) as Hn by (unfold CLOSING, CLOSED in *; lia).
    destruct (connection s) as [[id token]|] eqn:Hk; cbn; (split_and!; [|auto|done|done|done]);
      (split; cbn; [by rewrite wsRun_snoc, Hl, wsNext_close|auto|done]).
  - unfold send. destruct (connection s) as [[id token]|] eqn:Hk; [|split_and!; auto; by split].
    destruct (_ =? _); cbn; split_and!; auto; by split.
Qed.

Lemma core_duringCallback calls s : httpCore s ->
  httpCore (duringCallback calls s) /\ (state (duringCallback calls s) = state s \/ state (duringCallback calls s) = CLOSED) /\
  (existsb callsClose calls = false -> state (duringCallback calls s) = state s) /\
  stage (duringCallback calls s) = stage s /\ connection (duringCallback calls s) = connection s.
Proof.
  revert s. induction calls as [|c calls IH]; intros s H; [by split_and!; auto|].
  destruct (core_call s c H) as (Hc & Hst & Hk & Hg & Hn). destruct (IH (consumerCall s c) Hc) as (Hc' & Hst' & Hk' & Hg' & Hn').
  change (duringCallback (c :: calls) s) with (duringCallback calls (consumerCall s c)). split_and!; [done| | |congruence|congruence].
  - destruct Hst' as [->|]; auto.
  - cbn. intros [E1 E2]%orb_false_iff. by rewrite Hk', Hk.
Qed.

Lemma core_fail onerror reason s : httpCore s -> existsb callsClose onerror = false ->
  httpCore (fail onerror reason s) /\ state (fail onerror reason s) = CLOSED /\
  stage (fail onerror reason s) = stage s /\ connection (fail onerror reason s) = connection s.
Proof.
  intros H Hr. unfold fail. destruct (Z.eqb_spec (state s) CLOSED) as [E|E]; [done|].
  assert (httpCore (emit OnError s)) as He.
  { destruct H as [Hl Hs Ha]. split; cbn; auto. by rewrite wsRun_snoc, Hl, wsNext_error. }
  destruct (core_duringCallback onerror _ He) as ([Hl Hs Ha] & _ & Hk & Hg & Hn). specialize (Hk Hr). cbn in Hk.
  split_and!; [|done|done|done]. split; cbn; [|auto|done]. by rewrite wsRun_snoc, Hl, Hk, wsNext_close.
Qed.

Lemma core_caught onerror reason s : httpCore s -> existsb callsClose onerror = false ->
  httpCore (caught onerror reason s) /\ staged (caught onerror reason s).
Proof.
  intros H Hr. unfold caught. destruct (aborted s) eqn:E.
  - split; [by apply core_stage|]. cbn. by apply (inv_aborted _ H).
  - destruct (core_fail onerror reason s H Hr) as (Hc & Hs & _). split; [by apply core_stage|done].
Qed.

(** The head of the polling loop, in an open or closed socket. *)
Lemma core_pollHead s : httpCore s -> state s <> CONNECTING -> is_Some (connection s) ->
  httpCore (pollHead s) /\ staged (pollHead s).
Proof.
  intros [Hl Hs Ha] Hn [[id token] Hc]. unfold pollHead. rewrite Hc. destruct (Z.eqb_spec (state s) OPEN) as [E|E].
  - split; [by split|]. unfold staged; cbn; rewrite Hc; eauto.
  - split; [by split|]. cbn. tauto.
Qed.

(** An event delivered to an open socket, with what the consumer does in it. *)
Lemma core_delivered calls s : httpCore s -> state s = OPEN -> is_Some (connection s) ->
  httpCore (pollHead (duringCallback calls s)) /\ staged (pollHead (duringCallback calls s)).
Proof.
  intros H E Hc. destruct (core_duringCallback calls s H) as (H' & Hst & _ & _ & Hn). apply core_pollHead; [done| |by rewrite Hn].
  destruct Hst as [->| ->]; [by rewrite E|done].
Qed.

Lemma core_open onopen onerror s v : httpCore s -> state s <> OPEN -> aborted s = false -> isConnectionResponse v = true ->
  httpCore (connectJson onopen onerror v s) /\ staged (connectJson onopen onerror v s).
Proof.
  intros [Hl Hs Ha] Hn Hf Hv. unfold connectJson. rewrite Hv.
  assert (state s = CONNECTING) as Hst by (destruct Hs as [|[|E]]; [done|done|]; apply Ha in E; congruence).
  apply core_delivered; [|done|cbn; eauto]. split; cbn; auto.
  - rewrite wsRun_snoc, Hl, Hst. done.
  - rewrite Hf. done.
Qed.

(** A change that leaves stage and connection, and at most closes, keeps [staged]. *)
Lemma staged_shut s s' : staged s -> stage s' = stage s -> connection s' = connection s ->
  state s' = state s \/ state s' = CLOSED -> staged s'.
Proof. unfold staged. intros Hg -> -> [->| ->]; [done|]. destruct (stage s); try done; by destruct Hg. Qed.

Lemma core_step s s' : httpStep false false s s' -> httpCore s /\ staged s -> httpCore s' /\ staged s'.
Proof.
  intros Hs [Hc Hg]. pose proof Hc as [Hl Hst Ha].
  assert (forall l, (existsb callsClose l = true -> false = true) -> existsb callsClose l = false) as Hno
    by (intros l Hl'; destruct (existsb callsClose l); [by specialize (Hl' eq_refl)|done]).
  destruct Hs as [s Hq|s status onerror Hq Hf Hr|s v onopen onerror Hq Hf Hr|s status onerror Hq Hf Hr|
    s text onmessage Hq Hf|s reason onerror Hq Hr|s Hq Hne|s ok onerror Hq Hr|s c]; try apply Hno in Hr.
  all: try (assert (aborted s = false) as Hab by (destruct (aborted s); [by specialize (Hf eq_refl)|done])).
  all: try (unfold staged in Hg; rewrite Hq in Hg).
  - split; [by split|done].
  - unfold connectResponse. destruct (responseOk status); [|by apply core_caught]. split; [by apply core_stage|done].
  - destruct (isConnectionResponse v) eqn:E; [by apply core_open|]. unfold connectJson. rewrite E. by apply core_caught.
  - unfold pollResponse. destruct Hg. destruct (status =? 204); [by apply core_pollHead|].
    destruct (responseOk status); [|by apply core_caught]. split; [by apply core_stage|by split].
  - destruct Hg as [Hn Hcon].
    assert (state s = OPEN) as Hop by (destruct Hst as [|[|E]]; [done|done|]; apply Ha in E; congruence).
    unfold pollText. destruct text as [|ch text]; [by apply core_pollHead|]. apply core_delivered; [|done|done].
    split; cbn; auto. rewrite wsRun_snoc, Hl, Hop. reflexivity.
  - by apply core_caught.
  - unfold sendNext. by destruct (tail s) as [|[[id token] d] rest]; (split; [split|]).
  - unfold sendSettled. cbv zeta. destruct ok; [by split; [split|]|].
    set (s1 := mkHttp _ _ _ _ _ _ _ _ _). assert (httpCore s1) as H1 by (by split).
    destruct (core_fail onerror (js "send_failed") s1 H1 Hr) as (Hc' & Hs' & Hg' & Hk). split; [done|].
    by apply (staged_shut s); auto.
  - destruct (core_call s c Hc) as (Hc' & Hs' & _ & Hg' & Hk). split; [done|]. by apply (staged_shut s).
Qed.

(** C37: The socket over HTTP, for any answers of the network and a consumer that
    calls close and send at any time and inside the callbacks open, message and
    error, whose callbacks do not throw.  In every run the texts handed to the
    message requests are, in order and without loss or repetition, those that send
    accepted, up to those that wait for an earlier request.  In the runs in which no
    continuation whose promise settled before an abort runs after it, and onerror
    does not close the socket, the callbacks form a legal WebSocket sequence (open
    at most once and first, messages only while open, one close and nothing after
    it) that ends in the socket's ready state, and the polling loop is left only in a
    closed socket. *)
Theorem http_contract late closing s :
  rtc (httpStep late closing) newHttpSocket s ->
  accepted s = posted s ++ unposted s /\
  (late = false -> closing = false -> wsRun (log s) = Some (state s) /\ (stage s = Over -> state s = CLOSED)).
Proof.
  intros Hr. split.
  - symmetry. revert s Hr. apply rtc_ind_r; [done|]. intros s s' _ Hs IH. by apply (inOrder_step _ _ _ _ Hs).
  - intros -> ->. assert (httpCore s /\ staged s) as [[Hl _ _] Hg].
    { revert s Hr. apply rtc_ind_r; [by split; [split; cbn; auto; done|]|]. intros s s' _ Hs IH. by apply (core_step s). }
    split; [done|]. intros E. unfold staged in Hg. by rewrite E in Hg.
Qed.

Definition sampleResponse : value := Obj [(js "connectionId", Str (js "c1")); (js "connectionToken", Str (js "t1"))].

(** Connected, with two texts sent inside onopen of which one is posted; the
    message that arrives then is answered with a close. *)
Definition sampleOpen : HttpSocket :=
  connectJson [CallSend (js "a"); CallSend (js "b")] [] sampleResponse (connectResponse [] 200 (startRequest newHttpSocket)).
Definition sampleSocket : HttpSocket :=
  pollText [CallClose 1002 (js "unexpected")] (js "m") (pollResponse [] 200 (sendNext sampleOpen)).

Lemma sampleSocket_run : rtc (httpStep false false) newHttpSocket sampleSocket.
Proof.
  eapply rtc_r; [|apply http_text; [reflexivity|discriminate]].
  eapply rtc_r; [|apply http_poll; [reflexivity|discriminate..]].
  eapply rtc_r; [|apply http_sendNext; [reflexivity|discriminate]].
  eapply rtc_r; [|apply http_json; [reflexivity|discriminate..]].
  eapply rtc_r; [|apply http_connect; [reflexivity|discriminate..]].
  apply rtc_once. by apply http_start.
Qed.

Lemma http_contract_witness :
  [js "a"; js "b"] = posted sampleSocket ++ unposted sampleSocket /\ posted sampleSocket = [js "a"] /\
  wsRun (log sampleSocket) = Some CLOSED /\ log sampleSocket = [OnOpen; OnMessage (js "m"); OnClose 1002 (js "unexpected") true].
Proof.
  destruct (http_contract false false sampleSocket) as [Ha Hc].
  - apply sampleSocket_run.
  - destruct (Hc eq_refl eq_refl) as [Hl _]. split_and!; [exact Ha|vm_compute; reflexivity|exact Hl|vm_compute; reflexivity].
Defined.

(** A close between the end of the body of the connect response and its
    continuation is undone: the socket reports open after it reported closed and
    stays open for ever, because the polling request is aborted. *)
Theorem http_reopens_after_close :
  exists s, rtc (httpStep true false) newHttpSocket s /\ log s = [OnClose 1000 [] true; OnOpen] /\ state s = OPEN /\ stage s = Over.
Proof.
  set (s1 := startRequest newHttpSocket). set (s2 := connectResponse [] 200 s1). set (s3 := close 1000 [] s2).
  set (s4 := connectJson [] [] sampleResponse s3). exists (caught [] (js "AbortError") s4).
  split_and!; [|vm_compute; reflexivity..].
  eapply rtc_r; [|apply http_rejected; [right; right; left|discriminate]].
  eapply (rtc_r _ s3); [|by apply http_json]. eapply (rtc_r _ s2); [|apply (http_call _ _ s2 (CallClose 1000 []))].
  eapply (rtc_r _ s1); [|by apply http_connect]. apply rtc_once. by apply http_start.
Qed.

(** A consumer that closes the socket in onerror is told twice that it closed: fail
    goes on after onerror returned. *)
Theorem http_error_closes_twice :
  exists s, rtc (httpStep false true) newHttpSocket s /\ log s = [OnError; OnClose 1000 [] true; OnClose 1006 (js "refused") false].
Proof.
  set (s1 := startRequest newHttpSocket). exists (caught [CallClose 1000 []] (js "refused") s1).
  split; [|vm_compute; reflexivity]. eapply (rtc_r _ s1); [apply rtc_once; by apply http_start|]. apply http_rejected; [left|done].
Qed.

(** ** Fallback over several transports *)

(** What [tryNext] waits for. *)
Inductive Trying : Type := Microtask | ConnectionUrl | Resting.

Record Fallback := mkFallback {
  fstate : Z;
  index : nat;
  opened : bool;
  candidate : option nat;       (* socket: the transport it was made from *)
  trying : Trying;
  tried : list nat;             (* factories called *)
  flog : list Callback
}.

Section fallback.
(** The number of transports, at least two, and whether nextConnectionUrl is given. *)
Context (transports : nat) (hasNextUrl : bool).

Definition newFallback : Fallback := mkFallback CONNECTING 0 false None Microtask [] [].

Definition fset_trying (t : Trying) (f : Fallback) : Fallback :=
  mkFallback (fstate f) (index f) (opened f) (candidate f) t (tried f) (flog f).
Definition femit (c : Callback) (f : Fallback) : Fallback :=
  mkFallback (fstate f) (index f) (opened f) (candidate f) (trying f) (tried f) (flog f ++ [c]).
Definition fset_state (st : Z) (f : Fallback) : Fallback :=
  mkFallback st (index f) (opened f) (candidate f) (trying f) (tried f) (flog f).

(** [close(code, reason)]; a candidate that is asked to close reports it later.
    There is no test of the state. *)
Definition fallbackClose (code : Z) (reason : jstr) (f : Fallback) : Fallback :=
  match candidate f with
  | Some _ => fset_state CLOSING f
  | None => femit (OnClose code reason true) (fset_state CLOSED f)
  end.

(** [advance()]; [onerror] is what the consumer's callback closes before it returns:
    the socket is closed by then, and has no candidate. *)
Definition advance (onerror : list (Z * jstr)) (f : Fallback) : Fallback :=
  if negb (fstate f =? CONNECTING) then f
  else
    let f1 := mkFallback (fstate f) (S (index f)) (opened f) None (trying f) (tried f) (flog f) in
    if bool_decide (S (index f) < transports)%nat then fset_trying Microtask f1
    else
      let f2 := foldl (fun g c => fallbackClose c.1 c.2 g) (femit OnError (fset_state CLOSED f1)) onerror in
      femit (OnClose 1006 (js "transport_initialization_failed") false) f2.

(** The call of the factory, which may throw. *)
Definition construct (onerror : list (Z * jstr)) (throws : bool) (f : Fallback) : Fallback :=
  let f1 := mkFallback (fstate f) (index f) (opened f) (candidate f) Resting (tried f ++ [index f]) (flog f) in
  if throws then advance onerror f1
  else mkFallback (fstate f1) (index f1) (opened f1) (Some (index f)) Resting (tried f1) (flog f1).

Definition tryNext (onerror : list (Z * jstr)) (throws : bool) (f : Fallback) : Fallback :=
  if negb (fstate f =? CONNECTING) then fset_trying Resting f
  else if bool_decide (index f = 0%nat) || negb hasNextUrl then construct onerror throws f
  else fset_trying ConnectionUrl f.

(** The continuation after [await this.nextConnectionUrl()]. *)
Definition urlResolved (onerror : list (Z * jstr)) (throws : bool) (f : Fallback) : Fallback :=
  if negb (fstate f =? CONNECTING) then fset_trying Resting f else construct onerror throws f.
Definition urlRejected (onerror : list (Z * jstr)) (f : Fallback) : Fallback := advance onerror (fset_trying Resting f).

(** The handlers installed on a candidate. *)
Definition candidateOpen (f : Fallback) : Fallback :=
  femit OnOpen (mkFallback OPEN (index f) true (candidate f) (trying f) (tried f) (flog f)).
Definition candidateError (onerror : list (Z * jstr)) (f : Fallback) : Fallback :=
  if opened f then femit OnError f else if fstate f =? CONNECTING then advance onerror f else f.
Definition candidateClose (onerror : list (Z * jstr)) (code : Z) (reason : jstr) (clean : bool) (f : Fallback) : Fallback :=
  if negb (opened f) && (fstate f =? CONNECTING) then advance onerror f
  else femit (OnClose code reason clean) (fset_state CLOSED f).

(** [send(data)]: the candidate that takes the text, or the error. *)
Definition fallbackSend (data : jstr) (f : Fallback) : result jstr (nat * jstr) :=
  if negb (opened f) then Throw (js "The connection is not open.")
  else match candidate f with Some i => Ok (i, data) | None => Throw (js "The connection is not open.") end.

(** The property [transport]; a platform WebSocket has none of its own. *)
Definition fallbackTransport (kinds : list RealtimeTransport) (f : Fallback) : option RealtimeTransport :=
  match candidate f ≫= fun i => kinds !! i with
  | Some HttpStreamingTransport => Some HttpStreamingTransport
  | _ => if opened f then Some WebSocketTransport else None
  end.

(** Steps.  A candidate opens once at most, reports messages only once it opened,
    and reports nothing more once the next one is tried.  [late] says whether it may still report after the socket was asked to
    close or was closed, as a socket over HTTP does whose continuation outruns the
    abort; [again] says whether the consumer may close a socket that is closed.  The
    calls that a callback of the consumer makes are steps that follow it, since
    nothing is left to do after a callback, save in [advance]. *)
Inductive fallbackStep (late again : bool) : Fallback -> Fallback -> Prop :=
  | fallback_microtask f onerror throws : trying f = Microtask -> (onerror <> [] -> again = true) ->
      fallbackStep late again f (tryNext onerror throws f)
  | fallback_url f onerror throws : trying f = ConnectionUrl -> (onerror <> [] -> again = true) ->
      fallbackStep late again f (urlResolved onerror throws f)
  | fallback_noUrl f onerror : trying f = ConnectionUrl -> (onerror <> [] -> again = true) ->
      fallbackStep late again f (urlRejected onerror f)
  | fallback_open f i : candidate f = Some i -> opened f = false -> (fstate f <> CONNECTING -> late = true) ->
      fallbackStep late again f (candidateOpen f)
  | fallback_message f i data : candidate f = Some i -> opened f = true -> (fstate f = CLOSED -> late = true) ->
      fallbackStep late again f (femit (OnMessage data) f)
  | fallback_error f i onerror : candidate f = Some i -> (fstate f = CLOSED -> late = true) -> (onerror <> [] -> again = true) ->
      fallbackStep late again f (candidateError onerror f)
  | fallback_closed f i onerror code reason clean : candidate f = Some i -> (fstate f = CLOSED -> late = true) ->
      (onerror <> [] -> again = true) -> fallbackStep late again f (candidateClose onerror code reason clean f)
  | fallback_close f code reason : (fstate f = CLOSED -> again = true) -> fallbackStep late again f (fallbackClose code reason f).

(** The factories called, in increasing order, and where the next one stands. *)
Record fallbackShape (f : Fallback) : Prop := {
  finv_opened : fstate f = CONNECTING -> opened f = false;
  finv_index : fstate f = CONNECTING -> (index f < transports)%nat;
  finv_tried : StronglySorted Nat.lt (tried f) /\ Forall (fun i => i < transports)%nat (tried f);
  finv_waiting : trying f <> Resting -> candidate f = None /\ Forall (fun i => i < index f)%nat (tried f);
  finv_current : Forall (fun i => i <= index f)%nat (tried f)
}.

(** While connecting, an attempt is under way or about to start. *)
Definition alive (f : Fallback) : Prop := fstate f = CONNECTING -> trying f <> Resting \/ is_Some (candidate f).

Definition fallbackInv (f : Fallback) : Prop := fallbackShape f /\ alive f.


Lemma sorted_snoc (l : list nat) n : StronglySorted Nat.lt l -> Forall (fun i => i < n)%nat l -> StronglySorted Nat.lt (l ++ [n]).
Proof.
  induction 1 as [|x l Hs IH Hx]; intros Hf; cbn; [repeat constructor|]. inversion Hf; subst. constructor; [by apply IH|].
  apply Forall_app. split; [done|]. by constructor.
Qed.

(** The closes inside onerror only add to the log. *)
Lemma closes_logged onerror f : candidate f = None -> fstate f = CLOSED ->
  exists l, foldl (fun g c => fallbackClose c.1 c.2 g) f onerror =
            mkFallback CLOSED (index f) (opened f) None (trying f) (tried f) (flog f ++ l).
Proof.
  revert f. induction onerror as [|c onerror IH]; intros f Hc Hs.
  - exists []. rewrite app_nil_r. destruct f. cbn in *. by subst.
  - cbn. unfold fallbackClose at 2. rewrite Hc. destruct (IH (femit (OnClose c.1 c.2 true) (fset_state CLOSED f))) as [l ->]; [done|done|].
    exists (OnClose c.1 c.2 true :: l). cbn. by rewrite <- app_assoc.
Qed.

Lemma inv_advance onerror f : fallbackShape f -> fallbackInv (advance onerror f).
Proof.
  intros Hb. pose proof Hb as [Hop Hi [Hs Hbd] Hw Hcur]. unfold advance. destruct (Z.eqb_spec (fstate f) CONNECTING) as [E|E]; cbn [negb];
    [|split; [exact Hb|by intros ?]]. cbv zeta. specialize (Hop E).
  assert (Forall (fun i => i < S (index f))%nat (tried f)) as Hlt by (eapply Forall_impl; [exact Hcur|]; cbn; lia).
  assert (Forall (fun i => i <= S (index f))%nat (tried f)) as Hle by (eapply Forall_impl; [exact Hcur|]; cbn; lia).
  case_bool_decide as Hlen.
  - split; [|intros _; by left]. split; cbn; auto.
  - match goal with |- context [foldl _ ?g onerror] => destruct (closes_logged onerror g) as [l ->]; [done|done|] end.
    split; [|done]. split; cbn; auto; done.
Qed.

Lemma inv_construct onerror throws f : fallbackShape f -> fstate f = CONNECTING -> trying f <> Resting ->
  fallbackInv (construct onerror throws f).
Proof.
  intros [Hop Hi [Hs Hb] Hw Hcur] E Ht. destruct (Hw Ht) as [Hnone Hlt]. specialize (Hi E).
  assert (Forall (fun i => i <= index f)%nat (tried f ++ [index f])) as Hle by (apply Forall_app; split; [done|by constructor]).
  assert (StronglySorted Nat.lt (tried f ++ [index f]) /\ Forall (fun i => i < transports)%nat (tried f ++ [index f])) as Hsb.
  { split; [by apply sorted_snoc|]. apply Forall_app. split; [done|by constructor]. }
  unfold construct. cbv zeta. destruct throws.
  - apply inv_advance. split; cbn; auto; done.
  - split; [|intros _; right; cbn; eauto]. split; cbn; auto; done.
Qed.

(** A change of the state to one that is not connecting. *)
Lemma inv_left f f' : fallbackShape f -> fstate f' <> CONNECTING -> index f' = index f -> tried f' = tried f ->
  trying f' = trying f -> candidate f' = candidate f -> fallbackInv f'.
Proof.
  intros [Hop Hi Hs Hw Hcur] E H1 H2 H3 H4. split; [|by intros ?]. split; rewrite ?H1, ?H2, ?H3, ?H4; auto; done.
Qed.

Lemma inv_trying t f : fallbackShape f -> (t <> Resting -> trying f <> Resting) -> fallbackShape (fset_trying t f).
Proof. intros [Hop Hi Hs Hw Hcur] Ht. split; cbn; auto. Qed.

Lemma inv_new : (1 < transports)%nat -> fallbackInv newFallback.
Proof. intros Ht. split; [|by left]. split; cbn; auto; try done; [lia|split; constructor]. Qed.

Lemma inv_fallback_step late again f f' : fallbackInv f -> fallbackStep late again f f' -> fallbackInv f'.
Proof.
  intros [Hb Ha] Hs. pose proof Hb as [Hop Hi Hso Hw Hcur].
  destruct Hs as [f onerror throws Ht He|f onerror throws Ht He|f onerror Ht He|f i Hk Ho E|f i data Hk Hopn E|f i onerror Hk E He|
    f i onerror code reason clean Hk E He|f code reason E].
  - unfold tryNext. destruct (Z.eqb_spec (fstate f) CONNECTING) as [E|E]; cbn [negb]; [|by split; [apply inv_trying|intros ?]].
    destruct (_ || _); [apply inv_construct; auto; congruence|]. split; [apply inv_trying; [done|congruence]|]. by left.
  - unfold urlResolved. destruct (Z.eqb_spec (fstate f) CONNECTING) as [E|E]; cbn [negb]; [|by split; [apply inv_trying|intros ?]].
    apply inv_construct; auto; congruence.
  - by apply inv_advance, inv_trying.
  - by apply (inv_left f).
  - by split; [split|].
  - unfold candidateError. destruct (opened f) eqn:Eo; [split; [split; cbn; auto|]; by rewrite ?Eo|]. destruct (_ =? _); [by apply inv_advance|by split].
  - unfold candidateClose. destruct (_ && _); [by apply inv_advance|by apply (inv_left f)].
  - unfold fallbackClose. by destruct (candidate f) as [i|] eqn:Hk; apply (inv_left f).
Qed.

(** *** The callbacks, when no report is late and no closed socket is closed *)





End fallback.



(** The first of two transports fails, the second opens. *)
Definition sampleFallback : Fallback :=
  candidateOpen (tryNext 2 false [] false (candidateError 2 [] (tryNext 2 false [] false newFallback))).

Lemma sampleFallback_run : rtc (fallbackStep 2 false false false) newFallback sampleFallback.
Proof.
  unfold sampleFallback. set (f1 := tryNext 2 false [] false newFallback). set (f2 := candidateError 2 [] f1). set (f3 := tryNext 2 false [] false f2).
  eapply rtc_l; [by apply (fallback_microtask 2 false _ _ newFallback [] false)|]. eapply rtc_l; [by eapply (fallback_error 2 false _ _ f1 0%nat [])|].
  eapply rtc_l; [by apply (fallback_microtask 2 false _ _ f2 [] false)|]. eapply rtc_l; [by eapply (fallback_open 2 false _ _ f3 1%nat)|]. apply rtc_refl.
Qed.


(** Closing a fallback socket twice while it has no candidate reports the close
    twice, which no WebSocket does. *)
Lemma fallback_double_close :
  exists f, rtc (fallbackStep 2 false false true) newFallback f /\ flog f = [OnClose 1000 [] true; OnClose 1000 [] true].
Proof.
  exists (fallbackClose 1000 [] (fallbackClose 1000 [] newFallback)). split; [|reflexivity].
  eapply rtc_l; [by apply fallback_close|]. by eapply rtc_once, fallback_close.
Qed.

(** A candidate over HTTP that opens after the socket was closed reopens it. *)
Lemma fallback_reopens_after_close :
  exists f, rtc (fallbackStep 2 false true false) newFallback f /\ flog f = [OnClose 1000 [] true; OnOpen] /\ fstate f = OPEN.
Proof.
  set (f1 := tryNext 2 false [] false newFallback). set (f2 := fallbackClose 1000 [] f1). set (f3 := candidateClose 2 [] 1000 [] true f2).
  exists (candidateOpen f3). split_and!; [|reflexivity..].
  eapply rtc_l; [by apply (fallback_microtask 2 false _ _ newFallback [] false)|]. eapply rtc_l; [by apply (fallback_close 2 false _ _ f1 1000 [])|].
  eapply rtc_l; [by apply (fallback_closed 2 false _ _ f2 0%nat [] 1000 [] true)|]. by eapply rtc_once, (fallback_open 2 false _ _ f3 0%nat).
Qed.

(** ** Use of the fallback *)

(** The candidate is the transport tried last, and a socket that opened keeps it. *)
Definition current (transports : nat) (f : Fallback) : Prop :=
  (opened f = true -> is_Some (candidate f)) /\ (forall i, candidate f = Some i -> i = index f /\ (i < transports)%nat).

Lemma current_advance transports onerror f : fallbackShape transports f -> current transports f -> current transports (advance transports onerror f).
Proof.
  intros Hb Hc. unfold advance. destruct (Z.eqb_spec (fstate f) CONNECTING) as [E|E]; cbn [negb]; [|done]. cbv zeta.
  pose proof (finv_opened _ _ Hb E) as Ho. case_bool_decide; [split; cbn; congruence|].
  match goal with |- context [foldl _ ?g onerror] => destruct (closes_logged onerror g) as [l ->]; [done|done|] end. split; cbn; congruence.
Qed.

Lemma current_construct transports onerror throws f : fallbackShape transports f -> fstate f = CONNECTING -> trying f <> Resting ->
  current transports (construct transports onerror throws f).
Proof.
  intros Hb E Ht. pose proof (finv_opened _ _ Hb E) as Ho. pose proof (finv_index _ _ Hb E). destruct (finv_waiting _ _ Hb Ht) as [Hn _].
  unfold construct. cbv zeta. destruct throws; [|split; cbn; [congruence|by intros i [= <-]]].
  unfold advance. cbn [fstate]. rewrite E. cbn [negb Z.eqb CONNECTING]. cbv zeta. case_bool_decide; [split; cbn; congruence|].
  match goal with |- context [foldl _ ?g onerror] => destruct (closes_logged onerror g) as [l ->]; [done|done|] end. split; cbn; congruence.
Qed.

Lemma current_step transports hasNextUrl late again f f' : fallbackInv transports f -> current transports f ->
  fallbackStep transports hasNextUrl late again f f' -> current transports f'.
Proof.
  intros [Hb _] Hc Hs.
  destruct Hs as [f onerror throws Ht He|f onerror throws Ht He|f onerror Ht He|f i Hi Ho E|f i data Hi Ho E|f i onerror Hi E He|
    f i onerror code reason clean Hi E He|f code reason E].
  - unfold tryNext. destruct (Z.eqb_spec (fstate f) CONNECTING); cbn [negb]; [|done].
    destruct (_ || _); [apply current_construct; [done|done|congruence]|done].
  - unfold urlResolved. destruct (Z.eqb_spec (fstate f) CONNECTING); cbn [negb]; [apply current_construct; [done|done|congruence]|done].
  - apply current_advance; [|done]. by apply inv_trying.
  - split; cbn; [intros _; by rewrite Hi|apply Hc].
  - done.
  - unfold candidateError. destruct (opened f); [done|]. destruct (_ =? _); [by apply current_advance|done].
  - unfold candidateClose. destruct (_ && _); [by apply current_advance|done].
  - unfold fallbackClose. by destruct (candidate f).
Qed.

(** Once a fallback socket opened, its property [transport] names the transport
    that it opened with and each text sent goes to that transport; before it opened,
    [send] throws. *)
Theorem fallback_used kinds hasNextUrl late again f :
  (1 < length kinds)%nat -> rtc (fallbackStep (length kinds) hasNextUrl late again) newFallback f ->
  if opened f then fallbackTransport kinds f = kinds !! index f /\ (forall data, fallbackSend data f = Ok (index f, data))
  else forall data, fallbackSend data f = Throw (js "The connection is not open.").
Proof.
  intros Ht Hr. assert (fallbackInv (length kinds) f /\ current (length kinds) f) as [[Hb _] [Hc Hi]].
  { revert f Hr. apply rtc_ind_r; [|intros f f' _ Hs [H1 H2]; split; [by eapply inv_fallback_step|by eapply current_step]].
    split; [by apply inv_new|done]. }
  unfold fallbackTransport, fallbackSend. destruct (opened f); [|done]. destruct (Hc eq_refl) as [i Hs]. rewrite Hs. cbn [mbind option_bind negb].
  destruct (Hi i Hs) as [<- Hlt]. split; [|done]. apply lookup_lt_is_Some in Hlt as [[|] ->]; done.
Qed.

Lemma fallback_used_witness :
  fallbackTransport [WebSocketTransport; HttpStreamingTransport] sampleFallback = Some HttpStreamingTransport /\
  fallbackSend (js "x") sampleFallback = Ok (1%nat, js "x").
Proof.
  destruct (fallback_used [WebSocketTransport; HttpStreamingTransport] false false false sampleFallback) as [H1 H2].
  - cbn. lia.
  - exact sampleFallback_run.
  - split; [exact H1|exact (H2 (js "x"))].
Defined.
