(* ===== verification/ClientSetup.v ===== *)
(** * Construction of a realtime client: sdk/typescript/src/client.ts

    The constructor of [RealtimeClient], which merges the options of the caller
    with the defaults and checks them, the registration of listeners, and what
    the checks guarantee of every reconnect delay.  A property of the options
    that is present with the value [undefined] replaces its default, as in the
    object spread of the source. *)

From stdpp Require Import base tactics option list numbers strings.
From Stdlib Require Import ZArith QArith Qabs Qround Qpower Lia Lqa.
From S2P Require Import Prelude JsString JsNumber JsValue Rounding Reconnect ClientState Client Transport.
#[local] Open Scope Z_scope.

(** ** Options *)

(** The options of the caller: the properties with numbers as they are given,
    [reconnect] as the properties of its object, and whether [httpStreaming] is
    present. *)
Record ClientArguments := {
  o_url : jstr;
  o_numbers : list (jstr * value);
  o_reconnect : list (jstr * value);
  o_transports : option (list jstr);
  o_httpStreaming : bool;
}.

(** [{ k: d, ...given }[k]] *)
Definition spread (given : list (jstr * value)) (k : string) (d : value) : value := default d (assoc (js k) given).

Definition assertPositiveInteger (v : value) (name : string) : result jstr unit :=
  ensure (match v with Number n => negb (negb (isSafeInteger n) || nle n (int 0)) | _ => false end)
    (js name ++ js " must be a positive integer.").

Definition assertNonNegativeInteger (v : value) (name : string) : result jstr unit :=
  ensure (match v with
          | Number n => negb (negb (isSafeInteger n) || nlt n (int 0) || ngt n (int 2147483647))
          | _ => false
          end)
    (js name ++ js " must be a nonnegative timer-safe integer.").

(** The options a constructed client keeps. *)
Record ConstructedClient := {
  c_maximumQueuedCommands : value;
  c_maximumPendingCommands : value;
  c_commandTimeoutMilliseconds : value;
  c_heartbeatIntervalMilliseconds : value;
  c_maximumMessageBytes : value;
  c_enabled : value;
  c_initialDelayMilliseconds : value;
  c_maximumDelayMilliseconds : value;
  c_jitterRatio : value;
  c_maximumAttempts : value;
  c_transports : list jstr;
}.

Definition withDefaults (o : ClientArguments) : ConstructedClient :=
  let number := spread (o_numbers o) in
  let reconnect := spread (o_reconnect o) in
  {| c_maximumQueuedCommands := number "maximumQueuedCommands"%string (Number (int 128));
     c_maximumPendingCommands := number "maximumPendingCommands"%string (Number (int 128));
     c_commandTimeoutMilliseconds := number "commandTimeoutMilliseconds"%string (Number (int 10000));
     c_heartbeatIntervalMilliseconds := number "heartbeatIntervalMilliseconds"%string (Number (int 15000));
     c_maximumMessageBytes := number "maximumMessageBytes"%string (Number (int (16 * 1024)));
     c_enabled := reconnect "enabled"%string (Boolean (r_enabled defaultReconnect));
     c_initialDelayMilliseconds := reconnect "initialDelayMilliseconds"%string (Number (r_initialDelayMilliseconds defaultReconnect));
     c_maximumDelayMilliseconds := reconnect "maximumDelayMilliseconds"%string (Number (r_maximumDelayMilliseconds defaultReconnect));
     c_jitterRatio := reconnect "jitterRatio"%string (Number (r_jitterRatio defaultReconnect));
     c_maximumAttempts := reconnect "maximumAttempts"%string (Number (int (r_maximumAttempts defaultReconnect)));
     c_transports := default [js "websocket"] (o_transports o) |}.

(** The checks of the transports. *)
Definition checkTransports (transports : list jstr) (httpStreaming : bool) : result jstr unit :=
  _ ← ensure (negb (bool_decide (transports = [])) && bool_decide (length (remove_dups transports) = length transports))
        (js "transports must contain one or more unique transport names.");
  _ ← ensure (forallb (fun t => memb t [js "websocket"; js "http-streaming"]) transports)
        (js "transports contains an unsupported transport.");
  ensure (negb (memb (js "http-streaming") transports) || httpStreaming)
    (js "httpStreaming is required when the http-streaming transport is selected.").

(** The checks of the numbers. *)
Definition checkNumbers (c : ConstructedClient) : result jstr unit :=
  _ ← assertPositiveInteger (c_maximumQueuedCommands c) "maximumQueuedCommands";
  _ ← assertPositiveInteger (c_maximumPendingCommands c) "maximumPendingCommands";
  _ ← assertPositiveInteger (c_commandTimeoutMilliseconds c) "commandTimeoutMilliseconds";
  _ ← assertPositiveInteger (c_heartbeatIntervalMilliseconds c) "heartbeatIntervalMilliseconds";
  _ ← assertPositiveInteger (c_maximumMessageBytes c) "maximumMessageBytes";
  _ ← assertPositiveInteger (c_maximumAttempts c) "reconnect.maximumAttempts";
  _ ← assertNonNegativeInteger (c_initialDelayMilliseconds c) "reconnect.initialDelayMilliseconds";
  _ ← assertNonNegativeInteger (c_maximumDelayMilliseconds c) "reconnect.maximumDelayMilliseconds";
  _ ← ensure (negb (nlt (num_of (c_maximumDelayMilliseconds c)) (num_of (c_initialDelayMilliseconds c))))
        (js "reconnect.maximumDelayMilliseconds must not be less than reconnect.initialDelayMilliseconds.");
  ensure (match c_jitterRatio c with
          | Number j => negb (negb (isFinite j) || nlt j (int 0) || ngt j (int 1))
          | _ => false
          end)
    (js "reconnect.jitterRatio must be between 0 and 1.").

Section constructor.
(** The keys of the query of [new URL(url, "http://localhost")]. *)
Context (queryKeys : jstr -> option (list jstr)).

Definition newRealtimeClient (o : ClientArguments) : result jstr ConstructedClient :=
  _ ← ensure (negb (bool_decide (trim (o_url o) = []))) (js "A WebSocket URL is required.");
  match queryKeys (o_url o) with
  | None => Throw (js "Invalid URL")
  | Some keys =>
      _ ← ensure (negb (existsb (fun k => bool_decide (toLowerCase k = js "reconnect")) keys))
            (js "The realtime URL must not contain the reserved reconnect query parameter.");
      let c := withDefaults o in
      _ ← checkTransports (c_transports c) (o_httpStreaming o);
      _ ← checkNumbers c;
      Ok c
  end.
End constructor.

(** The options as the operations of the client use them. *)
Definition count (v : value) : nat := Z.to_nat (default 0 (to_Z (num_of v))).

Definition operating (c : ConstructedClient) : ClientOptions :=
  {| maximumQueuedCommands := count (c_maximumQueuedCommands c);
     maximumPendingCommands := count (c_maximumPendingCommands c);
     maximumMessageBytes := count (c_maximumMessageBytes c);
     reconnectOptions :=
       {| r_enabled := truthy (c_enabled c);
          r_initialDelayMilliseconds := num_of (c_initialDelayMilliseconds c);
          r_maximumDelayMilliseconds := num_of (c_maximumDelayMilliseconds c);
          r_jitterRatio := num_of (c_jitterRatio c);
          r_maximumAttempts := default 0 (to_Z (num_of (c_maximumAttempts c))) |} |}.

(** The defaults are the ones the operations are used with elsewhere. *)
Example defaults_operate :
  (c ← newRealtimeClient (fun _ => Some []) {| o_url := js "/realtime/ws"; o_numbers := []; o_reconnect := []; o_transports := None; o_httpStreaming := false |};
   Ok (operating c)) = Ok defaultOptions.
Proof. vm_compute. reflexivity. Qed.

(** ** Listeners *)

(** The map of listener sets; a listener is an object with identity. *)
Definition Listeners : Type := list (jstr * list nat).

(** [on]: a set keeps a listener once, in the order of the first registration. *)
Definition on (type : jstr) (listener : nat) (ls : Listeners) : Listeners :=
  let listeners := default [] (map_get type ls) in
  map_set type (if memb listener listeners then listeners else listeners ++ [listener]) ls.

(** The function that [on] returns. *)
Definition off (type : jstr) (listener : nat) (ls : Listeners) : Listeners :=
  match map_get type ls with
  | None => ls
  | Some listeners => map_set type (filter (fun l => l <> listener) listeners) ls
  end.

(** The listeners [emit] calls. *)
Definition called (type : jstr) (ls : Listeners) : list nat := default [] (map_get type ls).

(** The getters. *)
Definition desiredSubscriptions (c : RealtimeClient) : list jstr := fst <$> subscriptions c.

Definition activeTransport (transport : nat -> option RealtimeTransport) (c : RealtimeClient) : option RealtimeTransport :=
  if bool_decide (stateValue c = open) then Some (default WebSocketTransport (socket c ≫= transport)) else None.

Lemma map_get_set {A} k k' (v : A) l : map_get k (map_set k' v l) = if decide (k' = k) then Some v else map_get k l.
Proof.
  induction l as [|[k1 v1] l IH]; cbn [map_set map_get].
  - by destruct (decide (k' = k)).
  - destruct (decide (k1 = k')) as [->|Hn]; cbn [map_get].
    + by destruct (decide (k' = k)).
    + destruct (decide (k1 = k)) as [->|]; [|done]. by destruct (decide (k' = k)).
Qed.

(** A listener is called once per event however often it is registered, and the
    function of any of its registrations removes it. *)
Lemma listener_once type l ls : NoDup (called type ls) -> NoDup (called type (on type l ls)) /\ l ∈ called type (on type l ls).
Proof.
  intros H. unfold called, on in *. rewrite map_get_set, decide_True by done. cbn [default]. destruct (memb l _) eqn:E.
  - by apply memb_spec in E.
  - assert (l ∉ default [] (map_get type ls)) as Hn by (intros Hi; apply memb_spec in Hi; congruence). split.
    + apply NoDup_app. repeat split; [done|intros x Hx ->%list_elem_of_singleton; done|apply NoDup_singleton].
    + apply elem_of_app. right. by left.
Qed.

Lemma listener_removed type l ls : l ∉ called type (off type l (on type l ls)).
Proof.
  unfold called, off. destruct (map_get type (on type l ls)) as [s|] eqn:E.
  - rewrite map_get_set, decide_True by done. cbn [default]. intros [? _]%list_elem_of_filter. done.
  - unfold on in E. by rewrite map_get_set, decide_True in E.
Qed.

(** ** What the checks guarantee *)

Definition between (lo hi : Z) (v : value) : Prop := exists q, v = Number (Fin q) /\ isIntegerQ q = true /\ (inject_Z lo <= q <= inject_Z hi)%Q.

Lemma assertPositiveInteger_spec v name u : assertPositiveInteger v name = Ok u -> between 1 (2 ^ 53 - 1) v.
Proof.
  intros H%ensure_Ok. destruct v as [| | | n | | | |]; try done. destruct n as [|s|q]; [done|by destruct s|].
  apply negb_true_iff, orb_false_iff in H. destruct H as [H1%negb_false_iff H2]. cbn in H1. apply andb_true_iff in H1. destruct H1 as [Hi Hs].
  exists q. split; [done|]. split; [done|]. apply Qle_bool_iff in Hs. unfold nle in H2. apply orb_false_iff in H2. destruct H2 as [H2 H3].
  apply negb_false_iff, Qle_bool_iff in H2. change (inject_Z 0) with 0%Q in *. apply Qabs_Qle_condition in Hs. split; [|tauto].
  unfold isIntegerQ in Hi. apply Qeq_bool_iff in Hi. apply Qeq_bool_neq in H3.
  rewrite <- Hi in H2, H3 |- *. rewrite <- Zle_Qle. change 0%Q with (inject_Z 0) in *. rewrite <- Zle_Qle in H2.
  destruct (decide (Qfloor q = 0)) as [E|]; [|lia]. exfalso. apply H3. rewrite E. done.
Qed.

Lemma assertNonNegativeInteger_spec v name u : assertNonNegativeInteger v name = Ok u -> between 0 2147483647 v.
Proof.
  intros H%ensure_Ok. destruct v as [| | | n | | | |]; try done. destruct n as [|s|q]; [done|by destruct s|].
  apply negb_true_iff in H. rewrite !orb_false_iff in H. destruct H as [[H1%negb_false_iff H2] H3]. cbn in H1. apply andb_true_iff in H1. destruct H1 as [Hi Hs].
  exists q. split; [done|]. split; [done|]. unfold ngt, nlt in *. apply negb_false_iff, Qle_bool_iff in H2. apply negb_false_iff, Qle_bool_iff in H3. done.
Qed.

(** The ranges of the options of a client. *)
Record inRange (c : ConstructedClient) : Prop := {
  range_queued : between 1 (2 ^ 53 - 1) (c_maximumQueuedCommands c);
  range_pending : between 1 (2 ^ 53 - 1) (c_maximumPendingCommands c);
  range_timeout : between 1 (2 ^ 53 - 1) (c_commandTimeoutMilliseconds c);
  range_heartbeat : between 1 (2 ^ 53 - 1) (c_heartbeatIntervalMilliseconds c);
  range_bytes : between 1 (2 ^ 53 - 1) (c_maximumMessageBytes c);
  range_attempts : between 1 (2 ^ 53 - 1) (c_maximumAttempts c);
  range_initial : between 0 2147483647 (c_initialDelayMilliseconds c);
  range_maximum : between 0 2147483647 (c_maximumDelayMilliseconds c);
  range_order : nlt (num_of (c_maximumDelayMilliseconds c)) (num_of (c_initialDelayMilliseconds c)) = false;
  range_jitter : exists j, c_jitterRatio c = Number (Fin j) /\ (0 <= j <= 1)%Q;
  range_transports : c_transports c <> [] /\ NoDup (c_transports c)
    /\ forall t, t ∈ c_transports c -> t = js "websocket" \/ t = js "http-streaming";
}.

Lemma checkNumbers_jitter v : match v with Number j => negb (negb (isFinite j) || nlt j (int 0) || ngt j (int 1)) | _ => false end = true ->
  exists j, v = Number (Fin j) /\ (0 <= j <= 1)%Q.
Proof.
  intros H. destruct v as [| | | n | | | |]; try done. destruct n as [|s|j]; [done|by destruct s|].
  apply negb_true_iff in H. cbn in H. rewrite !orb_false_iff in H. destruct H as [H2 H3].
  apply negb_false_iff, Qle_bool_iff in H2. apply negb_false_iff, Qle_bool_iff in H3. by exists j.
Qed.

Lemma remove_dups_length (l : list jstr) : (length (remove_dups l) <= length l)%nat.
Proof. induction l as [|x l IH]; [done|]. cbn [remove_dups]. destruct (decide_rel _ x l); cbn; lia. Qed.

Lemma checkTransports_spec ts http u : checkTransports ts http = Ok u ->
  ts <> [] /\ NoDup ts /\ forall t, t ∈ ts -> t = js "websocket" \/ t = js "http-streaming".
Proof.
  unfold checkTransports. intros (u1 & [H1 H2]%ensure_Ok%andb_true_iff & (u2 & H3%ensure_Ok & _)%bind_Ok)%bind_Ok.
  apply negb_true_iff, bool_decide_eq_false in H1. apply bool_decide_eq_true in H2. split; [done|]. split.
  - clear -H2. induction ts as [|t ts IH]; [constructor|]. cbn [remove_dups] in H2.
    pose proof (remove_dups_length ts). destruct (decide_rel _ t ts); cbn in H2; [lia|]. constructor; [done|]. apply IH. lia.
  - intros t Ht. rewrite forallb_forall in H3. specialize (H3 t (proj1 (list_elem_of_In _ _) Ht)). apply memb_spec in H3. rewrite !elem_of_cons, elem_of_nil in H3. tauto.
Qed.

Lemma constructed_inRange queryKeys o c : newRealtimeClient queryKeys o = Ok c -> inRange c.
Proof.
  unfold newRealtimeClient. intros (u0 & _ & H)%bind_Ok. destruct (queryKeys (o_url o)) as [keys|]; [|done].
  apply bind_Ok in H as (u1 & _ & (u2 & Ht & (u3 & Hn & Hc)%bind_Ok)%bind_Ok). apply Ok_inj in Hc as <-.
  unfold checkNumbers in Hn.
  apply bind_Ok in Hn as (? & H1%assertPositiveInteger_spec & (? & H2%assertPositiveInteger_spec & (? & H3%assertPositiveInteger_spec & Hn)%bind_Ok)%bind_Ok).
  apply bind_Ok in Hn as (? & H4%assertPositiveInteger_spec & (? & H5%assertPositiveInteger_spec & (? & H6%assertPositiveInteger_spec & Hn)%bind_Ok)%bind_Ok).
  apply bind_Ok in Hn as (? & H7%assertNonNegativeInteger_spec & (? & H8%assertNonNegativeInteger_spec & (? & H9%ensure_Ok & H10%ensure_Ok)%bind_Ok)%bind_Ok).
  split; try done; [by apply negb_true_iff|by apply checkNumbers_jitter|by eapply checkTransports_spec].
Qed.

(** ** Reconnect delays *)

(** The delay before jitter: at most the maximum. *)
Lemma attemptDelay_capped (initial maximum : Q) attempt :
  (0 <= initial)%Q -> (0 <= maximum)%Q ->
  exists p, nmin (Fin maximum) (attemptDelay (Fin initial) attempt) = Fin p /\ (0 <= p <= maximum)%Q.
Proof.
  intros Hi Hm.
  assert (attemptDelay (Fin initial) attempt = Inf false \/ exists r, attemptDelay (Fin initial) attempt = Fin r /\ (0 <= r)%Q) as [->|(r & -> & Hr)].
  - unfold attemptDelay. destruct (attempt =? 0); [right; by exists initial|].
    assert (exists b, (if neq_num (Fin initial) (int 0) then int 1 else Fin initial) = Fin b /\ (0 < b)%Q) as (b & -> & Hb).
    { cbn. destruct (Qeq_bool initial (inject_Z 0)) eqn:E; [by exists 1%Q|]. exists initial. split; [done|]. apply Qeq_bool_neq in E.
      change (inject_Z 0) with 0%Q in E. destruct (Qlt_le_dec 0 initial); [done|]. exfalso. apply E. lra. }
    unfold npow2. destruct (attempt - 1 <=? 1023); cbn [nmul].
    + apply round64_nonneg. assert (0 <= inject_Z (2 ^ (attempt - 1)))%Q.
      { change 0%Q with (inject_Z 0). rewrite <- Zle_Qle. apply Z.pow_nonneg. lia. } nra.
    + left. assert (Qeq_bool b 0 = false) as -> by (apply not_true_iff_false; rewrite Qeq_bool_iff; lra).
      unfold negative. by rewrite (proj2 (Qle_bool_iff 0 b)) by lra.
  - exists maximum. split; [done|]. lra.
  - unfold nmin. destruct (nlt (Fin r) (Fin maximum)) eqn:E; [|exists maximum; split; [done|]; lra].
    exists r. split; [done|]. cbn in E. apply negb_true_iff in E. split; [done|]. destruct (Qlt_le_dec maximum r); [|done].
    exfalso. assert (Qle_bool maximum r = true) by (apply Qle_bool_iff; lra). congruence.
Qed.

(** The jitter factor is between zero and two. *)
Lemma jitter_factor (j r : Q) : binary64 j -> (0 <= j <= 1)%Q -> (0 <= r <= 1)%Q ->
  exists f, nadd (nsub (int 1) (Fin j)) (nmul (nmul (int 2) (Fin j)) (Fin r)) = Fin f /\ (0 <= f <= 2)%Q.
Proof.
  intros Hj Hj1 Hr. cbn [nsub nopp nmul nadd int]. change (inject_Z 1) with 1%Q. change (inject_Z 2) with 2%Q.
  assert (exists x1 x2 x3, round64 (1 + - j) = Fin x1 /\ round64 (2 * j) = Fin x2 /\ round64 (x2 * r) = Fin x3
          /\ (0 <= x1)%Q /\ (0 <= x3)%Q /\ (x1 + x3 < 2 + Qpower 2 (-52))%Q) as (x1 & x2 & x3 & E1 & E2 & E3 & H1 & H3 & Hs).
  2:{ unfold nsub. cbn [nopp nadd]. rewrite E1, E2. cbn [nmul nadd]. rewrite E3. cbn [nadd].
      destruct (round64_two (x1 + x3)) as (f & -> & Hf); [lra|done|]. exists f. split; [done|]. lra. }
  assert (0 < Qpower 2 (-52))%Q as Hp by done. destruct (Qlt_le_dec (1 # 2) j) as [Hh|Hh].
  - destruct (Qlt_le_dec j 1) as [H1|H1].
    + destruct (round64_error (1 + - j) (-1)) as (x1 & E1 & H1a & H1b); [lra|change (Qpower 2 (-1)) with (1 # 2)%Q; lra|lia|].
      destruct (binary64_half j Hj Hh) as [m Hm]. destruct (round64_exact (2 * j) m) as (x2 & E2 & H2); [lra|lra|done|].
      destruct (round64_error (x2 * r) 1) as (x3 & E3 & H3a & H3b); [nra|change (Qpower 2 1) with 2%Q; nra|lia|].
      exists x1, x2, x3. repeat split; try done. assert (Qpower 2 (-1 - 54) + Qpower 2 (1 - 54) < Qpower 2 (-52))%Q by done. nra.
    + destruct (round64_le (1 + - j) 0) as (x1 & E1 & H1a & H1b); [lia|lra|change (inject_Z 0) with 0%Q; lra|].
      destruct (round64_le (2 * j) 2) as (x2 & E2 & H2a & H2b); [lia|lra|change (inject_Z 2) with 2%Q; lra|].
      change (inject_Z 0) with 0%Q in *. change (inject_Z 2) with 2%Q in *.
      destruct (round64_le (x2 * r) 2) as (x3 & E3 & H3a & H3b); [lia|nra|change (inject_Z 2) with 2%Q; nra|].
      change (inject_Z 2) with 2%Q in *. exists x1, x2, x3. repeat split; try done. lra.
  - destruct (round64_le (1 + - j) 1) as (x1 & E1 & H1a & H1b); [lia|lra|change (inject_Z 1) with 1%Q; lra|].
    destruct (round64_le (2 * j) 1) as (x2 & E2 & H2a & H2b); [lia|lra|change (inject_Z 1) with 1%Q; lra|].
    change (inject_Z 1) with 1%Q in *. destruct (round64_le (x2 * r) 1) as (x3 & E3 & H3a & H3b); [lia|nra|change (inject_Z 1) with 1%Q; nra|].
    change (inject_Z 1) with 1%Q in *. exists x1, x2, x3. repeat split; try done. lra.
Qed.

(** [Math.max(0, Math.round(q))] *)
Lemma rounded_between q n : (0 <= q)%Q -> (q <= inject_Z n)%Q -> exists z, nmax (int 0) (nround (Fin q)) = int z /\ 0 <= z <= n.
Proof.
  intros H0 H1. cbn [nround]. set (z := Qfloor (q + (1 # 2))).
  assert (0 <= z) as Hz0. { change 0 with (Qfloor (inject_Z 0)). apply Qfloor_resp_le. change (inject_Z 0) with 0%Q. lra. }
  assert (z <= n) as Hz1.
  { apply Z.lt_succ_r. rewrite Zlt_Qlt. unfold Z.succ. rewrite inject_Z_plus. pose proof (Qfloor_le (q + (1 # 2))) as Hf. fold z in Hf.
    change (inject_Z 1) with 1%Q. lra. }
  unfold nmax. destruct (nlt (int 0) (int z)); [by exists z|]. exists 0. split; [done|lia].
Qed.

(** The delay of a timer that is armed with the given settings, computed in
    binary64: an integer of at most twice the maximum. *)
Lemma reconnectDelay_bounds (initial maximum j r : Q) (m : Z) attempt :
  (0 <= initial)%Q -> (0 <= maximum)%Q -> (maximum <= inject_Z m)%Q -> 0 <= m <= 2147483647 ->
  binary64 j -> (0 <= j <= 1)%Q -> (0 <= r <= 1)%Q ->
  exists z, reconnectDelay (Fin initial) (Fin maximum) (Fin j) attempt (Fin r) = int z /\ 0 <= z <= 2 * m.
Proof.
  intros Hi Hm Hmm Hb Hj Hj1 Hr. unfold reconnectDelay. cbv zeta.
  destruct (attemptDelay_capped initial maximum attempt Hi Hm) as (p & -> & Hp).
  destruct (jitter_factor j r Hj Hj1 Hr) as (f & -> & Hf). cbn [nmul].
  assert (inject_Z (2 * m) == 2 * inject_Z m)%Q as E by (rewrite inject_Z_mult; done).
  destruct (round64_le (p * f) (2 * m)) as (d & -> & Hd); [lia|nra|rewrite E; nra|].
  apply rounded_between; tauto.
Qed.

(** The settings in effect: the advice of the server or the options. *)
Definition adviceUsable (a : Protocol.ReconnectAdvice) : Prop := Protocol.advice_ok a /\ binary64 (Protocol.jitterRatio a).

Definition effectiveMaximum (c : ConstructedClient) (s : RealtimeClient) : Z :=
  match serverReconnectAdvice s with
  | Some a => Protocol.maximumDelayMilliseconds a
  | None => default 0 (to_Z (num_of (c_maximumDelayMilliseconds c)))
  end.

(** C18: Whatever numeric options the constructor accepts, and whatever valid advice
    the server gave, a reconnect for which the random source gives a number from 0
    to 1, as Math.random does, arms its timer for a whole number of milliseconds
    between zero and twice the maximum delay in effect: the exponential growth is
    capped at every attempt, and no rounding of the binary64 arithmetic (doubling,
    jitter, product) exceeds the bound.  A random source given in the options is
    not checked (see [random_unchecked]). *)
Theorem armed_delay_bounds queryKeys o c E s r :
  newRealtimeClient queryKeys o = Ok c ->
  (forall j, c_jitterRatio c = Number (Fin j) -> binary64 j) ->
  (forall a, serverReconnectAdvice s = Some a -> adviceUsable a) ->
  random E (next s) = Fin r -> (0 <= r <= 1)%Q ->
  exists z, timers (armReconnect (operating c) E s) = timers s ++ [(next s, int z)]
    /\ reconnectTimer (armReconnect (operating c) E s) = Some (next s)
    /\ 0 <= z <= 2 * effectiveMaximum c s /\ effectiveMaximum c s <= 2147483647.
Proof.
  intros Hc Hj Ha Hr0 Hr. apply constructed_inRange in Hc. unfold armReconnect, effectiveMaximum. cbv zeta. cbn [reconnectOptions operating].
  destruct (serverReconnectAdvice s) as [a|] eqn:Es; cbn [from_option].
  - destruct (Ha a eq_refl) as [(H1 & H2 & H3) H4]. unfold Protocol.maximumTimerDelayMilliseconds in H2.
    destruct (reconnectDelay_bounds (inject_Z (Protocol.initialDelayMilliseconds a)) (inject_Z (Protocol.maximumDelayMilliseconds a)) (Protocol.jitterRatio a) r
                (Protocol.maximumDelayMilliseconds a) (reconnectAttempt s)) as (z & Hz & Hb); try done; try lia.
    { change 0%Q with (inject_Z 0). rewrite <- Zle_Qle. lia. } { change 0%Q with (inject_Z 0). rewrite <- Zle_Qle. lia. } { lra. }
    exists z. rewrite Hr0. fold (int (Protocol.initialDelayMilliseconds a)) (int (Protocol.maximumDelayMilliseconds a)) in Hz. rewrite Hz. done.
  - destruct (range_jitter c Hc) as (j & Ej & Hj1). destruct (range_initial c Hc) as (i & Ei & _ & Hi).
    destruct (range_maximum c Hc) as (m & Em & Hmi & Hm). rewrite Ej, Ei, Em. cbn [num_of r_initialDelayMilliseconds r_maximumDelayMilliseconds r_jitterRatio to_Z].
    rewrite Hmi. cbn [default].
    unfold isIntegerQ in Hmi. apply Qeq_bool_iff in Hmi. change (inject_Z 0) with 0%Q in *.
    assert (0 <= Qfloor m <= 2147483647) as Hfm. { rewrite <- Hmi in Hm. change 0%Q with (inject_Z 0) in Hm. rewrite <- !Zle_Qle in Hm. done. }
    destruct (reconnectDelay_bounds i m j r (Qfloor m) (reconnectAttempt s)) as (z & Hz & Hb); try done; try tauto; [lra|by apply Hj|].
    exists z. rewrite Hr0, Hz. split; [done|]. split; [done|]. tauto.
Qed.

(** A client with jitter one half, at its third attempt. *)
Definition sampleArguments : ClientArguments :=
  {| o_url := js "/realtime/ws"; o_numbers := []; o_reconnect := [(js "jitterRatio", Number (Fin (1 # 2)))]; o_transports := None; o_httpStreaming := false |}.

Definition sampleEnvironment : Environment :=
  {| consumer := fun _ c => c; random := fun _ => Fin (3 # 4); randomUUID := fun _ => []; clock := fun _ => 0; stringify := fun _ => [];
     sendThrows := fun _ _ => None; deliveries := 0; dateFallback := fun _ => None |}.

Lemma armed_delay_bounds_witness :
  exists z, timers (armReconnect (operating (withDefaults sampleArguments)) sampleEnvironment (set_reconnectAttempt 3 initial)) = [(0%nat, int z)]
    /\ 0 <= z <= 60000.
Proof.
  destruct (armed_delay_bounds (fun _ => Some []) sampleArguments (withDefaults sampleArguments) sampleEnvironment (set_reconnectAttempt 3 initial) (3 # 4))
    as (z & H1 & _ & H2 & _).
  - vm_compute. reflexivity.
  - intros j [= <-]. exists 1, (-1). split; [lia|reflexivity].
  - done.
  - reflexivity.
  - split; intros H; vm_compute in H; discriminate.
  - exists z. split; [exact H1|exact H2].
Defined.

(** ** Findings *)

(** The values of options.random are used as they come: a source outside of the
    range of Math.random arms a delay beyond every bound of the options. *)
Lemma random_unchecked :
  exists z, timers (armReconnect (operating (withDefaults sampleArguments))
      {| consumer := fun _ c => c; random := fun _ => int 1000000; randomUUID := fun _ => []; clock := fun _ => 0; stringify := fun _ => [];
         sendThrows := fun _ _ => None; deliveries := 0; dateFallback := fun _ => None |} (set_reconnectAttempt 3 initial)) = [(0%nat, int z)]
    /\ 2 * effectiveMaximum (withDefaults sampleArguments) (set_reconnectAttempt 3 initial) < z.
Proof. eexists. split; vm_compute; reflexivity. Qed.

(** The maximum delay is checked to be timer-safe, but jitter is added after the
    cap: the delay exceeds the range of a timer, which then fires at once. *)
Lemma jitter_exceeds_timer :
  exists c z, newRealtimeClient (fun _ => Some [])
      {| o_url := js "/realtime/ws"; o_numbers := [];
         o_reconnect := [(js "initialDelayMilliseconds", Number (int 2147483647)); (js "maximumDelayMilliseconds", Number (int 2147483647));
                         (js "jitterRatio", Number (int 1))]; o_transports := None; o_httpStreaming := false |} = Ok c
    /\ timers (armReconnect (operating c) sampleEnvironment initial) = [(0%nat, int z)] /\ 2147483647 < z.
Proof. eexists _, _. split; [vm_compute; reflexivity|]. split; [vm_compute; reflexivity|]. reflexivity. Qed.

(** The heartbeat interval and the command timeout are only checked to be positive
    safe integers: intervals beyond the range of a timer are accepted. *)
Lemma long_heartbeat_accepted :
  is_ok (newRealtimeClient (fun _ => Some [])
      {| o_url := js "/realtime/ws"; o_numbers := [(js "heartbeatIntervalMilliseconds", Number (int 2592000000)); (js "commandTimeoutMilliseconds", Number (int 2592000000))];
         o_reconnect := []; o_transports := None; o_httpStreaming := false |}) = true.
Proof. vm_compute. reflexivity. Qed.
