(* ===== verification/ConnectionUrl.v ===== *)
(** * The address of a connection: sdk/typescript/src/client.ts

    [createConnectionUrl] with the ticket it may request, [waitForAbort] and the
    check of the ticket response.  The URL parser and serializer, fetch and the
    abort signal are parameters: [newURL text base] parses a text against an
    optional base, [href] serializes, [fetcher] answers the request.  The query of
    a URL is its list of decoded parameters. *)

From stdpp Require Import base tactics option list numbers strings.
From Stdlib Require Import ZArith Lia.
From S2P Require Import Prelude JsString JsNumber JsValue JsDate Protocol ClientState Client Transport ClientSetup.
#[local] Open Scope Z_scope.

(** ** URLs *)

(** What the code reads or sets of a URL, and the rest of it. *)
Record Url := { u_address : ParsedAddress; u_authority : jstr; u_hash : jstr }.

Definition protocolOf (u : Url) : jstr := a_protocol (u_address u).

(** [url.protocol = p] between ws, wss, http and https: special schemes, of which
    ws and http share their default port, as do wss and https. *)
Definition setProtocol (p : jstr) (u : Url) : Url :=
  {| u_address := {| a_protocol := p; a_pathname := a_pathname (u_address u); a_params := a_params (u_address u) |};
     u_authority := u_authority u; u_hash := u_hash u |}.

(** [url.searchParams.set(name, v)] *)
Definition setSearch (name v : jstr) (u : Url) : Url :=
  {| u_address := {| a_protocol := a_protocol (u_address u); a_pathname := a_pathname (u_address u); a_params := setParam name v (a_params (u_address u)) |};
     u_authority := u_authority u; u_hash := u_hash u |}.

(** [url.searchParams.get(name)] *)
Definition getSearch (name : jstr) (u : Url) : option jstr :=
  snd <$> List.find (fun p => bool_decide (p.1 = name)) (a_params (u_address u)).

(** ** Tickets *)

Inductive RealtimeAuthentication : Type :=
  | SessionAuthentication
  | TicketAuthentication (endpoint : option jstr).

(** A response of fetch; [t_json] is what response.json() gives. *)
Record TicketReply := { t_status : Z; t_json : result failure value }.

Definition replyOk (r : TicketReply) : bool := (200 <=? t_status r) && (t_status r <=? 299).

(** How the signal stands towards one awaited operation: absent or never aborted,
    aborted before the wait began, or aborted before the operation settled. *)
Inductive AbortTiming : Type :=
  | NoAbort
  | AbortedBefore (reason : failure)
  | AbortedWhile (reason : failure).

Definition waitForAbort {A} (t : AbortTiming) (operation : result failure A) : result failure A :=
  match t with
  | NoAbort => operation
  | AbortedBefore reason | AbortedWhile reason => Throw reason
  end.

Section connection.
Context (newURL : jstr -> option jstr -> option Url) (href : Url -> jstr) (dateFallback : jstr -> option Z).

(** [isTicketResponse] *)
Definition isTicketResponse (v : value) : option jstr :=
  match v with
  | Obj _ | Arr _ =>
      match get (js "ticket") v, get (js "expiresAt") v with
      | Str ticket, Str expiresAt =>
          if (32 <=? Z.of_nat (length ticket)) && bool_decide (is_Some (date_parse dateFallback expiresAt)) then Some ticket else None
      | _, _ => None
      end
  | _ => None
  end.

Definition invalidUrl : failure := OtherError (js "Invalid URL").

(** The scheme under which the endpoint of the tickets is resolved. *)
Definition ticketBase (u : Url) : Url :=
  if bool_decide (protocolOf u = js "ws:") then setProtocol (js "http:") u
  else if bool_decide (protocolOf u = js "wss:") then setProtocol (js "https:") u
  else u.

Definition ticketEndpoint (endpoint : option jstr) (u : Url) : result failure Url :=
  match newURL (default (js "/realtime/tickets") endpoint) (Some (href (ticketBase u))) with
  | None => Throw invalidUrl
  | Some e =>
      if memb (protocolOf e) [js "http:"; js "https:"] then Ok e
      else Throw (OtherError (js "The ticket endpoint must use http or https."))
  end.

(** The ticket: one POST request to the endpoint.  [fetcher] is absent when
    neither the options nor the platform have fetch. *)
Definition requestTicket (fetcher : option (jstr -> result failure TicketReply)) (timing : AbortTiming * AbortTiming) (endpoint : Url) : result failure jstr :=
  match fetcher with
  | None => Throw (Realtime (RealtimeConnectionError (js "Ticket authentication requires the Fetch API.") (js "ticket_unavailable")))
  | Some fetch =>
      response ← waitForAbort timing.1 (fetch (href endpoint));
      if negb (replyOk response)
      then Throw (Realtime (RealtimeConnectionError (js "Connection ticket request failed (" ++ show_Z (t_status response) ++ js ").") (js "ticket_rejected")))
      else
        v ← waitForAbort timing.2 (t_json response);
        match isTicketResponse v with
        | None => Throw (Realtime (RealtimeConnectionError (js "Connection ticket response was invalid.") (js "ticket_invalid")))
        | Some ticket => Ok ticket
        end
  end.

(** The scheme of the socket. *)
Definition socketScheme (u : Url) : Url :=
  if bool_decide (protocolOf u = js "http:") then setProtocol (js "ws:") u
  else if bool_decide (protocolOf u = js "https:") then setProtocol (js "wss:") u
  else u.

Definition createConnectionUrl (configured : jstr) (location : option jstr) (authentication : RealtimeAuthentication)
    (fetcher : option (jstr -> result failure TicketReply)) (timing : AbortTiming * AbortTiming) (reconnecting : bool) : result failure Url :=
  match newURL configured location with
  | None => Throw invalidUrl
  | Some u =>
      u ← match authentication with
          | SessionAuthentication => Ok u
          | TicketAuthentication endpoint =>
              e ← ticketEndpoint endpoint u;
              ticket ← requestTicket fetcher timing e;
              Ok (setSearch (js "ticket") ticket u)
          end;
      let u := socketScheme u in
      if negb (memb (protocolOf u) [js "ws:"; js "wss:"])
      then Throw (OtherError (js "The realtime URL must use ws, wss, http, or https."))
      else Ok (if reconnecting : bool then setSearch (js "reconnect") (js "true") u else u)
  end.
End connection.

(** ** Parameters *)

Definition param (name : jstr) (ps : list (jstr * jstr)) : option jstr := snd <$> List.find (fun p => bool_decide (p.1 = name)) ps.

Lemma param_cons name n w ps : param name ((n, w) :: ps) = if decide (n = name) then Some w else param name ps.
Proof. unfold param. cbn [List.find fst]. by destruct (decide (n = name)) as [->|]; [rewrite bool_decide_eq_true_2|rewrite bool_decide_eq_false_2]. Qed.

Lemma param_others name n ps : n <> name -> param name (List.filter (fun p => negb (bool_decide (p.1 = n))) ps) = param name ps.
Proof.
  intros Hn. induction ps as [|[m w] ps IH]; [done|]. cbn [List.filter fst]. destruct (decide (m = n)) as [->|Hm].
  - rewrite bool_decide_eq_true_2 by done. cbn [negb]. by rewrite IH, param_cons, decide_False.
  - rewrite bool_decide_eq_false_2 by done. cbn [negb]. by rewrite !param_cons, IH.
Qed.

Lemma param_replace name n v ps :
  param name (replaceParam n v ps) = if decide (n = name) then (if existsb (fun p => bool_decide (p.1 = n)) ps then Some v else None) else param name ps.
Proof.
  induction ps as [|[m w] ps IH]; cbn [replaceParam existsb fst]; [by destruct (decide (n = name))|].
  destruct (decide (m = n)) as [->|Hm].
  - rewrite bool_decide_eq_true_2 by done. cbn [orb]. rewrite param_cons. destruct (decide (n = name)); [done|].
    by rewrite param_others, param_cons, decide_False.
  - rewrite bool_decide_eq_false_2 by done. cbn [orb]. rewrite !param_cons, IH. destruct (decide (n = name)) as [->|]; [|done].
    by rewrite decide_False.
Qed.

Lemma param_app name ps qs : param name (ps ++ qs) = match param name ps with Some v => Some v | None => param name qs end.
Proof. induction ps as [|[n w] ps IH]; [done|]. cbn [app]. rewrite !param_cons. by destruct (decide (n = name)). Qed.

Lemma param_missing name ps : existsb (fun p => bool_decide (p.1 = name)) ps = false -> param name ps = None.
Proof.
  induction ps as [|[n w] ps IH]; [done|]. cbn [existsb fst]. intros [H1 H2]%orb_false_iff. apply bool_decide_eq_false in H1.
  by rewrite param_cons, decide_False, IH.
Qed.

(** Setting a parameter is a map update. *)
Lemma param_set name n v ps : param name (setParam n v ps) = if decide (n = name) then Some v else param name ps.
Proof.
  unfold setParam. destruct (existsb (fun p => bool_decide (p.1 = n)) ps) eqn:E.
  - rewrite param_replace, E. done.
  - rewrite param_app, param_cons. destruct (decide (n = name)) as [->|]; [by rewrite (param_missing name ps E)|]. by destruct (param name ps).
Qed.

Lemma getSearch_set name n v u : getSearch name (setSearch n v u) = if decide (n = name) then Some v else getSearch name u.
Proof. apply (param_set name n v (a_params (u_address u))). Qed.

(** The parameters that the HTTP transport takes over from the address. *)
Lemma param_carried name source base :
  param name (carriedParams source base) =
  if decide (name = js "ticket" \/ name = js "reconnect") then
    match param name (a_params source) with Some v => Some v | None => param name base end
  else param name base.
Proof.
  unfold carriedParams. cbn [foldl].
  assert (forall k ps, param name (match List.find (fun p => bool_decide (p.1 = k)) (a_params source) with Some (_, v) => setParam k v ps | None => ps end)
          = if decide (k = name) then match param name (a_params source) with Some v => Some v | None => param name ps end else param name ps) as Hk.
  { intros k ps. unfold param at 2. destruct (decide (k = name)) as [->|Hn].
    - destruct (List.find _ (a_params source)) as [[n w]|]; [|done]. cbn. by rewrite param_set, decide_True.
    - destruct (List.find _ (a_params source)) as [[n w]|]; [|done]. by rewrite param_set, decide_False. }
  rewrite Hk. destruct (decide (js "reconnect" = name)) as [<-|H1].
  - rewrite decide_True by (by right). destruct (param _ (a_params source)); [done|]. rewrite Hk. by rewrite decide_False.
  - rewrite Hk. destruct (decide (js "ticket" = name)) as [<-|H2].
    + by rewrite decide_True by (by left).
    + by rewrite decide_False by (intros [?|?]; congruence).
Qed.

Lemma scheme_of_socket u v : v = socketScheme u -> memb (protocolOf v) [js "ws:"; js "wss:"] = true ->
  (protocolOf v = js "wss:" /\ (protocolOf u = js "wss:" \/ protocolOf u = js "https:"))
  \/ (protocolOf v = js "ws:" /\ (protocolOf u = js "ws:" \/ protocolOf u = js "http:")).
Proof.
  intros ->. unfold socketScheme. destruct (decide (protocolOf u = js "http:")) as [E|E].
  { rewrite bool_decide_eq_true_2 by done. intros _. right. auto. }
  rewrite bool_decide_eq_false_2 by done. destruct (decide (protocolOf u = js "https:")) as [E'|E'].
  { rewrite bool_decide_eq_true_2 by done. intros _. left. auto. }
  rewrite bool_decide_eq_false_2 by done. intros H%memb_spec. rewrite !elem_of_cons, elem_of_nil in H. destruct H as [H|[H|[]]]; auto.
Qed.

Lemma socketScheme_rest u : u_authority (socketScheme u) = u_authority u /\ u_hash (socketScheme u) = u_hash u
  /\ a_pathname (u_address (socketScheme u)) = a_pathname (u_address u) /\ a_params (u_address (socketScheme u)) = a_params (u_address u).
Proof. unfold socketScheme. destruct (bool_decide (protocolOf u = js "http:")); [done|]. by destruct (bool_decide (protocolOf u = js "https:")). Qed.

(** ** The address that is opened *)

Section address.
Context (newURL : jstr -> option jstr -> option Url) (href : Url -> jstr) (dateFallback : jstr -> option Z).

(** A ticket was granted for the configured address [u]: by a successful response
    of the endpoint, and no abort came before the response or its body. *)
Definition granted (endpoint : option jstr) (fetcher : option (jstr -> result failure TicketReply)) (timing : AbortTiming * AbortTiming) (u : Url) (ticket : jstr) : Prop :=
  exists e fetch reply v,
    newURL (default (js "/realtime/tickets") endpoint) (Some (href (ticketBase u))) = Some e
    /\ (protocolOf e = js "http:" \/ protocolOf e = js "https:")
    /\ fetcher = Some fetch /\ fetch (href e) = Ok reply /\ 200 <= t_status reply <= 299
    /\ t_json reply = Ok v /\ isTicketResponse dateFallback v = Some ticket /\ timing = (NoAbort, NoAbort).

Lemma isTicketResponse_length v t : isTicketResponse dateFallback v = Some t -> 32 <= Z.of_nat (length t).
Proof.
  unfold isTicketResponse. destruct v; try done; destruct (get _ _); try done; destruct (get (js "expiresAt") _); try done;
    (destruct (Z.leb_spec 32 (Z.of_nat (length s))) as [Hl|]; [|done]; cbn [andb]; case_bool_decide; [|done]; by intros [= <-]).
Qed.

Lemma requestTicket_granted endpoint fetcher timing u e t :
  ticketEndpoint newURL href endpoint u = Ok e -> requestTicket href dateFallback fetcher timing e = Ok t -> granted endpoint fetcher timing u t.
Proof.
  unfold ticketEndpoint. destruct (newURL _ _) as [e'|] eqn:E; [|done]. destruct (memb (protocolOf e') _) eqn:M; [|done]. intros He%Ok_inj. subst e'.
  apply memb_spec in M. rewrite !elem_of_cons, elem_of_nil in M. unfold requestTicket. destruct fetcher as [fetch|]; [|done].
  intros (reply & Hf & H)%bind_Ok. destruct timing as [t1 t2]. destruct t1; [|done|done]. cbn [waitForAbort fst] in Hf.
  destruct (replyOk reply) eqn:Ho; [|done]. cbn [negb] in H. apply bind_Ok in H as (v & Hv & H). destruct t2; [|done|done].
  cbn [waitForAbort snd] in Hv. destruct (isTicketResponse dateFallback v) as [t'|] eqn:Ht; [|done]. apply Ok_inj in H. subst t'.
  unfold replyOk in Ho. exists e, fetch, reply, v. repeat split; try done; [tauto|lia|lia].
Qed.

(** What [createConnectionUrl] returns. *)
Lemma createConnectionUrl_spec configured location authentication fetcher timing reconnecting v :
  createConnectionUrl newURL href dateFallback configured location authentication fetcher timing reconnecting = Ok v ->
  exists u, newURL configured location = Some u
    /\ ((protocolOf v = js "wss:" /\ (protocolOf u = js "wss:" \/ protocolOf u = js "https:"))
        \/ (protocolOf v = js "ws:" /\ (protocolOf u = js "ws:" \/ protocolOf u = js "http:")))
    /\ u_authority v = u_authority u /\ a_pathname (u_address v) = a_pathname (u_address u)
    /\ getSearch (js "reconnect") v = (if reconnecting then Some (js "true") else getSearch (js "reconnect") u)
    /\ (forall name, name <> js "reconnect" -> name <> js "ticket" -> getSearch name v = getSearch name u)
    /\ match authentication with
       | SessionAuthentication => getSearch (js "ticket") v = getSearch (js "ticket") u
       | TicketAuthentication endpoint => exists ticket, granted endpoint fetcher timing u ticket /\ getSearch (js "ticket") v = Some ticket
       end.
Proof.
  unfold createConnectionUrl. destruct (newURL configured location) as [u|]; [|done]. intros (w & Hw & H)%bind_Ok.
  destruct (memb (protocolOf (socketScheme w)) _) eqn:M; [|done]. cbn [negb] in H. apply Ok_inj in H. exists u. split; [done|].
  destruct (socketScheme_rest w) as (R1 & R2 & R3 & R4). apply (scheme_of_socket w _ eq_refl) in M.
  assert (forall name, getSearch name (socketScheme w) = getSearch name w) as Rs by (intros; unfold getSearch; by rewrite R4).
  assert (protocolOf w = protocolOf u /\ u_authority w = u_authority u /\ a_pathname (u_address w) = a_pathname (u_address u)
    /\ (forall name, name <> js "ticket" -> getSearch name w = getSearch name u)
    /\ match authentication with
       | SessionAuthentication => getSearch (js "ticket") w = getSearch (js "ticket") u
       | TicketAuthentication endpoint => exists ticket, granted endpoint fetcher timing u ticket /\ getSearch (js "ticket") w = Some ticket
       end) as (W1 & W2 & W3 & W4 & W5).
  { destruct authentication as [|endpoint]; [by apply Ok_inj in Hw as <-|].
    apply bind_Ok in Hw as (e & He & (t & Ht & Hw)%bind_Ok). apply Ok_inj in Hw as <-.
    repeat split; try done.
    - intros name Hn. by rewrite getSearch_set, decide_False.
    - exists t. split; [by eapply requestTicket_granted|]. by rewrite getSearch_set, decide_True. }
  rewrite W1 in M. subst v.
  assert (forall name, name <> js "reconnect" -> getSearch name (if reconnecting then setSearch (js "reconnect") (js "true") (socketScheme w) else socketScheme w) = getSearch name w) as Rn.
  { intros name Hn. destruct reconnecting; [|done]. by rewrite getSearch_set, decide_False. }
  split; [by destruct reconnecting|]. split; [destruct reconnecting; cbn; congruence|]. split; [destruct reconnecting; cbn; congruence|].
  split; [destruct reconnecting; [by rewrite getSearch_set, decide_True|rewrite Rs; by apply W4]|].
  split; [intros name H1 H2; rewrite Rn by done; by apply W4|].
  destruct authentication; [by rewrite Rn|]. destruct W5 as (t & Hg & Ht). exists t. split; [done|]. by rewrite Rn.
Qed.

Lemma key_missing name ps : existsb (fun k => bool_decide (toLowerCase k = name)) (fst <$> ps) = false -> toLowerCase name = name -> param name ps = None.
Proof.
  intros H Hn. apply param_missing. induction ps as [|[n w] ps IH]; [done|]. cbn [fmap list_fmap existsb fst] in H |- *. apply orb_false_iff in H as [H1 H2].
  rewrite IH by done. apply bool_decide_eq_false in H1. rewrite bool_decide_eq_false_2; [done|]. intros ->. by apply H1.
Qed.

(** What the constructor reads of the configured address: the names of the
    parameters of [new URL(url, "http://localhost")]. *)
Definition configuredKeys (url : jstr) : option (list jstr) := (fun u => fst <$> a_params (u_address u)) <$> newURL url (Some (js "http://localhost")).

(** C17: The address a client opens.  Its scheme is wss exactly for a configured
    https or wss address, so a connection is never downgraded; host and path are
    the configured ones, and so are all parameters other than ticket and reconnect.
    A reconnect says [reconnect=true]; a first connection has no such parameter when
    the query of the address is its own, the same whatever the base (an empty
    address or a mere fragment inherits the query of the page, see
    [inherited_reconnect]).  With ticket authentication the ticket is the one of a
    successful, complete response of an http or https endpoint, of at least 32
    characters; if a path resolves on the host of its base, the default endpoint
    is on the same host and on https when the socket is on wss.  The HTTP transport
    carries both parameters over to its own address. *)
Theorem connection_address o c location authentication fetcher timing reconnecting v :
  (forall u e, newURL (o_url o) location = Some u -> newURL (js "/realtime/tickets") (Some (href (ticketBase u))) = Some e ->
     protocolOf e = protocolOf (ticketBase u) /\ u_authority e = u_authority (ticketBase u)) ->
  newRealtimeClient configuredKeys o = Ok c ->
  createConnectionUrl newURL href dateFallback (o_url o) location authentication fetcher timing reconnecting = Ok v ->
  exists u, newURL (o_url o) location = Some u
    /\ ((protocolOf v = js "wss:" /\ (protocolOf u = js "wss:" \/ protocolOf u = js "https:"))
        \/ (protocolOf v = js "ws:" /\ (protocolOf u = js "ws:" \/ protocolOf u = js "http:")))
    /\ u_authority v = u_authority u /\ a_pathname (u_address v) = a_pathname (u_address u)
    /\ (forall name, name <> js "reconnect" -> name <> js "ticket" -> getSearch name v = getSearch name u)
    /\ (reconnecting = true -> getSearch (js "reconnect") v = Some (js "true")
         /\ forall base, param (js "reconnect") (carriedParams (u_address v) base) = Some (js "true"))
    /\ (reconnecting = false ->
         (forall u0, newURL (o_url o) (Some (js "http://localhost")) = Some u0 -> a_params (u_address u) = a_params (u_address u0)) ->
         getSearch (js "reconnect") v = None /\ forall base, param (js "reconnect") (carriedParams (u_address v) base) = param (js "reconnect") base)
    /\ match authentication with
       | SessionAuthentication => getSearch (js "ticket") v = getSearch (js "ticket") u
       | TicketAuthentication endpoint =>
           exists ticket, granted endpoint fetcher timing u ticket /\ 32 <= Z.of_nat (length ticket) /\ getSearch (js "ticket") v = Some ticket
             /\ (forall base, param (js "ticket") (carriedParams (u_address v) base) = Some ticket)
             /\ (endpoint = None -> forall e, newURL (js "/realtime/tickets") (Some (href (ticketBase u))) = Some e ->
                  u_authority e = u_authority v /\ (protocolOf v = js "wss:" -> protocolOf e = js "https:"))
       end.
Proof.
  intros Hpath Hc Hv. apply createConnectionUrl_spec in Hv as (u & Hu & Hs & Ha & Hp & Hr & Hn & Ht). exists u. split; [done|].
  assert (forall base, param (js "reconnect") (carriedParams (u_address v) base) =
    match getSearch (js "reconnect") v with Some w => Some w | None => param (js "reconnect") base end) as Hcarried.
  { intros base. rewrite param_carried, decide_True by (by right). done. }
  split; [done|]. split; [done|]. split; [done|]. split; [done|]. split.
  { intros ->. rewrite Hr. split; [done|]. intros base. by rewrite Hcarried, Hr. }
  split.
  { intros -> Hown. assert (getSearch (js "reconnect") u = None) as Hnone.
    { unfold newRealtimeClient, configuredKeys in Hc. apply bind_Ok in Hc as (x & _ & Hc).
      destruct (newURL (o_url o) (Some (js "http://localhost"))) as [u0|] eqn:E0; [|done]. cbn [fmap option_fmap option_map] in Hc.
      apply bind_Ok in Hc as (y & Hk%ensure_Ok%negb_true_iff & _). unfold getSearch. rewrite (Hown u0 eq_refl). by apply key_missing. }
    rewrite Hr. split; [done|]. intros base. by rewrite Hcarried, Hr, Hnone. }
  destruct authentication as [|endpoint]; [done|]. destruct Ht as (t & Hg & Ht). exists t. split; [done|].
  split. { destruct Hg as (e & f & r & w & _ & _ & _ & _ & _ & _ & Hw & _). by eapply isTicketResponse_length. }
  split; [done|]. split.
  { intros base. rewrite param_carried, decide_True by (by left). change (param ?n (a_params (u_address v))) with (getSearch n v). by rewrite Ht. }
  intros _ e He. destruct (Hpath _ _ Hu He) as [E1 E2]. rewrite E1, E2, Ha. unfold ticketBase.
  destruct (decide (protocolOf u = js "ws:")) as [W|W].
  { rewrite bool_decide_eq_true_2 by done. split; [done|]. intros Hw. destruct Hs as [[_ [H|H]]|[H _]]; exfalso; [rewrite W in H|rewrite W in H|rewrite Hw in H]; by apply js_inj in H. }
  rewrite bool_decide_eq_false_2 by done. destruct (decide (protocolOf u = js "wss:")) as [W'|W'].
  { rewrite bool_decide_eq_true_2 by done. done. }
  rewrite bool_decide_eq_false_2 by done. split; [done|]. intros Hw. destruct Hs as [[_ [H|H]]|[H _]]; [done|done|]. rewrite Hw in H. by apply js_inj in H.
Qed.
End address.

(** ** A concrete address *)

(** A parser of one host: a text with a scheme is an address on it, any other a
    path of the base, except for a fragment, which is the base itself with its
    query. *)
Definition sampleParse (text : jstr) (base : option jstr) : option Url :=
  let url p path params := {| u_address := {| a_protocol := js p; a_pathname := path; a_params := params |}; u_authority := js "app.example.com"; u_hash := [] |} in
  let based path params := match base with
       | Some b => if startsWith (js "https:") b then Some (url "https:"%string path params) else if startsWith (js "wss:") b then Some (url "wss:"%string path params)
                   else if startsWith (js "http:") b then Some (url "http:"%string path params) else None
       | None => None
       end in
  if startsWith (js "wss:") text then Some (url "wss:"%string text [])
  else if startsWith (js "#") text then
    based (js "/") (if endsWith (js "?reconnect=true") (default [] base) then [(js "reconnect", js "true")] else [])
  else based text [].

Definition sampleHref (u : Url) : jstr := protocolOf u ++ js "//" ++ u_authority u ++ a_pathname (u_address u).

Definition sampleTicket : jstr := repeat 97%N 32.
Definition sampleReply : TicketReply :=
  {| t_status := 200; t_json := Ok (Obj [(js "ticket", Str sampleTicket); (js "expiresAt", Str (js "2026-01-01T00:00:00.000Z"))]) |}.
Definition clientAt (url : string) : ClientArguments :=
  {| o_url := js url; o_numbers := []; o_reconnect := []; o_transports := None; o_httpStreaming := false |}.
Definition sampleClient : ClientArguments := clientAt "/realtime/ws".
Definition sampleLocation : option jstr := Some (js "https://app.example.com/").
Definition openedAddress (reconnecting : bool) : result failure Url :=
  createConnectionUrl sampleParse sampleHref (fun _ => None) (o_url sampleClient) sampleLocation (TicketAuthentication None)
    (Some (fun _ => Ok sampleReply)) (NoAbort, NoAbort) reconnecting.

Lemma connection_address_witness :
  exists v, openedAddress false = Ok v /\ protocolOf v = js "wss:" /\ getSearch (js "reconnect") v = None.
Proof.
  assert (exists v, openedAddress false = Ok v /\ protocolOf v = js "wss:") as (v & Ev & Hp) by (eexists; split; vm_compute; reflexivity).
  exists v. split; [exact Ev|]. split; [exact Hp|].
  destruct (connection_address sampleParse sampleHref (fun _ => None) sampleClient (withDefaults sampleClient) sampleLocation
    (TicketAuthentication None) (Some (fun _ => Ok sampleReply)) (NoAbort, NoAbort) false v) as (u & Hu & _ & _ & _ & _ & _ & Hr & _).
  - intros u e Hu. injection Hu as <-. vm_compute. intros [= <-]. by split.
  - vm_compute. reflexivity.
  - exact Ev.
  - apply (Hr eq_refl). intros u0 Hu0. injection Hu as <-. injection Hu0 as <-. reflexivity.
Defined.

(** The reserved parameter is looked for in the address resolved against a fixed
    base: an address that is a fragment is accepted, takes the query of the page,
    and a first connection then says that it is a reconnect. *)
Lemma inherited_reconnect :
  is_ok (newRealtimeClient (configuredKeys sampleParse) (clientAt "#realtime")) = true /\
  exists v, createConnectionUrl sampleParse sampleHref (fun _ => None) (js "#realtime") (Some (js "https://app.example.com/?reconnect=true"))
      SessionAuthentication None (NoAbort, NoAbort) false = Ok v /\ getSearch (js "reconnect") v = Some (js "true").
Proof. split; [vm_compute; reflexivity|]. eexists. split; vm_compute; reflexivity. Qed.
