(* ===== verification/Diagnostics.v ===== *)
(** * Diagnostics client

    sdk/typescript/src/diagnostics.ts: the requests of [DiagnosticsClient] and its
    event stream, a parser of server-sent events that works on the chunks the
    network delivers.  fetch, JSON.parse and the callbacks of the caller are
    parameters. *)

From stdpp Require Import base tactics option list numbers strings.
From Stdlib Require Import Lia.
From S2P Require Import Prelude JsString JsNumber JsValue Paths.
#[local] Open Scope Z_scope.

(** ** Blocks of the stream *)

(** [/^\r?\n/] *)
Definition newline (s : jstr) : option jstr :=
  match s with
  | c :: t =>
      if (c =? 10)%N then Some t
      else if (c =? 13)%N then match t with d :: u => if (d =? 10)%N then Some u else None | [] => None end
      else None
  | [] => None
  end.

(** [/^\r?\n\r?\n/] *)
Definition separator (s : jstr) : option jstr := t ← newline s; newline t.

(** [buffer.search(/\r?\n\r?\n/)]: the text before the first separator and the
    text after it. *)
Fixpoint cut (s : jstr) : option (jstr * jstr) :=
  match separator s with
  | Some rest => Some ([], rest)
  | None => match s with [] => None | c :: t => '(b, r) ← cut t; Some (c :: b, r) end
  end.

(** [block.split(/\r?\n/)]; the text up to the next line end is kept reversed. *)
Fixpoint lines_of (acc s : jstr) : list jstr :=
  match s with
  | [] => [rev acc]
  | c :: t =>
      if (c =? 10)%N then rev acc :: lines_of [] t
      else if (c =? 13)%N then
        match t with
        | d :: u => if (d =? 10)%N then rev acc :: lines_of [] u else lines_of (c :: acc) t
        | [] => lines_of (c :: acc) t
        end
      else lines_of (c :: acc) t
  end.

Definition lines (s : jstr) : list jstr := lines_of [] s.

(** The event name and the data lines of a block. *)
Definition field (st : jstr * list jstr) (line : jstr) : jstr * list jstr :=
  let name := if startsWith (js "event:") line then trim (drop 6 line) else st.1 in
  let data := if startsWith (js "data:") line then st.2 ++ [trimStart (drop 5 line)] else st.2 in
  (name, data).

Inductive Block : Type := Disconnect | Deliver (text : jstr) | Ignored.

Definition dispatchStreamBlock (block : jstr) : Block :=
  let '(name, data) := foldl field (js "message", []) (lines block) in
  if bool_decide (name = js "disconnect") then Disconnect
  else if bool_decide (name = js "message") && negb (bool_decide (data = [])) then Deliver (join [10%N] data)
  else Ignored.

Section stream.
(** [JSON.parse] and the callback [onEvent], which may throw. *)
Context (parseJSON : jstr -> result jsError value) (onEvent : value -> option jsError).

Inductive Pumped : Type := Ended | Broken (e : jsError) | Rest (buffer : jstr).

(** The inner loop: every complete block of the buffer.  The events delivered come
    with the state the loop ends in. *)
Fixpoint pump (fuel : nat) (buffer : jstr) : list value * Pumped :=
  match fuel with
  | O => ([], Rest buffer)
  | S n =>
      match cut buffer with
      | None => ([], Rest buffer)
      | Some (block, rest) =>
          match dispatchStreamBlock block with
          | Disconnect => ([], Ended)
          | Ignored => pump n rest
          | Deliver text =>
              match parseJSON text with
              | Throw e => ([], Broken e)
              | Ok v => match onEvent v with
                        | Some e => ([v], Broken e)
                        | None => let '(l, p) := pump n rest in (v :: l, p)
                        end
              end
          end
      end
  end.

(** Every block removes at least its separator: the length of the buffer is fuel
    enough. *)
Definition pumpAll (buffer : jstr) : list value * Pumped := pump (length buffer) buffer.

(** What [reader.read()] gives: text to decode, the end of the stream with the text
    the decoder still held, a failure; or the loop finds the stream cancelled. *)
Inductive Read : Type := Chunk (text : jstr) | Done (text : jstr) | ReadFails (e : jsError) | Cancelled.

(** The outer loop of [consumeStream]: [true] when the server asked to disconnect. *)
Fixpoint consume (buffer : jstr) (reads : list Read) : list value * result jsError bool :=
  match reads with
  | [] | Cancelled :: _ => ([], Ok false)
  | ReadFails e :: _ => ([], Throw e)
  | Chunk t :: more =>
      let '(l, p) := pumpAll (buffer ++ t) in
      match p with
      | Ended => (l, Ok true)
      | Broken e => (l, Throw e)
      | Rest b => let '(l', r) := consume b more in (l ++ l', r)
      end
  | Done t :: _ =>
      let '(l, p) := pumpAll (buffer ++ t) in
      (l, match p with Ended => Ok true | Broken e => Throw e | Rest _ => Ok false end)
  end.

(** [fetch] of the stream: a network failure or a response. *)
Inductive Fetched : Type := NetworkError (e : jsError) | Response (status : Z) (hasBody : bool) (reads : list Read).

Definition responseOk (status : Z) : bool := (200 <=? status) && (status <=? 299).

(** [isPermanent] of DiagnosticsStreamHttpError. *)
Definition isPermanent (status : Z) : bool := (400 <=? status) && (status <? 500) && negb (status =? 408) && negb (status =? 429).

Definition streamHttpError (status : Z) : jsError := newError (js "Diagnostics stream failed with HTTP " ++ show_Z status ++ js ".").

(** How one attempt ends: disconnected, ended, or an error that is permanent or not. *)
Definition consumeStream (f : Fetched) : list value * result (jsError * bool) bool :=
  match f with
  | NetworkError e => ([], Throw (e, false))
  | Response status hasBody reads =>
      if negb (responseOk status) || negb hasBody then ([], Throw (streamHttpError status, isPermanent status))
      else let '(l, r) := consume [] reads in (l, match r with Ok b => Ok b | Throw e => Throw (e, false) end)
  end.

(** One turn of [runStream]: the response, whether the caller had cancelled before
    it and when its error is handled. *)
Record Turn := { cancelledBefore : bool; fetched : Fetched; cancelledAfter : bool }.

(** The events delivered, the errors reported to [onStreamError], and whether the
    loop returned; a run whose turns are used up is waiting for its retry. *)
Fixpoint runStream (turns : list Turn) : list value * list jsError * bool :=
  match turns with
  | [] => ([], [], false)
  | t :: more =>
      if cancelledBefore t then ([], [], true)
      else
        let '(l, r) := consumeStream (fetched t) in
        match r with
        | Ok true => (l, [], true)
        | Ok false => let '(l', es, d) := runStream more in (l ++ l', es, d)
        | Throw (e, permanent) =>
            if cancelledAfter t then (l, [], true)
            else if permanent : bool then (l, [e], true)
            else let '(l', es, d) := runStream more in (l ++ l', e :: es, d)
        end
  end.
End stream.

(** ** Requests *)

Section client.
Context (encodeURIComponent : jstr -> jstr) (jsonText : value -> jstr).

(** [url.replace(/\/$/, "")] *)
Definition withoutSlash (s : jstr) : jstr := if endsWith (js "/") s then removelast s else s.

Record DiagnosticsClient := { baseUrl : jstr; headers : list (jstr * value); streamRetryMilliseconds : num }.

Definition newDiagnosticsClient (url : option jstr) (hs : option (list (jstr * value))) (retry : option num) : result jstr DiagnosticsClient :=
  let ms := default (int 1000) retry in
  if negb (isSafeInteger ms) || nlt ms (int 100) || ngt ms (int 60000)
  then Throw (js "streamRetryMilliseconds must be between 100 and 60000.")
  else Ok {| baseUrl := withoutSlash (default (js "/diagnostics/v1") url); headers := default [] hs; streamRetryMilliseconds := ms |}.

(** A request of [fetch]; credentials are always same-origin. *)
Record FetchRequest := { fetchUrl : jstr; fetchMethod : jstr; fetchHeaders : value; fetchBody : option jstr }.

(** [request(path, init)]: the client's headers, then those of the call. *)
Definition request (c : DiagnosticsClient) (path meth : jstr) (own : list (jstr * value)) (b : option jstr) : FetchRequest :=
  {| fetchUrl := baseUrl c ++ path; fetchMethod := meth; fetchHeaders := from_entries (headers c ++ own); fetchBody := b |}.

(** What becomes of the response; [body] is response.json(). *)
Definition answered (status : Z) (body : result jsError value) : result jsError value :=
  if negb (responseOk status) then Throw (newError (js "Diagnostics request failed with HTTP " ++ show_Z status ++ js "."))
  else if status =? 204 then Ok Undefined else body.

Definition snapshot (c : DiagnosticsClient) : FetchRequest := request c (js "/snapshot") (js "GET") [] None.
Definition activeLogLevels (c : DiagnosticsClient) : FetchRequest := request c (js "/logging/overrides") (js "GET") [] None.
(** The offset and the limit are numbers, printed by [String]. *)
Definition audit (c : DiagnosticsClient) (offset limit : Z) : FetchRequest :=
  request c (js "/logging/audit?offset=" ++ show_Z offset ++ js "&limit=" ++ show_Z limit) (js "GET") [] None.
Definition applyLogLevel (c : DiagnosticsClient) (change : list (jstr * value)) : FetchRequest :=
  request c (js "/logging/overrides") (js "POST") [(js "content-type", Str (js "application/json"))]
    (Some (jsonText (from_entries (change ++ [(js "scope", nullish (get (js "scope") (Obj change)) (Str (js "all")))])))).
Definition revertLogLevel (c : DiagnosticsClient) (id : jstr) : FetchRequest :=
  request c (js "/logging/overrides/" ++ encodeURIComponent id) (js "DELETE") [] None.
End client.

(** ** Chunks do not matter *)

Lemma newline_app s t r : newline s = Some r -> newline (s ++ t) = Some (r ++ t).
Proof.
  destruct s as [|c s]; [done|]. cbn. destruct (c =? 10)%N; [by intros [= <-]|]. destruct (c =? 13)%N; [|done].
  destruct s as [|d s]; [done|]. cbn. destruct (d =? 10)%N; [by intros [= <-]|done].
Qed.

Lemma newline_length s r : newline s = Some r -> (length r < length s)%nat.
Proof.
  destruct s as [|c s]; [done|]. cbn. destruct (c =? 10)%N; [intros [= <-]; lia|]. destruct (c =? 13)%N; [|done].
  destruct s as [|d s]; [done|]. destruct (d =? 10)%N; [intros [= <-]; cbn; lia|done].
Qed.

Lemma separator_app s t r : separator s = Some r -> separator (s ++ t) = Some (r ++ t).
Proof. unfold separator. intros (u & Hu & Hr)%bind_Some. rewrite (newline_app _ t _ Hu). by apply newline_app. Qed.

Lemma separator_length s r : separator s = Some r -> (S (length r) < length s)%nat.
Proof. unfold separator. intros (u & Hu%newline_length & Hr%newline_length)%bind_Some. lia. Qed.

(** A separator that only the next chunk completes starts before no complete one. *)
Lemma separator_late c s t r : separator (c :: s) = None -> separator (c :: s ++ t) = Some r -> cut s = None.
Proof.
  unfold separator. cbn [newline]. destruct (N.eqb_spec c 10) as [->|Hc].
  - cbn. intros Hn Hs. destruct s as [|d s]; [done|]. cbn in *. unfold separator. cbn.
    destruct (N.eqb_spec d 10); [done|]. destruct (N.eqb_spec d 13); [|done].
    destruct s as [|e' s]; [done|]. cbn in *. by destruct (N.eqb_spec e' 10).
  - destruct (N.eqb_spec c 13) as [->|Hc']; [|done]. destruct s as [|d s]; [done|]. cbn.
    destruct (N.eqb_spec d 10) as [->|]; [|done]. cbn. intros Hn Hs. destruct s as [|e s]; [done|]. cbn in *.
    unfold separator. cbn. destruct (N.eqb_spec e 10); [done|]. destruct (N.eqb_spec e 13); [|done].
    destruct s as [|f s]; [done|]. cbn in *. by destruct (N.eqb_spec f 10).
Qed.

Lemma cut_app s t b r : cut s = Some (b, r) -> cut (s ++ t) = Some (b, r ++ t).
Proof.
  revert b. induction s as [|c s IH]; intros b; [done|]. cbn [cut app].
  destruct (separator (c :: s)) as [u|] eqn:E.
  - intros [= <- <-]. apply (separator_app _ t) in E. change ((c :: s) ++ t) with (c :: s ++ t) in E. by rewrite E.
  - intros ([b' r'] & Hc & [= <- <-])%bind_Some. destruct (separator (c :: s ++ t)) as [u|] eqn:E'.
    + by rewrite (separator_late _ _ _ _ E E') in Hc.
    + by rewrite (IH _ Hc).
Qed.

Lemma cut_length s b r : cut s = Some (b, r) -> (length r < length s)%nat.
Proof.
  revert b. induction s as [|c s IH]; intros b; [done|]. cbn [cut]. destruct (separator (c :: s)) as [u|] eqn:E.
  - intros [= <- <-]. apply separator_length in E. lia.
  - intros ([b' r'] & Hc & [= <- <-])%bind_Some. apply IH in Hc. cbn. lia.
Qed.

Section chunks.
Context (parseJSON : jstr -> result jsError value) (onEvent : value -> option jsError).
Abbreviation pump := (pump parseJSON onEvent).
Abbreviation pumpAll := (pumpAll parseJSON onEvent).

Lemma pump_fuel n m b : (length b <= n)%nat -> (length b <= m)%nat -> pump n b = pump m b.
Proof.
  revert m b. induction n as [|n IH]; intros m b Hn Hm.
  { destruct b; [|cbn in Hn; lia]. by destruct m. }
  destruct m as [|m]; [destruct b; [done|cbn in Hm; lia]|]. cbn [Diagnostics.pump].
  destruct (cut b) as [[blk rest]|] eqn:E; [|done]. apply cut_length in E. by rewrite (IH m rest) by lia.
Qed.

(** One turn of the inner loop. *)
Lemma pumpAll_cut b blk rest : cut b = Some (blk, rest) ->
  pumpAll b = match dispatchStreamBlock blk with
              | Disconnect => ([], Ended)
              | Ignored => pumpAll rest
              | Deliver text =>
                  match parseJSON text with
                  | Throw e => ([], Broken e)
                  | Ok v => match onEvent v with
                            | Some e => ([v], Broken e)
                            | None => let '(l, p) := pumpAll rest in (v :: l, p)
                            end
                  end
              end.
Proof.
  intros E. pose proof (cut_length _ _ _ E) as Hl. unfold Diagnostics.pumpAll at 1. destruct (length b) as [|n] eqn:Hb; [lia|].
  cbn [Diagnostics.pump]. rewrite E. rewrite (pump_fuel n (length rest) rest) by lia. done.
Qed.

Lemma pumpAll_None b : cut b = None -> pumpAll b = ([], Rest b).
Proof. intros E. unfold Diagnostics.pumpAll. destruct (length b); [done|]. cbn. by rewrite E. Qed.

(** Text that arrives later continues where the loop stopped. *)
Lemma pumpAll_app s t :
  pumpAll (s ++ t) = let '(l, p) := pumpAll s in
                     match p with Rest b => let '(l', p') := pumpAll (b ++ t) in (l ++ l', p') | _ => (l, p) end.
Proof.
  remember (length s) as n eqn:Hn. revert s Hn. induction (lt_wf n) as [n _ IH]. intros s ->.
  destruct (cut s) as [[blk rest]|] eqn:E.
  - rewrite (pumpAll_cut _ _ _ (cut_app _ t _ _ E)), (pumpAll_cut _ _ _ E). pose proof (cut_length _ _ _ E).
    destruct (dispatchStreamBlock blk) as [|text|]; [done| |by apply (IH (length rest))].
    destruct (parseJSON text) as [v|e]; [|done]. destruct (onEvent v); [done|].
    rewrite (IH (length rest)) by done. destruct (pumpAll rest) as [l [|e|b]]; try done. by destruct (pumpAll (b ++ t)).
  - rewrite (pumpAll_None s E). by destruct (pumpAll (s ++ t)).
Qed.

(** The reference: the stream as one text. *)
Definition whole (text : jstr) : list value * result jsError bool :=
  let '(l, p) := pumpAll text in (l, match p with Ended => Ok true | Broken e => Throw e | Rest _ => Ok false end).

Lemma consume_whole b cs t : consume parseJSON onEvent b ((Chunk <$> cs) ++ [Done t]) = whole (b ++ concat cs ++ t).
Proof.
  revert b. induction cs as [|c cs IH]; intros b; [done|]. cbn [fmap list_fmap app consume concat]. fold Diagnostics.pumpAll.
  unfold whole. replace (b ++ (c ++ concat cs) ++ t) with ((b ++ c) ++ concat cs ++ t) by (by rewrite <- !app_assoc).
  rewrite (pumpAll_app (b ++ c)). destruct (pumpAll (b ++ c)) as [l [|e|r]]; [done|done|].
  change (list_fmap jstr Read Chunk cs) with (Chunk <$> cs). rewrite IH. unfold whole. by destruct (pumpAll (r ++ concat cs ++ t)).
Qed.
End chunks.

(** However the network cuts the event stream into chunks, even inside a
    separator, the client delivers the same events and ends the same way as if the
    whole text had arrived at once. *)
Theorem stream_chunking parseJSON onEvent cs cs' t t' :
  concat cs ++ t = concat cs' ++ t' ->
  consume parseJSON onEvent [] ((Chunk <$> cs) ++ [Done t]) = consume parseJSON onEvent [] ((Chunk <$> cs') ++ [Done t']).
Proof. intros H. rewrite !consume_whole. cbn [app]. by rewrite H. Qed.

(** ** The gateway's stream

    What DiagnosticsEndpoints.cs writes for a JSON document, when nothing happens for
    15 seconds, and when it ends the stream. *)
Definition eventBlock (text : jstr) : jstr := js "data: " ++ text ++ [10%N; 10%N].
Definition disconnectBlock : jstr :=
  js "event: disconnect" ++ [10%N] ++ js "data: {" ++ [34%N] ++ js "reason" ++ [34; 58; 34]%N ++ js "rate_limit" ++ [34%N] ++ js "}" ++ [10%N; 10%N].

Definition heartbeatBlock : jstr := js ": heartbeat" ++ [10%N; 10%N].

Inductive StreamBlock : Type := EventBlock (text : jstr) | HeartbeatBlock.
Definition blockText (b : StreamBlock) : jstr := match b with EventBlock text => eventBlock text | HeartbeatBlock => heartbeatBlock end.
(** The documents of a stream. *)
Definition eventTexts (blocks : list StreamBlock) : list jstr := omap (fun b => match b with EventBlock text => Some text | HeartbeatBlock => None end) blocks.

(** A line of the stream. *)
Definition oneLine (s : jstr) : Prop := Forall (fun c => c <> 10%N /\ c <> 13%N) s.

Lemma cut_plain w s : oneLine w -> cut (w ++ s) = '(b, r) ← cut s; Some (w ++ b, r).
Proof.
  induction 1 as [|c w [H1 H2] _ IH]; [cbn; by destruct (cut s) as [[]|]|]. cbn [app cut].
  unfold separator, newline. rewrite (proj2 (N.eqb_neq c 10)), (proj2 (N.eqb_neq c 13)) by done. cbn. rewrite IH.
  by destruct (cut s) as [[]|].
Qed.

Lemma lines_of_plain acc w : oneLine w -> lines_of acc w = [rev acc ++ w].
Proof.
  intros Hw. revert acc. induction Hw as [|c w [H1 H2] _ IH]; intros acc; [cbn; by rewrite app_nil_r|]. cbn [lines_of].
  rewrite (proj2 (N.eqb_neq c 10)), (proj2 (N.eqb_neq c 13)) by done. rewrite IH. cbn. by rewrite <- app_assoc.
Qed.

Lemma trimStart_spaced s : trimStart (32%N :: s) = trimStart s.
Proof. reflexivity. Qed.

Lemma dispatch_event text : oneLine text -> trimStart text = text -> dispatchStreamBlock (js "data: " ++ text) = Deliver text.
Proof.
  intros H1 Ht. unfold dispatchStreamBlock, lines. rewrite lines_of_plain.
  - cbn [rev app]. unfold foldl, field. replace (startsWith (js "event:") (js "data: " ++ text)) with false by reflexivity.
    replace (startsWith (js "data:") (js "data: " ++ text)) with true by (by destruct text).
    replace (drop 5 (js "data: " ++ text)) with (32%N :: text) by reflexivity. rewrite trimStart_spaced, Ht. reflexivity.
  - apply Forall_app. split; [|done]. apply (bool_decide_unpack _). vm_compute. reflexivity.
Qed.

(** A JSON document as the gateway serializes it: on one line, not starting with
    white space. *)
Definition document (parseJSON : jstr -> result jsError value) (text : jstr) (v : value) : Prop :=
  oneLine text /\ trimStart text = text /\ parseJSON text = Ok v.

Lemma pumpAll_event parseJSON onEvent text v rest :
  document parseJSON text v -> onEvent v = None ->
  pumpAll parseJSON onEvent (eventBlock text ++ rest) = let '(l, p) := pumpAll parseJSON onEvent rest in (v :: l, p).
Proof.
  intros (H1 & H2 & H3) Hv. unfold eventBlock. rewrite <- !app_assoc, (app_assoc (js "data: ")).
  rewrite (pumpAll_cut _ _ _ (js "data: " ++ text) rest).
  - by rewrite dispatch_event, H3, Hv by done.
  - rewrite cut_plain; [cbn; by rewrite app_nil_r|]. apply Forall_app. split; [|done]. apply (bool_decide_unpack _). vm_compute. reflexivity.
Qed.

Lemma pumpAll_disconnect parseJSON onEvent rest : pumpAll parseJSON onEvent (disconnectBlock ++ rest) = ([], Ended).
Proof.
  rewrite pumpAll_app. replace (pumpAll parseJSON onEvent disconnectBlock) with (@nil value, Ended); [done|].
  rewrite (pumpAll_cut _ _ _ (removelast (removelast disconnectBlock)) []) by (vm_compute; reflexivity).
  replace (dispatchStreamBlock _) with Disconnect by (vm_compute; reflexivity). done.
Qed.

Lemma pumpAll_heartbeat parseJSON onEvent rest : pumpAll parseJSON onEvent (heartbeatBlock ++ rest) = pumpAll parseJSON onEvent rest.
Proof.
  unfold heartbeatBlock. rewrite (pumpAll_cut _ _ _ (js ": heartbeat") rest).
  - by replace (dispatchStreamBlock (js ": heartbeat")) with Ignored by (vm_compute; reflexivity).
  - rewrite <- app_assoc, cut_plain; [cbn; by rewrite app_nil_r|]. apply (bool_decide_unpack _). vm_compute. reflexivity.
Qed.

(** What is left of the stream when a line at its end is not finished. *)
Lemma pumpAll_line parseJSON onEvent w : oneLine w -> pumpAll parseJSON onEvent w = ([], Rest w).
Proof. intros Hw. apply pumpAll_None. rewrite <- (app_nil_r w), cut_plain by done. done. Qed.

Lemma pumpAll_blocks parseJSON onEvent blocks vs tail : Forall2 (document parseJSON) (eventTexts blocks) vs -> Forall (fun v => onEvent v = None) vs ->
  pumpAll parseJSON onEvent (concat (blockText <$> blocks) ++ tail) = let '(l, p) := pumpAll parseJSON onEvent tail in (vs ++ l, p).
Proof.
  revert vs. induction blocks as [|[text|] blocks IH]; intros vs Hd Hv; cbn [eventTexts omap list_omap] in Hd; rewrite ?fmap_cons; cbn [fmap list_fmap concat app].
  - inversion Hd; subst. by destruct (pumpAll parseJSON onEvent tail).
  - inversion Hd as [|? v ? vs' Hd1 Hd2]; subst. inversion Hv as [|? ? Hv1 Hv2]; subst. cbn [blockText].
    rewrite <- app_assoc, (pumpAll_event _ _ _ v) by done. rewrite (IH vs' Hd2 Hv2). by destruct (pumpAll parseJSON onEvent tail).
  - cbn [blockText]. rewrite <- app_assoc, pumpAll_heartbeat. by apply IH.
Qed.

(** C39: The stream the gateway writes is read back: for any sequence of documents
    and heartbeats, cut into any chunks, the client delivers exactly those documents
    in order, and reports a disconnect exactly when the gateway announced one,
    whatever follows it; a stream that breaks off in the middle of a line delivers
    what was complete.  The documents are on one line, do not start with white
    space and are accepted by JSON.parse, and the callback does not throw. *)
Theorem stream_roundtrip parseJSON onEvent (blocks : list StreamBlock) vs (bye : bool) rest cs t :
  Forall2 (document parseJSON) (eventTexts blocks) vs -> Forall (fun v => onEvent v = None) vs -> (bye = false -> oneLine rest) ->
  concat cs ++ t = concat (blockText <$> blocks) ++ (if bye then disconnectBlock ++ rest else rest) ->
  consume parseJSON onEvent [] ((Chunk <$> cs) ++ [Done t]) = (vs, Ok bye).
Proof.
  intros Hd Hv Hrest E. rewrite consume_whole. cbn [app]. rewrite E. unfold whole. rewrite (pumpAll_blocks _ _ _ vs) by done.
  destruct bye; [rewrite pumpAll_disconnect|rewrite pumpAll_line by (by apply Hrest)]; by rewrite app_nil_r.
Qed.

(** Two documents with a heartbeat between them and a disconnect, cut inside a
    separator. *)
Definition sampleParse (s : jstr) : result jsError value := Ok (Str s).
Definition sampleChunks : list jstr := [js "data: 1" ++ [10%N]; [10%N] ++ js ": heart"; js "beat" ++ [10; 10]%N ++ js "data: 2"; [10%N; 10%N] ++ take 9 disconnectBlock].

Lemma stream_roundtrip_witness :
  consume sampleParse (fun _ => None) [] ((Chunk <$> sampleChunks) ++ [Done (drop 9 disconnectBlock)]) = ([Str (js "1"); Str (js "2")], Ok true).
Proof.
  apply (stream_roundtrip sampleParse (fun _ => None) [EventBlock (js "1"); HeartbeatBlock; EventBlock (js "2")] [Str (js "1"); Str (js "2")] true []
    sampleChunks (drop 9 disconnectBlock)).
  - repeat constructor; (apply (bool_decide_unpack _); vm_compute; reflexivity) || reflexivity.
  - repeat constructor.
  - discriminate.
  - vm_compute. reflexivity.
Defined.

Lemma stream_chunking_witness :
  consume sampleParse (fun _ => None) [] ((Chunk <$> [js "data: 1" ++ [10%N]]) ++ [Done [10%N]]) =
  consume sampleParse (fun _ => None) [] ((Chunk <$> []) ++ [Done (eventBlock (js "1"))]).
Proof. apply stream_chunking. vm_compute. reflexivity. Defined.

(** ** Retries *)

(** A permanent response ends the stream after one report; any other failure is
    reported once and tried again. *)
Lemma runStream_permanent parseJSON onEvent status hasBody reads after more :
  isPermanent status = true ->
  runStream parseJSON onEvent ({| cancelledBefore := false; fetched := Response status hasBody reads; cancelledAfter := after |} :: more)
  = ([], if after then [] else [streamHttpError status], true).
Proof.
  intros Hp. cbn. assert (responseOk status = false) as ->.
  { unfold isPermanent, responseOk in *. lia. }
  cbn. rewrite Hp. by destruct after.
Qed.

Lemma runStream_retries parseJSON onEvent e more :
  runStream parseJSON onEvent ({| cancelledBefore := false; fetched := NetworkError e; cancelledAfter := false |} :: more)
  = let '(l, es, d) := runStream parseJSON onEvent more in (l, e :: es, d).
Proof. done. Qed.
