(* ===== verification/DiagnosticsStream.v ===== *)
(** * Life of a diagnostics stream

    sdk/typescript/src/diagnostics.ts: [streamEvents], [tailLogs] and the loop
    below them as a machine.  The stream is between two continuations in one of
    the stages; the network, the timers and the caller choose the events, in any
    order the event loop allows.  The callback may throw, and it may stop the
    stream that is calling it. *)

From stdpp Require Import base tactics option list numbers strings relations.
From Stdlib Require Import Lia.
From S2P Require Import Prelude JsString JsNumber JsValue Utf8 Paths Reconnect Diagnostics.
#[local] Open Scope Z_scope.

(** ** The address *)

Section address.
(** [String(n)] of a number that is not an integer. *)
Context (fractionText : num -> jstr).

Definition valueText (v : value) : jstr :=
  match v with Str s => s | Number n => from_option show_Z (fractionText n) (to_Z n) | _ => [] end.

(** The parameters of a filter: its properties other than [undefined]. *)
Definition streamParameters (query : list (jstr * value)) : list (jstr * jstr) :=
  (fun p => (p.1, valueText p.2)) <$> filter (fun p => isUndefined p.2 = false) query.

Definition streamSuffix (query : list (jstr * value)) : jstr :=
  match streamParameters query with [] => [] | ps => js "?" ++ searchText ps end.

Definition streamUrl (c : DiagnosticsClient) (path : jstr) (query : list (jstr * value)) : jstr :=
  baseUrl c ++ path ++ streamSuffix query.

Definition eventsUrl (c : DiagnosticsClient) : jstr := streamUrl c (js "/events") [].
Definition logsUrl (c : DiagnosticsClient) (filter_ : list (jstr * value)) : jstr := streamUrl c (js "/logs/tail") filter_.
End address.

(** The delay of the timer that ends a stream after its duration. *)
Definition durationTimer (durationSeconds : value) : option num :=
  match durationSeconds with
  | Number n => if isFinite n && ngt n (int 0) then Some (nmul n (int 1000)) else None
  | _ => None
  end.

(** ** The machine *)

(** Where the loop waits: for the response, for a chunk, for [reader.cancel()] with
    the outcome of the attempt, for the retry (with its abort listener, unless the
    signal was aborted before), for its continuation after the retry; or it has
    returned. *)
Inductive Stage : Type :=
  | Fetching
  | Reading (buffer : jstr)
  | Cancelling (r : result jsError bool)
  | Retrying (listening : bool)
  | Resuming
  | Finished.

Record Stream := {
  stage : Stage;
  aborted : bool;
  durationArmed : bool;
  delivered : list value;
  reported : list jsError;
  fetches : nat;
}.

Definition at_stage (s : Stage) (x : Stream) : Stream :=
  {| stage := s; aborted := aborted x; durationArmed := durationArmed x; delivered := delivered x; reported := reported x; fetches := fetches x |}.

(** [runStream] has returned: the duration timer is cleared. *)
Definition finish (x : Stream) : Stream :=
  {| stage := Finished; aborted := aborted x; durationArmed := false; delivered := delivered x; reported := reported x; fetches := fetches x |}.

(** [cancellation.abort()]: the abort listener of a retry completes it. *)
Definition abort (x : Stream) : Stream :=
  {| stage := match stage x with Retrying true => Resuming | s => s end; aborted := true; durationArmed := durationArmed x;
     delivered := delivered x; reported := reported x; fetches := fetches x |}.

(** The function returned to the caller. *)
Definition stop (x : Stream) : Stream :=
  abort {| stage := stage x; aborted := aborted x; durationArmed := false; delivered := delivered x; reported := reported x; fetches := fetches x |}.

(** [waitForStreamRetry]: a listener added to an aborted signal is never called. *)
Definition waitForStreamRetry (x : Stream) : Stream := at_stage (Retrying (negb (aborted x))) x.

(** The [catch] of [runStream]. *)
Definition streamFailed (e : jsError) (permanent : bool) (x : Stream) : Stream :=
  if aborted x then finish x
  else
    let x := {| stage := stage x; aborted := aborted x; durationArmed := durationArmed x; delivered := delivered x;
                reported := reported x ++ [e]; fetches := fetches x |} in
    if permanent then finish x else waitForStreamRetry x.

(** The head of the loop of [runStream]: the next request. *)
Definition nextAttempt (x : Stream) : Stream :=
  if aborted x then finish x
  else {| stage := Fetching; aborted := aborted x; durationArmed := durationArmed x; delivered := delivered x; reported := reported x; fetches := S (fetches x) |}.

(** The head of the loop of [consumeStream]. *)
Definition nextRead (buffer : jstr) (x : Stream) : Stream :=
  if aborted x then at_stage (Cancelling (Ok false)) x else at_stage (Reading buffer) x.

(** [#stream]: the loop runs up to its first request. *)
Definition start (duration : value) : Stream :=
  nextAttempt {| stage := Resuming; aborted := false; durationArmed := bool_decide (is_Some (durationTimer duration));
                 delivered := []; reported := []; fetches := 0 |}.

Inductive StreamEvent : Type :=
  | Answer (status : Z) (hasBody : bool)
  | FetchFails (e : jsError)
  | ReadText (text : jstr) (done : bool)
  | ReadError (e : jsError)
  | ReaderCancelled
  | RetryTimer
  | RetryResumes
  | DurationTimer
  | Stop.

Section machine.
(** [JSON.parse]; whether the callback throws on an event, and whether it stops the
    stream. *)
Context (parseJSON : jstr -> result jsError value) (onEvent : value -> option jsError) (stops : value -> bool).

(** The blocks of a chunk: events are delivered whatever the callback does to the
    stream; a disconnect aborts it. *)
Definition readText (buffer : jstr) (done : bool) (x : Stream) : Stream :=
  let '(l, p) := pumpAll parseJSON onEvent buffer in
  let x := {| stage := stage x; aborted := aborted x; durationArmed := durationArmed x; delivered := delivered x ++ l;
              reported := reported x; fetches := fetches x |} in
  let x := if existsb stops l then stop x else x in
  match p with
  | Ended => at_stage (Cancelling (Ok true)) (abort x)
  | Broken e => at_stage (Cancelling (Throw e)) x
  | Rest b => if done then at_stage (Cancelling (Ok false)) x else nextRead b x
  end.

(** What an event does in a stage; [None] when it cannot happen there. *)
Definition react (x : Stream) (e : StreamEvent) : option Stream :=
  match e, stage x with
  | Answer status hasBody, Fetching =>
      Some (if negb (responseOk status) || negb hasBody then streamFailed (streamHttpError status) (isPermanent status) x else nextRead [] x)
  | FetchFails e, Fetching => Some (streamFailed e false x)
  | ReadText text done, Reading buffer => Some (readText (buffer ++ text) done x)
  | ReadError e, Reading _ => Some (at_stage (Cancelling (Throw e)) x)
  | ReaderCancelled, Cancelling r =>
      Some (match r with Ok true => finish x | Ok false => waitForStreamRetry x | Throw e => streamFailed e false x end)
  | RetryTimer, Retrying _ => Some (at_stage Resuming x)
  | RetryResumes, Resuming => Some (nextAttempt x)
  | DurationTimer, _ =>
      if durationArmed x then Some (stop x) else None
  | Stop, _ => Some (stop x)
  | _, _ => None
  end.

Definition reacts (x y : Stream) : Prop := exists e, react x e = Some y.

(** A run of given events. *)
Fixpoint replay (x : Stream) (es : list StreamEvent) : option Stream :=
  match es with [] => Some x | e :: es => y ← react x e; replay y es end.
End machine.

(** ** What holds of every run *)

(** Events that are continuations of the loop, not actions on it. *)
Definition continues (e : StreamEvent) : bool := match e with Stop | DurationTimer => false | _ => true end.

(** Continuations an aborted stream still has before it returns. *)
Definition rank (s : Stage) : nat :=
  match s with Fetching => 5 | Reading _ => 4 | Cancelling _ => 3 | Retrying _ => 2 | Resuming => 1 | Finished => 0 end.

Definition retries (es : list StreamEvent) : nat := length (List.filter (fun e => match e with RetryTimer => true | _ => false end) es).
Definition continuations (es : list StreamEvent) : nat := length (List.filter continues es).

(** An attempt whose failure may still be reported; a retry that will lead to a
    request. *)
Definition inAttempt (s : Stage) : nat := match s with Fetching | Reading _ | Cancelling _ => 1 | _ => 0 end.
Definition aboutToFetch (x : Stream) : nat := match stage x with Resuming => if aborted x then 0 else 1 | _ => 0 end.

(** Kept by every event. *)
Record consistent (retried : nat) (x : Stream) : Prop := {
  listening_live : stage x = Retrying true -> aborted x = false;
  stopped_ends : stage x = Finished -> durationArmed x = false;
  reports_bounded : (length (reported x) + inAttempt (stage x) <= fetches x)%nat;
  requests_paced : (fetches x + aboutToFetch x <= S retried)%nat;
}.

Section runs.
Context (parseJSON : jstr -> result jsError value) (onEvent : value -> option jsError) (stops : value -> bool).
Abbreviation react := (react parseJSON onEvent stops).
Abbreviation replay := (replay parseJSON onEvent stops).

Lemma start_consistent d : consistent 0 (start d).
Proof. split; cbn; try done; lia. Qed.

Ltac stream_cases x :=
  destruct x as [stg ab du de re fe]; cbn [stage aborted durationArmed delivered reported fetches] in *.

Lemma stop_consistent n x : consistent n x -> consistent n (stop x).
Proof.
  intros [H1 H3 H4 H5]. stream_cases x. split; cbn in *; try done.
  - destruct stg as [| | |[]| |]; done.
  - destruct stg as [| | |[]| |]; cbn in *; lia.
  - unfold aboutToFetch in *. destruct stg as [| | |[]| |]; cbn in *; lia.
Qed.

Lemma readText_consistent n b d x : stage x = Reading d -> consistent n x -> forall done, consistent n (readText parseJSON onEvent stops b done x).
Proof.
  intros Hs [H1 H3 H4 H5] dn. stream_cases x. subst stg. unfold readText. destruct (pumpAll parseJSON onEvent b) as [l p].
  unfold aboutToFetch in H5. cbn in H4, H5.
  destruct (existsb stops l); (destruct p as [|e|r]; [| |destruct dn; [|unfold nextRead; cbn; try destruct ab]]); (split; cbn; try done; try lia; unfold aboutToFetch; cbn; lia).
Qed.

Lemma react_consistent n x e y : consistent n x -> react x e = Some y -> consistent (n + retries [e]) y.
Proof.
  intros Hx. assert (forall m, (n <= m)%nat -> consistent n y -> consistent m y) as Hm.
  { intros m Hm [G1 G3 G4 G5]. split; try done. lia. }
  destruct e; unfold DiagnosticsStream.react.
  3:{ destruct (stage x) as [|b| | | |] eqn:Es; try done. intros [= <-]. apply Hm; [lia|]. by eapply readText_consistent. }
  8:{ intros [= <-]. apply Hm; [lia|]. by apply stop_consistent. }
  7:{ destruct (durationArmed x); [|done]. intros [= <-]. apply Hm; [lia|]. by apply stop_consistent. }
  all: destruct Hx as [H1 H3 H4 H5]; stream_cases x; destruct stg; try done; intros [= <-]; unfold aboutToFetch in H5; cbn in H4, H5, H1.
  - unfold streamFailed, waitForStreamRetry, nextRead, finish, at_stage. cbn [aborted].
    destruct (negb (responseOk status) || negb hasBody); destruct ab; try destruct (isPermanent status);
      (split; cbn; try done; rewrite ?length_app; unfold aboutToFetch; cbn; lia).
  - unfold streamFailed, waitForStreamRetry. cbn [aborted]. destruct ab; (split; cbn; try done; rewrite ?length_app; unfold aboutToFetch; cbn; lia).
  - split; cbn; try done; unfold aboutToFetch; cbn; lia.
  - destruct r as [[]|e]; [| |unfold streamFailed; cbn [aborted]; destruct ab]; (split; cbn; try done; try (by destruct ab); rewrite ?length_app; unfold aboutToFetch; cbn; lia).
  - split; cbn; try done; unfold aboutToFetch; cbn; try destruct ab; lia.
  - unfold nextAttempt. cbn [aborted]. destruct ab; (split; cbn; try done; unfold aboutToFetch; cbn; lia).
Qed.

Lemma replay_consistent n x es y : consistent n x -> replay x es = Some y -> consistent (n + retries es) y.
Proof.
  revert n x. induction es as [|e es IH]; intros n x Hx; cbn [DiagnosticsStream.replay].
  - intros [= <-]. by rewrite Nat.add_0_r.
  - intros (z & Hz & Hy)%bind_Some. apply (react_consistent n) in Hz; [|done]. apply (IH _ _ Hz) in Hy.
    replace (n + retries (e :: es))%nat with (n + retries [e] + retries es)%nat; [done|]. unfold retries. cbn. destruct e; cbn; lia.
Qed.

(** An aborted stream: every continuation brings it closer to its end. *)
Lemma react_aborted n x e y : consistent n x -> aborted x = true -> react x e = Some y ->
  aborted y = true /\ fetches y = fetches x /\ reported y = reported x /\ (continuations [e] + rank (stage y) <= rank (stage x))%nat.
Proof.
  intros Hx Ha. destruct e; unfold DiagnosticsStream.react.
  3:{ destruct (stage x) as [|b| | | |] eqn:Es; try done. intros [= <-]. stream_cases x. subst stg ab. unfold readText.
      destruct (pumpAll parseJSON onEvent (b ++ text)) as [l p]. destruct (existsb stops l); (destruct p; [| |destruct done]); done. }
  8:{ intros [= <-]. destruct Hx as [H1 _ _ _]. stream_cases x. subst ab. destruct stg as [| | |[]| |]; try done. by specialize (H1 eq_refl). }
  7:{ destruct (durationArmed x); [|done]. intros [= <-]. destruct Hx as [H1 _ _ _]. stream_cases x. subst ab.
      destruct stg as [| | |[]| |]; try done. by specialize (H1 eq_refl). }
  all: destruct Hx as [H1 _ _ _]; stream_cases x; subst ab; destruct stg; try done; intros [= <-]; unfold streamFailed, nextRead, nextAttempt; cbn [aborted].
  - destruct (negb (responseOk status) || negb hasBody); cbn; repeat split; lia.
  - cbn; repeat split; lia.
  - cbn; repeat split; lia.
  - destruct r as [[]|e]; cbn; repeat split; lia.
  - cbn; repeat split; lia.
  - cbn; repeat split; lia.
Qed.

Lemma replay_aborted n x es y : consistent n x -> aborted x = true -> replay x es = Some y ->
  aborted y = true /\ fetches y = fetches x /\ reported y = reported x /\ (continuations es + rank (stage y) <= rank (stage x))%nat.
Proof.
  revert n x. induction es as [|e es IH]; intros n x Hx Ha; cbn [DiagnosticsStream.replay].
  - intros [= <-]. cbn. repeat split; [done|lia].
  - intros (z & Hz & Hy)%bind_Some. destruct (react_aborted n x e z Hx Ha Hz) as (A1 & A2 & A3 & A4).
    apply (react_consistent n) in Hz; [|done]. destruct (IH _ z Hz A1 Hy) as (B1 & B2 & B3 & B4).
    rewrite B2, B3. repeat split; try done. unfold continuations in *. cbn in *. destruct (continues e); cbn in *; lia.
Qed.

(** A stream that has not returned is waiting for something that can happen. *)
Lemma stream_progress x : stage x <> Finished -> exists e y, continues e = true /\ react x e = Some y.
Proof.
  intros Hf. unfold DiagnosticsStream.react. destruct (stage x) as [|b|r|l| |] eqn:Es.
  - exists (Answer 200 true). eauto.
  - exists (ReadText [] true). eauto.
  - exists ReaderCancelled. eauto.
  - exists RetryTimer. eauto.
  - exists RetryResumes. eauto.
  - done.
Qed.

(** ** The chunks of one response *)

(** Reading the chunks of a response is [consume]: the machine ends the attempt
    with the same events and the same outcome. *)
Lemma chunks_consumed x b cs t : stage x = Reading b -> aborted x = false -> (forall v, stops v = false) ->
  exists es y, es `prefix_of` ((fun c => ReadText c false) <$> cs) ++ [ReadText t true]
    /\ replay x es = Some y
    /\ delivered y = delivered x ++ (consume parseJSON onEvent b ((Chunk <$> cs) ++ [Done t])).1
    /\ stage y = Cancelling (consume parseJSON onEvent b ((Chunk <$> cs) ++ [Done t])).2.
Proof.
  intros Hs Ha Hn. assert (forall l, existsb stops l = false) as Hl by (induction l as [|v l IH]; [done|]; cbn; by rewrite Hn).
  revert x b Hs Ha. induction cs as [|c cs IH]; intros x b Hs Ha; cbn [fmap list_fmap app].
  - exists [ReadText t true]. cbn [DiagnosticsStream.replay DiagnosticsStream.react]. rewrite Hs. cbn [mbind option_bind]. eexists. split; [done|]. split; [done|].
    unfold readText. cbn [consume]. destruct (pumpAll parseJSON onEvent (b ++ t)) as [l p]. rewrite Hl. by destruct p.
  - cbn [consume]. destruct (pumpAll parseJSON onEvent (b ++ c)) as [l p] eqn:Ep. change (list_fmap jstr Read Chunk cs) with (Chunk <$> cs).
    destruct p as [|e|r].
    + exists [ReadText c false]. cbn [DiagnosticsStream.replay DiagnosticsStream.react]. rewrite Hs. cbn [mbind option_bind]. eexists.
      split; [by eexists|]. split; [done|]. unfold readText. by rewrite Ep, Hl.
    + exists [ReadText c false]. cbn [DiagnosticsStream.replay DiagnosticsStream.react]. rewrite Hs. cbn [mbind option_bind]. eexists.
      split; [by eexists|]. split; [done|]. unfold readText. by rewrite Ep, Hl.
    + set (x' := readText parseJSON onEvent stops (b ++ c) false x).
      assert (stage x' = Reading r /\ aborted x' = false /\ delivered x' = delivered x ++ l) as (X1 & X2 & X3).
      { unfold x', readText. rewrite Ep, Hl. unfold nextRead. cbn [aborted]. rewrite Ha. done. }
      destruct (IH x' r X1 X2) as (es & y & [k Hp] & Hr & Hd & Hg). exists (ReadText c false :: es), y.
      split. { exists k. cbn. f_equal. exact Hp. }
      split. { cbn [DiagnosticsStream.replay DiagnosticsStream.react]. rewrite Hs. done. }
      destruct (consume parseJSON onEvent r ((Chunk <$> cs) ++ [Done t])) as [l' o]. cbn [fst snd] in *. split; [|done].
      rewrite Hd, X3. by rewrite <- app_assoc.
Qed.
End runs.

(** ** The contract of a stream *)

(** C19: The life of a diagnostics stream, for every interleaving of responses,
    chunks, timers and calls of the caller.  Every request after the first follows a
    retry delay; an attempt reports at most one error; when the loop has returned
    its duration timer is cleared; until then some continuation can run.  Once the
    stream is stopped, by the caller, its duration or the server, no request is
    made and no error is reported any more, and it returns after at most five
    continuations. *)
Theorem stream_lifecycle parseJSON onEvent stops duration es x :
  replay parseJSON onEvent stops (start duration) es = Some x ->
  (fetches x <= S (retries es))%nat /\ (length (reported x) <= fetches x)%nat
  /\ (stage x = Finished -> durationArmed x = false)
  /\ (stage x <> Finished -> exists e y, continues e = true /\ react parseJSON onEvent stops x e = Some y)
  /\ (aborted x = true -> forall es' y, replay parseJSON onEvent stops x es' = Some y ->
        fetches y = fetches x /\ reported y = reported x /\ (continuations es' + rank (stage y) <= 5)%nat).
Proof.
  intros H. pose proof (replay_consistent _ _ _ _ _ _ _ (start_consistent duration) H) as Hc. pose proof Hc as [H1 H3 H4 H5]. cbn in H5.
  split; [lia|]. split; [lia|]. split; [done|]. split; [apply stream_progress|].
  intros Ha es' y Hy. destruct (replay_aborted _ _ _ _ _ _ _ Hc Ha Hy) as (_ & B2 & B3 & B4). split; [done|]. split; [done|].
  assert (rank (stage x) <= 5)%nat by (destruct (stage x); cbn; lia). lia.
Qed.

(** A stream whose first response fails, which is retried and then stopped. *)
Definition sampleRun : list StreamEvent :=
  [Answer 503 false; RetryTimer; RetryResumes; Answer 200 true; ReadText (eventBlock (js "1")) false; Stop].

Lemma stream_lifecycle_witness :
  exists x, replay sampleParse (fun _ => None) (fun _ => false) (start (Number (int 60))) sampleRun = Some x
    /\ aborted x = true /\ delivered x = [Str (js "1")] /\ (fetches x <= 2)%nat.
Proof.
  eexists. split; [vm_compute; reflexivity|]. split; [reflexivity|]. split; [vm_compute; reflexivity|].
  apply (stream_lifecycle sampleParse (fun _ => None) (fun _ => false) (Number (int 60)) sampleRun). vm_compute. reflexivity.
Defined.

(** The parameters of a filter reach the server as they are, whatever characters
    they contain. *)
Lemma filter_roundtrip fractionText c path query :
  streamParameters fractionText query <> [] ->
  Forall (fun p => codeUnits p.1 /\ codeUnits p.2) (streamParameters fractionText query) ->
  exists text, streamUrl fractionText c path query = baseUrl c ++ path ++ js "?" ++ text
    /\ searchParse text = (fun p => (utf8Bytes p.1, utf8Bytes p.2)) <$> streamParameters fractionText query.
Proof.
  intros Hne Hu. exists (searchText (streamParameters fractionText query)). split; [|by apply searchText_roundtrip].
  unfold streamUrl, streamSuffix. by destruct (streamParameters fractionText query).
Qed.

Example filter_text :
  logsUrl (fun _ => []) {| baseUrl := js "/diagnostics/v1"; headers := []; streamRetryMilliseconds := int 1000 |}
    [(js "category", Str (js "a&b c")); (js "instance", Undefined); (js "durationSeconds", Number (int 30))]
  = js "/diagnostics/v1/logs/tail?category=a%26b+c&durationSeconds=30".
Proof. vm_compute. reflexivity. Qed.

(** ** Findings *)

(** A callback that stops the stream still receives the other events of the chunk. *)
Lemma delivered_after_stop :
  exists x, replay sampleParse (fun _ => None) (fun v => bool_decide (v = Str (js "1"))) (start Undefined)
      [Answer 200 true; ReadText (eventBlock (js "1") ++ eventBlock (js "2")) false] = Some x
    /\ aborted x = true /\ delivered x = [Str (js "1"); Str (js "2")].
Proof. eexists. split; [vm_compute; reflexivity|]. split; vm_compute; reflexivity. Qed.

(** A stream stopped while it reads waits for a whole retry delay before it ends:
    the signal is already aborted when the listener is added. *)
Lemma stopped_stream_waits :
  exists x, replay sampleParse (fun _ => None) (fun v => bool_decide (v = Str (js "1"))) (start Undefined)
      [Answer 200 true; ReadText (eventBlock (js "1")) false; ReaderCancelled] = Some x
    /\ aborted x = true /\ stage x = Retrying false
    /\ forall e y, react sampleParse (fun _ => None) (fun _ => false) x e = Some y -> stage y <> Finished.
Proof.
  eexists. split; [vm_compute; reflexivity|]. split; [reflexivity|]. split; [reflexivity|].
  intros e y. destruct e; cbn; try done; intros [= <-]; cbn; done.
Qed.
