(* ===== verification/Persistence.v ===== *)
(** * Persistence client

    sdk/typescript/src/persistence.ts: the durable reads of
    [RealtimePersistenceClient], and how its requests meet the gateway proxy of
    the Node.js example.  fetch and JSON.stringify are parameters: a call either
    throws or makes one request, whose response it then interprets. *)

From stdpp Require Import base tactics option list numbers strings.
From Stdlib Require Import QArith Qround Lia.
From S2P Require Import Prelude JsString JsNumber JsValue Regex.
From S2P Require Import ContractPatterns Paths Effects NodeConfig NodeApp.
#[local] Open Scope Z_scope.

Inductive PersistenceError : Type :=
  | ArgumentTypeError (message : jstr)
  | ArgumentRangeError (message : jstr)
  | RealtimePersistenceError (status : Z).

(** [/[?#{}\\]/u] *)
Definition forbiddenInPath (c : N) : bool := memb c [63; 35; 123; 125; 92]%N.

Definition checkBasePath (basePath : jstr) : result PersistenceError unit :=
  ensure (startsWith (js "/") basePath && negb (startsWith (js "//") basePath)
          && negb (existsb forbiddenInPath basePath) && negb (endsWith (js "/") basePath))
    (ArgumentTypeError (js "Persistence basePath must be a same-origin absolute route prefix.")).

Definition defaultBasePath : jstr := js "/realtime/persistence".

Definition checkId (v : value) : result PersistenceError jstr :=
  match v with
  | Str s => if bool_decide (trim s = []) || bool_decide (128 < length s)%nat
             then Throw (ArgumentTypeError (js "IDs must contain 1 to 128 characters.")) else Ok s
  | _ => Throw (ArgumentTypeError (js "IDs must contain 1 to 128 characters."))
  end.

Definition isSafe (v : value) : bool := match v with Number n => isSafeInteger n | _ => false end.

Definition checkSequence (v : value) : result PersistenceError num :=
  if negb (isSafe v) || nlt (num_of v) (int 0)
  then Throw (ArgumentRangeError (js "Sequence numbers must be nonnegative safe integers.")) else Ok (num_of v).

Definition checkLimit (v : value) : result PersistenceError num :=
  if negb (isSafe v) || nlt (num_of v) (int 1) || ngt (num_of v) (int 1000)
  then Throw (ArgumentRangeError (js "limit must be between 1 and 1000.")) else Ok (num_of v).

Definition kindNumber (v : value) : result PersistenceError Z :=
  if is_str (js "message") v then Ok 0 else if is_str (js "notification") v then Ok 1
  else Throw (ArgumentTypeError (js "Unknown inbox kind.")).

(** A POST request: its URL and the object that is stringified as its body. *)
Record PostRequest := { postUrl : jstr; postBody : value }.

Definition post (basePath path : jstr) (body : value) : PostRequest :=
  {| postUrl := basePath ++ js "/" ++ path; postBody := body |}.

(** The response of [post]; [ok] is [response.ok]. *)
Definition posted (allowMissing : bool) (status : Z) : result PersistenceError unit :=
  if negb ((200 <=? status) && (status <=? 299)) && negb (allowMissing && (status =? 404))
  then Throw (RealtimePersistenceError status) else Ok tt.

Section calls.
Context (basePath : jstr).

Definition read (streamId kind afterSequence limit : value) : result PersistenceError PostRequest :=
  id ← checkId streamId;
  after ← checkSequence afterSequence;
  n ← checkLimit limit;
  k ← kindNumber kind;
  Ok (post basePath (js "records/read")
        (Obj [(js "streamId", Str id); (js "kind", Number (int k)); (js "afterSequence", Number after); (js "limit", Number n)])).

Definition acknowledge (streamId kind throughSequence : value) : result PersistenceError PostRequest :=
  id ← checkId streamId;
  through ← checkSequence throughSequence;
  k ← kindNumber kind;
  Ok (post basePath (js "records/ack")
        (Obj [(js "streamId", Str id); (js "kind", Number (int k)); (js "throughSequence", Number through)])).

Definition getTaskStatus (taskId : value) : result PersistenceError PostRequest :=
  id ← checkId taskId;
  Ok (post basePath (js "tasks/read") (Obj [(js "taskId", Str id)])).

(** [response.status === 404 ? null : await response.json()] *)
Definition taskStatus (status : Z) (body : value) : result PersistenceError value :=
  _ ← posted true status; Ok (if status =? 404 then Null else body).
End calls.

(** ** Requests *)

(** An identifier the gateway receives. *)
Definition validId (id : jstr) : Prop := trim id <> [] /\ (length id <= 128)%nat.

(** The three requests the client can make, with the ranges of their fields. *)
Inductive wellFormed (basePath : jstr) : PostRequest -> Prop :=
  | wf_read id k after n : validId id -> k ∈ [0; 1] -> between 0 (2 ^ 53 - 1) after -> between 1 1000 n ->
      wellFormed basePath (post basePath (js "records/read")
        (Obj [(js "streamId", Str id); (js "kind", Number (int k)); (js "afterSequence", Number after); (js "limit", Number n)]))
  | wf_ack id k through : validId id -> k ∈ [0; 1] -> between 0 (2 ^ 53 - 1) through ->
      wellFormed basePath (post basePath (js "records/ack")
        (Obj [(js "streamId", Str id); (js "kind", Number (int k)); (js "throughSequence", Number through)]))
  | wf_task id : validId id -> wellFormed basePath (post basePath (js "tasks/read") (Obj [(js "taskId", Str id)])).

Lemma checkId_Ok v id : checkId v = Ok id -> validId id.
Proof.
  destruct v as [| | | |s| | |]; try done. cbn. destruct (_ || _) eqn:E; [done|]. intros [= <-].
  apply orb_false_iff in E as [H1%bool_decide_eq_false H2%bool_decide_eq_false]. split; [done|lia].
Qed.

Lemma safe_upper n : isSafeInteger n = true -> ngt n (int (2 ^ 53 - 1)) = false.
Proof.
  destruct n as [| |q]; try done. unfold isSafeInteger, ngt, int. intros [_ H]%andb_true_iff. cbn [nlt]. apply negb_false_iff.
  apply Qle_bool_iff in H. apply Qle_bool_iff. eapply Qle_trans; [apply Qabs.Qle_Qabs|exact H].
Qed.

Lemma checkSequence_Ok v n : checkSequence v = Ok n -> between 0 (2 ^ 53 - 1) n.
Proof.
  unfold checkSequence. destruct v as [| | |m| | | |]; try done. cbn [isSafe num_of]. destruct (_ || _) eqn:E; [done|]. intros [= <-].
  apply orb_false_iff in E as [H1%negb_false_iff H2]. apply safe_between; auto using safe_upper.
Qed.

Lemma checkLimit_Ok v n : checkLimit v = Ok n -> between 1 1000 n.
Proof.
  unfold checkLimit. destruct v as [| | |m| | | |]; try done. cbn [isSafe num_of]. destruct (_ || _) eqn:E; [done|]. intros [= <-].
  apply orb_false_iff in E as [[H1%negb_false_iff H2]%orb_false_iff H3]. by apply safe_between.
Qed.

Lemma kindNumber_Ok v k : kindNumber v = Ok k -> k ∈ [0; 1].
Proof.
  unfold kindNumber. destruct (is_str (js "message") v); [intros [= <-]; left|].
  destruct (is_str (js "notification") v); [intros [= <-]; right; left|done].
Qed.

Lemma read_wellFormed b a1 a2 a3 a4 q : read b a1 a2 a3 a4 = Ok q -> wellFormed b q.
Proof.
  intros (id & H1 & (n & H2 & (m & H3 & (k & H4 & <-%Ok_inj)%bind_Ok)%bind_Ok)%bind_Ok)%bind_Ok.
  apply wf_read; eauto using checkId_Ok, checkSequence_Ok, checkLimit_Ok, kindNumber_Ok.
Qed.
Lemma acknowledge_wellFormed b a1 a2 a3 q : acknowledge b a1 a2 a3 = Ok q -> wellFormed b q.
Proof.
  intros (id & H1 & (n & H2 & (k & H4 & <-%Ok_inj)%bind_Ok)%bind_Ok)%bind_Ok.
  apply wf_ack; eauto using checkId_Ok, checkSequence_Ok, kindNumber_Ok.
Qed.
Lemma getTaskStatus_wellFormed b a1 q : getTaskStatus b a1 = Ok q -> wellFormed b q.
Proof. intros (id & H1 & <-%Ok_inj)%bind_Ok. apply wf_task. eauto using checkId_Ok. Qed.

(** The example application proxies every request of a client with the default
    base path. *)
Lemma wellFormed_proxied config r q :
  wellFormed defaultBasePath q -> method r = js "POST" -> originalUrl r = postUrl q ->
  gateway config r = catch (_ ← call (ProxyWeb (gatewayUrl config) (publicScheme config) (postUrl q)); Ret Handed)
                       (fun _ => Ret (if headersSent r then Handed else Respond unavailable (identity r))).
Proof.
  intros Hq Hm Hu. unfold gateway. rewrite Hm, Hu, (bool_decide_true (js "POST" = js "POST")) by done. cbn [negb orb].
  assert (memb (beforeQuery (postUrl q)) persistencePaths = true) as ->; [|by rewrite andb_false_r].
  destruct Hq; vm_compute; reflexivity.
Qed.

(** Whatever arguments a caller passes, a request leaves the persistence
    client only with identifiers of 1 to 128 characters that are not blank, a
    known inbox kind, sequence numbers in the safe integer range and a limit
    from 1 to 1000, to one of the three persistence routes below its base path;
    and with the default base path the example application hands it to the
    gateway instead of answering 404. *)
Theorem persistence_requests basePath q :
  (exists a1 a2 a3 a4, read basePath a1 a2 a3 a4 = Ok q) \/ (exists a1 a2 a3, acknowledge basePath a1 a2 a3 = Ok q) \/
  (exists a1, getTaskStatus basePath a1 = Ok q) ->
  wellFormed basePath q /\
  (basePath = defaultBasePath -> forall config r, method r = js "POST" -> originalUrl r = postUrl q ->
     gateway config r = catch (_ ← call (ProxyWeb (gatewayUrl config) (publicScheme config) (postUrl q)); Ret Handed)
                          (fun _ => Ret (if headersSent r then Handed else Respond unavailable (identity r)))).
Proof.
  intros H. assert (wellFormed basePath q) as Hq.
  { destruct H as [(? & ? & ? & ? & H)|[(? & ? & ? & H)|(? & H)]];
      eauto using read_wellFormed, acknowledge_wellFormed, getTaskStatus_wellFormed. }
  split; [done|]. intros ->. intros. by apply wellFormed_proxied.
Qed.

Lemma persistence_requests_witness :
  exists q, read defaultBasePath (Str (js "inbox-1")) (Str (js "message")) (Number (int 0)) (Number (int 100)) = Ok q /\
    postUrl q = js "/realtime/persistence/records/read" /\ wellFormed defaultBasePath q.
Proof.
  eexists. split; [vm_compute; reflexivity|]. split; [vm_compute; reflexivity|].
  apply persistence_requests. left. exists (Str (js "inbox-1")), (Str (js "message")), (Number (int 0)), (Number (int 100)). vm_compute. reflexivity.
Defined.

(** A base path that could leave the origin or the route is refused. *)
Example basePath_refused : forallb (fun p => negb (is_ok (checkBasePath (js p)))) ["//evil.example"; "realtime"; "/a?b"; "/a/"; "/{id}"]%string = true.
Proof. vm_compute. reflexivity. Qed.
