(* ===== verification/KubeTools.v ===== *)
(** * Kubernetes helper scripts

    scripts/realtime-redis-secret.mjs and scripts/realtime-certificate.mjs, as
    programs over requests: their command lines, the kubectl calls, the Secret of
    the managed Redis and the cert-manager Certificate.  JSON, the decoding of
    UTF-8 and the contract's URL and address parsers are parameters. *)

From stdpp Require Import base tactics option list numbers strings.
From Stdlib Require Import Lia.
From S2P Require Import Prelude JsString JsNumber JsValue Regex ContractPatterns Contract.
From S2P Require Import Paths Effects Chart.
#[local] Open Scope Z_scope.

(** ** Command lines *)

(** [s.replace(/-([a-z])/g, (_, letter) => letter.toUpperCase())] *)
Fixpoint camelCase (s : jstr) : jstr :=
  match s with
  | [] => []
  | c :: t =>
      match t with
      | d :: u => if (c =? 45)%N && (97 <=? d)%N && (d <=? 122)%N then (d - 32)%N :: camelCase u else c :: camelCase t
      | [] => [c]
      end
  end.

(** [s.replace(/[A-Z]/g, letter => `-${letter.toLowerCase()}`)] *)
Definition kebabCase (s : jstr) : jstr := s ≫= fun c => if (65 <=? c)%N && (c <=? 90)%N then [45%N; (c + 32)%N] else [c].

(** The loop over the arguments; [None] is a request for help. *)
Fixpoint parseFlags (help known : list jstr) (o : list (jstr * value)) (args : list jstr) : result jstr (option (list (jstr * value))) :=
  match args with
  | [] => Ok (Some o)
  | a :: rest =>
      if memb a help then Ok None
      else if bool_decide (a = js "--create-namespace") then parseFlags help known (set_prop (js "createNamespace") (Boolean true) o) rest
      else if bool_decide (a = js "--dry-run") then parseFlags help known (set_prop (js "dryRun") (Boolean true) o) rest
      else if negb (memb a known) then Throw (js "Unknown argument '" ++ a ++ js "'.")
      else match rest with
           | v :: rest' =>
               if bool_decide (v = []) || startsWith (js "--") v then Throw (a ++ js " requires a value.")
               else parseFlags help known (set_prop (camelCase (drop 2 a)) (Str v) o) rest'
           | [] => Throw (a ++ js " requires a value.")
           end
  end.

(** [for (const key of keys) if (!options[key]) throw ...] *)
Fixpoint requireOptions (o : list (jstr * value)) (suffix : jstr) (names : list jstr) : result jstr unit :=
  match names with
  | [] => Ok tt
  | k :: rest =>
      if truthy (get k (Obj o)) then requireOptions o suffix rest
      else Throw (js "--" ++ kebabCase k ++ js " is required" ++ suffix)
  end.

(** [options.k ??= v] *)
Definition defaulted (k v : jstr) (o : list (jstr * value)) : list (jstr * value) :=
  if isNullish (get k (Obj o)) then set_prop k (Str v) o else o.

Definition opt_text (k : string) (o : list (jstr * value)) : jstr := str_of (get (js k) (Obj o)).

Definition secretFlags : list jstr :=
  js <$> ["--config"; "--context"; "--namespace"; "--secret-name"; "--admin-password-file"; "--realtime-password-file";
          "--admin-key"; "--realtime-key"; "--kubectl"]%string.

(** [parse] of realtime-redis-secret.mjs. *)
Definition parseSecretArguments (args : list jstr) : result jstr (option (list (jstr * value))) :=
  parsed ← parseFlags [js "--help"] secretFlags [(js "kubectl", Str (js "kubectl"))] args;
  match parsed with
  | None => Ok None
  | Some o =>
      _ ← requireOptions o (js ".") [js "adminPasswordFile"; js "realtimePasswordFile"];
      let config := truthy (get (js "config") (Obj o)) in
      _ ← ensure (negb (config && existsb (fun k => negb (isUndefined (get k (Obj o))))
                          (js <$> ["context"; "namespace"; "secretName"; "adminKey"; "realtimeKey"]%string)))
            (js "--config cannot be combined with explicit context, namespace, Secret name, or key options.");
      if config then Ok (Some o)
      else
        _ ← requireOptions o (js " when --config is not used.") [js "context"; js "namespace"; js "secretName"];
        Ok (Some (defaulted (js "realtimeKey") (js "realtime") (defaulted (js "adminKey") (js "redis-password") o)))
  end.

Definition certificateFlags : list jstr :=
  js <$> ["--config"; "--issuer-name"; "--issuer-kind"; "--issuer-group"; "--timeout-seconds"; "--kubectl"]%string.

Definition certificateDefaults : list (jstr * value) :=
  [(js "issuerGroup", Str (js "cert-manager.io")); (js "issuerKind", Str (js "ClusterIssuer")); (js "kubectl", Str (js "kubectl"));
   (js "timeoutSeconds", Number (int 300))].

Definition parseCertificateArguments (args : list jstr) : result jstr (option (list (jstr * value))) :=
  parsed ← parseFlags [js "--help"; js "-h"] certificateFlags certificateDefaults args;
  match parsed with
  | None => Ok None
  | Some o =>
      _ ← requireOptions o (js ".") [js "config"; js "issuerName"];
      _ ← ensure (one_of [js "ClusterIssuer"; js "Issuer"] (get (js "issuerKind") (Obj o))) (js "--issuer-kind must be ClusterIssuer or Issuer.");
      _ ← ensure (test dnsSubdomain (opt_text "issuerName" o)) (js "--issuer-name must be a Kubernetes DNS subdomain.");
      _ ← ensure (test dnsSubdomain (opt_text "issuerGroup" o)) (js "--issuer-group must be a Kubernetes DNS subdomain.");
      let timeout := to_numeric (get (js "timeoutSeconds") (Obj o)) in
      _ ← ensure (isInteger timeout && negb (nlt timeout (int 60)) && negb (ngt timeout (int 1800)))
            (js "--timeout-seconds must be an integer from 60 through 1800.");
      Ok (Some (set_prop (js "timeoutSeconds") (Number timeout) o))
  end.

(** ** kubectl *)

Definition kubectl (tool context : jstr) (args : list jstr) (stdin : option jstr) : prog jstr :=
  let full := args ++ [js "--context"; context] in
  child ← call (match stdin with None => Spawn tool full | Some input => SpawnInput tool full input end);
  if strict_eq (get (js "code") child) (Number (int 0)) then Ret (str_of (get (js "stdout") child))
  else fail (js "kubectl " ++ List.hd [] args ++ js " failed with exit code " ++ exitCode_text (get (js "code") child)
             ++ js ": " ++ trim (str_of (get (js "stderr") child))).

(** [if (options.createNamespace) { ... }] *)
Definition ensureNamespace (tool context namespace : jstr) : prog unit :=
  existing ← kubectl tool context
    [js "get"; js "namespace"; namespace; js "--ignore-not-found"; js "--output"; js "name"; js "--request-timeout=15s"] None;
  if bool_decide (trim existing = []) then _ ← kubectl tool context [js "create"; js "namespace"; namespace] None; Ret tt else Ret tt.

(** ** Base64 *)

Definition base64Alphabet : jstr := js "ABCDEFGHIJKLMNOPQRSTUVWXYZabcdefghijklmnopqrstuvwxyz0123456789+/".

Definition sextet (z : Z) : N := default 0%N (base64Alphabet !! Z.to_nat z).

(** [bytes.toString("base64")] *)
Fixpoint base64 (b : list Z) : jstr :=
  match b with
  | x :: y :: z :: rest =>
      sextet (Z.shiftr x 2) :: sextet (Z.lor (Z.shiftl (Z.land x 3) 4) (Z.shiftr y 4))
      :: sextet (Z.lor (Z.shiftl (Z.land y 15) 2) (Z.shiftr z 6)) :: sextet (Z.land z 63) :: base64 rest
  | [x; y] => [sextet (Z.shiftr x 2); sextet (Z.lor (Z.shiftl (Z.land x 3) 4) (Z.shiftr y 4)); sextet (Z.shiftl (Z.land y 15) 2); 61%N]
  | [x] => [sextet (Z.shiftr x 2); sextet (Z.shiftl (Z.land x 3) 4); 61%N; 61%N]
  | [] => []
  end.

(** ** The Secret of the managed Redis *)

Section scripts.
Context (isIP : jstr -> Z) (newURL : value -> option Url) (parseJSON : jstr -> result jsError value) (jsonText : value -> jstr).
Context (utf8 : list Z -> jstr) (cwd : fspath).

(** Trailing CR and LF bytes are dropped. *)
Definition stripNewlines (b : list Z) : list Z :=
  rev ((fix go l := match l with c :: t => if (c =? 10) || (c =? 13) then go t else l | [] => [] end) (rev b)).

Definition normalizePasswordBytes (input : list Z) (label : jstr) : result jstr (list Z) :=
  let normalized := stripNewlines input in
  _ ← ensure (negb (bool_decide (length normalized < 16)%nat)) (label ++ js " must contain at least 16 bytes after trailing CR/LF removal.");
  _ ← ensure (negb (bool_decide (trim (utf8 normalized) = []))) (label ++ js " must not contain only whitespace.");
  _ ← ensure (negb (memb 0 normalized)) (label ++ js " must not contain NUL bytes because Kubernetes environment variables cannot represent them.");
  _ ← ensure (negb (memb 10 normalized || memb 13 normalized)) (label ++ js " must not contain embedded CR or LF bytes.");
  Ok normalized.

(** [Cannot read JSON configuration] and [Configuration is invalid] of both scripts. *)
Definition loadConfiguration (path : jstr) : prog value :=
  let p := resolve cwd path in
  config ← catch (v ← call (ReadFile p); lift (parseJSON (str_of v)))
             (fun e => fail (js "Cannot read JSON configuration '" ++ show_path p ++ js "': " ++ emessage e));
  let errors := validateConfiguration isIP newURL config in
  _ ← refuse (negb (bool_decide (length errors = 0%nat)))
        (js "Configuration is invalid:" ++ [10%N] ++ join [10%N] ((fun e => js "- " ++ Contract.path e ++ js ": " ++ message e) <$> errors));
  Ret config.

Record SecretTarget := {
  t_context : jstr; t_namespace : jstr; t_secretName : jstr; t_adminKey : jstr; t_realtimeKey : jstr; t_kubectl : jstr;
  t_adminFile : jstr; t_realtimeFile : jstr; t_createNamespace : bool; t_dryRun : bool
}.

Definition targetOf (o : list (jstr * value)) (context namespace secretName adminKey realtimeKey : value) : SecretTarget :=
  {| t_context := str_of context; t_namespace := str_of namespace; t_secretName := str_of secretName; t_adminKey := str_of adminKey;
     t_realtimeKey := str_of realtimeKey; t_kubectl := opt_text "kubectl" o; t_adminFile := opt_text "adminPasswordFile" o;
     t_realtimeFile := opt_text "realtimePasswordFile" o; t_createNamespace := truthy (get (js "createNamespace") (Obj o));
     t_dryRun := truthy (get (js "dryRun") (Obj o)) |}.

Definition resolveRedisSecretOptions (o : list (jstr * value)) : prog SecretTarget :=
  let at_ k := get (js k) (Obj o) in
  if negb (truthy (at_ "config"%string)) then Ret (targetOf o (at_ "context") (at_ "namespace") (at_ "secretName") (at_ "adminKey") (at_ "realtimeKey"))%string
  else
    config ← loadConfiguration (opt_text "config" o);
    let redis := get (js "redis") config in
    let kube := get (js "kubernetes") config in
    _ ← refuse (negb (is_str (js "managed") (get (js "mode") redis)))
          (js "--config must select managed Redis before a managed Redis Secret can be applied.");
    Ret (targetOf o (get (js "context") kube) (get (js "namespace") kube) (get (js "credentialsSecret") redis)
           (get (js "adminCredentialKey") redis) (get (js "credentialKey") redis)).

Definition validateOptions (t : SecretTarget) : result jstr SecretTarget :=
  _ ← ensure (test dnsLabel (t_namespace t)) (js "--namespace must be a Kubernetes DNS label.");
  _ ← ensure (test dnsSubdomain (t_secretName t)) (js "--secret-name must be a Kubernetes DNS subdomain.");
  _ ← ensure (test secretKey (t_adminKey t) && test secretKey (t_realtimeKey t)) (js "Secret keys must use Kubernetes Secret key syntax.");
  _ ← ensure (negb (bool_decide (t_adminKey t = t_realtimeKey t))) (js "Administrator and realtime Secret keys must be distinct.");
  Ok t.

Definition secretObject (t : SecretTarget) (admin realtime : list Z) : value :=
  Obj [(js "apiVersion", Str (js "v1")); (js "kind", Str (js "Secret"));
       (js "metadata", Obj [(js "name", Str (t_secretName t)); (js "namespace", Str (t_namespace t))]);
       (js "type", Str (js "Opaque"));
       (js "data", from_entries [(t_adminKey t, Str (base64 admin)); (t_realtimeKey t, Str (base64 realtime))])].

Definition outcome (t : SecretTarget) (changed dryRun : bool) : value :=
  Obj [(js "changed", Boolean changed); (js "dryRun", Boolean dryRun); (js "namespace", Str (t_namespace t)); (js "secretName", Str (t_secretName t))].

(** [applyRedisSecret] once both password files are read. *)
Definition checkPasswords (admin realtime : list Z) : result jstr (list Z * list Z) :=
  a ← normalizePasswordBytes admin (js "Redis administrator password");
  r ← normalizePasswordBytes realtime (js "Realtime ACL password");
  _ ← ensure (negb (bool_decide (a = r))) (js "Redis administrator and realtime ACL passwords must be different.");
  Ok (a, r).

Definition submitSecret (t : SecretTarget) (passwords : list Z * list Z) : prog value :=
  if t_dryRun t then Ret (outcome t false true)
  else
    _ ← whenever (t_createNamespace t) (ensureNamespace (t_kubectl t) (t_context t) (t_namespace t));
    _ ← kubectl (t_kubectl t) (t_context t) [js "apply"; js "--namespace"; t_namespace t; js "--filename"; js "-"]
          (Some (jsonText (secretObject t passwords.1 passwords.2) ++ [10%N]));
    Ret (outcome t true false).

(** The bytes of a file, each a unit of the answer. *)
Definition bytes_of (v : value) : list Z := Z.of_N <$> str_of v.

(** The administrator password is checked before the second file is read. *)
Definition applyRedisSecret (t : SecretTarget) : prog value :=
  a ← call (ReadFile (resolve cwd (t_adminFile t)));
  _ ← throwing (normalizePasswordBytes (bytes_of a) (js "Redis administrator password"));
  r ← call (ReadFile (resolve cwd (t_realtimeFile t)));
  passwords ← throwing (checkPasswords (bytes_of a) (bytes_of r));
  submitSecret t passwords.

(** The main block: the exit code and what is written to standard output. *)
Definition secretMain (args : list jstr) (help : jstr) : prog (Z * jstr) :=
  catch
    (parsed ← throwing (parseSecretArguments args);
     match parsed with
     | None => Ret (0, help)
     | Some o =>
         resolved ← resolveRedisSecretOptions o;
         t ← throwing (validateOptions resolved);
         result ← applyRedisSecret t;
         Ret (0, jsonText result ++ [10%N])
     end)
    (fun e => Ret (2, emessage e ++ [10%N])).

(** ** The Certificate *)

Definition buildCertificateManifest (config : value) (o : list (jstr * value)) : result jstr value :=
  let ingress := get (js "ingress") config in
  _ ← ensure (truthy (get (js "enabled") ingress)) (js "The bootstrap configuration must enable ingress before a Certificate can be applied.");
  _ ← ensure (truthy (get (js "certificateName") ingress)) (js "ingress.certificateName is required when using the certificate helper.");
  Ok (Obj [(js "apiVersion", Str (js "cert-manager.io/v1")); (js "kind", Str (js "Certificate"));
           (js "metadata", Obj [(js "name", get (js "certificateName") ingress); (js "namespace", get (js "namespace") (get (js "kubernetes") config))]);
           (js "spec", Obj [(js "dnsNames", Arr [get (js "host") ingress]);
                            (js "issuerRef", Obj [(js "group", get (js "issuerGroup") (Obj o)); (js "kind", get (js "issuerKind") (Obj o));
                                                  (js "name", get (js "issuerName") (Obj o))]);
                            (js "secretName", get (js "tlsSecretName") ingress)])]).

Definition certificateOutcome (config : value) (changed dryRun : bool) : value :=
  let ingress := get (js "ingress") config in
  Obj [(js "changed", Boolean changed); (js "dryRun", Boolean dryRun); (js "certificate", get (js "certificateName") ingress);
       (js "dnsName", get (js "host") ingress); (js "namespace", get (js "namespace") (get (js "kubernetes") config));
       (js "tlsSecret", get (js "tlsSecretName") ingress)].

Definition applyCertificate (o : list (jstr * value)) : prog value :=
  config ← loadConfiguration (opt_text "config" o);
  manifest ← throwing (buildCertificateManifest config o);
  if truthy (get (js "dryRun") (Obj o)) then Ret (certificateOutcome config false true)
  else
    let context := str_of (get (js "context") (get (js "kubernetes") config)) in
    let namespace := str_of (get (js "namespace") (get (js "kubernetes") config)) in
    let run args stdin := kubectl (opt_text "kubectl" o) context args stdin in
    _ ← whenever (truthy (get (js "createNamespace") (Obj o))) (ensureNamespace (opt_text "kubectl" o) context namespace);
    _ ← run ([js "get"; toLowerCase (opt_text "issuerKind" o); opt_text "issuerName" o; js "--request-timeout=15s"]
             ++ (if is_str (js "Issuer") (get (js "issuerKind") (Obj o)) then [js "--namespace"; namespace] else [])) None;
    _ ← run [js "apply"; js "--namespace"; namespace; js "--filename"; js "-"] (Some (jsonText manifest ++ [10%N]));
    _ ← run [js "wait"; js "--namespace"; namespace; js "--for=condition=Ready";
             js "certificate/" ++ str_of (get (js "certificateName") (get (js "ingress") config));
             js "--timeout=" ++ from_option show_Z [] (to_Z (num_of (get (js "timeoutSeconds") (Obj o)))) ++ js "s"] None;
    Ret (certificateOutcome config true false).

Definition certificateMain (args : list jstr) (help : jstr) : prog (Z * jstr) :=
  catch
    (parsed ← throwing (parseCertificateArguments args);
     match parsed with
     | None => Ret (0, help)
     | Some o => result ← applyCertificate o; Ret (0, jsonText result ++ [10%N])
     end)
    (fun e => Ret (2, emessage e ++ [10%N])).
End scripts.
