(* ===== verification/KubeProps.v ===== *)
(** * Guarantees of the Kubernetes helper scripts

    The Secret carries the passwords exactly and only on standard input; every
    kubectl command names the configured context. *)

From stdpp Require Import base tactics option list numbers strings.
From Stdlib Require Import ZArith Lia.
From S2P Require Import Prelude JsString JsNumber JsValue Regex ContractPatterns Contract.
From S2P Require Import Paths Effects Chart Canonical KubeTools.
#[local] Open Scope Z_scope.

(** ** Base64 *)

Definition byte (z : Z) : Prop := 0 <= z < 2 ^ 8.

(** Joining a shifted value with one below the shift. *)
Lemma lor_shiftl a b k : 0 <= k -> 0 <= b < 2 ^ k -> Z.lor (Z.shiftl a k) b = a * 2 ^ k + b.
Proof.
  intros Hk Hb. rewrite <- Z.shiftl_mul_pow2 by done. symmetry. apply Z.add_nocarry_lor. apply Z.bits_inj'. intros i Hi.
  rewrite Z.land_spec, Z.bits_0. destruct (decide (i < k)) as [Hlt|Hge].
  - rewrite Z.shiftl_spec_low by done. done.
  - destruct (decide (b = 0)) as [->|]; [by rewrite Z.bits_0, andb_false_r|].
    rewrite (Z.bits_above_log2 b i); [apply andb_false_r|lia|]. apply Z.log2_lt_pow2; [lia|].
    pose proof (Z.pow_le_mono_r 2 k i ltac:(lia) ltac:(lia)). lia.
Qed.

Lemma land_low x k : 0 <= k -> Z.land x (Z.ones k) = x mod 2 ^ k.
Proof. intros. by apply Z.land_ones. Qed.

(** The four sextets of three bytes, as numbers. *)
Lemma sextets x y z : byte x -> byte y -> byte z ->
  Z.shiftr x 2 = x / 4 /\ Z.lor (Z.shiftl (Z.land x 3) 4) (Z.shiftr y 4) = x mod 4 * 16 + y / 16 /\
  Z.lor (Z.shiftl (Z.land y 15) 2) (Z.shiftr z 6) = y mod 16 * 4 + z / 64 /\ Z.land z 63 = z mod 64.
Proof.
  unfold byte. intros Hx Hy Hz. change 3 with (Z.ones 2). change 15 with (Z.ones 4). change 63 with (Z.ones 6).
  rewrite !land_low by done. rewrite !Z.shiftr_div_pow2 by done.
  rewrite !lor_shiftl; [done|done|split; [apply Z.div_pos; lia|apply Z.div_lt_upper_bound; lia]|done|].
  split; [apply Z.div_pos; lia|apply Z.div_lt_upper_bound; lia].
Qed.

(** RFC 4648: the number of a character and the decoding of groups of four. *)
Definition sextetValue (c : N) : option Z :=
  Z.of_nat <$> (fst <$> list_find (fun d => d = c) base64Alphabet).

Fixpoint base64Decode (s : jstr) : option (list Z) :=
  match s with
  | [] => Some []
  | a :: b :: c :: d :: rest =>
      va ← sextetValue a; vb ← sextetValue b;
      let o1 := va * 4 + vb / 16 in
      if bool_decide (c = 61%N) then if bool_decide (d = 61%N /\ rest = []) then Some [o1] else None
      else
        vc ← sextetValue c;
        let o2 := vb mod 16 * 16 + vc / 4 in
        if bool_decide (d = 61%N) then if bool_decide (rest = []) then Some [o1; o2] else None
        else vd ← sextetValue d; (fun l => o1 :: o2 :: (vc mod 4 * 64 + vd) :: l) <$> base64Decode rest
  | _ => None
  end.

Lemma sextet_value z : 0 <= z < 64 -> sextetValue (sextet z) = Some z /\ sextet z <> 61%N.
Proof.
  intros Hz. assert (forallb (fun k => bool_decide (sextetValue (sextet k) = Some k /\ sextet k <> 61%N)) (seqZ 0 64) = true) as H
    by (vm_compute; reflexivity).
  rewrite forallb_forall in H. apply (bool_decide_unpack _). rewrite H; [done|]. apply list_elem_of_In, elem_of_seqZ. lia.
Qed.

(** The length of the encoding decreases by groups of three bytes. *)
Lemma three_ind (P : list Z -> Prop) :
  P [] -> (forall x, P [x]) -> (forall x y, P [x; y]) -> (forall x y z l, P l -> P (x :: y :: z :: l)) -> forall l, P l.
Proof.
  intros H0 H1 H2 H3. fix IH 1. intros [|x [|y [|z l]]]; [exact H0|apply H1|apply H2|]. apply H3, IH.
Qed.

Lemma base64_roundtrip b : Forall byte b -> base64Decode (base64 b) = Some b.
Proof.
  induction b as [|x|x y|x y z l IH] using three_ind; intros Hb; [done|..].
  - inversion Hb as [|? ? Hx _]; subst. assert (byte 0) as H0 by done. destruct (sextets x 0 0 Hx H0 H0) as (E1 & E2 & _).
    rewrite Z.lor_0_r in E2. cbn [base64 base64Decode]. rewrite E1, E2. unfold byte in *.
    destruct (sextet_value (x / 4)) as [-> _]; [Z.div_mod_to_equations; lia|].
    destruct (sextet_value (x mod 4 * 16 + 0 / 16)) as [-> _]; [Z.div_mod_to_equations; lia|]. cbn [mbind option_bind].
    rewrite !bool_decide_true by done. do 2 f_equal. Z.div_mod_to_equations; lia.
  - inversion Hb as [|? ? Hx Hb']; subst. inversion Hb' as [|? ? Hy _]; subst. assert (byte 0) as H0 by done.
    destruct (sextets x y 0 Hx Hy H0) as (E1 & E2 & E3 & _). rewrite Z.lor_0_r in E3. cbn [base64 base64Decode]. rewrite E1, E2, E3. unfold byte in *.
    destruct (sextet_value (x / 4)) as [-> _]; [Z.div_mod_to_equations; lia|].
    destruct (sextet_value (x mod 4 * 16 + y / 16)) as [-> _]; [Z.div_mod_to_equations; lia|].
    destruct (sextet_value (y mod 16 * 4 + 0 / 64)) as [-> Hn]; [Z.div_mod_to_equations; lia|]. cbn [mbind option_bind].
    rewrite (bool_decide_false _ Hn), !bool_decide_true by done. do 2 f_equal; [|f_equal]; Z.div_mod_to_equations; lia.
  - inversion Hb as [|? ? Hx Hb']; subst. inversion Hb' as [|? ? Hy Hb'']; subst. inversion Hb'' as [|? ? Hz Hl]; subst.
    destruct (sextets x y z Hx Hy Hz) as (E1 & E2 & E3 & E4). cbn [base64 base64Decode]. rewrite E1, E2, E3, E4. unfold byte in *.
    destruct (sextet_value (x / 4)) as [-> _]; [Z.div_mod_to_equations; lia|].
    destruct (sextet_value (x mod 4 * 16 + y / 16)) as [-> _]; [Z.div_mod_to_equations; lia|].
    destruct (sextet_value (y mod 16 * 4 + z / 64)) as [-> Hn]; [Z.div_mod_to_equations; lia|].
    destruct (sextet_value (z mod 64)) as [-> Hn']; [Z.div_mod_to_equations; lia|]. cbn [mbind option_bind].
    rewrite (bool_decide_false _ Hn), (bool_decide_false _ Hn'), (IH Hl). cbn [fmap option_fmap option_map].
    do 2 f_equal; [|f_equal; [|f_equal]]; Z.div_mod_to_equations; lia.
Qed.

Example base64_sample : base64 (Z.of_N <$> js "hello, Redis") = js "aGVsbG8sIFJlZGlz".
Proof. vm_compute. reflexivity. Qed.

(** ** Confinement of the passwords *)

(** A request without the text written to a child's standard input. *)
Definition withoutInput (r : request) : request := match r with SpawnInput f args _ => SpawnInput f args [] | _ => r end.

(** Programs that only run commands without standard input. *)
Inductive plain {A} : prog A -> Prop :=
  | plain_ret a : plain (Ret a)
  | plain_raise e : plain (Raise e)
  | plain_call f args k : (forall x, plain (k x)) -> plain (Call (Spawn f args) k).
#[local] Hint Constructors plain : requests.

Lemma plain_bind {A B} (p : prog A) (f : A -> prog B) : plain p -> (forall a, plain (f a)) -> plain (p ≫= f).
Proof. induction 1; intros Hf; cbn; auto with requests. Qed.

(** What an observer of the requests sees. *)
Definition visible (h : history) : list request := withoutInput <$> requests h.

(** Two environments that answer commands without standard input alike, from what
    an observer sees of the requests before. *)
Definition alike (o o' : oracle) : Prop :=
  forall h h' f args, visible h = visible h' -> o h (Spawn f args) = o' h' (Spawn f args).

Lemma visible_snoc h r x : visible (h ++ [(r, x)]) = visible h ++ [withoutInput r].
Proof. unfold visible, requests. by rewrite !fmap_app. Qed.

Lemma plain_exec {A} o o' h h' (p : prog A) : alike o o' -> visible h = visible h' -> plain p ->
  visible (exec (recording o) h p).1 = visible (exec (recording o') h' p).1 /\ (exec (recording o) h p).2 = (exec (recording o') h' p).2.
Proof.
  intros Ho Hh Hp. revert h h' Hh. induction Hp as [a|e|f args k _ IH]; intros h h' Hh; [done|done|]. cbn [exec].
  unfold recording at 1 3 5 7. cbv zeta. rewrite (Ho h h' f args Hh). apply IH. by rewrite !visible_snoc, Hh.
Qed.

Lemma ensureNamespace_plain tool context namespace : plain (ensureNamespace tool context namespace).
Proof.
  assert (forall args, plain (kubectl tool context args None)) as Hk.
  { intros args. apply plain_bind; [apply plain_call; intros []; constructor|]. intros child. destruct (strict_eq _ _); constructor. }
  unfold ensureNamespace. apply plain_bind; [apply Hk|]. intros existing. case_bool_decide; [|constructor].
  apply plain_bind; [apply Hk|]. constructor.
Qed.

(** The command that got standard input came last and did not end with exit code 0. *)
Definition applyFailed (h : history) : Prop :=
  exists h0 f args input x, h = h0 ++ [(SpawnInput f args input, x)] /\
    match x with Ok child => get (js "code") child <> Number (int 0) | Throw _ => True end.

(** A command with standard input is one request, which gives an output or fails. *)
Lemma kubectl_input o h tool context args input :
  let e := exec (recording o) h (kubectl tool context args (Some input)) in
  e.1 = h ++ [(SpawnInput tool (args ++ [js "--context"; context]) input, o h (SpawnInput tool (args ++ [js "--context"; context]) input))] /\
  ((exists out, e.2 = Ok out) \/ applyFailed e.1).
Proof.
  cbv zeta. unfold kubectl. cbv zeta. set (r := SpawnInput _ _ _). rewrite exec_bind. cbn [call exec recording].
  destruct (o h r) as [child|e] eqn:E; [|split; [done|right; unfold applyFailed, r; by repeat eexists]].
  cbn [exec]. destruct (strict_eq (get (js "code") child) (Number (int 0))) eqn:Es; cbn [exec fst snd].
  - split; [done|]. eauto.
  - split; [done|]. right. unfold applyFailed, r. do 5 eexists. split; [done|]. cbn. intros Ec. by rewrite Ec in Es.
Qed.

Lemma submit_exec jsonText t p p' o o' h h' : alike o o' -> visible h = visible h' ->
  let e := exec (recording o) h (submitSecret jsonText t p) in
  let e' := exec (recording o') h' (submitSecret jsonText t p') in
  visible e.1 = visible e'.1 /\ (e.2 = e'.2 \/ applyFailed e.1 \/ applyFailed e'.1).
Proof.
  intros Ho Hh. cbv zeta. unfold submitSecret. destruct (t_dryRun t); [auto|].
  set (pre := whenever _ _). assert (plain pre) as Hp.
  { unfold pre, whenever. destruct (t_createNamespace t); [|constructor]. apply plain_bind; [apply ensureNamespace_plain|constructor]. }
  rewrite !(exec_bind _ _ pre). destruct (plain_exec o o' h h' pre Ho Hh Hp) as [Hv Hr].
  destruct (exec (recording o) h pre) as [h1 r1], (exec (recording o') h' pre) as [h2 r2]. cbn [fst snd] in Hv, Hr. subst r2.
  destruct r1 as [u|e]; [|auto]. rewrite !(exec_bind _ _ (kubectl _ _ _ _)).
  set (args := [js "apply"; js "--namespace"; t_namespace t; js "--filename"; js "-"]).
  match goal with |- context [exec (recording o) h1 (kubectl ?tool ?c args (Some ?i))] =>
    destruct (kubectl_input o h1 tool c args i) as [E1 R1]; destruct (exec (recording o) h1 (kubectl tool c args (Some i))) as [g1 q1] end.
  match goal with |- context [exec (recording o') h2 (kubectl ?tool ?c args (Some ?i))] =>
    destruct (kubectl_input o' h2 tool c args i) as [E2 R2]; destruct (exec (recording o') h2 (kubectl tool c args (Some i))) as [g2 q2] end.
  cbn [fst snd] in *. assert (visible g1 = visible g2) as Hg by (rewrite E1, E2, !visible_snoc, Hv; done).
  destruct q1, q2; cbn [exec fst snd]; split; auto; destruct R1 as [[? ?]|?], R2 as [[? ?]|?]; auto; done.
Qed.

(** The environment in which the two password files hold the given texts. *)
Definition holding (a r : fspath) (admin realtime : jstr) (o : oracle) : oracle := fun h q =>
  match q with
  | ReadFile p => if decide (p = a) then Ok (Str admin) else if decide (p = r) then Ok (Str realtime) else o h q
  | _ => o h q
  end.

Lemma checkPasswords_admin utf8 a r p : checkPasswords utf8 a r = Ok p ->
  exists n, normalizePasswordBytes utf8 a (js "Redis administrator password") = Ok n.
Proof. intros (n & Hn & _)%bind_Ok. eauto. Qed.

Lemma apply_exec jsonText utf8 cwd t o admin realtime p :
  resolve cwd (t_adminFile t) <> resolve cwd (t_realtimeFile t) ->
  checkPasswords utf8 (bytes_of (Str admin)) (bytes_of (Str realtime)) = Ok p ->
  let o' := holding (resolve cwd (t_adminFile t)) (resolve cwd (t_realtimeFile t)) admin realtime o in
  run o' (applyRedisSecret jsonText utf8 cwd t) =
  exec (recording o') [(ReadFile (resolve cwd (t_adminFile t)), Ok (Str admin)); (ReadFile (resolve cwd (t_realtimeFile t)), Ok (Str realtime))]
    (submitSecret jsonText t p).
Proof.
  intros Hn Hp o'. destruct (checkPasswords_admin _ _ _ _ Hp) as [n Hadmin]. unfold run, applyRedisSecret.
  rewrite exec_bind, (recording_call_Ok _ _ _ (Str admin)) by (unfold o', holding; by rewrite decide_True).
  rewrite Hadmin, exec_bind. cbn [throwing exec].
  rewrite exec_bind, (recording_call_Ok _ _ _ (Str realtime)) by (unfold o', holding; by rewrite decide_False, decide_True).
  rewrite Hp, exec_bind. reflexivity.
Qed.

(** C40: For two pairs of texts in two distinct password files that both pass the
    checks, and commands without standard input that answer alike (they do not see
    the passwords): the script makes the same requests, files read and commands run
    with their arguments, up to the text written to the standard input of kubectl
    apply; and it ends with the same result or error, unless kubectl apply itself
    failed in one of the two runs (then the error holds what kubectl wrote to its
    standard error, see [quoted_password_shown]). *)
Theorem passwords_confined jsonText utf8 cwd t o a r p a' r' p' :
  resolve cwd (t_adminFile t) <> resolve cwd (t_realtimeFile t) -> alike o o ->
  checkPasswords utf8 (bytes_of (Str a)) (bytes_of (Str r)) = Ok p ->
  checkPasswords utf8 (bytes_of (Str a')) (bytes_of (Str r')) = Ok p' ->
  let with_ a r := run (holding (resolve cwd (t_adminFile t)) (resolve cwd (t_realtimeFile t)) a r o) (applyRedisSecret jsonText utf8 cwd t) in
  visible (with_ a r).1 = visible (with_ a' r').1 /\
  ((with_ a r).2 = (with_ a' r').2 \/ applyFailed (with_ a r).1 \/ applyFailed (with_ a' r').1).
Proof.
  intros Hn Ho Hp Hp' with_. unfold with_. rewrite (apply_exec _ _ _ _ _ _ _ p), (apply_exec _ _ _ _ _ _ _ p') by done.
  apply submit_exec; [|done]. intros h h' f args Hh. by apply Ho.
Qed.

Lemma get_from_entries k l : NoDup (keys l) -> get k (from_entries l) = default Undefined (assoc k l).
Proof.
  intros Hn. destruct (from_entries_Permutation l Hn) as (l' & -> & Hp). cbn [get].
  rewrite <- (assoc_Permutation k l l'); [done|by symmetry|done].
Qed.

Lemma stripNewlines_Forall (P : Z -> Prop) b : Forall P b -> Forall P (stripNewlines b).
Proof.
  intros H. unfold stripNewlines. apply Forall_rev. apply Forall_rev in H. induction H as [|c l Hc Hl IH]; [constructor|].
  destruct (_ || _); [done|by constructor].
Qed.

Lemma normalize_Ok utf8 b label n : normalizePasswordBytes utf8 b label = Ok n ->
  n = stripNewlines b /\ (16 <= length n)%nat /\ (0 ∉ n) /\ (10 ∉ n) /\ (13 ∉ n).
Proof.
  unfold normalizePasswordBytes. cbv zeta.
  intros (? & H1%ensure_Ok & (? & _ & (? & H3%ensure_Ok & (? & H4%ensure_Ok & <-%Ok_inj)%bind_Ok)%bind_Ok)%bind_Ok)%bind_Ok.
  apply negb_true_iff in H1, H3, H4. apply bool_decide_eq_false in H1. apply orb_false_iff in H4 as [H4 H5].
  split_and!; [done|lia|..]; intros Hin%memb_spec; congruence.
Qed.

(** The Secret that is applied carries exactly the two passwords, without
    their trailing line ends: decoding the entries under the two (distinct) keys
    gives them back, they differ, and neither is shorter than 16 bytes or
    contains a NUL, CR or LF byte. *)
Theorem secret_roundtrip utf8 t t' admin realtime p :
  validateOptions t = Ok t' -> Forall byte admin -> Forall byte realtime -> checkPasswords utf8 admin realtime = Ok p ->
  exists s1 s2, get (t_adminKey t') (get (js "data") (secretObject t' p.1 p.2)) = Str s1 /\
    get (t_realtimeKey t') (get (js "data") (secretObject t' p.1 p.2)) = Str s2 /\
    base64Decode s1 = Some (stripNewlines admin) /\ base64Decode s2 = Some (stripNewlines realtime) /\
    stripNewlines admin <> stripNewlines realtime /\
    Forall (fun b => (16 <= length b)%nat /\ (0 ∉ b) /\ (10 ∉ b) /\ (13 ∉ b)) [stripNewlines admin; stripNewlines realtime].
Proof.
  intros Hv Ha Hr Hp.
  apply bind_Ok in Hv as (? & _ & Hv). apply bind_Ok in Hv as (? & _ & Hv). apply bind_Ok in Hv as (? & _ & Hv).
  apply bind_Ok in Hv as (? & Hk%ensure_Ok & <-%Ok_inj). apply negb_true_iff, bool_decide_eq_false in Hk.
  apply bind_Ok in Hp as (a & (-> & Ha1 & Ha2)%normalize_Ok & Hp). apply bind_Ok in Hp as (r & (-> & Hr1 & Hr2)%normalize_Ok & Hp).
  apply bind_Ok in Hp as (? & Hne%ensure_Ok & <-%Ok_inj). apply negb_true_iff, bool_decide_eq_false in Hne.
  exists (base64 (stripNewlines admin)), (base64 (stripNewlines realtime)).
  assert (forall k, get k (get (js "data") (secretObject t (stripNewlines admin) (stripNewlines realtime))) =
    default Undefined (assoc k [(t_adminKey t, Str (base64 (stripNewlines admin))); (t_realtimeKey t, Str (base64 (stripNewlines realtime)))])) as Hg.
  { intros k. apply get_from_entries. cbn. repeat constructor; [|by intros ?%elem_of_nil]. intros ?%list_elem_of_singleton. done. }
  cbn [fst snd]. rewrite !Hg. cbn [assoc fst snd]. rewrite decide_True, decide_False, decide_True by congruence.
  split_and!; auto using base64_roundtrip, stripNewlines_Forall.
Qed.

Definition sampleTarget : SecretTarget :=
  {| t_context := js "kind-dev"; t_namespace := js "realtime"; t_secretName := js "redis-auth"; t_adminKey := js "redis-password";
     t_realtimeKey := js "realtime"; t_kubectl := js "kubectl"; t_adminFile := js "admin.txt"; t_realtimeFile := js "realtime.txt";
     t_createNamespace := false; t_dryRun := false |}.

Definition sampleUtf8 (b : list Z) : jstr := Z.to_N <$> b.
Definition samplePassword (s : string) : jstr := js s ++ [10%N].

Lemma secret_roundtrip_witness :
  exists s1, get (js "realtime") (get (js "data") (secretObject sampleTarget (Z.of_N <$> js "administrator-password") (Z.of_N <$> js "realtime-password-1"))) = Str s1 /\
    base64Decode s1 = Some (Z.of_N <$> js "realtime-password-1").
Proof.
  destruct (secret_roundtrip sampleUtf8 sampleTarget sampleTarget (bytes_of (Str (samplePassword "administrator-password")))
    (bytes_of (Str (samplePassword "realtime-password-1")))
    (Z.of_N <$> js "administrator-password", Z.of_N <$> js "realtime-password-1")) as (s1 & s2 & _ & H2 & _ & H4 & _).
  - vm_compute. reflexivity.
  - apply (bool_decide_unpack _). vm_compute. reflexivity.
  - apply (bool_decide_unpack _). vm_compute. reflexivity.
  - vm_compute. reflexivity.
  - exists s2. split; [exact H2|]. rewrite H4. vm_compute. reflexivity.
Defined.

(** Every command succeeds and prints nothing. *)
Definition sampleCommands : oracle := fun _ q =>
  match q with Spawn _ _ | SpawnInput _ _ _ => Ok (Obj [(js "code", Number (int 0))]) | _ => Throw (newError []) end.

Definition sampleRun (a r : string) : history * result jsError value :=
  run (holding (resolve [] (js "admin.txt")) (resolve [] (js "realtime.txt")) (samplePassword a) (samplePassword r) sampleCommands)
    (applyRedisSecret (fun _ => js "{}") sampleUtf8 [] sampleTarget).

Lemma passwords_confined_witness :
  visible (sampleRun "administrator-password" "realtime-password-1").1 =
  visible (sampleRun "another-administrator" "another-realtime-password").1 /\
  (sampleRun "administrator-password" "realtime-password-1").2 = Ok (outcome sampleTarget true false).
Proof.
  destruct (passwords_confined (fun _ => js "{}") sampleUtf8 [] sampleTarget sampleCommands
    (samplePassword "administrator-password") (samplePassword "realtime-password-1")
    (Z.of_N <$> js "administrator-password", Z.of_N <$> js "realtime-password-1")
    (samplePassword "another-administrator") (samplePassword "another-realtime-password")
    (Z.of_N <$> js "another-administrator", Z.of_N <$> js "another-realtime-password")) as [Hv _].
  - vm_compute. discriminate.
  - intros h h' f args Hh. reflexivity.
  - vm_compute. reflexivity.
  - vm_compute. reflexivity.
  - split; [exact Hv|vm_compute; reflexivity].
Defined.

(** A kubectl that rejects its input and quotes it, and a JSON text that holds the
    entry of the realtime password. *)
Definition quotingCommands : oracle := fun _ q =>
  match q with
  | SpawnInput _ _ input => Ok (Obj [(js "code", Number (int 1)); (js "stderr", Str (js "error: invalid object: " ++ input))])
  | _ => Throw (newError [])
  end.
Definition entryText (v : value) : jstr := str_of (get (js "realtime") (get (js "data") v)).

(** The text that kubectl writes to its standard error becomes the message of the
    error that the script prints: a kubectl that quotes its input puts the encoded
    password there. *)
Lemma quoted_password_shown :
  (run (holding (resolve [] (js "admin.txt")) (resolve [] (js "realtime.txt")) (samplePassword "administrator-password")
          (samplePassword "realtime-password-1") quotingCommands)
     (applyRedisSecret entryText sampleUtf8 [] sampleTarget)).2 =
  Throw (newError (js "kubectl apply failed with exit code 1: error: invalid object: " ++ base64 (Z.of_N <$> js "realtime-password-1"))).
Proof. vm_compute. reflexivity. Qed.

(** ** Contexts *)

(** A command that ends with the context option. *)
Definition inContext (context : jstr) (r : request) : Prop :=
  match r with Spawn _ args | SpawnInput _ args _ => exists a, args = a ++ [js "--context"; context] | _ => True end.

Lemma kubectl_inContext tool context args s : only (inContext context) (kubectl tool context args s).
Proof.
  unfold kubectl. cbv zeta. apply only_bind; [|intros child; only_step; only_step]. apply only_call.
  destruct s; cbn; eauto.
Qed.

Lemma ensureNamespace_inContext tool context namespace : only (inContext context) (ensureNamespace tool context namespace).
Proof.
  unfold ensureNamespace. apply only_bind; [apply kubectl_inContext|]. intros existing. case_bool_decide; [|apply only_ret].
  apply only_bind; [apply kubectl_inContext|]. intros. apply only_ret.
Qed.

(** Every command of the Secret script names the context of its target. *)
Lemma applyRedisSecret_inContext jsonText utf8 cwd t : only (inContext (t_context t)) (applyRedisSecret jsonText utf8 cwd t).
Proof.
  unfold applyRedisSecret. repeat (apply only_bind; [first [by apply only_call|apply only_throwing]|intros ?]).
  unfold submitSecret. destruct (t_dryRun t); [apply only_ret|]. apply only_bind; [apply only_whenever, ensureNamespace_inContext|].
  intros _. apply only_bind; [apply kubectl_inContext|]. intros. apply only_ret.
Qed.
