(* ===== verification/LayoutProps.v ===== *)
(** * Crash safety of the environment organization

    The moves of organizeBootstrapEnvironment are written ahead: whenever a file
    is moved, the manifest already on disk lists that move and every earlier one,
    so that a restore after a crash at any point finds them all. *)

From stdpp Require Import base tactics option list numbers strings.
From Stdlib Require Import Lia.
From S2P Require Import Prelude JsString JsNumber JsValue JsDate Paths Effects Contract ContractPlan Canonical Layout.
#[local] Open Scope Z_scope.

(** The monitor: the content of the manifest on disk, the last file written, and
    the moves attempted so far. *)
Record Disk := mkDisk {
  durable : option jstr;
  lastWrite : option (fspath * jstr);
  attempted : list (fspath * fspath)
}.

Section ahead.
Context (jsonText : value -> jstr) (bootstrapRoot manifestPath : fspath).

(** A file renamed to the manifest's path replaces it; any other rename is a move. *)
Definition onDisk (d : Disk) (r : request) (x : response) : Disk :=
  match r with
  | WriteFile p c => mkDisk (durable d) (if is_ok x then Some (p, c) else lastWrite d) (attempted d)
  | Rename p q =>
      if decide (q = manifestPath) then
        if is_ok x then mkDisk (match lastWrite d with Some (p', c) => if decide (p = p') then Some c else None | None => None end)
                          (lastWrite d) (attempted d)
        else d
      else mkDisk (durable d) (lastWrite d) (attempted d ++ [(p, q)])
  | _ => d
  end.

(** The moves a restore would find in a manifest. *)
Definition listed (m : Manifest) (pq : fspath * fspath) : Prop :=
  exists move, move ∈ recordedMoves (manifestValue m) /\
    pq = (resolve bootstrapRoot (moveSource move), resolve bootstrapRoot (moveDestination move)).

Definition textOf (m : Manifest) : jstr := stableJson jsonText (manifestValue m).

(** The manifest on disk is one that lists the given moves. *)
Definition covered (d : Disk) (l : list (fspath * fspath)) : Prop :=
  exists m, durable d = Some (textOf m) /\ Forall (listed m) l.

Definition writtenAhead (d : Disk) (r : request) : Prop :=
  match r with
  | Rename p q => q = manifestPath \/ covered d (attempted d ++ [(p, q)])
  | _ => True
  end.

Abbreviation safe := (ok writtenAhead onDisk).

(** Requests that neither write nor rename leave the monitor alone. *)
Definition harmless (r : request) : Prop := match r with WriteFile _ _ | Rename _ _ => False | _ => True end.

Lemma safe_harmless {A} d (p : prog A) : only harmless p -> safe d p (fun d' _ => d' = d).
Proof.
  intros H. induction p as [a|e|r k IH]; cbn [ok]; [done|done|]. destruct H as [Hr H].
  assert (forall x, onDisk d r x = d) as Hd by (intros x; by destruct r).
  split; [by destruct r|]. intros x. rewrite Hd. apply IH, H.
Qed.

(** Saving a manifest: the manifest on disk is the old or the new one, and the new
    one if the save succeeded. *)
Lemma safe_save d m :
  safe d (saveManifest jsonText manifestPath m) (fun d' r => attempted d' = attempted d /\
    (durable d' = durable d \/ durable d' = Some (textOf m)) /\ (is_ok r = true -> durable d' = Some (textOf m))).
Proof.
  unfold saveManifest, atomicWrite. apply ok_bind, ok_call; [done|]. intros [u1|e]; [|by split_and!; [|left|]].
  apply ok_bind, ok_call; [done|]. intros [pid|e]; [|by split_and!; [|left|]].
  apply ok_bind, ok_call; [done|]. intros [u2|e]; [|by split_and!; [|left|]]. cbn [onDisk is_ok].
  apply ok_bind, ok_call; [by left|]. intros [u3|e]; cbn [onDisk is_ok durable lastWrite attempted].
  - rewrite decide_True by done. cbn [ok is_ok durable lastWrite attempted]. rewrite decide_True by done. by split_and!; [|right|].
  - rewrite decide_True by done. by split_and!; [|left|].
Qed.

Lemma recorded_moves m :
  recordedMoves (manifestValue m) =
  match currentMove m with
  | Some v => if truthy v && negb (existsb (fun move => sameMove move v) (completedMoves m)) then completedMoves m ++ [v] else completedMoves m
  | None => completedMoves m
  end.
Proof. destruct m as [a b c d e f g [v|] [err|]]; reflexivity. Qed.

Lemma strict_eq_str v w : strict_eq v w = true -> str_of v = str_of w.
Proof. destruct v, w; try done. cbn. by intros ->%bool_decide_eq_true. Qed.

Lemma sameMove_paths v w : sameMove v w = true -> moveSource v = moveSource w /\ moveDestination v = moveDestination w.
Proof. unfold sameMove, moveSource, moveDestination. intros [H1%strict_eq_str H2%strict_eq_str]%andb_true_iff. done. Qed.

Definition paths (move : value) : fspath * fspath := (resolve bootstrapRoot (moveSource move), resolve bootstrapRoot (moveDestination move)).

Lemma listed_completed m move : currentMove m = None -> move ∈ completedMoves m -> listed m (paths move).
Proof. intros Hc Hm. exists move. split; [|done]. by rewrite recorded_moves, Hc. Qed.

(** Announcing a move keeps what was listed and lists the move. *)
Lemma listed_current m move pq : currentMove m = None -> isRecord move = true -> listed m pq \/ pq = paths move ->
  listed (with_current (Some move) m) pq.
Proof.
  intros Hc Hr H. destruct move as [| | | | | |l|]; try done. unfold listed. rewrite recorded_moves. cbn [currentMove with_current completedMoves truthy andb].
  destruct H as [(mv & Hm & ->)| ->].
  - rewrite recorded_moves, Hc in Hm. exists mv. split; [|done]. destruct (negb _); [apply elem_of_app; by left|done].
  - destruct (existsb _ _) eqn:E; cbn [negb].
    + apply existsb_exists in E as (mv & Hin%list_elem_of_In & [Hs Hd]%sameMove_paths). exists mv. split; [done|].
      unfold paths. by rewrite Hs, Hd.
    + eexists. split; [apply elem_of_app; right; by left|done].
Qed.

(** Completing the announced move keeps what was listed. *)
Lemma listed_complete m move pq : currentMove m = None -> listed (with_current (Some move) m) pq ->
  listed (with_completed move (with_current (Some move) m)) pq.
Proof.
  intros Hc (mv & Hm & ->). exists mv. split; [|done]. rewrite recorded_moves in *. cbn [currentMove with_current with_completed completedMoves] in *.
  destruct (_ && _) in Hm; [done|]. apply elem_of_app. by left.
Qed.

Lemma listed_status m s e pq : listed m pq -> listed (with_status s e m) pq.
Proof. intros (mv & Hm & ->). exists mv. split; [|done]. by rewrite recorded_moves in *. Qed.

(** The state between moves, and the weaker one a failed move leaves. *)
Definition between (d : Disk) (m : Manifest) : Prop :=
  durable d = Some (textOf m) /\ currentMove m = None /\ Forall (listed m) (attempted d).
Definition stopped (d : Disk) (m : Manifest) : Prop := Forall (listed m) (attempted d) /\ covered d (attempted d).

Lemma between_stopped d m : between d m -> stopped d m.
Proof. intros (H1 & _ & H3). split; [done|]. by exists m. Qed.

Lemma only_checkSegments current segments label : only harmless (checkSegments current segments label).
Proof.
  revert current. induction segments as [|w l IH]; intros current; [apply only_ret|]. cbn [checkSegments]. cbv zeta.
  apply only_bind; [|intros []; [apply IH|apply only_ret]].
  apply only_catch; [apply only_bind; [by apply only_call|]|]; repeat only_step.
Qed.

(** After a save, the state of the manifest that was saved, or of the old one. *)
Lemma safe_save_stopped d m m' : stopped d m -> Forall (listed m') (attempted d) ->
  safe d (saveManifest jsonText manifestPath m') (fun d' r => stopped d' m' /\ attempted d' = attempted d /\ (is_ok r = true -> durable d' = Some (textOf m'))).
Proof.
  intros [_ (m0 & Hd & Hl)] Hl'. eapply ok_weaken; [apply safe_save|]. intros d' r (Ha & Hdur & Hok). split_and!; [|done|done].
  split; [by rewrite Ha|]. rewrite Ha. destruct Hdur as [E|E]; [exists m0; by rewrite E|by exists m'].
Qed.

(** What a move may be: an object, whose destination is not the manifest. *)
Definition movable (move : value) : Prop := isRecord move = true /\ (paths move).2 <> manifestPath.

(** The state after a move that returned a manifest and maybe an error. *)
Definition moved (d : Disk) (r : result jsError (Manifest * option jsError)) : Prop :=
  match r with
  | Ok (m, None) => between d m
  | Ok (m, Some _) => stopped d m
  | Throw _ => covered d (attempted d)
  end.

Lemma only_prepare p1 p2 (l1 l2 : jstr) d0 :
  only harmless (catch (_ ← assertNoSymlinkSegments p1 p2 false l1; _ ← call (MkdirP d0); _ ← assertNoSymlinkSegments p1 p2 false l2; Ret None)
                   (fun e => Ret (Some e))).
Proof.
  apply only_catch; [|intros; apply only_ret]. apply only_bind; [apply only_checkSegments|]. intros _.
  apply only_bind; [by apply only_call|]. intros _. apply only_bind; [apply only_checkSegments|]. intros. apply only_ret.
Qed.

Lemma safe_applyMove d m move : movable move -> between d m -> safe d (applyMove jsonText bootstrapRoot manifestPath move m) moved.
Proof.
  intros [Hr Hd] Hb. pose proof Hb as (Hdur & Hc & Hl). unfold applyMove. cbv zeta.
  set (source := resolve bootstrapRoot (moveSource move)). set (destination := resolve bootstrapRoot (moveDestination move)).
  set (m1 := with_current (Some move) m). set (m2 := with_completed move m1).
  assert (Forall (listed m1) (attempted d)) as Hl1 by (eapply Forall_impl; [exact Hl|]; intros pq Hpq; by apply listed_current; auto).
  assert (listed m1 (source, destination)) as Hmv by (apply listed_current; auto).
  apply ok_bind. eapply ok_weaken; [apply safe_harmless, only_prepare|]. intros d1 [[e|]|e] ->; [by apply between_stopped| |].
  2: { by apply between_stopped in Hb as [_ ?]. }
  apply ok_bind, ok_catch, ok_bind. eapply ok_weaken; [apply (safe_save_stopped d m m1); [by apply between_stopped|done]|].
  intros d1 [u|e] (Hs1 & Ha1 & Hok1).
  2: { cbn [ok]. split; [by rewrite Ha1|]. apply Hs1. }
  specialize (Hok1 eq_refl). apply ok_bind, ok_call.
  { right. exists m1. split; [done|]. rewrite Ha1. apply Forall_app. split; [done|by constructor]. }
  intros x. cbn [onDisk]. rewrite decide_False by done.
  assert (Forall (listed m1) (attempted d1 ++ [(source, destination)])) as Hl2
    by (rewrite Ha1; apply Forall_app; split; [done|by constructor]).
  destruct x as [v|e]; cbn [ok].
  2: { split; [done|]. by exists m1. }
  set (d2 := mkDisk _ _ _). apply ok_bind, ok_catch, ok_bind.
  assert (stopped d2 m1) as Hs2 by (split; [done|by exists m1]).
  assert (Forall (listed m2) (attempted d2)) as Hl3 by (eapply Forall_impl; [exact Hl2|]; intros pq Hpq; by apply listed_complete).
  eapply ok_weaken; [apply (safe_save_stopped d2 m1 m2); done|]. intros d3 [u'|e] (Hs3 & Ha3 & Hok3); cbn [ok moved]; [|done].
  split_and!; [by apply Hok3|done|]. by rewrite Ha3.
Qed.

Lemma safe_applyMoves d m l : Forall movable l -> between d m -> safe d (applyMoves jsonText bootstrapRoot manifestPath l m) moved.
Proof.
  intros Hl. revert d m. induction Hl as [|move l Hm _ IH]; intros d m Hb; [done|]. cbn [applyMoves]. apply ok_bind.
  eapply ok_weaken; [by apply safe_applyMove|]. intros d' [[m' [e|]]|e] H; [done|by apply IH|done].
Qed.

(** Where a restore finds every move attempted: the manifest on disk lists them. *)
Definition recoverable (d : Disk) : Prop := covered d (attempted d).

Lemma safe_applyOrganization m :
  currentMove m = None -> Forall movable (moves (contents m)) ->
  safe (mkDisk None None []) (applyOrganization jsonText bootstrapRoot manifestPath m)
    (fun d _ => attempted d = [] \/ recoverable d).
Proof.
  intros Hc Hm. unfold applyOrganization. apply ok_bind. eapply ok_weaken; [apply safe_save|].
  intros d [u|e] (Ha & _ & Hok); [|by left]. specialize (Hok eq_refl). cbn in Ha. apply ok_bind.
  eapply ok_weaken; [apply safe_applyMoves; [done|split_and!; [done|done|by rewrite Ha]]|].
  intros d1 [[m1 err]|e] Hmoved; [|by right]. cbv zeta. cbn [fst snd]. apply ok_bind.
  assert (stopped d1 m1) as Hs1 by (destruct err; [done|by apply between_stopped]).
  assert (forall s e, Forall (listed (with_status s e m1)) (attempted d1)) as Hl1.
  { intros s e. eapply Forall_impl; [apply Hs1|]. intros. by apply listed_status. }
  assert (forall d' m' e0, stopped d' m' -> safe d' (_ ← saveManifest jsonText manifestPath (with_status (js "incomplete") (Some e0) m');
            fail (js "Bootstrap environment organization stopped after " ++ show_Z (Z.of_nat (length (completedMoves m')))
              ++ js " move(s); restore with manifest '" ++ show_path manifestPath ++ js "' before retrying: " ++ e0))
            (fun d (_ : result jsError (Manifest * option fspath)) => attempted d = [] \/ recoverable d)) as Hfail.
  { intros d' m' e0 Hs'. apply ok_bind. eapply ok_weaken; [apply (safe_save_stopped d' m'); [done|]|].
    - eapply Forall_impl; [apply Hs'|]. intros. by apply listed_status.
    - intros d2 [u2|e2] ([_ H] & _ & _); by right. }
  destruct err as [e|]; cbn [ok]; [by apply Hfail|].
  apply ok_catch, ok_bind. eapply ok_weaken; [apply (safe_save_stopped d1 m1); [done|apply Hl1]|].
  intros d2 [u2|e2] (Hs2 & _ & _); cbn [ok]; [right; apply Hs2|by apply Hfail].
Qed.
End ahead.

(** C4: The organization of the bootstrap directory is crash-safe.  Whatever the
    file system answers, when a file is moved, the manifest on disk is one from
    which a restore reads that move and every move attempted before it; and when
    the procedure ends, with or without an error, the manifest on disk still lists
    every move attempted. *)
Theorem organization_crash_safe jsonText bootstrapRoot manifestPath m o :
  currentMove m = None -> Forall (movable bootstrapRoot manifestPath) (moves (contents m)) ->
  let h := (run o (applyOrganization jsonText bootstrapRoot manifestPath m)).1 in
  let disk h := after (onDisk manifestPath) (mkDisk None None []) h in
  (forall h1 p q x h2, h = h1 ++ (Rename p q, x) :: h2 -> q <> manifestPath ->
     covered jsonText bootstrapRoot (disk h1) (attempted (disk h1) ++ [(p, q)])) /\
  (attempted (disk h) = [] \/ covered jsonText bootstrapRoot (disk h) (attempted (disk h))).
Proof.
  intros Hc Hm h disk.
  pose proof (ok_run _ _ o _ _ _ (safe_applyOrganization jsonText bootstrapRoot manifestPath m Hc Hm)) as Hok. unfold h in *. clear h.
  destruct (run o _) as [h r]. cbn [fst]. destruct Hok as [Hcomp Hend]. split; [|exact Hend].
  intros h1 p q x h2 -> Hq. apply complies_at in Hcomp as [?|?]; [done|done].
Qed.

(** One move, on a file system where every request succeeds and nothing is a link. *)
Definition sampleManifest : Manifest :=
  {| timestamp := js "2026-08-30T17:00:00.000Z"; m_dryRun := false; status := js "applying"; completedMoves := [];
     environmentRootName := js ".bootstrap/env"; environments := canonicalEnvironments;
     contents := {| moves := [moveValue (js "dev") (js "plan.dev.json") (js "env/dev/plan.dev.json")]; retained := []; collisions := [] |};
     currentMove := None; m_error := None |}.
Definition sampleFiles : oracle := fun _ q => match q with Lstat _ => Throw (errno (js "ENOENT")) | _ => Ok Undefined end.
Definition sampleHistory : history :=
  (run sampleFiles (applyOrganization (fun _ => []) [js "b"] [js "b"; js "organization"; js "m.json"] sampleManifest)).1.

Lemma organization_crash_safe_witness :
  let d := after (onDisk [js "b"; js "organization"; js "m.json"]) (mkDisk None None []) sampleHistory in
  attempted d = [([js "b"; js "plan.dev.json"], [js "b"; js "env"; js "dev"; js "plan.dev.json"])] /\
  covered (fun _ => []) [js "b"] d (attempted d).
Proof.
  destruct (organization_crash_safe (fun _ => []) [js "b"] [js "b"; js "organization"; js "m.json"] sampleManifest sampleFiles) as [_ H].
  - reflexivity.
  - constructor; [|constructor]. split; [reflexivity|]. vm_compute. discriminate.
  - intros d. split; [vm_compute; reflexivity|]. destruct H as [H|H]; [|exact H]. vm_compute in H. discriminate.
Defined.
