(* ===== verification/BranchSync.v ===== *)
(** * Synchronizing pull request branches

    scripts/sync-open-pr-branches.cjs: every open pull request of the repository
    gets the main branch merged into its head branch and pushed.  The script is a
    program over requests: git is a child process with its own environment, the
    GitHub API and the toolkit's [core] answer arbitrarily. *)

From stdpp Require Import base tactics option list numbers strings.
From Stdlib Require Import Lia.
From S2P Require Import Prelude JsString JsNumber JsValue Utf8 Paths Effects KubeTools.

(** [`${v}`] *)
Definition interpolate (v : value) : jstr :=
  match v with
  | Str s => s
  | Undefined => js "undefined"
  | Null => js "null"
  | Boolean b => if b then js "true" else js "false"
  | Number n => from_option show_Z (js "NaN") (to_Z n)
  | Arr _ | Obj _ | Other _ => js "[object Object]"
  end.

(** [v.k], which throws when [v] is [undefined] or [null]. *)
Definition field_of (k : jstr) (v : value) : result jsError value :=
  if isNullish v then Throw (newError (js "Cannot read properties of " ++ interpolate v ++ js " (reading '" ++ k ++ js "')"))
  else Ok (get k v).

(** An array that is iterated over. *)
Definition elements (v : value) : result jsError (list value) :=
  match v with Arr l => Ok l | _ => Throw (newError (interpolate v ++ js " is not iterable")) end.

(** ** git *)

Section sync.
Context (processEnv : list (jstr * value)) (tmpdir : fspath) (owner repo : jstr).

Definition envVar (name : string) : value := get (js name) (Obj processEnv).

Definition gitEnvironment (token serverUrl : value) : list (jstr * value) :=
  delete_prop (js "BRANCH_SYNC_TOKEN")
    (foldl (fun env kv => set_prop kv.1 (Str kv.2) env) processEnv
       [(js "GIT_CONFIG_NOSYSTEM", js "1"); (js "GIT_CONFIG_GLOBAL", js "/dev/null"); (js "GIT_TERMINAL_PROMPT", js "0");
        (js "GIT_CONFIG_COUNT", js "1"); (js "GIT_CONFIG_KEY_0", js "http." ++ interpolate serverUrl ++ js "/.extraheader");
        (js "GIT_CONFIG_VALUE_0", js "AUTHORIZATION: basic " ++ base64 (utf8Bytes (js "x-access-token:" ++ interpolate token)))]).

Definition gitArguments (args : list jstr) : list jstr := [js "-c"; js "core.hooksPath=/dev/null"] ++ args.

(** [createGit]: the function it returns. *)
Definition createGit (directory token serverUrl : value) (args : list jstr) : prog jstr :=
  child ← call (SpawnWith (interpolate directory) (gitEnvironment token serverUrl) (js "git") (gitArguments args));
  if truthy (get (js "error") child) || negb (strict_eq (get (js "status") child) (Number (int 0)))
  then fail (js "Git " ++ List.hd [] args ++ js " failed (status "
             ++ interpolate (nullish (get (js "status") child) (Str (js "unknown"))) ++ js ").")
  else Ret (trim (str_of (get (js "stdout") child))).

Definition mergeMain (git : list jstr -> prog jstr) (head main : jstr) : prog bool :=
  _ ← git [js "checkout"; js "--detach"; head];
  _ ← git [js "merge"; js "--no-edit"; js "--no-ff"; js "--strategy=ort"; js "--strategy-option=ours"; main];
  tip ← git [js "rev-parse"; js "HEAD"];
  Ret (negb (bool_decide (tip = head))).

(** ** Pull requests *)

Definition eligibleBranch (pr : value) (repository : jstr) : result jsError bool :=
  state ← field_of (js "state") pr;
  if negb (is_str (js "open") state) then Ok false
  else
    base ← field_of (js "ref") (get (js "base") pr);
    if negb (is_str (js "main") base) then Ok false
    else
      from ← field_of (js "repo") (get (js "head") pr);
      if negb (is_str repository (optget (js "full_name") from)) then Ok false
      else ref ← field_of (js "ref") (get (js "head") pr); Ok (negb (is_str (js "main") ref)).

Definition headRef (pr : value) : value := get (js "ref") (get (js "head") pr).
Definition branchRef (pr : value) : jstr := js "refs/heads/" ++ interpolate (headRef pr).
Definition pullName (pr : value) : jstr := js "#" ++ interpolate (get (js "number") pr).

Definition repoArguments : list (jstr * value) := [(js "owner", Str owner); (js "repo", Str repo)].

(** The variables of the loop over the pull requests. *)
Record progress := Progress { results : list (jstr * jstr); failed : bool; processed : list value }.

Definition report (pr : value) (result : jstr) (st : progress) : progress :=
  Progress (results st ++ [(pullName pr, result)]) (failed st) (processed st).

Definition skipped : jstr := js "Skipped (fork or ineligible branch)".
Definition changed : jstr := js "Skipped (PR changed or closed)".
Definition updated : jstr := js "Updated (branch wins content conflicts)".
Definition upToDate : jstr := js "Already up to date".
Definition unchanged : jstr := js "Failed; branch left unchanged".

Definition getPull (pr : value) : request := GitHub (js "pulls.get") (repoArguments ++ [(js "pull_number", get (js "number") pr)]).

Definition pushArguments (pr : value) : list jstr := [js "push"; js "origin"; js "HEAD:" ++ branchRef pr].

(** The [try] block: what is reported of the pull request. *)
Definition synchronize (git : list jstr -> prog jstr) (repository main : jstr) (pr : value) : prog jstr :=
  answer ← call (getPull pr);
  current ← lift (field_of (js "data") answer);
  eligible ← lift (eligibleBranch current repository);
  if negb eligible || negb (strict_eq (headRef current) (headRef pr)) then Ret changed
  else
    _ ← git [js "check-ref-format"; branchRef pr];
    _ ← git [js "fetch"; js "--no-tags"; js "origin"; js "+" ++ branchRef pr ++ js ":refs/remotes/origin/sync-head"];
    head ← git [js "rev-parse"; js "refs/remotes/origin/sync-head"];
    ahead ← mergeMain git head main;
    if (ahead : bool) then _ ← git (pushArguments pr); Ret updated else Ret upToDate.

(** The [catch] block. *)
Definition recoverWorktree (git : list jstr -> prog jstr) (pr : value) (e : jsError) : prog unit :=
  _ ← call (Core (js "warning") [Str (js "PR " ++ pullName pr ++ js ": " ++ emessage e
        ++ js " Resolve structural conflicts, branch protection, or concurrent updates manually.")]);
  _ ← catch (git [js "merge"; js "--abort"]) (fun _ => Ret []);
  _ ← git [js "reset"; js "--hard"];
  _ ← git [js "clean"; js "-fd"];
  Ret tt.

Definition syncPull (git : list jstr -> prog jstr) (repository main : jstr) (pr : value) (st : progress) : prog progress :=
  eligible ← lift (eligibleBranch pr repository);
  if negb eligible then Ret (report pr skipped st)
  else if bool_decide (headRef pr ∈ processed st) then Ret st
  else
    let st := Progress (results st) (failed st) (processed st ++ [headRef pr]) in
    outcome ← catch (text ← synchronize git repository main pr; Ret (Ok text)) (fun e => Ret (Throw e));
    match outcome with
    | Ok text => Ret (report pr text st)
    | Throw e => _ ← recoverWorktree git pr e; Ret (report pr unchanged (Progress (results st) true (processed st)))
    end.

Definition row (cells : list jstr) : value := Arr (Str <$> cells).

(** The body of the outer [try]. *)
Definition syncBody (git : list jstr -> prog jstr) (repository : jstr) : prog unit :=
  _ ← git [js "init"];
  _ ← git [js "config"; js "user.name"; js "github-actions[bot]"];
  _ ← git [js "config"; js "user.email"; js "41898282+github-actions[bot]@users.noreply.github.com"];
  _ ← git [js "remote"; js "add"; js "origin"; interpolate (envVar "BRANCH_SYNC_SERVER_URL") ++ js "/" ++ repository ++ js ".git"];
  _ ← git [js "fetch"; js "--no-tags"; js "origin"; js "+refs/heads/main:refs/remotes/origin/main"];
  main ← git [js "rev-parse"; js "refs/remotes/origin/main"];
  prs ← call (GitHub (js "paginate pulls.list") (repoArguments ++
          [(js "state", Str (js "open")); (js "base", Str (js "main")); (js "per_page", Number (int 100))]));
  listed ← lift (elements prs);
  st ← loop (syncPull git repository main) listed (Progress [] false []);
  _ ← call (Core (js "summary.addHeading") [Str (js "Main synchronization")]);
  _ ← call (Core (js "summary.addTable") (row [js "Pull request"; js "Result"] :: ((fun r => row [r.1; r.2]) <$> results st)));
  _ ← call (Core (js "summary.write") []);
  _ ← whenever (failed st) (call (Core (js "setFailed") [Str (js "Some PR branches could not be synchronized; see the job summary.")]));
  Ret tt.

Definition syncOpenBranches : prog unit :=
  directory ← call (Mkdtemp (show_path (tmpdir ++ [js "realtime-branch-sync-"])));
  finally (syncBody (createGit directory (envVar "BRANCH_SYNC_TOKEN") (envVar "BRANCH_SYNC_SERVER_URL")) (owner ++ js "/" ++ repo))
    (_ ← call (RmRf (resolve [] (interpolate directory))); Ret tt).
End sync.

(** ** Pushes *)

(** A git command that pushes: its subcommand follows the two arguments that
    disable hooks. *)
Definition is_push (r : request) : Prop := match r with SpawnWith _ _ _ args => args !! 2%nat = Some (js "push") | _ => False end.
#[global] Instance is_push_dec r : Decision (is_push r).
Proof. destruct r; cbn; apply _. Defined.

Definition pushes (h : history) : list request := filter is_push (requests h).

Lemma pushes_extend h r x : pushes (extend h r x) = pushes h ++ (if decide (is_push r) then [r] else []).
Proof. unfold pushes, extend, requests. by rewrite fmap_app, filter_app. Qed.

Lemma pushes_quiet h r x : ~ is_push r -> pushes (extend h r x) = pushes h.
Proof. intros Hr. rewrite pushes_extend, decide_False by done. apply app_nil_r. Qed.

(** A child that ended with status 0. *)
Definition succeeded (child : value) : Prop :=
  truthy (get (js "error") child) = false /\ strict_eq (get (js "status") child) (Number (int 0)) = true.
Definition output (child : value) : jstr := trim (str_of (get (js "stdout") child)).

Section pushes.
Context (processEnv : list (jstr * value)) (tmpdir : fspath) (owner repo : jstr).

Definition gitIn (directory : value) (args : list jstr) : request :=
  SpawnWith (interpolate directory) (gitEnvironment processEnv (envVar processEnv "BRANCH_SYNC_TOKEN") (envVar processEnv "BRANCH_SYNC_SERVER_URL"))
    (js "git") ([js "-c"; js "core.hooksPath=/dev/null"] ++ args).

(** The repository was added as the remote, its main branch fetched, and [main] is
    the commit read from what was fetched. *)
Definition mainFetched (directory : value) (main : jstr) (h : history) : Prop :=
  exists h0 added fetched read h1,
    h = h0 ++ [(gitIn directory [js "remote"; js "add"; js "origin";
                  interpolate (get (js "BRANCH_SYNC_SERVER_URL") (Obj processEnv)) ++ js "/" ++ owner ++ js "/" ++ repo ++ js ".git"], Ok added);
               (gitIn directory [js "fetch"; js "--no-tags"; js "origin"; js "+refs/heads/main:refs/remotes/origin/main"], Ok fetched);
               (gitIn directory [js "rev-parse"; js "refs/remotes/origin/main"], Ok read)] ++ h1 /\
    Forall succeeded [added; fetched; read] /\ main = output read.

Lemma mainFetched_mono directory main h h' : h `prefix_of` h' -> mainFetched directory main h -> mainFetched directory main h'.
Proof.
  intros [t ->] (h0 & a & f & r & h1 & -> & ?). exists h0, a, f, r, (h1 ++ t). split; [by rewrite <- !app_assoc|done].
Qed.

(** A pull request that may be updated. *)
Definition updatable (pr : value) : Prop :=
  get (js "state") pr = Str (js "open") /\ get (js "ref") (get (js "base") pr) = Str (js "main") /\
  get (js "full_name") (get (js "repo") (get (js "head") pr)) = Str (owner ++ js "/" ++ repo) /\
  get (js "ref") (get (js "head") pr) <> Str (js "main").

Lemma is_str_true s v : is_str s v = true -> v = Str s.
Proof. unfold is_str. destruct v; try done. cbn. intros H%bool_decide_eq_true. by rewrite H. Qed.

Lemma eligible_updatable pr : eligibleBranch pr (owner ++ js "/" ++ repo) = Ok true -> updatable pr.
Proof.
  unfold eligibleBranch, field_of. intros (state & Hs & H)%bind_Ok. destruct (isNullish pr); [done|]. injection Hs as <-.
  destruct (is_str (js "open") _) eqn:E1; [|done]. cbn [negb] in H. apply bind_Ok in H as (base & Hb & H).
  destruct (isNullish _); [done|]. injection Hb as <-. destruct (is_str (js "main") _) eqn:E2; [|done]. cbn [negb] in H.
  apply bind_Ok in H as (from & Hf & H). destruct (isNullish (get (js "head") pr)); [done|]. injection Hf as <-.
  destruct (is_str (owner ++ _) _) eqn:E3; [|done]. cbn [negb mbind result_bind] in H. injection H as H. apply negb_true_iff in H.
  apply is_str_true in E1, E2, E3. split_and!; [done|done| |].
  - by destruct (get (js "repo") (get (js "head") pr)).
  - intros E. by rewrite E in H.
Qed.

(** The head branch of a pull request, as a reference. *)
Definition headBranch (pr : value) : jstr := js "refs/heads/" ++ interpolate (get (js "ref") (get (js "head") pr)).

(** What precedes a push: the pull request was read again, found eligible with
    the same head branch, the branch was fetched, and merging main into the
    fetched commit succeeded and made a new commit. *)
Definition prepared (directory : value) (main : jstr) (pr : value) (h : history) : Prop :=
  exists h0 answer named fetched read checked merged tip,
    mainFetched directory main h0 /\
    h = h0 ++ [(GitHub (js "pulls.get") [(js "owner", Str owner); (js "repo", Str repo); (js "pull_number", get (js "number") pr)], Ok answer);
               (gitIn directory [js "check-ref-format"; headBranch pr], Ok named);
               (gitIn directory [js "fetch"; js "--no-tags"; js "origin"; js "+" ++ headBranch pr ++ js ":refs/remotes/origin/sync-head"], Ok fetched);
               (gitIn directory [js "rev-parse"; js "refs/remotes/origin/sync-head"], Ok read);
               (gitIn directory [js "checkout"; js "--detach"; output read], Ok checked);
               (gitIn directory [js "merge"; js "--no-edit"; js "--no-ff"; js "--strategy=ort"; js "--strategy-option=ours"; main], Ok merged);
               (gitIn directory [js "rev-parse"; js "HEAD"], Ok tip)] /\
    Forall succeeded [named; fetched; read; checked; merged; tip] /\
    updatable (get (js "data") answer) /\
    strict_eq (get (js "ref") (get (js "head") (get (js "data") answer))) (get (js "ref") (get (js "head") pr)) = true /\
    output tip <> output read.

Definition guarded (h : history) (r : request) : Prop :=
  is_push r -> exists directory main pr, r = gitIn directory [js "push"; js "origin"; js "HEAD:" ++ headBranch pr] /\ prepared directory main pr h.

Abbreviation okh := (ok guarded extend).
Abbreviation git directory := (createGit processEnv directory (envVar processEnv "BRANCH_SYNC_TOKEN") (envVar processEnv "BRANCH_SYNC_SERVER_URL")).

Lemma okh_git h directory args (Q : history -> result jsError jstr -> Prop) :
  guarded h (gitIn directory args) ->
  (forall child, succeeded child -> Q (extend h (gitIn directory args) (Ok child)) (Ok (output child))) ->
  (forall x e, Q (extend h (gitIn directory args) x) (Throw e)) ->
  okh h (git directory args) Q.
Proof.
  intros Hg Hok Hfail. unfold createGit. apply ok_bind, ok_call; [done|]. intros [child|e]; [|by apply Hfail].
  destruct (truthy _) eqn:He; [by apply Hfail|]. destruct (strict_eq _ _) eqn:Hs; [|by apply Hfail]. by apply Hok.
Qed.

(** The requests that are no pushes. *)
Definition quiet {A} (h : history) (p : prog A) : Prop := okh h p (fun h' _ => pushes h' = pushes h).

Lemma quiet_git h directory args : args !! 0%nat <> Some (js "push") -> quiet h (git directory args).
Proof.
  intros Ha. assert (~ is_push (gitIn directory args)) as Hn by (cbn; by destruct args).
  assert (forall x, pushes (extend h (gitIn directory args) x) = pushes h) as Hx.
  { intros x. by apply pushes_quiet. }
  apply okh_git; [by intros ?|intros; apply Hx|intros; apply Hx].
Qed.

Lemma quiet_call h r : ~ is_push r -> quiet h (call r).
Proof.
  intros Hn. apply ok_call; [by intros ?|]. intros x. by apply pushes_quiet.
Qed.

Lemma quiet_bind {A B} h (p : prog A) (f : A -> prog B) : quiet h p -> (forall h' a, quiet h' (f a)) -> quiet h (p ≫= f).
Proof.
  intros Hp Hf. apply ok_bind. eapply ok_weaken; [exact Hp|]. intros h' [a|e] E; [|done].
  eapply ok_weaken; [apply Hf|]. intros h'' r E'. cbn in *. congruence.
Qed.

Lemma quiet_catch {A} h (p : prog A) k : quiet h p -> (forall h' e, quiet h' (k e)) -> quiet h (catch p k).
Proof.
  intros Hp Hf. apply ok_catch. eapply ok_weaken; [exact Hp|]. intros h' [a|e] E; [done|].
  eapply ok_weaken; [apply Hf|]. intros h'' r E'. cbn in *. congruence.
Qed.

Ltac quiet_steps :=
  repeat first
    [ progress intros
    | apply quiet_git; discriminate
    | apply quiet_call; cbn; tauto
    | apply quiet_bind
    | apply quiet_catch
    | reflexivity ].

Lemma recover_quiet h directory pr e : quiet h (recoverWorktree (git directory) pr e).
Proof. quiet_steps. Qed.

(** An attempt pushes at most once, to the branch of its pull request, prepared. *)
Definition atMostOne (directory pr : value) (h h' : history) : Prop :=
  pushes h' = pushes h \/ pushes h' = pushes h ++ [gitIn directory (pushArguments pr)].

Lemma okh_quiet_git h directory args (Q : history -> result jsError jstr -> Prop) :
  args !! 0%nat <> Some (js "push") ->
  (forall child, succeeded child -> Q (extend h (gitIn directory args) (Ok child)) (Ok (output child))) ->
  (forall h' e, pushes h' = pushes h -> Q h' (Throw e)) ->
  okh h (git directory args) Q.
Proof.
  intros Ha Hok Hfail. assert (~ is_push (gitIn directory args)) as Hn by (cbn; by destruct args).
  apply okh_git; [by intros ?|done|]. intros x e. by apply Hfail, pushes_quiet.
Qed.

Ltac pushes_same := repeat rewrite pushes_quiet by (cbn; first [discriminate|tauto]); reflexivity.

Lemma synchronize_guarded h directory main pr : mainFetched directory main h ->
  okh h (synchronize owner repo (git directory) (owner ++ js "/" ++ repo) main pr) (fun h' _ => atMostOne directory pr h h').
Proof.
  intros Hmain. unfold synchronize. apply ok_bind, ok_call; [by intros []|]. intros [answer|e]; [|left; pushes_same].
  apply ok_bind. unfold field_of. destruct (isNullish answer); [left; pushes_same|]. cbn [lift ok].
  apply ok_bind. destruct (eligibleBranch _ _) as [[]|e] eqn:He; [|left; pushes_same..]. cbn [lift ok negb orb].
  destruct (strict_eq _ _) eqn:Hr; [|left; pushes_same]. cbn [negb].
  apply ok_bind, okh_quiet_git; [done| |intros h' e E; left; rewrite E; pushes_same]. intros named Hnamed.
  apply ok_bind, okh_quiet_git; [done| |intros h' e E; left; rewrite E; pushes_same]. intros fetched Hfetched.
  apply ok_bind, okh_quiet_git; [done| |intros h' e E; left; rewrite E; pushes_same]. intros read Hread.
  unfold mergeMain. do 2 apply ok_bind. apply okh_quiet_git; [done| |intros h' e E; left; rewrite E; pushes_same]. intros checked Hchecked.
  apply ok_bind, okh_quiet_git; [done| |intros h' e E; left; rewrite E; pushes_same]. intros merged Hmerged.
  apply ok_bind, okh_quiet_git; [done| |intros h' e E; left; rewrite E; pushes_same]. intros tip Htip.
  cbn [ok]. case_bool_decide as Ht; cbn [negb]; [left; pushes_same|].
  match goal with |- ok _ _ ?hh _ _ => assert (forall x, atMostOne directory pr h (extend hh (gitIn directory (pushArguments pr)) x)) as Hp end.
  { intros x. right. rewrite pushes_extend, decide_True by done. f_equal. pushes_same. }
  apply ok_bind, okh_git; [|intros child _; apply Hp|intros x e; apply Hp].
  intros _. exists directory, main, pr. split; [done|]. exists h, answer, named, fetched, read, checked, merged, tip.
  split; [done|]. split; [unfold extend; by rewrite <- !app_assoc|]. split; [by rewrite !Forall_cons, Forall_nil|].
  split; [by apply eligible_updatable|done].
Qed.

(** The head branch of a pull request is a string. *)
Definition stringRef (pr : value) : Prop := exists s, headRef pr = Str s.

Lemma updatable_not_main current pr :
  updatable current -> strict_eq (headRef current) (headRef pr) = true -> headRef pr <> Str (js "main").
Proof.
  intros (_ & _ & _ & Hn) Hr Hm. rewrite Hm in Hr. by apply is_str_true in Hr.
Qed.

Lemma pushArguments_inj directory directory' pr pr' :
  stringRef pr -> stringRef pr' -> gitIn directory (pushArguments pr) = gitIn directory' (pushArguments pr') -> headRef pr = headRef pr'.
Proof.
  intros [s Hs] [s' Hs'] E. assert (pushArguments pr = pushArguments pr') as E'.
  { exact (f_equal (fun r => match r with SpawnWith _ _ _ a => drop 2 a | _ => [] end) E). }
  unfold pushArguments, branchRef in E'. rewrite Hs, Hs' in *. injection E' as E'. cbn in E'. by rewrite E'.
Qed.

(** The pushes so far are of distinct branches, all of them processed. *)
Definition pushedOnce (h : history) (st : progress) : Prop :=
  NoDup (pushes h) /\
  Forall (fun r => exists directory pr, r = gitIn directory (pushArguments pr) /\ stringRef pr /\ headRef pr ∈ processed st) (pushes h).

Lemma pushedOnce_extend h h' st directory pr : stringRef pr -> (headRef pr ∉ processed st) -> pushedOnce h st -> atMostOne directory pr h h' ->
  forall st', processed st' = processed st ++ [headRef pr] -> pushedOnce h' st'.
Proof.
  intros Hs Hn [Hd Hf] Hp st' Ep. assert (Forall (fun r => exists directory pr, r = gitIn directory (pushArguments pr) /\ stringRef pr
    /\ headRef pr ∈ processed st') (pushes h)) as Hf'.
  { eapply Forall_impl; [exact Hf|]. intros r (d & q & ? & ? & ?). exists d, q. rewrite Ep, elem_of_app. auto. }
  unfold pushedOnce. destruct Hp as [->| ->]; [done|]. split.
  - apply NoDup_app. split_and!; [done| |apply NoDup_singleton]. intros r Hr ->%list_elem_of_singleton.
    rewrite Forall_forall in Hf. destruct (Hf _ Hr) as (d & q & E & Hq & Hin). apply Hn.
    by rewrite (pushArguments_inj _ _ _ _ Hs Hq E).
  - apply Forall_app. split; [done|]. apply Forall_singleton. exists directory, pr. rewrite Ep, elem_of_app, list_elem_of_singleton. auto.
Qed.

Lemma pushedOnce_same h h' st : pushes h' = pushes h -> pushedOnce h st -> pushedOnce h' st.
Proof. unfold pushedOnce. by intros ->. Qed.

Lemma syncPull_guarded directory main l h st pr : mainFetched directory main h -> pr ∈ l -> (Forall stringRef l -> pushedOnce h st) ->
  okh h (syncPull owner repo (git directory) (owner ++ js "/" ++ repo) main pr st)
    (fun h' r => match r with Ok st' => Forall stringRef l -> pushedOnce h' st' | Throw _ => Forall stringRef l -> NoDup (pushes h') end).
Proof.
  intros Hmain Hl Hi. assert (Forall stringRef l -> stringRef pr) as Hpr by (intros H; rewrite Forall_forall in H; by apply H).
  unfold syncPull. apply ok_bind. destruct (eligibleBranch _ _) as [[]|e]; cbn [lift ok negb]; [|done|intros H; by apply Hi].
  case_bool_decide as Hn; [done|]. set (st1 := Progress _ _ _).
  assert (forall h1, atMostOne directory pr h h1 -> Forall stringRef l -> pushedOnce h1 st1) as Hone.
  { intros h1 H1 H. by apply (pushedOnce_extend h h1 st directory pr); auto. }
  apply ok_bind, ok_catch, ok_bind. eapply ok_weaken; [by apply synchronize_guarded|]. cbn beta.
  intros h1 [text|e] H1; cbn [ok]; [by apply Hone|].
  apply ok_bind. eapply ok_weaken; [apply recover_quiet|]. intros h2 [[]|e'] H2; intros H.
  - apply (pushedOnce_same h1); [done|]. by apply Hone.
  - rewrite H2. by apply (Hone h1).
Qed.

Definition listRequest : request :=
  GitHub (js "paginate pulls.list") (repoArguments owner repo ++
    [(js "state", Str (js "open")); (js "base", Str (js "main")); (js "per_page", Number (int 100))]).

(** The listed pull requests have string head branches, as GitHub documents. *)
Definition listsStrings (h : history) : Prop := forall l, (listRequest, Ok (Arr l)) ∈ h -> Forall stringRef l.

Definition pushesOnce {A} (h : history) (_ : result jsError A) : Prop := listsStrings h -> NoDup (pushes h).

Lemma okh_quiet {A} h (p : prog A) : pushes h = [] -> quiet h p -> okh h p (fun h' _ => pushes h' = []).
Proof. intros E H. eapply ok_weaken; [exact H|]. cbn. congruence. Qed.

Lemma none_once {A} h (r : result jsError A) : pushes h = [] -> pushesOnce h r.
Proof. intros E _. rewrite E. constructor. Qed.

Lemma quiet_then {A B} h (p : prog A) (f : A -> prog B) :
  pushes h = [] -> quiet h p -> (forall h' a, pushes h' = [] -> okh h' (f a) pushesOnce) -> okh h (p ≫= f) pushesOnce.
Proof.
  intros E Hp Hf. apply ok_bind. eapply ok_weaken; [by apply okh_quiet|]. intros h' [a|e] E'; [by apply Hf|by apply none_once].
Qed.

Lemma summary_quiet h st : quiet h
  (_ ← call (Core (js "summary.addHeading") [Str (js "Main synchronization")]);
   _ ← call (Core (js "summary.addTable") (row [js "Pull request"; js "Result"] :: ((fun r => row [r.1; r.2]) <$> results st)));
   _ ← call (Core (js "summary.write") []);
   _ ← whenever (failed st) (call (Core (js "setFailed") [Str (js "Some PR branches could not be synchronized; see the job summary.")]));
   Ret tt).
Proof. destruct (failed st); cbn [whenever]; quiet_steps. Qed.

Lemma loop_guarded h directory main l : mainFetched directory main h -> pushes h = [] -> (listRequest, Ok (Arr l)) ∈ h ->
  okh h (loop (syncPull owner repo (git directory) (owner ++ js "/" ++ repo) main) l (Progress [] false []))
    (fun h' r => (listRequest, Ok (Arr l)) ∈ h' /\ pushesOnce h' r).
Proof.
  intros Hmain E Hin. eapply ok_weaken; [apply ok_extends, (ok_loop _ _
    (fun h st => mainFetched directory main h /\ (Forall stringRef l -> pushedOnce h st)) (fun h => Forall stringRef l -> NoDup (pushes h)))|].
  - split; [done|]. intros _. unfold pushedOnce. rewrite E. split; constructor.
  - intros h' st pr Hpr [Hm Hi]. eapply ok_weaken; [apply ok_extends; by apply syncPull_guarded|].
    intros h2 [st'|e] [Hp H]; [|done]. split; [|done]. by eapply mainFetched_mono.
  - intros h' r [[t ->] Hr]. assert ((listRequest, Ok (Arr l)) ∈ h ++ t) as Hin' by (apply elem_of_app; by left).
    split; [done|]. intros Hs. specialize (Hs l Hin'). destruct r; [by apply Hr|by apply Hr].
Qed.

Lemma syncBody_guarded h directory : pushes h = [] ->
  okh h (syncBody processEnv owner repo (git directory) (owner ++ js "/" ++ repo)) pushesOnce.
Proof.
  intros E. unfold syncBody. do 3 (apply quiet_then; [assumption|quiet_steps|]; intros ? ? ?).
  match goal with H : pushes ?h = [] |- ok _ _ ?h _ _ => rename h into h0, H into E0 end.
  apply ok_bind, okh_quiet_git; [done| |intros h'' e E'; apply none_once; congruence]. intros added Hadded.
  apply ok_bind, okh_quiet_git; [done| |intros h'' e E'; apply none_once; rewrite E'; etransitivity; [pushes_same|done]]. intros fetched Hfetched.
  apply ok_bind, okh_quiet_git; [done| |intros h'' e E'; apply none_once; rewrite E'; etransitivity; [pushes_same|done]]. intros read Hread.
  match goal with |- ok _ _ ?h _ _ => assert (mainFetched directory (output read) h) as Hmain;
    [exists h0, added, fetched, read, []; split; [unfold extend; by rewrite <- !app_assoc|by rewrite !Forall_cons, Forall_nil]|];
    assert (pushes h = []) as E1 by (etransitivity; [pushes_same|done]); set (h1 := h) in * end.
  clearbody h1. apply ok_bind, ok_call; [by intros []|].
  assert (forall x, pushes (extend h1 listRequest x) = []) as El by (intros x; rewrite pushes_quiet; [done|by intros []]).
  intros [prs|e]; [|by apply none_once].
  apply ok_bind. destruct prs as [| | | | |l| |]; try (by apply none_once). cbn [lift ok].
  apply ok_bind. eapply ok_weaken; [apply (loop_guarded _ directory _ l); [|done|]|].
  { eapply mainFetched_mono; [|exact Hmain]. by eexists. }
  { unfold extend. rewrite elem_of_app, list_elem_of_singleton. by right. }
  intros h2 [st|e] [Hin Ho]; [|done]. eapply ok_weaken; [apply ok_extends, summary_quiet|].
  intros h3 r [[t ->] Ep] Hs. cbn in Ep. rewrite Ep. apply Ho. intros l' Hl. apply Hs, elem_of_app. by left.
Qed.

Lemma syncOpenBranches_guarded : okh [] (syncOpenBranches processEnv tmpdir owner repo) pushesOnce.
Proof.
  unfold syncOpenBranches. apply ok_bind, ok_call; [by intros []|]. intros [directory|e]; [|by apply none_once].
  apply ok_finally. eapply ok_weaken; [by apply syncBody_guarded|]. intros h r Hr.
  apply ok_bind, ok_call; [by intros []|]. intros x.
  assert (pushesOnce (A := unit) (extend h (RmRf (resolve [] (interpolate directory))) x) r) as H.
  { intros Hs. rewrite pushes_quiet by (by intros []). apply Hr. intros l Hl. apply Hs, elem_of_app. by left. }
  destruct x; exact H.
Qed.
End pushes.

(** C25: Whatever git, GitHub and the toolkit answer, a push is made only to the
    head branch of a pull request, right after that pull request was read again
    and found open, targeting main, of this repository and with the same head
    branch, its branch was fetched, and merging into the fetched commit succeeded
    with a new commit.  What was merged is the commit that was read of
    refs/heads/main after it was fetched from the remote of this repository in the
    same run.  The push is not forced, does not go to main, runs no hooks, and no
    branch is pushed twice in a run when GitHub lists head branches as strings. *)
Theorem push_guarded processEnv tmpdir owner repo o h1 r x h2 :
  let h := (run o (syncOpenBranches processEnv tmpdir owner repo)).1 in
  h = h1 ++ (r, x) :: h2 -> is_push r ->
  (exists directory main pr, r = gitIn processEnv directory [js "push"; js "origin"; js "HEAD:" ++ headBranch pr] /\
     get (js "ref") (get (js "head") pr) <> Str (js "main") /\ prepared processEnv owner repo directory main pr h1) /\
  (listsStrings owner repo h -> r ∉ requests h1).
Proof.
  intros h E Hr. pose proof (ok_run _ _ o [] _ _ (syncOpenBranches_guarded processEnv tmpdir owner repo)) as H.
  unfold h in *. clear h. destruct (run o _) as [h res]. cbn [fst] in *. destruct H as [Hc Hq]. rewrite after_extend in Hq. cbn [app] in Hq.
  split.
  - rewrite E in Hc. apply complies_at in Hc. rewrite after_extend in Hc. destruct (Hc Hr) as (directory & main & pr & -> & Hp).
    exists directory, main, pr. split_and!; [done| |done].
    destruct Hp as (?&?&?&?&?&?&?&?&_&_&_&He&Hs&_). by eapply updatable_not_main.
  - intros Hs Hin. specialize (Hq Hs). rewrite E in Hq. unfold pushes, requests in Hq.
    rewrite fmap_app, filter_app in Hq. cbn [fmap list_fmap fst] in Hq. rewrite filter_cons_True in Hq by done.
    apply NoDup_app in Hq as (_ & Hd & _). apply (Hd r); [by apply list_elem_of_filter|left].
Qed.

(** A repository with three listed pull requests: one of a fork and two of the
    same branch. *)
Definition samplePull (number : Z) (repository : string) : value :=
  Obj [(js "number", Number (int number)); (js "state", Str (js "open")); (js "base", Obj [(js "ref", Str (js "main"))]);
       (js "head", Obj [(js "ref", Str (js "feature")); (js "repo", Obj [(js "full_name", Str (js repository))])])].

Definition sampleOracle : oracle := fun _ r =>
  match r with
  | Mkdtemp p => Ok (Str (p ++ js "a1"))
  | SpawnWith _ _ _ args =>
      Ok (Obj [(js "status", Number (int 0)); (js "stdout", Str (if bool_decide (drop 3 args = [js "HEAD"]) then js "c2" else js "c1"))])
  | GitHub m args =>
      if bool_decide (m = js "pulls.get") then Ok (Obj [(js "data", samplePull 7 "acme/realtime")])
      else Ok (Arr [samplePull 6 "fork/realtime"; samplePull 7 "acme/realtime"; samplePull 8 "acme/realtime"])
  | _ => Ok Undefined
  end.

Definition sampleEnv : list (jstr * value) :=
  [(js "BRANCH_SYNC_TOKEN", Str (js "t0ken")); (js "BRANCH_SYNC_SERVER_URL", Str (js "https://github.com"))].
Definition sampleHistory : history := (run sampleOracle (syncOpenBranches sampleEnv [js "tmp"] (js "acme") (js "realtime"))).1.
Definition samplePush : request := gitIn sampleEnv (Str (js "/tmp/realtime-branch-sync-a1")) [js "push"; js "origin"; js "HEAD:refs/heads/feature"].

Lemma sample_strings : listsStrings (js "acme") (js "realtime") sampleHistory.
Proof.
  assert (Forall (fun rx => match rx with (GitHub _ _, Ok (Arr l)) => Forall stringRef l | _ => True end) sampleHistory) as H.
  { vm_compute. repeat constructor; eexists; reflexivity. }
  intros l Hl. rewrite Forall_forall in H. exact (H _ Hl).
Qed.

Lemma push_guarded_witness : is_push samplePush /\ sampleHistory !! 15%nat = Some (samplePush, sampleOracle [] samplePush) /\
  (samplePush ∉ requests (take 15 sampleHistory)).
Proof.
  split; [done|]. split; [vm_compute; reflexivity|].
  refine (proj2 (push_guarded sampleEnv [js "tmp"] (js "acme") (js "realtime") sampleOracle (take 15 sampleHistory) samplePush
    (sampleOracle [] samplePush) (drop 16 sampleHistory) _ _) sample_strings).
  - vm_compute. reflexivity.
  - done.
Defined.
