(* ===== verification/CiMain.v ===== *)
(** * The commands of the CI selection

    [main] of scripts/ci-impact.mjs: [select] compares the commits of a pull request
    and writes the jobs that the workflow must run, [check] compares the outcome of
    the jobs with that selection.  The two commands run in different jobs of one
    workflow, and the selection goes from one to the other as JSON text. *)

From stdpp Require Import base tactics option list numbers strings.
From Stdlib Require Import Lia.
From S2P Require Import Prelude JsString JsNumber JsValue Paths Effects Regex CiImpact BranchSync.

(** The environment of the process. *)
Record CiEnvironment := {
  CI_EVENT_NAME : option jstr; CI_BASE_SHA : option jstr; CI_HEAD_SHA : option jstr;
  GITHUB_OUTPUT : option jstr; GITHUB_STEP_SUMMARY : option jstr;
  CI_SELECTED_JOBS : option jstr; CI_JOB_RESULTS : option jstr
}.

(** [git diff --name-only ...] of two commits. *)
Definition gitDiff (base head : jstr) : request :=
  Host (js "execFileSync") (Str <$> [js "git"; js "diff"; js "--name-only"; js "--no-renames"; js "-z"; base ++ js "..." ++ head; js "--"]).

Definition pathsOf (out : value) : list jstr := filter (fun s => s <> []) (split_on 0 (str_of out)).

Definition compareCommits (base head : option jstr) : prog (list jstr) :=
  if negb (test commitSha (default [] base)) || negb (test commitSha (default [] head)) then fail (js "Full base and head commit SHAs are required.")
  else out ← call (gitDiff (default [] base) (default [] head)); Ret (pathsOf out).

(** [appendFileSync(file, text)]; a name that is not set is no path. *)
Definition appended (file text : jstr) : request := Host (js "appendFileSync") [Str file; Str text].
Definition appendFile (file : option jstr) (text : jstr) : prog unit :=
  match file with
  | Some f => _ ← call (appended f text); Ret tt
  | None => Raise (errno (js "ERR_INVALID_ARG_TYPE"))
  end.

(** The text of one entry of [failures], and of the error. *)
Definition gateFailure (f : jstr * value * jstr) : jstr :=
  let '(job, outcome, expected) := f in
  job ++ js "=" ++ (if isNullish outcome then js "missing" else interpolate outcome) ++ js " (expected " ++ expected ++ js ")".

Definition gateMessage (e : gate_error) : jstr :=
  match e with
  | InvalidSelection => js "Invalid CI job selection."
  | ChangesFailed => js "CI change detection did not succeed."
  | JobsFailed failures => js "Required CI jobs did not succeed:" ++ [10%N] ++ join [10%N] (gateFailure <$> failures)
  end.

(** ** The rules of the selection

    Which jobs a changed path calls for, rule by rule and in terms of the paths and
    the jobs of the workflow only. *)

Definition under (dir : string) (path : jstr) : Prop := startsWith (js dir) path = true.

Definition everyJob : list jstr :=
  js <$> ["helm-and-automation"; "bootstrap-powershell-windows"; "bootstrap-lifecycle-parity"; "build-test-aot"; "dependency-review";
          "node-express"; "java-spring-boot"; "kotlin-ktor"; "rust-axum"; "go-gin"; "elixir-phoenix"; "php-laravel"; "python-fastapi";
          "ruby-rails"; "swift-vapor"; "full-circle"]%string.
Definition adapterNames : list string :=
  ["node-express"; "java-spring-boot"; "kotlin-ktor"; "rust-axum"; "go-gin"; "elixir-phoenix"; "php-laravel"; "python-fastapi";
   "ruby-rails"; "swift-vapor"]%string.
Definition runtimePlaces : list string :=
  ["src/"; "sdk/"; "protocol/"; "examples/shared-web/"; "examples/browser/"; "examples/full-circle/"]%string.
Definition platformPlaces : list string := ["bootstrap/"; "helm/"; "cluster/"]%string.
Definition testPlaces : list string := ["tests/"; "tools/"; "load/"; "observability/"]%string.
Definition dotnetPlaces : list string := ["examples/aspnet-core/"; "examples/dotnet-client/"]%string.
Definition rootDocuments : list jstr := js <$> ["README"; "README.md"; "CHANGELOG"; "CHANGELOG.md"; "LICENSE"; "LICENSE.md"]%string.

(** The files that declare dependencies. *)
Definition dependencyNames : list jstr :=
  js <$> ["package.json"; "package-lock.json"; "packages.lock.json"; "Cargo.toml"; "Cargo.lock"; "go.mod"; "go.sum"; "mix.exs"; "mix.lock";
          "Gemfile"; "Gemfile.lock"; "composer.json"; "composer.lock"; "pom.xml"; "gradle.lockfile"; "Package.swift"; "Package.resolved";
          "uv.lock"; "pyproject.toml"; "global.json"; "Directory.Build.props"; "Directory.Build.targets"]%string.
Definition lineEnd (c : N) : Prop := c ∈ [10; 13; 8232; 8233]%N.
Definition dependencyName (name : jstr) : Prop :=
  name ∈ dependencyNames \/
  exists stem extension, name = stem ++ js extension /\ extension ∈ [".gradle"; ".gradle.kts"; ".csproj"]%string /\ Forall (fun c => ~ lineEnd c) stem.
Definition declaresDependencies (path : jstr) : Prop :=
  (exists dir name, path = dir ++ name /\ (dir = [] \/ exists d, dir = d ++ js "/") /\ dependencyName name) \/
  under ".github/workflows/" path \/ under ".github/actions/" path.

Inductive callsFor : jstr -> jstr -> Prop :=
  | calls_review path : declaresDependencies path -> callsFor path (js "dependency-review")
  | calls_workflow path job : under ".github/" path -> job ∈ everyJob -> callsFor path job
  | calls_script path job : under "scripts/" path -> path <> js "scripts/README.md" -> job ∈ everyJob -> callsFor path job
  | calls_script_readme : callsFor (js "scripts/README.md") (js "build-test-aot")
  | calls_runtime dir path job : dir ∈ runtimePlaces -> under dir path ->
      job ∈ js "build-test-aot" :: js "full-circle" :: (js <$> adapterNames) -> callsFor path job
  | calls_platform dir path job : dir ∈ platformPlaces -> under dir path ->
      job ∈ js <$> ["helm-and-automation"; "bootstrap-powershell-windows"; "bootstrap-lifecycle-parity"; "build-test-aot"; "full-circle"]%string ->
      callsFor path job
  | calls_bootstrap_tests path job : under "tests/bootstrap/" path ->
      job ∈ js <$> ["helm-and-automation"; "bootstrap-powershell-windows"; "bootstrap-lifecycle-parity"]%string -> callsFor path job
  | calls_tests dir path : dir ∈ testPlaces -> under dir path -> ~ under "tests/bootstrap/" path -> callsFor path (js "build-test-aot")
  | calls_observability path : under "observability/" path -> callsFor path (js "helm-and-automation")
  | calls_adapter name path job : name ∈ adapterNames -> under ("examples/" ++ name ++ "/") path ->
      job ∈ [js name; js "build-test-aot"] -> callsFor path job
  | calls_dotnet dir path : dir ∈ dotnetPlaces -> under dir path -> callsFor path (js "build-test-aot")
  | calls_elsewhere path job :
      Forall (fun dir => ~ under dir path)
        (runtimePlaces ++ platformPlaces ++ testPlaces ++ dotnetPlaces ++ ["docs/"; "refs/"; ".github/"; "scripts/"]%string) ->
      Forall (fun name => ~ under ("examples/" ++ name ++ "/") path) adapterNames -> path ∉ rootDocuments ->
      job ∈ everyJob -> callsFor path job.

Lemma dot_class c : in_class true [(10, 10); (13, 13); (8232, 8233)]%N c = true <-> ~ lineEnd c.
Proof.
  unfold in_class, lineEnd. cbn. rewrite !elem_of_cons, elem_of_nil.
  repeat match goal with |- context [(?a <=? ?b)%N] => destruct (N.leb_spec a b) end; cbn; split; intros Hc; try done; try lia; exfalso; apply Hc; lia.
Qed.

Lemma lang_dots s : lang (Star dot) s <-> Forall (fun c => ~ lineEnd c) s.
Proof. unfold dot. rewrite lang_star_cls. split; intros H; (eapply Forall_impl; [exact H|]); intros c; apply dot_class. Qed.

(** A literal or one of two, spelled out. *)
Lemma dependencyFile_name name : lang dependencyFile name <-> dependencyName name.
Proof.
  unfold dependencyFile, dependencyName. cbv zeta. cbn [alts foldr]. split.
  - intros H. repeat (destruct H as [H|H]; [
      repeat match goal with
      | H : lang (Cat _ _) _ |- _ => destruct H as (? & ? & -> & ? & ?)
      | H : lang (cats _) _ |- _ => cbn [cats foldr] in H
      | H : lang (Alt _ _) _ |- _ => destruct H as [?|?]
      | H : lang (opt _) _ |- _ => destruct H as [?|?]
      | H : lang Eps _ |- _ => cbn [lang] in H; subst
      | H : lang (lit _) _ |- _ => apply lang_lit in H; subst
      end;
      first [left; apply (bool_decide_unpack _); vm_compute; exact I
            |right; match goal with H : lang (Star dot) ?s |- _ => apply lang_dots in H; exists s end;
             first [exists ".gradle"%string; rewrite ?app_nil_r; split; [done|split; [by repeat first [left|right]|done]]
                   |exists ".gradle.kts"%string; rewrite ?app_nil_r, <- ?app_assoc; split; [done|split; [by repeat first [left|right]|done]]
                   |exists ".csproj"%string; rewrite ?app_nil_r; split; [done|split; [by repeat first [left|right]|done]]]]|]).
    done.
  - intros [H|(stem & ext & -> & He & Hs)].
    + apply test_spec. revert name H. apply Forall_forall. apply (bool_decide_unpack _). vm_compute. exact I.
    + apply lang_dots in Hs. repeat (apply elem_of_cons in He as [->|He]); [..|by apply elem_of_nil in He].
      * do 8 right. left. exists stem, (js ".gradle"). split; [done|]. split; [done|]. exists (js ".gradle"), []. split; [done|]. split; [by apply lang_lit|].
        exists [], []. split; [done|]. split; [by left|done].
      * do 8 right. left. exists stem, (js ".gradle.kts"). split; [done|]. split; [done|]. exists (js ".gradle"), (js ".kts"). split; [done|].
        split; [by apply lang_lit|]. exists (js ".kts"), []. split; [done|]. split; [right; by apply lang_lit|done].
      * do 15 right. left. exists stem, (js ".csproj"). split; [done|]. split; [done|]. by apply lang_lit.
Qed.

Lemma isDependency_declares path : isDependency path = true <-> declaresDependencies path.
Proof.
  unfold isDependency, declaresDependencies, under. rewrite !orb_true_iff, test_spec.
  enough (lang dependencyPath path <-> exists dir name, path = dir ++ name /\ (dir = [] \/ exists d, dir = d ++ js "/") /\ dependencyName name) by tauto.
  unfold dependencyPath. split.
  - intros (u & v & -> & Hu & Hv%dependencyFile_name). exists u, v. split; [done|]. split; [|done].
    destruct Hu as [->|(a & b & -> & _ & ->%lang_lit)]; [by left|right; by exists a].
  - intros (u & v & -> & Hu & Hv%dependencyFile_name). exists u, v. split; [done|]. split; [|done].
    destruct Hu as [->|(d & ->)]; [by left|right]. exists d, (js "/"). split; [done|]. split; [apply lang_anything|by apply lang_lit].
Qed.

Lemma anyPrefix_under l path : anyPrefix (js <$> l) path = true <-> exists dir, dir ∈ l /\ under dir path.
Proof.
  unfold anyPrefix. rewrite existsb_exists. split.
  - intros (p & Hp%list_elem_of_In & H). apply list_elem_of_fmap in Hp as (dir & -> & Hd). by exists dir.
  - intros (dir & Hd & H). exists (js dir). split; [|done]. apply list_elem_of_In. by apply list_elem_of_fmap_2.
Qed.

Lemma anyPrefix_none l path : anyPrefix (js <$> l) path = false <-> Forall (fun dir => ~ under dir path) l.
Proof.
  rewrite Forall_forall, <- not_true_iff_false, anyPrefix_under. naive_solver.
Qed.

Lemma rootDocument_listed path : test rootDocument path = true <-> path ∈ rootDocuments.
Proof.
  split; [apply rootDocument_cases|]. intros H. revert path H. apply Forall_forall. apply (bool_decide_unpack _). vm_compute. exact I.
Qed.

(** A path that is under one place is not under another. *)
Ltac elsewhere H :=
  let T := type of H in
  match T with startsWith ?d ?path = true =>
    repeat match goal with |- context [startsWith ?q path] => rewrite (startsWith_clash q d path eq_refl eq_refl H) end end.
Ltac cases H := repeat (apply elem_of_cons in H as [->|H]); [..|by apply elem_of_nil in H].

Lemma startsWith_trans p q s : startsWith p q = true -> startsWith q s = true -> startsWith p s = true.
Proof. rewrite !startsWith_spec. intros (t & ->) (u & ->). exists (t ++ u). by rewrite <- app_assoc. Qed.

Lemma adapter_found name path : name ∈ adapterNames -> under ("examples/" ++ name ++ "/") path ->
  exists i, list_find (fun job => startsWith (js "examples/" ++ job ++ js "/") path = true) adapterJobs = Some (i, js name).
Proof.
  intros Hn Hu. destruct (list_find _ _) as [[i a]|] eqn:E.
  - exists i. apply list_find_Some in E as (Hi & Ha & _). apply list_elem_of_lookup_2 in Hi. do 2 f_equal.
    assert (Forall (fun a => Forall (fun name => a = js name \/ startsWith (js "examples/" ++ a ++ js "/") (js ("examples/" ++ name ++ "/")) = false
      /\ startsWith (js ("examples/" ++ name ++ "/")) (js "examples/" ++ a ++ js "/") = false) adapterNames) adapterJobs) as H.
    { apply (bool_decide_unpack _). vm_compute. exact I. }
    rewrite Forall_forall in H. specialize (H a Hi). rewrite Forall_forall in H. destruct (H name Hn) as [->|[H1 H2]]; [done|].
    by rewrite (startsWith_clash _ _ _ H1 H2 Hu) in Ha.
  - exfalso. apply list_find_None in E. rewrite Forall_forall in E. apply (E (js name)).
    + change adapterJobs with (js <$> adapterNames). by apply list_elem_of_fmap_2.
    + unfold under in Hu. cases Hn; exact Hu.
Qed.

Lemma jobsOf_calls_1 path job : job ∈ jobsOf validationJobs path -> callsFor path job.
Proof.
  unfold jobsOf. rewrite elem_of_app. intros [H|H].
  { destruct (isDependency path) eqn:E; [|by apply elem_of_nil in H]. apply list_elem_of_singleton in H as ->. by apply calls_review, isDependency_declares. }
  destruct (startsWith (js ".github/") path) eqn:Hgithub; [by apply calls_workflow|]. cbn [orb] in H.
  destruct (startsWith (js "scripts/") path) eqn:Hscripts; cbn [andb] in H.
  { assert (path <> js "scripts/README.md" -> callsFor path job \/ job ∉ validationJobs) as Hscript.
    { intros Hne. destruct (decide (job ∈ validationJobs)); [left; by apply calls_script|by right]. }
    destruct (endsWith (js ".md") path) eqn:Hmd; cbn [negb] in H.
    - unfold anyPrefix in H. cbn [existsb] in H. revert H. elsewhere Hscripts. cbn [orb].
      case_bool_decide as He; [subst; intros ->%list_elem_of_singleton; apply calls_script_readme|].
      destruct (test rootDocument path) eqn:Hr; [by intros []%elem_of_nil|]. intros H. by apply calls_script.
    - apply calls_script; [done| |done]. by intros ->. }
  change (anyPrefix _ path) with (anyPrefix (js <$> runtimePlaces) path) in H at 1.
  destruct (anyPrefix (js <$> runtimePlaces) path) eqn:Hruntime.
  { apply anyPrefix_under in Hruntime as (dir & Hd & Hu). apply (calls_runtime dir); [done|done|]. revert H. clear.
    change (js "build-test-aot" :: js "full-circle" :: (js <$> adapterNames)) with ([js "build-test-aot"; js "full-circle"] ++ adapterJobs).
    unfold runtimeJobs. rewrite !elem_of_app, !elem_of_cons, elem_of_nil. tauto. }
  change (anyPrefix _ path) with (anyPrefix (js <$> platformPlaces) path) in H at 1.
  destruct (anyPrefix (js <$> platformPlaces) path) eqn:Hplatform.
  { apply anyPrefix_under in Hplatform as (dir & Hd & Hu). by apply (calls_platform dir). }
  destruct (startsWith (js "tests/bootstrap/") path) eqn:Hboot; [by apply calls_bootstrap_tests|].
  change (anyPrefix _ path) with (anyPrefix (js <$> testPlaces) path) in H at 1.
  destruct (anyPrefix (js <$> testPlaces) path) eqn:Htests; cbn [orb] in H.
  { apply anyPrefix_under in Htests as (dir & Hd & Hu). apply elem_of_cons in H as [->|H].
    - apply (calls_tests dir); [done|done|]. unfold under. by rewrite Hboot.
    - destruct (startsWith (js "observability/") path) eqn:Ho; [|by apply elem_of_nil in H].
      apply list_elem_of_singleton in H as ->. by apply calls_observability. }
  rewrite bool_decide_eq_false_2 in H by (by intros ->).
  assert (job ∈ validationJobs -> anyPrefix (js <$> dotnetPlaces) path = false -> anyPrefix [js "docs/"; js "refs/"] path = false ->
    Forall (fun name => ~ under ("examples/" ++ name ++ "/") path) adapterNames -> test rootDocument path = false -> callsFor path job) as Helse.
  { intros Hj Hdot Hdocs Had Hroot. apply calls_elsewhere; [|done| |done].
    - rewrite !Forall_app. split_and!; try (by apply anyPrefix_none). apply (anyPrefix_none ["docs/"; "refs/"; ".github/"; "scripts/"]%string).
      unfold anyPrefix in *. cbn in *. apply orb_false_iff in Hdocs as [-> Hdocs]. apply orb_false_iff in Hdocs as [-> _]. by rewrite Hgithub, Hscripts.
    - rewrite <- rootDocument_listed. by rewrite Hroot. }
  destruct (startsWith (js "examples/") path) eqn:Hex.
  - destruct (list_find _ _) as [[i a]|] eqn:Ea.
    + apply list_find_Some in Ea as (Hi & Ha & _). apply list_elem_of_lookup_2 in Hi. change adapterJobs with (js <$> adapterNames) in Hi.
      apply list_elem_of_fmap in Hi as (name & -> & Hn). apply (calls_adapter name); [done| |done]. unfold under. cases Hn; exact Ha.
    + change (anyPrefix _ path) with (anyPrefix (js <$> dotnetPlaces) path) in H at 1.
      destruct (anyPrefix (js <$> dotnetPlaces) path) eqn:Hdot.
      { apply anyPrefix_under in Hdot as (dir & Hd & Hu). apply list_elem_of_singleton in H as ->. by apply (calls_dotnet dir). }
      apply Helse; [done|done| | |].
      * unfold anyPrefix. cbn [existsb]. by elsewhere Hex.
      * apply Forall_forall. intros name Hn Hu. destruct (adapter_found name path Hn Hu) as [i Hi]. by rewrite Hi in Ea.
      * apply not_true_iff_false. intros Hr%rootDocument_listed. by cases Hr.
  - destruct (anyPrefix [js "docs/"; js "refs/"] path) eqn:Hdocs; [by apply elem_of_nil in H|]. cbn [orb] in H.
    destruct (test rootDocument path) eqn:Hroot; [by apply elem_of_nil in H|]. apply Helse; [done| |done| |done].
    + apply anyPrefix_none. apply Forall_forall. intros dir Hd Hu. unfold under in Hu. apply not_true_iff_false in Hex. apply Hex. cases Hd;
        (eapply startsWith_trans; [|exact Hu]; reflexivity).
    + apply Forall_forall. intros name Hn Hu. unfold under in Hu. apply not_true_iff_false in Hex. apply Hex. cases Hn;
        (eapply startsWith_trans; [|exact Hu]; reflexivity).
Qed.

Lemma jobsOf_calls_2 path job : callsFor path job -> job ∈ jobsOf validationJobs path.
Proof.
  unfold jobsOf. rewrite elem_of_app. intros H. destruct H as [path H|path job H Hj|path job H Hne Hj| |dir path job Hd H Hj|dir path job Hd H Hj|path job H Hj
    |dir path Hd H Hn|path H|name path job Hn H Hj|dir path Hd H|path job H Had Hroot Hj].
  - left. apply isDependency_declares in H as ->. by left.
  - right. unfold under in H. by rewrite H.
  - right. unfold under in H. elsewhere H. rewrite H. cbn [orb andb]. destruct (endsWith _ _); [cbn [negb]|done].
    unfold anyPrefix. cbn [existsb]. elsewhere H. cbn [orb]. rewrite bool_decide_eq_false_2 by done.
    destruct (test rootDocument path) eqn:E; [|done]. apply rootDocument_listed in E. by cases E.
  - right. vm_compute. left.
  - right. assert (job ∈ runtimeJobs) as Hj'.
    { revert Hj. clear. change (js "build-test-aot" :: js "full-circle" :: (js <$> adapterNames)) with ([js "build-test-aot"; js "full-circle"] ++ adapterJobs).
      unfold runtimeJobs. rewrite !elem_of_app, !elem_of_cons, elem_of_nil. tauto. }
    unfold under in H. cases Hd; elsewhere H; unfold anyPrefix; cbn [existsb]; elsewhere H; rewrite H; exact Hj'.
  - right. unfold under in H. cases Hd; unfold anyPrefix; cbn [existsb]; elsewhere H; rewrite H; exact Hj.
  - right. unfold under in H. unfold anyPrefix; cbn [existsb]; elsewhere H; rewrite H; exact Hj.
  - right. unfold under in *. apply not_true_iff_false in Hn. cases Hd; unfold anyPrefix; cbn [existsb]; elsewhere H; rewrite ?Hn, H; left.
  - right. unfold under in H. unfold anyPrefix; cbn [existsb]; elsewhere H; rewrite H; right; left.
  - right. destruct (adapter_found name path Hn H) as [i ->]. unfold under in H.
    cases Hn; unfold anyPrefix; cbn [existsb]; elsewhere H;
      (assert (startsWith (js "examples/") path = true) as -> by (eapply startsWith_trans; [|exact H]; reflexivity)); rewrite bool_decide_eq_false_2 by (by intros ->); exact Hj.
  - right. assert (list_find (fun job => startsWith (js "examples/" ++ job ++ js "/") path = true) adapterJobs = None) as ->.
    { apply list_find_None, Forall_forall. intros a Ha E. change adapterJobs with (js <$> adapterNames) in Ha. apply list_elem_of_fmap in Ha as (name & -> & Hn).
      unfold under in H. cases Hd; cases Hn; by destruct (startsWith_two _ _ path E H). }
    unfold under in H. cases Hd; unfold anyPrefix; cbn [existsb]; elsewhere H;
      (assert (startsWith (js "examples/") path = true) as -> by (eapply startsWith_trans; [|exact H]; reflexivity)); rewrite H, bool_decide_eq_false_2 by (by intros ->); by left.
  - right. rewrite !Forall_app in H. destruct H as (Hr & Hp & Ht & Hd & Ho). apply anyPrefix_none in Hr, Hp, Ht, Hd.
    rewrite !Forall_cons in Ho. destruct Ho as (Hdocs & Hrefs & Hgit & Hscr & _). unfold under in Hdocs, Hrefs, Hgit, Hscr.
    apply not_true_iff_false in Hdocs, Hrefs, Hgit, Hscr.
    assert (startsWith (js "tests/bootstrap/") path = false) as Hboot.
    { apply not_true_iff_false. intros H. apply not_true_iff_false in Ht. apply Ht, anyPrefix_under. exists "tests/"%string. split; [left|].
      eapply startsWith_trans; [|exact H]. reflexivity. }
    change (anyPrefix [js "src/"; js "sdk/"; js "protocol/"; js "examples/shared-web/"; js "examples/browser/"; js "examples/full-circle/"] path)
      with (anyPrefix (js <$> runtimePlaces) path).
    change (anyPrefix [js "bootstrap/"; js "helm/"; js "cluster/"] path) with (anyPrefix (js <$> platformPlaces) path).
    change (anyPrefix [js "tests/"; js "tools/"; js "load/"; js "observability/"] path) with (anyPrefix (js <$> testPlaces) path).
    change (anyPrefix [js "examples/aspnet-core/"; js "examples/dotnet-client/"] path) with (anyPrefix (js <$> dotnetPlaces) path).
    rewrite Hgit, Hscr, Hr, Hp, Hboot, Ht, Hd. cbn [orb andb]. rewrite bool_decide_eq_false_2 by (by intros ->).
    assert (list_find (fun job => startsWith (js "examples/" ++ job ++ js "/") path = true) adapterJobs = None) as ->.
    { apply list_find_None, Forall_forall. intros a Ha E. change adapterJobs with (js <$> adapterNames) in Ha. apply list_elem_of_fmap in Ha as (name & -> & Hn).
      rewrite Forall_forall in Had. apply (Had name Hn). unfold under. cases Hn; exact E. }
    unfold anyPrefix. cbn [existsb]. rewrite Hdocs, Hrefs. cbn [orb].
    assert (test rootDocument path = false) as -> by (apply not_true_iff_false; by rewrite rootDocument_listed).
    by destruct (startsWith (js "examples/") path).
Qed.

(** The code follows the rules. *)
Lemma jobsOf_calls path job : job ∈ jobsOf validationJobs path <-> callsFor path job.
Proof. split; [apply jobsOf_calls_1|apply jobsOf_calls_2]. Qed.

(** ** The commands *)

Section main.
Context (parseJSON : jstr -> result jsError value) (jsonText : value -> jstr).

Definition selectionText (selected : list jstr) : jstr := jsonText (Arr (Str <$> selected)).

Definition summaryText (selected : list jstr) : jstr :=
  js "### Affected CI jobs" ++ [10%N] ++
  match selected with [] => js "No validation jobs affected." | _ => join [10%N] ((fun job => js "- " ++ job) <$> selected) end ++ [10%N].

Definition selectCommand (env : CiEnvironment) : prog unit :=
  paths ← (if bool_decide (CI_EVENT_NAME env = Some pull_request) then
             catch (ps ← compareCommits (CI_BASE_SHA env) (CI_HEAD_SHA env); Ret (Some ps))
                   (fun _ => _ ← call (Emit (js "warn") (js "ci-impact") (js "Change comparison unavailable; running all PR validations.")); Ret None)
           else Ret None);
  let selected := selectJobs paths (CI_EVENT_NAME env) in
  _ ← appendFile (GITHUB_OUTPUT env) (js "selected=" ++ selectionText selected ++ [10%N]);
  appendFile (GITHUB_STEP_SUMMARY env) (summaryText selected).

(** [JSON.parse] of a variable that is not set reads the text "undefined". *)
Definition parseVariable (v : option jstr) : prog value := lift (parseJSON (default (js "undefined") v)).

Definition checkCommand (env : CiEnvironment) : prog unit :=
  selected ← parseVariable (CI_SELECTED_JOBS env);
  results ← parseVariable (CI_JOB_RESULTS env);
  _ ← match checkResults selected results with Ok _ => Ret tt | Throw e => fail (gateMessage e) end;
  _ ← call (Emit (js "log") (js "ci-impact") (js "All affected CI jobs succeeded; unaffected jobs were skipped."));
  Ret tt.

Definition main (command : option jstr) (env : CiEnvironment) : prog unit :=
  if bool_decide (command = Some (js "select")) then selectCommand env
  else if bool_decide (command = Some (js "check")) then checkCommand env
  else fail (js "Expected select or check.").

(** ** What must run *)

(** A job is needed by what [select] saw: on a pull request when a path that git
    listed calls for it, or when there is no answer about the changed paths; on
    other events always, except for the review of dependencies, which needs a pull
    request to compare. *)
Definition needed (env : CiEnvironment) (h : history) (job : jstr) : Prop :=
  if bool_decide (CI_EVENT_NAME env = Some pull_request) then
    forall out, (Host (js "execFileSync") (Str <$> [js "git"; js "diff"; js "--name-only"; js "--no-renames"; js "-z";
                   default [] (CI_BASE_SHA env) ++ js "..." ++ default [] (CI_HEAD_SHA env); js "--"]), Ok out) ∈ h ->
      exists path, path ∈ split_on 0 (str_of out) /\ path <> [] /\ callsFor path job
  else CI_EVENT_NAME env = None \/ job <> js "dependency-review".

(** The outcome that the workflow reports for a job. *)
Definition outcome (results : value) (job : jstr) : value := optget (js "result") (get job results).

Lemma selectJobs_nodup paths event : NoDup (selectJobs paths event) /\ selectJobs paths event ⊆ validationJobs.
Proof.
  assert (forall (P : jstr -> Prop) `{!forall x, Decision (P x)}, NoDup (filter P validationJobs) /\ filter P validationJobs ⊆ validationJobs) as H.
  { intros P ?. split; [apply NoDup_filter, validationJobs_NoDup|]. intros x [_ Hx]%list_elem_of_filter. done. }
  unfold selectJobs. cbv zeta. destruct paths as [ps|]; [|apply H]. case_bool_decide; apply H.
Qed.

Lemma selectJobs_unknown event job : job ∈ selectJobs None event <-> job ∈ validationJobs /\ (default pull_request event = pull_request \/ job <> js "dependency-review").
Proof. unfold selectJobs, all_jobs. rewrite list_elem_of_filter. tauto. Qed.

Definition wrote (env : CiEnvironment) (h : history) (selected : list jstr) : Prop :=
  exists file v, GITHUB_OUTPUT env = Some file /\ (appended file (js "selected=" ++ selectionText selected ++ [10%N]), Ok v) ∈ h.

(** The two lines written, after the comparison. *)
Lemma written_adds env selected :
  adds (_ ← appendFile (GITHUB_OUTPUT env) (js "selected=" ++ selectionText selected ++ [10%N]); appendFile (GITHUB_STEP_SUMMARY env) (summaryText selected))
    (fun t x => (forall b h out, (gitDiff b h, Ok out) ∉ t) /\ (is_ok x = true -> wrote env t selected)).
Proof.
  unfold appendFile. destruct (GITHUB_OUTPUT env) as [file|] eqn:Ef; [|apply adds_raise; split; [intros b h out; apply not_elem_of_nil|done]].
  apply adds_bind, adds_bind, adds_call. intros [v|e]; [|split; [intros b h out [=]%list_elem_of_singleton|done]]. apply adds_ret.
  destruct (GITHUB_STEP_SUMMARY env) as [f2|].
  - apply adds_bind, adds_call. intros [w|e]; [apply adds_ret|].
    + cbn. split; [intros b h out [[=]|[=]%list_elem_of_singleton]%elem_of_cons|]. intros _. exists file, v. split; [done|]. by left.
    + cbn. split; [intros b h out [[=]|[=]%list_elem_of_singleton]%elem_of_cons|done].
  - apply adds_raise. cbn. split; [intros b h out [=]%list_elem_of_singleton|done].
Qed.

(** What [select] reports of what it saw. *)
Definition reported (env : CiEnvironment) (h : history) : Prop :=
  exists selected, wrote env h selected /\ NoDup selected /\ selected ⊆ validationJobs /\ forall job, job ∈ validationJobs -> (job ∈ selected <-> needed env h job).

Lemma reported_adds env h0 paths :
  (forall t job, (forall b h out, (gitDiff b h, Ok out) ∉ t) -> job ∈ validationJobs -> (job ∈ selectJobs paths (CI_EVENT_NAME env) <-> needed env (h0 ++ t) job)) ->
  let selected := selectJobs paths (CI_EVENT_NAME env) in
  adds (_ ← appendFile (GITHUB_OUTPUT env) (js "selected=" ++ selectionText selected ++ [10%N]); appendFile (GITHUB_STEP_SUMMARY env) (summaryText selected))
    (fun t x => is_ok x = true -> reported env (h0 ++ t)).
Proof.
  intros H selected. eapply adds_weaken; [apply written_adds|]. intros t x [Hno Hw] Ho. destruct (Hw Ho) as (file & v & Hf & Hv).
  exists selected. destruct (selectJobs_nodup paths (CI_EVENT_NAME env)) as [Hn Hs]. split_and!; [|done|done|intros job; by apply H].
  exists file, v. split; [done|]. apply elem_of_app. by right.
Qed.

(** Without an answer of git every job of a pull request is needed. *)
Lemma unanswered env h job : CI_EVENT_NAME env = Some pull_request -> (forall b hd out, (gitDiff b hd, Ok out) ∉ h) -> job ∈ validationJobs ->
  (job ∈ selectJobs None (CI_EVENT_NAME env) <-> needed env h job).
Proof.
  intros E Hno Hj. rewrite selectJobs_unknown. unfold needed. rewrite bool_decide_eq_true_2 by done. split; [intros _ out Hout; by apply (Hno (default [] (CI_BASE_SHA env)) (default [] (CI_HEAD_SHA env))) in Hout|].
  intros _. split; [done|]. left. by rewrite E.
Qed.

Lemma git_answered env out t job : CI_EVENT_NAME env = Some pull_request -> (forall b hd v, (gitDiff b hd, Ok v) ∉ t) -> job ∈ validationJobs ->
  (job ∈ selectJobs (Some (pathsOf out)) (CI_EVENT_NAME env) <->
   needed env ((gitDiff (default [] (CI_BASE_SHA env)) (default [] (CI_HEAD_SHA env)), Ok out) :: t) job).
Proof.
  intros E Hno Hj. rewrite E, selectJobs_exact. unfold needed. rewrite bool_decide_eq_true_2 by done. setoid_rewrite jobsOf_calls.
  unfold pathsOf. setoid_rewrite list_elem_of_filter. split.
  - intros (p & [Hne Hp] & Hc) v [[= ->]|Hv]%elem_of_cons; [by exists p|].
    by apply (Hno (default [] (CI_BASE_SHA env)) (default [] (CI_HEAD_SHA env))) in Hv.
  - intros H. destruct (H out) as (p & Hp & Hne & Hc); [by left|]. by exists p.
Qed.

Lemma select_adds env : adds (selectCommand env) (fun t x => is_ok x = true -> reported env t).
Proof.
  unfold selectCommand. apply adds_bind. case_bool_decide as E.
  - apply adds_catch, adds_bind. unfold compareCommits.
    assert (forall h0 : history, (forall b hd v, (gitDiff b hd, Ok v) ∉ h0) -> adds (_ ← call (Emit (js "warn") (js "ci-impact") (js "Change comparison unavailable; running all PR validations.")); Ret (@None (list jstr)))
      (fun t r => match r with
        | Ok a => adds (let selected := selectJobs a (CI_EVENT_NAME env) in
            _ ← appendFile (GITHUB_OUTPUT env) (js "selected=" ++ selectionText selected ++ [10%N]); appendFile (GITHUB_STEP_SUMMARY env) (summaryText selected))
            (fun t' r' => is_ok r' = true -> reported env ((h0 ++ t) ++ t'))
        | Throw e => is_ok (@Throw jsError unit e) = true -> reported env (h0 ++ t) end)) as Hw.
    { intros h0 H0. apply adds_bind, adds_call. intros [v|e]; [|done]. apply adds_ret. apply reported_adds. intros t job Hno Hj. apply unanswered; [done| |done].
      intros b hd v' [[H|[=]%list_elem_of_singleton]%elem_of_app|H]%elem_of_app; [by apply H0 in H|by apply Hno in H]. }
    destruct (_ || _).
    + apply adds_raise. apply (Hw []). intros b hd v. apply not_elem_of_nil.
    + apply adds_bind, adds_call. intros [out|e]; [|apply (Hw [_]); intros b hd v [=]%list_elem_of_singleton].
      apply adds_ret, adds_ret, reported_adds. intros t job Hno Hj. by apply git_answered.
  - apply adds_ret. apply (reported_adds _ [] None). intros t job _ Hj. rewrite selectJobs_unknown. unfold needed. rewrite bool_decide_eq_false_2 by done.
    destruct (CI_EVENT_NAME env) as [ev|]; cbn [default]; [|by intuition]. assert (ev <> pull_request) by congruence. intuition congruence.
Qed.

Lemma check_run env o : (forall h m, is_ok (o h (Emit (js "log") (js "ci-impact") m)) = true) ->
  is_ok (run o (checkCommand env)).2 = true <-> exists selected results, parseJSON (default (js "undefined") (CI_SELECTED_JOBS env)) = Ok selected /\
    parseJSON (default (js "undefined") (CI_JOB_RESULTS env)) = Ok results /\ checkResults selected results = Ok tt.
Proof.
  intros Hlog. unfold checkCommand, parseVariable. destruct (parseJSON (default _ (CI_SELECTED_JOBS env))) as [selected|e]; [|split; [intros [=]|by intros (? & ? & [=] & _)]].
  destruct (parseJSON (default _ (CI_JOB_RESULTS env))) as [results|e]; [|split; [intros [=]|by intros (? & ? & _ & [=] & _)]].
  cbn [lift mbind prog_bind]. destruct (checkResults selected results) as [[]|e] eqn:E; [|split; [intros [=]|intros (? & ? & [= <-] & [= <-] & ?); congruence]].
  split; [intros _; eauto|]. intros _.
  specialize (Hlog [] (js "All affected CI jobs succeeded; unaffected jobs were skipped.")). unfold run. cbn [mbind prog_bind call exec recording].
  by destruct (o [] _).
Qed.
End main.

#[local] Instance Str_inj : Inj (=) (=) Str.
Proof. by intros ? ? [=]. Qed.

(** C27: The two commands of the CI selection agree.  Let [select] finish, and let the
    check of the same workflow read the list that [select] wrote.  Then the check
    passes exactly when change detection succeeded and each validation job has the
    outcome that the changed files call for by the rules of [callsFor]: success when
    the job is needed (a path that git listed calls for it, or git gave no answer,
    or the event is no pull request and the job is not the dependency review), and
    skipped otherwise.  JSON.parse is assumed to read a list of strings back as
    JSON.stringify wrote it, the results to be JSON, and the last log line of the
    check to be written. *)
Theorem ci_selection_enforced parseJSON jsonText env env' o o' results :
  (forall l, parseJSON (jsonText (Arr (Str <$> l))) = Ok (Arr (Str <$> l))) ->
  (run o (main parseJSON jsonText (Some (js "select")) env)).2 = Ok tt ->
  (forall h m, is_ok (o' h (Emit (js "log") (js "ci-impact") m)) = true) ->
  parseJSON (default (js "undefined") (CI_JOB_RESULTS env')) = Ok results ->
  let h := (run o (main parseJSON jsonText (Some (js "select")) env)).1 in
  exists selected, wrote jsonText env h selected /\
    (CI_SELECTED_JOBS env' = Some (selectionText jsonText selected) ->
     is_ok (run o' (main parseJSON jsonText (Some (js "check")) env')).2 = true <->
     outcome results (js "changes") = Str (js "success") /\
     forall job, job ∈ everyJob ->
       (needed env h job -> outcome results job = Str (js "success")) /\ (~ needed env h job -> outcome results job = Str (js "skipped"))).
Proof.
  intros Hjson Hsel Hlog Hres. cbv zeta. destruct (adds_run o _ _ (select_adds parseJSON jsonText env)) as (selected & Hw & Hn & Hs & Hneed).
  { change (main parseJSON jsonText (Some (js "select")) env) with (selectCommand jsonText env) in Hsel. by rewrite Hsel. }
  exists selected. split; [exact Hw|]. intros Evar.
  change (main parseJSON jsonText (Some (js "check")) env') with (checkCommand parseJSON env').
  change (main parseJSON jsonText (Some (js "select")) env) with (selectCommand jsonText env).
  rewrite check_run by exact Hlog. rewrite Evar. cbn [from_option id]. unfold selectionText. rewrite Hjson, Hres.
  assert (forall job, job ∈ validationJobs -> (outcome results job = Str (if decide (job ∈ selected) then js "success" else js "skipped") <->
    (needed env (run o (selectCommand jsonText env)).1 job -> outcome results job = Str (js "success")) /\
    (~ needed env (run o (selectCommand jsonText env)).1 job -> outcome results job = Str (js "skipped")))) as Hiff.
  { intros job Hj. pose proof (Hneed job Hj). case_decide; tauto. }
  split.
  - intros (? & ? & [= <-] & [= <-] & Hc). apply checkResults_iff in Hc as (jobs & [= Hj] & _ & _ & Hch & Hall). apply (inj (fmap Str)) in Hj. subst jobs.
    split; [done|]. intros job Hj. apply Hiff; [done|]. by apply Hall.
  - intros [Hch Hall]. eexists _, _. split_and!; [done..|]. apply checkResults_iff. exists selected. split_and!; [done..|].
    intros job Hj. by apply Hiff, Hall.
Qed.

(** A text for the lists of strings: the letters of each string moved up by one and
    a zero at its end.  The other text is the outcome of a workflow in which the
    change touched one adapter. *)
Definition sampleText (v : value) : jstr := items_of v ≫= fun x => (N.succ <$> str_of x) ++ [0%N].

Fixpoint sampleStrings (acc : jstr) (s : jstr) : list jstr :=
  match s with
  | [] => []
  | c :: rest => if (c =? 0)%N then rev acc :: sampleStrings [] rest else sampleStrings (N.pred c :: acc) rest
  end.

Definition sampleOutcome (s : string) : value := Obj [(js "result", Str (js s))].
Definition sampleResults : value :=
  Obj ((js "changes", sampleOutcome "success") ::
       ((fun job => (job, if memb job [js "build-test-aot"; js "go-gin"] then sampleOutcome "success" else sampleOutcome "skipped")) <$> validationJobs)).

Definition sampleReader (t : jstr) : result jsError value :=
  if bool_decide (t = js "results") then Ok sampleResults else Ok (Arr (Str <$> sampleStrings [] t)).

Lemma sampleStrings_word acc w rest : sampleStrings acc ((N.succ <$> w) ++ [0%N] ++ rest) = (rev acc ++ w) :: sampleStrings [] rest.
Proof.
  revert acc. induction w as [|c w IH]; intros acc; [cbn; by rewrite app_nil_r|]. rewrite fmap_cons. cbn [app sampleStrings].
  destruct (N.eqb_spec (N.succ c) 0); [lia|]. cbn in IH. rewrite IH, N.pred_succ. cbn [rev]. by rewrite <- app_assoc.
Qed.

Lemma sample_roundtrip l : sampleReader (sampleText (Arr (Str <$> l))) = Ok (Arr (Str <$> l)).
Proof.
  unfold sampleReader. rewrite bool_decide_eq_false_2.
  - do 3 f_equal. unfold sampleText. cbn [items_of]. induction l as [|w l IH]; [done|]. rewrite fmap_cons. cbn [mbind list_bind str_of].
    rewrite <- app_assoc, sampleStrings_word, IH. done.
  - intros E. apply (f_equal last) in E. destruct l as [|w l _] using rev_ind; [done|]. unfold sampleText in E. cbn [items_of] in E.
    rewrite fmap_app, bind_app in E. cbn [fmap list_fmap mbind list_bind] in E. rewrite app_nil_r, app_assoc, last_snoc in E. done.
Qed.

Definition sampleGit : oracle := fun _ r =>
  match r with
  | Host op _ => if bool_decide (op = js "execFileSync") then Ok (Str (js "examples/go-gin/main.go" ++ [0%N])) else Ok Undefined
  | _ => Ok Undefined
  end.

Definition sampleEnvironment (selected : option jstr) : CiEnvironment :=
  Build_CiEnvironment (Some pull_request) (Some (replicate 40 97%N)) (Some (replicate 40 98%N)) (Some (js "output")) (Some (js "summary")) selected (Some (js "results")).

Definition sampleSelect : history := (run sampleGit (main sampleReader sampleText (Some (js "select")) (sampleEnvironment None))).1.

Lemma sampleText_inj l l' : sampleText (Arr (Str <$> l)) = sampleText (Arr (Str <$> l')) -> l = l'.
Proof. intros E. apply (inj (fmap Str)). pose proof (sample_roundtrip l) as H. rewrite E, sample_roundtrip in H. congruence. Qed.

Lemma sample_written selected v :
  (appended (js "output") (js "selected=" ++ selectionText sampleText selected ++ [10%N]), Ok v) ∈ sampleSelect -> selected = [js "build-test-aot"; js "go-gin"].
Proof.
  intros H. assert (Forall (fun rx => match rx.1 with
      | Host op [Str file; Str t] => op = js "appendFileSync" -> file = js "output" ->
          t = js "selected=" ++ selectionText sampleText [js "build-test-aot"; js "go-gin"] ++ [10%N]
      | _ => True end) sampleSelect) as Hf by (vm_compute; repeat constructor; discriminate).
  rewrite Forall_forall in Hf. specialize (Hf _ H eq_refl eq_refl). apply app_inv_head, app_inv_tail in Hf. by apply sampleText_inj.
Qed.

Lemma sample_needed : needed (sampleEnvironment None) sampleSelect (js "go-gin").
Proof.
  intros out H. assert (Forall (fun rx => match rx with
      | (Host op _, Ok out) => op = js "execFileSync" -> out = Str (js "examples/go-gin/main.go" ++ [0%N]) | _ => True end) sampleSelect) as Hf
    by (vm_compute; repeat constructor; discriminate).
  rewrite Forall_forall in Hf. rewrite (Hf _ H eq_refl). exists (js "examples/go-gin/main.go").
  split; [apply (bool_decide_unpack _); vm_compute; reflexivity|]. split; [done|].
  apply (calls_adapter "go-gin"); [by repeat first [left|right]|reflexivity|left].
Qed.

(** The check of the selection that [select] writes for a change of one adapter. *)
Definition sampleChecked : CiEnvironment := sampleEnvironment (Some (selectionText sampleText [js "build-test-aot"; js "go-gin"])).

Lemma ci_selection_enforced_witness :
  is_ok (run sampleGit (main sampleReader sampleText (Some (js "check")) sampleChecked)).2 = true /\
  needed (sampleEnvironment None) (run sampleGit (main sampleReader sampleText (Some (js "select")) (sampleEnvironment None))).1 (js "go-gin") /\
  outcome sampleResults (js "go-gin") = Str (js "success").
Proof.
  destruct (ci_selection_enforced sampleReader sampleText (sampleEnvironment None) sampleChecked sampleGit sampleGit sampleResults) as (selected & Hw & Hiff).
  - exact sample_roundtrip.
  - vm_compute. reflexivity.
  - reflexivity.
  - vm_compute. reflexivity.
  - assert (selected = [js "build-test-aot"; js "go-gin"]) as ->.
    { destruct Hw as (file & v & [= <-] & Hv). apply sample_written in Hv. exact Hv. }
    assert (is_ok (run sampleGit (main sampleReader sampleText (Some (js "check")) sampleChecked)).2 = true) as Hok by (vm_compute; reflexivity).
    destruct (Hiff eq_refl) as [Hpass _]. destruct (Hpass Hok) as [_ Hall].
    destruct (Hall (js "go-gin")) as [Hyes _]; [apply (bool_decide_unpack _); vm_compute; reflexivity|].
    assert (needed (sampleEnvironment None) (run sampleGit (main sampleReader sampleText (Some (js "select")) (sampleEnvironment None))).1 (js "go-gin")) as Hneed
      by exact sample_needed.
    split; [exact Hok|]. split; [exact Hneed|]. exact (Hyes Hneed).
Defined.
