(* ===== verification/CiAutofix.v ===== *)
(** * Repairing failed CI runs

    scripts/ci-failure-autofix.cjs: after a failed CI run of a pull request the
    script reads the logs of the failed jobs and either asks the coding agent for
    a fix or asks people for input.  Markers in the comments of the pull request
    record what was requested.  GitHub and the toolkit's [core] answer requests
    arbitrarily; the objects of GitHub's lists are not [null]. *)

From stdpp Require Import base tactics option list numbers strings.
From Stdlib Require Import QArith Lia.
From S2P Require Import Prelude JsString JsNumber JsValue Regex Paths Effects Chart KubeTools BranchSync.
#[local] Open Scope nat_scope.

(** ** Patterns with word boundaries

    A pattern is matched at a position, known by the unit before it; the result
    lists the positions where a match can end. *)

Inductive pattern : Type :=
  | PEps
  | PClass (negated : bool) (ranges : list (N * N))
  | PSeq (p q : pattern)
  | PAlt (p q : pattern)
  | PUpto (n : nat) (negated : bool) (ranges : list (N * N))
  | PMany (negated : bool) (ranges : list (N * N))
  | PBoundary.

(** The unit before the position and what follows it. *)
Definition position : Type := option N * jstr.

Definition wordRanges : list (N * N) := [digit_r; upper_r; lower_r; (95%N, 95%N)].
Definition is_word (c : N) : bool := in_class false wordRanges c.
Definition word_at (c : option N) : bool := from_option is_word false c.

(** [\b] *)
Definition boundary (at_ : position) : bool := xorb (word_at at_.1) (word_at (head at_.2)).

Definition stepClass (negated : bool) (ranges : list (N * N)) (at_ : position) : list position :=
  match at_.2 with c :: t => if in_class negated ranges c then [(Some c, t)] else [] | [] => [] end.

Fixpoint upToClass (n : nat) (negated : bool) (ranges : list (N * N)) (at_ : position) : list position :=
  at_ :: match n with O => [] | S k => stepClass negated ranges at_ ≫= upToClass k negated ranges end.

(** Every position a run of the class can reach, one unit at least. *)
Fixpoint manyClass (negated : bool) (ranges : list (N * N)) (s : jstr) : list position :=
  match s with c :: t => if in_class negated ranges c then (Some c, t) :: manyClass negated ranges t else [] | [] => [] end.

Fixpoint matches (p : pattern) (at_ : position) : list position :=
  match p with
  | PEps => [at_]
  | PClass neg l => stepClass neg l at_
  | PSeq a b => matches a at_ ≫= matches b
  | PAlt a b => matches a at_ ++ matches b at_
  | PUpto n neg l => upToClass n neg l at_
  | PMany neg l => manyClass neg l at_.2
  | PBoundary => if boundary at_ then [at_] else []
  end.

(** [pattern.test(s)]: a match at some position. *)
Fixpoint searchFrom (p : pattern) (before : option N) (s : jstr) : bool :=
  match matches p (before, s) with
  | _ :: _ => true
  | [] => match s with c :: t => searchFrom p (Some c) t | [] => false end
  end.
Definition search (p : pattern) (s : jstr) : bool := searchFrom p None s.

(** What a pattern means: [occurs p u x v] says that [p] matches [x] between the
    texts [u] and [v]. *)
Fixpoint occurs (p : pattern) (u x v : jstr) : Prop :=
  match p with
  | PEps => x = []
  | PClass neg l => exists c, x = [c] /\ in_class neg l c = true
  | PSeq a b => exists y z, x = y ++ z /\ occurs a u y (z ++ v) /\ occurs b (u ++ y) z v
  | PAlt a b => occurs a u x v \/ occurs b u x v
  | PUpto n neg l => length x <= n /\ Forall (fun c => in_class neg l c = true) x
  | PMany neg l => x <> [] /\ Forall (fun c => in_class neg l c = true) x
  | PBoundary => x = [] /\ xorb (word_at (last u)) (word_at (head v)) = true
  end.

Definition reached (p : pattern) (u s : jstr) (q : position) : Prop := exists x v, s = x ++ v /\ q = (last (u ++ x), v) /\ occurs p u x v.

Lemma stepClass_spec neg l u s q : q ∈ stepClass neg l (last u, s) <-> reached (PClass neg l) u s q.
Proof.
  unfold stepClass, reached. cbn [snd occurs]. split.
  - destruct s as [|c t]; [intros []%not_elem_of_nil|]. destruct (in_class neg l c) eqn:Hc; [|intros []%not_elem_of_nil].
    intros ->%list_elem_of_singleton. exists [c], t. rewrite last_snoc. eauto.
  - intros (x & v & -> & -> & c & -> & Hc). cbn [app]. rewrite Hc, last_snoc. by apply list_elem_of_singleton.
Qed.

Lemma upToClass_spec n neg l u s q : q ∈ upToClass n neg l (last u, s) <-> reached (PUpto n neg l) u s q.
Proof.
  revert u s q. induction n as [|n IH]; intros u s q; cbn [upToClass]; rewrite elem_of_cons; unfold reached; cbn [occurs]; split.
  - intros [->|[]%not_elem_of_nil]. exists [], s. rewrite app_nil_r. by repeat constructor.
  - intros (x & v & -> & -> & Hx & _). left. destruct x; [by rewrite app_nil_r|cbn in Hx; lia].
  - intros [->|([b t] & Hq & Hb)%list_elem_of_bind]; [exists [], s; rewrite app_nil_r; split_and!; cbn; auto with lia|].
    apply stepClass_spec in Hb as (x & v & -> & [= -> ->] & c & -> & Hc). apply IH in Hq as (y & w & -> & -> & Hy & Hf).
    exists (c :: y), w. rewrite <- (app_assoc u). split_and!; [done|done|cbn; lia|by constructor].
  - intros ([|c x] & v & -> & -> & Hx & Hf); [left; by rewrite app_nil_r|right]. inversion Hf as [|? ? Hc Hf']; subst.
    apply list_elem_of_bind. exists (last (u ++ [c]), x ++ v). split; [apply IH; exists x, v; rewrite <- app_assoc; cbn in *; eauto with lia|].
    apply stepClass_spec. exists [c], (x ++ v). cbn. eauto.
Qed.

Lemma manyClass_spec neg l u s q : q ∈ manyClass neg l s <-> reached (PMany neg l) u s q.
Proof.
  revert u. induction s as [|c t IH]; intros u; cbn [manyClass]; unfold reached; cbn [occurs]; split.
  - intros []%not_elem_of_nil.
  - by intros ([|] & [|] & [=] & _ & [] & _).
  - destruct (in_class neg l c) eqn:Hc; [|intros []%not_elem_of_nil]. intros [->|Hq]%elem_of_cons.
    + exists [c], t. rewrite last_snoc. by repeat constructor.
    + apply (IH (u ++ [c])) in Hq as (x & v & -> & -> & Hx & Hf). exists (c :: x), v. rewrite <- app_assoc. by repeat constructor.
  - intros ([|d x] & v & E & -> & Hx & Hf); [done|]. cbn [app] in E. injection E as <- ->. inversion Hf as [|? ? Hc Hf']; subst. rewrite Hc.
    apply elem_of_cons. destruct x as [|d x]; [left; by rewrite last_snoc|right]. apply (IH (u ++ [c])). exists (d :: x), v.
    rewrite <- app_assoc. done.
Qed.

(** The matcher reaches exactly the positions its pattern describes. *)
Lemma matches_spec p u s q : q ∈ matches p (last u, s) <-> reached p u s q.
Proof.
  revert u s q. induction p as [|neg l|a IHa b IHb|a IHa b IHb|n neg l|neg l|]; intros u s q; cbn [matches].
  - unfold reached. cbn [occurs]. rewrite list_elem_of_singleton. split.
    + intros ->. exists [], s. by rewrite app_nil_r.
    + intros (x & v & -> & -> & ->). by rewrite app_nil_r.
  - apply stepClass_spec.
  - rewrite list_elem_of_bind. unfold reached in *. cbn [occurs]. split.
    + intros ([c t] & Hq & Hc). apply IHa in Hc as (y & w & -> & [= -> ->] & Ha). apply IHb in Hq as (z & v & -> & -> & Hb).
      exists (y ++ z), v. rewrite <- !app_assoc. eauto 10.
    + intros (x & v & -> & -> & y & z & -> & Ha & Hb). exists (last (u ++ y), z ++ v). split.
      * apply IHb. exists z, v. by rewrite <- app_assoc.
      * apply IHa. exists y, (z ++ v). by rewrite <- app_assoc.
  - rewrite elem_of_app, IHa, IHb. unfold reached. cbn [occurs]. split.
    + intros [(x & v & ? & ? & ?)|(x & v & ? & ? & ?)]; exists x, v; auto.
    + intros (x & v & ? & ? & [?|?]); [left|right]; exists x, v; auto.
  - apply upToClass_spec.
  - apply manyClass_spec.
  - unfold boundary, reached. cbn [fst snd occurs]. split.
    + destruct (xorb _ _) eqn:E; [|intros []%not_elem_of_nil]. intros ->%list_elem_of_singleton. exists [], s. by rewrite app_nil_r.
    + intros (x & v & -> & -> & -> & E). cbn [app]. rewrite E, app_nil_r. by apply list_elem_of_singleton.
Qed.

Lemma searchFrom_spec p u s : searchFrom p (last u) s = true <-> exists w x v, s = w ++ x ++ v /\ occurs p (u ++ w) x v.
Proof.
  assert (forall u s, (exists x v, s = x ++ v /\ occurs p u x v) <-> matches p (last u, s) <> []) as Hm.
  { clear. intros u s. split.
    - intros (x & v & E & Ho) Hn. assert ((last (u ++ x), v) ∈ matches p (last u, s)) as Hin by (apply matches_spec; exists x, v; eauto).
      rewrite Hn in Hin. by apply not_elem_of_nil in Hin.
    - intros Hn. destruct (matches p (last u, s)) as [|q l] eqn:E; [done|]. assert (q ∈ matches p (last u, s)) as Hin by (rewrite E; left).
      apply matches_spec in Hin as (x & v & ? & _ & ?). eauto. }
  revert u. induction s as [|c t IH]; intros u; cbn [searchFrom]; destruct (matches p (last u, _)) as [|q l] eqn:E.
  - split; [done|]. intros (w & x & v & Ew & Ho). destruct w; [|done]. exfalso. apply (proj1 (Hm u [])); [|done]. rewrite app_nil_r in Ho. by exists x, v.
  - split; [intros _|done]. destruct (proj2 (Hm u [])) as (x & v & ? & ?); [by rewrite E|]. exists [], x, v. by rewrite app_nil_r.
  - rewrite <- (last_snoc c u) at 1. rewrite IH. split.
    + intros (w & x & v & -> & Ho). exists (c :: w), x, v. by rewrite <- app_assoc in Ho.
    + intros (w & x & v & Ew & Ho). destruct w as [|d w].
      * exfalso. apply (proj1 (Hm u (c :: t))); [|done]. rewrite app_nil_r in Ho. by exists x, v.
      * cbn [app] in Ew. injection Ew as <- ->. exists w, x, v. by rewrite <- app_assoc.
  - split; [intros _|done]. destruct (proj2 (Hm u (c :: t))) as (x & v & ? & ?); [by rewrite E|]. exists [], x, v. by rewrite app_nil_r.
Qed.

(** [search] finds a match exactly when there is one. *)
Lemma search_spec p s : search p s = true <-> exists u x v, s = u ++ x ++ v /\ occurs p u x v.
Proof. apply (searchFrom_spec p []). Qed.

Definition pclass (l : list (N * N)) : pattern := PClass false l.
(** A unit of a literal under the [i] flag. *)
Definition punit (c : N) : pattern :=
  if (97 <=? c)%N && (c <=? 122)%N then pclass [(c, c); (c - 32, c - 32)%N]
  else if (65 <=? c)%N && (c <=? 90)%N then pclass [(c, c); (c + 32, c + 32)%N]
  else pclass [(c, c)].
Definition plit (s : string) : pattern := foldr (fun c p => PSeq (punit c) p) PEps (js s).
Definition pseq (l : list pattern) : pattern := foldr PSeq PEps l.
Definition palt (l : list pattern) : pattern := match l with [] => PEps | p :: l' => foldl PAlt p l' end.
Definition popt (p : pattern) : pattern := PAlt p PEps.
Definition pword (p : pattern) : pattern := pseq [PBoundary; p; PBoundary].

(** ** The patterns of the script *)

Definition spaceRanges : list (N * N) :=
  [(9, 13); (32, 32); (160, 160); (5760, 5760); (8192, 8202); (8232, 8233); (8239, 8239); (8287, 8287); (12288, 12288); (65279, 65279)]%N.

Definition credentialWords : pattern :=
  palt [plit "username"; plit "password"; plit "token"; plit "secret"; pseq [plit "credential"; popt (plit "s")];
        pseq [plit "api"; popt (pclass (units (js " _-"))); plit "key"]].
Definition missingWords : pattern :=
  palt [plit "required"; plit "missing"; pseq [plit "not "; palt [plit "set"; plit "supplied"; plit "provided"; plit "found"; plit "configured"]];
        plit "is empty"].

Definition needsInputPatterns : list (jstr * pattern) :=
  [ (js "missing credentials",
     pseq [PBoundary; credentialWords; popt (plit "s"); PBoundary; PUpto 80 true [(10, 10)%N]; PBoundary; missingWords; PBoundary]);
    (js "missing credentials", pseq [plit "Input required and not supplied: "; PMany true spaceRanges]);
    (js "authentication failure",
     pword (palt [plit "unauthorized: authentication required"; pseq [plit "authentication "; palt [plit "required"; plit "failed"]];
                  plit "bad credentials"; pseq [plit "invalid "; palt [plit "username or password"; plit "credentials"]];
                  plit "401 (Unauthorized)"; plit "status code 401"]));
    (js "authorization failure",
     PSeq PBoundary (palt [plit "denied: requested access to the resource is denied"; plit "Resource not accessible by integration";
                           plit "permission denied (publickey)"; plit "403 (Forbidden)"]));
    (js "runner infrastructure",
     PSeq PBoundary (palt [plit "Cannot connect to the Docker daemon"; plit "No space left on device";
                           plit "The runner has received a shutdown signal"; plit "lost communication with the server";
                           pseq [plit "No runner "; popt (plit "is "); plit "available"]])) ].

Definition errorLine : pattern :=
  palt [plit "##[error]"; pword (plit "error"); pword (plit "fatal"); pword (pseq [plit "fail"; popt (palt [plit "ed"; plit "ure"])]);
        pword (plit "denied"); pword (plit "unauthorized"); pword (plit "Input required")].

(** ** Logs *)

(** [n] digits. *)
Definition digitsExactly (n : nat) (s : jstr) : option jstr :=
  if bool_decide (n <= length s) && forallb is_digit (take n s) then Some (drop n s) else None.
Definition expect (p : jstr) (s : jstr) : option jstr := if startsWith p s then Some (drop (length p) s) else None.

(** What follows a match of [/^\uFEFF?\d{4}-\d{2}-\d{2}T[\d:.]+Z\s?/]. *)
Definition afterTimestamp (line : jstr) : option jstr :=
  let s := match line with 65279%N :: t => t | _ => line end in
  s ← digitsExactly 4 s; s ← expect (js "-") s; s ← digitsExactly 2 s; s ← expect (js "-") s; s ← digitsExactly 2 s;
  s ← expect (js "T") s;
  match span (in_class false (digit_r :: units (js ":."))) s with
  | (_ :: _, s) => s ← expect (js "Z") s; Some match s with c :: t => if is_space c then t else s | [] => s end
  | _ => None
  end.

Definition stripLogPrefix (line : jstr) : jstr := trimEnd (default line (afterTimestamp line)).

(** [s.split(/\r?\n/)] *)
Definition dropReturn (s : jstr) : jstr := if endsWith [13%N] s then removelast s else s.
Fixpoint dropReturns (l : list jstr) : list jstr :=
  match l with [] => [] | [s] => [s] | s :: l' => dropReturn s :: dropReturns l' end.
Definition splitLines (s : jstr) : list jstr := dropReturns (split_on 10 s).

Definition errorLines (log : value) : list jstr :=
  filter (fun line => search errorLine line = true) (stripLogPrefix <$> splitLines (interpolate (nullish log (Str [])))).

Definition addReason (reasons : list jstr) (r : jstr) : list jstr := if memb r reasons then reasons else reasons ++ [r].

Definition classifyLog (log : value) : list jstr :=
  foldl (fun reasons line =>
    foldl (fun reasons rp => if search rp.2 line then addReason reasons rp.1 else reasons) reasons needsInputPatterns)
  [] (errorLines log).

Definition aggregateJob : jstr := js "ci-failed".

Definition failedJobs (jobs : list value) (ownWorkflowJobs : list jstr) : list value :=
  let failed := filter (fun job => (negb (one_of ownWorkflowJobs (get (js "name") job)) && truthy (get (js "conclusion") job)
      && negb (one_of [js "success"; js "skipped"; js "neutral"] (get (js "conclusion") job))) = true) jobs in
  let specific := filter (fun job => is_str aggregateJob (get (js "name") job) = false) failed in
  match specific with [] => failed | _ => specific end.

(** ** Texts *)

(** [.replace(/`{3,}/g, "'''")], with the length of the run read so far. *)
Definition backticks (n : nat) : jstr := if 3 <=? n then [39; 39; 39]%N else repeat 96%N n.
Fixpoint collapseFences (n : nat) (s : jstr) : jstr :=
  match s with
  | [] => backticks n
  | c :: t => if (c =? 96)%N then collapseFences (S n) t else backticks n ++ c :: collapseFences 0 t
  end.

Definition mentionUnit (c : N) : bool := is_word c || (c =? 45)%N.

(** [.replace(/@(?=[\w-])/g, "@\u200b")] *)
Fixpoint guardMentions (s : jstr) : jstr :=
  match s with
  | [] => []
  | c :: t => if (c =? 64)%N && from_option mentionUnit false (head t) then 64%N :: 8203%N :: guardMentions t else c :: guardMentions t
  end.

Definition sanitize (text : jstr) : jstr := take 300 (guardMentions (collapseFences 0 text)).

Definition escapeHtml (text : jstr) : jstr :=
  text ≫= fun c => if (c =? 38)%N then js "&amp;" else if (c =? 60)%N then js "&lt;" else if (c =? 62)%N then js "&gt;"
                   else if (c =? 34)%N then js "&quot;" else if (c =? 39)%N then js "&#39;" else [c].

(** ** Jobs *)

Record analyzedJob := { a_name : value; a_url : value; a_conclusion : value; a_reasons : list jstr; a_excerpt : list jstr }.

Definition infrastructureConclusions : list jstr := [js "cancelled"; js "startup_failure"; js "action_required"; js "stale"].
Definition maxExcerptLines : nat := 15.
Definition lastItems {A} (n : nat) (l : list A) : list A := drop (length l - n) l.

Definition analyzeJob (job log : value) : analyzedJob :=
  {| a_name := get (js "name") job; a_url := get (js "html_url") job; a_conclusion := get (js "conclusion") job;
     a_reasons := classifyLog log
       ++ (if one_of infrastructureConclusions (get (js "conclusion") job) then [js "job " ++ interpolate (get (js "conclusion") job)] else [])
       ++ (if strict_eq log Null then [js "logs unavailable"] else []);
     a_excerpt := sanitize <$> lastItems maxExcerptLines (errorLines log) |}.

(** ** Markers *)

Inductive requestKind := Copilot | Input.
#[global] Instance requestKind_eq_dec : EqDecision requestKind.
Proof. solve_decision. Defined.

Definition kindText (k : requestKind) : jstr := match k with Copilot => js "copilot" | Input => js "input" end.
Definition markerStart : jstr := js "<!-- realtime-ci-autofix:".

Definition marker (kind : requestKind) (sha runId : jstr) : jstr :=
  markerStart ++ kindText kind ++ js " sha=" ++ sha ++ js " run=" ++ runId ++ js " -->".

Definition is_hex (c : N) : bool := is_digit c || (97 <=? c)%N && (c <=? 102)%N.

(** The groups of the pattern [<!-- MARKER:(copilot|input) sha=([0-9a-f]+) run=\d+ -->]
    at the start of a text. *)
Definition markerTail (s : jstr) : option jstr :=
  s ← expect (js " sha=") s;
  match span is_hex s with
  | ((_ :: _) as sha, s) =>
      s ← expect (js " run=") s;
      match span is_digit s with
      | (_ :: _, s) => _ ← expect (js " -->") s; Some sha
      | _ => None
      end
  | _ => None
  end.

Definition markerHere (s : jstr) : option (requestKind * jstr) :=
  s ← expect markerStart s;
  match expect (js "copilot") s with
  | Some t => sha ← markerTail t; Some (Copilot, sha)
  | None => t ← expect (js "input") s; sha ← markerTail t; Some (Input, sha)
  end.

(** [pattern.exec(s)]: the first match. *)
Fixpoint firstMarker (s : jstr) : option (requestKind * jstr) :=
  match markerHere s with
  | Some m => Some m
  | None => match s with [] => None | _ :: t => firstMarker t end
  end.

Definition trustedAssociations : list jstr := [js "OWNER"; js "MEMBER"; js "COLLABORATOR"].

Definition trustedComment (comment : value) : bool :=
  is_str (js "Bot") (optget (js "type") (get (js "user") comment)) || one_of trustedAssociations (get (js "author_association") comment).

(** The markers the script believes. *)
Definition recordedRequests (comments : list value) : list (requestKind * jstr) :=
  omap (fun c => if trustedComment c then firstMarker (interpolate (nullish (get (js "body") c) (Str []))) else None) comments.

Record prior := { copilotAttempts : nat; handledSha : bool }.

(** [priorRequests]: the loop over the comments. *)
Fixpoint priorLoop (sha : jstr) (p : prior) (comments : list value) : prior :=
  match comments with
  | [] => p
  | c :: rest =>
      if negb (trustedComment c) then priorLoop sha p rest
      else match firstMarker (interpolate (nullish (get (js "body") c) (Str []))) with
           | None => priorLoop sha p rest
           | Some (kind, s) =>
               priorLoop sha {| copilotAttempts := if decide (kind = Copilot) then S (copilotAttempts p) else copilotAttempts p;
                                handledSha := bool_decide (s = sha) || handledSha p |} rest
           end
  end.
Definition priorRequests (comments : list value) (sha : jstr) : prior := priorLoop sha {| copilotAttempts := 0; handledSha := false |} comments.

(** ** Comments *)

Definition fence : jstr := [96; 96; 96]%N.

Definition jobSection (job : analyzedJob) : jstr :=
  join newline
    ((js "### [" ++ interpolate (a_name job) ++ js "](" ++ interpolate (a_url job) ++ js ") " ++ [8212%N] ++ js " " ++ interpolate (a_conclusion job))
     :: (if bool_decide (a_reasons job = []) then [] else [js "Needs input: " ++ join (js ", ") (a_reasons job)])
     ++ (if bool_decide (a_excerpt job = []) then [] else (fence ++ js "text") :: a_excerpt job ++ [fence])).

(** The run of [context.payload.workflow_run]. *)
Definition runLink (run : value) : jstr := js "[" ++ interpolate (get (js "name") run) ++ js " run](" ++ interpolate (get (js "html_url") run) ++ js ")".

Definition buildCopilotRequest (mention : jstr) (run : value) (jobs : list analyzedJob) (sha : jstr) (attempt : nat) (maxAttempts : num) : jstr :=
  join newline
    ([mention ++ js " The " ++ runLink run ++ js " failed its `" ++ aggregateJob ++ js "` gate on `" ++ take 12 sha
        ++ js "` (automatic fix attempt " ++ show_Z (Z.of_nat attempt) ++ js " of " ++ interpolate (Number maxAttempts) ++ js ").";
      [];
      js "Analyze the failed jobs below, inspect their full logs, and push the smallest change to this branch that makes them pass. "
        ++ js "Follow the repository agent guidance and run the matching validation. If a failure needs something you cannot provide "
        ++ js "(credentials, secrets, repository settings, runner infrastructure, or a product decision), stop without guessing and reply "
        ++ js "explaining exactly what input is needed.";
      []]
     ++ (jobSection <$> jobs) ++ [[]; marker Copilot sha (interpolate (get (js "id") run))]).

Definition addressed (people : list jstr) : jstr :=
  people ≫= fun person => (if startsWith (js "@") person then [] else js "@") ++ person ++ js " ".

Definition buildInputRequest (people : list jstr) (run : value) (jobs : list analyzedJob) (sha summary : jstr) : jstr :=
  join newline
    ([addressed people ++ js "Automatic CI repair was **not** started for the " ++ runLink run ++ js " on `" ++ take 12 sha ++ js "`.";
      []; summary; [];
      js "Resolve the items below (for example, configure the missing secret or variable, or fix runner access), then re-run the failed jobs. "
        ++ js "To request a code fix anyway, mention the coding agent in a new comment.";
      []]
     ++ (jobSection <$> jobs) ++ [[]; marker Input sha (interpolate (get (js "id") run))]).

(** ** The decision *)

(** [Number.parseInt(s, 10)] *)
Definition parseInt10 (s : jstr) : num :=
  let t := trimStart s in
  let '(negative, u) := match t with 45%N :: u => (true, u) | 43%N :: u => (false, u) | _ => (false, t) end in
  match digits_value 10 (span is_digit u).1, (span is_digit u).1 with
  | Some z, _ :: _ => let n := round64 (inject_Z z) in if (negative : bool) then nopp n else n
  | _, _ => NaN
  end.

Section autofix.
Context (processEnv : list (jstr * value)) (owner repo : jstr) (run : value).

(** [process.env.NAME || d] *)
Definition envOr (name : string) (d : jstr) : jstr :=
  let v := envVar processEnv name in if truthy v then str_of v else d.

Definition maxAttempts : num :=
  let n := parseInt10 (envOr "CI_AUTOFIX_MAX_ATTEMPTS" (js "3")) in if truthy (Number n) then n else int 3.
Definition mention : jstr := envOr "CI_AUTOFIX_AGENT_MENTION" (js "@copilot").
Definition tokenConfigured : bool := is_str (js "true") (envVar processEnv "CI_AUTOFIX_TOKEN_CONFIGURED").
Definition ignoredJobs : list jstr := filter (fun s => s <> []) (split_on 44 (envOr "CI_AUTOFIX_IGNORED_JOBS" [])).

Definition head_sha : jstr := str_of (get (js "head_sha") run).

Definition core (method : string) (args : list value) : prog unit := _ ← call (Core (js method) args); Ret tt.
Definition setOutput (name : string) (content : jstr) : prog unit := core "setOutput" [Str (js name); Str content].
Definition inspectLink : list value := [Str (js "Inspect the CI run"); get (js "html_url") run].

Definition stop (message : jstr) : prog unit :=
  _ ← core "notice" [Str message];
  _ ← setOutput "dispatch" (js "false");
  _ ← core "summary.addHeading" [Str (js "Automatic CI repair not started")];
  _ ← core "summary.addRaw" [Str (escapeHtml message); Boolean true];
  _ ← core "summary.addLink" inspectLink;
  core "summary.write" [].

Definition findPullRequest : prog value :=
  let listed := match get (js "pull_requests") run with Arr (x :: _) => x | _ => Undefined end in
  if truthy listed then
    answer ← call (GitHub (js "pulls.get") (repoArguments owner repo ++ [(js "pull_number", get (js "number") listed)]));
    lift (field_of (js "data") answer)
  else
    answer ← call (GitHub (js "pulls.list") (repoArguments owner repo ++
      [(js "state", Str (js "open")); (js "head", Str (owner ++ js ":" ++ interpolate (get (js "head_branch") run))); (js "per_page", Number (int 1))]));
    data ← lift (field_of (js "data") answer);
    found ← lift (elements data);
    Ret (nullish (default Undefined (head found)) Null).

Definition listJobs : request :=
  GitHub (js "paginate actions.listJobsForWorkflowRun") (repoArguments owner repo ++
    [(js "run_id", get (js "id") run); (js "filter", Str (js "latest")); (js "per_page", Number (int 100))]).
Definition listComments (pr : value) : request :=
  GitHub (js "paginate issues.listComments") (repoArguments owner repo ++
    [(js "issue_number", get (js "number") pr); (js "per_page", Number (int 100))]).
Definition downloadLogs (job : value) : request :=
  GitHub (js "actions.downloadJobLogsForWorkflowRun") (repoArguments owner repo ++ [(js "job_id", get (js "id") job)]).
Definition createComment (pr : value) (body : jstr) : request :=
  GitHub (js "issues.createComment") (repoArguments owner repo ++ [(js "issue_number", get (js "number") pr); (js "body", Str body)]).

(** The loop that downloads and analyzes the logs. *)
Definition analyzeOne (job : value) (analyzed : list analyzedJob) : prog (list analyzedJob) :=
  log ← catch (answer ← call (downloadLogs job); lift (field_of (js "data") answer))
          (fun e => _ ← core "warning" [Str (js "Could not download logs for " ++ interpolate (get (js "name") job) ++ js ": " ++ emessage e)];
                    Ret Null);
  Ret (analyzed ++ [analyzeJob job log]).

(** [summary]: why no repair is requested. *)
Definition obstacle (analyzed : list analyzedJob) (attempts : nat) : option jstr :=
  if existsb (fun job => negb (bool_decide (a_reasons job = []))) analyzed then
    Some (js "These failures need information or access that an automated code change cannot supply.")
  else if nge (int (Z.of_nat attempts)) maxAttempts then
    Some (js "The automatic repair limit (" ++ interpolate (Number maxAttempts) ++ js " attempts) was reached for this pull request.")
  else if negb tokenConfigured then
    Some (js "The `CI_AUTOFIX_TOKEN` repository secret is not configured, so the coding agent cannot be started.")
  else None.

Definition jobRow (job : analyzedJob) : list jstr :=
  let reasons := join (js ", ") (a_reasons job) in
  escapeHtml <$> [interpolate (a_name job); interpolate (a_conclusion job); if bool_decide (reasons = []) then js "no" else reasons].

Definition summarizeJob (job : analyzedJob) : prog unit :=
  _ ← core "summary.addHeading" [Str (escapeHtml (interpolate (a_name job))); Number (int 3)];
  _ ← whenever (truthy (a_url job)) (core "summary.addLink" [Str (js "Inspect failed job logs"); a_url job]);
  whenever (negb (bool_decide (a_excerpt job = [])))
    (core "summary.addCodeBlock" [Str (escapeHtml (join newline (a_excerpt job))); Str (js "text")]).

Definition summarize (analyzed : list analyzedJob) (summary : option jstr) : prog unit :=
  _ ← core "summary.addHeading" [Str (js "CI failure analysis")];
  _ ← core "summary.addLink" inspectLink;
  _ ← core "summary.addRaw" [Str (escapeHtml (default (js "Automatic CI repair will be requested.") summary)); Boolean true];
  _ ← core "summary.addTable" (row [js "Job"; js "Conclusion"; js "Needs input"] :: ((fun job => row (jobRow job)) <$> analyzed));
  _ ← each summarizeJob analyzed;
  _ ← whenever (bool_decide (is_Some summary))
        (core "summary.addRaw" [Str (js "Resolve the reported requirements, then re-run the failed CI jobs. No automatic repair was requested."); Boolean true]);
  core "summary.write" [].

(** Who is asked for input. *)
Definition people (pr : value) : list jstr :=
  let logins := str_of <$> filter (fun login => truthy login && negb (endsWith (js "[bot]") (str_of login)) = true)
                  [optget (js "login") (get (js "user") pr); optget (js "login") (get (js "triggering_actor") run)] in
  match dedupe logins with
  | [] => let fallback := envVar processEnv "CI_AUTOFIX_FALLBACK_MENTION" in if truthy fallback then [str_of fallback] else []
  | l => l
  end.

(** From the comments on: the analysis and its outcome. *)
Definition decideRepair (pr : value) (jobs : list value) (attempts : nat) : prog unit :=
  analyzed ← loop analyzeOne (failedJobs jobs ignoredJobs) [];
  let summary := obstacle analyzed attempts in
  _ ← summarize analyzed summary;
  match summary with
  | Some s => _ ← call (createComment pr (buildInputRequest (people pr) run analyzed head_sha s)); stop s
  | None =>
      _ ← setOutput "dispatch" (js "true");
      _ ← setOutput "pull_number" (interpolate (get (js "number") pr));
      setOutput "body" (buildCopilotRequest mention run analyzed head_sha (S attempts) maxAttempts)
  end.

Definition gateFailed (jobs : list value) : bool :=
  match list_find (fun job => is_str aggregateJob (get (js "name") job) = true) jobs with
  | Some (_, job) => is_str (js "failure") (get (js "conclusion") job)
  | None => false
  end.

Definition analyzeCiFailure : prog unit :=
  if strict_eq (get (js "name") run) (envVar processEnv "CI_AUTOFIX_WORKFLOW_NAME") then stop (js "Ignoring this workflow to prevent a loop.")
  else if negb (is_str (js "pull_request") (get (js "event") run))
       || negb (is_str (owner ++ js "/" ++ repo) (optget (js "full_name") (get (js "head_repository") run))) then
    stop (js "Only same-repository pull request branches are repaired automatically.")
  else
    answer ← call listJobs;
    jobs ← lift (elements answer);
    if negb (gateFailed jobs) then stop (js "The " ++ aggregateJob ++ js " gate did not fail; nothing to repair.")
    else
      pr ← findPullRequest;
      if negb (truthy pr) || negb (is_str (js "open") (get (js "state") pr)) then stop (js "No open pull request for this branch.")
      else
        sha ← lift (field_of (js "sha") (get (js "head") pr));
        if negb (strict_eq sha (get (js "head_sha") run)) then stop (js "The branch has newer commits; their CI run decides.")
        else
          answer ← call (listComments pr);
          comments ← lift (elements answer);
          let p := priorRequests comments head_sha in
          if handledSha p then stop (js "Commit " ++ head_sha ++ js " was already handled.")
          else decideRepair pr jobs (copilotAttempts p).
End autofix.
