(* ===== verification/CiAutofixProps.v ===== *)
(** * Repairing failed CI runs: theorems

    The excerpts of logs are harmless in a comment, a marker written into a
    comment is read back, a repair is requested only when every guard holds, and
    a pull request gets a bounded number of repair requests. *)

From stdpp Require Import base tactics option list numbers strings relations.
From Stdlib Require Import QArith Lia.
From S2P Require Import Prelude JsString JsNumber JsValue Regex Paths Effects Chart KubeTools BranchSync CiAutofix.
#[local] Open Scope nat_scope.

(** ** Sanitized text *)

(** A run of backticks of length 3 after [n] of them. *)
Fixpoint run3 (n : nat) (s : jstr) : bool :=
  match s with [] => false | c :: t => if (c =? 96)%N then (3 <=? S n) || run3 (S n) t else run3 0 t end.

Lemma run3_fence u v n : run3 n (u ++ fence ++ v) = true.
Proof.
  revert n. induction u as [|c u IH]; intros n.
  - cbn. destruct n as [|[|n]]; done.
  - cbn [app run3]. destruct (c =? 96)%N; [rewrite IH; apply orb_true_r|apply IH].
Qed.

Lemma run3_backticks n : run3 0 (backticks n) = false.
Proof. by destruct n as [|[|[|n]]]. Qed.
Lemma run3_backticks_then n c t : (c =? 96)%N = false -> run3 0 (backticks n ++ c :: t) = run3 0 t.
Proof. intros Hc. destruct n as [|[|[|n]]]; cbn; by rewrite Hc. Qed.

Lemma run3_collapse n s : run3 0 (collapseFences n s) = false.
Proof.
  revert n. induction s as [|c t IH]; intros n; cbn [collapseFences]; [apply run3_backticks|].
  destruct (c =? 96)%N eqn:Hc; [apply IH|]. by rewrite run3_backticks_then.
Qed.

Lemma run3_guard n s : run3 n (guardMentions s) = run3 n s.
Proof.
  revert n. induction s as [|c t IH]; intros n; cbn [guardMentions]; [done|].
  destruct (c =? 64)%N eqn:Hc; [apply N.eqb_eq in Hc as ->|]; cbn [andb].
  - destruct (from_option _ _ _); cbn; apply IH.
  - cbn [run3]. by rewrite !IH.
Qed.

Lemma guardMentions_head s : head (guardMentions s) = head s.
Proof. destruct s as [|c t]; [done|]. cbn [guardMentions]. destruct (_ && _) eqn:E; [|done]. by apply andb_true_iff in E as [->%N.eqb_eq _]. Qed.

Lemma guardMentions_safe s u c v : guardMentions s = u ++ 64%N :: c :: v -> mentionUnit c = false.
Proof.
  revert u. induction s as [|d t IH]; intros u; cbn [guardMentions]; [by destruct u|].
  destruct (_ && _) eqn:E.
  - destruct u as [|? [|? u]]; cbn [app]; [by intros [= <- _]|by intros [=]|intros [= _ _ H]; by eapply IH].
  - destruct u as [|? u]; cbn [app]; [intros [= -> H]|intros [= _ H]; by eapply IH].
    rewrite <- (guardMentions_head t), H in E. exact E.
Qed.

(** A sanitized log line has at most 300 units, contains no code fence, so it
    cannot end the block it is quoted in, and every @ in it is followed by no
    letter, digit, underscore or hyphen, so it mentions nobody. *)
Theorem sanitize_safe text :
  length (sanitize text) <= 300 /\ includes fence (sanitize text) = false /\
  forall u c v, sanitize text = u ++ 64%N :: c :: v -> mentionUnit c = false.
Proof.
  split_and!; unfold sanitize.
  - rewrite length_take. lia.
  - apply not_true_iff_false. intros (u & v & E)%includes_spec.
    pose proof (run3_fence u (v ++ drop 300 (guardMentions (collapseFences 0 text))) 0) as H.
    rewrite !app_assoc, <- (app_assoc u), <- E, take_drop, run3_guard, run3_collapse in H. done.
  - intros u c v E. apply (guardMentions_safe (collapseFences 0 text) u c (v ++ drop 300 (guardMentions (collapseFences 0 text)))).
    rewrite <- (take_drop 300 (guardMentions _)) at 1. rewrite E. by rewrite <- app_assoc.
Qed.

(** ** Markers *)

Definition hexDigits (s : jstr) : Prop := s <> [] /\ Forall (fun c => is_hex c = true) s.
Definition decimalDigits (s : jstr) : Prop := s <> [] /\ Forall (fun c => is_digit c = true) s.

Lemma span_app p s c t : Forall (fun c => p c = true) s -> p c = false -> span p (s ++ c :: t) = (s, c :: t).
Proof. intros Hs Hc. induction Hs as [|d s Hd Hs IH]; cbn; [by rewrite Hc|]. by rewrite Hd, IH. Qed.

Lemma expect_app p s : expect p (p ++ s) = Some s.
Proof. unfold expect. rewrite startsWith_app. by rewrite drop_app_length. Qed.

Lemma markerTail_app sha id w : hexDigits sha -> decimalDigits id ->
  markerTail (js " sha=" ++ sha ++ js " run=" ++ id ++ js " -->" ++ w) = Some sha.
Proof.
  intros [Hn Hs] [Hm Hi]. unfold markerTail. rewrite expect_app. cbn [mbind option_bind].
  change (js " run=" ++ id ++ js " -->" ++ w) with (32%N :: js "run=" ++ id ++ js " -->" ++ w).
  rewrite span_app by done. destruct sha as [|c sha]; [done|].
  change (32%N :: js "run=" ++ id ++ js " -->" ++ w) with (js " run=" ++ id ++ js " -->" ++ w). rewrite expect_app. cbn [mbind option_bind].
  change (js " -->" ++ w) with (32%N :: js "-->" ++ w). rewrite span_app by done. destruct id as [|d id]; [done|].
  change (32%N :: js "-->" ++ w) with (js " -->" ++ w). rewrite expect_app. reflexivity.
Qed.

Lemma marker_here k sha id w : hexDigits sha -> decimalDigits id -> markerHere (marker k sha id ++ w) = Some (k, sha).
Proof.
  intros Hs Hi. unfold markerHere, marker. rewrite <- !app_assoc, expect_app. cbn [mbind option_bind].
  destruct k; cbn [kindText].
  - rewrite expect_app, markerTail_app by done. done.
  - assert (forall t, expect (js "copilot") (js "input" ++ t) = None) as -> by reflexivity.
    rewrite expect_app. cbn [mbind option_bind]. by rewrite markerTail_app.
Qed.

Lemma markerHere_other c s : c <> 60%N -> markerHere (c :: s) = None.
Proof. 
  intros Hc. assert (startsWith markerStart (c :: s) = false) as E.
  { apply not_true_iff_false. intros (t & E)%startsWith_spec. by injection E as ->. }
  unfold markerHere, expect. by rewrite E.
Qed.

(** A marker is found when nothing before it opens a tag. *)
Lemma firstMarker_app u k sha id w : 60%N ∉ u -> hexDigits sha -> decimalDigits id -> firstMarker (u ++ marker k sha id ++ w) = Some (k, sha).
Proof.
  intros Hu Hs Hi. induction u as [|c u IH].
  - pose proof (marker_here k sha id w Hs Hi) as E. cbn [app]. unfold firstMarker. destruct (marker k sha id ++ w) eqn:Em; by rewrite E.
  - apply not_elem_of_cons in Hu as [Hc Hu]. cbn [app firstMarker]. rewrite markerHere_other by done. by apply IH.
Qed.

(** ** The outputs of a run *)

(** [core.setOutput(name, ...)] *)
Definition outputRequest (name : string) (r : request) : option jstr :=
  match r with
  | Core m args =>
      if bool_decide (m = js "setOutput") then
        match args with [Str n; Str content] => if bool_decide (n = js name) then Some content else None | _ => None end
      else None
  | _ => None
  end.

Lemma outputRequest_other name method args : method <> "setOutput"%string -> outputRequest name (Core (js method) args) = None.
Proof. intros Hm. cbn [outputRequest]. rewrite bool_decide_eq_false_2; [done|]. by intros ->%js_inj. Qed.

Lemma outputRequest_set name name' content :
  outputRequest name (Core (js "setOutput") [Str (js name'); Str content]) = if bool_decide (name' = name) then Some content else None.
Proof.
  cbn [outputRequest]. rewrite bool_decide_eq_true_2 by done. by rewrite (bool_decide_ext (js name' = js name) (name' = name)) by apply js_eq.
Qed.

(** The last value given to an output. *)
Definition outputOf (name : string) (h : history) : option jstr :=
  foldl (fun acc rx => match outputRequest name rx.1 with Some c => Some c | None => acc end) None h.

Lemma outputOf_extend name h r x : outputOf name (extend h r x) = match outputRequest name r with Some c => Some c | None => outputOf name h end.
Proof. unfold outputOf, extend. by rewrite foldl_app. Qed.

Lemma outputOf_other name h method args x : method <> "setOutput"%string -> outputOf name (extend h (Core (js method) args) x) = outputOf name h.
Proof. intros Hm. by rewrite outputOf_extend, outputRequest_other. Qed.

Lemma outputOf_set name name' h content x :
  outputOf name (extend h (Core (js "setOutput") [Str (js name'); Str content]) x) = if bool_decide (name' = name) then Some content else outputOf name h.
Proof. rewrite outputOf_extend, outputRequest_set. by case_bool_decide. Qed.

(** The comment that starts a repair: the workflow posts the output [body] when
    the script ended well with the output [dispatch] true. *)
Definition requestedBody {A} (h : history) (r : result jsError A) : option jstr :=
  match r with
  | Ok _ => if bool_decide (outputOf "dispatch" h = Some (js "true")) then outputOf "body" h else None
  | Throw _ => None
  end.

Abbreviation okt := (ok (fun (_ : history) (_ : request) => True) extend).

Lemma okt_call {A} h r (k : response -> prog A) Q : (forall x, okt (extend h r x) (k x) Q) -> okt h (Call r k) Q.
Proof. done. Qed.

Lemma okt_core h method args (Q : history -> result jsError unit -> Prop) :
  (forall x, Q (extend h (Core (js method) args) x) (Ok tt)) -> (forall h' e, Q h' (Throw e)) -> okt h (core method args) Q.
Proof. intros Hok Hfail. apply ok_bind, ok_call; [done|]. intros [v|e]; [apply Hok|apply Hfail]. Qed.

(** Nothing is dispatched when the last word is [stop]. *)
Lemma stop_silent run h message : okt h (stop run message) (fun h' r => requestedBody h' r = None).
Proof.
  unfold stop, setOutput. do 5 (apply ok_bind, okt_core; [intros ?|done]).
  apply okt_core; [|done]. intros y. cbn [requestedBody]. rewrite !outputOf_other, outputOf_set by done.
  done.
Qed.

(** ** What a repair request relies on *)

Section autofix.
Context (processEnv : list (jstr * value)) (owner repo : jstr) (run : value).

(** The log an analysis was made from. *)
Definition logged (h : history) (job log : value) : Prop :=
  log = Null \/ exists answer, (downloadLogs owner repo job, Ok answer) ∈ h /\ log = get (js "data") answer.

Definition analyzedFrom (h : history) (job : value) (a : analyzedJob) : Prop := exists log, a = analyzeJob job log /\ logged h job log.

Lemma logged_mono h h' job log : h `prefix_of` h' -> logged h job log -> logged h' job log.
Proof. intros [t ->] [?|(answer & Hin & ?)]; [by left|right]. exists answer. rewrite elem_of_app. auto. Qed.

Lemma analyzedFrom_mono h h' job a : h `prefix_of` h' -> analyzedFrom h job a -> analyzedFrom h' job a.
Proof. intros Hp (log & ? & ?). exists log. eauto using logged_mono. Qed.

Lemma analyzeOne_ends h job acc :
  okt h (analyzeOne owner repo job acc) (fun h' r => match r with Ok l => exists a, l = acc ++ [a] /\ analyzedFrom h' job a | Throw _ => True end).
Proof.
  unfold analyzeOne. apply ok_bind, ok_catch, ok_bind, ok_call; [done|].
  assert (forall h1 e, okt h1 (_ ← core "warning" [Str (js "Could not download logs for " ++ interpolate (get (js "name") job) ++ js ": " ++ emessage e)];
    Ret Null) (fun m' r => match r with Ok a => okt m' (Ret (acc ++ [analyzeJob job a])) (fun h' r => match r with Ok l =>
      exists a, l = acc ++ [a] /\ analyzedFrom h' job a | Throw _ => True end) | Throw e => True end)) as Hnull.
  { intros h1 e. apply ok_bind, okt_core; [|done]. intros x. eexists. split; [done|]. exists Null. split; [done|by left]. }
  intros [answer|e]; [|apply Hnull]. unfold field_of. destruct (isNullish answer) eqn:Hn; [apply Hnull|].
  cbn [lift ok]. eexists. split; [done|]. eexists. split; [done|]. right. exists answer. split; [|done].
  unfold extend. rewrite elem_of_app, list_elem_of_singleton. by right.
Qed.

Lemma analyzeAll_ends h jobs acc :
  okt h (loop (analyzeOne owner repo) jobs acc)
    (fun h' r => match r with Ok l => exists new, l = acc ++ new /\ Forall2 (analyzedFrom h') jobs new | Throw _ => True end).
Proof.
  revert h acc. induction jobs as [|job jobs IH]; intros h acc; cbn [loop].
  - exists []. by rewrite app_nil_r.
  - apply ok_bind. eapply ok_weaken; [apply analyzeOne_ends|]. intros h1 [l|e]; [|done]. intros (a & -> & Ha).
    eapply ok_weaken; [apply ok_extends, IH|]. intros h2 [l|e] [Hp H]; [|done]. destruct H as (new & -> & Hnew).
    exists (a :: new). split; [by rewrite <- app_assoc|]. constructor; [by eapply analyzedFrom_mono|done].
Qed.

(** The pull request of the run: the one it lists, read again, or the first one
    listed as open for its branch. *)
Definition pullRead (h : history) (pr : value) : Prop :=
  (exists listed rest answer, get (js "pull_requests") run = Arr (listed :: rest) /\
     (GitHub (js "pulls.get") [(js "owner", Str owner); (js "repo", Str repo); (js "pull_number", get (js "number") listed)], Ok answer) ∈ h /\
     get (js "data") answer = pr) \/
  (exists answer rest,
     (GitHub (js "pulls.list") [(js "owner", Str owner); (js "repo", Str repo); (js "state", Str (js "open"));
        (js "head", Str (owner ++ js ":" ++ interpolate (get (js "head_branch") run))); (js "per_page", Number (int 1))], Ok answer) ∈ h /\
     get (js "data") answer = Arr (pr :: rest)).

Lemma pullRead_mono h h' pr : h `prefix_of` h' -> pullRead h pr -> pullRead h' pr.
Proof.
  intros [t ->] [(l & rest & a & ? & Hin & ?)|(a & rest & Hin & ?)]; [left; exists l, rest, a|right; exists a, rest];
    rewrite elem_of_app; eauto.
Qed.

Lemma field_of_data answer v : field_of (js "data") answer = Ok v -> get (js "data") answer = v.
Proof. unfold field_of. by destruct (isNullish answer); intros [= <-]. Qed.

Lemma findPullRequest_read h :
  okt h (findPullRequest owner repo run) (fun h' r => match r with Ok pr => truthy pr = true -> pullRead h' pr | Throw _ => True end).
Proof.
  unfold findPullRequest. cbv zeta.
  destruct (get (js "pull_requests") run) as [| | | | |[|listed rest]| |] eqn:El; cbn [truthy];
    try (destruct (truthy listed));
    (apply ok_bind, ok_call; [done|]; intros [answer|e]; [|done]).
  all: try (destruct (field_of (js "data") answer) as [v|e] eqn:Ef; [|done]; apply field_of_data in Ef; cbn [lift ok]; intros _; left;
    exists listed, rest, answer; unfold extend; rewrite elem_of_app, list_elem_of_singleton; by auto).
  all: apply ok_bind; destruct (field_of (js "data") answer) as [v|e] eqn:Ef; [|done]; apply field_of_data in Ef; cbn [lift ok];
    apply ok_bind; destruct v as [| | | | |found| |]; try done; cbn [elements lift ok]; intros Ht; right; exists answer, (tail found);
    unfold extend; rewrite elem_of_app, list_elem_of_singleton; split; [by right|]; rewrite Ef; destruct found as [|x found]; [done|]; by destruct x.
Qed.

(** The facts a repair request rests on, all read in the run. *)
Definition warranted (h : history) (body : jstr) : Prop :=
  strict_eq (get (js "name") run) (envVar processEnv "CI_AUTOFIX_WORKFLOW_NAME") = false /\
  is_str (js "pull_request") (get (js "event") run) = true /\
  is_str (owner ++ js "/" ++ repo) (optget (js "full_name") (get (js "head_repository") run)) = true /\
  tokenConfigured processEnv = true /\
  exists jobs pr comments analyzed,
    (listJobs owner repo run, Ok (Arr jobs)) ∈ h /\ gateFailed jobs = true /\ pullRead h pr /\
    is_str (js "open") (get (js "state") pr) = true /\
    strict_eq (get (js "sha") (get (js "head") pr)) (get (js "head_sha") run) = true /\
    (listComments owner repo pr, Ok (Arr comments)) ∈ h /\
    let p := priorRequests comments (head_sha run) in
    handledSha p = false /\ nlt (int (Z.of_nat (copilotAttempts p))) (maxAttempts processEnv) = true /\
    Forall2 (analyzedFrom h) (failedJobs jobs (ignoredJobs processEnv)) analyzed /\
    Forall (fun a => a_reasons a = []) analyzed /\
    body = buildCopilotRequest (mention processEnv) run analyzed (head_sha run) (S (copilotAttempts p)) (maxAttempts processEnv).

Lemma maxAttempts_above n : nge (int n) (maxAttempts processEnv) = false -> nlt (int n) (maxAttempts processEnv) = true.
Proof.
  unfold maxAttempts. set (m := parseInt10 _). cbv zeta. destruct (truthy (Number m)) eqn:Ht; [|set (m' := int 3); clearbody m; clear Ht].
  - destruct m as [|[]|q]; [done|done|done|]. unfold nge, nle, nlt, neq_num, int. intros [H1 H2]%orb_false_iff.
    apply negb_true_iff, not_true_iff_false. intros H%Qle_bool_iff. apply negb_false_iff, Qle_bool_iff in H1.
    apply Qeq_bool_neq in H2. apply H2. by apply Qle_antisym.
  - unfold m', nge, nle, nlt, neq_num, int. intros [H1 H2]%orb_false_iff.
    apply negb_true_iff, not_true_iff_false. intros H%Qle_bool_iff. apply negb_false_iff, Qle_bool_iff in H1.
    apply Qeq_bool_neq in H2. apply H2. by apply Qle_antisym.
Qed.

Lemma okt_any {A} h (p : prog A) : okt h p (fun _ _ => True).
Proof. revert h. induction p as [a|e|r k IH]; intros h; [done|done|]. split; [done|]. intros x. apply IH. Qed.

Lemma input_silent h pr body s :
  okt h (_ ← call (createComment owner repo pr body); stop run s) (fun h' r => forall b, requestedBody h' r = Some b -> warranted h' b).
Proof.
  apply ok_bind, ok_call; [done|]. intros [v|e]; [|done]. eapply ok_weaken; [apply stop_silent|]. cbn. intros h' r E b. by rewrite E.
Qed.

Lemma decideRepair_ends h pr jobs comments :
  strict_eq (get (js "name") run) (envVar processEnv "CI_AUTOFIX_WORKFLOW_NAME") = false ->
  is_str (js "pull_request") (get (js "event") run) = true ->
  is_str (owner ++ js "/" ++ repo) (optget (js "full_name") (get (js "head_repository") run)) = true ->
  (listJobs owner repo run, Ok (Arr jobs)) ∈ h -> gateFailed jobs = true -> pullRead h pr ->
  is_str (js "open") (get (js "state") pr) = true ->
  strict_eq (get (js "sha") (get (js "head") pr)) (get (js "head_sha") run) = true ->
  (listComments owner repo pr, Ok (Arr comments)) ∈ h ->
  handledSha (priorRequests comments (head_sha run)) = false ->
  okt h (decideRepair processEnv owner repo run pr jobs (copilotAttempts (priorRequests comments (head_sha run))))
    (fun h' r => forall body, requestedBody h' r = Some body -> warranted h' body).
Proof.
  intros Hname Hevent Hrepo Hjobs Hgate Hpull Hopen Hsha Hcomments Hhandled.
  set (attempts := copilotAttempts _). unfold decideRepair.
  apply ok_bind. eapply ok_weaken; [apply ok_extends, analyzeAll_ends|]. intros h1 [analyzed|e] [Hp H1]; [|done].
  destruct H1 as (new & -> & Hnew). cbn [app]. apply ok_bind. eapply ok_weaken; [apply ok_extends, okt_any|].
  intros h2 [[]|e] [Hp2 _]; [|done].
  assert (h `prefix_of` h2) as Hp' by (by etransitivity). unfold obstacle. destruct (existsb _ new) eqn:Hb; [apply input_silent|].
  destruct (nge _ _) eqn:Hge; [apply input_silent|]. destruct (negb _) eqn:Htok; [apply input_silent|].
  do 2 (apply ok_bind, okt_core; [intros ?|done]). apply okt_core; [intros x2|done]. intros body. cbn [requestedBody].
  rewrite !outputOf_set. cbn [bool_decide]. intros [= <-].
  match goal with |- warranted ?h3 _ => assert (h2 `prefix_of` h3) as Hp3 by (unfold extend; rewrite <- !app_assoc; by eexists); set (h3' := h3) in * end.
  clearbody h3'. apply negb_false_iff in Htok. split_and!; [done..|]. exists jobs, pr, comments, new.
  assert (h `prefix_of` h3') as Hpre by (by etransitivity). pose proof (pullRead_mono _ _ _ Hpre Hpull).
  destruct Hpre as [t ->]. rewrite !elem_of_app. cbv zeta.
  split_and!; [by left|done|done|done|done|by left|done|by apply maxAttempts_above| | |done].
  - eapply Forall2_impl; [exact Hnew|]. intros job a. apply analyzedFrom_mono. by etransitivity.
  - apply Forall_forall. intros a Ha. destruct (decide (a_reasons a = [])) as [|Hne]; [done|].
    apply not_true_iff_false in Hb as []. apply existsb_exists. exists a. split; [by apply list_elem_of_In|].
    by rewrite bool_decide_eq_false_2.
Qed.

Lemma analyze_ends : ends (analyzeCiFailure processEnv owner repo run) (fun h r => forall body, requestedBody h r = Some body -> warranted h body).
Proof.
  assert (forall h m, okt h (stop run m) (fun h r => forall body, requestedBody h r = Some body -> warranted h body)) as Hstop.
  { intros h m. eapply ok_weaken; [apply stop_silent|]. cbn. intros h' r E b. by rewrite E. }
  unfold ends, analyzeCiFailure. destruct (strict_eq _ _) eqn:Hname; [apply Hstop|].
  destruct (is_str (js "pull_request") _) eqn:Hevent; [|apply Hstop]. destruct (is_str _ (optget _ _)) eqn:Hrepo; [|apply Hstop]. cbn [negb orb].
  apply ok_bind, ok_call; [done|]. intros [answer|e]; [|done].
  apply ok_bind. destruct answer as [| | | | |jobs| |]; try done. cbn [elements lift ok].
  destruct (gateFailed jobs) eqn:Hgate; [|apply Hstop]. cbn [negb].
  apply ok_bind. eapply ok_weaken; [apply ok_extends, findPullRequest_read|]. intros h1 [pr|e] [[t1 ->] Hread]; [|done].
  destruct (truthy pr); [|apply Hstop]. specialize (Hread eq_refl). destruct (is_str _ (get _ pr)) eqn:Hopen; [|apply Hstop]. cbn [negb orb].
  apply ok_bind. unfold field_of. destruct (isNullish _); [done|]. cbn [lift ok].
  destruct (strict_eq (get (js "sha") _) _) eqn:Hsha; [|apply Hstop]. cbn [negb].
  apply ok_bind, ok_call; [done|]. intros [answer|e]; [|done].
  apply ok_bind. destruct answer as [| | | | |comments| |]; try done. cbn [elements lift ok]. cbv zeta.
  destruct (handledSha _) eqn:Hh; [apply Hstop|]. apply decideRepair_ends; try done.
  - unfold extend. cbn [app]. left.
  - eapply pullRead_mono; [|exact Hread]. by eexists.
  - unfold extend. rewrite elem_of_app, list_elem_of_singleton. by right.
Qed.
End autofix.

(** ** Reading markers back *)

Definition copilotShas (comments : list value) : list jstr :=
  omap (fun m => match m with (Copilot, s) => Some s | _ => None end) (recordedRequests comments).

Lemma priorLoop_spec sha comments p :
  copilotAttempts (priorLoop sha p comments) = copilotAttempts p + length (copilotShas comments) /\
  handledSha (priorLoop sha p comments) = handledSha p || bool_decide (sha ∈ (recordedRequests comments).*2).
Proof.
  revert p. induction comments as [|c comments IH]; intros p.
  - cbn. split; [lia|]. by rewrite orb_false_r.
  - unfold copilotShas, recordedRequests in *. cbn [priorLoop omap list_omap]. destruct (trustedComment c); cbn [negb]; [|apply IH].
    destruct (firstMarker _) as [[k s]|]; [|apply IH].
    match goal with |- context [priorLoop sha ?p' _] => destruct (IH p') as [-> ->] end. cbn [copilotAttempts handledSha omap list_omap fmap list_fmap snd].
    split.
    + destruct k; [rewrite decide_True by done|rewrite decide_False by done]; cbn; lia.
    + rewrite (bool_decide_ext (sha ∈ s :: _) (s = sha \/ sha ∈ (omap (fun c => if trustedComment c then
        firstMarker (interpolate (nullish (get (js "body") c) (Str []))) else None) comments).*2)).
      * rewrite bool_decide_or. by destruct (bool_decide (s = sha)), (handledSha p).
      * rewrite elem_of_cons. split; intros [?|?]; auto.
Qed.

Lemma priorRequests_spec comments sha :
  copilotAttempts (priorRequests comments sha) = length (copilotShas comments) /\
  handledSha (priorRequests comments sha) = bool_decide (sha ∈ (recordedRequests comments).*2).
Proof. apply priorLoop_spec. Qed.

Lemma copilotShas_recorded comments s : s ∈ copilotShas comments -> s ∈ (recordedRequests comments).*2.
Proof. intros ([[] s'] & Hin & [= ->])%list_elem_of_omap. by apply (list_elem_of_fmap_2 snd _ (Copilot, s)). Qed.

(** A text that opens no tag. *)
Definition plain (s : jstr) : Prop := 60%N ∉ s.

Lemma plain_app s t : plain s -> plain t -> plain (s ++ t).
Proof. unfold plain. rewrite elem_of_app. tauto. Qed.
Lemma plain_take n s : plain s -> plain (take n s).
Proof. unfold plain. intros Hs Hin. apply Hs. rewrite <- (take_drop n s), elem_of_app. by left. Qed.
Lemma plain_join sep l : plain sep -> Forall plain l -> plain (join sep l).
Proof.
  intros Hsep Hl. induction Hl as [|s [|t l] Hs Hl IH]; [apply not_elem_of_nil|done|]. rewrite join_cons2.
  by repeat apply plain_app.
Qed.
Lemma plain_dec s : bool_decide (60%N ∈ s) = false -> plain s.
Proof. by intros H%bool_decide_eq_false_1. Qed.

Definition plainJob (a : analyzedJob) : Prop :=
  plain (interpolate (a_name a)) /\ plain (interpolate (a_url a)) /\ plain (interpolate (a_conclusion a)) /\
  Forall plain (a_reasons a) /\ Forall plain (a_excerpt a).

Definition plainRun (run : value) : Prop := plain (interpolate (get (js "name") run)) /\ plain (interpolate (get (js "html_url") run)).

Ltac plain := repeat first [assumption | apply plain_app | apply plain_take | apply plain_dec; vm_compute; reflexivity].

Lemma plain_digits s : Forall (fun c => is_hex c = true) s -> plain s.
Proof. intros Hs Hin. rewrite Forall_forall in Hs. by specialize (Hs _ Hin). Qed.

Lemma join_app sep l x : l <> [] -> join sep (l ++ [x]) = join sep l ++ sep ++ x.
Proof.
  induction l as [|s [|t l] IH]; intros Hn; [done|done|]. change ((s :: t :: l) ++ [x]) with (s :: t :: l ++ [x]).
  rewrite !join_cons2. change (t :: l ++ [x]) with ((t :: l) ++ [x]). rewrite IH by done. by rewrite <- !app_assoc.
Qed.

Lemma jobSection_plain a : plainJob a -> plain (jobSection a).
Proof.
  intros (Hn & Hu & Hc & Hr & He). apply plain_join; [plain|]. apply Forall_cons; split; [plain|].
  apply Forall_app. split; case_bool_decide; try done.
  - apply Forall_singleton, plain_app; [plain|]. apply plain_join; [plain|done].
  - apply Forall_cons; split; [plain|]. apply Forall_app. split; [done|]. apply Forall_singleton. plain.
Qed.

Lemma runLink_plain run : plainRun run -> plain (runLink run).
Proof. intros [Hn Hu]. unfold runLink. plain. Qed.

Lemma body_marker l k sha id : Forall plain l -> hexDigits sha -> decimalDigits id ->
  firstMarker (join newline (l ++ [[]; marker k sha id])) = Some (k, sha).
Proof.
  intros Hl Hs Hi. change [[]; marker k sha id] with ([[]] ++ [marker k sha id]). rewrite app_assoc, join_app by (by destruct l).
  rewrite app_assoc, <- (app_nil_r (marker k sha id)). apply firstMarker_app; [|done|done].
  apply plain_app; [|plain]. apply plain_join; [plain|]. apply Forall_app. split; [done|]. apply Forall_singleton. plain.
Qed.

Lemma sections_plain jobs : Forall plainJob jobs -> Forall plain (jobSection <$> jobs).
Proof. intros H. apply Forall_fmap. eapply Forall_impl; [exact H|]. apply jobSection_plain. Qed.

Lemma show_pos_digits n m acc : Forall (fun c => is_digit c = true) acc -> Forall (fun c => is_digit c = true) (show_pos_fuel n m acc).
Proof.
  revert m acc. induction n as [|n IH]; intros m acc Ha; cbn [show_pos_fuel]; [done|].
  assert (is_digit (48 + m mod 10)%N = true) as Hd.
  { unfold is_digit. pose proof (N.mod_lt m 10%N ltac:(done)) as Hm. clear -Hm. set (d := (m mod 10)%N) in *. clearbody d. apply andb_true_iff. split; apply N.leb_le; lia. }
  destruct (m <? 10)%N; [by constructor|]. apply IH. by constructor.
Qed.

Lemma plain_show z : plain (show_Z z).
Proof.
  assert (forall n, plain (show_N n)) as H.
  { intros n Hin. pose proof (show_pos_digits (S (N.to_nat (N.log2 n))) n [] (Forall_nil_2 _)) as Hd. rewrite Forall_forall in Hd.
    by specialize (Hd _ Hin). }
  unfold show_Z. destruct (z <? 0)%Z; [|apply H]. intros [?|Hin]%elem_of_cons; [done|by eapply H].
Qed.

Lemma plain_number n : plain (interpolate (Number n)).
Proof. unfold interpolate. destruct (to_Z n) as [z|]; [apply plain_show|by apply plain_dec]. Qed.

Lemma copilot_marker mention run jobs sha attempt max : plain mention -> plainRun run -> Forall plainJob jobs ->
  hexDigits sha -> decimalDigits (interpolate (get (js "id") run)) ->
  firstMarker (buildCopilotRequest mention run jobs sha attempt max) = Some (Copilot, sha).
Proof.
  intros Hm Hr Hj Hs Hi. unfold buildCopilotRequest. rewrite (app_assoc _ (jobSection <$> jobs)). apply body_marker; [|done|done].
  pose proof (runLink_plain run Hr). pose proof (plain_show (Z.of_nat attempt)). pose proof (plain_number max).
  assert (plain sha) by (apply plain_digits, Hs).
  apply Forall_app. split; [|by apply sections_plain]. repeat (apply Forall_cons; split; [plain|]). apply Forall_nil_2.
Qed.

Lemma input_marker people run jobs sha summary : Forall plain people -> plain summary -> plainRun run -> Forall plainJob jobs ->
  hexDigits sha -> decimalDigits (interpolate (get (js "id") run)) ->
  firstMarker (buildInputRequest people run jobs sha summary) = Some (Input, sha).
Proof.
  intros Hp Hm Hr Hj Hs Hi. unfold buildInputRequest. rewrite (app_assoc _ (jobSection <$> jobs)). apply body_marker; [|done|done].
  pose proof (runLink_plain run Hr). assert (plain sha) by (apply plain_digits, Hs).
  assert (plain (addressed people)).
  { unfold addressed. intros (person & Hin & Hper)%list_elem_of_bind. rewrite Forall_forall in Hp. specialize (Hp _ Hper).
    destruct (startsWith _ _); revert Hin; fold (plain (person ++ js " ")); apply plain_app; plain. }
  apply Forall_app. split; [|by apply sections_plain]. repeat (apply Forall_cons; split; [plain|]). apply Forall_nil_2.
Qed.

Definition commentOf (association : string) (body : jstr) : value :=
  Obj [(js "author_association", Str (js association)); (js "body", Str body)].

(** Markers round trip: a request posted by a collaborator is read back by the
    next analysis as exactly that request, a repair request as one attempt and a
    handled commit, an input request as a handled commit only, provided none of
    the interpolated texts contains a less-than sign. *)
Theorem marker_roundtrip mention people run jobs sha summary attempt max :
  plain mention -> Forall plain people -> plain summary -> plainRun run -> Forall plainJob jobs ->
  hexDigits sha -> decimalDigits (interpolate (get (js "id") run)) ->
  priorRequests [commentOf "COLLABORATOR" (buildCopilotRequest mention run jobs sha attempt max)] sha
    = {| copilotAttempts := 1; handledSha := true |} /\
  priorRequests [commentOf "COLLABORATOR" (buildInputRequest people run jobs sha summary)] sha
    = {| copilotAttempts := 0; handledSha := true |}.
Proof.
  intros Hm Hp Hsum Hr Hj Hs Hi. unfold priorRequests. cbn [priorLoop]. change (trustedComment (commentOf "COLLABORATOR" _)) with true.
  change (interpolate (nullish (get (js "body") (commentOf "COLLABORATOR" ?b)) (Str []))) with b. cbn [negb].
  rewrite copilot_marker, input_marker by done. cbn. by rewrite !bool_decide_eq_true_2.
Qed.

(** ** The facts in plain terms

    What the properties below say, without the helpers of the script. *)

Definition hexText (s : jstr) : Prop := s <> [] /\ Forall (fun c => c ∈ js "0123456789abcdef") s.
Definition decimalText (s : jstr) : Prop := s <> [] /\ Forall (fun c => c ∈ js "0123456789") s.

Lemma hexText_digits s : hexText s -> hexDigits s.
Proof.
  intros [Hn Hs]. split; [done|]. eapply Forall_impl; [exact Hs|]. intros c. revert c. apply Forall_forall. vm_compute. repeat constructor.
Qed.
Lemma decimalText_digits s : decimalText s -> decimalDigits s.
Proof.
  intros [Hn Hs]. split; [done|]. eapply Forall_impl; [exact Hs|]. intros c. revert c. apply Forall_forall. vm_compute. repeat constructor.
Qed.

(** The marker of a request, as it is written into a comment. *)
Definition markerText (kind : string) (sha id : jstr) : jstr :=
  js "<!-- realtime-ci-autofix:" ++ js kind ++ js " sha=" ++ sha ++ js " run=" ++ id ++ js " -->".

Definition trustedAuthor (c : value) : Prop :=
  get (js "type") (get (js "user") c) = Str (js "Bot") \/
  get (js "author_association") c ∈ [Str (js "OWNER"); Str (js "MEMBER"); Str (js "COLLABORATOR")].

(** A comment of a trusted author whose first tag is a marker. *)
Definition carries (kind : string) (sha : jstr) (c : value) : Prop :=
  trustedAuthor c /\ kind ∈ ["copilot"; "input"]%string /\ hexText sha /\
  exists u id w, get (js "body") c = Str (u ++ markerText kind sha id ++ w) /\ 60%N ∉ u /\ decimalText id.

(** The limit on the repair requests: 3, or a number written in decimal. *)
Definition configuredLimit (processEnv : list (jstr * value)) (m : Z) : Prop :=
  (envVar processEnv "CI_AUTOFIX_MAX_ATTEMPTS" ∈ [Undefined; Str []] /\ m = 3%Z) \/
  ((1 <= m <= 999)%Z /\ envVar processEnv "CI_AUTOFIX_MAX_ATTEMPTS" = Str (show_Z m)).

Lemma trustedAuthor_comment c : trustedAuthor c -> trustedComment c = true.
Proof.
  unfold trustedAuthor, trustedComment. intros [H|H]; apply orb_true_iff; [left|right].
  - destruct (get (js "user") c); try done; cbn [optget]; by rewrite H.
  - apply one_of_spec. repeat (apply elem_of_cons in H as [->|H]; [eexists; split; [done|]; unfold trustedAssociations; by repeat first [left|right]|]).
    by apply elem_of_nil in H.
Qed.

Lemma carries_marker kind sha c : carries kind sha c ->
  trustedComment c = true /\ exists k, firstMarker (interpolate (nullish (get (js "body") c) (Str []))) = Some (k, sha) /\ (kind = "copilot"%string -> k = Copilot).
Proof.
  intros (Ht & Hk & Hs%hexText_digits & u & id & w & -> & Hu & Hi%decimalText_digits). split; [by apply trustedAuthor_comment|].
  cbn [nullish isNullish interpolate].
  apply elem_of_cons in Hk as [->|[->|[]%elem_of_nil]%elem_of_cons];
    [exists Copilot; split; [exact (firstMarker_app u Copilot sha id w Hu Hs Hi)|done]|
     exists Input; split; [exact (firstMarker_app u Input sha id w Hu Hs Hi)|done]].
Qed.

Lemma carries_recorded kind sha c comments : carries kind sha c -> c ∈ comments -> sha ∈ (recordedRequests comments).*2.
Proof.
  intros (Ht & k & Hf & _)%carries_marker Hin. apply list_elem_of_fmap. exists (k, sha). split; [done|].
  apply list_elem_of_omap. exists c. split; [done|]. by rewrite Ht.
Qed.

Lemma carries_counted marked comments : sublist marked comments -> Forall (fun c => exists sha, carries "copilot" sha c) marked ->
  length marked <= length (copilotShas comments).
Proof.
  assert (forall c l, copilotShas (c :: l) = copilotShas [c] ++ copilotShas l) as Hcons.
  { intros c l. unfold copilotShas, recordedRequests. change (c :: l) with ([c] ++ l). by rewrite !omap_app. }
  induction 1 as [|c l l' Hl IH|c l l' Hl IH]; intros Hm.
  - cbn. lia.
  - apply Forall_cons in Hm as [[sha (Ht & k & Hf & Hk)%carries_marker] Hm].
    rewrite Hcons, length_app. specialize (IH Hm). rewrite (Hk eq_refl) in Hf.
    assert (copilotShas [c] = [sha]) as -> by (unfold copilotShas, recordedRequests; cbn [omap list_omap]; rewrite Ht, Hf; done).
    cbn [length]. lia.
  - rewrite Hcons, length_app. specialize (IH Hm). lia.
Qed.

Lemma configuredLimit_max processEnv m : configuredLimit processEnv m -> maxAttempts processEnv = int m.
Proof.
  unfold maxAttempts, envOr. intros [[H ->]|[Hm ->]].
  - repeat (apply elem_of_cons in H as [->|H]; [vm_compute; reflexivity|]). by apply elem_of_nil in H.
  - assert (Forall (fun m => show_Z m <> [] /\ parseInt10 (show_Z m) = int m /\ m <> 0%Z) (seqZ 1 999)) as H.
    { apply (bool_decide_unpack _). vm_compute. reflexivity. }
    rewrite Forall_forall in H. destruct (H m) as (Hn & Hp & H0); [apply elem_of_seqZ; lia|].
    assert (truthy (Str (show_Z m)) = true) as -> by (by destruct (show_Z m)). cbn [str_of]. cbv zeta. rewrite Hp.
    assert (truthy (Number (int m)) = true) as ->; [|done]. cbn. apply negb_true_iff, not_true_iff_false. intros E%Qeq_bool_iff.
    apply H0. unfold Qeq in E. cbn in E. lia.
Qed.

Lemma nlt_int a b : nlt (int a) (int b) = true -> (a < b)%Z.
Proof.
  unfold nlt, int. intros H%negb_true_iff%not_true_iff_false. apply Z.nle_gt. intros Hle. apply H, Qle_bool_iff. by rewrite <- Zle_Qle.
Qed.

Lemma join_elem sep x l : x ∈ l -> exists u v, join sep l = u ++ x ++ v.
Proof.
  induction 1 as [x l|x y l Hx (u & v & IH)].
  - destruct l as [|y l]; [exists [], []; by rewrite app_nil_r|]. rewrite join_cons2. by exists [], (sep ++ join sep (y :: l)).
  - destruct l as [|z l]; [by apply elem_of_nil in Hx|]. rewrite join_cons2, IH. exists (y ++ sep ++ u), v. by rewrite <- !app_assoc.
Qed.

Lemma join_last2 sep l y x : join sep (l ++ [y; x]) = join sep (l ++ [y]) ++ sep ++ x.
Proof. change [y; x] with ([y] ++ [x]). rewrite app_assoc. apply join_app. by destruct l. Qed.

(** The text ends in the marker, and begins with the mention. *)
Lemma copilot_ends mention run jobs sha attempt max :
  exists u, buildCopilotRequest mention run jobs sha attempt max = mention ++ u ++ markerText "copilot" sha (interpolate (get (js "id") run)).
Proof.
  unfold buildCopilotRequest. cbn [app]. rewrite !join_cons by (by destruct (jobSection <$> jobs)).
  rewrite join_last2, <- !app_assoc. eexists. f_equal. rewrite !app_assoc. reflexivity.
Qed.

Lemma copilot_quotes mention run jobs sha attempt max a : a ∈ jobs ->
  exists u v, buildCopilotRequest mention run jobs sha attempt max = u ++ (js "### [" ++ interpolate (a_name a) ++ js "](" ++ interpolate (a_url a) ++ js ")") ++ v.
Proof.
  intros Ha. destruct (join_elem newline (jobSection a) ([mention ++ js " The " ++ runLink run ++ js " failed its `" ++ aggregateJob ++ js "` gate on `" ++ take 12 sha
        ++ js "` (automatic fix attempt " ++ show_Z (Z.of_nat attempt) ++ js " of " ++ interpolate (Number max) ++ js ").";
      [];
      js "Analyze the failed jobs below, inspect their full logs, and push the smallest change to this branch that makes them pass. "
        ++ js "Follow the repository agent guidance and run the matching validation. If a failure needs something you cannot provide "
        ++ js "(credentials, secrets, repository settings, runner infrastructure, or a product decision), stop without guessing and reply "
        ++ js "explaining exactly what input is needed.";
      []] ++ (jobSection <$> jobs) ++ [[]; marker Copilot sha (interpolate (get (js "id") run))])) as (u & v & E).
  { rewrite !elem_of_app. right. left. by apply list_elem_of_fmap_2. }
  exists u. unfold buildCopilotRequest. rewrite E. unfold jobSection.
  match goal with |- context [join newline ((js "### [" ++ ?n ++ js "](" ++ ?l ++ js ") " ++ ?r) :: ?rest)] =>
    assert (exists z, join newline ((js "### [" ++ n ++ js "](" ++ l ++ js ") " ++ r) :: rest) = (js "### [" ++ n ++ js "](" ++ l ++ js ")") ++ z) as (z & ->);
    [destruct rest as [|y l']; [exists (js " " ++ r); cbn [join]; by rewrite <- !app_assoc|
       rewrite join_cons2; exists (js " " ++ r ++ newline ++ join newline (y :: l')); by rewrite <- !app_assoc]|] end.
  exists (z ++ v). by rewrite <- !app_assoc.
Qed.

(** What a repair request rests on. *)
Section warrant.
Context (processEnv : list (jstr * value)) (owner repo : jstr) (run : value).

(** A job that failed, other than the aggregate gate and the ignored ones. *)
Definition failingJob (job : value) : Prop :=
  exists name conclusion, get (js "name") job = Str name /\ get (js "conclusion") job = Str conclusion /\
    name <> js "ci-failed" /\ conclusion ∉ [[]; js "success"; js "skipped"; js "neutral"] /\
    forall ignored, envVar processEnv "CI_AUTOFIX_IGNORED_JOBS" = Str ignored -> name ∉ split_on 44 ignored.

(** Its log was read, and neither it nor the conclusion tells of missing input. *)
Definition repairable (h : history) (body : jstr) (job : value) : Prop :=
  (exists answer, (GitHub (js "actions.downloadJobLogsForWorkflowRun")
      [(js "owner", Str owner); (js "repo", Str repo); (js "job_id", get (js "id") job)], Ok answer) ∈ h /\
    get (js "data") answer <> Null /\ classifyLog (get (js "data") answer) = []) /\
  get (js "conclusion") job ∉ Str <$> [js "cancelled"; js "startup_failure"; js "action_required"; js "stale"] /\
  exists u v, body = u ++ (js "### [" ++ interpolate (get (js "name") job) ++ js "](" ++ interpolate (get (js "html_url") job) ++ js ")") ++ v.

Record repairWarrant (h : history) (body : jstr) : Prop := {
  w_foreign : strict_eq (get (js "name") run) (envVar processEnv "CI_AUTOFIX_WORKFLOW_NAME") = false;
  w_event : get (js "event") run = Str (js "pull_request");
  w_repository : get (js "full_name") (get (js "head_repository") run) = Str (owner ++ js "/" ++ repo);
  w_token : envVar processEnv "CI_AUTOFIX_TOKEN_CONFIGURED" = Str (js "true");
  w_gate : exists before gate after,
    (GitHub (js "paginate actions.listJobsForWorkflowRun")
       [(js "owner", Str owner); (js "repo", Str repo); (js "run_id", get (js "id") run); (js "filter", Str (js "latest"));
        (js "per_page", Number (int 100))], Ok (Arr (before ++ gate :: after))) ∈ h /\
    Forall (fun job => get (js "name") job <> Str (js "ci-failed")) before /\
    get (js "name") gate = Str (js "ci-failed") /\ get (js "conclusion") gate = Str (js "failure") /\
    Forall (fun job => failingJob job -> repairable h body job) (before ++ gate :: after);
  w_pull : exists pr comments, pullRead owner repo run h pr /\ get (js "state") pr = Str (js "open") /\
    strict_eq (get (js "sha") (get (js "head") pr)) (get (js "head_sha") run) = true /\
    (GitHub (js "paginate issues.listComments")
       [(js "owner", Str owner); (js "repo", Str repo); (js "issue_number", get (js "number") pr); (js "per_page", Number (int 100))],
     Ok (Arr comments)) ∈ h /\
    (forall c kind, c ∈ comments -> ~ carries kind (head_sha run) c) /\
    (forall m marked, configuredLimit processEnv m -> sublist marked comments -> Forall (fun c => exists sha, carries "copilot" sha c) marked ->
       (Z.of_nat (length marked) < m)%Z);
  w_body : exists u, body = u ++ markerText "copilot" (head_sha run) (interpolate (get (js "id") run))
}.

Lemma is_str_eq s v : is_str s v = true -> v = Str s.
Proof. unfold is_str. destruct v; try done. cbn. intros H%bool_decide_eq_true. by rewrite H. Qed.

Lemma optget_Str k v s : optget k v = Str s -> get k v = Str s.
Proof. by destruct v. Qed.

Lemma gateFailed_first jobs : gateFailed jobs = true -> exists before gate after, jobs = before ++ gate :: after /\
  Forall (fun job => get (js "name") job <> Str (js "ci-failed")) before /\
  get (js "name") gate = Str (js "ci-failed") /\ get (js "conclusion") gate = Str (js "failure").
Proof.
  unfold gateFailed. destruct (list_find _ jobs) as [[i gate]|] eqn:E; [|done]. intros Hc%is_str_eq.
  apply list_find_Some in E as (Hi & Hn%is_str_eq & Hb). exists (take i jobs), gate, (drop (S i) jobs).
  split; [by rewrite take_drop_middle|]. split; [|done]. apply Forall_forall. intros job (j & Hj)%list_elem_of_lookup.
  apply lookup_take_Some in Hj as [Hj Hlt]. intros En. apply (Hb j job Hj Hlt). by rewrite En.
Qed.

Lemma failingJob_failed job jobs : job ∈ jobs -> failingJob job -> job ∈ failedJobs jobs (ignoredJobs processEnv).
Proof.
  intros Hin (name & conclusion & Hn & Hc & Hg & Hs & Hi). unfold failedJobs. cbv zeta.
  match goal with |- job ∈ match ?l with _ => _ end => assert (job ∈ l) as H end; [|by destruct (filter _ (filter _ _)); [apply elem_of_nil in H|]].
  apply list_elem_of_filter. split; [rewrite Hn; apply bool_decide_eq_false; exact Hg|].
  apply list_elem_of_filter. split; [|done]. rewrite Hn, Hc. rewrite !andb_true_iff. split_and!.
  - apply negb_true_iff, not_true_iff_false. intros (s & [= <-] & Hm)%one_of_spec.
    unfold ignoredJobs in Hm. apply list_elem_of_filter in Hm as [Hne Hm]. unfold envOr in Hm.
    destruct (envVar processEnv "CI_AUTOFIX_IGNORED_JOBS") as [| | | |ignored| | |] eqn:Ee; cbn [truthy str_of] in Hm;
      try (by apply list_elem_of_singleton in Hm as ->); try (by repeat case_match; apply list_elem_of_singleton in Hm as ->).
    destruct ignored as [|? ?]; [by apply list_elem_of_singleton in Hm as ->|]. by apply (Hi _ eq_refl).
  - destruct conclusion; [|done]. by destruct Hs; left.
  - apply negb_true_iff, not_true_iff_false. intros (s & [= <-] & Hm)%one_of_spec. apply Hs. by right.
Qed.
End warrant.

Lemma warranted_warrant processEnv owner repo run h body : warranted processEnv owner repo run h body -> repairWarrant processEnv owner repo run h body.
Proof.
  intros (Hname & Hevent & Hrepo & Htoken & jobs & pr & comments & analyzed & Hjobs & Hgate & Hpull & Hopen & Hsha & Hcomments & Hh & Hlt & Han & Hre & ->).
  destruct (priorRequests_spec comments (head_sha run)) as [Ea Eh]. rewrite Eh in Hh. apply bool_decide_eq_false in Hh.
  constructor; [done|by apply is_str_eq|by apply optget_Str, is_str_eq|by apply is_str_eq|..].
  - destruct (gateFailed_first _ Hgate) as (before & gate & after & -> & Hb & Hn & Hc). exists before, gate, after.
    split_and!; [done|done|done|done|]. apply Forall_forall. intros job Hin Hf. apply failingJob_failed with (jobs := before ++ gate :: after) in Hf; [|done].
    apply list_elem_of_lookup in Hf as [i Hi]. destruct (Forall2_lookup_l _ _ _ _ _ Han Hi) as (a & Hai & log & -> & Hlog).
    apply list_elem_of_lookup_2 in Hai. rewrite Forall_forall in Hre. specialize (Hre _ Hai). cbn [analyzeJob a_reasons] in Hre.
    apply app_eq_nil in Hre as [Hcl Hre]. apply app_eq_nil in Hre as [Hinf Hnull]. split_and!.
    + destruct Hlog as [->|(answer & Ha & ->)]; [done|]. exists answer. split_and!; [done| |done]. intros E. by rewrite E in Hnull.
    + intros (c & Ec & Hin')%list_elem_of_fmap. destruct (one_of infrastructureConclusions _) eqn:Eo; [done|].
      apply not_true_iff_false in Eo as []. apply one_of_spec. exists c. split; [done|exact Hin'].
    + apply copilot_quotes with (a := analyzeJob job log). exact Hai.
  - exists pr, comments. split_and!; [done|by apply is_str_eq|done|done| |].
    + intros c kind Hin Hc. apply Hh. by eapply carries_recorded.
    + intros m marked Hm%configuredLimit_max Hsub Hmk. rewrite Ea, Hm in Hlt. apply nlt_int in Hlt.
      pose proof (carries_counted _ _ Hsub Hmk). lia.
  - destruct (copilot_ends (mention processEnv) run analyzed (head_sha run) (S (copilotAttempts (priorRequests comments (head_sha run)))) (maxAttempts processEnv))
      as [u ->]. exists (mention processEnv ++ u). by rewrite <- app_assoc.
Qed.


(** ** A bounded number of repairs *)

Section rounds.
Context (processEnv : list (jstr * value)) (owner repo : jstr).

(** The comments of a pull request and the commits a repair was requested for. *)
Record pullState := { thread : list value; dispatched : list jstr }.

(** The less-than signs of a text. *)
Definition tagOpenings (s : jstr) : nat := length (filter (fun c => c = 60%N) s).

(** Comments are only added: by anybody, or by the workflow after a run whose
    analysis read the thread as it is and requested a repair.  The comment of the
    workflow is posted with the configured token, by a trusted author, its only
    less-than sign is that of its marker (none is quoted from a log), and commits
    and runs are named in hexadecimal and decimal. *)
Inductive round : pullState -> pullState -> Prop :=
  | round_comment st c : round st {| thread := thread st ++ [c]; dispatched := dispatched st |}
  | round_repair st run o body c h r :
      Effects.run o (analyzeCiFailure processEnv owner repo run) = (h, r) ->
      requestedBody h r = Some body ->
      (forall args l, (GitHub (js "paginate issues.listComments") args, Ok (Arr l)) ∈ h -> l = thread st) ->
      trustedAuthor c -> get (js "body") c = Str body -> tagOpenings body <= 1 ->
      hexText (head_sha run) -> decimalText (interpolate (get (js "id") run)) ->
      round st {| thread := thread st ++ [c]; dispatched := dispatched st ++ [head_sha run] |}.

Definition counted (m : Z) (st : pullState) : Prop :=
  dispatched st ⊆+ copilotShas (thread st) /\ NoDup (dispatched st) /\ (Z.of_nat (length (dispatched st)) <= m)%Z.

Lemma copilotShas_app l l' : copilotShas (l ++ l') = copilotShas l ++ copilotShas l'.
Proof. unfold copilotShas, recordedRequests. by rewrite !omap_app. Qed.

(** The posted request carries its marker. *)
Lemma posted_carries body sha id u c : body = u ++ markerText "copilot" sha id -> tagOpenings body <= 1 ->
  trustedAuthor c -> get (js "body") c = Str body -> hexText sha -> decimalText id -> carries "copilot" sha c.
Proof.
  intros -> Hone Ht Hb Hs Hi. split_and!; [done|by left|done|]. exists u, id, []. rewrite app_nil_r. split_and!; [done| |done].
  intros Hu. unfold tagOpenings in Hone. rewrite filter_app, length_app in Hone.
  assert (0 < length (filter (fun c => c = 60%N) u)).
  { destruct (filter _ u) as [|x l] eqn:E; [|cbn; lia]. assert (60%N ∈ filter (fun c => c = 60%N) u) as Hin by (by apply list_elem_of_filter).
    rewrite E in Hin. by apply elem_of_nil in Hin. }
  assert (0 < length (filter (fun c => c = 60%N) (markerText "copilot" sha id))); [|lia].
  change (markerText "copilot" sha id) with (60%N :: (js "!-- realtime-ci-autofix:" ++ js "copilot" ++ js " sha=" ++ sha ++ js " run=" ++ id ++ js " -->")).
  rewrite filter_cons_True by done. cbn [length]. lia.
Qed.

Lemma round_counted m st st' : configuredLimit processEnv m -> round st st' -> counted m st -> counted m st'.
Proof.
  intros Hm Hr (Hsub & Hd & Hlen). destruct Hr as [st c|st run o body c h r Hrun Hbody Hthread Hc Hb Hone Hsha Hid]; unfold counted; cbn [thread dispatched].
  - split_and!; [|done|done]. rewrite copilotShas_app. by apply submseteq_inserts_r.
  - pose proof (ends_run o _ _ (analyze_ends processEnv owner repo run)) as Hw. rewrite Hrun in Hw. specialize (Hw body Hbody).
    pose proof (w_body _ _ _ _ _ _ (warranted_warrant _ _ _ _ _ _ Hw)) as (u & Eb).
    destruct Hw as (_ & _ & _ & _ & jobs & pr & comments & analyzed & _ & _ & _ & _ & _ & Hin & Hh & Hlt & _).
    rewrite (Hthread _ _ Hin) in *. destruct (priorRequests_spec (thread st) (head_sha run)) as [Ea Eh].
    rewrite Ea, (configuredLimit_max _ _ Hm) in Hlt. rewrite Eh in Hh.
    apply nlt_int in Hlt. apply bool_decide_eq_false in Hh. pose proof (submseteq_length _ _ Hsub).
    assert (copilotShas [c] = [head_sha run]) as Ec.
    { destruct (carries_marker _ _ _ (posted_carries _ _ _ _ _ Eb Hone Hc Hb Hsha Hid)) as (Ht & k & Hf & Hk). rewrite (Hk eq_refl) in Hf.
      unfold copilotShas, recordedRequests. cbn [omap list_omap]. by rewrite Ht, Hf. }
    split_and!.
    + rewrite copilotShas_app, Ec. by apply submseteq_skips_r.
    + apply NoDup_app. split_and!; [done| |apply NoDup_singleton]. intros s Hs ->%list_elem_of_singleton.
      apply Hh, copilotShas_recorded. by eapply elem_of_submseteq.
    + rewrite length_app. cbn [length]. lia.
Qed.
End rounds.

(** C24: When CI_AUTOFIX_MAX_ATTEMPTS is a number from 1 to 999 in decimal, or
    unset, which means 3: however comments are added and runs fail, a pull request
    gets at most that many repair requests, and at most one per commit, as long as
    each analysis reads the thread as it is and no posted request quotes a
    less-than sign (see [forged_marker_unlimited]).  A limit of 0 is not obeyed
    (see [zero_limit_ignored]). *)
Theorem repairs_bounded processEnv owner repo comments st m :
  configuredLimit processEnv m -> rtc (round processEnv owner repo) {| thread := comments; dispatched := [] |} st ->
  NoDup (dispatched st) /\ (Z.of_nat (length (dispatched st)) <= m)%Z.
Proof.
  intros Hm Hr. enough (counted m st) as (_ & ? & ?) by done.
  assert (counted m {| thread := comments; dispatched := [] |}) as Hi.
  { split_and!; [apply submseteq_nil_l|constructor|]. cbn. destruct Hm as [[_ ->]|[? _]]; lia. }
  induction Hr as [|st1 st2 st3 H1 _ IH]; [done|]. eapply IH, round_counted; eauto.
Qed.

(** ** A sample pull request *)

Definition sampleSha : jstr := repeat 98%N 40.
Definition sampleRun : value :=
  Obj [(js "id", Number (int 9)); (js "name", Str (js "Realtime gateway CI")); (js "html_url", Str (js "https://example.invalid/run"));
       (js "event", Str (js "pull_request")); (js "head_sha", Str sampleSha); (js "head_branch", Str (js "feature"));
       (js "head_repository", Obj [(js "full_name", Str (js "o/r"))]); (js "pull_requests", Arr [Obj [(js "number", Number (int 5))]]);
       (js "triggering_actor", Obj [(js "login", Str (js "dev"))])].
Definition limitedEnvironment (token limit : string) : list (jstr * value) :=
  [(js "CI_AUTOFIX_TOKEN_CONFIGURED", Str (js token)); (js "CI_AUTOFIX_WORKFLOW_NAME", Str (js "Repair failed CI"));
   (js "CI_AUTOFIX_MAX_ATTEMPTS", Str (js limit))].
Definition sampleEnvironment (token : string) : list (jstr * value) := limitedEnvironment token "2".
Definition sampleJob (id : Z) (name : string) : value :=
  Obj [(js "id", Number (int id)); (js "name", Str (js name)); (js "conclusion", Str (js "failure")); (js "html_url", Str (js "https://example.invalid/job"))].
Definition samplePr : value :=
  Obj [(js "state", Str (js "open")); (js "number", Number (int 5)); (js "head", Obj [(js "sha", Str sampleSha)]); (js "user", Obj [(js "login", Str (js "author"))])].

(** GitHub with one failed job, its log and the comments of the pull request. *)
Definition sampleGitHub (log : jstr) (comments : list value) : oracle := fun _ r =>
  match r with
  | GitHub m _ =>
      if bool_decide (m = js "paginate actions.listJobsForWorkflowRun") then Ok (Arr [sampleJob 1 "go-gin"; sampleJob 2 "ci-failed"])
      else if bool_decide (m = js "pulls.get") then Ok (Obj [(js "data", samplePr)])
      else if bool_decide (m = js "paginate issues.listComments") then Ok (Arr comments)
      else if bool_decide (m = js "actions.downloadJobLogsForWorkflowRun") then Ok (Obj [(js "data", Str log)])
      else Ok Undefined
  | _ => Ok Undefined
  end.

Definition sampleAnalysis (token : string) (log : jstr) (comments : list value) : history * result jsError unit :=
  Effects.run (sampleGitHub log comments) (analyzeCiFailure (sampleEnvironment token) (js "o") (js "r") sampleRun).

Definition sampleBody (log : jstr) : jstr :=
  buildCopilotRequest (js "@copilot") sampleRun [analyzeJob (sampleJob 1 "go-gin") (Str log)] sampleSha 1 (int 2).
Definition vetFailed : jstr := js "error: go vet failed".

Lemma sample_requested :
  requestedBody (sampleAnalysis "true" vetFailed []).1 (sampleAnalysis "true" vetFailed []).2 = Some (sampleBody vetFailed).
Proof. vm_compute. reflexivity. Qed.


Lemma sample_job_plain : Forall plainJob [analyzeJob (sampleJob 1 "go-gin") (Str vetFailed)].
Proof.
  apply Forall_singleton. unfold plainJob.
  split; [by apply plain_dec|split; [by apply plain_dec|split; [by apply plain_dec|]]].
  split; vm_compute; repeat constructor; apply (bool_decide_eq_false_1 (60%N ∈ _)); vm_compute; reflexivity.
Qed.

Lemma marker_roundtrip_witness :
  priorRequests [commentOf "COLLABORATOR" (sampleBody vetFailed)] sampleSha = {| copilotAttempts := 1; handledSha := true |}.
Proof.
  refine (proj1 (marker_roundtrip (js "@copilot") [js "dev"] sampleRun [analyzeJob (sampleJob 1 "go-gin") (Str vetFailed)] sampleSha
    (js "none") 1 (int 2) _ _ _ _ _ _ _)).
  - by apply plain_dec.
  - apply Forall_singleton. by apply plain_dec.
  - by apply plain_dec.
  - split; by apply plain_dec.
  - exact sample_job_plain.
  - split; [done|]. vm_compute. repeat constructor.
  - split; [done|]. by apply Forall_singleton.
Defined.

(** The round that requests the repair. *)
Lemma sample_round : round (sampleEnvironment "true") (js "o") (js "r") {| thread := []; dispatched := [] |}
  {| thread := [commentOf "COLLABORATOR" (sampleBody vetFailed)]; dispatched := [sampleSha] |}.
Proof.
  apply (round_repair _ _ _ {| thread := []; dispatched := [] |} sampleRun (sampleGitHub vetFailed []) (sampleBody vetFailed) _
    (sampleAnalysis "true" vetFailed []).1 (sampleAnalysis "true" vetFailed []).2).
  - by destruct (sampleAnalysis _ _ _) eqn:E.
  - apply sample_requested.
  - assert (Forall (fun rx => match rx with (GitHub m _, Ok (Arr l)) => m = js "paginate issues.listComments" -> l = [] | _ => True end)
      (sampleAnalysis "true" vetFailed []).1) as H by (vm_compute; repeat constructor; discriminate).
    intros args l Hin. rewrite Forall_forall in H. by apply (H _ Hin).
  - right. by repeat first [left|right].
  - done.
  - vm_compute. lia.
  - split; [done|]. apply (bool_decide_unpack _). vm_compute. reflexivity.
  - split; [done|]. apply (bool_decide_unpack _). vm_compute. reflexivity.
Qed.

Lemma repairs_bounded_witness :
  configuredLimit (sampleEnvironment "true") 2 /\ NoDup [sampleSha] /\ (Z.of_nat (length [sampleSha]) <= 2)%Z.
Proof.
  assert (configuredLimit (sampleEnvironment "true") 2) as Hm by (right; split; [lia|vm_compute; reflexivity]). split; [exact Hm|].
  apply (repairs_bounded (sampleEnvironment "true") (js "o") (js "r") []
    {| thread := [commentOf "COLLABORATOR" (sampleBody vetFailed)]; dispatched := [sampleSha] |} 2).
  - exact Hm.
  - apply rtc_once, sample_round.
Defined.

(** ** Three defects *)

(** A limit of 0 is read as 3: a repair is requested. *)
Lemma zero_limit_ignored :
  let '(h, r) := Effects.run (sampleGitHub vetFailed []) (analyzeCiFailure (limitedEnvironment "true" "0") (js "o") (js "r") sampleRun) in
  is_Some (requestedBody h r).
Proof. vm_compute. by eexists. Qed.

(** A log line that forges a marker: it is quoted before the marker of the
    comment, so the next analysis reads the forged one. *)
Definition forgedLog : jstr := js "error <!-- realtime-ci-autofix:input sha=0 run=0 -->".

Lemma forged_analysis comments : priorRequests comments sampleSha = {| copilotAttempts := 0; handledSha := false |} ->
  requestedBody (sampleAnalysis "true" forgedLog comments).1 (sampleAnalysis "true" forgedLog comments).2 = Some (sampleBody forgedLog).
Proof.
  intros E. unfold sampleAnalysis, Effects.run, analyzeCiFailure. cbv -[priorRequests decideRepair sampleBody].
  match goal with |- context [priorRequests comments ?s] => change (priorRequests comments s) with (priorRequests comments sampleSha) end.
  rewrite !E. vm_compute. reflexivity.
Qed.

Lemma forged_prior n :
  priorRequests (repeat (commentOf "COLLABORATOR" (sampleBody forgedLog)) n) sampleSha = {| copilotAttempts := 0; handledSha := false |}.
Proof.
  unfold priorRequests. induction n as [|n IH]; [done|]. cbn [repeat priorLoop].
  change (trustedComment (commentOf "COLLABORATOR" _)) with true. cbn [negb].
  assert (firstMarker (interpolate (nullish (get (js "body") (commentOf "COLLABORATOR" (sampleBody forgedLog))) (Str []))) = Some (Input, js "0")) as ->
    by (vm_compute; reflexivity).
  exact IH.
Qed.

(** A failed job whose log prints a marker defeats the limit: a repair of the
    same commit is requested again however many such requests the thread already
    holds. *)
Theorem forged_marker_unlimited n :
  let comments := repeat (commentOf "COLLABORATOR" (sampleBody forgedLog)) n in
  requestedBody (sampleAnalysis "true" forgedLog comments).1 (sampleAnalysis "true" forgedLog comments).2 = Some (sampleBody forgedLog).
Proof. apply forged_analysis, forged_prior. Qed.

Lemma occurs_plit u x v l : occurs (foldr (fun c p => PSeq (punit c) p) PEps l) u x v -> length x = length l.
Proof.
  revert u x. induction l as [|c l IH]; intros u x; cbn [foldr occurs]; [by intros ->|].
  intros (y & z & -> & Hy & Hz). rewrite length_app, (IH _ _ Hz). cbn [length]. f_equal.
  unfold punit in Hy. destruct (_ && _); [|destruct (_ && _)]; by destruct Hy as (d & -> & _).
Qed.

Lemma occurs_plit_last u x v l c : c = 41%N -> occurs (foldr (fun c p => PSeq (punit c) p) PEps (l ++ [c])) u x v -> last x = Some c.
Proof.
  intros ->. revert u x. induction l as [|d l IH]; intros u x; cbn [app foldr occurs].
  - intros (y & z & -> & (e & -> & He) & ->). cbn in He. rewrite orb_false_r in He. apply andb_true_iff in He as [H1%N.leb_le H2%N.leb_le].
    cbn. f_equal. lia.
  - intros (y & z & -> & _ & Hz). rewrite last_app. by rewrite (IH _ _ Hz).
Qed.

(** The pattern for authentication failures requires a word boundary after the
    closing parenthesis of [401 (Unauthorized)]: it is found only when a letter,
    a digit or an underscore follows. *)
Theorem unauthorized_before_word s : search (pword (plit "401 (Unauthorized)")) s = true ->
  exists u x c v, s = u ++ x ++ c :: v /\ length x = 18 /\ is_word c = true.
Proof.
  intros (u & x & v & -> & Ho)%search_spec. destruct Ho as (y1 & z1 & -> & (-> & _) & y2 & z2 & -> & Ho & y3 & z3 & -> & (-> & Hb) & ->).
  cbn [app] in *. rewrite !app_nil_r in *. pose proof (occurs_plit _ _ _ _ Ho) as Hlen.
  apply (occurs_plit_last _ _ _ (js "401 (Unauthorized") 41%N eq_refl) in Ho. rewrite last_app, Ho in Hb.
  destruct v as [|c v]; [done|]. exists u, y2, c, v. split_and!; [done|done|]. change (xorb (is_word 41) (is_word c) = true) in Hb.
  by destruct (is_word c).
Qed.

(** So the line NuGet prints is taken for a failure that a code change can repair. *)
Example unauthorized_unrecognized :
  classifyLog (Str (js "error NU1301: Response status code does not indicate success: 401 (Unauthorized).")) = [] /\
  classifyLog (Str (js "error NU1301: Response status code does not indicate success: 403 (Forbidden).")) = [js "authorization failure"].
Proof. vm_compute. done. Qed.
