(* ===== verification/Conformance.v ===== *)
(** * The repository's tests on the model

    Cases of the repository's own test suites, evaluated on the definitions of
    this development: tests/bootstrap/bootstrap-contract.test.mjs,
    tests/bootstrap/ci-impact.test.mjs, tests/bootstrap/ci-autofix.test.mjs,
    tests/bootstrap/branch-sync.test.mjs, sdk/typescript/test/protocol.test.mjs
    with protocol/fixtures/v1/envelopes.json, sdk/typescript/test/persistence.test.mjs
    and examples/node-express/test/config.test.mjs. *)

From stdpp Require Import base tactics option list numbers strings.
From Stdlib Require Import QArith.
From S2P Require Import Prelude JsString JsNumber JsValue Protocol CiImpact Regex ContractPatterns Contract ContractPlan.
From S2P Require Import Paths Effects Chart Layout KubeTools NodeConfig BranchSync CiAutofix.
#[local] Open Scope nat_scope.

Definition texts (l : list string) : list jstr := js <$> l.
Definition accepted {E A} (r : result E A) : bool := match r with Ok _ => true | Throw _ => false end.
Definition refusedWith {A} (text : string) (r : result jstr A) : bool := match r with Ok _ => false | Throw m => includes (js text) m end.

(** ** Protocol fixtures *)

Definition validClientEnvelopes : list value :=
  [Obj [(js "version", Str (js "1.0")); (js "type", Str (js "ping")); (js "correlationId", Str (js "fixture-ping-1")); (js "timestamp", Str (js "2026-08-30T17:00:00.000Z")); (js "route", Str (js "system/heartbeat")); (js "payload", Null)];
   Obj [(js "version", Str (js "1.0")); (js "type", Str (js "subscribe")); (js "correlationId", Str (js "fixture-subscribe-1")); (js "timestamp", Str (js "2026-08-30T17:00:00.000Z")); (js "route", Str (js "topics/orders")); (js "payload", Null)];
   Obj [(js "version", Str (js "1.0")); (js "type", Str (js "publish")); (js "correlationId", Str (js "fixture-publish-1")); (js "timestamp", Str (js "2026-08-30T17:00:00.000Z")); (js "route", Str (js "users/user-1/topics/orders")); (js "payload", Obj [(js "value", Number (int (42)))])]].
Definition validServerEnvelopes : list value :=
  [Obj [(js "version", Str (js "1.0")); (js "type", Str (js "ack")); (js "correlationId", Str (js "fixture-publish-1")); (js "timestamp", Str (js "2026-08-30T17:00:00.100Z")); (js "route", Str (js "users/user-1/topics/orders"))];
   Obj [(js "version", Str (js "1.0")); (js "type", Str (js "error")); (js "correlationId", Str (js "fixture-invalid-1")); (js "timestamp", Str (js "2026-08-30T17:00:00.100Z")); (js "route", Str (js "topics/orders")); (js "error", Obj [(js "code", Str (js "invalid_envelope")); (js "message", Str (js "The message envelope is invalid."))])];
   Obj [(js "version", Str (js "1.0")); (js "type", Str (js "service.restart")); (js "correlationId", Str (js "fixture-restart-1")); (js "timestamp", Str (js "2026-08-30T17:00:00.100Z")); (js "route", Str (js "system/restart")); (js "reconnect", Obj [(js "initialDelayMilliseconds", Number (int (500))); (js "maximumDelayMilliseconds", Number (int (30000))); (js "jitterRatio", Number (Fin (3602879701896397 # 18014398509481984))); (js "reauthenticate", Boolean true)])]].
Definition invalidEnvelopes : list (value * string) :=
  [(Obj [(js "version", Str (js "2.0")); (js "type", Str (js "ping")); (js "correlationId", Str (js "fixture-invalid-version")); (js "timestamp", Str (js "2026-08-30T17:00:00.000Z")); (js "route", Str (js "system/heartbeat"))], "unsupported_version"%string);
   (Obj [(js "version", Str (js "1.0")); (js "type", Str (js "unknown")); (js "correlationId", Str (js "fixture-invalid-type")); (js "timestamp", Str (js "2026-08-30T17:00:00.000Z")); (js "route", Str (js "topics/orders"))], "unsupported_type"%string);
   (Obj [(js "version", Str (js "1.0")); (js "type", Str (js "subscribe")); (js "correlationId", Str (js "")); (js "timestamp", Str (js "2026-08-30T17:00:00.000Z")); (js "route", Str (js "topics/orders"))], "invalid_envelope"%string);
   (Obj [(js "version", Str (js "1.0")); (js "type", Str (js "publish")); (js "correlationId", Str (js "fixture-null-payload")); (js "timestamp", Str (js "2026-08-30T17:00:00.000Z")); (js "route", Str (js "topics/orders")); (js "payload", Null)], "invalid_envelope"%string)].

(** 2026-08-30T17:00:30.000Z; no timestamp of the fixtures needs the fallback parser. *)
Definition fixtureNow : Z := 1788109230000.
Definition noFallback (_ : jstr) : option Z := None.

Example valid_client_fixtures :
  forallb (fun e => match validateClientEnvelope noFallback e fixtureNow with Valid w => bool_decide (w = e) | Invalid _ _ => false end) validClientEnvelopes = true.
Proof. vm_compute. reflexivity. Qed.

Example valid_server_fixtures :
  forallb (fun e => match validateServerEnvelope noFallback e with Valid w => bool_decide (w = e) | Invalid _ _ => false end) validServerEnvelopes = true.
Proof. vm_compute. reflexivity. Qed.

Example invalid_fixtures :
  forallb (fun e => match validateClientEnvelope noFallback e.1 fixtureNow with Invalid c _ => bool_decide (c = js e.2) | Valid _ => false end) invalidEnvelopes = true.
Proof. vm_compute. reflexivity. Qed.

Definition advice (initial maximum : Z) (jitter : Z) (reauthenticate : value) : value :=
  Obj [(js "initialDelayMilliseconds", Number (int initial)); (js "maximumDelayMilliseconds", Number (int maximum));
       (js "jitterRatio", Number (int jitter)); (js "reauthenticate", reauthenticate)].

Example malformed_advice :
  existsb adviceAccepted
    [advice (-1) 10 0 (Boolean true); advice 20 10 0 (Boolean true); advice 1 10 2 (Boolean true);
     advice 1 2147483648 0 (Boolean true); advice 1 10 0 (Str (js "yes"))] = false.
Proof. vm_compute. reflexivity. Qed.

(** ** CI job selection *)

Definition selected (path : string) : list jstr := selectJobs (Some [js path]) None.

Example documentation_only :
  selectJobs (Some (texts ["README.md"; "docs/bootstrap.md"; "refs/snapshot.xml"])) None = [] /\
  selectJobs (Some []) (Some (js "push")) = filter (fun j => j <> js "dependency-review") validationJobs /\
  selectJobs None None = validationJobs.
Proof. vm_compute. done. Qed.

Example isolated_adapters :
  forallb (fun a => bool_decide (selectJobs (Some [js "examples/" ++ a ++ js "/src/changed-file"]) None = [js "build-test-aot"; a])
                 && bool_decide (selectJobs (Some [js "examples/" ++ a ++ js "/CHANGELOG.md"]) None = [js "build-test-aot"; a])) adapterJobs = true.
Proof. vm_compute. reflexivity. Qed.

Example adapter_dependencies :
  selected "examples/go-gin/go.mod" = texts ["build-test-aot"; "dependency-review"; "go-gin"] /\
  selected "examples/python-fastapi/uv.lock" = texts ["build-test-aot"; "dependency-review"; "python-fastapi"].
Proof. vm_compute. done. Qed.

Example shared_runtime :
  forallb (fun p => bool_decide (selected p = [js "build-test-aot"] ++ adapterJobs ++ [js "full-circle"]))
    ["src/Realtime.Contracts/ProtocolContracts.cs"; "protocol/fixtures/v1/envelopes.json"; "sdk/typescript/src/client.ts";
     "examples/shared-web/wwwroot/app.js"; "examples/browser/index.html"; "examples/full-circle/Program.cs"]%string = true.
Proof. vm_compute. reflexivity. Qed.

Example deployment_changes :
  forallb (fun p => bool_decide (selected p = automationJobs ++ texts ["build-test-aot"; "full-circle"]))
    ["bootstrap/config.schema.json"; "helm/realtime-gateway/values.yaml"; "cluster/redis/managed-values.yaml"]%string = true /\
  selected "observability/metrics-catalog.json" = texts ["helm-and-automation"; "build-test-aot"] /\
  selected "load/profiles/production-readiness.json" = texts ["build-test-aot"] /\
  selected "tests/bootstrap/branch-sync.test.mjs" = automationJobs /\
  selected "tests/Realtime.UnitTests/ProtocolTests.cs" = texts ["build-test-aot"].
Proof. vm_compute. done. Qed.

Example unknown_surfaces :
  forallb (fun p => bool_decide (selected p = validationJobs))
    ["scripts/ci-impact.mjs"; "scripts/setup-ci-node-prerequisites.sh"; ".github/workflows/ci.yml"; ".github/actions/setup-realtime-runner/action.yml";
     "Directory.Build.props"; "global.json"; ".dockerignore"; "new-component/source.ts"; "examples/new-adapter/source.ts"]%string = true.
Proof. vm_compute. reflexivity. Qed.

Example combined_changes :
  selectJobs (Some (texts ["examples/go-gin/main.go"; "examples/rust-axum/src/main.rs"; "examples/go-gin/main.go"])) None
  = texts ["build-test-aot"; "rust-axum"; "go-gin"].
Proof. vm_compute. reflexivity. Qed.

(** ** Bootstrap environment layout *)

Definition expands (template environment : string) : result jstr jstr := expandEnvironmentPath (Str (js template)) (Str (js environment)).

Example environment_paths :
  expands ".bootstrap/env/{environment}/lifecycle" "test" = Ok (js ".bootstrap/env/test/lifecycle") /\
  expands ".backups/bootstrap/{environment}" "prod" = Ok (js ".backups/bootstrap/prod") /\
  refusedWith "Unsupported bootstrap path token(s): tenant." (expands ".bootstrap/{tenant}" "test") = true /\
  refusedWith "not a valid bootstrap environment name" (expands ".bootstrap/env/{environment}" "../prod") = true /\
  refusedWith "not a valid bootstrap environment name" (expands ".bootstrap/env/{environment}" "con") = true.
Proof. vm_compute. done. Qed.

Example legacy_artifacts :
  (fun s => classifyLegacyBootstrapArtifact (js s)) <$>
    ["config.test.json"; "config.test.json.before-test-config"; "bootstrap.prod.dry-run.log"; "gateway-dev.yaml"; "redis-prod.yaml"; "config.staging.json";
     "gateway-qa.yaml"; "config.con.json"; "update.test.dev-alias.log"; "validate.test.dev-alias.log"; "naming.json"; "my-dev-notes.txt"]%string
  = [Some (js "test"); Some (js "test"); Some (js "prod"); Some (js "dev"); Some (js "prod"); Some (js "staging");
     Some (js "qa"); None; Some (js "test"); Some (js "test"); None; None].
Proof. vm_compute. reflexivity. Qed.

(** ** Bootstrap contract *)

Definition obj1 (k : string) (v : value) : value := Obj [(js k, v)].

Example inline_secret_paths :
  inlineSecretPaths (Obj [(js "auth", Obj [(js "password", Str (js "exposed")); (js "apiKey", Str (js "exposed")); (js "existingSecret", Str (js "safe"));
                                           (js "passwordKey", Str (js "safe"))]); (js "tls", obj1 "privateKey" (Str (js "exposed")))]) (js "$")
    = texts ["$.auth.password"; "$.auth.apiKey"; "$.tls.privateKey"] /\
  inlineSecretPaths (obj1 "serviceAccount" (obj1 "automountServiceAccountToken" (Boolean false))) (js "$") = [] /\
  inlineSecretPaths (obj1 "auth" (obj1 "passwords" (Arr [Str (js "first"); Str (js "second")]))) (js "$") = texts ["$.auth.passwords[0]"; "$.auth.passwords[1]"] /\
  inlineSecretPaths (obj1 "oauth" (obj1 "clientSecret" (Str (js "exposed")))) (js "$") = texts ["$.oauth.clientSecret"] /\
  inlineSecretPaths (obj1 "auth" (Obj [(js "password", Number (int 123456)); (js "tokens", Arr [Number (int 42)])])) (js "$")
    = texts ["$.auth.password"; "$.auth.tokens[0]"].
Proof. vm_compute. done. Qed.

Definition serviceSource : jstr := js "apiVersion: v1" ++ newline ++ js "kind: Service" ++ newline ++ serviceNeedle ++ newline.

Example sentinel_patch :
  match patchSentinelService serviceSource with
  | Ok patched => includes (js "spec:" ++ newline ++ js "  publishNotReadyAddresses: true" ++ newline ++ js "  type:") patched = true /\
                  patchSentinelService patched = Ok patched
  | Throw _ => False
  end /\ refusedWith "does not match the reviewed patch contract" (patchSentinelService (js "kind: Service" ++ newline)) = true.
Proof. vm_compute. done. Qed.

(** The passwords of the test are ASCII. *)
Definition asciiText (b : list Z) : jstr := Z.to_N <$> b.
Definition password (s : jstr) : result jstr (list Z) := normalizePasswordBytes asciiText (Z.of_N <$> s) (js "Password").

Example password_normalization :
  password (js "0123456789abcdef" ++ [10%N]) = Ok (Z.of_N <$> js "0123456789abcdef") /\
  password (js "0123456789abcdef" ++ [13; 10]%N) = Ok (Z.of_N <$> js "0123456789abcdef") /\
  refusedWith "at least 16 bytes" (password (js "short" ++ [10%N])) = true /\
  refusedWith "embedded CR or LF" (password (js "01234567" ++ [10%N] ++ js "89abcdef")) = true /\
  refusedWith "must not contain NUL bytes" (password (js "01234567" ++ [0%N] ++ js "abcdefghi")) = true /\
  refusedWith "must not contain only whitespace" (password (js "                " ++ [10%N])) = true.
Proof. vm_compute. done. Qed.

(** ** Configuration of the Node.js example *)

(** A parser that accepts every origin: the host checks decide. *)
Definition anyOrigin (s : jstr) : option ParsedUrl :=
  Some {| u_protocol := js "https:"; u_username := []; u_password := []; u_hostname := []; u_pathname := js "/"; u_search := []; u_hash := [];
          u_origin := s; u_href := s |}.
Definition origin (s : string) : result jstr ParsedUrl := parseOrigin (fun _ => 0%Z) anyOrigin (js s) (js "PUBLIC_ORIGIN").

Example origins :
  accepted (origin "https://example.test") = true /\ accepted (origin "https://example.test:8443") = true /\
  authority (js "http://127.0.0.1:15100") = Some (js "127.0.0.1") /\ authority (js "https://[::1]:8443") = Some (js "[::1]") /\
  refusedWith "default port" (origin "https://example.test:443") = true /\
  forallb (fun s => refusedWith "valid DNS name" (origin s))
    ["https://a..b"; "https://-bad.example"; "https://bad-.example"; "https://999.999.999.999"; "https://127.1"; "https://example.test/path"]%string = true.
Proof. vm_compute. done. Qed.

Example bounded_settings :
  accepted (parsePort (js "15100")) = true /\ accepted (parsePort (js "80")) = false /\ accepted (parseTrustProxyHops (js "17")) = false /\
  existsb (fun s => accepted (parseHeartbeatInterval (js s))) ["4999"; "300001"; "not-an-integer"]%string = false /\
  accepted (parseScopes (js "user-a,bad user") (js "ALLOWED_USERS")) = false.
Proof. vm_compute. done. Qed.

(** ** Synchronizing branches *)

Definition pull (state base : string) (ref : string) (from : value) : value :=
  Obj [(js "state", Str (js state)); (js "base", obj1 "ref" (Str (js base))); (js "head", Obj [(js "ref", Str (js ref)); (js "repo", from)])].
Definition ownRepo : value := obj1 "full_name" (Str (js "owner/repo")).

Example eligible_branches :
  (fun pr => eligibleBranch pr (js "owner/repo")) <$>
    [pull "open" "main" "feature" ownRepo; pull "closed" "main" "feature" ownRepo; pull "open" "release" "feature" ownRepo;
     pull "open" "main" "main" ownRepo; pull "open" "main" "feature" Null; pull "open" "main" "feature" (obj1 "full_name" (Str (js "other/repo")))]
  = [Ok true; Ok false; Ok false; Ok false; Ok false; Ok false].
Proof. vm_compute. reflexivity. Qed.

(** ** Repairing failed CI runs *)

Definition job (name conclusion : string) : value := Obj [(js "name", Str (js name)); (js "conclusion", Str (js conclusion))].

Example failed_jobs :
  let jobs := [job "changes" "success"; job "go-gin" "failure"; job "rust-axum" "skipped"; job "analyze" "failure"; job "ci-failed" "failure"] in
  failedJobs jobs [js "analyze"] = [job "go-gin" "failure"] /\
  failedJobs [job "changes" "success"; job "ci-failed" "failure"] [] = [job "ci-failed" "failure"].
Proof. vm_compute. done. Qed.

Example input_reasons :
  (fun s => classifyLog (Str (js s))) <$>
    ["2026-10-11T15:00:00.0000000Z ##[error]Username and password required";
     "2026-10-11T15:00:00.0000000Z ##[error]Input required and not supplied: password";
     "Error response from daemon: unauthorized: authentication required"; "error: Resource not accessible by integration";
     "ERROR: Cannot connect to the Docker daemon at unix:///var/run/docker.sock"]%string
  = [[js "missing credentials"]; [js "missing credentials"]; [js "authentication failure"]; [js "authorization failure"]; [js "runner infrastructure"]].
Proof. vm_compute. reflexivity. Qed.

Example job_reasons :
  a_reasons (analyzeJob (job "x" "cancelled") (Str [])) = [js "job cancelled"] /\ a_reasons (analyzeJob (job "x" "failure") Null) = [js "logs unavailable"].
Proof. vm_compute. done. Qed.

Example repairable_failures :
  classifyLog (Str (js "ok 4 - rejects a missing password required by the secret helper" ++ newline
    ++ js "error TS2322: Type 'string' is not assignable to type 'number'." ++ newline ++ js "FAIL tests/gateway.test.ts > rejects 403 origin")) = [].
Proof. vm_compute. reflexivity. Qed.

Example sanitized_excerpt : sanitize (fence ++ js "@octocat") = [39; 39; 39]%N ++ js "@" ++ [8203%N] ++ js "octocat".
Proof. vm_compute. reflexivity. Qed.

Definition comment (user association body : string) : value :=
  Obj [(js "user", obj1 "type" (Str (js user))); (js "author_association", Str (js association)); (js "body", Str (js body))].

Example prior_markers :
  let thread user association := [comment user association "x <!-- realtime-ci-autofix:copilot sha=abc run=1 -->";
    comment user association "<!-- realtime-ci-autofix:input sha=def run=2 -->"; comment user association "unrelated"] in
  priorRequests (thread "User" "COLLABORATOR")%string (js "def") = {| copilotAttempts := 1; handledSha := true |} /\
  priorRequests (thread "Bot" "NONE")%string (js "fff") = {| copilotAttempts := 1; handledSha := false |} /\
  priorRequests (thread "User" "NONE")%string (js "def") = {| copilotAttempts := 0; handledSha := false |}.
Proof. vm_compute. done. Qed.
