(* ===== verification/FullCircle.v ===== *)
(** * The end-to-end test runner

    scripts/full-circle.mjs: the actions that build, run, validate and clean up
    the full-circle example, as a program over requests that ends with the exit
    code of the process.  JSON, SHA-512 and the platform are parameters; of a log
    event the level, the phase and the message are kept. *)

From stdpp Require Import base tactics option list numbers strings.
From Stdlib Require Import Lia.
From S2P Require Import Prelude JsString JsNumber JsValue JsDate Paths Effects Chart BranchSync.
#[local] Open Scope nat_scope.

(** ** Texts *)

Definition globSpecial : jstr := [92%N] ++ js "*?[]".

Definition escapeRedisGlob (s : jstr) : jstr := s ≫= fun c => if memb c globSpecial then [92%N; c] else [c].

Definition xml (s : jstr) : jstr :=
  replaceAll (js ">") (js "&gt;") (replaceAll (js "<") (js "&lt;") (replaceAll [34%N] (js "&quot;") (replaceAll (js "&") (js "&amp;") s))).

Definition quote : jstr := [34%N].

(** [name="value"] *)
Definition attribute (name : string) (content : jstr) : jstr := js " " ++ js name ++ js "=" ++ quote ++ content ++ quote.
Definition tag (name : string) (attributes : jstr) : jstr := js "<" ++ js name ++ attributes ++ js " />".
Definition element (name : string) (attributes : jstr) (content : jstr) : jstr :=
  js "<" ++ js name ++ attributes ++ js ">" ++ content ++ js "</" ++ js name ++ js ">".

Definition upstreamSource : jstr := tag "add" (attribute "key" (js "upstream") ++ attribute "value" (js "%NUGET_UPSTREAM_SOURCE%")).
Definition pattern_ (p : string) : jstr := tag "package" (attribute "pattern" (js p)).

Definition projectReferenceConfig : jstr := element "configuration" [] (element "packageSources" [] (js "<clear />" ++ upstreamSource)) ++ newline.

Definition packageConfig (packages feed : jstr) : jstr :=
  element "configuration" []
    (element "config" [] (tag "add" (attribute "key" (js "globalPackagesFolder") ++ attribute "value" (xml packages)))
     ++ element "packageSources" [] (js "<clear />" ++ tag "add" (attribute "key" (js "local") ++ attribute "value" (xml feed)) ++ upstreamSource)
     ++ element "packageSourceMapping" []
          (element "packageSource" (attribute "key" (js "local")) (pattern_ "RealtimeStack.*")
           ++ element "packageSource" (attribute "key" (js "upstream"))
                (["Microsoft.*"; "OpenTelemetry"; "OpenTelemetry.*"; "StackExchange.Redis"; "RESPite"; "System.*"; "Npgsql"; "SQLitePCLRaw.*"]%string ≫= pattern_)))
  ++ newline.

Definition projects : list jstr :=
  (fun n : string => js "src/" ++ js n ++ js "/" ++ js n ++ js ".csproj") <$>
    ["Realtime.Contracts"; "Realtime.Redis"; "Realtime.AspNetCore"; "Realtime.HttpFallback"; "Realtime.Browser"; "Realtime.Client"; "Realtime.Config";
     "Realtime.Plugins.Persistence"; "Realtime.Plugins.PostgreSql"; "Realtime.Plugins.MySql"; "Realtime.Plugins.MariaDb"; "Realtime.Plugins.SqlServer";
     "Realtime.Plugins.AzureSql"; "Realtime.Plugins.Oracle"; "Realtime.Plugins.Sqlite"; "Realtime.Plugins.Db2"; "Realtime.Plugins.CockroachDb";
     "Realtime.Plugins.Snowflake"]%string.

(** The package and the file of each locked dependency. *)
Definition lockedPackages : list (jstr * jstr) :=
  (fun n : string => (js "RealtimeStack." ++ js n, js "RealtimeStack." ++ js n ++ js ".1.1.0-beta.nupkg")) <$>
    ["AspNetCore"; "Browser"; "Contracts"; "HttpFallback"; "Redis"; "Client"; "Config"; "Plugins.Persistence"; "Plugins.PostgreSql"; "Plugins.MySql";
     "Plugins.MariaDb"; "Plugins.SqlServer"; "Plugins.AzureSql"; "Plugins.Oracle"; "Plugins.Sqlite"; "Plugins.Db2"; "Plugins.CockroachDb";
     "Plugins.Snowflake"]%string.

(** [graph.dependencies?.["net10.0"]] *)
Definition targetGraph (graph : value) : value := optget (js "net10.0") (get (js "dependencies") graph).

(** [targetGraph[packageId].contentHash = hash], on the graph that holds the
    object; an array takes the property but does not print it. *)
Definition setHash (packageId hash : jstr) (graph : value) : result jsError value :=
  match optget packageId (targetGraph graph) with
  | Obj entry =>
      Ok (Obj (set_prop (js "dependencies")
                 (Obj (set_prop (js "net10.0")
                         (Obj (set_prop packageId (Obj (set_prop (js "contentHash") (Str hash) entry)) (props_of (targetGraph graph))))
                         (props_of (get (js "dependencies") graph)))) (props_of graph)))
  | Arr _ => Ok graph
  | v => Throw (newError (js "Cannot set properties of " ++ interpolate v ++ js " (setting 'contentHash')"))
  end.

(** ** Deleting the fixtures: sdk/typescript/scripts/redis-fixtures.mjs

    The cleanup of the connected clients; connecting is in RedisFixtures.v. *)

(** [Promise.all(...)] of requests: every one is sent, the first error is thrown
    at the end. *)
Fixpoint sendAll (rs : list request) (first : option jsError) : prog unit :=
  match rs with
  | [] => match first with Some e => Raise e | None => Ret tt end
  | r :: rs' =>
      outcome ← catch (_ ← call r; Ret None) (fun e => Ret (Some e));
      sendAll rs' (match first with Some e => Some e | None => outcome end)
  end.

(** The scan of one client, a batch per unit of fuel. *)
Fixpoint scanClient (fuel : nat) (client : nat) (pattern cursor : jstr) : prog unit :=
  match fuel with
  | O => fail (js "fuel")
  | S n =>
      batch ← call (RedisScan client cursor pattern);
      cursor ← lift (field_of (js "cursor") batch);
      keys ← lift (elements (get (js "keys") batch));
      _ ← sendAll ((fun key => RedisUnlink client (interpolate key)) <$> keys) None;
      if is_str (js "0") cursor then Ret tt else scanClient n client pattern (interpolate cursor)
  end.

Definition cleanupFixtures (fuel : nat) (clients : list nat) (pattern : jstr) : prog unit :=
  finally (each (fun c => scanClient fuel c pattern (js "0")) clients) (sendAll (RedisClose <$> clients) None).

Section runner.
Context (parseJSON : jstr -> result jsError value) (jsonPretty : value -> jstr) (sha512 : jstr -> jstr).
Context (repositoryRoot : fspath) (win32 : bool) (processEnv : list (jstr * value)).

Definition evidenceRoot : fspath := resolve repositoryRoot (js "artifacts/full-circle").
Definition sdkRoot : fspath := resolve repositoryRoot (js "sdk/typescript").
Definition executable (name : string) : jstr := if win32 then js name ++ js ".cmd" else js name.

(** ** The run *)

(** What the process knows after reading the plan. *)
Record context := {
  c_action : jstr; c_profileName : jstr; c_profile : value; c_plan : value; c_externalRedis : value; c_redisEndpoint : value;
  c_composeFile : fspath; c_upstream : value; c_normalized : list (jstr * value)
}.

Definition log (level : string) (phase message : jstr) : prog unit := _ ← call (Emit (js level) phase message); Ret tt.

(** [plan.redis.k], where [plan.redis] was read before. *)
Definition redisSetting (c : context) (k : string) : value := get (js k) (get (js "redis") (c_plan c)).

Inductive limit := NoLimit | CommandLimit | CleanupLimit.

(** The seconds after which a command is stopped. *)
Definition seconds (c : context) (l : limit) : option value :=
  match l with
  | NoLimit => None
  | CommandLimit => Some (get (js "commandSeconds") (get (js "timeouts") (c_plan c)))
  | CleanupLimit => Some (get (js "cleanupSeconds") (get (js "timeouts") (c_plan c)))
  end.

(** [command]: the environment answers with the exit code of the child, or
    [timedOut] when a timer was set and fired first. *)
Definition command (c : context) (file : jstr) (args : list jstr) (cwd : fspath) (env : list (jstr * value)) (l : limit) : prog unit :=
  _ ← log "info" (c_action c) (js "Running command.");
  child ← call (SpawnWith (show_path cwd) (foldl (fun e kv => set_prop kv.1 kv.2 e) processEnv env) file args);
  match seconds c l with
  | Some s => refuse (truthy (get (js "timedOut") child)) (js "Command exceeded " ++ interpolate s ++ js " seconds.")
  | None => Ret tt
  end ≫= fun _ =>
  if strict_eq (get (js "code") child) (Number (int 0)) then Ret tt
  else fail (file ++ js " exited with code " ++ interpolate (get (js "code") child) ++ js ".").

Definition installSdkDependencies (c : context) : prog unit :=
  command c (executable "npm") [js "ci"; js "--ignore-scripts"] sdkRoot [] CommandLimit.

Definition fixtureScript : jstr := show_path (resolve repositoryRoot (js "sdk/typescript/scripts/redis-fixtures.mjs")).

Definition verifyRedis (c : context) : prog unit :=
  command c (js "node") [fixtureScript; js "ping"] sdkRoot [(js "Redis__Endpoint", c_redisEndpoint c)] CommandLimit.

Definition compose (c : context) (args : list jstr) : prog unit :=
  command c (js "docker") ([js "compose"; js "--file"; show_path (c_composeFile c)] ++ args) repositoryRoot [] CommandLimit.

Definition ensureDependencies (c : context) : prog unit :=
  _ ← whenever (isUndefined (c_externalRedis c)) (compose c [js "up"; js "--detach"; js "--wait"]);
  verifyRedis c.

Definition stopDependencies (c : context) : prog unit :=
  whenever (isUndefined (c_externalRedis c)) (compose c [js "down"; js "--remove-orphans"]).

(** The pattern of the keys that [cleanRedisFixtures] deletes. *)
Definition fixturePattern (instancePrefix : jstr) : jstr := escapeRedisGlob instancePrefix ++ js ":*".

Definition cleanRedisFixtures (c : context) : prog unit :=
  match redisSetting c "instancePrefix" with
  | Str ((_ :: _) as prefix) =>
      command c (js "node") [fixtureScript; js "cleanup"] sdkRoot
        [(js "Redis__Endpoint", c_redisEndpoint c); (js "FULL_CIRCLE_PATTERN", Str (fixturePattern prefix))] CleanupLimit
  | _ => fail (js "Redis fixture cleanup requires a non-empty instance prefix.")
  end.

Definition upstreamEnvironment (c : context) : list (jstr * value) := [(js "NUGET_UPSTREAM_SOURCE", c_upstream c)].

Definition writeProjectReferenceConfig : prog fspath :=
  let config := resolve evidenceRoot (js "NuGet.ProjectReferences.Config") in
  _ ← call (WriteFile config projectReferenceConfig);
  Ret config.

Definition dotnet (c : context) (args : list jstr) (env : list (jstr * value)) : prog unit := command c (js "dotnet") args repositoryRoot env CommandLimit.

Definition exampleProject : jstr := js "examples/full-circle/Realtime.Example.FullCircle.csproj".

(** The loop over the locked packages. *)
Definition lockPackage (feed : fspath) (package : jstr * jstr) (graph : value) : prog value :=
  let '(packageId, packageFile) := package in
  _ ← refuse (isUndefined (optget packageId (targetGraph graph))) (js "The committed consumer lock is missing " ++ packageId ++ js ".");
  bytes ← call (ReadFile (resolve feed packageFile));
  lift (setHash packageId (sha512 (str_of bytes)) graph).

Definition buildPackageConsumer (c : context) : prog unit :=
  let feed := resolve evidenceRoot (js "feed") in
  let consumerOutputRoot := resolve evidenceRoot (js "consumer-bin") in
  let consumerOutput := show_path consumerOutputRoot ++ js "/" in
  let consumerLock := resolve evidenceRoot (js "consumer-packages.lock.json") in
  let packages := resolve evidenceRoot (js "packages") in
  let config := resolve evidenceRoot (js "NuGet.Config") in
  let properties := [js "-p:UseProjectReferences=false"; js "-p:NuGetLockFilePath=" ++ show_path consumerLock; js "-p:BaseOutputPath=" ++ consumerOutput] in
  _ ← call (RmRf feed);
  _ ← call (RmRf packages);
  _ ← call (RmRf consumerOutputRoot);
  _ ← call (MkdirP feed);
  _ ← each (fun project => dotnet c [js "pack"; project; js "--configuration"; js "Release"; js "--no-build"; js "--output"; show_path feed] []) projects;
  template ← call (ReadFile (resolve repositoryRoot (js "examples/full-circle/package-consumer.packages.lock.json")));
  graph ← lift (parseJSON (str_of template));
  _ ← lift (field_of (js "dependencies") graph);
  graph ← loop (lockPackage feed) lockedPackages graph;
  _ ← call (WriteFile consumerLock (jsonPretty graph ++ newline));
  _ ← call (WriteFile config (packageConfig (show_path packages) (show_path feed)));
  _ ← dotnet c ([js "restore"; exampleProject; js "--locked-mode"; js "--configfile"; show_path config] ++ properties) (upstreamEnvironment c);
  _ ← dotnet c ([js "build"; exampleProject; js "--configuration"; js "Release"; js "--no-restore"] ++ properties) [];
  endpoints ← call (ReadFile (resolve consumerOutputRoot (js "Release/net10.0/Realtime.Example.FullCircle.staticwebassets.endpoints.json")));
  _ ← refuse (negb (includes (js "_content/Realtime.Browser/realtime.iife.js") (str_of endpoints)))
        (js "The package consumer did not expose the generated browser static asset route.");
  projectConfig ← writeProjectReferenceConfig;
  _ ← dotnet c [js "restore"; exampleProject; js "--locked-mode"; js "--configfile"; show_path projectConfig] (upstreamEnvironment c);
  log "pass" (c_action c) (js "Clean local-feed package consumer built.").

(** ** The actions *)

Definition bootstrapAction (c : context) : prog unit :=
  _ ← ensureDependencies c;
  _ ← command c (executable "npm") [js "run"; js "build"; js "--silent"] sdkRoot [] CommandLimit;
  projectConfig ← writeProjectReferenceConfig;
  _ ← dotnet c [js "restore"; exampleProject; js "--locked-mode"; js "--configfile"; show_path projectConfig] (upstreamEnvironment c);
  _ ← dotnet c [js "build"; js "src/Realtime.Contracts/Realtime.Contracts.csproj"; js "--configuration"; js "Release"; js "--no-restore"; js "--no-incremental"] [];
  _ ← dotnet c [js "build"; exampleProject; js "--configuration"; js "Release"; js "--no-restore"; js "--no-incremental"] [];
  buildPackageConsumer c.

Definition validateAction (c : context) : prog unit :=
  _ ← ensureDependencies c;
  token ← call (RandomHex 32);
  command c (executable "npx") [js "playwright"; js "test"; js "--config"; js "playwright.full-circle.config.mjs"] sdkRoot
    [(js "FULL_CIRCLE_PROFILE", Str (c_profileName c)); (js "FULL_CIRCLE_DIAGNOSTICS_TOKEN", token); (js "REDIS_TEST_ENDPOINT", c_redisEndpoint c)] CommandLimit.

Definition runAction (c : context) : prog unit :=
  _ ← ensureDependencies c;
  instances ← lift (elements (get (js "instances") (c_profile c)));
  let instance := default Undefined (head instances) in
  port ← lift (field_of (js "port") instance);
  let local := Str (js "http://127.0.0.1:" ++ interpolate port) in
  command c (js "dotnet") [show_path (resolve repositoryRoot (js "examples/full-circle/bin/Release/net10.0/Realtime.Example.FullCircle.dll"))]
    (resolve repositoryRoot (js "examples/full-circle"))
    [(js "ASPNETCORE_ENVIRONMENT", Str (js "Development")); (js "ASPNETCORE_URLS", local);
     (js "FullCircle__Topology", Str (c_profileName c)); (js "Gateway__Topology", Str (c_profileName c));
     (js "FullCircle__InstanceName", get (js "name") instance); (js "Redis__Endpoint", c_redisEndpoint c);
     (js "Redis__InstancePrefix", redisSetting c "instancePrefix"); (js "Realtime__AllowedOrigins__0", local);
     (js "Diagnostics__AllowedOrigins__0", local)] NoLimit.

Definition cleanupAction (c : context) : prog unit :=
  finally
    (_ ← ensureDependencies c;
     _ ← cleanRedisFixtures c;
     let artifacts := show_path (resolve repositoryRoot (js "artifacts")) in
     _ ← refuse (negb (startsWith (artifacts ++ [92%N]) (show_path evidenceRoot)) && negb (startsWith (artifacts ++ js "/") (show_path evidenceRoot)))
           (js "Refusing cleanup outside the repository artifacts directory.");
     _ ← call (RmRf evidenceRoot);
     Ret tt)
    (stopDependencies c).

Definition performAction (c : context) : prog unit :=
  _ ← installSdkDependencies c;
  if memb (c_action c) [js "bootstrap"; js "update"; js "recover"] then bootstrapAction c
  else if bool_decide (c_action c = js "validate") then validateAction c
  else if bool_decide (c_action c = js "run") then runAction c
  else if memb (c_action c) [js "cleanup"; js "rollback"] then cleanupAction c
  else Ret tt.

Definition evidencePath (c : context) : fspath := resolve evidenceRoot (c_action c ++ js "-" ++ c_profileName c ++ js ".json").

Definition evidence (c : context) (status : string) (extra : list (jstr * value)) (now : value) : jstr :=
  jsonPretty (Obj (foldl (fun l kv => set_prop kv.1 kv.2 l) (c_normalized c)
    ([(js "status", Str (js status))] ++ extra ++ [(js "completedAt", Str (toISOString (default 0%Z (to_Z (num_of now)))))]))) ++ newline.

(** The [try] of the script: the action and its evidence; the exit code. *)
Definition perform (c : context) : prog Z :=
  catch
    (_ ← performAction c;
     _ ← call (MkdirP evidenceRoot);
     now ← call DateNow;
     _ ← call (WriteFile (evidencePath c) (evidence c "passed" [] now));
     _ ← log "pass" (c_action c) (js "Lifecycle action completed.");
     Ret 0%Z)
    (fun e =>
     now ← call DateNow;
     _ ← call (WriteFile (evidencePath c) (evidence c "failed" [(js "message", Str (emessage e))] now));
     _ ← log "error" (c_action c) (emessage e);
     Ret 1%Z).

Definition validActions : list jstr :=
  js <$> ["plan"; "bootstrap"; "run"; "validate"; "cleanup"; "update"; "rollback"; "recover"]%string.

(** [fail]: a message and the exit code 2. *)
Definition stopWith (action : option jstr) (message : jstr) : prog Z := _ ← log "error" (default (js "initialize") action) message; Ret 2%Z.

(** [!/^\d+$/.test(port) || Number(port) < 1 || Number(port) > 65535] *)
Definition badPort (port : jstr) : bool :=
  negb (negb (bool_decide (port = [])) && forallb is_digit port) || nlt (to_number port) (int 1) || ngt (to_number port) (int 65535).

Definition envValue (name : jstr) : value := get name (Obj processEnv).

(** The argument after the first [--profile]. *)
Definition profileArgument (argv : list jstr) : option jstr :=
  match list_find (fun a => a = js "--profile") argv with Some (i, _) => argv !! S i | None => None end.

Definition main (argv : list jstr) : prog Z :=
  let action := argv !! 2 in
  let profileName := profileArgument argv in
  let dryRun := memb (js "--dry-run") argv in
  match action with
  | Some a =>
      if negb (memb a validActions) then stopWith action (js "Action must be plan, bootstrap, run, validate, cleanup, update, rollback, or recover.")
      else match profileName with
      | Some n =>
          if negb (memb n [js "ha"; js "non-ha"]) then stopWith action (js "--profile must explicitly identify ha or non-ha.")
          else
            text ← call (ReadFile (resolve repositoryRoot (js "examples/full-circle/full-circle.plan.json")));
            plan ← lift (parseJSON (str_of text));
            version ← lift (field_of (js "schemaVersion") plan);
            let profile := optget n (get (js "profiles") plan) in
            if negb (strict_eq version (Number (int 1))) || negb (truthy profile) then stopWith action (js "The shared plan schema or selected profile is invalid.")
            else
              endpointName ← lift (field_of (js "endpointEnvironment") (get (js "redis") plan));
              let external := envValue (interpolate endpointName) in
              let port := envValue (js "FULL_CIRCLE_REDIS_PORT") in
              if negb (isUndefined port) && badPort (str_of port) then stopWith action (js "FULL_CIRCLE_REDIS_PORT must be a TCP port from 1 through 65535.")
              else
                let endpoint := nullish external (if isUndefined port then get (js "defaultEndpoint") (get (js "redis") plan)
                                                  else Str (js "127.0.0.1:" ++ str_of port)) in
                composeFile ← lift (match get (js "composeFile") (get (js "redis") plan) with
                                    | Str s => Ok (resolve repositoryRoot s)
                                    | _ => Throw (newError (js "The paths[1] argument must be of type string.")) end);
                let normalized :=
                  [(js "schemaVersion", version); (js "action", Str a); (js "profile", Str n); (js "instances", get (js "instances") profile);
                   (js "entryPort", get (js "entryPort") profile); (js "guarantee", get (js "guarantee") profile);
                   (js "redis", Obj [(js "configured", Boolean (truthy endpoint)); (js "instancePrefix", get (js "instancePrefix") (get (js "redis") plan))]);
                   (js "dryRun", Boolean dryRun)] in
                let c := {| c_action := a; c_profileName := n; c_profile := profile; c_plan := plan; c_externalRedis := external;
                            c_redisEndpoint := endpoint; c_composeFile := composeFile;
                            c_upstream := nullish (envValue (js "NUGET_UPSTREAM_SOURCE")) (Str (js "https://api.nuget.org/v3/index.json"));
                            c_normalized := normalized |} in
                _ ← log "info" (js "plan") (js "Normalized lifecycle plan.");
                if bool_decide (a = js "plan") || dryRun then Ret 0%Z
                else
                  _ ← call (MkdirP evidenceRoot);
                  _ ← lift (field_of (js "commandSeconds") (get (js "timeouts") plan));
                  perform c
      | None => stopWith action (js "--profile must explicitly identify ha or non-ha.")
      end
  | None => stopWith action (js "Action must be plan, bootstrap, run, validate, cleanup, update, rollback, or recover.")
  end.
End runner.

(** ** Which keys are deleted *)

(** The glob patterns of Redis, as its documentation describes them. *)
Class Glob (matching : jstr -> jstr -> Prop) : Prop := {
  glob_nil k : matching [] k <-> k = [];
  glob_escape c p k : matching (92%N :: c :: p) k <-> exists k', k = c :: k' /\ matching p k';
  glob_plain c p k : memb c globSpecial = false -> (matching (c :: p) k <-> exists k', k = c :: k' /\ matching p k');
  glob_star k : matching (js "*") k
}.

Section glob.
Context `{Glob matching}.

Lemma escape_cons c s : escapeRedisGlob (c :: s) = (if memb c globSpecial then [92%N; c] else [c]) ++ escapeRedisGlob s.
Proof. reflexivity. Qed.

Lemma escape_exact s p k : matching (escapeRedisGlob s ++ p) k <-> exists k', k = s ++ k' /\ matching p k'.
Proof.
  revert k. induction s as [|c s IH]; intros k; [cbn; split; [eauto|by intros (? & -> & ?)]|].
  assert (matching (escapeRedisGlob (c :: s) ++ p) k <-> exists k', k = c :: k' /\ matching (escapeRedisGlob s ++ p) k') as ->.
  { rewrite escape_cons. destruct (memb c globSpecial) eqn:Hc; cbn [app]; [apply glob_escape|by apply glob_plain]. }
  setoid_rewrite IH. split; [intros (? & -> & ? & -> & ?)|intros (? & -> & ?)]; eauto.
Qed.

Lemma fixturePattern_exact prefix k : matching (fixturePattern prefix) k <-> exists rest, k = prefix ++ js ":" ++ rest.
Proof.
  unfold fixturePattern. rewrite escape_exact. change (js ":*") with (58%N :: js "*"). setoid_rewrite glob_plain; [|done].
  split; [intros (? & -> & ? & -> & _); by eexists|intros (rest & ->)]. eexists. split; [done|]. eexists. split; [done|]. apply glob_star.
Qed.
End glob.

(** The keys deleted in a history. *)
Definition unlinked (h : history) : list jstr := omap (fun rx => match rx.1 with RedisUnlink _ k => Some k | _ => None end) h.

(** Every batch of a scan holds keys that match its pattern, as Redis documents. *)
Definition scansMatch (matching : jstr -> jstr -> Prop) (h : history) : Prop :=
  forall client cursor pattern batch k, (RedisScan client cursor pattern, Ok batch) ∈ h -> k ∈ items_of (get (js "keys") batch) -> matching pattern (interpolate k).

Section scan.
Context (pattern : jstr).

(** A key is deleted only when a scan of the same client returned it. *)
Definition scanned (h : history) (r : request) : Prop :=
  match r with
  | RedisUnlink client k => exists cursor batch v, (RedisScan client cursor pattern, Ok batch) ∈ h /\ v ∈ items_of (get (js "keys") batch) /\ k = interpolate v
  | _ => True
  end.

Abbreviation okc := (ok scanned extend).

Lemma sendAll_ok h rs first : (forall h' r, h `prefix_of` h' -> r ∈ rs -> scanned h' r) -> okc h (sendAll rs first) (fun _ _ => True).
Proof.
  revert h first. induction rs as [|r rs IH]; intros h first Hr; cbn [sendAll]; [by destruct first|].
  apply ok_bind, ok_catch, ok_bind, ok_call; [apply Hr; [done|left]|].
  assert (forall x first', okc (extend h r x) (sendAll rs first') (fun _ _ => True)) as H.
  { intros x first'. apply IH. intros h' r' Hp Hin. apply Hr; [|by right]. etransitivity; [|exact Hp]. by exists [(r, x)]. }
  intros [v|e]; cbn [ok]; apply H.
Qed.

Lemma scanClient_ok fuel h client cursor : okc h (scanClient fuel client pattern cursor) (fun _ _ => True).
Proof.
  revert h cursor. induction fuel as [|n IH]; intros h cursor; cbn [scanClient]; [done|].
  apply ok_bind, ok_call; [done|]. intros [batch|e]; [|done].
  apply ok_bind. unfold field_of. destruct (isNullish batch); [done|]. cbn [lift ok].
  apply ok_bind. destruct (get (js "keys") batch) as [| | | | |keys| |] eqn:Hk; try done. cbn [elements lift ok].
  apply ok_bind. eapply ok_weaken; [apply sendAll_ok|].
  - intros h' r [t ->] (v & -> & Hv)%list_elem_of_fmap. exists cursor, batch, v. split_and!; [|by rewrite Hk|done].
    unfold extend. rewrite !elem_of_app, list_elem_of_singleton. auto.
  - intros h' [[]|e] _; [|done]. destruct (is_str _ _); [done|apply IH].
Qed.

Lemma cleanup_scanned fuel h clients : okc h (cleanupFixtures fuel clients pattern) (fun _ _ => True).
Proof.
  apply ok_finally. eapply ok_weaken; [apply (ok_each _ _ (fun _ => True)); [done|intros; apply scanClient_ok]|].
  intros h' r _. eapply ok_weaken; [apply sendAll_ok|by intros ? [] ?].
  by intros h'' q _ (c & -> & _)%list_elem_of_fmap.
Qed.
End scan.

(** On a server whose scans return only keys that match the pattern, the
    fixture cleanup deletes only keys below the instance prefix, whatever
    characters the prefix has. *)
Theorem fixtures_scoped matching o fuel clients prefix k :
  Glob matching -> let h := (run o (cleanupFixtures fuel clients (fixturePattern prefix))).1 in
  scansMatch matching h -> k ∈ unlinked h -> exists rest, k = prefix ++ js ":" ++ rest.
Proof.
  intros HG h Hs Hk. pose proof (ok_run _ _ o [] _ _ (cleanup_scanned (fixturePattern prefix) fuel [] clients)) as Hr.
  fold (run o (cleanupFixtures fuel clients (fixturePattern prefix))) in Hr. unfold h in *. clear h.
  destruct (run o _) as [h r]. destruct Hr as [Hc _]. cbn [fst] in *.
  apply list_elem_of_omap in Hk as ([q x] & Hin & Hq). cbn in Hq. destruct q; try done. injection Hq as ->.
  apply list_elem_of_split in Hin as (h1 & h2 & ->). apply complies_at in Hc. rewrite after_extend in Hc.
  destruct Hc as (cursor & batch & v & Hin & Hv & ->). apply fixturePattern_exact.
  eapply Hs; [|exact Hv]. apply elem_of_app. left. exact Hin.
Qed.

(** A matcher for the patterns of the cleanup, and a server with one key. *)
Fixpoint sampleGlob (p k : jstr) : Prop :=
  match p with
  | [] => k = []
  | c :: p' =>
      if bool_decide (p = js "*") then True
      else match k with
           | [] => False
           | d :: k' => if (c =? 92)%N then match p' with e :: p'' => d = e /\ sampleGlob p'' k' | [] => False end else d = c /\ sampleGlob p' k'
           end
  end.

Lemma sampleGlob_ok : Glob sampleGlob.
Proof.
  split; [done| | |done].
  - intros c p k. cbn [sampleGlob]. rewrite bool_decide_eq_false_2 by discriminate.
    destruct k as [|d k]; cbn; [split; [done|by intros (? & [=] & _)]|]. split; [intros [-> ?]; eauto|by intros (? & [= -> ->] & ?)].
  - intros c p k Hc. cbn [sampleGlob]. rewrite bool_decide_eq_false_2 by (intros [= -> ->]; done).
    assert ((c =? 92)%N = false) as -> by (apply N.eqb_neq; intros ->; done).
    destruct k as [|d k]; [split; [done|by intros (? & [=] & _)]|]. split; [intros [-> ?]; eauto|by intros (? & [= -> ->] & ?)].
Qed.

Definition sampleServer : oracle := fun _ r =>
  match r with RedisScan _ _ _ => Ok (Obj [(js "cursor", Str (js "0")); (js "keys", Arr [Str (js "a*b:1")])]) | _ => Ok Undefined end.
Definition sampleCleanup : history := (run sampleServer (cleanupFixtures 1 [0] (fixturePattern (js "a*b")))).1.

Lemma sample_scans : scansMatch sampleGlob sampleCleanup.
Proof.
  assert (Forall (fun rx => match rx with (RedisScan _ _ p, Ok b) => Forall (fun k => sampleGlob p (interpolate k)) (items_of (get (js "keys") b)) | _ => True end)
    sampleCleanup) as H by (vm_compute; repeat constructor).
  intros client cursor p b k Hin Hk. rewrite Forall_forall in H. specialize (H _ Hin). cbn in H. rewrite Forall_forall in H. by apply H.
Qed.

Lemma fixtures_scoped_witness : unlinked sampleCleanup = [js "a*b:1"] /\ exists rest, js "a*b:1" = js "a*b" ++ js ":" ++ rest.
Proof.
  assert (unlinked sampleCleanup = [js "a*b:1"]) as E by (vm_compute; reflexivity).
  split; [exact E|]. apply (fixtures_scoped sampleGlob sampleServer 1 [0] (js "a*b") (js "a*b:1")).
  - exact sampleGlob_ok.
  - exact sample_scans.
  - fold sampleCleanup. rewrite E. left.
Defined.

(** ** The exit code *)

(** A command that did not end with code 0. *)
Definition failing (r : request) (x : response) : bool :=
  match r with
  | SpawnWith _ _ _ _ => match x with Ok child => negb (strict_eq (get (js "code") child) (Number (int 0))) | Throw _ => true end
  | _ => false
  end.
Definition noteFailure (failed : bool) (r : request) (x : response) : bool := failed || failing r x.

Definition anyFailed (h : history) : bool := existsb (fun rx => failing rx.1 rx.2) h.

Lemma after_noteFailure b h : after noteFailure b h = b || anyFailed h.
Proof.
  revert b. induction h as [|[r x] h IH]; intros b; [by rewrite orb_false_r|]. unfold after in *. cbn [foldl fst snd]. rewrite IH.
  unfold noteFailure, anyFailed. cbn [existsb fst snd]. by rewrite orb_assoc.
Qed.

Abbreviation okf := (ok (fun (_ : bool) (_ : request) => True) noteFailure).

(** A program that returns only when all its commands ended well. *)
Definition strict {A} (p : prog A) : Prop := forall b, okf b p (fun b' r => match r with Ok _ => b' = b | Throw _ => True end).

Lemma strict_ret {A} (a : A) : strict (Ret a).
Proof. by intros b. Qed.
Lemma strict_raise {A} e : strict (@Raise A e).
Proof. by intros b. Qed.
Lemma strict_bind {A B} (p : prog A) (f : A -> prog B) : strict p -> (forall a, strict (f a)) -> strict (p ≫= f).
Proof.
  intros Hp Hf b. apply ok_bind. eapply ok_weaken; [apply Hp|]. intros b' [a|e] H; [|done]. cbn in H. subst. apply Hf.
Qed.
Lemma strict_call r : (forall x, failing r x = false) -> strict (call r).
Proof. intros Hr b. apply ok_call; [done|]. intros [v|e]; [|done]. unfold noteFailure. by rewrite Hr, orb_false_r. Qed.
Lemma strict_each {A} (f : A -> prog unit) l : (forall x, strict (f x)) -> strict (each f l).
Proof. intros Hf. induction l as [|x l IH]; [apply strict_ret|]. apply strict_bind; [apply Hf|done]. Qed.
Lemma strict_loop {A S} (f : A -> S -> prog S) l s : (forall x s, strict (f x s)) -> strict (loop f l s).
Proof. intros Hf. revert s. induction l as [|x l IH]; intros s; [apply strict_ret|]. apply strict_bind; [apply Hf|apply IH]. Qed.
Lemma strict_finally {A} (p : prog A) c : strict p -> strict c -> strict (finally p c).
Proof.
  intros Hp Hc b. apply ok_finally. eapply ok_weaken; [apply Hp|]. intros b1 r Hr. eapply ok_weaken; [apply Hc|].
  intros b2 [[]|e] H2; [|done]. destruct r; [|done]. cbn in Hr, H2. congruence.
Qed.
Lemma strict_whenever {A} b (p : prog A) : strict p -> strict (whenever b p).
Proof. intros H. destruct b; [|apply strict_ret]. cbn [whenever]. apply strict_bind; [done|]. intros. apply strict_ret. Qed.
Lemma strict_refuse b m : strict (refuse b m).
Proof. destruct b; [apply strict_raise|apply strict_ret]. Qed.
Lemma strict_lift {A} (r : result jsError A) : strict (lift r).
Proof. destruct r; [apply strict_ret|apply strict_raise]. Qed.

Ltac strict_step :=
  lazymatch goal with
  | |- forall _, _ => intros ?
  | |- strict (_ ≫= _) => apply strict_bind
  | |- strict (each _ _) => apply strict_each
  | |- strict (loop _ _ _) => apply strict_loop
  | |- strict (finally _ _) => apply strict_finally
  | |- strict (whenever _ _) => apply strict_whenever
  | |- strict (refuse _ _) => apply strict_refuse
  | |- strict (lift _) => apply strict_lift
  | |- strict (Ret _) => apply strict_ret
  | |- strict (fail _) => apply strict_raise
  | |- strict (call _) => apply strict_call; intros; reflexivity
  | |- strict (let _ := _ in _) => cbv zeta
  | |- strict (if ?b then _ else _) => destruct b
  | |- strict (match ?x with _ => _ end) => destruct x
  | |- strict _ => solve [auto with strict]
  end.
Create HintDb strict.

Section exit.
Context (parseJSON : jstr -> result jsError value) (jsonPretty : value -> jstr) (sha512 : jstr -> jstr).
Context (repositoryRoot : fspath) (win32 : bool) (processEnv : list (jstr * value)).

Lemma log_strict level phase message : strict (log level phase message).
Proof. unfold log. repeat strict_step. Qed.
Hint Resolve log_strict : strict.

Lemma command_strict c file args cwd env l : strict (command processEnv c file args cwd env l).
Proof.
  unfold command. apply strict_bind; [apply log_strict|]. intros [] b. apply ok_bind, ok_call; [done|]. intros [child|e]; [|done].
  apply ok_bind. unfold noteFailure, failing. destruct (strict_eq _ _); cbn [negb]; rewrite ?orb_false_r, ?orb_true_r;
    (destruct (seconds c l); [destruct (truthy _)|]); done.
Qed.
Hint Resolve command_strict : strict.

Lemma ensureDependencies_strict c : strict (ensureDependencies repositoryRoot processEnv c).
Proof. unfold ensureDependencies, verifyRedis, compose. repeat strict_step. Qed.
Hint Resolve ensureDependencies_strict : strict.

Lemma buildPackageConsumer_strict c : strict (buildPackageConsumer parseJSON jsonPretty sha512 repositoryRoot processEnv c).
Proof. unfold buildPackageConsumer, dotnet, lockPackage, writeProjectReferenceConfig. repeat strict_step. Qed.
Hint Resolve buildPackageConsumer_strict : strict.

Lemma performAction_strict c : strict (performAction parseJSON jsonPretty sha512 repositoryRoot win32 processEnv c).
Proof.
  unfold performAction, installSdkDependencies, bootstrapAction, validateAction, runAction, cleanupAction, cleanRedisFixtures, stopDependencies,
    compose, dotnet, writeProjectReferenceConfig. repeat strict_step.
Qed.

Lemma perform_ok b c :
  okf b (perform parseJSON jsonPretty sha512 repositoryRoot win32 processEnv c) (fun b' r => r = Ok 0%Z -> b' = b).
Proof.
  unfold perform. apply ok_catch. eapply ok_weaken.
  - apply (strict_bind _ _ (performAction_strict c)). repeat strict_step.
  - intros b1 [z|e] H1; [by intros _|]. apply ok_bind, ok_call; [done|]. intros [now|e1]; [|done].
    apply ok_bind, ok_call; [done|]. intros [u|e1]; [|done]. apply ok_bind. eapply ok_weaken; [apply log_strict|]. by intros b2 [[]|e2] _.
Qed.

(** A program that ends with code 0 only when all its commands ended well. *)
Definition graded (p : prog Z) : Prop := forall b, okf b p (fun b' r => r = Ok 0%Z -> b' = b).

Lemma graded_bind {A} (p : prog A) f : strict p -> (forall a, graded (f a)) -> graded (p ≫= f).
Proof. intros Hp Hf b. apply ok_bind. eapply ok_weaken; [apply Hp|]. intros b' [a|e] H; [|done]. cbn in H. subst. apply Hf. Qed.

Lemma graded_ret z : graded (Ret z).
Proof. by intros b. Qed.

Lemma graded_stop action message : graded (stopWith action message).
Proof. apply graded_bind; [apply log_strict|]. intros. apply graded_ret. Qed.

Lemma main_graded argv : graded (main parseJSON jsonPretty sha512 repositoryRoot win32 processEnv argv).
Proof.
  unfold main. destruct (argv !! 2) as [a|]; [|apply graded_stop]. destruct (negb _); [apply graded_stop|].
  destruct (profileArgument argv) as [n|]; [|apply graded_stop]. destruct (negb _); [apply graded_stop|].
  apply graded_bind; [repeat strict_step|]. intros text. apply graded_bind; [repeat strict_step|]. intros plan.
  apply graded_bind; [repeat strict_step|]. intros version. cbv zeta. destruct (_ || _); [apply graded_stop|].
  apply graded_bind; [repeat strict_step|]. intros endpointName. destruct (_ && _); [apply graded_stop|].
  apply graded_bind; [repeat strict_step|]. intros composeFile. apply graded_bind; [apply log_strict|]. intros _.
  destruct (_ || _); [apply graded_ret|].
  apply graded_bind; [repeat strict_step|]. intros _. apply graded_bind; [repeat strict_step|]. intros _ b. apply perform_ok.
Qed.

(** The record of a successful action. *)
Definition passedRecord (h : history) : Prop :=
  exists c now v, (WriteFile (evidencePath repositoryRoot c) (evidence jsonPretty c "passed" [] now), Ok v) ∈ h.

Abbreviation okt := (ok (fun (_ : history) (_ : request) => True) extend).

Lemma okt_true {A} h (p : prog A) : okt h p (fun _ _ => True).
Proof. revert h. induction p as [a|e|r k IH]; intros h; [done|done|]. split; [done|]. intros x. apply IH. Qed.

Lemma recorded_then {A} h (p : prog A) (f : A -> prog Z) P :
  (forall h' a, okt h' (f a) (fun h r => r = Ok 0%Z -> P h)) -> okt h (p ≫= f) (fun h r => r = Ok 0%Z -> P h).
Proof. intros Hf. apply ok_bind. eapply ok_weaken; [apply okt_true|]. by intros h' [a|e] _; [apply Hf|]. Qed.

Lemma stop_recorded h action message P : okt h (stopWith action message) (fun h r => r = Ok 0%Z -> P h).
Proof. apply recorded_then. by intros h' []. Qed.

Lemma perform_recorded h c :
  okt h (perform parseJSON jsonPretty sha512 repositoryRoot win32 processEnv c) (fun h r => r = Ok 0%Z -> passedRecord h).
Proof.
  unfold perform. apply ok_catch, ok_bind. eapply ok_weaken; [apply okt_true|].
  assert (forall h e, okt h (now ← call DateNow;
     _ ← call (WriteFile (evidencePath repositoryRoot c) (evidence jsonPretty c "failed" [(js "message", Str (emessage e))] now));
     _ ← log "error" (c_action c) (emessage e); Ret 1%Z) (fun h r => r = Ok 0%Z -> passedRecord h)) as Hh.
  { intros h1 e. repeat (apply recorded_then; intros ? ?). done. }
  intros h1 [[]|e] _; [|apply Hh]. apply ok_bind, ok_call; [done|]. intros [u|e]; [|apply Hh].
  apply ok_bind, ok_call; [done|]. intros [now|e]; [|apply Hh]. apply ok_bind, ok_call; [done|]. intros [v|e]; [|apply Hh].
  apply ok_bind. eapply ok_weaken; [apply ok_extends, okt_true|]. intros h4 [[]|e] [[t ->] _]; [|apply Hh]. intros _.
  exists c, now, v. rewrite elem_of_app. left. unfold extend. rewrite elem_of_app, list_elem_of_singleton. by right.
Qed.

Lemma main_recorded h argv :
  okt h (main parseJSON jsonPretty sha512 repositoryRoot win32 processEnv argv)
    (fun h r => r = Ok 0%Z -> argv !! 2 = Some (js "plan") \/ js "--dry-run" ∈ argv \/ passedRecord h).
Proof.
  unfold main. destruct (argv !! 2) as [a|]; [|apply stop_recorded]. destruct (negb _); [apply stop_recorded|].
  destruct (profileArgument argv) as [n|]; [|apply stop_recorded]. destruct (negb _); [apply stop_recorded|].
  do 3 (apply recorded_then; intros ? ?). cbv zeta. destruct (_ || _); [apply stop_recorded|].
  apply recorded_then; intros ? ?. destruct (_ && _); [apply stop_recorded|]. do 2 (apply recorded_then; intros ? ?).
  destruct (bool_decide _) eqn:Ha; [apply bool_decide_eq_true in Ha as ->; intros _; by left|].
  destruct (memb (js "--dry-run") argv) eqn:Hd; [apply memb_spec in Hd; intros _; auto|]. cbn [orb].
  do 2 (apply recorded_then; intros ? ?). eapply ok_weaken; [apply perform_recorded|]. cbn. auto.
Qed.
End exit.

(** C28: The exit code is truthful: the runner ends with code 0 only when every
    command it started ended with code 0 and, unless it only planned, the record
    of the action with the status passed was written. *)
Theorem exit_truthful parseJSON jsonPretty sha512 repositoryRoot win32 processEnv argv o :
  let '(h, r) := run o (main parseJSON jsonPretty sha512 repositoryRoot win32 processEnv argv) in
  r = Ok 0%Z ->
  anyFailed h = false /\ (argv !! 2 = Some (js "plan") \/ js "--dry-run" ∈ argv \/ passedRecord jsonPretty repositoryRoot h).
Proof.
  pose proof (ok_run _ _ o false _ _ (main_graded parseJSON jsonPretty sha512 repositoryRoot win32 processEnv argv false)) as Hg.
  pose proof (ends_run o _ _ (main_recorded parseJSON jsonPretty sha512 repositoryRoot win32 processEnv [] argv)) as Hr.
  destruct (run o _) as [h r]. destruct Hg as [_ Hg]. rewrite after_noteFailure in Hg. cbn [orb fst snd] in *.
  intros E. split; [by apply Hg|by apply Hr].
Qed.

(** ** Samples *)

Definition samplePlan : value :=
  Obj [(js "schemaVersion", Number (int 1));
       (js "profiles", Obj [(js "ha", Obj [(js "instances", Arr [Obj [(js "name", Str (js "app-a")); (js "port", Number (int 15081))]]);
                                            (js "entryPort", Number (int 15083)); (js "guarantee", Str (js "Redis fan-out."))])]);
       (js "redis", Obj [(js "endpointEnvironment", Str (js "REDIS_TEST_ENDPOINT")); (js "defaultEndpoint", Str (js "127.0.0.1:16379"));
                         (js "composeFile", Str (js "examples/full-circle/compose.yaml")); (js "instancePrefix", Str (js "realtime:full-circle-tests"))]);
       (js "timeouts", Obj [(js "commandSeconds", Number (int 300)); (js "cleanupSeconds", Number (int 20))])].

(** A directory exists when it was made after it was last removed. *)
Definition made (d : fspath) (h : history) : bool :=
  foldl (fun b rx => match rx.1 with MkdirP p => if bool_decide (p = d) then true else b | RmRf p => if bool_decide (p = d) then false else b | _ => b end) false h.

(** Commands end with code 0 but those whose arguments include [broken]; files
    can be written to existing directories. *)
Definition sampleMachine (broken : list jstr) : oracle := fun h r =>
  match r with
  | ReadFile _ => Ok (Str [])
  | SpawnWith _ _ _ args => Ok (Obj [(js "code", Number (int (if existsb (fun a => memb a broken) args then 1 else 0)%Z))])
  | WriteFile p _ => if made (dirname p) h then Ok Undefined else Throw (errno (js "ENOENT"))
  | DateNow => Ok (Number (int 0))
  | _ => Ok Undefined
  end.

Definition sampleMain (action : string) (broken : list jstr) : history * result jsError Z :=
  run (sampleMachine broken)
    (main (fun _ => Ok samplePlan) (fun _ => []) (fun _ => []) [js "repo"] false [] [js "node"; js "full-circle.mjs"; js action; js "--profile"; js "ha"]).

Lemma exit_truthful_witness : (sampleMain "cleanup" []).2 = Ok 0%Z /\ anyFailed (sampleMain "cleanup" []).1 = false.
Proof.
  assert ((sampleMain "cleanup" []).2 = Ok 0%Z) as E by (vm_compute; reflexivity). split; [exact E|].
  pose proof (exit_truthful (fun _ => Ok samplePlan) (fun _ => []) (fun _ => []) [js "repo"] false []
    [js "node"; js "full-circle.mjs"; js "cleanup"; js "--profile"; js "ha"] (sampleMachine [])) as H.
  fold (sampleMain "cleanup" []) in H. destruct (sampleMain "cleanup" []) as [h r]. exact (proj1 (H E)).
Defined.

Example failed_build : (sampleMain "validate" [js "playwright"]).2 = Ok 1%Z.
Proof. vm_compute. reflexivity. Qed.

(** A cleanup whose last step fails is not recorded: the evidence directory was
    removed before, so writing the record of the failure fails too, and the
    process ends with that error instead of the one of the command. *)
Example cleanup_failure_unrecorded :
  (sampleMain "cleanup" [js "down"]).2 = Throw (errno (js "ENOENT")) /\
  forallb (fun rx => match rx with (WriteFile _ _, Ok _) => false | _ => true end) (sampleMain "cleanup" [js "down"]).1 = true.
Proof. vm_compute. done. Qed.

(** ** Planning *)

(** The requests of a run that changes nothing. *)
Definition readsOnly (r : request) : Prop := match r with ReadFile _ | Emit _ _ _ => True | _ => False end.

(** A plan or a dry run reads the plan and logs, and does nothing else. *)
Theorem plan_reads_only parseJSON jsonPretty sha512 repositoryRoot win32 processEnv argv o :
  argv !! 2 = Some (js "plan") \/ js "--dry-run" ∈ argv ->
  Forall readsOnly (requests (run o (main parseJSON jsonPretty sha512 repositoryRoot win32 processEnv argv)).1).
Proof.
  intros Hd. apply only_requests. unfold main.
  assert (forall a m, only readsOnly (stopWith a m)) as Hs by (intros; unfold stopWith, log; repeat only_step; done).
  assert (bool_decide (argv !! 2 = Some (js "plan")) || memb (js "--dry-run") argv = true) as Hb.
  { apply orb_true_iff. destruct Hd; [left; by apply bool_decide_eq_true|right; by apply memb_spec]. }
  destruct (argv !! 2) as [a|]; [|apply Hs]. rewrite (bool_decide_ext (Some a = Some (js "plan")) (a = js "plan")) in Hb by (split; congruence).
  cbv zeta. rewrite Hb. repeat first [match goal with |- only _ (stopWith _ _) => apply Hs end | done | progress unfold log | only_step].
Qed.
