(* ===== verification/RedisFixtures.v ===== *)
(** * The Redis fixture script

    sdk/typescript/scripts/redis-fixtures.mjs: connecting to the configured Redis
    servers (through a sentinel, as a cluster, or one by one), pinging them, and
    deleting the fixtures of a run.  The clients of the redis package are host
    objects: the script is a program over requests, client 0 being the sentinel or
    the cluster and the following ones the direct endpoints.  The URL parser and
    the environment of the process are parameters. *)

From stdpp Require Import base tactics option list numbers strings.
From Stdlib Require Import Lia.
From S2P Require Import Prelude JsString JsNumber JsValue Paths Effects BranchSync FullCircle.

(** The components of a URL that the script reads. *)
Record NodeUrl := {
  n_hostname : jstr; n_port : jstr; n_pathname : jstr; n_search : jstr; n_hash : jstr; n_username : jstr; n_password : jstr
}.

Section script.
Context (env : jstr -> option jstr) (newURL : jstr -> option NodeUrl).

Definition required (name : jstr) : result jstr jstr :=
  match env name with
  | Some v => if bool_decide (trim v = []) then Throw (name ++ js " is required.") else Ok v
  | None => Throw (name ++ js " is required.")
  end.

(** [process.env.NAME || undefined] *)
Definition optionalSetting (name : string) : value :=
  match env (js name) with Some v => if bool_decide (v = []) then Undefined else Str v | None => Undefined end.

Definition parseNode (v : jstr) : result jstr (jstr * Z) :=
  match newURL (js "redis://" ++ trim v) with
  | None => Throw (js "Invalid URL")
  | Some u =>
      _ ← ensure (negb ((negb (bool_decide (n_pathname u = [])) && negb (bool_decide (n_pathname u = js "/")))
                        || negb (bool_decide (n_search u = [])) || negb (bool_decide (n_hash u = []))
                        || negb (bool_decide (n_username u = [])) || negb (bool_decide (n_password u = []))))
            (js "Redis__Endpoint entries must contain only a host and port.");
      let port := if bool_decide (n_port u = []) then int 6379 else to_number (n_port u) in
      _ ← ensure (isSafeInteger port && negb (nlt port (int 1)) && negb (ngt port (int 65535))) (js "Redis endpoint port is invalid.");
      Ok (n_hostname u, default 0%Z (to_Z port))
  end.

(** [list.map(parseNode)] *)
Fixpoint parseNodes (vs : list jstr) : result jstr (list (jstr * Z)) :=
  match vs with
  | [] => Ok []
  | v :: vs' => n ← parseNode v; ns ← parseNodes vs'; Ok (n :: ns)
  end.

Definition tls : bool := match env (js "Redis__Ssl") with Some v => bool_decide (toLowerCase v = js "true") | None => false end.

Definition nodeValue (n : jstr * Z) : list (jstr * value) := [(js "host", Str n.1); (js "port", Number (int n.2))].
Definition commonSocket : list (jstr * value) :=
  [(js "tls", Boolean tls); (js "connectTimeout", Number (int 5000)); (js "reconnectStrategy", Boolean false)].
Definition credentials : list (jstr * value) :=
  [(js "username", optionalSetting "Redis__User"); (js "password", optionalSetting "Redis__Password")].

Definition sentinelOptions (name : jstr) (nodes : list (jstr * Z)) : value :=
  Obj [(js "name", Str name); (js "sentinelRootNodes", Arr ((fun n => Obj (nodeValue n)) <$> nodes));
       (js "nodeClientOptions", Obj (credentials ++ [(js "socket", Obj [(js "tls", Boolean tls)])]));
       (js "sentinelClientOptions", Obj [(js "password", optionalSetting "Redis__SentinelPassword"); (js "socket", Obj [(js "tls", Boolean tls)])])].

Definition endpointOptions (n : jstr * Z) : value := Obj (credentials ++ [(js "socket", Obj (nodeValue n ++ commonSocket))]).

Definition clusterOptions (nodes : list (jstr * Z)) : value :=
  Obj [(js "rootNodes", Arr (endpointOptions <$> nodes)); (js "defaults", Obj (credentials ++ [(js "socket", Obj commonSocket)]))].

(** ** Clients *)

Definition clientId (c : nat) : value := Number (int (Z.of_nat c)).

(** Creates a client of a kind with its options and connects it. *)
Definition connectClient (c : nat) (kind : string) (options : value) : request := Host (js "connect") [clientId c; Str (js kind); options].
Definition isOpen (c : nat) : request := Host (js "isOpen") [clientId c].
Definition destroyClient (c : nat) : request := Host (js "destroy") [clientId c].
Definition pingClient (c : nat) : request := Host (js "ping") [clientId c].

(** The direct endpoints that can be reached, tried one after the other. *)
Fixpoint connectEndpoints (c : nat) (nodes : list (jstr * Z)) : prog (list nat) :=
  match nodes with
  | [] => Ret []
  | n :: nodes' =>
      reached ← catch (_ ← call (connectClient c "client" (endpointOptions n)); Ret true) (fun _ => Ret false);
      rest ← connectEndpoints (S c) nodes';
      Ret (if reached : bool then c :: rest else rest)
  end.

(** The cluster client; one that failed half-way is destroyed. *)
Definition connectCluster (nodes : list (jstr * Z)) : prog bool :=
  catch (_ ← call (connectClient 0 "cluster" (clusterOptions nodes)); Ret true)
        (fun _ => o ← call (isOpen 0); _ ← whenever (truthy o) (call (destroyClient 0)); Ret false).

Definition connectClients (nodes : list (jstr * Z)) : prog (list nat) :=
  match env (js "Redis__SentinelServiceName") with
  | Some (c :: name) =>
      _ ← call (connectClient 0 "sentinel" (sentinelOptions (c :: name) nodes));
      Ret [0%nat]
  | _ =>
      cluster ← connectCluster nodes;
      clients ← (if cluster : bool then Ret [0%nat] else connectEndpoints 1 nodes);
      _ ← refuse (bool_decide (clients = [])) (js "No configured Redis endpoint was reachable.");
      Ret clients
  end.

(** ** Actions *)

(** [Promise.allSettled] of the pings: whether one of them returned PONG. *)
Fixpoint pingAll (clients : list nat) : prog bool :=
  match clients with
  | [] => Ret false
  | c :: clients' =>
      pong ← catch (v ← call (pingClient c); Ret (is_str (js "PONG") v)) (fun _ => Ret false);
      others ← pingAll clients';
      Ret (pong || others)
  end.

Definition pingAction (clients : list nat) : prog unit :=
  pong ← pingAll clients;
  refuse (negb pong) (js "Redis ping did not return PONG.").

(** The batches of each client are bounded by the fuel, as in [scanClient]. *)
Definition cleanupAction (fuel : nat) (clients : list nat) : prog unit :=
  pattern ← throwing (required (js "FULL_CIRCLE_PATTERN"));
  each (fun c => scanClient fuel c pattern (js "0")) clients.

Definition redisFixtures (fuel : nat) (action : option jstr) : prog unit :=
  match action with
  | Some a =>
      _ ← refuse (negb (bool_decide (a = js "ping")) && negb (bool_decide (a = js "cleanup"))) (js "Redis fixture action must be ping or cleanup.");
      endpoints ← throwing (required (js "Redis__Endpoint"));
      nodes ← throwing (parseNodes (split_on 44 endpoints));
      clients ← connectClients nodes;
      finally (if bool_decide (a = js "ping") then pingAction clients else cleanupAction fuel clients)
        (sendAll (RedisClose <$> clients) None)
  | None => fail (js "Redis fixture action must be ping or cleanup.")
  end.
End script.

(** ** What holds of every run *)

(** The clients connected and closed in a history. *)
Definition connects (r : request) : Prop := match r with Host op _ => op = js "connect" | _ => False end.
Definition connected (h : history) (c : nat) : Prop := exists kind options v, (connectClient c kind options, Ok v) ∈ h.
Definition closed (h : history) (c : nat) : Prop := RedisClose c ∈ requests h.

Lemma connected_nil c : ~ connected [] c.
Proof. intros (k & o & v & H). by apply elem_of_nil in H. Qed.

Lemma connected_app h t c : connected (h ++ t) c <-> connected h c \/ connected t c.
Proof. unfold connected. setoid_rewrite elem_of_app. firstorder. Qed.

Lemma connected_one c kind options x d : connected [(connectClient c kind options, x)] d <-> d = c /\ is_ok x = true.
Proof.
  unfold connected. setoid_rewrite list_elem_of_singleton. split.
  - intros (k & o & v & E). injection E as E1 E2 E3 <-. split; [lia|done].
  - intros [-> Hx]. destruct x as [v|e]; [|done]. by exists kind, options, v.
Qed.

Lemma not_connected t c : Forall (fun r => ~ connects r) (requests t) -> ~ connected t c.
Proof. intros H (kind & options & v & Hin). unfold requests in H. rewrite Forall_fmap, Forall_forall in H. by apply (H _ Hin). Qed.

(** A program that makes no connection. *)
Lemma adds_silent {A} (p : prog A) : only (fun r => ~ connects r) p -> adds p (fun t _ => forall d, ~ connected t d).
Proof. intros H. eapply adds_weaken; [by apply adds_only|]. intros t r Ht d. by apply not_connected. Qed.

Lemma sendAll_requests rs first : adds (sendAll rs first) (fun t _ => requests t = rs).
Proof.
  revert first. induction rs as [|r rs IH]; intros first; cbn [sendAll].
  - destruct first; [by apply adds_raise|by apply adds_ret].
  - apply adds_bind, adds_catch, adds_bind, adds_call.
    intros [v|e]; apply adds_ret; (eapply adds_weaken; [apply IH|]; intros t y Ht; cbn; by rewrite <- Ht).
Qed.

Section runs.
Context (env : jstr -> option jstr).

(** Exactly the clients returned are connected. *)
Lemma connectEndpoints_adds c nodes :
  adds (connectEndpoints env c nodes) (fun t r => exists cs, r = Ok cs /\ forall d, connected t d <-> d ∈ cs).
Proof.
  revert c. induction nodes as [|n nodes IH]; intros c; cbn [connectEndpoints].
  - apply adds_ret. exists []. split; [done|]. intros d. rewrite elem_of_nil. split; [apply connected_nil|done].
  - apply adds_bind, adds_catch, adds_bind, adds_call.
    intros [v|e]; apply adds_ret; (apply adds_bind; eapply adds_weaken; [apply IH|]; intros t r (cs & -> & Ht); apply adds_ret; eexists; split; [done|]);
      intros d; rewrite app_nil_r, !connected_app, connected_one, Ht; pose proof (connected_nil d); rewrite ?elem_of_cons; cbn; naive_solver.
Qed.

Lemma connectCluster_adds nodes :
  adds (connectCluster env nodes) (fun t r => forall d, connected t d <-> r = Ok true /\ d = 0%nat).
Proof.
  apply adds_catch, adds_bind, adds_call. intros [v|e].
  - apply adds_ret. intros d. rewrite app_nil_r, connected_one. naive_solver.
  - eapply adds_weaken; [apply adds_and; [apply adds_silent|apply (returns_adds (fun b => b = false))]|].
    + repeat only_step; cbn; by intros ?%js_inj.
    + cbn. intros x. by destruct x as [o|?]; cbn; [destruct (truthy o); cbn; [intros []|]|].
    + intros t r [Ht Hr] d. rewrite connected_app, connected_one. specialize (Ht d). destruct r as [b|]; naive_solver.
Qed.

Lemma connectClients_adds nodes :
  adds (connectClients env nodes) (fun t r => forall d, connected t d <-> exists cs, r = Ok cs /\ d ∈ cs).
Proof.
  unfold connectClients.
  assert (forall p, p = (cluster ← connectCluster env nodes; clients ← (if cluster : bool then Ret [0%nat] else connectEndpoints env 1 nodes);
      _ ← refuse (bool_decide (clients = [])) (js "No configured Redis endpoint was reachable."); Ret clients) ->
      adds p (fun t r => forall d, connected t d <-> exists cs, r = Ok cs /\ d ∈ cs)) as Hc.
  { intros ? ->. apply adds_bind. eapply adds_weaken; [apply connectCluster_adds|]. intros t [cluster|e] Ht.
    2:{ intros d. rewrite Ht. naive_solver. }
    apply adds_bind. apply (adds_weaken _ (fun t' r => exists cs, r = Ok cs /\ forall d, connected (t ++ t') d <-> d ∈ cs)).
    - destruct cluster.
      + apply adds_ret. eexists. split; [done|]. intros d. rewrite app_nil_r, Ht, list_elem_of_singleton. naive_solver.
      + eapply adds_weaken; [apply connectEndpoints_adds|]. intros t' r (cs & -> & H). exists cs. split; [done|].
        intros d. rewrite connected_app, Ht, H. naive_solver.
    - intros t' r (cs & -> & H). apply adds_bind. unfold refuse. case_bool_decide as E.
      + apply adds_raise. intros d. rewrite !app_nil_r, H, E, elem_of_nil. naive_solver.
      + do 2 apply adds_ret. intros d. rewrite !app_nil_r, H. naive_solver. }
  destruct (env (js "Redis__SentinelServiceName")) as [[|c name]|]; [by apply Hc| |by apply Hc].
  apply adds_bind, adds_call. intros [v|e].
  - apply adds_ret. intros d. rewrite app_nil_r, connected_one. split.
    + intros [-> _]. eexists. split; [done|]. by left.
    + intros (cs & E & H). injection E as <-. apply list_elem_of_singleton in H. done.
  - intros d. rewrite connected_one. naive_solver.
Qed.

(** ** Pings and scans *)

Lemma pingAll_adds clients :
  adds (pingAll clients) (fun t r => exists b, r = Ok b /\ (b = true -> exists c, c ∈ clients /\ (pingClient c, Ok (Str (js "PONG"))) ∈ t)).
Proof.
  induction clients as [|c clients IH]; cbn [pingAll]; [apply adds_ret; by exists false|].
  apply adds_bind, adds_catch, adds_bind, adds_call.
  assert (forall t0 (pong : bool), (pong = true -> (pingClient c, Ok (Str (js "PONG"))) ∈ t0) ->
    adds (others ← pingAll clients; Ret (pong || others))
      (fun t r => exists b, r = Ok b /\ (b = true -> exists c', c' ∈ c :: clients /\ (pingClient c', Ok (Str (js "PONG"))) ∈ t0 ++ t))) as H.
  { intros t0 pong Hp. apply adds_bind. eapply adds_weaken; [apply IH|]. intros t r (b & -> & Hb). apply adds_ret.
    exists (pong || b). split; [done|]. rewrite app_nil_r. intros [->| ->]%orb_true_iff.
    - exists c. split; [left|]. apply elem_of_app. left. by apply Hp.
    - destruct (Hb eq_refl) as (c' & Hc & Ht). exists c'. split; [by right|]. apply elem_of_app. by right. }
  intros [v|e]; apply adds_ret.
  - apply H. intros ->%is_str_spec. rewrite app_nil_r. by left.
  - by apply H.
Qed.

(** A scan that returns has read the last batch of the client. *)
Definition scannedAll (pattern : jstr) (h : history) (c : nat) : Prop :=
  exists cursor batch, (RedisScan c cursor pattern, Ok batch) ∈ h /\ get (js "cursor") batch = Str (js "0").

Lemma scannedAll_mono pattern h t c : scannedAll pattern h c -> scannedAll pattern (h ++ t) c.
Proof. intros (cu & b & H & E). exists cu, b. split; [apply elem_of_app; by left|done]. Qed.

Lemma scannedAll_later pattern h t c : scannedAll pattern t c -> scannedAll pattern (h ++ t) c.
Proof. intros (cu & b & H & E). exists cu, b. split; [apply elem_of_app; by right|done]. Qed.

Lemma scanClient_adds fuel pattern c cursor : adds (scanClient fuel c pattern cursor) (fun t r => is_ok r = true -> scannedAll pattern t c).
Proof.
  revert cursor. induction fuel as [|n IH]; intros cursor; cbn [scanClient]; [by apply adds_raise|].
  apply adds_bind, adds_call. intros [batch|e]; [|done].
  apply adds_bind. unfold field_of. destruct (isNullish batch); [by apply adds_raise|]. apply adds_ret.
  apply adds_bind. destruct (elements _) as [keys|e]; [|by apply adds_raise]. apply adds_ret.
  apply adds_bind. eapply adds_weaken; [apply sendAll_requests|]. intros t [u|e] _; [|done].
  destruct (is_str (js "0") (get (js "cursor") batch)) eqn:E.
  - apply adds_ret. intros _. rewrite !app_nil_r. apply is_str_spec in E. exists cursor, batch. split; [by left|done].
  - eapply adds_weaken; [apply IH|]. intros t' r H Hr. cbn. apply (scannedAll_later _ [_]), scannedAll_later. auto.
Qed.

Lemma each_adds {A} (f : A -> prog unit) (P : A -> history -> Prop) l :
  (forall x h t, P x h -> P x (h ++ t)) -> (forall x h t, P x t -> P x (h ++ t)) ->
  (forall x, adds (f x) (fun t r => is_ok r = true -> P x t)) ->
  adds (each f l) (fun t r => is_ok r = true -> forall x, x ∈ l -> P x t).
Proof.
  intros M1 M2 Hf. induction l as [|x l IH]; cbn [each]; [apply adds_ret; intros _ x Hx; by apply elem_of_nil in Hx|].
  apply adds_bind. eapply adds_weaken; [apply Hf|]. intros t [u|e] H; [|done].
  eapply adds_weaken; [apply IH|]. intros t' r H' Hr y [->|Hy]%elem_of_cons; [by apply M1, H|by apply M2, H'].
Qed.

(** Requests of the actions. *)
Definition deletes (r : request) : Prop := match r with RedisUnlink _ _ => True | _ => False end.

Lemma sendAll_only P rs first : (forall r, r ∈ rs -> P r) -> only P (sendAll rs first).
Proof.
  revert first. induction rs as [|r rs IH]; intros first H; cbn [sendAll]; [by destruct first|].
  apply only_bind; [|intros; apply IH; intros; apply H; by right]. apply only_catch; [|done]. apply only_bind; [apply only_call, H; left|done].
Qed.

Lemma pingAll_only P clients : (forall c, P (pingClient c)) -> only P (pingAll clients).
Proof. intros H. induction clients as [|c clients IH]; cbn [pingAll]; [done|]. repeat only_step; auto. Qed.

Lemma scanClient_only P fuel c pattern cursor :
  (forall cu, P (RedisScan c cu pattern)) -> (forall k, P (RedisUnlink c k)) -> only P (scanClient fuel c pattern cursor).
Proof.
  intros H1 H2. revert cursor. induction fuel as [|n IH]; intros cursor; cbn [scanClient]; [done|].
  repeat only_step; [done|]. apply sendAll_only. by intros r (k & -> & _)%list_elem_of_fmap.
Qed.

Lemma pingAction_only P clients : (forall c, P (pingClient c)) -> only P (pingAction clients).
Proof. intros H. unfold pingAction. apply only_bind; [by apply pingAll_only|]. intros. apply only_refuse. Qed.

Lemma cleanupAction_only P fuel clients :
  (forall c cu p, P (RedisScan c cu p)) -> (forall c k, P (RedisUnlink c k)) -> only P (cleanupAction env fuel clients).
Proof. intros H1 H2. unfold cleanupAction. repeat only_step. by apply scanClient_only. Qed.

Lemma connectClients_only nodes : only (fun r => ~ deletes r) (connectClients env nodes).
Proof.
  assert (forall c, only (fun r => ~ deletes r) (connectEndpoints env c nodes)) as He.
  { induction nodes as [|n ns IH]; intros c; cbn [connectEndpoints]; [done|]. repeat only_step; by intros []. }
  unfold connectClients, connectCluster. repeat only_step; by intros [].
Qed.

(** The outcome an action promises. *)
Definition done_ (a : jstr) (clients : list nat) (t : history) : Prop :=
  if bool_decide (a = js "ping") then exists c, c ∈ clients /\ (pingClient c, Ok (Str (js "PONG"))) ∈ t
  else exists pattern, env (js "FULL_CIRCLE_PATTERN") = Some pattern /\ forall c, c ∈ clients -> scannedAll pattern t c.

Lemma action_adds fuel a clients :
  adds (if bool_decide (a = js "ping") then pingAction clients else cleanupAction env fuel clients)
    (fun t r => (is_ok r = true -> done_ a clients t) /\ (forall d, ~ connected t d) /\ (bool_decide (a = js "ping") = true -> Forall (fun r => ~ deletes r) (requests t))).
Proof.
  apply adds_and; [|apply adds_and].
  - unfold done_. destruct (bool_decide (a = js "ping")).
    + unfold pingAction. apply adds_bind. eapply adds_weaken; [apply pingAll_adds|]. intros t r (b & -> & Hb). unfold refuse.
      destruct b; [apply adds_ret; intros _; rewrite app_nil_r; by apply Hb|by apply adds_raise].
    + unfold cleanupAction. apply adds_bind. unfold required. destruct (env (js "FULL_CIRCLE_PATTERN")) as [p|]; [|by apply adds_raise].
      destruct (bool_decide (trim p = [])); [by apply adds_raise|]. apply adds_ret. cbn [app].
      eapply adds_weaken; [apply (each_adds _ (fun c h => scannedAll p h c)); [intros; by apply scannedAll_mono|intros; by apply scannedAll_later|intros; apply scanClient_adds]|].
      intros t r Ht Hr. exists p. split; [done|]. by apply Ht.
  - apply adds_silent. destruct (bool_decide _); [apply pingAction_only; intros c; cbn; by intros ?%js_inj|]. apply cleanupAction_only; intros; by intros [].
  - destruct (bool_decide _); [|intros h; eapply ok_weaken; [apply (returns_adds (fun _ => True) _ (returns_any _))|]; intros h' r (t & -> & _); by exists t].
    eapply adds_weaken; [apply (adds_only (fun r => ~ deletes r)), pingAction_only; by intros c []|]. auto.
Qed.
End runs.

(** The whole script, for the clients it connected. *)
Lemma fixtures_adds env newURL fuel action :
  adds (redisFixtures env newURL fuel action) (fun t r => exists clients, (forall d, connected t d <-> d ∈ clients)
    /\ (forall c, c ∈ clients -> closed t c)
    /\ (action = Some (js "ping") -> Forall (fun r => ~ deletes r) (requests t))
    /\ (forall a, action = Some a -> r = Ok tt -> done_ env a clients t)).
Proof.
  assert (forall (r : result jsError unit) t, (forall d, ~ connected t d) -> Forall (fun r => ~ deletes r) (requests t) -> is_ok r = false ->
    exists clients, (forall d, connected t d <-> d ∈ clients) /\ (forall c, c ∈ clients -> closed t c)
    /\ (action = Some (js "ping") -> Forall (fun r => ~ deletes r) (requests t)) /\ (forall a, action = Some a -> r = Ok tt -> done_ env a clients t)) as Hnone.
  { intros r t Ht Hf Hr. exists []. split; [intros d; rewrite elem_of_nil; naive_solver|]. split; [by intros c ?%elem_of_nil|]. split; [done|]. intros a _ ->. done. }
  assert (forall d, ~ connected [] d) as Hn0 by apply connected_nil.
  unfold redisFixtures. destruct action as [a|]; [|by apply adds_raise, Hnone].
  apply adds_bind. unfold refuse. destruct (negb (bool_decide (a = js "ping")) && _); [by apply adds_raise, Hnone|]. apply adds_ret.
  apply adds_bind. destruct (required env (js "Redis__Endpoint")) as [endpoints|e]; [|by apply adds_raise, Hnone]. apply adds_ret.
  apply adds_bind. destruct (parseNodes newURL _) as [nodes|e]; [|by apply adds_raise, Hnone]. apply adds_ret. cbn [app].
  apply adds_bind. eapply adds_weaken; [apply adds_and; [apply connectClients_adds|apply (adds_only (fun r => ~ deletes r)), connectClients_only]|].
  intros t1 r1 [H1 Hf1]. destruct r1 as [clients|e]; cycle 1.
  { apply Hnone; [|done|done]. intros d (cs & E & _)%H1. done. }
  assert (forall d, connected t1 d <-> d ∈ clients) as H1' by (intros d; rewrite H1; naive_solver).
  apply adds_finally. eapply adds_weaken; [apply action_adds|]. intros t2 r2 (Hd & Hs & Hp).
  eapply adds_weaken; [apply adds_and; [apply sendAll_requests|apply adds_silent, sendAll_only; intros r (c & -> & _)%list_elem_of_fmap []]|].
  intros t3 r3 [H3 Hs3]. exists clients. split; [intros d; rewrite !connected_app, H1'; naive_solver|]. split.
  { intros c Hc. unfold closed, requests. rewrite !fmap_app, !elem_of_app. right. right. change (fst <$> t3) with (requests t3). rewrite H3. by apply list_elem_of_fmap_2. }
  split.
  { intros [= ->]. unfold requests. rewrite !fmap_app, !Forall_app. split; [done|]. split; [by apply Hp|]. change (fst <$> t3) with (requests t3).
    rewrite H3. apply Forall_forall. intros r (c & -> & _)%list_elem_of_fmap []. }
  intros a' [= <-] Hr. assert (done_ env a clients t2) as Hdone by (apply Hd; by destruct r3; subst).
  unfold done_ in *. destruct (bool_decide (a = js "ping")).
  - destruct Hdone as (c & Hc & Hin). exists c. split; [done|]. rewrite !elem_of_app. auto.
  - destruct Hdone as (p & Ep & Hsc). exists p. split; [done|]. intros c Hc. apply scannedAll_later, scannedAll_mono. auto.
Qed.

(** C22: The fixture script, against any servers.  Every client it connected is
    closed at the end, whether the action succeeded, failed or threw.  A ping
    succeeds only when a connected server answered PONG, and never deletes; a
    cleanup succeeds only when every connected server was scanned with the
    configured pattern up to the end of its scan. *)
Theorem fixtures_complete env newURL fuel action o :
  let '(h, r) := run o (redisFixtures env newURL fuel action) in
  (forall c, connected h c -> closed h c)
  /\ (action = Some (js "ping") -> Forall (fun r => ~ deletes r) (requests h))
  /\ (r = Ok tt -> action = Some (js "ping") -> exists c, connected h c /\ (pingClient c, Ok (Str (js "PONG"))) ∈ h)
  /\ (r = Ok tt -> action = Some (js "cleanup") -> exists pattern, env (js "FULL_CIRCLE_PATTERN") = Some pattern
        /\ forall c, connected h c -> scannedAll pattern h c).
Proof.
  pose proof (adds_run o _ _ (fixtures_adds env newURL fuel action)) as H. destruct (run o _) as [h r]. cbn [fst snd] in H.
  destruct H as (clients & Hc & Hcl & Hd & Hdone).
  split; [intros c H%Hc; by apply Hcl|]. split; [done|]. split.
  - intros -> ->. destruct (Hdone (js "ping") eq_refl eq_refl) as (c & Hin & Hp). exists c. split; [by apply Hc|done].
  - intros -> ->. destruct (Hdone (js "cleanup") eq_refl eq_refl) as (p & Ep & Hs). exists p. split; [done|]. intros c H%Hc. by apply Hs.
Qed.

(** ** A concrete run *)

(** One endpoint that is not a cluster, with one fixture. *)
Fixpoint assoc_text (name : jstr) (l : list (string * string)) : option jstr :=
  match l with [] => None | (k, v) :: l' => if decide (js k = name) then Some (js v) else assoc_text name l' end.

Definition sampleSettings (name : jstr) : option jstr :=
  assoc_text name [("Redis__Endpoint", "cache:6380"); ("FULL_CIRCLE_PATTERN", "run:*")]%string.
Definition sampleNodeUrl (s : jstr) : option NodeUrl :=
  if bool_decide (s = js "redis://cache:6380") then
    Some {| n_hostname := js "cache"; n_port := js "6380"; n_pathname := []; n_search := []; n_hash := []; n_username := []; n_password := [] |}
  else None.
Definition sampleRedis : oracle := fun _ r =>
  match r with
  | Host op (_ :: Str kind :: _) => if bool_decide (kind = js "cluster") then Throw (newError (js "ERR")) else Ok Undefined
  | Host _ _ => Ok (Boolean false)
  | RedisScan _ _ _ => Ok (Obj [(js "cursor", Str (js "0")); (js "keys", Arr [Str (js "run:1")])])
  | _ => Ok Undefined
  end.

Example fixtures_sample :
  (run sampleRedis (redisFixtures sampleSettings sampleNodeUrl 1 (Some (js "cleanup")))).2 = Ok tt
  /\ List.filter (fun r => match r with Host _ _ => false | _ => true end) (requests (run sampleRedis (redisFixtures sampleSettings sampleNodeUrl 1 (Some (js "cleanup")))).1)
     = [RedisScan 1 (js "0") (js "run:*"); RedisUnlink 1 (js "run:1"); RedisClose 1].
Proof. split; vm_compute; reflexivity. Qed.
