(* ===== verification/SmallTools.v ===== *)
(** * Small scripts

    scripts/setup-ci-npm.mjs, scripts/prepare-managed-redis-chart.mjs and
    scripts/run-with-example-env.mjs, as programs over requests that end with the
    exit code of the process. *)

From stdpp Require Import base tactics option list numbers strings.
From Stdlib Require Import Lia.
From S2P Require Import Prelude JsString JsNumber JsValue Regex ContractPatterns Contract ContractPlan Canonical.
From S2P Require Import Paths Effects Chart KubeTools BranchSync CiAutofix.
#[local] Open Scope nat_scope.

Definition print (stream : string) (text : jstr) : prog unit := _ ← call (Emit (js stream) [] text); Ret tt.

(** ** A pinned npm *)

(** [/^\d+\.\d+\.\d+$/] *)
Definition exactVersion : re := cats [plus (Cls false [digit_r]); lit (js "."); plus (Cls false [digit_r]); lit (js "."); plus (Cls false [digit_r])].

Section npm.
Context (win32 : bool) (processEnv : list (jstr * value)).

(** [npm]: on Windows the command is a line for the shell.  A failed npm ends the
    process with its code. *)
Definition npm (args : list jstr) (k : jstr -> prog Z) : prog Z :=
  child ← call (if win32 then Spawn (js "npm " ++ join (js " ") args) [] else Spawn (js "npm") args);
  if strict_eq (get (js "status") child) (Number (int 0)) then k (trim (str_of (get (js "stdout") child)))
  else
    _ ← print "stderr" (interpolate (nullish (get (js "stderr") child) (Str (js "npm failed" ++ newline))));
    Ret (default 1%Z (to_Z (num_of (get (js "status") child)))).

Definition setupNpm : prog Z :=
  match envVar processEnv "NPM_VERSION" with
  | Str version =>
      if negb (test exactVersion version) then fail (js "NPM_VERSION must be an exact release version.")
      else
        let confirm :=
          npm [js "--version"] (fun found =>
            if negb (bool_decide (found = version)) then fail (js "npm " ++ version ++ js " was not installed.")
            else _ ← print "stdout" (js "Using npm " ++ version); Ret 0%Z) in
        npm [js "--version"] (fun found =>
          if negb (bool_decide (found = version)) then
            npm [js "install"; js "--global"; js "npm@" ++ version] (fun text => _ ← print "stdout" text; confirm)
          else confirm)
  | _ => fail (js "NPM_VERSION must be an exact release version.")
  end.
End npm.

(** ** The managed Redis chart *)

Definition chartFlags : list jstr := js <$> ["--chart"; "--version"; "--archive-sha256"; "--output"; "--helm"]%string.

(** [parse]: the loop over the arguments; [None] is a request for help. *)
Fixpoint parseChartFlags (o : list (jstr * value)) (args : list jstr) : result jstr (option (list (jstr * value))) :=
  match args with
  | [] => Ok (Some o)
  | a :: rest =>
      if bool_decide (a = js "--help") then Ok None
      else if negb (memb a chartFlags) then Throw (js "Unknown argument '" ++ a ++ js "'.")
      else match rest with
           | v :: rest' =>
               if bool_decide (v = []) || startsWith (js "--") v then Throw (a ++ js " requires a value.")
               else parseChartFlags (set_prop (camelCase (drop 2 a)) (Str v) o) rest'
           | [] => Throw (a ++ js " requires a value.")
           end
  end.

Definition parseChartArguments (args : list jstr) : result jstr (option (list (jstr * value))) :=
  parsed ← parseChartFlags [(js "helm", Str (js "helm"))] args;
  match parsed with
  | None => Ok None
  | Some o => _ ← requireOptions o (js ".") (js <$> ["chart"; "version"; "archiveSha256"; "output"]%string); Ok (Some o)
  end.

Section chart.
Context (parseJSON : jstr -> result jsError value) (jsonText : value -> jstr) (sha256 : jstr -> jstr) (cwd : fspath) (help : jstr).

Definition preparedValue (p : preparedChart) : value :=
  Obj [(js "chartDirectory", Str (show_path (chartDirectory p))); (js "servicePath", Str (show_path (servicePath p)));
       (js "archiveSha256", Str (preparedSha256 p))].

Definition prepareChart (args : list jstr) : prog Z :=
  catch
    (options ← throwing (parseChartArguments args);
     match options with
     | None => _ ← print "stdout" help; Ret 0%Z
     | Some o =>
         prepared ← prepareManagedRedisChart parseJSON jsonText sha256 (opt_text "chart" o) (opt_text "version" o) (opt_text "archiveSha256" o) None
                      (resolve cwd (opt_text "output" o)) (opt_text "helm" o) (int 300);
         _ ← print "stdout" (jsonText (preparedValue prepared) ++ newline);
         Ret 0%Z
     end)
    (fun e => _ ← print "stderr" (emessage e ++ newline); Ret 2%Z).
End chart.

(** ** A command with the variables of a file *)

Definition environmentEntry (file line : jstr) : result jsError (jstr * value) :=
  match indexOf (js "=") line with
  | Some (S i) => Ok (take (S i) line, Str (drop (S (S i)) line))
  | _ => Throw (newError (js "Invalid environment entry in " ++ file ++ js "."))
  end.

Fixpoint environmentEntries (file : jstr) (lines : list jstr) : result jsError (list (jstr * value)) :=
  match lines with
  | [] => Ok []
  | l :: rest => e ← environmentEntry file l; es ← environmentEntries file rest; Ok (e :: es)
  end.

(** The lines that are not blank and not comments. *)
Definition environmentLines (text : jstr) : list jstr :=
  filter (fun l => l <> [] /\ startsWith (js "#") l = false) (trim <$> splitLines text).

Definition readEnvironment (file text : jstr) : result jsError (list (jstr * value)) := environmentEntries file (environmentLines text).

(** [{ ...fixture, ...process.env }] *)
Definition childEnvironment (fixture : list (jstr * value)) (processEnv : list (jstr * value)) : list (jstr * value) :=
  foldl (fun e kv => set_prop kv.1 kv.2 e) (props_of (from_entries fixture)) processEnv.

Definition runWithEnvironment (processEnv : list (jstr * value)) (cwd : fspath) (argv : list jstr) : prog Z :=
  match drop 2 argv with
  | ((_ :: _) as envFile) :: ((_ :: _) as command) :: args =>
      text ← call (ReadFile (resolve cwd envFile));
      fixture ← lift (readEnvironment envFile (str_of text));
      catch
        (child ← call (SpawnWith (show_path cwd) (childEnvironment fixture processEnv) command args);
         Ret (if truthy (get (js "signal") child) then 1%Z else default 1%Z (to_Z (num_of (get (js "code") child)))))
        (fun e => _ ← print "stderr" (emessage e); Ret 1%Z)
  | _ => _ ← print "stderr" (js "Usage: node scripts/run-with-example-env.mjs <env-file> <command> [args...]"); Ret 2%Z
  end.

(** ** npm runs only safe lines *)

(** The units of a command line that no shell interprets. *)
Definition lineUnit (c : N) : bool := is_digit c || (97 <=? c)%N && (c <=? 122)%N || memb c (js " -.@").
Definition safeLine (s : jstr) : Prop := Forall (fun c => lineUnit c = true) s.

Lemma exactVersion_units version : test exactVersion version = true -> safeLine version.
Proof.
  intros H%test_spec. assert (forall s, lang (plus (Cls false [digit_r])) s -> safeLine s) as Hd.
  { intros s [_ Hs]%lang_plus_cls. eapply Forall_impl; [exact Hs|]. intros c Hc. unfold lineUnit. cbn in Hc. rewrite orb_false_r in Hc.
    unfold is_digit. by rewrite Hc. }
  assert (forall s, lang (lit (js ".")) s -> safeLine s) as Hl by (intros s ->%lang_lit; repeat constructor).
  destruct H as (u1 & v1 & -> & H1 & u2 & v2 & -> & H2 & u3 & v3 & -> & H3 & u4 & v4 & -> & H4 & u5 & v5 & -> & H5 & ->).
  repeat (apply Forall_app; split); first [by apply Hd | by apply Hl | constructor].
Qed.

Definition safeSpawn (r : request) : Prop := match r with Spawn file args => safeLine file /\ Forall safeLine args | Emit _ _ _ => True | _ => False end.

Lemma npm_safe win32 args k : Forall safeLine args -> (forall s, only safeSpawn (k s)) -> only safeSpawn (npm win32 args k).
Proof.
  intros Ha Hk. assert (safeLine (js " ")) as Hsp by (repeat constructor). assert (safeLine (js "npm")) as Hn by (repeat constructor).
  unfold npm, print. apply only_bind.
  - destruct win32; apply only_call; (split; [|done || constructor]); [|done].
    change (js "npm ") with (js "npm" ++ js " "). rewrite <- app_assoc. repeat (apply Forall_app; split; [done|]).
    induction Ha as [|s [|t l] Hs Hl IH]; [constructor|done|]. rewrite join_cons2. by repeat (apply Forall_app; split).
  - intros child. destruct (strict_eq _ _); [apply Hk|]. repeat only_step; done.
Qed.

(** Every command the npm setup runs consists of units that no shell
    interprets, whatever NPM_VERSION holds, so the command line handed to the
    Windows shell runs npm only. *)
Theorem npm_lines_safe win32 processEnv o : Forall safeSpawn (requests (run o (setupNpm win32 processEnv)).1).
Proof.
  apply only_requests. unfold setupNpm. destruct (envVar _ _) as [| | | |version| | |]; try apply only_raise.
  destruct (test exactVersion version) eqn:Hv; [|apply only_raise]. apply exactVersion_units in Hv. cbn [negb]. cbv zeta.
  assert (Forall safeLine [js "--version"]) as H1 by (repeat constructor).
  assert (Forall safeLine [js "install"; js "--global"; js "npm@" ++ version]) as H2.
  { do 2 (constructor; [by repeat constructor|]). constructor; [|constructor]. apply Forall_app. split; [by repeat constructor|done]. }
  assert (only safeSpawn (npm win32 [js "--version"] (fun found =>
    if negb (bool_decide (found = version)) then fail (js "npm " ++ version ++ js " was not installed.")
    else _ ← print "stdout" (js "Using npm " ++ version); Ret 0%Z))) as Hc.
  { apply npm_safe; [done|]. intros s. unfold print. repeat only_step; done. }
  apply npm_safe; [done|]. intros s. destruct (negb _); [|done]. apply npm_safe; [done|]. intros t. unfold print.
  apply only_bind; [repeat only_step; done|]. by intros [].
Qed.

(** ** Environment files *)

(** An entry as an example file writes it: a name without separator that starts
    no comment, and a value that does not end in white space. *)
Definition printable (e : jstr * jstr) : Prop :=
  e.1 <> [] /\ (61%N ∉ e.1) /\ (forall c, head e.1 = Some c -> is_space c = false /\ c <> 35%N) /\
  (forall c, last e.2 = Some c -> is_space c = false) /\ Forall (fun c => c <> 10%N /\ c <> 13%N) (e.1 ++ e.2).

Definition printEntry (e : jstr * jstr) : jstr := e.1 ++ [61%N] ++ e.2.
Definition printEnvironment (l : list (jstr * jstr)) : jstr := join newline (printEntry <$> l).

Lemma trimStart_id s : (forall c, head s = Some c -> is_space c = false) -> trimStart s = s.
Proof. destruct s as [|c s]; [done|]. intros H. cbn. by rewrite (H c). Qed.

Lemma trim_id s : (forall c, head s = Some c -> is_space c = false) -> (forall c, last s = Some c -> is_space c = false) -> trim s = s.
Proof.
  intros Hh Hl. unfold trim, trimEnd. rewrite (trimStart_id s) by done. rewrite trimStart_id; [apply rev_involutive|].
  intros c Hc. apply Hl. clear -Hc. rewrite <- (rev_involutive s). destruct (rev s) as [|d t]; [done|]. cbn in *. by rewrite last_snoc.
Qed.

Lemma printEntry_trim e : printable e -> trim (printEntry e) = printEntry e.
Proof.
  intros (Hn & _ & Hh & Hl & _). apply trim_id; unfold printEntry.
  - intros c Hc. destruct e.1 as [|d k] eqn:E; [done|]. cbn in Hc. simplify_eq. by apply Hh.
  - intros c. rewrite app_assoc, last_app. destruct (last e.2) as [d|] eqn:E; [intros; simplify_eq; by apply Hl|].
    rewrite last_snoc. by intros [= <-].
Qed.

Lemma indexOf_absent c s t : c ∉ s -> indexOf [c] (s ++ c :: t) = Some (length s).
Proof.
  induction s as [|d s IH]; intros Hn; cbn [app indexOf startsWith length].
  - by rewrite N.eqb_refl.
  - apply not_elem_of_cons in Hn as [Hd Hn]. rewrite (proj2 (N.eqb_neq c d)) by done. cbn [andb]. by rewrite IH.
Qed.

Lemma app_cons_drop {A} (s t : list A) c n : n = length s -> drop (S n) (s ++ c :: t) = t.
Proof. intros ->. change (s ++ c :: t) with (s ++ [c] ++ t). rewrite app_assoc. apply drop_app_length'. rewrite length_app. cbn. lia. Qed.

Lemma environmentEntry_print file e : printable e -> environmentEntry file (printEntry e) = Ok (e.1, Str e.2).
Proof.
  intros (Hn & Hs & _). unfold environmentEntry, printEntry. change (js "=") with [61%N]. cbn [app]. rewrite indexOf_absent by done.
  destruct e as [k v]. cbn [fst snd] in *. destruct (length k) as [|i] eqn:Hk; [by destruct k|]. rewrite <- Hk.
  rewrite take_app_length, app_cons_drop by done. done.
Qed.

Lemma split_on_app c w s : c ∉ w -> split_on c (w ++ c :: s) = w :: split_on c s.
Proof.
  induction w as [|d w IH]; intros Hn; cbn [app split_on]; [by rewrite N.eqb_refl|].
  apply not_elem_of_cons in Hn as [Hd Hn]. rewrite (proj2 (N.eqb_neq d c)) by congruence. by rewrite IH.
Qed.

Lemma split_on_join c ls : ls <> [] -> Forall (fun w => c ∉ w) ls -> split_on c (join [c] ls) = ls.
Proof.
  intros Hn Hl. induction Hl as [|w [|w' ls] Hw Hl IH]; [done|by apply split_on_none|].
  rewrite join_cons2. cbn [app]. rewrite split_on_app by done. by rewrite IH.
Qed.

Lemma dropReturns_id ls : Forall (fun w => 13%N ∉ w) ls -> dropReturns ls = ls.
Proof.
  induction 1 as [|w [|w' ls] Hw Hl IH]; [done|done|]. cbn [dropReturns] in *. rewrite IH. f_equal.
  unfold dropReturn, endsWith. destruct (startsWith _ _) eqn:E; [|done]. apply startsWith_spec in E as (t & E). destruct Hw.
  rewrite list_elem_of_In, in_rev, E. by left.
Qed.

Lemma printEntry_clean c e : printable e -> c = 10%N \/ c = 13%N -> c ∉ printEntry e.
Proof.
  intros (_ & _ & _ & _ & Hf) Hc Hin. unfold printEntry in Hin. rewrite Forall_forall in Hf.
  apply elem_of_app in Hin as [Hin|Hin]; [destruct (Hf c); [apply elem_of_app; by left|tauto]|].
  apply elem_of_cons in Hin as [->|Hin]; [by destruct Hc|]. destruct (Hf c); [apply elem_of_app; by right|tauto].
Qed.

Lemma printEntry_kept e : printable e -> printEntry e <> [] /\ startsWith (js "#") (printEntry e) = false.
Proof.
  intros (Hn & _ & Hh & _). destruct e as [[|c k] v]; [done|]. split; [done|]. cbn. destruct (Hh c) as [_ Hc]; [done|].
  apply andb_false_iff. left. by apply N.eqb_neq.
Qed.

Lemma environmentLines_print l : Forall printable l -> environmentLines (printEnvironment l) = printEntry <$> l.
Proof.
  intros Hl. unfold environmentLines, splitLines, printEnvironment. destruct l as [|e l]; [reflexivity|].
  assert (forall c, c = 10%N \/ c = 13%N -> Forall (fun w => c ∉ w) (printEntry <$> e :: l)) as Hc.
  { intros c Hc. apply Forall_fmap. eapply Forall_impl; [exact Hl|]. intros x Hx. by apply printEntry_clean. }
  unfold newline. rewrite split_on_join, dropReturns_id by auto. clear Hc. generalize (e :: l) as l', Hl. clear.
  induction 1 as [|e l He Hl IH]; [done|]. cbn [fmap list_fmap] in *. rewrite printEntry_trim by done.
  rewrite filter_cons_True by (by apply printEntry_kept). by rewrite IH.
Qed.

(** Environment files round trip: the entries an example file writes are read
    back exactly, in their order. *)
Theorem environment_roundtrip file l : Forall printable l ->
  readEnvironment file (printEnvironment l) = Ok ((fun e => (e.1, Str e.2)) <$> l).
Proof.
  intros Hl. unfold readEnvironment. rewrite environmentLines_print by done. induction Hl as [|e l He Hl IH]; [done|].
  cbn [fmap list_fmap environmentEntries]. rewrite environmentEntry_print by done. cbn [mbind result_bind]. rewrite IH. done.
Qed.

(** A variable of the process wins over the file, any other variable of the file
    reaches the command. *)
Theorem environment_precedence fixture processEnv k : NoDup (keys processEnv) ->
  assoc k (childEnvironment fixture processEnv) =
  match assoc k processEnv with Some v => Some v | None => assoc k (props_of (from_entries fixture)) end.
Proof.
  unfold childEnvironment. generalize (props_of (from_entries fixture)) as base. induction processEnv as [|[k' v] env IH]; intros base Hn; [done|].
  apply NoDup_cons in Hn as [Hk Hn]. cbn [foldl fst snd assoc]. rewrite IH by done. rewrite assoc_set_prop. case_decide as E; [|done].
  subst k'. by rewrite (proj2 (assoc_None k env) Hk).
Qed.

Definition printableb (e : jstr * jstr) : bool :=
  negb (bool_decide (e.1 = [])) && negb (memb 61%N e.1) && from_option (fun c => negb (is_space c) && negb (c =? 35)%N) true (head e.1)
  && from_option (fun c => negb (is_space c)) true (last e.2) && forallb (fun c => negb (c =? 10)%N && negb (c =? 13)%N) (e.1 ++ e.2).

Lemma printableb_spec e : printableb e = true -> printable e.
Proof.
  unfold printableb. intros [[[[Hn Hs]%andb_true_iff Hh]%andb_true_iff Hl]%andb_true_iff Hf]%andb_true_iff.
  split_and!; [|by apply negb_true_iff, bool_decide_eq_false in Hs| | |].
  - by apply negb_true_iff, bool_decide_eq_false in Hn.
  - intros c Hc. rewrite Hc in Hh. apply andb_true_iff in Hh as [H1%negb_true_iff H2%negb_true_iff%N.eqb_neq]. done.
  - intros c Hc. rewrite Hc in Hl. by apply negb_true_iff in Hl.
  - apply Forall_forall. intros c Hc. rewrite forallb_forall in Hf. specialize (Hf c). rewrite <- list_elem_of_In in Hf.
    specialize (Hf Hc). apply andb_true_iff in Hf as [H1%negb_true_iff%N.eqb_neq H2%negb_true_iff%N.eqb_neq]. done.
Qed.

Lemma environment_roundtrip_witness :
  readEnvironment (js "env.example") (printEnvironment [(js "PORT", js "8080"); (js "EMPTY", [])])
  = Ok [(js "PORT", Str (js "8080")); (js "EMPTY", Str [])].
Proof.
  apply (environment_roundtrip (js "env.example") [(js "PORT", js "8080"); (js "EMPTY", [])]).
  apply Forall_cons; split; [apply printableb_spec; vm_compute; reflexivity|].
  apply Forall_cons; split; [apply printableb_spec; vm_compute; reflexivity|]. apply Forall_nil_2.
Defined.

Example comments_and_blanks :
  readEnvironment (js "f") (js "# comment" ++ [13; 10]%N ++ newline ++ js "  A = b=c " ++ newline) = Ok [(js "A ", Str (js " b=c"))] /\
  match readEnvironment (js "f") (js "=x") with Throw e => emessage e = js "Invalid environment entry in f." | Ok _ => False end.
Proof. vm_compute. done. Qed.
