(* ===== verification/Selectors.v ===== *)
(** * Renaming selectors in style sheets and pages

    sdk/typescript/scripts/reference-assets.mjs, the part that works on text: CSS
    identifiers and their escapes, [replaceSelector], URL fragments, the start
    tags and attributes of a page, and [replaceHtmlSelectorReferences].  Texts are
    sequences of UTF-16 code units, as the code indexes them; the scanners recurse
    on what is left of the text, and the loops whose step is not one unit take the
    length of the text as fuel.  A mapping is the list of the entries of the
    configuration's object. *)

From stdpp Require Import base tactics option list numbers strings.
From Stdlib Require Import Lia.
From S2P Require Import Prelude JsString Regex.
#[local] Open Scope nat_scope.

Definition mapping : Type := list (jstr * jstr).

(** [Object.hasOwn(mappings, key) ? mappings[key] : key] *)
Fixpoint lookupName (m : mapping) (key : jstr) : option jstr :=
  match m with
  | [] => None
  | (source, target) :: m' => if decide (source = key) then Some target else lookupName m' key
  end.
Definition renamed (m : mapping) (key : jstr) : jstr := default key (lookupName m key).

(** ** Units *)

Definition lineBreak (c : N) : bool := in_class false [(13, 13); (10, 10); (12, 12)]%N c.
Definition hexUnit (c : N) : bool := in_class false [digit_r; (65, 70); (97, 102)]%N c.
Definition escapeEnd (c : N) : bool := in_class false [(9, 9); (10, 10); (12, 12); (13, 13); (32, 32)]%N c.
Definition nameUnit (c : N) : bool := in_class false [upper_r; lower_r; digit_r; (95, 95); (45, 45)]%N c || (128 <=? c)%N.
Definition letterUnit (c : N) : bool := in_class false [upper_r; lower_r] c.
Definition wordUnit (c : N) : bool := in_class false [upper_r; lower_r; digit_r; (95, 95); (45, 45)]%N c.
Definition fragmentUnit (c : N) : bool :=
  in_class false [upper_r; lower_r; digit_r; (37, 37); (46, 46); (95, 95); (126, 126); (45, 45)]%N c.

Arguments lineBreak : simpl never.
Arguments hexUnit : simpl never.
Arguments escapeEnd : simpl never.
Arguments nameUnit : simpl never.
Arguments letterUnit : simpl never.
Arguments wordUnit : simpl never.
Arguments fragmentUnit : simpl never.

(** The length of the longest prefix of units that satisfy [P]. *)
Fixpoint spanLength (P : N -> bool) (s : jstr) : nat :=
  match s with
  | c :: s' => if P c then S (spanLength P s') else 0
  | [] => 0
  end.

(** ** CSS identifiers *)

(** At most [n] hexadecimal digits. *)
Fixpoint hexRun (n : nat) (s : jstr) : nat :=
  match n, s with
  | S n', c :: s' => if hexUnit c then S (hexRun n' s') else 0
  | _, _ => 0
  end.

(** One white-space unit after the digits of an escape belongs to it. *)
Definition escapeSpace (s : jstr) : nat := match s with c :: _ => if escapeEnd c then 1 else 0 | [] => 0 end.

(** The units of the escape whose backslash was read: [None] when no escape
    starts here. *)
Definition escapeLength (s : jstr) : option nat :=
  match s with
  | [] => None
  | c :: _ => if lineBreak c then None
              else if hexUnit c then let n := hexRun 6 s in Some (n + escapeSpace (drop n s)) else Some 1
  end.

Fixpoint identifierLength_fuel (fuel : nat) (s : jstr) : nat :=
  match fuel, s with
  | S n, c :: s' =>
      if (c =? 92)%N then
        match escapeLength s' with Some k => S k + identifierLength_fuel n (drop k s') | None => 0 end
      else if nameUnit c then S (identifierLength_fuel n s') else 0
  | _, _ => 0
  end.
Definition identifierLength (s : jstr) : nat := identifierLength_fuel (length s) s.

Definition cssIdentifierEnd (value : jstr) (start : nat) : nat := start + identifierLength (drop start value).

Definition hexDigit (c : N) : N := if (c <=? 57)%N then c - 48 else if (c <=? 70)%N then c - 55 else c - 87.
Definition hexValue (s : jstr) : N := foldl (fun n c => 16 * n + hexDigit c)%N 0%N s.

(** [String.fromCodePoint] *)
Definition fromCodePoint (n : N) : jstr :=
  if (n <? 65536)%N then [n] else [55296 + (n - 65536) / 1024; 56320 + (n - 65536) mod 1024]%N.

(** What the hexadecimal digits of an escape stand for. *)
Definition escapedUnits (digits : jstr) : jstr :=
  let codePoint := hexValue digits in
  if (codePoint =? 0)%N || (1114111 <? codePoint)%N then [65533%N] else fromCodePoint codePoint.

(** A surrogate pair is copied as its two units. *)
Fixpoint decode_fuel (fuel : nat) (s : jstr) : jstr :=
  match fuel, s with
  | S n, c :: s' =>
      if (c =? 92)%N then
        match hexRun 6 s' with
        | 0 => match s' with d :: s'' => d :: decode_fuel n s'' | [] => [] end
        | k => escapedUnits (take k s') ++ decode_fuel n (drop (k + escapeSpace (drop k s')) s')
        end
      else c :: decode_fuel n s'
  | _, _ => []
  end.
Definition decodeCssIdentifier (s : jstr) : jstr := decode_fuel (length s) s.

(** ** Style sheets *)

Fixpoint replaceSelector_fuel (fuel : nat) (prefix source target s : jstr) : jstr :=
  match fuel with
  | 0 => []
  | S n =>
      match s with
      | [] => []
      | _ :: _ =>
          match indexOf prefix s with
          | None => s
          | Some selectorStart =>
              let identifierStart := selectorStart + length prefix in
              let identifierEnd := cssIdentifierEnd s identifierStart in
              let identifier := drop identifierStart (take identifierEnd s) in
              take selectorStart s
                ++ (if decide (decodeCssIdentifier identifier = source) then prefix ++ target else prefix ++ identifier)
                ++ replaceSelector_fuel n prefix source target (drop identifierEnd s)
          end
      end
  end.
Definition replaceSelector (value prefix source target : jstr) : jstr :=
  replaceSelector_fuel (length value) prefix source target value.

Definition replaceEach (prefix : jstr) (m : mapping) (value : jstr) : jstr :=
  foldl (fun mapped entry => replaceSelector mapped prefix entry.1 entry.2) value m.

Definition mapCssSelectors (value : jstr) (ids classes : mapping) : jstr :=
  replaceEach (js ".") classes (replaceEach (js "#") ids value).

(** ** Lists of tokens *)

(** [value.split(/\s+/u)]: the tokens between runs of white space, an empty one at
    an end that is white space. *)
Fixpoint splitSpaces (s : jstr) : list jstr :=
  match s with
  | [] => [[]]
  | c :: s' =>
      if is_space c then
        match s' with
        | d :: _ => if is_space d then splitSpaces s' else [] :: splitSpaces s'
        | [] => [[]; []]
        end
      else match splitSpaces s' with w :: ws => (c :: w) :: ws | [] => [[c]] end
  end.

Definition replaceTokenList (value : jstr) (m : mapping) : jstr := join [32%N] (renamed m <$> splitSpaces value).

(** ** URL fragments *)

(** The bytes of a percent-encoded text, [inl] for a unit that is not encoded. *)
Definition percentByte (s : jstr) : option (N * jstr) :=
  match s with
  | c :: a :: b :: s' => if (c =? 37)%N && hexUnit a && hexUnit b then Some (16 * hexDigit a + hexDigit b, s')%N else None
  | _ => None
  end.

Fixpoint continuation (n : nat) (acc : N) (s : jstr) : option (N * jstr) :=
  match n with
  | 0 => Some (acc, s)
  | S n' => match percentByte s with
            | Some (b, s') => if (b / 64 =? 2)%N then continuation n' (64 * acc + b mod 64)%N s' else None
            | None => None
            end
  end.

(** One encoded code point: its UTF-8 bytes, no longer than needed, no surrogate. *)
Definition percentPoint (s : jstr) : option (N * jstr) :=
  match percentByte s with
  | None => None
  | Some (b, s') =>
      if (b <? 128)%N then Some (b, s')
      else
        let multi (n : nat) (first least : N) :=
          match continuation n first s' with
          | Some (p, s'') => if (p <? least)%N || (1114111 <? p)%N || ((55296 <=? p) && (p <=? 57343))%N then None else Some (p, s'')
          | None => None
          end in
        if (b / 32 =? 6)%N then multi 1 (b mod 32)%N 128%N
        else if (b / 16 =? 14)%N then multi 2 (b mod 16)%N 2048%N
        else if (b / 8 =? 30)%N then multi 3 (b mod 8)%N 65536%N
        else None
  end.

(** [None] where the code catches a URIError. *)
Fixpoint decodeURI_fuel (fuel : nat) (s : jstr) : option jstr :=
  match fuel, s with
  | S n, c :: s' =>
      if (c =? 37)%N then
        match percentPoint s with Some (p, rest) => (fun t => fromCodePoint p ++ t) <$> decodeURI_fuel n rest | None => None end
      else cons c <$> decodeURI_fuel n s'
  | _, _ => Some []
  end.
Definition decodeURIComponent (s : jstr) : option jstr := decodeURI_fuel (length s) s.

(** The replacement of one match of [/#([A-Za-z0-9%._~-]+)/gu], without the [#]. *)
Definition mapFragment (ids : mapping) (encoded : jstr) : jstr :=
  match decodeURIComponent encoded with Some decoded => default encoded (lookupName ids decoded) | None => encoded end.

Fixpoint mapFragmentValue_fuel (fuel : nat) (ids : mapping) (s : jstr) : jstr :=
  match fuel, s with
  | S n, c :: s' =>
      if (c =? 35)%N then
        match spanLength fragmentUnit s' with
        | 0 => c :: mapFragmentValue_fuel n ids s'
        | k => c :: mapFragment ids (take k s') ++ mapFragmentValue_fuel n ids (drop k s')
        end
      else c :: mapFragmentValue_fuel n ids s'
  | _, _ => []
  end.
Definition mapFragmentValue (value : jstr) (ids : mapping) : jstr := mapFragmentValue_fuel (length value) ids value.

(** ** Edits *)

Record edit : Type := { editStart : nat; editEnd : nat; editText : jstr }.

(** [edits.sort((left, right) => right.start - left.start)], which is stable. *)
Fixpoint insertEdit (e : edit) (l : list edit) : list edit :=
  match l with
  | [] => [e]
  | e' :: l' => if (editStart e' <? editStart e)%nat then e :: l else e' :: insertEdit e l'
  end.
Definition sortEdits (l : list edit) : list edit := foldl (fun acc e => insertEdit e acc) [] l.

Definition applyEdit (s : jstr) (e : edit) : jstr := take (editStart e) s ++ editText e ++ drop (editEnd e) s.
Definition applyEdits (l : list edit) (s : jstr) : jstr := foldl applyEdit s (sortEdits l).

(** ** Attributes *)

Definition singleIdAttributes : list jstr :=
  js <$> ["aria-activedescendant"; "aria-details"; "aria-errormessage"; "commandfor"; "for"; "form"; "list"; "popovertarget"]%string.
Definition tokenIdAttributes : list jstr :=
  js <$> ["aria-controls"; "aria-describedby"; "aria-flowto"; "aria-labelledby"; "aria-owns"; "headers"]%string.
Definition fragmentAttributes : list jstr :=
  js <$> ["action"; "cite"; "clip-path"; "fill"; "filter"; "formaction"; "href"; "mask"; "marker-end"; "marker-mid"; "marker-start";
          "src"; "xlink:href"]%string.

Definition mapHtmlAttribute (name value : jstr) (ids classes : mapping) : jstr :=
  if bool_decide (name = js "id") || memb name singleIdAttributes then renamed ids value
  else if bool_decide (name = js "class") then replaceTokenList value classes
  else if memb name tokenIdAttributes then replaceTokenList value ids
  else if memb name fragmentAttributes then mapFragmentValue value ids
  else if bool_decide (name = js "style") then mapCssSelectors value ids classes else value.

(** ** Start tags *)

Definition tagNameUnit (c : N) : bool := negb (is_space c) && negb (c =? 47)%N && negb (c =? 62)%N.
Definition attributeNameUnit (c : N) : bool := negb (is_space c) && negb (c =? 61)%N && negb (c =? 47)%N && negb (c =? 62)%N.
Definition unquotedUnit (c : N) : bool := negb (is_space c) && negb (c =? 62)%N.

(** The length of the match of the pattern for the name of the tag: [<], white
    space, a letter, then units other than white space, [/] and [>]. *)
Definition tagNameLength (tag : jstr) : option nat :=
  match tag with
  | [] => None
  | open :: s =>
      let k := spanLength is_space s in
      match drop k s with
      | c :: s' => if (open =? 60)%N && letterUnit c then Some (S (k + S (spanLength tagNameUnit s'))) else None
      | [] => None
      end
  end.

Record attribute : Type := { attributeName : jstr; valueStart : nat; valueEnd : nat; attributeValue : jstr }.

(** The quote that opens a value, if any. *)
Definition openingQuote (s : jstr) : option N :=
  match s with c :: _ => if (c =? 34)%N || (c =? 39)%N then Some c else None | [] => None end.

(** The value at [s], which starts at [index]: its attribute, the index and the
    text after it. *)
Definition readValue (name : jstr) (index : nat) (s : jstr) : attribute * nat * jstr :=
  match openingQuote s with
  | None =>
      let k := spanLength unquotedUnit s in
      ({| attributeName := name; valueStart := index; valueEnd := index + k; attributeValue := take k s |}, index + k, drop k s)
  | Some q =>
      let s' := tail s in
      let k := spanLength (fun c => negb (c =? q)%N) s' in
      let rest := drop k s' in
      ({| attributeName := name; valueStart := S index; valueEnd := S index + k; attributeValue := take k s' |},
       S index + k + (match rest with [] => 0 | _ => 1 end), tail rest)
  end.

(** The attributes with a value; [s] is the tag from [index] on. *)
Fixpoint attributes_fuel (fuel index : nat) (s : jstr) : list attribute :=
  match fuel with
  | 0 => []
  | S n =>
      let i := index + spanLength is_space s in
      let s1 := drop (spanLength is_space s) s in
      match s1 with
      | [] => []
      | c :: _ =>
          if (c =? 62)%N || (c =? 47)%N then []
          else
            let k := spanLength attributeNameUnit s1 in
            let s2 := drop k s1 in
            let s3 := drop (spanLength is_space s2) s2 in
            let i3 := i + k + spanLength is_space s2 in
            match s3 with
            | [] => []
            | d :: s4 =>
                if (d =? 61)%N then
                  let i5 := S i3 + spanLength is_space s4 in
                  let '(a, j, rest) := readValue (toLowerCase (take k s1)) i5 (drop (spanLength is_space s4) s4) in
                  a :: attributes_fuel n j rest
                else attributes_fuel n i3 s3
            end
      end
  end.
Definition tagAttributes (tag : jstr) : list attribute :=
  match tagNameLength tag with Some k => attributes_fuel (length tag) k (drop k tag) | None => [] end.

Definition attributeEdits (ids classes : mapping) (a : attribute) : list edit :=
  let mapped := mapHtmlAttribute (attributeName a) (attributeValue a) ids classes in
  if decide (mapped = attributeValue a) then [] else [{| editStart := valueStart a; editEnd := valueEnd a; editText := mapped |}].

Definition mapHtmlStartTag (tag : jstr) (ids classes : mapping) : jstr := applyEdits (tagAttributes tag ≫= attributeEdits ids classes) tag.

(** ** Pages *)

(** The units of the start tag after its [<], up to and including the [>] outside
    quotes. *)
Fixpoint tagLength (quote : option N) (s : jstr) : option nat :=
  match s with
  | [] => None
  | c :: s' =>
      match quote with
      | None => if (c =? 34)%N || (c =? 39)%N then S <$> tagLength (Some c) s'
                else if (c =? 62)%N then Some 1 else S <$> tagLength None s'
      | Some q => if (c =? q)%N then S <$> tagLength None s' else S <$> tagLength quote s'
      end
  end.

(** [/^<\s*(script|style|textarea|title)(?:\s|>)/iu] on a tag, which starts with
    [<]. *)
Definition rawTag (tag : jstr) : option jstr :=
  match tag with
  | [] => None
  | _ :: s =>
      let s' := drop (spanLength is_space s) s in
      find (fun name => bool_decide (toLowerCase (take (length name) s') = name)
                        && match drop (length name) s' with c :: _ => is_space c || (c =? 62)%N | [] => false end)
        (js <$> ["script"; "style"; "textarea"; "title"]%string)
  end.

(** The index of the first [p] of [s] at or after [from]. *)
Definition indexFrom (p s : jstr) (from : nat) : option nat := Nat.add from <$> indexOf p (drop from s).

Section page.
Context (html : jstr) (ids classes : mapping).
Let lowerHtml : jstr := toLowerCase html.

(** What one turn of the loop appends, from the [<] at [tagStart], and the next
    cursor: [None] when it returns. *)
Definition markupStep (tagStart : nat) : jstr * option nat :=
  let upTo (end_ : nat) : jstr * option nat := (drop tagStart (take end_ html), Some end_) in
  let rest : jstr * option nat := (drop tagStart html, None) in
  if startsWith (js "<!--") (drop tagStart html) then
    match indexFrom (js "-->") html (tagStart + 4) with Some e => upTo (e + 3) | None => rest end
  else
    match html !! S tagStart with
    | Some c =>
        if memb c (js "!/?") then match indexFrom (js ">") html (tagStart + 2) with Some e => upTo (e + 1) | None => rest end
        else if letterUnit c then
          match tagLength None (drop (S tagStart) html) with
          | None => rest
          | Some k =>
              let tag := take (S k) (drop tagStart html) in
              let cursor := tagStart + S k in
              let mapped := mapHtmlStartTag tag ids classes in
              match rawTag tag with
              | None => (mapped, Some cursor)
              | Some name =>
                  match indexFrom (js "</" ++ name) lowerHtml cursor with
                  | None => (mapped ++ drop cursor html, None)
                  | Some closing => (mapped ++ drop cursor (take closing html), Some closing)
                  end
              end
          end
        else (js "<", Some (S tagStart))
    | None => (js "<", Some (S tagStart))
    end.

Fixpoint htmlLoop (fuel cursor : nat) : jstr :=
  match fuel with
  | 0 => []
  | S n =>
      if (cursor <? length html)%nat then
        match indexFrom (js "<") html cursor with
        | None => drop cursor html
        | Some tagStart =>
            let '(text, next) := markupStep tagStart in
            drop cursor (take tagStart html) ++ text ++ match next with Some cursor' => htmlLoop n cursor' | None => [] end
        end
      else []
  end.
Definition replaceHtmlSelectorReferences : jstr := htmlLoop (length html) 0.
End page.
