(* ===== verification/SelectorProps.v ===== *)
(** * Selectors: tokens of a style sheet

    A reference reading of the texts that [replaceSelector] and
    [mapFragmentValue] rewrite: a text is cut into gaps and the identifiers that
    follow a delimiter.  Rewriting maps the identifiers; [Scanner] states what the
    reading needs of the function that finds the end of an identifier. *)

From stdpp Require Import base tactics option list numbers strings.
From Stdlib Require Import Lia.
From S2P Require Import Prelude JsString Regex Selectors.
#[local] Open Scope nat_scope.

(** ** The first delimiter *)

Lemma indexOf_split (p : N) s k : indexOf [p] s = Some k -> s = take k s ++ p :: drop (S k) s /\ p ∉ take k s.
Proof.
  revert k. induction s as [|c s IH]; intros k; cbn; [done|]. rewrite andb_true_r. destruct (N.eqb_spec p c) as [->|Hc]; cbn.
  - intros [= <-]. cbn. rewrite drop_0. split; [done|]. apply not_elem_of_nil.
  - destruct (indexOf [p] s) as [j|] eqn:E; cbn; [|done]. intros [= <-]. destruct (IH j eq_refl) as [Hs Hp]. cbn. split; [congruence|].
    by apply not_elem_of_cons.
Qed.

Lemma indexOf_absent_None (p : N) s : indexOf [p] s = None -> p ∉ s.
Proof.
  intros H Hin. apply list_elem_of_split in Hin as (u & v & ->). by apply (indexOf_None [p] _ H u v).
Qed.

Lemma indexOf_first (p : N) g r : p ∉ g -> indexOf [p] (g ++ p :: r) = Some (length g).
Proof.
  induction g as [|c g IH]; intros Hp; cbn; [by rewrite N.eqb_refl|]. apply not_elem_of_cons in Hp as [Hc Hp].
  rewrite (proj2 (N.eqb_neq p c)) by done. cbn. by rewrite IH.
Qed.

Lemma indexOf_missing (p : N) s : p ∉ s -> indexOf [p] s = None.
Proof.
  induction s as [|c s IH]; intros Hp; cbn; [done|]. apply not_elem_of_cons in Hp as [Hc Hp].
  rewrite (proj2 (N.eqb_neq p c)) by done. cbn. by rewrite IH.
Qed.

(** ** Scanners *)

(** [len s] units of [s] belong to the identifier.  The scan ends where a new scan
    would find nothing; it does not look past the delimiter [p]; a name made of
    [plain] units is read whole. *)
Class Scanner (p : N) (plain : N -> Prop) (len : jstr -> nat) : Prop := {
  len_le s : len s <= length s;
  len_rest s : len (drop (len s) s) = 0;
  len_local u x x' : len (u ++ p :: x) <= length u -> len (u ++ p :: x') = len (u ++ p :: x);
  len_plain t r : Forall plain t -> len r = 0 -> len (t ++ r) = length t;
}.

Section scanner.
Context (p : N) (plain : N -> Prop) (len : jstr -> nat) `{!Scanner p plain len}.

(** [Tokens s l t]: [s] is the gaps and identifiers of [l], then [t]. *)
Inductive Tokens : jstr -> list (jstr * jstr) -> jstr -> Prop :=
  | Tokens_nil s : p ∉ s -> Tokens s [] s
  | Tokens_cons g i r l t : p ∉ g -> len (i ++ r) = length i -> Tokens r l t -> Tokens (g ++ p :: i ++ r) ((g, i) :: l) t.

Fixpoint tokens_fuel (fuel : nat) (s : jstr) : list (jstr * jstr) * jstr :=
  match fuel with
  | 0 => ([], s)
  | S n => match indexOf [p] s with
           | None => ([], s)
           | Some k => let r := drop (S k) s in
                       let '(l, t) := tokens_fuel n (drop (len r) r) in ((take k s, take (len r) r) :: l, t)
           end
  end.
Definition tokens (s : jstr) : list (jstr * jstr) * jstr := tokens_fuel (length s) s.
Definition identifiers (s : jstr) : list jstr := (tokens s).1.*2.

Definition onToken (f : jstr -> jstr) (x : jstr * jstr) : jstr * jstr := (x.1, f x.2).
Definition render (l : list (jstr * jstr)) (t : jstr) : jstr := foldr (fun x r => x.1 ++ p :: x.2 ++ r) t l.

Arguments render : simpl never.

Lemma render_cons x l t : render (x :: l) t = x.1 ++ p :: x.2 ++ render l t.
Proof. done. Qed.

(** Every identifier goes through [f]. *)
Definition rewrite (f : jstr -> jstr) (s : jstr) : jstr := render (onToken f <$> (tokens s).1) (tokens s).2.

Lemma tokens_fuel_spec n s : length s <= n -> Tokens s (tokens_fuel n s).1 (tokens_fuel n s).2.
Proof.
  revert s. induction n as [|n IH]; intros s Hn; cbn [tokens_fuel].
  { destruct s; [|cbn in Hn; lia]. apply Tokens_nil, not_elem_of_nil. }
  destruct (indexOf [p] s) as [k|] eqn:E; [|by apply Tokens_nil, indexOf_absent_None].
  destruct (indexOf_split p s k E) as [Hs Hp]. set (r := drop (S k) s) in *. specialize (IH (drop (len r) r)).
  destruct (tokens_fuel n (drop (len r) r)) as [l t]. cbn [fst snd] in *.
  rewrite Hs at 1. rewrite <- (take_drop (len r) r) at 1. apply Tokens_cons; [done| |].
  - rewrite take_drop, length_take_le by apply len_le. done.
  - apply IH. apply (f_equal length) in Hs. rewrite length_app in Hs. cbn in Hs. rewrite length_drop. lia.
Qed.

Lemma tokens_spec s : Tokens s (tokens s).1 (tokens s).2.
Proof. by apply tokens_fuel_spec. Qed.

Lemma tokens_det s l t : Tokens s l t -> forall n, length s <= n -> tokens_fuel n s = (l, t).
Proof.
  induction 1 as [s Hp|g i r l t Hg Hi Ht IH]; intros n Hn.
  { destruct n; cbn [tokens_fuel]; [done|]. by rewrite indexOf_missing. }
  rewrite length_app in Hn. cbn in Hn. destruct n as [|n]; [lia|]. cbn [tokens_fuel].
  rewrite indexOf_first, take_app_length by done. replace (drop (S (length g)) (g ++ p :: i ++ r)) with (i ++ r).
  2: { rewrite drop_app, drop_ge, Nat.sub_succ_l, Nat.sub_diag by lia. cbn. by rewrite drop_0. }
  rewrite Hi, drop_app_length, take_app_length, IH; [done|]. rewrite length_app in Hn. lia.
Qed.

Lemma tokens_unique s l t : Tokens s l t -> tokens s = (l, t).
Proof. intros H. by apply (tokens_det s). Qed.

Lemma render_tokens s l t : Tokens s l t -> render l t = s.
Proof. induction 1 as [|g i r l t Hg Hi Ht IH]; [done|]. unfold render in *. cbn. by rewrite IH. Qed.

(** An identifier keeps its text or becomes a plain name. *)
Definition tame (f : jstr -> jstr) (l : list jstr) : Prop := Forall (fun i => f i = i \/ Forall plain (f i)) l.

Lemma len_render_local f u l t : len (u ++ render l t) <= length u -> len (u ++ render (onToken f <$> l) t) = len (u ++ render l t).
Proof.
  destruct l as [|[g i] l]; [done|]. cbn. rewrite !render_cons. cbn. rewrite !(app_assoc u). intros H. apply (len_local (p := p)). rewrite length_app. lia.
Qed.

(** Rewriting keeps the cuts. *)
Lemma Tokens_rewrite f s l t : Tokens s l t -> tame f l.*2 -> Tokens (render (onToken f <$> l) t) (onToken f <$> l) t.
Proof.
  induction 1 as [s Hp|g i r l t Hg Hi Ht IH]; intros Hf; [by apply Tokens_nil|]. cbn in *. rewrite render_cons. cbn. apply Forall_cons in Hf as [Hfi Hf].
  apply Tokens_cons; [done| |by apply IH]. pose proof (render_tokens _ _ _ Ht) as Hr. destruct Hfi as [->|Hfi].
  - rewrite len_render_local, Hr; [done|]. rewrite Hr. lia.
  - apply len_plain; [done|]. assert (len (render l t) = 0) as H0.
    { rewrite Hr. pose proof (len_rest (i ++ r)) as H0. by rewrite Hi, drop_app_length in H0. }
    rewrite <- H0. change (render (onToken f <$> l) t) with ([] ++ render (onToken f <$> l) t). rewrite len_render_local; [done|].
    cbn. lia.
Qed.

Lemma tokens_rewrite f s : tame f (identifiers s) -> tokens (rewrite f s) = (onToken f <$> (tokens s).1, (tokens s).2).
Proof. intros Hf. apply tokens_unique. by eapply Tokens_rewrite; [apply tokens_spec|]. Qed.

Lemma identifiers_rewrite f s : tame f (identifiers s) -> identifiers (rewrite f s) = f <$> identifiers s.
Proof. intros Hf. unfold identifiers. rewrite tokens_rewrite by done. cbn. rewrite <- !list_fmap_compose. done. Qed.

Lemma rewrite_compose f g s : tame f (identifiers s) -> rewrite g (rewrite f s) = rewrite (g ∘ f) s.
Proof. intros Hf. unfold rewrite at 1. rewrite tokens_rewrite by done. cbn. rewrite <- list_fmap_compose. done. Qed.

Lemma rewrite_ext f g s : Forall (fun i => f i = g i) (identifiers s) -> rewrite f s = rewrite g s.
Proof.
  intros H. unfold rewrite. f_equal. unfold identifiers in H. revert H. generalize (tokens s).1. intros l H.
  apply list_fmap_ext. intros n [a b] Hl. unfold onToken. cbn. f_equal. rewrite Forall_fmap in H. by apply (Forall_lookup_1 _ _ _ _ H Hl).
Qed.

Lemma rewrite_id s : rewrite id s = s.
Proof.
  unfold rewrite. rewrite <- (render_tokens _ _ _ (tokens_spec s)) at 3. f_equal.
  rewrite <- (list_fmap_id (tokens s).1) at 2. apply list_fmap_ext. by intros _ [a b] _.
Qed.

(** The text is unchanged exactly when every identifier is. *)
Lemma rewrite_unchanged f s : tame f (identifiers s) -> rewrite f s = s <-> Forall (fun i => f i = i) (identifiers s).
Proof.
  intros Hf. split; [|intros H; rewrite <- (rewrite_id s) at 2; by apply rewrite_ext].
  intros H. pose proof (identifiers_rewrite f s Hf) as Hi. rewrite H in Hi. clear -Hi. revert Hi. generalize (identifiers s). intros l.
  induction l as [|i l IH]; intros Hi; [done|]. cbn in Hi. injection Hi as Hi Hl. apply Forall_cons. split; [done|by apply IH].
Qed.

(** A loop that cuts at the first delimiter, rewrites the identifier after it and
    goes on computes [rewrite]. *)
Lemma rewrite_step f s : rewrite f s =
  match indexOf [p] s with
  | None => s
  | Some k => let r := drop (S k) s in take k s ++ p :: f (take (len r) r) ++ rewrite f (drop (len r) r)
  end.
Proof.
  destruct (indexOf [p] s) as [k|] eqn:E.
  2: { unfold rewrite. rewrite (tokens_unique s [] s); [done|]. by apply Tokens_nil, indexOf_absent_None. }
  destruct (indexOf_split p s k E) as [Hs Hp]. set (r := drop (S k) s) in *. cbn zeta. unfold rewrite at 1.
  rewrite (tokens_unique s ((take k s, take (len r) r) :: (tokens (drop (len r) r)).1) (tokens (drop (len r) r)).2); [done|].
  rewrite Hs at 1. rewrite <- (take_drop (len r) r) at 1. apply Tokens_cons; [done| |apply tokens_spec].
  rewrite take_drop, length_take_le by apply len_le. done.
Qed.
End scanner.
Arguments render : simpl never.

(** ** CSS identifiers *)

Lemma hexRun_le n s : hexRun n s <= length s.
Proof. revert s. induction n as [|n IH]; intros [|c s]; cbn; try lia. destruct (hexUnit c); [|lia]. specialize (IH s). lia. Qed.

Lemma escapeSpace_le s : escapeSpace s <= length s.
Proof. destruct s as [|c s]; cbn; [lia|]. destruct (escapeEnd c); lia. Qed.

Lemma escapeLength_bounds s k : escapeLength s = Some k -> 0 < k <= length s.
Proof.
  unfold escapeLength. destruct s as [|c s]; [done|]. destruct (lineBreak c); [done|]. destruct (hexUnit c) eqn:Hc.
  - pose proof (hexRun_le 6 (c :: s)) as H1. pose proof (escapeSpace_le (drop (hexRun 6 (c :: s)) (c :: s))) as H2. rewrite length_drop in H2.
    assert (0 < hexRun 6 (c :: s)) by (cbn [hexRun]; rewrite Hc; lia). cbn zeta. intros Hk. apply (inj Some) in Hk. lia.
  - intros [= <-]. cbn. lia.
Qed.

Lemma identifierLength_fuels n m s : length s <= n -> length s <= m -> identifierLength_fuel n s = identifierLength_fuel m s.
Proof.
  revert m s. induction n as [|n IH]; intros [|m] [|c s] Hn Hm; cbn in *; try lia; try done.
  destruct (c =? 92)%N; [|destruct (nameUnit c); [|done]; rewrite (IH m); lia].
  destruct (escapeLength s) as [k|]; [|done]. rewrite (IH m); [done| |]; rewrite length_drop; lia.
Qed.

Lemma identifierLength_cons c s : identifierLength (c :: s) =
  if (c =? 92)%N then match escapeLength s with Some k => S k + identifierLength (drop k s) | None => 0 end
  else if nameUnit c then S (identifierLength s) else 0.
Proof.
  unfold identifierLength. cbn. destruct (c =? 92)%N; [|done]. destruct (escapeLength s) as [k|] eqn:E; [|done].
  rewrite (identifierLength_fuels _ (length (drop k s))); [done| |done]. rewrite length_drop. lia.
Qed.

(** Induction along the scan. *)
Lemma scan_ind (P : jstr -> Prop) :
  P [] ->
  (forall s, escapeLength s = None -> P (92%N :: s)) ->
  (forall s k, escapeLength s = Some k -> P (drop k s) -> P (92%N :: s)) ->
  (forall c s, c <> 92%N -> P s -> P (c :: s)) -> forall s, P s.
Proof.
  intros H0 Hn He Hc s. remember (length s) as n eqn:Hs. revert s Hs. induction (lt_wf n) as [n _ IH]. intros [|c s] ->; [done|].
  destruct (decide (c = 92%N)) as [->|Hne]; [|apply Hc; [done|]; apply (IH (length s)); [cbn; lia|done]].
  destruct (escapeLength s) as [k|] eqn:E; [|by apply Hn]. apply (He s k E). apply (IH (length (drop k s))); [|done].
  rewrite length_drop. cbn. lia.
Qed.

Lemma identifierLength_le s : identifierLength s <= length s.
Proof.
  induction s as [|s E|s k E IH|c s Hc IH] using scan_ind; [done|..]; rewrite identifierLength_cons.
  - rewrite E. cbn. lia.
  - apply escapeLength_bounds in E as Hk. rewrite length_drop in IH. cbn -[identifierLength]. rewrite E. lia.
  - rewrite (proj2 (N.eqb_neq c 92)) by done. destruct (nameUnit c); cbn; lia.
Qed.

Lemma identifierLength_rest s : identifierLength (drop (identifierLength s) s) = 0.
Proof.
  induction s as [|s E|s k E IH|c s Hc IH] using scan_ind; [done|..]; rewrite identifierLength_cons.
  - cbn -[identifierLength]. rewrite E. cbn -[identifierLength]. rewrite identifierLength_cons. cbn. by rewrite E.
  - cbn -[identifierLength]. rewrite E. cbn -[identifierLength]. by rewrite <- drop_drop.
  - rewrite (proj2 (N.eqb_neq c 92)) by done. destruct (nameUnit c) eqn:En; [done|]. rewrite drop_0, identifierLength_cons, En.
    by rewrite (proj2 (N.eqb_neq c 92)) by done.
Qed.

(** A unit that no scan runs over by itself. *)
Definition delimiter (p : N) : Prop := p <> 92%N /\ nameUnit p = false /\ hexUnit p = false /\ escapeEnd p = false /\ lineBreak p = false.

Lemma hexRun_local p n u x : hexUnit p = false -> hexRun n (u ++ p :: x) = hexRun n u.
Proof. intros Hp. revert u. induction n as [|n IH]; intros [|c u]; cbn; [done|done|by rewrite Hp|]. by rewrite IH. Qed.

Lemma escapeLength_local p u x : delimiter p -> u <> [] -> escapeLength (u ++ p :: x) = escapeLength u.
Proof.
  intros (_ & _ & Hh & He & _) Hu. destruct u as [|c u]; [done|]. unfold escapeLength. cbn [app]. destruct (lineBreak c); [done|].
  destruct (hexUnit c); [|done]. change (c :: u ++ p :: x) with ((c :: u) ++ p :: x). rewrite hexRun_local by done.
  do 2 f_equal. rewrite drop_app_le by apply hexRun_le. destruct (drop _ _) as [|d v]; [|done]. cbn. by rewrite He.
Qed.

Lemma identifierLength_local p u x x' : delimiter p ->
  identifierLength (u ++ p :: x) <= length u -> identifierLength (u ++ p :: x') = identifierLength (u ++ p :: x).
Proof.
  intros Hp. remember (length u) as n eqn:Hn. revert u Hn. induction (lt_wf n) as [n _ IH]. intros u -> Hl. pose proof Hp as (Hb & Hname & _ & _ & Hlb).
  destruct u as [|c u]; cbn [app] in *; rewrite identifierLength_cons in Hl |- *.
  { rewrite identifierLength_cons, Hname, (proj2 (N.eqb_neq p 92)) by done. done. }
  rewrite identifierLength_cons. destruct (c =? 92)%N.
  - destruct u as [|d u].
    { cbn [app] in *. unfold escapeLength in Hl. rewrite Hlb in Hl. destruct Hp as (_ & _ & Hh & _). rewrite Hh in Hl. cbn in Hl. lia. }
    rewrite !(escapeLength_local p) in * by done. destruct (escapeLength (d :: u)) as [k|] eqn:E; [|done].
    apply escapeLength_bounds in E. rewrite drop_app_le in Hl |- * by lia. rewrite drop_app_le by lia. f_equal.
    apply (IH (length (drop k (d :: u)))); [rewrite length_drop; cbn in *; lia|done|]. rewrite length_drop. cbn in *. lia.
  - destruct (nameUnit c); [|done]. f_equal. apply (IH (length u)); [cbn; lia|done|]. cbn in Hl. lia.
Qed.

Definition plainUnit (c : N) : Prop := wordUnit c = true.

Lemma plain_name c : plainUnit c -> nameUnit c = true /\ c <> 92%N.
Proof. unfold plainUnit, nameUnit. intros H. split; [unfold wordUnit in H; by rewrite H|]. by intros ->. Qed.

Lemma identifierLength_plain t r : Forall plainUnit t -> identifierLength r = 0 -> identifierLength (t ++ r) = length t.
Proof.
  intros Ht Hr. induction Ht as [|c t [Hc Hb]%plain_name Ht IH]; [done|]. cbn [app length].
  rewrite identifierLength_cons, Hc, (proj2 (N.eqb_neq c 92)) by done. by rewrite IH.
Qed.

#[export] Instance css_scanner p : delimiter p -> Scanner p plainUnit identifierLength.
Proof.
  intros Hp. split; [apply identifierLength_le|apply identifierLength_rest| |apply identifierLength_plain].
  intros u x x'. by apply identifierLength_local.
Qed.

Lemma delimiter_hash : delimiter 35.
Proof. by repeat split. Qed.
Lemma delimiter_dot : delimiter 46.
Proof. by repeat split. Qed.
#[export] Hint Resolve delimiter_hash delimiter_dot : core.

(** ** Renaming *)

Definition renameIdentifier (m : mapping) (i : jstr) : jstr := default i (lookupName m (decodeCssIdentifier i)).

Lemma decode_plain t : Forall plainUnit t -> decodeCssIdentifier t = t.
Proof.
  unfold decodeCssIdentifier. induction 1 as [|c t [_ Hb]%plain_name Ht IH]; [done|]. cbn. rewrite (proj2 (N.eqb_neq c 92)) by done. by rewrite IH.
Qed.

(** [replaceSelector] renames the identifiers whose decoded text is the source. *)
Lemma replaceSelector_rewrite p s source target : delimiter p ->
  replaceSelector s [p] source target = rewrite p identifierLength (renameIdentifier [(source, target)]) s.
Proof.
  intros Hp. pose proof (css_scanner p Hp) as Hscan. unfold replaceSelector. assert (forall n, length s <= n -> replaceSelector_fuel n [p] source target s =
    rewrite p identifierLength (renameIdentifier [(source, target)]) s) as H; [|by apply H].
  intros n. revert s. induction n as [|n IH]; intros s Hn; [by destruct s; [|cbn in Hn; lia]|]. cbn [replaceSelector_fuel].
  rewrite (rewrite_step p plainUnit identifierLength). destruct s as [|c s]; [done|].
  destruct (indexOf [p] (c :: s)) as [k|] eqn:E; [|done]. generalize dependent (c :: s). clear c s. intros s Hn E. cbn zeta.
  assert (k < length s) as Hk.
  { apply indexOf_split in E as [Hs _]. apply (f_equal length) in Hs. rewrite length_app, length_take in Hs. cbn in Hs. lia. }
  unfold cssIdentifierEnd. cbn [length]. rewrite Nat.add_1_r. set (r := drop (S k) s). rewrite skipn_firstn_comm.
  fold r. replace (S k + identifierLength r - S k) with (identifierLength r) by lia.
  replace (drop (S k + identifierLength r) s) with (drop (identifierLength r) r) by (unfold r; by rewrite drop_drop).
  rewrite IH by (rewrite length_drop; unfold r; rewrite length_drop; lia).
  unfold renameIdentifier at 2. cbn [lookupName]. case_decide as Hd; [rewrite decide_True by done|rewrite decide_False by done]; done.
Qed.

(** ** Several mappings *)

(** The names a text uses behind a delimiter, escapes decoded. *)
Definition names (p : N) (s : jstr) : list jstr := decodeCssIdentifier <$> identifiers p identifierLength s.

(** What [applySelectorMappings] accepts: plain names, and no chain from one entry
    to another. *)
Definition chainless (m : mapping) : Prop := Forall (fun e => Forall plainUnit e.2 /\ e.2 ∉ m.*1) m.

Lemma lookupName_elem m k t : lookupName m k = Some t -> (k, t) ∈ m.
Proof.
  induction m as [|[source target] m IH]; cbn; [done|]. case_decide; [intros [= <-]; subst; apply elem_of_cons; by left|].
  intros Hk. apply elem_of_cons. right. by apply IH.
Qed.

Lemma lookupName_None m k : lookupName m k = None <-> k ∉ m.*1.
Proof.
  induction m as [|[source target] m IH]; cbn; [split; [intros _; apply not_elem_of_nil|done]|]. rewrite not_elem_of_cons.
  case_decide as H; [split; [done|intros [Hk _]; congruence]|]. rewrite IH. split; [|tauto]. intros Hm. split; congruence.
Qed.

Lemma rename_plain m i : Forall (fun e => Forall plainUnit e.2) m -> renameIdentifier m i = i \/ Forall plainUnit (renameIdentifier m i).
Proof.
  intros Hm. unfold renameIdentifier. destruct (lookupName m _) as [t|] eqn:E; [right|by left]. apply lookupName_elem in E.
  rewrite Forall_forall in Hm. by apply (Hm _ E).
Qed.

Lemma chainless_plain m : chainless m -> Forall (fun e => Forall plainUnit e.2) m.
Proof. intros H. eapply Forall_impl; [exact H|]. by intros e []. Qed.

Lemma rename_tame m l : chainless m -> tame plainUnit (renameIdentifier m) l.
Proof. intros Hm. apply Forall_forall. intros i _. by apply rename_plain, chainless_plain. Qed.

(** Decoding commutes with renaming. *)
Lemma decode_rename m i : chainless m -> decodeCssIdentifier (renameIdentifier m i) = renamed m (decodeCssIdentifier i).
Proof.
  intros Hm. unfold renameIdentifier, renamed. destruct (lookupName m _) as [t|] eqn:E; [|done]. apply lookupName_elem in E.
  apply chainless_plain in Hm. rewrite Forall_forall in Hm. by apply decode_plain, (Hm _ E).
Qed.

Lemma rename_cons source target m i : chainless ((source, target) :: m) ->
  renameIdentifier m (renameIdentifier [(source, target)] i) = renameIdentifier ((source, target) :: m) i.
Proof.
  intros [[Ht Hc] _]%Forall_cons. cbn in Ht, Hc. apply not_elem_of_cons in Hc as [_ Hc]. unfold renameIdentifier at 2 3. cbn [lookupName].
  case_decide; [|done]. cbn. unfold renameIdentifier. rewrite decode_plain by done. apply lookupName_None in Hc. by rewrite Hc.
Qed.

Lemma chainless_cons e m : chainless (e :: m) -> chainless m.
Proof.
  intros [_ H]%Forall_cons. eapply Forall_impl; [exact H|]. intros x [Hx Hn]. cbn in Hn. apply not_elem_of_cons in Hn. tauto.
Qed.

(** One replacement after another renames every identifier once. *)
Lemma replaceEach_rewrite p m s : delimiter p -> chainless m -> replaceEach [p] m s = rewrite p identifierLength (renameIdentifier m) s.
Proof.
  intros Hp. pose proof (css_scanner p Hp) as Hscan. revert s. unfold replaceEach.
  induction m as [|[source target] m IH]; intros s Hm; cbn [foldl].
  { rewrite <- (rewrite_id p plainUnit identifierLength s) at 1. done. }
  rewrite IH by (by eapply chainless_cons). cbn [fst snd]. rewrite replaceSelector_rewrite by done.
  rewrite (rewrite_compose p plainUnit identifierLength).
  - apply rewrite_ext. apply Forall_forall. intros i _. cbn. by apply rename_cons.
  - apply Forall_forall. intros i _. apply rename_plain. apply Forall_cons in Hm as [[Ht _] _]. by apply Forall_singleton.
Qed.

Lemma names_rewrite p m s : delimiter p -> chainless m ->
  names p (rewrite p identifierLength (renameIdentifier m) s) = renamed m <$> names p s.
Proof.
  intros Hp Hm. pose proof (css_scanner p Hp) as Hscan. unfold names. rewrite (identifiers_rewrite p plainUnit identifierLength) by by apply rename_tame.
  rewrite <- !list_fmap_compose. apply list_fmap_ext. intros _ i _. by apply decode_rename.
Qed.

(** ** Two delimiters *)

(** [a] is nowhere directly before [b]. *)
Definition pairFree (a b : N) (s : jstr) : Prop := forall u v, s <> u ++ a :: b :: v.

Lemma pairFree_app a b x y : pairFree a b (x ++ y) <-> pairFree a b x /\ pairFree a b y /\ ~ (last x = Some a /\ head y = Some b).
Proof.
  split.
  - intros H. split_and!.
    + intros u v ->. apply (H u (v ++ y)). by rewrite <- app_assoc.
    + intros u v ->. apply (H (x ++ u) v). by rewrite <- app_assoc.
    + intros [Hx Hy]. apply last_Some in Hx as (x' & ->). destruct y as [|c y]; [done|]. injection Hy as ->.
      apply (H x' y). by rewrite <- app_assoc.
  - intros (Hx & Hy & Hn) u v E. apply app_eq_inv in E as [(w & -> & E)|(w & -> & ->)]; [|by apply (Hy w v)].
    destruct w as [|c w]; cbn in E; [by apply (Hy [] v)|]. injection E as <- E. destruct w as [|d w]; cbn in E.
    + apply Hn. split; [by rewrite last_snoc|]. by rewrite <- E.
    + injection E as <- E. by apply (Hx u w).
Qed.

Lemma hexRun_units p n s : hexUnit p = false -> p ∉ take (hexRun n s) s.
Proof.
  intros Hp. revert s. induction n as [|n IH]; intros [|c s]; cbn; try apply not_elem_of_nil.
  destruct (hexUnit c) eqn:Eh; [|apply not_elem_of_nil]. cbn. apply not_elem_of_cons. split; [congruence|apply IH].
Qed.

Lemma escapeSpace_units p s : escapeEnd p = false -> p ∉ take (escapeSpace s) s.
Proof.
  intros Hp. destruct s as [|d r]; cbn; [apply not_elem_of_nil|]. destruct (escapeEnd d) eqn:Ed; cbn; [|apply not_elem_of_nil].
  apply not_elem_of_cons. split; [congruence|apply not_elem_of_nil].
Qed.

(** Only the first unit of an escape can be a delimiter. *)
Lemma escape_units p s k : delimiter p -> escapeLength s = Some k -> p ∈ take k s -> head s = Some p.
Proof.
  intros (_ & _ & Hhex & Hspace & _) E Hin. unfold escapeLength in E. destruct s as [|c s]; [done|]. destruct (lineBreak c); [done|].
  destruct (hexUnit c); apply (inj Some) in E; subst k.
  - rewrite <- take_take_drop, elem_of_app in Hin. destruct Hin as [Hin|Hin]; [by apply hexRun_units in Hin|by apply escapeSpace_units in Hin].
  - cbn in *. by apply list_elem_of_singleton in Hin as ->.
Qed.

(** An identifier runs over a delimiter only behind a backslash. *)
Lemma identifier_delimiter p s : delimiter p -> pairFree 92 p s -> p ∉ take (identifierLength s) s.
Proof.
  intros Hp. pose proof Hp as (Hb & Hname & _).
  induction s as [|s E|s k E IH|c s Hc IH] using scan_ind; intros Hf; [apply not_elem_of_nil|..]; rewrite identifierLength_cons.
  - cbn -[identifierLength]. rewrite E. apply not_elem_of_nil.
  - cbn -[identifierLength take]. rewrite E. change (S (k + identifierLength (drop k s))) with (S k + identifierLength (drop k s)).
    cbn [Nat.add take]. apply not_elem_of_cons. split; [done|]. rewrite <- take_take_drop, not_elem_of_app. split.
    + intros Hin. apply (escape_units p _ _ Hp E) in Hin. destruct s as [|c s]; [done|]. injection Hin as ->. by apply (Hf [] s).
    + apply IH. rewrite <- (take_drop k s) in Hf. by apply (pairFree_app 92 p (92%N :: take k s)) in Hf as (_ & Hf & _).
  - rewrite (proj2 (N.eqb_neq c 92)) by done. destruct (nameUnit c) eqn:En; [|apply not_elem_of_nil]. cbn. apply not_elem_of_cons.
    split; [congruence|]. apply IH. apply (pairFree_app 92 p [c] s) in Hf as (_ & Hf & _). exact Hf.
Qed.

Lemma last_drop {A} (l : list A) k x : last (drop k l) = Some x -> last l = Some x.
Proof. intros (u & Hu)%last_Some. rewrite <- (take_drop k l), Hu, app_assoc. apply last_snoc. Qed.

(** A text that does not end in a backslash is read alone up to a delimiter. *)
Lemma identifierLength_closed q u x : delimiter q -> last u <> Some 92%N -> identifierLength (u ++ q :: x) = identifierLength u.
Proof.
  intros Hq. induction u as [|s E|s k E IH|c s Hc IH] using scan_ind; intros Hl; cbn [app].
  - destruct Hq as (Hb & Hn & _). rewrite identifierLength_cons, Hn, (proj2 (N.eqb_neq q 92)) by done. done.
  - rewrite !identifierLength_cons. cbn -[identifierLength]. rewrite escapeLength_local by (done || by destruct s). by rewrite E.
  - rewrite !identifierLength_cons. cbn -[identifierLength]. rewrite escapeLength_local by (done || by destruct s). rewrite E.
    apply escapeLength_bounds in E. rewrite drop_app_le by lia. rewrite IH; [done|]. intros H%last_drop. destruct Hl. destruct s; [done|]. done.
  - rewrite !identifierLength_cons, (proj2 (N.eqb_neq c 92)), IH; [done| |done]. intros H. destruct Hl. by destruct s.
Qed.

Section delimiters.
Context (p q : N) (Hp : delimiter p) (Hq : delimiter q) (Hpq : p <> q).
#[local] Instance scan_p : Scanner p plainUnit identifierLength := css_scanner p Hp.
#[local] Instance scan_q : Scanner q plainUnit identifierLength := css_scanner q Hq.

Abbreviation marks := (identifiers p identifierLength).

Lemma identifiers_tokens s l t : Tokens p identifierLength s l t -> marks s = l.*2.
Proof. intros H. unfold identifiers. by rewrite (tokens_unique p identifierLength s l t). Qed.

Lemma identifiers_skip u x : p ∉ u -> marks (u ++ x) = marks x.
Proof.
  intros Hu. pose proof (tokens_spec p plainUnit identifierLength x) as Hx. unfold identifiers at 2.
  destruct (tokens p identifierLength x) as [l t]. cbn in *. destruct Hx as [s Hs|g i r l t Hg Hi Ht].
  - rewrite (identifiers_tokens _ [] (u ++ s)); [done|]. apply Tokens_nil. by apply not_elem_of_app.
  - rewrite (identifiers_tokens _ ((u ++ g, i) :: l) t); [done|]. rewrite app_assoc. apply Tokens_cons; [by apply not_elem_of_app|done|done].
Qed.

Lemma identifiers_cut g x : last g <> Some 92%N -> marks (g ++ q :: x) = marks g ++ marks x.
Proof.
  intros Hg. pose proof (tokens_spec p plainUnit identifierLength g) as Ht. unfold identifiers at 2.
  destruct (tokens p identifierLength g) as [l t]. cbn in *. revert Hg. induction Ht as [s Hs|g i r l t Hg Hi Ht IH]; intros Hl.
  - change (s ++ q :: x) with (s ++ [q] ++ x). rewrite app_assoc. apply identifiers_skip. apply not_elem_of_app. split; [done|].
    apply not_elem_of_cons. split; [done|apply not_elem_of_nil].
  - assert (forall v w, last v = Some 92%N -> last (w ++ v) = Some 92%N) as Hlast by (intros v w Hv; by rewrite last_app, Hv).
    assert (last r <> Some 92%N) as Hlr.
    { intros H. apply Hl. change (g ++ p :: i ++ r) with (g ++ (p :: i) ++ r). rewrite app_assoc. by apply Hlast. }
    specialize (IH Hlr).
    rewrite <- app_assoc. cbn [app]. rewrite <- app_assoc. pose proof (tokens_spec p plainUnit identifierLength (r ++ q :: x)) as Hr.
    unfold identifiers in IH at 1. rewrite (identifiers_tokens _ ((g, i) :: (tokens p identifierLength (r ++ q :: x)).1) (tokens p identifierLength (r ++ q :: x)).2).
    + cbn. by rewrite IH.
    + apply Tokens_cons; [done| |done]. rewrite app_assoc, identifierLength_closed; [done|done|].
      intros H. apply Hl. change (g ++ p :: i ++ r) with (g ++ [p] ++ i ++ r). rewrite (app_assoc g). by apply Hlast.
Qed.

(** Renaming behind [q] leaves the identifiers behind [p] alone, when neither is
    escaped. *)
Lemma identifiers_other f s l t : Tokens q identifierLength s l t -> tame plainUnit f l.*2 -> pairFree 92 p s -> pairFree 92 q s ->
  marks (render q (onToken f <$> l) t) = marks s.
Proof.
  induction 1 as [s Hs|g i r l t Hg Hi Ht IH]; intros Hf Fp Fq; [done|]. cbn in Hf. apply Forall_cons in Hf as [Hfi Hf].
  apply pairFree_app in Fq as (_ & Fq & Hlast), Fp as (_ & Fp & _).
  apply (pairFree_app _ _ [q]) in Fq as (_ & Fq & _), Fp as (_ & Fp & _).
  assert (p ∉ i) as Hpi. { rewrite <- (take_app_length i r), <- Hi. by apply identifier_delimiter. }
  apply pairFree_app in Fq as (_ & Fq & _), Fp as (_ & Fp & _). cbn. rewrite render_cons. cbn.
  rewrite !identifiers_cut by (intros Hg'; apply Hlast; by split). f_equal. rewrite !identifiers_skip; [by apply IH|done|].
  destruct Hfi as [->|Hfi]; [done|]. intros Hin. rewrite Forall_forall in Hfi. apply Hfi, plain_name in Hin. destruct Hp as (_ & Hn & _).
  destruct Hin. congruence.
Qed.
End delimiters.

(** Renaming does not escape a delimiter. *)
Lemma pairFree_render p q f s l t : q <> 92%N ->
  Tokens q identifierLength s l t -> tame plainUnit f l.*2 -> pairFree 92 p s ->
  pairFree 92 p (render q (onToken f <$> l) t) /\ head (render q (onToken f <$> l) t) = head s.
Proof.
  intros Hq. induction 1 as [s Hs|g i r l t Hg Hi Ht IH]; intros Hf F; [done|]. cbn in Hf. apply Forall_cons in Hf as [Hfi Hf].
  cbn. rewrite render_cons. cbn. split; [|by destruct g]. apply pairFree_app in F as (Fg & F & Hlast).
  change (q :: i ++ r) with ([q] ++ i ++ r) in F. apply pairFree_app in F as (F1 & F & _). apply pairFree_app in F as (Fi & Fr & Hir).
  destruct (IH Hf Fr) as [IHr Hhead]. apply pairFree_app. split_and!; [done| |done].
  apply (pairFree_app 92 p [q]). split_and!; [done| |by intros [[= ->] _]]. apply pairFree_app. rewrite Hhead.
  destruct Hfi as [->|Hfi]; [done|]. rewrite Forall_forall in Hfi. split_and!; [|done|].
  - intros u v E. destruct (plain_name 92) as [_ []]; [|done]. apply Hfi. rewrite E. apply elem_of_app. right. apply elem_of_cons. by left.
  - intros [E _]. destruct (plain_name 92) as [_ []]; [|done]. apply Hfi. apply last_Some in E as (u & ->). apply elem_of_app. right.
    by apply list_elem_of_singleton.
Qed.
