(* ===== verification/SelectorHtml.v ===== *)
(** * Selectors: edits, attributes and pages

    Edits applied from the last to the first splice the text once; a start tag is
    cut into the values of its attributes and the text between them, and mapping
    the tag maps exactly the values.  Pages are in PageMarkup. *)

From stdpp Require Import base tactics option list numbers strings.
From Stdlib Require Import Lia.
From S2P Require Import Prelude JsString Regex Selectors SelectorProps.
#[local] Open Scope nat_scope.

(** ** Edits *)

(** Edits in the order of a text of [n] units, at least one unit apart. *)
Fixpoint ordered (n off : nat) (l : list edit) : Prop :=
  match l with
  | [] => True
  | e :: l' => off <= editStart e /\ editStart e <= editEnd e <= n /\ ordered n (S (editEnd e)) l'
  end.

(** The text from [off] on, each range replaced as it is met. *)
Fixpoint splice (off : nat) (l : list edit) (s : jstr) : jstr :=
  match l with
  | [] => s
  | e :: l' => take (editStart e - off) s ++ editText e ++ splice (editEnd e) l' (drop (editEnd e - off) s)
  end.

Lemma ordered_weaken n a b l : a <= b -> ordered n b l -> ordered n a l.
Proof. destruct l as [|e l]; cbn; [done|]. intros Hab (H1 & H2 & H3). split_and!; try lia. done. Qed.

Lemma insertEdit_first e l : Forall (fun e' => editStart e' < editStart e) l -> insertEdit e l = e :: l.
Proof. destruct 1 as [|e' l He Hl]; [done|]. cbn [insertEdit]. by rewrite (proj2 (Nat.ltb_lt _ _)). Qed.

Lemma ordered_starts n off l : ordered n off l -> Forall (fun e => off <= editStart e) l.
Proof.
  revert off. induction l as [|e l IH]; intros off; [done|]. cbn. intros (H1 & H2 & H3). apply Forall_cons. split; [done|].
  apply IH in H3. eapply Forall_impl; [exact H3|]. cbn. lia.
Qed.

Lemma sortEdits_ordered n off l : ordered n off l -> sortEdits l = rev l.
Proof.
  unfold sortEdits. intros Hl. rewrite <- (app_nil_r (rev l)). assert (Forall (fun e => editStart e < off) ([] : list edit)) as Ha by done.
  revert Ha. generalize ([] : list edit) as acc. revert off Hl. induction l as [|e l IH]; intros off Hl acc Ha; [done|].
  cbn in *. destruct Hl as (H1 & H2 & H3). rewrite insertEdit_first by (eapply Forall_impl; [exact Ha|]; cbn; lia).
  rewrite (IH _ H3) by (apply Forall_cons; split; [lia|]; eapply Forall_impl; [exact Ha|]; cbn; lia). by rewrite <- app_assoc.
Qed.

Lemma foldr_splice off l s : ordered (length s) off l ->
  foldr (fun e s => applyEdit s e) s l = take off s ++ splice off l (drop off s).
Proof.
  revert off. induction l as [|e l IH]; intros off Hl; cbn [foldr splice]; [by rewrite take_drop|].
  destruct Hl as (H1 & [H2 Hn] & H3). rewrite (IH (editEnd e)) by (eapply ordered_weaken; [|exact H3]; lia). unfold applyEdit.
  rewrite take_app_le by (rewrite length_take; lia). rewrite take_take, Nat.min_l by done.
  rewrite (drop_app_length' (take (editEnd e) s)) by (rewrite length_take; lia).
  rewrite drop_drop. replace (off + (editEnd e - off)) with (editEnd e) by lia.
  replace (editStart e) with (off + (editStart e - off)) at 1 by lia. rewrite <- take_take_drop. by rewrite <- app_assoc.
Qed.

(** Applying the edits from the last to the first is one pass over the text. *)
Lemma applyEdits_splice l s : ordered (length s) 0 l -> applyEdits l s = splice 0 l s.
Proof.
  intros Hl. unfold applyEdits. rewrite (sortEdits_ordered _ _ _ Hl). apply foldr_splice in Hl. rewrite drop_0 in Hl. change (take 0 s) with ([] : jstr) in Hl. rewrite app_nil_l in Hl.
  rewrite <- Hl. clear Hl. induction l as [|e l IH]; [done|]. cbn. by rewrite foldl_app, IH.
Qed.

(** ** Spans *)

(** [r] does not continue a run of units in [P]. *)
Definition stops (P : N -> bool) (r : jstr) : Prop := match r with c :: _ => P c = false | [] => True end.

Lemma spanLength_app P u r : Forall (fun c => P c = true) u -> stops P r -> spanLength P (u ++ r) = length u.
Proof.
  intros Hu Hr. induction Hu as [|c u Hc Hu IH]; cbn; [|by rewrite Hc, IH]. destruct r as [|c r]; [done|]. cbn in *. by rewrite Hr.
Qed.

Lemma span_split P s : exists u r, s = u ++ r /\ Forall (fun c => P c = true) u /\ stops P r.
Proof.
  induction s as [|c s (u & r & -> & Hu & Hr)]; [by exists [], []|]. destruct (P c) eqn:Hc.
  - exists (c :: u), r. split_and!; [done|by apply Forall_cons|done].
  - exists [], (c :: u ++ r). split_and!; [done|done|done].
Qed.

(** ** The parts of a start tag after its name *)

Inductive segment : Type :=
  | Between (text : jstr)
  | Value (quote : option N) (name text : jstr).

Definition segmentText (x : segment) : jstr := match x with Between t | Value _ _ t => t end.
Definition tagText (l : list segment) : jstr := l ≫= segmentText.

Abbreviation spaces u := (Forall (fun c => is_space c = true) u).

Definition leads (name ws : jstr) : Prop := Forall (fun c => attributeNameUnit c = true) name /\ (name = [] -> ws = []) /\ spaces ws.
Definition is_quote (c : N) : bool := (c =? 34)%N || (c =? 39)%N.

Inductive Attributes : jstr -> list segment -> Prop :=
  | Attributes_end u r : spaces u -> (r = [] \/ exists c r', r = c :: r' /\ (c = 62%N \/ c = 47%N)) ->
      Attributes (u ++ r) [Between (u ++ r)]
  | Attributes_bare u name ws r l : spaces u -> name <> [] -> leads name ws ->
      stops is_space r -> stops (fun c => (c =? 61)%N) r -> (ws = [] -> stops attributeNameUnit r) ->
      Attributes r l -> Attributes (u ++ name ++ ws ++ r) (Between (u ++ name ++ ws) :: l)
  | Attributes_unquoted u name ws ws' v r l : spaces u -> leads name ws -> spaces ws' ->
      Forall (fun c => unquotedUnit c = true) v -> stops unquotedUnit r -> stops is_space (v ++ r) -> stops is_quote (v ++ r) ->
      Attributes r l ->
      Attributes ((u ++ name ++ ws ++ 61%N :: ws') ++ v ++ r) (Between (u ++ name ++ ws ++ 61%N :: ws') :: Value None (toLowerCase name) v :: l)
  | Attributes_quoted u name ws ws' q v closing r l : spaces u -> leads name ws -> spaces ws' ->
      is_quote q = true -> (q ∉ v) -> (closing = [q] \/ closing = [] /\ r = []) -> Attributes r l ->
      Attributes ((u ++ name ++ ws ++ 61%N :: ws' ++ [q]) ++ v ++ closing ++ r)
        (Between (u ++ name ++ ws ++ 61%N :: ws' ++ [q]) :: Value (Some q) (toLowerCase name) v :: Between closing :: l).

(** Where the values are. *)
Fixpoint valuesAt (index : nat) (l : list segment) : list attribute :=
  match l with
  | [] => []
  | Between t :: l' => valuesAt (index + length t) l'
  | Value _ name t :: l' =>
      {| attributeName := name; valueStart := index; valueEnd := index + length t; attributeValue := t |} :: valuesAt (index + length t) l'
  end.

Lemma Attributes_text s l : Attributes s l -> tagText l = s.
Proof.
  unfold tagText. induction 1 as [u r Hu Hr|u name ws r l Hu Hn Hl H1 H2 H3 Ht IH|u name ws ws' v r l Hu Hl Hw Hv H1 H2 H3 Ht IH
    |u name ws ws' q v closing r l Hu Hl Hw Hq Hv Hc Ht IH]; cbn -[app].
  - by rewrite app_nil_r.
  - rewrite IH. by rewrite <- !app_assoc.
  - by rewrite IH.
  - by rewrite IH.
Qed.

Lemma tagText_cons x l : tagText (x :: l) = segmentText x ++ tagText l.
Proof. done. Qed.

(** Induction on attributes begins with the text between them. *)
Lemma Attributes_head s l : Attributes s l -> exists t l', l = Between t :: l' /\ (t <> [] \/ l' = []).
Proof.
  destruct 1 as [u r|u name ws r l Hu Hn|u name ws ws' v r l|u name ws ws' q v closing r l].
  - eexists _, _. split; [done|by right].
  - eexists _, _. split; [done|left]. by destruct u, name.
  - eexists _, _. split; [done|left]. by destruct u, name, ws.
  - eexists _, _. split; [done|left]. by destruct u, name, ws.
Qed.

Lemma attributeNameUnit_out c : attributeNameUnit c = true -> is_space c = false /\ c <> 61%N /\ c <> 47%N /\ c <> 62%N.
Proof.
  unfold attributeNameUnit. rewrite !andb_true_iff, !negb_true_iff, !N.eqb_neq. tauto.
Qed.

Lemma space_not_name c : is_space c = true -> attributeNameUnit c = false.
Proof. unfold attributeNameUnit. by intros ->. Qed.

Lemma stops_space_name u r : spaces u -> (u = [] -> stops attributeNameUnit r) -> stops attributeNameUnit (u ++ r).
Proof. destruct 1 as [|c u Hc Hu]; intros H; [by apply H|]. cbn. by apply space_not_name. Qed.

(** One turn of the loop up to what follows the name. *)
Lemma attributes_lead n index u name ws r : spaces u -> leads name ws ->
  stops is_space r -> (ws = [] -> stops attributeNameUnit r) -> (name = [] -> head r = Some 61%N) ->
  attributes_fuel (S n) index (u ++ name ++ ws ++ r) =
  let i3 := index + length (u ++ name ++ ws) in
  match r with
  | [] => []
  | d :: s4 =>
      if (d =? 61)%N then
        let '(a, j, rest) := readValue (toLowerCase name) (S i3 + spanLength is_space s4) (drop (spanLength is_space s4) s4) in
        a :: attributes_fuel n j rest
      else attributes_fuel n i3 r
  end.
Proof.
  intros Hu (Hname & Hnw & Hws) Hr Hrn Hne. cbn [attributes_fuel].
  rewrite (spanLength_app is_space u (name ++ ws ++ r)); [|done|].
  2: { destruct Hname as [|c name Hc Hname]; [by rewrite (Hnw eq_refl)|]. cbn. by apply attributeNameUnit_out in Hc as []. }
  rewrite drop_app_length. assert (exists c s1, name ++ ws ++ r = c :: s1 /\ ((c =? 62) || (c =? 47))%N = false) as (c & s1 & Es & Hc).
  { destruct Hname as [|c name Hc Hname].
    - rewrite (Hnw eq_refl). specialize (Hne eq_refl). destruct r as [|d r]; [done|]. injection Hne as ->. eexists _, _. by split.
    - eexists _, _. split; [done|]. apply attributeNameUnit_out in Hc as (_ & _ & H1 & H2). by apply orb_false_iff; rewrite !N.eqb_neq. }
  rewrite Es, Hc, <- Es. clear Es Hc c s1.
  rewrite (spanLength_app attributeNameUnit name (ws ++ r)) by (done || by apply stops_space_name).
  rewrite drop_app_length, take_app_length, (spanLength_app is_space ws r) by done. rewrite drop_app_length.
  rewrite !length_app. replace (index + (length u + (length name + length ws))) with (index + length u + length name + length ws) by lia. done.
Qed.

Lemma unquoted_step name index v r : Forall (fun c => unquotedUnit c = true) v -> stops unquotedUnit r -> stops is_quote (v ++ r) ->
  readValue name index (v ++ r) =
  ({| attributeName := name; valueStart := index; valueEnd := index + length v; attributeValue := v |}, index + length v, r).
Proof.
  intros Hv Hr Hq. unfold readValue. replace (openingQuote (v ++ r)) with (None : option N).
  - by rewrite spanLength_app, take_app_length, drop_app_length.
  - unfold openingQuote. destruct (v ++ r) as [|c s]; [done|]. cbn in Hq. unfold is_quote in Hq. by rewrite Hq.
Qed.

Lemma quoted_step name index q v closing r : is_quote q = true -> q ∉ v -> (closing = [q] \/ closing = [] /\ r = []) ->
  readValue name index (q :: v ++ closing ++ r) =
  ({| attributeName := name; valueStart := S index; valueEnd := S index + length v; attributeValue := v |},
   S index + length v + length closing, r).
Proof.
  intros Hq Hv Hc. unfold readValue. cbn [openingQuote]. unfold is_quote in Hq. rewrite Hq. cbn [tail].
  rewrite spanLength_app; [rewrite take_app_length, drop_app_length; by destruct Hc as [->|[-> ->]]| |].
  - apply Forall_forall. intros c Hin. apply negb_true_iff, N.eqb_neq. by intros ->.
  - destruct Hc as [->|[-> ->]]; [|done]. cbn. by rewrite N.eqb_refl.
Qed.

(** The loop reads the values of the parts. *)
Lemma Attributes_read s l : Attributes s l -> forall n index, length s <= n -> attributes_fuel n index s = valuesAt index l.
Proof.
  induction 1 as [u r Hu Hr|u name ws r l Hu Hn Hl H1 H2 H3 Ht IH|u name ws ws' v r l Hu Hl Hw Hv H1 H2 H3 Ht IH
    |u name ws ws' q v closing r l Hu Hl Hw Hq Hv Hc Ht IH]; intros n index Hlen.
  - destruct n as [|n]; [done|]. cbn [attributes_fuel]. rewrite spanLength_app, drop_app_length; [|done|].
    + destruct Hr as [->|(c & r' & -> & [-> | ->])]; done.
    + destruct Hr as [->|(c & r' & -> & [-> | ->])]; done.
  - rewrite !length_app in Hlen. destruct n as [|n]; [destruct name; [done|cbn in Hlen; lia]|]. rewrite attributes_lead by done. cbn [valuesAt]. cbn zeta.
    rewrite <- (IH n) by (destruct name; [done|cbn in Hlen; lia]).
    destruct r as [|d r]; [by destruct n|]. cbn in H2. by rewrite H2.
  - rewrite !length_app in Hlen. destruct n as [|n]; [cbn in Hlen; lia|]. rewrite <- !app_assoc. cbn [app].
    rewrite attributes_lead by done. cbn [valuesAt]. cbn zeta. rewrite N.eqb_refl, spanLength_app, drop_app_length by done.
    rewrite unquoted_step by done. rewrite IH by (cbn in Hlen; lia). rewrite !length_app. cbn [length].
    replace (S (index + (length u + (length name + length ws))) + length ws') with (index + (length u + (length name + (length ws + S (length ws'))))) by lia.
    done.
  - rewrite !length_app in Hlen. destruct n as [|n]; [cbn in Hlen; lia|]. rewrite <- !app_assoc. cbn [app]. rewrite <- !app_assoc. cbn [app].
    rewrite attributes_lead by done. cbn [valuesAt]. cbn zeta. rewrite N.eqb_refl, spanLength_app, drop_app_length.
    + rewrite quoted_step by done. rewrite IH by (cbn in Hlen; lia). rewrite !length_app. cbn [length]. rewrite !length_app. cbn [length].
      match goal with |- {| attributeName := _; valueStart := ?a; valueEnd := _; attributeValue := _ |} :: _ = {| attributeName := _; valueStart := ?b; valueEnd := _; attributeValue := _ |} :: _ =>
        replace a with b by lia end. done.
    + done.
    + cbn. unfold is_quote in Hq. apply orb_true_iff in Hq as [E%N.eqb_eq|E%N.eqb_eq]; by subst q.
Qed.

Lemma stops_head P r r' : head r = head r' -> stops P r -> stops P r'.
Proof. destruct r as [|c r], r' as [|c' r']; cbn; try done. by intros [= ->]. Qed.

(** Every text has its parts. *)
Lemma Attributes_total s : exists l, Attributes s l.
Proof.
  remember (length s) as n eqn:Hn. revert s Hn. induction (lt_wf n) as [n _ IH]. intros s ->.
  destruct (span_split is_space s) as (u & s1 & -> & Hu & Hs1). destruct (decide (head s1 = None \/ head s1 = Some 62%N \/ head s1 = Some 47%N)) as [He|He].
  { eexists. apply Attributes_end; [done|]. destruct s1 as [|c s1]; [by left|right]. eexists _, _. split; [done|].
    destruct He as [He|[He|He]]; [done|injection He; auto..]. }
  destruct (span_split attributeNameUnit s1) as (name & s2 & -> & Hname & Hs2).
  destruct (span_split is_space s2) as (ws & r & -> & Hws & Hr).
  assert (name = [] -> ws = [] /\ head r = Some 61%N) as Hempty.
  { intros ->. cbn in *. destruct ws as [|c ws]; cbn in *.
    - split; [done|]. destruct r as [|c r]; [tauto|]. cbn in *. f_equal. unfold attributeNameUnit in Hs2.
      rewrite Hs1 in Hs2. cbn in Hs2. destruct (N.eqb_spec c 61); [done|]. destruct (N.eqb_spec c 47); [subst; tauto|].
      destruct (N.eqb_spec c 62); [subst; tauto|]. done.
    - apply Forall_cons in Hws as [Hc _]. congruence. }
  assert (leads name ws) as Hl by (split_and!; [done|intros H; by destruct (Hempty H)|done]).
  destruct (decide (head r = Some 61%N)) as [Hd|Hd].
  2: { assert (name <> []) as Hne by (intros H; apply Hempty in H; tauto).
    destruct (IH (length r)) with r as (l & Hr'); [rewrite !length_app; destruct name; [done|cbn; lia]|done|].
    eexists. apply Attributes_bare; [done|done|done|done| |by intros ->|done]. destruct r as [|d r]; [done|]. cbn. apply N.eqb_neq. intros ->. by apply Hd. }
  destruct r as [|d s4]; [done|]. injection Hd as ->. destruct (span_split is_space s4) as (ws' & s5 & -> & Hw' & Hs5).
  destruct (span_split is_quote s5) as ([|q qs] & s6 & -> & Hq & Hs6); cbn [app] in *.
  - destruct (span_split unquotedUnit s6) as (v & r & -> & Hv & Hr'). destruct (IH (length r)) with r as (l & Hr''); [|done|].
    { rewrite !length_app. cbn. rewrite !length_app. lia. }
    eexists. replace (u ++ name ++ ws ++ 61%N :: ws' ++ v ++ r) with ((u ++ name ++ ws ++ 61%N :: ws') ++ v ++ r) by (by rewrite <- !app_assoc).
    by apply Attributes_unquoted.
  - apply Forall_cons in Hq as [Hq _]. destruct (span_split (fun c => negb (c =? q)%N) (qs ++ s6)) as (v & r & E & Hv & Hr'). rewrite E in *.
    assert (exists closing r', r = closing ++ r' /\ (closing = [q] \/ closing = [] /\ r' = [])) as (closing & r' & -> & Hc).
    { destruct r as [|c r]; [exists [], []; auto|]. cbn in Hr'. apply negb_false_iff, N.eqb_eq in Hr' as ->. exists [q], r. auto. }
    destruct (IH (length r')) with r' as (l & Hr''); [|done|]. { rewrite !length_app. cbn. rewrite !length_app. cbn. rewrite !length_app. lia. }
    eexists. replace (u ++ name ++ ws ++ 61%N :: ws' ++ q :: v ++ closing ++ r') with ((u ++ name ++ ws ++ 61%N :: ws' ++ [q]) ++ v ++ closing ++ r')
      by (rewrite <- !app_assoc; cbn; by rewrite <- !app_assoc).
    apply Attributes_quoted; [done..| |done|done]. intros Hin. rewrite Forall_forall in Hv. apply Hv in Hin. by rewrite N.eqb_refl in Hin.
Qed.

(** ** Mapping the values *)

Definition onValue (f : jstr -> jstr -> jstr) (x : segment) : segment :=
  match x with Between t => Between t | Value quote name t => Value quote name (f name t) end.

(** A new value stays inside its quotes. *)
Definition fits (f : jstr -> jstr -> jstr) (x : segment) : Prop :=
  match x with
  | Between _ => True
  | Value None name t => f name t = t \/ f name t <> [] /\ Forall (fun c => unquotedUnit c = true) (f name t) /\ stops is_quote (f name t)
  | Value (Some q) name t => q ∉ f name t
  end.

Lemma tagText_head f s l : Attributes s l -> head (tagText (onValue f <$> l)) = head s.
Proof.
  intros H. rewrite <- (Attributes_text _ _ H). destruct (Attributes_head _ _ H) as (t & l' & -> & Ht). unfold tagText. cbn.
  destruct t as [|c t]; [|done]. destruct Ht as [Ht| ->]; done.
Qed.

Lemma unquoted_no_space c : unquotedUnit c = true -> is_space c = false.
Proof. unfold unquotedUnit. rewrite andb_true_iff, negb_true_iff. tauto. Qed.

Lemma Attributes_map f s l : Attributes s l -> Forall (fits f) l -> Attributes (tagText (onValue f <$> l)) (onValue f <$> l).
Proof.
  induction 1 as [u r Hu Hr|u name ws r l Hu Hn Hl H1 H2 H3 Ht IH|u name ws ws' v r l Hu Hl Hw Hv H1 H2 H3 Ht IH
    |u name ws ws' q v closing r l Hu Hl Hw Hq Hv Hc Ht IH]; intros Hf; cbn [fmap list_fmap onValue]; rewrite !tagText_cons; cbn [segmentText].
  - rewrite app_nil_r. by apply Attributes_end.
  - apply Forall_cons in Hf as [_ Hf]. pose proof (eq_sym (tagText_head f _ _ Ht)) as Hh. rewrite <- !app_assoc.
    apply Attributes_bare; eauto using stops_head.
  - apply Forall_cons in Hf as [_ [Hfv Hf]%Forall_cons]. cbn in Hfv. pose proof (eq_sym (tagText_head f _ _ Ht)) as Hh.
    apply Attributes_unquoted; eauto using stops_head.
    + by destruct Hfv as [->|(_ & ? & _)].
    + destruct Hfv as [->|(Hne & Hfu & _)]; [eapply stops_head; [|exact H2]; by destruct v|]. destruct (f _ v) as [|c v']; [done|].
      cbn. apply Forall_cons in Hfu as [Hc _]. by apply unquoted_no_space.
    + destruct Hfv as [->|(Hne & _ & Hq)]; [eapply stops_head; [|exact H3]; by destruct v|]. by destruct (f _ v).
  - apply Forall_cons in Hf as [_ [Hfv [_ Hf]%Forall_cons]%Forall_cons]. cbn in Hfv. apply Attributes_quoted; eauto.
    destruct Hc as [->|[-> ->]]; [by left|right]. split; [done|]. pose proof (tagText_head f _ _ Ht) as Hh. by destruct (tagText _).
Qed.

(** ** Start tags *)

Lemma tagNameLength_split tag k : tagNameLength tag = Some k <->
  exists u c name r, tag = (60%N :: u ++ c :: name) ++ r /\ k = length (60%N :: u ++ c :: name) /\
    spaces u /\ letterUnit c = true /\ Forall (fun d => tagNameUnit d = true) name /\ stops tagNameUnit r.
Proof.
  assert (forall c, letterUnit c = true -> is_space c = false) as Hls.
  { intros c Hc. unfold is_space. apply orb_false_iff. unfold letterUnit, in_class in Hc. cbn in Hc.
    rewrite orb_false_r, orb_true_iff, !andb_true_iff, !N.leb_le in Hc. split.
    - apply bool_decide_eq_false. intros Hin. repeat (apply elem_of_cons in Hin as [->|Hin]; [lia|]). by apply not_elem_of_nil in Hin.
    - apply andb_false_iff. left. apply N.leb_gt. lia. }
  split.
  - destruct tag as [|o s]; cbn; [done|]. destruct (span_split is_space s) as (u & s1 & -> & Hu & Hs1).
    rewrite spanLength_app, drop_app_length by done. destruct s1 as [|c s1]; [done|].
    destruct (N.eqb_spec o 60) as [->|]; cbn; [|done]. destruct (letterUnit c) eqn:Hc; [|done].
    destruct (span_split tagNameUnit s1) as (name & r & -> & Hn & Hr). rewrite spanLength_app by done. intros [= <-].
    exists u, c, name, r. split_and!; try done; [by rewrite <- app_assoc|]. rewrite length_app. cbn. lia.
  - intros (u & c & name & r & -> & -> & Hu & Hc & Hn & Hr). cbn. rewrite <- app_assoc. cbn.
    rewrite spanLength_app, drop_app_length by (done || cbn; by apply Hls). rewrite Hc, spanLength_app by done. cbn. rewrite length_app. done.
Qed.

Section tag.
Context (ids classes : mapping).
Definition mapValue (name v : jstr) : jstr := mapHtmlAttribute name v ids classes.

Lemma attributeEdits_ordered s l n index : Attributes s l -> index + length s <= n ->
  ordered n (S index) (valuesAt index l ≫= attributeEdits ids classes).
Proof.
  intros H. revert n index.
  assert (forall n a b name v rest, S a <= b -> b + length v <= n -> ordered n (S (b + length v)) rest ->
    ordered n (S a) (attributeEdits ids classes {| attributeName := name; valueStart := b; valueEnd := b + length v; attributeValue := v |} ++ rest)) as Hone.
  { intros n a b name v rest Hab Hn Hr. unfold attributeEdits. cbn. case_decide; cbn; [|split_and!; done || lia].
    eapply ordered_weaken; [|exact Hr]. lia. }
  induction H as [u r Hu Hr|u name ws r l Hu Hn Hl H1 H2 H3 Ht IH|u name ws ws' v r l Hu Hl Hw Hv H1 H2 H3 Ht IH
    |u name ws ws' q v closing r l Hu Hl Hw Hq Hv Hc Ht IH]; intros n index Hlen; rewrite !length_app in Hlen; cbn [valuesAt]; try done.
  - eapply ordered_weaken; [|apply IH]; rewrite !length_app; lia.
  - cbn [mbind list_bind]. cbn in Hlen. apply Hone; [rewrite !length_app; cbn; lia..|]. apply IH. rewrite !length_app. cbn. lia.
  - cbn [mbind list_bind]. cbn in Hlen. rewrite !length_app in Hlen. cbn in Hlen.
    apply Hone; [rewrite !length_app; cbn; rewrite !length_app; cbn; lia..|]. eapply ordered_weaken; [|apply IH]; [lia|].
    rewrite !length_app. cbn. rewrite !length_app. cbn. lia.
Qed.

Lemma splice_segments l off index w : off + length w = index ->
  splice off (valuesAt index l ≫= attributeEdits ids classes) (w ++ tagText l) = w ++ tagText (onValue mapValue <$> l).
Proof.
  revert off index w. induction l as [|[t|quote name t] l IH]; intros off index w Hw; cbn [valuesAt fmap list_fmap onValue]; [done|..].
  - rewrite !tagText_cons, !app_assoc. cbn [segmentText]. apply IH. rewrite length_app. lia.
  - cbn [mbind list_bind]. unfold attributeEdits at 1. cbn [attributeName attributeValue valueStart valueEnd]. rewrite !tagText_cons. cbn [segmentText].
    fold (mapValue name t). case_decide as E.
    + rewrite E, !app_assoc. cbn [app]. apply IH. rewrite length_app. lia.
    + cbn [app splice editStart editEnd editText]. rewrite <- Hw at 1. replace (off + length w - off) with (length w) by lia.
      rewrite take_app_length. do 2 f_equal. replace (index + length t - off) with (length (w ++ t)) by (rewrite length_app; lia).
      rewrite app_assoc, drop_app_length. apply (IH _ _ []). cbn. lia.
Qed.

(** A mapped start tag is the tag with its values mapped. *)
Lemma mapHtmlStartTag_segments k a s l : tagNameLength (a ++ s) = Some k -> k = length a -> Attributes s l ->
  tagAttributes (a ++ s) = valuesAt k l /\ mapHtmlStartTag (a ++ s) ids classes = a ++ tagText (onValue mapValue <$> l).
Proof.
  intros Hk -> Hs. assert (tagAttributes (a ++ s) = valuesAt (length a) l) as Ha.
  { unfold tagAttributes. rewrite Hk, drop_app_length. apply Attributes_read; [done|]. rewrite length_app. lia. }
  split; [done|]. unfold mapHtmlStartTag. rewrite Ha, applyEdits_splice.
  - rewrite <- (Attributes_text _ _ Hs) at 1. apply splice_segments. done.
  - apply (ordered_weaken _ _ (S (length a))); [lia|]. apply (attributeEdits_ordered s); [done|]. rewrite length_app. lia.
Qed.
End tag.

(** ** New values stay inside their quotes *)

(** Plain, non-empty names on both sides. *)
Definition goodMapping (m : mapping) : Prop := Forall (fun e => e.1 <> [] /\ e.2 <> [] /\ Forall plainUnit e.2) m.

(** [w] uses units of [v] and plain units, and begins as [v] does. *)
Definition refines (v w : jstr) : Prop := (forall c, c ∈ w -> c ∈ v \/ plainUnit c) /\ head w = head v.

Lemma refines_refl v : refines v v.
Proof. split; [by left|done]. Qed.

Lemma refines_trans v w x : refines v w -> refines w x -> refines v x.
Proof. intros [H1 H2] [H3 H4]. split; [|congruence]. intros c Hc. destruct (H3 c Hc); [by apply H1|by right]. Qed.

Lemma goodMapping_lookup m k t : goodMapping m -> lookupName m k = Some t -> k <> [] /\ t <> [] /\ Forall plainUnit t.
Proof. intros Hm H%lookupName_elem. unfold goodMapping in Hm. rewrite Forall_forall in Hm. apply (Hm _ H). Qed.

Lemma rewrite_refines p f s : delimiter p -> (forall i c, c ∈ f i -> c ∈ i \/ plainUnit c) -> refines s (rewrite p identifierLength f s).
Proof.
  intros Hp Hf. pose proof (css_scanner p Hp) as Hscan. unfold rewrite. pose proof (tokens_spec p plainUnit identifierLength s) as Ht.
  destruct (tokens p identifierLength s) as [l t]. cbn in *. induction Ht as [s Hs|g i r l t Hg Hi Ht [IH _]]; [apply refines_refl|].
  cbn. rewrite render_cons. split; [|by destruct g]. cbn. intros c Hc. rewrite !elem_of_app, !elem_of_cons, !elem_of_app in *.
  destruct Hc as [Hc|[Hc|[Hc|Hc]]]; [by auto|by auto|apply Hf in Hc; tauto|apply IH in Hc; tauto].
Qed.

Lemma replaceEach_refines p m s : delimiter p -> goodMapping m -> refines s (replaceEach [p] m s).
Proof.
  intros Hp. revert s. unfold replaceEach. induction m as [|e m IH]; intros s Hm; [apply refines_refl|]. apply Forall_cons in Hm as [He Hm].
  cbn [foldl]. eapply refines_trans; [|by apply IH]. rewrite replaceSelector_rewrite by done. apply rewrite_refines; [done|].
  intros i c. unfold renameIdentifier. cbn. case_decide; cbn; [|auto]. destruct He as (_ & _ & Ht). rewrite Forall_forall in Ht. auto.
Qed.

Lemma mapFragment_units ids s c : goodMapping ids -> c ∈ mapFragment ids s -> c ∈ s \/ plainUnit c.
Proof.
  intros Hm. unfold mapFragment. destruct (decodeURIComponent s) as [d|]; [|auto]. destruct (lookupName ids d) as [t|] eqn:E; cbn; [|auto].
  apply goodMapping_lookup in E as (_ & _ & Ht); [|done]. rewrite Forall_forall in Ht. auto.
Qed.

Lemma mapFragmentValue_refines n ids s : goodMapping ids -> length s <= n -> refines s (mapFragmentValue_fuel n ids s).
Proof.
  intros Hm. revert s. induction n as [|n IH]; intros [|c s] Hn; try apply refines_refl; cbn in Hn; [lia|]. cbn [mapFragmentValue_fuel].
  assert (refines (c :: s) (c :: mapFragmentValue_fuel n ids s)) as Hskip.
  { destruct (IH s) as [H _]; [lia|]. split; [|done]. intros d Hd. rewrite elem_of_cons in *. destruct Hd as [Hd|Hd%H]; tauto. }
  destruct (c =? 35)%N; [|done]. destruct (spanLength fragmentUnit s) as [|k] eqn:Ek; [done|]. split; [|done].
  intros d Hd. rewrite elem_of_cons, elem_of_app in Hd. rewrite elem_of_cons.
  assert (forall x, x ∈ take (S k) s \/ x ∈ drop (S k) s -> x ∈ s) as Hpart by (intros x Hx; rewrite <- (take_drop (S k) s), elem_of_app; done).
  destruct Hd as [Hd|[Hd|Hd]]; [tauto|apply mapFragment_units in Hd as [Hd|Hd]; auto|].
  destruct (IH (drop (S k) s)) as [H _]; [rewrite length_drop; lia|]. apply H in Hd as [Hd|Hd]; auto.
Qed.

Lemma splitSpaces_single v : Forall (fun c => is_space c = false) v -> splitSpaces v = [v].
Proof. induction 1 as [|c v Hc Hv IH]; [done|]. cbn. by rewrite Hc, IH. Qed.

Lemma splitSpaces_units v w c : w ∈ splitSpaces v -> c ∈ w -> c ∈ v.
Proof.
  revert w. induction v as [|d v IH]; intros w; cbn; [intros ->%list_elem_of_singleton Hc; done|].
  destruct (is_space d).
  - intros Hw Hc. apply elem_of_cons. right. destruct v as [|e v].
    + rewrite elem_of_cons, list_elem_of_singleton in Hw. by destruct Hw; subst.
    + destruct (is_space e); [by apply (IH w)|]. apply elem_of_cons in Hw as [->|Hw]; [by apply not_elem_of_nil in Hc|by apply (IH w)].
  - destruct (splitSpaces v) as [|x l].
    + intros ->%list_elem_of_singleton ->%list_elem_of_singleton. apply elem_of_cons. by left.
    + intros [->|Hw]%elem_of_cons Hc.
      * apply elem_of_cons in Hc as [->|Hc]; apply elem_of_cons; [by left|right]. apply (IH x); [apply elem_of_cons; by left|done].
      * apply elem_of_cons. right. apply (IH w); [apply elem_of_cons; by right|done].
Qed.

Lemma join_units sep l c : c ∈ join sep l -> c ∈ sep \/ exists w, w ∈ l /\ c ∈ w.
Proof.
  induction l as [|w [|w' l] IH]; [by intros ?%not_elem_of_nil|intros H; right; exists w; split; [by apply list_elem_of_singleton|done]|].
  rewrite join_cons2, !elem_of_app. intros [Hc|[Hc|Hc]]; [right; exists w; split; [apply elem_of_cons; by left|done]|by left|].
  destruct (IH Hc) as [H|(x & Hx & H)]; [by left|right]. exists x. split; [apply elem_of_cons; by right|done].
Qed.

Lemma renamed_units m k c : goodMapping m -> c ∈ renamed m k -> c ∈ k \/ plainUnit c.
Proof.
  intros Hm. unfold renamed. destruct (lookupName m k) as [t|] eqn:E; cbn; [|auto].
  apply goodMapping_lookup in E as (_ & _ & Ht); [|done]. rewrite Forall_forall in Ht. auto.
Qed.

Lemma plain_out c : plainUnit c -> unquotedUnit c = true /\ is_quote c = false.
Proof.
  unfold plainUnit, wordUnit, in_class. cbn. rewrite !orb_true_iff, !andb_true_iff, !N.leb_le. intros H.
  assert (c < 128 /\ c <> 32 /\ c <> 62 /\ c <> 34 /\ c <> 39 /\ 32 < c)%N as (Hc & _ & H62 & H34 & H39 & H32) by lia.
  unfold unquotedUnit, is_quote, is_space. rewrite !andb_true_iff, !negb_true_iff, !orb_false_iff, !N.eqb_neq. split_and!; try done.
  - apply bool_decide_eq_false. intros Hin. repeat (apply elem_of_cons in Hin as [->|Hin]; [lia|]). by apply not_elem_of_nil in Hin.
  - apply andb_false_iff. left. apply N.leb_gt. lia.
Qed.

Definition quotedRight (x : segment) : Prop :=
  match x with
  | Between _ => True
  | Value None _ v => Forall (fun c => unquotedUnit c = true) v /\ stops is_quote v
  | Value (Some q) _ v => is_quote q = true /\ q ∉ v
  end.

Lemma Attributes_quotes s l : Attributes s l -> Forall quotedRight l.
Proof.
  induction 1 as [u r Hu Hr|u name ws r l Hu Hn Hl H1 H2 H3 Ht IH|u name ws ws' v r l Hu Hl Hw Hv H1 H2 H3 Ht IH
    |u name ws ws' q v closing r l Hu Hl Hw Hq Hv Hc Ht IH].
  - by apply Forall_singleton.
  - by apply Forall_cons.
  - apply Forall_cons. split; [done|]. apply Forall_cons. split; [|done]. split; [done|]. by destruct v.
  - apply Forall_cons. split; [done|]. apply Forall_cons. split; [done|]. by apply Forall_cons.
Qed.

Section fits.
Context (ids classes : mapping) (Hids : goodMapping ids) (Hclasses : goodMapping classes).

Abbreviation unspaced v := (Forall (fun c => is_space c = false) v).

Lemma replaceTokenList_units m v c : goodMapping m -> c ∈ replaceTokenList v m -> c ∈ v \/ plainUnit c \/ c = 32%N /\ ~ unspaced v.
Proof.
  intros Hm. destruct (decide (unspaced v)) as [Hv|Hv].
  - unfold replaceTokenList. rewrite splitSpaces_single by done. cbn. intros Hc. apply renamed_units in Hc; tauto.
  - intros [->%list_elem_of_singleton|(w & Hw & Hc)]%join_units; [auto|]. apply list_elem_of_fmap in Hw as (x & -> & Hx).
    apply renamed_units in Hc as [Hc|Hc]; [left; by eapply splitSpaces_units|auto|done].
Qed.

Lemma mapCssSelectors_refines v : refines v (mapCssSelectors v ids classes).
Proof. apply (refines_trans _ (replaceEach [35%N] ids v)); [by apply (replaceEach_refines 35)|by apply (replaceEach_refines 46)]. Qed.

(** The units of a mapped value. *)
Lemma mapHtmlAttribute_units name v c : c ∈ mapHtmlAttribute name v ids classes -> c ∈ v \/ plainUnit c \/ c = 32%N /\ ~ unspaced v.
Proof.
  unfold mapHtmlAttribute. repeat case_match; [| | | | |tauto].
  - intros Hc. apply renamed_units in Hc; tauto.
  - by apply replaceTokenList_units.
  - by apply replaceTokenList_units.
  - intros Hc. apply (mapFragmentValue_refines (length v) ids v Hids) in Hc; [tauto|done].
  - intros Hc. apply mapCssSelectors_refines in Hc. tauto.
Qed.

Lemma renamed_start m v : goodMapping m -> renamed m v = v \/ renamed m v <> [] /\ Forall plainUnit (renamed m v).
Proof.
  intros Hm. unfold renamed. destruct (lookupName m v) as [t|] eqn:E; [right|by left]. by apply goodMapping_lookup in E as (_ & ?).
Qed.

(** How a mapped value without white space begins. *)
Lemma mapHtmlAttribute_start name v : unspaced v ->
  let w := mapHtmlAttribute name v ids classes in w = v \/ w <> [] /\ Forall plainUnit w \/ head w = head v.
Proof.
  intros Hv. unfold mapHtmlAttribute, replaceTokenList. rewrite splitSpaces_single by done. cbn [fmap list_fmap join].
  repeat case_match; [..|by left].
  - destruct (renamed_start ids v Hids); auto.
  - destruct (renamed_start classes v Hclasses); auto.
  - destruct (renamed_start ids v Hids); auto.
  - right. right. by apply mapFragmentValue_refines.
  - right. right. apply mapCssSelectors_refines.
Qed.

Lemma mapValue_fits x : quotedRight x -> fits (mapValue ids classes) x.
Proof.
  destruct x as [t|[q|] name v]; cbn; [done|..]; unfold mapValue.
  - intros [Hq Hv] Hin. apply mapHtmlAttribute_units in Hin as [Hin|[Hin|[-> _]]]; [done| |done].
    apply plain_out in Hin as [_ Hin]. congruence.
  - intros [Hv Hq]. assert (unspaced v) as Hsp by (eapply Forall_impl; [exact Hv|]; apply unquoted_no_space).
    assert (Forall (fun c => unquotedUnit c = true) (mapHtmlAttribute name v ids classes)) as Hun.
    { rewrite Forall_forall in Hv |- *. intros c [Hc|[Hc|[_ Hc]]]%mapHtmlAttribute_units; [by apply Hv|by apply plain_out|done]. }
    destruct (mapHtmlAttribute_start name v Hsp) as [Hw|[[Hne Hp]|Hh]]; [by left|right|].
    + split_and!; [done|done|]. destruct Hp as [|c w Hc _]; [done|]. by apply plain_out.
    + destruct v as [|c v]; [left|right]; destruct (mapHtmlAttribute _ _ _ _) as [|c' w]; try done. split_and!; [done|done|].
      injection Hh as ->. done.
Qed.

(** A mapped start tag has the attributes of the tag, in order, with mapped
    values. *)
Lemma mapHtmlStartTag_attributes tag :
  (fun a => (attributeName a, attributeValue a)) <$> tagAttributes (mapHtmlStartTag tag ids classes) =
  (fun a => (attributeName a, mapHtmlAttribute (attributeName a) (attributeValue a) ids classes)) <$> tagAttributes tag.
Proof.
  destruct (tagNameLength tag) as [k|] eqn:Hk.
  2: { unfold mapHtmlStartTag. assert (tagAttributes tag = []) as E by (unfold tagAttributes; by rewrite Hk). rewrite E. cbn.
    unfold applyEdits. cbn. by rewrite E. }
  pose proof Hk as (u & c & name & s & -> & -> & Hu & Hc & Hn & Hs)%tagNameLength_split. destruct (Attributes_total s) as (l & Hl).
  destruct (mapHtmlStartTag_segments ids classes _ _ _ _ Hk eq_refl Hl) as [-> ->].
  assert (Attributes (tagText (onValue (mapValue ids classes) <$> l)) (onValue (mapValue ids classes) <$> l)) as Hl'.
  { apply (Attributes_map _ s); [done|]. eapply Forall_impl; [by eapply Attributes_quotes|]. intros x. apply mapValue_fits. }
  assert (tagNameLength ((60%N :: u ++ c :: name) ++ tagText (onValue (mapValue ids classes) <$> l)) = Some (length (60%N :: u ++ c :: name))) as Hk'.
  { apply tagNameLength_split. eexists u, c, name, _. split_and!; try done. eapply stops_head; [|exact Hs]. by rewrite (tagText_head _ s). }
  destruct (mapHtmlStartTag_segments ids classes _ _ _ _ Hk' eq_refl Hl') as [-> _]. generalize (length (60%N :: u ++ c :: name)) at 1 2. intros i.
  clear. generalize i at 2. revert i. induction l as [|[t|quote nm t] l IH]; intros i j; cbn; [done|apply IH|]. f_equal. apply IH.
Qed.
End fits.

(** ** Pages *)

Lemma indexFrom_le p s from i : indexFrom p s from = Some i -> from <= i.
Proof. unfold indexFrom. intros (j & _ & ->)%fmap_Some. lia. Qed.
