(* ===== verification/PageMarkup.v ===== *)
(** * Pages as markup

    A page given by its structure: text, comments, declarations, elements with
    quoted attributes, and the elements whose content is raw text.  The structure
    says what each attribute refers to, so renaming it needs no scanner; the text of
    the renamed page is what [replaceHtmlSelectorReferences] of
    sdk/typescript/scripts/reference-assets.mjs has to make of the text of the
    page. *)

From stdpp Require Import base tactics option list numbers strings.
From Stdlib Require Import Lia.
From S2P Require Import Prelude JsString Regex Selectors SelectorProps SelectorHtml.
#[local] Open Scope nat_scope.

(** ** Structure *)

(** What an attribute holds: the id of an element, a list of classes or of ids, a
    reference to an address with or without a fragment, another text. *)
Inductive AttributeValue : Type :=
  | AnId (id : jstr)
  | ClassList (words : list jstr)
  | IdList (words : list jstr)
  | Address (before fragment after : jstr)
  | NoFragment (text : jstr)
  | OtherText (text : jstr).

Inductive Attribute : Type :=
  | Quoted (name : jstr) (quote : N) (value : AttributeValue)
  | Bare (name : jstr).

Inductive Markup : Type :=
  | Chars (text : jstr)
  | Comment (text : jstr)
  | Declaration (text : jstr)
  | EndTag (name : jstr)
  | Element (name : jstr) (attributes : list Attribute)
  | RawElement (name : jstr) (attributes : list Attribute) (content : jstr).

(** ** Text *)

Definition heldText (v : AttributeValue) : jstr :=
  match v with
  | AnId id => id
  | ClassList words | IdList words => join (js " ") words
  | Address before fragment after => before ++ js "#" ++ fragment ++ after
  | NoFragment text | OtherText text => text
  end.

Definition attributeText (a : Attribute) : jstr :=
  match a with
  | Quoted name q v => name ++ js "=" ++ [q] ++ heldText v ++ [q]
  | Bare name => name
  end.

Definition startTagText (name : jstr) (attributes : list Attribute) : jstr :=
  js "<" ++ name ++ (attributes ≫= fun a => js " " ++ attributeText a) ++ js ">".

Definition markupText (x : Markup) : jstr :=
  match x with
  | Chars text => text
  | Comment text => js "<!--" ++ text ++ js "-->"
  | Declaration text => js "<!" ++ text ++ js ">"
  | EndTag name => js "</" ++ name ++ js ">"
  | Element name attributes => startTagText name attributes
  | RawElement name attributes content => startTagText name attributes ++ content ++ js "</" ++ name ++ js ">"
  end.

Definition pageText (page : list Markup) : jstr := page ≫= markupText.

(** ** Renaming *)

(** The new name of a name, which stays as it is when it is not mapped. *)
Definition newName (m : list (jstr * jstr)) (name : jstr) : jstr :=
  match List.find (fun e => bool_decide (e.1 = name)) m with Some e => e.2 | None => name end.

Section rename.
Context (ids classes : list (jstr * jstr)).

Definition renameValue (v : AttributeValue) : AttributeValue :=
  match v with
  | AnId id => AnId (newName ids id)
  | ClassList words => ClassList (newName classes <$> words)
  | IdList words => IdList (newName ids <$> words)
  | Address before fragment after => Address before (newName ids fragment) after
  | NoFragment text => NoFragment text
  | OtherText text => OtherText text
  end.

Definition renameAttribute (a : Attribute) : Attribute :=
  match a with Quoted name q v => Quoted name q (renameValue v) | Bare name => Bare name end.

Definition renameMarkup (x : Markup) : Markup :=
  match x with
  | Element name attributes => Element name (renameAttribute <$> attributes)
  | RawElement name attributes content => RawElement name (renameAttribute <$> attributes) content
  | _ => x
  end.

Definition renamePage (page : list Markup) : list Markup := renameMarkup <$> page.
End rename.

(** ** Pages that are well formed *)

(** The attributes of HTML and of the graphics in it that name one element, several
    elements, or an address. *)
Definition idNames : list jstr :=
  js <$> ["id"; "for"; "form"; "list"; "popovertarget"; "commandfor"; "aria-activedescendant"; "aria-details"; "aria-errormessage"]%string.
Definition idListNames : list jstr :=
  js <$> ["headers"; "aria-controls"; "aria-describedby"; "aria-flowto"; "aria-labelledby"; "aria-owns"]%string.
Definition addressNames : list jstr :=
  js <$> ["href"; "src"; "action"; "formaction"; "cite"; "xlink:href"; "fill"; "filter"; "mask"; "clip-path"; "marker-start"; "marker-mid";
          "marker-end"]%string.

Definition rawNames : list jstr := js <$> ["script"; "style"; "textarea"; "title"]%string.

(** Small letters, digits, hyphen and colon. *)
Definition smallUnit (c : N) : bool := ((97 <=? c) && (c <=? 122) || (48 <=? c) && (c <=? 57) || (c =? 45) || (c =? 58))%N.
Definition smallName (s : jstr) : bool :=
  match s with c :: _ => ((97 <=? c) && (c <=? 122))%N && forallb smallUnit s | [] => false end.

Definition wordOk (w : jstr) : bool := match w with [] => false | _ => forallb (fun c => negb (is_space c)) w end.

(** An attribute whose name says what it holds; the text of a style attribute names
    no selector. *)
Definition valueOk (name : jstr) (v : AttributeValue) : bool :=
  match v with
  | AnId _ => memb name idNames
  | ClassList words => bool_decide (name = js "class") && forallb wordOk words && negb (bool_decide (words = []))
  | IdList words => memb name idListNames && forallb wordOk words && negb (bool_decide (words = []))
  | Address before fragment after =>
      memb name addressNames && negb (memb 35%N before) && negb (bool_decide (fragment = [])) && forallb wordUnit fragment
      && negb (memb 35%N after) && match after with c :: _ => negb (fragmentUnit c) | [] => true end
  | NoFragment text => memb name addressNames && negb (memb 35%N text)
  | OtherText text =>
      negb (memb name (idNames ++ idListNames ++ addressNames)) && negb (bool_decide (name = js "class"))
      && (negb (bool_decide (name = js "style")) || negb (memb 35%N text) && negb (memb 46%N text))
  end.

Definition attributeOk (a : Attribute) : bool :=
  match a with
  | Quoted name q v => smallName name && ((q =? 34) || (q =? 39))%N && negb (memb q (heldText v)) && valueOk name v
  | Bare name => smallName name
  end.

Definition markupOk (x : Markup) : bool :=
  match x with
  | Chars text => negb (memb 60%N text)
  | Comment text => negb (includes (js "-->") (text ++ js "--"))
  | Declaration text => negb (memb 62%N text) && negb (startsWith (js "--") text)
  | EndTag name => smallName name
  | Element name attributes => smallName name && negb (memb name rawNames) && forallb attributeOk attributes
  | RawElement name attributes content =>
      memb name rawNames && forallb attributeOk attributes && negb (includes (js "</" ++ name) (toLowerCase content ++ js "</" ++ removelast name))
  end.

(** No capital I with a dot, whose lower case takes two units. *)
Definition pageOk (page : list Markup) : bool := forallb markupOk page && negb (memb 304%N (pageText page)).

(** ** Values *)

Lemma newName_renamed m name : newName m name = renamed m name.
Proof.
  unfold newName, renamed. induction m as [|[source target] m IH]; [done|]. cbn. case_bool_decide as E; case_decide; try congruence. done.
Qed.

Lemma newNames_renamed m (l : list jstr) : newName m <$> l = renamed m <$> l.
Proof. apply list_fmap_ext. intros. apply newName_renamed. Qed.

(** A fact about all names of a list, checked by evaluation. *)
Lemma listed_all (P : jstr -> bool) l name : forallb P l = true -> memb name l = true -> P name = true.
Proof. rewrite forallb_forall. intros H Hn%memb_spec. by apply H, list_elem_of_In. Qed.

Lemma splitSpaces_cons w c v : Forall (fun d => is_space d = false) w -> is_space c = false ->
  splitSpaces (w ++ 32%N :: c :: v) = w :: splitSpaces (c :: v).
Proof.
  intros Hw Hc. induction Hw as [|d w Hd Hw IH].
  - change ((if is_space c then splitSpaces (c :: v) else [] :: splitSpaces (c :: v)) = [] :: splitSpaces (c :: v)). by rewrite Hc.
  - cbn [app]. change (splitSpaces (d :: ?s)) with (if is_space d then match s with e :: _ => if is_space e then splitSpaces s else [] :: splitSpaces s | [] => [[]; []] end
      else match splitSpaces s with x :: xs => (d :: x) :: xs | [] => [[d]] end). rewrite Hd. cbn [app] in IH. by rewrite IH.
Qed.

Lemma wordOk_spec w : wordOk w = true -> exists c w', w = c :: w' /\ is_space c = false /\ Forall (fun d => is_space d = false) w.
Proof.
  destruct w as [|c w]; [done|]. unfold wordOk. intros H. exists c, w. assert (Forall (fun c => is_space c = false) (c :: w)) as Hf.
  { apply Forall_forall. intros d Hd. rewrite forallb_forall in H. by apply negb_true_iff, H, list_elem_of_In. }
  split_and!; [done| |done]. by apply Forall_cons in Hf as [? _].
Qed.

Lemma splitSpaces_words words : words <> [] -> forallb wordOk words = true -> splitSpaces (join (js " ") words) = words.
Proof.
  intros Hne. induction words as [|w [|w' words] IH]; [done|..]; intros [Hw Hl]%andb_true_iff.
  - apply wordOk_spec in Hw as (c & w' & -> & _ & Hf). by apply splitSpaces_single.
  - rewrite join_cons2. specialize (IH ltac:(done) Hl). apply andb_true_iff in Hl as [(d & v & -> & Hd & _)%wordOk_spec _].
    apply wordOk_spec in Hw as (c & w1 & -> & _ & Hf). assert (exists s, join (js " ") ((d :: v) :: words) = d :: s) as [s Hs].
    { destruct words; [by eexists|]. rewrite join_cons2. by eexists. }
    rewrite Hs in *. change (js " ") with [32%N]. cbn [app]. rewrite app_comm_cons. by rewrite splitSpaces_cons, IH.
Qed.

Lemma replaceTokenList_words m words : words <> [] -> forallb wordOk words = true ->
  replaceTokenList (join (js " ") words) m = join (js " ") (newName m <$> words).
Proof. intros. unfold replaceTokenList. by rewrite splitSpaces_words, newNames_renamed. Qed.

(** *** Fragments *)

Lemma mapFragmentValue_copy n ids before s : 35%N ∉ before -> length before <= n ->
  mapFragmentValue_fuel n ids (before ++ s) = before ++ mapFragmentValue_fuel (n - length before) ids s.
Proof.
  revert n. induction before as [|c before IH]; intros n Hb Hn; cbn [app length]; [by rewrite Nat.sub_0_r|].
  apply not_elem_of_cons in Hb as [Hc Hb]. destruct n as [|n]; [cbn in Hn; lia|]. cbn [mapFragmentValue_fuel length].
  rewrite (proj2 (N.eqb_neq c 35)) by congruence. rewrite IH by (done || cbn in Hn; lia). by rewrite Nat.sub_succ.
Qed.

Lemma mapFragmentValue_none ids s : 35%N ∉ s -> mapFragmentValue s ids = s.
Proof.
  intros Hs. unfold mapFragmentValue. rewrite <- (app_nil_r s) at 2. rewrite mapFragmentValue_copy by done.
  destruct (length s - length s); by rewrite app_nil_r.
Qed.

Lemma decode_plain_fragment s : Forall plainUnit s -> decodeURIComponent s = Some s.
Proof.
  unfold decodeURIComponent. induction 1 as [|c s Hc Hs IH]; [done|]. cbn [length decodeURI_fuel].
  assert (c <> 37%N) as Hn by (intros ->; done). rewrite (proj2 (N.eqb_neq c 37)) by done. by rewrite IH.
Qed.

Lemma plain_fragment c : plainUnit c -> fragmentUnit c = true.
Proof.
  unfold plainUnit, wordUnit, fragmentUnit, in_class. cbn. rewrite !orb_true_iff, !andb_true_iff. tauto.
Qed.

Lemma mapFragmentValue_address ids before fragment after : 35%N ∉ before -> fragment <> [] -> Forall plainUnit fragment -> 35%N ∉ after ->
  stops fragmentUnit after ->
  mapFragmentValue (before ++ js "#" ++ fragment ++ after) ids = before ++ js "#" ++ newName ids fragment ++ after.
Proof.
  intros Hb Hne Hf Ha Hs. unfold mapFragmentValue. rewrite mapFragmentValue_copy by (rewrite ?length_app; done || lia). f_equal.
  change (js "#") with [35%N]. rewrite !length_app. cbn [app length]. replace (length before + S _ - length before) with (S (length fragment + length after)) by (rewrite ?length_app; lia).
  cbn [mapFragmentValue_fuel]. rewrite N.eqb_refl. rewrite spanLength_app; [|eapply Forall_impl; [exact Hf|]; apply plain_fragment|done].
  destruct (length fragment) as [|k] eqn:Ek; [by destruct fragment|]. rewrite <- Ek, take_app_length, drop_app_length.
  unfold mapFragment. rewrite decode_plain_fragment by done. rewrite newName_renamed. do 2 f_equal.
  rewrite <- (app_nil_r after) at 2. rewrite mapFragmentValue_copy by (done || lia). destruct (_ - _); by rewrite app_nil_r.
Qed.

(** *** The value of an attribute *)

(** How the two tables of names agree. *)
Definition single (name : jstr) : bool := bool_decide (name = js "id") || memb name singleIdAttributes.
Definition isClass (name : jstr) : bool := bool_decide (name = js "class").

Lemma ids_single : forallb single idNames = true.
Proof. vm_compute. reflexivity. Qed.
Lemma idLists_tokens : forallb (fun n => negb (single n) && negb (isClass n) && memb n tokenIdAttributes) idListNames = true.
Proof. vm_compute. reflexivity. Qed.
Lemma addresses_fragments :
  forallb (fun n => negb (single n) && negb (isClass n) && negb (memb n tokenIdAttributes) && memb n fragmentAttributes) addressNames = true.
Proof. vm_compute. reflexivity. Qed.
Lemma tables_covered :
  forallb (fun n => memb n (idNames ++ idListNames ++ addressNames)) (js "id" :: singleIdAttributes ++ tokenIdAttributes ++ fragmentAttributes) = true.
Proof. vm_compute. reflexivity. Qed.

Section values.
Context (ids classes : mapping).

(** No selector, nothing to rename. *)
Lemma mapCssSelectors_none v : 35%N ∉ v -> 46%N ∉ v -> mapCssSelectors v ids classes = v.
Proof.
  assert (forall p m, p ∉ v -> replaceEach [p] m v = v) as Hone.
  { intros p m Hp. unfold replaceEach. induction m as [|e m IH]; [done|]. cbn [foldl]. replace (replaceSelector v [p] e.1 e.2) with v; [done|].
    unfold replaceSelector. destruct v as [|c v']; [done|]. cbn [length replaceSelector_fuel]. by rewrite indexOf_missing. }
  intros H1 H2. unfold mapCssSelectors. change (js "#") with [35%N]. change (js ".") with [46%N]. by rewrite (Hone 35%N), (Hone 46%N).
Qed.

Lemma mapHtmlAttribute_address name v : memb name addressNames = true -> mapHtmlAttribute name v ids classes = mapFragmentValue v ids.
Proof.
  intros Hn. pose proof (listed_all _ _ _ addresses_fragments Hn) as H. cbn beta in H. unfold mapHtmlAttribute. fold (single name) (isClass name).
  by apply andb_true_iff in H as [[[->%negb_true_iff ->%negb_true_iff]%andb_true_iff ->%negb_true_iff]%andb_true_iff ->].
Qed.

Lemma mapHtmlAttribute_other name v : memb name (idNames ++ idListNames ++ addressNames) = false -> isClass name = false ->
  mapHtmlAttribute name v ids classes = if bool_decide (name = js "style") then mapCssSelectors v ids classes else v.
Proof.
  intros Hn Hc. assert (name ∉ (js "id" :: singleIdAttributes ++ tokenIdAttributes ++ fragmentAttributes)) as H.
  { intros Hin%memb_spec. pose proof (listed_all _ _ _ tables_covered Hin). cbn beta in *. congruence. }
  rewrite not_elem_of_cons, !not_elem_of_app in H. destruct H as (H1 & H2 & H3 & H4). unfold mapHtmlAttribute. fold (isClass name). rewrite Hc.
  unfold memb. by rewrite (bool_decide_eq_false_2 _ H1), (bool_decide_eq_false_2 _ H2), (bool_decide_eq_false_2 _ H3), (bool_decide_eq_false_2 _ H4).
Qed.

Lemma mapHtmlAttribute_value name v : valueOk name v = true ->
  mapHtmlAttribute name (heldText v) ids classes = heldText (renameValue ids classes v).
Proof.
  destruct v as [id|words|words|before fragment after|text|text]; cbn [valueOk heldText renameValue]; intros Hv.
  - unfold mapHtmlAttribute. fold (single name). by rewrite (listed_all _ _ _ ids_single Hv), newName_renamed.
  - rewrite !andb_true_iff in Hv. destruct Hv as [[->%bool_decide_eq_true Hw] Hne%negb_true_iff%bool_decide_eq_false].
    rewrite <- replaceTokenList_words by done. reflexivity.
  - rewrite !andb_true_iff in Hv. destruct Hv as [[Hn Hw] Hne%negb_true_iff%bool_decide_eq_false].
    pose proof (listed_all _ _ _ idLists_tokens Hn) as H. cbn beta in H. unfold mapHtmlAttribute. fold (single name) (isClass name).
    apply andb_true_iff in H as [[->%negb_true_iff ->%negb_true_iff]%andb_true_iff ->]. by apply replaceTokenList_words.
  - rewrite !andb_true_iff in Hv. destruct Hv as [[[[[Hn Hb] Hne] Hf] Ha] Hs]. apply negb_true_iff in Hb, Hne, Ha.
    apply bool_decide_eq_false in Hb, Hne, Ha. rewrite mapHtmlAttribute_address by done. apply mapFragmentValue_address; try done.
    + apply Forall_forall. intros c Hc. rewrite forallb_forall in Hf. by apply Hf, list_elem_of_In.
    + destruct after; [done|]. by apply negb_true_iff.
  - apply andb_true_iff in Hv as [Hn Hb%negb_true_iff%bool_decide_eq_false]. rewrite mapHtmlAttribute_address by done. by apply mapFragmentValue_none.
  - rewrite !andb_true_iff in Hv. destruct Hv as [[Hn%negb_true_iff Hc%negb_true_iff] Hs]. rewrite mapHtmlAttribute_other by done.
    destruct (bool_decide (name = js "style")); [|done]. cbn in Hs. apply andb_true_iff in Hs as [H1 H2].
    apply negb_true_iff, bool_decide_eq_false in H1, H2. by apply mapCssSelectors_none.
Qed.
End values.

(** ** Start tags *)

Lemma smallUnit_spec c : smallUnit c = true -> attributeNameUnit c = true /\ tagNameUnit c = true /\ is_space c = false /\ is_quote c = false /\
  c <> 62%N /\ c <> 61%N /\ lower_unit c = [c].
Proof.
  unfold smallUnit. rewrite !orb_true_iff, !andb_true_iff, !N.leb_le, !N.eqb_eq. intros H.
  assert (45 <= c <= 122 /\ c <> 47 /\ c <> 61 /\ c <> 62 /\ ~ (65 <= c <= 90))%N as (Hc & H47 & H61 & H62 & Hup) by lia.
  assert (is_space c = false) as Hs.
  { unfold is_space. apply orb_false_iff. split; [|apply andb_false_iff; left; apply N.leb_gt; lia].
    apply bool_decide_eq_false. intros Hin. repeat (apply elem_of_cons in Hin as [->|Hin]; [lia|]). by apply not_elem_of_nil in Hin. }
  unfold attributeNameUnit, tagNameUnit, is_quote, lower_unit. rewrite Hs, !(proj2 (N.eqb_neq c _)) by lia. cbn.
  replace ((65 <=? c) && (c <=? 90))%N with false; [done|]. symmetry. apply andb_false_iff. rewrite !N.leb_gt. lia.
Qed.

Lemma smallName_spec s : smallName s = true -> exists c s', s = c :: s' /\ letterUnit c = true /\ Forall (fun d => smallUnit d = true) s.
Proof.
  destruct s as [|c s]; [done|]. unfold smallName. intros [Hc Hs]%andb_true_iff. exists c, s. split_and!; [done| |].
  - unfold letterUnit, in_class. cbn. apply andb_true_iff in Hc as [-> ->]. by rewrite orb_true_r.
  - apply Forall_forall. intros d Hd. rewrite forallb_forall in Hs. by apply Hs, list_elem_of_In.
Qed.

Lemma small_lower s : Forall (fun d => smallUnit d = true) s -> toLowerCase s = s.
Proof.
  unfold toLowerCase. induction 1 as [|c s Hc Hs IH]; [done|]. cbn. destruct (smallUnit_spec c Hc) as (_ & _ & _ & _ & _ & _ & ->). cbn. by rewrite IH.
Qed.

(** White space before the attributes belongs to the text between the values. *)
Lemma Attributes_space s l : Attributes s l -> exists l', Attributes (32%N :: s) l' /\
  forall f, tagText (onValue f <$> l') = 32%N :: tagText (onValue f <$> l).
Proof.
  assert (forall u, spaces u -> spaces (32%N :: u)) as Hsp by (intros u Hu; by apply Forall_cons).
  destruct 1 as [u r Hu Hr|u name ws r l Hu Hn Hl H1 H2 H3 Ht|u name ws ws' v r l Hu Hl Hw Hv H1 H2 H3 Ht|u name ws ws' q v closing r l Hu Hl Hw Hq Hv Hc Ht].
  - eexists. split; [exact (Attributes_end (32%N :: u) r (Hsp u Hu) Hr)|done].
  - eexists. split; [exact (Attributes_bare (32%N :: u) name ws r l (Hsp u Hu) Hn Hl H1 H2 H3 Ht)|done].
  - eexists. split; [exact (Attributes_unquoted (32%N :: u) name ws ws' v r l (Hsp u Hu) Hl Hw Hv H1 H2 H3 Ht)|done].
  - eexists. split; [exact (Attributes_quoted (32%N :: u) name ws ws' q v closing r l (Hsp u Hu) Hl Hw Hq Hv Hc Ht)|done].
Qed.

Definition attributesText (attributes : list Attribute) : jstr := attributes ≫= fun a => js " " ++ attributeText a.

Lemma attributesText_cons a l : attributesText (a :: l) = 32%N :: attributeText a ++ attributesText l.
Proof. done. Qed.

(** An attribute starts with a small letter, digit, hyphen or colon. *)
Lemma attributeText_head a s : attributeOk a = true -> exists c s', attributeText a ++ s = c :: s' /\ smallUnit c = true.
Proof.
  destruct a as [name q v|name]; cbn [attributeOk]; rewrite ?andb_true_iff; [intros [[[Hn _] _] _]|intros Hn];
    apply smallName_spec in Hn as (c & n & -> & _ & [Hc _]%Forall_cons); eexists _, _; (split; [reflexivity|done]).
Qed.

Lemma small_leads name ws : smallName name = true -> spaces ws -> leads name ws.
Proof.
  intros (c & n & -> & _ & Hn)%smallName_spec Hws. split_and!; [|done|done]. eapply Forall_impl; [exact Hn|]. intros d Hd. by apply smallUnit_spec.
Qed.

Section tags.
Context (ids classes : mapping).
Abbreviation renamedText l := (attributesText (renameAttribute ids classes <$> l)).

(** The segments of [s] say that its mapped text is [w]. *)
Definition readAs (s w : jstr) : Prop := exists l, Attributes s l /\ tagText (onValue (mapValue ids classes) <$> l) = w.

Lemma readAs_space s w : readAs s w -> readAs (32%N :: s) (32%N :: w).
Proof. intros (l & Hl & <-). destruct (Attributes_space _ _ Hl) as (l' & Hl' & Ht). exists l'. split; [done|apply Ht]. Qed.

Lemma readAs_end : readAs (js ">") (js ">").
Proof.
  exists [Between (js ">")]. split; [|done]. apply (Attributes_end [] (js ">")); [done|]. right. eexists _, _. split; [reflexivity|by left].
Qed.

Lemma readAs_quoted name q v r w : attributeOk (Quoted name q v) = true -> readAs r w ->
  readAs (attributeText (Quoted name q v) ++ r) (attributeText (renameAttribute ids classes (Quoted name q v)) ++ w).
Proof.
  cbn [attributeOk]. rewrite !andb_true_iff. intros [[[Hn Hq] Hv%negb_true_iff%bool_decide_eq_false] Hok] (l & Hl & <-).
  assert (leads name []) as Hlead by (by apply small_leads). pose proof Hn as (c & n & _ & _ & Hsm)%smallName_spec.
  assert (forall x y, attributeText (Quoted name q x) ++ y = ([] ++ name ++ [] ++ 61%N :: [] ++ [q]) ++ heldText x ++ [q] ++ y) as Etext.
  { intros x y. cbn. by rewrite <- !app_assoc; cbn; rewrite <- !app_assoc. }
  eexists. split; [rewrite Etext; apply (Attributes_quoted [] name [] [] q (heldText v) [q] r l); auto|].
  rewrite (small_lower name Hsm). cbn [fmap list_fmap onValue renameAttribute]. rewrite Etext, !tagText_cons. cbn [segmentText].
  do 2 f_equal. by apply mapHtmlAttribute_value.
Qed.

Lemma readAs_bare name ws r w : smallName name = true -> (ws = [] \/ ws = [32%N]) -> (ws = [] -> stops attributeNameUnit r) ->
  stops is_space r -> stops (fun c => (c =? 61)%N) r -> readAs r w -> readAs (name ++ ws ++ r) (name ++ ws ++ w).
Proof.
  intros Hn Hws H1 H2 H3 (l & Hl & <-). assert (spaces ws) as Hs by (destruct Hws as [->| ->]; by repeat constructor).
  exists (Between ([] ++ name ++ ws) :: l). split; [|cbn [fmap list_fmap onValue]; rewrite tagText_cons; cbn [segmentText app]; by rewrite <- app_assoc].
  apply (Attributes_bare [] name ws r l); try done; [by destruct name|by apply small_leads].
Qed.

(** The scanner reads the attributes of the structure. *)
Lemma attributes_read attributes : forallb attributeOk attributes = true ->
  readAs (attributesText attributes ++ js ">") (renamedText attributes ++ js ">").
Proof.
  assert (forall a l, forallb attributeOk (a :: l) = true ->
    readAs (attributeText a ++ attributesText l ++ js ">") (attributeText (renameAttribute ids classes a) ++ renamedText l ++ js ">")) as Hfrom.
  2: { destruct attributes as [|a l]; [intros _; apply readAs_end|]. intros H. rewrite fmap_cons, !attributesText_cons. cbn [app]. rewrite <- !app_assoc.
    apply readAs_space. by apply Hfrom. }
  intros a l. revert a. induction l as [|b l IH]; intros a [Ha Hl]%andb_true_iff.
  - destruct a as [name q v|name]; [apply readAs_quoted; [done|apply readAs_end]|].
    apply (readAs_bare name [] (js ">")); auto using readAs_end; done.
  - specialize (IH b Hl). rewrite fmap_cons, !attributesText_cons. cbn [app]. rewrite <- !app_assoc.
    destruct a as [name q v|name]; [by apply readAs_quoted; [|apply readAs_space]|].
    apply andb_true_iff in Hl as [Hb _]. destruct (attributeText_head b (attributesText l ++ js ">") Hb) as (c & s & Es & Hc).
    apply smallUnit_spec in Hc as (_ & _ & Hsp & _ & _ & H61 & _).
    apply (readAs_bare name [32%N]); auto; [done| |]; rewrite Es; [done|]. cbn. by apply N.eqb_neq.
Qed.

(** A start tag is mapped to the tag with renamed attributes. *)
Lemma mapHtmlStartTag_text name attributes : smallName name = true -> forallb attributeOk attributes = true ->
  mapHtmlStartTag (startTagText name attributes) ids classes = startTagText name (renameAttribute ids classes <$> attributes).
Proof.
  intros Hn Hok. destruct (attributes_read attributes Hok) as (l & Hl & Ht). unfold startTagText. fold (attributesText attributes). fold (renamedText attributes).
  pose proof Hn as (c & n & -> & Hc & Hsm)%smallName_spec. apply Forall_cons in Hsm as [_ Hsm].
  assert (tagNameLength ((js "<" ++ c :: n) ++ attributesText attributes ++ js ">") = Some (length (js "<" ++ c :: n))) as Hk.
  { apply tagNameLength_split. exists [], c, n, (attributesText attributes ++ js ">"). split_and!; try done.
    - eapply Forall_impl; [exact Hsm|]. intros d Hd. by apply smallUnit_spec.
    - by destruct attributes. }
  rewrite !app_assoc. rewrite <- !(app_assoc (js "<" ++ c :: n)). destruct (mapHtmlStartTag_segments ids classes _ _ _ _ Hk eq_refl Hl) as [_ ->].
  by rewrite Ht.
Qed.
End tags.

(** *** Where a start tag ends *)

(** [u] leaves the scanner outside quotes. *)
Definition unquotedText (u : jstr) : Prop := forall s, tagLength None (u ++ s) = Nat.add (length u) <$> tagLength None s.

Lemma unquotedText_app u v : unquotedText u -> unquotedText v -> unquotedText (u ++ v).
Proof.
  intros Hu Hv s. rewrite <- app_assoc, Hu, Hv, length_app. destruct (tagLength None s); cbn; [|done]. f_equal. lia.
Qed.

Lemma unquotedText_units u : Forall (fun c => is_quote c = false /\ c <> 62%N) u -> unquotedText u.
Proof.
  intros Hu s. induction Hu as [|c u [Hq H62] Hu IH]; cbn; [by destruct (tagLength None s)|]. unfold is_quote in Hq.
  rewrite Hq, (proj2 (N.eqb_neq c 62)), IH by done. by destruct (tagLength None s).
Qed.

Lemma unquotedText_quoted q v : is_quote q = true -> q ∉ v -> unquotedText (q :: v ++ [q]).
Proof.
  intros Hq Hv s. cbn. unfold is_quote in Hq. rewrite Hq. assert (forall r, tagLength (Some q) (v ++ r) = Nat.add (length v) <$> tagLength (Some q) r) as Hin.
  { intros r. induction v as [|c v IH]; cbn; [by destruct (tagLength _ r)|]. apply not_elem_of_cons in Hv as [Hc Hv].
    rewrite (proj2 (N.eqb_neq c q)), IH by done. by destruct (tagLength (Some q) r). }
  rewrite <- app_assoc, Hin. cbn. rewrite N.eqb_refl, length_app. destruct (tagLength None s); cbn; [|done]. do 2 f_equal. lia.
Qed.

Lemma unquotedText_small u : Forall (fun c => smallUnit c = true) u -> unquotedText u.
Proof. intros Hu. apply unquotedText_units. eapply Forall_impl; [exact Hu|]. intros c Hc%smallUnit_spec. tauto. Qed.

Lemma unquotedText_attributes l : forallb attributeOk l = true -> unquotedText (attributesText l).
Proof.
  induction l as [|a l IH]; [intros _; by apply (unquotedText_units [])|]. intros [Ha Hl]%andb_true_iff. rewrite attributesText_cons.
  change (32%N :: attributeText a ++ attributesText l) with ([32%N] ++ attributeText a ++ attributesText l).
  apply unquotedText_app; [apply unquotedText_units; by repeat constructor|]. apply unquotedText_app; [|by apply IH].
  destruct a as [name q v|name]; cbn [attributeOk] in Ha.
  - rewrite !andb_true_iff in Ha. destruct Ha as [[[(c & n & _ & _ & Hn)%smallName_spec Hq] Hv%negb_true_iff%bool_decide_eq_false] _].
    change (unquotedText (name ++ [61%N] ++ q :: heldText v ++ [q])). apply unquotedText_app; [by apply unquotedText_small|].
    apply unquotedText_app; [apply unquotedText_units; by repeat constructor|]. by apply unquotedText_quoted.
  - apply smallName_spec in Ha as (c & n & _ & _ & Hn). by apply unquotedText_small.
Qed.

Lemma tagLength_text name attributes s : smallName name = true -> forallb attributeOk attributes = true ->
  exists k, startTagText name attributes = js "<" ++ name ++ attributesText attributes ++ js ">" /\ length (startTagText name attributes) = S k /\
    tagLength None ((name ++ attributesText attributes ++ js ">") ++ s) = Some k.
Proof.
  intros (c & n & _ & _ & Hn)%smallName_spec Ha. exists (length (name ++ attributesText attributes ++ js ">")). split_and!; [reflexivity|reflexivity|].
  rewrite app_assoc, <- (app_assoc (name ++ _)). rewrite (unquotedText_app name (attributesText attributes)).
  - change (tagLength None (js ">" ++ s)) with (Some 1). cbn [fmap option_fmap option_map]. f_equal. rewrite !length_app. change (length (js ">")) with 1. lia.
  - by apply unquotedText_small.
  - by apply unquotedText_attributes.
Qed.

(** The names of raw elements are compared with the name of the tag. *)
Lemma raw_compared name d r x : Forall (fun c => smallUnit c = true) name -> Forall (fun c => smallUnit c = true) x -> d = 32%N \/ d = 62%N ->
  bool_decide (toLowerCase (take (length x) (name ++ d :: r)) = x)
    && match drop (length x) (name ++ d :: r) with c :: _ => is_space c || (c =? 62)%N | [] => false end = bool_decide (x = name).
Proof.
  intros Hn Hx Hd. destruct (decide (x = name)) as [->|Hne].
  { rewrite take_app_length, drop_app_length, small_lower, !bool_decide_eq_true_2 by done. destruct Hd; by subst d. }
  rewrite (bool_decide_eq_false_2 (x = name)) by done. apply andb_false_iff. destruct (decide (length x <= length name)) as [Hl|Hl].
  - rewrite take_app_le, drop_app_le by done. rewrite small_lower by (by apply Forall_take). case_bool_decide as E; [right|by left].
    destruct (drop (length x) name) as [|c s] eqn:Ed.
    { destruct Hne. rewrite <- E. apply take_ge. assert (length (drop (length x) name) = 0) as H0 by (by rewrite Ed). rewrite length_drop in H0. lia. }
    cbn. assert (smallUnit c = true) as Hc.
    { rewrite Forall_forall in Hn. apply Hn. rewrite <- (take_drop (length x) name), Ed. apply elem_of_app. right. apply elem_of_cons. by left. }
    apply smallUnit_spec in Hc as (_ & _ & -> & _ & H62 & _). cbn. by apply N.eqb_neq.
  - left. apply bool_decide_eq_false. intros E. assert (d ∈ x) as Hin.
    { rewrite <- E. unfold toLowerCase. apply list_elem_of_bind. exists d. split; [destruct Hd; subst d; by apply list_elem_of_singleton|].
      rewrite take_app_ge by lia. destruct (length x - length name) as [|k] eqn:Ek; [lia|]. cbn. apply elem_of_app. right. apply elem_of_cons. by left. }
    rewrite Forall_forall in Hx. apply Hx in Hin. destruct Hd; by subst d.
Qed.

(** The pattern for raw elements finds the name of the tag. *)
Lemma rawTag_text name attributes : smallName name = true ->
  rawTag (startTagText name attributes) = if memb name rawNames then Some name else None.
Proof.
  intros (c & n & -> & Hc & Hsm)%smallName_spec. unfold startTagText. fold (attributesText attributes). set (name := c :: n) in *.
  assert (exists d r, attributesText attributes ++ js ">" = d :: r /\ (d = 32%N \/ d = 62%N)) as (d & r & -> & Hd).
  { destruct attributes; [by eexists _, _; split; [reflexivity|right]|by eexists _, _; split; [reflexivity|left]]. }
  change (js "<" ++ name ++ d :: r) with (60%N :: name ++ d :: r). unfold rawTag.
  assert (spanLength is_space (name ++ d :: r) = 0) as ->.
  { unfold name. cbn. apply Forall_cons in Hsm as [Hs _]. apply smallUnit_spec in Hs as (_ & _ & -> & _). done. }
  change (drop 0 (name ++ d :: r)) with (name ++ d :: r). fold rawNames.
  assert (Forall (Forall (fun c => smallUnit c = true)) rawNames) as Hraw.
  { apply Forall_forall. intros x Hx. assert (forallb (forallb smallUnit) rawNames = true) as H by (vm_compute; reflexivity).
    rewrite forallb_forall in H. apply list_elem_of_In, H in Hx. rewrite forallb_forall in Hx. apply Forall_forall. intros e He. by apply Hx, list_elem_of_In. }
  clear Hc. clearbody name. induction Hraw as [|x l Hx Hl IH]; [done|]. cbn [List.find]. rewrite raw_compared by done. unfold memb in *. destruct (decide (x = name)) as [->|E].
  - rewrite !bool_decide_eq_true_2; [done|apply elem_of_cons; by left|done].
  - rewrite (bool_decide_eq_false_2 (x = name)) by done. rewrite IH. destruct (decide (name ∈ l)) as [Hi|Hi].
    + rewrite !bool_decide_eq_true_2; [done|apply elem_of_cons; by right|done].
    + rewrite !bool_decide_eq_false_2; [done| |done]. intros [->|?]%elem_of_cons; done.
Qed.

(** ** Pages *)

(** The first place of a pattern that does not occur before. *)
Lemma indexOf_find p t r : p <> [] -> includes p (t ++ removelast p) = false -> indexOf p (t ++ p ++ r) = Some (length t).
Proof.
  intros Hp. induction t as [|c t IH]; intros Hi.
  - cbn [app]. destruct p as [|d p]; [done|]. change ((if startsWith (d :: p) ((d :: p) ++ r) then Some 0 else S <$> indexOf (d :: p) (p ++ r)) = Some 0).
    by rewrite startsWith_app.
  - cbn [app length]. assert (includes p (t ++ removelast p) = false /\ startsWith p ((c :: t) ++ removelast p) = false) as [Hi' Hs].
    { unfold includes in *. apply bool_decide_eq_false in Hi. cbn [app indexOf] in Hi. destruct (startsWith p _); [destruct Hi; eauto|]. split; [|done].
      apply bool_decide_eq_false. intros [i Hx]. apply Hi. rewrite Hx. eauto. }
    cbn [indexOf]. replace (startsWith p (c :: t ++ p ++ r)) with false; [by rewrite IH|]. symmetry. apply not_true_iff_false.
    intros (s & Es)%startsWith_spec. apply not_true_iff_false in Hs. apply Hs. apply startsWith_spec.
    pose proof (app_removelast_last c Hp) as Ep. set (last := List.last p c) in *. set (a := removelast p) in *.
    assert (c :: t ++ p ++ r = ((c :: t) ++ a) ++ [last] ++ r) as Er by (rewrite Ep; cbn; by rewrite <- !app_assoc).
    exists (drop (length p) ((c :: t) ++ a)). rewrite <- (take_drop (length p) ((c :: t) ++ a)) at 1. f_equal.
    rewrite Er in Es. apply (f_equal (take (length p))) in Es. rewrite take_app_length in Es. rewrite <- Es at 2. symmetry. apply take_app_le.
    apply (f_equal length) in Ep. rewrite length_app in *. cbn in *. lia.
Qed.

Lemma toLowerCase_app s t : toLowerCase (s ++ t) = toLowerCase s ++ toLowerCase t.
Proof. apply bind_app. Qed.

Lemma toLowerCase_length s : 304%N ∉ s -> length (toLowerCase s) = length s.
Proof.
  unfold toLowerCase. induction s as [|c s IH]; [done|]. intros [Hc Hs]%not_elem_of_cons. cbn. rewrite length_app, IH by done.
  unfold lower_unit. rewrite (proj2 (N.eqb_neq c 304)) by done. by destruct (_ && _)%N, (c =? 8490)%N.
Qed.

Section loop.
Context (ids classes : mapping).
Abbreviation loop := (fun html => htmlLoop html ids classes).

Lemma drop_at {A} (pre x s : list A) k : k = length pre + length x -> drop k (pre ++ x ++ s) = s.
Proof. intros ->. rewrite <- length_app, app_assoc. apply drop_app_length. Qed.

Lemma slice_at (pre x s : jstr) k : k = length pre + length x -> drop (length pre) (take k (pre ++ x ++ s)) = x.
Proof. intros ->. rewrite <- length_app, app_assoc, take_app_length. apply drop_app_length. Qed.

(** One turn of the loop, at a [<]. *)
Lemma loop_turn pre s n w next : markupStep (pre ++ 60%N :: s) ids classes (length pre) = (w, Some next) ->
  loop (pre ++ 60%N :: s) (S n) (length pre) = w ++ loop (pre ++ 60%N :: s) n next.
Proof.
  intros Hm. cbn [htmlLoop]. rewrite (proj2 (Nat.ltb_lt _ _)) by (rewrite length_app; cbn; lia).
  unfold indexFrom. rewrite drop_app_length. change (indexOf (js "<") (60%N :: s)) with (Some 0). cbn [fmap option_fmap option_map].
  rewrite Nat.add_0_r, Hm, take_app_length, drop_ge by done. done.
Qed.

(** Text is copied. *)
Lemma loop_chars pre text s n : 60%N ∉ text -> length (text ++ s) <= n ->
  loop (pre ++ text ++ s) n (length pre) = text ++ loop (pre ++ text ++ s) n (length (pre ++ text)).
Proof.
  intros Ht Hn. destruct text as [|c text]; [by rewrite app_nil_r|]. destruct n as [|n]; [cbn in Hn; lia|]. set (x := c :: text) in *.
  assert (0 < length x) as Hx by (cbn; lia). clearbody x. cbn [htmlLoop]. rewrite (proj2 (Nat.ltb_lt _ _)) by (rewrite !length_app; lia).
  assert (indexFrom (js "<") (pre ++ x ++ s) (length pre) = indexFrom (js "<") (pre ++ x ++ s) (length (pre ++ x))) as ->.
  { unfold indexFrom. change (js "<") with [60%N]. rewrite drop_app_length, app_assoc, drop_app_length. destruct (indexOf [60%N] s) as [k|] eqn:E; cbn.
    - pose proof E as [E1 E2]%(indexOf_split 60). rewrite E1, app_assoc. rewrite indexOf_first by (rewrite not_elem_of_app; by split). cbn.
      f_equal. rewrite !length_app, length_take. apply indexOf_Some in E as (u & v & -> & <-). rewrite length_app. cbn. lia.
    - apply (indexOf_absent_None 60) in E. rewrite indexOf_missing; [done|]. rewrite not_elem_of_app. by split. }
  destruct (Nat.ltb_spec (length (pre ++ x)) (length (pre ++ x ++ s))) as [Hl|Hl].
  - destruct (indexFrom _ _ _) as [tagStart|] eqn:E; [|by rewrite drop_app_length, app_assoc, drop_app_length].
    destruct (markupStep _ _ _ _) as [w next]. rewrite !app_assoc. f_equal. f_equal. apply indexFrom_le in E.
    replace tagStart with (length (pre ++ x) + (tagStart - length (pre ++ x))) by lia. set (k := tagStart - _).
    rewrite <- (app_assoc pre x s) at 1. rewrite (app_assoc pre x s). rewrite take_app_add. rewrite <- app_assoc, !drop_app_length.
    rewrite app_assoc, drop_app_length. done.
  - assert (s = []) as -> by (rewrite !length_app in Hl; destruct s; [done|cbn in Hl; lia]). rewrite !app_nil_r.
    unfold indexFrom. rewrite drop_ge by done. cbn. by rewrite drop_app_length.
Qed.

(** A comment, a declaration and an end tag are copied. *)
Lemma step_comment pre text s : includes (js "-->") (text ++ js "--") = false ->
  let x := js "<!--" ++ text ++ js "-->" in markupStep (pre ++ x ++ s) ids classes (length pre) = (x, Some (length (pre ++ x))).
Proof.
  intros Hi x. unfold markupStep. cbv zeta. rewrite drop_app_length. unfold x at 1. rewrite <- app_assoc, startsWith_app.
  unfold indexFrom. replace (pre ++ x ++ s) with (pre ++ js "<!--" ++ text ++ js "-->" ++ s) at 1 by (unfold x; by rewrite <- !app_assoc).
  rewrite drop_at by done. rewrite (indexOf_find (js "-->") text s) by done. cbn [fmap option_fmap option_map].
  assert (length pre + 4 + length text + 3 = length (pre ++ x)) as ->
    by (unfold x; rewrite !length_app; change (length (js "<!--")) with 4; change (length (js "-->")) with 3; lia).
  by rewrite slice_at by (by rewrite length_app).
Qed.

(** Markup that opens with [!] or [/] ends at the next [>]. *)
Lemma step_closed pre c text s : c = 33%N \/ c = 47%N -> startsWith (js "<!--") (60%N :: c :: text ++ js ">") = false -> 62%N ∉ text ->
  let x := 60%N :: c :: text ++ js ">" in markupStep (pre ++ x ++ s) ids classes (length pre) = (x, Some (length (pre ++ x))).
Proof.
  intros Hc Hs Ht x. unfold markupStep. cbv zeta. rewrite drop_app_length.
  assert (startsWith (js "<!--") (x ++ s) = false) as ->.
  { unfold x in *. change (js "<!--") with [60; 33; 45; 45]%N in *. destruct Hc as [->| ->]; [|done].
    destruct text as [|a [|b text]]; cbn -[N.eqb] in *; [done| |exact Hs]. by destruct (45 =? a)%N. }
  assert ((pre ++ x ++ s) !! S (length pre) = Some c) as ->.
  { rewrite lookup_app_r by lia. replace (S (length pre) - length pre) with 1 by lia. done. }
  assert (memb c (js "!/?") = true) as -> by (destruct Hc as [->| ->]; done). unfold indexFrom.
  replace (pre ++ x ++ s) with (pre ++ [60%N; c] ++ text ++ 62%N :: s) at 1 by (unfold x; cbn; by rewrite <- app_assoc).
  rewrite drop_at by done. change (js ">") with [62%N]. rewrite indexOf_first by done. cbn [fmap option_fmap option_map].
  assert (length pre + 2 + length text + 1 = length (pre ++ x)) as ->
    by (unfold x; rewrite length_app; cbn [length]; rewrite length_app; change (length (js ">")) with 1; lia).
  by rewrite slice_at by (by rewrite length_app).
Qed.

(** A start tag, up to the test for raw content. *)
Lemma step_element pre name attributes s : smallName name = true -> forallb attributeOk attributes = true ->
  let x := startTagText name attributes in
  let w := startTagText name (renameAttribute ids classes <$> attributes) in
  let html := pre ++ x ++ s in
  markupStep html ids classes (length pre) =
  if memb name rawNames then
    match indexFrom (js "</" ++ name) (toLowerCase html) (length (pre ++ x)) with
    | None => (w ++ s, None)
    | Some closing => (w ++ drop (length (pre ++ x)) (take closing html), Some closing)
    end
  else (w, Some (length (pre ++ x))).
Proof.
  intros Hn Ha x w html. destruct (tagLength_text name attributes s Hn Ha) as (k & Ex & Hk & Hl). pose proof Hn as (c & n & En & Hc & Hsm)%smallName_spec.
  assert (x = 60%N :: name ++ attributesText attributes ++ js ">") as Ex' by exact Ex.
  unfold markupStep. cbv zeta. unfold html at 1. rewrite drop_app_length.
  assert (smallUnit c = true) as Hsc by (rewrite En in Hsm; by apply Forall_cons in Hsm as [? _]).
  assert (startsWith (js "<!--") (x ++ s) = false) as ->.
  { rewrite Ex', En. change (js "<!--") with [60; 33; 45; 45]%N. cbn -[N.eqb]. destruct (N.eqb_spec 33 c) as [<-|]; [by vm_compute in Hsc|done]. }
  assert (html !! S (length pre) = Some c) as ->.
  { unfold html. rewrite lookup_app_r by lia. replace (S (length pre) - length pre) with 1 by lia. rewrite Ex', En. done. }
  assert (memb c (js "!/?") = false) as ->.
  { apply bool_decide_eq_false. intros Hin. repeat (apply elem_of_cons in Hin as [->|Hin]; [by vm_compute in Hsc|]). by apply not_elem_of_nil in Hin. }
  rewrite Hc. assert (drop (S (length pre)) html = (name ++ attributesText attributes ++ js ">") ++ s) as ->.
  { unfold html. rewrite Ex'. change (60%N :: name ++ attributesText attributes ++ js ">") with ([60%N] ++ name ++ attributesText attributes ++ js ">").
    rewrite <- app_assoc. apply drop_at. cbn. lia. }
  rewrite Hl. assert (take (S k) (drop (length pre) html) = x) as ->.
  { unfold html. rewrite drop_app_length, <- Hk. apply take_app_length. }
  assert (mapHtmlStartTag x ids classes = w) as -> by (by apply mapHtmlStartTag_text). unfold x at 1. rewrite rawTag_text by done. replace (length pre + S k) with (length (pre ++ x)) by (rewrite length_app, <- Hk; done).
  destruct (memb name rawNames); [|done]. destruct (indexFrom _ _ _); [done|]. unfold html. rewrite app_assoc, drop_app_length. done.
Qed.

(** The content of a raw element is copied up to its end tag. *)
Lemma step_raw pre name attributes content s : memb name rawNames = true -> forallb attributeOk attributes = true ->
  includes (js "</" ++ name) (toLowerCase content ++ js "</" ++ removelast name) = false -> (304%N ∉ pre) -> (304%N ∉ startTagText name attributes) ->
  304%N ∉ content ->
  let x := startTagText name attributes in
  markupStep (pre ++ x ++ content ++ js "</" ++ name ++ s) ids classes (length pre) =
  (startTagText name (renameAttribute ids classes <$> attributes) ++ content, Some (length (pre ++ x ++ content))).
Proof.
  intros Hr Ha Hi H1 H2 H3 x. assert (smallName name = true) as Hn by exact (listed_all smallName rawNames name ltac:(vm_compute; reflexivity) Hr).
  rewrite (step_element pre name attributes) by done. cbv zeta. fold x. rewrite Hr. unfold indexFrom.
  rewrite !toLowerCase_app, (app_assoc (toLowerCase pre)).
  pose proof Hn as (c & n & En & _ & Hsm)%smallName_spec.
  rewrite (drop_app_length' (toLowerCase pre ++ toLowerCase x)) by (by rewrite !length_app, !toLowerCase_length).
  rewrite (small_lower name Hsm). change (toLowerCase (js "</")) with (js "</"). rewrite (app_assoc (js "</") name).
  rewrite indexOf_find; [|by destruct name|]. 2: { rewrite removelast_app by (by rewrite En). exact Hi. }
  cbn [fmap option_fmap option_map]. rewrite toLowerCase_length by done.
  assert (length (pre ++ x) + length content = length (pre ++ x ++ content)) as -> by (rewrite !length_app; lia).
  do 3 f_equal. rewrite (app_assoc pre x (content ++ _)), slice_at by (rewrite !length_app; lia). done.
Qed.

(** A turn that ends after [x]. *)
Lemma turn_then pre x s n w : head x = Some 60%N -> markupStep (pre ++ x ++ s) ids classes (length pre) = (w, Some (length (pre ++ x))) ->
  length (x ++ s) <= n -> exists n', length s <= n' /\ loop (pre ++ x ++ s) n (length pre) = w ++ loop ((pre ++ x) ++ s) n' (length (pre ++ x)).
Proof.
  destruct x as [|c x]; [done|]. intros [= ->] Hm Hn. destruct n as [|n]; [cbn in Hn; lia|]. exists n. split; [cbn in Hn; rewrite length_app in Hn; lia|].
  rewrite <- app_assoc. cbn [app] in *. by apply loop_turn.
Qed.

Lemma step_endTag pre name s : smallName name = true ->
  let x := js "</" ++ name ++ js ">" in markupStep (pre ++ x ++ s) ids classes (length pre) = (x, Some (length (pre ++ x))).
Proof.
  intros (c & n & _ & _ & Hn)%smallName_spec x. apply (step_closed pre 47 name s); [by right|done|]. intros Hin. rewrite Forall_forall in Hn.
  apply Hn, smallUnit_spec in Hin as (_ & _ & _ & _ & [] & _). done.
Qed.

(** What the loop makes of one piece of markup. *)
Lemma loop_markup pre x s n : markupOk x = true -> 304%N ∉ (pre ++ markupText x) -> length (markupText x ++ s) <= n ->
  exists n', length s <= n' /\
    loop (pre ++ markupText x ++ s) n (length pre) =
    markupText (renameMarkup ids classes x) ++ loop ((pre ++ markupText x) ++ s) n' (length (pre ++ markupText x)).
Proof.
  intros Hok H304 Hn. destruct x as [text|text|text|name|name attributes|name attributes content]; cbn [markupOk markupText renameMarkup] in *.
  - exists n. split; [rewrite length_app in Hn; lia|]. apply negb_true_iff, bool_decide_eq_false in Hok. rewrite <- (app_assoc pre). by apply loop_chars.
  - apply turn_then; [done| |done]. apply step_comment. by apply negb_true_iff.
  - apply andb_true_iff in Hok as [Ht%negb_true_iff%bool_decide_eq_false Hs%negb_true_iff]. apply turn_then; [done| |done].
    apply (step_closed pre 33 text s); [by left| |done]. change (js "<!--") with [60; 33; 45; 45]%N. change (js "--") with [45; 45]%N in Hs.
    destruct text as [|a [|b text]]; cbn -[N.eqb] in *; [done| |exact Hs]. by destruct (45 =? a)%N.
  - apply turn_then; [done| |done]. by apply step_endTag.
  - rewrite !andb_true_iff in Hok. destruct Hok as [[Hname Hraw%negb_true_iff] Ha]. apply turn_then; [done| |done].
    rewrite step_element by done. cbv zeta. by rewrite Hraw.
  - rewrite !andb_true_iff in Hok. destruct Hok as [[Hraw Ha] Hi%negb_true_iff]. rewrite !not_elem_of_app in H304. destruct H304 as (H1 & H2 & H3 & _).
    assert (smallName name = true) as Hname by exact (listed_all smallName rawNames name ltac:(vm_compute; reflexivity) Hraw).
    set (x := startTagText name attributes) in *. set (close := js "</" ++ name ++ js ">") in *.
    assert (pre ++ (x ++ content ++ close) ++ s = pre ++ (x ++ content) ++ close ++ s) as E by (by rewrite <- !app_assoc).
    assert (length ((x ++ content) ++ close ++ s) <= n) as Hn1 by (rewrite !length_app in *; lia).
    destruct (turn_then pre (x ++ content) (close ++ s) n (startTagText name (renameAttribute ids classes <$> attributes) ++ content)) as (n1 & Hl1 & E1); [done| |done|].
    { unfold close, x. rewrite <- !app_assoc. by rewrite step_raw. }
    destruct (turn_then (pre ++ x ++ content) close s n1 close) as (n2 & Hl2 & E2); [done|by apply step_endTag|done|].
    exists n2. split; [done|]. rewrite E, E1, E2. by rewrite <- !app_assoc.
Qed.

Lemma loop_page page : forall pre n, forallb markupOk page = true -> 304%N ∉ (pre ++ pageText page) -> length (pageText page) <= n ->
  loop (pre ++ pageText page) n (length pre) = pageText (renamePage ids classes page).
Proof.
  induction page as [|x page IH]; intros pre n Hok H304 Hn.
  - change (pageText []) with ([] : jstr). rewrite app_nil_r. destruct n; cbn [htmlLoop]; [done|]. by rewrite Nat.ltb_irrefl.
  - apply andb_true_iff in Hok as [Hx Hok]. change (pageText (x :: page)) with (markupText x ++ pageText page) in *.
    destruct (loop_markup pre x (pageText page) n Hx) as (n' & Hl & ->); [|done|].
    { intros Hin. apply H304. rewrite app_assoc. apply elem_of_app. by left. }
    rewrite IH; [done|done|by rewrite <- app_assoc|done].
Qed.
End loop.

(** The code makes of the text of a well formed page the text of the renamed page. *)
Lemma replaceHtml_page ids classes page : pageOk page = true ->
  replaceHtmlSelectorReferences (pageText page) ids classes = pageText (renamePage ids classes page).
Proof.
  intros [Hok H304%negb_true_iff%bool_decide_eq_false]%andb_true_iff. by apply (loop_page ids classes page []).
Qed.
