(* ===== verification/JsTree.v ===== *)
(** * Syntax trees and bindings

    sdk/typescript/scripts/reference-assets.mjs, the analysis of scripts: the
    syntax tree that acorn returns (ESTree), the bindings that
    [collectBindings] records and [resolveBinding].  A node is known by its path
    from the root, which stands for the identity of the object; a place is a node
    with its path and its ancestors, which stand for the map [parents].  The
    recursive walks of the code visit the places in the order of [places]. *)

From stdpp Require Import base tactics option list numbers strings.
From Stdlib Require Import Lia.
From S2P Require Import Prelude JsString JsNumber JsValue Regex Paths Effects Selectors.
#[local] Open Scope nat_scope.

(** ** Nodes *)

(** A property of a node is a value, a node or a list of nodes; [cooked] and [raw]
    of a template element are its properties here. *)
Inductive node : Type := Node (type : string) (start end_ : nat) (fields : list (string * field))
with field : Type :=
  | Scalar (v : value)
  | Child (n : node)
  | Children (l : list (option node)).

Definition typeOf (n : node) : string := match n with Node t _ _ _ => t end.
Definition startOf (n : node) : nat := match n with Node _ s _ _ => s end.
Definition endOf (n : node) : nat := match n with Node _ _ e _ => e end.
Definition fieldsOf (n : node) : list (string * field) := match n with Node _ _ _ fs => fs end.

Fixpoint fieldIn (k : string) (fs : list (string * field)) : option field :=
  match fs with [] => None | (k', f) :: fs' => if decide (k' = k) then Some f else fieldIn k fs' end.

(** [n.k]: a node ([None] for [null]), a list of nodes, or a value. *)
Definition sub (k : string) (n : node) : option node := match fieldIn k (fieldsOf n) with Some (Child c) => Some c | _ => None end.
Definition items (k : string) (n : node) : list (option node) := match fieldIn k (fieldsOf n) with Some (Children l) => l | _ => [] end.
Definition scalar (k : string) (n : node) : value := match fieldIn k (fieldsOf n) with Some (Scalar v) => v | _ => Undefined end.
Definition item (k : string) (i : nat) (n : node) : option node := mjoin (items k n !! i).

(** [n?.type === t], [n.k === s] *)
Definition typeIs (t : string) (n : option node) : bool := from_option (fun n => bool_decide (typeOf n = t)) false n.
Definition scalarIs (k s : string) (n : option node) : bool := from_option (fun n => is_str (js s) (scalar k n)) false n.
Definition identifier (s : string) (n : option node) : bool := typeIs "Identifier" n && scalarIs "name" s n.
Definition nameOf (n : node) : jstr := str_of (scalar "name" n).

(** ** Values known from the text *)

Definition cooked (n : node) : value := from_option (scalar "cooked") Undefined (item "quasis" 0 n).

Definition memberName (member : option node) : value :=
  match member with
  | Some m =>
      if bool_decide (typeOf m = "MemberExpression"%string) then
        let computed := truthy (scalar "computed" m) in
        match sub "property" m with
        | Some property =>
            if negb computed && bool_decide (typeOf property = "Identifier"%string) then scalar "name" property
            else if computed && bool_decide (typeOf property = "Literal"%string) then scalar "value" property
            else if computed && bool_decide (typeOf property = "TemplateLiteral"%string) && bool_decide (items "expressions" property = [])
            then cooked property else Undefined
        | None => Undefined
        end
      else Undefined
  | None => Undefined
  end.
Definition memberIs (s : string) (n : option node) : bool := is_str (js s) (memberName n).

(** A node or [null]. *)
Definition staticStringValue (n : option node) : value :=
  match n with
  | None => Undefined
  | Some n =>
      if bool_decide (typeOf n = "Literal"%string) && isString (scalar "value" n) then scalar "value" n
      else if bool_decide (typeOf n = "TemplateLiteral"%string) && bool_decide (items "expressions" n = []) then cooked n
      else Undefined
  end.

(** [staticStringValue(call.arguments[0])], which reads a property of [undefined]
    when there is no argument. *)
Definition readUndefined : jsError := newError (js "Cannot read properties of undefined (reading 'type')").
Definition firstArgumentString (call : node) : result jsError value :=
  match item "arguments" 0 call with Some a => Ok (staticStringValue (Some a)) | None => Throw readUndefined end.

Definition objectOf (n : option node) : option node := n ≫= sub "object".
Definition calleeOf (call : node) : option node := sub "callee" call.

Definition isDocumentReference (n : option node) : bool :=
  identifier "document" n || memberIs "document" n && identifier "window" (objectOf n).

Definition isDomLookupCall (call : node) (method : value) : bool :=
  (is_str (js "getElementById") method || is_str (js "getElementsByClassName") method) && isDocumentReference (objectOf (calleeOf call)).

Definition isLocationReference (n : option node) : bool :=
  identifier "location" n
  || memberIs "location" n
     && (typeIs "Identifier" (objectOf n) && (scalarIs "name" "window" (objectOf n) || scalarIs "name" "document" (objectOf n))
         || isDocumentReference (objectOf n)).

Definition isLocationUrlAssignment (left : option node) : bool :=
  identifier "location" left
  || (memberIs "hash" left || memberIs "href" left) && isLocationReference (objectOf left)
  || memberIs "location" left && typeIs "Identifier" (objectOf left)
     && (scalarIs "name" "window" (objectOf left) || scalarIs "name" "document" (objectOf left)).

(** ** Places *)

Definition step : Type := string * option nat.
Definition path : Type := list step.

Record place : Type := { here : node; placePath : path; above : list (node * path) }.

Definition parentOf (p : place) : option place :=
  match above p with [] => None | (n, q) :: up => Some {| here := n; placePath := q; above := up |} end.

(** The parent of the place when its type is [t] and the place is its [k]. *)
Definition isChild (t k : string) (p : place) : bool :=
  match parentOf p with
  | Some parent => bool_decide (typeOf (here parent) = t) && bool_decide (placePath p = (k, None) :: placePath parent)
  | None => false
  end.

(** The node and what is below it, in the order of the walks. *)
Fixpoint places (n : node) (q : path) (up : list (node * path)) : list place :=
  {| here := n; placePath := q; above := up |} ::
  match n with
  | Node _ _ _ fields =>
      (fix over (fs : list (string * field)) : list place :=
         match fs with
         | [] => []
         | (k, f) :: fs' =>
             match f with
             | Scalar _ => []
             | Child c => places c ((k, None) :: q) ((n, q) :: up)
             | Children l =>
                 (fix each (i : nat) (l : list (option node)) : list place :=
                    match l with
                    | [] => []
                    | Some c :: l' => places c ((k, Some i) :: q) ((n, q) :: up) ++ each (S i) l'
                    | None :: l' => each (S i) l'
                    end) 0 l
             end ++ over fs'
         end) fields
  end.
Definition allPlaces (root : node) : list place := places root [] [].

(** ** Scopes *)

Record scope : Type := { scopePath : path; scopeStart : nat; scopeEnd : nat }.
Definition scopeOf (n : node) (q : path) : scope := {| scopePath := q; scopeStart := startOf n; scopeEnd := endOf n |}.

#[export] Instance scope_eq_dec : EqDecision scope.
Proof. solve_decision. Defined.

Definition isFunction (n : node) : bool :=
  bool_decide (typeOf n ∈ ["FunctionDeclaration"; "FunctionExpression"; "ArrowFunctionExpression"]%string).
Definition createsLexicalScope (n : node) : bool :=
  bool_decide (typeOf n ∈ ["Program"; "BlockStatement"; "StaticBlock"; "SwitchStatement"; "ForStatement"; "ForInStatement"; "ForOfStatement";
                           "CatchClause"]%string).

(** The scope handed down by the closest ancestor that opens one; the root when
    none does. *)
Fixpoint scopeAbove (opens : node -> bool) (self : scope) (up : list (node * path)) : scope :=
  match up with
  | [] => self
  | (n, q) :: up' => if opens n then scopeOf n q else scopeAbove opens (scopeOf n q) up'
  end.
Definition functionScope (p : place) : scope := scopeAbove isFunction (scopeOf (here p) (placePath p)) (above p).
Definition lexicalScope (p : place) : scope :=
  scopeAbove (fun n => isFunction n || createsLexicalScope n) (scopeOf (here p) (placePath p)) (above p).

(** ** Bindings *)

Record binding : Type := {
  kind : jstr;
  bindingName : jstr;
  bindingScope : scope;
  initializerCount : nat;
  static_ : option node;
  concatenated : bool;
  styleElementInitializer : option node;
}.

(** [bindingDeclarations] as one list, a record known by its index;
    [assignmentTargets] as names with their positions; [assignedBindings]. *)
Record bindings : Type := { records : list binding; assignmentTargets : list (jstr * nat); assignedBindings : list nat }.

Definition noBindings : bindings := {| records := []; assignmentTargets := []; assignedBindings := [] |}.

Definition assign (i : nat) (b : bindings) : bindings :=
  {| records := records b; assignmentTargets := assignmentTargets b; assignedBindings := i :: assignedBindings b |}.
Definition updateRecord (f : binding -> binding) (i : nat) (b : bindings) : bindings :=
  {| records := alter f i (records b); assignmentTargets := assignmentTargets b; assignedBindings := assignedBindings b |}.

(** [visitBindingIdentifiers]: the identifiers of a pattern with their positions.
    The members of an object pattern are properties, read through their value, and
    rest elements. *)
Fixpoint bindingIdentifiers (n : node) : list (jstr * nat) :=
  match n with
  | Node type start _ fields =>
      let follow (k : string) : list (jstr * nat) :=
        (fix find (fs : list (string * field)) : list (jstr * nat) :=
           match fs with
           | [] => []
           | (k', f) :: fs' =>
               if decide (k' = k) then
                 match f with
                 | Scalar _ => []
                 | Child c => bindingIdentifiers c
                 | Children l => (fix each (l : list (option node)) : list (jstr * nat) :=
                     match l with [] => [] | Some c :: l' => bindingIdentifiers c ++ each l' | None :: l' => each l' end) l
                 end
               else find fs'
           end) fields in
      if decide (type = "Identifier"%string) then [(nameOf n, start)]
      else if decide (type = "RestElement"%string) then follow "argument"%string
      else if decide (type = "AssignmentPattern"%string) then follow "left"%string
      else if decide (type = "ArrayPattern"%string) then follow "elements"%string
      else if decide (type = "ObjectPattern"%string) then follow "properties"%string
      else if decide (type = "Property"%string) then follow "value"%string
      else []
  end.

Fixpoint findIndex {A} (f : A -> bool) (l : list A) : option nat :=
  match l with [] => None | x :: l' => if f x then Some 0 else S <$> findIndex f l' end.

Definition hoisted : list jstr := js <$> ["var"; "parameter"; "function"]%string.

(** The kinds of the record a new declaration joins. *)
Definition joins (kind : jstr) : list jstr :=
  if decide (kind = js "var") then hoisted
  else if decide (kind = js "parameter") then [js "parameter"]
  else if decide (kind = js "function") then hoisted else [].

Definition recordName (s : scope) (k name : jstr) (b : bindings) : bindings * nat :=
  match findIndex (fun r => bool_decide (bindingName r = name) && memb (kind r) (joins k) && bool_decide (bindingScope r = s)) (records b) with
  | Some i => (b, i)
  | None =>
      ({| records := records b ++ [{| kind := k; bindingName := name; bindingScope := s; initializerCount := 0; static_ := None;
                                      concatenated := false; styleElementInitializer := None |}];
          assignmentTargets := assignmentTargets b; assignedBindings := assignedBindings b |}, length (records b))
  end.

Fixpoint recordNames (s : scope) (k : jstr) (names : list (jstr * nat)) (b : bindings) : bindings * list nat :=
  match names with
  | [] => (b, [])
  | (name, _) :: names' => let '(b1, i) := recordName s k name b in let '(b2, l) := recordNames s k names' b1 in (b2, i :: l)
  end.

Definition recordBindingPattern (pattern : option node) (s : scope) (k : jstr) (b : bindings) : bindings * list nat :=
  recordNames s k (from_option bindingIdentifiers [] pattern) b.

Definition recordAssignedPattern (pattern : option node) (b : bindings) : bindings :=
  {| records := records b; assignmentTargets := assignmentTargets b ++ from_option bindingIdentifiers [] pattern;
     assignedBindings := assignedBindings b |}.

(** [records[0]] *)
Definition onFirst (l : list nat) (f : nat -> bindings -> bindings) (b : bindings) : bindings := match l with i :: _ => f i b | [] => b end.

Definition countInitializer (i : nat) (b : bindings) : bindings :=
  let b' := updateRecord (fun r => {| kind := kind r; bindingName := bindingName r; bindingScope := bindingScope r;
                                      initializerCount := S (initializerCount r); static_ := static_ r; concatenated := concatenated r;
                                      styleElementInitializer := styleElementInitializer r |}) i b in
  match records b' !! i with Some r => if (1 <? initializerCount r)%nat then assign i b' else b' | None => b' end.

Definition staticOf (i : nat) (b : bindings) : option node := records b !! i ≫= static_.

Definition setStatic (init : node) (i : nat) (b : bindings) : bindings :=
  match staticOf i b with
  | Some _ => assign i b
  | None => updateRecord (fun r => {| kind := kind r; bindingName := bindingName r; bindingScope := bindingScope r;
                                      initializerCount := initializerCount r; static_ := Some init; concatenated := concatenated r;
                                      styleElementInitializer := styleElementInitializer r |}) i b
  end.
Definition setConcatenated (i : nat) (b : bindings) : bindings :=
  updateRecord (fun r => {| kind := kind r; bindingName := bindingName r; bindingScope := bindingScope r;
                            initializerCount := initializerCount r; static_ := static_ r; concatenated := true;
                            styleElementInitializer := styleElementInitializer r |}) i b.
Definition setStyleElement (init : node) (i : nat) (b : bindings) : bindings :=
  updateRecord (fun r => {| kind := kind r; bindingName := bindingName r; bindingScope := bindingScope r;
                            initializerCount := initializerCount r; static_ := static_ r; concatenated := concatenated r;
                            styleElementInitializer := Some init |}) i b.

(** What an initializer says about the first binding of its declarator. *)
Definition describeInitializer (declared : bool) (init : option node) (i : nat) (b : bindings) : bindings :=
  match init with
  | Some e =>
      if declared && (typeIs "TemplateLiteral" init || isString (staticStringValue init)) then setStatic e i b
      else if declared && typeIs "BinaryExpression" init && scalarIs "operator" "+" init then setConcatenated i b
      else if bool_decide (is_Some (staticOf i b)) then assign i b else b
  | None => b
  end.

Definition isStyleElement (call : node) : result jsError bool :=
  if memberIs "createElement" (calleeOf call) then tag ← firstArgumentString call; Ok (is_str (js "style") tag) else Ok false.

Definition bindDeclarator (p : place) (b : bindings) : result jsError bindings :=
  let n := here p in
  let parent := here <$> parentOf p in
  let k := from_option (fun m => str_of (scalar "kind" m)) [] parent in
  let s := if decide (k = js "var") then functionScope p else lexicalScope p in
  let init := sub "init" n in
  let '(b1, l) := recordBindingPattern (sub "id" n) s k b in
  let b2 := if bool_decide (is_Some init) then onFirst l countInitializer b1 else b1 in
  if typeIs "Identifier" (sub "id" n) then
    let declared := typeIs "VariableDeclaration" parent && memb k (js <$> ["const"; "let"; "var"]%string) in
    let b3 := onFirst l (describeInitializer declared init) b2 in
    match init with
    | Some e =>
        if bool_decide (typeOf e = "CallExpression"%string) then
          style ← isStyleElement e; Ok (if style : bool then onFirst l (setStyleElement e) b3 else b3)
        else Ok b3
    | None => Ok b3
    end
  else Ok b2.

Definition bindFunction (p : place) (b : bindings) : bindings :=
  let n := here p in
  let self := scopeOf n (placePath p) in
  let b1 :=
    match sub "id" n with
    | Some id =>
        let declarationScope :=
          if decide (typeOf n = "FunctionExpression"%string) then self
          else if bool_decide (placePath <$> parentOf p = Some (("body"%string, None) :: scopePath (functionScope p))) then functionScope p
          else lexicalScope p in
        let b' := (recordBindingPattern (Some id) declarationScope (js "function") b).1 in
        if bool_decide (typeOf n = "FunctionDeclaration"%string) && negb (bool_decide (declarationScope = functionScope p))
        then (recordBindingPattern (Some id) (functionScope p) (js "var") b').1 else b'
    | None => b
    end in
  foldl (fun b' parameter => (recordBindingPattern parameter self (js "parameter") b').1) b1 (items "params" n).

(** One node of [collectBindings]. *)
Definition bindNode (root : node) (p : place) (b : bindings) : result jsError bindings :=
  let n := here p in
  let self := scopeOf n (placePath p) in
  let t := typeOf n in
  if decide (t = "VariableDeclarator"%string) then bindDeclarator p b
  else if isFunction n then Ok (bindFunction p b)
  else if bool_decide (t ∈ ["ClassDeclaration"; "ClassExpression"]%string) then
    Ok (recordBindingPattern (sub "id" n) (if decide (t = "ClassExpression"%string) then self else lexicalScope p) (js "class") b).1
  else if decide (t = "CatchClause"%string) then Ok (recordBindingPattern (sub "param" n) self (js "catch") b).1
  else if bool_decide (t ∈ ["ImportSpecifier"; "ImportDefaultSpecifier"; "ImportNamespaceSpecifier"]%string) then
    Ok (recordBindingPattern (sub "local" n) (scopeOf root []) (js "import") b).1
  else if decide (t = "AssignmentExpression"%string) then Ok (recordAssignedPattern (sub "left" n) b)
  else if decide (t = "UpdateExpression"%string) then
    Ok (if typeIs "Identifier" (sub "argument" n) then recordAssignedPattern (sub "argument" n) b else b)
  else if bool_decide (t ∈ ["ForInStatement"; "ForOfStatement"]%string) then
    Ok (if typeIs "VariableDeclaration" (sub "left" n) then b else recordAssignedPattern (sub "left" n) b)
  else Ok b.

Fixpoint bindPlaces (root : node) (l : list place) (b : bindings) : result jsError bindings :=
  match l with [] => Ok b | p :: l' => b' ← bindNode root p b; bindPlaces root l' b' end.

(** ** Resolution *)

Definition scopeSize (s : scope) : nat := scopeEnd s - scopeStart s.
Definition insideScope (position : nat) (s : scope) : bool := (scopeStart s <=? position)%nat && (position <? scopeEnd s)%nat.

(** The candidates by the size of their scopes; the sort is stable. *)
Fixpoint insertCandidate (x : nat * binding) (l : list (nat * binding)) : list (nat * binding) :=
  match l with
  | [] => [x]
  | y :: l' => if (scopeSize (bindingScope x.2) <? scopeSize (bindingScope y.2))%nat then x :: l else y :: insertCandidate x l'
  end.
Definition sortCandidates (l : list (nat * binding)) : list (nat * binding) := foldl (fun acc x => insertCandidate x acc) [] l.

Definition candidates (rs : list binding) (name : jstr) (position : nat) : list (nat * binding) :=
  sortCandidates (filter (fun x => bindingName x.2 = name /\ insideScope position (bindingScope x.2) = true) (imap pair rs)).

(** The record a name at a position refers to; [None] when there is none, or two in
    one scope. *)
Definition resolveBinding (rs : list binding) (name : jstr) (position : nat) : option (nat * binding) :=
  match candidates rs name position with
  | [] => None
  | [x] => Some x
  | x :: y :: _ => if decide (bindingScope x.2 = bindingScope y.2) then None else Some x
  end.

(** [collectBindings], then the loop over the assignment targets. *)
Definition collectBindings (root : node) : result jsError bindings :=
  b ← bindPlaces root (allPlaces root) noBindings;
  Ok (foldl (fun b' target => match resolveBinding (records b) target.1 target.2 with Some (i, _) => assign i b' | None => b' end)
        b (assignmentTargets b)).
