(* ===== verification/JsRewrite.v ===== *)
(** * Renaming selectors in scripts

    sdk/typescript/scripts/reference-assets.mjs: [replaceJavaScriptSelectorReferences].
    Strings that reach the DOM are rewritten in place; a use that cannot be followed
    is refused.  The parser is acorn, a parameter; what the code keeps in maps from
    nodes is computed from the places of the tree. *)

From stdpp Require Import base tactics option list numbers strings.
From Stdlib Require Import Lia.
From S2P Require Import Prelude JsString JsNumber JsValue Regex Paths Effects Selectors JsTree.
#[local] Open Scope nat_scope.

(** ** Text of literals *)

Definition hexLower (n : N) : N := if (n <? 10)%N then (48 + n)%N else (87 + n)%N.
Definition unicodeEscape (c : N) : jstr :=
  js "\u" ++ [hexLower (c / 4096 mod 16); hexLower (c / 256 mod 16); hexLower (c / 16 mod 16); hexLower (c mod 16)]%N.

Definition jsonUnit (c : N) : jstr :=
  (if c =? 34 then [92; 34] else if c =? 92 then [92; 92] else if c =? 8 then js "\b" else if c =? 12 then js "\f"
   else if c =? 10 then js "\n" else if c =? 13 then js "\r" else if c =? 9 then js "\t"
   else if c <? 32 then unicodeEscape c else [c])%N.

(** A surrogate that is not part of a pair is escaped. *)
Fixpoint jsonUnits (s : jstr) : jstr :=
  match s with
  | [] => []
  | c :: s' =>
      if is_high c then
        match s' with
        | d :: s'' => if is_low d then c :: d :: jsonUnits s'' else unicodeEscape c ++ jsonUnits s'
        | [] => unicodeEscape c
        end
      else (if is_low c then unicodeEscape c else jsonUnit c) ++ jsonUnits s'
  end.

(** [JSON.stringify(s)] *)
Definition jsonString (s : jstr) : jstr := [34%N] ++ jsonUnits s ++ [34%N].

(** The text of a template element. *)
Definition templateText (s : jstr) : jstr :=
  replaceAll (js "${") (js "\${") (replaceAll [96%N] (js "\" ++ [96%N]) (replaceAll (js "\") (js "\\") s)).

(** A text whose neighbours are unknown is mapped with a [-] in their place. *)
Definition guarded (preceding following : bool) (mapper : jstr -> jstr) (s : jstr) : jstr :=
  let mapped := mapper ((if preceding then js "-" else []) ++ s ++ (if following then js "-" else [])) in
  drop (if preceding then 1 else 0) (take (length mapped - (if following then 1 else 0)) mapped).

Definition stringExpressionReplacements (n : node) (mapper : jstr -> jstr) : list edit :=
  if decide (typeOf n = "Literal"%string) then
    match scalar "value" n with
    | Str s => let mapped := mapper s in
               if decide (mapped = s) then [] else [{| editStart := startOf n; editEnd := endOf n; editText := jsonString mapped |}]
    | _ => []
    end
  else if decide (typeOf n = "TemplateLiteral"%string) then
    concat (imap (fun index quasi =>
      match quasi with
      | Some q =>
          let original := str_of (nullish (scalar "cooked" q) (scalar "raw" q)) in
          let v := guarded (0 <? index)%nat (index <? length (items "expressions" n))%nat mapper original in
          if decide (v = original) then [] else [{| editStart := startOf q; editEnd := endOf q; editText := templateText v |}]
      | None => []
      end) (items "quasis" n))
  else [].

(** The text of a concatenation of literals. *)
Fixpoint staticConcatenationValue (n : node) : value :=
  match n with
  | Node type _ _ fields =>
      let operand (k : string) : value :=
        (fix find (fs : list (string * field)) : value :=
           match fs with
           | [] => Undefined
           | (k', f) :: fs' => if decide (k' = k) then match f with Child c => staticConcatenationValue c | _ => Undefined end else find fs'
           end) fields in
      if decide (type = "BinaryExpression"%string) then
        if is_str (js "+") (scalar "operator" n) then
          match operand "left"%string, operand "right"%string with Str l, Str r => Str (l ++ r) | _, _ => Undefined end
        else Undefined
      else staticStringValue (Some n)
  end.

(** The identifier at the root of a chain of members. *)
Fixpoint browserRootIdentifier (n : node) : node :=
  match n with
  | Node type _ _ fields =>
      if decide (type = "MemberExpression"%string) then
        (fix find (fs : list (string * field)) : node :=
           match fs with
           | [] => n
           | (k', f) :: fs' => if decide (k' = "object"%string) then match f with Child c => browserRootIdentifier c | _ => n end else find fs'
           end) fields
      else n
  end.

(** ** Calls *)

Definition selectorMethods : list jstr :=
  js <$> ["closest"; "insertRule"; "matches"; "querySelector"; "querySelectorAll"; "replaceSync"]%string.
Definition classListMethods : list jstr := js <$> ["add"; "contains"; "remove"; "replace"; "toggle"]%string.

(** [call.arguments.indexOf(argument)] *)
Definition argumentIndex (call : place) (argument : path) : option nat :=
  match argument with
  | (k, Some i) :: q => if decide (k = "arguments"%string /\ q = placePath call) then Some i else None
  | _ => None
  end.
Definition isArgument (i : nat) (call : place) (argument : path) : bool := bool_decide (argumentIndex call argument = Some i).

Definition callee (call : place) : option node := calleeOf (here call).

Definition setAttributeKind (call : place) (argument : path) : option jstr :=
  if memberIs "setAttribute" (callee call) && isArgument 1 call argument then
    match staticStringValue (item "arguments" 0 (here call)) with
    | Str a => let a' := toLowerCase a in if memb a' (js <$> ["href"; "id"; "class"]%string) then Some a' else None
    | _ => None
    end
  else None.

Definition isClassListTokenArgument (call : place) (method : value) (argument : path) : bool :=
  memberIs "classList" (objectOf (callee call))
  && let index := argumentIndex call argument in
     if is_str (js "add") method || is_str (js "remove") method then bool_decide (is_Some index)
     else if is_str (js "replace") method then bool_decide (index = Some 0) || bool_decide (index = Some 1)
     else (is_str (js "contains") method || is_str (js "toggle") method) && bool_decide (index = Some 0).

Definition isHistoryReceiver (n : option node) : bool :=
  identifier "history" n || memberIs "history" n && scalarIs "name" "window" (objectOf n).

Definition isHistoryUrlCall (call : place) (argument : path) : bool :=
  (memberIs "pushState" (callee call) || memberIs "replaceState" (callee call)) && isArgument 2 call argument
  && isHistoryReceiver (objectOf (callee call)).

Section mappings.
Context (ids classes : mapping).

Definition mapIds (s : jstr) : jstr := replaceEach (js "#") ids s.

Definition mapJavaScriptValue (v : jstr) (call : place) (argument : path) : jstr :=
  let c := callee call in
  let method := memberName c in
  let indirectMethod := if is_str (js "call") method then memberName (objectOf c) else Undefined in
  match setAttributeKind call argument with
  | Some attribute =>
      if decide (attribute = js "href") then mapFragmentValue v ids
      else if decide (attribute = js "id") then renamed ids v
      else replaceTokenList v classes
  | None =>
      if one_of selectorMethods indirectMethod && isArgument 1 call argument then mapCssSelectors v ids classes
      else if (one_of selectorMethods method || identifier "$" c) && isArgument 0 call argument then mapCssSelectors v ids classes
      else if is_str (js "getElementById") method && isDomLookupCall (here call) method && isArgument 0 call argument then renamed ids v
      else if is_str (js "getElementsByClassName") method && isDomLookupCall (here call) method && isArgument 0 call argument
      then replaceTokenList v classes
      else if one_of classListMethods method && isClassListTokenArgument call method argument then renamed classes v
      else if (is_str (js "assign") method || is_str (js "replace") method) && isLocationReference (objectOf c) && isArgument 0 call argument
      then mapIds v
      else if (is_str (js "open") method && identifier "window" (objectOf c) || identifier "open" c) && isArgument 0 call argument then mapIds v
      else if (is_str (js "pushState") method || is_str (js "replaceState") method) && isArgument 2 call argument && isHistoryReceiver (objectOf c)
      then mapIds v
      else v
  end.

Definition mapCssValue (s : jstr) : jstr := mapCssSelectors s ids classes.
Definition mapHtmlValue (s : jstr) : jstr := replaceHtmlSelectorReferences s ids classes.
Definition mapFragments (s : jstr) : jstr := mapFragmentValue s ids.

(** ** Contexts *)

(** The parent passes on the value of the place. *)
Definition passesValue (parent : node) (q pq : path) : bool :=
  let property (k : string) := bool_decide (q = (k, None) :: pq) in
  match typeOf parent with
  | "ConditionalExpression"%string => property "consequent"%string || property "alternate"%string
  | "LogicalExpression"%string => property "left"%string || property "right"%string
  | "SequenceExpression"%string => bool_decide (q = ("expressions"%string, Some (length (items "expressions" parent) - 1)) :: pq)
  | _ => false
  end.
Definition isConcatenation (n : node) : bool := bool_decide (typeOf n = "BinaryExpression"%string) && is_str (js "+") (scalar "operator" n).

Fixpoint climb (through : node -> path -> path -> bool) (q : path) (up : list (node * path)) : path * list (node * path) :=
  match up with
  | (n, pq) :: up' => if through n q pq then climb through pq up' else (q, up)
  | [] => (q, up)
  end.

Definition selectorArgumentCall (q : path) (up : list (node * path)) : option (path * place) :=
  match climb passesValue q up with
  | (argument, (n, cq) :: up') =>
      let call := {| here := n; placePath := cq; above := up' |} in
      if bool_decide (typeOf n = "CallExpression"%string) && bool_decide (is_Some (argumentIndex call argument)) then Some (argument, call) else None
  | (_, []) => None
  end.

(** [concatenationRoot]: the node, its path and its ancestors. *)
Fixpoint concatenationRoot (n : node) (q : path) (up : list (node * path)) : place :=
  match up with
  | (m, pq) :: up' => if isConcatenation m then concatenationRoot m pq up' else {| here := n; placePath := q; above := up |}
  | [] => {| here := n; placePath := q; above := up |}
  end.
Definition rootOf (p : place) : place := concatenationRoot (here p) (placePath p) (above p).

(** The assignment whose right side the place is, through [through]. *)
Definition assignmentOf (through : node -> path -> path -> bool) (p : place) : option node :=
  match climb through (placePath p) (above p) with
  | (q, (n, aq) :: _) =>
      if bool_decide (typeOf n = "AssignmentExpression"%string) && bool_decide (q = ("right"%string, None) :: aq) then Some n else None
  | (_, []) => None
  end.

Section bound.
Context (b : bindings).

Definition resolveName (name : jstr) (position : nat) : option (nat * binding) := resolveBinding (records b) name position.
Definition unbound (n : node) : bool := negb (bool_decide (is_Some (resolveName (nameOf n) (startOf n)))).
Definition unboundOpt (n : option node) : bool := from_option unbound true n.

Definition fragmentAssignment (p : place) : bool :=
  match assignmentOf (fun n q pq => passesValue n q pq || isConcatenation n) p with
  | Some a =>
      let left := sub "left" a in
      isLocationUrlAssignment left
      && let reference := if memberIs "hash" left || memberIs "href" left then objectOf left else left in
         unboundOpt (browserRootIdentifier <$> reference)
  | None => false
  end.

Definition isUnshadowedLocationReference (n : option node) : bool :=
  isLocationReference n && unboundOpt (browserRootIdentifier <$> n).

Definition isUnshadowedHistoryReference (n : option node) : bool :=
  if identifier "history" n then unboundOpt n
  else memberIs "history" n && identifier "window" (objectOf n) && unboundOpt (objectOf n).

Definition unshadowedDocument (n : option node) : bool :=
  isDocumentReference n
  && negb (typeIs "Identifier" n && negb (unboundOpt n)
           || memberIs "document" n && typeIs "Identifier" (objectOf n) && negb (unboundOpt (objectOf n))).

Definition isProvenDomElement (n : option node) : bool :=
  match n with
  | Some c =>
      bool_decide (typeOf c = "CallExpression"%string)
      && let method := memberName (calleeOf c) in
         is_str (js "getElementById") method && isDomLookupCall c method && unshadowedDocument (objectOf (calleeOf c))
         || is_str (js "querySelector") method && unshadowedDocument (objectOf (calleeOf c))
  | None => false
  end.

Definition isProvenStyleElement (n : option node) : result jsError bool :=
  let record := match n with
                | Some m => if decide (typeOf m = "Identifier"%string) then resolveName (nameOf m) (startOf m) else None
                | None => None
                end in
  if from_option (fun r => memb r.1 (assignedBindings b)) false record then Ok false
  else
    match (match record ≫= fun r => styleElementInitializer r.2 with Some init => Some init | None => n end) with
    | Some init =>
        if bool_decide (typeOf init = "CallExpression"%string) then
          style ← isStyleElement init; Ok (style && unshadowedDocument (objectOf (calleeOf init)))
        else Ok false
    | None => Ok false
    end.

(** [Some proven] where the code returns an object. *)
Definition htmlAssignment (p : place) : option bool :=
  match assignmentOf passesValue p with
  | Some a =>
      let left := sub "left" a in
      if typeIs "MemberExpression" left && (memberIs "innerHTML" left || memberIs "outerHTML" left)
      then Some (isProvenDomElement (objectOf left)) else None
  | None => None
  end.

Definition htmlInsertionCall (p : place) : option bool :=
  match climb passesValue (placePath p) (above p) with
  | (q, (n, cq) :: up') =>
      if bool_decide (typeOf n = "CallExpression"%string) && memberIs "insertAdjacentHTML" (calleeOf n)
         && bool_decide (q = ("arguments"%string, Some 1) :: cq)
      then Some (isProvenDomElement (objectOf (calleeOf n))) else None
  | (_, []) => None
  end.

Definition htmlContext (p : place) : option bool := match htmlAssignment p with Some x => Some x | None => htmlInsertionCall p end.

Definition styleAssignment (p : place) : result jsError (option bool) :=
  match assignmentOf passesValue p with
  | Some a =>
      let left := sub "left" a in
      if typeIs "MemberExpression" left && memberIs "textContent" left
      then proven ← isProvenStyleElement (objectOf left); Ok (Some proven) else Ok None
  | None => Ok None
  end.

Definition comparisonMapping (p : place) : result jsError (option (jstr -> jstr)) :=
  match parentOf p with
  | Some comparison =>
      if bool_decide (typeOf (here comparison) = "BinaryExpression"%string)
         && one_of (js <$> ["=="; "==="; "!="; "!=="]%string) (scalar "operator" (here comparison)) then
        let other := if isChild "BinaryExpression" "left" p then sub "right" (here comparison) else sub "left" (here comparison) in
        if typeIs "MemberExpression" other then
          if (memberIs "hash" other || memberIs "href" other) && isUnshadowedLocationReference (objectOf other) then Ok (Some mapFragments)
          else if memberIs "id" other || memberIs "className" other then
            let mapper := if memberIs "id" other then renamed ids else fun s => replaceTokenList s classes in
            if isProvenDomElement (objectOf other) then Ok (Some mapper)
            else
              let changed := match staticStringValue (Some (here p)) with Str s => negb (bool_decide (mapper s = s)) | _ => false end in
              _ ← ensure (negb (changed || bool_decide (typeOf (here p) = "Identifier"%string)))
                    (newError (js "Comparison against ambiguous " ++ str_of (memberName other)
                               ++ js " receiver is unsupported when selector mangling is enabled."));
              Ok None
          else Ok None
        else Ok None
      else Ok None
  | None => Ok None
  end.

Definition isMappedCallArgument (call : place) (argument : path) : bool :=
  let c := callee call in
  let method := memberName c in
  let indirectMethod := if is_str (js "call") method then memberName (objectOf c) else Undefined in
  one_of selectorMethods indirectMethod && isArgument 1 call argument
  || (one_of selectorMethods method || identifier "$" c && unboundOpt c) && isArgument 0 call argument
  || isDomLookupCall (here call) method && unshadowedDocument (objectOf c) && isArgument 0 call argument
  || one_of classListMethods method && isClassListTokenArgument call method argument
  || (is_str (js "assign") method || is_str (js "replace") method) && isUnshadowedLocationReference (objectOf c) && isArgument 0 call argument
  || is_str (js "open") method && identifier "window" (objectOf c) && isArgument 0 call argument && unboundOpt (objectOf c)
  || identifier "open" c && isArgument 0 call argument && negb (bool_decide (is_Some (resolveName (js "open") (startOf (here call)))))
  || bool_decide (is_Some (setAttributeKind call argument)) && isProvenDomElement (objectOf c)
  || isHistoryUrlCall call argument && isUnshadowedHistoryReference (objectOf c).

Definition isProvenStringExpression (n : option node) : bool :=
  isString (staticStringValue n)
  || match n with
     | Some m =>
         bool_decide (typeOf m = "Identifier"%string)
         && match resolveName (nameOf m) (startOf m) with
            | Some (i, r) => bool_decide (is_Some (static_ r)) && negb (memb i (assignedBindings b))
            | None => false
            end
     | None => false
     end.

(** ** The walk *)

Record bindingReplacement : Type := { replacedStart : nat; replacedName : jstr; replacedRecord : nat; replacedEdits : list edit }.

(** [replacements], [bindingReplacements], and an entry for each use counted in
    [supportedBindingUses]. *)
Record walk : Type := { replacements : list edit; bindingReplacements : list bindingReplacement; supportedBindingUses : list nat }.

Definition pushEdits (l : list edit) (w : walk) : walk :=
  {| replacements := replacements w ++ l; bindingReplacements := bindingReplacements w; supportedBindingUses := supportedBindingUses w |}.

Definition unsupported (b : bool) (message : jstr) : result jsError unit := ensure (negb b) (newError message).
Definition mangling : jstr := js " when selector mangling is enabled.".

(** [mapper(value) !== value] for a value that is known. *)
Definition changes (mapper : jstr -> jstr) (v : value) : bool := match v with Str s => negb (bool_decide (mapper s = s)) | _ => false end.

Definition assertNoMappedStaticTemplateExpressions (n : node) (mapper : jstr -> jstr) : result jsError unit :=
  unsupported
    (bool_decide (typeOf n = "TemplateLiteral"%string)
     && existsb (fun e => from_option (fun m => changes mapper (staticConcatenationValue m)) false e) (items "expressions" n))
    (js "Static template interpolation is unsupported" ++ mangling).

Fixpoint setReplacement (r : bindingReplacement) (l : list bindingReplacement) : list bindingReplacement :=
  match l with
  | [] => [r]
  | r' :: l' => if decide (replacedStart r' = replacedStart r) then r :: l' else r' :: setReplacement r l'
  end.

#[export] Instance edit_eq_dec : EqDecision edit.
Proof. solve_decision. Defined.

(** The scope of one contains the scope of the other. *)
Definition nestedScopes (s t : scope) : bool :=
  (scopeStart s <=? scopeStart t)%nat && (scopeEnd t <=? scopeEnd s)%nat || (scopeStart t <=? scopeStart s)%nat && (scopeEnd s <=? scopeEnd t)%nat.

Definition nestedShadow (n : node) (i : nat) (r : binding) : bool :=
  existsb (fun x => negb (x.1 =? i)%nat && bool_decide (bindingName x.2 = nameOf n) && insideScope (startOf n) (bindingScope x.2)
                    && nestedScopes (bindingScope x.2) (bindingScope r)) (imap pair (records b)).

Definition recordStaticBindingReplacement (n : node) (mapper : jstr -> jstr) (w : walk) : result jsError walk :=
  let name := nameOf n in
  match resolveName name (startOf n) with
  | Some (i, r) =>
      match static_ r with
      | Some s =>
          _ ← unsupported (nestedShadow n i r) (js "Static selector binding " ++ name ++ js " must not be shadowed" ++ mangling);
          _ ← unsupported (negb (bool_decide (kind r = js "const")) && memb i (assignedBindings b))
                (js "Mutable selector binding " ++ name ++ js " must not be reassigned" ++ mangling);
          _ ← assertNoMappedStaticTemplateExpressions s mapper;
          let edits := stringExpressionReplacements s mapper in
          if decide (edits = []) then Ok w
          else
            let previous := find (fun x => (replacedStart x =? startOf s)%nat) (bindingReplacements w) in
            _ ← unsupported (from_option (fun x => negb (bool_decide (replacedEdits x = edits))) false previous)
                  (js "Static selector binding " ++ name ++ js " is used by incompatible selector APIs.");
            Ok {| replacements := replacements w;
                  bindingReplacements := setReplacement {| replacedStart := startOf s; replacedName := name; replacedRecord := i;
                                                           replacedEdits := edits |} (bindingReplacements w);
                  supportedBindingUses := i :: supportedBindingUses w |}
      | None =>
          if concatenated r
          then Throw (newError (js "Concatenated selector binding " ++ name ++ js " is unsupported; inline it or use a template literal."))
          else Throw (newError (js "Dynamic selector binding " ++ name ++ js " is unsupported" ++ mangling))
      end
  | None => Throw (newError (js "Dynamic selector binding " ++ name ++ js " is unsupported" ++ mangling))
  end.

(** The checks of an assignment to a member. *)
Definition checkAssignment (n : node) : result jsError unit :=
  let left := sub "left" n in
  if bool_decide (typeOf n = "AssignmentExpression"%string) && typeIs "MemberExpression" left then
    let static := staticStringValue (sub "right" n) in
    let unknown := isUndefined static in
    let ambiguousFragment :=
      (memberIs "href" left || memberIs "hash" left) && negb (isLocationReference (objectOf left)) && negb (bool_decide (ids = []))
      && (unknown || changes mapFragments static) in
    let ambiguousIdentity :=
      memberIs "id" left && negb (bool_decide (ids = [])) && (unknown || bool_decide (is_Some (lookupName ids (str_of static))))
      || memberIs "className" left && negb (bool_decide (classes = [])) && (unknown || changes (fun s => replaceTokenList s classes) static) in
    unsupported (ambiguousFragment || ambiguousIdentity)
      (js "Assignment to ambiguous " ++ str_of (memberName left) ++ js " receiver is unsupported" ++ mangling)
  else Ok tt.

Fixpoint setField (k : string) (f : field) (fs : list (string * field)) : list (string * field) :=
  match fs with [] => [(k, f)] | (k', f') :: fs' => if decide (k' = k) then (k, f) :: fs' else (k', f') :: setField k f fs' end.
Definition withField (k : string) (f : field) (n : node) : node :=
  match n with Node t s e fs => Node t s e (setField k f fs) end.

(** [{ ...node, callee: { ...node.callee, property: { type: "Identifier", name: "replaceSync" } } }] *)
Definition asReplaceSync (n : node) : node :=
  match calleeOf n with
  | Some c => withField "callee" (Child (withField "property"
                (Child (Node "Identifier" 0 0 [("name"%string, Scalar (Str (js "replaceSync")))])) c)) n
  | None => n
  end.

(** The checks of a call, apart from its arguments. *)
Definition checkCall (p : place) : result jsError unit :=
  let n := here p in
  if decide (typeOf n = "CallExpression"%string) then
    let c := calleeOf n in
    _ ← unsupported (memberIs "getElementsByClassName" c && negb (isDomLookupCall n (Str (js "getElementsByClassName"))) && negb (bool_decide (classes = [])))
          (js "Element-scoped getElementsByClassName is unsupported" ++ mangling);
    _ ← (if (1 <? length (items "arguments" n))%nat then
           let mappedAttribute :=
             match setAttributeKind p (("arguments"%string, Some 1) :: placePath p) with
             | Some a => bool_decide (a = js "id") && negb (bool_decide (ids = [])) || bool_decide (a = js "class") && negb (bool_decide (classes = []))
                         || bool_decide (a = js "href") && negb (bool_decide (ids = []))
             | None => false
             end in
           unsupported (mappedAttribute && negb (isProvenDomElement (objectOf c))) (js "Ambiguous setAttribute receiver is unsupported" ++ mangling)
         else Ok tt);
    if memberIs "replace" c && negb (isLocationReference (objectOf c)) && negb (isProvenStringExpression (objectOf c)) then
      source ← firstArgumentString n;
      let call := {| here := asReplaceSync n; placePath := placePath p; above := above p |} in
      unsupported (typeIs "Identifier" (item "arguments" 0 n)
                   || changes (fun s => mapJavaScriptValue s call (("arguments"%string, Some 0) :: placePath p)) source)
        (js "Ambiguous stylesheet replace() receiver is unsupported" ++ mangling)
    else Ok tt
  else Ok tt.

Definition branching : list string := ["ConditionalExpression"; "LogicalExpression"; "SequenceExpression"]%string.
Definition composing : list string := "BinaryExpression"%string :: branching.

(** A literal that is an operand of a concatenation. *)
Definition operandEdits (p : place) (fragment : bool) : list edit :=
  let n := here p in
  let root := rootOf p in
  let mapOperand (mapper : jstr -> jstr) :=
    stringExpressionReplacements n (guarded (startOf (here root) <? startOf n)%nat (endOf n <? endOf (here root))%nat mapper) in
  match selectorArgumentCall (placePath root) (above root) with
  | Some (argument, call) =>
      mapOperand (if isHistoryUrlCall call argument then mapFragments else fun s => mapJavaScriptValue s call argument)
  | None => if fragment then mapOperand mapFragments else []
  end.

(** One node of [visit]. *)
Definition visitNode (p : place) (w : walk) : result jsError walk :=
  let n := here p in
  let t := typeOf n in
  let text := bool_decide (t = "Literal"%string) || bool_decide (t = "TemplateLiteral"%string) in
  let interpolated := bool_decide (t = "TemplateLiteral"%string) && negb (bool_decide (items "expressions" n = [])) in
  let isIdentifier := bool_decide (t = "Identifier"%string) in
  let underBinary := typeIs "BinaryExpression" (here <$> parentOf p) in
  let edit_ (mapper : jstr -> jstr) : result jsError walk :=
    _ ← assertNoMappedStaticTemplateExpressions n mapper; Ok (pushEdits (stringExpressionReplacements n mapper) w) in
  _ ← checkAssignment n;
  _ ← checkCall p;
  let selector := selectorArgumentCall (placePath p) (above p) in
  let fragment := fragmentAssignment p in
  comparison ← comparisonMapping p;
  let html := htmlContext p in
  style ← styleAssignment p;
  let mapped := from_option (fun x => isMappedCallArgument x.2 x.1) false selector in
  let mapArgument (s : jstr) : jstr := from_option (fun x => mapJavaScriptValue s x.2 x.1) s selector in
  let provenStyle := bool_decide (style = Some true) in
  _ ← unsupported (bool_decide (t = "BinaryExpression"%string) && negb (isUndefined (staticConcatenationValue n)) && (mapped || fragment))
        (js "Split static selector concatenations are unsupported" ++ mangling);
  _ ← unsupported (bool_decide (t = "Literal"%string) && negb (isString (scalar "value" n)) && mapped)
        (js "Non-string DOM selector arguments are unsupported" ++ mangling);
  if interpolated && provenStyle then Throw (newError (js "Interpolated runtime style assignments are unsupported" ++ mangling))
  else if text && bool_decide (is_Some style) then
    _ ← unsupported (negb provenStyle && changes mapCssValue (staticStringValue (Some n)))
          (js "Assignment to ambiguous textContent receiver is unsupported" ++ mangling);
    if provenStyle then edit_ mapCssValue else Ok w
  else if isIdentifier && provenStyle then recordStaticBindingReplacement n mapCssValue w
  else if provenStyle && negb (bool_decide (t ∈ branching)) then
    Throw (newError (js "Runtime style assignment expression " ++ js t ++ js " is unsupported" ++ mangling))
  else if interpolated && bool_decide (is_Some html) then Throw (newError (js "Interpolated runtime HTML assignments are unsupported" ++ mangling))
  else if text && bool_decide (is_Some html) then
    let edits := stringExpressionReplacements n mapHtmlValue in
    let proven := default false html in
    _ ← unsupported (negb proven && negb (bool_decide (edits = []))) (js "Assignment to ambiguous runtime HTML receiver is unsupported" ++ mangling);
    Ok (if proven then pushEdits edits w else w)
  else
    match (if text then comparison else None) with
    | Some mapper => edit_ mapper
    | None =>
        if text && mapped then edit_ mapArgument
        else if bool_decide (t = "Literal"%string) && isString (scalar "value" n) && underBinary then Ok (pushEdits (operandEdits p fragment) w)
        else if text && fragment then edit_ mapFragments
        else if isIdentifier && bool_decide (html = Some true) then recordStaticBindingReplacement n mapHtmlValue w
        else if bool_decide (is_Some html) && negb (bool_decide (t ∈ branching)) then
          Throw (newError (js "Runtime HTML assignment expression " ++ js t ++ js " is unsupported" ++ mangling))
        else
          match (if isIdentifier then comparison else None) with
          | Some mapper => recordStaticBindingReplacement n mapper w
          | None =>
              if isIdentifier && bool_decide (is_Some selector) then
                if mapped then recordStaticBindingReplacement n mapArgument w else Ok w
              else if bool_decide (t = "MemberExpression"%string) && mapped then
                Throw (newError (js "Stored selector properties are unsupported" ++ mangling))
              else if mapped && negb (bool_decide (t ∈ composing)) then
                Throw (newError (js "Selector expression " ++ js t ++ js " is unsupported" ++ mangling))
              else if isIdentifier && fragment && negb underBinary then recordStaticBindingReplacement n mapFragments w
              else if fragment && negb (isIdentifier && underBinary) && negb (bool_decide (t ∈ composing)) then
                Throw (newError (js "Fragment expression " ++ js t ++ js " is unsupported" ++ mangling))
              else Ok w
          end
    end.

Fixpoint visitPlaces (l : list place) (w : walk) : result jsError walk :=
  match l with [] => Ok w | p :: l' => w' ← visitNode p w; visitPlaces l' w' end.

(** An identifier that reads or writes the binding it names. *)
Definition isReference (p : place) : bool :=
  let computedParent := from_option (fun q => truthy (scalar "computed" (here q))) false (parentOf p) in
  bool_decide (typeOf (here p) = "Identifier"%string)
  && negb (isChild "VariableDeclarator" "id" p || isChild "AssignmentPattern" "left" p)
  && negb (isChild "MemberExpression" "property" p && negb computedParent)
  && negb (isChild "Property" "key" p && negb computedParent)
  && negb ((isChild "MethodDefinition" "key" p || isChild "PropertyDefinition" "key" p) && negb computedParent)
  && negb (isChild "LabeledStatement" "label" p || isChild "BreakStatement" "label" p || isChild "ContinueStatement" "label" p).

(** [referenceCounts.get(record)] *)
Definition referenceCount (l : list place) (i : nat) : nat :=
  length (filter (fun p => isReference p = true /\
    from_option (fun x => bool_decide (x.1 = i) && bool_decide (is_Some (static_ x.2))) false (resolveName (nameOf (here p)) (startOf (here p))) = true) l).

(** The edits of the bindings, when every use of a binding was followed. *)
Fixpoint bindingEdits (l : list place) (uses : list nat) (rs : list bindingReplacement) : result jsError (list edit) :=
  match rs with
  | [] => Ok []
  | r :: rs' =>
      _ ← unsupported (negb (length (filter (fun i => i = replacedRecord r) uses) =? referenceCount l (replacedRecord r))%nat)
            (js "Static selector binding " ++ replacedName r ++ js " has unsupported or conflicting uses.");
      rest ← bindingEdits l uses rs'; Ok (replacedEdits r ++ rest)
  end.
End bound.

Definition noWalk : walk := {| replacements := []; bindingReplacements := []; supportedBindingUses := [] |}.

(** The edits of a script. *)
Definition scriptEdits (root : node) : result jsError (list edit) :=
  b ← collectBindings root;
  w ← visitPlaces b (allPlaces root) noWalk;
  l ← bindingEdits b (allPlaces root) (supportedBindingUses w) (bindingReplacements w);
  Ok (replacements w ++ l).

Definition replaceJavaScriptSelectorReferences (parse : jstr -> result jsError node) (javascript : jstr) : result jsError jstr :=
  root ← parse javascript;
  edits ← scriptEdits root;
  Ok (applyEdits edits javascript).
End mappings.
