(* ===== verification/JsRewriteProps.v ===== *)
(** * Renaming selectors in scripts: what is edited

    The edits of a script replace string literals and template elements of its
    tree, and nothing else; a string or a binding in the argument of a DOM lookup is
    rewritten, any other argument is refused. *)

From stdpp Require Import base tactics option list numbers strings.
From Stdlib Require Import Lia.
From S2P Require Import Prelude JsString JsNumber JsValue Regex Paths Effects Selectors SelectorProps JsTree JsRewrite.
#[local] Open Scope nat_scope.

(** ** Places *)

Lemma elem_of_concat {A} (x : A) ls : x ∈ concat ls <-> exists l, x ∈ l /\ l ∈ ls.
Proof. rewrite list_elem_of_In, in_concat. split; intros (l & H1 & H2); exists l; by rewrite !list_elem_of_In in *. Qed.

Definition onField (P : node -> Prop) (f : field) : Prop :=
  match f with Scalar _ => True | Child c => P c | Children l => Forall (from_option P True) l end.

(** Induction through the fields of a node. *)
Definition node_fields_ind (P : node -> Prop)
    (H : forall t s e fs, Forall (fun kf => onField P kf.2) fs -> P (Node t s e fs)) : forall n, P n :=
  fix go n := match n with
  | Node t s e fs => H t s e fs ((fix over fs := match fs return Forall (fun kf => onField P kf.2) fs with
      | [] => Forall_nil_2 _
      | kf :: fs' => Forall_cons_2 _ kf fs'
          match kf.2 as f return onField P f with
          | Scalar _ => I
          | Child c => go c
          | Children l => (fix each l := match l return Forall (from_option P True) l with
              | [] => Forall_nil_2 _
              | o :: l' => Forall_cons_2 _ o l' match o as o return from_option P True o with Some c => go c | None => I end (each l')
              end) l
          end (over fs')
      end) fs)
  end.

Definition fieldPlaces (n : node) (q : path) (up : list (node * path)) (kf : string * field) : list place :=
  match kf.2 with
  | Scalar _ => []
  | Child c => places c ((kf.1, None) :: q) ((n, q) :: up)
  | Children l => concat (imap (fun i o => from_option (fun c => places c ((kf.1, Some i) :: q) ((n, q) :: up)) [] o) l)
  end.

Lemma places_eq n q up : places n q up = {| here := n; placePath := q; above := up |} :: (fieldsOf n ≫= fieldPlaces n q up).
Proof.
  destruct n as [t s e fs]. cbn [places fieldsOf]. f_equal. generalize (Node t s e fs) as m. intros m.
  induction fs as [|[k f] fs IH]; [done|]. cbn [mbind list_bind]. rewrite <- IH. f_equal. unfold fieldPlaces. cbn [fst snd].
  destruct f as [v|c|l]; [done|done|].
  assert (forall i, (fix each (i : nat) (l : list (option node)) : list place :=
      match l with [] => [] | Some c :: l' => places c ((k, Some i) :: q) ((m, q) :: up) ++ each (S i) l' | None :: l' => each (S i) l' end) i l
    = concat (imap (fun j o => from_option (fun c => places c ((k, Some (i + j)) :: q) ((m, q) :: up)) [] o) l)) as H.
  { clear. induction l as [|o l IH]; intros i; [done|]. rewrite imap_cons. cbn [concat]. rewrite Nat.add_0_r.
    replace (imap ((fun j o => from_option (fun c => places c ((k, Some (i + j)) :: q) ((m, q) :: up)) [] o) ∘ S) l)
      with (imap (fun j o => from_option (fun c => places c ((k, Some (S i + j)) :: q) ((m, q) :: up)) [] o) l).
    - destruct o as [c|]; cbn [from_option app]; by rewrite IH.
    - apply imap_ext. intros j o' _. cbn. by rewrite Nat.add_succ_r. }
  exact (H 0).
Qed.

Lemma places_self n q up : {| here := n; placePath := q; above := up |} ∈ places n q up.
Proof. rewrite places_eq. apply elem_of_cons. by left. Qed.

Lemma fieldPlaces_incl n q up kf p : kf ∈ fieldsOf n -> p ∈ fieldPlaces n q up kf -> p ∈ places n q up.
Proof. intros Hk Hp. rewrite places_eq. apply elem_of_cons. right. apply list_elem_of_bind. by exists kf. Qed.

(** The places below a place are places of the tree. *)
Lemma places_trans n : forall q up p x, p ∈ places n q up -> x ∈ places (here p) (placePath p) (above p) -> x ∈ places n q up.
Proof.
  induction n as [t s e fs IH] using node_fields_ind. intros q up p x Hp Hx. rewrite places_eq in Hp. apply elem_of_cons in Hp as [->|Hp]; [done|].
  apply list_elem_of_bind in Hp as ([k f] & Hp & Hk). cbn [fieldsOf] in Hk. rewrite Forall_forall in IH. specialize (IH _ Hk). cbn [snd] in IH.
  apply (fieldPlaces_incl _ _ _ (k, f)); [done|]. unfold fieldPlaces in *. cbn [fst snd] in *. destruct f as [v|c|l]; [by apply not_elem_of_nil in Hp|by eapply IH|].
  apply elem_of_concat in Hp as (l' & Hp & Hl'). apply elem_of_concat. exists l'. split; [|done].
  apply elem_of_lookup_imap in Hl' as (i & o & -> & Ho). destruct o as [c|]; [|by apply not_elem_of_nil in Hp]. cbn in *. rewrite Forall_lookup in IH.
  by apply (IH i (Some c) Ho _ _ p).
Qed.

Lemma fieldIn_elem k f fs : fieldIn k fs = Some f -> (k, f) ∈ fs.
Proof.
  induction fs as [|[k' f'] fs IH]; cbn; [done|]. case_decide; [intros [= ->]; subst; apply elem_of_cons; by left|].
  intros Hf. apply elem_of_cons. right. by apply IH.
Qed.

(** A node of a node of the tree is in the tree. *)
Lemma places_sub root p k c : p ∈ allPlaces root -> sub k (here p) = Some c -> exists p', p' ∈ allPlaces root /\ here p' = c.
Proof.
  intros Hp Hc. unfold sub in Hc. destruct (fieldIn k (fieldsOf (here p))) as [[v|c'|l]|] eqn:E; simplify_eq.
  exists {| here := c; placePath := (k, None) :: placePath p; above := (here p, placePath p) :: above p |}. split; [|done].
  eapply places_trans; [exact Hp|]. apply fieldIn_elem in E. apply (fieldPlaces_incl _ _ _ (k, Child c)); [done|]. apply places_self.
Qed.

(** ** Edits of a text *)

(** The range of a string literal or of a template element of the tree. *)
Definition textRange (root : node) (e : edit) : Prop :=
  exists p, p ∈ allPlaces root /\
    (typeOf (here p) = "Literal"%string /\ isString (scalar "value" (here p)) = true /\ editStart e = startOf (here p) /\ editEnd e = endOf (here p) \/
     typeOf (here p) = "TemplateLiteral"%string /\
     exists q, Some q ∈ items "quasis" (here p) /\ editStart e = startOf q /\ editEnd e = endOf q).

Lemma expression_ranges root p mapper : p ∈ allPlaces root -> Forall (textRange root) (stringExpressionReplacements (here p) mapper).
Proof.
  intros Hp. unfold stringExpressionReplacements. case_decide as Hl.
  - destruct (scalar "value" (here p)) as [| | | |s| | |] eqn:Ev; try done. cbn zeta. case_decide; [done|]. apply Forall_singleton.
    exists p. split; [done|]. left. by rewrite Ev.
  - case_decide as Ht; [|done]. apply Forall_forall. intros e He. apply elem_of_concat in He as (l & He & Hl').
    apply elem_of_lookup_imap in Hl' as (i & o & -> & Ho). destruct o as [q|]; [|by apply not_elem_of_nil in He]. cbn zeta in He.
    case_decide; [by apply not_elem_of_nil in He|]. apply list_elem_of_singleton in He as ->. exists p. split; [done|]. right. split; [done|].
    exists q. split; [by eapply list_elem_of_lookup_2|done].
Qed.

(** ** Bindings *)

(** The text a binding stands for is a node of the tree. *)
Definition inTree (root : node) (r : binding) : Prop := forall s, static_ r = Some s -> exists p, p ∈ allPlaces root /\ here p = s.
Definition boundInTree (root : node) (b : bindings) : Prop := Forall (inTree root) (records b).

Lemma boundInTree_assign root i b : boundInTree root b -> boundInTree root (assign i b).
Proof. done. Qed.

Lemma boundInTree_update root f i b : (forall r, inTree root r -> inTree root (f r)) -> boundInTree root b -> boundInTree root (updateRecord f i b).
Proof. intros Hf Hb. unfold boundInTree, updateRecord. cbn. apply Forall_alter; [done|]. intros r _ Hr. by apply Hf. Qed.

Lemma boundInTree_names root s k l b : boundInTree root b -> boundInTree root (recordNames s k l b).1.
Proof.
  revert b. induction l as [|[name pos] l IH]; intros b Hb; [done|]. cbn. destruct (recordName s k name b) as [b1 i] eqn:E.
  specialize (IH b1). destruct (recordNames s k l b1) as [b2 l2]. cbn in *. apply IH. unfold recordName in E.
  destruct (findIndex _ _); simplify_eq; [done|]. unfold boundInTree. cbn. apply Forall_app. split; [done|]. by apply Forall_singleton.
Qed.

Lemma boundInTree_pattern root pattern s k b : boundInTree root b -> boundInTree root (recordBindingPattern pattern s k b).1.
Proof. apply boundInTree_names. Qed.

Lemma boundInTree_count root i b : boundInTree root b -> boundInTree root (countInitializer i b).
Proof.
  intros Hb. unfold countInitializer. cbn zeta. set (b' := updateRecord _ _ _). assert (boundInTree root b') as Hb'.
  { apply boundInTree_update; [|done]. intros r Hr. exact Hr. }
  destruct (_ !! i) as [r|]; [|done]. by destruct (1 <? _)%nat.
Qed.

Lemma boundInTree_describe root declared init i b : (forall e, init = Some e -> exists p, p ∈ allPlaces root /\ here p = e) ->
  boundInTree root b -> boundInTree root (describeInitializer declared init i b).
Proof.
  intros Hi Hb. unfold describeInitializer. destruct init as [e|]; [|done]. repeat case_match; try done.
  - unfold setStatic. destruct (staticOf i b); [done|]. apply boundInTree_update; [|done]. intros r _ s [= <-]. by apply Hi.
  - apply boundInTree_update; [|done]. intros r Hr. exact Hr.
Qed.

Lemma boundInTree_first root l f b : (forall i b, boundInTree root b -> boundInTree root (f i b)) -> boundInTree root b -> boundInTree root (onFirst l f b).
Proof. intros Hf Hb. destruct l; [done|]. by apply Hf. Qed.

Lemma boundInTree_declarator root p b b' : p ∈ allPlaces root -> boundInTree root b -> bindDeclarator p b = Ok b' -> boundInTree root b'.
Proof.
  intros Hp Hb. unfold bindDeclarator. cbn zeta.
  match goal with |- context [recordBindingPattern ?i ?s ?k b] => pose proof (boundInTree_pattern root i s k b Hb) as H1;
    destruct (recordBindingPattern i s k b) as [b1 l] end. cbn [fst] in H1.
  assert (forall b2, b2 = (if bool_decide (is_Some (sub "init" (here p))) then onFirst l countInitializer b1 else b1) -> boundInTree root b2) as H2.
  { intros b2 ->. case_bool_decide; [|done]. apply boundInTree_first; [|done]. intros i b2. apply boundInTree_count. }
  specialize (H2 _ eq_refl). revert H2. generalize (if bool_decide (is_Some (sub "init" (here p))) then onFirst l countInitializer b1 else b1).
  intros b2 H2. destruct (typeIs "Identifier" _); [|by intros [= <-]].
  match goal with |- context [describeInitializer ?d _] => assert (boundInTree root (onFirst l (describeInitializer d (sub "init" (here p))) b2)) as H3 end.
  { apply boundInTree_first; [|done]. intros i b3. apply boundInTree_describe. intros e He. by eapply places_sub. }
  revert H3. generalize (onFirst l (describeInitializer (typeIs "VariableDeclaration" (here <$> parentOf p) && memb
    (from_option (fun m => str_of (scalar "kind" m)) [] (here <$> parentOf p)) (js <$> ["const"; "let"; "var"]%string)) (sub "init" (here p))) b2).
  intros b3 H3. destruct (sub "init" (here p)) as [e|]; [|by intros [= <-]]. case_bool_decide; [|by intros [= <-]].
  intros (style & _ & [= <-])%bind_Ok. destruct style; [|done]. apply boundInTree_first; [|done]. intros i b4. apply boundInTree_update.
  intros r Hr. exact Hr.
Qed.

Lemma boundInTree_function root p b : boundInTree root b -> boundInTree root (bindFunction p b).
Proof.
  intros Hb. unfold bindFunction. cbn zeta. match goal with |- boundInTree root (foldl _ ?x _) => assert (boundInTree root x) as H end.
  { destruct (sub "id" (here p)); [|done]. case_match; by repeat apply boundInTree_pattern. }
  revert H. match goal with |- boundInTree root ?x -> _ => generalize x end. induction (items "params" (here p)) as [|x l IH]; intros b' H; [done|].
  cbn. apply IH. by apply boundInTree_pattern.
Qed.

Lemma boundInTree_node root p b b' : p ∈ allPlaces root -> boundInTree root b -> bindNode root p b = Ok b' -> boundInTree root b'.
Proof.
  intros Hp Hb. unfold bindNode. cbn zeta. case_decide; [by apply boundInTree_declarator|]. case_match; [intros [= <-]; by apply boundInTree_function|].
  repeat case_match; intros [= <-]; try done; by apply boundInTree_pattern.
Qed.

Lemma boundInTree_places root l b b' : (forall p, p ∈ l -> p ∈ allPlaces root) -> boundInTree root b -> bindPlaces root l b = Ok b' -> boundInTree root b'.
Proof.
  revert b. induction l as [|p l IH]; intros b Hl Hb; cbn; [by intros [= <-]|]. intros (b1 & H1 & H2)%bind_Ok.
  eapply IH; [|eapply boundInTree_node; [|exact Hb|exact H1]|exact H2]; [intros x Hx|]; apply Hl, elem_of_cons; [by right|by left].
Qed.

Lemma collect_inTree root b : collectBindings root = Ok b -> boundInTree root b.
Proof.
  unfold collectBindings. intros (b0 & H0 & [= <-])%bind_Ok. apply boundInTree_places in H0; [|done|apply Forall_nil_2].
  generalize (records b0) as rs. generalize (assignmentTargets b0) as ts. revert H0. generalize b0 as b.
  intros b Hb ts rs. revert b Hb. induction ts as [|t ts IH]; intros b Hb; [done|]. cbn. apply IH. by destruct (resolveBinding _ _ _) as [[]|].
Qed.

Lemma sortCandidates_elem x l : x ∈ sortCandidates l -> x ∈ l.
Proof.
  unfold sortCandidates. assert (forall y z l, y ∈ insertCandidate z l -> y = z \/ y ∈ l) as Hins.
  { intros y z l'. induction l' as [|a l' IH]; cbn [insertCandidate]; [by intros ?%list_elem_of_singleton; left|]. destruct (_ <? _)%nat.
    - intros [->|H]%elem_of_cons; [by left|by right].
    - intros [->|H]%elem_of_cons; [right; apply elem_of_cons; by left|]. destruct (IH H) as [->|H']; [by left|right; apply elem_of_cons; by right]. }
  assert (forall acc, x ∈ foldl (fun acc y => insertCandidate y acc) acc l -> x ∈ acc \/ x ∈ l) as H.
  { induction l as [|y l IH]; intros acc; cbn; [by left|]. intros [Hx|Hx]%IH; rewrite elem_of_cons; [|tauto]. apply Hins in Hx. tauto. }
  intros Hx. destruct (H [] Hx) as [Hn|Hn]; [by apply not_elem_of_nil in Hn|done].
Qed.

(** A resolved binding is a record of that name, whose scope holds the position. *)
Lemma resolveBinding_Some rs name pos i r : resolveBinding rs name pos = Some (i, r) ->
  rs !! i = Some r /\ bindingName r = name /\ insideScope pos (bindingScope r) = true.
Proof.
  unfold resolveBinding. assert (forall x, x ∈ candidates rs name pos -> rs !! x.1 = Some x.2 /\ bindingName x.2 = name /\ insideScope pos (bindingScope x.2) = true) as H.
  { intros x Hx%sortCandidates_elem. apply list_elem_of_filter in Hx as [Hc Hx]. apply elem_of_lookup_imap in Hx as (j & y & -> & Hy). done. }
  destruct (candidates rs name pos) as [|x [|y l]]; [done|intros [= ->]; apply (H (i, r)), elem_of_cons; by left|].
  case_decide; [done|]. intros [= ->]. apply (H (i, r)), elem_of_cons. by left.
Qed.

(** ** The walk *)

(** One bind or branch of a successful run. *)
Ltac visit_step :=
  match goal with
  | H : (_ ≫= _) = Ok _ |- _ => apply bind_Ok in H as (? & ? & H); cbn zeta in H
  | H : (if _ then _ else _) = Ok _ |- _ => case_match
  | H : match _ with _ => _ end = Ok _ |- _ => case_match
  | H : Throw _ = Ok _ |- _ => discriminate H
  | H : Ok _ = Ok _ |- _ => injection H as <-
  end.

(** All edits of a walk. *)
Definition editsOf (w : walk) : list edit := replacements w ++ (bindingReplacements w ≫= replacedEdits).

Section visit.
Context (ids classes : mapping) (root : node) (b : bindings) (Hb : boundInTree root b).

Definition inRanges (w : walk) : Prop := Forall (textRange root) (editsOf w).

Lemma inRanges_push l w : Forall (textRange root) l -> inRanges w -> inRanges (pushEdits l w).
Proof.
  unfold inRanges, editsOf, pushEdits. cbn. rewrite !Forall_app. tauto.
Qed.

Lemma static_ranges i r s mapper : records b !! i = Some r -> static_ r = Some s -> Forall (textRange root) (stringExpressionReplacements s mapper).
Proof.
  intros Hi Hs. pose proof (Forall_lookup_1 _ _ _ _ Hb Hi s Hs) as (p & Hp & <-). by apply expression_ranges.
Qed.

Lemma setReplacement_edits r l : setReplacement r l ≫= replacedEdits ⊆ (l ≫= replacedEdits) ++ replacedEdits r.
Proof.
  induction l as [|x l IH]; cbn; [by rewrite app_nil_r|]. case_decide; cbn; intros e; rewrite !elem_of_app; [tauto|].
  intros [He|He]; [tauto|]. apply IH, elem_of_app in He. tauto.
Qed.

Lemma inRanges_record n mapper w w' : inRanges w -> recordStaticBindingReplacement b n mapper w = Ok w' -> inRanges w'.
Proof.
  intros Hw. unfold recordStaticBindingReplacement. cbn zeta. destruct (resolveName b _ _) as [[i r]|] eqn:E; [|done].
  apply resolveBinding_Some in E as (Hi & _). destruct (static_ r) as [s|] eqn:Es; [|by destruct (concatenated r)].
  intros (_ & _ & (_ & _ & (_ & _ & H)%bind_Ok)%bind_Ok)%bind_Ok. case_decide; [by simplify_eq|]. apply bind_Ok in H as (_ & _ & [= <-]).
  unfold inRanges, editsOf in *. cbn. rewrite Forall_app in Hw |- *. destruct Hw as [Hw1 Hw2]. split; [done|].
  rewrite Forall_forall in Hw2 |- *. intros e He%setReplacement_edits. apply elem_of_app in He as [He|He]; [by apply Hw2|].
  cbn in He. pose proof (static_ranges i r s mapper Hi Es) as Hr. rewrite Forall_forall in Hr. by apply Hr.
Qed.

Lemma operand_ranges p fragment : p ∈ allPlaces root -> Forall (textRange root) (operandEdits ids classes p fragment).
Proof.
  intros Hp. unfold operandEdits. cbn zeta. destruct (selectorArgumentCall _ _) as [[argument call]|]; [by apply expression_ranges|].
  destruct fragment; [by apply expression_ranges|done].
Qed.

Lemma inRanges_visit p w w' : p ∈ allPlaces root -> inRanges w -> visitNode ids classes b p w = Ok w' -> inRanges w'.
Proof.
  intros Hp Hw H. unfold visitNode in H. cbn zeta in H. repeat visit_step; try done;
    try (eapply inRanges_record; eassumption); try (case_match; [|done]); apply inRanges_push; try done; try (by apply expression_ranges); by apply operand_ranges.
Qed.

Lemma inRanges_places l w w' : (forall p, p ∈ l -> p ∈ allPlaces root) -> inRanges w -> visitPlaces ids classes b l w = Ok w' -> inRanges w'.
Proof.
  revert w. induction l as [|p l IH]; intros w Hl Hw; cbn; [by intros [= <-]|]. intros (w1 & H1 & H2)%bind_Ok.
  eapply IH; [|eapply inRanges_visit; [|exact Hw|exact H1]|exact H2]; [intros x Hx|]; apply Hl, elem_of_cons; [by right|by left].
Qed.

Lemma bindingEdits_Ok l uses rs es : bindingEdits b l uses rs = Ok es -> es = rs ≫= replacedEdits.
Proof.
  revert es. induction rs as [|r rs IH]; intros es; cbn; [by intros [= <-]|]. intros (_ & _ & (es' & ->%IH & [= <-])%bind_Ok)%bind_Ok. done.
Qed.
End visit.

Lemma scriptEdits_Ok ids classes root es : scriptEdits ids classes root = Ok es ->
  exists b w, collectBindings root = Ok b /\ visitPlaces ids classes b (allPlaces root) noWalk = Ok w /\ es = editsOf w /\
    bindingEdits b (allPlaces root) (supportedBindingUses w) (bindingReplacements w) = Ok (bindingReplacements w ≫= replacedEdits).
Proof.
  unfold scriptEdits. intros (b & Hb & (w & Hw & (l & Hl & [= <-])%bind_Ok)%bind_Ok)%bind_Ok. exists b, w.
  pose proof (bindingEdits_Ok _ _ _ _ _ Hl) as ->. done.
Qed.

Lemma scriptEdits_texts ids classes root es : scriptEdits ids classes root = Ok es -> Forall (textRange root) es.
Proof.
  intros (b & w & Hb & Hw & -> & _)%scriptEdits_Ok. apply collect_inTree in Hb.
  apply (inRanges_places ids classes root b Hb (allPlaces root) noWalk); [done|apply Forall_nil_2|done].
Qed.

(** A script is only edited inside its string literals and template elements:
    the result is the script with edits applied, each of which replaces the whole
    range of a string or template element that is in the tree of the script. *)
Theorem script_edits_texts ids classes parse javascript out :
  replaceJavaScriptSelectorReferences ids classes parse javascript = Ok out ->
  exists root es, parse javascript = Ok root /\ Forall (textRange root) es /\ out = applyEdits es javascript.
Proof.
  unfold replaceJavaScriptSelectorReferences. intros (root & Hr & (es & He & [= <-])%bind_Ok)%bind_Ok. exists root, es.
  split_and!; [done|by eapply scriptEdits_texts|done].
Qed.

(** ** Arguments of DOM lookups *)

Lemma setReplacement_keeps r l :
  (forall x, find (fun x => (replacedStart x =? replacedStart r)%nat) l = Some x -> replacedEdits x = replacedEdits r) ->
  (l ≫= replacedEdits) ⊆ (setReplacement r l ≫= replacedEdits) /\ replacedEdits r ⊆ (setReplacement r l ≫= replacedEdits).
Proof.
  induction l as [|x l IH]; cbn -[Nat.eqb]; intros H; [split; [by intros e ?%not_elem_of_nil|by rewrite app_nil_r]|].
  case_decide as E; cbn -[Nat.eqb].
  - rewrite (proj2 (Nat.eqb_eq _ _) E) in H. rewrite (H x eq_refl). split; intros e; rewrite !elem_of_app; tauto.
  - rewrite (proj2 (Nat.eqb_neq _ _) E) in H. destruct (IH H) as [H1 H2]. split; intros e; rewrite !elem_of_app; [intros [He|He]; auto|auto].
Qed.

Section followed.
Context (ids classes : mapping) (b : bindings).

(** What recording a binding guarantees. *)
Definition boundText (n : node) (mapper : jstr -> jstr) (l : list edit) : Prop :=
  exists i r s, resolveName b (nameOf n) (startOf n) = Some (i, r) /\ static_ r = Some s /\ (kind r = js "const" \/ i ∉ assignedBindings b) /\
    stringExpressionReplacements s mapper ⊆ l.

Lemma record_followed n mapper w w' : recordStaticBindingReplacement b n mapper w = Ok w' ->
  editsOf w ⊆ editsOf w' /\ boundText n mapper (editsOf w').
Proof.
  unfold recordStaticBindingReplacement. cbn zeta. destruct (resolveName b _ _) as [[i r]|] eqn:E; [|done].
  destruct (static_ r) as [s|] eqn:Es; [|by destruct (concatenated r)].
  intros (_ & _ & (_ & Hm%ensure_Ok & (_ & _ & H)%bind_Ok)%bind_Ok)%bind_Ok.
  assert (kind r = js "const" \/ i ∉ assignedBindings b) as Hk.
  { apply negb_true_iff, andb_false_iff in Hm as [Hm|Hm]; [left; by apply negb_false_iff, bool_decide_eq_true in Hm|right].
    by apply bool_decide_eq_false in Hm. }
  case_decide as Ee.
  { simplify_eq. split; [done|]. exists i, r, s. split_and!; [done|done|done|]. rewrite Ee. by intros e ?%not_elem_of_nil. }
  apply bind_Ok in H as (_ & Hp%ensure_Ok & [= <-]). unfold editsOf. cbn.
  destruct (setReplacement_keeps {| replacedStart := startOf s; replacedName := nameOf n; replacedRecord := i;
    replacedEdits := stringExpressionReplacements s mapper |} (bindingReplacements w)) as [H1 H2].
  { cbn -[Nat.eqb]. intros x Hx. rewrite Hx in Hp. cbn in Hp. by apply negb_true_iff, negb_false_iff, bool_decide_eq_true in Hp. }
  split; [intros e; rewrite !elem_of_app; intros [He|He]; auto|]. exists i, r, s. split_and!; [done|done|done|]. intros e He. apply elem_of_app. auto.
Qed.

Lemma visit_keeps p w w' : visitNode ids classes b p w = Ok w' -> editsOf w ⊆ editsOf w'.
Proof.
  intros H. unfold visitNode in H. cbn zeta in H.
  assert (forall l, editsOf w ⊆ editsOf (pushEdits l w)) as Hpush.
  { intros l e. unfold editsOf, pushEdits. cbn. rewrite !elem_of_app. tauto. }
  repeat visit_step; try done; try (by eapply record_followed); try apply Hpush. case_match; [apply Hpush|done].
Qed.

Lemma visitPlaces_keeps l w w' : visitPlaces ids classes b l w = Ok w' -> editsOf w ⊆ editsOf w'.
Proof.
  revert w. induction l as [|p l IH]; intros w; cbn; [by intros [= <-]|]. intros (w1 & H1%visit_keeps & H2%IH)%bind_Ok. by etransitivity.
Qed.

Lemma visitPlaces_each l w w' p : visitPlaces ids classes b l w = Ok w' -> p ∈ l ->
  exists w1 w2, visitNode ids classes b p w1 = Ok w2 /\ editsOf w2 ⊆ editsOf w'.
Proof.
  revert w. induction l as [|x l IH]; intros w; cbn; [by intros _ ?%not_elem_of_nil|]. intros (w1 & H1 & H2)%bind_Ok [->|Hp]%elem_of_cons; [|by eapply IH].
  exists w, w1. split; [done|]. by eapply visitPlaces_keeps.
Qed.



Lemma is_str_method s t v : is_str (js s) v = true -> s <> t -> is_str (js t) v = false.
Proof.
  intros ->%is_str_spec Hst. unfold is_str. cbn. apply bool_decide_eq_false. by intros ?%js_inj.
Qed.





End followed.

(** ** Lookups of the DOM, as the platform has them *)










Lemma isArgument_other i j call : i <> j -> isArgument j call (("arguments"%string, Some i) :: placePath call) = false.
Proof. intros H. unfold isArgument, argumentIndex. rewrite decide_True by done. apply bool_decide_eq_false. congruence. Qed.







(** The strings of a concatenation are edited with their neighbours guarded. *)
Lemma operands_followed ids classes root es b p parent :
  scriptEdits ids classes root = Ok es -> collectBindings root = Ok b -> p ∈ allPlaces root ->
  typeOf (here p) = "Literal"%string -> isString (scalar "value" (here p)) = true -> parentOf p = Some parent -> isConcatenation (here parent) = true ->
  operandEdits ids classes p (fragmentAssignment b p) ⊆ es.
Proof.
  intros (b' & w & Hb' & Hw & -> & _)%scriptEdits_Ok Hb Hp Ht Hstr Hpar [E Hop]%andb_true_iff. rewrite Hb in Hb'. injection Hb' as <-.
  apply bool_decide_eq_true in E. apply is_str_spec in Hop.
  destruct (visitPlaces_each _ _ _ _ _ _ _ Hw Hp) as (w1 & w2 & Hv & Hincl). etransitivity; [|exact Hincl]. unfold parentOf in Hpar.
  destruct (above p) as [|[n q] up] eqn:Eu; [done|]. injection Hpar as <-. cbn [here] in *.
  assert (climb passesValue (placePath p) (above p) = (placePath p, above p)) as Hclimb.
  { rewrite Eu. cbn [climb]. unfold passesValue. rewrite E. done. }
  assert (selectorArgumentCall (placePath p) (above p) = None) as Hs. { unfold selectorArgumentCall. rewrite Hclimb, Eu. cbn zeta. by rewrite E. }
  assert (assignmentOf passesValue p = None) as Ha. { unfold assignmentOf. rewrite Hclimb, Eu. by rewrite E. }
  assert (htmlContext b p = None) as Hh. { unfold htmlContext, htmlAssignment, htmlInsertionCall. rewrite Ha, Hclimb, Eu. by rewrite E. }
  assert (comparisonMapping ids classes b p = Ok None) as Hc.
  { unfold comparisonMapping, parentOf. rewrite Eu. cbn [here]. by rewrite Hop, E. }
  unfold visitNode in Hv. cbn zeta in Hv. rewrite Hc, Hh in Hv. unfold styleAssignment in Hv. rewrite Ha, Hs in Hv.
  cbn [mbind result_bind from_option] in Hv. unfold parentOf in Hv. rewrite Eu, Ht, Hstr in Hv. cbn [fmap option_fmap option_map here typeIs from_option] in Hv.
  rewrite E in Hv. do 2 (apply bind_Ok in Hv as (_ & _ & Hv)). cbn [mbind result_bind] in Hv. do 2 (apply bind_Ok in Hv as (_ & _ & Hv)).
  replace (bool_decide ("Literal"%string = "Literal"%string)) with true in Hv by done.
  replace (bool_decide ("Literal"%string = "TemplateLiteral"%string)) with false in Hv by done.
  replace (bool_decide ("Literal"%string = "Identifier"%string)) with false in Hv by done.
  replace (bool_decide ("BinaryExpression"%string = "BinaryExpression"%string)) with true in Hv by done.
  replace (bool_decide ((None : option bool) = Some true)) with false in Hv by done.
  replace (bool_decide (is_Some (None : option bool))) with false in Hv by done.
  cbn [orb andb] in Hv. injection Hv as <-. unfold editsOf, pushEdits. cbn [replacements bindingReplacements]. intros e He. rewrite !elem_of_app. tauto.
Qed.
