(* ===== verification/Mangling.v ===== *)
(** * Applying selector mappings

    sdk/typescript/scripts/reference-assets.mjs: [applySelectorMappings] checks the
    configured mappings against the assets and renames the selectors of the style
    sheet, the page and the script together.  The parser of the script is a
    parameter. *)

From stdpp Require Import base tactics option list numbers strings.
From Stdlib Require Import Lia.
From S2P Require Import Prelude JsString JsNumber JsValue Regex Paths Effects Selectors SelectorProps SelectorHtml JsTree JsRewrite.
#[local] Open Scope nat_scope.

Record assets : Type := { css : jstr; html : jstr; javascript : jstr }.
Record selectorMangling : Type := { enabled : bool; ids : mapping; classes : mapping; safelist : list jstr }.

(** [/^[A-Za-z][A-Za-z0-9_-]*$/u] *)
Definition literalName (s : jstr) : bool := match s with c :: s' => letterUnit c && forallb wordUnit s' | [] => false end.

Definition probe : jstr := js "__realtime_selector_target_probe__".

Inductive selectorKind := Id | ClassName.
Definition kindName (k : selectorKind) : jstr := match k with Id => js "id" | ClassName => js "class" end.

Definition targetExists (k : selectorKind) (a : assets) (target : jstr) : bool :=
  match k with
  | Id => negb (bool_decide (replaceSelector (css a) (js "#") target probe = css a))
          || negb (bool_decide (replaceHtmlSelectorReferences (html a) [(target, probe)] [] = html a))
  | ClassName => negb (bool_decide (replaceSelector (css a) (js ".") target probe = css a))
                 || negb (bool_decide (replaceHtmlSelectorReferences (html a) [] [(target, probe)] = html a))
  end.

Definition entryText (k : selectorKind) (source target : jstr) : jstr :=
  kindName k ++ js " selector mapping " ++ source ++ js " -> " ++ target.

(** The checks of one entry, after the targets of the entries before it. *)
Definition checkEntry (k : selectorKind) (a : assets) (safe sources targets : list jstr) (source target : jstr) : result jsError unit :=
  _ ← ensure (literalName source && literalName target) (newError (kindName k ++ js " selector mappings must use literal CSS identifiers."));
  _ ← ensure (negb (memb source safe || memb target safe)) (newError (entryText k source target ++ js " intersects the safelist."));
  _ ← ensure (negb (bool_decide (source = target) || memb target targets || memb target sources)) (newError (entryText k source target ++ js " is ambiguous."));
  ensure (negb (targetExists k a target)) (newError (entryText k source target ++ js " collides with an existing asset identity.")).

Fixpoint checkEntries (k : selectorKind) (a : assets) (safe sources targets : list jstr) (m : mapping) : result jsError unit :=
  match m with
  | [] => Ok tt
  | (source, target) :: m' =>
      _ ← checkEntry k a safe sources targets source target;
      checkEntries k a safe sources (targets ++ [target]) m'
  end.

Definition checkMappings (a : assets) (m : selectorMangling) : result jsError unit :=
  _ ← checkEntries Id a (safelist m) (ids m).*1 [] (ids m);
  checkEntries ClassName a (safelist m) (classes m).*1 [] (classes m).

Definition applySelectorMappings (parse : jstr -> result jsError node) (a : assets) (m : selectorMangling) : result jsError assets :=
  if enabled m then
    _ ← checkMappings a m;
    let mappedCss := replaceEach (js ".") (classes m) (replaceEach (js "#") (ids m) (css a)) in
    let mappedHtml := replaceHtmlSelectorReferences (html a) (ids m) (classes m) in
    mappedJavaScript ← replaceJavaScriptSelectorReferences (ids m) (classes m) parse (javascript a);
    Ok {| css := mappedCss; html := mappedHtml; javascript := mappedJavaScript |}
  else
    _ ← ensure (bool_decide (ids m = []) && bool_decide (classes m = []))
          (newError (js "Selector mappings require selectorMangling.enabled=true."));
    Ok a.
