(* ===== verification/ManglingProps.v ===== *)
(** * Selector mappings: what they preserve

    Accepted mappings rename every name of the style sheet at once, injectively,
    and can be undone; the attributes of a page change as mapped and nothing else
    of the page does. *)

From stdpp Require Import base tactics option list numbers strings.
From Stdlib Require Import Lia.
From S2P Require Import Prelude JsString JsNumber JsValue Regex Paths Effects Selectors SelectorProps SelectorHtml PageMarkup JsTree JsRewrite Mangling.
#[local] Open Scope nat_scope.

(** ** Accepted mappings *)

Lemma letter_word c : letterUnit c = true -> wordUnit c = true.
Proof. unfold letterUnit, wordUnit, in_class. cbn. rewrite !orb_true_iff. tauto. Qed.

Lemma literalName_plain s : literalName s = true -> s <> [] /\ Forall plainUnit s.
Proof.
  destruct s as [|c s]; cbn; [done|]. intros [Hc Hs]%andb_true_iff. split; [done|]. apply Forall_cons. split; [by apply letter_word|].
  apply Forall_forall. intros d Hd. rewrite forallb_forall in Hs. by apply Hs, list_elem_of_In.
Qed.

(** What the checks establish for the entries of one kind. *)
Record accepted (p : N) (css : jstr) (m : mapping) : Prop := {
  accepted_good : goodMapping m;
  accepted_sources : Forall (fun e => Forall plainUnit e.1) m;
  accepted_chainless : chainless m;
  accepted_targets : NoDup m.*2;
  accepted_fresh : Forall (fun t => t ∉ names p css) m.*2;
}.

Lemma probe_plain : Forall plainUnit probe.
Proof.
  apply Forall_forall. intros c Hc. assert (forallb wordUnit probe = true) as H by reflexivity. rewrite forallb_forall in H.
  by apply H, list_elem_of_In.
Qed.

(** The probe finds a name exactly when the style sheet uses it. *)
Lemma probe_absent p s t : delimiter p -> literalName t = true -> replaceSelector s [p] t probe = s <-> t ∉ names p s.
Proof.
  intros Hp Ht. pose proof (css_scanner p Hp) as Hscan. rewrite replaceSelector_rewrite by done.
  assert (forall i, renameIdentifier [(t, probe)] i = i <-> decodeCssIdentifier i <> t) as Hi.
  { intros i. unfold renameIdentifier. cbn [lookupName]. case_decide as E; cbn [default]; [|split; congruence]. split; [|congruence].
    intros <- _. rewrite decode_plain in E by apply probe_plain. by subst t. }
  rewrite (rewrite_unchanged p plainUnit identifierLength).
  - unfold names. rewrite list_elem_of_fmap, Forall_forall. split.
    + intros H (i & Hd & Hin). apply H, Hi in Hin. congruence.
    + intros H i Hin. apply Hi. intros E. apply H. by exists i.
  - apply Forall_forall. intros i _. apply rename_plain. apply Forall_singleton, probe_plain.
Qed.

Definition delimiterOf (k : selectorKind) : N := match k with Id => 35%N | ClassName => 46%N end.

Lemma delimiterOf_ok k : delimiter (delimiterOf k).
Proof. destruct k; [apply delimiter_hash|apply delimiter_dot]. Qed.

Lemma checkEntry_Ok k a safe sources targets source target u : checkEntry k a safe sources targets source target = Ok u ->
  literalName source = true /\ literalName target = true /\ (source ∉ safe) /\ (target ∉ safe) /\ (target ∉ targets) /\ (target ∉ sources) /\
  target ∉ names (delimiterOf k) (css a).
Proof.
  unfold checkEntry. intros ([] & [H1 H2]%ensure_Ok%andb_true_iff & H)%bind_Ok. apply bind_Ok in H as ([] & H3%ensure_Ok & H).
  apply bind_Ok in H as ([] & H4%ensure_Ok & H5%ensure_Ok). apply negb_true_iff in H3, H4, H5.
  apply orb_false_iff in H3 as [H3 H3']. apply orb_false_iff in H4 as [[_ H4]%orb_false_iff H4'].
  unfold memb in *. apply bool_decide_eq_false in H3, H3', H4, H4'. split_and!; try done.
  rewrite <- (probe_absent (delimiterOf k)) by (done || apply delimiterOf_ok).
  destruct k; cbn in H5; apply orb_false_iff in H5 as [H5 _]; by apply negb_false_iff, bool_decide_eq_true in H5.
Qed.

Lemma checkEntries_Ok k a safe sources targets m u : checkEntries k a safe sources targets m = Ok u ->
  Forall (fun e => literalName e.1 = true /\ literalName e.2 = true /\ (e.1 ∉ safe) /\ (e.2 ∉ safe) /\ (e.2 ∉ targets) /\ (e.2 ∉ sources) /\
                   e.2 ∉ names (delimiterOf k) (css a)) m /\ NoDup m.*2.
Proof.
  revert targets. induction m as [|[source target] m IH]; intros targets; cbn; [split; [done|constructor]|].
  intros ([] & He%checkEntry_Ok & Hm%IH)%bind_Ok. destruct Hm as [Hm Hn]. split.
  - apply Forall_cons. split; [done|]. eapply Forall_impl; [exact Hm|]. cbn. intros e He'. rewrite not_elem_of_app in He'. tauto.
  - apply NoDup_cons. split; [|done]. intros Hin. apply list_elem_of_fmap in Hin as (e & -> & Hin). rewrite Forall_forall in Hm.
    apply Hm in Hin as (_ & _ & _ & _ & Hin & _). rewrite not_elem_of_app in Hin. destruct Hin as [_ Hin]. apply Hin. by apply list_elem_of_singleton.
Qed.

Lemma checkEntries_accepted k a safe m u : checkEntries k a safe m.*1 [] m = Ok u -> accepted (delimiterOf k) (css a) m.
Proof.
  intros [Hm Hn]%checkEntries_Ok. rewrite Forall_forall in Hm. split; [..|done|].
  - apply Forall_forall. intros e He. apply Hm in He as (H1%literalName_plain & H2%literalName_plain & _). tauto.
  - apply Forall_forall. intros e He. apply Hm in He as (H1%literalName_plain & _). tauto.
  - apply Forall_forall. intros e He. apply Hm in He as (_ & H2%literalName_plain & _ & _ & _ & Hs & _). tauto.
  - apply Forall_fmap, Forall_forall. intros e He. apply Hm in He. cbn. tauto.
Qed.

Lemma checkMappings_Ok a m u : checkMappings a m = Ok u -> accepted 35 (css a) (ids m) /\ accepted 46 (css a) (classes m).
Proof.
  unfold checkMappings. intros ([] & H1 & H2)%bind_Ok. split; [exact (checkEntries_accepted Id _ _ _ _ H1)|exact (checkEntries_accepted ClassName _ _ _ _ H2)].
Qed.


(** ** Style sheets *)


Lemma applySelectorMappings_Ok parse a m out : enabled m = true -> applySelectorMappings parse a m = Ok out ->
  accepted 35 (css a) (ids m) /\ accepted 46 (css a) (classes m) /\
  css out = replaceEach [46%N] (classes m) (replaceEach [35%N] (ids m) (css a)) /\
  html out = replaceHtmlSelectorReferences (html a) (ids m) (classes m) /\
  replaceJavaScriptSelectorReferences (ids m) (classes m) parse (javascript a) = Ok (javascript out).
Proof.
  unfold applySelectorMappings. intros -> ([] & [Hi Hc]%checkMappings_Ok & H)%bind_Ok. cbn zeta in H.
  apply bind_Ok in H as (j & Hj & [= <-]). done.
Qed.

Section sheet.
Context (a : assets) (m : selectorMangling).
Context (Hids : accepted 35 (css a) (ids m)) (Hclasses : accepted 46 (css a) (classes m)).
Context (Fhash : pairFree 92 35 (css a)) (Fdot : pairFree 92 46 (css a)).

Abbreviation step1 := (rewrite 35 identifierLength (renameIdentifier (ids m)) (css a)).
Abbreviation step2 := (rewrite 46 identifierLength (renameIdentifier (classes m)) step1).

Lemma sheet_steps : replaceEach [46%N] (classes m) (replaceEach [35%N] (ids m) (css a)) = step2.
Proof. by rewrite !replaceEach_rewrite by (auto || apply Hids || apply Hclasses). Qed.

Lemma step1_tame : tame plainUnit (renameIdentifier (ids m)) (tokens 35 identifierLength (css a)).1.*2.
Proof. apply rename_tame, Hids. Qed.


Lemma step1_classes : names 46 step1 = names 46 (css a).
Proof.
  pose proof (css_scanner 35 delimiter_hash) as Hscan. unfold names. f_equal.
  apply (identifiers_other 46 35 delimiter_dot delimiter_hash ltac:(done) _ _ _ _ (tokens_spec 35 plainUnit identifierLength (css a)) step1_tame Fdot Fhash).
Qed.


End sheet.


(** ** Undoing *)

Definition swap (m : mapping) : mapping := (fun e => (e.2, e.1)) <$> m.

Lemma swap_chainless p s m : accepted p s m -> chainless (swap m).
Proof.
  intros [_ Hs Hc _ _]. unfold chainless, swap in *. rewrite Forall_forall in Hs, Hc. apply Forall_fmap, Forall_forall. intros e He. cbn.
  split; [by apply Hs|]. rewrite <- list_fmap_compose. intros Hin. apply list_elem_of_fmap in Hin as (e' & E & He'). cbn in E.
  apply Hc in He' as [_ Hn]. apply Hn. rewrite <- E. apply list_elem_of_fmap. by exists e.
Qed.

Lemma swap_lookup m k t : NoDup m.*2 -> lookupName m k = Some t -> lookupName (swap m) t = Some k.
Proof.
  induction m as [|[source target] m IH]; cbn; [done|]. intros [Hn Hd]%NoDup_cons. case_decide as E.
  - intros [= <-]. subst. by rewrite decide_True.
  - intros H. rewrite decide_False; [by apply IH|]. intros ->. apply Hn. apply lookupName_elem in H. apply list_elem_of_fmap. by exists (k, t).
Qed.

Lemma decode_unescaped i : 92%N ∉ i -> decodeCssIdentifier i = i.
Proof.
  unfold decodeCssIdentifier. induction i as [|c i IH]; [done|]. intros [Hc Hi]%not_elem_of_cons. cbn [length decode_fuel].
  rewrite (proj2 (N.eqb_neq c 92)) by done. by rewrite IH.
Qed.

Lemma identifiers_units p s i c : delimiter p -> i ∈ identifiers p identifierLength s -> c ∈ i -> c ∈ s.
Proof.
  intros Hp. pose proof (css_scanner p Hp) as Hscan. pose proof (tokens_spec p plainUnit identifierLength s) as Ht. unfold identifiers.
  destruct (tokens p identifierLength s) as [l t]. cbn in *. induction Ht as [s Hs|g j r l t Hg Hj Ht IH]; [by intros ?%not_elem_of_nil|].
  cbn. intros [->|Hi]%elem_of_cons Hc; rewrite elem_of_app, elem_of_cons, elem_of_app; [tauto|]. specialize (IH Hi Hc). tauto.
Qed.

Lemma rename_units m : chainless m -> forall i c, c ∈ renameIdentifier m i -> c ∈ i \/ plainUnit c.
Proof.
  intros Hm i c Hc. destruct (rename_plain m i (chainless_plain m Hm)) as [E|H]; [left; by rewrite E in Hc|right].
  rewrite Forall_forall in H. by apply H.
Qed.

(** One pass and its reverse. *)
Lemma rename_undo p m s t : delimiter p -> accepted p t m -> names p s = names p t -> 92%N ∉ s ->
  replaceEach [p] (swap m) (rewrite p identifierLength (renameIdentifier m) s) = s.
Proof.
  intros Hp Hm Hn Hb. pose proof (css_scanner p Hp) as Hscan. rewrite replaceEach_rewrite by (done || by eapply swap_chainless).
  rewrite (rewrite_compose p plainUnit identifierLength) by apply rename_tame, Hm. rewrite <- (rewrite_id p plainUnit identifierLength s) at 2.
  apply rewrite_ext, Forall_forall. intros i Hi. cbn. assert (decodeCssIdentifier i = i) as Hd.
  { apply decode_unescaped. intros Hin. apply Hb. by eapply identifiers_units. }
  assert (i ∈ names p t) as Hin. { rewrite <- Hn. apply list_elem_of_fmap. exists i. by rewrite Hd. }
  unfold renameIdentifier at 2. rewrite Hd. destruct (lookupName m i) as [x|] eqn:E; cbn; unfold renameIdentifier.
  - rewrite decode_plain; [by rewrite (swap_lookup m i) by (done || apply Hm)|]. apply lookupName_elem in E.
    pose proof (chainless_plain _ (accepted_chainless _ _ _ Hm)) as Hp'. rewrite Forall_forall in Hp'. by apply (Hp' _ E).
  - rewrite Hd. replace (lookupName (swap m) i) with (None : option jstr); [done|]. symmetry. apply lookupName_None.
    unfold swap. rewrite <- list_fmap_compose. intros Hi'. pose proof (accepted_fresh _ _ _ Hm) as Hf. rewrite Forall_forall in Hf.
    by apply (Hf i).
Qed.

(** Renaming a style sheet can be undone: mapping the classes and then the ids
    back gives the original text, when it has no escapes. *)
Theorem css_roundtrip parse a m out :
  enabled m = true -> applySelectorMappings parse a m = Ok out -> memb 92%N (css a) = false ->
  replaceEach (js "#") (swap (ids m)) (replaceEach (js ".") (swap (classes m)) (css out)) = css a.
Proof.
  intros He (Hi & Hc & -> & _)%applySelectorMappings_Ok Hb; [|done]. apply bool_decide_eq_false in Hb.
  assert (forall p, pairFree 92 p (css a)) as F.
  { intros p u v E. apply Hb. rewrite E. apply elem_of_app. right. apply elem_of_cons. by left. }
  rewrite (sheet_steps a m Hi Hc). change (js "#") with [35%N]. change (js ".") with [46%N].
  rewrite (rename_undo 46 (classes m) _ (css a)); [by apply (rename_undo 35 (ids m) _ (css a))|done|done|by apply step1_classes|].
  intros Hin. apply (rewrite_refines 35 _ _ delimiter_hash (rename_units (ids m) (accepted_chainless _ _ _ Hi))) in Hin as [Hin|Hin]; [done|].
  by apply plain_name in Hin as [_ []].
Qed.

(** ** Pages *)

(** C14: For a page given by its structure (text, comments, declarations, end tags,
    elements with quoted or bare attributes, and the raw elements script, style,
    textarea and title) and accepted mappings, the page that comes out is the text of
    the structure in which exactly these changed: the ids in id, for, form, list,
    popovertarget, commandfor and the aria attributes that name one element, the
    words of class, the words of headers and the aria attributes that list elements,
    and the fragment of href, src and the other attributes that hold an address;
    each name becomes the mapped name, or stays.  Conditions: element and attribute
    names in small letters, digits, hyphens and colons, lists with single spaces
    between their words, fragments of letters, digits, hyphens and underscores, a
    style attribute without # and dot, no end tag of a raw element inside it, and no
    capital I with a dot in the page. *)
Theorem html_renaming parse a m out page :
  enabled m = true -> applySelectorMappings parse a m = Ok out -> pageOk page = true -> html a = pageText page ->
  html out = pageText (renamePage (ids m) (classes m) page).
Proof.
  intros He (_ & _ & _ & -> & _)%applySelectorMappings_Ok Hp ->; [|done]. by apply replaceHtml_page.
Qed.
