(* ===== verification/ManglingTests.v ===== *)
(** * Selector mappings: the repository's tests and what they miss

    sdk/typescript/test/reference-assets.test.mjs evaluated on the model: the
    assets, mappings and expected results of its tests, with the trees of the
    scripts.  Then inputs on which the code does not do what it means to. *)

From stdpp Require Import base tactics option list numbers strings.
From S2P Require Import Prelude JsString JsNumber JsValue Regex Paths Effects Selectors SelectorProps SelectorHtml PageMarkup JsTree JsRewrite JsRewriteProps Mangling ManglingProps.
#[local] Open Scope string_scope.

(** ** Trees *)

(** A tilde stands for a double quote. *)
Definition t (s : string) : jstr := (fun c => if (c =? 126)%N then 34%N else c) <$> js s.

Definition nm (s e : nat) (name : string) : node := Node "Identifier" s e [("name", Scalar (Str (js name)))].
Definition st (s e : nat) (v : jstr) : node := Node "Literal" s e [("value", Scalar (Str v))].
Definition mb (s e : nat) (o p : node) : node :=
  Node "MemberExpression" s e [("object", Child o); ("property", Child p); ("computed", Scalar (Boolean false))].
Definition cl (s e : nat) (c : node) (l : list node) : node := Node "CallExpression" s e [("callee", Child c); ("arguments", Children (Some <$> l))].
Definition ex (s e : nat) (n : node) : node := Node "ExpressionStatement" s e [("expression", Child n)].
Definition pg (e : nat) (l : list node) : node := Node "Program" 0 e [("body", Children (Some <$> l))].
Definition vd (s e : nat) (k : string) (l : list node) : node :=
  Node "VariableDeclaration" s e [("declarations", Children (Some <$> l)); ("kind", Scalar (Str (js k)))].
Definition dc (s e : nat) (i : node) (init : option node) : node :=
  Node "VariableDeclarator" s e [("id", Child i); ("init", match init with Some n => Child n | None => Scalar Null end)].
Definition qs (s e : nat) (raw cooked : jstr) : node := Node "TemplateElement" s e [("raw", Scalar (Str raw)); ("cooked", Scalar (Str cooked))].

(** ** The tests *)

Inductive expectation : Type :=
  | Gives (expectedCss expectedHtml expectedScript : option jstr)
  | Refused (message : jstr).

(** The assets, the tree of the script, the mappings and the expected result. *)
Definition case (sheet page script : jstr) (tree : node) (i c : mapping) (safe : list jstr) (e : expectation) : bool :=
  let same (expected : option jstr) (actual : jstr) := from_option (fun s => bool_decide (s = actual)) true expected in
  match applySelectorMappings (fun _ => Ok tree) {| css := sheet; html := page; javascript := script |}
          {| enabled := true; ids := i; classes := c; safelist := safe |}, e with
  | Ok a, Gives x y z => same x (css a) && same y (html a) && same z (javascript a)
  | Throw error, Refused m => includes m (emessage error)
  | _, _ => false
  end.

Definition repositoryTests : list bool :=
  [(* selector mappings rewrite CSS, HTML, and JavaScript together *) case (js ".internal #private { color: red }") (t
     "<div class=~public internal~ id=~private~></div>") (t "document.querySelector(~#private .internal~)") (pg 44 [(ex 0 44 (cl 0 44 (mb 0 22
     (nm 0 8 "document") (nm 9 22 "querySelector")) [(st 23 43 (js "#private .internal"))]))]) [((js "private"), (js "a"))] [((js "internal"),
     (js "b"))] [(js "public")] (Gives (Some (js ".b #a { color: red }")) (Some (t "<div class=~public b~ id=~a~></div>")) (Some (t
     "document.querySelector(~#a .b~)")));
   (* selector mappings reject safelisted automation and accessibility hooks *) case (js "#events{}") (t "<pre id=~events~>") (t "~#events~")
     (pg 9 [(ex 0 9 (st 0 9 (js "#events")))]) [((js "events"), (js "a"))] [] [(js "events")] (Refused (js "safelist"));
   (* selector mappings reject collisions and mapping chains *) case [] [] [] (pg 0 []) [((js "first"), (js "a")); ((js "second"), (js "a"))]
     [] [] (Refused (js "ambiguous"));
   case [] [] [] (pg 0 []) [((js "first"), (js "second")); ((js "second"), (js "a"))] [] [] (Refused (js "ambiguous"));
   (* selector mappings reject targets already present in source assets *) case (js "#private #public {}") (t
     "<div id=~private~></div><div id=~public~></div>") [] (pg 0 []) [((js "private"), (js "public"))] [] [] (Refused (js
     "existing asset identity"));
   case (js ".internal .public {}") (t "<div class=~internal public~></div>") [] (pg 0 []) [] [((js "internal"), (js "public"))] [] (Refused
     (js "existing asset identity"));
   (* selector mappings preserve identifiers that only share a prefix *) case (js ".internal .internal-panel #private #private-value {}") (t
     "<div class=~internal internal-panel~ id=~private-value~><a href=~#private~>link</a></div>") (t
     "document.querySelector(~#private .internal~); document.querySelector(~#private-value .internal-panel~)") (pg 102 [(ex 0 45 (cl 0 44 (mb 0
     22 (nm 0 8 "document") (nm 9 22 "querySelector")) [(st 23 43 (js "#private .internal"))])); (ex 46 102 (cl 46 102 (mb 46 68 (nm 46 54
     "document") (nm 55 68 "querySelector")) [(st 69 101 (js "#private-value .internal-panel"))]))]) [((js "private"), (js "a"))] [((js
     "internal"), (js "b"))] [] (Gives (Some (js ".b .internal-panel #a #private-value {}")) (Some (t
     "<div class=~b internal-panel~ id=~private-value~><a href=~#a~>link</a></div>")) (Some (t
     "document.querySelector(~#a .b~); document.querySelector(~#private-value .internal-panel~)")));
   (* selector mappings recognize computed template member names *) case (js "#private {}") (t "<div id=~private~></div>") (t
     "document[`querySelector`](~#private~)") (pg 37 [(ex 0 37 (cl 0 37 (Node "MemberExpression" 0 25 [("object", Child (nm 0 8 "document"));
     ("property", Child (Node "TemplateLiteral" 9 24 [("expressions", Children []); ("quasis", Children [Some (qs 10 23 (js "querySelector") (js
     "querySelector"))])])); ("computed", Scalar (Boolean true))]) [(st 26 36 (js "#private"))]))]) [((js "private"), (js "a"))] [] [] (Gives
     None None (Some (t "document[`querySelector`](~#a~)")));
   (* selector mappings rewrite selector APIs invoked through call *) case (js "#private {}") (t "<div id=~private~></div>") (t
     "document.querySelector.call(document, ~#private~)") (pg 49 [(ex 0 49 (cl 0 49 (mb 0 27 (mb 0 22 (nm 0 8 "document") (nm 9 22
     "querySelector")) (nm 23 27 "call")) [(nm 28 36 "document"); (st 38 48 (js "#private"))]))]) [((js "private"), (js "a"))] [] [] (Gives None
     None (Some (t "document.querySelector.call(document, ~#a~)")));
   (* selector mappings rewrite HTML ID-reference attributes *) case (js "#private #details {}") (t
     "<label for=~private~ aria-controls=~private details public~ data-for=~private~ x-aria-controls=~private~>Label</label><input id=~private~><div id=~details~></div>")
     (t "document.querySelector(~#private~)") (pg 34 [(ex 0 34 (cl 0 34 (mb 0 22 (nm 0 8 "document") (nm 9 22 "querySelector")) [(st 23 33 (js
     "#private"))]))]) [((js "private"), (js "a")); ((js "details"), (js "b"))] [] [] (Gives None (Some (t
     "<label for=~a~ aria-controls=~a b public~ data-for=~private~ x-aria-controls=~private~>Label</label><input id=~a~><div id=~b~></div>"))
     None);
   (* selector mappings rewrite spaced and unquoted HTML ID references *) case (js "#private {}") (t
     "<label for = ~private~>Quoted</label><label for=private>Unquoted</label><input id=~private~>") (t "document.querySelector(~#private~)") (pg
     34 [(ex 0 34 (cl 0 34 (mb 0 22 (nm 0 8 "document") (nm 9 22 "querySelector")) [(st 23 33 (js "#private"))]))]) [((js "private"), (js "a"))]
     [] [] (Gives None (Some (t "<label for = ~a~>Quoted</label><label for=a>Unquoted</label><input id=~a~>")) None);
   (* selector mappings match complete HTML identity attributes and normal syntax *) case (js "#private .internal {}") (t
     "<div data-id=~private~ data-class=~internal~></div><div ID = private CLASS = ~internal public~></div>") (t
     "document.querySelector(~#private .internal~)") (pg 44 [(ex 0 44 (cl 0 44 (mb 0 22 (nm 0 8 "document") (nm 9 22 "querySelector")) [(st 23 43
     (js "#private .internal"))]))]) [((js "private"), (js "a"))] [((js "internal"), (js "b"))] [] (Gives None (Some (t
     "<div data-id=~private~ data-class=~internal~></div><div ID = a CLASS = ~b public~></div>")) None);
   (* class mappings change selector APIs without rewriting JavaScript properties *) case (js ".log {}") (t "<div class=~log~></div>") (t
     "console.log(~message~); node.classList.add(~log~); document.querySelector(~.log~)") (pg 81 [(ex 0 23 (cl 0 22 (mb 0 11 (nm 0 7 "console")
     (nm 8 11 "log")) [(st 12 21 (js "message"))])); (ex 24 50 (cl 24 49 (mb 24 42 (mb 24 38 (nm 24 28 "node") (nm 29 38 "classList")) (nm 39 42
     "add")) [(st 43 48 (js "log"))])); (ex 51 81 (cl 51 81 (mb 51 73 (nm 51 59 "document") (nm 60 73 "querySelector")) [(st 74 80 (js
     ".log"))]))]) [] [((js "log"), (js "a"))] [] (Gives None None (Some (t
     "console.log(~message~); node.classList.add(~a~); document.querySelector(~.a~)")));
   (* classList toggle ignores its boolean force argument *) case (js ".visible {}") (t "<div class=~visible~></div>") (t
     "node.classList.toggle(~visible~, shouldShow)") (pg 44 [(ex 0 44 (cl 0 44 (mb 0 21 (mb 0 14 (nm 0 4 "node") (nm 5 14 "classList")) (nm 15 21
     "toggle")) [(st 22 31 (js "visible")); (nm 33 43 "shouldShow")]))]) [] [((js "visible"), (js "a"))] [] (Gives None None (Some (t
     "node.classList.toggle(~a~, shouldShow)")));
   (* selector mappings rewrite static template-literal selector arguments *) case (js ".internal #private {}") (t
     "<div class=~internal~ id=~private~></div>") (js "document.querySelector(`#private .internal`); node.classList.add(`internal`)") (pg 76 [(ex
     0 45 (cl 0 44 (mb 0 22 (nm 0 8 "document") (nm 9 22 "querySelector")) [(Node "TemplateLiteral" 23 43 [("expressions", Children []);
     ("quasis", Children [Some (qs 24 42 (js "#private .internal") (js "#private .internal"))])])])); (ex 46 76 (cl 46 76 (mb 46 64 (mb 46 60 (nm
     46 50 "node") (nm 51 60 "classList")) (nm 61 64 "add")) [(Node "TemplateLiteral" 65 75 [("expressions", Children []); ("quasis", Children
     [Some (qs 66 74 (js "internal") (js "internal"))])])]))]) [((js "private"), (js "a"))] [((js "internal"), (js "b"))] [] (Gives None None
     (Some (js "document.querySelector(`#a .b`); node.classList.add(`b`)")));
   (* selector mappings rewrite cooked escaped template selectors *) case (js "#private {}") (t "<div id=~private~></div>") (js
     "document.querySelector(`#priv\u0061te`)") (pg 39 [(ex 0 39 (cl 0 39 (mb 0 22 (nm 0 8 "document") (nm 9 22 "querySelector")) [(Node
     "TemplateLiteral" 23 38 [("expressions", Children []); ("quasis", Children [Some (qs 24 37 (js "#priv\u0061te") (js "#private"))])])]))])
     [((js "private"), (js "a"))] [] [] (Gives None None (Some (js "document.querySelector(`#a`)")));
   (* selector mappings rewrite interpolated selector templates *) case (js "#private {}") (t "<div id=~private~></div>") (t
     "document.querySelector(`#private[data-key=~${key}~]`)") (pg 53 [(ex 0 53 (cl 0 53 (mb 0 22 (nm 0 8 "document") (nm 9 22 "querySelector"))
     [(Node "TemplateLiteral" 23 52 [("expressions", Children [Some (nm 45 48 "key")]); ("quasis", Children [Some (qs 24 43 (t
     "#private[data-key=~") (t "#private[data-key=~")); Some (qs 49 51 (t "~]") (t "~]"))])])]))]) [((js "private"), (js "a"))] [] [] (Gives None
     None (Some (t "document.querySelector(`#a[data-key=~${key}~]`)")));
   (* selector mappings do not mangle across interpolation boundaries *) case (js ".internal .internal-panel {}") (t
     "<div class=~internal internal-panel~></div>") (js "document.querySelector(`.internal${suffix}`)") (pg 44 [(ex 0 44 (cl 0 44 (mb 0 22 (nm 0
     8 "document") (nm 9 22 "querySelector")) [(Node "TemplateLiteral" 23 43 [("expressions", Children [Some (nm 35 41 "suffix")]); ("quasis",
     Children [Some (qs 24 33 (js ".internal") (js ".internal")); Some (qs 42 42 [] [])])])]))]) [] [((js "internal"), (js "b"))] [] (Gives None
     None (Some (js "document.querySelector(`.internal${suffix}`)")));
   (* selector interpolation boundary guards cannot collide with mappings *) case (js ".A {}") (t "<div class=~A~></div>") (js
     "document.querySelector(`.${name}`)") (pg 34 [(ex 0 34 (cl 0 34 (mb 0 22 (nm 0 8 "document") (nm 9 22 "querySelector")) [(Node
     "TemplateLiteral" 23 33 [("expressions", Children [Some (nm 27 31 "name")]); ("quasis", Children [Some (qs 24 25 (js ".") (js ".")); Some
     (qs 32 32 [] [])])])]))]) [] [((js "A"), (js "wide"))] [] (Gives None None (Some (js "document.querySelector(`.${name}`)")));
   (* selector mappings guard quasis after interpolations *) case (js "#private {}") (t "<div id=~private~></div>") (js
     "document.getElementById(`${prefix}private`)") (pg 43 [(ex 0 43 (cl 0 43 (mb 0 23 (nm 0 8 "document") (nm 9 23 "getElementById")) [(Node
     "TemplateLiteral" 24 42 [("expressions", Children [Some (nm 27 33 "prefix")]); ("quasis", Children [Some (qs 25 25 [] []); Some (qs 34 41
     (js "private") (js "private"))])])]))]) [((js "private"), (js "a"))] [] [] (Gives None None (Some (js
     "document.getElementById(`${prefix}private`)")));
   (* selector mappings preserve nested rewrites inside template expressions *) case (js ".internal #private {}") (t
     "<div class=~internal~ id=~private~></div>") (t "document.querySelector(`#private ${document.querySelector(~.internal~).id}`)") (pg 76 [(ex
     0 76 (cl 0 76 (mb 0 22 (nm 0 8 "document") (nm 9 22 "querySelector")) [(Node "TemplateLiteral" 23 75 [("expressions", Children [Some (mb 35
     73 (cl 35 70 (mb 35 57 (nm 35 43 "document") (nm 44 57 "querySelector")) [(st 58 69 (js ".internal"))]) (nm 71 73 "id"))]); ("quasis",
     Children [Some (qs 24 33 (js "#private ") (js "#private ")); Some (qs 74 74 [] [])])])]))]) [((js "private"), (js "a"))] [((js "internal"),
     (js "b"))] [] (Gives None None (Some (t "document.querySelector(`#a ${document.querySelector(~.b~).id}`)")));
   (* selector mappings rewrite interpolated selectors stored in constants *) case (js "#private {}") (t "<div id=~private~></div>") (t
     "const target = `#private[data-key=~${key}~]`; document.querySelector(target)") (pg 76 [(vd 0 45 "const" [(dc 6 44 (nm 6 12 "target") (Some
     (Node "TemplateLiteral" 15 44 [("expressions", Children [Some (nm 37 40 "key")]); ("quasis", Children [Some (qs 16 35 (t
     "#private[data-key=~") (t "#private[data-key=~")); Some (qs 41 43 (t "~]") (t "~]"))])])))]); (ex 46 76 (cl 46 76 (mb 46 68 (nm 46 54
     "document") (nm 55 68 "querySelector")) [(nm 69 75 "target")]))]) [((js "private"), (js "a"))] [] [] (Gives None None (Some (t
     "const target = `#a[data-key=~${key}~]`; document.querySelector(target)")));
   (* selector mappings rewrite statically bound selector arguments *) case (js ".internal #private {}") (t
     "<div class=~internal~ id=~private~></div>") (t "const target = ~#private .internal~; document.querySelector(target)") (pg 67 [(vd 0 36
     "const" [(dc 6 35 (nm 6 12 "target") (Some (st 15 35 (js "#private .internal"))))]); (ex 37 67 (cl 37 67 (mb 37 59 (nm 37 45 "document") (nm
     46 59 "querySelector")) [(nm 60 66 "target")]))]) [((js "private"), (js "a"))] [((js "internal"), (js "b"))] [] (Gives None None (Some (t
     "const target = ~#a .b~; document.querySelector(target)")));
   (* selector mappings rewrite unreassigned let selector bindings *) case (js "#private {}") (t "<div id=~private~></div>") (t
     "let target = ~#private~; document.querySelector(target)") (pg 55 [(vd 0 24 "let" [(dc 4 23 (nm 4 10 "target") (Some (st 13 23 (js
     "#private"))))]); (ex 25 55 (cl 25 55 (mb 25 47 (nm 25 33 "document") (nm 34 47 "querySelector")) [(nm 48 54 "target")]))]) [((js
     "private"), (js "a"))] [] [] (Gives None None (Some (t "let target = ~#a~; document.querySelector(target)")));
   (* selector mappings reject reassigned let selector bindings *) case (js "#private {}") (t "<div id=~private~></div>") (t
     "let target = ~#private~; target = ~#public~; document.querySelector(target)") (pg 75 [(vd 0 24 "let" [(dc 4 23 (nm 4 10 "target") (Some (st
     13 23 (js "#private"))))]); (ex 25 44 (Node "AssignmentExpression" 25 43 [("operator", Scalar (Str (js "="))); ("left", Child (nm 25 31
     "target")); ("right", Child (st 34 43 (js "#public")))])); (ex 45 75 (cl 45 75 (mb 45 67 (nm 45 53 "document") (nm 54 67 "querySelector"))
     [(nm 68 74 "target")]))]) [((js "private"), (js "a"))] [] [] (Refused (js "must not be reassigned"));
   (* selector mappings rewrite unreassigned var selector bindings *) case (js "#private {}") (t "<div id=~private~></div>") (t
     "var target = ~#private~; document.querySelector(target)") (pg 55 [(vd 0 24 "var" [(dc 4 23 (nm 4 10 "target") (Some (st 13 23 (js
     "#private"))))]); (ex 25 55 (cl 25 55 (mb 25 47 (nm 25 33 "document") (nm 34 47 "querySelector")) [(nm 48 54 "target")]))]) [((js
     "private"), (js "a"))] [] [] (Gives None None (Some (t "var target = ~#a~; document.querySelector(target)")));
   (* selector mappings reject reassigned var selector bindings *) case (js "#private {}") (t "<div id=~private~></div>") (t
     "var target = ~#private~; target = ~#public~; document.querySelector(target)") (pg 75 [(vd 0 24 "var" [(dc 4 23 (nm 4 10 "target") (Some (st
     13 23 (js "#private"))))]); (ex 25 44 (Node "AssignmentExpression" 25 43 [("operator", Scalar (Str (js "="))); ("left", Child (nm 25 31
     "target")); ("right", Child (st 34 43 (js "#public")))])); (ex 45 75 (cl 45 75 (mb 45 67 (nm 45 53 "document") (nm 54 67 "querySelector"))
     [(nm 68 74 "target")]))]) [((js "private"), (js "a"))] [] [] (Refused (js "must not be reassigned"));
   (* selector mappings treat repeated var declarations in one scope as one binding *) case (js "#private {}") (t "<div id=~private~></div>")
     (t "var target; var target = ~#private~; document.querySelector(target)") (pg 67 [(vd 0 11 "var" [(dc 4 10 (nm 4 10 "target") None)]); (vd
     12 36 "var" [(dc 16 35 (nm 16 22 "target") (Some (st 25 35 (js "#private"))))]); (ex 37 67 (cl 37 67 (mb 37 59 (nm 37 45 "document") (nm 46
     59 "querySelector")) [(nm 60 66 "target")]))]) [((js "private"), (js "a"))] [] [] (Gives None None (Some (t
     "var target; var target = ~#a~; document.querySelector(target)")));
   (* selector mappings reject repeatedly initialized var bindings *) case (js "#private {}") (t "<div id=~private~></div>") (t
     "var target = ~#public~; var target = ~#private~; document.querySelector(target)") (pg 79 [(vd 0 23 "var" [(dc 4 22 (nm 4 10 "target") (Some
     (st 13 22 (js "#public"))))]); (vd 24 48 "var" [(dc 28 47 (nm 28 34 "target") (Some (st 37 47 (js "#private"))))]); (ex 49 79 (cl 49 79 (mb
     49 71 (nm 49 57 "document") (nm 58 71 "querySelector")) [(nm 72 78 "target")]))]) [((js "private"), (js "a"))] [] [] (Refused (js
     "must not be reassigned"));
   (* selector mappings reject overridable selector parameter defaults *) case (js "#private {}") (t "<div id=~private~></div>") (t
     "function find(target = ~#private~) { return document.querySelector(target); } find(~#private~)") (pg 94 [(Node "FunctionDeclaration" 0 77
     [("id", Child (nm 9 13 "find")); ("params", Children [Some (Node "AssignmentPattern" 14 33 [("left", Child (nm 14 20 "target")); ("right",
     Child (st 23 33 (js "#private")))])]); ("body", Child (Node "BlockStatement" 35 77 [("body", Children [Some (Node "ReturnStatement" 37 75
     [("argument", Child (cl 44 74 (mb 44 66 (nm 44 52 "document") (nm 53 66 "querySelector")) [(nm 67 73 "target")]))])])]))]); (ex 78 94 (cl 78
     94 (nm 78 82 "find") [(st 83 93 (js "#private"))]))]) [((js "private"), (js "a"))] [] [] (Refused (js "Dynamic selector binding"));
   (* selector mappings reject destructuring and loop reassignment *) case (js "#private {}") (t "<div id=~private~></div>") (t
     "let target = ~#public~; [target] = [~#private~]; document.querySelector(target)") (pg 79 [(vd 0 23 "let" [(dc 4 22 (nm 4 10 "target") (Some
     (st 13 22 (js "#public"))))]); (ex 24 48 (Node "AssignmentExpression" 24 47 [("operator", Scalar (Str (js "="))); ("left", Child (Node
     "ArrayPattern" 24 32 [("elements", Children [Some (nm 25 31 "target")])])); ("right", Child (Node "ArrayExpression" 35 47 [("elements",
     Children [Some (st 36 46 (js "#private"))])]))])); (ex 49 79 (cl 49 79 (mb 49 71 (nm 49 57 "document") (nm 58 71 "querySelector")) [(nm 72
     78 "target")]))]) [((js "private"), (js "a"))] [] [] (Refused (js "must not be reassigned"));
   case (js "#private {}") (t "<div id=~private~></div>") (t
     "let target = ~#public~; for (target of selectors) {} document.querySelector(target)") (pg 83 [(vd 0 23 "let" [(dc 4 22 (nm 4 10 "target")
     (Some (st 13 22 (js "#public"))))]); (Node "ForOfStatement" 24 52 [("left", Child (nm 29 35 "target")); ("right", Child (nm 39 48
     "selectors")); ("body", Child (Node "BlockStatement" 50 52 [("body", Children [])]))]); (ex 53 83 (cl 53 83 (mb 53 75 (nm 53 61 "document")
     (nm 62 75 "querySelector")) [(nm 76 82 "target")]))]) [((js "private"), (js "a"))] [] [] (Refused (js "must not be reassigned"));
   (* selector mappings reject ambiguous static selector bindings *) case (js "#private {}") (t "<div id=~private~></div>") (t
     "const target = ~#private~; { const target = ~#public~; document.querySelector(target) }") (pg 87 [(vd 0 26 "const" [(dc 6 25 (nm 6 12
     "target") (Some (st 15 25 (js "#private"))))]); (Node "BlockStatement" 27 87 [("body", Children [Some (vd 29 54 "const" [(dc 35 53 (nm 35 41
     "target") (Some (st 44 53 (js "#public"))))]); Some (ex 55 85 (cl 55 85 (mb 55 77 (nm 55 63 "document") (nm 64 77 "querySelector")) [(nm 78
     84 "target")]))])])]) [((js "private"), (js "a"))] [] [] (Refused (js "must not be shadowed"));
   (* selector mappings reject static bindings shared by incompatible APIs *) case (js ".private #private {}") (t
     "<div class=~private~ id=~private~></div>") (t "const target = ~private~; document.getElementById(target); node.classList.add(target)") (pg
     85 [(vd 0 25 "const" [(dc 6 24 (nm 6 12 "target") (Some (st 15 24 (js "private"))))]); (ex 26 58 (cl 26 57 (mb 26 49 (nm 26 34 "document")
     (nm 35 49 "getElementById")) [(nm 50 56 "target")])); (ex 59 85 (cl 59 85 (mb 59 77 (mb 59 73 (nm 59 63 "node") (nm 64 73 "classList")) (nm
     74 77 "add")) [(nm 78 84 "target")]))]) [((js "private"), (js "a"))] [((js "private"), (js "b"))] [] (Refused (js
     "incompatible selector APIs"));
   (* selector mappings reject static bindings with non-selector uses *) case (js "#private {}") (t "<div id=~private~></div>") (t
     "const name = ~private~; document.getElementById(name); fetch(~/api/~ + name)") (pg 76 [(vd 0 23 "const" [(dc 6 22 (nm 6 10 "name") (Some
     (st 13 22 (js "private"))))]); (ex 24 54 (cl 24 53 (mb 24 47 (nm 24 32 "document") (nm 33 47 "getElementById")) [(nm 48 52 "name")])); (ex
     55 76 (cl 55 76 (nm 55 60 "fetch") [(Node "BinaryExpression" 61 75 [("left", Child (st 61 68 (js "/api/"))); ("operator", Scalar (Str (js
     "+"))); ("right", Child (nm 71 75 "name"))])]))]) [((js "private"), (js "a"))] [] [] (Refused (js "unsupported or conflicting uses"));
   (* selector mappings permit repeated compatible static binding uses *) case (js "#private {}") (t "<div id=~private~></div>") (t
     "const target = ~#private~; document.querySelector(target); document.querySelectorAll(target)") (pg 92 [(vd 0 26 "const" [(dc 6 25 (nm 6 12
     "target") (Some (st 15 25 (js "#private"))))]); (ex 27 58 (cl 27 57 (mb 27 49 (nm 27 35 "document") (nm 36 49 "querySelector")) [(nm 50 56
     "target")])); (ex 59 92 (cl 59 92 (mb 59 84 (nm 59 67 "document") (nm 68 84 "querySelectorAll")) [(nm 85 91 "target")]))]) [((js "private"),
     (js "a"))] [] [] (Gives None None (Some (t "const target = ~#a~; document.querySelector(target); document.querySelectorAll(target)")));
   (* selector mappings permit repeated unaffected static binding uses *) case (js "#private {}") (t "<div id=~private~></div>") (t
     "const target = ~#public~; document.querySelector(target); document.querySelectorAll(target)") (pg 91 [(vd 0 25 "const" [(dc 6 24 (nm 6 12
     "target") (Some (st 15 24 (js "#public"))))]); (ex 26 57 (cl 26 56 (mb 26 48 (nm 26 34 "document") (nm 35 48 "querySelector")) [(nm 49 55
     "target")])); (ex 58 91 (cl 58 91 (mb 58 83 (nm 58 66 "document") (nm 67 83 "querySelectorAll")) [(nm 84 90 "target")]))]) [((js "private"),
     (js "a"))] [] [] (Gives None None (Some (t "const target = ~#public~; document.querySelector(target); document.querySelectorAll(target)")));
   (* selector mappings rewrite bounded concatenation pieces *) case (js "#private {}") (t "<div id=~private~></div>") (t
     "document.querySelector(~#private [data-key='~ + key + ~']~)") (pg 59 [(ex 0 59 (cl 0 59 (mb 0 22 (nm 0 8 "document") (nm 9 22
     "querySelector")) [(Node "BinaryExpression" 23 58 [("left", Child (Node "BinaryExpression" 23 51 [("left", Child (st 23 45 (js
     "#private [data-key='"))); ("operator", Scalar (Str (js "+"))); ("right", Child (nm 48 51 "key"))])); ("operator", Scalar (Str (js "+")));
     ("right", Child (st 54 58 (js "']")))])]))]) [((js "private"), (js "a"))] [] [] (Gives None None (Some (t
     "document.querySelector(~#a [data-key='~ + key + ~']~)")));
   (* selector mappings rewrite conditional and logical selector arguments *) case (js "#private .internal {}") (t
     "<div id=~private~ class=~internal~></div>") (t
     "const candidate = ~#public~; document.querySelector(usePrivate ? ~#private~ : ~.internal~); document.querySelector(candidate || ~#private~)")
     (pg 139 [(vd 0 28 "const" [(dc 6 27 (nm 6 15 "candidate") (Some (st 18 27 (js "#public"))))]); (ex 29 91 (cl 29 90 (mb 29 51 (nm 29 37
     "document") (nm 38 51 "querySelector")) [(Node "ConditionalExpression" 52 89 [("test", Child (nm 52 62 "usePrivate")); ("consequent", Child
     (st 65 75 (js "#private"))); ("alternate", Child (st 78 89 (js ".internal")))])])); (ex 92 139 (cl 92 139 (mb 92 114 (nm 92 100 "document")
     (nm 101 114 "querySelector")) [(Node "LogicalExpression" 115 138 [("left", Child (nm 115 124 "candidate")); ("operator", Scalar (Str (js
     "||"))); ("right", Child (st 128 138 (js "#private")))])]))]) [((js "private"), (js "a"))] [((js "internal"), (js "b"))] [] (Gives None None
     (Some (t "const candidate = ~#public~; document.querySelector(usePrivate ? ~#a~ : ~.b~); document.querySelector(candidate || ~#a~)")));
   (* selector mappings rewrite the final value of sequence selector arguments *) case (js "#private {}") (t "<div id=~private~></div>") (t
     "document.querySelector((sideEffect(), ~#private~))") (pg 50 [(ex 0 50 (cl 0 50 (mb 0 22 (nm 0 8 "document") (nm 9 22 "querySelector"))
     [(Node "SequenceExpression" 24 48 [("expressions", Children [Some (cl 24 36 (nm 24 34 "sideEffect") []); Some (st 38 48 (js
     "#private"))])])]))]) [((js "private"), (js "a"))] [] [] (Gives None None (Some (t "document.querySelector((sideEffect(), ~#a~))")));
   (* selector mappings reject unsupported top-level selector expressions *) case (js "#private {}") (t "<div id=~private~></div>") (js
     "document.querySelector(getSelector())") (pg 37 [(ex 0 37 (cl 0 37 (mb 0 22 (nm 0 8 "document") (nm 9 22 "querySelector")) [(cl 23 36 (nm 23
     34 "getSelector") [])]))]) [((js "private"), (js "a"))] [] [] (Refused (js "CallExpression is unsupported"));
   (* selector mappings rewrite concatenations nested in conditional selector arguments *) case (js "#private {}") (t
     "<div id=~private~></div>") (t "document.querySelector(flag ? ~#private ~ + suffix : ~#private~)") (pg 64 [(ex 0 64 (cl 0 64 (mb 0 22 (nm 0
     8 "document") (nm 9 22 "querySelector")) [(Node "ConditionalExpression" 23 63 [("test", Child (nm 23 27 "flag")); ("consequent", Child (Node
     "BinaryExpression" 30 50 [("left", Child (st 30 41 (js "#private "))); ("operator", Scalar (Str (js "+"))); ("right", Child (nm 44 50
     "suffix"))])); ("alternate", Child (st 53 63 (js "#private")))])]))]) [((js "private"), (js "a"))] [] [] (Gives None None (Some (t
     "document.querySelector(flag ? ~#a ~ + suffix : ~#a~)")));
   (* selector mappings reject split static selector concatenations *) case (js "#private {}") (t "<div id=~private~></div>") (t
     "document.querySelector(~#pri~ + ~vate~)") (pg 39 [(ex 0 39 (cl 0 39 (mb 0 22 (nm 0 8 "document") (nm 9 22 "querySelector")) [(Node
     "BinaryExpression" 23 38 [("left", Child (st 23 29 (js "#pri"))); ("operator", Scalar (Str (js "+"))); ("right", Child (st 32 38 (js
     "vate")))])]))]) [((js "private"), (js "a"))] [] [] (Refused (js "Split static selector concatenations"));
   (* selector mappings reject concatenated selector constants *) case (js "#private {}") (t "<div id=~private~></div>") (t
     "const target = ~#private [data-key='~ + key + ~']~; document.querySelector(target)") (pg 82 [(vd 0 51 "const" [(dc 6 50 (nm 6 12 "target")
     (Some (Node "BinaryExpression" 15 50 [("left", Child (Node "BinaryExpression" 15 43 [("left", Child (st 15 37 (js "#private [data-key='")));
     ("operator", Scalar (Str (js "+"))); ("right", Child (nm 40 43 "key"))])); ("operator", Scalar (Str (js "+"))); ("right", Child (st 46 50
     (js "']")))])))]); (ex 52 82 (cl 52 82 (mb 52 74 (nm 52 60 "document") (nm 61 74 "querySelector")) [(nm 75 81 "target")]))]) [((js
     "private"), (js "a"))] [] [] (Refused (js "Concatenated selector binding"));
   (* selector mappings rewrite CSSOM rule selectors *) case (js ".internal {}") (t "<div class=~internal~></div>") (t
     "sheet.insertRule(~.internal { color: red }~)") (pg 44 [(ex 0 44 (cl 0 44 (mb 0 16 (nm 0 5 "sheet") (nm 6 16 "insertRule")) [(st 17 43 (js
     ".internal { color: red }"))]))]) [] [((js "internal"), (js "b"))] [] (Gives None None (Some (t "sheet.insertRule(~.b { color: red }~)")));
   (* selector mappings ignore inherited mapping properties *) case [] [] (t "document.getElementsByClassName(~constructor~)") (pg 46 [(ex 0 46
     (cl 0 46 (mb 0 31 (nm 0 8 "document") (nm 9 31 "getElementsByClassName")) [(st 32 45 (js "constructor"))]))]) [] [] [] (Gives None None
     (Some (t "document.getElementsByClassName(~constructor~)")));
   (* selector mappings parse classic scripts *) case (js "#private {}") (t "<div id=~private~></div>") (t
     "var await = 1; document.querySelector(~#private~)") (pg 49 [(vd 0 14 "var" [(dc 4 13 (nm 4 9 "await") (Some (Node "Literal" 12 13
     [("value", Scalar (Number (int 1)))])))]); (ex 15 49 (cl 15 49 (mb 15 37 (nm 15 23 "document") (nm 24 37 "querySelector")) [(st 38 48 (js
     "#private"))]))]) [((js "private"), (js "a"))] [] [] (Gives None None (Some (t "var await = 1; document.querySelector(~#a~)")));
   (* selector mappings accept loop declarations without initializers *) case (js "#private {}") (t "<div id=~private~></div>") (t
     "for (const item of items) document.querySelector(~#private~)") (pg 60 [(Node "ForOfStatement" 0 60 [("left", Child (vd 5 15 "const" [(dc 11
     15 (nm 11 15 "item") None)])); ("right", Child (nm 19 24 "items")); ("body", Child (ex 26 60 (cl 26 60 (mb 26 48 (nm 26 34 "document") (nm
     35 48 "querySelector")) [(st 49 59 (js "#private"))])))])]) [((js "private"), (js "a"))] [] [] (Gives None None (Some (t
     "for (const item of items) document.querySelector(~#a~)")));
   (* selector mappings accept empty destructuring declarations *) case (js "#private {}") (t "<div id=~private~></div>") (t
     "const {} = config; const [] = values; document.querySelector(~#private~)") (pg 72 [(vd 0 18 "const" [(dc 6 17 (Node "ObjectPattern" 6 8
     [("properties", Children [])]) (Some (nm 11 17 "config")))]); (vd 19 37 "const" [(dc 25 36 (Node "ArrayPattern" 25 27 [("elements", Children
     [])]) (Some (nm 30 36 "values")))]); (ex 38 72 (cl 38 72 (mb 38 60 (nm 38 46 "document") (nm 47 60 "querySelector")) [(st 61 71 (js
     "#private"))]))]) [((js "private"), (js "a"))] [] [] (Gives None None (Some (t
     "const {} = config; const [] = values; document.querySelector(~#a~)")));
   (* selector mappings guard concatenation literals after dynamic operands *) case (js "#private {}") (t "<div id=~private~></div>") (t
     "document.getElementById(prefix + ~private~)") (pg 43 [(ex 0 43 (cl 0 43 (mb 0 23 (nm 0 8 "document") (nm 9 23 "getElementById")) [(Node
     "BinaryExpression" 24 42 [("left", Child (nm 24 30 "prefix")); ("operator", Scalar (Str (js "+"))); ("right", Child (st 33 42 (js
     "private")))])]))]) [((js "private"), (js "a"))] [] [] (Gives None None (Some (t "document.getElementById(prefix + ~private~)")));
   (* selector mappings restrict bare DOM lookups to document receivers *) case (js "#private {}") (t "<div id=~private~></div>") (t
     "document.getElementById(~private~); window.document.getElementById(~private~); registry.getElementById(~private~)") (pg 113 [(ex 0 35 (cl 0
     34 (mb 0 23 (nm 0 8 "document") (nm 9 23 "getElementById")) [(st 24 33 (js "private"))])); (ex 36 78 (cl 36 77 (mb 36 66 (mb 36 51 (nm 36 42
     "window") (nm 43 51 "document")) (nm 52 66 "getElementById")) [(st 67 76 (js "private"))])); (ex 79 113 (cl 79 113 (mb 79 102 (nm 79 87
     "registry") (nm 88 102 "getElementById")) [(st 103 112 (js "private"))]))]) [((js "private"), (js "a"))] [] [] (Gives None None (Some (t
     "document.getElementById(~a~); window.document.getElementById(~a~); registry.getElementById(~private~)")));
   (* selector mappings fail closed for ambiguous element-scoped class lookups *) case (js ".internal {}") (t "<div class=~internal~></div>")
     (t "root.getElementsByClassName(~internal~)") (pg 39 [(ex 0 39 (cl 0 39 (mb 0 27 (nm 0 4 "root") (nm 5 27 "getElementsByClassName")) [(st 28
     38 (js "internal"))]))]) [] [((js "internal"), (js "a"))] [] (Refused (js "Element-scoped"));
   (* selector mappings reject late-initialized and stored selector values *) case (js "#private {}") (t "<div id=~private~></div>") (t
     "let target; target = ~#private~; document.querySelector(target)") (pg 63 [(vd 0 11 "let" [(dc 4 10 (nm 4 10 "target") None)]); (ex 12 32
     (Node "AssignmentExpression" 12 31 [("operator", Scalar (Str (js "="))); ("left", Child (nm 12 18 "target")); ("right", Child (st 21 31 (js
     "#private")))])); (ex 33 63 (cl 33 63 (mb 33 55 (nm 33 41 "document") (nm 42 55 "querySelector")) [(nm 56 62 "target")]))]) [((js
     "private"), (js "a"))] [] [] (Refused (js "Dynamic selector binding"));
   case (js "#private {}") (t "<div id=~private~></div>") (t "const selectors = { main: ~#private~ }; document.querySelector(selectors.main)")
     (pg 78 [(vd 0 39 "const" [(dc 6 38 (nm 6 15 "selectors") (Some (Node "ObjectExpression" 18 38 [("properties", Children [Some (Node
     "Property" 20 36 [("computed", Scalar (Boolean false)); ("key", Child (nm 20 24 "main")); ("value", Child (st 26 36 (js
     "#private")))])])])))]); (ex 40 78 (cl 40 78 (mb 40 62 (nm 40 48 "document") (nm 49 62 "querySelector")) [(mb 63 77 (nm 63 72 "selectors")
     (nm 73 77 "main"))]))]) [((js "private"), (js "a"))] [] [] (Refused (js "Stored selector properties"));
   (* selector mappings reject reversed shadowed static bindings *) case (js "#private {}") (t "<div id=~private~></div>") (t
     "const target = ~#public~; { const target = ~#private~; document.querySelector(target) }") (pg 87 [(vd 0 25 "const" [(dc 6 24 (nm 6 12
     "target") (Some (st 15 24 (js "#public"))))]); (Node "BlockStatement" 26 87 [("body", Children [Some (vd 28 54 "const" [(dc 34 53 (nm 34 40
     "target") (Some (st 43 53 (js "#private"))))]); Some (ex 55 85 (cl 55 85 (mb 55 77 (nm 55 63 "document") (nm 64 77 "querySelector")) [(nm 78
     84 "target")]))])])]) [((js "private"), (js "a"))] [] [] (Refused (js "must not be shadowed"));
   (* selector mappings distinguish bindings in disjoint lexical scopes *) case (js "#private {}") (t "<div id=~private~></div>") (t
     "function first() { const target = ~#private~; return document.querySelector(target); } function second() { const target = ~business~; return target; }")
     (pg 150 [(Node "FunctionDeclaration" 0 86 [("id", Child (nm 9 14 "first")); ("params", Children []); ("body", Child (Node "BlockStatement"
     17 86 [("body", Children [Some (vd 19 45 "const" [(dc 25 44 (nm 25 31 "target") (Some (st 34 44 (js "#private"))))]); Some (Node
     "ReturnStatement" 46 84 [("argument", Child (cl 53 83 (mb 53 75 (nm 53 61 "document") (nm 62 75 "querySelector")) [(nm 76 82
     "target")]))])])]))]); (Node "FunctionDeclaration" 87 150 [("id", Child (nm 96 102 "second")); ("params", Children []); ("body", Child (Node
     "BlockStatement" 105 150 [("body", Children [Some (vd 107 133 "const" [(dc 113 132 (nm 113 119 "target") (Some (st 122 132 (js
     "business"))))]); Some (Node "ReturnStatement" 134 148 [("argument", Child (nm 141 147 "target"))])])]))])]) [((js "private"), (js "a"))] []
     [] (Gives None None (Some (t
     "function first() { const target = ~#a~; return document.querySelector(target); } function second() { const target = ~business~; return target; }")));
   (* selector mappings scope named function expressions internally *) case (js "#private {}") (t "<div id=~private~></div>") (t
     "const target = ~#private~; const f = function target() {}; document.querySelector(target)") (pg 89 [(vd 0 26 "const" [(dc 6 25 (nm 6 12
     "target") (Some (st 15 25 (js "#private"))))]); (vd 27 58 "const" [(dc 33 57 (nm 33 34 "f") (Some (Node "FunctionExpression" 37 57 [("id",
     Child (nm 46 52 "target")); ("params", Children []); ("body", Child (Node "BlockStatement" 55 57 [("body", Children [])]))])))]); (ex 59 89
     (cl 59 89 (mb 59 81 (nm 59 67 "document") (nm 68 81 "querySelector")) [(nm 82 88 "target")]))]) [((js "private"), (js "a"))] [] [] (Gives
     None None (Some (t "const target = ~#a~; const f = function target() {}; document.querySelector(target)")));
   (* selector mappings scope named class expressions internally *) case (js "#private {}") (t "<div id=~private~></div>") (t
     "const target = ~#private~; const C = class target {}; document.querySelector(target)") (pg 84 [(vd 0 26 "const" [(dc 6 25 (nm 6 12
     "target") (Some (st 15 25 (js "#private"))))]); (vd 27 53 "const" [(dc 33 52 (nm 33 34 "C") (Some (Node "ClassExpression" 37 52 [("id",
     Child (nm 43 49 "target")); ("superClass", Scalar Null); ("body", Child (Node "ClassBody" 50 52 [("body", Children [])]))])))]); (ex 54 84
     (cl 54 84 (mb 54 76 (nm 54 62 "document") (nm 63 76 "querySelector")) [(nm 77 83 "target")]))]) [((js "private"), (js "a"))] [] [] (Gives
     None None (Some (t "const target = ~#a~; const C = class target {}; document.querySelector(target)")));
   (* selector binding use counts exclude class keys and labels *) case (js "#private {}") (t "<div id=~private~></div>") (t
     "const target = ~#private~; class Widget { target() {} } targetLabel: for (;;) { break targetLabel; } document.querySelector(target)") (pg
     131 [(vd 0 26 "const" [(dc 6 25 (nm 6 12 "target") (Some (st 15 25 (js "#private"))))]); (Node "ClassDeclaration" 27 55 [("id", Child (nm 33
     39 "Widget")); ("superClass", Scalar Null); ("body", Child (Node "ClassBody" 40 55 [("body", Children [Some (Node "MethodDefinition" 42 53
     [("computed", Scalar (Boolean false)); ("key", Child (nm 42 48 "target")); ("value", Child (Node "FunctionExpression" 48 53 [("id", Scalar
     Null); ("params", Children []); ("body", Child (Node "BlockStatement" 51 53 [("body", Children [])]))]))])])]))]); (Node "LabeledStatement"
     56 100 [("body", Child (Node "ForStatement" 69 100 [("init", Scalar Null); ("test", Scalar Null); ("update", Scalar Null); ("body", Child
     (Node "BlockStatement" 78 100 [("body", Children [Some (Node "BreakStatement" 80 98 [("label", Child (nm 86 97 "targetLabel"))])])]))]));
     ("label", Child (nm 56 67 "targetLabel"))]); (ex 101 131 (cl 101 131 (mb 101 123 (nm 101 109 "document") (nm 110 123 "querySelector")) [(nm
     124 130 "target")]))]) [((js "private"), (js "a"))] [] [] (Gives None None (Some (t
     "const target = ~#a~; class Widget { target() {} } targetLabel: for (;;) { break targetLabel; } document.querySelector(target)")));
   (* selector mappings rewrite JavaScript fragment navigation *) case (js "#private {}") (t "<div id=~private~></div>") (t
     "const fragment = ~#private~; location.hash = fragment; document.querySelector(~a~).setAttribute(~href~, ~#private~); window.location = ~#private~; document.location = ~#private~; location = ~#private~; location.href = ~/page#private~; location.assign(`/page#private?key=${key}`)")
     (pg 278 [(vd 0 28 "const" [(dc 6 27 (nm 6 14 "fragment") (Some (st 17 27 (js "#private"))))]); (ex 29 54 (Node "AssignmentExpression" 29 53
     [("operator", Scalar (Str (js "="))); ("left", Child (mb 29 42 (nm 29 37 "location") (nm 38 42 "hash"))); ("right", Child (nm 45 53
     "fragment"))])); (ex 55 116 (cl 55 115 (mb 55 95 (cl 55 82 (mb 55 77 (nm 55 63 "document") (nm 64 77 "querySelector")) [(st 78 81 (js
     "a"))]) (nm 83 95 "setAttribute")) [(st 96 102 (js "href")); (st 104 114 (js "#private"))])); (ex 117 146 (Node "AssignmentExpression" 117
     145 [("operator", Scalar (Str (js "="))); ("left", Child (mb 117 132 (nm 117 123 "window") (nm 124 132 "location"))); ("right", Child (st
     135 145 (js "#private")))])); (ex 147 178 (Node "AssignmentExpression" 147 177 [("operator", Scalar (Str (js "="))); ("left", Child (mb 147
     164 (nm 147 155 "document") (nm 156 164 "location"))); ("right", Child (st 167 177 (js "#private")))])); (ex 179 201 (Node
     "AssignmentExpression" 179 200 [("operator", Scalar (Str (js "="))); ("left", Child (nm 179 187 "location")); ("right", Child (st 190 200
     (js "#private")))])); (ex 202 234 (Node "AssignmentExpression" 202 233 [("operator", Scalar (Str (js "="))); ("left", Child (mb 202 215 (nm
     202 210 "location") (nm 211 215 "href"))); ("right", Child (st 218 233 (js "/page#private")))])); (ex 235 278 (cl 235 278 (mb 235 250 (nm
     235 243 "location") (nm 244 250 "assign")) [(Node "TemplateLiteral" 251 277 [("expressions", Children [Some (nm 272 275 "key")]); ("quasis",
     Children [Some (qs 252 270 (js "/page#private?key=") (js "/page#private?key=")); Some (qs 276 276 [] [])])])]))]) [((js "private"), (js
     "a"))] [] [] (Gives None None (Some (t
     "const fragment = ~#a~; location.hash = fragment; document.querySelector(~a~).setAttribute(~href~, ~#a~); window.location = ~#a~; document.location = ~#a~; location = ~#a~; location.href = ~/page#a~; location.assign(`/page#a?key=${key}`)")));
   (* selector mappings fail closed for ambiguous URL and identity property assignments *) case (js "#private .internal {}") (t
     "<div id=~private~ class=~internal~></div>") (t "settings.href = ~#private~") (pg 26 [(ex 0 26 (Node "AssignmentExpression" 0 26
     [("operator", Scalar (Str (js "="))); ("left", Child (mb 0 13 (nm 0 8 "settings") (nm 9 13 "href"))); ("right", Child (st 16 26 (js
     "#private")))]))]) [((js "private"), (js "a"))] [((js "internal"), (js "b"))] [] (Refused (js "ambiguous"));
   case (js "#private .internal {}") (t "<div id=~private~ class=~internal~></div>") (t "record.hash = ~#private~") (pg 24 [(ex 0 24 (Node
     "AssignmentExpression" 0 24 [("operator", Scalar (Str (js "="))); ("left", Child (mb 0 11 (nm 0 6 "record") (nm 7 11 "hash"))); ("right",
     Child (st 14 24 (js "#private")))]))]) [((js "private"), (js "a"))] [((js "internal"), (js "b"))] [] (Refused (js "ambiguous"));
   case (js "#private .internal {}") (t "<div id=~private~ class=~internal~></div>") (t "node.id = ~private~") (pg 19 [(ex 0 19 (Node
     "AssignmentExpression" 0 19 [("operator", Scalar (Str (js "="))); ("left", Child (mb 0 7 (nm 0 4 "node") (nm 5 7 "id"))); ("right", Child
     (st 10 19 (js "private")))]))]) [((js "private"), (js "a"))] [((js "internal"), (js "b"))] [] (Refused (js "ambiguous"));
   case (js "#private .internal {}") (t "<div id=~private~ class=~internal~></div>") (t "node.className = ~internal~") (pg 27 [(ex 0 27 (Node
     "AssignmentExpression" 0 27 [("operator", Scalar (Str (js "="))); ("left", Child (mb 0 14 (nm 0 4 "node") (nm 5 14 "className"))); ("right",
     Child (st 17 27 (js "internal")))]))]) [((js "private"), (js "a"))] [((js "internal"), (js "b"))] [] (Refused (js "ambiguous"));
   (* selector mappings respect shadowed browser location bindings *) case (js "#private {}") (t "<div id=~private~></div>") (t
     "function store(location) { location = ~#private~; location.href = ~#private~; location.assign(~#private~); }") (pg 108 [(Node
     "FunctionDeclaration" 0 108 [("id", Child (nm 9 14 "store")); ("params", Children [Some (nm 15 23 "location")]); ("body", Child (Node
     "BlockStatement" 25 108 [("body", Children [Some (ex 27 49 (Node "AssignmentExpression" 27 48 [("operator", Scalar (Str (js "="))); ("left",
     Child (nm 27 35 "location")); ("right", Child (st 38 48 (js "#private")))])); Some (ex 50 77 (Node "AssignmentExpression" 50 76
     [("operator", Scalar (Str (js "="))); ("left", Child (mb 50 63 (nm 50 58 "location") (nm 59 63 "href"))); ("right", Child (st 66 76 (js
     "#private")))])); Some (ex 78 106 (cl 78 105 (mb 78 93 (nm 78 86 "location") (nm 87 93 "assign")) [(st 94 104 (js "#private"))]))])]))])])
     [((js "private"), (js "a"))] [] [] (Gives None None (Some (t
     "function store(location) { location = ~#private~; location.href = ~#private~; location.assign(~#private~); }")));
   (* selector mappings respect shadowed browser document bindings *) case (js "#private {}") (t "<div id=~private~></div>") (t
     "function lookup(document) { return document.getElementById(~private~); }") (pg 72 [(Node "FunctionDeclaration" 0 72 [("id", Child (nm 9 15
     "lookup")); ("params", Children [Some (nm 16 24 "document")]); ("body", Child (Node "BlockStatement" 26 72 [("body", Children [Some (Node
     "ReturnStatement" 28 70 [("argument", Child (cl 35 69 (mb 35 58 (nm 35 43 "document") (nm 44 58 "getElementById")) [(st 59 68 (js
     "private"))]))])])]))])]) [((js "private"), (js "a"))] [] [] (Gives None None (Some (t
     "function lookup(document) { return document.getElementById(~private~); }")));
   (* selector mappings respect shadowed window navigation bindings *) case (js "#private {}") (t "<div id=~private~></div>") (t
     "function send(window) { window.open(~#private~); window.location = ~#private~; window.location.assign(~#private~); window.history.pushState(null, ~~, ~#private~); }")
     (pg 164 [(Node "FunctionDeclaration" 0 164 [("id", Child (nm 9 13 "send")); ("params", Children [Some (nm 14 20 "window")]); ("body", Child
     (Node "BlockStatement" 22 164 [("body", Children [Some (ex 24 48 (cl 24 47 (mb 24 35 (nm 24 30 "window") (nm 31 35 "open")) [(st 36 46 (js
     "#private"))])); Some (ex 49 78 (Node "AssignmentExpression" 49 77 [("operator", Scalar (Str (js "="))); ("left", Child (mb 49 64 (nm 49 55
     "window") (nm 56 64 "location"))); ("right", Child (st 67 77 (js "#private")))])); Some (ex 79 114 (cl 79 113 (mb 79 101 (mb 79 94 (nm 79 85
     "window") (nm 86 94 "location")) (nm 95 101 "assign")) [(st 102 112 (js "#private"))])); Some (ex 115 162 (cl 115 161 (mb 115 139 (mb 115
     129 (nm 115 121 "window") (nm 122 129 "history")) (nm 130 139 "pushState")) [(Node "Literal" 140 144 [("value", Scalar Null)]); (st 146 148
     []); (st 150 160 (js "#private"))]))])]))])]) [((js "private"), (js "a"))] [] [] (Gives None None (Some (t
     "function send(window) { window.open(~#private~); window.location = ~#private~; window.location.assign(~#private~); window.history.pushState(null, ~~, ~#private~); }")));
   (* selector mappings rewrite runtime HTML assignment references *) case (js "#private .internal {}") (t "<div id=~private~></div>") (t
     "document.getElementById(~private~).innerHTML = `<a href=~#private~ class=~internal~ id=~private~>go</a>`; document.querySelector(~#private~).outerHTML = '<label for=~private~>go</label>'")
     (pg 186 [(ex 0 105 (Node "AssignmentExpression" 0 104 [("operator", Scalar (Str (js "="))); ("left", Child (mb 0 44 (cl 0 34 (mb 0 23 (nm 0
     8 "document") (nm 9 23 "getElementById")) [(st 24 33 (js "private"))]) (nm 35 44 "innerHTML"))); ("right", Child (Node "TemplateLiteral" 47
     104 [("expressions", Children []); ("quasis", Children [Some (qs 48 103 (t "<a href=~#private~ class=~internal~ id=~private~>go</a>") (t
     "<a href=~#private~ class=~internal~ id=~private~>go</a>"))])]))])); (ex 106 186 (Node "AssignmentExpression" 106 186 [("operator", Scalar
     (Str (js "="))); ("left", Child (mb 106 150 (cl 106 140 (mb 106 128 (nm 106 114 "document") (nm 115 128 "querySelector")) [(st 129 139 (js
     "#private"))]) (nm 141 150 "outerHTML"))); ("right", Child (st 153 186 (t "<label for=~private~>go</label>")))]))]) [((js "private"), (js
     "a"))] [((js "internal"), (js "b"))] [] (Gives None None (Some (t
     "document.getElementById(~a~).innerHTML = `<a href=~#a~ class=~b~ id=~a~>go</a>`; document.querySelector(~#a~).outerHTML = ~<label for=\~a\~>go</label>~")));
   (* selector mappings reject dynamic runtime HTML assignments *) case (js "#private {}") (t "<div id=~private~></div>") (t
     "root.innerHTML = `<a href=~#private~>${label}</a>`") (pg 50 [(ex 0 50 (Node "AssignmentExpression" 0 50 [("operator", Scalar (Str (js
     "="))); ("left", Child (mb 0 14 (nm 0 4 "root") (nm 5 14 "innerHTML"))); ("right", Child (Node "TemplateLiteral" 17 50 [("expressions",
     Children [Some (nm 39 44 "label")]); ("quasis", Children [Some (qs 18 37 (t "<a href=~#private~>") (t "<a href=~#private~>")); Some (qs 45
     49 (js "</a>") (js "</a>"))])]))]))]) [((js "private"), (js "a"))] [] [] (Refused (js "Interpolated runtime HTML"));
   case (js "#private {}") (t "<div id=~private~></div>") (js "root.outerHTML = renderMarkup()") (pg 31 [(ex 0 31 (Node "AssignmentExpression"
     0 31 [("operator", Scalar (Str (js "="))); ("left", Child (mb 0 14 (nm 0 4 "root") (nm 5 14 "outerHTML"))); ("right", Child (cl 17 31 (nm 17
     29 "renderMarkup") []))]))]) [((js "private"), (js "a"))] [] [] (Refused (js "Runtime HTML assignment expression CallExpression"));
   case (js "#private {}") (t "<div id=~private~></div>") (t "root.innerHTML = '<a href=~#private~>go</a>'") (pg 44 [(ex 0 44 (Node
     "AssignmentExpression" 0 44 [("operator", Scalar (Str (js "="))); ("left", Child (mb 0 14 (nm 0 4 "root") (nm 5 14 "innerHTML"))); ("right",
     Child (st 17 44 (t "<a href=~#private~>go</a>")))]))]) [((js "private"), (js "a"))] [] [] (Refused (js "ambiguous runtime HTML receiver"));
   (* selector mappings rewrite Location hash comparisons *) case (js "#private {}") (t "<div id=~private~></div>") (t
     "const fragment = ~#private~; if (location.hash === ~#private~ || window.location.hash === fragment) {}") (pg 102 [(vd 0 28 "const" [(dc 6
     27 (nm 6 14 "fragment") (Some (st 17 27 (js "#private"))))]); (Node "IfStatement" 29 102 [("test", Child (Node "LogicalExpression" 33 98
     [("left", Child (Node "BinaryExpression" 33 61 [("left", Child (mb 33 46 (nm 33 41 "location") (nm 42 46 "hash"))); ("operator", Scalar (Str
     (js "==="))); ("right", Child (st 51 61 (js "#private")))])); ("operator", Scalar (Str (js "||"))); ("right", Child (Node "BinaryExpression"
     65 98 [("left", Child (mb 65 85 (mb 65 80 (nm 65 71 "window") (nm 72 80 "location")) (nm 81 85 "hash"))); ("operator", Scalar (Str (js
     "==="))); ("right", Child (nm 90 98 "fragment"))]))])); ("consequent", Child (Node "BlockStatement" 100 102 [("body", Children [])]));
     ("alternate", Scalar Null)])]) [((js "private"), (js "a"))] [] [] (Gives None None (Some (t
     "const fragment = ~#a~; if (location.hash === ~#a~ || window.location.hash === fragment) {}")));
   (* selector mappings rewrite conditional fragment assignments *) case (js "#private {}") (t "<div id=~private~></div>") (t
     "const fallback = ~#public~; location.href = flag ? ~#private~ : ~#public~; location = fallback || ~#private~") (pg 108 [(vd 0 27 "const"
     [(dc 6 26 (nm 6 14 "fallback") (Some (st 17 26 (js "#public"))))]); (ex 28 74 (Node "AssignmentExpression" 28 73 [("operator", Scalar (Str
     (js "="))); ("left", Child (mb 28 41 (nm 28 36 "location") (nm 37 41 "href"))); ("right", Child (Node "ConditionalExpression" 44 73
     [("test", Child (nm 44 48 "flag")); ("consequent", Child (st 51 61 (js "#private"))); ("alternate", Child (st 64 73 (js "#public")))]))]));
     (ex 75 108 (Node "AssignmentExpression" 75 108 [("operator", Scalar (Str (js "="))); ("left", Child (nm 75 83 "location")); ("right", Child
     (Node "LogicalExpression" 86 108 [("left", Child (nm 86 94 "fallback")); ("operator", Scalar (Str (js "||"))); ("right", Child (st 98 108
     (js "#private")))]))]))]) [((js "private"), (js "a"))] [] [] (Gives None None (Some (t
     "const fallback = ~#public~; location.href = flag ? ~#a~ : ~#public~; location = fallback || ~#a~")));
   (* selector mappings rewrite concatenated fragment assignments *) case (js "#private {}") (t "<div id=~private~></div>") (t
     "location.href = ~/page#private?key=~ + key") (pg 42 [(ex 0 42 (Node "AssignmentExpression" 0 42 [("operator", Scalar (Str (js "=")));
     ("left", Child (mb 0 13 (nm 0 8 "location") (nm 9 13 "href"))); ("right", Child (Node "BinaryExpression" 16 42 [("left", Child (st 16 36 (js
     "/page#private?key="))); ("operator", Scalar (Str (js "+"))); ("right", Child (nm 39 42 "key"))]))]))]) [((js "private"), (js "a"))] [] []
     (Gives None None (Some (t "location.href = ~/page#a?key=~ + key")));
   (* selector mappings rewrite final sequence operands in fragment assignments *) case (js "#private {}") (t "<div id=~private~></div>") (t
     "location.href = (sideEffect(), ~#private~)") (pg 42 [(ex 0 42 (Node "AssignmentExpression" 0 42 [("operator", Scalar (Str (js "=")));
     ("left", Child (mb 0 13 (nm 0 8 "location") (nm 9 13 "href"))); ("right", Child (Node "SequenceExpression" 17 41 [("expressions", Children
     [Some (cl 17 29 (nm 17 27 "sideEffect") []); Some (st 31 41 (js "#private"))])]))]))]) [((js "private"), (js "a"))] [] [] (Gives None None
     (Some (t "location.href = (sideEffect(), ~#a~)")));
   (* selector mappings reject dynamic Location assignment values *) case (js "#private {}") (t "<div id=~private~></div>") (js
     "location.hash = getFragment()") (pg 29 [(ex 0 29 (Node "AssignmentExpression" 0 29 [("operator", Scalar (Str (js "="))); ("left", Child (mb
     0 13 (nm 0 8 "location") (nm 9 13 "hash"))); ("right", Child (cl 16 29 (nm 16 27 "getFragment") []))]))]) [((js "private"), (js "a"))] [] []
     (Refused (js "Fragment expression CallExpression"));
   case (js "#private {}") (t "<div id=~private~></div>") (t "location.href = flag ? getFragment() : ~#private~") (pg 49 [(ex 0 49 (Node
     "AssignmentExpression" 0 49 [("operator", Scalar (Str (js "="))); ("left", Child (mb 0 13 (nm 0 8 "location") (nm 9 13 "href"))); ("right",
     Child (Node "ConditionalExpression" 16 49 [("test", Child (nm 16 20 "flag")); ("consequent", Child (cl 23 36 (nm 23 34 "getFragment") []));
     ("alternate", Child (st 39 49 (js "#private")))]))]))]) [((js "private"), (js "a"))] [] [] (Refused (js
     "Fragment expression CallExpression"));
   (* selector mappings reject dynamic conditional selector branches *) case (js "#private {}") (t "<div id=~private~></div>") (t
     "document.querySelector(flag ? getSelector() : ~#private~)") (pg 57 [(ex 0 57 (cl 0 57 (mb 0 22 (nm 0 8 "document") (nm 9 22
     "querySelector")) [(Node "ConditionalExpression" 23 56 [("test", Child (nm 23 27 "flag")); ("consequent", Child (cl 30 43 (nm 30 41
     "getSelector") [])); ("alternate", Child (st 46 56 (js "#private")))])]))]) [((js "private"), (js "a"))] [] [] (Refused (js
     "CallExpression is unsupported"));
   (* selector mappings rewrite History API URL fragments *) case (js "#private {}") (t "<div id=~private~></div>") (t
     "history.pushState({ value: ~#private~ }, ~#private~, ~#private~); window.history.replaceState(null, ~~, ~/page#private~)") (pg 120 [(ex 0
     65 (cl 0 64 (mb 0 17 (nm 0 7 "history") (nm 8 17 "pushState")) [(Node "ObjectExpression" 18 39 [("properties", Children [Some (Node
     "Property" 20 37 [("computed", Scalar (Boolean false)); ("key", Child (nm 20 25 "value")); ("value", Child (st 27 37 (js
     "#private")))])])]); (st 41 51 (js "#private")); (st 53 63 (js "#private"))])); (ex 66 120 (cl 66 120 (mb 66 93 (mb 66 80 (nm 66 72
     "window") (nm 73 80 "history")) (nm 81 93 "replaceState")) [(Node "Literal" 94 98 [("value", Scalar Null)]); (st 100 102 []); (st 104 119
     (js "/page#private"))]))]) [((js "private"), (js "a"))] [] [] (Gives None None (Some (t
     "history.pushState({ value: ~#private~ }, ~#private~, ~#a~); window.history.replaceState(null, ~~, ~/page#a~)")));
   (* selector mappings rewrite unshadowed global open fragments *) case (js "#private {}") (t "<div id=~private~></div>") (t
     "open(~#private~); window.open(~#private~)") (pg 41 [(ex 0 17 (cl 0 16 (nm 0 4 "open") [(st 5 15 (js "#private"))])); (ex 18 41 (cl 18 41
     (mb 18 29 (nm 18 24 "window") (nm 25 29 "open")) [(st 30 40 (js "#private"))]))]) [((js "private"), (js "a"))] [] [] (Gives None None (Some
     (t "open(~#a~); window.open(~#a~)")));
   (* selector mappings rewrite id and class setAttribute values *) case (js "#private .internal {}") (t
     "<div id=~private~ class=~internal~></div>") (t
     "document.getElementById(~private~).setAttribute(~id~, ~private~); document.querySelector(~#private~).setAttribute(~class~, ~internal public~)")
     (pg 141 [(ex 0 65 (cl 0 64 (mb 0 47 (cl 0 34 (mb 0 23 (nm 0 8 "document") (nm 9 23 "getElementById")) [(st 24 33 (js "private"))]) (nm 35 47
     "setAttribute")) [(st 48 52 (js "id")); (st 54 63 (js "private"))])); (ex 66 141 (cl 66 141 (mb 66 113 (cl 66 100 (mb 66 88 (nm 66 74
     "document") (nm 75 88 "querySelector")) [(st 89 99 (js "#private"))]) (nm 101 113 "setAttribute")) [(st 114 121 (js "class")); (st 123 140
     (js "internal public"))]))]) [((js "private"), (js "a"))] [((js "internal"), (js "b"))] [] (Gives None None (Some (t
     "document.getElementById(~a~).setAttribute(~id~, ~a~); document.querySelector(~#a~).setAttribute(~class~, ~b public~)")));
   (* selector mappings handle stylesheet replacement rules conservatively *) case (js "#private .internal {}") (t
     "<div id=~private~ class=~internal~></div>") (t "sheet.replaceSync(~#private .internal { color: red }~)") (pg 54 [(ex 0 54 (cl 0 54 (mb 0 17
     (nm 0 5 "sheet") (nm 6 17 "replaceSync")) [(st 18 53 (js "#private .internal { color: red }"))]))]) [((js "private"), (js "a"))] [((js
     "internal"), (js "b"))] [] (Gives None None (Some (t "sheet.replaceSync(~#a .b { color: red }~)")));
   case (js "#private .internal {}") (t "<div id=~private~ class=~internal~></div>") (t "sheet.replace(~#private .internal { color: red }~)")
     (pg 50 [(ex 0 50 (cl 0 50 (mb 0 13 (nm 0 5 "sheet") (nm 6 13 "replace")) [(st 14 49 (js "#private .internal { color: red }"))]))]) [((js
     "private"), (js "a"))] [((js "internal"), (js "b"))] [] (Refused (js "Ambiguous stylesheet replace"));
   case (js "#private .internal {}") (t "<div id=~private~ class=~internal~></div>") (t "const rule = ~#private {}~; sheet.replace(rule)") (pg
     47 [(vd 0 27 "const" [(dc 6 26 (nm 6 10 "rule") (Some (st 13 26 (js "#private {}"))))]); (ex 28 47 (cl 28 47 (mb 28 41 (nm 28 33 "sheet")
     (nm 34 41 "replace")) [(nm 42 46 "rule")]))]) [((js "private"), (js "a"))] [((js "internal"), (js "b"))] [] (Refused (js
     "Ambiguous stylesheet replace"));
   (* selector mappings reject non-string DOM token arguments *) case (js "#true .true {}") (t "<div id=~true~ class=~true~></div>") (js
     "document.getElementById(true)") (pg 29 [(ex 0 29 (cl 0 29 (mb 0 23 (nm 0 8 "document") (nm 9 23 "getElementById")) [(Node "Literal" 24 28
     [("value", Scalar (Boolean true))])]))]) [((js "true"), (js "a"))] [((js "true"), (js "b"))] [] (Refused (js
     "Non-string DOM selector arguments"));
   case (js "#true .true {}") (t "<div id=~true~ class=~true~></div>") (js "node.classList.add(true)") (pg 24 [(ex 0 24 (cl 0 24 (mb 0 18 (mb 0
     14 (nm 0 4 "node") (nm 5 14 "classList")) (nm 15 18 "add")) [(Node "Literal" 19 23 [("value", Scalar (Boolean true))])]))]) [((js "true"),
     (js "a"))] [((js "true"), (js "b"))] [] (Refused (js "Non-string DOM selector arguments"));
   case (js "#true .true {}") (t "<div id=~true~ class=~true~></div>") (t "document.getElementById(~true~).setAttribute(~id~, true)") (pg 56
     [(ex 0 56 (cl 0 56 (mb 0 44 (cl 0 31 (mb 0 23 (nm 0 8 "document") (nm 9 23 "getElementById")) [(st 24 30 (js "true"))]) (nm 32 44
     "setAttribute")) [(st 45 49 (js "id")); (Node "Literal" 51 55 [("value", Scalar (Boolean true))])]))]) [((js "true"), (js "a"))] [((js
     "true"), (js "b"))] [] (Refused (js "Non-string DOM selector arguments"));
   (* selector mappings reject mapped static template interpolations *) case (js "#private {}") (t "<div id=~private~></div>") (t
     "document.getElementById(`${~private~}`)") (pg 39 [(ex 0 39 (cl 0 39 (mb 0 23 (nm 0 8 "document") (nm 9 23 "getElementById")) [(Node
     "TemplateLiteral" 24 38 [("expressions", Children [Some (st 27 36 (js "private"))]); ("quasis", Children [Some (qs 25 25 [] []); Some (qs 37
     37 [] [])])])]))]) [((js "private"), (js "a"))] [] [] (Refused (js "Static template interpolation"));
   (* selector mappings decode escaped CSS identifiers *) case (js "#priv\61 te .intern\61l {}") (t
     "<div id=~private~ class=~internal~></div>") (t "document.querySelector(~#private .internal~)") (pg 44 [(ex 0 44 (cl 0 44 (mb 0 22 (nm 0 8
     "document") (nm 9 22 "querySelector")) [(st 23 43 (js "#private .internal"))]))]) [((js "private"), (js "a"))] [((js "internal"), (js "b"))]
     [] (Gives (Some (js "#a .b {}")) None None);
   (* selector mappings treat parameter and var declarations as one shadowing binding *) case (js "#private {}") (t "<div id=~private~></div>")
     (t "function lookup(document) { var document; return document.getElementById(~private~); }") (pg 86 [(Node "FunctionDeclaration" 0 86
     [("id", Child (nm 9 15 "lookup")); ("params", Children [Some (nm 16 24 "document")]); ("body", Child (Node "BlockStatement" 26 86 [("body",
     Children [Some (vd 28 41 "var" [(dc 32 40 (nm 32 40 "document") None)]); Some (Node "ReturnStatement" 42 84 [("argument", Child (cl 49 83
     (mb 49 72 (nm 49 57 "document") (nm 58 72 "getElementById")) [(st 73 82 (js "private"))]))])])]))])]) [((js "private"), (js "a"))] [] []
     (Gives None None (Some (t "function lookup(document) { var document; return document.getElementById(~private~); }")));
   (* selector mappings normalize percent-encoded URL fragments *) case (js "#private {}") (t
     "<div id=~private~></div><a href=~#priv%61te~>go</a>") (t "location.href = ~/page#priv%61te~") (pg 33 [(ex 0 33 (Node "AssignmentExpression"
     0 33 [("operator", Scalar (Str (js "="))); ("left", Child (mb 0 13 (nm 0 8 "location") (nm 9 13 "href"))); ("right", Child (st 16 33 (js
     "/page#priv%61te")))]))]) [((js "private"), (js "a"))] [] [] (Gives None (Some (t "<div id=~a~></div><a href=~#a~>go</a>")) (Some (t
     "location.href = ~/page#a~")));
   (* selector mappings rewrite proven DOM identity comparisons *) case (js "#private .internal {}") (t
     "<div id=~private~ class=~internal~></div>") (t
     "document.getElementById(~private~).id === ~private~; document.querySelector(~#private~).className === ~internal public~") (pg 119 [(ex 0 52
     (Node "BinaryExpression" 0 51 [("left", Child (mb 0 37 (cl 0 34 (mb 0 23 (nm 0 8 "document") (nm 9 23 "getElementById")) [(st 24 33 (js
     "private"))]) (nm 35 37 "id"))); ("operator", Scalar (Str (js "==="))); ("right", Child (st 42 51 (js "private")))])); (ex 53 119 (Node
     "BinaryExpression" 53 119 [("left", Child (mb 53 97 (cl 53 87 (mb 53 75 (nm 53 61 "document") (nm 62 75 "querySelector")) [(st 76 86 (js
     "#private"))]) (nm 88 97 "className"))); ("operator", Scalar (Str (js "==="))); ("right", Child (st 102 119 (js "internal public")))]))])
     [((js "private"), (js "a"))] [((js "internal"), (js "b"))] [] (Gives None None (Some (t
     "document.getElementById(~a~).id === ~a~; document.querySelector(~#a~).className === ~b public~")));
   (* selector mappings reject ambiguous DOM identity comparisons *) case (js "#private {}") (t "<div id=~private~></div>") (t
     "model.id === ~private~") (pg 22 [(ex 0 22 (Node "BinaryExpression" 0 22 [("left", Child (mb 0 8 (nm 0 5 "model") (nm 6 8 "id")));
     ("operator", Scalar (Str (js "==="))); ("right", Child (st 13 22 (js "private")))]))]) [((js "private"), (js "a"))] [] [] (Refused (js
     "ambiguous id receiver"));
   (* selector mappings rewrite proven runtime style text *) case (js "#private .internal {}") (t "<div id=~private~ class=~internal~></div>")
     (t "const style = document.createElement(~style~); style.textContent = ~#private .internal {}~") (pg 90 [(vd 0 46 "const" [(dc 6 45 (nm 6 11
     "style") (Some (cl 14 45 (mb 14 36 (nm 14 22 "document") (nm 23 36 "createElement")) [(st 37 44 (js "style"))])))]); (ex 47 90 (Node
     "AssignmentExpression" 47 90 [("operator", Scalar (Str (js "="))); ("left", Child (mb 47 64 (nm 47 52 "style") (nm 53 64 "textContent")));
     ("right", Child (st 67 90 (js "#private .internal {}")))]))]) [((js "private"), (js "a"))] [((js "internal"), (js "b"))] [] (Gives None None
     (Some (t "const style = document.createElement(~style~); style.textContent = ~#a .b {}~")));
   (* selector mappings reject ambiguous runtime style text *) case (js "#private {}") (t "<div id=~private~></div>") (t
     "node.textContent = ~#private {}~") (pg 32 [(ex 0 32 (Node "AssignmentExpression" 0 32 [("operator", Scalar (Str (js "="))); ("left", Child
     (mb 0 16 (nm 0 4 "node") (nm 5 16 "textContent"))); ("right", Child (st 19 32 (js "#private {}")))]))]) [((js "private"), (js "a"))] [] []
     (Refused (js "ambiguous textContent receiver"));
   (* selector mappings reject ambiguous setAttribute receivers *) case (js "#private {}") (t "<div id=~private~></div>") (t
     "model.setAttribute(~id~, ~private~)") (pg 35 [(ex 0 35 (cl 0 35 (mb 0 18 (nm 0 5 "model") (nm 6 18 "setAttribute")) [(st 19 23 (js "id"));
     (st 25 34 (js "private"))]))]) [((js "private"), (js "a"))] [] [] (Refused (js "Ambiguous setAttribute receiver"));
   (* selector mappings respect shadowed dollar helpers *) case (js "#private {}") (t "<div id=~private~></div>") (t
     "function store($) { return $(~#private~); }") (pg 43 [(Node "FunctionDeclaration" 0 43 [("id", Child (nm 9 14 "store")); ("params",
     Children [Some (nm 15 16 "$")]); ("body", Child (Node "BlockStatement" 18 43 [("body", Children [Some (Node "ReturnStatement" 20 41
     [("argument", Child (cl 27 40 (nm 27 28 "$") [(st 29 39 (js "#private"))]))])])]))])]) [((js "private"), (js "a"))] [] [] (Gives None None
     (Some (t "function store($) { return $(~#private~); }")));
   (* selector mappings treat class static blocks as lexical scopes *) case (js "#private {}") (t "<div id=~private~></div>") (t
     "const target = ~#private~; class C { static { const target = ~business~; } } document.querySelector(target)") (pg 107 [(vd 0 26 "const"
     [(dc 6 25 (nm 6 12 "target") (Some (st 15 25 (js "#private"))))]); (Node "ClassDeclaration" 27 76 [("id", Child (nm 33 34 "C"));
     ("superClass", Scalar Null); ("body", Child (Node "ClassBody" 35 76 [("body", Children [Some (Node "StaticBlock" 37 74 [("body", Children
     [Some (vd 46 72 "const" [(dc 52 71 (nm 52 58 "target") (Some (st 61 71 (js "business"))))])])])])]))]); (ex 77 107 (cl 77 107 (mb 77 99 (nm
     77 85 "document") (nm 86 99 "querySelector")) [(nm 100 106 "target")]))]) [((js "private"), (js "a"))] [] [] (Gives None None (Some (t
     "const target = ~#a~; class C { static { const target = ~business~; } } document.querySelector(target)")));
   (* selector mappings merge function and var declarations sharing one binding *) case (js "#private {}") (t "<div id=~private~></div>") (t
     "function lookup() { var document; function document() {} return document.getElementById(~private~); }") (pg 101 [(Node
     "FunctionDeclaration" 0 101 [("id", Child (nm 9 15 "lookup")); ("params", Children []); ("body", Child (Node "BlockStatement" 18 101
     [("body", Children [Some (vd 20 33 "var" [(dc 24 32 (nm 24 32 "document") None)]); Some (Node "FunctionDeclaration" 34 56 [("id", Child (nm
     43 51 "document")); ("params", Children []); ("body", Child (Node "BlockStatement" 54 56 [("body", Children [])]))]); Some (Node
     "ReturnStatement" 57 99 [("argument", Child (cl 64 98 (mb 64 87 (nm 64 72 "document") (nm 73 87 "getElementById")) [(st 88 97 (js
     "private"))]))])])]))])]) [((js "private"), (js "a"))] [] [] (Gives None None (Some (t
     "function lookup() { var document; function document() {} return document.getElementById(~private~); }")));
   (* selector mappings rewrite insertAdjacentHTML markup *) case (js "#private .internal {}") (t "<div id=~private~></div>") (t
     "document.querySelector(~#private~).insertAdjacentHTML(~beforeend~, '<a href=~#private~ class=~internal~>go</a>')") (pg 112 [(ex 0 112 (cl 0
     112 (mb 0 53 (cl 0 34 (mb 0 22 (nm 0 8 "document") (nm 9 22 "querySelector")) [(st 23 33 (js "#private"))]) (nm 35 53 "insertAdjacentHTML"))
     [(st 54 65 (js "beforeend")); (st 67 111 (t "<a href=~#private~ class=~internal~>go</a>"))]))]) [((js "private"), (js "a"))] [((js
     "internal"), (js "b"))] [] (Gives None None (Some (t
     "document.querySelector(~#a~).insertAdjacentHTML(~beforeend~, ~<a href=\~#a\~ class=\~b\~>go</a>~)")));
   (* selector mappings restrict HTML rewrites to parsed start-tag attributes *) case (js "#private {}") (t
     "<p>Use id = ~private~ in examples.</p><!-- <div id=~private~> --><div data-example='id = ~private~' id = private></div>") (t
     "document.getElementById(~private~)") (pg 34 [(ex 0 34 (cl 0 34 (mb 0 23 (nm 0 8 "document") (nm 9 23 "getElementById")) [(st 24 33 (js
     "private"))]))]) [((js "private"), (js "a"))] [] [] (Gives None (Some (t
     "<p>Use id = ~private~ in examples.</p><!-- <div id=~private~> --><div data-example='id = ~private~' id = a></div>")) None);
   (* selector mappings rewrite Location href comparisons *) case (js "#private {}") (t "<div id=~private~></div>") (t
     "location.href === ~https://example.test/page#private~") (pg 53 [(ex 0 53 (Node "BinaryExpression" 0 53 [("left", Child (mb 0 13 (nm 0 8
     "location") (nm 9 13 "href"))); ("operator", Scalar (Str (js "==="))); ("right", Child (st 18 53 (js
     "https://example.test/page#private")))]))]) [((js "private"), (js "a"))] [] [] (Gives None None (Some (t
     "location.href === ~https://example.test/page#a~")));
   (* selector mappings preserve proven string replacement *) case (js "#private {}") (t "<div id=~private~></div>") (t
     "const pattern = /x/g; ~text~.replace(pattern, ~~)") (pg 49 [(vd 0 21 "const" [(dc 6 20 (nm 6 13 "pattern") (Some (Node "Literal" 16 20
     [("value", Scalar (Other (js "object")))])))]); (ex 22 49 (cl 22 49 (mb 22 36 (st 22 28 (js "text")) (nm 29 36 "replace")) [(nm 37 44
     "pattern"); (st 46 48 [])]))]) [((js "private"), (js "a"))] [] [] (Gives None None (Some (t
     "const pattern = /x/g; ~text~.replace(pattern, ~~)")));
   (* selector mappings preserve unaffected ambiguous href assignments *) case (js "#private {}") (t "<div id=~private~></div>") (t
     "link.href = ~/docs~") (pg 19 [(ex 0 19 (Node "AssignmentExpression" 0 19 [("operator", Scalar (Str (js "="))); ("left", Child (mb 0 9 (nm 0
     4 "link") (nm 5 9 "href"))); ("right", Child (st 12 19 (js "/docs")))]))]) [((js "private"), (js "a"))] [] [] (Gives None None (Some (t
     "link.href = ~/docs~")));
   (* selector mappings rewrite nested browser Location references *) case (js "#private {}") (t "<div id=~private~></div>") (t
     "window.document.location.assign(~#private~); window.document.location.href === ~/page#private~") (pg 94 [(ex 0 44 (cl 0 43 (mb 0 31 (mb 0
     24 (mb 0 15 (nm 0 6 "window") (nm 7 15 "document")) (nm 16 24 "location")) (nm 25 31 "assign")) [(st 32 42 (js "#private"))])); (ex 45 94
     (Node "BinaryExpression" 45 94 [("left", Child (mb 45 74 (mb 45 69 (mb 45 60 (nm 45 51 "window") (nm 52 60 "document")) (nm 61 69
     "location")) (nm 70 74 "href"))); ("operator", Scalar (Str (js "==="))); ("right", Child (st 79 94 (js "/page#private")))]))]) [((js
     "private"), (js "a"))] [] [] (Gives None None (Some (t
     "window.document.location.assign(~#a~); window.document.location.href === ~/page#a~")));
   (* selector mappings model Annex B block function bindings *) case (js "#private {}") (t "<div id=~private~></div>") (t
     "if (flag) { function document() {} } document.getElementById(~private~)") (pg 71 [(Node "IfStatement" 0 36 [("test", Child (nm 4 8
     "flag")); ("consequent", Child (Node "BlockStatement" 10 36 [("body", Children [Some (Node "FunctionDeclaration" 12 34 [("id", Child (nm 21
     29 "document")); ("params", Children []); ("body", Child (Node "BlockStatement" 32 34 [("body", Children [])]))])])])); ("alternate", Scalar
     Null)]); (ex 37 71 (cl 37 71 (mb 37 60 (nm 37 45 "document") (nm 46 60 "getElementById")) [(st 61 70 (js "private"))]))]) [((js "private"),
     (js "a"))] [] [] (Gives None None (Some (t "if (flag) { function document() {} } document.getElementById(~private~)")));
   (* selector mappings reject dynamic runtime style interpolations *) case (js ".internal {}") (t "<div class=~internal~></div>") (t
     "const style = document.createElement(~style~); style.textContent = `.${selector} { color: red }`") (pg 96 [(vd 0 46 "const" [(dc 6 45 (nm 6
     11 "style") (Some (cl 14 45 (mb 14 36 (nm 14 22 "document") (nm 23 36 "createElement")) [(st 37 44 (js "style"))])))]); (ex 47 96 (Node
     "AssignmentExpression" 47 96 [("operator", Scalar (Str (js "="))); ("left", Child (mb 47 64 (nm 47 52 "style") (nm 53 64 "textContent")));
     ("right", Child (Node "TemplateLiteral" 67 96 [("expressions", Children [Some (nm 71 79 "selector")]); ("quasis", Children [Some (qs 68 69
     (js ".") (js ".")); Some (qs 80 95 (js " { color: red }") (js " { color: red }"))])]))]))]) [] [((js "internal"), (js "b"))] [] (Refused (js
     "Interpolated runtime style"))].

Example repository_tests : repositoryTests = repeat true (length repositoryTests).
Proof. vm_compute. reflexivity. Qed.

(** ** Shortcomings *)

Definition emptyScript (_ : jstr) : result jsError node := Ok (pg 0 []).
Definition privateId : selectorMangling := {| enabled := true; ids := [(js "private", js "fresh")]; classes := []; safelist := [] |}.

(** A token list with two spaces makes every mapping collide: the probe for an
    existing target compares the page with a copy whose token lists were
    normalized. *)
Theorem spaced_tokens_collide :
  let page := t "<div id=~private~ class=~wide  open~></div>" in
  includes (js "fresh") page = false /\
  applySelectorMappings emptyScript {| css := []; html := page; javascript := [] |} privateId =
  Throw (newError (js "id selector mapping private -> fresh collides with an existing asset identity.")).
Proof. vm_compute. done. Qed.

(** The closing tag of a script is searched in the lower-cased page, where a
    capital I with a dot takes two units: ten of them before a script hide the start
    tag that follows it. *)
Theorem dotted_capitals_hide_tags :
  let page (prefix : jstr) := (prefix ++ t "<script></script><div id=~private~></div>")%list in
  replaceHtmlSelectorReferences (page (repeat 304%N 10)) (ids privateId) [] = page (repeat 304%N 10) /\
  replaceHtmlSelectorReferences (page (repeat 73%N 10)) (ids privateId) [] <> page (repeat 73%N 10).
Proof. vm_compute. done. Qed.

(** A dot that is escaped inside an id is taken for the start of a class: the id a.b,
    which no mapping names, is renamed to a.c. *)
Theorem escaped_dot_renamed :
  let m := {| enabled := true; ids := []; classes := [(js "b", js "c")]; safelist := [] |} in
  applySelectorMappings emptyScript {| css := js "#a\.b {} .b {}"; html := t "<p id=~a.b~ class=~b~></p>"; javascript := [] |} m
  = Ok {| css := js "#a\.c {} .c {}"; html := t "<p id=~a.b~ class=~c~></p>"; javascript := [] |}.
Proof. vm_compute. done. Qed.

(** A hexadecimal colour that reads like a mapped id is renamed. *)
Theorem colours_renamed : replaceSelector (js "p { color: #add }") (js "#") (js "add") (js "x1") = js "p { color: #x1 }".
Proof. vm_compute. done. Qed.

(** The concatenated argument of a local function named $ is edited, while a
    string argument of the same function is not. *)
Theorem concatenation_ignores_shadowing :
  let script := t "function store($) { return $(~#private ~ + rest); }" in
  let tree := (pg 51 [(Node "FunctionDeclaration" 0 51 [("id", Child (nm 9 14 "store")); ("params", Children [Some (nm 15 16 "$")]); ("body", Child (Node
  "BlockStatement" 18 51 [("body", Children [Some (Node "ReturnStatement" 20 49 [("argument", Child (cl 27 48 (nm 27 28 "$") [(Node
  "BinaryExpression" 29 47 [("left", Child (st 29 40 (js "#private "))); ("operator", Scalar (Str (js "+"))); ("right", Child (nm 43 47
  "rest"))])]))])])]))])]) in
  replaceJavaScriptSelectorReferences (ids privateId) [] (fun _ => Ok tree) script =
  Ok (t "function store($) { return $(~#fresh ~ + rest); }").
Proof. vm_compute. done. Qed.

(** A call of replace through a computed name is not refused, a plain one is. *)
Theorem computed_replace_unseen :
  let computed := (pg 31 [(ex 0 31 (cl 0 31 (Node "MemberExpression" 0 16 [("object", Child (nm 0 5 "sheet")); ("property", Child (st 6 15 (js "replace")));
  ("computed", Scalar (Boolean true))]) [(st 17 30 (js "#private {}"))]))]) in
  let plain := (pg 28 [(ex 0 28 (cl 0 28 (mb 0 13 (nm 0 5 "sheet") (nm 6 13 "replace")) [(st 14 27 (js "#private {}"))]))]) in
  scriptEdits (ids privateId) [] computed = Ok [] /\
  scriptEdits (ids privateId) [] plain =
  Throw (newError (js "Ambiguous stylesheet replace() receiver is unsupported when selector mangling is enabled.")).
Proof. vm_compute. done. Qed.

(** ** Instances *)

Definition sampleAssets : assets :=
  {| css := js ".internal #private { color: red }"; html := t "<p>text</p><div class=~public internal~ id=~private~></div>"; javascript := [] |}.
Definition sampleMangling : selectorMangling :=
  {| enabled := true; ids := [(js "private", js "a")]; classes := [(js "internal", js "b")]; safelist := [js "public"] |}.
Definition sampleResult : assets :=
  {| css := js ".b #a { color: red }"; html := t "<p>text</p><div class=~public b~ id=~a~></div>"; javascript := [] |}.


Lemma css_roundtrip_witness :
  replaceEach (js "#") (swap (ids sampleMangling)) (replaceEach (js ".") (swap (classes sampleMangling)) (css sampleResult)) = css sampleAssets.
Proof. apply (css_roundtrip emptyScript sampleAssets sampleMangling sampleResult); vm_compute; reflexivity. Defined.

(** A page with each kind of markup. *)
Definition samplePage : list Markup :=
  let dq := 34%N in
  [Declaration (js "doctype html"); Comment (js " id=private ");
   RawElement (js "script") [Quoted (js "src") dq (NoFragment (js "/sdk.js")); Bare (js "defer")] (js "if (a<b) open()");
   Element (js "label") [Quoted (js "for") dq (AnId (js "private"))]; Chars (js "private name"); EndTag (js "label");
   Element (js "div") [Quoted (js "class") dq (ClassList [js "public"; js "internal"]); Quoted (js "id") 39%N (AnId (js "private"));
                       Quoted (js "title") dq (OtherText (js "private"))]; EndTag (js "div");
   Element (js "a") [Quoted (js "href") dq (Address (js "/help") (js "private") []); Quoted (js "aria-controls") dq (IdList [js "private"; js "menu"])];
   EndTag (js "a")].
Definition pageAssets : assets := {| css := css sampleAssets; html := pageText samplePage; javascript := [] |}.
Definition pageResult : assets :=
  {| css := css sampleResult;
     html := t ("<!doctype html><!-- id=private --><script src=~/sdk.js~ defer>if (a<b) open()</script><label for=~a~>private name</label>"
                ++ "<div class=~public b~ id='a' title=~private~></div><a href=~/help#a~ aria-controls=~a menu~></a>")%string;
     javascript := [] |}.

Lemma html_renaming_witness : html pageResult = pageText (renamePage (ids sampleMangling) (classes sampleMangling) samplePage).
Proof. apply (html_renaming emptyScript pageAssets sampleMangling pageResult samplePage); vm_compute; reflexivity. Defined.

Definition lookupScript : jstr := t "document.querySelector(~#private~)".
Definition lookupLiteral : node := st 23 33 (js "#private").
Definition lookupCall : node := cl 0 34 (mb 0 22 (nm 0 8 "document") (nm 9 22 "querySelector")) [lookupLiteral].
Definition lookupTree : node := pg 34 [ex 0 34 lookupCall].

Lemma script_edits_texts_witness :
  exists root es, (Ok lookupTree : result jsError node) = Ok root /\ Forall (textRange root) es /\ t "document.querySelector(~#a~)" = applyEdits es lookupScript.
Proof. apply (script_edits_texts (ids sampleMangling) (classes sampleMangling) (fun _ => Ok lookupTree) lookupScript). vm_compute. reflexivity. Defined.

