(* ===== verification/ReferenceAssets.v ===== *)
(** * Building the reference assets

    sdk/typescript/scripts/reference-assets.mjs: [buildReferenceAssets] renames the
    selectors of the sources, builds each profile with the integrity of what it
    links, and writes the manifest and the size report; and the checks of
    validate-reference-assets.mjs on what was written.  esbuild, the obfuscator,
    lightningcss, html-minifier-terser, acorn, node:crypto and node:zlib are
    parameters, as are JSON.parse and JSON.stringify. *)

From stdpp Require Import base tactics option list numbers strings.
From Stdlib Require Import Lia.
From S2P Require Import Prelude JsString JsNumber JsValue Regex Paths Effects Chart BranchSync Selectors JsTree Mangling.
#[local] Open Scope nat_scope.

(** ** Texts and paths *)

(** [s.replace(/\r\n?/gu, "\n")] *)
Fixpoint normalizeBreaks (s : jstr) : jstr :=
  match s with
  | [] => []
  | c :: s' =>
      if (c =? 13)%N then 10%N :: match s' with d :: s'' => if (d =? 10)%N then normalizeBreaks s'' else normalizeBreaks s' | [] => [] end
      else c :: normalizeBreaks s'
  end.

Definition readNormalizedText (p : fspath) : prog jstr := v ← call (ReadFile p); Ret (normalizeBreaks (str_of v)).

Definition assertInside (parent child : fspath) (label : jstr) : result jsError unit :=
  ensure (startsWith (show_path parent ++ js "/") (show_path child)) (newError (label ++ js " must remain beneath " ++ show_path parent ++ js ".")).

(** [/^[A-Za-z]:[\\/]/u] *)
Definition drivePath (s : jstr) : bool :=
  match s with c :: d :: e :: _ => letterUnit c && (d =? 58)%N && ((e =? 92)%N || (e =? 47)%N) | _ => false end.
Definition isUnsafeSourcePath (source : jstr) : bool := isAbsolute source || drivePath source || includes (js "\Users\") source.

Definition repositoryRelative (root p : fspath) : jstr := replaceAll (js "\") (js "/") (relative root p).

(** A path segment of the configuration: [resolve] refuses other values. *)
Definition pathArgument (v : value) : result jsError jstr :=
  match v with Str s => Ok s | _ => Throw (errno (js "ERR_INVALID_ARG_TYPE")) end.

Definition withBreak (s : jstr) : jstr := trimEnd s ++ [10%N].

(** ** The page *)

Definition attribute_ (name : string) (v : jstr) : jstr := js name ++ [61; 34]%N ++ v ++ [34%N].
Definition anonymous : jstr := js " " ++ attribute_ "crossorigin" (js "anonymous").
Definition linked (reference integrity : jstr) : jstr := reference ++ js " " ++ attribute_ "integrity" integrity ++ anonymous.
Definition sdkRoute : jstr := js "/_content/Realtime.Browser/".

Definition injectReferences (html cssIntegrity javascriptIntegrity sdkIntegrity sdkName : jstr) : jstr :=
  replaceFirst (attribute_ "src" (js "/app.js")) (linked (attribute_ "src" (js "/app.js")) javascriptIntegrity)
    (replaceFirst (attribute_ "src" (sdkRoute ++ js "realtime.iife.js")) (linked (attribute_ "src" (sdkRoute ++ sdkName)) sdkIntegrity)
      (replaceFirst (attribute_ "href" (js "/app.css")) (linked (attribute_ "href" (js "/app.css")) cssIntegrity) html)).

(** ** Configuration *)

Definition mappingOf (v : value) : mapping := (fun kv => (kv.1, str_of kv.2)) <$> props_of v.

Definition manglingOf (config : value) : selectorMangling :=
  let m := get (js "selectorMangling") config in
  {| enabled := truthy (get (js "enabled") m); ids := mappingOf (get (js "ids") m); classes := mappingOf (get (js "classes") m);
     safelist := str_of <$> items_of (get (js "safelist") m) |}.

Definition sourceMapsOf (config : value) : value := get (js "sourceMaps") config.
Definition emitsMaps (config : value) : bool := truthy (get (js "emit") (sourceMapsOf config)).
Definition includesContent (config : value) : bool := truthy (get (js "includeSourcesContent") (sourceMapsOf config)).

(** The name of a mangled source: app.js becomes app.mangled.js. *)
Definition mangledName (kind : jstr) : jstr :=
  match lastIndexOf 46 kind with Some i => take i kind ++ js ".mangled." ++ drop (S i) kind | None => kind end.

Record inventory : Type := { filePath : jstr; bytes : nat; gzipBytes : nat; sha256Hex : jstr; fileIntegrity : jstr }.
Record artifact : Type := { artifactName : jstr; artifactContent : jstr }.
Record profileResult : Type := { files : list inventory; sdkPath : jstr; sdkSha256 : jstr; sdkIntegrity : jstr }.

Section pipeline.
Context (parseJSON : jstr -> result jsError value) (jsonText jsonPretty : value -> jstr).
Context (acorn : jstr -> result jsError node).
Context (esbuild : jstr -> bool -> result jsError (jstr * jstr)) (obfuscator : value -> jstr -> result jsError (jstr * jstr)).
Context (lightningcss : jstr -> bool -> result jsError (jstr * option jstr)) (minifyHtml : jstr -> result jsError jstr).
Context (digest : jstr -> string -> string -> jstr) (gzipLength : jstr -> nat).

Definition integrity (content : jstr) : jstr := js "sha384-" ++ digest content "sha384" "base64".

Definition write (directory : fspath) (name content : jstr) : prog unit :=
  let p := resolve directory name in
  _ ← call (MkdirP (dirname p));
  _ ← call (WriteFile p content);
  Ret tt.

Definition inventoryFile (profile name content : jstr) : inventory :=
  {| filePath := profile ++ js "/" ++ name; bytes := byteLength content; gzipBytes := gzipLength content;
     sha256Hex := digest content "sha256" "hex"; fileIntegrity := integrity content |}.

(** The source map of one output, and the source it refers to. *)
Definition normalizeMap (config : value) (source : assets) (obfuscate : bool) (minified kind map : jstr) : result jsError (jstr * list artifact) :=
  metadata ← parseJSON map;
  let props := props_of metadata in
  let '(props', artifacts) :=
    if obfuscate && bool_decide (kind = js "app.js") then
      let renamed := set_prop (js "sources") (Arr [Str (js "app.minified.js")]) (delete_prop (js "sourceRoot") props) in
      if includesContent config then (renamed, [])
      else (delete_prop (js "sourcesContent") renamed, [{| artifactName := js "app.minified.js"; artifactContent := minified |}])
    else if enabled (manglingOf config) then
      let name := mangledName kind in
      let content := if decide (kind = js "app.js") then javascript source else css source in
      let renamed := set_prop (js "sources") (Arr [Str name]) (delete_prop (js "sourceRoot") props) in
      (if includesContent config then set_prop (js "sourcesContent") (Arr [Str content]) renamed else delete_prop (js "sourcesContent") renamed,
       [{| artifactName := name; artifactContent := content |}])
    else
      let rooted := set_prop (js "sourceRoot") (Str (js "../../../wwwroot/")) props in
      (set_prop (js "sources") (Arr ((fun _ => Str kind) <$> items_of (get (js "sources") (Obj rooted)))) rooted, [])
  in Ok (jsonText (Obj props') ++ [10%N], artifacts).

(** The script and style sheet of a profile, their maps and the extra sources. *)
Record built : Type := { builtJs : jstr; builtCss : jstr; jsMap : option jstr; cssMap : option jstr; artifacts : list artifact }.

Definition readable : jstr := js "readable".
Definition isReadable (profile : jstr) : bool := bool_decide (profile = readable).

Definition buildTexts (config : value) (source : assets) (profile : jstr) (obfuscate : bool) : result jsError built :=
  if isReadable profile then
    Ok {| builtJs := withBreak (javascript source); builtCss := withBreak (css source); jsMap := None; cssMap := None; artifacts := [] |}
  else
    minified ← esbuild (javascript source) (includesContent config);
    script ← (if obfuscate then
                o ← obfuscator (get (js "obfuscation") config) minified.1; Ok (o.1 ++ [10%N], o.2)
              else Ok minified);
    sheet ← lightningcss (css source) (emitsMaps config);
    m1 ← normalizeMap config source obfuscate minified.1 (js "app.js") script.2;
    m2 ← match sheet.2 with
         | Some map => m ← normalizeMap config source obfuscate minified.1 (js "app.css") map; Ok (Some m.1, m.2)
         | None => Ok (None, [])
         end;
    Ok {| builtJs := script.1; builtCss := sheet.1; jsMap := Some m1.1; cssMap := m2.1; artifacts := m1.2 ++ m2.2 |}.

(** [writeFileSync] refuses a content that is [undefined]. *)
Definition contentOf (m : option jstr) : result jsError jstr :=
  match m with Some s => Ok s | None => Throw (errno (js "ERR_INVALID_ARG_TYPE")) end.

Definition pages : list string := ["index.html"; "fallback.html"; "failover.html"]%string.

Definition buildProfile (config : value) (outputRoot : fspath) (profile : jstr) (source : assets) (sdkDist : fspath) (obfuscate : bool) :
    prog profileResult :=
  let profileRoot := resolve outputRoot profile in
  let sourceMapRoot := resolves outputRoot [js "source-maps"; profile] in
  t ← lift (buildTexts config source profile obfuscate);
  let sdkName := if isReadable profile then js "realtime.iife.js" else js "realtime.iife.min.js" in
  sdk ← call (ReadFile (resolve sdkDist sdkName));
  let sdkContent := str_of sdk in
  let referenced := injectReferences (html source) (integrity (builtCss t)) (integrity (builtJs t)) (integrity sdkContent) sdkName in
  page ← lift (if isReadable profile then Ok referenced else minifyHtml referenced);
  let page := withBreak page in
  _ ← write profileRoot (js "app.js") (builtJs t);
  _ ← write profileRoot (js "app.css") (builtCss t);
  _ ← each (fun name => write profileRoot (js name) page) pages;
  let maps := negb (isReadable profile) && emitsMaps config in
  _ ← (if maps then
         jsText ← lift (contentOf (jsMap t));
         _ ← write sourceMapRoot (js "app.js.map") jsText;
         cssText ← lift (contentOf (cssMap t));
         _ ← write sourceMapRoot (js "app.css.map") cssText;
         each (fun a => write sourceMapRoot (artifactName a) (artifactContent a)) (artifacts t)
       else Ret tt);
  let mapProfile := js "source-maps/" ++ profile in
  let base := inventoryFile profile (js "app.css") (builtCss t) :: inventoryFile profile (js "app.js") (builtJs t)
              :: ((fun name => inventoryFile profile (js name) page) <$> pages) in
  let extra := if maps then
                 inventoryFile mapProfile (js "app.css.map") (default [] (cssMap t)) :: inventoryFile mapProfile (js "app.js.map") (default [] (jsMap t))
                 :: ((fun a => inventoryFile mapProfile (artifactName a) (artifactContent a)) <$> artifacts t)
               else [] in
  Ret {| files := base ++ extra; sdkPath := sdkName; sdkSha256 := digest sdkContent "sha256" "hex"; sdkIntegrity := integrity sdkContent |}.

(** ** The manifest *)

Definition natValue (n : nat) : value := Number (int (Z.of_nat n)).

Definition inventoryValue (f : inventory) : value :=
  Obj [(js "path", Str (filePath f)); (js "bytes", natValue (bytes f)); (js "gzipBytes", natValue (gzipBytes f));
       (js "sha256", Str (sha256Hex f)); (js "integrity", Str (fileIntegrity f))].

Definition profileValue (r : profileResult) : value :=
  Obj [(js "files", Arr (inventoryValue <$> files r));
       (js "sdk", Obj [(js "path", Str (sdkPath r)); (js "sha256", Str (sdkSha256 r)); (js "integrity", Str (sdkIntegrity r))])].

Definition csp : jstr :=
  js "default-src 'self'; connect-src 'self' ws: wss:; script-src 'self'; style-src 'self'; object-src 'none'; base-uri 'none'".

Definition manifestValue (config package : value) (obfuscate : bool) (results : list (jstr * profileResult)) : value :=
  let m := get (js "selectorMangling") config in
  let dev := get (js "devDependencies") package in
  Obj [(js "schemaVersion", get (js "schemaVersion") config); (js "pipelineVersion", get (js "pipelineVersion") config);
       (js "package", get (js "name") package); (js "version", get (js "version") package); (js "defaults", get (js "profiles") config);
       (js "obfuscationEnabled", Boolean obfuscate);
       (js "selectorMappings", Obj [(js "ids", get (js "ids") m); (js "classes", get (js "classes") m)]);
       (js "sourceMapPolicy", sourceMapsOf config); (js "csp", Str csp);
       (js "profiles", Obj ((fun r => (r.1, profileValue r.2)) <$> results));
       (js "tools", Obj [(js "acorn", get (js "acorn") dev); (js "esbuild", get (js "esbuild") dev);
                         (js "htmlMinifierTerser", get (js "html-minifier-terser") dev);
                         (js "javascriptObfuscator", get (js "javascript-obfuscator") dev); (js "lightningcss", get (js "lightningcss") dev)])].

(** The files of the profile itself, not its source maps. *)
Definition servedFiles (profile : jstr) (r : profileResult) : list inventory :=
  filter (fun f => startsWith (profile ++ js "/") (filePath f) = true) (files r).

Definition sizeValue (r : jstr * profileResult) : value :=
  let l := servedFiles r.1 r.2 in
  Obj [(js "bytes", natValue (sum_list (bytes <$> l))); (js "gzipBytes", natValue (sum_list (gzipBytes <$> l)))].

Definition sizeReportValue (config : value) (results : list (jstr * profileResult)) : value :=
  Obj [(js "schemaVersion", natValue 1); (js "budget", get (js "budgets") config);
       (js "profiles", Obj ((fun r => (r.1, sizeValue r)) <$> results))].

(** ** The pipeline *)

Definition profileNames (obfuscate : bool) : list jstr := [readable; js "optimized"] ++ (if obfuscate then [js "obfuscated"] else []).

Definition buildReferenceAssets (sdkRoot : fspath) (obfuscate : bool) : prog unit :=
  let repositoryRoot := resolves sdkRoot [js ".."; js ".."] in
  text ← call (ReadFile (resolve sdkRoot (js "asset-pipeline.config.json")));
  config ← lift (parseJSON (str_of text));
  sourceDirectory ← lift (pathArgument (get (js "sourceDirectory") config));
  outputDirectory ← lift (pathArgument (get (js "outputDirectory") config));
  let sourceRoot := resolve sdkRoot sourceDirectory in
  let outputRoot := resolve sdkRoot outputDirectory in
  let expectedOutputRoot := resolves repositoryRoot [js "examples"; js "shared-web"; js "dist"] in
  _ ← refuse (negb (bool_decide (outputRoot = expectedOutputRoot)))
        (js "Configured outputDirectory must resolve to " ++ show_path expectedOutputRoot ++ js ".");
  _ ← lift (assertInside repositoryRoot outputRoot (js "Asset output directory"));
  _ ← call (RmRf outputRoot);
  _ ← call (MkdirP outputRoot);
  css_ ← readNormalizedText (resolve sourceRoot (js "app.css"));
  html_ ← readNormalizedText (resolve sourceRoot (js "index.html"));
  javascript_ ← readNormalizedText (resolve sourceRoot (js "app.js"));
  source ← lift (applySelectorMappings acorn {| css := css_; html := html_; javascript := javascript_ |} (manglingOf config));
  results ← loop (fun profile results =>
              r ← buildProfile config outputRoot profile source (resolve sdkRoot (js "dist")) (bool_decide (profile = js "obfuscated"));
              Ret (results ++ [(profile, r)])) (profileNames obfuscate) [];
  packageText ← call (ReadFile (resolve sdkRoot (js "package.json")));
  package ← lift (parseJSON (str_of packageText));
  _ ← write outputRoot (js "asset-manifest.json") (jsonPretty (manifestValue config package obfuscate results) ++ [10%N]);
  write outputRoot (js "size-report.json") (jsonPretty (sizeReportValue config results) ++ [10%N]).

(** ** Validation *)

(** [assert(condition, message)] *)
Definition assert_ (condition : bool) (message : jstr) : prog unit := refuse (negb condition) message.

Definition existsSync (p : fspath) : prog bool := catch (_ ← call (Stat p); Ret true) (fun _ => Ret false).

(** The checks of one file of the manifest. *)
Definition validateFile (outputRoot : fspath) (file : value) : prog unit :=
  path_ ← lift (pathArgument (get (js "path") file));
  let p := resolve outputRoot path_ in
  let outputRelativePath := relative outputRoot p in
  _ ← assert_ (negb (bool_decide (outputRelativePath = [])) && negb (startsWith (js "..") outputRelativePath) && negb (isAbsolute outputRelativePath))
        (path_ ++ js " escapes the output root.");
  stat ← call (Stat p);
  _ ← assert_ (ngt (num_of (get (js "size") stat)) (int 0)) (path_ ++ js " is empty.");
  text ← call (ReadFile p);
  let content := str_of text in
  _ ← assert_ (strict_eq (get (js "bytes") file) (natValue (byteLength content))) (path_ ++ js " byte count does not match the manifest.");
  _ ← assert_ (strict_eq (get (js "gzipBytes") file) (natValue (gzipLength content))) (path_ ++ js " gzip size does not match the manifest.");
  _ ← assert_ (is_str (digest content "sha256" "hex") (get (js "sha256") file)) (path_ ++ js " SHA-256 does not match the manifest.");
  assert_ (is_str (integrity content) (get (js "integrity") file)) (path_ ++ js " SRI does not match the manifest.").

(** [result.files.find((file) => file.path.endsWith(suffix))], read for its
    integrity. *)
Definition linkedIntegrity (suffix : string) (l : list value) : result jsError jstr :=
  match find (fun file => endsWith (js suffix) (str_of (get (js "path") file))) l with
  | Some file => Ok (interpolate (get (js "integrity") file))
  | None => Throw (newError (js "Cannot read properties of undefined (reading 'integrity')"))
  end.

Definition accessibleTexts : list jstr := js <$> ["Realtime full circle"; "Events and diagnostics"; "Log in"; "Log out"]%string.

Definition validateProfile (config : value) (outputRoot : fspath) (entry : jstr * value) : prog unit :=
  let '(profile, result_) := entry in
  l ← lift (elements (get (js "files") result_));
  _ ← each (validateFile outputRoot) l;
  let readText (name : string) : prog jstr := v ← call (ReadFile (resolves outputRoot [profile; js name])); Ret (str_of v) in
  html_ ← readText "index.html"%string;
  css_ ← readText "app.css"%string;
  javascript_ ← readText "app.js"%string;
  _ ← each (fun content => assert_ (includes (interpolate (get (js "legalNotice") config)) content) (profile ++ js " output lost the required legal notice."))
        [html_; css_; javascript_];
  safe ← lift (elements (get (js "safelist") (get (js "selectorMangling") config)));
  _ ← each (fun id =>
         _ ← assert_ (includes (attribute_ "id" (interpolate id)) html_) (profile ++ js " HTML lost safelisted id " ++ interpolate id ++ js ".");
         assert_ (includes (js "#" ++ interpolate id) javascript_) (profile ++ js " JavaScript lost safelisted selector #" ++ interpolate id ++ js ".")) safe;
  _ ← each (fun text => assert_ (includes text html_) (profile ++ js " HTML lost accessible text: " ++ text ++ js ".")) accessibleTexts;
  _ ← assert_ (includes (attribute_ "aria-live" (js "polite")) html_) (profile ++ js " HTML lost its live-region semantics.");
  cssIntegrity ← lift (linkedIntegrity "/app.css" l);
  _ ← assert_ (includes (attribute_ "href" (js "/app.css") ++ js " " ++ attribute_ "integrity" cssIntegrity) html_) (profile ++ js " CSS SRI reference is invalid.");
  jsIntegrity ← lift (linkedIntegrity "/app.js" l);
  _ ← assert_ (includes (attribute_ "src" (js "/app.js") ++ js " " ++ attribute_ "integrity" jsIntegrity) html_)
        (profile ++ js " JavaScript SRI reference is invalid.");
  assert_ (includes (attribute_ "integrity" (interpolate (get (js "integrity") (get (js "sdk") result_)))) html_)
    (profile ++ js " SDK SRI reference is invalid.").

Definition sizeOf (sizeReport : value) (profile key : string) : num := num_of (get (js key) (get (js profile) (get (js "profiles") sizeReport))).

Definition validateSizes (config sizeReport : value) : prog unit :=
  let budget (key : string) : num := num_of (get (js key) (get (js "budgets") config)) in
  _ ← assert_ (nlt (sizeOf sizeReport "optimized" "bytes") (sizeOf sizeReport "readable" "bytes")) (js "Optimized assets must be smaller than readable assets.");
  _ ← assert_ (nlt (sizeOf sizeReport "optimized" "gzipBytes") (sizeOf sizeReport "readable" "gzipBytes"))
        (js "Optimized gzip assets must be smaller than readable assets.");
  _ ← assert_ (nle (sizeOf sizeReport "optimized" "bytes") (budget "optimizedBytes"%string)) (js "Optimized assets exceed the byte budget.");
  assert_ (nle (sizeOf sizeReport "optimized" "gzipBytes") (budget "optimizedGzipBytes"%string)) (js "Optimized assets exceed the gzip budget.").

Definition validateSource (outputRoot : fspath) (profile name : jstr) (sourceMap : value) (entry : nat * value) : prog unit :=
  source ← lift (pathArgument entry.2);
  _ ← assert_ (negb (isUnsafeSourcePath source)) (profile ++ js "/" ++ name ++ js " contains a source-machine path.");
  let embedded := isString (default Undefined (items_of (get (js "sourcesContent") sourceMap) !! entry.1)) in
  root ← lift (pathArgument (nullish (get (js "sourceRoot") sourceMap) (Str [])));
  found ← (if embedded then Ret true else existsSync (resolves outputRoot [js "source-maps"; profile; root; source]));
  assert_ found (profile ++ js "/" ++ name ++ js " source " ++ source ++ js " is neither embedded nor resolvable.").

Definition validateMap (outputRoot : fspath) (profile name : jstr) : prog unit :=
  served ← existsSync (resolves outputRoot [profile; name]);
  _ ← assert_ (negb served) (profile ++ js "/" ++ name ++ js " must not be placed in a served profile.");
  text ← call (ReadFile (resolves outputRoot [js "source-maps"; profile; name]));
  sourceMap ← lift (parseJSON (str_of text));
  sources ← lift (elements (nullish (get (js "sources") sourceMap) (Arr [])));
  each (validateSource outputRoot profile name sourceMap) (imap pair sources).

Definition forbiddenTexts (repositoryRoot : fspath) : list jstr :=
  [js "Authorization:"; js "BEGIN PRIVATE KEY"; js "realtime_session="; show_path repositoryRoot].

Definition validateReferenceAssets (sdkRoot : fspath) : prog unit :=
  let repositoryRoot := resolves sdkRoot [js ".."; js ".."] in
  let outputRoot := resolves repositoryRoot [js "examples"; js "shared-web"; js "dist"] in
  let readDocument (p : fspath) : prog value := text ← call (ReadFile p); lift (parseJSON (str_of text)) in
  config ← readDocument (resolve sdkRoot (js "asset-pipeline.config.json"));
  manifest ← readDocument (resolve outputRoot (js "asset-manifest.json"));
  sizeReport ← readDocument (resolve outputRoot (js "size-report.json"));
  let profiles := get (js "profiles") manifest in
  let defaults := get (js "defaults") manifest in
  _ ← each (fun required => assert_ (negb (isUndefined (get required profiles))) (js "Missing " ++ required ++ js " asset profile.")) [readable; js "optimized"];
  _ ← assert_ (is_str readable (get (js "development") defaults) && is_str readable (get (js "support") defaults))
        (js "Development and support must default to readable assets.");
  _ ← assert_ (is_str (js "optimized") (get (js "production") defaults)) (js "Production must default to optimized assets.");
  _ ← assert_ (strict_eq (get (js "obfuscationEnabled") manifest) (Boolean (negb (isUndefined (get (js "obfuscated") profiles)))))
        (js "Obfuscation metadata and emitted profiles disagree.");
  _ ← each (validateProfile config outputRoot) (props_of profiles);
  _ ← validateSizes config sizeReport;
  let hidden := filter (fun name => name <> readable) (keys (props_of profiles)) in
  _ ← each (fun profile => each (validateMap outputRoot profile) [js "app.css.map"; js "app.js.map"]) hidden;
  texts ← loop (fun p texts => v ← call (ReadFile (resolves outputRoot [p.1; p.2])); Ret (texts ++ [str_of v]))
            (keys (props_of profiles) ≫= fun profile => (fun name => (profile, js name)) <$> ["index.html"; "app.css"; "app.js"]%string) [];
  let generatedText := join [10%N] texts in
  each (fun forbidden => assert_ (negb (includes forbidden generatedText)) (js "Generated reference assets contain forbidden material: " ++ forbidden))
    (forbiddenTexts repositoryRoot).
End pipeline.
