(* ===== verification/PageReferences.v ===== *)
(** * The references of the page

    What [injectReferences] of sdk/typescript/scripts/reference-assets.mjs makes of
    a page: a page with one reference to the style sheet, the SDK and the script
    keeps everything between them, and each reference gets the integrity it is
    given.  The three replacements follow each other, so it has to be shown that no
    later one takes place inside what an earlier one inserted. *)

From stdpp Require Import base tactics option list numbers strings.
From Stdlib Require Import Lia.
From S2P Require Import Prelude JsString JsNumber JsValue Paths Effects ReferenceAssets.
#[local] Open Scope nat_scope.

(** A text that starts like another one, as far as both go. *)
Definition compatible (p k : jstr) : bool := startsWith p k || startsWith k p.

Lemma compatible_app p k t : startsWith p (k ++ t) = true -> compatible p k = true.
Proof.
  unfold compatible. intros (w & E)%startsWith_spec. apply app_eq_inv in E as [(l & -> & ->)|(l & -> & ->)]; rewrite ?startsWith_app; [done|].
  by rewrite orb_true_r.
Qed.

(** Everything that can be compared of an inserted text
    [k1 ++ hash ++ k2], where only [k1] and [k2] are known, against [p]. *)
Definition apartFrom (p k1 k2 : jstr) : bool :=
  forallb (fun n => negb (compatible (drop n p) k1)) (seq 1 (length p - 1)) &&
  forallb (fun j => negb (compatible p (drop j k1))) (seq 0 (length k1)) &&
  forallb (fun j => negb (compatible p (drop j k2))) (seq 0 (length k2)).

Lemma forallb_seq (f : nat -> bool) a n i : forallb f (seq a n) = true -> (a <= i < a + n)%nat -> f i = true.
Proof. rewrite forallb_forall. intros H Hi. apply H, list_elem_of_In, elem_of_seq. lia. Qed.

(** A reference starts with a name without a quote, a quote and a slash. *)
Lemma not_in_hash name url hash t : 34%N ∉ name -> 34%N ∉ hash ->
  startsWith (name ++ 34%N :: 47%N :: url) (hash ++ 34%N :: 32%N :: t) = false.
Proof.
  revert hash. induction name as [|c name IH]; intros [|d hash] Hn Hh; cbn [app startsWith].
  - done.
  - apply not_elem_of_cons in Hh as [Hd _]. apply andb_false_iff. left. apply N.eqb_neq. congruence.
  - apply not_elem_of_cons in Hn as [Hc _]. apply andb_false_iff. left. apply N.eqb_neq. congruence.
  - apply not_elem_of_cons in Hn as [_ Hn]. apply not_elem_of_cons in Hh as [_ Hh]. apply andb_false_iff. right. by apply IH.
Qed.

(** No occurrence of a reference touches an inserted text. *)
Lemma occurrence_apart name url a k1 hash t b u v : let p := name ++ 34%N :: 47%N :: url in let k2 := 34%N :: 32%N :: t in
  34%N ∉ name -> 34%N ∉ hash -> apartFrom p k1 k2 = true -> a ++ (k1 ++ hash ++ k2) ++ b = u ++ p ++ v ->
  (exists w, a = u ++ p ++ w) \/ (exists u', u = a ++ (k1 ++ hash ++ k2) ++ u' /\ b = u' ++ p ++ v).
Proof.
  intros p k2 Hn Hh Hap E. unfold apartFrom in Hap. rewrite !andb_true_iff in Hap. destruct Hap as [[H1 H2] H3].
  assert (startsWith p (drop (length u) (a ++ (k1 ++ hash ++ k2) ++ b)) = true) as Hat by (rewrite E, drop_app_length; apply startsWith_app).
  assert (forall k x, compatible p k = false -> startsWith p (k ++ x) = false) as Hknown.
  { intros k x Hk. apply not_true_iff_false. intros Hs%compatible_app. congruence. }
  destruct (decide (length u + length p <= length a)) as [Hl|Hl].
  { left. exists (drop (length u + length p) a). apply (f_equal (take (length a))) in E. rewrite take_app_length, app_assoc in E.
    rewrite take_app_ge in E by (rewrite length_app; lia). rewrite <- app_assoc in E. rewrite E at 1. do 2 f_equal. rewrite E at 2.
    rewrite app_assoc, drop_app_length' by (by rewrite length_app). done. }
  destruct (decide (length a + length (k1 ++ hash ++ k2) <= length u)) as [Hr|Hr].
  { right. rewrite app_assoc in E. apply app_eq_inv in E as [(l & El & E)|(l & El & E)].
    - exists []. apply (f_equal length) in El as El'. rewrite !length_app in *. assert (l = []) as -> by (destruct l; [done|cbn in *; lia]).
      rewrite app_nil_r in *. split; [by rewrite <- El|by rewrite E].
    - exists l. by rewrite El, <- app_assoc. }
  exfalso. apply not_false_iff_true in Hat. apply Hat. clear Hat.
  destruct (decide (length u < length a)) as [Hu|Hu].
  - (* it starts in [a] and reaches into the inserted text *)
    apply not_true_iff_false. intros Hs. pose proof (forallb_seq _ _ _ (length a - length u) H1 ltac:(lia)) as Hc. apply negb_true_iff in Hc.
    assert (compatible (drop (length a - length u) p) k1 = true); [|congruence].
    apply (compatible_app _ _ ((hash ++ k2) ++ b)). apply startsWith_spec in Hs as (w & Es). apply (f_equal (drop (length a - length u))) in Es.
    rewrite drop_drop, (drop_app_length' a) in Es by lia. rewrite drop_app_le in Es by lia. rewrite <- app_assoc in Es. rewrite Es. apply startsWith_app.
  - rewrite drop_app_ge by lia. set (j := length u - length a). rewrite !length_app in Hr. rewrite <- !app_assoc.
    destruct (decide (j < length k1)) as [H|H].
    + rewrite drop_app_le by lia. apply Hknown. apply negb_true_iff, (forallb_seq _ _ _ j H2). lia.
    + rewrite drop_app_ge by lia. destruct (decide (j - length k1 < length hash)) as [H'|H'].
      * rewrite drop_app_le by lia. apply not_in_hash; [done|]. intros Hin. apply Hh. rewrite <- (take_drop (j - length k1) hash), elem_of_app. by right.
      * rewrite drop_app_ge by lia. rewrite drop_app_le by lia. apply Hknown.
        apply negb_true_iff, (forallb_seq _ _ _ (j - length k1 - length hash) H3). lia.
Qed.

(** A replacement takes place where the text occurs. *)
Lemma replaceFirst_at p r s u v : s = u ++ p ++ v -> (forall u' v', s = u' ++ p ++ v' -> u' = u) -> replaceFirst p r s = u ++ r ++ v.
Proof.
  intros Es Hone. unfold replaceFirst. destruct (indexOf p s) as [i|] eqn:E.
  - apply indexOf_Some in E as (u' & v' & E & <-). rewrite (Hone _ _ E). rewrite Es. rewrite take_app_length. do 2 f_equal.
    rewrite app_assoc, drop_app_length' by (by rewrite length_app). done.
  - by apply (indexOf_None _ _ E) in Es.
Qed.

(** ** The page *)

Definition quoted (name : string) (url : jstr) : jstr := js name ++ [61; 34]%N ++ url ++ [34%N].

(** A reference with its integrity. *)
Definition linkTo (name : string) (url hash : jstr) : jstr :=
  quoted name url ++ js " " ++ quoted "integrity" hash ++ js " " ++ quoted "crossorigin" (js "anonymous").

Definition cssReference : jstr := quoted "href" (js "/app.css").
Definition sdkReference : jstr := quoted "src" (js "/_content/Realtime.Browser/realtime.iife.js").
Definition jsReference : jstr := quoted "src" (js "/app.js").

(** [p] occurs once, after [u]. *)
Definition onceAfter (u p s : jstr) : Prop := forall u' v', s = u' ++ p ++ v' -> u' = u.

(** A page that refers once to the style sheet, then to the SDK, then to the script. *)
Record refersOnce (page u1 u2 u3 u4 : jstr) : Prop := {
  r_page : page = u1 ++ cssReference ++ u2 ++ sdkReference ++ u3 ++ jsReference ++ u4;
  r_css : onceAfter u1 cssReference page;
  r_sdk : onceAfter (u1 ++ cssReference ++ u2) sdkReference page;
  r_js : onceAfter (u1 ++ cssReference ++ u2 ++ sdkReference ++ u3) jsReference page
}.

Definition linkedPage (u1 u2 u3 u4 sheet sdk script sdkName : jstr) : jstr :=
  u1 ++ linkTo "href" (js "/app.css") sheet ++ u2 ++ linkTo "src" (js "/_content/Realtime.Browser/" ++ sdkName) sdk ++
  u3 ++ linkTo "src" (js "/app.js") script ++ u4.

Lemma linkTo_parts name url hash :
  linkTo name url hash = (quoted name url ++ js " integrity=" ++ [34%N]) ++ hash ++ 34%N :: 32%N :: quoted "crossorigin" (js "anonymous").
Proof. unfold linkTo, quoted. rewrite <- !app_assoc. done. Qed.

(** No reference to the SDK or the script overlaps a reference with its integrity. *)
Lemma reference_apart name url hash url' a b u v : 34%N ∉ hash ->
  apartFrom (quoted "src" (47%N :: url')) (quoted name url ++ js " integrity=" ++ [34%N]) (34%N :: 32%N :: quoted "crossorigin" (js "anonymous")) = true ->
  a ++ linkTo name url hash ++ b = u ++ quoted "src" (47%N :: url') ++ v ->
  (exists w, a = u ++ quoted "src" (47%N :: url') ++ w) \/
  (exists u', u = a ++ linkTo name url hash ++ u' /\ b = u' ++ quoted "src" (47%N :: url') ++ v).
Proof.
  rewrite !linkTo_parts. intros Hh Hap E.
  exact (occurrence_apart (js "src=") (url' ++ [34%N]) a (quoted name url ++ js " integrity=" ++ [34%N]) hash
    (quoted "crossorigin" (js "anonymous")) b u v (bool_decide_eq_false_1 (34%N ∈ js "src=") eq_refl) Hh Hap E).
Qed.

(** An occurrence that ends before the place where it occurs. *)
Lemma onceAfter_before u0 p s u w rest : onceAfter u0 p s -> s = (u ++ p ++ w) ++ rest -> length u0 >= length u + length p + length w -> p <> [] -> False.
Proof.
  intros Hone E Hl Hp. assert (u = u0) as -> by (apply (Hone u (w ++ rest)); by rewrite E, <- !app_assoc).
  destruct p; [done|]. cbn in Hl. lia.
Qed.

Lemma injectReferences_linked page u1 u2 u3 u4 sheet sdk script sdkName :
  refersOnce page u1 u2 u3 u4 -> 34%N ∉ sheet -> 34%N ∉ sdk -> sdkName ∈ [js "realtime.iife.js"; js "realtime.iife.min.js"] ->
  injectReferences page sheet script sdk sdkName = linkedPage u1 u2 u3 u4 sheet sdk script sdkName.
Proof.
  intros [Ep Hcss Hsdk Hjs] Hs Hk Hname. unfold injectReferences. change (linked (attribute_ "href" (js "/app.css")) sheet) with (linkTo "href" (js "/app.css") sheet).
  change (linked (attribute_ "src" (js "/app.js")) script) with (linkTo "src" (js "/app.js") script).
  change (linked (attribute_ "src" (sdkRoute ++ sdkName)) sdk) with (linkTo "src" (js "/_content/Realtime.Browser/" ++ sdkName) sdk).
  change (attribute_ "href" (js "/app.css")) with cssReference. change (attribute_ "src" (js "/app.js")) with jsReference.
  change (attribute_ "src" (sdkRoute ++ js "realtime.iife.js")) with sdkReference.
  set (link1 := linkTo "href" (js "/app.css") sheet). set (link2 := linkTo "src" (js "/_content/Realtime.Browser/" ++ sdkName) sdk).
  rewrite (replaceFirst_at cssReference _ page u1 (u2 ++ sdkReference ++ u3 ++ jsReference ++ u4)) by done.
  rewrite (replaceFirst_at sdkReference _ _ (u1 ++ link1 ++ u2) (u3 ++ jsReference ++ u4)).
  - rewrite (replaceFirst_at jsReference _ _ (u1 ++ link1 ++ u2 ++ link2 ++ u3) u4).
    + unfold linkedPage. by rewrite <- !app_assoc.
    + by rewrite <- !app_assoc.
    + intros u v E. rewrite <- !app_assoc in E. rewrite (app_assoc link1), (app_assoc u1) in E.
      apply (reference_apart "src" (js "/_content/Realtime.Browser/" ++ sdkName) sdk (js "app.js")) in E; [|done|].
      2: { apply elem_of_cons in Hname as [->|[->|[]%elem_of_nil]%elem_of_cons]; vm_compute; reflexivity. }
      change (quoted "src" (47%N :: js "app.js")) with jsReference in E. destruct E as [(w & E)|(u' & -> & E)].
      * apply (reference_apart "href" (js "/app.css") sheet (js "app.js")) in E; [|done|vm_compute; reflexivity]. exfalso.
        change (quoted "src" (47%N :: js "app.js")) with jsReference in E.
        destruct E as [(w' & E)|(u' & _ & E)].
        -- eapply (onceAfter_before _ _ _ u w' (cssReference ++ u2 ++ sdkReference ++ u3 ++ jsReference ++ u4) Hjs); [by rewrite Ep, E| |done].
           rewrite E, !length_app. lia.
        -- eapply (onceAfter_before _ _ _ (u1 ++ cssReference ++ u') w (sdkReference ++ u3 ++ jsReference ++ u4) Hjs); [| |done].
           ++ rewrite Ep, E. by rewrite <- !app_assoc.
           ++ rewrite E, !length_app. lia.
      * assert (u1 ++ cssReference ++ u2 ++ sdkReference ++ u' = u1 ++ cssReference ++ u2 ++ sdkReference ++ u3) as Eu.
        { apply (Hjs _ v). rewrite Ep, E. by rewrite <- !app_assoc. }
        do 4 apply app_inv_head in Eu. rewrite Eu. by rewrite <- !app_assoc.
  - by rewrite <- !app_assoc.
  - intros u v E. rewrite <- ?app_assoc in E.
    apply (reference_apart "href" (js "/app.css") sheet (js "_content/Realtime.Browser/realtime.iife.js")) in E; [|done|vm_compute; reflexivity].
    change (quoted "src" (47%N :: js "_content/Realtime.Browser/realtime.iife.js")) with sdkReference in E.
    destruct E as [(w & E)|(u' & -> & E)].
    + exfalso. eapply (onceAfter_before _ _ _ u w (cssReference ++ u2 ++ sdkReference ++ u3 ++ jsReference ++ u4) Hsdk); [by rewrite Ep, E| |done].
      rewrite E, !length_app. lia.
    + assert (u1 ++ cssReference ++ u' = u1 ++ cssReference ++ u2) as Eu.
      { apply (Hsdk _ v). rewrite Ep, E. by rewrite <- !app_assoc. }
      do 2 apply app_inv_head in Eu. by rewrite Eu.
Qed.

(** A single occurrence is recognized by looking at every place. *)
Definition occursOnlyAt (n : nat) (p s : jstr) : bool := forallb (fun i => implb (startsWith p (drop i s)) (i =? n)) (seq 0 (S (length s))).

Lemma occursOnlyAt_once u p s : take (length u) s = u -> occursOnlyAt (length u) p s = true -> onceAfter u p s.
Proof.
  intros Ht Ho u' v' E. assert (length u' <= length s) as Hl by (rewrite E, !length_app; lia).
  pose proof (forallb_seq _ _ _ (length u') Ho ltac:(lia)) as H. cbv beta in H. rewrite E, drop_app_length, startsWith_app in H.
  apply Nat.eqb_eq in H. rewrite <- Ht, E, <- H. by rewrite take_app_length.
Qed.
