(* ===== verification/ReferenceAssetsProps.v ===== *)
(** * Building the reference assets: what is written

    The pipeline only writes below its output directory; the inventory of a profile
    describes the files that were written, the page refers to them by their
    integrity, and the validator accepts such an inventory. *)

From stdpp Require Import base tactics option list numbers strings.
From Stdlib Require Import QArith Lia.
From S2P Require Import Prelude JsString JsNumber JsValue Regex Paths Effects Chart BranchSync Selectors JsTree Mangling ReferenceAssets PageReferences.
#[local] Open Scope nat_scope.

(** ** Paths *)

Lemma split_on_join2 c a s : split_on c (a ++ c :: s) = split_on c a ++ split_on c s.
Proof.
  induction a as [|d a IH]; cbn [app split_on]; [by rewrite N.eqb_refl|]. destruct (d =? c)%N; [by rewrite IH|]. rewrite IH.
  destruct (split_on c a) as [|w ws] eqn:E; [by apply split_on_nonempty in E|done].
Qed.

(** A name that [resolve] looks up below its base. *)
Definition relativeName (s : jstr) : Prop := s <> [] /\ startsWith (js "/") s = false.

Lemma resolve_join base a s : relativeName a -> startsWith (js "/") s = false -> resolve base (a ++ js "/" ++ s) = resolve (resolve base a) s.
Proof.
  intros [Hn Ha] Hs. unfold resolve. rewrite Hs. replace (startsWith (js "/") (a ++ js "/" ++ s)) with false.
  - rewrite Ha. change (a ++ js "/" ++ s) with (a ++ 47%N :: s). by rewrite split_on_join2, foldl_app.
  - destruct a as [|c a]; [done|]. change (js "/") with [47%N] in *. cbn in *. by rewrite andb_true_r in *.
Qed.

(** ** Artifacts *)

Section props.
Context (parseJSON : jstr -> result jsError value) (jsonText jsonPretty : value -> jstr).
Context (acorn : jstr -> result jsError node).
Context (esbuild : jstr -> bool -> result jsError (jstr * jstr)) (obfuscator : value -> jstr -> result jsError (jstr * jstr)).
Context (lightningcss : jstr -> bool -> result jsError (jstr * option jstr)) (minifyHtml : jstr -> result jsError jstr).
Context (digest : jstr -> string -> string -> jstr) (gzipLength : jstr -> nat).

Abbreviation build := (buildReferenceAssets parseJSON jsonText jsonPretty acorn esbuild obfuscator lightningcss minifyHtml digest gzipLength).
Abbreviation profile_ := (buildProfile parseJSON jsonText esbuild obfuscator lightningcss minifyHtml digest gzipLength).
Abbreviation texts := (buildTexts parseJSON jsonText esbuild obfuscator lightningcss).
Abbreviation sri := (integrity digest).

Definition artifactNames : list jstr := [js "app.minified.js"; js "app.mangled.js"; js "app.mangled.css"].

Lemma normalizeMap_artifacts config source obfuscate minified kind map m : kind = js "app.js" \/ kind = js "app.css" ->
  normalizeMap parseJSON jsonText config source obfuscate minified kind map = Ok m -> Forall (fun a => artifactName a ∈ artifactNames) m.2.
Proof.
  unfold normalizeMap. intros Hk (metadata & _ & H)%bind_Ok. cbn zeta in H. destruct (obfuscate && _).
  - destruct (includesContent config); injection H as <-; [done|]. apply Forall_singleton. cbn. apply elem_of_cons. by left.
  - destruct (enabled (manglingOf config)); injection H as <-; [|done]. apply Forall_singleton. cbn. apply elem_of_cons. right.
    destruct Hk as [-> | ->]; apply elem_of_cons; [by left|right; by apply list_elem_of_singleton].
Qed.

Lemma texts_artifacts config source profile obfuscate t : texts config source profile obfuscate = Ok t ->
  Forall (fun a => artifactName a ∈ artifactNames) (artifacts t).
Proof.
  unfold buildTexts. destruct (isReadable profile); [by intros [= <-]|].
  intros (minified & _ & (script & _ & (sheet & _ & (m1 & H1 & (m2 & H2 & [= <-])%bind_Ok)%bind_Ok)%bind_Ok)%bind_Ok)%bind_Ok. cbn.
  apply Forall_app. split; [by eapply normalizeMap_artifacts; [left|exact H1]|]. destruct sheet.2 as [map|]; [|by injection H2 as <-].
  apply bind_Ok in H2 as (m & Hm & [= <-]). by eapply normalizeMap_artifacts; [right|exact Hm].
Qed.

Lemma artifact_relative name : name ∈ artifactNames -> segment name.
Proof.
  intros H. unfold artifactNames in H. repeat (apply elem_of_cons in H as [->|H]; [by split_and!; try done; apply (bool_decide_unpack _)|]).
  by apply not_elem_of_nil in H.
Qed.

(** ** Where the pipeline writes *)

(** Requests that leave everything outside [root] as it is. *)
Definition insideOutput (root : fspath) (r : request) : Prop :=
  match r with
  | ReadFile _ => True
  | RmRf p | MkdirP p | WriteFile p _ => root `prefix_of` p
  | _ => False
  end.

Lemma only_loop {A S} P (f : A -> S -> prog S) l s : (forall x s, x ∈ l -> only P (f x s)) -> only P (loop f l s).
Proof.
  revert s. induction l as [|x l IH]; intros s Hf; [apply only_ret|]. cbn [loop]. apply only_bind; [apply Hf, elem_of_cons; by left|].
  intros s'. apply IH. intros y t Hy. apply Hf, elem_of_cons. by right.
Qed.

Lemma only_each_in {A} P (f : A -> prog unit) l : (forall x, x ∈ l -> only P (f x)) -> only P (each f l).
Proof.
  induction l as [|x l IH]; intros Hf; [apply only_ret|]. cbn [each]. apply only_bind; [apply Hf, elem_of_cons; by left|].
  intros _. apply IH. intros y Hy. apply Hf, elem_of_cons. by right.
Qed.

Lemma write_inside root directory name content : root `prefix_of` directory -> segment name -> only (insideOutput root) (write directory name content).
Proof.
  intros Hd Hn. unfold write. cbv zeta. rewrite resolve_segment by done. unfold dirname. rewrite removelast_last.
  apply only_bind; [by apply only_call|]. intros _. apply only_bind; [|intros _; apply only_ret]. apply only_call. cbn.
  etransitivity; [exact Hd|]. by exists [name].
Qed.

Lemma profile_segment obfuscate profile : profile ∈ profileNames obfuscate -> segment profile.
Proof.
  intros H. assert (profile ∈ [readable; js "optimized"; js "obfuscated"]) as H'.
  { destruct obfuscate; [done|]. unfold profileNames in H. rewrite app_nil_r in H. apply elem_of_cons in H as [->|H%list_elem_of_singleton]; [|subst];
      rewrite !elem_of_cons; auto. }
  repeat (apply elem_of_cons in H' as [->|H']; [by apply literal_segment|]). by apply not_elem_of_nil in H'.
Qed.

Lemma lift_bind {A B} (r : result jsError A) (f : A -> prog B) : lift r ≫= f = match r with Ok a => f a | Throw e => Raise e end.
Proof. by destruct r. Qed.

Lemma profile_inside config root profile source sdkDist obfuscate : segment profile ->
  only (insideOutput root) (profile_ config root profile source sdkDist obfuscate).
Proof.
  intros Hp. unfold buildProfile. cbv zeta. unfold resolves. cbn [foldl]. rewrite !resolve_segment by (done || by apply literal_segment).
  assert (root `prefix_of` root ++ [profile] /\ root `prefix_of` (root ++ [js "source-maps"]) ++ [profile]) as [H1 H2].
  { split; [by eexists|]. rewrite <- app_assoc. by eexists. }
  rewrite lift_bind. destruct (texts config source profile obfuscate) as [t|e] eqn:Et; [|apply only_raise]. apply texts_artifacts in Et.
  rewrite Forall_forall in Et. apply only_bind; [by apply only_call|]. intros sdk. apply only_bind; [apply only_lift|]. intros page.
  assert (forall (s : string) content, segment (js s) -> only (insideOutput root) (write (root ++ [profile]) (js s) content)) as Hw
    by (intros s content Hs; by apply write_inside).
  assert (forall s content, segment s -> only (insideOutput root) (write ((root ++ [js "source-maps"]) ++ [profile]) s content)) as Hm
    by (intros s content Hs; by apply write_inside).
  apply only_bind; [by apply Hw, literal_segment|]. intros _. apply only_bind; [by apply Hw, literal_segment|]. intros _. apply only_bind.
  { apply only_each_in. intros name Hn. apply Hw. unfold pages in Hn. repeat (apply elem_of_cons in Hn as [->|Hn]; [by apply literal_segment|]).
    by apply not_elem_of_nil in Hn. }
  intros _. apply only_bind; [|intros _; apply only_ret]. apply only_if; [|apply only_ret].
  apply only_bind; [apply only_lift|]. intros jsText. apply only_bind; [by apply Hm, literal_segment|]. intros _.
  apply only_bind; [apply only_lift|]. intros cssText. apply only_bind; [by apply Hm, literal_segment|]. intros _.
  apply only_each_in. intros a Ha. apply Hm, artifact_relative. by apply Et.
Qed.

Definition outputRootOf (sdkRoot : fspath) : fspath := resolves sdkRoot [js ".."; js ".."; js "examples"; js "shared-web"; js "dist"].

Lemma build_inside sdkRoot obfuscate : only (insideOutput (outputRootOf sdkRoot)) (build sdkRoot obfuscate).
Proof.
  unfold buildReferenceAssets. cbv zeta. apply only_bind; [by apply only_call|]. intros text. apply only_bind; [apply only_lift|]. intros config.
  apply only_bind; [apply only_lift|]. intros sourceDirectory. apply only_bind; [apply only_lift|]. intros outputDirectory.
  change (resolves (resolves sdkRoot [js ".."; js ".."]) [js "examples"; js "shared-web"; js "dist"]) with (outputRootOf sdkRoot).
  destruct (bool_decide (resolve sdkRoot outputDirectory = outputRootOf sdkRoot)) eqn:E; [|apply only_raise].
  apply bool_decide_eq_true in E. rewrite E. set (root := outputRootOf sdkRoot). apply only_bind; [apply only_refuse|]. intros _.
  apply only_bind; [apply only_lift|]. intros _. assert (root `prefix_of` root) as Hself by reflexivity.
  apply only_bind; [by apply only_call|]. intros _. apply only_bind; [by apply only_call|]. intros _.
  assert (forall p, only (insideOutput root) (readNormalizedText p)) as Hr by (intros p; apply only_bind; [by apply only_call|intros ?; apply only_ret]).
  do 3 (apply only_bind; [apply Hr|intros ?]). apply only_bind; [apply only_lift|]. intros source. apply only_bind.
  { apply only_loop. intros profile results Hp%profile_segment. apply only_bind; [by apply profile_inside|intros ?; apply only_ret]. }
  intros results. apply only_bind; [by apply only_call|]. intros packageText. apply only_bind; [apply only_lift|]. intros package.
  apply only_bind; [by apply write_inside, literal_segment|]. intros _. by apply write_inside, literal_segment.
Qed.

(** C15: Whatever the file system answers, the pipeline reads, and it creates,
    removes or writes nothing outside examples/shared-web/dist of the repository: a
    configuration that names another output directory is refused before the first
    change. *)
Theorem build_confined o sdkRoot obfuscate :
  Forall (insideOutput (outputRootOf sdkRoot)) (requests (run o (build sdkRoot obfuscate)).1).
Proof. apply only_requests, build_inside. Qed.

(** ** What a profile writes *)

Abbreviation oks h p Q := (ok (fun _ _ => True) extend h p Q).

(** [content] was written to [p]. *)
Definition stored (h : history) (p : fspath) (content : jstr) : Prop := exists x, (WriteFile p content, Ok x) ∈ h.

Lemma stored_grows h h' p content : h `prefix_of` h' -> stored h p content -> stored h' p content.
Proof. intros (k & ->) (x & Hx). exists x. apply elem_of_app. by left. Qed.

Definition success {A} (P : history -> A -> Prop) (h : history) (r : result jsError A) : Prop := match r with Ok a => P h a | Throw _ => True end.

Lemma oks_then {A B} h (p : prog A) (f : A -> prog B) (P : history -> A -> Prop) (Q : history -> B -> Prop) :
  oks h p (success P) -> (forall h' a, h `prefix_of` h' -> P h' a -> oks h' (f a) (success Q)) -> oks h (p ≫= f) (success Q).
Proof.
  intros Hp Hf. apply ok_bind. eapply ok_weaken; [apply ok_extends, Hp|]. intros h' [a|e] [Hh Ha]; [by apply Hf|done].
Qed.

Lemma oks_lift {A B} h (r : result jsError A) (f : A -> prog B) Q :
  (forall a, r = Ok a -> oks h (f a) (success Q)) -> oks h (lift r ≫= f) (success Q).
Proof. intros H. rewrite lift_bind. destruct r as [a|e]; [by apply H|done]. Qed.

Lemma oks_read {B} h p (f : value -> prog B) Q :
  (forall h' v, h `prefix_of` h' -> (ReadFile p, Ok v) ∈ h' -> oks h' (f v) (success Q)) -> oks h (call (ReadFile p) ≫= f) (success Q).
Proof.
  intros H. split; [done|]. intros [v|e]; [|done]. apply H; [by eexists|]. unfold extend. apply elem_of_app. right. by apply list_elem_of_singleton.
Qed.

Lemma write_stores h directory name content : oks h (write directory name content) (success (fun h' _ => stored h' (resolve directory name) content)).
Proof.
  unfold write. cbv zeta. split; [done|]. intros [v|e]; [|done]. split; [done|]. intros [x|e]; [|done]. exists x.
  unfold extend. apply elem_of_app. right. by apply list_elem_of_singleton.
Qed.

Lemma writes_store {A} (name content : A -> jstr) h directory l :
  oks h (each (fun a => write directory (name a) (content a)) l)
    (success (fun h' _ => Forall (fun a => stored h' (resolve directory (name a)) (content a)) l)).
Proof.
  revert h. induction l as [|a l IH]; intros h; [apply Forall_nil_2|]. cbn [each]. eapply oks_then; [apply write_stores|].
  intros h' u Hh Ha. eapply ok_weaken; [apply ok_extends, IH|]. intros h'' [v|e] [Hh' Hl]; [|done]. apply Forall_cons. split; [|done].
  by eapply stored_grows.
Qed.

(** The entry of the inventory and the content it describes. *)
Definition describes (f : inventory) (content : jstr) : Prop :=
  bytes f = byteLength content /\ gzipBytes f = gzipLength content /\ sha256Hex f = digest content "sha256" "hex" /\ fileIntegrity f = js "sha384-" ++ digest content "sha384" "base64".
Definition inventoried (root : fspath) (h : history) (f : inventory) : Prop :=
  exists content, stored h (resolve root (filePath f)) content /\ describes f content.

(** The inventory lists the files of the profile. *)
Definition listed (profile : jstr) (r : profileResult) : Prop :=
  Forall (fun name => profile ++ js "/" ++ js name ∈ filePath <$> files r) ["app.css"; "app.js"; "index.html"; "fallback.html"; "failover.html"]%string.

(** The three pages are the source page with the integrity of the style sheet and
    the script that were written and of the SDK that was read, minified unless the
    profile is the readable one. *)
Definition pageLinked (root : fspath) (profile : jstr) (source : assets) (sdkDist : fspath) (r : profileResult) (h : history) : Prop :=
  exists script sheet sdk page,
    let hash content := js "sha384-" ++ digest content "sha384" "base64" in
    let sdkName := if decide (profile = js "readable") then js "realtime.iife.js" else js "realtime.iife.min.js" in
    stored h (resolve (resolve root profile) (js "app.js")) script /\ stored h (resolve (resolve root profile) (js "app.css")) sheet /\
    (ReadFile (resolve sdkDist sdkName), Ok sdk) ∈ h /\ sdkPath r = sdkName /\
    sdkSha256 r = digest (str_of sdk) "sha256" "hex" /\ sdkIntegrity r = hash (str_of sdk) /\
    Forall (fun name => stored h (resolve (resolve root profile) (js name)) (trimEnd page ++ [10%N])) ["index.html"; "fallback.html"; "failover.html"]%string /\
    forall u1 u2 u3 u4, refersOnce (html source) u1 u2 u3 u4 ->
      (if decide (profile = js "readable") then Ok else minifyHtml)
        (linkedPage u1 u2 u3 u4 (hash sheet) (hash (str_of sdk)) (hash script) sdkName) = Ok page.

Lemma inventoryFile_describes profile name content : describes (inventoryFile digest gzipLength profile name content) content.
Proof. done. Qed.

Lemma inventory_entry root h directory profile name content : relativeName profile -> startsWith (js "/") name = false ->
  resolve root profile = directory -> stored h (resolve directory name) content ->
  inventoried root h (inventoryFile digest gzipLength profile name content).
Proof.
  intros Hp Hn <- Hs. exists content. split; [|apply inventoryFile_describes]. cbn [filePath inventoryFile]. by rewrite resolve_join.
Qed.

(** The maps of a profile, when they are written. *)
Definition mapsStored (directory : fspath) (t : built) (h : history) : Prop :=
  (exists s, jsMap t = Some s /\ stored h (resolve directory (js "app.js.map")) s) /\
  (exists s, cssMap t = Some s /\ stored h (resolve directory (js "app.css.map")) s) /\
  Forall (fun a => stored h (resolve directory (artifactName a)) (artifactContent a)) (artifacts t).

Lemma maps_store h directory t :
  oks h (jsText ← lift (contentOf (jsMap t)); _ ← write directory (js "app.js.map") jsText; cssText ← lift (contentOf (cssMap t));
         _ ← write directory (js "app.css.map") cssText; each (fun a => write directory (artifactName a) (artifactContent a)) (artifacts t))
    (success (fun h' _ => mapsStored directory t h')).
Proof.
  apply oks_lift. intros j Hj. eapply oks_then; [apply write_stores|]. intros h1 u1 _ H1. apply oks_lift. intros c Hc.
  eapply oks_then; [apply write_stores|]. intros h2 u2 E2 H2. eapply ok_weaken; [apply ok_extends, writes_store|]. intros h3 [u|e] [E3 H3]; [|done].
  unfold mapsStored, contentOf in *. destruct (jsMap t) as [j'|], (cssMap t) as [c'|]; try done. injection Hj as ->. injection Hc as ->. split_and!.
  - exists j. split; [done|]. eapply stored_grows; [|exact H1]. by etransitivity.
  - exists c. split; [done|]. by eapply stored_grows.
  - done.
Qed.

Lemma stored_all h h' {A} (p : A -> fspath) (c : A -> jstr) l : h `prefix_of` h' ->
  Forall (fun a => stored h (p a) (c a)) l -> Forall (fun a => stored h' (p a) (c a)) l.
Proof. intros Hh Hl. eapply Forall_impl; [exact Hl|]. intros a. by apply stored_grows. Qed.

Lemma pages_relative : Forall (fun name => startsWith (js "/") (js name) = false) pages.
Proof. by repeat (apply Forall_cons; split; [reflexivity|]). Qed.

Lemma segment_relative s : segment s -> relativeName s.
Proof.
  intros (Hn & _ & _ & Hs). split; [done|]. destruct s as [|c s]; [done|]. change (js "/") with [47%N]. cbn [startsWith]. rewrite andb_true_r.
  apply N.eqb_neq. intros <-. apply Hs, elem_of_cons. by left.
Qed.

Lemma profile_writes config root profile source sdkDist obfuscate : segment profile -> (forall content, 34%N ∉ digest content "sha384" "base64") ->
  oks [] (profile_ config root profile source sdkDist obfuscate)
    (success (fun h r => Forall (inventoried root h) (files r) /\ listed profile r /\ pageLinked root profile source sdkDist r h)).
Proof.
  intros Hp Hdigest. pose proof (segment_relative _ Hp) as Hrel. unfold buildProfile. cbv zeta. apply oks_lift. intros t Ht. apply texts_artifacts in Ht. apply oks_read. intros h0 sdk _ Hsdk.
  apply oks_lift. intros page Hpage. eapply oks_then; [apply write_stores|]. intros h1 u1 E1 H1.
  eapply oks_then; [apply write_stores|]. intros h2 u2 E2 H2.
  eapply oks_then; [apply (writes_store js (fun _ => withBreak page))|]. intros h3 u3 E3 H3.
  apply (oks_then _ _ _ (fun h _ => negb (isReadable profile) && emitsMaps config = true ->
    mapsStored (resolves root [js "source-maps"; profile]) t h)).
  { destruct (negb (isReadable profile) && emitsMaps config); [|intros E; discriminate E]. eapply ok_weaken; [apply maps_store|].
    intros h [u|e] H; [by intros _|done]. }
  intros h4 u4 E4 H4. pose proof (stored_all _ _ _ _ _ E4 H3) as H3'.
  assert (stored h4 (resolve (resolve root profile) (js "app.js")) (builtJs t)) as H1' by (eapply stored_grows; [|exact H1]; by do 2 (etransitivity; [eassumption|])).
  assert (stored h4 (resolve (resolve root profile) (js "app.css")) (builtCss t)) as H2' by (eapply stored_grows; [|exact H2]; by etransitivity).
  cbn [ok success files]. split; [|split].
  2: { unfold listed. cbn [files]. cbn [app fmap list_fmap pages filePath inventoryFile]. by repeat (apply Forall_cons; split; [by repeat first [left|right]|]). }
  2: { exists (builtJs t), (builtCss t), sdk, page. cbv zeta. cbn [sdkPath sdkSha256 sdkIntegrity].
       assert (isReadable profile = bool_decide (profile = js "readable")) as Ered by done. rewrite Ered in *. clear Ered.
       rewrite <- !decide_bool_decide in *. split_and!; [done|done| |by case_decide|done|done|done|].
       - assert (h0 `prefix_of` h4) as [w Ew] by (by do 3 (etransitivity; [eassumption|])). rewrite Ew. apply elem_of_app. left. by case_decide.
       - intros w1 w2 w3 w4 Hpage'. rewrite <- (injectReferences_linked _ _ _ _ _ _ _ _ _ Hpage'); [by case_decide| | |by case_decide; repeat first [left|right]].
         + apply not_elem_of_app. split; [by apply (bool_decide_eq_false_1 (34%N ∈ _))|apply Hdigest].
         + apply not_elem_of_app. split; [by apply (bool_decide_eq_false_1 (34%N ∈ _))|apply Hdigest]. }
  apply Forall_cons. split; [by eapply inventory_entry|]. apply Forall_cons. split; [by eapply inventory_entry|].
  apply Forall_app. split.
  - apply Forall_fmap. pose proof pages_relative as Hrel'. rewrite Forall_forall in *. intros name Hn. cbn. eapply inventory_entry; [done|by apply Hrel'|done|by apply H3'].
  - destruct (negb (isReadable profile) && emitsMaps config); [|done]. destruct (H4 eq_refl) as ((j & Ej & Hj) & (c & Ec & Hc) & Ha). rewrite Ej, Ec. cbn [default].
    assert (relativeName (js "source-maps/" ++ profile)) as Hmp by (by split).
    assert (resolve root (js "source-maps/" ++ profile) = resolves root [js "source-maps"; profile]) as Er.
    { change (js "source-maps/" ++ profile) with (js "source-maps" ++ js "/" ++ profile). rewrite resolve_join by (by split || apply Hrel). done. }
    apply Forall_cons. split; [by eapply inventory_entry|]. apply Forall_cons. split; [by eapply inventory_entry|].
    apply Forall_fmap. rewrite Forall_forall in *. intros a Hin. cbn. eapply inventory_entry; [done|by apply segment_relative, artifact_relative, Ht|done|by apply Ha].
Qed.

(** C16: When base64 digests contain no quote, a profile that is built describes what
    it wrote: its inventory lists the style sheet, the script and the three pages,
    and every entry has the size and the digests of the content written at its path;
    it records the digests of the SDK that was read.  If the source page refers
    exactly once to the style sheet, then the SDK, then the script, the three
    pages written are that page with, at each reference, the SHA-384 integrity of
    the style sheet written, the SDK read and the script written, and nothing else
    changed, passed through the minifier unless the profile is the readable one. *)
Theorem profile_consistent o config root obfuscated profile source sdkDist obfuscate h r :
  (forall content, 34%N ∉ digest content "sha384" "base64") ->
  profile ∈ profileNames obfuscated ->
  run o (profile_ config root profile source sdkDist obfuscate) = (h, Ok r) ->
  Forall (inventoried root h) (files r) /\ listed profile r /\ pageLinked root profile source sdkDist r h.
Proof.
  intros Hd Hp%profile_segment Hrun. pose proof (ends_run o _ _ (profile_writes config root profile source sdkDist obfuscate Hp Hd)) as H.
  by rewrite Hrun in H.
Qed.

Lemma exec_read {B} o h r v (f : value -> prog B) : o h r = Ok v ->
  exec (recording o) h (call r ≫= f) = exec (recording o) (h ++ [(r, Ok v)]) (f v).
Proof. intros H. unfold call. cbn. by rewrite H. Qed.

Lemma assert_bind {B} m (f : unit -> prog B) : assert_ true m ≫= f = f tt.
Proof. done. Qed.

Lemma assert_bind_true {B} c m (f : unit -> prog B) : c = true -> assert_ c m ≫= f = f tt.
Proof. by intros ->. Qed.

Lemma natValue_eq n : strict_eq (natValue n) (natValue n) = true.
Proof. cbn. unfold neq_num, int. apply Qeq_bool_refl. Qed.

(** The validator accepts what the pipeline wrote: the entry the pipeline makes
    for a file passes every check of the validator on a file system that returns the
    content written for it. *)
Theorem validate_inventory (o : oracle) root profile name content :
  segment profile -> segment name -> startsWith (js "..") profile = false -> content <> [] ->
  (forall h, o h (Stat (root ++ [profile; name])) = Ok (Obj [(js "size", natValue (byteLength content))])) ->
  (forall h, o h (ReadFile (root ++ [profile; name])) = Ok (Str content)) ->
  (run o (validateFile digest gzipLength root (inventoryValue (inventoryFile digest gzipLength profile name content)))).2 = Ok tt.
Proof.
  intros Hp Hn Hd Hc Hs Hr. set (f := inventoryFile digest gzipLength profile name content).
  assert (resolve root (filePath f) = root ++ [profile; name]) as Hpath.
  { unfold f. cbn [filePath inventoryFile]. rewrite resolve_join by (apply segment_relative; done). by rewrite !resolve_segment, <- app_assoc. }
  assert (relative root (root ++ [profile; name]) = profile ++ js "/" ++ name) as Hrel by apply relative_below.
  destruct (segment_relative _ Hp) as [Hne Habs]. assert (exists c p', profile = c :: p') as (c & p' & Ep) by (destruct profile; [done|eauto]).
  unfold validateFile. change (get (js "path") (inventoryValue f)) with (Str (filePath f)). cbn [pathArgument]. rewrite lift_bind. cbv zeta. rewrite Hpath, Hrel.
  assert (negb (bool_decide (profile ++ js "/" ++ name = [])) && negb (startsWith (js "..") (profile ++ js "/" ++ name))
    && negb (isAbsolute (profile ++ js "/" ++ name)) = true) as Hin.
  { rewrite bool_decide_eq_false_2 by (by rewrite Ep). rewrite !andb_true_iff, !negb_true_iff. split_and!; [done| |].
    - rewrite Ep in Hd |- *. change (js "..") with [46; 46]%N in *. cbn [startsWith app] in *. destruct (46 =? c)%N; [|done]. cbn [andb] in *.
      destruct p' as [|d p'']; [done|]. cbn [startsWith app] in *. done.
    - unfold isAbsolute. rewrite Ep in Habs |- *. change (js "/") with [47%N] in *. cbn [startsWith app] in *. by rewrite andb_true_r in *. }
  rewrite Hin. unfold run. rewrite assert_bind, (exec_read o _ _ _ _ (Hs _)), assert_bind_true, (exec_read o _ _ _ _ (Hr _)).
  - cbv zeta. cbn [str_of]. change (get (js "bytes") (inventoryValue f)) with (natValue (byteLength content)).
    change (get (js "gzipBytes") (inventoryValue f)) with (natValue (gzipLength content)).
    change (get (js "sha256") (inventoryValue f)) with (Str (digest content "sha256" "hex")).
    change (get (js "integrity") (inventoryValue f)) with (Str (sri content)).
    rewrite assert_bind_true, assert_bind_true, assert_bind_true by (apply natValue_eq || by apply is_str_spec).
    unfold assert_. rewrite (proj2 (is_str_spec _ _)) by done. done.
  - pose proof (byteLength_bounds content) as [Hb _]. destruct content as [|d content]; [done|]. cbn [length] in Hb.
    change (get (js "size") (Obj [(js "size", natValue (byteLength (d :: content)))])) with (natValue (byteLength (d :: content))).
    unfold ngt, nlt, num_of, natValue, int. apply negb_true_iff, not_true_iff_false. rewrite Qle_bool_iff. unfold Qle. cbn -[byteLength]. lia.
Qed.
End props.

(** ** Instances *)

(** A digest without quotes. *)
Definition sampleDigest (content : jstr) (algorithm encoding : string) : jstr :=
  (fun c => if (c =? 34)%N then 39%N else c) <$> js algorithm ++ js "-" ++ content.
Definition sampleConfig : value := Obj [(js "sourceMaps", Obj [(js "emit", Boolean true); (js "includeSourcesContent", Boolean true)])].
Definition sampleSource : assets :=
  {| css := js "p{}"; html := js "<link " ++ cssReference ++ js "><script " ++ sdkReference ++ js "></script><script " ++ jsReference ++ js "></script>"; javascript := js "run()" |}.
Definition sampleFiles : oracle := fun _ r => match r with ReadFile _ => Ok (Str (js "sdk")) | _ => Ok Undefined end.
Definition sampleProfile : prog profileResult :=
  buildProfile (fun _ => Ok (Obj [])) (fun _ => js "{}") (fun s _ => Ok (s, js "{}")) (fun _ s => Ok (s, js "{}")) (fun s _ => Ok (s, Some (js "{}")))
    (fun s => Ok s) sampleDigest (fun s => length s) sampleConfig [js "dist"] (js "optimized") sampleSource [js "sdk"] false.
Definition sampleHistory : history := (run sampleFiles sampleProfile).1.
Definition sampleResult : profileResult :=
  match (run sampleFiles sampleProfile).2 with Ok r => r | Throw _ => {| files := []; sdkPath := []; sdkSha256 := []; sdkIntegrity := [] |} end.

Lemma sample_refers : refersOnce (html sampleSource) (js "<link ") (js "><script ") (js "></script><script ") (js "></script>").
Proof. split; [vm_compute; reflexivity|apply occursOnlyAt_once; vm_compute; reflexivity..]. Qed.

Lemma profile_consistent_witness :
  refersOnce (html sampleSource) (js "<link ") (js "><script ") (js "></script><script ") (js "></script>") /\ length (files sampleResult) = 7 /\
  Forall (inventoried sampleDigest (fun s => length s) [js "dist"] sampleHistory) (files sampleResult) /\ listed (js "optimized") sampleResult /\
  pageLinked (fun s => Ok s) sampleDigest [js "dist"] (js "optimized") sampleSource [js "sdk"] sampleResult sampleHistory.
Proof.
  split; [exact sample_refers|]. split; [vm_compute; reflexivity|].
  apply (profile_consistent (fun _ => Ok (Obj [])) (fun _ => js "{}") (fun s _ => Ok (s, js "{}")) (fun _ s => Ok (s, js "{}"))
    (fun s _ => Ok (s, Some (js "{}"))) (fun s => Ok s) sampleDigest (fun s => length s) sampleFiles sampleConfig [js "dist"] false (js "optimized")
    sampleSource [js "sdk"] false).
  - intros content Hin. apply list_elem_of_fmap in Hin as (c & E & _). destruct (c =? 34)%N eqn:Ec; [discriminate E|]. apply N.eqb_neq in Ec. congruence.
  - unfold profileNames. apply elem_of_cons. right. by apply list_elem_of_singleton.
  - vm_compute. reflexivity.
Defined.

Definition sampleDisk : oracle := fun _ r =>
  match r with
  | Stat _ => Ok (Obj [(js "size", natValue (byteLength (js "run()")))])
  | _ => Ok (Str (js "run()"))
  end.

Lemma validate_inventory_witness :
  (run sampleDisk (validateFile sampleDigest (fun s => length s) [js "dist"]
     (inventoryValue (inventoryFile sampleDigest (fun s => length s) (js "readable") (js "app.js") (js "run()"))))).2 = Ok tt.
Proof.
  apply (validate_inventory sampleDigest (fun s => length s) sampleDisk [js "dist"] (js "readable") (js "app.js") (js "run()"));
    [by apply literal_segment|by apply literal_segment|done|done|done|done].
Defined.
