(* ===== verification/BuildScripts.v ===== *)
(** * The build scripts of the SDK

    sdk/typescript/scripts/build.mjs (types, bundles, reference assets and version
    file), validate-artifacts.mjs (checks of what was built) and
    check-reproducible.mjs (two builds give the same bytes).  The TypeScript
    compiler, esbuild and npm are host programs; digests, gzip, JSON and the
    collation of file names are parameters. *)

From stdpp Require Import base tactics option list numbers strings sorting.
From Stdlib Require Import Lia.
From S2P Require Import Prelude JsString JsNumber JsValue Protocol Paths Effects BranchSync FullCircle RedisFixtures JsTree ReferenceAssets ReferenceAssetsProps.
#[local] Open Scope nat_scope.

(** [execFileSync(process.execPath, args, { cwd: root })] *)
Definition execNode (root : fspath) (args : list jstr) : request := Host (js "execFileSync") (Str <$> show_path root :: args).

(** ** build.mjs *)

(** One call of esbuild's [build]: the format, the global name, whether to minify
    and the file. *)
Definition bundle (dist : fspath) (iife minify : bool) (name : string) : request :=
  Host (js "esbuild.build")
    [Str (if iife then js "iife" else js "esm"); (if iife then Str (js "Realtime") else Undefined); Boolean minify; Str (show_path (resolve dist (js name)))].

Definition bundles (dist : fspath) : list request :=
  [bundle dist false false "realtime.js"; bundle dist false true "realtime.min.js";
   bundle dist true false "realtime.iife.js"; bundle dist true true "realtime.iife.min.js"].

(** The object written to version.json. *)
Definition versionValue (package : value) : value :=
  Obj [(js "package", get (js "name") package); (js "version", get (js "version") package);
       (js "protocolVersion", Str (js "1.0")); (js "subprotocol", Str (js "realtime.v1"))].

Section scripts.
Context (parseJSON : jstr -> result jsError value) (jsonText jsonPretty : value -> jstr).
Context (acorn : jstr -> result jsError node).
Context (esbuild : jstr -> bool -> result jsError (jstr * jstr)) (obfuscator : value -> jstr -> result jsError (jstr * jstr)).
Context (lightningcss : jstr -> bool -> result jsError (jstr * option jstr)) (minifyHtml : jstr -> result jsError jstr).
Context (digest : jstr -> string -> string -> jstr) (gzipLength : jstr -> nat).

Definition obfuscateFlag : jstr := js "--obfuscate".

Definition buildSdk (root : fspath) (argv : list jstr) : prog unit :=
  let dist := resolve root (js "dist") in
  _ ← call (RmRf dist);
  _ ← call (MkdirP dist);
  _ ← call (execNode root [show_path (resolve root (js "node_modules/typescript/bin/tsc")); js "--project";
                           show_path (resolve root (js "tsconfig.json")); js "--emitDeclarationOnly"]);
  _ ← sendAll (bundles dist) None;
  let unexpectedArguments := List.filter (fun a => negb (bool_decide (a = obfuscateFlag))) argv in
  _ ← refuse (negb (bool_decide (unexpectedArguments = []))) (js "Unsupported build arguments: " ++ join (js ", ") unexpectedArguments);
  _ ← buildReferenceAssets parseJSON jsonText jsonPretty acorn esbuild obfuscator lightningcss minifyHtml digest gzipLength root (memb obfuscateFlag argv);
  text ← call (ReadFile (resolve root (js "package.json")));
  package ← lift (parseJSON (str_of text));
  _ ← call (WriteFile (resolve dist (js "version.json")) (jsonPretty (versionValue package) ++ [10%N]));
  Ret tt.

(** ** validate-artifacts.mjs *)

Definition expected : list jstr :=
  js <$> ["realtime.js"; "realtime.js.map"; "realtime.min.js"; "realtime.min.js.map"; "realtime.iife.js"; "realtime.iife.js.map";
          "realtime.iife.min.js"; "realtime.iife.min.js.map"; "types/index.d.ts"; "types/index.d.ts.map"; "version.json"]%string.

Definition minifiedBundles : list jstr := js <$> ["realtime.min.js"; "realtime.iife.min.js"]%string.
Definition isMap (name : jstr) : bool := endsWith (js ".map") name.

(** A file of the distribution must not be empty. *)
Definition checkPresent (dist : fspath) (name : jstr) : prog unit :=
  v ← call (Stat (resolve dist name));
  refuse (strict_eq (get (js "size") v) (Number (int 0))) (name ++ js " is empty.").

(** The names and versions of package.json, version.json and the library. *)
Definition aligned (package version library : value) : bool :=
  strict_eq (get (js "package") version) (get (js "name") package)
  && strict_eq (get (js "version") version) (get (js "version") package)
  && strict_eq (get (js "version") version) (get (js "SDK_VERSION") library)
  && strict_eq (get (js "protocolVersion") version) (get (js "PROTOCOL_VERSION") library)
  && strict_eq (get (js "subprotocol") version) (get (js "WEBSOCKET_SUBPROTOCOL") library).

Definition checkAligned (root dist : fspath) : prog unit :=
  packageText ← call (ReadFile (resolve root (js "package.json")));
  package ← lift (parseJSON (str_of packageText));
  versionText ← call (ReadFile (resolve dist (js "version.json")));
  version ← lift (parseJSON (str_of versionText));
  library ← call (Host (js "import") [Str (show_path (resolve dist (js "realtime.js")))]);
  refuse (negb (aligned package version library))
    (js "Package, SDK, protocol, subprotocol, and generated version metadata must remain aligned.").

(** The content is read as bytes, one unit each. *)
Definition checkBudget (dist : fspath) (name : jstr) : prog unit :=
  content ← call (ReadFile (resolve dist name));
  _ ← refuse (32 * 1024 <? Z.of_nat (length (str_of content)))%Z (name ++ js " exceeds the 32 KiB minified size budget.");
  refuse (12 * 1024 <? Z.of_nat (gzipLength (str_of content)))%Z (name ++ js " exceeds the 12 KiB gzip size budget.").

Definition checkMap (dist : fspath) (name : jstr) : prog unit :=
  text ← call (ReadFile (resolve dist name));
  map ← lift (parseJSON (str_of text));
  each (fun source => refuse (isUnsafeSourcePath (str_of source)) (name ++ js " contains an absolute source-machine path."))
    (items_of (get (js "sources") map)).

Definition forbiddenMaterial : list jstr :=
  js <$> ["REDIS_TEST_ENDPOINT"; "realtime_session="; "Authorization:"; "BEGIN PRIVATE KEY"]%string.

(** The texts of the files that are not source maps, in their order. *)
Fixpoint readTexts (dist : fspath) (names : list jstr) : prog (list jstr) :=
  match names with
  | [] => Ret []
  | n :: names' => v ← call (ReadFile (resolve dist n)); rest ← readTexts dist names'; Ret (str_of v :: rest)
  end.

Definition generatedNames : list jstr := List.filter (fun n => negb (isMap n)) expected.

Definition checkTexts (dist : fspath) : prog unit :=
  texts ← readTexts dist generatedNames;
  each (fun forbidden => refuse (includes forbidden (join [10%N] texts)) (js "Generated artifacts contain forbidden material: " ++ forbidden)) forbiddenMaterial.

Definition validateArtifacts (root : fspath) : prog unit :=
  let dist := resolve root (js "dist") in
  _ ← each (checkPresent dist) expected;
  _ ← checkAligned root dist;
  _ ← each (checkBudget dist) minifiedBundles;
  _ ← each (checkMap dist) (List.filter isMap expected);
  _ ← checkTexts dist;
  _ ← call (execNode root [show_path (resolve root (js "scripts/validate-reference-assets.mjs"))]);
  Ret tt.

(** ** check-reproducible.mjs *)

Section snapshots.
(** [left.localeCompare(right) <= 0] *)
Context (localeLe : jstr -> jstr -> bool).

Definition nameLe (a b : value) : Prop := localeLe (str_of (get (js "name") a)) (str_of (get (js "name") b)) = true.
#[local] Instance nameLe_dec a b : Decision (nameLe a b).
Proof. unfold nameLe. apply _. Defined.

(** [walk]: the entries of a directory tree, a level per unit of fuel. *)
Fixpoint walk (fuel : nat) (directory current : fspath) : prog (list jstr) :=
  match fuel with
  | O => fail (js "fuel")
  | S n =>
      listing ← call (ReadDir current);
      loop (fun entry entries =>
              let path := resolve current (str_of (get (js "name") entry)) in
              if truthy (get (js "directory") entry) then (below ← walk n directory path; Ret (entries ++ below))
              else content ← call (ReadFile path);
                   Ret (entries ++ [replaceAll (js "\") (js "/") (relative directory path) ++ js ":" ++ digest (str_of content) "sha256" "hex"]))
        (merge_sort nameLe (items_of listing)) []
  end.

Definition snapshot (fuel : nat) (directory : fspath) : prog jstr := entries ← walk fuel directory directory; Ret (join [10%N] entries).

Definition artifactSnapshot (fuel : nat) (root : fspath) : prog jstr :=
  sdk ← snapshot fuel (resolve root (js "dist"));
  reference ← snapshot fuel (resolves root [js ".."; js ".."; js "examples"; js "shared-web"; js "dist"]);
  Ret (join [10%N] [js "sdk" ++ [10%N] ++ sdk; js "reference" ++ [10%N] ++ reference]).

Definition npmRun (root : fspath) (npmCli : jstr) (script : string) : request := execNode root [npmCli; js "run"; js script; js "--silent"].

Definition checkReproducible (fuel : nat) (root : fspath) (npmExecPath : option jstr) : prog unit :=
  match npmExecPath with
  | None => fail (js "npm_execpath is required; invoke this verifier through npm run build:check.")
  | Some npmCli =>
      _ ← call (npmRun root npmCli "build");
      first ← artifactSnapshot fuel root;
      _ ← call (npmRun root npmCli "build");
      second ← artifactSnapshot fuel root;
      _ ← refuse (negb (bool_decide (first = second))) (js "Browser artifacts are not reproducible.");
      _ ← call (npmRun root npmCli "build:obfuscated");
      firstObfuscated ← artifactSnapshot fuel root;
      _ ← call (npmRun root npmCli "build:obfuscated");
      secondObfuscated ← artifactSnapshot fuel root;
      _ ← refuse (negb (bool_decide (firstObfuscated = secondObfuscated))) (js "Obfuscated browser artifacts are not reproducible.");
      _ ← call (npmRun root npmCli "build");
      _ ← call (execNode root [show_path (resolve root (js "scripts/validate-artifacts.mjs"))]);
      Ret tt
  end.
End snapshots.
End scripts.

(** ** Where the build writes *)

(** Requests that leave everything outside the two output directories as it is;
    the compiler and the bundler are told to write into the first. *)
Definition insideBuild (root : fspath) (r : request) : Prop :=
  match r with
  | ReadFile _ => True
  | RmRf p | MkdirP p | WriteFile p _ => resolve root (js "dist") `prefix_of` p \/ outputRootOf root `prefix_of` p
  | Host op args => op = js "execFileSync" \/ (op = js "esbuild.build" /\ r ∈ bundles (resolve root (js "dist")))
  | _ => False
  end.

Lemma only_impl {A} (P Q : request -> Prop) (p : prog A) : (forall r, P r -> Q r) -> only P p -> only Q p.
Proof.
  intros H. unfold only. induction p as [a|e|r k IH]; cbn [ok]; [done|done|]. intros [Hr Hk]. split; [by apply H|]. intros x. apply IH, Hk.
Qed.

Section build.
Context (parseJSON : jstr -> result jsError value) (jsonText jsonPretty : value -> jstr).
Context (acorn : jstr -> result jsError node).
Context (esbuild : jstr -> bool -> result jsError (jstr * jstr)) (obfuscator : value -> jstr -> result jsError (jstr * jstr)).
Context (lightningcss : jstr -> bool -> result jsError (jstr * option jstr)) (minifyHtml : jstr -> result jsError jstr).
Context (digest : jstr -> string -> string -> jstr) (gzipLength : jstr -> nat).
Abbreviation sdkBuild := (buildSdk parseJSON jsonText jsonPretty acorn esbuild obfuscator lightningcss minifyHtml digest gzipLength).

Lemma bundles_inside root r : r ∈ bundles (resolve root (js "dist")) -> insideBuild root r.
Proof.
  intros H. pose proof H as H'. unfold bundles in H'. repeat (apply elem_of_cons in H' as [->|H']; [right; by split|]). by apply not_elem_of_nil in H'.
Qed.

Lemma buildSdk_inside root argv : only (insideBuild root) (sdkBuild root argv).
Proof.
  unfold buildSdk. cbv zeta. set (dist := resolve root (js "dist")). assert (dist `prefix_of` dist) as Hd by done.
  apply only_bind; [apply only_call; by left|]. intros _. apply only_bind; [apply only_call; by left|]. intros _.
  apply only_bind; [apply only_call; by left|]. intros _. apply only_bind; [apply sendAll_only, bundles_inside|]. intros _.
  apply only_bind; [apply only_refuse|]. intros _. apply only_bind.
  { eapply only_impl; [|apply build_inside]. intros r Hr. destruct r; try done; by right. }
  intros _. apply only_bind; [by apply only_call|]. intros text. apply only_bind; [apply only_lift|]. intros package.
  apply only_bind; [|intros _; apply only_ret]. apply only_call. left. rewrite (resolve_segment dist) by (by apply literal_segment). by exists [js "version.json"].
Qed.

(** Whatever the compiler, the bundler and the file system answer, the build
    creates, removes and writes files only below the dist directory of the SDK and
    that of the reference assets, and the bundler is asked for exactly the four
    bundles in the former. *)
Theorem sdk_build_confined o root argv : Forall (insideBuild root) (requests (run o (sdkBuild root argv)).1).
Proof. apply only_requests, buildSdk_inside. Qed.

(** An argument the build does not know is refused only after the distribution
    has been removed and rebuilt. *)
Lemma arguments_checked_late root :
  let '(h, r) := run (fun _ _ => Ok Undefined) (sdkBuild root [js "--minify"]) in
  RmRf (resolve root (js "dist")) ∈ requests h /\ r = Throw (newError (js "Unsupported build arguments: --minify")).
Proof. split; [left|reflexivity]. Qed.
End build.

(** The version file agrees with the library of the same sources. *)
Lemma version_aligned package :
  strict_eq (get (js "protocolVersion") (versionValue package)) (Str PROTOCOL_VERSION) = true
  /\ strict_eq (get (js "subprotocol") (versionValue package)) (Str WEBSOCKET_SUBPROTOCOL) = true.
Proof. split; reflexivity. Qed.

(** ** What validation guarantees *)

(** A request was answered with a value that satisfies [C]. *)
Definition readAs (h : history) (r : request) (C : value -> Prop) : Prop := exists v, (r, Ok v) ∈ h /\ C v.

Lemma readAs_grows h t r C : readAs h r C -> readAs (h ++ t) r C.
Proof. intros (v & H & HC). exists v. split; [apply elem_of_app; by left|done]. Qed.
Lemma readAs_later h t r C : readAs t r C -> readAs (h ++ t) r C.
Proof. intros (v & H & HC). exists v. split; [apply elem_of_app; by right|done]. Qed.

(** One request and a check of its answer. *)
Lemma adds_checked (r : request) (f : value -> prog unit) (C : value -> Prop) :
  (forall v, adds (f v) (fun _ x => is_ok x = true -> C v)) -> adds (v ← call r; f v) (fun t x => is_ok x = true -> readAs t r C).
Proof.
  intros H. apply adds_bind, adds_call. intros [v|e]; [|done]. eapply adds_weaken; [apply H|]. intros t x Hx Ho.
  exists v. split; [by left|auto].
Qed.

Lemma adds_refuse b m (P : Prop) : (b = false -> P) -> adds (refuse b m) (fun _ x => is_ok x = true -> P).
Proof. intros H. unfold refuse. destruct b; [by apply adds_raise|]. apply adds_ret. auto. Qed.

(** Checks one after the other. *)
Lemma adds_then (p : prog unit) (q : prog unit) (P Q : history -> Prop) :
  (forall h t, P h -> P (h ++ t)) -> (forall h t, Q t -> Q (h ++ t)) ->
  adds p (fun t x => is_ok x = true -> P t) -> adds q (fun t x => is_ok x = true -> Q t) ->
  adds (_ ← p; q) (fun t x => is_ok x = true -> P t /\ Q t).
Proof.
  intros HP HQ Hp Hq. apply adds_bind. eapply adds_weaken; [exact Hp|]. intros t [u|e] Ht; [|done].
  eapply adds_weaken; [exact Hq|]. intros t' x Hx Ho. split; [by apply HP, Ht|by apply HQ, Hx].
Qed.

Lemma adds_each {A} (f : A -> prog unit) (r : A -> request) (C : A -> value -> Prop) l :
  (forall x, adds (f x) (fun t y => is_ok y = true -> readAs t (r x) (C x))) ->
  adds (each f l) (fun t y => is_ok y = true -> forall x, x ∈ l -> readAs t (r x) (C x)).
Proof. intros H. apply (each_adds f (fun x h => readAs h (r x) (C x))); [intros; by apply readAs_grows|intros; by apply readAs_later|done]. Qed.

Lemma adds_each_pure {A} (f : A -> prog unit) (C : A -> Prop) l :
  (forall x, adds (f x) (fun _ y => is_ok y = true -> C x)) -> adds (each f l) (fun _ y => is_ok y = true -> forall x, x ∈ l -> C x).
Proof. intros H. by apply (each_adds f (fun x _ => C x)). Qed.

Section validation.
Context (parseJSON : jstr -> result jsError value) (gzipLength : jstr -> nat) (root : fspath).
Abbreviation dist := (resolve root (js "dist")).

(** What a source map may say, and what a bundle may weigh. *)
Definition safeMap (text : value) : Prop :=
  exists map, parseJSON (str_of text) = Ok map /\ forall source, source ∈ items_of (get (js "sources") map) -> isUnsafeSourcePath (str_of source) = false.
Definition withinBudget (content : value) : Prop := (Z.of_nat (length (str_of content)) <= 32 * 1024 /\ Z.of_nat (gzipLength (str_of content)) <= 12 * 1024)%Z.

(** The three sources of the version agree. *)
Definition versionsAgree (h : history) : Prop :=
  exists p v l package version,
    (ReadFile (resolve root (js "package.json")), Ok p) ∈ h /\ parseJSON (str_of p) = Ok package
    /\ (ReadFile (resolve dist (js "version.json")), Ok v) ∈ h /\ parseJSON (str_of v) = Ok version
    /\ (Host (js "import") [Str (show_path (resolve dist (js "realtime.js")))], Ok l) ∈ h
    /\ aligned package version l = true.

(** The texts that were read contain nothing forbidden. *)
Definition cleanText (content : value) : Prop := forall forbidden, forbidden ∈ forbiddenMaterial -> includes forbidden (str_of content) = false.

Lemma includes_join p l t : t ∈ l -> includes p t = true -> includes p (join [10%N] l) = true.
Proof.
  intros Ht Hp. apply includes_spec in Hp as (u & v & ->). apply includes_spec. induction l as [|w l IH]; [by apply elem_of_nil in Ht|].
  apply elem_of_cons in Ht as [<-|Ht].
  - destruct l as [|w' l]; [by exists u, v|]. exists u, (v ++ [10%N] ++ join [10%N] (w' :: l)). cbn [join]. by rewrite <- !app_assoc.
  - destruct (IH Ht) as (a & b & E). destruct l as [|w' l]; [by apply elem_of_nil in Ht|]. rewrite join_cons2, E. exists (w ++ [10%N] ++ a), b. by rewrite <- !app_assoc.
Qed.

Lemma readTexts_adds names : adds (readTexts dist names) (fun t r => forall texts, r = Ok texts ->
  forall n, n ∈ names -> readAs t (ReadFile (resolve dist n)) (fun v => str_of v ∈ texts)).
Proof.
  induction names as [|n names IH]; cbn [readTexts]; [apply adds_ret; intros texts _ n Hn; by apply elem_of_nil in Hn|].
  apply adds_bind, adds_call. intros [v|e]; [|done]. apply adds_bind. eapply adds_weaken; [apply IH|]. intros t [rest|e] H; [|done].
  apply adds_ret. intros texts [= <-] m [->|Hm]%elem_of_cons.
  - exists v. split; [by left|by left].
  - destruct (H _ eq_refl m Hm) as (w & Hw & Hin). exists w. split; [right; apply elem_of_app; by left|by right].
Qed.

Lemma checkTexts_adds : adds (checkTexts dist) (fun t x => is_ok x = true -> forall n, n ∈ generatedNames -> readAs t (ReadFile (resolve dist n)) cleanText).
Proof.
  unfold checkTexts. apply adds_bind. eapply adds_weaken; [apply readTexts_adds|]. intros t [texts|e] Ht; [|done].
  eapply adds_weaken; [apply (adds_each_pure _ (fun f => includes f (join [10%N] texts) = false)); intros f; by apply adds_refuse|].
  intros t' x Hx Ho n Hn. apply readAs_grows. destruct (Ht _ eq_refl n Hn) as (v & Hv & Hin). exists v. split; [done|]. intros f Hf.
  apply not_true_iff_false. intros Hi. pose proof (includes_join f texts (str_of v) Hin Hi). rewrite (Hx Ho f Hf) in *. done.
Qed.

Lemma checkAligned_adds : adds (checkAligned parseJSON root dist) (fun t x => is_ok x = true -> versionsAgree t).
Proof.
  unfold checkAligned. apply adds_bind, adds_call. intros [p|e]; [|done]. apply adds_bind.
  destruct (parseJSON (str_of p)) as [package|] eqn:Ep; [apply adds_ret|by apply adds_raise]. apply adds_bind, adds_call. intros [v|e]; [|done]. apply adds_bind.
  destruct (parseJSON (str_of v)) as [version|] eqn:Ev; [apply adds_ret|by apply adds_raise]. apply adds_bind, adds_call. intros [l|e]; [|done].
  unfold refuse. destruct (aligned package version l) eqn:Ea; [apply adds_ret|by apply adds_raise]. intros _. exists p, v, l, package, version.
  cbn [app]. rewrite !elem_of_cons. auto 10.
Qed.
End validation.

(** The distribution that a successful validation has read. *)
Record acceptable (parseJSON : jstr -> result jsError value) (gzipLength : jstr -> nat) (root : fspath) (h : history) : Prop := {
  files_present : forall n, n ∈ expected -> readAs h (Stat (resolve (resolve root (js "dist")) n)) (fun v => strict_eq (get (js "size") v) (Number (int 0)) = false);
  versions_agree : versionsAgree parseJSON root h;
  bundles_small : forall n, n ∈ minifiedBundles -> readAs h (ReadFile (resolve (resolve root (js "dist")) n)) (withinBudget gzipLength);
  maps_safe : forall n, n ∈ List.filter isMap expected -> readAs h (ReadFile (resolve (resolve root (js "dist")) n)) (safeMap parseJSON);
  texts_clean : forall n, n ∈ generatedNames -> readAs h (ReadFile (resolve (resolve root (js "dist")) n)) cleanText;
  assets_validated : readAs h (execNode root [show_path (resolve root (js "scripts/validate-reference-assets.mjs"))]) (fun _ => True);
}.

Lemma versionsAgree_mono parseJSON root h t : versionsAgree parseJSON root h -> versionsAgree parseJSON root (h ++ t).
Proof. intros (p & v & l & a & b & H1 & H2 & H3 & H4 & H5 & H6). exists p, v, l, a, b. rewrite !elem_of_app. auto 10. Qed.
Lemma versionsAgree_later parseJSON root h t : versionsAgree parseJSON root t -> versionsAgree parseJSON root (h ++ t).
Proof. intros (p & v & l & a & b & H1 & H2 & H3 & H4 & H5 & H6). exists p, v, l, a, b. rewrite !elem_of_app. auto 10. Qed.

Lemma readAll_grows {A} (f : A -> request) (C : A -> value -> Prop) (l : list A) h t :
  (forall x, x ∈ l -> readAs h (f x) (C x)) -> forall x, x ∈ l -> readAs (h ++ t) (f x) (C x).
Proof. intros H x Hx. apply readAs_grows. auto. Qed.
Lemma readAll_later {A} (f : A -> request) (C : A -> value -> Prop) (l : list A) h t :
  (forall x, x ∈ l -> readAs t (f x) (C x)) -> forall x, x ∈ l -> readAs (h ++ t) (f x) (C x).
Proof. intros H x Hx. apply readAs_later. auto. Qed.

Lemma validateArtifacts_adds parseJSON gzipLength root :
  adds (validateArtifacts parseJSON gzipLength root) (fun t x => is_ok x = true -> acceptable parseJSON gzipLength root t).
Proof.
  unfold validateArtifacts. cbv zeta. set (dist := resolve root (js "dist")).
  eapply adds_weaken.
  - apply (adds_then _ _ (fun h => forall n, n ∈ expected -> readAs h (Stat (resolve dist n)) (fun v => strict_eq (get (js "size") v) (Number (int 0)) = false))
             (fun h => versionsAgree parseJSON root h /\ (forall n, n ∈ minifiedBundles -> readAs h (ReadFile (resolve dist n)) (withinBudget gzipLength))
                /\ (forall n, n ∈ List.filter isMap expected -> readAs h (ReadFile (resolve dist n)) (safeMap parseJSON))
                /\ (forall n, n ∈ generatedNames -> readAs h (ReadFile (resolve dist n)) cleanText)
                /\ readAs h (execNode root [show_path (resolve root (js "scripts/validate-reference-assets.mjs"))]) (fun _ => True)));
      [apply readAll_grows|intros h t (H1 & H2 & H3 & H4 & H5); split_and!; [by apply versionsAgree_later|by apply readAll_later|by apply readAll_later|by apply readAll_later|by apply readAs_later]| |].
    { apply adds_each. intros n. apply adds_checked. intros v. by apply adds_refuse. }
    apply adds_then; [intros; by apply versionsAgree_mono|intros h t (H2 & H3 & H4 & H5); split_and!; [by apply readAll_later|by apply readAll_later|by apply readAll_later|by apply readAs_later]|apply checkAligned_adds|].
    apply adds_then; [apply readAll_grows|intros h t (H3 & H4 & H5); split_and!; [by apply readAll_later|by apply readAll_later|by apply readAs_later]| |].
    { apply adds_each. intros n. apply adds_checked. intros v. apply adds_bind. unfold refuse at 1.
      destruct (Z.ltb_spec (32 * 1024) (Z.of_nat (length (str_of v)))); [by apply adds_raise|]. apply adds_ret. apply adds_refuse. intros Hg%Z.ltb_ge. by split. }
    apply adds_then; [apply readAll_grows|intros h t (H4 & H5); split; [by apply readAll_later|by apply readAs_later]| |].
    { apply adds_each. intros n. apply adds_checked. intros v. apply adds_bind. destruct (parseJSON (str_of v)) as [map|] eqn:Em; [apply adds_ret|by apply adds_raise].
      eapply adds_weaken; [apply (adds_each_pure _ (fun source => isUnsafeSourcePath (str_of source) = false)); intros; by apply adds_refuse|].
      intros t x Hx Ho. exists map. split; [done|]. by apply Hx. }
    apply adds_then; [apply readAll_grows|intros; by apply readAs_later|apply checkTexts_adds|]. apply adds_checked. intros v. by apply adds_ret.
  - intros t x Hx Ho. destruct (Hx Ho) as (H1 & H2 & H3 & H4 & H5 & H6). by split.
Qed.

(** A successful validation means what it checks: every file of the
    distribution is there and not empty; package.json, version.json and the library
    agree on names and versions; both minified bundles are within 32 KiB and 12 KiB
    compressed; no source map names a path of the build machine; no generated file
    contains forbidden material, each file for itself; and the validator of the
    reference assets succeeded. *)
Theorem artifacts_accepted parseJSON gzipLength root o :
  (run o (validateArtifacts parseJSON gzipLength root)).2 = Ok tt -> acceptable parseJSON gzipLength root (run o (validateArtifacts parseJSON gzipLength root)).1.
Proof. intros H. apply (adds_run o _ _ (validateArtifacts_adds parseJSON gzipLength root)). by rewrite H. Qed.

(** ** Reproducible builds *)

(** The reproducibility check succeeds only when it made the plain build twice
    and the obfuscated build twice, each time with the same snapshot of both output
    directories as the build before, and then left the plain build, which the
    validation accepted. *)
Theorem reproducible_means digest localeLe fuel root npmCli o :
  (run o (checkReproducible digest localeLe fuel root (Some npmCli))).2 = Ok tt ->
  exists t1 t2 t3 t4 x1 x2 x3 x4 x5 x6 plain obfuscated,
    (run o (checkReproducible digest localeLe fuel root (Some npmCli))).1 =
      [(npmRun root npmCli "build", Ok x1)] ++ t1 ++ [(npmRun root npmCli "build", Ok x2)] ++ t2
      ++ [(npmRun root npmCli "build:obfuscated", Ok x3)] ++ t3 ++ [(npmRun root npmCli "build:obfuscated", Ok x4)] ++ t4
      ++ [(npmRun root npmCli "build", Ok x5); (execNode root [show_path (resolve root (js "scripts/validate-artifacts.mjs"))], Ok x6)]
    /\ follows (artifactSnapshot digest localeLe fuel root) t1 = Some (Ok plain) /\ follows (artifactSnapshot digest localeLe fuel root) t2 = Some (Ok plain)
    /\ follows (artifactSnapshot digest localeLe fuel root) t3 = Some (Ok obfuscated) /\ follows (artifactSnapshot digest localeLe fuel root) t4 = Some (Ok obfuscated).
Proof.
  intros H. pose proof (adds_follows (artifactSnapshot digest localeLe fuel root)) as Hs.
  enough (adds (checkReproducible digest localeLe fuel root (Some npmCli)) (fun t r => r = Ok tt -> exists t1 t2 t3 t4 x1 x2 x3 x4 x5 x6 plain obfuscated,
    t = [(npmRun root npmCli "build", Ok x1)] ++ t1 ++ [(npmRun root npmCli "build", Ok x2)] ++ t2
      ++ [(npmRun root npmCli "build:obfuscated", Ok x3)] ++ t3 ++ [(npmRun root npmCli "build:obfuscated", Ok x4)] ++ t4
      ++ [(npmRun root npmCli "build", Ok x5); (execNode root [show_path (resolve root (js "scripts/validate-artifacts.mjs"))], Ok x6)]
    /\ follows (artifactSnapshot digest localeLe fuel root) t1 = Some (Ok plain) /\ follows (artifactSnapshot digest localeLe fuel root) t2 = Some (Ok plain)
    /\ follows (artifactSnapshot digest localeLe fuel root) t3 = Some (Ok obfuscated) /\ follows (artifactSnapshot digest localeLe fuel root) t4 = Some (Ok obfuscated))) as Ha
    by (apply (adds_run o _ _ Ha); exact H).
  clear H. unfold checkReproducible. generalize dependent (artifactSnapshot digest localeLe fuel root). intros snap Hs.
  apply adds_bind, adds_call. intros [x1|]; [|done]. apply adds_bind. eapply adds_weaken; [exact Hs|]. intros t1 [s1|] F1; [|done].
  apply adds_bind, adds_call. intros [x2|]; [|done]. apply adds_bind. eapply adds_weaken; [exact Hs|]. intros t2 [s2|] F2; [|done].
  apply adds_bind. unfold refuse at 1. destruct (decide (s1 = s2)) as [<-|Hn]; [rewrite bool_decide_eq_true_2 by done|rewrite bool_decide_eq_false_2 by done; by apply adds_raise].
  apply adds_ret. apply adds_bind, adds_call. intros [x3|]; [|done]. apply adds_bind. eapply adds_weaken; [exact Hs|]. intros t3 [s3|] F3; [|done].
  apply adds_bind, adds_call. intros [x4|]; [|done]. apply adds_bind. eapply adds_weaken; [exact Hs|]. intros t4 [s4|] F4; [|done].
  apply adds_bind. unfold refuse at 1. destruct (decide (s3 = s4)) as [<-|Hn]; [rewrite bool_decide_eq_true_2 by done|rewrite bool_decide_eq_false_2 by done; by apply adds_raise].
  apply adds_ret. apply adds_bind, adds_call. intros [x5|]; [|done]. apply adds_bind, adds_call. intros [x6|]; [|done]. apply adds_ret. intros _.
  exists t1, t2, t3, t4, x1, x2, x3, x4, x5, x6, s1, s3. split_and!; [by rewrite ?app_nil_r|done|done|done|done].
Qed.

(** ** Concrete runs *)

Definition sampleMetadata : value :=
  Obj [(js "name", Str (js "sdk")); (js "package", Str (js "sdk")); (js "version", Str (js "1.1.0-beta"));
       (js "protocolVersion", Str PROTOCOL_VERSION); (js "subprotocol", Str WEBSOCKET_SUBPROTOCOL); (js "sources", Arr [Str (js "../src/index.ts")])].
Definition sampleLibrary : value :=
  Obj [(js "SDK_VERSION", Str (js "1.1.0-beta")); (js "PROTOCOL_VERSION", Str PROTOCOL_VERSION); (js "WEBSOCKET_SUBPROTOCOL", Str WEBSOCKET_SUBPROTOCOL)].
Definition sampleHost : oracle := fun _ r =>
  match r with
  | Stat _ => Ok (Obj [(js "size", Number (int 10))])
  | ReadFile _ => Ok (Str (js "text"))
  | Host _ (_ :: _ :: _) => Ok Undefined
  | Host _ _ => Ok sampleLibrary
  | ReadDir _ => Ok (Arr [Obj [(js "name", Str (js "app.js")); (js "directory", Boolean false)]])
  | _ => Ok Undefined
  end.

Lemma artifacts_accepted_witness :
  acceptable (fun _ => Ok sampleMetadata) (fun s => length s) [js "sdk"]
    (run sampleHost (validateArtifacts (fun _ => Ok sampleMetadata) (fun s => length s) [js "sdk"])).1.
Proof. apply (artifacts_accepted (fun _ => Ok sampleMetadata) (fun s => length s) [js "sdk"] sampleHost). vm_compute. reflexivity. Defined.

Lemma reproducible_means_witness :
  exists t plain, follows (artifactSnapshot (fun s _ _ => s) js_le 2 [js "a"; js "b"]) t = Some (Ok plain).
Proof.
  destruct (reproducible_means (fun s _ _ => s) js_le 2 [js "a"; js "b"] (js "npm") sampleHost) as (t1 & t2 & t3 & t4 & x1 & x2 & x3 & x4 & x5 & x6 & plain & obf & _ & H & _).
  - vm_compute. reflexivity.
  - exists t1, plain. exact H.
Defined.
