(* ===== verification/ChartTest.v ===== *)
(** * The test of the persistence chart

    scripts/test-persistence-chart.mjs renders the chart of the gateway with many
    value sets and checks the output: every provider, the setup job, the routes, and
    the value sets that the chart must refuse.  helm, directly or in a container, is
    a host program. *)

From stdpp Require Import base tactics option list numbers strings.
From S2P Require Import Prelude JsString JsNumber JsValue Paths Effects BranchSync RedisFixtures BuildScripts.

Section chart.
Context (root : fspath) (argv : list jstr).

Definition imageFlag : jstr := js "--docker-image=".

(** [process.argv.find(...)?.slice(...)]; an empty name counts as none. *)
Definition dockerImage : option jstr :=
  match List.find (startsWith imageFlag) argv with
  | Some a => match drop (length imageFlag) a with [] => None | name => Some name end
  | None => None
  end.

Definition chartDirectory : jstr := show_path (resolve root (js "helm/realtime-gateway")).
Definition chart : jstr := match dockerImage with Some _ => js "/chart" | None => chartDirectory end.

Definition helm (args : list jstr) : request :=
  Host (js "execFileSync") (Str <$>
    match dockerImage with
    | Some image => [js "docker"; js "run"; js "--rm"; js "--mount"; js "type=bind,source=" ++ chartDirectory ++ js ",target=/chart,readonly"; image] ++ args
    | None => js "helm" :: args
    end).

Definition render (values : list jstr) : request :=
  helm ([js "template"; js "fixture"; chart] ++ (values ≫= fun v => [js "--set"; v])).

Definition external : list jstr :=
  js <$> ["persistence.enabled=true"; "persistence.connectionSecret.name=fixture-database"; "persistence.egress.cidrs[0]=192.0.2.0/24"; "persistence.egress.ports[0]=5432"]%string.

Definition providers : list jstr :=
  js <$> ["PostgreSql"; "MySql"; "MariaDb"; "SqlServer"; "AzureSql"; "Oracle"; "Sqlite"; "Db2"; "CockroachDb"; "Snowflake"]%string.

Definition isSqlite (provider : jstr) : bool := bool_decide (provider = js "Sqlite").

Definition sqliteValues : list jstr :=
  js <$> ["topology=non-ha"; "replicaCount=1"; "autoscaling.enabled=false"; "podDisruptionBudget.enabled=false"; "autoscaling.minReplicas=1";
          "autoscaling.maxReplicas=1"; "topologySpreadConstraints.enabled=false"; "persistence.storage.existingClaim=fixture-data"]%string.

Definition providerValues (provider : jstr) : list jstr :=
  external ++ [js "persistence.provider=" ++ provider; js "persistence.customProviderImage=true"] ++ (if isSqlite provider then sqliteValues else []).

(** [assert(b)] *)
Definition asserts (b : bool) : prog unit := refuse (negb b) (js "The expression evaluated to a falsy value").

(** The texts that the rendered manifests must contain for a provider. *)
Definition providerTexts (provider : jstr) : list jstr :=
  [js "RealtimeSetup__Persistence__Provider: " ++ [34%N] ++ provider ++ [34%N]; js "name: ConnectionStrings__RealtimePersistence"; js "secretKeyRef: { name: fixture-database"]
  ++ (if isSqlite provider then [js "type: Recreate"; js "claimName: " ++ [34%N] ++ js "fixture-data" ++ [34%N]] else []).

Definition checkDisabled : prog unit :=
  disabled ← call (render []);
  _ ← asserts (negb (includes (js "name: ConnectionStrings__RealtimePersistence") (str_of disabled)));
  asserts (negb (includes (js "kind: Job") (str_of disabled))).

Definition checkProvider (provider : jstr) : prog unit :=
  output ← call (render (providerValues provider));
  each (fun t => asserts (includes t (str_of output))) (providerTexts provider).

Definition setupValues : list jstr :=
  external ++ (js <$> ["persistence.setupJob.enabled=true"; "persistence.api.enabled=true"; "persistence.api.workerTokenSecret.name=fixture-worker"; "ingressRoute.enabled=true";
                       "ingressRoute.host=gateway.example.test"; "ingressRoute.tlsSecretName=fixture-tls"]%string).

Definition quoted (s : string) : jstr := [34%N] ++ js s ++ [34%N].

Definition setupTexts : list jstr :=
  [js "args: [" ++ quoted "--realtime-setup" ++ js "]"; js "app.kubernetes.io/instance: " ++ quoted "fixture-setup"; js "name: fixture-setup"; js "activeDeadlineSeconds: 300"].

(** [s.split("---")]; the document up to the next separator is kept reversed. *)
Fixpoint documents (acc s : jstr) : list jstr :=
  match s with
  | 45%N :: 45%N :: 45%N :: rest => rev acc :: documents [] rest
  | c :: rest => documents (c :: acc) rest
  | [] => [rev acc]
  end.

Definition checkIngress (setup : jstr) : prog unit :=
  match List.find (includes (js "kind: IngressRoute")) (documents [] setup) with
  | None => fail (js "Cannot read properties of undefined (reading 'includes')")
  | Some ingress =>
      _ ← asserts (includes (js "/realtime/persistence/tasks/read") ingress);
      _ ← asserts (negb (includes (js "/worker/") ingress));
      asserts (negb (includes (js "PathPrefix(`/realtime/persistence") ingress))
  end.

Definition checkSetup : prog unit :=
  setup ← call (render setupValues);
  _ ← each (fun t => asserts (includes t (str_of setup))) setupTexts;
  checkIngress (str_of setup).

(** [assert.throws(() => render(values))] *)
Definition checkRefused (values : list jstr) : prog unit :=
  thrown ← catch (_ ← call (render values); Ret false) (fun _ => Ret true);
  refuse (negb thrown) (js "Missing expected exception.").

Definition invalidValues : list (list jstr) :=
  [[js "persistence.enabled=true"]; external ++ [js "persistence.provider=Sqlite"]; external ++ [js "persistence.provider=SqlServer"];
   js <$> ["persistence.enabled=true"; "persistence.connectionSecret.name=fixture-database"]%string].

Definition testPersistenceChart : prog unit :=
  _ ← checkDisabled;
  _ ← each checkProvider providers;
  _ ← checkSetup;
  _ ← each checkRefused invalidValues;
  _ ← call (Emit (js "log") (js "test-persistence-chart")
        (js "Verified all ten persistence providers, disabled defaults, Secret references, setup isolation, ingress, egress and SQLite guards."));
  Ret tt.

(** ** What success means *)

Definition contains (ts : list jstr) (v : value) : Prop := forall t, t ∈ ts -> includes t (str_of v) = true.
Definition lacks (ts : list jstr) (v : value) : Prop := forall t, t ∈ ts -> includes t (str_of v) = false.

(** The routes of the rendered ingress: the task endpoint for users, nothing of the
    endpoints of workers, and no prefix that would include them. *)
Definition ingressSafe (v : value) : Prop :=
  exists ingress, ingress ∈ documents [] (str_of v) /\ includes (js "kind: IngressRoute") ingress = true /\
    includes (js "/realtime/persistence/tasks/read") ingress = true /\ includes (js "/worker/") ingress = false /\
    includes (js "PathPrefix(`/realtime/persistence") ingress = false.

Lemma asserts_adds b (P : Prop) : (b = true -> P) -> adds (asserts b) (fun _ x => is_ok x = true -> P).
Proof. intros H. apply adds_refuse. intros ?%negb_false_iff. auto. Qed.

Lemma texts_adds ts v : adds (each (fun t => asserts (includes t (str_of v))) ts) (fun _ x => is_ok x = true -> contains ts v).
Proof. apply (adds_each_pure _ (fun t => includes t (str_of v) = true)). intros t. by apply asserts_adds. Qed.

(** Two checks of the same answer. *)
Lemma adds_both (p q : prog unit) (P Q : Prop) :
  adds p (fun _ x => is_ok x = true -> P) -> adds q (fun _ x => is_ok x = true -> Q) -> adds (_ ← p; q) (fun _ x => is_ok x = true -> P /\ Q).
Proof. intros Hp Hq. by apply (adds_then p q (fun _ => P) (fun _ => Q)). Qed.

Lemma checkDisabled_adds : adds checkDisabled (fun t x => is_ok x = true ->
  readAs t (render []) (lacks [js "name: ConnectionStrings__RealtimePersistence"; js "kind: Job"])).
Proof.
  apply adds_checked. intros v. eapply adds_weaken; [apply adds_both; apply asserts_adds; intros H; exact H|].
  intros h x H Ho. destruct (H Ho) as [H1%negb_true_iff H2%negb_true_iff]. intros t [->|[->|[]%elem_of_nil]%elem_of_cons]%elem_of_cons; done.
Qed.

Lemma checkProvider_adds provider : adds (checkProvider provider) (fun t x => is_ok x = true -> readAs t (render (providerValues provider)) (contains (providerTexts provider))).
Proof. apply adds_checked. intros v. apply texts_adds. Qed.

Lemma checkIngress_adds v : adds (checkIngress (str_of v)) (fun _ x => is_ok x = true -> ingressSafe v).
Proof.
  unfold checkIngress. destruct (List.find _ _) as [ingress|] eqn:E; [|by apply adds_raise]. apply find_some in E as [Hin Hk].
  eapply adds_weaken; [apply adds_both; [apply asserts_adds; intros H; exact H|apply adds_both; apply asserts_adds; intros H; exact H]|].
  intros h x H Ho. destruct (H Ho) as (H1 & H2%negb_true_iff & H3%negb_true_iff). exists ingress. split; [by apply list_elem_of_In|done].
Qed.

Lemma checkSetup_adds : adds checkSetup (fun t x => is_ok x = true -> readAs t (render setupValues) (fun v => contains setupTexts v /\ ingressSafe v)).
Proof. apply adds_checked. intros v. apply adds_both; [apply texts_adds|apply checkIngress_adds]. Qed.

Definition turnedDown (h : history) (values : list jstr) : Prop := exists e, (render values, Throw e) ∈ h.

Lemma checkRefused_adds values : adds (checkRefused values) (fun t x => is_ok x = true -> turnedDown t values).
Proof.
  unfold checkRefused. apply adds_bind, adds_catch, adds_bind, adds_call. intros [v|e].
  - apply adds_ret. cbn. by apply adds_raise.
  - apply adds_ret. cbn. apply adds_ret. intros _. exists e. by left.
Qed.
Lemma turnedDown_grows values h t : turnedDown h values -> turnedDown (h ++ t) values.
Proof. intros [e He]. exists e. apply elem_of_app. by left. Qed.
Lemma turnedDown_later values h t : turnedDown t values -> turnedDown (h ++ t) values.
Proof. intros [e He]. exists e. apply elem_of_app. by right. Qed.

(** The four statements of the last line, of what happened. *)
Definition offByDefault (h : history) : Prop := readAs h (render []) (lacks [js "name: ConnectionStrings__RealtimePersistence"; js "kind: Job"]).
Definition allProviders (h : history) : Prop := forall p, p ∈ providers -> readAs h (render (providerValues p)) (contains (providerTexts p)).
Definition setupIsolated (h : history) : Prop := readAs h (render setupValues) (fun v => contains setupTexts v /\ ingressSafe v).
Definition guarded (h : history) : Prop := forall values, values ∈ invalidValues -> turnedDown h values.

Lemma guarded_later h t : guarded t -> guarded (h ++ t).
Proof. intros H values Hv. by apply turnedDown_later, H. Qed.

Lemma allRefused_adds : adds (_ ← each checkRefused invalidValues; _ ← call (Emit (js "log") (js "test-persistence-chart")
        (js "Verified all ten persistence providers, disabled defaults, Secret references, setup isolation, ingress, egress and SQLite guards.")); Ret tt)
  (fun t x => is_ok x = true -> guarded t).
Proof.
  eapply adds_weaken; [apply (adds_then _ _ guarded (fun _ => True)); [|done| |]|by intros t x H Ho; apply H].
  - intros h t H values Hv. by apply turnedDown_grows, H.
  - apply (each_adds _ (fun values h => turnedDown h values)); [apply turnedDown_grows|apply turnedDown_later|apply checkRefused_adds].
  - apply adds_bind, adds_call. intros [u|e]; [by apply adds_ret|done].
Qed.

Lemma testPersistenceChart_adds : adds testPersistenceChart (fun t x => is_ok x = true ->
  offByDefault t /\ allProviders t /\ setupIsolated t /\ guarded t).
Proof.
  unfold testPersistenceChart.
  apply adds_then; [intros; by apply readAs_grows| |apply checkDisabled_adds|].
  { intros h t (H1 & H2 & H3). split_and!; [intros p Hp; by apply readAs_later, H1|by apply readAs_later|by apply guarded_later]. }
  apply adds_then; [intros h t H p Hp; by apply readAs_grows, H| |apply adds_each, checkProvider_adds|].
  { intros h t (H2 & H3). split; [by apply readAs_later|by apply guarded_later]. }
  apply adds_then; [intros; by apply readAs_grows|apply guarded_later|apply checkSetup_adds|apply allRefused_adds].
Qed.
End chart.

(** The chart test succeeds only when what it announces holds of the manifests
    that helm returned: persistence is absent by default; each of the ten providers
    is configured by name and takes its connection from the Secret, SQLite with one
    recreated replica on the given claim; the setup job is bounded and separate; the
    ingress has the task endpoint and no endpoint of workers; and helm refused each of
    the four value sets without what they need. *)
Theorem chart_test_means root argv o :
  (run o (testPersistenceChart root argv)).2 = Ok tt ->
  let h := (run o (testPersistenceChart root argv)).1 in
  offByDefault root argv h /\ allProviders root argv h /\ setupIsolated root argv h /\ guarded root argv h.
Proof. intros H. cbv zeta. apply (adds_run o _ _ (testPersistenceChart_adds root argv)). by rewrite H. Qed.

(** A helm that renders what the test looks for and refuses the four value sets. *)
Definition sampleManifests (args : list jstr) : value :=
  Str (if Nat.leb (length args) 4 then [] else join [10%N] ((providers ≫= providerTexts) ++ setupTexts)
       ++ js "---kind: IngressRoute /realtime/persistence/tasks/read---").

Definition words (l : list value) : list jstr := str_of <$> l.

Definition sampleHelm : oracle := fun _ r =>
  match r with
  | Host _ args => if existsb (fun vs => bool_decide (r = render [] [] vs)) invalidValues then Throw (newError (js "values are not valid")) else Ok (sampleManifests (words args))
  | _ => Ok Undefined
  end.

Lemma chart_test_means_witness :
  let h := (run sampleHelm (testPersistenceChart [] [])).1 in
  offByDefault [] [] h /\ allProviders [] [] h /\ setupIsolated [] [] h /\ guarded [] [] h.
Proof. apply (chart_test_means [] [] sampleHelm). vm_compute. reflexivity. Defined.
