(* ===== verification/BrowserPage.v ===== *)
(** * The pages of the browser examples

    examples/shared-web/wwwroot/app.js and examples/browser/realtime-example.js: the
    choice of a transport, the event log, the links of the configuration, and the
    durable inbox with its acknowledgements.  A click, a settled request and a
    finished login are steps of a machine; requests are made through the clients of
    the SDK.  An operation whose signal was aborted rejects with an AbortError. *)

From stdpp Require Import base tactics option list numbers strings relations.
From Stdlib Require Import Lia.
From S2P Require Import Prelude JsString JsNumber JsValue ClientState Client ClientSetup Persistence.
#[local] Open Scope Z_scope.

(** ** The page and its transport *)

Inductive PageMode : Type := FallbackPage | FailoverPage | WebSocketPage.

(** [location.pathname.endsWith("/fallback.html")] and so on. *)
Definition pageMode (pathname : jstr) : PageMode :=
  if endsWith (js "/fallback.html") pathname then FallbackPage
  else if endsWith (js "/failover.html") pathname then FailoverPage else WebSocketPage.

(** The same in realtime-example.js, without the slash. *)
Definition exampleMode (pathname : jstr) : PageMode :=
  if endsWith (js "fallback.html") pathname then FallbackPage
  else if endsWith (js "failover.html") pathname then FailoverPage else WebSocketPage.

Definition pageTitle (m : PageMode) : jstr :=
  match m with
  | FallbackPage => js "Realtime HTTP streaming"
  | FailoverPage => js "Realtime transport failover"
  | WebSocketPage => js "Realtime full circle"
  end.

Definition controlsHidden (m : PageMode) : bool := match m with FailoverPage => false | _ => true end.

Definition modeTransports (m : PageMode) : option (list jstr) :=
  match m with
  | FallbackPage => Some [js "http-streaming"]
  | FailoverPage => Some [js "websocket"; js "http-streaming"]
  | WebSocketPage => None
  end.

Definition modeStreams (m : PageMode) : bool := match m with WebSocketPage => false | _ => true end.

(** Whether the failover page replaces the WebSocket factory by one that throws. *)
Definition websocketDisabled (m : PageMode) (checked : bool) : bool := match m with FailoverPage => checked | _ => false end.

(** The options of the client of app.js. *)
Definition connectOptions (m : PageMode) (heartbeat : value) : ClientArguments :=
  {| o_url := js "/realtime/ws"; o_numbers := [(js "heartbeatIntervalMilliseconds", heartbeat)];
     o_reconnect := [(js "initialDelayMilliseconds", Number (int 50)); (js "maximumDelayMilliseconds", Number (int 500));
                     (js "jitterRatio", Number (int 0)); (js "maximumAttempts", Number (int 20))];
     o_transports := modeTransports m; o_httpStreaming := modeStreams m |}.

(** The options of the client of realtime-example.js. *)
Definition exampleOptions (m : PageMode) : ClientArguments :=
  {| o_url := js "/realtime/ws"; o_numbers := []; o_reconnect := []; o_transports := modeTransports m; o_httpStreaming := modeStreams m |}.

(** ** The runtime configuration *)

(** The checks of the diagnostics answer. *)
Definition runtimeConfiguration (v : value) : result jstr value :=
  let heartbeat := get (js "heartbeatIntervalMilliseconds") v in
  _ ← ensure (match heartbeat with Number n => negb (negb (isSafeInteger n) || nle n (int 0)) | _ => false end)
        (js "The server returned an invalid heartbeat interval.");
  Ok heartbeat.

(** The links that are shown: their targets and labels. *)
Definition stackLinks (v : value) : list (jstr * jstr) :=
  omap (fun item => match optget (js "href") item, optget (js "label") item with
                    | Str href, Str label => if startsWith (js "/") href then Some (href, label) else None
                    | _, _ => None
                    end)
    (match get (js "links") v with Arr l => l | _ => [] end).

(** ** The event log *)

(** [write(kind, value)]: the newest entry first, cut to 12000 units. *)
Definition write (timestamp kind safe output : jstr) : jstr :=
  take 12000 (timestamp ++ js " " ++ kind ++ js " " ++ safe ++ [10%N] ++ output).

(** ** Sessions and clients *)

(** What the login and logout handlers write to the log, or the error they throw;
    [ok] is [response.ok] and [body] the parsed answer. *)
Definition loginAnswer (ok : bool) (body : value) : result value value :=
  if ok then Ok body else Throw (get (js "message") body).

(** The body of a failed logout is an empty object when it is not JSON. *)
Definition logoutAnswer (ok : bool) (body : value) : result value value :=
  if ok then Ok (Str (js "logged out"))
  else Throw (let m := get (js "message") body in if truthy m then m else Str (js "Logout failed.")).

(** The clients the page has created: the variable [client], the ones not
    disconnected, and the variable [unsubscribe] with the subscriptions held. *)
Record Clients := { client : option nat; created : nat; live : list nat; unsubscribe : option nat; held : list nat }.

Definition noClients : Clients := {| client := None; created := 0; live := []; unsubscribe := None; held := [] |}.

(** [client = new RealtimeClient(...)] and [client.connect()]. *)
Definition connectClicked (x : Clients) : Clients :=
  {| client := Some (created x); created := S (created x); live := live x ++ [created x]; unsubscribe := unsubscribe x; held := held x |}.

(** Without a client the handler throws a TypeError, which [invoke] logs. *)
Definition disconnectClicked (x : Clients) : option Clients :=
  match client x with
  | None => None
  | Some c => Some {| client := client x; created := created x; live := List.filter (fun d => negb (Nat.eqb d c)) (live x); unsubscribe := unsubscribe x; held := held x |}
  end.

(** A subscription that succeeded, with the function that ends it. *)
Definition subscribed (handle_ : nat) (x : Clients) : Clients :=
  {| client := client x; created := created x; live := live x; unsubscribe := Some handle_; held := held x ++ [handle_] |}.

Definition unsubscribed (x : Clients) : Clients :=
  {| client := client x; created := created x; live := live x; unsubscribe := None;
     held := match unsubscribe x with Some h => List.filter (fun d => negb (Nat.eqb d h)) (held x) | None => held x end |}.

(** ** The durable inbox *)

(** What the acknowledge button acts on: the stream, the kind and the last
    sequence; and, to state what the page keeps apart, the controller of the read
    and the account whose session it was answered in ([None] without a session). *)
Record Inbox := { i_stream : jstr; i_kind : jstr; i_sequence : value; i_controller : nat; i_account : option nat }.

Inductive Operation : Type :=
  | ReadInbox (stream kind : jstr)
  | Acknowledge (inbox : Inbox)
  | TaskStatus (task : jstr).

(** A request under way, with the controller whose signal it has and the account
    whose session it is handled in. *)
Record Pending := { p_operation : Operation; p_controller : nat; p_account : option nat }.

(** A login or logout under way. *)
Inductive SessionRequest : Type := LogIn (account : nat) | LogOut.

(** An answer to a read: the controller and the account, the stream, the kind and
    the records. *)
Record Answer := { w_controller : nat; w_account : option nat; w_stream : jstr; w_kind : jstr; w_records : list value }.

Record Page := {
  displayedInbox : option Inbox;
  acknowledgeDisabled : bool;
  durableOutput : jstr;
  durableRequests : nat;
  pendingRequests : list Pending;
  (* the session, the logins and logouts under way, the answers to reads and the
     acknowledgements sent, with the account in whose session they were sent *)
  account : option nat;
  sessionRequests : list SessionRequest;
  answers : list Answer;
  acknowledged : list (option nat * Inbox);
}.

Definition openedPage (account_ : option nat) : Page :=
  {| displayedInbox := None; acknowledgeDisabled := true; durableOutput := []; durableRequests := 0; pendingRequests := [];
     account := account_; sessionRequests := []; answers := []; acknowledged := [] |}.

(** Sets the variables of the display. *)
Definition display (inbox : option Inbox) (disabled : bool) (text : jstr) (x : Page) : Page :=
  {| displayedInbox := inbox; acknowledgeDisabled := disabled; durableOutput := text; durableRequests := durableRequests x;
     pendingRequests := pendingRequests x; account := account x; sessionRequests := sessionRequests x; answers := answers x; acknowledged := acknowledged x |}.

Definition withPending (ps : list Pending) (x : Page) : Page :=
  {| displayedInbox := displayedInbox x; acknowledgeDisabled := acknowledgeDisabled x; durableOutput := durableOutput x; durableRequests := durableRequests x;
     pendingRequests := ps; account := account x; sessionRequests := sessionRequests x; answers := answers x; acknowledged := acknowledged x |}.

Definition sendRequest (o : Operation) (x : Page) : Page :=
  withPending (pendingRequests x ++ [{| p_operation := o; p_controller := durableRequests x; p_account := account x |}]) x.

(** The text of a failed operation. *)
Definition failureText (status : value) (message : jstr) : jstr :=
  if strict_eq status (Number (int 404)) then js "Persistence is unavailable or not enabled for this host." else message.

(** The message of arguments that the SDK refuses. *)
Definition refusal (r : result PersistenceError PostRequest) : option jstr :=
  match r with
  | Ok _ => None
  | Throw (ArgumentTypeError m) | Throw (ArgumentRangeError m) => Some m
  | Throw (RealtimePersistenceError status) => Some (failureText (Number (int status)) (js "Persistence request failed (" ++ show_Z status ++ js ")."))
  end.

Definition readClicked (stream kind : jstr) (x : Page) : Page :=
  let x := display None true (durableOutput x) x in
  match refusal (read defaultBasePath (Str stream) (Str kind) (Number (int 0)) (Number (int 100))) with
  | Some m => display None true m x
  | None => sendRequest (ReadInbox stream kind) x
  end.

Definition acknowledgeClicked (x : Page) : Page :=
  match displayedInbox x with
  | None => x
  | Some inbox =>
      match refusal (acknowledge defaultBasePath (Str (i_stream inbox)) (Str (i_kind inbox)) (i_sequence inbox)) with
      | Some m => display (displayedInbox x) (acknowledgeDisabled x) m x
      | None =>
          let x := sendRequest (Acknowledge inbox) x in
          {| displayedInbox := displayedInbox x; acknowledgeDisabled := acknowledgeDisabled x; durableOutput := durableOutput x; durableRequests := durableRequests x;
             pendingRequests := pendingRequests x; account := account x; sessionRequests := sessionRequests x; answers := answers x;
             acknowledged := acknowledged x ++ [(account x, inbox)] |}
      end
  end.

Definition taskClicked (task : jstr) (x : Page) : Page :=
  match refusal (getTaskStatus defaultBasePath (Str task)) with
  | Some m => display (displayedInbox x) (acknowledgeDisabled x) m x
  | None => sendRequest (TaskStatus task) x
  end.

(** The capturing listener of login and logout, and the request of the click. *)
Definition sessionClicked (r : SessionRequest) (x : Page) : Page :=
  {| displayedInbox := None; acknowledgeDisabled := true; durableOutput := []; durableRequests := S (durableRequests x);
     pendingRequests := pendingRequests x; account := account x; sessionRequests := sessionRequests x ++ [r]; answers := answers x; acknowledged := acknowledged x |}.

Definition endSession (i : nat) (account_ : option nat) (x : Page) : Page :=
  {| displayedInbox := displayedInbox x; acknowledgeDisabled := acknowledgeDisabled x; durableOutput := durableOutput x; durableRequests := durableRequests x;
     pendingRequests := pendingRequests x; account := account_; sessionRequests := delete i (sessionRequests x); answers := answers x; acknowledged := acknowledged x |}.

(** The session a successful login or logout leaves. *)
Definition sessionOf (r : SessionRequest) : option nat := match r with LogIn a => Some a | LogOut => None end.

Inductive Settlement : Type :=
  | RecordsRead (records : list value)
  | Acknowledged
  | StatusRead (status : value)
  | Failed (status : value) (message : jstr)
  | AbortError.

Definition removeRequest (i : nat) (x : Page) : Page := withPending (delete i (pendingRequests x)) x.

Section settle.
(** [JSON.stringify(v, null, 2)] *)
Context (jsonPretty : value -> jstr).

Definition recordAnswer (w : Answer) (x : Page) : Page :=
  {| displayedInbox := displayedInbox x; acknowledgeDisabled := acknowledgeDisabled x; durableOutput := durableOutput x; durableRequests := durableRequests x;
     pendingRequests := pendingRequests x; account := account x; sessionRequests := sessionRequests x; answers := answers x ++ [w]; acknowledged := acknowledged x |}.

(** The continuation of an operation. *)
Definition settled (p : Pending) (s : Settlement) (x : Page) : Page :=
  match p_operation p, s with
  | _, AbortError => x
  | _, Failed status message => display (displayedInbox x) (acknowledgeDisabled x) (failureText status message) x
  | ReadInbox stream kind, RecordsRead records =>
      let x := recordAnswer {| w_controller := p_controller p; w_account := p_account p; w_stream := stream; w_kind := kind; w_records := records |} x in
      let x := display (displayedInbox x) (acknowledgeDisabled x) (jsonPretty (Arr records)) x in
      match last records with
      | None => x
      | Some r =>
          display (Some {| i_stream := stream; i_kind := kind; i_sequence := optget (js "sequence") r; i_controller := p_controller p; i_account := p_account p |})
            false (durableOutput x) x
      end
  | Acknowledge _, Acknowledged => display None true (js "Displayed items acknowledged.") x
  | TaskStatus _, StatusRead v =>
      display (displayedInbox x) (acknowledgeDisabled x) (if truthy v then jsonPretty v else js "No task found for this account.") x
  | _, _ => x
  end.

(** The steps.  A login or logout succeeds and changes the session, or fails and
    leaves it.  A request is handled in the session of the time it was sent, or of a
    later time before its answer.  An operation whose controller was replaced has
    an aborted signal: it can only reject with an AbortError.  A patient user reads
    only when no login or logout is under way. *)
Inductive pageStep (patient : bool) (x : Page) : Page -> Prop :=
  | click_read stream kind : (patient = true -> sessionRequests x = []) -> pageStep patient x (readClicked stream kind x)
  | click_acknowledge : acknowledgeDisabled x = false -> pageStep patient x (acknowledgeClicked x)
  | click_task task : pageStep patient x (taskClicked task x)
  | click_session r : pageStep patient x (sessionClicked r x)
  | session_changed i r : sessionRequests x !! i = Some r -> pageStep patient x (endSession i (sessionOf r) x)
  | session_failed i r : sessionRequests x !! i = Some r -> pageStep patient x (endSession i (account x) x)
  | request_handled i p : pendingRequests x !! i = Some p ->
      pageStep patient x (withPending (<[i := {| p_operation := p_operation p; p_controller := p_controller p; p_account := account x |}]> (pendingRequests x)) x)
  | request_settles i p s : pendingRequests x !! i = Some p -> (p_controller p <> durableRequests x -> s = AbortError) ->
      pageStep patient x (settled p s (removeRequest i x)).
End settle.

(** ** What the page keeps apart *)

(** [ib] names the last record of an answer to a read. *)
Definition answeredBy (ws : list Answer) (ib : Inbox) : Prop :=
  exists w record, w ∈ ws /\ w_stream w = i_stream ib /\ w_kind w = i_kind ib /\ w_controller w = i_controller ib /\ w_account w = i_account ib /\
    last (w_records w) = Some record /\ optget (js "sequence") record = i_sequence ib.

Lemma answeredBy_app ws w ib : answeredBy ws ib -> answeredBy (ws ++ [w]) ib.
Proof. intros (w' & r & Hin & H). exists w', r. rewrite elem_of_app. auto. Qed.

Section isolation.
Context (jsonPretty : value -> jstr) (patient : bool).

(** The button follows the remembered records; these, and what is acknowledged,
    were read with the controller of their time. *)
Record tidy (x : Page) : Prop := {
  button_follows : acknowledgeDisabled x = false <-> is_Some (displayedInbox x);
  display_current : forall ib, displayedInbox x = Some ib -> i_controller ib = durableRequests x /\ answeredBy (answers x) ib;
  pending_known : forall p, p ∈ pendingRequests x -> (p_controller p <= durableRequests x)%nat;
  acknowledging_own : forall p ib, p ∈ pendingRequests x -> p_operation p = Acknowledge ib -> i_controller ib = p_controller p;
  acknowledged_answered : forall b ib, (b, ib) ∈ acknowledged x -> answeredBy (answers x) ib;
}.

Lemma opened_tidy a : tidy (openedPage a).
Proof. split; cbn; [split; [done|by intros [? ?]]|done|by intros p ?%elem_of_nil|by intros p ib ?%elem_of_nil|by intros b ib ?%elem_of_nil]. Qed.

(** Changes of the display. *)
Lemma tidy_hide t x : tidy x -> tidy (display None true t x).
Proof. intros [H1 H2 H3 H4 H5]. split; cbn; done. Qed.
Lemma tidy_text t x : tidy x -> tidy (display (displayedInbox x) (acknowledgeDisabled x) t x).
Proof. intros [H1 H2 H3 H4 H5]. by split. Qed.
Lemma tidy_show ib t x : tidy x -> i_controller ib = durableRequests x -> answeredBy (answers x) ib -> tidy (display (Some ib) false t x).
Proof. intros [H1 H2 H3 H4 H5] Hi Ha. split; cbn; try done. by intros ? [= <-]. Qed.
Lemma tidy_record w x : tidy x -> tidy (recordAnswer w x).
Proof.
  intros [H1 H2 H3 H4 H5]. split; cbn; try done; [|intros b ib Hb; by eapply answeredBy_app, H5].
  intros ib Hib. destruct (H2 _ Hib). split; [done|by apply answeredBy_app].
Qed.

(** Changes of the requests under way, none of which is new but for the last. *)
Lemma tidy_pending ps x : tidy x ->
  (forall p, p ∈ ps -> (exists q, q ∈ pendingRequests x /\ p_operation q = p_operation p /\ p_controller q = p_controller p)
     \/ (p_controller p = durableRequests x /\ forall ib, p_operation p = Acknowledge ib -> i_controller ib = durableRequests x)) ->
  tidy (withPending ps x).
Proof.
  intros [H1 H2 H3 H4 H5] Hps. split; cbn; try done.
  - intros p Hp. destruct (Hps p Hp) as [(q & Hq & _ & <-)|[-> _]]; [by apply H3|done].
  - intros p ib Hp E. destruct (Hps p Hp) as [(q & Hq & Eo & <-)|[-> Ho]]; [apply H4; [done|congruence]|by apply Ho].
Qed.

Lemma tidy_send o x : tidy x -> (forall ib, o = Acknowledge ib -> i_controller ib = durableRequests x) -> tidy (sendRequest o x).
Proof.
  intros Hx Ho. apply tidy_pending; [done|]. intros p [Hp|Hp%list_elem_of_singleton]%elem_of_app; [left; by exists p|]. subst. right. by split.
Qed.

Lemma delete_subset {A} (l : list A) i q : q ∈ delete i l -> q ∈ l.
Proof. intros Hq. rewrite delete_take_drop, elem_of_app in Hq. destruct Hq as [Hq|Hq]; [by eapply subseteq_take|by eapply subseteq_drop]. Qed.

Lemma tidy_remove i x : tidy x -> tidy (removeRequest i x).
Proof. intros Hx. apply tidy_pending; [done|]. intros p Hp%delete_subset. left. by exists p. Qed.

Lemma settled_tidy p s x : tidy x -> (p_controller p <> durableRequests x -> s = AbortError) -> tidy (settled jsonPretty p s x).
Proof.
  intros Hx Hc. unfold settled. destruct (p_operation p) as [stream kind|ib|task], s as [records| |v|status m|]; try done; try (by apply tidy_text); try (by apply tidy_hide).
  cbv zeta. set (w := Build_Answer _ _ _ _ _). pose proof (tidy_text (jsonPretty (Arr records)) _ (tidy_record w x Hx)) as Ht.
  destruct (last records) as [r|] eqn:El; [|done]. apply tidy_show; [done| |].
  - cbn. destruct (decide (p_controller p = durableRequests x)); [done|]. by specialize (Hc n).
  - exists w, r. cbn. rewrite elem_of_app, list_elem_of_singleton. auto 10.
Qed.

Lemma step_tidy x y : tidy x -> pageStep jsonPretty patient x y -> tidy y.
Proof.
  intros Hx Hs. destruct Hs as [stream kind Hw|Hd|task|r|i r Hi|i r Hi|i p Hp|i p s Hp Hc].
  - unfold readClicked. cbv zeta. destruct (refusal _); [by do 2 apply tidy_hide|]. apply tidy_send; [by apply tidy_hide|done].
  - unfold acknowledgeClicked. destruct (displayedInbox x) as [ib|] eqn:E; [|done]. destruct (refusal _); [rewrite <- E; by apply tidy_text|].
    destruct (display_current x Hx ib E) as [Hcur Hans].
    pose proof (tidy_send (Acknowledge ib) x Hx) as Ht. destruct Ht as [H1 H2 H3 H4 H5]; [by intros ? [= <-]|]. split; try done.
    cbn. intros b ib' [Hin|Hin%list_elem_of_singleton]%elem_of_app; [by eapply H5|]. by injection Hin as -> ->.
  - unfold taskClicked. destruct (refusal _); [by apply tidy_text|by apply tidy_send].
  - destruct Hx as [H1 H2 H3 H4 H5]. split; cbn; try done. intros p Hp%H3. lia.
  - destruct Hx as [H1 H2 H3 H4 H5]. by split.
  - destruct Hx as [H1 H2 H3 H4 H5]. by split.
  - apply tidy_pending; [done|]. intros q Hq. left. apply list_elem_of_lookup in Hq as [j Hj].
    destruct (decide (i = j)) as [<-|Hn].
    + apply list_lookup_insert_Some in Hj as [(_ & <- & _)|[? _]]; [|done]. exists p. split; [by eapply list_elem_of_lookup_2|done].
    + rewrite list_lookup_insert_ne in Hj by done. exists q. split; [by eapply list_elem_of_lookup_2|done].
  - apply settled_tidy; [by apply tidy_remove|done].
Qed.

Lemma reachable_tidy a x : rtc (pageStep jsonPretty patient) (openedPage a) x -> tidy x.
Proof. revert x. apply rtc_ind_r; [apply opened_tidy|]. intros x y _ Hs Hx. by eapply step_tidy. Qed.

(** Whose records are remembered and acknowledged, for a patient user. *)
Record served (x : Page) : Prop := {
  served_display : forall ib, displayedInbox x = Some ib -> i_account ib = account x;
  served_reads : forall p stream kind, p ∈ pendingRequests x -> p_operation p = ReadInbox stream kind -> p_controller p = durableRequests x -> p_account p = account x;
  served_waiting : sessionRequests x <> [] -> displayedInbox x = None
    /\ forall p stream kind, p ∈ pendingRequests x -> p_operation p = ReadInbox stream kind -> p_controller p <> durableRequests x;
  served_acknowledged : forall b ib, (b, ib) ∈ acknowledged x -> i_account ib = b;
}.

Lemma opened_served a : served (openedPage a).
Proof. split; cbn; [done|by intros p stream kind ?%elem_of_nil|done|by intros b ib ?%elem_of_nil]. Qed.

Lemma served_hide t x : served x -> served (display None true t x).
Proof. intros [H1 H2 H3 H4]. split; cbn; [done|done|intros H; split; [done|by apply H3]|done]. Qed.
Lemma served_text t x : served x -> served (display (displayedInbox x) (acknowledgeDisabled x) t x).
Proof. intros [H1 H2 H3 H4]. by split. Qed.

Lemma served_pending ps x : served x ->
  (forall p stream kind, p ∈ ps -> p_operation p = ReadInbox stream kind -> p_controller p = durableRequests x -> p_account p = account x /\
     (sessionRequests x <> [] -> exists q, q ∈ pendingRequests x /\ p_operation q = ReadInbox stream kind /\ p_controller q = durableRequests x)) ->
  served (withPending ps x).
Proof.
  intros [H1 H2 H3 H4] Hps. split; cbn; try done.
  - intros p stream kind Hp Eo Ec. by apply (Hps p stream kind).
  - intros Hl. destruct (H3 Hl) as [Hd Hr]. split; [done|]. intros p stream kind Hp Eo Ec.
    destruct (proj2 (Hps p stream kind Hp Eo Ec) Hl) as (q & Hq & Eq & Ecq). by apply (Hr q stream kind).
Qed.

Lemma served_send o x : served x -> (forall stream kind, o = ReadInbox stream kind -> sessionRequests x = []) -> served (sendRequest o x).
Proof.
  intros Hx Ho. apply served_pending; [done|]. intros p stream kind [Hp|Hp%list_elem_of_singleton]%elem_of_app Eo Ec.
  - split; [by eapply (served_reads x Hx)|]. intros _. by exists p.
  - subst. cbn in *. split; [done|]. intros Hl. by apply Ho in Eo.
Qed.

Lemma served_remove i x : served x -> served (removeRequest i x).
Proof.
  intros Hx. apply served_pending; [done|]. intros p stream kind Hp%delete_subset Eo Ec. split; [by eapply (served_reads x Hx)|]. intros _. by exists p.
Qed.

Lemma settled_served i p s x : served x -> pendingRequests x !! i = Some p -> (p_controller p <> durableRequests x -> s = AbortError) ->
  served (settled jsonPretty p s (removeRequest i x)).
Proof.
  intros Hx Hi Hc. pose proof (served_remove i x Hx) as Hr. unfold settled.
  destruct (p_operation p) as [stream kind|ib|task] eqn:Ep, s as [records| |v|status m|]; try done; try (by apply served_text); try (by apply served_hide).
  cbv zeta. set (w := Build_Answer _ _ _ _ _). assert (served (recordAnswer w (removeRequest i x))) as Hr' by (destruct Hr as [H1 H2 H3 H4]; by split).
  pose proof (served_text (jsonPretty (Arr records)) _ Hr') as [H1 H2 H3 H4]. destruct (last records) as [r|]; [|by split].
  assert (p_controller p = durableRequests x) as Ec by (destruct (decide (p_controller p = durableRequests x)); [done|]; by specialize (Hc n)).
  apply list_elem_of_lookup_2 in Hi. split; [| |intros Hl|done].
  - cbn. intros ib [= <-]. cbn. by eapply (served_reads x Hx).
  - exact H2.
  - exfalso. destruct (served_waiting x Hx Hl) as [_ Hp]. by apply (Hp p stream kind).
Qed.

Lemma step_served x y : patient = true -> tidy x -> served x -> pageStep jsonPretty patient x y -> served y.
Proof.
  intros Hpat Ht Hx Hs. destruct Hs as [stream kind Hw|Hd|task|r|i r Hi|i r Hi|i p Hp|i p s Hp Hc].
  - unfold readClicked. cbv zeta. destruct (refusal _); [by do 2 apply served_hide|]. apply served_send; [by apply served_hide|]. intros. by apply Hw.
  - unfold acknowledgeClicked. destruct (displayedInbox x) as [ib|] eqn:E; [|done]. destruct (refusal _); [rewrite <- E; by apply served_text|].
    destruct (served_send (Acknowledge ib) x Hx) as [H1 H2 H3 H4]; [done|]. split; try done.
    cbn. intros b ib' [Hin|Hin%list_elem_of_singleton]%elem_of_app; [by apply H4|]. injection Hin as -> ->. by apply H1.
  - unfold taskClicked. destruct (refusal _); [by apply served_text|by apply served_send].
  - destruct Hx as [H1 H2 H3 H4]. assert (forall p, p ∈ pendingRequests x -> p_controller p <> S (durableRequests x)) as Hne.
    { intros p Hp. apply (pending_known x Ht) in Hp. lia. }
    split; cbn; [done| |intros _; split; [done|]|done].
    + intros p stream kind Hp _ E. by apply Hne in Hp.
    + intros p stream kind Hp _. by apply Hne.
  - destruct Hx as [H1 H2 H3 H4]. assert (sessionRequests x <> []) as Hl by (intros E; by rewrite E in Hi).
    destruct (H3 Hl) as [Hd Hp]. split; cbn; [by rewrite Hd| |done|done]. intros p stream kind Hin Eo Ec. by apply (Hp p stream kind) in Ec.
  - destruct Hx as [H1 H2 H3 H4]. split; cbn; try done. intros Hl. apply H3. intros E. by rewrite E in Hi.
  - apply served_pending; [done|]. intros q stream kind Hq Eo Ec. apply list_elem_of_lookup in Hq as [j Hj]. destruct (decide (i = j)) as [<-|Hn].
    + apply list_lookup_insert_Some in Hj as [(_ & <- & _)|[? _]]; [|done]. split; [done|]. intros _. exists p. split; [by eapply list_elem_of_lookup_2|done].
    + rewrite list_lookup_insert_ne in Hj by done. apply list_elem_of_lookup_2 in Hj. split; [by eapply (served_reads x Hx)|]. intros _. by exists q.
  - by apply settled_served.
Qed.
End isolation.

(** C20: The durable inbox of the example page, for every order of clicks, answers,
    and logins and logouts that succeed or fail.  The acknowledge button is enabled
    exactly when the page remembers records to acknowledge; these are the last
    sequence of an answer to a read of that stream and kind that was made after the
    last click on login or logout, so nothing of an earlier session is acknowledged
    after such a click; and every acknowledgement sent names the last sequence of
    such an answer.  When the user does not read while a login or logout is under
    way, every acknowledgement is sent in the session of the account whose records
    it acknowledges.  (The remembered records need not be the ones on display, see
    [unseen_acknowledged].) *)
Theorem inbox_isolated jsonPretty patient a x :
  rtc (pageStep jsonPretty patient) (openedPage a) x ->
  (acknowledgeDisabled x = false <-> is_Some (displayedInbox x))
  /\ (forall ib, displayedInbox x = Some ib -> i_controller ib = durableRequests x /\ answeredBy (answers x) ib)
  /\ (forall p ib, p ∈ pendingRequests x -> p_operation p = Acknowledge ib -> i_controller ib = p_controller p)
  /\ (forall b ib, (b, ib) ∈ acknowledged x -> answeredBy (answers x) ib)
  /\ (patient = true -> forall b ib, (b, ib) ∈ acknowledged x -> i_account ib = b).
Proof.
  intros H. pose proof (reachable_tidy _ _ _ _ H) as [H1 H2 H3 H4 H5]. split; [done|]. split; [done|]. split; [done|]. split; [done|]. intros Hp.
  assert (tidy x /\ served x) as [_ [_ _ _ Hs]]; [|done]. clear H1 H2 H3 H4 H5. revert x H.
  apply rtc_ind_r; [split; [apply opened_tidy|apply opened_served]|]. intros x y _ Hs [Ht Hx]. split; [by eapply step_tidy|by eapply step_served].
Qed.

(** Records of account 1, read and acknowledged. *)
Definition sampleRecords : list value := [Obj [(js "sequence", Number (int 7))]].
Definition sampleRead (x : Page) : Page := readClicked (js "inbox") (js "message") x.
Definition sampleReading (x : Page) : Pending := {| p_operation := ReadInbox (js "inbox") (js "message"); p_controller := durableRequests x; p_account := account x |}.
Definition sampleSettled (x : Page) : Page := settled (fun _ => []) (sampleReading x) (RecordsRead sampleRecords) (removeRequest 0 x).

Lemma sample_settles patient x : pendingRequests x = [sampleReading x] -> pageStep (fun _ => []) patient x (sampleSettled x).
Proof. intros E. apply request_settles; [by rewrite E|done]. Qed.

Lemma inbox_isolated_witness :
  exists x, rtc (pageStep (fun _ => []) true) (openedPage (Some 1%nat)) x
    /\ acknowledged x = [(Some 1%nat, {| i_stream := js "inbox"; i_kind := js "message"; i_sequence := Number (int 7); i_controller := 0; i_account := Some 1%nat |})]
    /\ (forall b ib, (b, ib) ∈ acknowledged x -> i_account ib = b).
Proof.
  set (x1 := sampleRead (openedPage (Some 1%nat))). set (x2 := sampleSettled x1). set (x3 := acknowledgeClicked x2).
  assert (rtc (pageStep (fun _ => []) true) (openedPage (Some 1%nat)) x3) as R.
  { apply (rtc_l _ _ x1); [by apply click_read|]. apply (rtc_l _ _ x2); [apply sample_settles; vm_compute; reflexivity|].
    apply (rtc_l _ _ x3); [apply click_acknowledge; vm_compute; reflexivity|]. apply rtc_refl. }
  exists x3. split; [exact R|]. split; [vm_compute; reflexivity|].
  destruct (inbox_isolated (fun _ => []) true (Some 1%nat) x3 R) as (_ & _ & _ & _ & H). exact (H eq_refl).
Defined.

(** ** Other properties *)

(** The log stays within its bound, with the newest entry first. *)
Lemma write_bounded timestamp kind safe output : (length (write timestamp kind safe output) <= 12000)%nat.
Proof. unfold write. rewrite length_take. lia. Qed.

(** Every page constructs a client that the SDK accepts, for each heartbeat the
    server may configure. *)
Lemma pages_construct queryKeys m v heartbeat :
  queryKeys (js "/realtime/ws") = Some [] -> runtimeConfiguration v = Ok heartbeat ->
  is_ok (newRealtimeClient queryKeys (connectOptions m heartbeat)) = true /\ is_ok (newRealtimeClient queryKeys (exampleOptions m)) = true.
Proof.
  intros Hq (u & Hh%ensure_Ok & Hv)%bind_Ok. apply Ok_inj in Hv. subst heartbeat. unfold newRealtimeClient. cbn [o_url connectOptions exampleOptions].
  rewrite Hq. set (h := get (js "heartbeatIntervalMilliseconds") v) in *.
  assert (assertPositiveInteger h "heartbeatIntervalMilliseconds" = Ok tt) as Hn by (unfold assertPositiveInteger; by rewrite Hh).
  assert (checkNumbers (withDefaults (connectOptions m h)) = Ok tt) as Hc.
  { unfold checkNumbers. change (c_heartbeatIntervalMilliseconds (withDefaults (connectOptions m h))) with h. rewrite Hn. destruct m; vm_compute; reflexivity. }
  split; [|destruct m; vm_compute; reflexivity].
  assert (checkTransports (c_transports (withDefaults (connectOptions m h))) (o_httpStreaming (connectOptions m h)) = Ok tt) as Ht by (destruct m; vm_compute; reflexivity).
  rewrite Ht, Hc. vm_compute. reflexivity.
Qed.

(** ** Findings *)

(** A user who reads while a login is under way sees the records of the old account,
    and acknowledges them in the session of the new one. *)
Lemma stale_inbox_acknowledged :
  exists x b ib, rtc (pageStep (fun _ => []) false) (openedPage (Some 1%nat)) x /\ (b, ib) ∈ acknowledged x /\ i_account ib <> b.
Proof.
  set (x1 := sessionClicked (LogIn 2) (openedPage (Some 1%nat))). set (x2 := sampleRead x1). set (x3 := sampleSettled x2).
  set (x4 := endSession 0 (Some 2%nat) x3). set (x5 := acknowledgeClicked x4).
  exists x5, (Some 2%nat), {| i_stream := js "inbox"; i_kind := js "message"; i_sequence := Number (int 7); i_controller := 1; i_account := Some 1%nat |}.
  split; [|split; [by left|done]].
  apply (rtc_l _ _ x1); [apply click_session|]. apply (rtc_l _ _ x2); [by apply click_read|]. apply (rtc_l _ _ x3); [apply sample_settles; vm_compute; reflexivity|].
  apply (rtc_l _ _ x4); [apply (session_changed _ _ _ 0 (LogIn 2)); vm_compute; reflexivity|].
  apply (rtc_l _ _ x5); [apply click_acknowledge; vm_compute; reflexivity|]. apply rtc_refl.
Qed.

(** The answer of Check task replaces the records on display, and the button stays
    enabled: it acknowledges items that are not displayed. *)
Lemma unseen_acknowledged :
  exists x ib, rtc (pageStep (fun _ => js "[records]") true) (openedPage (Some 1%nat)) x
    /\ durableOutput x = js "No task found for this account." /\ acknowledgeDisabled x = false /\ displayedInbox x = Some ib.
Proof.
  set (read1 := sampleRead (openedPage (Some 1%nat))).
  set (x2 := settled (fun _ => js "[records]") (sampleReading read1) (RecordsRead sampleRecords) (removeRequest 0 read1)).
  set (x3 := taskClicked (js "0123456789abcdef0123456789abcdef") x2).
  set (x4 := settled (fun _ => js "[records]") {| p_operation := TaskStatus (js "0123456789abcdef0123456789abcdef"); p_controller := 0; p_account := Some 1%nat |}
               (StatusRead Null) (removeRequest 0 x3)).
  exists x4, {| i_stream := js "inbox"; i_kind := js "message"; i_sequence := Number (int 7); i_controller := 0; i_account := Some 1%nat |}.
  split; [|by vm_compute].
  apply (rtc_l _ _ read1); [by apply click_read|]. apply (rtc_l _ _ x2); [apply request_settles; [vm_compute; reflexivity|done]|].
  apply (rtc_l _ _ x3); [apply click_task|]. apply (rtc_l _ _ x4); [apply request_settles; [vm_compute; reflexivity|done]|]. apply rtc_refl.
Qed.

(** A link to another host passes the check for paths. *)
Lemma foreign_link_shown :
  stackLinks (Obj [(js "links", Arr [Obj [(js "href", Str (js "//other.example")); (js "label", Str (js "Docs"))]])]) = [(js "//other.example", js "Docs")].
Proof. vm_compute. reflexivity. Qed.

(** Connecting twice leaves the first client connected, and no control of the page
    reaches it any more; the same holds of a second subscription. *)
Lemma clients_leak :
  live (default noClients (disconnectClicked (connectClicked (connectClicked noClients)))) = [0%nat]
  /\ held (unsubscribed (subscribed 1 (subscribed 0 noClients))) = [0%nat].
Proof. split; reflexivity. Qed.
