(* ===== verification/OperatorPage.v ===== *)
(** * The operator page

    examples/full-circle/wwwroot/operator.js: the reader of the diagnostics streams,
    and the log level override with its revert button and countdown.  A click, a
    settled request and a tick of the countdown are steps of a machine. *)

From stdpp Require Import base tactics option list numbers strings relations.
From Stdlib Require Import Lia.
From S2P Require Import Prelude JsString JsNumber JsValue Paths Diagnostics.
#[local] Open Scope Z_scope.

(** ** The stream reader *)

(** [s.split("\n\n")]; the record up to the next separator is kept reversed. *)
Fixpoint splitBlank (acc s : jstr) : list jstr :=
  match s with
  | [] => [rev acc]
  | c :: t =>
      match t with
      | d :: u => if (c =? 10)%N && (d =? 10)%N then rev acc :: splitBlank [] u else splitBlank (c :: acc) t
      | [] => splitBlank (c :: acc) t
      end
  end.

Definition recordsOf (s : jstr) : list jstr := splitBlank [] s.

(** The first data line of a record, without its field name. *)
Definition recordData (record : jstr) : option jstr :=
  drop 6 <$> List.find (startsWith (js "data: ")) (split_on 10 record).

(** What the records show: their documents, up to one that is not JSON, whose error
    ends the stream. *)
Section reader.
Context (parseJSON : jstr -> result jsError value).

Fixpoint showRecords (records : list jstr) : list value * option jsError :=
  match records with
  | [] => ([], None)
  | r :: rest =>
      match recordData r with
      | None => showRecords rest
      | Some text =>
          match parseJSON text with
          | Throw e => ([], Some e)
          | Ok v => let '(l, e) := showRecords rest in (v :: l, e)
          end
      end
  end.

(** One chunk: the complete records are shown, the rest is kept. *)
Definition readChunk (pending chunk : jstr) : list value * result jsError jstr :=
  let records := recordsOf (pending ++ chunk) in
  let '(l, e) := showRecords (removelast records) in
  (l, match e with Some e => Throw e | None => Ok (List.last records []) end).

(** The chunks of a response, until the end of the stream. *)
Fixpoint readStream (pending : jstr) (chunks : list jstr) : list value * option jsError :=
  match chunks with
  | [] => ([], None)
  | c :: more =>
      match readChunk pending c with
      | (l, Throw e) => (l, Some e)
      | (l, Ok pending') => let '(l', e) := readStream pending' more in (l ++ l', e)
      end
  end.
End reader.

(** ** The override *)

Record Override := { o_id : jstr; o_expiresAt : Z }.

Inductive Action : Type := Applying | Reverting (id : jstr).

(** [activeOverride], the revert button, the countdown text, the requests under way
    and the log. *)
Inductive LogEntry : Type := OverrideApplied (o : Override) | OverrideReverted (id : jstr) | ErrorEntry (message : jstr).

Record Operator := {
  activeOverride : option Override;
  revertDisabled : bool;
  countdown : option Z;
  actions : list Action;
  entries : list LogEntry;
}.

Definition openedOperator : Operator := {| activeOverride := None; revertDisabled := true; countdown := None; actions := []; entries := [] |}.

Definition operatorWith (o : option Override) (disabled : bool) (e : list LogEntry) (x : Operator) : Operator :=
  {| activeOverride := o; revertDisabled := disabled; countdown := countdown x; actions := actions x; entries := e ++ entries x |}.
Definition act (a : Action) (x : Operator) : Operator :=
  {| activeOverride := activeOverride x; revertDisabled := revertDisabled x; countdown := countdown x; actions := actions x ++ [a]; entries := entries x |}.
Definition acted (i : nat) (x : Operator) : Operator :=
  {| activeOverride := activeOverride x; revertDisabled := revertDisabled x; countdown := countdown x; actions := delete i (actions x); entries := entries x |}.

(** [applyLogLevel] has answered. *)
Definition applied (o : Override) (x : Operator) : Operator := operatorWith (Some o) false [OverrideApplied o] x.

Definition revertClicked (x : Operator) : Operator :=
  match activeOverride x with None => x | Some o => act (Reverting (o_id o)) x end.

(** [revertLogLevel] has answered: the entry names the override that is active now,
    and reading its identifier throws when there is none. *)
Definition reverted (x : Operator) : Operator :=
  match activeOverride x with
  | Some o => operatorWith None true [OverrideReverted (o_id o)] x
  | None => operatorWith None (revertDisabled x) [ErrorEntry (js "Cannot read properties of undefined (reading 'id')")] x
  end.

Definition actionFailed (message : jstr) (x : Operator) : Operator := operatorWith (activeOverride x) (revertDisabled x) [ErrorEntry message] x.

(** [Math.max(0, Math.ceil((expiresAt - now) / 1000))] *)
Definition secondsLeft (expiresAt now : Z) : Z := Z.max 0 (- ((now - expiresAt) / 1000)).

(** The callback of the interval. *)
Definition tick (now : Z) (x : Operator) : Operator :=
  match activeOverride x with
  | None => {| activeOverride := None; revertDisabled := revertDisabled x; countdown := None; actions := actions x; entries := entries x |}
  | Some o =>
      let seconds := secondsLeft (o_expiresAt o) now in
      {| activeOverride := if seconds =? 0 then None else Some o; revertDisabled := if seconds =? 0 then true else revertDisabled x;
         countdown := Some seconds; actions := actions x; entries := entries x |}
  end.

(** The streams that are open: [stop] aborts all of them. *)
Definition stopStreams (streams aborted : list nat) : list nat * list nat := ([], aborted ++ streams).

Inductive operatorStep (x : Operator) : Operator -> Prop :=
  | click_apply : operatorStep x (act Applying x)
  | click_revert : revertDisabled x = false -> operatorStep x (revertClicked x)
  | apply_answers i o : actions x !! i = Some Applying -> operatorStep x (applied o (acted i x))
  | revert_answers i id : actions x !! i = Some (Reverting id) -> operatorStep x (reverted (acted i x))
  | action_fails i a message : actions x !! i = Some a -> operatorStep x (actionFailed message (acted i x))
  | interval_ticks now : operatorStep x (tick now x).

(** ** Chunks do not matter *)

(** The text before the first blank line, and the text after it. *)
Fixpoint blankCut (s : jstr) : option (jstr * jstr) :=
  match s with
  | [] => None
  | c :: t =>
      match t with
      | d :: u => if (c =? 10)%N && (d =? 10)%N then Some ([], u) else '(a, r) ← blankCut t; Some (c :: a, r)
      | [] => None
      end
  end.

Lemma splitBlank_cut s acc :
  splitBlank acc s = match blankCut s with None => [rev acc ++ s] | Some (a, r) => (rev acc ++ a) :: recordsOf r end.
Proof.
  revert acc. induction s as [|c t IH]; intros acc; [cbn; by rewrite app_nil_r|]. destruct t as [|d u]; [done|].
  change (splitBlank acc (c :: d :: u)) with (if (c =? 10)%N && (d =? 10)%N then rev acc :: splitBlank [] u else splitBlank (c :: acc) (d :: u)).
  change (blankCut (c :: d :: u)) with (if (c =? 10)%N && (d =? 10)%N then Some ([], u) else '(a, r) ← blankCut (d :: u); Some (c :: a, r)).
  destruct ((c =? 10)%N && (d =? 10)%N); [by rewrite app_nil_r|]. rewrite IH. destruct (blankCut (d :: u)) as [[a r]|]; cbn; by rewrite <- app_assoc.
Qed.

Lemma recordsOf_cut s : recordsOf s = match blankCut s with None => [s] | Some (a, r) => a :: recordsOf r end.
Proof. unfold recordsOf at 1. rewrite splitBlank_cut. done. Qed.

Lemma blankCut_app s t a r : blankCut s = Some (a, r) -> blankCut (s ++ t) = Some (a, r ++ t).
Proof.
  revert a. induction s as [|c s IH]; intros a; [done|]. destruct s as [|d u]; [done|].
  change (blankCut (c :: d :: u)) with (if (c =? 10)%N && (d =? 10)%N then Some ([], u) else '(a, r) ← blankCut (d :: u); Some (c :: a, r)).
  change (blankCut ((c :: d :: u) ++ t)) with (if (c =? 10)%N && (d =? 10)%N then Some ([], u ++ t) else '(a, r) ← blankCut ((d :: u) ++ t); Some (c :: a, r)).
  destruct ((c =? 10)%N && (d =? 10)%N); [by intros [= <- <-]|]. intros ([a' r'] & H & [= <- <-])%bind_Some. by rewrite (IH _ H).
Qed.

Lemma blankCut_length s a r : blankCut s = Some (a, r) -> (length r < length s)%nat.
Proof.
  revert a. induction s as [|c s IH]; intros a; [done|]. destruct s as [|d u]; [done|].
  change (blankCut (c :: d :: u)) with (if (c =? 10)%N && (d =? 10)%N then Some ([], u) else '(a, r) ← blankCut (d :: u); Some (c :: a, r)).
  destruct ((c =? 10)%N && (d =? 10)%N); [intros [= <- <-]; cbn; lia|]. intros ([a' r'] & H & [= <- <-])%bind_Some. apply IH in H. cbn in *. lia.
Qed.

(** The records of a text, and how a longer text continues them. *)
Lemma recordsOf_app s : exists rs l, recordsOf s = rs ++ [l] /\ blankCut l = None /\ forall t, recordsOf (s ++ t) = rs ++ recordsOf (l ++ t).
Proof.
  remember (length s) as n eqn:Hn. revert s Hn. induction (lt_wf n) as [n _ IH]. intros s ->. rewrite recordsOf_cut.
  destruct (blankCut s) as [[a r]|] eqn:E; [|by exists [], s].
  destruct (IH (length r) (blankCut_length _ _ _ E) r eq_refl) as (rs & l & H1 & H2 & H3). exists (a :: rs), l.
  split; [by rewrite H1|]. split; [done|]. intros t. rewrite recordsOf_cut, (blankCut_app _ _ _ _ E). by rewrite H3.
Qed.

Section chunks.
Context (parseJSON : jstr -> result jsError value).

Lemma showRecords_app rs ts :
  showRecords parseJSON (rs ++ ts) = let '(l, e) := showRecords parseJSON rs in
    match e with Some e => (l, Some e) | None => let '(l', e') := showRecords parseJSON ts in (l ++ l', e') end.
Proof.
  induction rs as [|r rs IH]; cbn [app showRecords]; [by destruct (showRecords parseJSON ts)|].
  destruct (recordData r); [|done]. destruct (parseJSON _); [|done]. rewrite IH. destruct (showRecords parseJSON rs) as [lv [e|]]; [done|].
  by destruct (showRecords parseJSON ts).
Qed.

Lemma recordsOf_nonempty s : recordsOf s <> [].
Proof. rewrite recordsOf_cut. by destruct (blankCut s) as [[]|]. Qed.

Lemma readStream_whole p cs : blankCut p = None -> readStream parseJSON p cs = showRecords parseJSON (removelast (recordsOf (p ++ concat cs))).
Proof.
  revert p. induction cs as [|c cs IH]; intros p Hp; cbn [readStream concat].
  - rewrite app_nil_r, recordsOf_cut, Hp. done.
  - unfold readChunk. destruct (recordsOf_app (p ++ c)) as (rs & l & H1 & H2 & H3). rewrite H1, removelast_last, last_last.
    rewrite app_assoc, H3, removelast_app by apply recordsOf_nonempty. rewrite showRecords_app.
    destruct (showRecords parseJSON rs) as [lv [e|]]; [done|]. by rewrite (IH l H2).
Qed.
End chunks.

(** ** The gateway's stream *)

Lemma blankCut_line w s : oneLine w -> s <> [] -> blankCut (w ++ s) = '(a, r) ← blankCut s; Some (w ++ a, r).
Proof.
  intros Hw Hs. induction Hw as [|c w [H1 H2] _ IH]; [cbn [app]; by destruct (blankCut s) as [[]|]|]. cbn [app].
  destruct (w ++ s) as [|d u] eqn:E; [by destruct w, s|].
  change (blankCut (c :: d :: u)) with (if (c =? 10)%N && (d =? 10)%N then Some ([], u) else '(a, r) ← blankCut (d :: u); Some (c :: a, r)).
  rewrite (proj2 (N.eqb_neq c 10)) by done. cbn [andb]. rewrite IH. by destruct (blankCut s) as [[]|].
Qed.

Lemma recordData_event text : oneLine text -> recordData (js "data: " ++ text) = Some text.
Proof.
  intros H. unfold recordData. replace (split_on 10 (js "data: " ++ text)) with [js "data: " ++ text].
  - cbn [List.find]. rewrite startsWith_app. reflexivity.
  - symmetry. assert (Forall (fun c => c <> 10%N) (js "data: " ++ text)) as Hf.
    { apply Forall_app. split; [apply (bool_decide_unpack _); vm_compute; reflexivity|]. eapply Forall_impl; [exact H|]. by intros c []. }
    induction Hf as [|c s Hc _ IH]; [done|]. cbn [split_on]. rewrite (proj2 (N.eqb_neq c 10)) by done. by rewrite IH.
Qed.

Lemma recordsOf_event text rest : oneLine text -> recordsOf (eventBlock text ++ rest) = (js "data: " ++ text) :: recordsOf rest.
Proof.
  intros H. unfold eventBlock. rewrite recordsOf_cut. rewrite <- !app_assoc, (app_assoc (js "data: ")).
  rewrite blankCut_line; [cbn; by rewrite app_nil_r| |done]. apply Forall_app. split; [|done]. apply (bool_decide_unpack _). vm_compute. reflexivity.
Qed.

Lemma recordsOf_heartbeat rest : recordsOf (heartbeatBlock ++ rest) = js ": heartbeat" :: recordsOf rest.
Proof.
  unfold heartbeatBlock. rewrite recordsOf_cut, <- app_assoc, blankCut_line; [cbn; by rewrite app_nil_r| |done].
  apply (bool_decide_unpack _). vm_compute. reflexivity.
Qed.

(** An unfinished line is no record yet. *)
Lemma blankCut_unfinished w : oneLine w -> blankCut w = None.
Proof.
  induction 1 as [|c w [H1 H2] Hw IH]; [done|]. destruct w as [|d w]; [done|].
  change (blankCut (c :: d :: w)) with (if (c =? 10)%N && (d =? 10)%N then Some ([], w) else '(a, r) ← blankCut (d :: w); Some (c :: a, r)).
  rewrite (proj2 (N.eqb_neq c 10)) by done. cbn [andb]. by rewrite IH.
Qed.

(** C23: On a stream of the gateway that consists of documents and heartbeats and
    does not end in the disconnect notice, cut into any chunks and possibly broken
    off in the middle of a line, the reader of the operator page and the SDK's
    diagnostics client agree: both deliver exactly the documents, in order.  The
    documents are on one line, do not start with white space and are accepted by
    JSON.parse.  (On the disconnect notice they differ, see [disconnect_shown].) *)
Theorem operator_agrees parseJSON blocks vs unfinished cs :
  Forall2 (document parseJSON) (eventTexts blocks) vs -> oneLine unfinished -> concat cs = concat (blockText <$> blocks) ++ unfinished ->
  readStream parseJSON [] cs = (vs, None) /\ consume parseJSON (fun _ => None) [] ((Chunk <$> cs) ++ [Done []]) = (vs, Ok false).
Proof.
  intros Hd Hu E. split.
  - rewrite readStream_whole by done. cbn [app]. rewrite E. clear E cs. revert vs Hd.
    assert (forall r s, removelast (r :: recordsOf s) = r :: removelast (recordsOf s)) as Hlast.
    { intros r s. destruct (recordsOf s) eqn:Er; [by apply recordsOf_nonempty in Er|done]. }
    induction blocks as [|[text|] blocks IH]; intros vs Hd; cbn [eventTexts omap list_omap] in Hd; rewrite ?fmap_cons; cbn [concat fmap list_fmap app].
    + inversion Hd; subst. rewrite recordsOf_cut, blankCut_unfinished by done. done.
    + inversion Hd as [|? v ? vs' (H1 & _ & H3) Hd2]; subst. cbn [blockText]. rewrite <- app_assoc, recordsOf_event, Hlast by done. cbn [showRecords].
      rewrite recordData_event, H3 by done. by rewrite (IH vs' Hd2).
    + cbn [blockText]. rewrite <- app_assoc, recordsOf_heartbeat, Hlast. cbn [showRecords].
      replace (recordData (js ": heartbeat")) with (@None jstr) by (vm_compute; reflexivity). by apply IH.
  - rewrite consume_whole. cbn [app]. rewrite app_nil_r, E. unfold whole. rewrite (pumpAll_blocks _ _ _ vs); [|done|by apply Forall_forall].
    rewrite pumpAll_line by done. by rewrite app_nil_r.
Qed.

Lemma operator_agrees_witness :
  readStream sampleParse [] [js "data: 1" ++ [10%N]; [10%N] ++ js ": heartbeat" ++ [10; 10]%N ++ js "dat"] = ([Str (js "1")], None).
Proof.
  apply (operator_agrees sampleParse [EventBlock (js "1"); HeartbeatBlock] [Str (js "1")] (js "dat")
    [js "data: 1" ++ [10%N]; [10%N] ++ js ": heartbeat" ++ [10; 10]%N ++ js "dat"]).
  - repeat constructor; (apply (bool_decide_unpack _); vm_compute; reflexivity) || reflexivity.
  - apply (bool_decide_unpack _). vm_compute. reflexivity.
  - vm_compute. reflexivity.
Defined.

(** ** The override *)

(** The revert button is enabled exactly while an override is active, whatever the
    order of answers, clicks and ticks; the countdown is never negative. *)
Definition operatorTidy (x : Operator) : Prop :=
  (revertDisabled x = false <-> is_Some (activeOverride x)) /\ (forall n, countdown x = Some n -> 0 <= n).

Lemma operatorStep_tidy x y : operatorTidy x -> operatorStep x y -> operatorTidy y.
Proof.
  intros [H1 H2] Hs. destruct Hs as [|Hd|i o Hi|i id Hi|i a m Hi|now]; unfold operatorTidy, act, acted, applied, actionFailed, operatorWith in *; cbn; try done.
  - unfold revertClicked, act. destruct (activeOverride x) eqn:E; cbn; rewrite ?E; by split.
  - unfold reverted. cbn. destruct (activeOverride x); cbn; [done|]. split; [|done]. exact H1.
  - unfold tick. destruct (activeOverride x) as [o|]; cbn; [|done]. split.
    + destruct (secondsLeft (o_expiresAt o) now =? 0); [done|exact H1].
    + intros n [= <-]. unfold secondsLeft. lia.
Qed.

Lemma operator_reachable x : rtc operatorStep openedOperator x -> operatorTidy x.
Proof. revert x. apply rtc_ind_r; [split; [split; [done|by intros [? ?]]|done]|]. intros x y _ Hs Hx. by eapply operatorStep_tidy. Qed.

(** ** Findings *)

(** The notice that ends a stream is shown as if it were an event. *)
Lemma disconnect_shown : exists v, readStream sampleParse [] [disconnectBlock] = ([v], None).
Proof. eexists. vm_compute. reflexivity. Qed.

Definition sampleOverride (id : string) : Override := {| o_id := js id; o_expiresAt := 60000 |}.

(** An override applied while another is being reverted is forgotten, and the log
    says that it was reverted. *)
Lemma new_override_forgotten :
  exists x, rtc operatorStep openedOperator x /\ activeOverride x = None /\ hd (ErrorEntry []) (entries x) = OverrideReverted (js "second")
    /\ OverrideApplied (sampleOverride "second") ∈ entries x.
Proof.
  set (x1 := act Applying openedOperator). set (x2 := act Applying x1). set (x3 := applied (sampleOverride "first") (acted 0 x2)).
  set (x4 := revertClicked x3). set (x5 := applied (sampleOverride "second") (acted 0 x4)). set (x6 := reverted (acted 0 x5)).
  exists x6. split; [|split; [reflexivity|split; [reflexivity|right; by left]]].
  apply (rtc_l _ _ x1); [apply click_apply|]. apply (rtc_l _ _ x2); [apply click_apply|]. apply (rtc_l _ _ x3); [by apply apply_answers|].
  apply (rtc_l _ _ x4); [by apply click_revert|]. apply (rtc_l _ _ x5); [by apply apply_answers|]. apply (rtc_l _ _ x6); [by apply (revert_answers _ 0 (js "first"))|]. apply rtc_refl.
Qed.

(** An override that expires while it is being reverted makes the revert end with
    an error although it succeeded. *)
Lemma revert_of_expired_fails :
  exists x, rtc operatorStep openedOperator x /\ entries x = [ErrorEntry (js "Cannot read properties of undefined (reading 'id')"); OverrideApplied (sampleOverride "first")].
Proof.
  set (x1 := act Applying openedOperator). set (x2 := applied (sampleOverride "first") (acted 0 x1)). set (x3 := revertClicked x2).
  set (x4 := tick 60000 x3). set (x5 := reverted (acted 0 x4)). exists x5. split; [|reflexivity].
  apply (rtc_l _ _ x1); [apply click_apply|]. apply (rtc_l _ _ x2); [by apply apply_answers|]. apply (rtc_l _ _ x3); [by apply click_revert|].
  apply (rtc_l _ _ x4); [apply interval_ticks|]. apply (rtc_l _ _ x5); [by apply (revert_answers _ 0 (js "first"))|]. apply rtc_refl.
Qed.
