(* ===== verification/TestSuites.v ===== *)
(** * Setups of the end-to-end suites

    sdk/typescript/playwright*.config.mjs: the servers that are started for the
    browser tests, and how they are wired to each other.  A setup is a function of
    the environment of the process; the configuration is the value handed to
    defineConfig.  The Node.js setup starts the application of NodeConfig.v, and the
    full-circle setup is started by the runner of FullCircle.v. *)

From stdpp Require Import base tactics option list numbers strings.
From Stdlib Require Import Lia.
From S2P Require Import Prelude JsString JsNumber JsValue Regex Paths Effects Contract ContractPatterns Reconnect NodeConfig BranchSync CiAutofix FullCircle SmallTools Utf8.
#[local] Open Scope Z_scope.

Definition object (l : list (string * value)) : value := Obj ((fun kv => (js kv.1, kv.2)) <$> l).
Definition text (s : string) : value := Str (js s).
Definition whole (z : Z) : value := Number (int z).

(** The variables a setup exports to its tests, and its configuration. *)
Record Suite := { exported : list (jstr * jstr); configuration : value }.

Section suites.
Context (env : jstr -> option jstr) (repositoryRoot : fspath).

(** [process.env.NAME ?? d] *)
Definition setting (name d : string) : jstr := default (js d) (env (js name)).
Definition isSet (name : string) : bool := match env (js name) with Some (_ :: _) => true | _ => false end.

Definition redisEndpoint : jstr := setting "REDIS_TEST_ENDPOINT" "127.0.0.1:6379".
Definition reuseServer : bool := bool_decide (env (js "REFERENCE_REUSE_SERVER") = Some (js "true")).

Definition below (s : string) : value := Str (show_path (resolve repositoryRoot (js s))).

(** [process.env.CI ? [["line"], ["html", ...]] : "line"] *)
Definition reporter (html : list (string * value)) : value :=
  if isSet "CI" then Arr [Arr [text "line"]; Arr [text "html"; object (html ++ [("open", text "never")])]] else text "line".

Definition chromium : value := Arr [object [("name", text "chromium"); ("use", object [("browserName", text "chromium")])]].

(** The parts the setups of the reference applications share. *)
Definition referenceSuite (folder : string) (teardown : list (string * value)) (label : string) (frontendOrigin gatewayOrigin : jstr) (servers : list value) : Suite :=
  {| exported := [(js "REFERENCE_STACK", js label); (js "REFERENCE_BASE_URL", frontendOrigin); (js "REFERENCE_GATEWAY_URL", gatewayOrigin)];
     configuration := object
       ([("testDir", text "./test/reference-adapters")] ++ teardown ++
        [("timeout", whole 30000); ("expect", object [("timeout", whole 8000)]); ("workers", whole 1); ("fullyParallel", Boolean false);
         ("reporter", reporter [("outputFolder", text ("../../artifacts/" +:+ folder +:+ "/playwright-report"))]);
         ("outputDir", text ("../../artifacts/" +:+ folder +:+ "/test-results"));
         ("use", object [("baseURL", Str frontendOrigin); ("trace", text "retain-on-failure"); ("screenshot", text "only-on-failure"); ("video", text "retain-on-failure")]);
         ("webServer", Arr servers); ("projects", chromium)]) |}.

(** The gateway that every reference application uses. *)
Definition gatewayServer (gatewayOrigin listenOrigin frontendOrigin : jstr) (prefix : string) : value :=
  object [("command", text "dotnet run --project examples/full-circle/Realtime.Example.FullCircle.csproj --configuration Release --no-build --no-restore --no-launch-profile");
    ("cwd", Str (show_path repositoryRoot)); ("url", Str (gatewayOrigin ++ js "/health")); ("timeout", whole 60000); ("reuseExistingServer", Boolean false);
    ("env", object [("ASPNETCORE_ENVIRONMENT", text "Automation"); ("ASPNETCORE_URLS", Str listenOrigin); ("FullCircle__Topology", text "non-ha");
       ("FullCircle__InstanceName", text "gateway-a"); ("Redis__Endpoint", Str redisEndpoint); ("Redis__InstancePrefix", text prefix);
       ("Realtime__SessionSource", text "Cookie"); ("Realtime__AllowedOrigins__0", Str frontendOrigin)])].

Definition applicationServer (command : string) (cwd : value) (frontendOrigin : jstr) (timeout : Z) (reuse : bool) (variables : list (string * value)) : value :=
  object [("command", text command); ("cwd", cwd); ("url", Str (frontendOrigin ++ js "/health")); ("timeout", whole timeout);
    ("reuseExistingServer", Boolean reuse); ("env", object variables)].

(** playwright.node-express.config.mjs *)
Definition nodeEnvironment : list (string * value) :=
  let frontendOrigin := js "http://127.0.0.1:15100" in
  let gatewayOrigin := js "http://127.0.0.1:15101" in
  [("LISTEN_HOST", text "127.0.0.1"); ("PORT", text "15100"); ("TRUST_PROXY_HOPS", text "0"); ("PUBLIC_ORIGIN", Str frontendOrigin);
   ("GATEWAY_URL", Str gatewayOrigin); ("REDIS_URL", Str (default (js "redis://" ++ redisEndpoint) (env (js "REDIS_TEST_URL"))));
   ("SESSION_SECRET", text "browser-fixture-secret-with-at-least-32-characters"); ("SESSION_LIFETIME_SECONDS", text "1200");
   ("HEARTBEAT_INTERVAL_MILLISECONDS", text "5000"); ("INSTANCE_NAME", text "node-express-a"); ("TOPOLOGY", text "non-ha");
   ("REDIS_INSTANCE_PREFIX", text "realtime:node-express-tests"); ("REDIS_SESSION_KEY_PREFIX", text "sessions");
   ("ALLOWED_TENANTS", text "tenant-a,tenant-b"); ("ALLOWED_USERS", text "user-a,user-b");
   ("SHARED_ASSET_ROOT", below "examples/shared-web/dist/optimized")].

Definition nodeExpress : Suite :=
  let frontendOrigin := js "http://127.0.0.1:15100" in
  let gatewayOrigin := js "http://127.0.0.1:15101" in
  referenceSuite "node-express" [] "Node.js / Express" frontendOrigin gatewayOrigin
    [gatewayServer gatewayOrigin gatewayOrigin frontendOrigin "realtime:node-express-tests";
     applicationServer "node ./src/server.mjs" (below "examples/node-express") frontendOrigin 60000 false nodeEnvironment].

(** The variables of the applications that are started from their sources. *)
Definition nativeEnvironment (frontendOrigin gatewayOrigin : jstr) (port instance prefix : string) : list (string * value) :=
  [("LISTEN_HOST", text "127.0.0.1"); ("PORT", text port); ("PUBLIC_ORIGIN", Str frontendOrigin); ("GATEWAY_URL", Str gatewayOrigin);
   ("REDIS_URL", Str (js "redis://" ++ redisEndpoint)); ("SESSION_LIFETIME_SECONDS", text "1200"); ("HEARTBEAT_INTERVAL_MILLISECONDS", text "5000");
   ("INSTANCE_NAME", text instance); ("TOPOLOGY", text "non-ha"); ("REDIS_INSTANCE_PREFIX", text prefix);
   ("REDIS_SESSION_KEY_PREFIX", text "sessions"); ("ALLOWED_TENANTS", text "tenant-a,tenant-b"); ("ALLOWED_USERS", text "user-a,user-b");
   ("SHARED_ASSET_ROOT", below "examples/shared-web/dist/optimized"); ("SDK_ASSET_ROOT", below "sdk/typescript/dist")].

Definition kotlinKtor : Suite :=
  let frontendOrigin := js "http://127.0.0.1:15300" in
  let gatewayOrigin := js "http://127.0.0.1:15301" in
  referenceSuite "kotlin-ktor" [] "Kotlin / Ktor" frontendOrigin gatewayOrigin
    [gatewayServer gatewayOrigin gatewayOrigin frontendOrigin "realtime:kotlin-ktor-tests";
     applicationServer "./gradlew --no-daemon run" (below "examples/kotlin-ktor") frontendOrigin 120000 reuseServer
       (nativeEnvironment frontendOrigin gatewayOrigin "15300" "kotlin-ktor-a" "realtime:kotlin-ktor-tests")].

Definition javaSpringBoot : Suite :=
  let frontendOrigin := js "http://127.0.0.1:15200" in
  let gatewayOrigin := js "http://127.0.0.1:15201" in
  referenceSuite "java-spring-boot" [] "Java / Spring Boot" frontendOrigin gatewayOrigin
    [gatewayServer gatewayOrigin gatewayOrigin frontendOrigin "realtime:java-spring-tests";
     applicationServer "java -jar target/java-spring-boot-1.1.0-beta.jar" (below "examples/java-spring-boot") frontendOrigin 60000 reuseServer
       (nativeEnvironment frontendOrigin gatewayOrigin "15200" "java-spring-a" "realtime:java-spring-tests")].

Definition rustAxum : Suite :=
  let frontendOrigin := js "http://127.0.0.1:15400" in
  let gatewayOrigin := js "http://127.0.0.1:15401" in
  referenceSuite "rust-axum" [] "Rust / Axum" frontendOrigin gatewayOrigin
    [gatewayServer gatewayOrigin gatewayOrigin frontendOrigin "realtime:rust-axum-tests";
     applicationServer "cargo run --locked" (below "examples/rust-axum") frontendOrigin 120000 reuseServer
       (nativeEnvironment frontendOrigin gatewayOrigin "15400" "rust-axum-a" "realtime:rust-axum-tests")].

Definition goGin : Suite :=
  let frontendOrigin := js "http://127.0.0.1:15500" in
  let gatewayOrigin := js "http://127.0.0.1:15501" in
  referenceSuite "go-gin" [] "Go / Gin" frontendOrigin gatewayOrigin
    [gatewayServer gatewayOrigin gatewayOrigin frontendOrigin "realtime:go-gin-tests";
     applicationServer "go run -mod=readonly ." (below "examples/go-gin") frontendOrigin 120000 reuseServer
       (nativeEnvironment frontendOrigin gatewayOrigin "15500" "go-gin-a" "realtime:go-gin-tests")].

Definition elixirPhoenix : Suite :=
  let frontendOrigin := js "http://127.0.0.1:15600" in
  let gatewayOrigin := js "http://127.0.0.1:15601" in
  referenceSuite "elixir-phoenix" [] "Elixir / Phoenix" frontendOrigin gatewayOrigin
    [gatewayServer gatewayOrigin gatewayOrigin frontendOrigin "realtime:elixir-phoenix-tests";
     applicationServer "mix run --no-halt" (below "examples/elixir-phoenix") frontendOrigin 120000 reuseServer
       (nativeEnvironment frontendOrigin gatewayOrigin "15600" "elixir-phoenix-a" "realtime:elixir-phoenix-tests")].

(** ** Applications in a container *)

(** [redisEndpoint.split(":").at(-1)] *)
Definition redisPortText : jstr := List.last (split_on 58 redisEndpoint) [].

(** The command line of a container: its variables after the [-e] flags. *)
Definition dockerWords (folder : string) (variables : list (string * jstr)) (image : jstr) : list jstr :=
  [js "docker"; js "run"; js "--rm"; js "--name"; js ("realtime-" +:+ folder +:+ "-playwright"); js "--add-host"; js "host.docker.internal:host-gateway";
   js "-p"; js "127.0.0.1:15500:15500"] ++ (variables ≫= fun kv => [js "-e"; js kv.1 ++ js "=" ++ kv.2]) ++ [image].

Definition dockerServer (folder : string) (frontendOrigin : jstr) (variables : list (string * jstr)) (image : jstr) : value :=
  object [("command", Str (join (js " ") (dockerWords folder variables image))); ("cwd", Str (show_path repositoryRoot));
    ("url", Str (frontendOrigin ++ js "/health")); ("timeout", whole 120000); ("reuseExistingServer", Boolean reuseServer)].

(** The variables of all container applications, with the ones of one application
    between the port and the origin and those between the Redis address and the
    lifetime of a session. *)
Definition dockerEnvironment (frontendOrigin : jstr) (own secret : list (string * jstr)) (instance prefix : string) : list (string * jstr) :=
  [("LISTEN_HOST", js "0.0.0.0"); ("PORT", js "15500")] ++ own ++
  [("PUBLIC_ORIGIN", frontendOrigin); ("GATEWAY_URL", js "http://host.docker.internal:15501");
   ("REDIS_URL", js "redis://host.docker.internal:" ++ redisPortText)] ++ secret ++
  [("SESSION_LIFETIME_SECONDS", js "1200"); ("HEARTBEAT_INTERVAL_MILLISECONDS", js "5000"); ("INSTANCE_NAME", js instance);
   ("TOPOLOGY", js "non-ha"); ("REDIS_INSTANCE_PREFIX", js prefix); ("REDIS_SESSION_KEY_PREFIX", js "sessions");
   ("ALLOWED_TENANTS", js "tenant-a,tenant-b"); ("ALLOWED_USERS", js "user-a,user-b")].

Definition dockerSuite (folder label : string) (own secret : list (string * jstr)) (instance prefix : string) (image : jstr) : Suite :=
  let frontendOrigin := js "http://127.0.0.1:15500" in
  let gatewayOrigin := js "http://127.0.0.1:15501" in
  referenceSuite folder [("globalTeardown", text ("./test/reference-adapters/stop-" +:+ folder +:+ "-container.mjs"))] label frontendOrigin gatewayOrigin
    [gatewayServer gatewayOrigin (js "http://0.0.0.0:15501") frontendOrigin prefix;
     dockerServer folder frontendOrigin (dockerEnvironment frontendOrigin own secret instance prefix) image].

Definition phpLaravel : Suite :=
  dockerSuite "php-laravel" "PHP / Laravel" [("PUBLIC_ROOT", js "/app/public")] [("SESSION_SECRET", js "browser-fixture-secret-with-at-least-32-characters")]
    "php-laravel-a" "realtime:php-laravel-tests" (setting "PHP_LARAVEL_IMAGE" "realtime-php-laravel:local").
Definition pythonFastapi : Suite :=
  dockerSuite "python-fastapi" "Python / FastAPI" [] []
    "python-fastapi-a" "realtime:python-fastapi-tests" (setting "PYTHON_FASTAPI_IMAGE" "realtime-python-fastapi:local").
Definition rubyRails : Suite :=
  dockerSuite "ruby-rails" "Ruby / Rails" [] [("SESSION_SECRET", js "playwright-only-secret-with-at-least-32-characters")]
    "ruby-rails-a" "realtime:ruby-rails-tests" (setting "RUBY_RAILS_IMAGE" "realtime-ruby-rails:local").
Definition swiftVapor : Suite :=
  dockerSuite "swift-vapor" "Swift / Vapor" [("APPLICATION_HOST", js "127.0.0.1"); ("APPLICATION_PORT", js "15502"); ("APP_URL", js "http://127.0.0.1:15502")]
    [("SESSION_SECRET", js "playwright-only-secret-with-at-least-32-characters")]
    "swift-vapor-a" "realtime:swift-vapor-tests" (setting "SWIFT_VAPOR_IMAGE" "realtime-swift-vapor:local").

(** ** The browser suite *)

(** [Number.parseInt(process.env.NAME ?? d, 10)], printed. *)
Definition portText (name d : string) : jstr := interpolate (Number (parseInt10 (setting name d))).

Definition local (port : jstr) : jstr := js "http://127.0.0.1:" ++ port.

Definition releaseGateway : string := "dotnet run --project ../../src/Realtime.Gateway --configuration Release --no-launch-profile --no-build --no-restore".

Definition browserGateway (own proxy : jstr) (name : list (string * value)) : value :=
  object [("command", text releaseGateway); ("url", Str (local own ++ js "/health/live")); ("timeout", whole 120000); ("reuseExistingServer", Boolean (negb (isSet "CI")));
    ("env", object ([("ASPNETCORE_URLS", Str (local own))] ++ name ++
       [("Gateway__ShutdownDrainSeconds", text "1"); ("Redis__Endpoint", Str redisEndpoint); ("Redis__InstancePrefix", text "realtime:browser-tests");
        ("Redis__RequiredForReadiness", text "true"); ("Realtime__AllowedOrigins__0", Str (local proxy)); ("Realtime__AllowedOrigins__1", Str (local own));
        ("Realtime__HeartbeatSeconds", text "5"); ("Realtime__IdleTimeoutSeconds", text "15")]))].

Definition browserSuite : value :=
  let gatewayPort := portText "REALTIME_BROWSER_GATEWAY_PORT" "18081" in
  let secondGatewayPort := portText "REALTIME_BROWSER_SECOND_GATEWAY_PORT" "18082" in
  let proxyPort := portText "REALTIME_BROWSER_PROXY_PORT" "18083" in
  let staticPort := portText "REALTIME_BROWSER_STATIC_PORT" "14173" in
  let reuse := Boolean (negb (isSet "CI")) in
  object [("testDir", text "./test/browser"); ("timeout", whole 30000); ("expect", object [("timeout", whole 5000)]); ("fullyParallel", Boolean false);
    ("workers", whole 1); ("reporter", reporter []); ("use", object [("baseURL", Str (local proxyPort)); ("trace", text "retain-on-failure")]);
    ("webServer", Arr
       [browserGateway gatewayPort proxyPort [];
        browserGateway secondGatewayPort proxyPort [("Gateway__ServiceName", text "realtime-browser-b")];
        object [("command", text "node ./test/round-robin-proxy.mjs"); ("url", Str (local proxyPort ++ js "/health")); ("timeout", whole 30000); ("reuseExistingServer", reuse);
          ("env", object [("REALTIME_BROWSER_PROXY_PORT", Str proxyPort); ("REALTIME_BROWSER_BACKENDS", Str (local gatewayPort ++ js "," ++ local secondGatewayPort))])];
        object [("command", text "node ./test/static-server.mjs"); ("url", Str (local staticPort ++ js "/health")); ("timeout", whole 30000); ("reuseExistingServer", reuse);
          ("env", object [("REALTIME_BROWSER_STATIC_PORT", Str staticPort)])]]);
    ("globalSetup", text "./test/browser/global-setup.mjs");
    ("projects", Arr ((fun b => object [("name", text b); ("use", object [("browserName", text b)])]) <$> ["chromium"; "firefox"; "webkit"]%string))].

(** ** The full-circle suite *)

(** [http://127.0.0.1:${instance.port}] *)
Definition instanceOrigin (instance : value) : result jsError jstr := port ← field_of (js "port") instance; Ok (local (interpolate port)).

Definition forwarded : list (jstr * value) :=
  (js <$> ["Redis__User"; "Redis__Password"; "Redis__Ssl"; "Redis__SentinelServiceName"; "Redis__SentinelPassword"]%string)
  ≫= fun name => match env name with Some v => [(name, Str v)] | None => [] end.

(** The server of an instance; [{ ...forwarded, k: v }] keeps the forwarded keys
    first, which are other keys than the fixed ones. *)
Definition instanceServer (plan : value) (profile token entry : jstr) (readiness : value) (instance : value) : result jsError value :=
  origin ← instanceOrigin instance;
  prefix ← field_of (js "instancePrefix") (get (js "redis") plan);
  Ok (object [("command", text "dotnet Realtime.Example.FullCircle.dll"); ("cwd", below "artifacts/full-circle/consumer-bin/Release/net10.0");
    ("url", Str (origin ++ js "/health")); ("timeout", readiness); ("reuseExistingServer", Boolean false);
    ("env", Obj (forwarded ++ props_of (object
       [("ASPNETCORE_ENVIRONMENT", text "Automation"); ("ASPNETCORE_URLS", Str origin); ("FullCircle__Topology", Str profile);
        ("FullCircle__InstanceName", get (js "name") instance); ("Redis__Endpoint", Str redisEndpoint); ("Redis__InstancePrefix", prefix);
        ("Realtime__AllowedOrigins__0", Str entry); ("Diagnostics__Enabled", text "true"); ("Diagnostics__ProductionEnabled", text "true");
        ("Diagnostics__AuthorizationPolicy", text "Realtime.Diagnostics.Operator"); ("Diagnostics__OperatorToken", Str token);
        ("Diagnostics__AllowedOrigins__0", Str entry); ("Diagnostics__AllowedNetworks__0", text "127.0.0.0/8")])))]).

Fixpoint traverse {A B} (f : A -> result jsError B) (l : list A) : result jsError (list B) :=
  match l with [] => Ok [] | x :: l' => y ← f x; ys ← traverse f l'; Ok (y :: ys) end.

Definition balancer (entryPort readiness : value) (backends : list jstr) : value :=
  object [("command", text "node ./test/round-robin-proxy.mjs"); ("url", Str (local (interpolate entryPort) ++ js "/health")); ("timeout", readiness);
    ("reuseExistingServer", Boolean false);
    ("env", object [("REALTIME_BROWSER_PROXY_PORT", Str (interpolate entryPort)); ("REALTIME_BROWSER_BACKENDS", Str (join (js ",") backends))])].

(** The setup, for the parsed plan. *)
Definition fullCircleSuite (plan : value) : result jsError value :=
  profile ← match env (js "FULL_CIRCLE_PROFILE") with
            | Some p => if memb p [js "ha"; js "non-ha"] then Ok p else Throw (newError (js "FULL_CIRCLE_PROFILE must be ha or non-ha."))
            | None => Throw (newError (js "FULL_CIRCLE_PROFILE must be ha or non-ha."))
            end;
  token ← match env (js "FULL_CIRCLE_DIAGNOSTICS_TOKEN") with
          | Some ((_ :: _) as t) => Ok t
          | _ => Throw (newError (js "FULL_CIRCLE_DIAGNOSTICS_TOKEN must contain the runtime-generated test credential."))
          end;
  profiles ← field_of (js "profiles") plan;
  let selected := optget profile profiles in
  if negb (strict_eq (get (js "schemaVersion") plan) (Number (int 1))) || isUndefined selected
  then Throw (newError (js "The shared full-circle plan is invalid."))
  else
    instances ← field_of (js "instances") selected;
    let entryPort := get (js "entryPort") selected in
    seconds ← field_of (js "readinessSeconds") (get (js "timeouts") plan);
    let readiness := Number (nmul (num_of seconds) (int 1000)) in
    let entry := local (interpolate entryPort) in
    instances ← elements instances;
    servers ← traverse (instanceServer plan profile token entry readiness) instances;
    backends ← traverse instanceOrigin instances;
    Ok (object [("testDir", text "./test/full-circle"); ("timeout", whole 30000); ("expect", object [("timeout", whole 8000)]); ("workers", whole 1);
      ("fullyParallel", Boolean false); ("reporter", reporter [("outputFolder", text "../../artifacts/full-circle/playwright-report")]);
      ("outputDir", text "../../artifacts/full-circle/test-results");
      ("use", object [("baseURL", Str entry); ("trace", text "retain-on-failure"); ("screenshot", text "only-on-failure"); ("video", text "retain-on-failure")]);
      ("webServer", Arr (servers ++ if bool_decide (profile = js "ha") then [balancer entryPort readiness backends] else [])); ("projects", chromium)]).
End suites.

(** ** What the servers are given *)

(** The variables that the command line of a container sets. *)
Fixpoint flagged (words : list jstr) : list (jstr * jstr) :=
  match words with
  | a :: rest => if bool_decide (a = js "-e") then match rest with w :: rest' => cutAt 61 w :: flagged rest' | [] => [] end else flagged rest
  | [] => []
  end.

(** A variable of a server: from its [env], or from its command line. *)
Definition variable (name : string) (server : value) : option jstr :=
  match get (js "env") server with
  | Obj l => match assoc (js name) l with Some (Str s) => Some s | _ => None end
  | _ => snd <$> List.find (fun kv => bool_decide (kv.1 = js name)) (flagged (split_on 32 (str_of (get (js "command") server))))
  end.

Definition exportedAs (name : string) (s : Suite) : option jstr := snd <$> List.find (fun kv => bool_decide (kv.1 = js name)) (exported s).

(** The tests, the gateway and the application of a setup agree: the browser opens
    the address the application listens on and is awaited at, the gateway allows
    exactly this origin, the application is given the address of the gateway, seen
    from a container where it runs in one, and both use the same Redis prefix. *)
Definition wired (s : Suite) : Prop :=
  exists base port gatewayPort g a,
    exportedAs "REFERENCE_BASE_URL" s = Some base /\ base = local port /\ exportedAs "REFERENCE_GATEWAY_URL" s = Some (local gatewayPort)
    /\ get (js "baseURL") (get (js "use") (configuration s)) = Str base /\ get (js "webServer") (configuration s) = Arr [g; a]
    /\ get (js "url") g = Str (local gatewayPort ++ js "/health") /\ get (js "url") a = Str (base ++ js "/health")
    /\ variable "Realtime__AllowedOrigins__0" g = Some base /\ variable "PUBLIC_ORIGIN" a = Some base /\ variable "PORT" a = Some port
    /\ (variable "GATEWAY_URL" a = Some (local gatewayPort) \/ variable "GATEWAY_URL" a = Some (js "http://host.docker.internal:" ++ gatewayPort))
    /\ is_Some (variable "REDIS_INSTANCE_PREFIX" a) /\ variable "REDIS_INSTANCE_PREFIX" a = variable "Redis__InstancePrefix" g.

Ltac wired_by p q :=
  eexists _, (js p), (js q), _, _; split_and!;
  [reflexivity|reflexivity|reflexivity|reflexivity|reflexivity|reflexivity|reflexivity|vm_compute; reflexivity|vm_compute; reflexivity|vm_compute; reflexivity
  |try (left; vm_compute; reflexivity)|vm_compute; eexists; reflexivity|vm_compute; reflexivity].

Lemma nodeExpress_wired env root : wired (nodeExpress env root).
Proof. wired_by "15100"%string "15101"%string. Qed.
Lemma native_wired env root :
  wired (kotlinKtor env root) /\ wired (javaSpringBoot env root) /\ wired (rustAxum env root) /\ wired (goGin env root) /\ wired (elixirPhoenix env root).
Proof.
  split_and!; [wired_by "15300"%string "15301"%string|wired_by "15200"%string "15201"%string|wired_by "15400"%string "15401"%string
              |wired_by "15500"%string "15501"%string|wired_by "15600"%string "15601"%string].
Qed.

(** ** Command lines of containers *)

Definition spaceless (s : jstr) : Prop := 32%N ∉ s.

Lemma spaceless_app s t : spaceless s -> spaceless t -> spaceless (s ++ t).
Proof. unfold spaceless. rewrite elem_of_app. tauto. Qed.

Lemma dockerWords_spaceless folder variables image :
  spaceless (js folder) -> Forall (fun kv => spaceless (js kv.1) /\ spaceless kv.2) variables -> spaceless image ->
  Forall spaceless (dockerWords folder variables image).
Proof.
  intros Hf Hv Hi. unfold dockerWords. apply Forall_app. split; [|apply Forall_app; split; [|by repeat constructor]].
  - repeat apply Forall_cons_2; try apply Forall_nil_2; try (apply (bool_decide_unpack _); vm_compute; reflexivity).
    rewrite js_append, js_append. apply spaceless_app; [|apply spaceless_app; [done|]]; apply (bool_decide_unpack _); vm_compute; reflexivity.
  - induction Hv as [|[k v] l [Hk Hv] _ IH]; [constructor|]. cbn [mbind list_bind app]. constructor; [apply (bool_decide_unpack _); vm_compute; reflexivity|].
    constructor; [|exact IH]. apply spaceless_app; [done|]. apply spaceless_app; [|done]. apply (bool_decide_unpack _); vm_compute; reflexivity.
Qed.

(** The variables that reach a container are the ones the setup lists. *)
Lemma docker_variable env root folder frontend variables image name :
  Forall spaceless (dockerWords folder variables image) ->
  variable name (dockerServer env root folder frontend variables image)
  = snd <$> List.find (fun kv => bool_decide (kv.1 = js name)) (flagged (dockerWords folder variables image)).
Proof.
  intros H. unfold variable, dockerServer. change (get (js "env") (object _)) with Undefined. cbv iota.
  change (str_of (get (js "command") (object _))) with (join (js " ") (dockerWords folder variables image)).
  rewrite split_on_join; [done|done|exact H].
Qed.

Lemma elem_of_join c (sep w : jstr) ws : w ∈ ws -> c ∈ w -> c ∈ join sep ws.
Proof.
  induction ws as [|v [|v' ws] IH]; intros Hw Hc; [by apply elem_of_nil in Hw|by apply list_elem_of_singleton in Hw as <-|].
  rewrite join_cons2, !elem_of_app. apply elem_of_cons in Hw as [<-|Hw]; auto.
Qed.

Lemma last_elem {A} (x : A) l : l <> [] -> List.last l x ∈ l.
Proof. induction l as [|y [|z l] IH]; intros H; [done|by left|]. right. by apply IH. Qed.

Lemma last_split_spaceless (s : jstr) : spaceless s -> spaceless (List.last (split_on 58 s) []).
Proof.
  intros H Hin. apply H. rewrite <- (join_split_on 58 s). eapply elem_of_join; [|exact Hin]. apply last_elem. destruct s; [done|].
  cbn. destruct (_ =? _)%N; [done|]. by destruct (split_on 58 s).
Qed.

(** No space in the address of Redis and in the name of an image. *)
Definition plainSettings (env : jstr -> option jstr) : Prop :=
  forall name v, name ∈ ["REDIS_TEST_ENDPOINT"; "PHP_LARAVEL_IMAGE"; "PYTHON_FASTAPI_IMAGE"; "RUBY_RAILS_IMAGE"; "SWIFT_VAPOR_IMAGE"]%string ->
    env (js name) = Some v -> spaceless v.

Lemma setting_spaceless env name d : plainSettings env ->
  name ∈ ["REDIS_TEST_ENDPOINT"; "PHP_LARAVEL_IMAGE"; "PYTHON_FASTAPI_IMAGE"; "RUBY_RAILS_IMAGE"; "SWIFT_VAPOR_IMAGE"]%string ->
  spaceless (js d) -> spaceless (setting env name d).
Proof. intros H Hn Hd. unfold setting. destruct (env (js name)) eqn:E; [by apply (H name)|done]. Qed.

Ltac spaceless_literal := apply (bool_decide_unpack _); vm_compute; reflexivity.

Lemma dockerEnvironment_spaceless env frontend own secret instance prefix : plainSettings env ->
  Forall (fun kv => spaceless (js kv.1) /\ spaceless kv.2) (own ++ secret) -> spaceless frontend -> spaceless (js instance) -> spaceless (js prefix) ->
  Forall (fun kv => spaceless (js kv.1) /\ spaceless kv.2) (dockerEnvironment env frontend own secret instance prefix).
Proof.
  intros He [Ho Hs]%Forall_app Hf Hi Hp. unfold dockerEnvironment. rewrite !Forall_app.
  assert (spaceless (js "redis://host.docker.internal:" ++ redisPortText env)) as Hr.
  { apply spaceless_app; [spaceless_literal|]. apply last_split_spaceless, setting_spaceless; [done|by left|spaceless_literal]. }
  split_and!; [|done| |done|]; repeat (apply Forall_cons_2; [split; [spaceless_literal|first [assumption|spaceless_literal]]|]); apply Forall_nil_2.
Qed.

Ltac docker_wired He :=
  eexists _, (js "15500"), (js "15501"), _, _; split_and!;
  [reflexivity|reflexivity|reflexivity|reflexivity|reflexivity|reflexivity|reflexivity|vm_compute; reflexivity| | | | |];
  rewrite ?docker_variable by (apply dockerWords_spaceless; [spaceless_literal
    |apply dockerEnvironment_spaceless; [exact He|repeat (apply Forall_cons_2; [split; spaceless_literal|]); apply Forall_nil_2|spaceless_literal..]
    |apply setting_spaceless; [exact He|repeat first [by left|right]|spaceless_literal]]);
  [vm_compute; reflexivity|vm_compute; reflexivity|right; vm_compute; reflexivity|vm_compute; eexists; reflexivity|vm_compute; reflexivity].

Lemma containers_wired env root : plainSettings env ->
  wired (phpLaravel env root) /\ wired (pythonFastapi env root) /\ wired (rubyRails env root) /\ wired (swiftVapor env root).
Proof. intros He. split_and!; docker_wired He. Qed.

Definition referenceSuites (env : jstr -> option jstr) (root : fspath) : list Suite :=
  [nodeExpress env root; kotlinKtor env root; javaSpringBoot env root; rustAxum env root; goGin env root; elixirPhoenix env root;
   phpLaravel env root; pythonFastapi env root; rubyRails env root; swiftVapor env root].

(** ** The Node.js application in its setup *)

(** The environment of the application: the one of the process, with the variables
    of the setup. *)
Definition nodeProcess (env : jstr -> option jstr) (root : fspath) (name : jstr) : option jstr :=
  match assoc name (props_of (object (nodeEnvironment env root))) with Some (Str v) => Some v | _ => env name end.

Lemma bind_step {E A B} (r : result E A) a (f : A -> result E B) res : r = Ok a -> f a = res -> r ≫= f = res.
Proof. by intros -> <-. Qed.

(** The setups of all reference applications are wired, and the Node.js application
    accepts its own: whatever else is in the environment, [loadConfig] returns a
    configuration with the origin the browser uses, the address the gateway is
    awaited at and the Redis prefix the gateway has.  The URL parser reads the two
    origins as origins, and the Redis address as one. *)
Theorem suites_wired env root isIP newURL cwd repository front gate redis :
  plainSettings env ->
  parseOrigin isIP newURL (js "http://127.0.0.1:15100") (js "PUBLIC_ORIGIN") = Ok front -> u_origin front = js "http://127.0.0.1:15100" ->
  parseOrigin isIP newURL (js "http://127.0.0.1:15101") (js "GATEWAY_URL") = Ok gate -> u_origin gate = js "http://127.0.0.1:15101" ->
  (exists url, nodeProcess env root (js "REDIS_URL") = Some url /\ trim url <> [] /\ parseRedisUrl newURL (trim url) = Ok redis) ->
  Forall wired (referenceSuites env root) /\
  exists c, loadConfig isIP newURL cwd repository (nodeProcess env root) = Ok c
    /\ exportedAs "REFERENCE_BASE_URL" (nodeExpress env root) = Some (publicOrigin c)
    /\ exportedAs "REFERENCE_GATEWAY_URL" (nodeExpress env root) = Some (gatewayUrl c)
    /\ exists g a, get (js "webServer") (configuration (nodeExpress env root)) = Arr [g; a]
    /\ variable "Redis__InstancePrefix" g = Some (redisInstancePrefix c) /\ port c = int 15100.
Proof.
  intros He Hf Hfo Hg Hgo (url & Hu & Hne & Hr) . split.
  - destruct (native_wired env root) as (H1 & H2 & H3 & H4 & H5). destruct (containers_wired env root He) as (H6 & H7 & H8 & H9).
    repeat (apply Forall_cons_2; [first [apply nodeExpress_wired|assumption]|]). apply Forall_nil_2.
  - eexists. split; [|split; [|split]].
    + unfold loadConfig. cbv zeta. eapply bind_step; [vm_compute; reflexivity|]. eapply bind_step; [exact Hf|].
      eapply bind_step; [vm_compute; reflexivity|]. eapply bind_step; [exact Hg|].
      eapply bind_step; [unfold required; rewrite Hu; cbn [default]; unfold nonempty; by rewrite bool_decide_eq_false_2|]. eapply bind_step; [exact Hr|].
      do 21 (eapply bind_step; [vm_compute; reflexivity|]). reflexivity.
    + cbn [publicOrigin]. by rewrite Hfo.
    + cbn [gatewayUrl]. by rewrite Hgo.
    + eexists _, _. split; [reflexivity|]. split; [vm_compute; reflexivity|]. vm_compute. reflexivity.
Qed.

Definition sampleOriginUrl (scheme host text_ : string) : ParsedUrl :=
  {| u_protocol := js scheme; u_username := []; u_password := []; u_hostname := js host; u_pathname := js "/"; u_search := []; u_hash := [];
     u_origin := js text_; u_href := js text_ |}.

Definition sampleParser (s : jstr) : option ParsedUrl :=
  if bool_decide (s = js "http://127.0.0.1:15100") then Some (sampleOriginUrl "http:" "127.0.0.1" "http://127.0.0.1:15100")
  else if bool_decide (s = js "http://127.0.0.1:15101") then Some (sampleOriginUrl "http:" "127.0.0.1" "http://127.0.0.1:15101")
  else if bool_decide (s = js "redis://127.0.0.1:6379") then Some (sampleOriginUrl "redis:" "127.0.0.1" "redis://127.0.0.1:6379")
  else None.

Lemma suites_wired_witness :
  Forall wired (referenceSuites (fun _ => None) [js "repo"]) /\
  exists c, loadConfig (fun _ => 4) sampleParser [js "repo"] [js "repo"] (nodeProcess (fun _ => None) [js "repo"]) = Ok c.
Proof.
  destruct (suites_wired (fun _ => None) [js "repo"] (fun _ => 4) sampleParser [js "repo"] [js "repo"]
    (sampleOriginUrl "http:" "127.0.0.1" "http://127.0.0.1:15100") (sampleOriginUrl "http:" "127.0.0.1" "http://127.0.0.1:15101")
    (sampleOriginUrl "redis:" "127.0.0.1" "redis://127.0.0.1:6379")) as (Hw & c & Hc & _).
  - intros name v _ H. discriminate H.
  - vm_compute. reflexivity.
  - reflexivity.
  - vm_compute. reflexivity.
  - reflexivity.
  - eexists. split; [vm_compute; reflexivity|]. split; [vm_compute; discriminate|vm_compute; reflexivity].
  - split; [exact Hw|]. exists c. exact Hc.
Defined.

(** ** The full-circle setup *)

Lemma traverse_Forall2 {A B} (f : A -> result jsError B) l ys : traverse f l = Ok ys <-> Forall2 (fun x y => f x = Ok y) l ys.
Proof.
  revert ys. induction l as [|x l IH]; intros ys; cbn [traverse].
  - split; [intros [= <-]; constructor|]. by intros ->%Forall2_nil_inv_l.
  - rewrite bind_Ok. split.
    + intros (y & Hy & (ys' & Hys & [= <-])%bind_Ok). constructor; [done|]. by apply IH.
    + intros H. apply Forall2_cons_inv_l in H as (y & ys' & Hy & Hys & ->). exists y. split; [done|]. apply bind_Ok. exists ys'. split; [by apply IH|done].
Qed.

(** An instance listens where it is awaited, and allows the origin of the browser
    for the application and for its diagnostics. *)
Definition instanceWired (entry : jstr) (server : value) (origin : jstr) : Prop :=
  get (js "url") server = Str (origin ++ js "/health") /\ variable "ASPNETCORE_URLS" server = Some origin
  /\ variable "Realtime__AllowedOrigins__0" server = Some entry /\ variable "Diagnostics__AllowedOrigins__0" server = Some entry.

Lemma assoc_forwarded env k l : k ∉ js <$> ["Redis__User"; "Redis__Password"; "Redis__Ssl"; "Redis__SentinelServiceName"; "Redis__SentinelPassword"]%string ->
  assoc k (forwarded env ++ l) = assoc k l.
Proof.
  unfold forwarded. induction (js <$> _) as [|name names IH]; intros Hk; [done|]. apply not_elem_of_cons in Hk as [Hn Hk].
  cbn [mbind list_bind]. destruct (env name) as [v|]; cbn [app]; [|by apply IH]. cbn [assoc]. rewrite decide_False by congruence. by apply IH.
Qed.

Lemma instanceServer_wired env root plan profile token entry readiness instance server :
  instanceServer env root plan profile token entry readiness instance = Ok server ->
  exists origin, instanceOrigin instance = Ok origin /\ instanceWired entry server origin.
Proof.
  intros (origin & Ho & (prefix & _ & [= <-])%bind_Ok)%bind_Ok. exists origin. split; [done|].
  assert (forall name v, js name ∉ js <$> ["Redis__User"; "Redis__Password"; "Redis__Ssl"; "Redis__SentinelServiceName"; "Redis__SentinelPassword"]%string ->
    forall l, variable name (object [("command", text "dotnet Realtime.Example.FullCircle.dll"); ("cwd", below root "artifacts/full-circle/consumer-bin/Release/net10.0");
      ("url", Str (origin ++ js "/health")); ("timeout", readiness); ("reuseExistingServer", Boolean false); ("env", Obj (forwarded env ++ l))]) = Some v
      <-> assoc (js name) l = Some (Str v)) as Hv.
  { intros name v Hn l. unfold variable. change (get (js "env") (object _)) with (Obj (forwarded env ++ l)). cbv iota.
    rewrite assoc_forwarded by done. destruct (assoc (js name) l) as [[]|]; split; congruence. }
  split; [reflexivity|]. split_and!; apply Hv; try (apply (bool_decide_unpack _); vm_compute; reflexivity); vm_compute; reflexivity.
Qed.

(** Whatever plan the full-circle setup accepts: every instance is awaited where it
    listens and allows the origin the browser uses; in the highly available profile
    one more server, the balancer, listens on that origin and forwards to exactly
    the instances, in their order; otherwise there is none. *)
Theorem fullCircle_wired env root plan c :
  fullCircleSuite env root plan = Ok c ->
  exists profile port servers origins extra,
    env (js "FULL_CIRCLE_PROFILE") = Some profile /\ get (js "baseURL") (get (js "use") c) = Str (local port)
    /\ get (js "webServer") c = Arr (servers ++ extra) /\ Forall2 (instanceWired (local port)) servers origins
    /\ (profile = js "ha" -> exists b, extra = [b] /\ get (js "url") b = Str (local port ++ js "/health")
          /\ variable "REALTIME_BROWSER_PROXY_PORT" b = Some port /\ variable "REALTIME_BROWSER_BACKENDS" b = Some (join (js ",") origins))
    /\ (profile <> js "ha" -> profile = js "non-ha" /\ extra = []).
Proof.
  unfold fullCircleSuite. intros (profile & Hp & H)%bind_Ok.
  assert (env (js "FULL_CIRCLE_PROFILE") = Some profile /\ (profile = js "ha" \/ profile = js "non-ha")) as [Ep Hprof].
  { destruct (env _) as [p|]; [|done]. destruct (memb p _) eqn:Em; [|done]. injection Hp as <-. split; [done|]. apply memb_spec in Em.
    apply elem_of_cons in Em as [->|Em]; [by left|]. apply elem_of_cons in Em as [->|Em]; [by right|]. by apply elem_of_nil in Em. }
  clear Hp. apply bind_Ok in H as (token & _ & H). apply bind_Ok in H as (profiles & _ & H). cbv zeta in H.
  destruct (negb _ || _); [done|]. apply bind_Ok in H as (instances & _ & H). apply bind_Ok in H as (seconds & _ & H).
  apply bind_Ok in H as (items & _ & H). apply bind_Ok in H as (servers & Hs & H). apply bind_Ok in H as (origins & Ho & H). injection H as <-.
  apply traverse_Forall2 in Hs, Ho. set (port := interpolate (get (js "entryPort") (optget profile profiles))) in *.
  exists profile, port, servers, origins. eexists. split_and!; [done|reflexivity|reflexivity| | |].
  - revert origins Ho. induction Hs as [|x y xs ys Hx _ IH]; intros origins Ho; [apply Forall2_nil_inv_l in Ho as ->; constructor|].
    apply Forall2_cons_inv_l in Ho as (o & os & Hxo & Ho & ->). destruct (instanceServer_wired _ _ _ _ _ _ _ _ _ Hx) as (o' & Ho' & Hw).
    rewrite Hxo in Ho'. injection Ho' as <-. constructor; [done|by apply IH].
  - intros ->. eexists. split; [reflexivity|]. split_and!; reflexivity.
  - intros Hn. destruct Hprof as [->| ->]; [done|]. done.
Qed.

(** The plan of the repository. *)
Definition repositoryPlan : value :=
  object [("schemaVersion", whole 1);
    ("profiles", object
       [("non-ha", object [("instances", Arr [object [("name", text "app-a"); ("port", whole 15080)]]); ("entryPort", whole 15080);
                           ("guarantee", text "Single-process developer validation; no instance failover guarantee.")]);
        ("ha", object [("instances", Arr [object [("name", text "app-a"); ("port", whole 15081)]; object [("name", text "app-b"); ("port", whole 15082)]]);
                       ("entryPort", whole 15083); ("guarantee", text "Redis fan-out and reconnect across two application instances.")])]);
    ("redis", object [("endpointEnvironment", text "REDIS_TEST_ENDPOINT"); ("defaultEndpoint", text "127.0.0.1:16379");
                      ("composeFile", text "examples/full-circle/compose.yaml"); ("instancePrefix", text "realtime:full-circle-tests")]);
    ("timeouts", object [("commandSeconds", whole 300); ("readinessSeconds", whole 60); ("cleanupSeconds", whole 20)])].

Definition sampleRunner (profile : string) (name : jstr) : option jstr :=
  if bool_decide (name = js "FULL_CIRCLE_PROFILE") then Some (js profile)
  else if bool_decide (name = js "FULL_CIRCLE_DIAGNOSTICS_TOKEN") then Some (js "secret")
  else if bool_decide (name = js "REDIS_TEST_ENDPOINT") then Some (js "127.0.0.1:16379") else None.

Lemma fullCircle_wired_witness :
  exists c, fullCircleSuite (sampleRunner "ha") [js "repo"] repositoryPlan = Ok c /\
    exists port servers origins extra, get (js "webServer") c = Arr (servers ++ extra) /\ Forall2 (instanceWired (local port)) servers origins.
Proof.
  destruct (fullCircleSuite (sampleRunner "ha") [js "repo"] repositoryPlan) as [c|e] eqn:E; [|exfalso; revert E; vm_compute; discriminate].
  exists c. split; [reflexivity|]. destruct (fullCircle_wired _ _ _ _ E) as (profile & port & servers & origins & extra & _ & _ & Hs & Hw & _).
  exists port, servers, origins, extra. split; [exact Hs|exact Hw].
Defined.

(** Without a balancer the browser needs an instance on the entry port: the plan of
    the repository has one. *)
Example entry_served :
  match fullCircleSuite (sampleRunner "non-ha") [js "repo"] repositoryPlan with
  | Ok c => match get (js "webServer") c with Arr [s] => variable "ASPNETCORE_URLS" s = Some (str_of (get (js "baseURL") (get (js "use") c))) | _ => False end
  | Throw _ => False
  end.
Proof. vm_compute. reflexivity. Qed.
